(* ===== verification/_CoqProject ===== *)
-Q . S2P
Prelude.v
GoLib.v
Codec.v
Errors.v
Types.v
External.v
Instances.v
Capr.v
PlanEntry.v
World.v
Store.v
InitNode.v
Drain.v
Args.v
Probe.v
S3Args.v
Instructions.v
Config.v
DesiredPlan.v
Disclosure.v
Changes.v
Reconcile.v
Cluster.v
CertRotation.v
EncryptionKeyRotation.v
EtcdCreate.v
EtcdRestore.v
Process.v
Handlers.v
MachineDrain.v
DrainProtocol.v
SnapshotList.v
PlanSecret.v
Installer.v
Taints.v
ServiceAccountToken.v
EtcdRemoval.v
Bootstrap.v
ConfigServer.v
Unmanaged.v
ControlPlane.v
RkeCluster.v
ProvisionTemplate.v
ProvisionArgs.v
MachineProvision.v
NodeLookup.v
ProvisionLifecycle.v
ProvTypes.v
ProvTemplate.v
ProvObjects.v
ProvController.v
ProvRestore.v
SystemAgent.v
Encodings.v
Hashers.v
Tokens.v
Authenticate.v
TokenSafety.v
RequestSafety.v
KubeConfig.v
MgmtCluster.v
ClusterRemoval.v
Quota.v
QuotaSync.v
QuotaSafety.v
QuotaRollout.v
QuotaStore.v
Rbac.v
RoleTemplates.v
RbacStore.v
Impersonation.v
RoleBindings.v
BindingSafety.v
ProjectAccess.v
PromotedRoles.v
NamespaceRoles.v
NamespaceAccess.v
GlobalAdmins.v
MgmtAccess.v
MgmtSafety.v
