(* ===== verification/Prelude.v ===== *)
(** * Provisioning, authentication, access control and quotas of Rancher

    This library models and verifies parts of Rancher.  The centre is the planner of its v2 provisioning:
    [src/pkg/capr/planner] with the helpers of [src/pkg/capr/common.go], the handler of
    [src/pkg/controllers/capr/planner/controller.go] that calls it, the controllers of
    [src/pkg/controllers/capr] that carry out what it asks for, the server from which machines fetch their
    plans ([src/pkg/capr/configserver]), the controllers of [src/pkg/controllers/provisioningv2] that derive all these
    objects from the cluster a user writes, and the types of [src/pkg/apis/rke.cattle.io/v1] and
    [src/pkg/apis/provisioning.cattle.io/v1].  Around it are the tokens by which users and clusters are recognised and
    the authentication of requests ([src/pkg/auth]), the roles that users have in downstream clusters
    ([src/pkg/controllers/managementuser/rbac], [src/pkg/rbac/common.go], [src/pkg/impersonation]), and the resource
    quotas of projects ([src/pkg/resourcequota], [src/pkg/controllers/managementuser/resourcequota] and the API stores
    that check them).

    ** The program

    A downstream k3s or rke2 cluster is described by an [RKEControlPlane].  Every machine of the cluster
    has a plan secret; Rancher writes the plan of the machine into it (files, one-time and periodic
    instructions, probes), the system-agent on the machine applies the plan and reports the applied plan,
    failures, outputs and probe results in the same secret.  The planner is called on every change of one
    of these objects.  One pass ([Process]) loads the plans of all machines, makes sure that the cluster has
    machines of every role, and then performs in a fixed order: creation of an etcd snapshot, restore of a
    snapshot, certificate rotation, encryption key rotation, and the full reconciliation, which delivers
    the desired plan of every machine in four tiers (the init node, etcd, control plane, workers), draining
    nodes and respecting the concurrency limits on the way.  A pass that has changed something, or that has
    to wait, ends with an error; the handler [OnChange] translates the error into conditions and decides
    whether the object is enqueued again.

    Around the planner, other controllers share the same secrets and machines.  The bootstrap controller
    generates the plan secret of a machine, the service account that may read it, and the install script;
    the script calls the config server, which recognises the machine by the hash of a token, or by a cluster
    registration token and the custom-machine controller, and answers with the plan secret and its token.
    The plan-secret controller turns the reports of the agent into the applied plan, machine conditions and
    snapshot objects.  The machine-drain controller answers the drain and uncordon requests of the planner,
    through annotations of the plan secret.  When a machine goes, the bootstrap controller holds it until its
    etcd member has left; when a cluster goes, the control plane waits for its machines.

    Where the objects come from: a user writes a provisioning cluster with machine pools.  Its controller derives the
    control plane, the cluster of Cluster API and a machine deployment per pool.  Cluster API creates the machines;
    the machine-provisioning controller runs a job with rancher-machine for each, and another job when it goes; the
    node look-up copies the provider id of the registered node to the machine, with which it counts as ready.  Fleet
    delivers the upgrade plans of the system agent and the chart of the controller that executes them.  Beside the
    provisioning cluster there is a management cluster, with which the rest of Rancher works: two generators derive one
    from the other, and two removal handlers take both away.  The kubeconfig manager keeps a user, a token and a
    kubeconfig secret for each cluster.

    Who may do this: a user presents a token, whose name leads to an object with the key or a salted hash of it.  The
    authenticators turn a request into a user, through tokens, token reviews, service accounts of downstream clusters or
    impersonation; the filter in front of the proxies replaces the headers of the request by those of the user.

    Who may do what in a downstream cluster: a role template is a set of rules that may inherit others.  A binding of a
    template in a cluster or in a project becomes cluster roles and bindings of Kubernetes there, in the namespaces of the
    project where it is one of a project.  Resources outside of namespaces are granted by promoted roles, the namespaces
    of a project are listed by two cluster roles of the project, and global administrators are bound in every cluster.
    Rancher acts there as a service account per user, which may impersonate exactly that user.
    In Rancher itself the same binding makes its subject a member of the cluster or project, through bindings that several
    may share, and opens the objects in the namespace of the cluster or project as far as the templates say so.

    What a project may use: a project has a limit for all its namespaces and a default for each, a namespace asks for a
    share in an annotation.  The API stores refuse what does not fit; the controllers of a downstream cluster
    create a quota of Kubernetes for a share that fits, a quota of zero for one that does not, and record in the project
    what its namespaces use together.

    ** Files and sources

    - [Prelude], [GoLib], [Codec]: shared lemmas, tactics and hint databases; Go's [strings], [strconv],
      [path], 64-bit integers and floats; base64, CRC-32 and SHA-256, tested on published vectors.
    - [Errors]: [errors.go]; results, and the state-and-error monad the methods are written in, with its
      rules for assertions about runs ([runs]).
    - [Types]: the API types.  [External]: code outside the repository as parameters, the [Planner] struct
      (read-only caches and injected functions), and the laws relied on as classes.  [Instances]: concrete
      functions that satisfy the laws, used by the witnesses only.
    - [Capr]: [common.go].  [PlanEntry]: [planentry.go].  [World]: the API server as the planner sees it.
    - [Store]: [store.go].  [InitNode]: [initnode.go].  [Drain]: [drain.go].
    - [Args]: arguments, pruning and taints of [planner.go], [filter.go].  [Probe]: [probe.go].
      [S3Args]: [s3args.go].  [Instructions]: [instructions.go], [idempotent.go].
    - [Config], [DesiredPlan]: [registry.go], [defaultplan.go], [config.go], [manifests.go], [agent.go] and the desired
      plan of [planner.go].
      [Disclosure]: theorems on which secrets reach which machine.
    - [Changes], [Reconcile]: [messages.go], [reconcile] of [planner.go] and what it decides with; theorems on one pass
      over a tier.
    - [Cluster]: full reconciliation, cluster tokens, pausing, gates ([planner.go]), forced deletion of
      etcd machines ([etcdrestore.go]).
    - [CertRotation]: [certificaterotation.go].  [EncryptionKeyRotation]: [encryptionkeyrotation.go].
      [EtcdCreate]: [etcdcreate.go].  [EtcdRestore]: [etcdrestore.go].
    - [Process]: [Process] of [planner.go], and [controller.go].
    - [Handlers]: caches, downstream nodes and optimistic concurrency, shared by the controllers below.
    - [MachineDrain]: [machinedrain.go].  [DrainProtocol]: abstract protocol of drains, its refinement by
      planner and controller together, and progress.
    - [SnapshotList], [PlanSecret]: [plansecret.go]; then planner, agent and controller together.
    - [Installer]: [installer.go], [installer/server.go], [Setting.Get].  [Taints]: [taints/utils.go].
      [ServiceAccountToken]: [serviceaccounttoken/secret.go].
    - [EtcdRemoval]: the pre-terminate hook of [bootstrap/controller.go], [etcdmgmt/saferemoval.go].
      [Bootstrap]: the generated objects of [bootstrap/controller.go].
    - [ConfigServer]: [configserver/server.go], [custom.go], [managed.go].
      [Unmanaged]: [unmanaged/controller.go].
    - [ControlPlane]: [rkecontrolplane/controlplane.go].  [RkeCluster]: [rkecluster/controller.go].
    - [ProvisionTemplate], [ProvisionArgs], [MachineProvision]: [machineprovision/template.go], [args.go],
      [controller.go], with theorems on host names.  [NodeLookup]: [machinenodelookup/controller.go].
      [ProvisionLifecycle]: both controllers together.
    - [ProvTypes]: the types of provisioning clusters.  [ProvTemplate], [ProvController]:
      [provisioningcluster/template.go], [controller.go].  [ProvObjects], [ProvRestore]: theorems about them.
    - [SystemAgent]: [managesystemagent.go], [managesystemagentplan.go], [managedchart.go], [image/resolve.go].
    - [Encodings]: durations; base64 without padding, base32, hexadecimal texts, the scanner of [fmt].
      [Hashers]: [auth/tokens/hashers].  [Tokens]: [auth/tokens] ([token_util.go], [manager.go], [purge_daemon.go], the
      action handlers).  [Authenticate]: [auth/requests].  [TokenSafety], [RequestSafety]: theorems about them.
    - [KubeConfig]: [provisioningv2/kubeconfig/manager.go], with the theorems about it.
    - [MgmtCluster]: [provisioningv2/cluster] ([controller.go], [remove.go], [import.go]) and the theorems on its
      generators; [ClusterRemoval]: theorems on the removal.
    - [Quota]: [resource_quota_types.go], [quota_validate.go], [resource_quota_common.go], [namespace_utils.go].
      [QuotaSync]: the controllers of [managementuser/resourcequota].  [QuotaStore]: [store/namespace/store.go],
      [customization/project/project_store.go].  [QuotaSafety], [QuotaRollout]: theorems about them, and the concrete
      quantities that are used by the witnesses only.
    - [Rbac]: [rbac/common.go], [authz_types.go].  [RoleTemplates]: templates and cluster owners of [handler_base.go],
      with the theorems about them.  [RbacStore]: objects, caches and the order of maps of the files below.
      [Impersonation]: [impersonation.go], [impersonation_handler.go].  [RoleBindings]: roles and bindings of
      [handler_base.go], [crtb_handler.go], [clusterrole_handler.go]; [BindingSafety]: theorems about them.
      [ProjectAccess]: [prtb_handler.go], [reconcile_roletemplate.go], [roletemplate_handler.go]; [PromotedRoles]: theorems.
      [NamespaceRoles]: [namespace_handler.go], [project_handler.go], [legacy_prtb_cleaner.go]; [NamespaceAccess]:
      theorems.  [GlobalAdmins]: [cluster_handler.go], [globalrolebinding_handler.go].
    - [MgmtAccess]: [manager.go], [crtb_handler.go], [prtb_handler.go] and [indexes.go] of [controllers/management/auth];
      [MgmtSafety]: theorems about them.

    Definitions carry the names of the Go functions they translate.  Names in lower case with underscores
    are parts of such functions (one turn of a loop, one branch of a switch) that Go does not name.

    ** Conventions of the model

    - A method that talks to the API server is a program of type [M]: it reads and changes a [World], and
      ends with a value, with a Go error, or with a run-time panic ([Ret], [Fail], [Panic]).  Changes made
      before an error stay made.  A method that also threads the status of the control plane is of type
      [SM]; the status reached is kept on an error, as in Go, where it is returned beside the error.
    - The [World] holds the cluster plan being worked on (the Go code shares one pointer to it), the objects
      of the API server the planner writes, a schedule of failures that decides which requests fail and
      how, the clock, and the random tokens.  A theorem about all worlds therefore covers every pattern of
      failing requests.  Caches do not change during a pass.
    - The metadata of a plan entry is shared between the entry and the plan, so it is read from and
      written to the [World]; a read through a nil pointer panics.  The node of an entry is local to it.
    - Maps are [gmap]s.  Where Go iterates over a map the order is unspecified: the loops take the order as
      an argument ([collect_from], [renderRegistries_from]) and are shown independent of it, or the
      result is sorted.
    - [Semantic.DeepEqual] is decidable equality; of a struct and a pointer to one it is [false].
      Integers are [Z] where the code's values cannot leave 64 bits; [Atoi] rejects what does not
      fit.  Percentages are computed in IEEE binary64 ([GoLib.f64_mul]), not in the rationals.
    - In [restoreEtcdSnapshot] two assignments declare a new [status] that shadows the outer one; the
      outer status keeps its fields, while the shared slice of conditions is updated
      ([shadowed_fullReconcile], [alias_conditions]).
    - The text of scripts and messages is modelled in full, since plans are compared by content; text is
      ASCII.
    - A controller that also reaches nodes of the downstream cluster is of type [CM], over a [CWorld]: the
      [World] and the annotations of the nodes with the calls of kubectl's drain package.  The secrets of
      optimistic updates ([vsecret]) carry the object they were read as in place of a resource version.
    - A watch is the list of its events.  Where other processes act while a function waits (the creation of a
      token), their effect is a parameter [env] on the world.  Settings are read through a parameter.
    - The controllers of machines work over a [PWorld]: what was applied through wrangler, in order, and the stored
      infrastructure machines.  Applying a set of objects replaces the set applied before for the same owner; this is
      what the log of applications records.  The status a handler returns is stored by wrangler only when the handler
      does not fail.  The controller of provisioning clusters works over a [PSWorld].  One step is one call of a
      handler on the object as it is stored.
    - Where Go compares pointers (the networking of a specification), the model does: two different objects are
      different whatever they hold.
    - Authentication works over an [AWorld]: users, tokens, attributes and secrets, the salts still to be drawn, and the
      time.  Whether a token has expired is computed as in Go, in binary64 seconds; products of durations wrap around
      ([Encodings]).  Kubeconfigs work over a world with both parts.  Loops over maps take the order of the keys as an
      argument, or range over any order.
    - The generators of clusters work over a [GWorld] of both kinds of objects.  The controllers of quotas work over a
      [QWorld], whose objects carry resource versions, so that an update with a stale object fails with a conflict.
      Their caches are values of a class; [synced] and [quota_synced] say that a cache holds what is stored; the
      theorems on progress and the one on when a cluster goes assume it.  Quantities and JSON are parameters with laws ([QuotaLib], [QuotaLaws]).
    - The controllers of access work over an [RWorld] with the stored roles, bindings, accounts and namespaces; one
      record per kind of object ([kind]) carries its key and resource version, and the requests are written once for
      all kinds.  The cache of cluster roles is part of the state, because the code changes objects of this cache; the
      other caches are values of a class.  The order of every loop over a map is an argument ([MapOrder]) about which only
      its being a permutation is known.  [bindings_synced] and [resync] say that a cache holds what is stored;
      [honest_faults] that failing requests do not pretend that an object exists or does not.
    - In [DrainProtocol] a step is one run of a component on the secret as the API server holds it at that
      time, or a change by others that leaves the annotations of the protocol alone; runs do not overlap, and
      a run reads the object its cache has caught up with.  What is shown about the release of etcd machines
      assumes that only an object that does not exist is answered with "not found" ([honest]).

    ** What is proved

    - Delivery of plans ([Store], [Capr], [PlanEntry]): a delivered plan is read back as it was delivered
      and nothing else changes; when a plan counts as done or failed; loaded plans are well-formed.
    - Reconciliation ([Reconcile], [Changes]): in every pass, whatever fails, at most as
      many machines are disturbed as the concurrency limit allows; a tier that reports success is at rest.
    - Init node ([InitNode]): at most one machine is marked, whatever happens; when an election succeeds.
    - Content of plans ([DesiredPlan], [Disclosure], [Probe], [S3Args], [Drain]): when a new plan needs a
      drain; files come from authorised objects only; workers never get the server token; probes check
      what the components were configured with.
    - Long-running operations ([CertRotation], [EncryptionKeyRotation], [EtcdCreate], [EtcdRestore]):
      phases move along the prescribed transitions only ([key_step], [create_step], [restore_pass]), each
      step ends the pass, and completion is recorded only when the work is done.
    - The pass ([Cluster], [Process]): what a successful pass means; a cluster that lacks a role is left
      alone; tokens are generated once; how errors become conditions; which objects trigger a pass.

    - Drains ([MachineDrain], [DrainProtocol]): runs of planner and controller, interleaved in any order
      and with any failures, refine a protocol in which a node is cordoned and emptied before its drain is
      reported; a drain and an uncordon that are asked for are completed.
    - Reports ([PlanSecret], [SnapshotList]): a plan is recorded as applied only on the
      checksum of the agent; a delivered plan that the agent applies is seen as applied by the planner; the
      table of snapshots is read back.
    - Removal ([EtcdRemoval], [ControlPlane]): the hook of an etcd machine is released only for the listed
      reasons, and is released in the end; the control plane object goes after its machines.
    - Registration ([Bootstrap], [ConfigServer], [Unmanaged]): what the generated accounts may do, to whom
      the config server answers, and that a machine with the generated script, or with a registration
      token, gets to its own plan secret.
    - Machines ([MachineProvision], [ProvisionLifecycle], [ProvisionArgs]): a delete job never replaces a create job that
      runs, and the objects of a machine are dropped only after a delete job is done or the listed exceptions; a
      machine whose job completes and whose node registers becomes ready; host names are labels within the limit.
    - Clusters ([ProvObjects], [ProvRestore]): the derived objects refer to one another and to nothing missing; the
      roles and host name limits of a pool reach the planner and the machines; the configuration of a snapshot reaches
      the control plane, except with networking; the schemas are filled in once.
    - The upgrade gate ([SystemAgent]): the planner does not go on to a release without pod security policies before
      the chart is rolled out without them, and does go on then.
    - Management clusters ([MgmtCluster], [ClusterRemoval]): neither kind of cluster is generated from one that was
      generated itself; a cluster goes after everything that belongs to it, and the two removal handlers, called in
      any fair order, come to an end.
    - Authentication ([Hashers], [TokenSafety], [RequestSafety]): a request is taken for a user only with a valid token of
      that user; a token given out by a login is accepted; a user reaches no token of another one through the API; a
      derived token does not outlive its limits; impersonation needs the permission of the cluster, and what is
      forwarded carries the headers of the user and no others.  Kubeconfigs ([KubeConfig]) are kept once made.
    - Quotas ([QuotaSafety], [QuotaRollout], [QuotaStore]): a share is granted only if it fits with those of the other
      namespaces, and the test is exact; the used limit of a project is the sum of the shares that were validated; a new
      namespace has its quota after two runs; what the API admits fits.
    - Access ([RoleTemplates], [BindingSafety], [PromotedRoles], [NamespaceAccess], [Impersonation], [MgmtSafety]): the
      gathered roles are the templates reached by inheritance, and both searches over templates end, circular ones
      included where the code sees to it; a binding of a template leads to exactly the bindings of its roles and
      subject, unless an object of another content is stored under the name of one, and to no other grant however the run
      ends; a promoted role allows what the template does, in its groups and on its objects; a namespace
      is listed by the two roles of its project after two runs; the role of a service account allows to be its user and
      nobody else; in the namespace of a cluster a binding of templates owns bindings for those templates that say something of
      its objects and for no others, where what is stored under their names is left alone; the removal of a binding of
      templates takes what it gave and nothing that others give.
    - [Taints], [RkeCluster]: a difference of taints leads to the desired ones; the loop of the
      infrastructure object ends after two successful writes.

    Lemmas at the end of the files state the behaviours behind defects of the code, for instance
    [drain_old_report], [removal_without_join_url], [getMachinePlanSecret_swapped], [negative_share_makes_room],
    [shared_binding_removed], [first_call_leaves_old_editors], [withdrawn_verb_stays].

    Recursion is structural throughout.  The counters are [split_fuel] of [strings.Split], started with
    the length of the text, which every step shortens ([Join_Split] and [Split_no_sep] show that it is enough), and the
    number of attempts of [RetryOnConflict], a parameter ([RetryOnConflict_Steps]), and of [ExponentialBackoff], as
    many as the steps the source configures; running out of attempts is an error there as here.  The depth of
    [gatherRoles] is limited by the source itself (500).  [gatherRules], [isClusterOwner] and
    [gatherRoleTemplates] have no limit there: here they may nest as deep as there are templates and one more, and running
    out is a panic, which [RulesFromTemplate_complete] and [owner_search_ends] exclude for the first two; the third has an
    example of circular templates where it happens ([owner_cycle_not_refused]).

    ** What is not modelled

    Logging; the lock per control plane (passes over one control plane do not interleave, so a pass is
    one run); the registration of handlers and the construction of the planner; the mutation of cached
    chart values by [data.PutValue], which is idempotent.  JSON, YAML, gzip, URL and IP parsing, semver,
    wrangler's conditions and summaries, label selectors, the cluster-agent template
    ([systemtemplate.ForCluster]), the release metadata ([channelserver]) and the extraction of driver
    configurations ([nodeconfig.ExtractConfigJSON]) are parameters.  [ParseFloat] is modelled for decimal
    texts without exponent.  kubectl's drain fails or is done.  Timers: a delay is recorded, not waited for.
    Of the controllers of [src/pkg/controllers/capr], dynamic schemas are left out: they copy the schemas of node
    drivers into custom resource definitions.  Of [src/pkg/controllers/provisioningv2], the objects of fleet, logs and the
    permissions of cloud credentials are left out.  Of authentication, the identity providers are left out: they talk to
    external services, and the attributes they return are a parameter; so is the purge of the tokens of SAML, which is
    I/O.  The locks of the kubeconfig manager and of the project store are left out: a call is one run.  Digests
    (SHA-3, scrypt) are parameters of the hashers.  Of access control, what Kubernetes evaluates ([RulesAllow]) is a
    parameter, the goroutine that writes a status annotation of namespaces is left out, and so are pod security policies
    and the handlers of [src/pkg/controllers/management/auth] other than those of bindings: global roles, users, tokens, the
    objects created with clusters and projects.  [EnsureUser] of the user manager is a parameter.  Of the rest of Rancher the catalogs, the cloud and machine drivers, the tunnels and
    the API layer other than the stores above are not modelled: they are calls of libraries and services outside the
    repository, or generated code. *)

From stdpp Require Export base tactics list gmap strings sorting.
From Stdlib Require Export ZArith Lia.

#[export] Set Warnings "-clear-no-such-hyp".

#[global] Open Scope Z_scope.
#[global] Arguments String.append !_ _ / : simpl nomatch.

(** ** Hint databases of the development

    [planner] holds the resolution lemmas about operations (frame and
    invariant lemmas), [go_str] the equations of the string library. *)
Create HintDb planner.
Create Rewrite HintDb go_str.

(** ** Tactics *)

(** Case analysis on the scrutinee of the first [match] found in the goal or in a
    hypothesis, keeping the equation. *)
Ltac case_on_match :=
  match goal with
  | |- context [match ?x with _ => _ end] => destruct x eqn:?
  | H : context [match ?x with _ => _ end] |- _ => destruct x eqn:?
  end.

(** ** Lists *)

Section sorting_by_key.
Context {A : Type} (key : A -> string).

(** The order a Go comparison [key a < key b] induces, as the preorder [merge_sort] uses. *)
Definition key_le (a b : A) : Prop := String.le (key a) (key b).

#[global] Instance key_le_dec : RelDecision key_le.
Proof. intros a b. unfold key_le. apply _. Defined.

#[global] Instance key_le_total : Total key_le.
Proof. intros a b. unfold key_le. apply (total String.le). Qed.

#[global] Instance key_le_trans : Transitive key_le.
Proof. intros a b c. unfold key_le. apply transitivity. Qed.

Definition sort_by : list A -> list A := merge_sort key_le.

Lemma sort_by_perm l : sort_by l ≡ₚ l.
Proof. apply merge_sort_Permutation. Qed.

Lemma sort_by_sorted l : StronglySorted key_le (sort_by l).
Proof. apply Sorted_StronglySorted; [apply _|]. apply Sorted_merge_sort. apply _. Qed.

Lemma elem_of_sort_by x l : x ∈ sort_by l <-> x ∈ l.
Proof. by rewrite sort_by_perm. Qed.

(** With pairwise different keys the sorted list does not depend on the order of the input. *)
Lemma sort_by_unique l1 l2 :
  (forall x y, x ∈ l1 -> y ∈ l1 -> key x = key y -> x = y) ->
  l1 ≡ₚ l2 -> sort_by l1 = sort_by l2.
Proof.
  intros Hinj Hp. apply (StronglySorted_unique_strong key_le); try apply sort_by_sorted.
  - intros x y Hx Hy H1 H2. rewrite elem_of_sort_by in Hx. rewrite elem_of_sort_by, <- Hp in Hy.
    apply Hinj; auto. by apply (anti_symm String.le).
  - by rewrite !sort_by_perm.
Qed.
End sorting_by_key.

(** Sorting of strings ([sort.Strings]). *)
Definition sort_Strings : list string -> list string := sort_by id.

(** [find] returning the first element that satisfies a boolean test. *)
Lemma list_find_first {A} (f : A -> bool) l x :
  List.find f l = Some x -> x ∈ l /\ f x = true.
Proof. intros H. apply List.find_some in H as [H1 H2]. by rewrite list_elem_of_In. Qed.

(** Number of elements satisfying a boolean test. *)
Definition count {A} (f : A -> bool) (l : list A) : nat := length (List.filter f l).

Lemma count_cons {A} (f : A -> bool) x l :
  count f (x :: l) = ((if f x then 1 else 0) + count f l)%nat.
Proof. unfold count. simpl. by destruct (f x). Qed.

Lemma count_perm {A} (f : A -> bool) l1 l2 : l1 ≡ₚ l2 -> count f l1 = count f l2.
Proof.
  induction 1 as [|x l1 l2 _ IH|x y l|l1 l2 l3 _ IH1 _ IH2]; rewrite ?count_cons; lia.
Qed.

Lemma elem_of_filter_bool {A} (f : A -> bool) x l :
  x ∈ List.filter f l <-> x ∈ l /\ f x = true.
Proof. by rewrite !list_elem_of_In, filter_In. Qed.

Lemma NoDup_map_filter {A B} (g : A -> B) (f : A -> bool) l : NoDup (map g l) -> NoDup (map g (List.filter f l)).
Proof.
  induction l as [|x l IH]; simpl; [done|]. intros [Hx Hl]%NoDup_cons. destruct (f x); simpl; [|by apply IH].
  apply NoDup_cons. split; [|by apply IH]. rewrite list_elem_of_In, in_map_iff. intros (y & Hgy & [Hy _]%filter_In).
  apply Hx. rewrite list_elem_of_In, in_map_iff. eauto.
Qed.

Lemma filter_bool_perm {A} (f : A -> bool) l1 l2 :
  l1 ≡ₚ l2 -> List.filter f l1 ≡ₚ List.filter f l2.
Proof.
  induction 1 as [|x l1 l2 _ IH|x y l|l1 l2 l3 _ IH1 _ IH2]; simpl; repeat case_match; auto.
  - constructor.
  - by etrans.
Qed.

Lemma existsb_perm {A} (f : A -> bool) l1 l2 :
  l1 ≡ₚ l2 -> List.existsb f l1 = List.existsb f l2.
Proof.
  induction 1 as [|x l1 l2 _ IH|x y l|l1 l2 l3 _ IH1 _ IH2]; simpl; try congruence.
  by destruct (f x), (f y).
Qed.

(** Boolean test of a decidable equality, as Go's [==] on comparable values. *)
Declare Scope planner_scope.
Notation "a =? b" := (bool_decide (a = b)) : planner_scope.
Notation "a !=? b" := (negb (bool_decide (a = b))) (at level 70) : planner_scope.
#[global] Open Scope planner_scope.
