(* ===== verification/GoLib.v ===== *)
(** * The parts of Go's standard library the planner uses

    [strings], [strconv], [path/filepath], [math] and [float64] on byte strings.
    Go strings and byte slices are modelled by [string] (a sequence of bytes);
    Go's [int] and [int64] by [Z]. *)

From Stdlib Require Import DecimalString DecimalZ DecimalN DecimalFacts SpecFloat.
From S2P Require Import Prelude.

(** ** Package strings *)

#[global] Arguments String.prefix : simpl never.

Definition HasPrefix (s p : string) : bool := String.prefix p s.

Fixpoint drop_str (n : nat) (s : string) : string :=
  match n, s with
  | O, _ => s
  | S n', String _ s' => drop_str n' s'
  | _, EmptyString => ""
  end.

Fixpoint take_str (n : nat) (s : string) : string :=
  match n, s with
  | O, _ => ""
  | S n', String c s' => String c (take_str n' s')
  | _, EmptyString => ""
  end.

(** [cut sep s]: what precedes and what follows the first occurrence of [sep]. *)
Fixpoint cut (sep s : string) : option (string * string) :=
  if String.prefix sep s then Some ("", drop_str (String.length sep) s)
  else match s with
       | EmptyString => None
       | String c s' =>
           match cut sep s' with
           | Some (a, b) => Some (String c a, b)
           | None => None
           end
       end.

Definition Contains (s sub : string) : bool :=
  match cut sub s with Some _ => true | None => false end.

Definition Cut (s sep : string) : string * string * bool :=
  match cut sep s with Some (a, b) => (a, b, true) | None => (s, "", false) end.

(** [strings.SplitN(s, sep, 2)]. *)
Definition SplitN2 (s sep : string) : list string :=
  match cut sep s with Some (a, b) => [a; b] | None => [s] end.

Fixpoint split_fuel (n : nat) (sep s : string) : list string :=
  match n with
  | O => [s]
  | S n' => match cut sep s with
            | None => [s]
            | Some (a, b) => a :: split_fuel n' sep b
            end
  end.

(** [strings.Split] for a non-empty separator; every cut consumes at least one byte, so
    [length s] cuts are enough ({!Split_no_sep}). *)
Definition Split (s sep : string) : list string := split_fuel (String.length s) sep s.

Fixpoint Join (l : list string) (sep : string) : string :=
  match l with
  | [] => ""
  | [x] => x
  | x :: l' => x +:+ sep +:+ Join l' sep
  end.

(** [strings.ReplaceAll] for a non-empty [old]. *)
Definition ReplaceAll (s old new : string) : string := Join (Split s old) new.

Definition TrimPrefix (s p : string) : string :=
  if HasPrefix s p then drop_str (String.length p) s else s.

Definition HasSuffix (s x : string) : bool :=
  (String.length x <=? String.length s)%nat
  && bool_decide (drop_str (String.length s - String.length x) s = x).

Definition TrimSuffix (s x : string) : string :=
  if HasSuffix s x then take_str (String.length s - String.length x) s else s.

Fixpoint map_str (f : Ascii.ascii -> Ascii.ascii) (s : string) : string :=
  match s with EmptyString => "" | String c s' => String (f c) (map_str f s') end.

Definition lower_ascii (c : Ascii.ascii) : Ascii.ascii :=
  let n := Ascii.nat_of_ascii c in
  if ((65 <=? n) && (n <=? 90))%nat then Ascii.ascii_of_nat (n + 32) else c.
Definition upper_ascii (c : Ascii.ascii) : Ascii.ascii :=
  let n := Ascii.nat_of_ascii c in
  if ((97 <=? n) && (n <=? 122))%nat then Ascii.ascii_of_nat (n - 32) else c.

(** [strings.ToLower] / [ToUpper]; the planner applies them to ASCII identifiers only. *)
Definition ToLower : string -> string := map_str lower_ascii.
Definition ToUpper : string -> string := map_str upper_ascii.

Fixpoint Count_char (c : Ascii.ascii) (s : string) : nat :=
  match s with
  | EmptyString => 0
  | String d s' => (if bool_decide (c = d) then 1 else 0) + Count_char c s'
  end%nat.

Definition is_space (c : Ascii.ascii) : bool :=
  let n := Ascii.nat_of_ascii c in ((9 <=? n) && (n <=? 13) || (n =? 32))%nat.

Fixpoint trim_left (s : string) : string :=
  match s with
  | EmptyString => ""
  | String c s' => if is_space c then trim_left s' else s
  end.
Definition TrimSpace (s : string) : string := String.rev (trim_left (String.rev (trim_left s))).

(** The quote character, which Rocq string literals can only spell doubled, and the line feed. *)
Definition dquote : string := String (Ascii.ascii_of_nat 34) "".
Definition newline : string := String (Ascii.ascii_of_nat 10) "".
Definition quote (s : string) : string := dquote +:+ s +:+ dquote.

(** Scripts are Go raw strings, which never contain a backquote: it stands here for the quote
    character. *)
Definition script (s : string) : string :=
  map_str (fun c => if bool_decide (Ascii.nat_of_ascii c = 96%nat) then Ascii.ascii_of_nat 34 else c) s.

(** [fmt.Sprintf] with a format whose only verbs are [%s] and string arguments. *)
Fixpoint Sprintf_s (format : string) (args : list string) : string :=
  match format with
  | EmptyString =>
      match args with
      | [] => ""
      | _ => "%!(EXTRA " +:+ Join (map (fun a => "string=" +:+ a) args) ", " +:+ ")"
      end
  | String c rest =>
      match rest with
      | String d rest' =>
          if bool_decide (Ascii.nat_of_ascii c = 37%nat) && bool_decide (Ascii.nat_of_ascii d = 115%nat) then
            match args with
            | [] => "%!s(MISSING)" +:+ Sprintf_s rest' []
            | a :: args' => a +:+ Sprintf_s rest' args'
            end
          else String c (Sprintf_s rest args)
      | EmptyString => String c (Sprintf_s rest args)
      end
  end.

(** ** Package strconv *)

Definition int64_min : Z := - 2 ^ 63.
Definition int64_max : Z := 2 ^ 63 - 1.

(** A result of [int64] arithmetic wraps around. *)
Definition wrap64 (z : Z) : Z := (z + 2 ^ 63) mod 2 ^ 64 - 2 ^ 63.

Definition Itoa (z : Z) : string := NilZero.string_of_int (Z.to_int z).

Definition parse_uint (s : string) : option Z :=
  option_map (fun u => Z.of_N (N.of_uint u)) (NilZero.uint_of_string s).

(** [strconv.Atoi]: an optional sign, then decimal digits, within the range of [int]. *)
Definition Atoi (s : string) : option Z :=
  let v := match s with
           | String c s' =>
               if bool_decide (Ascii.nat_of_ascii c = 45%nat) then option_map Z.opp (parse_uint s')
               else if bool_decide (Ascii.nat_of_ascii c = 43%nat) then parse_uint s'
               else parse_uint s
           | EmptyString => None
           end in
  match v with
  | Some z => if ((int64_min <=? z) && (z <=? int64_max))%Z then Some z else None
  | None => None
  end.

(** ** Package path/filepath (Unix) *)

Definition clean_step (rooted : bool) (stack : list string) (c : string) : list string :=
  if bool_decide (c = "") || bool_decide (c = ".") then stack
  else if bool_decide (c = "..") then
    match stack with
    | top :: rest => if bool_decide (top = "..") then ".." :: stack else rest
    | [] => if rooted then [] else [".."]
    end
  else c :: stack.

Definition Clean (p : string) : string :=
  let rooted := HasPrefix p "/" in
  let comps := rev (fold_left (clean_step rooted) (Split p "/") []) in
  let body := Join comps "/" in
  if rooted then "/" +:+ body else if bool_decide (body = "") then "." else body.

(** [filepath.Dir]: everything up to and including the last separator, cleaned. *)
Definition Dir (p : string) : string :=
  let parts := Split p "/" in
  match rev parts with
  | [] => "."
  | [_] => "."
  | _ :: front => Clean (Join (rev front) "/" +:+ "/")
  end.

(** ** float64 *)

(** IEEE 754 binary64, as the executable specification of the Standard Library. *)
Definition float64 : Type := spec_float.
Definition f64_of_Z (z : Z) : float64 := binary_normalize 53 1024 z 0 false.
Definition f64_mul : float64 -> float64 -> float64 := SFmul 53 1024.
Definition f64_div : float64 -> float64 -> float64 := SFdiv 53 1024.

(** The float64 nearest to [m / 10 ^ d] for [m > 0]: one correctly rounded division of the two
    integers, whatever their size. *)
Definition f64_quotient (m : positive) (d : nat) : float64 :=
  let '(q, e, l) := SFdiv_core_binary 53 1024 (Zpos m) 0 (10 ^ Z.of_nat d) 0 in
  match q with
  | Zpos _ => binary_round_aux 53 1024 false q e l
  | _ => S754_zero false
  end.

Definition f64_opp (x : float64) : float64 := SFopp x.

(** Decimal literal [digits[.digits]] without sign. *)
Definition parse_decimal (s : string) : option float64 :=
  let '(ip, fp, dot) := Cut s "." in
  let digits := ip +:+ fp in
  match parse_uint digits with
  | None => None
  | Some 0 => Some (S754_zero false)
  | Some (Zpos m) => Some (f64_quotient m (String.length fp))
  | Some (Zneg _) => None
  end.

(** [strconv.ParseFloat] on signed decimal literals and on the names of infinities; exponents,
    hexadecimal literals and digit separators are not recognised here. *)
Definition ParseFloat (s : string) : option float64 :=
  let '(neg, body) :=
    match s with
    | String c s' =>
        if bool_decide (Ascii.nat_of_ascii c = 45%nat) then (true, s')
        else if bool_decide (Ascii.nat_of_ascii c = 43%nat) then (false, s')
        else (false, s)
    | EmptyString => (false, s)
    end in
  let v := if bool_decide (ToLower body = "inf") || bool_decide (ToLower body = "infinity")
           then Some (S754_infinity false) else parse_decimal body in
  if neg then option_map f64_opp v else v.

(** [int(math.Ceil(x))] for finite [x]; the conversion of an infinity or of a NaN to [int] is
    implementation-defined in Go and is [int64_min] on amd64. *)
Definition ceil_to_int (x : float64) : Z :=
  match x with
  | S754_zero _ => 0
  | S754_infinity _ | S754_nan => int64_min
  | S754_finite sgn m e =>
      let v := if sgn then Zneg m else Zpos m in
      if (0 <=? e)%Z then v * 2 ^ e
      else - ((- v) / 2 ^ (- e))
  end.

(** ** Equations of the string library *)

Lemma app_empty_r s : s +:+ "" = s.
Proof. induction s as [|c s IH]; simpl; [done|by rewrite IH]. Qed.

Lemma app_assoc_str a b c : (a +:+ b) +:+ c = a +:+ b +:+ c.
Proof. induction a as [|x a IH]; simpl; [done|by rewrite IH]. Qed.

Lemma length_app_str a b : String.length (a +:+ b) = (String.length a + String.length b)%nat.
Proof. induction a as [|x a IH]; simpl; [done|by rewrite IH]. Qed.

Lemma app_inj_l a b c : a +:+ b = a +:+ c -> b = c.
Proof. induction a as [|x a IH]; simpl; [done|intros [=]; auto]. Qed.

Lemma prefix_nil s : String.prefix "" s = true.
Proof. by destruct s. Qed.

Lemma prefix_cons c p d s :
  String.prefix (String c p) (String d s) = if decide (c = d) then String.prefix p s else false.
Proof. cbv [String.prefix]. fold String.prefix. by destruct (Ascii.ascii_dec c d), (decide (c = d)). Qed.

Lemma prefix_app p s : String.prefix p (p +:+ s) = true.
Proof.
  induction p as [|c p IH]; simpl; [apply prefix_nil|].
  rewrite prefix_cons. by rewrite decide_True by done.
Qed.

Lemma drop_str_app p s : drop_str (String.length p) (p +:+ s) = s.
Proof. induction p as [|c p IH]; simpl; [by destruct s|done]. Qed.

Lemma take_str_app p s : take_str (String.length p) (p +:+ s) = p.
Proof. induction p as [|c p IH]; simpl; [by destruct s|by rewrite IH]. Qed.

Lemma prefix_spec p s : String.prefix p s = true <-> exists t, s = p +:+ t.
Proof.
  split; [|intros [t ->]; apply prefix_app].
  revert s. induction p as [|c p IH]; intros s; [eauto|].
  destruct s as [|d s]; [done|]. rewrite prefix_cons. case_decide; [|done].
  intros [t ->]%IH. subst. by exists t.
Qed.

Lemma length_drop_str n s : String.length (drop_str n s) = (String.length s - n)%nat.
Proof. revert s. induction n; intros [|c s]; simpl; auto. Qed.

Lemma length_take_str n s : String.length (take_str n s) = Nat.min n (String.length s).
Proof. revert s. induction n; intros [|c s]; simpl; auto. Qed.

Lemma take_drop_str n s : take_str n s +:+ drop_str n s = s.
Proof. revert s. induction n; intros [|c s]; simpl; auto. by rewrite IHn. Qed.

#[export] Hint Rewrite app_empty_r app_assoc_str length_app_str drop_str_app take_str_app
  prefix_app : go_str.

Lemma app_str_inj_r a b c : a +:+ c = b +:+ c -> a = b.
Proof.
  intros Hab. assert (String.length a = String.length b) as Hl.
  { apply (f_equal String.length) in Hab. rewrite !length_app_str in Hab. lia. }
  revert b Hl Hab. induction a as [|x a IH]; intros [|y b]; simpl; try done.
  intros [= Hl] [= -> Hab]. f_equal. auto.
Qed.

Lemma cut_Some sep s a b : cut sep s = Some (a, b) -> s = a +:+ sep +:+ b.
Proof.
  revert a b. induction s as [|c s IH]; intros a b; simpl.
  - destruct (String.prefix sep "") eqn:E; [|done]. apply prefix_spec in E as [t E].
    intros [= <- <-]. destruct sep; simpl in *; [by destruct t|done].
  - destruct (String.prefix sep (String c s)) eqn:E.
    + apply prefix_spec in E as [t ->]. intros [= <- <-]. by autorewrite with go_str.
    + destruct (cut sep s) as [[a' b']|]; [|done]. intros [= <- <-]. simpl. f_equal. auto.
Qed.

Lemma cut_None sep s : cut sep s = None <-> forall a b, s <> a +:+ sep +:+ b.
Proof.
  split.
  - revert sep. induction s as [|c s IH]; intros sep; simpl.
    + destruct (String.prefix sep "") eqn:E; [done|].
      intros _ a b H. destruct a; [|done]. rewrite H in E. simpl in E. by rewrite prefix_app in E.
    + destruct (String.prefix sep (String c s)) eqn:E; [done|].
      destruct (cut sep s) as [[??]|] eqn:E2; [done|]. intros _ [|d a] b H.
      * rewrite H in E. simpl in E. by rewrite prefix_app in E.
      * simpl in H. injection H as -> ->. by apply (IH sep E2 a b).
  - intros H. destruct (cut sep s) as [[a b]|] eqn:E; [|done].
    apply cut_Some in E. by apply H in E.
Qed.

Lemma Contains_spec s sub : Contains s sub = true <-> exists a b, s = a +:+ sub +:+ b.
Proof.
  unfold Contains. destruct (cut sub s) as [[a b]|] eqn:E.
  - apply cut_Some in E. naive_solver.
  - rewrite cut_None in E. split; [done|]. intros (a & b & ->). by destruct (E a b).
Qed.

Lemma cut_length sep s a b :
  cut sep s = Some (a, b) ->
  String.length s = (String.length a + String.length sep + String.length b)%nat.
Proof. intros ->%cut_Some. rewrite !length_app_str. lia. Qed.

Lemma split_fuel_ne n sep s : split_fuel n sep s <> [].
Proof. destruct n; simpl; [done|]. destruct (cut sep s) as [[??]|]; done. Qed.

Lemma Join_cons x l sep : l <> [] -> Join (x :: l) sep = x +:+ sep +:+ Join l sep.
Proof. by destruct l. Qed.

(** Joining the pieces of a split with the separator gives the string back. *)
Lemma Join_Split s sep : Join (Split s sep) sep = s.
Proof.
  unfold Split. generalize (String.length s) as n. intros n. revert s.
  induction n as [|n IH]; intros s; simpl; [done|].
  destruct (cut sep s) as [[a b]|] eqn:E; [|done].
  apply cut_Some in E. subst. rewrite Join_cons by apply split_fuel_ne. by rewrite IH.
Qed.

(** The fuel of [Split] is enough: no piece contains the separator. *)
Lemma Split_no_sep s sep x : sep <> "" -> x ∈ Split s sep -> Contains x sep = false.
Proof.
  intros Hsep. unfold Split. generalize (Nat.le_refl (String.length s)).
  generalize (String.length s) at 2 3 as n. intros n. revert s.
  assert (forall a b t, cut sep t = Some (a, b) -> Contains a sep = false) as Hfirst.
  { intros a b t. revert a b. induction t as [|c t IH]; intros a b; simpl.
    - destruct (String.prefix sep "") eqn:E; [|done]. apply prefix_spec in E as [u E]. by destruct sep.
    - destruct (String.prefix sep (String c t)) eqn:E.
      + intros [= <- <-]. unfold Contains. destruct (cut sep "") as [[??]|] eqn:E2; [|done].
        apply cut_Some in E2. destruct s; [by destruct sep|done].
      + destruct (cut sep t) as [[a' b']|] eqn:E2; [|done]. intros [= <- <-].
        destruct (Contains (String c a') sep) eqn:E3; [|done].
        apply Contains_spec in E3 as (u & v & Huv). apply cut_Some in E2 as Ht.
        destruct u as [|d u]; simpl in Huv.
        * exfalso. enough (String.prefix sep (String c t) = true) by congruence.
          apply prefix_spec. exists (v +:+ sep +:+ b'). subst t.
          rewrite <- (app_assoc_str sep v), <- Huv. done.
        * injection Huv as -> ->. specialize (IH _ _ eq_refl).
          enough (Contains (u +:+ sep +:+ v) sep = true) by congruence.
          apply Contains_spec. eauto. }
  induction n as [|n IH]; intros s Hlen; simpl.
  - intros ->%list_elem_of_singleton. destruct s; [|simpl in Hlen; lia].
    unfold Contains. destruct (cut sep "") as [[??]|] eqn:E2; [|done].
    apply cut_Some in E2. destruct s; [by destruct sep|done].
  - destruct (cut sep s) as [[a b]|] eqn:E.
    + rewrite elem_of_cons. intros [->|Hx]; [eauto|]. apply (IH b); [|done].
      apply cut_length in E. destruct sep; [done|simpl in E; lia].
    + intros ->%list_elem_of_singleton. unfold Contains. by rewrite E.
Qed.

Lemma HasPrefix_app p s : HasPrefix (p +:+ s) p = true.
Proof. apply prefix_app. Qed.

Lemma prefix_app_cancel a b c : String.prefix (a +:+ b) (a +:+ c) = String.prefix b c.
Proof. induction a as [|x a IH]; [done|]. cbn [String.append]. rewrite prefix_cons, decide_True by done. apply IH. Qed.

(** Two strings that start alike, compared after the common start. *)
Lemma HasPrefix_cancel2 a b c d :
  String.prefix d c = false -> HasPrefix (a +:+ b +:+ c) (a +:+ b +:+ d) = false.
Proof. intros H. unfold HasPrefix. by rewrite !prefix_app_cancel. Qed.

(** Cutting at a one-byte separator that does not occur before. *)
Lemma cut_char c a b :
  Count_char c a = O -> cut (String c "") (a +:+ String c b) = Some (a, b).
Proof.
  induction a as [|d a IH]; simpl; intros H.
  - rewrite prefix_cons, decide_True, prefix_nil by done. by destruct b.
  - case_bool_decide as Hd; [lia|]. rewrite prefix_cons, decide_False by congruence.
    by rewrite IH by done.
Qed.

(** ** Integers printed and parsed *)

Lemma parse_uint_pos p : parse_uint (NilZero.string_of_uint (Pos.to_uint p)) = Some (Zpos p).
Proof.
  unfold parse_uint. rewrite NilZero.usu by apply DecimalPos.Unsigned.to_uint_nonnil. simpl.
  change (N.of_uint (Pos.to_uint p)) with (Pos.of_uint (Pos.to_uint p)).
  by rewrite DecimalPos.Unsigned.of_to.
Qed.

Lemma string_of_uint_digit d : d <> Decimal.Nil ->
  exists c s, NilZero.string_of_uint d = String c s
              /\ Ascii.nat_of_ascii c <> 45%nat /\ Ascii.nat_of_ascii c <> 43%nat.
Proof. destruct d; intros H; try done; simpl; eexists _, _; split; eauto. Qed.

(** Decimal printing and parsing of an [int] are inverse. *)
Lemma Atoi_Itoa z : int64_min <= z <= int64_max -> Atoi (Itoa z) = Some z.
Proof.
  intros [H1 H2]. unfold Atoi, Itoa.
  assert (forall p, let s := NilZero.string_of_uint (Pos.to_uint p) in
    match s with
    | String c s' =>
        if bool_decide (Ascii.nat_of_ascii c = 45%nat) then option_map Z.opp (parse_uint s')
        else if bool_decide (Ascii.nat_of_ascii c = 43%nat) then parse_uint s' else parse_uint s
    | EmptyString => None
    end = Some (Zpos p)) as Hpos.
  { intros p s. destruct (string_of_uint_digit (Pos.to_uint p)) as (c & s' & Hs & Hc1 & Hc2).
    { apply DecimalPos.Unsigned.to_uint_nonnil. }
    unfold s. rewrite Hs, !bool_decide_eq_false_2, <- Hs by done. apply parse_uint_pos. }
  destruct z as [|p|p]; cbn [Z.to_int NilZero.string_of_int].
  - done.
  - rewrite Hpos. rewrite (proj2 (Z.leb_le _ _) H1), (proj2 (Z.leb_le _ _) H2). done.
  - rewrite bool_decide_eq_true_2 by done. rewrite parse_uint_pos. cbn [option_map].
    change (- Z.pos p) with (Z.neg p).
    rewrite (proj2 (Z.leb_le _ _) H1), (proj2 (Z.leb_le _ _) H2). done.
Qed.

Lemma Itoa_nonempty z : Itoa z <> "".
Proof.
  unfold Itoa. destruct z as [|p|p]; simpl; [done| |done].
  destruct (string_of_uint_digit (Pos.to_uint p)) as (c & s' & -> & _);
    [apply DecimalPos.Unsigned.to_uint_nonnil|done].
Qed.

Lemma Itoa_inj z1 z2 :
  int64_min <= z1 <= int64_max -> int64_min <= z2 <= int64_max -> Itoa z1 = Itoa z2 -> z1 = z2.
Proof. intros H1 H2 H. apply (f_equal Atoi) in H. rewrite !Atoi_Itoa in H by done. congruence. Qed.

Lemma cut_char_None c s : Count_char c s = O -> cut (String c "") s = None.
Proof.
  induction s as [|d s IH]; simpl; intros Hc; [done|]. case_bool_decide as Hd; [lia|].
  rewrite prefix_cons, decide_False by congruence. by rewrite IH by done.
Qed.

(** Splitting at a character what was joined with it, when it does not occur in the pieces. *)
Lemma Split_Join c l :
  l <> [] -> Forall (fun x => Count_char c x = O) l -> Split (Join l (String c "")) (String c "") = l.
Proof.
  intros Hne Hl. unfold Split. generalize (Nat.le_refl (String.length (Join l (String c "")))).
  generalize (String.length (Join l (String c ""))) at 2 3 as n. intros n. revert n Hne.
  induction Hl as [|x l Hx Hl IH]; intros n Hne Hn; [done|]. destruct l as [|y l].
  - simpl. destruct n; simpl; [done|]. by rewrite cut_char_None.
  - rewrite Join_cons in * by done. rewrite !length_app_str in Hn. destruct n; [simpl in Hn; lia|].
    cbn [split_fuel]. change (String c "" +:+ ?t) with (String c t). rewrite cut_char by done. f_equal.
    apply IH; [done|]. simpl in Hn |- *. lia.
Qed.
