(* ===== verification/Codec.v ===== *)
(** * Encodings and checksums of Go's standard library

    [encoding/hex], [encoding/base64] (standard alphabet, padded), [hash/crc32] (IEEE) and
    [crypto/sha256], executable on byte strings.  The planner names files, instructions and
    plans by SHA-256 digests, ships file contents in base64 and spreads workers over control
    planes by a CRC. *)

From S2P Require Import Prelude GoLib.

#[local] Open Scope N_scope.

(** Linear arithmetic with divisions by constants. *)
Ltac div_lia := zify; Z.to_euclidean_division_equations; lia.

(** ** Bytes *)

Definition byte_val (c : Ascii.ascii) : N := Ascii.N_of_ascii c.
Definition byte_of (n : N) : Ascii.ascii := Ascii.ascii_of_N n.

Fixpoint bytes_of (s : string) : list N :=
  match s with EmptyString => [] | String c s' => byte_val c :: bytes_of s' end.

Fixpoint string_of_bytes (l : list N) : string :=
  match l with [] => "" | b :: l' => String (byte_of b) (string_of_bytes l') end.

Lemma byte_val_lt c : byte_val c < 256.
Proof. apply Ascii.N_ascii_bounded. Qed.

Lemma byte_of_val c : byte_of (byte_val c) = c.
Proof. apply Ascii.ascii_N_embedding. Qed.

Lemma byte_val_of n : n < 256 -> byte_val (byte_of n) = n.
Proof. apply Ascii.N_ascii_embedding. Qed.

Lemma string_of_bytes_of s : string_of_bytes (bytes_of s) = s.
Proof. induction s as [|c s IH]; simpl; [done|]. by rewrite byte_of_val, IH. Qed.

Lemma bytes_of_bound s : Forall (fun b => b < 256) (bytes_of s).
Proof. induction s; simpl; constructor; auto using byte_val_lt. Qed.

(** ** Hexadecimal *)

Definition hex_digit (n : N) : Ascii.ascii :=
  if n <? 10 then Ascii.ascii_of_N (48 + n) else Ascii.ascii_of_N (87 + n).

Definition hex_EncodeToString (l : list N) : string :=
  string_of_bytes (flat_map (fun b => [byte_val (hex_digit (b / 16)); byte_val (hex_digit (b mod 16))]) l).

(** ** Base64 *)

Definition b64_char (n : N) : Ascii.ascii :=
  Ascii.ascii_of_N (if n <? 26 then 65 + n else if n <? 52 then 71 + n
                    else if n <? 62 then n - 4 else if n =? 62 then 43 else 47).

Definition b64_val (c : Ascii.ascii) : option N :=
  let n := Ascii.N_of_ascii c in
  if (65 <=? n) && (n <=? 90) then Some (n - 65)
  else if (97 <=? n) && (n <=? 122) then Some (n - 71)
  else if (48 <=? n) && (n <=? 57) then Some (n + 4)
  else if n =? 43 then Some 62 else if n =? 47 then Some 63 else None.

Definition pad : Ascii.ascii := Ascii.ascii_of_N 61.

Fixpoint b64_encode (l : list N) : string :=
  match l with
  | a :: b :: c :: l' =>
      let n := a * 65536 + b * 256 + c in
      String (b64_char (n / 262144)) (String (b64_char (n / 4096 mod 64))
        (String (b64_char (n / 64 mod 64)) (String (b64_char (n mod 64)) (b64_encode l'))))
  | [a; b] =>
      let n := a * 1024 + b * 4 in
      String (b64_char (n / 4096)) (String (b64_char (n / 64 mod 64))
        (String (b64_char (n mod 64)) (String pad "")))
  | [a] =>
      let n := a * 16 in
      String (b64_char (n / 64)) (String (b64_char (n mod 64)) (String pad (String pad "")))
  | [] => ""
  end.

(** Go's decoder skips CR and LF; padding is only accepted at the end. *)
Definition strip_crlf (s : string) : string :=
  string_of_bytes (List.filter (fun b => negb ((b =? 10) || (b =? 13))) (bytes_of s)).

Fixpoint b64_decode (s : string) : option (list N) :=
  match s with
  | EmptyString => Some []
  | String c1 (String c2 (String c3 (String c4 s'))) =>
      match b64_val c1, b64_val c2 with
      | Some v1, Some v2 =>
          if bool_decide (c4 = pad) then
            match s' with
            | EmptyString =>
                if bool_decide (c3 = pad) then Some [(v1 * 64 + v2) / 16]
                else match b64_val c3 with
                     | Some v3 => let n := (v1 * 4096 + v2 * 64 + v3) / 4 in
                                  Some [n / 256; n mod 256]
                     | None => None
                     end
            | _ => None
            end
          else match b64_val c3, b64_val c4 with
               | Some v3, Some v4 =>
                   let n := v1 * 262144 + v2 * 4096 + v3 * 64 + v4 in
                   match b64_decode s' with
                   | Some l => Some (n / 65536 :: n / 256 mod 256 :: n mod 256 :: l)
                   | None => None
                   end
               | _, _ => None
               end
      | _, _ => None
      end
  | _ => None
  end.

Definition base64_EncodeToString (s : string) : string := b64_encode (bytes_of s).
Definition base64_DecodeString (s : string) : option string :=
  option_map string_of_bytes (b64_decode (strip_crlf s)).

Lemma b64_char_facts n : n < 64 ->
  b64_val (b64_char n) = Some n /\ b64_char n <> pad
  /\ byte_val (b64_char n) <> 10 /\ byte_val (b64_char n) <> 13.
Proof.
  intros H. assert (Hall : forallb (fun n => bool_decide
    (b64_val (b64_char n) = Some n /\ b64_char n <> pad
     /\ byte_val (b64_char n) <> 10 /\ byte_val (b64_char n) <> 13)) (map N.of_nat (seq 0 64)) = true)
    by (vm_compute; reflexivity).
  rewrite forallb_forall in Hall. eapply bool_decide_eq_true_1, Hall.
  apply in_map_iff. exists (N.to_nat n). split; [lia|]. apply in_seq. lia.
Qed.

Lemma list_ind3 {A} (P : list A -> Prop) :
  P [] -> (forall a, P [a]) -> (forall a b, P [a; b]) ->
  (forall a b c l, P l -> P (a :: b :: c :: l)) -> forall l, P l.
Proof.
  intros H0 H1 H2 H3. fix IH 1. intros [|a [|b [|c l]]]; [done|done|done|]. apply H3, IH.
Qed.

Ltac b64_char_tac :=
  repeat match goal with
  | |- context [b64_val (b64_char ?n)] =>
      rewrite (proj1 (b64_char_facts n ltac:(div_lia)))
  | |- context [bool_decide (b64_char ?n = pad)] =>
      rewrite (bool_decide_eq_false_2 (b64_char n = pad))
        by (apply b64_char_facts; div_lia)
  end.

Lemma b64_decode_encode l :
  Forall (fun b => b < 256) l -> b64_decode (b64_encode l) = Some l.
Proof.
  induction l as [| a | a b | a b c l IH] using list_ind3; intros Hl; cbn [b64_encode b64_decode].
  - done.
  - inv Hl. b64_char_tac. rewrite !bool_decide_eq_true_2 by done.
    do 2 f_equal. div_lia.
  - inv Hl. inv H2. b64_char_tac. rewrite bool_decide_eq_true_2 by done.
    do 3 f_equal; [|f_equal]; div_lia.
  - inv Hl. inv H2. inv H4. b64_char_tac. rewrite IH by done. f_equal.
    f_equal; [|f_equal; [|f_equal]]; div_lia.
Qed.

Lemma strip_crlf_encode l :
  Forall (fun b => b < 256) l -> strip_crlf (b64_encode l) = b64_encode l.
Proof.
  intros Hl. unfold strip_crlf.
  rewrite <- (string_of_bytes_of (b64_encode l)) at 2. f_equal.
  induction l as [| a | a b | a b c l IH] using list_ind3; cbn [b64_encode bytes_of]; [done|..];
    repeat match goal with H : Forall _ (_ :: _) |- _ => inv H end;
    repeat match goal with
    | |- context [b64_char ?n] =>
        let H := fresh in
        assert (H := b64_char_facts n ltac:(div_lia)); destruct H as (_ & _ & ? & ?);
        generalize dependent (byte_val (b64_char n)); intros
    end; cbn [List.filter];
    repeat (rewrite (proj2 (N.eqb_neq _ _)) by assumption; cbn [orb negb List.filter]).
  - done.
  - done.
  - by rewrite IH.
Qed.

(** Decoding an encoded byte string gives it back. *)
Lemma base64_roundtrip s : base64_DecodeString (base64_EncodeToString s) = Some s.
Proof.
  unfold base64_DecodeString, base64_EncodeToString.
  rewrite strip_crlf_encode, b64_decode_encode by apply bytes_of_bound. simpl.
  by rewrite string_of_bytes_of.
Qed.

(** ** CRC-32 (IEEE polynomial, reflected) *)

Definition crc_step (crc : N) : N :=
  if N.odd crc then N.lxor (N.shiftr crc 1) 3988292384 else N.shiftr crc 1.

Definition crc_byte (crc b : N) : N := N.iter 8 crc_step (N.lxor crc b).

Definition crc32_ChecksumIEEE (s : string) : N :=
  N.lxor (fold_left crc_byte (bytes_of s) 4294967295) 4294967295.

Lemma lxor_lt a b n : a < 2 ^ n -> b < 2 ^ n -> N.lxor a b < 2 ^ n.
Proof.
  intros Ha Hb. destruct (N.eq_dec (N.lxor a b) 0) as [->|Hne]; [apply N.neq_0_lt_0; by apply N.pow_nonzero|].
  apply N.log2_lt_pow2; [lia|]. eapply N.le_lt_trans; [apply N.log2_lxor|].
  apply N.max_lub_lt.
  - destruct (N.eq_dec a 0) as [->|]; [|apply N.log2_lt_pow2; lia].
    destruct (N.eq_dec b 0) as [->|]; [done|]. simpl. apply N.neq_0_lt_0. intros ->. simpl in *. lia.
  - destruct (N.eq_dec b 0) as [->|]; [|apply N.log2_lt_pow2; lia].
    destruct (N.eq_dec a 0) as [->|]; [done|]. simpl. apply N.neq_0_lt_0. intros ->. simpl in *. lia.
Qed.

Lemma crc_step_lt crc : crc < 2 ^ 32 -> crc_step crc < 2 ^ 32.
Proof.
  intros H. unfold crc_step.
  assert (N.shiftr crc 1 < 2 ^ 32).
  { rewrite N.shiftr_div_pow2. apply N.Div0.div_lt_upper_bound; lia. }
  destruct (N.odd crc); [|done]. apply lxor_lt; [done|reflexivity].
Qed.

Lemma crc_byte_lt crc b : crc < 2 ^ 32 -> b < 2 ^ 32 -> crc_byte crc b < 2 ^ 32.
Proof.
  intros H1 H2. unfold crc_byte. apply N.iter_invariant; [apply crc_step_lt|by apply lxor_lt].
Qed.

(** The checksum is a 32-bit unsigned integer. *)
Lemma crc32_bound s : crc32_ChecksumIEEE s < 2 ^ 32.
Proof.
  unfold crc32_ChecksumIEEE. apply lxor_lt; [|reflexivity].
  assert (forall l crc, Forall (fun b => b < 256) l -> crc < 2 ^ 32 -> fold_left crc_byte l crc < 2 ^ 32) as Hf.
  { induction l as [|b l IH]; intros crc Hl Hc; simpl; [done|]. inv Hl.
    apply IH; [done|]. apply crc_byte_lt; [done|]. lia. }
  apply Hf; [apply bytes_of_bound|reflexivity].
Qed.

(** ** SHA-256 *)

Module Sha256.
Definition w32 (n : N) : N := N.land n 4294967295.
Definition add32 (a b : N) : N := w32 (a + b).
Definition rotr (n x : N) : N := N.lor (N.shiftr x n) (w32 (N.shiftl x (32 - n))).
Definition ch (x y z : N) : N := N.lxor (N.land x y) (N.land (N.lxor x 4294967295) z).
Definition maj (x y z : N) : N := N.lxor (N.lxor (N.land x y) (N.land x z)) (N.land y z).
Definition bsig0 (x : N) : N := N.lxor (N.lxor (rotr 2 x) (rotr 13 x)) (rotr 22 x).
Definition bsig1 (x : N) : N := N.lxor (N.lxor (rotr 6 x) (rotr 11 x)) (rotr 25 x).
Definition ssig0 (x : N) : N := N.lxor (N.lxor (rotr 7 x) (rotr 18 x)) (N.shiftr x 3).
Definition ssig1 (x : N) : N := N.lxor (N.lxor (rotr 17 x) (rotr 19 x)) (N.shiftr x 10).

(** The constants of FIPS 180-4: the first 32 bits of the fractional parts of the cube roots of the first
    64 primes, and of the square roots of the first eight. *)
Definition is_prime (n : nat) : bool := List.forallb (fun d => negb (Nat.eqb (Nat.modulo n d) 0)) (seq 2 (n - 2)).
Definition primes (n : nat) : list N := map N.of_nat (take n (List.filter is_prime (seq 2 310))).

(** The integer cube root below [2 ^ bits], bit by bit. *)
Fixpoint cbrt (bits : nat) (root n : N) : N :=
  match bits with
  | O => root
  | S b => let r := root + 2 ^ N.of_nat b in cbrt b (if r * r * r <=? n then r else root) n
  end.

Definition k : list N := Eval vm_compute in map (fun p => w32 (cbrt 36 0 (p * 2 ^ 96))) (primes 64).
Definition h0 : list N := Eval vm_compute in map (fun p => w32 (N.sqrt (p * 2 ^ 64))) (primes 8).

Fixpoint be_bytes (n : nat) (v : N) : list N :=
  match n with O => [] | S n' => be_bytes n' (v / 256) ++ [v mod 256] end.

Definition padded (msg : list N) : list N :=
  let len := N.of_nat (length msg) in
  let zeros := (119 - len mod 64) mod 64 in
  msg ++ [128] ++ replicate (N.to_nat zeros) 0 ++ be_bytes 8 (8 * len).

Fixpoint words (l : list N) : list N :=
  match l with
  | a :: b :: c :: d :: l' => (a * 16777216 + b * 65536 + c * 256 + d) :: words l'
  | _ => []
  end.

(** The message schedule, extended backwards: [ws] holds the latest word first. *)
Fixpoint extend (n : nat) (ws : list N) : list N :=
  match n with
  | O => ws
  | S n' =>
      let w := add32 (add32 (ssig1 (nth 1 ws 0)) (nth 6 ws 0)) (add32 (ssig0 (nth 14 ws 0)) (nth 15 ws 0)) in
      extend n' (w :: ws)
  end.

Definition round (st : list N) (kw : N * N) : list N :=
  match st with
  | [a; b; c; d; e; f; g; h] =>
      let t1 := add32 (add32 h (bsig1 e)) (add32 (ch e f g) (add32 (fst kw) (snd kw))) in
      let t2 := add32 (bsig0 a) (maj a b c) in
      [add32 t1 t2; a; b; c; add32 d t1; e; f; g]
  | _ => st
  end.

Definition block (st : list N) (ws : list N) : list N :=
  let sched := rev (extend 48 (rev ws)) in
  zip_with add32 st (fold_left round (zip k sched) st).

Fixpoint blocks (n : nat) (st ws : list N) : list N :=
  match n with
  | O => st
  | S n' => blocks n' (block st (take 16 ws)) (drop 16 ws)
  end.

Definition sum (msg : list N) : list N :=
  let ws := words (padded msg) in
  flat_map (be_bytes 4) (blocks (Nat.div (length ws) 16) h0 ws).

Lemma length_blocks n st ws : length (blocks n st ws) = length st.
Proof.
  revert st ws. induction n as [|n IH]; intros st ws; simpl; [done|]. rewrite IH. unfold block.
  assert (forall l st, length (fold_left round l st) = length st) as Hf.
  { induction l as [|kw l IHl]; intros st'; simpl; [done|]. rewrite IHl. unfold round. by repeat case_match. }
  rewrite length_zip_with, Hf. lia.
Qed.

Lemma length_sum msg : length (sum msg) = 32%nat.
Proof.
  unfold sum. assert (forall l, length (flat_map (be_bytes 4) l) = (4 * length l)%nat) as Hl.
  { induction l as [|x l IH]; [done|]. cbn [flat_map]. rewrite length_app, IH. simpl. lia. }
  by rewrite Hl, length_blocks.
Qed.
End Sha256.

(** [sha256.Sum256] as bytes, and [hex.EncodeToString] of it. *)
Definition sha256_Sum256 (s : string) : list N := Sha256.sum (bytes_of s).
Definition sha256_hex (s : string) : string := hex_EncodeToString (sha256_Sum256 s).

Lemma sha256_length s : length (sha256_Sum256 s) = 32%nat.
Proof. apply Sha256.length_sum. Qed.

(** Published test vectors. *)
Example sha256_abc :
  sha256_hex "abc" = "ba7816bf8f01cfea414140de5dae2223b00361a396177a9cb410ff61f20015ad".
Proof. vm_compute. reflexivity. Qed.

Example sha256_two_blocks :
  sha256_hex "abcdbcdecdefdefgefghfghighijhijkijkljklmklmnlmnomnopnopq"
  = "248d6a61d20638b8e5c026930c3e6039a33ce45964ff2167f6ecedd419db06c1".
Proof. vm_compute. reflexivity. Qed.

Example crc32_check : crc32_ChecksumIEEE "123456789" = 0xcbf43926.
Proof. vm_compute. reflexivity. Qed.

Example base64_vector : base64_EncodeToString "foobar" = "Zm9vYmFy" /\ base64_EncodeToString "foob" = "Zm9vYg==".
Proof. vm_compute. split; reflexivity. Qed.
