(* ===== verification/Errors.v ===== *)
(** * Errors and effects

    The error values of [pkg/capr/planner/errors.go] together with the foreign errors the planner
    distinguishes, and the state-and-error monad in which the planner's methods are written: a run
    ends with a value, with a Go [error], or with a run-time panic, and keeps the state it has
    reached in all three cases. *)

From S2P Require Import Prelude GoLib.

(** ** Error values *)

(** The reasons of Kubernetes API status errors the code asks about. *)
Inductive api_reason := ReasonNotFound | ReasonConflict | ReasonAlreadyExists | ReasonOther.

#[global] Instance api_reason_eq_dec : EqDecision api_reason.
Proof. solve_decision. Defined.

Inductive error :=
| errWaiting (msg : string)
| errIgnore (msg : string)
| ErrSkip
| StatusError (reason : api_reason) (msg : string)
| errorString (msg : string)
| wrapError (msg : string) (inner : error).

#[global] Instance error_eq_dec : EqDecision error.
Proof. solve_decision. Defined.

(** The message of an error ([Error()]); a wrapping error carries its full text. *)
Definition Error (e : error) : string :=
  match e with
  | errWaiting m | errIgnore m | StatusError _ m | errorString m | wrapError m _ => m
  | ErrSkip => "ignore handler error"
  end.

(** [errors.As(err, target)]: the chain of wrapped errors is searched. *)
Fixpoint errors_As (is_target : error -> bool) (e : error) : bool :=
  is_target e || match e with wrapError _ e' => errors_As is_target e' | _ => false end.

Definition is_errWaiting (e : error) : bool := match e with errWaiting _ => true | _ => false end.
Definition is_errIgnore (e : error) : bool := match e with errIgnore _ => true | _ => false end.
Definition is_ErrSkip (e : error) : bool := match e with ErrSkip => true | _ => false end.

(** [errWaitingf] renders its arguments into the text of an [errWaiting]. *)
Definition errWaitingf (rendered : string) : error := errWaiting rendered.

Definition IsErrWaiting (e : error) : bool := errors_As is_errWaiting e.
Definition IsErrSkip (e : error) : bool := errors_As is_ErrSkip e.

(** [apierrors.IsNotFound] / [IsConflict] look through wrapped errors as well. *)
Definition has_reason (r : api_reason) (e : error) : bool :=
  errors_As (fun e => match e with StatusError r' _ => bool_decide (r = r') | _ => false end) e.
Definition IsNotFound : error -> bool := has_reason ReasonNotFound.
Definition IsConflict : error -> bool := has_reason ReasonConflict.
Definition IsAlreadyExists : error -> bool := has_reason ReasonAlreadyExists.

(** [ignoreErrors]: an [errIgnore] is remembered instead of returned; the first one wins. *)
Definition ignoreErrors (firstIgnoreError err : option error) : option error * option error :=
  match err with
  | Some e =>
      if errors_As is_errIgnore e then
        match firstIgnoreError with
        | None => (err, None)
        | Some _ => (firstIgnoreError, None)
        end
      else (firstIgnoreError, err)
  | None => (firstIgnoreError, err)
  end.

(** The error left over is never an [errIgnore], and no other error is dropped. *)
Lemma ignoreErrors_spec first err f e :
  ignoreErrors first err = (f, e) ->
  (forall x, e = Some x -> err = Some x /\ errors_As is_errIgnore x = false)
  /\ (e = None -> err = None \/ exists x, err = Some x /\ errors_As is_errIgnore x = true)
  /\ (first <> None -> f = first).
Proof.
  unfold ignoreErrors. destruct err as [x|]; [destruct (errors_As is_errIgnore x) eqn:E|];
    destruct first; intros [= <- <-]; repeat split; intros; simplify_eq; eauto.
Qed.

(** ** Runs *)

Inductive res (A : Type) := Ret (a : A) | Fail (e : error) | Panic.
Arguments Ret {A} a.
Arguments Fail {A} e.
Arguments Panic {A}.

Definition res_bind {A B} (r : res A) (f : A -> res B) : res B :=
  match r with Ret a => f a | Fail e => Fail e | Panic => Panic end.

(** A loop that collects results and stops at the first error. *)
Fixpoint res_map {A B} (f : A -> res B) (l : list A) : res (list B) :=
  match l with
  | [] => Ret []
  | x :: l' => res_bind (f x) (fun y => res_bind (res_map f l') (fun ys => Ret (y :: ys)))
  end.

Lemma res_map_Ret {A B} (f : A -> res B) l ys :
  res_map f l = Ret ys <-> Forall2 (fun x y => f x = Ret y) l ys.
Proof.
  revert ys. induction l as [|x l IH]; intros ys; simpl.
  - split; [intros [= <-]; constructor|inversion 1; done].
  - split.
    + destruct (f x) as [y|e|] eqn:Ex; simpl; try done.
      destruct (res_map f l) as [zs|e|]; simpl; try done. intros [= <-]. constructor; [done|]. by apply IH.
    + inversion 1 as [|? y ? zs Hy Hz]; subst. rewrite Hy. simpl. apply IH in Hz. by rewrite Hz.
Qed.

Definition ST (S A : Type) : Type := S -> S * res A.

Section monad.
Context {S : Type}.

Definition ret {A} (a : A) : ST S A := fun s => (s, Ret a).
Definition fail {A} (e : error) : ST S A := fun s => (s, Fail e).
Definition panic {A} : ST S A := fun s => (s, Panic).
Definition lift {A} (r : res A) : ST S A := fun s => (s, r).
Definition gets {A} (f : S -> A) : ST S A := fun s => (s, Ret (f s)).
Definition modify (f : S -> S) : ST S unit := fun s => (f s, Ret tt).

Definition bind {A B} (c : ST S A) (k : A -> ST S B) : ST S B :=
  fun s => match c s with
           | (s', Ret a) => k a s'
           | (s', Fail e) => (s', Fail e)
           | (s', Panic) => (s', Panic)
           end.

(** Run [c] and hand its error, if any, to the continuation: Go's [err] as a value. *)
Definition attempt {A} (c : ST S A) : ST S (A + error) :=
  fun s => match c s with
           | (s', Ret a) => (s', Ret (inl a))
           | (s', Fail e) => (s', Ret (inr e))
           | (s', Panic) => (s', Panic)
           end.

(** Only the error of [c], as an [error] that may be nil. *)
Definition attempt_err {A} (c : ST S A) : ST S (option error) :=
  bind (attempt c) (fun r => ret (match r with inl _ => None | inr e => Some e end)).

Definition fail_if (e : option error) : ST S unit :=
  match e with Some e => fail e | None => ret tt end.

(** [for _, x := range l { ... }] with an accumulator for the variables the body assigns. *)
Fixpoint for_fold {A B} (l : list A) (acc : B) (body : B -> A -> ST S B) : ST S B :=
  match l with
  | [] => ret acc
  | x :: l' => bind (body acc x) (fun acc' => for_fold l' acc' body)
  end.
End monad.

Notation "'let*' x ':=' c 'in' k" := (bind c (fun x => k))
  (at level 10, x name, c at level 200, k at level 200, only parsing) : planner_scope.
Notation "'let*' ' p ':=' c 'in' k" := (bind c (fun x => match x with p => k end))
  (at level 10, p pattern, c at level 200, k at level 200, only parsing) : planner_scope.

Notation "'let?' x ':=' r 'in' k" := (res_bind r (fun x => k))
  (at level 10, x name, r at level 200, k at level 200, only parsing) : planner_scope.
Notation "'let?' ' p ':=' r 'in' k" := (res_bind r (fun x => match x with p => k end))
  (at level 10, p pattern, r at level 200, k at level 200, only parsing) : planner_scope.

(** ** Retries

    [retry.RetryOnConflict]: [n] attempts while the error is a conflict. *)
Fixpoint RetryOnConflict {S} (n : nat) (fn : ST S unit) : ST S unit :=
  match n with
  | O => fail (errorString "timed out waiting for the condition")
  | S n' =>
      let* r := attempt fn in
      match r with
      | inl _ => ret tt
      | inr e => match n' with
                 | O => fail e
                 | S _ => if IsConflict e then RetryOnConflict n' fn else fail e
                 end
      end
  end.

(** The same for a function that assigns a variable of its caller: the variable keeps the value of
    the last attempt, whatever the outcome. *)
Fixpoint RetryOnConflict_var {S V} (n : nat) (fn : V -> ST S (V * option error)) (v : V)
  : ST S (V * option error) :=
  match n with
  | O => ret (v, Some (errorString "timed out waiting for the condition"))
  | S n' =>
      let* r := fn v in
      match r with
      | (v', None) => ret (v', None)
      | (v', Some e) => match n' with
                        | O => ret (v', Some e)
                        | S _ => if IsConflict e then RetryOnConflict_var n' fn v' else ret (v', Some e)
                        end
      end
  end.

(** [wait.ExponentialBackoff] with [n] attempts of a condition that assigns a variable of its caller. *)
Fixpoint ExponentialBackoff {S V} (n : nat) (cond : V -> ST S (V * bool)) (v : V) : ST S V :=
  match n with
  | O => fail (errorString "timed out waiting for the condition")
  | S n' =>
      let* r := cond v in
      match r with
      | (v', true) => ret v'
      | (v', false) => ExponentialBackoff n' cond v'
      end
  end.

(** ** Specifications of runs

    [runs I R c Q]: from a state that satisfies the invariant [I], whatever the outcome, [c] ends in a
    state that satisfies [I] and is related by [R] to the first one, and a value it returns satisfies
    [Q].  With a reflexive and transitive [R] this composes over [bind] and loops. *)
Section runs.
Context {S : Type} (I : S -> Prop) (R : relation S).

Definition runs {A} (c : ST S A) (Q : A -> Prop) : Prop :=
  forall s, I s -> I (fst (c s)) /\ R s (fst (c s)) /\ forall a, snd (c s) = Ret a -> Q a.

Context `{!PreOrder R}.

Lemma runs_ret {A} (a : A) (Q : A -> Prop) : Q a -> runs (ret a) Q.
Proof. intros HQ s Hs. simpl. split; [done|]. split; [reflexivity|]. by intros ? [= <-]. Qed.
Lemma runs_fail {A} e (Q : A -> Prop) : runs (fail e) Q.
Proof. intros s Hs. simpl. split; [done|]. by split; [reflexivity|]. Qed.
Lemma runs_panic {A} (Q : A -> Prop) : runs panic Q.
Proof. intros s Hs. simpl. split; [done|]. by split; [reflexivity|]. Qed.
Lemma runs_lift {A} (r : res A) (Q : A -> Prop) : (forall a, r = Ret a -> Q a) -> runs (lift r) Q.
Proof. intros HQ s Hs. simpl. split; [done|]. split; [reflexivity|]. auto. Qed.
Lemma runs_gets {A} (f : S -> A) (Q : A -> Prop) : (forall s, I s -> Q (f s)) -> runs (gets f) Q.
Proof. intros HQ s Hs. simpl. split; [done|]. split; [reflexivity|]. intros ? [= <-]. auto. Qed.
Lemma runs_modify f (Q : unit -> Prop) : (forall s, I s -> I (f s) /\ R s (f s)) -> Q tt -> runs (modify f) Q.
Proof. intros Hf HQ s Hs. simpl. destruct (Hf s Hs). repeat split; auto. by intros [] _. Qed.
Lemma runs_fail_if e (Q : unit -> Prop) : (e = None -> Q tt) -> runs (fail_if e) Q.
Proof. intros HQ. destruct e; [apply runs_fail|apply runs_ret; auto]. Qed.

Lemma runs_bind {A B} (c : ST S A) (k : A -> ST S B) (Q : A -> Prop) (Q' : B -> Prop) :
  runs c Q -> (forall a, Q a -> runs (k a) Q') -> runs (bind c k) Q'.
Proof.
  intros Hc Hk s Hs. unfold bind. destruct (Hc s Hs) as (H1 & H2 & H3).
  destruct (c s) as [s' [a|e|]]; simpl in *; [|by repeat split..].
  destruct (Hk a (H3 a eq_refl) s' H1) as (H4 & H5 & H6). repeat split; auto. by etrans.
Qed.

Lemma runs_weaken {A} (c : ST S A) (Q Q' : A -> Prop) : runs c Q -> (forall a, Q a -> Q' a) -> runs c Q'.
Proof. intros Hc HQ s Hs. destruct (Hc s Hs) as (H1 & H2 & H3). repeat split; auto. Qed.

Lemma runs_attempt {A} (c : ST S A) (Q : A -> Prop) (Q' : A + error -> Prop) :
  runs c Q -> (forall a, Q a -> Q' (inl a)) -> (forall e, Q' (inr e)) -> runs (attempt c) Q'.
Proof.
  intros Hc Ha He s Hs. unfold attempt. destruct (Hc s Hs) as (H1 & H2 & H3).
  destruct (c s) as [s' [a|e|]]; simpl in *; repeat split; auto; intros ? [= <-]; auto.
Qed.

Lemma runs_attempt_err {A} (c : ST S A) (Q : A -> Prop) : runs c Q -> runs (attempt_err c) (fun _ => True).
Proof.
  intros Hc. eapply (runs_bind _ _ (fun _ => True)); [by eapply runs_attempt|].
  intros; by apply runs_ret.
Qed.

Lemma runs_for_fold {A B} (l : list A) (body : B -> A -> ST S B) (Q : B -> Prop) acc :
  Q acc -> (forall acc x, x ∈ l -> Q acc -> runs (body acc x) Q) -> runs (for_fold l acc body) Q.
Proof.
  revert acc. induction l as [|x l IH]; intros acc Hacc Hb; simpl; [by apply runs_ret|].
  eapply runs_bind; [apply Hb; [constructor|done]|]. intros acc' Hacc'. apply IH; [done|].
  intros acc'' y Hy. apply Hb. by constructor.
Qed.
End runs.

(** A weaker relation is kept as well. *)
Lemma runs_relation {S A} (I : S -> Prop) (R R' : relation S) (c : ST S A) Q :
  runs I R c Q -> (forall s s', R s s' -> R' s s') -> runs I R' c Q.
Proof. intros Hc HR s Hs. destruct (Hc s Hs) as (H1 & H2 & H3). repeat split; auto. Qed.

(** Follows the structure of a program; values in between are not constrained. *)
Ltac runs_step :=
  match goal with
  | |- runs _ _ (ret _) _ => apply runs_ret; [apply _|]
  | |- runs _ _ (fail _) _ => apply runs_fail; apply _
  | |- runs _ _ panic _ => apply runs_panic; apply _
  | |- runs _ _ (lift _) _ => apply runs_lift; [apply _|intros]
  | |- runs _ _ (gets _) _ => apply runs_gets; [apply _|intros]
  | |- runs _ _ (fail_if _) _ => apply runs_fail_if; [apply _|intros]
  | |- runs _ _ (bind _ _) _ =>
      first [eapply runs_bind; [apply _|solve [eauto with planner]|intros]
            |eapply (runs_bind _ _ _ _ (fun _ => True)); [|intros]]
  | |- runs _ _ (attempt_err _) _ => eapply runs_attempt_err; [apply _|]
  | |- runs _ _ (for_fold _ _ _) (fun _ => True) => apply runs_for_fold; [apply _|done|intros]
  | |- runs _ _ (match ?x with _ => _ end) _ => destruct x eqn:?
  | |- runs _ _ (if ?x then _ else _) _ => destruct x eqn:?
  | _ => progress cbn beta iota zeta
  end.
Ltac runs_auto :=
  repeat first
    [ solve [eauto with planner]
    | solve [eapply runs_weaken; [solve [eauto with planner]|done]]
    | runs_step | done ].

(** Inversion of a run that ended well. *)
Lemma bind_Ret {S A B} (c : ST S A) (k : A -> ST S B) s s' b :
  bind c k s = (s', Ret b) -> exists a s1, c s = (s1, Ret a) /\ k a s1 = (s', Ret b).
Proof. unfold bind. destruct (c s) as [s1 [a|e|]]; naive_solver. Qed.

Lemma for_fold_cons {S A B} (x : A) l (acc : B) (body : B -> A -> ST S B) :
  for_fold (x :: l) acc body = bind (body acc x) (fun acc' => for_fold l acc' body).
Proof. done. Qed.

Lemma attempt_err_Ret {S A} (c : ST S A) s s' r :
  attempt_err c s = (s', Ret r) ->
  (r = None /\ exists a, c s = (s', Ret a)) \/ (exists e, r = Some e /\ c s = (s', Fail e)).
Proof.
  unfold attempt_err, bind, attempt, ret. destruct (c s) as [s1 [a|e|]]; intros [= <- <-]; eauto.
Qed.

(** Running a program whose first step is known. *)
Lemma bind_run {S A B} (c : ST S A) (k : A -> ST S B) s s' a :
  c s = (s', Ret a) -> bind c k s = k a s'.
Proof. intros Hc. unfold bind. by rewrite Hc. Qed.

Lemma res_bind_Ret {A B} (r : res A) (f : A -> res B) b :
  res_bind r f = Ret b -> exists a, r = Ret a /\ f a = Ret b.
Proof. destruct r; naive_solver. Qed.

(** Takes a computation that returned apart, step by step. *)
Ltac res_inv :=
  repeat match goal with
  | Hr : res_bind _ _ = Ret _ |- _ =>
      let a := fresh "a" in let Ha := fresh "Ha" in
      apply res_bind_Ret in Hr as (a & Ha & Hr)
  | x : (_ * _)%type |- _ => destruct x
  | Hr : Ret _ = Ret _ |- _ => inv Hr
  | Hr : Fail _ = Ret _ |- _ => discriminate Hr
  | Hr : Panic = Ret _ |- _ => discriminate Hr
  end.

(** Whether a computation returns, as a test that can be evaluated. *)
Definition returns {A} (r : res A) : bool := match r with Ret _ => true | _ => false end.

Lemma returns_Ret {A} (r : res A) : returns r = true -> exists a, r = Ret a.
Proof. destruct r; [eauto|done..]. Qed.

Lemma returns_run {S A} (c : ST S A) s : returns (snd (c s)) = true -> exists s' a, c s = (s', Ret a).
Proof. destruct (c s) as [s' [a| |]]; [eauto|done..]. Qed.

Lemma returns_with {A} (Q : A -> Prop) (r : res A) :
  match r with Ret a => Q a | _ => False end -> exists a, r = Ret a /\ Q a.
Proof. destruct r; [eauto|done..]. Qed.

(** A loop whose turns leave the state alone. *)
Lemma for_fold_still {S A} (l : list A) (body : A -> ST S unit) (Q : A -> Prop) s s' u :
  (forall x s1 u, x ∈ l -> body x s = (s1, Ret u) -> s1 = s /\ Q x) ->
  for_fold l tt (fun _ => body) s = (s', Ret u) -> s' = s /\ Forall Q l.
Proof.
  intros Hb. induction l as [|x l IH]; [intros [= <- _]; by split|].
  rewrite for_fold_cons. intros ([] & s1 & H1 & H2)%bind_Ret.
  destruct (Hb x s1 tt) as [-> Hx]; [constructor|done|].
  destruct IH as [-> Hl]; [|done|]; [|by split; [|constructor]].
  intros y s2 u' Hy. apply Hb. by constructor.
Qed.

Lemma RetryOnConflict_Ret {S} n (fn : ST S unit) w w' u :
  RetryOnConflict n fn w = (w', Ret u) -> exists w1, fn w1 = (w', Ret tt).
Proof.
  revert w. induction n as [|n IH]; intros w; simpl; [done|]. intros (r & w1 & Hr & Hk)%bind_Ret.
  unfold attempt in Hr. destruct (fn w) as [w2 [[]|e|]] eqn:Ef; inv Hr; [inv Hk; eauto|].
  destruct n; [done|]. destruct (IsConflict e); [by apply IH in Hk|done].
Qed.

(** What a relation on states that every attempt respects says of the whole loop. *)
Lemma runs_RetryOnConflict_var {S V} (I : S -> Prop) (R : relation S) `{!PreOrder R} n
    (fn : V -> ST S (V * option error)) (v : V) :
  (forall v, runs I R (fn v) (fun _ => True)) -> runs I R (RetryOnConflict_var n fn v) (fun _ => True).
Proof.
  intros Hfn. revert v. induction n as [|n IH]; intros v; simpl; [by apply runs_ret|].
  eapply runs_bind; [done|apply Hfn|]. intros [v' [e|]] _; [|by apply runs_ret].
  destruct n; [by apply runs_ret|]. destruct (IsConflict e); [apply IH|by apply runs_ret].
Qed.

(** ** Weakest preconditions

    [wp c Q s]: the run of [c] from [s] ends in an outcome and a state that satisfy [Q]. *)
Definition wp {S A} (c : ST S A) (Q : res A -> S -> Prop) (s : S) : Prop := Q (snd (c s)) (fst (c s)).

Lemma wp_run {S A} (c : ST S A) Q s s' r : c s = (s', r) -> wp c Q s -> Q r s'.
Proof. unfold wp. by intros ->. Qed.

Lemma wp_intro {S A} (c : ST S A) Q s : (forall s' r, c s = (s', r) -> Q r s') -> wp c Q s.
Proof. unfold wp. destruct (c s); eauto. Qed.

Lemma wp_mono {S A} (c : ST S A) (Q Q' : res A -> S -> Prop) s :
  wp c Q s -> (forall r s', Q r s' -> Q' r s') -> wp c Q' s.
Proof. unfold wp. auto. Qed.

Lemma wp_ret {S A} (a : A) Q (s : S) : Q (Ret a) s -> wp (ret a) Q s.
Proof. done. Qed.
Lemma wp_gets {S A} (f : S -> A) Q s : Q (Ret (f s)) s -> wp (gets f) Q s.
Proof. done. Qed.

Lemma wp_bind {S A B} (c : ST S A) (k : A -> ST S B) Q s :
  wp c (fun r s' => match r with
                    | Ret a => wp (k a) Q s'
                    | Fail e => Q (Fail e) s'
                    | Panic => Q Panic s'
                    end) s -> wp (bind c k) Q s.
Proof. unfold wp, bind. destruct (c s) as [s' [a|e|]]; simpl; auto. Qed.

Lemma wp_attempt {S A} (c : ST S A) Q s :
  wp c (fun r s' => match r with
                    | Ret a => Q (Ret (inl a)) s'
                    | Fail e => Q (Ret (inr e)) s'
                    | Panic => Q Panic s'
                    end) s -> wp (attempt c) Q s.
Proof. unfold wp, attempt. destruct (c s) as [s' [a|e|]]; simpl; auto. Qed.

Lemma wp_attempt_err {S A} (c : ST S A) Q s :
  wp c (fun r s' => match r with
                    | Ret a => Q (Ret None) s'
                    | Fail e => Q (Ret (Some e)) s'
                    | Panic => Q Panic s'
                    end) s -> wp (attempt_err c) Q s.
Proof. unfold wp, attempt_err, attempt, bind. destruct (c s) as [s' [a|e|]]; simpl; auto. Qed.

(** What is kept by every attempt of a loop of retries, and where it ends. *)
Lemma wp_RetryOnConflict_var {S V} n (fn : V -> ST S (V * option error)) v s
    (I : V -> S -> Prop) (Q : res (V * option error) -> S -> Prop) :
  (forall v s e, I v s -> Q (Ret (v, Some e)) s) ->
  (forall v s, I v s -> wp (fn v) (fun r s' => match r with
     | Ret (v', Some e) => I v' s'
     | r => Q r s' end) s) ->
  I v s -> wp (RetryOnConflict_var n fn v) Q s.
Proof.
  intros HE Hfn. revert v s. induction n as [|n IH]; intros v s Hv; simpl; [by apply (HE v)|].
  apply wp_bind. eapply wp_mono; [by apply Hfn|]. cbv beta. intros [[v' [e|]]|e|] s' HI; [|done..].
  destruct n; [by apply (HE v')|]. destruct (IsConflict e); [by apply IH|by apply (HE v')].
Qed.

Lemma wp_RetryOnConflict {S} n (fn : ST S unit) s (I : S -> Prop) (Q : res unit -> S -> Prop) :
  (forall s e, I s -> Q (Fail e) s) ->
  (forall s, I s -> wp fn (fun r s' => match r with Fail _ => I s' | r => Q r s' end) s) ->
  I s -> wp (RetryOnConflict n fn) Q s.
Proof.
  intros HE Hfn. revert s. induction n as [|n IH]; intros s Hs; simpl; [by apply HE|].
  apply wp_bind, wp_attempt. eapply wp_mono; [by apply Hfn|]. cbv beta. intros [[]|e|] s' Hr; [done| |done].
  destruct n; [by apply HE|]. destruct (IsConflict e); [by apply IH|by apply HE].
Qed.

Lemma wp_lift {S A} (r : res A) Q (s : S) : Q r s -> wp (lift r) Q s.
Proof. done. Qed.

(** What a successful attempt guarantees. *)
Lemma ExponentialBackoff_Ret {S V} n (cond : V -> ST S (V * bool)) v s s' v' :
  ExponentialBackoff n cond v s = (s', Ret v') -> exists v1 s1, cond v1 s1 = (s', Ret (v', true)).
Proof.
  revert v s. induction n as [|n IH]; intros v s; simpl; [done|]. intros ([v1 ok] & s1 & Hc & Hk)%bind_Ret.
  destruct ok; [inv Hk; eauto|eauto].
Qed.

(** ** Programs that do not panic *)

Definition no_panic {S A} (c : ST S A) : Prop := forall s, snd (c s) <> Panic.

Lemma no_panic_ret {S A} (a : A) : no_panic (S := S) (ret a).
Proof. done. Qed.
Lemma no_panic_fail {S A} e : no_panic (S := S) (A := A) (fail e).
Proof. done. Qed.
Lemma no_panic_gets {S A} (f : S -> A) : no_panic (gets f).
Proof. done. Qed.
Lemma no_panic_modify {S} (f : S -> S) : no_panic (modify f).
Proof. done. Qed.
Lemma no_panic_lift {S A} (r : res A) : r <> Panic -> no_panic (S := S) (lift r).
Proof. by intros Hr s. Qed.
Lemma no_panic_bind {S A B} (c : ST S A) (k : A -> ST S B) : no_panic c -> (forall a, no_panic (k a)) -> no_panic (bind c k).
Proof. intros Hc Hk s. unfold bind. specialize (Hc s). destruct (c s) as [s' [a|e|]]; [apply Hk|done..]. Qed.
Lemma no_panic_attempt_err {S A} (c : ST S A) : no_panic c -> no_panic (attempt_err c).
Proof. intros Hc s. unfold attempt_err, bind, attempt, ret. specialize (Hc s). by destruct (c s) as [s' [a|e|]]. Qed.
Lemma no_panic_for_fold {S A B} (l : list A) (body : B -> A -> ST S B) acc :
  (forall acc x, no_panic (body acc x)) -> no_panic (for_fold l acc body).
Proof. intros Hb. revert acc. induction l as [|x l IH]; intros acc; simpl; [done|]. by apply no_panic_bind. Qed.

Create HintDb no_panic.
#[export] Hint Resolve no_panic_ret no_panic_fail no_panic_gets no_panic_modify no_panic_lift no_panic_bind
  no_panic_attempt_err no_panic_for_fold : no_panic.

Ltac no_panic_auto :=
  repeat first
    [ solve [eauto with no_panic]
    | apply no_panic_attempt_err
    | apply no_panic_bind; [|intros]
    | apply no_panic_for_fold; intros
    | match goal with |- no_panic (match ?x with _ => _ end) => destruct x eqn:? end
    | progress cbn beta iota zeta ].
