(* ===== verification/Types.v ===== *)
(** * Data model

    The types of [pkg/apis/rke.cattle.io/v1] and [pkg/apis/rke.cattle.io/v1/plan] and the Kubernetes
    and cluster-api objects; of an object with more fields, those the planner reads or writes.  Pointers that may
    be nil are [option]s; maps are [gmap]s (a nil map reads as an empty one); a deletion timestamp
    is only ever tested for nil. *)

From S2P Require Import Prelude GoLib Errors.

Set Warnings "-register-all".

(** ** Package plan *)

(** [plan.File] *)
Record File := mkFile {
  f_Content : string;
  f_Path : string;
  f_Permissions : string;
  f_Dynamic : bool;
  f_Minor : bool
}.

#[global] Instance File_eq_dec : EqDecision File.
Proof. solve_decision. Defined.

Definition set_f_Permissions (v : string) (r : File) : File :=
  mkFile (f_Content r) (f_Path r) v (f_Dynamic r) (f_Minor r).

(** [plan.OneTimeInstruction] *)
Record OneTimeInstruction := mkOneTimeInstruction {
  i_Name : string;
  i_Image : string;
  i_Env : list string;
  i_Args : list string;
  i_Command : string;
  i_SaveOutput : bool
}.

#[global] Instance OneTimeInstruction_eq_dec : EqDecision OneTimeInstruction.
Proof. solve_decision. Defined.

Definition set_i_Image (v : string) (r : OneTimeInstruction) : OneTimeInstruction :=
  mkOneTimeInstruction (i_Name r) v (i_Env r) (i_Args r) (i_Command r) (i_SaveOutput r).

Definition set_i_SaveOutput (v : bool) (r : OneTimeInstruction) : OneTimeInstruction :=
  mkOneTimeInstruction (i_Name r) (i_Image r) (i_Env r) (i_Args r) (i_Command r) v.

Definition set_i_Env (v : list string) (r : OneTimeInstruction) : OneTimeInstruction :=
  mkOneTimeInstruction (i_Name r) (i_Image r) v (i_Args r) (i_Command r) (i_SaveOutput r).

Definition set_i_Args (v : list string) (r : OneTimeInstruction) : OneTimeInstruction :=
  mkOneTimeInstruction (i_Name r) (i_Image r) (i_Env r) v (i_Command r) (i_SaveOutput r).

(** [plan.PeriodicInstruction] *)
Record PeriodicInstruction := mkPeriodicInstruction {
  pi_Name : string;
  pi_Image : string;
  pi_Env : list string;
  pi_Args : list string;
  pi_Command : string;
  pi_PeriodSeconds : Z
}.

#[global] Instance PeriodicInstruction_eq_dec : EqDecision PeriodicInstruction.
Proof. solve_decision. Defined.

(** [plan.HTTPGetAction] *)
Record HTTPGetAction := mkHTTPGetAction {
  h_URL : string;
  h_Insecure : bool;
  h_ClientCert : string;
  h_ClientKey : string;
  h_CACert : string
}.

#[global] Instance HTTPGetAction_eq_dec : EqDecision HTTPGetAction.
Proof. solve_decision. Defined.

Definition set_h_URL (v : string) (r : HTTPGetAction) : HTTPGetAction :=
  mkHTTPGetAction v (h_Insecure r) (h_ClientCert r) (h_ClientKey r) (h_CACert r).

Definition set_h_ClientCert (v : string) (r : HTTPGetAction) : HTTPGetAction :=
  mkHTTPGetAction (h_URL r) (h_Insecure r) v (h_ClientKey r) (h_CACert r).

Definition set_h_ClientKey (v : string) (r : HTTPGetAction) : HTTPGetAction :=
  mkHTTPGetAction (h_URL r) (h_Insecure r) (h_ClientCert r) v (h_CACert r).

Definition set_h_CACert (v : string) (r : HTTPGetAction) : HTTPGetAction :=
  mkHTTPGetAction (h_URL r) (h_Insecure r) (h_ClientCert r) (h_ClientKey r) v.

(** [plan.Probe] *)
Record Probe := mkProbe {
  pr_Name : string;
  pr_InitialDelaySeconds : Z;
  pr_TimeoutSeconds : Z;
  pr_SuccessThreshold : Z;
  pr_FailureThreshold : Z;
  pr_HTTPGetAction : HTTPGetAction
}.

#[global] Instance Probe_eq_dec : EqDecision Probe.
Proof. solve_decision. Defined.

Definition set_pr_HTTPGetAction (v : HTTPGetAction) (r : Probe) : Probe :=
  mkProbe (pr_Name r) (pr_InitialDelaySeconds r) (pr_TimeoutSeconds r) (pr_SuccessThreshold r) (pr_FailureThreshold r) v.

(** [plan.NodePlan] *)
Record NodePlan := mkNodePlan {
  np_Files : list File;
  np_Instructions : list OneTimeInstruction;
  np_PeriodicInstructions : list PeriodicInstruction;
  np_Error : string;
  np_Probes : gmap string Probe
}.

#[global] Instance NodePlan_eq_dec : EqDecision NodePlan.
Proof. solve_decision. Defined.

Definition set_np_Files (v : list File) (r : NodePlan) : NodePlan :=
  mkNodePlan v (np_Instructions r) (np_PeriodicInstructions r) (np_Error r) (np_Probes r).

Definition set_np_Instructions (v : list OneTimeInstruction) (r : NodePlan) : NodePlan :=
  mkNodePlan (np_Files r) v (np_PeriodicInstructions r) (np_Error r) (np_Probes r).

Definition set_np_PeriodicInstructions (v : list PeriodicInstruction) (r : NodePlan) : NodePlan :=
  mkNodePlan (np_Files r) (np_Instructions r) v (np_Error r) (np_Probes r).

Definition set_np_Probes (v : gmap string Probe) (r : NodePlan) : NodePlan :=
  mkNodePlan (np_Files r) (np_Instructions r) (np_PeriodicInstructions r) (np_Error r) v.

Definition emptyNodePlan : NodePlan := mkNodePlan [] [] [] EmptyString ∅.
Definition emptyInstruction : OneTimeInstruction := mkOneTimeInstruction EmptyString EmptyString [] [] EmptyString false.

(** [plan.ProbeStatus] *)
Record ProbeStatus := mkProbeStatus {
  ps_Healthy : bool;
  ps_SuccessCount : Z;
  ps_FailureCount : Z
}.

#[global] Instance ProbeStatus_eq_dec : EqDecision ProbeStatus.
Proof. solve_decision. Defined.

(** [plan.PeriodicInstructionOutput] *)
Record PeriodicInstructionOutput := mkPeriodicInstructionOutput {
  po_Name : string;
  po_Stdout : string;
  po_Stderr : string;
  po_ExitCode : Z;
  po_LastSuccessfulRunTime : string
}.

#[global] Instance PeriodicInstructionOutput_eq_dec : EqDecision PeriodicInstructionOutput.
Proof. solve_decision. Defined.

(** [plan.Node] *)
Record Node := mkNode {
  n_Plan : NodePlan;
  n_AppliedPlan : option NodePlan;
  n_JoinedTo : string;
  n_Output : gmap string string;
  n_PeriodicOutput : gmap string PeriodicInstructionOutput;
  n_Failed : bool;
  n_InSync : bool;
  n_Healthy : bool;
  n_PlanDataExists : bool;
  n_ProbeStatus : gmap string ProbeStatus;
  n_ProbesUsable : bool
}.

#[global] Instance Node_eq_dec : EqDecision Node.
Proof. solve_decision. Defined.

(** [plan.Metadata] *)
Record Metadata := mkMetadata {
  md_Labels : gmap string string;
  md_Annotations : gmap string string
}.

#[global] Instance Metadata_eq_dec : EqDecision Metadata.
Proof. solve_decision. Defined.

Definition set_md_Labels (v : gmap string string) (r : Metadata) : Metadata :=
  mkMetadata v (md_Annotations r).

Definition set_md_Annotations (v : gmap string string) (r : Metadata) : Metadata :=
  mkMetadata (md_Labels r) v.

(** [plan.Secret] *)
Record TokensSecret := mkTokensSecret {
  ts_ServerToken : string;
  ts_AgentToken : string
}.

#[global] Instance TokensSecret_eq_dec : EqDecision TokensSecret.
Proof. solve_decision. Defined.

(** ** Kubernetes and cluster-api objects *)

(** A status condition *)
Record Condition := mkCondition {
  c_Type : string;
  c_Status : string;
  c_Reason : string;
  c_Message : string;
  c_Severity : string
}.

#[global] Instance Condition_eq_dec : EqDecision Condition.
Proof. solve_decision. Defined.

(** [metav1.OwnerReference] *)
Record OwnerReference := mkOwnerReference {
  or_APIVersion : string;
  or_Kind : string;
  or_Name : string;
  or_UID : string;
  or_Controller : bool
}.

#[global] Instance OwnerReference_eq_dec : EqDecision OwnerReference.
Proof. solve_decision. Defined.

(** [corev1.ObjectReference] *)
Record ObjectReference := mkObjectReference {
  ref_Kind : string;
  ref_Namespace : string;
  ref_Name : string;
  ref_APIVersion : string
}.

#[global] Instance ObjectReference_eq_dec : EqDecision ObjectReference.
Proof. solve_decision. Defined.

(** [capi.MachineAddress] *)
Record MachineAddress := mkMachineAddress {
  ma_Type : string;
  ma_Address : string
}.

#[global] Instance MachineAddress_eq_dec : EqDecision MachineAddress.
Proof. solve_decision. Defined.

(** [capi.Machine]: [m_Deleting] tells whether the deletion timestamp is set, [m_KubeletVersion] is [Status.NodeInfo.KubeletVersion] when [NodeInfo] is not nil. *)
Record Machine := mkMachine {
  m_Namespace : string;
  m_Name : string;
  m_UID : string;
  m_Labels : gmap string string;
  m_Annotations : gmap string string;
  m_Deleting : bool;
  m_ConfigRef : option ObjectReference;
  m_InfrastructureRef : ObjectReference;
  m_Phase : string;
  m_Conditions : list Condition;
  m_NodeRef : option ObjectReference;
  m_KubeletVersion : option string;
  m_Addresses : list MachineAddress;
  m_FailureReason : option string;
  m_ClusterName : string;
  m_APIVersion : string;
  m_Kind : string;
  m_DataSecretName : option string;                   (** of the bootstrap *)
  m_ProviderID : option string
}.

#[global] Instance Machine_eq_dec : EqDecision Machine.
Proof. solve_decision. Defined.

Definition set_m_Labels (v : gmap string string) (r : Machine) : Machine :=
  mkMachine (m_Namespace r) (m_Name r) (m_UID r) v (m_Annotations r) (m_Deleting r) (m_ConfigRef r) (m_InfrastructureRef r) (m_Phase r) (m_Conditions r) (m_NodeRef r) (m_KubeletVersion r) (m_Addresses r) (m_FailureReason r) (m_ClusterName r) (m_APIVersion r) (m_Kind r) (m_DataSecretName r) (m_ProviderID r).

Definition set_m_Annotations (v : gmap string string) (r : Machine) : Machine :=
  mkMachine (m_Namespace r) (m_Name r) (m_UID r) (m_Labels r) v (m_Deleting r) (m_ConfigRef r) (m_InfrastructureRef r) (m_Phase r) (m_Conditions r) (m_NodeRef r) (m_KubeletVersion r) (m_Addresses r) (m_FailureReason r) (m_ClusterName r) (m_APIVersion r) (m_Kind r) (m_DataSecretName r) (m_ProviderID r).

Definition set_m_Deleting (v : bool) (r : Machine) : Machine :=
  mkMachine (m_Namespace r) (m_Name r) (m_UID r) (m_Labels r) (m_Annotations r) v (m_ConfigRef r) (m_InfrastructureRef r) (m_Phase r) (m_Conditions r) (m_NodeRef r) (m_KubeletVersion r) (m_Addresses r) (m_FailureReason r) (m_ClusterName r) (m_APIVersion r) (m_Kind r) (m_DataSecretName r) (m_ProviderID r).

Definition set_m_Conditions (v : list Condition) (r : Machine) : Machine :=
  mkMachine (m_Namespace r) (m_Name r) (m_UID r) (m_Labels r) (m_Annotations r) (m_Deleting r) (m_ConfigRef r) (m_InfrastructureRef r) (m_Phase r) v (m_NodeRef r) (m_KubeletVersion r) (m_Addresses r) (m_FailureReason r) (m_ClusterName r) (m_APIVersion r) (m_Kind r) (m_DataSecretName r) (m_ProviderID r).

(** [capi.Cluster] *)
Record CAPICluster := mkCAPICluster {
  cc_Namespace : string;
  cc_Name : string;
  cc_Annotations : gmap string string;
  cc_Deleting : bool;
  cc_Paused : bool;
  cc_ControlPlaneRef : option ObjectReference;
  cc_InfrastructureReady : bool;
  cc_Conditions : list Condition
}.

#[global] Instance CAPICluster_eq_dec : EqDecision CAPICluster.
Proof. solve_decision. Defined.

Definition set_cc_Paused (v : bool) (r : CAPICluster) : CAPICluster :=
  mkCAPICluster (cc_Namespace r) (cc_Name r) (cc_Annotations r) (cc_Deleting r) v (cc_ControlPlaneRef r) (cc_InfrastructureReady r) (cc_Conditions r).

Definition set_cc_Conditions (v : list Condition) (r : CAPICluster) : CAPICluster :=
  mkCAPICluster (cc_Namespace r) (cc_Name r) (cc_Annotations r) (cc_Deleting r) (cc_Paused r) (cc_ControlPlaneRef r) (cc_InfrastructureReady r) v.

(** [corev1.Secret]; the data of a config map is read through the same record. *)
Record Secret := mkSecret {
  s_Namespace : string;
  s_Name : string;
  s_Type : string;
  s_Labels : gmap string string;
  s_Annotations : gmap string string;
  s_Data : gmap string string;
  s_OwnerReferences : list OwnerReference;
  s_Deleting : bool
}.

#[global] Instance Secret_eq_dec : EqDecision Secret.
Proof. solve_decision. Defined.

Definition set_s_Labels (v : gmap string string) (r : Secret) : Secret :=
  mkSecret (s_Namespace r) (s_Name r) (s_Type r) v (s_Annotations r) (s_Data r) (s_OwnerReferences r) (s_Deleting r).

Definition set_s_Annotations (v : gmap string string) (r : Secret) : Secret :=
  mkSecret (s_Namespace r) (s_Name r) (s_Type r) (s_Labels r) v (s_Data r) (s_OwnerReferences r) (s_Deleting r).

Definition set_s_Data (v : gmap string string) (r : Secret) : Secret :=
  mkSecret (s_Namespace r) (s_Name r) (s_Type r) (s_Labels r) (s_Annotations r) v (s_OwnerReferences r) (s_Deleting r).

(** [rkev1.RKEBootstrap] *)
Record RKEBootstrap := mkRKEBootstrap {
  rb_Namespace : string;
  rb_Name : string;
  rb_Annotations : gmap string string;
  rb_OwnerReferences : list OwnerReference;
  rb_Labels : gmap string string;
  rb_Deleting : bool;
  rb_ClusterName : string;
  rb_DataSecretName : option string;
  rb_Ready : bool
}.

#[global] Instance RKEBootstrap_eq_dec : EqDecision RKEBootstrap.
Proof. solve_decision. Defined.

Definition set_rb_Annotations (v : gmap string string) (r : RKEBootstrap) : RKEBootstrap :=
  mkRKEBootstrap (rb_Namespace r) (rb_Name r) v (rb_OwnerReferences r) (rb_Labels r) (rb_Deleting r) (rb_ClusterName r) (rb_DataSecretName r) (rb_Ready r).

Definition set_rb_ClusterName (v : string) (r : RKEBootstrap) : RKEBootstrap :=
  mkRKEBootstrap (rb_Namespace r) (rb_Name r) (rb_Annotations r) (rb_OwnerReferences r) (rb_Labels r) (rb_Deleting r) v (rb_DataSecretName r) (rb_Ready r).

(** [corev1.ServiceAccount] *)
Record ServiceAccount := mkServiceAccount {
  sa_Namespace : string;
  sa_Name : string;
  sa_Labels : gmap string string;
  sa_OwnerReferences : list OwnerReference;
  sa_UID : string
}.

#[global] Instance ServiceAccount_eq_dec : EqDecision ServiceAccount.
Proof. solve_decision. Defined.

(** [metav1.LabelSelector] *)
Record LabelSelector := mkLabelSelector {
  ls_matchLabels : gmap string string;
  ls_matchExpressions : list (string * string * list string)
}.

#[global] Instance LabelSelector_eq_dec : EqDecision LabelSelector.
Proof. solve_decision. Defined.

(** [corev1.Taint] *)
Record Taint := mkTaint {
  t_Key : string;
  t_Value : string;
  t_Effect : string
}.

#[global] Instance Taint_eq_dec : EqDecision Taint.
Proof. solve_decision. Defined.

(** ** Free-form configuration values

    The dynamic types a Go [interface{}] of a configuration map can hold: decoded JSON and the
    values the planner itself stores.  [VNum] is a decoded JSON number, by the text [%v] prints. *)
Inductive value :=
| VNil
| VBool (b : bool)
| VInt (z : Z)
| VNum (text : string)
| VString (s : string)
| VStrings (l : list string)
| VSlice (l : list value)
| VMap (l : list (string * value)).

(** [fmt.Sprintf("%v", v)]. *)
Fixpoint Sprintv (v : value) : string :=
  match v with
  | VNil => "<nil>"
  | VBool b => if b then "true" else "false"
  | VInt z => Itoa z
  | VNum t => t
  | VString s => s
  | VStrings l => "[" +:+ Join l " " +:+ "]"
  | VSlice l => "[" +:+ Join (map Sprintv l) " " +:+ "]"
  | VMap l => "map[" +:+ Join (sort_Strings (map (fun kv => fst kv +:+ ":" +:+ Sprintv (snd kv)) l)) " " +:+ "]"
  end.

(** A configuration map ([map[string]interface{}]); an absent key reads as nil. *)
Abbreviation config := (gmap string value).
Definition config_get (c : config) (k : string) : value := default VNil (c !! k).

(** A Go map of strings read at a key: the empty string when absent. *)
Definition map_get (m : gmap string string) (k : string) : string := default EmptyString (m !! k).

(** ** Package rke.cattle.io/v1 *)

(** [rkev1.DrainHook] *)
Record DrainHook := mkDrainHook {
  dh_Annotation : string
}.

#[global] Instance DrainHook_eq_dec : EqDecision DrainHook.
Proof. solve_decision. Defined.

(** [rkev1.DrainOptions] *)
Record DrainOptions := mkDrainOptions {
  do_Enabled : bool;
  do_Force : bool;
  do_IgnoreDaemonSets : option bool;
  do_IgnoreErrors : bool;
  do_DeleteEmptyDirData : bool;
  do_DisableEviction : bool;
  do_GracePeriod : Z;
  do_Timeout : Z;
  do_SkipWaitForDeleteTimeoutSeconds : Z;
  do_PreDrainHooks : list DrainHook;
  do_PostDrainHooks : list DrainHook
}.

#[global] Instance DrainOptions_eq_dec : EqDecision DrainOptions.
Proof. solve_decision. Defined.

Definition set_do_Enabled (v : bool) (r : DrainOptions) : DrainOptions :=
  mkDrainOptions v (do_Force r) (do_IgnoreDaemonSets r) (do_IgnoreErrors r) (do_DeleteEmptyDirData r) (do_DisableEviction r) (do_GracePeriod r) (do_Timeout r) (do_SkipWaitForDeleteTimeoutSeconds r) (do_PreDrainHooks r) (do_PostDrainHooks r).

(** The zero value of [rkev1.DrainOptions]. *)
Definition zeroDrainOptions : DrainOptions :=
  mkDrainOptions false false None false false false 0 0 0 [] [].

(** [rkev1.ClusterUpgradeStrategy] *)
Record UpgradeStrategy := mkUpgradeStrategy {
  us_ControlPlaneConcurrency : string;
  us_ControlPlaneDrainOptions : DrainOptions;
  us_WorkerConcurrency : string;
  us_WorkerDrainOptions : DrainOptions
}.

#[global] Instance UpgradeStrategy_eq_dec : EqDecision UpgradeStrategy.
Proof. solve_decision. Defined.

(** [rkev1.ETCDSnapshotS3] *)
Record ETCDSnapshotS3 := mkETCDSnapshotS3 {
  s3_Endpoint : string;
  s3_EndpointCA : string;
  s3_SkipSSLVerify : bool;
  s3_Bucket : string;
  s3_Region : string;
  s3_CloudCredentialName : string;
  s3_Folder : string
}.

#[global] Instance ETCDSnapshotS3_eq_dec : EqDecision ETCDSnapshotS3.
Proof. solve_decision. Defined.

(** [rkev1.ETCD] *)
Record ETCD := mkETCD {
  etcd_DisableSnapshots : bool;
  etcd_SnapshotScheduleCron : string;
  etcd_SnapshotRetention : Z;
  etcd_S3 : option ETCDSnapshotS3
}.

#[global] Instance ETCD_eq_dec : EqDecision ETCD.
Proof. solve_decision. Defined.

(** [rkev1.ETCDSnapshotCreate] *)
Record ETCDSnapshotCreate := mkETCDSnapshotCreate {
  sc_Generation : Z
}.

#[global] Instance ETCDSnapshotCreate_eq_dec : EqDecision ETCDSnapshotCreate.
Proof. solve_decision. Defined.

(** [rkev1.ETCDSnapshotRestore] *)
Record ETCDSnapshotRestore := mkETCDSnapshotRestore {
  sr_Name : string;
  sr_Generation : Z;
  sr_RestoreRKEConfig : string
}.

#[global] Instance ETCDSnapshotRestore_eq_dec : EqDecision ETCDSnapshotRestore.
Proof. solve_decision. Defined.

(** [rkev1.ETCDSnapshotFile] *)
Record ETCDSnapshotFile := mkETCDSnapshotFile {
  sf_Name : string;
  sf_NodeName : string;
  sf_Location : string;
  sf_Metadata : string;
  sf_S3 : option ETCDSnapshotS3
}.

#[global] Instance ETCDSnapshotFile_eq_dec : EqDecision ETCDSnapshotFile.
Proof. solve_decision. Defined.

(** [rkev1.ETCDSnapshot] *)
Record ETCDSnapshot := mkETCDSnapshot {
  es_Namespace : string;
  es_Name : string;
  es_Labels : gmap string string;
  es_SnapshotFile : ETCDSnapshotFile;
  es_Annotations : gmap string string;
  es_OwnerReferences : list OwnerReference;
  es_ClusterName : string;
  es_Missing : bool
}.

#[global] Instance ETCDSnapshot_eq_dec : EqDecision ETCDSnapshot.
Proof. solve_decision. Defined.

(** [rkev1.RotateCertificates] *)
Record RotateCertificates := mkRotateCertificates {
  rc_Generation : Z;
  rc_Services : list string
}.

#[global] Instance RotateCertificates_eq_dec : EqDecision RotateCertificates.
Proof. solve_decision. Defined.

(** [rkev1.RotateEncryptionKeys] *)
Record RotateEncryptionKeys := mkRotateEncryptionKeys {
  re_Generation : Z
}.

#[global] Instance RotateEncryptionKeys_eq_dec : EqDecision RotateEncryptionKeys.
Proof. solve_decision. Defined.

(** [rkev1.Mirror] *)
Record Mirror := mkMirror {
  mi_Endpoints : list string;
  mi_Rewrites : gmap string string
}.

#[global] Instance Mirror_eq_dec : EqDecision Mirror.
Proof. solve_decision. Defined.

(** [rkev1.RegistryConfig] *)
Record RegistryConfig := mkRegistryConfig {
  rg_AuthConfigSecretName : string;
  rg_TLSSecretName : string;
  rg_CABundle : string;
  rg_InsecureSkipVerify : bool
}.

#[global] Instance RegistryConfig_eq_dec : EqDecision RegistryConfig.
Proof. solve_decision. Defined.

(** [rkev1.Registry] *)
Record Registry := mkRegistry {
  reg_Mirrors : gmap string Mirror;
  reg_Configs : gmap string RegistryConfig
}.

#[global] Instance Registry_eq_dec : EqDecision Registry.
Proof. solve_decision. Defined.

(** [rkev1.KeyToPath] *)
Record KeyToPath := mkKeyToPath {
  kp_Key : string;
  kp_Path : string;
  kp_Dynamic : bool;
  kp_Permissions : string;
  kp_Hash : string
}.

#[global] Instance KeyToPath_eq_dec : EqDecision KeyToPath.
Proof. solve_decision. Defined.

(** [rkev1.K8sObjectFileSource] *)
Record K8sObjectFileSource := mkK8sObjectFileSource {
  fs_Name : string;
  fs_Items : list KeyToPath;
  fs_DefaultPermissions : string
}.

#[global] Instance K8sObjectFileSource_eq_dec : EqDecision K8sObjectFileSource.
Proof. solve_decision. Defined.

(** [rkev1.ProvisioningFileSource] *)
Record ProvisioningFileSource := mkProvisioningFileSource {
  pf_Secret : K8sObjectFileSource;
  pf_ConfigMap : K8sObjectFileSource
}.

#[global] Instance ProvisioningFileSource_eq_dec : EqDecision ProvisioningFileSource.
Proof. solve_decision. Defined.

(** [rkev1.RKESystemConfig] *)
Record RKESystemConfig := mkRKESystemConfig {
  sys_MachineLabelSelector : option LabelSelector;
  sys_Config : config
}.

(** [rkev1.RKEProvisioningFiles] *)
Record RKEProvisioningFiles := mkRKEProvisioningFiles {
  rpf_MachineLabelSelector : option LabelSelector;
  rpf_FileSources : list ProvisioningFileSource
}.

(** [rkev1.EnvVar] *)
Record EnvVar := mkEnvVar {
  ev_Name : string;
  ev_Value : string
}.

#[global] Instance EnvVar_eq_dec : EqDecision EnvVar.
Proof. solve_decision. Defined.

(** [rkev1.RKEControlPlaneSpec] with the embedded [RKEClusterSpecCommon]; [sp_StackPreference] is [Networking.StackPreference] when [Networking] is not nil. *)
Record ControlPlaneSpec := mkControlPlaneSpec {
  sp_UpgradeStrategy : UpgradeStrategy;
  sp_ChartValues : config;
  sp_MachineGlobalConfig : config;
  sp_MachineSelectorConfig : list RKESystemConfig;
  sp_MachineSelectorFiles : list RKEProvisioningFiles;
  sp_AdditionalManifest : string;
  sp_Registries : option Registry;
  sp_ETCD : option ETCD;
  sp_StackPreference : option string;
  sp_ProvisionGeneration : Z;
  sp_AgentEnvVars : list EnvVar;
  sp_LocalClusterAuthEndpointEnabled : bool;
  sp_ETCDSnapshotCreate : option ETCDSnapshotCreate;
  sp_ETCDSnapshotRestore : option ETCDSnapshotRestore;
  sp_RotateCertificates : option RotateCertificates;
  sp_RotateEncryptionKeys : option RotateEncryptionKeys;
  sp_KubernetesVersion : string;
  sp_ClusterName : string;
  sp_ManagementClusterName : string;
  sp_UnmanagedConfig : bool
}.

(** [rkev1.RKEControlPlaneStatus] *)
Record ControlPlaneStatus := mkControlPlaneStatus {
  st_AppliedSpec : option ControlPlaneSpec;
  st_Conditions : list Condition;
  st_Ready : bool;
  st_ObservedGeneration : Z;
  st_CertificateRotationGeneration : Z;
  st_RotateEncryptionKeys : option RotateEncryptionKeys;
  st_RotateEncryptionKeysPhase : string;
  st_RotateEncryptionKeysLeader : string;
  st_ETCDSnapshotRestore : option ETCDSnapshotRestore;
  st_ETCDSnapshotRestorePhase : string;
  st_ETCDSnapshotCreate : option ETCDSnapshotCreate;
  st_ETCDSnapshotCreatePhase : string;
  st_ConfigGeneration : Z;
  st_Initialized : bool;
  st_AgentConnected : bool
}.

Definition set_st_AppliedSpec (v : option ControlPlaneSpec) (r : ControlPlaneStatus) : ControlPlaneStatus :=
  mkControlPlaneStatus v (st_Conditions r) (st_Ready r) (st_ObservedGeneration r) (st_CertificateRotationGeneration r) (st_RotateEncryptionKeys r) (st_RotateEncryptionKeysPhase r) (st_RotateEncryptionKeysLeader r) (st_ETCDSnapshotRestore r) (st_ETCDSnapshotRestorePhase r) (st_ETCDSnapshotCreate r) (st_ETCDSnapshotCreatePhase r) (st_ConfigGeneration r) (st_Initialized r) (st_AgentConnected r).

Definition set_st_Conditions (v : list Condition) (r : ControlPlaneStatus) : ControlPlaneStatus :=
  mkControlPlaneStatus (st_AppliedSpec r) v (st_Ready r) (st_ObservedGeneration r) (st_CertificateRotationGeneration r) (st_RotateEncryptionKeys r) (st_RotateEncryptionKeysPhase r) (st_RotateEncryptionKeysLeader r) (st_ETCDSnapshotRestore r) (st_ETCDSnapshotRestorePhase r) (st_ETCDSnapshotCreate r) (st_ETCDSnapshotCreatePhase r) (st_ConfigGeneration r) (st_Initialized r) (st_AgentConnected r).

Definition set_st_Ready (v : bool) (r : ControlPlaneStatus) : ControlPlaneStatus :=
  mkControlPlaneStatus (st_AppliedSpec r) (st_Conditions r) v (st_ObservedGeneration r) (st_CertificateRotationGeneration r) (st_RotateEncryptionKeys r) (st_RotateEncryptionKeysPhase r) (st_RotateEncryptionKeysLeader r) (st_ETCDSnapshotRestore r) (st_ETCDSnapshotRestorePhase r) (st_ETCDSnapshotCreate r) (st_ETCDSnapshotCreatePhase r) (st_ConfigGeneration r) (st_Initialized r) (st_AgentConnected r).

Definition set_st_ObservedGeneration (v : Z) (r : ControlPlaneStatus) : ControlPlaneStatus :=
  mkControlPlaneStatus (st_AppliedSpec r) (st_Conditions r) (st_Ready r) v (st_CertificateRotationGeneration r) (st_RotateEncryptionKeys r) (st_RotateEncryptionKeysPhase r) (st_RotateEncryptionKeysLeader r) (st_ETCDSnapshotRestore r) (st_ETCDSnapshotRestorePhase r) (st_ETCDSnapshotCreate r) (st_ETCDSnapshotCreatePhase r) (st_ConfigGeneration r) (st_Initialized r) (st_AgentConnected r).

Definition set_st_CertificateRotationGeneration (v : Z) (r : ControlPlaneStatus) : ControlPlaneStatus :=
  mkControlPlaneStatus (st_AppliedSpec r) (st_Conditions r) (st_Ready r) (st_ObservedGeneration r) v (st_RotateEncryptionKeys r) (st_RotateEncryptionKeysPhase r) (st_RotateEncryptionKeysLeader r) (st_ETCDSnapshotRestore r) (st_ETCDSnapshotRestorePhase r) (st_ETCDSnapshotCreate r) (st_ETCDSnapshotCreatePhase r) (st_ConfigGeneration r) (st_Initialized r) (st_AgentConnected r).

Definition set_st_RotateEncryptionKeys (v : option RotateEncryptionKeys) (r : ControlPlaneStatus) : ControlPlaneStatus :=
  mkControlPlaneStatus (st_AppliedSpec r) (st_Conditions r) (st_Ready r) (st_ObservedGeneration r) (st_CertificateRotationGeneration r) v (st_RotateEncryptionKeysPhase r) (st_RotateEncryptionKeysLeader r) (st_ETCDSnapshotRestore r) (st_ETCDSnapshotRestorePhase r) (st_ETCDSnapshotCreate r) (st_ETCDSnapshotCreatePhase r) (st_ConfigGeneration r) (st_Initialized r) (st_AgentConnected r).

Definition set_st_RotateEncryptionKeysPhase (v : string) (r : ControlPlaneStatus) : ControlPlaneStatus :=
  mkControlPlaneStatus (st_AppliedSpec r) (st_Conditions r) (st_Ready r) (st_ObservedGeneration r) (st_CertificateRotationGeneration r) (st_RotateEncryptionKeys r) v (st_RotateEncryptionKeysLeader r) (st_ETCDSnapshotRestore r) (st_ETCDSnapshotRestorePhase r) (st_ETCDSnapshotCreate r) (st_ETCDSnapshotCreatePhase r) (st_ConfigGeneration r) (st_Initialized r) (st_AgentConnected r).

Definition set_st_RotateEncryptionKeysLeader (v : string) (r : ControlPlaneStatus) : ControlPlaneStatus :=
  mkControlPlaneStatus (st_AppliedSpec r) (st_Conditions r) (st_Ready r) (st_ObservedGeneration r) (st_CertificateRotationGeneration r) (st_RotateEncryptionKeys r) (st_RotateEncryptionKeysPhase r) v (st_ETCDSnapshotRestore r) (st_ETCDSnapshotRestorePhase r) (st_ETCDSnapshotCreate r) (st_ETCDSnapshotCreatePhase r) (st_ConfigGeneration r) (st_Initialized r) (st_AgentConnected r).

Definition set_st_ETCDSnapshotRestore (v : option ETCDSnapshotRestore) (r : ControlPlaneStatus) : ControlPlaneStatus :=
  mkControlPlaneStatus (st_AppliedSpec r) (st_Conditions r) (st_Ready r) (st_ObservedGeneration r) (st_CertificateRotationGeneration r) (st_RotateEncryptionKeys r) (st_RotateEncryptionKeysPhase r) (st_RotateEncryptionKeysLeader r) v (st_ETCDSnapshotRestorePhase r) (st_ETCDSnapshotCreate r) (st_ETCDSnapshotCreatePhase r) (st_ConfigGeneration r) (st_Initialized r) (st_AgentConnected r).

Definition set_st_ETCDSnapshotRestorePhase (v : string) (r : ControlPlaneStatus) : ControlPlaneStatus :=
  mkControlPlaneStatus (st_AppliedSpec r) (st_Conditions r) (st_Ready r) (st_ObservedGeneration r) (st_CertificateRotationGeneration r) (st_RotateEncryptionKeys r) (st_RotateEncryptionKeysPhase r) (st_RotateEncryptionKeysLeader r) (st_ETCDSnapshotRestore r) v (st_ETCDSnapshotCreate r) (st_ETCDSnapshotCreatePhase r) (st_ConfigGeneration r) (st_Initialized r) (st_AgentConnected r).

Definition set_st_ETCDSnapshotCreate (v : option ETCDSnapshotCreate) (r : ControlPlaneStatus) : ControlPlaneStatus :=
  mkControlPlaneStatus (st_AppliedSpec r) (st_Conditions r) (st_Ready r) (st_ObservedGeneration r) (st_CertificateRotationGeneration r) (st_RotateEncryptionKeys r) (st_RotateEncryptionKeysPhase r) (st_RotateEncryptionKeysLeader r) (st_ETCDSnapshotRestore r) (st_ETCDSnapshotRestorePhase r) v (st_ETCDSnapshotCreatePhase r) (st_ConfigGeneration r) (st_Initialized r) (st_AgentConnected r).

Definition set_st_ETCDSnapshotCreatePhase (v : string) (r : ControlPlaneStatus) : ControlPlaneStatus :=
  mkControlPlaneStatus (st_AppliedSpec r) (st_Conditions r) (st_Ready r) (st_ObservedGeneration r) (st_CertificateRotationGeneration r) (st_RotateEncryptionKeys r) (st_RotateEncryptionKeysPhase r) (st_RotateEncryptionKeysLeader r) (st_ETCDSnapshotRestore r) (st_ETCDSnapshotRestorePhase r) (st_ETCDSnapshotCreate r) v (st_ConfigGeneration r) (st_Initialized r) (st_AgentConnected r).

Definition set_st_ConfigGeneration (v : Z) (r : ControlPlaneStatus) : ControlPlaneStatus :=
  mkControlPlaneStatus (st_AppliedSpec r) (st_Conditions r) (st_Ready r) (st_ObservedGeneration r) (st_CertificateRotationGeneration r) (st_RotateEncryptionKeys r) (st_RotateEncryptionKeysPhase r) (st_RotateEncryptionKeysLeader r) (st_ETCDSnapshotRestore r) (st_ETCDSnapshotRestorePhase r) (st_ETCDSnapshotCreate r) (st_ETCDSnapshotCreatePhase r) v (st_Initialized r) (st_AgentConnected r).

Definition set_st_Initialized (v : bool) (r : ControlPlaneStatus) : ControlPlaneStatus :=
  mkControlPlaneStatus (st_AppliedSpec r) (st_Conditions r) (st_Ready r) (st_ObservedGeneration r) (st_CertificateRotationGeneration r) (st_RotateEncryptionKeys r) (st_RotateEncryptionKeysPhase r) (st_RotateEncryptionKeysLeader r) (st_ETCDSnapshotRestore r) (st_ETCDSnapshotRestorePhase r) (st_ETCDSnapshotCreate r) (st_ETCDSnapshotCreatePhase r) (st_ConfigGeneration r) v (st_AgentConnected r).

(** [rkev1.RKEControlPlane] *)
Record RKEControlPlane := mkRKEControlPlane {
  cp_Namespace : string;
  cp_Name : string;
  cp_UID : string;
  cp_Generation : Z;
  cp_Labels : gmap string string;
  cp_Annotations : gmap string string;
  cp_Deleting : bool;
  cp_OwnerReferences : list OwnerReference;
  cp_Spec : ControlPlaneSpec;
  cp_Status : ControlPlaneStatus
}.

(** ** Phases

    Phases are Go string types: any string can be stored in a status, and the code's [switch]es
    have a default branch for the unknown ones. *)

Definition ETCDSnapshotPhaseStarted : string := "Started".
Definition ETCDSnapshotPhaseShutdown : string := "Shutdown".
Definition ETCDSnapshotPhaseRestore : string := "Restore".
Definition ETCDSnapshotPhasePostRestorePodCleanup : string := "PostRestorePodCleanup".
Definition ETCDSnapshotPhaseInitialRestartCluster : string := "InitialRestartCluster".
Definition ETCDSnapshotPhasePostRestoreNodeCleanup : string := "PostRestoreNodeCleanup".
Definition ETCDSnapshotPhaseRestartCluster : string := "RestartCluster".
Definition ETCDSnapshotPhaseFinished : string := "Finished".
Definition ETCDSnapshotPhaseFailed : string := "Failed".

Definition RotateEncryptionKeysPhasePrepare : string := "Prepare".
Definition RotateEncryptionKeysPhasePostPrepareRestart : string := "PostPrepareRestart".
Definition RotateEncryptionKeysPhaseRotate : string := "Rotate".
Definition RotateEncryptionKeysPhasePostRotateRestart : string := "PostRotateRestart".
Definition RotateEncryptionKeysPhaseReencrypt : string := "Reencrypt".
Definition RotateEncryptionKeysPhasePostReencryptRestart : string := "PostReencryptRestart".
Definition RotateEncryptionKeysPhaseDone : string := "Done".
Definition RotateEncryptionKeysPhaseFailed : string := "Failed".

(** ** The cluster plan *)

(** [plan.Plan] *)
Record Plan := mkPlan {
  pl_Nodes : gmap string Node;
  pl_Machines : gmap string Machine;
  pl_Metadata : gmap string Metadata
}.

#[global] Instance Plan_eq_dec : EqDecision Plan.
Proof. solve_decision. Defined.

Definition set_pl_Metadata (v : gmap string Metadata) (r : Plan) : Plan :=
  mkPlan (pl_Nodes r) (pl_Machines r) v.

Definition set_pl_Machines (v : gmap string Machine) (r : Plan) : Plan :=
  mkPlan (pl_Nodes r) v (pl_Metadata r).

Definition set_pl_Nodes (v : gmap string Node) (r : Plan) : Plan :=
  mkPlan v (pl_Machines r) (pl_Metadata r).

(** [planEntry]: one machine with its node plan and its metadata. *)
Record planEntry := mkplanEntry {
  pe_Machine : Machine;
  pe_Plan : option Node;
  pe_Metadata : option Metadata
}.

#[global] Instance planEntry_eq_dec : EqDecision planEntry.
Proof. solve_decision. Defined.

Definition set_pe_Machine (v : Machine) (r : planEntry) : planEntry :=
  mkplanEntry v (pe_Plan r) (pe_Metadata r).

Definition set_pe_Plan (v : option Node) (r : planEntry) : planEntry :=
  mkplanEntry (pe_Machine r) v (pe_Metadata r).

Definition set_pe_Metadata (v : option Metadata) (r : planEntry) : planEntry :=
  mkplanEntry (pe_Machine r) (pe_Plan r) v.

