(* ===== verification/External.v ===== *)
(** * Code outside the repository, and informer caches, as parameters

    [External] collects the functions of third-party modules (semver, wrangler, apimachinery,
    cluster-api, client-go), of the JSON, gzip, URL and IP packages, and the two large generators
    of the repository that are not modelled (the cluster-agent manifest template and the release
    metadata server).  [Planner] is the struct of [planner.go]: the read-only informer caches and
    the injected retrieval functions.  The laws stated as classes are documented behaviour the
    theorems rely on; [Instances.v] gives concrete functions that satisfy them. *)

From S2P Require Import Prelude GoLib Errors Types.

(** [summary.Summary]: what wrangler's summariser says about an object. *)
Record Summary := mkSummary {
  sm_Error : bool;
  sm_Transitioning : bool;
  sm_Message : list string
}.

(** [model.Release] of channelserver: which arguments a release knows, and feature versions. *)
Record Release := mkRelease {
  rel_AgentArgs : gmap string string;      (** argument name to the type of its field *)
  rel_ServerArgs : gmap string string;
  rel_FeatureVersions : gmap string string
}.

(** One etcd member of the [db/info] output. *)
Record member := mkMember { mb_Name : string; mb_ClientURLs : list string }.

(** [tlsConfig], [authConfig] and [registryConfig] of registry.go, as marshalled to JSON. *)
Record tlsConfig := mkTLSConfig {
  tls_CAFile : string; tls_CertFile : string; tls_KeyFile : string; tls_InsecureSkipVerify : bool
}.
Record authConfig := mkAuthConfig {
  auth_Username : string; auth_Password : string; auth_Auth : string; auth_IdentityToken : string
}.
Record registryConfig := mkRegistryConfig {
  rcfg_Auth : option authConfig; rcfg_TLS : option tlsConfig
}.

Class External := {
  (** Masterminds/semver *)
  semver : Type;
  NewVersion : string -> res semver;
  LessThan : semver -> semver -> bool;
  GreaterThan : semver -> semver -> bool;
  Major : semver -> N;
  Minor : semver -> N;
  Patch : semver -> N;
  (** blang/semver: the major version [semver.Make] parses *)
  blang_Make_Major : string -> option N;

  (** wrangler condition.Cond, by condition type, on the conditions of an object *)
  Cond_GetStatus : string -> list Condition -> string;
  Cond_GetReason : string -> list Condition -> string;
  Cond_GetMessage : string -> list Condition -> string;
  Cond_IsTrue : string -> list Condition -> bool;
  Cond_IsFalse : string -> list Condition -> bool;
  Cond_IsUnknown : string -> list Condition -> bool;
  Cond_SetStatus : string -> string -> list Condition -> list Condition;
  Cond_Message : string -> string -> list Condition -> list Condition;
  Cond_Reason : string -> string -> list Condition -> list Condition;
  Cond_SetError : string -> string -> error -> list Condition -> list Condition;
  (** cluster-api conditions and annotations *)
  MarkTrue : string -> list Condition -> list Condition;
  MarkUnknown : string -> string -> string -> list Condition -> list Condition;
  MarkFalse : string -> string -> string -> string -> list Condition -> list Condition; (** type, reason, severity, message *)
  capi_IsFalse : string -> list Condition -> bool;
  capi_IsTrue : string -> list Condition -> bool;
  capi_GetMessage : string -> list Condition -> string;
  capi_GetReason : string -> list Condition -> string;
  capi_GetSeverity : string -> list Condition -> option string;
  IsPaused : CAPICluster -> RKEControlPlane -> bool;

  (** wrangler kv, name, convert, data, summary, merr, yaml *)
  kv_Split : string -> string -> string * string;
  kv_RSplit : string -> string -> string * string;
  name_SafeConcatName : list string -> string;
  name_Hex : string -> nat -> string;
  convert_ToString : value -> string;
  convert_ToStringSlice : value -> list string;
  convert_ToBool : value -> bool;
  convert_ToMapInterface : value -> option (list (string * value));
  data_PutValue : list (string * value) -> value -> list string -> list (string * value);
  values_GetValueN : list (string * value) -> list string -> value;
  Summarize : Machine -> Summary;
  merr_NewErrors : list error -> string;
  yaml_HelmChartConfigs : list (string * string) -> res string;  (** chart name, values content *)
  Taint_ToString : Taint -> string;

  (** apimachinery label selectors: the selector may be malformed *)
  LabelSelector_Matches : option LabelSelector -> gmap string string -> res bool;
  RetryOnConflict_Steps : nat;

  (** encoding/json, compress/gzip, net, net/url *)
  json_Marshal_NodePlan : NodePlan -> string;
  json_Unmarshal_NodePlan : string -> res NodePlan;
  json_Unmarshal_ProbeStatuses : string -> res (gmap string ProbeStatus);
  json_Unmarshal_Output : string -> res (gmap string string);
  json_Unmarshal_PeriodicOutput : string -> res (gmap string PeriodicInstructionOutput);
  json_Unmarshal_Map : string -> res config;
  json_Unmarshal_StringMap : string -> res (gmap string string);
  json_Unmarshal_Taints : string -> res (list Taint);
  json_Unmarshal_Members : string -> res (list member);
  json_Unmarshal_SUCMetadata : string -> res bool;                (** [PspEnabled] *)
  json_Unmarshal_KubernetesVersion : string -> res string;        (** of a [provv1.ClusterSpec] *)
  json_Marshal_DrainOptions : DrainOptions -> res string;         (** through [EncodeToMap] *)
  json_Marshal_Map : list (string * value) -> res string;
  json_MarshalIndent_Config : config -> res string;
  json_Marshal_Registries : gmap string Mirror -> gmap string registryConfig -> res string;
  gunzip : string -> res string;
  ParseIP : string -> bool;                                       (** [net.ParseIP(a) != nil] *)
  url_Hostname : string -> res string;                            (** [url.Parse(u)], [Hostname()] *)
  ExtractConfigJSON : string -> res (list (string * value));      (** tar+gzip machine config *)

  (** repository code that is not modelled *)
  systemtemplate_ForCluster : string -> string -> list Taint -> res string;
  channelserver_Release : string -> string -> Release;            (** runtime, version *)
  SystemDefaultRegistry : string
}.

(** The planner struct: caches are read-only during one call of [Process]. *)
Class Planner `{External} := {
  secretCache_Get : string -> string -> res Secret;
  configMapCache_Get : string -> string -> res Secret;
  capiClusters_Get : string -> string -> res (option CAPICluster);
  rkeBootstrapCache_Get : string -> string -> res RKEBootstrap;
  etcdSnapshotCache_Get : string -> string -> res ETCDSnapshot;
  machineCache_List : string -> string -> res (list Machine);     (** namespace, cluster name *)
  clusterRegistrationTokens : string -> res (list (string * string)); (** name, token; by cluster *)
  managementClusters_Get : string -> res unit;
  ImageResolver : string -> RKEControlPlane -> string;
  ReleaseData : RKEControlPlane -> option Release;
  SystemAgentImage : string;
  SystemPodLabelSelectors : option (RKEControlPlane -> list string)
}.

(** [managesystemagent.Kubernetes125 = semver.MustParse("v1.25.0")]: a parse failure would panic at
    start-up, so the value exists. *)
Class SemverLaws `{External} := {
  Kubernetes125 : semver;
  Kubernetes125_parses : NewVersion "v1.25.0" = Ret Kubernetes125
}.

(** Marshalling a node plan and unmarshalling it gives the plan back, and the text is not empty. *)
Class NodePlanCodec `{External} := {
  NodePlan_roundtrip p : json_Unmarshal_NodePlan (json_Marshal_NodePlan p) = Ret p;
  NodePlan_nonempty p : json_Marshal_NodePlan p <> ""
}.

(** [kv.Split(s, sep)] splits at the first separator; without one the value is empty. *)
Class KvLaws `{External} := {
  kv_Split_spec s sep :
    kv_Split s sep = match cut sep s with Some (a, b) => (a, b) | None => (s, "") end
}.

(** What is relied upon of wrangler's conditions: a value that is set is read back, the other values and the other
    conditions stay; an error other than [ErrSkip] makes a condition false, with its text as the message. *)
Class CondLaws `{External} := {
  GetStatus_SetStatus t s l t' : Cond_GetStatus t' (Cond_SetStatus t s l) = if t' =? t then s else Cond_GetStatus t' l;
  GetReason_SetStatus t s l t' : Cond_GetReason t' (Cond_SetStatus t s l) = Cond_GetReason t' l;
  GetMessage_SetStatus t s l t' : Cond_GetMessage t' (Cond_SetStatus t s l) = Cond_GetMessage t' l;
  GetStatus_Reason t s l t' : Cond_GetStatus t' (Cond_Reason t s l) = Cond_GetStatus t' l;
  GetReason_Reason t s l t' : Cond_GetReason t' (Cond_Reason t s l) = if t' =? t then s else Cond_GetReason t' l;
  GetMessage_Reason t s l t' : Cond_GetMessage t' (Cond_Reason t s l) = Cond_GetMessage t' l;
  GetStatus_Message t s l t' : Cond_GetStatus t' (Cond_Message t s l) = Cond_GetStatus t' l;
  GetReason_Message t s l t' : Cond_GetReason t' (Cond_Message t s l) = Cond_GetReason t' l;
  GetMessage_Message t s l t' : Cond_GetMessage t' (Cond_Message t s l) = if t' =? t then s else Cond_GetMessage t' l;
  IsTrue_status t l : Cond_IsTrue t l = (Cond_GetStatus t l =? "True");
  IsFalse_status t l : Cond_IsFalse t l = (Cond_GetStatus t l =? "False");
  IsUnknown_status t l : Cond_IsUnknown t l = (Cond_GetStatus t l =? "Unknown");
  GetStatus_SetError t e l t' : IsErrSkip e = false -> Cond_GetStatus t' (Cond_SetError t "" e l) = if t' =? t then "False" else Cond_GetStatus t' l;
  GetReason_SetError t e l t' : IsErrSkip e = false -> Cond_GetReason t' (Cond_SetError t "" e l) = if t' =? t then "Error" else Cond_GetReason t' l;
  GetMessage_SetError t e l t' : IsErrSkip e = false -> Cond_GetMessage t' (Cond_SetError t "" e l) = if t' =? t then Error e else Cond_GetMessage t' l
}.

(** What a condition says: status, reason and message. *)
Definition cond_view `{External} (t : string) (l : list Condition) : string * string * string :=
  (Cond_GetStatus t l, Cond_GetReason t l, Cond_GetMessage t l).

Section views.
Context `{C : CondLaws}.
Lemma view_SetStatus t s l t' : cond_view t' (Cond_SetStatus t s l) = if t' =? t then (s, Cond_GetReason t l, Cond_GetMessage t l) else cond_view t' l.
Proof. unfold cond_view. rewrite GetStatus_SetStatus, GetReason_SetStatus, GetMessage_SetStatus. case_bool_decide; by subst. Qed.
Lemma view_Reason t s l t' : cond_view t' (Cond_Reason t s l) = if t' =? t then (Cond_GetStatus t l, s, Cond_GetMessage t l) else cond_view t' l.
Proof. unfold cond_view. rewrite GetStatus_Reason, GetReason_Reason, GetMessage_Reason. case_bool_decide; by subst. Qed.
Lemma view_Message t s l t' : cond_view t' (Cond_Message t s l) = if t' =? t then (Cond_GetStatus t l, Cond_GetReason t l, s) else cond_view t' l.
Proof. unfold cond_view. rewrite GetStatus_Message, GetReason_Message, GetMessage_Message. case_bool_decide; by subst. Qed.
Lemma view_SetError t e l t' : IsErrSkip e = false -> cond_view t' (Cond_SetError t "" e l) = if t' =? t then ("False", "Error", Error e) else cond_view t' l.
Proof. intros He. unfold cond_view. rewrite GetStatus_SetError, GetReason_SetError, GetMessage_SetError by done. by case_bool_decide. Qed.

(** The three values of a condition set one after the other. *)
Lemma view_set t status reason message l t' :
  cond_view t' (Cond_Reason t reason (Cond_Message t message (Cond_SetStatus t status l))) = if t' =? t then (status, reason, message) else cond_view t' l.
Proof.
  rewrite view_Reason, view_Message, view_SetStatus, GetStatus_Message, GetStatus_SetStatus, GetMessage_Message, !(bool_decide_eq_true_2 (t = t)) by done.
  by case_bool_decide.
Qed.
End views.
