(* ===== verification/Instances.v ===== *)
(** * Concrete instances of the parameters

    Small executable functions for the code outside the model.  They satisfy the laws of
    [External.v], so the hypotheses of the theorems can be met, and witnesses are evaluated with
    them.  They are not a model of those libraries. *)

From S2P Require Import Prelude GoLib Codec Errors Types External.

(** ** A text format

    Values are written one after the other in front of the rest of the text. *)

Class TextFormat (A : Type) := {
  put : A -> string -> string;
  get : string -> option (A * string);
  get_put a rest : get (put a rest) = Some (a, rest)
}.

Fixpoint put_string (s rest : string) : string :=
  match s with
  | EmptyString => String (Ascii.ascii_of_nat 46) rest
  | String c s' => String (Ascii.ascii_of_nat 47) (String c (put_string s' rest))
  end.
Fixpoint get_string (t : string) : option (string * string) :=
  match t with
  | String m t' =>
      if Ascii.eqb m (Ascii.ascii_of_nat 47) then
        match t' with
        | String c t'' => match get_string t'' with Some (s, rest) => Some (String c s, rest) | None => None end
        | EmptyString => None
        end
      else Some ("", t')
  | EmptyString => None
  end.
Lemma get_put_string s rest : get_string (put_string s rest) = Some (s, rest).
Proof. induction s as [|c s IH]; simpl; [done|]. by rewrite IH. Qed.
#[global] Instance string_format : TextFormat string :=
  {| put := put_string; get := get_string; get_put := get_put_string |}.

#[global] Instance pair_format {A B} `{TextFormat A, TextFormat B} : TextFormat (A * B).
Proof.
  refine {|
    put ab rest := put (fst ab) (put (snd ab) rest);
    get t := match get t with
             | Some (a, t') => match get t' with Some (b, rest) => Some ((a, b), rest) | None => None end
             | None => None
             end
  |}.
  intros [a b] rest. by rewrite !get_put.
Defined.

(** A type whose values are determined by values of another one. *)
Definition format_via {A B} `{TextFormat B} (f : A -> B) (g : B -> A) (Hgf : forall a, g (f a) = a) : TextFormat A.
Proof.
  refine {|
    put a rest := put (f a) rest;
    get t := match get t with Some (b, rest) => Some (g b, rest) | None => None end
  |}.
  intros a rest. by rewrite get_put, Hgf.
Defined.

#[global] Instance bool_format : TextFormat bool.
Proof. refine (format_via (fun b : bool => if b then "true" else "") (fun s => s =? "true") _). by intros []. Defined.

Fixpoint string_of_pos (p : positive) : string :=
  match p with xH => "" | xO p' => "0" +:+ string_of_pos p' | xI p' => "1" +:+ string_of_pos p' end.
Fixpoint pos_of_string (s : string) : positive :=
  match s with
  | EmptyString => xH
  | String c s' => if Ascii.eqb c (Ascii.ascii_of_nat 49) then xI (pos_of_string s') else xO (pos_of_string s')
  end.
#[global] Instance Z_format : TextFormat Z.
Proof.
  refine (format_via (fun z : Z => (Z.ltb z 0, string_of_pos (N.succ_pos (Z.abs_N z))))
    (fun bs => let n := Z.of_N (N.pred (Npos (pos_of_string (snd bs)))) in if fst bs then - n else n) _).
  intros z. assert (forall p, pos_of_string (string_of_pos p) = p) as Hp.
  { induction p as [p IH|p IH|]; simpl; congruence. }
  simpl. rewrite Hp. destruct (z <? 0) eqn:E; lia.
Defined.

Fixpoint put_elements {A} `{TextFormat A} (l : list A) (rest : string) : string :=
  match l with [] => put false rest | x :: l' => put true (put x (put_elements l' rest)) end.
Fixpoint get_elements {A} `{TextFormat A} (fuel : nat) (t : string) : option (list A * string) :=
  match fuel with
  | O => None
  | S fuel' =>
      match get t with
      | Some (true, t') =>
          match get t' with
          | Some (x, t'') => match get_elements fuel' t'' with Some (l, rest) => Some (x :: l, rest) | None => None end
          | None => None
          end
      | Some (false, rest) => Some ([], rest)
      | None => None
      end
  end.
Lemma get_put_elements {A} `{TextFormat A} (l : list A) rest :
  get_elements (S (length l)) (put_elements l rest) = Some (l, rest).
Proof.
  induction l as [|x l IH]; [cbn [length get_elements put_elements]; by rewrite get_put|].
  cbn [length put_elements].
  remember (S (length l)) as n. cbn [get_elements]. by rewrite !get_put, IH.
Qed.
#[global] Instance list_format {A} `{TextFormat A} : TextFormat (list A).
Proof.
  refine {|
    put l rest := put (Z.of_nat (length l)) (put_elements l rest);
    get t := match get t with Some (n, t') => get_elements (S (Z.to_nat n)) t' | None => None end
  |}.
  intros l rest. rewrite get_put, Nat2Z.id. apply get_put_elements.
Defined.

#[global] Instance map_format {A} `{TextFormat A} : TextFormat (gmap string A).
Proof. refine (format_via (B := list (string * A)) map_to_list list_to_map _). apply list_to_map_to_list. Defined.

#[global] Instance File_format : TextFormat File.
Proof.
  refine (format_via (fun f => (f_Content f, f_Path f, f_Permissions f, f_Dynamic f, f_Minor f))
    (fun '(a, b, c, d, e) => mkFile a b c d e) _). by intros [].
Defined.
#[global] Instance OneTimeInstruction_format : TextFormat OneTimeInstruction.
Proof.
  refine (format_via (fun i => (i_Name i, i_Image i, i_Env i, i_Args i, i_Command i, i_SaveOutput i))
    (fun '(a, b, c, d, e, f) => mkOneTimeInstruction a b c d e f) _). by intros [].
Defined.
#[global] Instance PeriodicInstruction_format : TextFormat PeriodicInstruction.
Proof.
  refine (format_via (fun i => (pi_Name i, pi_Image i, pi_Env i, pi_Args i, pi_Command i, pi_PeriodSeconds i))
    (fun '(a, b, c, d, e, f) => mkPeriodicInstruction a b c d e f) _). by intros [].
Defined.
#[global] Instance HTTPGetAction_format : TextFormat HTTPGetAction.
Proof.
  refine (format_via (fun h => (h_URL h, h_Insecure h, h_ClientCert h, h_ClientKey h, h_CACert h))
    (fun '(a, b, c, d, e) => mkHTTPGetAction a b c d e) _). by intros [].
Defined.
#[global] Instance Probe_format : TextFormat Probe.
Proof.
  refine (format_via (fun p => (pr_Name p, pr_InitialDelaySeconds p, pr_TimeoutSeconds p, pr_SuccessThreshold p,
                                pr_FailureThreshold p, pr_HTTPGetAction p))
    (fun '(a, b, c, d, e, f) => mkProbe a b c d e f) _). by intros [].
Defined.
#[global] Instance NodePlan_format : TextFormat NodePlan.
Proof.
  refine (format_via (fun p => (np_Files p, np_Instructions p, np_PeriodicInstructions p, np_Error p, np_Probes p))
    (fun '(a, b, c, d, e) => mkNodePlan a b c d e) _). by intros [].
Defined.
#[global] Instance DrainOptions_format : TextFormat DrainOptions.
Proof.
  refine (format_via (fun o => (do_Enabled o, do_Force o,
      match do_IgnoreDaemonSets o with None => (false, false) | Some b => (true, b) end,
      do_IgnoreErrors o, do_DeleteEmptyDirData o, do_DisableEviction o, do_GracePeriod o, do_Timeout o,
      do_SkipWaitForDeleteTimeoutSeconds o, map dh_Annotation (do_PreDrainHooks o), map dh_Annotation (do_PostDrainHooks o)))
    (fun '(a, b, (c1, c2), d, e, f, g, h, i, j, k) =>
       mkDrainOptions a b (if c1 then Some c2 else None) d e f g h i (map mkDrainHook j) (map mkDrainHook k)) _).
  intros [? ? c ? ? ? ? ? ? j k]. simpl. rewrite !map_map.
  rewrite !(map_ext (fun x => mkDrainHook (dh_Annotation x)) id), !map_id by by intros []. by destruct c.
Defined.

Definition encode_text {A} `{TextFormat A} (a : A) : string := "=" +:+ put a "".
Definition decode_text {A} `{TextFormat A} (s : string) : res A :=
  match s with
  | String _ t => match get t with Some (a, _) => Ret a | None => Fail (errorString "invalid encoding") end
  | EmptyString => Fail (errorString "invalid encoding")
  end.

Lemma decode_encode_text {A} `{TextFormat A} (a : A) : decode_text (encode_text a) = Ret a.
Proof. unfold decode_text, encode_text. simpl. by rewrite get_put. Qed.

(** ** Versions *)

Definition demo_semver : Type := N * N * N.
Definition version_number (s : string) : option N :=
  match Atoi s with Some z => if (0 <=? z)%Z then Some (Z.to_N z) else None | None => None end.
Definition version_core (s : string) : string := fst (fst (Cut (fst (fst (Cut (TrimPrefix s "v") "+"))) "-")).
Definition demo_NewVersion (s : string) : res demo_semver :=
  match Split (version_core s) "." with
  | [a; b; c] =>
      match version_number a, version_number b, version_number c with
      | Some x, Some y, Some z => Ret (x, y, z)
      | _, _, _ => Fail (errorString "Invalid Semantic Version")
      end
  | _ => Fail (errorString "Invalid Semantic Version")
  end.
Definition demo_LessThan (a b : demo_semver) : bool :=
  let '(a1, a2, a3) := a in let '(b1, b2, b3) := b in
  ((a1 <? b1) || ((a1 =? b1) && ((a2 <? b2) || ((a2 =? b2) && (a3 <? b3)))))%N.

(** ** Conditions *)

Definition find_cond (t : string) (l : list Condition) : Condition :=
  default (mkCondition t "" "" "" "") (List.find (fun c => c_Type c =? t) l).
Fixpoint update_cond (t : string) (f : Condition -> Condition) (l : list Condition) : list Condition :=
  match l with
  | [] => [f (mkCondition t "" "" "" "")]
  | c :: rest => if c_Type c =? t then f c :: rest else c :: update_cond t f rest
  end.
Definition with_status (s : string) (c : Condition) : Condition := mkCondition (c_Type c) s (c_Reason c) (c_Message c) (c_Severity c).
Definition with_reason (r : string) (c : Condition) : Condition := mkCondition (c_Type c) (c_Status c) r (c_Message c) (c_Severity c).
Definition with_message (m : string) (c : Condition) : Condition := mkCondition (c_Type c) (c_Status c) (c_Reason c) m (c_Severity c).

Definition demoExternal : External := {|
  semver := demo_semver;
  NewVersion := demo_NewVersion;
  LessThan := demo_LessThan;
  GreaterThan a b := demo_LessThan b a;
  Major v := fst (fst v);
  Minor v := snd (fst v);
  Patch v := snd v;
  blang_Make_Major s := match demo_NewVersion s with Ret v => Some (fst (fst v)) | _ => None end;
  Cond_GetStatus t l := c_Status (find_cond t l);
  Cond_GetReason t l := c_Reason (find_cond t l);
  Cond_GetMessage t l := c_Message (find_cond t l);
  Cond_IsTrue t l := c_Status (find_cond t l) =? "True";
  Cond_IsFalse t l := c_Status (find_cond t l) =? "False";
  Cond_IsUnknown t l := c_Status (find_cond t l) =? "Unknown";
  Cond_SetStatus t s := update_cond t (with_status s);
  Cond_Message t m := update_cond t (with_message m);
  Cond_Reason t r := update_cond t (with_reason r);
  Cond_SetError t r e := update_cond t (fun c => mkCondition (c_Type c) "False" "Error" (Error e) "");
  MarkTrue t := update_cond t (fun _ => mkCondition t "True" "" "" "");
  MarkUnknown t r m := update_cond t (fun _ => mkCondition t "Unknown" r m "");
  MarkFalse t r sev m := update_cond t (fun _ => mkCondition t "False" r m sev);
  capi_IsTrue t l := c_Status (find_cond t l) =? "True";
  capi_GetMessage t l := c_Message (find_cond t l);
  capi_GetReason t l := c_Reason (find_cond t l);
  capi_GetSeverity t l := option_map c_Severity (List.find (fun c => c_Type c =? t) l);
  capi_IsFalse t l := c_Status (find_cond t l) =? "False";
  IsPaused c cp := cc_Paused c;
  kv_Split s sep := match cut sep s with Some (a, b) => (a, b) | None => (s, "") end;
  kv_RSplit s sep := match rev (Split s sep) with
                     | [x] => (x, "")
                     | x :: xs => (Join (rev xs) sep, x)
                     | [] => ("", "")
                     end;
  name_SafeConcatName l := Join l "-";
  name_Hex s n := take_str n (sha256_hex s);
  convert_ToString v := match v with VNil => "" | _ => Sprintv v end;
  convert_ToStringSlice v := match v with VStrings l => l | VSlice l => map Sprintv l | VString s => [s] | _ => [] end;
  convert_ToBool v := match v with VBool b => b | VString s => s =? "true" | _ => false end;
  convert_ToMapInterface v := match v with VMap l => Some l | _ => None end;
  data_PutValue m v path := (Join path ".", v) :: m;
  values_GetValueN m path := default VNil (snd <$> List.find (fun kv => fst kv =? Join path ".") m);
  Summarize m := mkSummary (m_Phase m =? "Failed") false [];
  merr_NewErrors l := Join (map Error l) ", ";
  yaml_HelmChartConfigs l := Ret (Join (map (fun kv => fst kv +:+ ": " +:+ snd kv) l) newline);
  Taint_ToString t := t_Key t +:+ "=" +:+ t_Value t +:+ ":" +:+ t_Effect t;
  LabelSelector_Matches s labels :=
    Ret match s with
        | Some s => bool_decide (map_Forall (fun k v => labels !! k = Some v) (ls_matchLabels s))
        | None => false
        end;
  RetryOnConflict_Steps := 5;
  json_Marshal_NodePlan := encode_text;
  json_Unmarshal_NodePlan := decode_text;
  json_Unmarshal_ProbeStatuses _ := Ret ∅;
  json_Unmarshal_Output _ := Ret ∅;
  json_Unmarshal_PeriodicOutput _ := Ret ∅;
  json_Unmarshal_Map _ := Ret ∅;
  json_Unmarshal_StringMap s := Ret {[ "provisioning-cluster-spec" := s ]};
  json_Unmarshal_Taints _ := Ret [];
  json_Unmarshal_Members _ := Ret [];
  json_Unmarshal_SUCMetadata s := Ret (s =? "pspEnabled");
  json_Unmarshal_KubernetesVersion s := Ret s;
  json_Marshal_DrainOptions o := Ret (encode_text o);
  json_Marshal_Map l := Ret (Sprintv (VMap l));
  json_MarshalIndent_Config c := Ret (Sprintv (VMap (map_to_list c)));
  json_Marshal_Registries m c := Ret "registries";
  gunzip s := Ret s;
  ParseIP s := negb (Contains s "example");
  url_Hostname s := Ret s;
  ExtractConfigJSON _ := Ret [("Driver", VMap [])];
  systemtemplate_ForCluster c t taints := Ret (c +:+ t);
  channelserver_Release r v := mkRelease ∅ ∅ ∅;
  SystemDefaultRegistry := ""
|}.

Lemma demoNodePlanCodec : @NodePlanCodec demoExternal.
Proof.
  split.
  - intros p. apply decode_encode_text.
  - done.
Qed.

Lemma find_cond_update t f l t' :
  (forall c, c_Type (f c) = c_Type c) ->
  find_cond t' (update_cond t f l) = if t' =? t then f (find_cond t l) else find_cond t' l.
Proof.
  intros Hf. unfold find_cond. induction l as [|c l IH]; cbn [update_cond List.find].
  - rewrite Hf. cbn [c_Type]. rewrite (bool_decide_ext (t = t') (t' = t)) by done. by case_bool_decide.
  - destruct (c_Type c =? t) eqn:E; cbn [List.find].
    + rewrite Hf. apply bool_decide_eq_true in E. subst t. cbn [default from_option].
      rewrite (bool_decide_ext (c_Type c = t') (t' = c_Type c)) by done. by case_bool_decide.
    + apply bool_decide_eq_false in E. destruct (c_Type c =? t') eqn:E1; [|exact IH]. apply bool_decide_eq_true in E1.
      rewrite (bool_decide_eq_false_2 (t' = t)) by congruence. done.
Qed.

Lemma demoCondLaws : @CondLaws demoExternal.
Proof.
  split; intros; cbn [Cond_GetStatus Cond_GetReason Cond_GetMessage Cond_SetStatus Cond_Reason Cond_Message Cond_IsTrue Cond_IsFalse Cond_IsUnknown Cond_SetError demoExternal];
    try reflexivity; rewrite find_cond_update by done; case_bool_decide; subst; done.
Qed.

Lemma demoKvLaws : @KvLaws demoExternal.
Proof. split. done. Qed.

Lemma demo_parses : @NewVersion demoExternal "v1.25.0" = Ret ((1, 25, 0)%N : @semver demoExternal).
Proof. reflexivity. Qed.

Definition demoSemverLaws : @SemverLaws demoExternal :=
  {| Kubernetes125 := ((1, 25, 0)%N : @semver demoExternal); Kubernetes125_parses := demo_parses |}.

(** ** Caches *)

Definition demoMissing {A} (kind name : string) : res A :=
  Fail (StatusError ReasonNotFound (kind +:+ " " +:+ name +:+ " not found")).

(** Caches that know the given secrets, config maps, machines and owning cluster. *)
Definition demoPlanner (secrets configMaps : gmap (string * string) Secret) (machines : list Machine)
    (cluster : option CAPICluster) : @Planner demoExternal := {|
  secretCache_Get ns name := match secrets !! (ns, name) with Some s => Ret s | None => demoMissing "secret" name end;
  configMapCache_Get ns name := match configMaps !! (ns, name) with Some s => Ret s | None => demoMissing "configmap" name end;
  capiClusters_Get ns name := Ret cluster;
  rkeBootstrapCache_Get ns name := Ret (mkRKEBootstrap ns name ∅ [mkOwnerReference "" "Machine" name "" true] ∅ false "c1" None false);
  etcdSnapshotCache_Get ns name := demoMissing "etcdsnapshot" name;
  machineCache_List ns name := Ret machines;
  clusterRegistrationTokens c := Ret [("token", "t0")];
  managementClusters_Get c := Ret tt;
  ImageResolver i cp := i;
  ReleaseData cp := Some (mkRelease ∅ ∅ ∅);
  SystemAgentImage := "rancher/system-agent-installer-";
  SystemPodLabelSelectors := None
|}.

(** ** Sample objects *)

Definition demoNode (p : NodePlan) : Node := mkNode p (Some p) "" ∅ ∅ false true true true ∅ true.
Definition demoMachine (name : string) : Machine :=
  mkMachine "fleet-default" name (name +:+ "-uid") ∅ ∅ false
    (Some (mkObjectReference "RKEBootstrap" "fleet-default" name "rke.cattle.io/v1"))
    (mkObjectReference "CustomMachine" "fleet-default" name "rke.cattle.io/v1")
    "Running" [mkCondition "InfrastructureReady" "True" "" "" ""; mkCondition "Reconciled" "True" "" "" ""]
    (Some (mkObjectReference "Node" "" name "v1")) None [] None "c1" "cluster.x-k8s.io/v1beta1" "Machine" None None.
Definition demoCluster : CAPICluster := mkCAPICluster "fleet-default" "c1" ∅ false false None true [].
Definition demoUpgradeStrategy : UpgradeStrategy := mkUpgradeStrategy "1" zeroDrainOptions "1" zeroDrainOptions.
Definition demoSpec : ControlPlaneSpec :=
  mkControlPlaneSpec demoUpgradeStrategy ∅ ∅ [] [] "" None None None 0 [] false None None None None
    "v1.27.4+rke2r1" "c1" "c-m-1" false.
Definition demoStatus : ControlPlaneStatus :=
  mkControlPlaneStatus None [] true 0 0 None "" "" None "" None "" 0 true true.
Definition demoControlPlaneOf (spec : ControlPlaneSpec) (status : ControlPlaneStatus) : RKEControlPlane :=
  mkRKEControlPlane "fleet-default" "c1" "cp-uid" 1 ∅ ∅ false
    [mkOwnerReference "cluster.x-k8s.io/v1beta1" "Cluster" "c1" "" true] spec status.
Definition demoControlPlane : RKEControlPlane := demoControlPlaneOf demoSpec demoStatus.

(** A control plane with operations requested; it is ready and bootstrapped. *)
Definition demoRequest (create : option ETCDSnapshotCreate) (restore : option ETCDSnapshotRestore)
    (certificates : option RotateCertificates) (keys : option RotateEncryptionKeys) : RKEControlPlane :=
  demoControlPlaneOf
    (mkControlPlaneSpec demoUpgradeStrategy ∅ ∅ [] [] "" None None None 0 [] false create restore certificates keys
       "v1.27.4+rke2r1" "c1" "c-m-1" false)
    (set_st_Conditions [mkCondition "Ready" "True" "" "" ""; mkCondition "Bootstrapped" "True" "" "" ""] demoStatus).
