(* ===== verification/Capr.v ===== *)
(** * Package capr ([pkg/capr/common.go])

    Names, runtimes, ownership and the metadata copying rules shared by the provisioning
    controllers. *)

From S2P Require Import Prelude GoLib Codec Errors Types External Instances.

(** ** Labels, annotations and condition types *)

Definition AddressAnnotation : string := "rke.cattle.io/address".
Definition ClusterNameLabel : string := "rke.cattle.io/cluster-name".
Definition ClusterSpecAnnotation : string := "rke.cattle.io/cluster-spec".
Definition ControlPlaneRoleLabel : string := "rke.cattle.io/control-plane-role".
Definition DrainAnnotation : string := "rke.cattle.io/drain-options".
Definition DrainDoneAnnotation : string := "rke.cattle.io/drain-done".
Definition DrainErrorAnnotation : string := "rke.cattle.io/drain-error".
Definition EtcdRoleLabel : string := "rke.cattle.io/etcd-role".
Definition ForceRemoveEtcdAnnotation : string := "rke.cattle.io/etcd-force-remove".
Definition InitNodeLabel : string := "rke.cattle.io/init-node".
Definition InitNodeMachineIDLabel : string := "rke.cattle.io/init-node-machine-id".
Definition InternalAddressAnnotation : string := "rke.cattle.io/internal-address".
Definition JoinURLAutosetDisabled : string := "rke.cattle.io/join-url-autoset-disabled".
Definition JoinURLAnnotation : string := "rke.cattle.io/join-url".
Definition JoinedToAnnotation : string := "rke.cattle.io/joined-to".
Definition LabelsAnnotation : string := "rke.cattle.io/labels".
Definition MachineIDLabel : string := "rke.cattle.io/machine-id".
Definition MachineNameLabel : string := "rke.cattle.io/machine-name".
Definition MachineUIDLabel : string := "rke.cattle.io/machine".
Definition NodeNameLabel : string := "rke.cattle.io/node-name".
Definition PlanSecret : string := "rke.cattle.io/plan-secret-name".
Definition PostDrainAnnotation : string := "rke.cattle.io/post-drain".
Definition PreDrainAnnotation : string := "rke.cattle.io/pre-drain".
Definition RoleLabel : string := "rke.cattle.io/service-account-role".
Definition TaintsAnnotation : string := "rke.cattle.io/taints".
Definition UnCordonAnnotation : string := "rke.cattle.io/uncordon".
Definition WorkerRoleLabel : string := "rke.cattle.io/worker-role".
Definition AuthorizedObjectAnnotation : string := "rke.cattle.io/object-authorized-for-clusters".
Definition PlanUpdatedTimeAnnotation : string := "rke.cattle.io/plan-last-updated".
Definition PlanProbesPassedAnnotation : string := "rke.cattle.io/plan-probes-passed".
Definition JoinServerImplausible : string := "implausible".
Definition SecretTypeMachinePlan : string := "rke.cattle.io/machine-plan".
Definition SecretTypeClusterState : string := "rke.cattle.io/cluster-state".
Definition CattleOSLabel : string := "cattle.io/os".
Definition WindowsMachineOS : string := "windows".
Definition RKEMachineAPIVersion : string := "rke-machine.cattle.io/v1".
Definition RKEAPIVersion : string := "rke.cattle.io/v1".

Definition Provisioned : string := "Provisioned".
Definition Stable : string := "Stable".
Definition Reconciled : string := "Reconciled".
Definition ReadyCond : string := "Ready".
Definition InfrastructureReady : string := "InfrastructureReady".
Definition SystemUpgradeControllerReady : string := "SystemUpgradeControllerReady".
Definition Bootstrapped : string := "Bootstrapped".

Definition RuntimeK3S : string := "k3s".
Definition RuntimeRKE2 : string := "rke2".
Definition RolePlan : string := "plan".
Definition RoleBootstrap : string := "bootstrap".
Definition MachineNamespaceLabel : string := "rke.cattle.io/machine-namespace".
Definition MachineRequestType : string := "rke.cattle.io/machine-request".
(** [capi.ClusterNameLabel] *)
Definition CAPIClusterNameLabel : string := "cluster.x-k8s.io/cluster-name".

Definition windowsDrivers : list string := ["vmwarevsphere"].
Definition WindowsCheck (driver : string) : bool := bool_decide (driver ∈ windowsDrivers).

(** ** Runtimes *)

Definition GetRuntime (kubernetesVersion : string) : string :=
  if Contains kubernetesVersion RuntimeK3S then RuntimeK3S else RuntimeRKE2.

Definition GetKubectlAndKubeconfigPaths (kubernetesVersion : string) : string * string :=
  if GetRuntime kubernetesVersion =? RuntimeK3S
  then ("/usr/local/bin/kubectl", "/etc/rancher/k3s/k3s.yaml")
  else if GetRuntime kubernetesVersion =? RuntimeRKE2
  then ("/var/lib/rancher/rke2/bin/kubectl", "/etc/rancher/rke2/rke2.yaml")
  else ("", "").

Definition GetRuntimeCommand (kubernetesVersion : string) : string :=
  ToLower (GetRuntime kubernetesVersion).

Definition GetRuntimeServerUnit (kubernetesVersion : string) : string :=
  if GetRuntime kubernetesVersion =? RuntimeK3S then RuntimeK3S else RuntimeRKE2 +:+ "-server".

Definition GetRuntimeAgentUnit (kubernetesVersion : string) : string :=
  GetRuntimeCommand kubernetesVersion +:+ "-agent".

Definition GetRuntimeEnv (kubernetesVersion : string) : string :=
  ToUpper (GetRuntime kubernetesVersion).

Definition GetRuntimeSupervisorPort (kubernetesVersion : string) : Z :=
  if GetRuntime kubernetesVersion =? RuntimeRKE2 then 9345 else 6443.

Lemma GetRuntime_cases v : GetRuntime v = RuntimeK3S \/ GetRuntime v = RuntimeRKE2.
Proof. unfold GetRuntime. destruct (Contains _ _); auto. Qed.

(** [GetLoopbackAddress]: the address the probes and the restore use on the node. *)
Definition GetLoopbackAddress (controlPlane : RKEControlPlane) : string :=
  let stackPreference :=
    match sp_StackPreference (cp_Spec controlPlane) with
    | Some p => if p !=? "" then p else "ipv4"
    | None => "ipv4"
    end in
  if stackPreference =? "ipv6" then "[::1]"
  else if stackPreference =? "dual" then "localhost"
  else "127.0.0.1".

Section external.
Context `{External}.

Definition GetKDMReleaseData (controlPlane : option RKEControlPlane) : option Release :=
  match controlPlane with
  | None => None
  | Some cp =>
      let v := sp_KubernetesVersion (cp_Spec cp) in
      if v =? "" then None else Some (channelserver_Release (GetRuntime v) v)
  end.

Definition GetFeatureVersion (controlPlane : option RKEControlPlane) (featureKey : string) : res string :=
  match controlPlane with
  | None => Fail (errorString "error retrieving feature version as controlPlane was nil")
  | Some cp =>
      match GetKDMReleaseData controlPlane with
      | None => Fail (errorString ("KDM release data was nil for controlplane " +:+ cp_Namespace cp
                                   +:+ "/" +:+ cp_Name cp))
      | Some release =>
          let version := map_get (rel_FeatureVersions release) featureKey in
          Ret (if version =? "" then "0.0.0" else version)
      end
  end.

Definition MachineStateSecretName (machineName : string) : string :=
  name_SafeConcatName [machineName; "machine"; "state"].

Definition PlanSecretFromBootstrapName (bootstrapName : string) : string :=
  name_SafeConcatName [bootstrapName; "machine"; "plan"].
End external.

(** ** Ownership *)

Definition capi_GroupVersion : string := "cluster.x-k8s.io/v1beta1".

(** [metav1.GetControllerOf]: the owner reference marked as controller. *)
Definition GetControllerOf (refs : list OwnerReference) : option OwnerReference :=
  List.find or_Controller refs.

Definition ErrNoMatchingControllerOwnerRef : error := errorString "no matching controller owner ref".
Definition ErrNoMachineOwnerRef : error := errorString "no machine owner ref".

Definition GetOwnerFromGVK (groupVersion kind namespace : string) (refs : list OwnerReference)
  : res (OwnerReference * string) :=
  match GetControllerOf refs with
  | Some ref =>
      if (or_Kind ref !=? kind) || (or_APIVersion ref !=? groupVersion)
      then Fail ErrNoMatchingControllerOwnerRef
      else Ret (ref, namespace)
  | None => Fail ErrNoMatchingControllerOwnerRef
  end.

(** [GetOwnerCAPIMachine] of an object with these owner references. *)
Definition GetOwnerCAPIMachine {M} (get : string -> string -> res M) (namespace : string) (refs : list OwnerReference) : res M :=
  match GetOwnerFromGVK capi_GroupVersion "Machine" namespace refs with
  | Ret (ref, namespace) => get namespace (or_Name ref)
  | Fail e => Fail e
  | Panic => Panic
  end.

Definition GetOwnerCAPICluster `{P : Planner} (cp : RKEControlPlane) : res (option CAPICluster) :=
  match GetOwnerFromGVK capi_GroupVersion "Cluster" (cp_Namespace cp) (cp_OwnerReferences cp) with
  | Ret (ref, namespace) => capiClusters_Get namespace (or_Name ref)
  | Fail e => Fail e
  | Panic => Panic
  end.

(** [GetOwnerCAPIMachineSet]; of the machine set only its existence matters. *)
Definition GetOwnerCAPIMachineSet {M} (get : string -> string -> res M) (namespace : string) (refs : list OwnerReference) : res M :=
  match GetOwnerFromGVK capi_GroupVersion "MachineSet" namespace refs with
  | Ret (ref, namespace) => get namespace (or_Name ref)
  | Fail e => Fail e
  | Panic => Panic
  end.

(** [GetCAPIClusterFromLabel] of a machine. *)
Definition GetCAPIClusterFromLabel `{P : Planner} (m : Machine) : res (option CAPICluster) :=
  let clusterName := map_get (m_Labels m) CAPIClusterNameLabel in
  if clusterName !=? "" then capiClusters_Get (m_Namespace m) clusterName
  else Fail (errorString (CAPIClusterNameLabel +:+ " label not present on " +:+ m_Kind m +:+ ": " +:+ m_Namespace m +:+ "/" +:+ m_Name m)).

(** [GetMachineByOwner] with the machine cache as a function of namespace and name. *)
Definition GetMachineByOwner {M} (get : string -> string -> res M) (namespace : string)
    (refs : list OwnerReference) : res M :=
  match List.find (fun o => (or_APIVersion o =? capi_GroupVersion) && (or_Kind o =? "Machine")) refs with
  | Some owner => get namespace (or_Name owner)
  | None => Fail ErrNoMachineOwnerRef
  end.

(** [IsOwnedByMachine]: the service account is owned by an RKEBootstrap owned by the machine; a
    bootstrap that cannot be read is an error. *)
Fixpoint owned_by_machine `{P : Planner} (namespace machineName : string) (owners : list OwnerReference)
  : res bool :=
  match owners with
  | [] => Ret false
  | owner :: rest =>
      if or_Kind owner =? "RKEBootstrap" then
        match rkeBootstrapCache_Get namespace (or_Name owner) with
        | Ret bootstrap =>
            if List.existsb (fun o => (or_Kind o =? "Machine") && (or_Name o =? machineName))
                            (rb_OwnerReferences bootstrap)
            then Ret true
            else owned_by_machine namespace machineName rest
        | Fail e => Fail e
        | Panic => Panic
        end
      else owned_by_machine namespace machineName rest
  end.

Definition IsOwnedByMachine `{P : Planner} (machineName : string) (sa : ServiceAccount) : res bool :=
  owned_by_machine (sa_Namespace sa) machineName (sa_OwnerReferences sa).

Definition sa_id (sa : ServiceAccount) : string := sa_Namespace sa +:+ "/" +:+ sa_Name sa.

Definition PlanSACheck `{P : Planner} (machineName : string) (planSA : option ServiceAccount) : res unit :=
  match planSA with
  | None => Fail (errorString ("planSA was nil during planSA check for machineName " +:+ machineName))
  | Some sa =>
      if machineName =? "" then Fail (errorString ("planSA " +:+ sa_id sa +:+ " compared machine name was blank"))
      else if (map_get (sa_Labels sa) MachineNameLabel !=? machineName)
              || (map_get (sa_Labels sa) RoleLabel !=? RolePlan)
              || (map_get (sa_Labels sa) PlanSecret =? "")
      then Fail (errorString ("planSA " +:+ sa_id sa +:+ " does not have correct labels"))
      else res_bind (IsOwnedByMachine machineName sa) (fun foundParent =>
           if foundParent then Ret tt
           else Fail (errorString ("planSA " +:+ sa_id sa
               +:+ " no parent found for planSA, was not owned by machine " +:+ machineName)))
  end.

Definition GetPlanSecretName (planSA : option ServiceAccount) : res string :=
  match planSA with
  | None => Fail (errorString "planSA was nil")
  | Some sa =>
      if map_get (sa_Labels sa) PlanSecret =? ""
      then Fail (errorString ("planSA " +:+ sa_id sa +:+ " plan secret label was not set"))
      else Ret (map_get (sa_Labels sa) PlanSecret)
  end.

(** [GetMachineDeletionStatus]: the first machine by name decides. *)
Definition DeleteMachineError : string := "DeleteError".
Definition GetMachineDeletionStatus (machines : list Machine) : res string :=
  match sort_by m_Name machines with
  | [] => Ret ""
  | machine :: _ =>
      match m_FailureReason machine with
      | Some r => if r =? DeleteMachineError
                  then Fail (errorString ("error deleting machine [" +:+ m_Name machine
                                          +:+ "], machine must be deleted manually"))
                  else Ret ("waiting for machine [" +:+ m_Name machine +:+ "] to delete")
      | None => Ret ("waiting for machine [" +:+ m_Name machine +:+ "] to delete")
      end
  end.

(** ** Copying plan metadata to a secret *)

(** [labelAnnotationMatch], an anchored regular expression with three alternatives. *)
Definition labelAnnotationMatch (k : string) : bool :=
  HasPrefix k "rke.cattle.io/" || HasPrefix k "cluster.x-k8s.io/"
  || HasPrefix k "machine.cluster.x-k8s.io/".

(** Entries of [source] whose key matches and is not excluded overwrite [destination]. *)
Definition CopyMapWithExcludes (destination source : gmap string string) (excludes : gset string)
  : gmap string string :=
  filter (fun kv => labelAnnotationMatch (fst kv) = true /\ fst kv ∉ excludes) source ∪ destination.

Definition CopyMap (destination source : gmap string string) : gmap string string :=
  CopyMapWithExcludes destination source ∅.

Definition CopyPlanMetadataToSecret (secret : Secret) (metadata : option Metadata) : Secret :=
  match metadata with
  | None => secret
  | Some md =>
      set_s_Annotations (CopyMap (s_Annotations secret) (md_Annotations md))
        (set_s_Labels (CopyMap (s_Labels secret) (md_Labels md)) secret)
  end.

Definition SortedKeys {A} (m : gmap string A) : list string := sort_Strings (map fst (map_to_list m)).

(** ** SafeConcatName *)

(** [s[lo:hi]]: out-of-range indices panic. *)
Definition slice (s : string) (lo hi : Z) : res string :=
  if ((0 <=? lo) && (lo <=? hi) && (hi <=? Z.of_nat (String.length s)))%Z
  then Ret (take_str (Z.to_nat (hi - lo)) (drop_str (Z.to_nat lo) s))
  else Panic.

Definition SafeConcatName (maxLength : Z) (name : list string) : res string :=
  let hashLength := 6 in
  let fullPath := Join name "-" in
  if (Z.of_nat (String.length fullPath) <=? maxLength)%Z then Ret fullPath
  else if (maxLength =? 0)%Z then Ret ""
  else if (maxLength <=? 5)%Z then slice fullPath 0 maxLength
  else
    let digest := sha256_hex fullPath in
    let trailingCharacterIndex :=
      if (maxLength - (hashLength + 1) <? 0)%Z then 0 else maxLength - (hashLength + 1) in
    match String.get (Z.to_nat trailingCharacterIndex) fullPath with
    | None => Panic
    | Some ch =>
        let c := Ascii.nat_of_ascii ch in
        if (((97 <=? c) && (c <=? 122)) || ((48 <=? c) && (c <=? 57)))%nat then
          res_bind (slice fullPath 0 (maxLength - hashLength)) (fun remainingString =>
          res_bind (slice digest 0 (hashLength - 1)) (fun hash =>
          Ret (if remainingString =? "" then hash else remainingString +:+ "-" +:+ hash)))
        else
          res_bind (slice fullPath 0 (maxLength - (hashLength + 1))) (fun front =>
          res_bind (slice digest 0 hashLength) (fun hash => Ret (front +:+ "-" +:+ hash)))
    end.

(** ** The cluster spec recorded in a snapshot *)

Section snapshots.
Context `{External}.

(** [DecompressInterface]: base64, gzip, JSON; the decoder of the last is a parameter. *)
Definition DecompressInterface {A} (unmarshal : string -> res A) (inputb64 : string) : res A :=
  if inputb64 =? "" then Fail (errorString "empty base64 input")
  else match base64_DecodeString inputb64 with
       | None => Fail (errorString "error base64.DecodeString")
       | Some gz => res_bind (gunzip gz) unmarshal
       end.

(** The planner reads only the Kubernetes version of a decoded specification. *)
Definition DecompressClusterSpec (inputb64 : string) : res string := DecompressInterface json_Unmarshal_KubernetesVersion inputb64.

Definition snapshot_ClusterSpec {A} (decompress : string -> res A) (snapshot : option ETCDSnapshot) : res A :=
  match snapshot with
  | None => Fail (errorString "snapshot was nil")
  | Some s =>
      let notfound := Fail (errorString "unable to find and decode snapshot ClusterSpec for snapshot") in
      if sf_Metadata (es_SnapshotFile s) !=? "" then
        match base64_DecodeString (sf_Metadata (es_SnapshotFile s)) with
        | None => Fail (errorString "illegal base64 data")
        | Some b =>
            res_bind (json_Unmarshal_StringMap b) (fun md =>
              match md !! "provisioning-cluster-spec" with
              | Some v => decompress v
              | None => notfound
              end)
        end
      else notfound
  end.

Definition ParseSnapshotClusterSpecOrError (snapshot : option ETCDSnapshot) : res string :=
  snapshot_ClusterSpec DecompressClusterSpec snapshot.
End snapshots.

(** ** Properties *)

Lemma lookup_CopyMap dst src k :
  CopyMap dst src !! k =
    if labelAnnotationMatch k
    then match src !! k with Some v => Some v | None => dst !! k end
    else dst !! k.
Proof.
  unfold CopyMap, CopyMapWithExcludes. destruct (labelAnnotationMatch k) eqn:E.
  - destruct (src !! k) as [v|] eqn:E2.
    + apply lookup_union_Some_l. apply map_lookup_filter_Some. split; [done|]. simpl. set_solver.
    + apply lookup_union_r. apply map_lookup_filter_None. auto.
  - apply lookup_union_r. apply map_lookup_filter_None. right. simpl. intros v _ [? _]. congruence.
Qed.

Lemma CopyMap_id m : CopyMap m m = m.
Proof.
  apply map_eq. intros k. rewrite lookup_CopyMap.
  destruct (labelAnnotationMatch k); [|done]. by destruct (m !! k).
Qed.

Lemma slice_Ret s lo hi t :
  slice s lo hi = Ret t -> Z.of_nat (String.length t) = hi - lo.
Proof.
  unfold slice. destruct (_ && _) eqn:E; [|done]. intros [= <-].
  rewrite length_take_str, length_drop_str. lia.
Qed.

Lemma slice_total s lo hi :
  0 <= lo <= hi -> hi <= Z.of_nat (String.length s) -> exists t, slice s lo hi = Ret t.
Proof. intros. unfold slice. rewrite (proj2 (andb_true_iff _ _)); [eauto|]. lia. Qed.

Lemma length_string_of_bytes l : String.length (string_of_bytes l) = length l.
Proof. induction l; simpl; auto. Qed.

Lemma length_hex l : String.length (hex_EncodeToString l) = (2 * length l)%nat.
Proof.
  unfold hex_EncodeToString. rewrite length_string_of_bytes.
  induction l as [|b l IH]; simpl; [done|]. rewrite IH. lia.
Qed.

Lemma length_sha256_hex s : String.length (sha256_hex s) = 64%nat.
Proof. unfold sha256_hex. by rewrite length_hex, sha256_length. Qed.

Lemma get_total n s : (n < String.length s)%nat -> exists c, String.get n s = Some c.
Proof. revert n. induction s as [|c s IH]; intros [|n] Hn; simpl in *; try lia; eauto. apply IH. lia. Qed.

(** [SafeConcatName] returns, and the name it returns fits: for every limit but 6 the result is at
    most [maxLength] bytes long, whatever the parts are. *)
Theorem SafeConcatName_fits maxLength name :
  0 <= maxLength -> maxLength <> 6 ->
  exists s, SafeConcatName maxLength name = Ret s /\ Z.of_nat (String.length s) <= maxLength.
Proof.
  intros H0 H6. unfold SafeConcatName. set (full := Join name "-"). cbv zeta.
  destruct (Z.of_nat (String.length full) <=? maxLength)%Z eqn:E1; [eexists; split; [done|lia]|].
  destruct (maxLength =? 0)%Z eqn:E2; [eexists; split; [done|simpl; lia]|].
  destruct (maxLength <=? 5)%Z eqn:E3.
  { destruct (slice_total full 0 maxLength) as [t Ht]; [lia|lia|]. exists t. split; [done|].
    apply slice_Ret in Ht. lia. }
  rewrite (proj2 (Z.ltb_ge _ _)) by lia.
  destruct (get_total (Z.to_nat (maxLength - (6 + 1))) full) as [ch ->]; [lia|].
  pose proof (length_sha256_hex full) as Hlen.
  destruct (_ || _).
  - destruct (slice_total full 0 (maxLength - 6)) as [t Ht]; [lia|lia|].
    destruct (slice_total (sha256_hex full) 0 (6 - 1)) as [u Hu]; [lia|lia|].
    rewrite Ht, Hu. simpl. eexists; split; [done|].
    apply slice_Ret in Ht, Hu. case_bool_decide; rewrite ?length_app_str; simpl; lia.
  - destruct (slice_total full 0 (maxLength - (6 + 1))) as [t Ht]; [lia|lia|].
    destruct (slice_total (sha256_hex full) 0 6) as [u Hu]; [lia|lia|].
    rewrite Ht, Hu. simpl. eexists; split; [done|].
    apply slice_Ret in Ht, Hu. rewrite ?length_app_str; simpl; lia.
Qed.

Lemma SafeConcatName_fits_witness :
  exists s, SafeConcatName 10 ["a-long-cluster-name"; "machine"; "plan"] = Ret s /\ Z.of_nat (String.length s) <= 10.
Proof. apply SafeConcatName_fits; [discriminate|discriminate]. Defined.

(** [CopyPlanMetadataToSecret] carries exactly the planner's and cluster-api's labels and
    annotations: a key of those prefixes takes the value of the plan's metadata when the metadata has
    it, every other key keeps the value of the secret, and the rest of the secret is untouched. *)
Theorem CopyPlanMetadataToSecret_frame secret md :
  let secret' := CopyPlanMetadataToSecret secret (Some md) in
  (forall k, s_Labels secret' !! k =
     if labelAnnotationMatch k then match md_Labels md !! k with Some v => Some v | None => s_Labels secret !! k end
     else s_Labels secret !! k)
  /\ (forall k, s_Annotations secret' !! k =
     if labelAnnotationMatch k then match md_Annotations md !! k with Some v => Some v | None => s_Annotations secret !! k end
     else s_Annotations secret !! k)
  /\ s_Data secret' = s_Data secret /\ s_Type secret' = s_Type secret
  /\ s_Namespace secret' = s_Namespace secret /\ s_Name secret' = s_Name secret.
Proof. simpl. split; [|split]; [intros k; apply lookup_CopyMap..|done]. Qed.

Section ownership.
Context `{P : Planner}.

Lemma owned_by_machine_true ns machineName owners :
  owned_by_machine ns machineName owners = Ret true ->
  exists o bootstrap m, o ∈ owners /\ or_Kind o = "RKEBootstrap"
    /\ rkeBootstrapCache_Get ns (or_Name o) = Ret bootstrap
    /\ m ∈ rb_OwnerReferences bootstrap /\ or_Kind m = "Machine" /\ or_Name m = machineName.
Proof.
  induction owners as [|o owners IH]; simpl; [done|].
  assert (owned_by_machine ns machineName owners = Ret true ->
    exists o' bootstrap m, o' ∈ o :: owners /\ or_Kind o' = "RKEBootstrap"
      /\ rkeBootstrapCache_Get ns (or_Name o') = Ret bootstrap
      /\ m ∈ rb_OwnerReferences bootstrap /\ or_Kind m = "Machine" /\ or_Name m = machineName) as Hrest.
  { intros Ht. destruct (IH Ht) as (o' & b & m & ? & ?). exists o', b, m. set_solver. }
  case_bool_decide as Hk; [|done]. destruct (rkeBootstrapCache_Get ns (or_Name o)) as [b|e|] eqn:Eb; [|done..].
  destruct (List.existsb _ _) eqn:Ee; [|done]. intros _.
  apply existsb_exists in Ee as (m & Hm & [H1 H2]%andb_true_iff). exists o, b, m.
  apply list_elem_of_In in Hm. apply bool_decide_eq_true_1 in H1, H2. repeat split; auto. set_solver.
Qed.

(** A service account that passes [PlanSACheck] is labelled for the machine and the plan role,
    names a plan secret, and is owned by a bootstrap object that the machine owns: a service account
    of one machine cannot read the plan of another. *)
Theorem PlanSACheck_sound machineName sa :
  PlanSACheck machineName (Some sa) = Ret tt ->
  machineName <> "" /\ map_get (sa_Labels sa) MachineNameLabel = machineName
  /\ map_get (sa_Labels sa) RoleLabel = RolePlan
  /\ GetPlanSecretName (Some sa) = Ret (map_get (sa_Labels sa) PlanSecret)
  /\ exists o bootstrap m, o ∈ sa_OwnerReferences sa /\ or_Kind o = "RKEBootstrap"
       /\ rkeBootstrapCache_Get (sa_Namespace sa) (or_Name o) = Ret bootstrap
       /\ m ∈ rb_OwnerReferences bootstrap /\ or_Kind m = "Machine" /\ or_Name m = machineName.
Proof.
  unfold PlanSACheck, GetPlanSecretName. case_bool_decide as H0; [done|].
  case_bool_decide as H1; [|done]. case_bool_decide as H2; [|done]. case_bool_decide as H3; [done|].
  cbn [negb orb]. destruct (IsOwnedByMachine machineName sa) as [[]|e|] eqn:E; simpl; try done.
  intros _. repeat split; auto. by apply owned_by_machine_true.
Qed.
End ownership.

Section witnesses.
#[local] Existing Instance demoExternal.

Lemma PlanSACheck_sound_witness :
  let sa := mkServiceAccount "fleet-default" "plan-sa"
              {[ MachineNameLabel := "m1"; RoleLabel := RolePlan; PlanSecret := "m1-machine-plan" ]}
              [mkOwnerReference "" "RKEBootstrap" "m1" "" true] "sa-uid" in
  PlanSACheck (P := demoPlanner ∅ ∅ [] None) "m1" (Some sa) = Ret tt
  /\ map_get (sa_Labels sa) MachineNameLabel = "m1".
Proof.
  intros sa. assert (PlanSACheck (P := demoPlanner ∅ ∅ [] None) "m1" (Some sa) = Ret tt) as H by (vm_compute; reflexivity).
  split; [exact H|]. exact (proj1 (proj2 (PlanSACheck_sound (P := demoPlanner ∅ ∅ [] None) "m1" sa H))).
Defined.
End witnesses.
