(* ===== verification/PlanEntry.v ===== *)
(** * Plan entries ([pkg/capr/planner/planentry.go])

    Role filters, the collection of the machines of a cluster in name order, and the validity of
    join URLs. *)

From S2P Require Import Prelude GoLib Errors Types External Instances Capr.

(** Labels and annotations of an entry.  Reading through a nil [Metadata] pointer would panic in
    Go; every filter below tests the pointer first, and [role_has_metadata] shows that the entries
    the planner works on have metadata. *)
Definition pe_label (e : planEntry) (k : string) : string :=
  match pe_Metadata e with Some md => map_get (md_Labels md) k | None => "" end.
Definition pe_annotation (e : planEntry) (k : string) : string :=
  match pe_Metadata e with Some md => map_get (md_Annotations md) k | None => "" end.
Definition pe_name (e : planEntry) : string := m_Name (pe_Machine e).

Definition roleFilter : Type := planEntry -> bool.

(** The entry of a machine: its plan and metadata are looked up under the machine's name. *)
Definition entry_of (p : Plan) (machineName : string) (machine : Machine) : planEntry :=
  mkplanEntry machine (pl_Nodes p !! machineName) (pl_Metadata p !! machineName).

(** ** Filters *)

Definition has_metadata (e : planEntry) : bool := bool_decide (is_Some (pe_Metadata e)).

Definition isEtcd (e : planEntry) : bool := has_metadata e && (pe_label e EtcdRoleLabel =? "true").
Definition isInitNode (e : planEntry) : bool := has_metadata e && (pe_label e InitNodeLabel =? "true").
Definition isDeleting (e : planEntry) : bool := m_Deleting (pe_Machine e).
Definition isNotDeleting (e : planEntry) : bool := negb (isDeleting e).
Definition isInitNodeOrDeleting (e : planEntry) : bool := isInitNode e || isDeleting e.
Definition isNotInitNodeOrIsDeleting (e : planEntry) : bool := negb (isInitNode e) || isDeleting e.
Definition isControlPlane (e : planEntry) : bool := has_metadata e && (pe_label e ControlPlaneRoleLabel =? "true").
Definition isWorker (e : planEntry) : bool := has_metadata e && (pe_label e WorkerRoleLabel =? "true").
Definition isNotDeletingAndControlPlaneOrInitNode (e : planEntry) : bool :=
  negb (isDeleting e) && (isControlPlane e || isInitNode e).
Definition isFailed (e : planEntry) : bool := m_Phase (pe_Machine e) =? "Failed".
Definition isControlPlaneAndNotInitNode (e : planEntry) : bool := isControlPlane e && negb (isInitNode e).
Definition isControlPlaneEtcd (e : planEntry) : bool := isControlPlane e || isEtcd e.
Definition IsOnlyEtcd (e : planEntry) : bool := isEtcd e && negb (isControlPlane e).
Definition IsEtcdOnlyInitNode (e : planEntry) : bool := isInitNode e && IsOnlyEtcd e.
Definition isOnlyControlPlane (e : planEntry) : bool := negb (isEtcd e) && isControlPlane e.
Definition noRole (e : planEntry) : bool := negb (isEtcd e) && negb (isControlPlane e) && negb (isWorker e).
Definition anyRole (e : planEntry) : bool := negb (noRole e).
Definition isOnlyWorker (e : planEntry) : bool := negb (isEtcd e) && negb (isControlPlane e) && isWorker e.

Definition windows (e : planEntry) : bool :=
  match pe_Metadata e with
  | None => false
  | Some md => match md_Labels md !! CattleOSLabel with
               | Some val => val =? WindowsMachineOS
               | None => false
               end
  end.

Definition anyRoleWithoutWindows (e : planEntry) : bool := negb (noRole e) && negb (windows e).

Definition anyPlanDataExists (e : planEntry) : bool :=
  match pe_Plan e with Some n => n_PlanDataExists n | None => false end.

Definition hasJoinURL (e : planEntry) : bool := has_metadata e && (pe_annotation e JoinURLAnnotation !=? "").
Definition hasJoinedTo (e : planEntry) : bool := has_metadata e && (pe_annotation e JoinedToAnnotation !=? "").

Definition roleAnd (r1 r2 : roleFilter) : roleFilter := fun e => r1 e && r2 e.
Definition roleOr (r1 r2 : roleFilter) : roleFilter := fun e => r1 e || r2 e.
Definition roleNot (r1 : roleFilter) : roleFilter := fun e => negb (r1 e).

(** [canBeInitNode] waits for the infrastructure, whose addresses bootstrapping needs. *)
Definition canBeInitNode `{External} (e : planEntry) : bool :=
  isEtcd e && negb (isDeleting e) && negb (isFailed e)
  && Cond_IsTrue InfrastructureReady (m_Conditions (pe_Machine e)).

(** ** Collection *)

(** The loop of [collect] over the machines in a given iteration order (Go's order of a map is
    unspecified), followed by the sort by machine name. *)
Definition collect_from (p : Plan) (order : list (string * Machine)) (include : roleFilter) : list planEntry :=
  sort_by pe_name (List.filter include (map (fun kv => entry_of p (fst kv) (snd kv)) order)).

Definition collect (p : Plan) (include : roleFilter) : list planEntry :=
  collect_from p (map_to_list (pl_Machines p)) include.

Definition collectAndValidate_from (p : Plan) (order : list (string * Machine)) (validation : roleFilter)
    (annotation v : string) : bool :=
  List.existsb (fun kv => let entry := entry_of p (fst kv) (snd kv) in
                          validation entry && (pe_annotation entry annotation =? v)) order.

Definition collectAndValidateAnnotationValue (p : Plan) (validation : roleFilter) (annotation v : string) : bool :=
  collectAndValidate_from p (map_to_list (pl_Machines p)) validation annotation v.

Definition validJoinURL (p : Plan) (joinURL : string) : bool :=
  collectAndValidateAnnotationValue p isNotDeletingAndControlPlaneOrInitNode JoinURLAnnotation joinURL.

(** ** Well-formed plans *)

(** Machines are stored under their own name ([Load] builds the map that way). *)
Definition plan_wf (p : Plan) : Prop := forall k m, pl_Machines p !! k = Some m -> m_Name m = k.

Lemma elem_of_collect p f e :
  e ∈ collect p f <-> exists k m, pl_Machines p !! k = Some m /\ e = entry_of p k m /\ f e = true.
Proof.
  unfold collect, collect_from. rewrite elem_of_sort_by, elem_of_filter_bool.
  rewrite list_elem_of_In, in_map_iff. split.
  - intros [([k m] & <- & Hin) Hf]. apply list_elem_of_In, elem_of_map_to_list in Hin. eauto.
  - intros (k & m & Hk & -> & Hf). split; [|done]. exists (k, m). split; [done|].
    by apply list_elem_of_In, elem_of_map_to_list.
Qed.

Lemma collect_name p f e :
  plan_wf p -> e ∈ collect p f ->
  pl_Machines p !! pe_name e = Some (pe_Machine e) /\ e = entry_of p (pe_name e) (pe_Machine e) /\ f e = true.
Proof.
  intros Hwf (k & m & Hk & -> & Hf)%elem_of_collect. unfold pe_name. simpl.
  rewrite (Hwf k m Hk). auto.
Qed.

Lemma collect_include p f e : e ∈ collect p f -> f e = true.
Proof. intros (? & ? & _ & _ & ?)%elem_of_collect. done. Qed.

#[export] Hint Resolve collect_include : planner.

(** No machine is collected twice. *)
Lemma collect_NoDup p f : plan_wf p -> NoDup (map pe_name (collect p f)).
Proof.
  intros Hwf. unfold collect, collect_from. rewrite sort_by_perm. apply NoDup_map_filter. rewrite map_map.
  assert (map (fun kv : string * Machine => pe_name (entry_of p kv.1 kv.2)) (map_to_list (pl_Machines p))
          = (map_to_list (pl_Machines p)).*1) as ->; [|apply NoDup_fst_map_to_list].
  apply map_ext_in. intros [k m] Hin%list_elem_of_In%elem_of_map_to_list. by apply Hwf.
Qed.

(** [collect] does not depend on the iteration order of Go's map: whatever order the machines
    are visited in, the same entries come out in the same order, sorted by machine name. *)
Theorem collect_any_order p order f :
  plan_wf p -> order ≡ₚ map_to_list (pl_Machines p) ->
  collect_from p order f = collect p f /\ StronglySorted (key_le pe_name) (collect p f).
Proof.
  intros Hwf Hp. split; [|apply sort_by_sorted].
  apply sort_by_unique; [|by apply filter_bool_perm, Permutation_map].
  assert (forall x, x ∈ List.filter f (map (fun kv => entry_of p kv.1 kv.2) order) ->
                    pl_Machines p !! pe_name x = Some (pe_Machine x) /\ x = entry_of p (pe_name x) (pe_Machine x)) as Hx.
  { intros x [Hin _]%elem_of_filter_bool. apply list_elem_of_In, in_map_iff in Hin as ([k m] & <- & Hin).
    apply list_elem_of_In in Hin. rewrite Hp in Hin. apply elem_of_map_to_list in Hin.
    unfold pe_name. simpl. by rewrite (Hwf k m Hin). }
  intros x y [H1 Hx1]%Hx [H2 Hx2]%Hx Hk. rewrite Hx1, Hx2, Hk in *. congruence.
Qed.

Lemma collect_any_order_witness :
  let p := mkPlan ∅ {[ "b" := demoMachine "b"; "a" := demoMachine "a" ]} ∅ in
  collect_from p (rev (map_to_list (pl_Machines p))) (fun _ => true) = collect p (fun _ => true).
Proof.
  intros p. apply (collect_any_order p).
  - intros k m. unfold p. cbn [pl_Machines].
    intros [[<- <-]|[_ [<- <-]%lookup_singleton_Some]]%lookup_insert_Some; done.
  - symmetry. apply Permutation_rev.
Defined.

(** Membership tests over the plan do not depend on the order either. *)
Lemma validJoinURL_spec p url :
  validJoinURL p url = true <->
  exists e, e ∈ collect p isNotDeletingAndControlPlaneOrInitNode /\ pe_annotation e JoinURLAnnotation = url.
Proof.
  unfold validJoinURL, collectAndValidateAnnotationValue, collectAndValidate_from.
  rewrite existsb_exists. split.
  - intros ([k m] & Hin & [Hf Ha]%andb_true_iff). apply bool_decide_eq_true_1 in Ha.
    exists (entry_of p k m). split; [|done]. apply elem_of_collect.
    apply list_elem_of_In, elem_of_map_to_list in Hin. eauto.
  - intros (e & (k & m & Hk & -> & Hf)%elem_of_collect & Ha). exists (k, m).
    split; [by apply list_elem_of_In, elem_of_map_to_list|]. simpl. rewrite Hf. simpl.
    by apply bool_decide_eq_true_2.
Qed.

(** ** Filters and metadata *)

Lemma role_has_metadata e :
  isEtcd e || isControlPlane e || isWorker e || isInitNode e = true -> is_Some (pe_Metadata e).
Proof.
  unfold isEtcd, isControlPlane, isWorker, isInitNode, has_metadata.
  destruct (pe_Metadata e) as [md|]; [eauto|]. by rewrite bool_decide_eq_false_2 by (intros [? ?]; done).
Qed.

Lemma anyRole_spec e : anyRole e = isEtcd e || isControlPlane e || isWorker e.
Proof. unfold anyRole, noRole. by destruct (isEtcd e), (isControlPlane e), (isWorker e). Qed.

Lemma isOnlyWorker_spec e :
  isOnlyWorker e = true <-> isEtcd e = false /\ isControlPlane e = false /\ isWorker e = true.
Proof. unfold isOnlyWorker. by destruct (isEtcd e), (isControlPlane e), (isWorker e); simpl; intuition. Qed.
