(* ===== verification/World.v ===== *)
(** * The state a planning pass works on

    The in-memory cluster plan, the objects behind the API server, and a schedule of failures: the
    outcome of every API request is decided by the next element of [w_faults], so a theorem about
    all worlds is a theorem about all ways requests can fail.

    Aliasing: every [planEntry] of a machine points to the one [Metadata] object of the plan, so
    metadata is read from and written to [w_plan] under the machine's name, while the [Plan] field
    of an entry is its own and is returned with the entry. *)

From S2P Require Import Prelude GoLib Errors Types External Capr PlanEntry.

Record World := mkWorld {
  w_plan : Plan;
  w_secrets : gmap (string * string) Secret;
  w_machines : gmap (string * string) Machine;
  w_clusters : gmap (string * string) CAPICluster;
  w_bootstraps : gmap (string * string) RKEBootstrap;
  w_snapshots : gmap (string * string) ETCDSnapshot;
  w_faults : list (option error);
  w_now : string;
  w_tokens : list (res string)
}.

Definition set_w_plan (v : Plan) (w : World) : World :=
  mkWorld v (w_secrets w) (w_machines w) (w_clusters w) (w_bootstraps w) (w_snapshots w) (w_faults w) (w_now w) (w_tokens w).
Definition set_w_secrets (v : gmap (string * string) Secret) (w : World) : World :=
  mkWorld (w_plan w) v (w_machines w) (w_clusters w) (w_bootstraps w) (w_snapshots w) (w_faults w) (w_now w) (w_tokens w).
Definition set_w_machines (v : gmap (string * string) Machine) (w : World) : World :=
  mkWorld (w_plan w) (w_secrets w) v (w_clusters w) (w_bootstraps w) (w_snapshots w) (w_faults w) (w_now w) (w_tokens w).
Definition set_w_clusters (v : gmap (string * string) CAPICluster) (w : World) : World :=
  mkWorld (w_plan w) (w_secrets w) (w_machines w) v (w_bootstraps w) (w_snapshots w) (w_faults w) (w_now w) (w_tokens w).
Definition set_w_bootstraps (v : gmap (string * string) RKEBootstrap) (w : World) : World :=
  mkWorld (w_plan w) (w_secrets w) (w_machines w) (w_clusters w) v (w_snapshots w) (w_faults w) (w_now w) (w_tokens w).
Definition set_w_snapshots (v : gmap (string * string) ETCDSnapshot) (w : World) : World :=
  mkWorld (w_plan w) (w_secrets w) (w_machines w) (w_clusters w) (w_bootstraps w) v (w_faults w) (w_now w) (w_tokens w).
Definition set_w_faults (v : list (option error)) (w : World) : World :=
  mkWorld (w_plan w) (w_secrets w) (w_machines w) (w_clusters w) (w_bootstraps w) (w_snapshots w) v (w_now w) (w_tokens w).
Definition set_w_tokens (v : list (res string)) (w : World) : World :=
  mkWorld (w_plan w) (w_secrets w) (w_machines w) (w_clusters w) (w_bootstraps w) (w_snapshots w) (w_faults w) (w_now w) v.

Definition M (A : Type) : Type := ST World A.

(** ** API requests *)

(** Consumes one element of the failure schedule. *)
Definition api_request : M unit := fun w =>
  match w_faults w with
  | [] => (w, Ret tt)
  | None :: fs => (set_w_faults fs w, Ret tt)
  | Some e :: fs => (set_w_faults fs w, Fail e)
  end.

Definition not_found (kind name : string) : error :=
  StatusError ReasonNotFound (kind +:+ " " +:+ name +:+ " not found").

Definition already_exists (kind name : string) : error :=
  StatusError ReasonAlreadyExists (kind +:+ " " +:+ name +:+ " already exists").

Definition secrets_Get (ns name : string) : M Secret :=
  let* _ := api_request in
  let* ss := gets w_secrets in
  match ss !! (ns, name) with
  | Some s => ret s
  | None => fail (not_found "secret" name)
  end.

Definition secrets_Update (s : Secret) : M Secret :=
  let* _ := api_request in
  let* ss := gets w_secrets in
  match ss !! (s_Namespace s, s_Name s) with
  | None => fail (not_found "secret" (s_Name s))
  | Some _ =>
      let* _ := modify (set_w_secrets (<[(s_Namespace s, s_Name s) := s]> ss)) in
      ret s
  end.

Definition secrets_Create (s : Secret) : M unit :=
  let* _ := api_request in
  let* ss := gets w_secrets in
  match ss !! (s_Namespace s, s_Name s) with
  | Some _ => fail (already_exists "secret" (s_Name s))
  | None => modify (set_w_secrets (<[(s_Namespace s, s_Name s) := s]> ss))
  end.

(** [Create] of a secret with [GenerateName]: the server appends a suffix of its own. *)
Definition secrets_CreateGenerated (prefix : string) (s : Secret) : M Secret :=
  let* _ := api_request in
  let* ts := gets w_tokens in
  match ts with
  | Ret suffix :: ts' =>
      let* _ := modify (set_w_tokens ts') in
      let s := mkSecret (s_Namespace s) (prefix +:+ suffix) (s_Type s) (s_Labels s) (s_Annotations s) (s_Data s)
                 (s_OwnerReferences s) false in
      let* ss := gets w_secrets in
      match ss !! (s_Namespace s, s_Name s) with
      | Some _ => fail (already_exists "secret" (s_Name s))
      | None => let* _ := modify (set_w_secrets (<[(s_Namespace s, s_Name s) := s]> ss)) in ret s
      end
  | _ => fail (StatusError ReasonOther "cannot generate a name")
  end.

Definition secrets_Delete (ns name : string) : M unit :=
  let* _ := api_request in
  let* ss := gets w_secrets in
  match ss !! (ns, name) with
  | None => fail (not_found "secret" name)
  | Some _ => modify (set_w_secrets (delete (ns, name) ss))
  end.

(** [machines.Update] and [UpdateStatus] of a machine object. *)
Definition machines_Update (m : Machine) : M Machine :=
  let* _ := api_request in
  let* ms := gets w_machines in
  let* _ := modify (set_w_machines (<[(m_Namespace m, m_Name m) := m]> ms)) in
  ret m.

Definition capiClient_Update (c : CAPICluster) : M unit :=
  let* _ := api_request in
  let* cs := gets w_clusters in
  modify (set_w_clusters (<[(cc_Namespace c, cc_Name c) := c]> cs)).

Definition rkeBootstrap_Update (b : RKEBootstrap) : M unit :=
  let* _ := api_request in
  let* bs := gets w_bootstraps in
  modify (set_w_bootstraps (<[(rb_Namespace b, rb_Name b) := b]> bs)).

Definition etcdSnapshots_Create (s : ETCDSnapshot) : M unit :=
  let* _ := api_request in
  let* ss := gets w_snapshots in
  match ss !! (es_Namespace s, es_Name s) with
  | Some _ => fail (already_exists "etcdsnapshot" (es_Name s))
  | None => modify (set_w_snapshots (<[(es_Namespace s, es_Name s) := s]> ss))
  end.

Definition etcdSnapshots_Delete (ns name : string) : M unit :=
  let* _ := api_request in
  let* ss := gets w_snapshots in
  match ss !! (ns, name) with
  | None => fail (not_found "etcdsnapshot" name)
  | Some _ => modify (set_w_snapshots (delete (ns, name) ss))
  end.

(** [randomtoken.Generate]. *)
Definition randomtoken_Generate : M string := fun w =>
  match w_tokens w with
  | [] => (w, Fail (errorString "no entropy"))
  | t :: ts => (set_w_tokens ts w, t)
  end.

(** ** The metadata of an entry *)

(** Reading [entry.Metadata]: a nil pointer panics. *)
Definition entry_metadata (e : planEntry) : M Metadata :=
  let* p := gets w_plan in
  match pl_Metadata p !! pe_name e with
  | Some md => ret md
  | None => panic
  end.

(** The entry with the metadata the plan holds now. *)
Definition refresh (e : planEntry) : M planEntry :=
  let* p := gets w_plan in
  ret (set_pe_Metadata (pl_Metadata p !! pe_name e) e).

Definition put_metadata (e : planEntry) (md : Metadata) : M planEntry :=
  let* p := gets w_plan in
  let* _ := modify (set_w_plan (set_pl_Metadata (<[pe_name e := md]> (pl_Metadata p)) p)) in
  ret (set_pe_Metadata (Some md) e).

Definition set_annotation (e : planEntry) (k v : string) : M planEntry :=
  let* md := entry_metadata e in
  put_metadata e (set_md_Annotations (<[k := v]> (md_Annotations md)) md).

Definition set_label (e : planEntry) (k v : string) : M planEntry :=
  let* md := entry_metadata e in
  put_metadata e (set_md_Labels (<[k := v]> (md_Labels md)) md).

(** An assignment to a field of the cluster plan. *)
Definition mod_plan (f : Plan -> Plan) : M unit := modify (fun w => set_w_plan (f (w_plan w)) w).

(** [collect] on the plan of the current state. *)
Definition collectM (include : roleFilter) : M (list planEntry) :=
  let* p := gets w_plan in ret (collect p include).

(** ** Inversion of requests that succeed *)

Lemma api_request_Ret w w' : api_request w = (w', Ret tt) -> w_secrets w' = w_secrets w /\ w_plan w' = w_plan w /\ w_now w' = w_now w.
Proof. unfold api_request. destruct (w_faults w) as [|[e|] fs]; naive_solver. Qed.

Lemma secrets_Get_Ret ns name w w' s :
  secrets_Get ns name w = (w', Ret s) ->
  w_secrets w !! (ns, name) = Some s /\ w_secrets w' = w_secrets w /\ w_plan w' = w_plan w /\ w_now w' = w_now w.
Proof.
  unfold secrets_Get. intros ([] & w1 & (H1 & H2 & H3)%api_request_Ret & H)%bind_Ret.
  unfold bind, gets in H. rewrite <- H1, <- H2, <- H3.
  destruct (w_secrets w1 !! (ns, name)) eqn:E; inv H. done.
Qed.

Lemma secrets_Update_Ret s w w' s' :
  secrets_Update s w = (w', Ret s') ->
  s' = s /\ w_secrets w' = <[(s_Namespace s, s_Name s) := s]> (w_secrets w) /\ w_plan w' = w_plan w.
Proof.
  unfold secrets_Update. intros ([] & w1 & (H1 & H2 & H3)%api_request_Ret & H)%bind_Ret.
  unfold bind, gets, modify in H. destruct (w_secrets w1 !! _) eqn:E; inv H. simpl. by rewrite H1, H2.
Qed.

(** ** Frames

    Objects are stored under their own names, as in the API server. *)
Definition secrets_wf (w : World) : Prop :=
  forall k s, w_secrets w !! k = Some s -> (s_Namespace s, s_Name s) = k.

(** What a run may change of the plan's metadata (by machine name) and of the secrets (by key): the
    machines and nodes of the plan stay, everything outside [N] and [K] is untouched. *)
Definition frame (N : string -> Prop) (K : string * string -> Prop) (w w' : World) : Prop :=
  pl_Machines (w_plan w') = pl_Machines (w_plan w) /\ pl_Nodes (w_plan w') = pl_Nodes (w_plan w)
  /\ (forall n, ~ N n -> pl_Metadata (w_plan w') !! n = pl_Metadata (w_plan w) !! n)
  /\ (forall k, ~ K k -> w_secrets w' !! k = w_secrets w !! k).

#[global] Instance frame_preorder N K : PreOrder (frame N K).
Proof.
  split.
  - intros w. by repeat split.
  - intros w1 w2 w3 (A1 & A2 & A3 & A4) (B1 & B2 & B3 & B4). split; [congruence|]. split; [congruence|].
    split; intros x Hx; [by rewrite B3, A3|by rewrite B4, A4].
Qed.

Lemma frame_mono (N N' : string -> Prop) (K K' : string * string -> Prop) w w' :
  (forall n, N n -> N' n) -> (forall k, K k -> K' k) -> frame N K w w' -> frame N' K' w w'.
Proof. intros HN HK (H1 & H2 & H3 & H4). repeat split; auto. Qed.

Section frames.
Context (N : string -> Prop) (K : string * string -> Prop).
Local Abbreviation runsF := (runs secrets_wf (frame N K)).

Lemma frame_api_request : runsF api_request (fun _ => True).
Proof.
  intros w Hw. unfold api_request. destruct (w_faults w) as [|[e|] fs]; simpl; repeat split; auto.
Qed.

Lemma frame_modify f :
  (forall w, w_secrets (f w) = w_secrets w /\ w_plan (f w) = w_plan w) -> runsF (modify f) (fun _ => True).
Proof.
  intros Hf. apply runs_modify; [|done]. intros w Hw. destruct (Hf w) as [H1 H2]. unfold secrets_wf, frame.
  rewrite H1, H2. by repeat split.
Qed.

Lemma frame_secrets_Get ns name : runsF (secrets_Get ns name) (fun s => (s_Namespace s, s_Name s) = (ns, name)).
Proof.
  unfold secrets_Get. eapply runs_bind; [apply _|apply frame_api_request|]. intros _ _.
  intros w Hw. unfold bind, gets. destruct (w_secrets w !! (ns, name)) as [s|] eqn:E; simpl.
  - split; [done|]. split; [reflexivity|]. intros ? [= <-]. by apply Hw.
  - by repeat split.
Qed.

Lemma frame_secrets_Update s :
  K (s_Namespace s, s_Name s) -> runsF (secrets_Update s) (fun s' => s' = s).
Proof.
  intros HK. unfold secrets_Update. eapply runs_bind; [apply _|apply frame_api_request|]. intros _ _.
  intros w Hw. unfold bind, gets, modify. destruct (w_secrets w !! _) as [s0|] eqn:E; simpl; [|by repeat split].
  split; [|split].
  - intros k t. simpl. destruct (decide (k = (s_Namespace s, s_Name s))) as [->|Hk].
    + rewrite lookup_insert_eq. by intros [= <-].
    + rewrite lookup_insert_ne by done. apply Hw.
  - repeat split. simpl. intros k Hk. rewrite lookup_insert_ne; [done|]. by intros <-.
  - by intros ? [= <-].
Qed.

Lemma frame_entry_metadata e : runsF (entry_metadata e) (fun _ => True).
Proof. unfold entry_metadata. runs_auto. Qed.

Lemma frame_refresh e : runsF (refresh e) (fun e' => pe_Machine e' = pe_Machine e /\ pe_Plan e' = pe_Plan e).
Proof. unfold refresh. runs_auto. Qed.

Lemma frame_put_metadata e md :
  N (pe_name e) ->
  runsF (put_metadata e md) (fun e' => pe_Machine e' = pe_Machine e /\ pe_Plan e' = pe_Plan e /\ pe_Metadata e' = Some md).
Proof.
  intros HN. intros w Hw. unfold put_metadata, bind, gets, modify. simpl. split; [done|]. split.
  - split; [done|]. split; [done|]. split; [|done]. simpl. intros n Hn. rewrite lookup_insert_ne; [done|].
    by intros <-.
  - by intros ? [= <-].
Qed.

Lemma frame_set_annotation e k v :
  N (pe_name e) -> runsF (set_annotation e k v) (fun e' => pe_Machine e' = pe_Machine e /\ pe_Plan e' = pe_Plan e).
Proof.
  intros HN. unfold set_annotation. eapply runs_bind; [apply _|apply frame_entry_metadata|]. intros md _.
  eapply runs_weaken; [by apply frame_put_metadata|]. by intros e' (? & ? & ?).
Qed.

Lemma frame_set_label e k v :
  N (pe_name e) -> runsF (set_label e k v) (fun e' => pe_Machine e' = pe_Machine e /\ pe_Plan e' = pe_Plan e).
Proof.
  intros HN. unfold set_label. eapply runs_bind; [apply _|apply frame_entry_metadata|]. intros md _.
  eapply runs_weaken; [by apply frame_put_metadata|]. by intros e' (? & ? & ?).
Qed.

Lemma frame_machines_Update m : runsF (machines_Update m) (fun _ => True).
Proof.
  unfold machines_Update. eapply runs_bind; [apply _|apply frame_api_request|]. intros _ _.
  eapply (runs_bind _ _ _ _ (fun _ => True)); [by apply runs_gets; [apply _|]|]. intros ms _.
  eapply runs_bind; [apply _|by apply frame_modify|]. intros _ _. by apply runs_ret; [apply _|].
Qed.

Lemma frame_capiClient_Update c : runsF (capiClient_Update c) (fun _ => True).
Proof.
  unfold capiClient_Update. eapply runs_bind; [apply _|apply frame_api_request|]. intros _ _.
  eapply (runs_bind _ _ _ _ (fun _ => True)); [by apply runs_gets; [apply _|]|]. intros cs _.
  by apply frame_modify.
Qed.

Lemma frame_rkeBootstrap_Update b : runsF (rkeBootstrap_Update b) (fun _ => True).
Proof.
  unfold rkeBootstrap_Update. eapply runs_bind; [apply _|apply frame_api_request|]. intros _ _.
  eapply (runs_bind _ _ _ _ (fun _ => True)); [by apply runs_gets; [apply _|]|]. intros cs _.
  by apply frame_modify.
Qed.

Lemma frame_collectM f : runsF (collectM f) (fun _ => True).
Proof. unfold collectM. runs_auto. Qed.
End frames.

#[export] Hint Resolve frame_api_request frame_entry_metadata frame_machines_Update
  frame_capiClient_Update frame_rkeBootstrap_Update frame_collectM : planner.
