(* ===== verification/Store.v ===== *)
(** * The plan store ([pkg/capr/planner/store.go])

    A machine's plan lives in a secret of type [rke.cattle.io/machine-plan]: Rancher writes the
    desired plan, the system agent writes back what it applied, its failures and probe results.
    [SecretToNode] decodes such a secret, [UpdatePlan] delivers a plan, [assignAndCheckPlan]
    drives one operation to completion, [Load] assembles the cluster plan. *)

From S2P Require Import Prelude GoLib Codec Errors Types External Instances Capr PlanEntry World.

Definition NoAgentPlanStatusMessage : string := "waiting for agent to check in and apply initial plan".
Definition WaitingPlanStatusMessage : string := "waiting for plan to be applied".
Definition FailedPlanStatusMessage : string := "failure while applying plan".
Definition ConfigYamlFileName_first : string := "/etc/rancher/".
Definition ConfigYamlFileName_second : string := "/config.yaml.d/50-rancher.yaml".
Definition captureAddressInstructionName : string := "capture-address".
Definition etcdNameInstructionName : string := "etcd-name".

Definition PlanHash (plan : string) : string := sha256_hex plan.

Definition isRKEBootstrap (machine : Machine) : bool :=
  match m_ConfigRef machine with Some r => ref_Kind r =? "RKEBootstrap" | None => false end.

Definition onlyRKE (machines : list Machine) : list Machine := List.filter isRKEBootstrap machines.

(** ** Messages *)

Definition noPlanMessage (entry : planEntry) : string :=
  if isEtcd entry then "waiting for bootstrap etcd to be available"
  else if isControlPlane entry then "waiting for etcd to be available"
  else "waiting for control plane to be available".

Definition probesMessage (plan : Node) : string :=
  let unhealthy := map fst (List.filter (fun kv => negb (ps_Healthy (snd kv))) (map_to_list (n_ProbeStatus plan))) in
  "waiting for probes: " +:+ Join (sort_Strings unhealthy) ", ".

Definition getPlanStatusReasonMessage (entry : planEntry) : string :=
  match pe_Plan entry with
  | None => noPlanMessage entry
  | Some n =>
      match np_Instructions (n_Plan n) with
      | [] => noPlanMessage entry
      | _ :: _ =>
          match n_AppliedPlan n with
          | None => NoAgentPlanStatusMessage
          | Some _ =>
              if np_Error (n_Plan n) !=? "" then np_Error (n_Plan n)
              else if negb (n_Healthy n) then probesMessage n
              else if n_InSync n then ""
              else if n_Failed n then FailedPlanStatusMessage
              else WaitingPlanStatusMessage
          end
      end
  end.

Section store.
Context `{P : Planner}.

(** ** Decoding a plan secret *)

Definition ParseProbeStatuses (probeStatuses : string) : res (gmap string ProbeStatus * bool) :=
  if probeStatuses =? "" then Fail (errorString "probe status length was 0")
  else let? m := json_Unmarshal_ProbeStatuses probeStatuses in
       Ret (m, List.forallb (fun kv => ps_Healthy (snd kv)) (map_to_list m)).

(** [result.Failed]: the recorded failures concern this plan and have reached the threshold; a
    missing threshold counts as 1, and -1 means never. *)
Definition node_failed (secret : Secret) : res bool :=
  let data := map_get (s_Data secret) in
  if (data "failure-count" !=? "") && (PlanHash (data "plan") =? data "failed-checksum") then
    match Atoi (data "failure-count") with
    | None => Fail (errorString "strconv.Atoi: parsing failure-count")
    | Some failureCount =>
        if (0 <? failureCount)%Z then
          if data "failure-threshold" !=? "" then
            match Atoi (data "failure-threshold") with
            | None => Fail (errorString "strconv.Atoi: parsing failure-threshold")
            | Some failureThreshold =>
                Ret (negb ((failureCount <? failureThreshold) || (failureThreshold =? -1)))%Z
            end
          else Ret true
        else Ret false
    end
  else Ret false.

(** The server a delivered configuration file joins, for secrets without the annotation. *)
Fixpoint joined_to_from_files (files : list File) : res string :=
  match files with
  | [] => Ret ""
  | f :: rest =>
      if Contains (f_Path f) ConfigYamlFileName_first && Contains (f_Path f) ConfigYamlFileName_second then
        match base64_DecodeString (f_Content f) with
        | None => Fail (errorString "illegal base64 data")
        | Some cfr =>
            let? cf := json_Unmarshal_Map cfr in
            match cf !! "server" with
            | None => Ret ""
            | Some (VString server) => Ret server
            | Some _ => Panic
            end
        end
      else joined_to_from_files rest
  end.

Definition node_joinedTo (secret : Secret) (plan : NodePlan) : res string :=
  match s_Annotations secret !! JoinedToAnnotation with
  | Some joinedTo => Ret joinedTo
  | None => joined_to_from_files (np_Files plan)
  end.

Definition SecretToNode (secret : Secret) : res (option Node) :=
  if s_Type secret !=? SecretTypeMachinePlan then
    Fail (errorString ("secret " +:+ s_Namespace secret +:+ "/" +:+ s_Name secret
                       +:+ " was not type " +:+ SecretTypeMachinePlan))
  else
    let data := map_get (s_Data secret) in
    let planData := data "plan" in
    let appliedPlanData := data "appliedPlan" in
    let probesUsable := map_get (s_Annotations secret) PlanProbesPassedAnnotation !=? "" in
    let? failed := node_failed secret in
    let? probes := (if data "probe-statuses" !=? "" then ParseProbeStatuses (data "probe-statuses")
                    else Ret (∅, true)) in
    if planData =? "" then Ret None
    else
      let? plan := json_Unmarshal_NodePlan planData in
      let? applied := (if appliedPlanData !=? ""
                       then let? a := json_Unmarshal_NodePlan appliedPlanData in Ret (Some a)
                       else Ret None) in
      let? joinedTo := node_joinedTo secret plan in
      let? output := (if data "applied-output" !=? ""
                      then let? o := gunzip (data "applied-output") in json_Unmarshal_Output o
                      else Ret ∅) in
      let? periodic := (if data "applied-periodic-output" !=? ""
                        then let? o := gunzip (data "applied-periodic-output") in
                             json_Unmarshal_PeriodicOutput o
                        else Ret ∅) in
      Ret (Some (mkNode plan applied joinedTo output periodic failed
                   (planData =? appliedPlanData) (snd probes) (planData !=? "")
                   (fst probes) probesUsable)).

(** ** Access to plan secrets *)

Definition getPlanSecretFromMachine (machine : Machine) : M Secret :=
  let id := m_Namespace machine +:+ "/" +:+ m_Name machine in
  if negb (isRKEBootstrap machine) then fail (errorString ("machine " +:+ id +:+ " is not using RKEBootstrap"))
  else match m_ConfigRef machine with
       | None => fail (errorString ("machine " +:+ id +:+ " bootstrap configref was nil"))
       | Some ref =>
           if ref_Name ref =? "" then fail (errorString ("machine " +:+ id +:+ " bootstrap configref name was empty"))
           else
             let* secret := secrets_Get (m_Namespace machine) (PlanSecretFromBootstrapName (ref_Name ref)) in
             if s_Type secret !=? SecretTypeMachinePlan then
               fail (errorString ("retrieved secret " +:+ s_Namespace secret +:+ "/" +:+ s_Name secret
                 +:+ " type " +:+ s_Type secret +:+ " did not match expected type " +:+ SecretTypeMachinePlan))
             else ret secret
       end.

(** [getPlanSecrets]: machines without a secret are skipped, any other error ends the loop. *)
Definition getPlanSecrets (machines : list Machine) : M (gmap string Secret) :=
  for_fold machines ∅ (fun result machine =>
    let* r := attempt (getPlanSecretFromMachine machine) in
    match r with
    | inl secret => ret (<[m_Name machine := secret]> result)
    | inr e => if IsNotFound e then ret result else fail e
    end).

(** Writing an updated secret back and re-reading the node from it. *)
Definition update_and_reload (entry : planEntry) (secret : Secret) : M planEntry :=
  let* updatedSecret := secrets_Update secret in
  let* newNode := lift (SecretToNode updatedSecret) in
  ret (set_pe_Plan newNode entry).

(** ** Delivering a plan *)

(** The joined-to annotation after [UpdatePlan]: [-] clears it, and so does an init-node mark
    found among the *annotations*. *)
Definition joined_annotations (ann : gmap string string) (joinedTo : string) : gmap string string :=
  let ann1 :=
    if joinedTo !=? "" then
      if (joinedTo =? "-") || (map_get ann InitNodeLabel =? "true")
      then <[JoinedToAnnotation := ""]> ann
      else <[JoinedToAnnotation := joinedTo]> ann
    else ann in
  if map_get ann1 InitNodeLabel =? "true" then <[JoinedToAnnotation := ""]> ann1 else ann1.

Definition failure_data (k : string) (n : Z) (data : gmap string string) : gmap string string :=
  if ((0 <? n) || (n =? -1))%Z then <[k := Itoa n]> data else delete k data.

Definition UpdatePlan (entry : planEntry) (newNodePlan : NodePlan) (joinedTo : string)
    (maxFailures failureThreshold : Z) : M planEntry :=
  if ((maxFailures <? failureThreshold) && negb (failureThreshold =? -1) && negb (maxFailures =? -1))%Z then
    fail (errorString ("failureThreshold (" +:+ Itoa failureThreshold
            +:+ ") cannot be greater than maxFailures (" +:+ Itoa maxFailures +:+ ")"))
  else
    let* secret := getPlanSecretFromMachine (pe_Machine entry) in
    let data := json_Marshal_NodePlan newNodePlan in
    let* md := entry_metadata entry in
    let* now := gets w_now in
    let ann := <[PlanProbesPassedAnnotation := ""]>
                 (<[PlanUpdatedTimeAnnotation := now]> (joined_annotations (md_Annotations md) joinedTo)) in
    let* entry := put_metadata entry (set_md_Annotations ann md) in
    let secret := CopyPlanMetadataToSecret secret (pe_Metadata entry) in
    let d := <["plan" := data]> (delete "probe-statuses" (s_Data secret)) in
    let d := failure_data "failure-threshold" failureThreshold (failure_data "max-failures" maxFailures d) in
    update_and_reload entry (set_s_Data d secret).

Definition updatePlanSecretLabelsAndAnnotations (entry : planEntry) : M planEntry :=
  let* secret := getPlanSecretFromMachine (pe_Machine entry) in
  let* entry := refresh entry in
  update_and_reload entry (CopyPlanMetadataToSecret secret (pe_Metadata entry)).

(** [removePlanSecretLabel]: afterwards the labels of the entry are those of the secret. *)
Definition removePlanSecretLabel (entry : planEntry) (key : string) : M planEntry :=
  let* secret := getPlanSecretFromMachine (pe_Machine entry) in
  match s_Labels secret !! key with
  | None => ret entry
  | Some _ =>
      let secret := set_s_Labels (delete key (s_Labels secret)) secret in
      let* entry := update_and_reload entry secret in
      let* md := entry_metadata entry in
      put_metadata entry (set_md_Labels (s_Labels secret) md)
  end.

(** [assignAndCheckPlan] returns the entry as it is left and Go's error.  The last two arguments are
    handed to [UpdatePlan] in this order, that is as [maxFailures] and [failureThreshold]. *)
Definition assignAndCheckPlan (msg : string) (entry : planEntry) (newPlan : NodePlan) (joinedTo : string)
    (failureThreshold maxRetries : Z) : M (planEntry * option error) :=
  let deliver :=
    let* r := attempt (UpdatePlan entry newPlan joinedTo failureThreshold maxRetries) in
    match r with
    | inl entry => ret (entry, Some (errWaiting ("starting " +:+ msg)))
    | inr e => ret (entry, Some e)
    end in
  match pe_Plan entry with
  | Some n =>
      if n_Plan n =? newPlan then
        ret (entry,
          if n_Failed n then Some (errorString ("operation " +:+ msg +:+ " failed"))
          else if negb (n_InSync n) then Some (errWaiting ("waiting for " +:+ msg))
          else if negb (n_Healthy n) then Some (errWaiting ("waiting for " +:+ msg +:+ " probes"))
          else None)
      else deliver
  | None => deliver
  end.

(** The same where the caller returns the error. *)
Definition assignOrFail (msg : string) (entry : planEntry) (newPlan : NodePlan) (joinedTo : string)
    (failureThreshold maxRetries : Z) : M planEntry :=
  let* ' (entry, err) := assignAndCheckPlan msg entry newPlan joinedTo failureThreshold maxRetries in
  let* _ := fail_if err in
  ret entry.

(** ** Join URLs *)

(** IPv6 literals are bracketed; host names and IPv4 addresses are not. *)
Definition joinURLFromAddress (address : string) (port : Z) : string :=
  let colon := Ascii.ascii_of_nat 58 in
  let address :=
    if ParseIP address && (2 <=? Count_char colon address)%nat
    then if negb (HasPrefix address "[") && negb (HasSuffix address "]")
         then "[" +:+ address +:+ "]" else address
    else address in
  "https://" +:+ address +:+ ":" +:+ Itoa port.

Definition getJoinURLFromOutput (entry : planEntry) (capiCluster : CAPICluster)
    (rkeControlPlane : RKEControlPlane) : res string :=
  match pe_Plan entry with
  | None => Ret ""
  | Some node =>
      if negb (IsEtcdOnlyInitNode entry) || bool_decide (cc_ControlPlaneRef capiCluster = None) then Ret ""
      else
        let zero := mkPeriodicInstructionOutput "" "" "" 0 "" in
        let ca := default zero (n_PeriodicOutput node !! captureAddressInstructionName) in
        let etcdNameOutput := default zero (n_PeriodicOutput node !! etcdNameInstructionName) in
        if negb (po_ExitCode ca =? 0)%Z || (po_LastSuccessfulRunTime ca =? "") then Ret ""
        else if negb (po_ExitCode etcdNameOutput =? 0)%Z || (po_LastSuccessfulRunTime etcdNameOutput =? "") then Ret ""
        else
          let name := TrimSpace (po_Stdout etcdNameOutput) in
          match List.find (fun line => HasPrefix line "{") (Split (po_Stdout ca) newline) with
          | None => Ret ""
          | Some str =>
              let? members := json_Unmarshal_Members str in
              match List.find (fun m => mb_Name m =? name) members with
              | None => Ret ""
              | Some m =>
                  match mb_ClientURLs m with
                  | [] => Panic
                  | u :: _ =>
                      let? host := url_Hostname u in
                      Ret (joinURLFromAddress host
                             (GetRuntimeSupervisorPort (sp_KubernetesVersion (cp_Spec rkeControlPlane))))
                  end
              end
          end
  end.

(** The address of a machine: the last internal IP, else the first external one. *)
Definition machine_address (addresses : list MachineAddress) : string :=
  fold_left (fun address a =>
    if ma_Type a =? "InternalIP" then ma_Address a
    else if ma_Type a =? "ExternalIP" then (if address =? "" then ma_Address a else address)
    else address) addresses "".

(** The part of [setMachineJoinURL] after the URL is known. *)
Definition record_join_url (entry : planEntry) (joinURL : string) : M unit :=
  let* md := entry_metadata entry in
  if (joinURL !=? "") && (map_get (md_Annotations md) JoinURLAnnotation !=? joinURL) then
    let* entry := set_annotation entry JoinURLAnnotation joinURL in
    let* _ := updatePlanSecretLabelsAndAnnotations entry in
    fail ErrSkip
  else ret tt.

Definition setMachineJoinURL (entry : planEntry) (capiCluster : CAPICluster) (controlPlane : RKEControlPlane) : M unit :=
  let* entry := refresh entry in
  let* md := entry_metadata entry in
  match md_Annotations md !! JoinURLAutosetDisabled with
  | Some _ => ret tt
  | None =>
      if IsEtcdOnlyInitNode entry then
        let* joinURL := lift (getJoinURLFromOutput entry capiCluster controlPlane) in
        if joinURL =? "" then ret tt else record_join_url entry joinURL
      else
        match m_KubeletVersion (pe_Machine entry) with
        | None => ret tt
        | Some _ =>
            record_join_url entry
              (joinURLFromAddress (machine_address (m_Addresses (pe_Machine entry)))
                 (GetRuntimeSupervisorPort (sp_KubernetesVersion (cp_Spec controlPlane))))
        end
  end.

(** ** Loading the cluster plan *)

(** The machines by name; a later machine of the same name replaces an earlier one. *)
Definition machines_by_name (l : list Machine) : gmap string Machine :=
  list_to_map (rev (map (fun m => (m_Name m, m)) l)).

Definition load_secret (cluster : CAPICluster) (cp : RKEControlPlane) (anyPlanDelivered : bool)
    (ms : string * Secret) : M bool :=
  let '(machineName, secret) := ms in
  let* _ := mod_plan (fun p => set_pl_Metadata
              (<[machineName := mkMetadata (s_Labels secret) (s_Annotations secret)]> (pl_Metadata p)) p) in
  let* node := lift (SecretToNode secret) in
  match node with
  | None => ret anyPlanDelivered
  | Some n =>
      let* p := gets w_plan in
      match pl_Machines p !! machineName with
      | None => panic
      | Some machine =>
          let entry := mkplanEntry machine (Some n) (pl_Metadata p !! machineName) in
          let* _ := setMachineJoinURL entry cluster cp in
          let* _ := mod_plan (fun p => set_pl_Nodes (<[machineName := n]> (pl_Nodes p)) p) in
          ret (anyPlanDelivered || n_PlanDataExists n)
      end
  end.

(** [Load] builds the plan in place; the secrets are visited in the order of Go's map. *)
Definition Load (cluster : CAPICluster) (cp : RKEControlPlane) : M bool :=
  let* machines := lift (machineCache_List (cc_Namespace cluster) (cc_Name cluster)) in
  let machines := onlyRKE machines in
  let* secrets := getPlanSecrets machines in
  let* _ := mod_plan (fun _ => mkPlan ∅ (machines_by_name machines) ∅) in
  for_fold (map_to_list secrets) false (load_secret cluster cp).
End store.

(** ** Frames of the store's operations *)

Section frames.
Context `{P : Planner}.

(** The key of the plan secret of a machine. *)
Definition plan_secret_key (m : Machine) : option (string * string) :=
  match m_ConfigRef m with
  | Some ref => Some (m_Namespace m, PlanSecretFromBootstrapName (ref_Name ref))
  | None => None
  end.

Context (N : string -> Prop) (K : string * string -> Prop).
Local Abbreviation runsF := (runs secrets_wf (frame N K)).

Lemma frame_getPlanSecretFromMachine m :
  runsF (getPlanSecretFromMachine m) (fun s => Some (s_Namespace s, s_Name s) = plan_secret_key m).
Proof.
  unfold getPlanSecretFromMachine, plan_secret_key. destruct (negb _); [runs_auto|].
  destruct (m_ConfigRef m) as [ref|]; [|runs_auto]. case_bool_decide; [runs_auto|].
  eapply runs_bind; [apply _|apply frame_secrets_Get|]. cbv beta. intros s Hs.
  case_bool_decide; cbn [negb]; [|runs_auto]. apply runs_ret; [apply _|]. by rewrite Hs.
Qed.

Lemma frame_update_and_reload e s :
  K (s_Namespace s, s_Name s) -> runsF (update_and_reload e s) (fun e' => pe_Machine e' = pe_Machine e).
Proof.
  intros HK. unfold update_and_reload. eapply runs_bind; [apply _|by apply frame_secrets_Update|]. intros s' _.
  eapply (runs_bind _ _ _ _ (fun _ => True)); [runs_auto|]. intros n _. by apply runs_ret; [apply _|].
Qed.

Lemma CopyPlanMetadataToSecret_key s md :
  (s_Namespace (CopyPlanMetadataToSecret s md), s_Name (CopyPlanMetadataToSecret s md)) = (s_Namespace s, s_Name s).
Proof. by destruct md. Qed.

Lemma frame_UpdatePlan e plan joinedTo mf ft :
  N (pe_name e) -> (forall k, plan_secret_key (pe_Machine e) = Some k -> K k) ->
  runsF (UpdatePlan e plan joinedTo mf ft) (fun e' => pe_Machine e' = pe_Machine e).
Proof.
  intros HN HK. unfold UpdatePlan. destruct (_ && _); [runs_auto|].
  eapply runs_bind; [apply _|apply frame_getPlanSecretFromMachine|]. cbv beta. intros s Hs.
  eapply runs_bind; [apply _|apply frame_entry_metadata|]. intros md _.
  eapply (runs_bind _ _ _ _ (fun _ => True)); [runs_auto|]. intros now _.
  eapply runs_bind; [apply _|by apply frame_put_metadata|]. cbv beta. intros e' (H1 & _ & ->).
  eapply runs_weaken; [apply frame_update_and_reload|].
  - cbn. apply HK. done.
  - cbv beta. intros e'' ->. done.
Qed.

Lemma frame_updatePlanSecretLabelsAndAnnotations e :
  (forall k, plan_secret_key (pe_Machine e) = Some k -> K k) ->
  runsF (updatePlanSecretLabelsAndAnnotations e) (fun e' => pe_Machine e' = pe_Machine e).
Proof.
  intros HK. unfold updatePlanSecretLabelsAndAnnotations.
  eapply runs_bind; [apply _|apply frame_getPlanSecretFromMachine|]. cbv beta. intros s Hs.
  eapply runs_bind; [apply _|apply frame_refresh|]. cbv beta. intros e' (H1 & _).
  eapply runs_weaken; [apply frame_update_and_reload|].
  - rewrite CopyPlanMetadataToSecret_key. by apply HK.
  - cbv beta. intros e'' ->. done.
Qed.

Lemma frame_assignAndCheckPlan msg e plan joinedTo mf ft :
  N (pe_name e) -> (forall k, plan_secret_key (pe_Machine e) = Some k -> K k) ->
  runsF (assignAndCheckPlan msg e plan joinedTo mf ft) (fun r => pe_Machine (fst r) = pe_Machine e).
Proof.
  intros HN HK. unfold assignAndCheckPlan.
  assert (runsF (bind (attempt (UpdatePlan e plan joinedTo mf ft)) (fun r => match r with
     | inl entry => ret (entry, Some (errWaiting ("starting " +:+ msg))) | inr e' => ret (e, Some e') end))
     (fun r => pe_Machine (fst r) = pe_Machine e)) as Hd.
  { eapply (runs_bind _ _ _ _ (fun r => match r with inl e' => pe_Machine e' = pe_Machine e | _ => True end)).
    - eapply runs_attempt; [by apply frame_UpdatePlan|done|done].
    - intros [e'|er]; cbv beta; intros ?; by apply runs_ret; [apply _|]. }
  destruct (pe_Plan e) as [n|]; [|done]. destruct (_ =? _); [|done]. by apply runs_ret; [apply _|].
Qed.
End frames.

(** ** Delivering a plan and reading it back *)

Section inversion.
Context `{P : Planner}.

Lemma getPlanSecretFromMachine_Ret m w w' s :
  getPlanSecretFromMachine m w = (w', Ret s) ->
  exists key, plan_secret_key m = Some key /\ w_secrets w !! key = Some s /\ s_Type s = SecretTypeMachinePlan
    /\ w_secrets w' = w_secrets w /\ w_plan w' = w_plan w /\ w_now w' = w_now w.
Proof.
  unfold getPlanSecretFromMachine, plan_secret_key. destruct (negb _); [done|].
  destruct (m_ConfigRef m) as [ref|]; [|done]. case_bool_decide; [done|].
  intros (s0 & w1 & (H1 & H2 & H3)%secrets_Get_Ret & H')%bind_Ret.
  case_bool_decide; inv H'. eauto 10.
Qed.

Lemma update_and_reload_Ret e s w w' e' :
  update_and_reload e s w = (w', Ret e') ->
  exists on, SecretToNode s = Ret on /\ e' = set_pe_Plan on e
    /\ w_secrets w' = <[(s_Namespace s, s_Name s) := s]> (w_secrets w) /\ w_plan w' = w_plan w.
Proof.
  unfold update_and_reload. intros (s' & w1 & (-> & H1 & H2)%secrets_Update_Ret & H')%bind_Ret.
  apply bind_Ret in H' as (on & w2 & Hl & Hr). unfold lift in Hl. inv Hl. inv Hr. eauto 10.
Qed.

Lemma entry_metadata_Ret e w w' md :
  entry_metadata e w = (w', Ret md) -> w' = w /\ pl_Metadata (w_plan w) !! pe_name e = Some md.
Proof.
  unfold entry_metadata. intros (p & w1 & Hp & H')%bind_Ret. inv Hp.
  destruct (pl_Metadata (w_plan w1) !! pe_name e) eqn:E; inv H'. done.
Qed.

Lemma put_metadata_Ret e md w w' e' :
  put_metadata e md w = (w', Ret e') ->
  e' = set_pe_Metadata (Some md) e /\ w_secrets w' = w_secrets w
  /\ w_plan w' = set_pl_Metadata (<[pe_name e := md]> (pl_Metadata (w_plan w))) (w_plan w).
Proof. unfold put_metadata, bind, gets, modify. intros [= <- <-]. done. Qed.
End inversion.

Lemma lookup_failure_data k n d : failure_data k n d !! k = if ((0 <? n) || (n =? -1))%Z then Some (Itoa n) else None.
Proof. unfold failure_data. destruct (_ || _); [apply lookup_insert_eq|apply lookup_delete_eq]. Qed.

Lemma lookup_failure_data_ne k k' n d : k <> k' -> failure_data k n d !! k' = d !! k'.
Proof. intros Hk. unfold failure_data. destruct (_ || _); [by apply lookup_insert_ne|by apply lookup_delete_ne]. Qed.

Section delivery.
Context `{P : Planner} `{!NodePlanCodec}.

(** A secret that holds a plan as [UpdatePlan] writes it decodes to that plan. *)
Lemma SecretToNode_delivered s plan on :
  map_get (s_Data s) "plan" = json_Marshal_NodePlan plan ->
  map_get (s_Data s) "probe-statuses" = "" ->
  SecretToNode s = Ret on ->
  exists n, on = Some n /\ n_Plan n = plan /\ n_Healthy n = true /\ n_ProbeStatus n = ∅ /\ n_PlanDataExists n = true
    /\ n_InSync n = (json_Marshal_NodePlan plan =? map_get (s_Data s) "appliedPlan")
    /\ n_ProbesUsable n = (map_get (s_Annotations s) PlanProbesPassedAnnotation !=? "")
    /\ node_failed s = Ret (n_Failed n).
Proof.
  intros Hplan Hprobes. unfold SecretToNode. destruct (_ !=? SecretTypeMachinePlan); [done|]. cbv zeta.
  destruct (node_failed s) as [failed|e|]; [|done..]. cbn [res_bind]. rewrite Hprobes. cbn [res_bind].
  rewrite (bool_decide_eq_true_2 ("" = "")) by done. cbn [negb res_bind]. rewrite Hplan.
  pose proof (NodePlan_nonempty plan) as Hne. rewrite (bool_decide_eq_false_2 (_ = "")) by done.
  rewrite NodePlan_roundtrip. cbn [res_bind].
  repeat match goal with
    | |- res_bind ?r _ = _ -> _ => destruct r; cbn [res_bind]; [|done..]
    end.
  intros [= <-]. eexists; split; [done|]. by repeat split.
Qed.

Lemma UpdatePlan_Ret entry plan joinedTo maxFailures failureThreshold w w' entry' :
  secrets_wf w ->
  UpdatePlan entry plan joinedTo maxFailures failureThreshold w = (w', Ret entry') ->
  exists key old new n,
    plan_secret_key (pe_Machine entry) = Some key
    /\ w_secrets w !! key = Some old /\ w_secrets w' = <[key := new]> (w_secrets w)
    /\ SecretToNode new = Ret (Some n) /\ pe_Plan entry' = Some n
    /\ n_Plan n = plan /\ n_Healthy n = true /\ n_ProbeStatus n = ∅ /\ n_ProbesUsable n = false
    /\ n_InSync n = (json_Marshal_NodePlan plan =? map_get (s_Data old) "appliedPlan")
    /\ s_Data new !! "max-failures" = (if ((0 <? maxFailures) || (maxFailures =? -1))%Z then Some (Itoa maxFailures) else None)
    /\ s_Data new !! "failure-threshold" =
         (if ((0 <? failureThreshold) || (failureThreshold =? -1))%Z then Some (Itoa failureThreshold) else None)
    /\ map_get (s_Data new) "plan" = json_Marshal_NodePlan plan /\ s_Annotations new <> ∅
    /\ (s_Namespace new, s_Name new) = key.
Proof.
  intros Hwf. unfold UpdatePlan. destruct (_ && _); [done|].
  intros (old & w1 & (key & Hkey & Hold & _ & Hw1 & Hp1 & _)%getPlanSecretFromMachine_Ret & H1)%bind_Ret.
  apply bind_Ret in H1 as (md & w2 & (-> & _)%entry_metadata_Ret & H1).
  apply bind_Ret in H1 as (now & w3 & Hnow & H1). inv Hnow.
  apply bind_Ret in H1 as (e1 & w4 & (-> & Hw4 & _)%put_metadata_Ret & H1).
  apply update_and_reload_Ret in H1 as (on & Hon & -> & Hw' & _).
  set (new := set_s_Data _ _) in *.
  assert ((s_Namespace new, s_Name new) = key) as Hnk by (unfold new; simpl; by apply Hwf).
  assert (forall k, k <> "plan" -> k <> "probe-statuses" -> k <> "max-failures" -> k <> "failure-threshold" ->
            map_get (s_Data new) k = map_get (s_Data old) k) as Hframe.
  { intros k H1 H2 H3 H4. unfold new, map_get. simpl. rewrite !lookup_failure_data_ne by done.
    by rewrite lookup_insert_ne, lookup_delete_ne. }
  destruct (SecretToNode_delivered new plan on) as (n & -> & F1 & F2 & F3 & F4 & F5 & F6 & F7); [..|done|].
  { unfold new, map_get. simpl. rewrite !lookup_failure_data_ne by done. by rewrite lookup_insert_eq. }
  { unfold new, map_get. simpl. rewrite !lookup_failure_data_ne by done.
    by rewrite lookup_insert_ne, lookup_delete_eq. }
  exists key, old, new, n. rewrite Hw', Hw4, Hw1, Hnk. repeat split; auto.
  - rewrite F6. unfold new, map_get. simpl. rewrite lookup_CopyMap, lookup_insert_eq. done.
  - rewrite F5, Hframe; done.
  - unfold new. simpl. rewrite lookup_failure_data_ne by done. apply lookup_failure_data.
  - unfold new. simpl. apply lookup_failure_data.
  - unfold new, map_get. simpl. rewrite !lookup_failure_data_ne by done. by rewrite lookup_insert_eq.
  - intros E. apply (f_equal (fun m => m !! PlanProbesPassedAnnotation)) in E. unfold new in E. simpl in E.
    by rewrite lookup_CopyMap, lookup_insert_eq, lookup_empty in E.
Qed.

(** C5: delivering a plan: when [UpdatePlan] succeeds, the plan secret of the machine decodes to
    exactly the delivered plan, without the probe results of the former one and with probes that do not
    count as passed yet, with the failure limits given; it is in sync only if the agent had already applied this very
    plan; and no other secret has changed. *)
Theorem UpdatePlan_delivers entry plan joinedTo maxFailures failureThreshold w w' entry' :
  secrets_wf w ->
  UpdatePlan entry plan joinedTo maxFailures failureThreshold w = (w', Ret entry') ->
  exists key old new n,
    plan_secret_key (pe_Machine entry) = Some key
    /\ w_secrets w !! key = Some old /\ w_secrets w' = <[key := new]> (w_secrets w)
    /\ SecretToNode new = Ret (Some n) /\ pe_Plan entry' = Some n
    /\ n_Plan n = plan /\ n_ProbeStatus n = ∅ /\ n_ProbesUsable n = false
    /\ n_InSync n = (json_Marshal_NodePlan plan =? map_get (s_Data old) "appliedPlan")
    /\ s_Data new !! "max-failures" = (if ((0 <? maxFailures) || (maxFailures =? -1))%Z then Some (Itoa maxFailures) else None)
    /\ s_Data new !! "failure-threshold" =
         (if ((0 <? failureThreshold) || (failureThreshold =? -1))%Z then Some (Itoa failureThreshold) else None).
Proof.
  intros Hwf Hrun. destruct (UpdatePlan_Ret _ _ _ _ _ _ _ _ Hwf Hrun) as (key & old & new & n & ?).
  exists key, old, new, n. naive_solver.
Qed.

(** The probe results are deleted so that the node is reported as healthy only when its probes pass; but without results
    a node is reported as healthy. *)
Lemma delivered_counted_healthy entry plan joinedTo maxFailures failureThreshold w w' entry' :
  secrets_wf w -> UpdatePlan entry plan joinedTo maxFailures failureThreshold w = (w', Ret entry') ->
  exists n, pe_Plan entry' = Some n /\ n_Healthy n = true.
Proof. intros Hwf Hrun. destruct (UpdatePlan_Ret _ _ _ _ _ _ _ _ Hwf Hrun) as (key & old & new & n & ?). exists n. naive_solver. Qed.
End delivery.

(** ** Status of a delivered plan *)

(** The status message of a machine is empty exactly when its plan has instructions, has been
    applied by the agent, carries no error, is in sync, and all its probes are healthy. *)
Theorem getPlanStatusReasonMessage_empty entry :
  getPlanStatusReasonMessage entry = "" <->
  exists n, pe_Plan entry = Some n /\ np_Instructions (n_Plan n) <> [] /\ is_Some (n_AppliedPlan n)
    /\ np_Error (n_Plan n) = "" /\ n_Healthy n = true /\ n_InSync n = true.
Proof.
  unfold getPlanStatusReasonMessage.
  assert (noPlanMessage entry <> "") as Hno by (unfold noPlanMessage; repeat case_match; done).
  destruct (pe_Plan entry) as [n|]; [|split; [done|intros (n & ? & _); done]].
  destruct (np_Instructions (n_Plan n)) as [|i l] eqn:Ei; [split; [done|intros (n' & [= <-] & ? & _); done]|].
  destruct (n_AppliedPlan n) as [a|] eqn:Ea; [|split; [done|intros (n' & [= <-] & _ & [? ?] & _); congruence]].
  case_bool_decide as Ee; cbn [negb].
  2:{ split; [done|]. by intros (n' & [= <-] & _ & _ & ? & _). }
  destruct (n_Healthy n) eqn:Eh; cbn [negb].
  2:{ split; [|by intros (n' & [= <-] & _ & _ & _ & ? & _); congruence].
      unfold probesMessage. by destruct (Join _ _). }
  destruct (n_InSync n) eqn:Es.
  - split; [|done]. intros _. exists n. rewrite Ei. repeat split; eauto.
  - split; [by destruct (n_Failed n)|]. intros (n' & [= <-] & _ & _ & _ & _ & ?). congruence.
Qed.

Section status.
Context `{P : Planner}.

(** When a plan counts as failed: the recorded failures are of the current plan (its hash is the
    failed checksum), there is at least one, and either no threshold is set or the threshold is
    reached; a threshold of -1 never is. *)
Theorem node_failed_spec secret count threshold :
  Atoi (map_get (s_Data secret) "failure-count") = Some count ->
  map_get (s_Data secret) "failure-threshold" = "" \/ Atoi (map_get (s_Data secret) "failure-threshold") = Some threshold ->
  exists failed, node_failed secret = Ret failed /\
    (failed = true <->
       PlanHash (map_get (s_Data secret) "plan") = map_get (s_Data secret) "failed-checksum" /\ 0 < count
       /\ (map_get (s_Data secret) "failure-threshold" = "" \/ (threshold <> -1 /\ threshold <= count))).
Proof.
  intros Hc Ht. unfold node_failed. cbv zeta. rewrite Hc.
  assert (map_get (s_Data secret) "failure-count" <> "") as Hne by (intros E; by rewrite E in Hc).
  rewrite (bool_decide_eq_false_2 (_ = "")) by done. cbn [negb andb].
  case_bool_decide as Hsum; [|eexists; split; [done|]; split; [done|naive_solver]].
  destruct (0 <? count)%Z eqn:Epos; [|eexists; split; [done|]; split; [done|lia]].
  case_bool_decide as Hthr; cbn [negb].
  - eexists; split; [done|]. split; [intros _|done]. repeat split; [done|lia|by left].
  - destruct Ht as [?|Ht]; [done|]. rewrite Ht. eexists; split; [done|].
    split; [intros; repeat split; [done|lia|right; lia]|intros (_ & _ & [?|?]); [done|lia]].
Qed.

(** The machine has the plan and is done with it. *)
Definition plan_done (entry : planEntry) (plan : NodePlan) : Prop :=
  exists n, pe_Plan entry = Some n /\ n_Plan n = plan /\ n_Failed n = false /\ n_InSync n = true /\ n_Healthy n = true.

Lemma assignAndCheckPlan_None msg entry plan joinedTo a b w w' entry' :
  assignAndCheckPlan msg entry plan joinedTo a b w = (w', Ret (entry', None)) <->
  w' = w /\ entry' = entry /\ plan_done entry plan.
Proof.
  unfold assignAndCheckPlan, plan_done.
  assert (bind (attempt (UpdatePlan entry plan joinedTo a b)) (fun r => match r with
     | inl entry => ret (entry, Some (errWaiting ("starting " +:+ msg))) | inr e' => ret (entry, Some e') end) w
     <> (w', Ret (entry', None))) as Hd.
  { intros (r & w1 & _ & H1)%bind_Ret. by destruct r; inv H1. }
  destruct (pe_Plan entry) as [n|]; [|split; [done|intros (_ & _ & ? & ? & _); done]].
  case_bool_decide as Ep; [|split; [done|intros (_ & _ & ? & [= <-] & ? & _); done]].
  unfold ret. split.
  - destruct (n_Failed n) eqn:Ef, (n_InSync n) eqn:Ei, (n_Healthy n) eqn:Eh; simpl; intros [= <- <-].
    repeat split. exists n. auto.
  - intros (-> & -> & n' & [= <-] & _ & -> & -> & ->). done.
Qed.
(** An operation is done, that is [assignAndCheckPlan] returns no error, exactly when the machine
    already has the new plan, the agent has applied it, it has not failed, and its probes are
    healthy; and then nothing is written. *)
Theorem assignAndCheckPlan_done msg entry plan joinedTo a b w w' entry' :
  assignAndCheckPlan msg entry plan joinedTo a b w = (w', Ret (entry', None)) <->
  w' = w /\ entry' = entry /\
  exists n, pe_Plan entry = Some n /\ n_Plan n = plan /\ n_Failed n = false /\ n_InSync n = true /\ n_Healthy n = true.
Proof. apply assignAndCheckPlan_None. Qed.
End status.

(** ** Loading *)

Section loading.
Context `{P : Planner}.

(** A well-formed plan stays well-formed when only metadata and nodes change. *)
Definition same_machines (w w' : World) : Prop := pl_Machines (w_plan w') = pl_Machines (w_plan w).

#[local] Instance same_machines_preorder : PreOrder same_machines.
Proof. split; [by intros w|intros w1 w2 w3 H1 H2; unfold same_machines in *; congruence]. Qed.

Lemma machines_by_name_wf l k m :
  machines_by_name l !! k = Some m -> m_Name m = k /\ m ∈ l.
Proof.
  intros H1%elem_of_list_to_map_2.
  apply list_elem_of_In, in_rev, in_map_iff in H1 as (x & [= <- <-] & Hin). split; [done|]. by apply list_elem_of_In.
Qed.

Abbreviation anyN := (fun _ : string => True).
Abbreviation anyK := (fun _ : string * string => True).

Lemma frame_record_join_url e url : runs secrets_wf (frame anyN anyK) (record_join_url e url) (fun _ => True).
Proof.
  unfold record_join_url. eapply runs_bind; [apply _|apply frame_entry_metadata|]. intros md _.
  destruct (_ && _); [|runs_auto].
  eapply runs_bind; [apply _|by apply frame_set_annotation|]. intros e' _.
  eapply runs_bind; [apply _|by apply frame_updatePlanSecretLabelsAndAnnotations|]. intros e'' _. runs_auto.
Qed.

Lemma frame_setMachineJoinURL e c cp : runs secrets_wf (frame anyN anyK) (setMachineJoinURL e c cp) (fun _ => True).
Proof.
  unfold setMachineJoinURL. eapply runs_bind; [apply _|apply frame_refresh|]. intros e' _.
  eapply runs_bind; [apply _|apply frame_entry_metadata|]. intros md _.
  destruct (md_Annotations md !! _); [runs_auto|]. destruct (IsEtcdOnlyInitNode e').
  - eapply (runs_bind _ _ _ _ (fun _ => True)); [runs_auto|]. intros url _.
    case_bool_decide; [runs_auto|apply frame_record_join_url].
  - destruct (m_KubeletVersion _); [apply frame_record_join_url|runs_auto].
Qed.

Lemma mod_plan_machines f :
  (forall p, pl_Machines (f p) = pl_Machines p) -> runs secrets_wf same_machines (mod_plan f) (fun _ => True).
Proof. intros Hf. apply runs_modify; [|done]. intros w Hw. split; [done|]. apply Hf. Qed.

Lemma load_secret_machines c cp any ms : runs secrets_wf same_machines (load_secret c cp any ms) (fun _ => True).
Proof.
  destruct ms as [name secret]. unfold load_secret.
  eapply runs_bind; [apply _|by apply mod_plan_machines|]. intros _ _.
  eapply (runs_bind _ _ _ _ (fun _ => True)); [runs_auto|]. intros [n|] _; [|runs_auto].
  eapply (runs_bind _ _ _ _ (fun _ => True)); [runs_auto|]. intros p _.
  destruct (pl_Machines p !! name) as [m|]; [|runs_auto].
  eapply runs_bind; [apply _| |].
  { eapply runs_relation; [apply frame_setMachineJoinURL|]. by intros w w' (? & _). }
  intros _ _. eapply runs_bind; [apply _|by apply mod_plan_machines|]. intros _ _. runs_auto.
Qed.

Lemma getPlanSecrets_frame ms : runs secrets_wf (frame (fun _ => False) (fun _ => False)) (getPlanSecrets ms) (fun _ => True).
Proof.
  unfold getPlanSecrets. apply runs_for_fold; [apply _|done|]. intros acc m _ _.
  eapply (runs_bind _ _ _ _ (fun _ => True)).
  { eapply runs_attempt; [apply frame_getPlanSecretFromMachine|done..]. }
  intros [s|e] _; runs_auto.
Qed.

(** The bootstrap configuration of a machine is one of this provider. *)
Definition bootstrapped (m : Machine) : Prop := exists ref, m_ConfigRef m = Some ref /\ ref_Kind ref = "RKEBootstrap".

Lemma elem_of_onlyRKE ms m : m ∈ onlyRKE ms <-> m ∈ ms /\ bootstrapped m.
Proof.
  unfold onlyRKE. rewrite elem_of_filter_bool. unfold isRKEBootstrap, bootstrapped. destruct (m_ConfigRef m) as [ref|].
  - rewrite bool_decide_eq_true. naive_solver.
  - naive_solver.
Qed.

(** C40: the plan [Load] builds is well-formed: each machine is held under its own name, and the machines are
    exactly those of the cluster that are bootstrapped by this provider, given that the machines of a cluster, which
    share a namespace, have different names. *)
Theorem Load_plan_wf cluster cp w w' b ms :
  secrets_wf w -> machineCache_List (cc_Namespace cluster) (cc_Name cluster) = Ret ms -> NoDup (map m_Name ms) ->
  Load cluster cp w = (w', Ret b) ->
  plan_wf (w_plan w') /\ forall k m, pl_Machines (w_plan w') !! k = Some m <-> m ∈ ms /\ bootstrapped m /\ m_Name m = k.
Proof.
  intros Hwf Hms Hnd. unfold Load. rewrite Hms. intros (ms' & w0 & [= <- <-] & H1)%bind_Ret.
  apply bind_Ret in H1 as (secrets & w1 & Hsec & H1).
  pose proof (getPlanSecrets_frame (onlyRKE ms) w Hwf) as (Hwf1 & _). rewrite Hsec in Hwf1.
  apply bind_Ret in H1 as ([] & w2 & Hmod & H1). inv Hmod.
  match type of H1 with for_fold _ _ _ ?w = _ => set (w2 := w) in * end.
  assert (runs secrets_wf same_machines (for_fold (map_to_list secrets) false (load_secret cluster cp)) (fun _ => True)) as Hrun.
  { apply runs_for_fold; [apply _|done|]. intros; apply load_secret_machines. }
  destruct (Hrun w2 Hwf1) as (_ & Hm & _). rewrite H1 in Hm. unfold same_machines in Hm. simpl in Hm. unfold plan_wf. rewrite Hm.
  split; [intros k m [Hk _]%machines_by_name_wf; exact Hk|]. intros k m. split.
  - intros [Hk Hin%elem_of_onlyRKE]%machines_by_name_wf. tauto.
  - intros (Hin & Hb & <-). unfold machines_by_name. apply elem_of_list_to_map_1.
    + rewrite <- map_rev. change (NoDup (map fst (map (fun m : Machine => (m_Name m, m)) (rev (onlyRKE ms))))). rewrite map_map. simpl.
      rewrite map_rev, <- (Permutation_rev (map m_Name (onlyRKE ms))). by apply NoDup_map_filter.
    + apply list_elem_of_In. rewrite <- in_rev, in_map_iff. exists m. split; [done|]. by apply list_elem_of_In, elem_of_onlyRKE.
Qed.
End loading.

Section witnesses.
#[local] Existing Instance demoExternal.
#[local] Existing Instance demoNodePlanCodec.
#[local] Existing Instance demoKvLaws.

Definition demoSecret (name : string) (data : gmap string string) (labels : gmap string string) : Secret :=
  mkSecret "fleet-default" (name +:+ "-machine-plan") SecretTypeMachinePlan labels ∅ data [] false.
Definition demoWorld (l : list (string * gmap string string * gmap string string)) : World :=
  mkWorld (mkPlan ∅ (list_to_map (map (fun '(n, _, _) => (n, demoMachine n)) l))
             (list_to_map (map (fun '(n, _, labels) => (n, mkMetadata labels ∅)) l)))
    (list_to_map (map (fun '(n, data, labels) => (("fleet-default", n +:+ "-machine-plan"), demoSecret n data labels)) l))
    ∅ ∅ ∅ ∅ [] "2024-01-01T00:00:00Z" [Ret "server-token"; Ret "agent-token"].
Definition demoPlan : NodePlan := set_np_Instructions [emptyInstruction] emptyNodePlan.
Definition demoEntry (name : string) (n : option Node) (labels : gmap string string) : planEntry :=
  mkplanEntry (demoMachine name) n (Some (mkMetadata labels ∅)).
#[local] Instance demoP : Planner := demoPlanner ∅ ∅ [demoMachine "m1"] (Some demoCluster).

Lemma demoWorld_wf l : secrets_wf (demoWorld l).
Proof.
  intros k s. unfold demoWorld. simpl. intros H%elem_of_list_to_map_2.
  apply list_elem_of_In, in_map_iff in H as ([[n d] labels] & [= <- <-] & _). done.
Qed.

Lemma demoWorld_machine l k m : pl_Machines (w_plan (demoWorld l)) !! k = Some m -> m = demoMachine k.
Proof.
  unfold demoWorld. simpl. intros Hk%elem_of_list_to_map_2.
  apply list_elem_of_In, in_map_iff in Hk as ([[n d] labels] & [= <- <-] & _). done.
Qed.

Lemma demoWorld_plan_wf l : plan_wf (w_plan (demoWorld l)).
Proof. by intros k m ->%demoWorld_machine. Qed.

(** One server that is the init node, with a join URL and the given node. *)
Definition demoServerMetadata : Metadata :=
  mkMetadata (<[InitNodeLabel := "true"]> (<[EtcdRoleLabel := "true"]> {[ ControlPlaneRoleLabel := "true" ]}))
    {[ JoinURLAnnotation := "https://m1:9345" ]}.
Definition demoServerEntry (n : option Node) : planEntry := mkplanEntry (demoMachine "m1") n (Some demoServerMetadata).
Definition demoServerWorld (n : option Node) : World :=
  let w := demoWorld [("m1", ∅, md_Labels demoServerMetadata)] in
  set_w_plan (mkPlan (match n with Some n => {[ "m1" := n ]} | None => ∅ end) (pl_Machines (w_plan w))
                {[ "m1" := demoServerMetadata ]}) w.

Lemma UpdatePlan_delivers_witness : exists w' e',
  UpdatePlan (demoEntry "m1" None ∅) demoPlan "" (-1) 1 (demoWorld [("m1", ∅, ∅)]) = (w', Ret e')
  /\ (exists n, pe_Plan e' = Some n /\ n_Plan n = demoPlan).
Proof.
  destruct (returns_run (UpdatePlan (demoEntry "m1" None ∅) demoPlan "" (-1) 1) (demoWorld [("m1", ∅, ∅)])) as (w' & e' & E); [vm_compute; reflexivity|].
  exists w', e'. split; [done|].
  destruct (UpdatePlan_delivers _ _ _ _ _ _ _ _ (demoWorld_wf _) E) as (key & old & new & n & _ & _ & _ & _ & H1 & H2 & _).
  eauto.
Defined.

Lemma node_failed_spec_witness : exists failed,
  node_failed (demoSecret "m1" {[ "failure-count" := "3"; "failure-threshold" := "5" ]} ∅) = Ret failed.
Proof.
  destruct (node_failed_spec (demoSecret "m1" {[ "failure-count" := "3"; "failure-threshold" := "5" ]} ∅) 3 5)
    as (failed & Hf & _); [vm_compute; reflexivity|right; vm_compute; reflexivity|eauto].
Defined.

Lemma Load_plan_wf_witness : exists w' b,
  Load demoCluster demoControlPlane (demoWorld [("m1", ∅, ∅)]) = (w', Ret b) /\ plan_wf (w_plan w')
  /\ pl_Machines (w_plan w') !! "m1" = Some (demoMachine "m1").
Proof.
  destruct (returns_run (Load demoCluster demoControlPlane) (demoWorld [("m1", ∅, ∅)])) as (w' & b & E); [vm_compute; reflexivity|].
  exists w', b. split; [done|].
  destruct (Load_plan_wf demoCluster demoControlPlane (demoWorld [("m1", ∅, ∅)]) w' b [demoMachine "m1"]) as [H1 H2];
    [apply demoWorld_wf|reflexivity|apply NoDup_singleton|done|].
  split; [done|]. apply H2. split; [left|]. split; [|reflexivity]. eexists. split; reflexivity.
Defined.
End witnesses.
