(* ===== verification/InitNode.v ===== *)
(** * Election of the init node ([pkg/capr/planner/initnode.go])

    One etcd machine bootstraps the cluster and carries the init-node label.  Marks are changed
    one at a time, each change ending the pass with [ErrSkip] so that caches catch up. *)

From S2P Require Import Prelude GoLib Errors Types External Instances Capr PlanEntry World Store.

(** What the search for the init node returns: whether it was found, its join URL, the entry, and
    an error; the error does not make the other results meaningless. *)
Definition search : Type := bool * string * option planEntry * option error.

Section initnode.
Context `{P : Planner}.

Definition cp_id (cp : RKEControlPlane) : string := cp_Namespace cp +:+ "/" +:+ cp_Name cp.
Definition clusterId (cp : RKEControlPlane) : string := cp_Namespace cp +:+ "/" +:+ sp_ClusterName (cp_Spec cp).

Definition clearInitNodeMark (entry : planEntry) : M unit :=
  let* md := entry_metadata entry in
  if map_get (md_Labels md) InitNodeLabel =? "" then ret tt
  else
    let* _ := removePlanSecretLabel entry InitNodeLabel in
    fail ErrSkip.

Definition setInitNodeMark (entry : planEntry) : M unit :=
  let* md := entry_metadata entry in
  if map_get (md_Labels md) InitNodeLabel =? "true" then ret tt
  else
    let* entry := set_label entry InitNodeLabel "true" in
    let* _ := updatePlanSecretLabelsAndAnnotations entry in
    fail ErrSkip.

(** Clears the marks of [entries]; [ErrSkip] is remembered, any other error ends the loop. *)
Definition clearInitNodeMarks (entries : list planEntry) : M bool :=
  for_fold entries false (fun cachesInvalidated entry =>
    let* e := attempt_err (clearInitNodeMark entry) in
    match e with
    | None => ret cachesInvalidated
    | Some e => if IsErrSkip e then ret true else fail e
    end).

Definition machine_label (e : planEntry) (k : string) : string := map_get (m_Labels (pe_Machine e)) k.

Definition findAndDesignateFixedInitNode (cp : RKEControlPlane) : M search :=
  let fixedMachineID := map_get (cp_Labels cp) InitNodeMachineIDLabel in
  if fixedMachineID =? "" then
    ret (false, "", None, Some (errorString "fixed machine ID label did not exist on rkecontrolplane"))
  else
    let* entries := collectM (fun e => has_metadata e && (pe_label e MachineIDLabel =? fixedMachineID)) in
    match entries with
    | [] => ret (false, "", None, Some (errorString ("fixed machine with ID " +:+ fixedMachineID +:+ " not found")))
    | [entry] =>
        if pe_label entry InitNodeLabel !=? "true" then
          let* allInitNodes := collectM isEtcd in
          let* r := attempt (clearInitNodeMarks
                      (List.filter (fun e => machine_label e MachineIDLabel !=? fixedMachineID) allInitNodes)) in
          match r with
          | inr e => ret (false, "", None, Some e)
          | inl true => ret (false, "", None, Some ErrSkip)
          | inl false =>
              let* e := attempt_err (setInitNodeMark entry) in
              ret (true, pe_annotation entry JoinURLAnnotation, Some entry, e)
          end
        else ret (true, pe_annotation entry JoinURLAnnotation, Some entry, None)
    | _ => ret (false, "", None, Some (errorString ("multiple machines found with identical machine ID label "
                  +:+ MachineIDLabel +:+ "=" +:+ fixedMachineID)))
    end.

Definition findInitNode (cp : RKEControlPlane) : M search :=
  if map_get (cp_Labels cp) InitNodeMachineIDLabel !=? "" then findAndDesignateFixedInitNode cp
  else
    let* currentInitNodes := collectM isInitNode in
    match currentInitNodes with
    | _ :: _ :: _ => ret (false, "", None, Some (errorString "multiple init nodes found"))
    | [] => ret (false, "", None, Some (errorString "init node not found"))
    | [entry] =>
        if canBeInitNode entry then
          let joinURL := pe_annotation entry JoinURLAnnotation in
          if joinURL !=? "" then ret (true, joinURL, Some entry, None)
          else
            let* possibleInitNodes := collectM canBeInitNode in
            if List.existsb (fun e => pe_annotation e JoinURLAnnotation !=? "") possibleInitNodes
            then ret (true, "", Some entry,
                   Some (errorString "non-populated init node found, but more suitable alternative is available"))
            else ret (true, "", Some entry, None)
        else ret (false, "", None, Some (errorString "init node not found"))
    end.

(** The choice of [electInitNode]: the first candidate with a join URL, else the first candidate. *)
Definition chooseInitNode (possibleInitNodes : list planEntry) : option (planEntry * string) :=
  match List.find (fun e => pe_annotation e JoinURLAnnotation !=? "") possibleInitNodes with
  | Some e => Some (e, pe_annotation e JoinURLAnnotation)
  | None => match possibleInitNodes with e :: _ => Some (e, "") | [] => None end
  end.

Definition electInitNode (cp : RKEControlPlane) (allowReelection : bool) : M string :=
  let* ' (initNodeFound, joinURL, _, err) := findInitNode cp in
  let skip := match err with Some e => IsErrSkip e | None => false end in
  if (initNodeFound && bool_decide (err = None)) || skip then
    let* _ := fail_if err in ret joinURL
  else if negb initNodeFound && (map_get (cp_Labels cp) InitNodeMachineIDLabel !=? "") then
    fail (errWaitingf ("unable to find designated init node matching machine ID "
                       +:+ map_get (cp_Labels cp) InitNodeMachineIDLabel))
  else
    let* marked := collectM isInitNode in
    let* cachesInvalidated :=
      (match marked with
       | entry :: _ =>
           if negb allowReelection
           then fail (errWaitingf ("rkecluster " +:+ clusterId cp +:+ ": re-election of init machine "
                        +:+ m_Namespace (pe_Machine entry) +:+ "/" +:+ pe_name entry +:+ " disallowed"))
           else clearInitNodeMarks marked
       | [] => ret false
       end) in
    if (cachesInvalidated : bool) then fail ErrSkip
    else
      let* possibleInitNodes := collectM canBeInitNode in
      match chooseInitNode possibleInitNodes with
      | Some (entry, joinURL) => let* _ := setInitNodeMark entry in ret joinURL
      | None => fail (errWaiting "waiting for viable init node")
      end.

(** Designation for a restore: exactly the etcd machines with the given ID keep the mark. *)
Definition designate_one (machineID : string) (acc : bool * string * bool) (entry : planEntry)
  : M (bool * string * bool) :=
  let '(initNodeFound, joinURL, cacheInvalidated) := acc in
  if machine_label entry MachineIDLabel =? machineID then
    let* e := attempt_err (setInitNodeMark entry) in
    match e with
    | Some e => if IsErrSkip e then ret (true, joinURL, true) else fail e
    | None =>
        let* md := entry_metadata entry in
        ret (true, map_get (md_Annotations md) JoinURLAnnotation, cacheInvalidated)
    end
  else
    let* e := attempt_err (clearInitNodeMark entry) in
    match e with
    | Some e => if IsErrSkip e then ret (initNodeFound, joinURL, true) else fail e
    | None => ret acc
    end.

Definition designateInitNodeByMachineID (cp : RKEControlPlane) (machineID : string) : M string :=
  if machineID =? "" then fail (errorString "machineID cannot be empty when designating init node")
  else
    let* entries := collectM isEtcd in
    let* ' (initNodeFound, joinURL, cacheInvalidated) := for_fold entries (false, "", false) (designate_one machineID) in
    if negb initNodeFound then
      fail (errorString ("rkecluster " +:+ cp_id cp +:+ ": init node with machine ID "
                         +:+ machineID +:+ " was not found during designation"))
    else if (cacheInvalidated : bool) then fail ErrSkip
    else ret joinURL.
End initnode.

(** ** Election *)

(** The machine [n] of a plan carries the init-node mark. *)
Definition init_marked (p : Plan) (n : string) : Prop :=
  exists m md, pl_Machines p !! n = Some m /\ pl_Metadata p !! n = Some md
    /\ map_get (md_Labels md) InitNodeLabel = "true".

Definition one_init_node (p : Plan) : Prop := forall n n', init_marked p n -> init_marked p n' -> n = n'.

Lemma isInitNode_entry p n m :
  pl_Machines p !! n = Some m -> isInitNode (entry_of p n m) = true <-> init_marked p n.
Proof.
  intros Hm. unfold isInitNode, has_metadata, pe_label, init_marked. simpl. rewrite andb_true_iff, !bool_decide_eq_true.
  destruct (pl_Metadata p !! n) as [md|] eqn:E; split.
  - intros [_ H]. eauto.
  - intros (m' & md' & _ & [= <-] & H). eauto.
  - by intros [[? ?] _].
  - by intros (m' & md' & _ & ? & _).
Qed.

Lemma collect_init_nil p : collect p isInitNode = [] <-> forall n, ~ init_marked p n.
Proof.
  split.
  - intros Hc n Hn. pose proof Hn as (m & md & Hm & _).
    assert (entry_of p n m ∈ collect p isInitNode) as Hin.
    { apply elem_of_collect. exists n, m. by rewrite isInitNode_entry. }
    rewrite Hc in Hin. by apply not_elem_of_nil in Hin.
  - intros Hn. destruct (collect p isInitNode) as [|e l] eqn:E; [done|].
    assert (e ∈ collect p isInitNode) as (k & m & Hk & -> & Hi)%elem_of_collect by (rewrite E; constructor).
    apply isInitNode_entry in Hi; [|done]. by destruct (Hn k).
Qed.

Section election.
Context `{P : Planner}.

(** A mark that is there is never cleared silently. *)
Lemma clearInitNodeMark_Ret e w w' u :
  clearInitNodeMark e w = (w', Ret u) ->
  w' = w /\ exists md, pl_Metadata (w_plan w) !! pe_name e = Some md /\ map_get (md_Labels md) InitNodeLabel = "".
Proof.
  unfold clearInitNodeMark. intros (md & w1 & (-> & Hmd)%entry_metadata_Ret & Hk)%bind_Ret.
  case_bool_decide as El; [inv Hk; eauto|]. apply bind_Ret in Hk as (? & ? & _ & Hk). inv Hk.
Qed.

Lemma setInitNodeMark_Ret e w w' u :
  setInitNodeMark e w = (w', Ret u) ->
  w' = w /\ exists md, pl_Metadata (w_plan w) !! pe_name e = Some md /\ map_get (md_Labels md) InitNodeLabel = "true".
Proof.
  unfold setInitNodeMark. intros (md & w1 & (-> & Hmd)%entry_metadata_Ret & Hk)%bind_Ret.
  case_bool_decide as El; [inv Hk; eauto|]. apply bind_Ret in Hk as (? & ? & _ & Hk).
  apply bind_Ret in Hk as (? & ? & _ & Hk). inv Hk.
Qed.

(** Once a mark was cleared, the loop says so. *)
Lemma clearInitNodeMarks_true l w w' b :
  for_fold l true (fun cachesInvalidated entry =>
    let* e := attempt_err (clearInitNodeMark entry) in
    match e with
    | None => ret cachesInvalidated
    | Some e => if IsErrSkip e then ret true else fail e
    end) w = (w', Ret b) -> b = true.
Proof.
  revert w. induction l as [|e l IH]; intros w; [by intros [= _ <-]|].
  rewrite for_fold_cons. intros (b1 & w1 & H1 & H2)%bind_Ret.
  apply bind_Ret in H1 as (r & w2 & _ & H1). destruct r as [er|]; [destruct (IsErrSkip er)|]; inv H1; eauto.
Qed.

Lemma clearInitNodeMarks_marked p l w w' b :
  plan_wf p -> w_plan w = p -> l <> [] -> (forall e, e ∈ l -> e ∈ collect p isInitNode) ->
  clearInitNodeMarks l w = (w', Ret b) -> b = true.
Proof.
  intros Hwf Hp Hne Hl. destruct l as [|e l]; [done|]. unfold clearInitNodeMarks. rewrite for_fold_cons.
  intros (b1 & w1 & H1 & H2)%bind_Ret. apply bind_Ret in H1 as (r & w2 & Hr & H1).
  destruct (attempt_err_Ret _ _ _ _ Hr) as [[-> [u Hu]]|(er & -> & _)].
  - apply clearInitNodeMark_Ret in Hu as (_ & md & Hmd & Hlab).
    destruct (collect_name p isInitNode e Hwf) as (Hm & He & Hi); [apply Hl; constructor|].
    rewrite He in Hi. apply isInitNode_entry in Hi as (? & md' & _ & Hmd' & Hlab'); [|done].
    rewrite Hp in Hmd. congruence.
  - destruct (IsErrSkip er); inv H1. eapply clearInitNodeMarks_true. exact H2.
Qed.

Lemma chooseInitNode_in l e url : chooseInitNode l = Some (e, url) -> e ∈ l.
Proof.
  unfold chooseInitNode. destruct (List.find _ l) as [x|] eqn:E.
  - intros [= -> _]. by apply list_find_first in E as [? _].
  - destruct l; intros [= -> _]. constructor.
Qed.

(** The search without a designated machine reads the plan only. *)
Lemma findInitNode_elected cp w :
  map_get (cp_Labels cp) InitNodeMachineIDLabel = "" ->
  exists r, findInitNode cp w = (w, Ret r) /\ r.2 <> Some ErrSkip /\
    (r.1.1.1 = true /\ r.2 = None <->
     exists e, collect (w_plan w) isInitNode = [e] /\ canBeInitNode e = true
       /\ (pe_annotation e JoinURLAnnotation = "" ->
           forall e', e' ∈ collect (w_plan w) canBeInitNode -> pe_annotation e' JoinURLAnnotation = ""))
    /\ forall e, collect (w_plan w) isInitNode = [e] -> r.2 = None -> r.1.1.2 = pe_annotation e JoinURLAnnotation.
Proof.
  intros Hid. unfold findInitNode. rewrite Hid. simpl. unfold collectM, bind, gets, ret.
  destruct (collect (w_plan w) isInitNode) as [|e [|e' l]] eqn:Ec; try (eexists; split; [done|]; simpl; naive_solver).
  destruct (canBeInitNode e) eqn:Ecan.
  2:{ eexists; split; [done|]; simpl. split; [done|]. split; [|done].
      split; [by intros []|intros (e0 & [= <-] & ? & _); congruence]. }
  case_bool_decide as Eu; cbn [negb].
  2:{ eexists; split; [done|]; simpl. split; [done|]. split; [|by intros ? [= <-]].
      split; [intros _; exists e; naive_solver|done]. }
  destruct (List.existsb _ _) eqn:Eex; eexists; (split; [done|]); simpl.
  - apply existsb_exists in Eex as (x & Hx & Hxu). apply list_elem_of_In in Hx.
    apply negb_true_iff, bool_decide_eq_false_1 in Hxu.
    split; [done|]. split; [|done]. split; [by intros []|]. intros (e0 & [= <-] & _ & Hk). by destruct Hxu; apply Hk.
  - split; [done|]. split; [|by intros ? [= <-] _]. split; [intros _|done]. exists e. repeat split; [done|].
    intros _ e' He'. destruct (decide (pe_annotation e' JoinURLAnnotation = "")) as [|Hn]; [done|].
    assert (List.existsb (fun e => pe_annotation e JoinURLAnnotation !=? "") (collect (w_plan w) canBeInitNode) = true) as Ht;
      [|congruence].
    apply existsb_exists. exists e'. split; [by apply list_elem_of_In|]. by rewrite bool_decide_eq_false_2.
Qed.

(** Without a designated machine, the election succeeds exactly when one machine is marked, it is
    able to be the init node, and no able machine has a join URL while the marked one has none; the
    result is the join URL of the marked machine, and nothing is written.  Every other case ends the
    pass with an error ([ErrSkip] after a mark has changed). *)
Theorem electInitNode_elected cp allowReelection w w' url :
  map_get (cp_Labels cp) InitNodeMachineIDLabel = "" -> plan_wf (w_plan w) ->
  electInitNode cp allowReelection w = (w', Ret url) <->
  w' = w /\ exists e, collect (w_plan w) isInitNode = [e] /\ canBeInitNode e = true
    /\ url = pe_annotation e JoinURLAnnotation
    /\ (url = "" -> forall e', e' ∈ collect (w_plan w) canBeInitNode -> pe_annotation e' JoinURLAnnotation = "").
Proof.
  intros Hid Hwf. unfold electInitNode.
  destruct (findInitNode_elected cp w Hid) as ([[[found jurl] oe] err] & Hf & Hskip & Hiff & Hurl). simpl in *.
  unfold bind at 1. rewrite Hf. split.
  - destruct (decide (found = true /\ err = None)) as [[-> ->]|Hno].
    + simpl. intros [= <- <-]. split; [done|]. destruct Hiff as [Hiff _].
      destruct Hiff as (e & He & Hcan & Hj); [done|]. exists e. rewrite (Hurl e He eq_refl) in *. done.
    + assert (IsErrSkip <$> err <> Some true) as Hns.
      { unfold findInitNode in Hf. rewrite Hid in Hf. simpl in Hf. unfold collectM, bind, gets, ret in Hf.
        repeat case_match; simplify_eq; done. }
      destruct (_ || _) eqn:Eb.
      { destruct found, err as [er|]; simpl in *; try naive_solver; by rewrite Eb in Hns. }
      rewrite Hid. rewrite (bool_decide_eq_true_2 ("" = "")) by done. rewrite andb_false_r.
      intros (marked & w1 & Hm & Hk)%bind_Ret. inv Hm. apply bind_Ret in Hk as (b & w2 & Hb & Hk).
      destruct (collect (w_plan w1) isInitNode) as [|e0 l0] eqn:Ec.
      * inv Hb. apply bind_Ret in Hk as (poss & w3 & Hp & Hk). inv Hp.
        destruct (chooseInitNode _) as [[e u]|] eqn:Ech; [|inv Hk].
        apply bind_Ret in Hk as (? & ? & (-> & md & Hmd & Hlab)%setInitNodeMark_Ret & _).
        apply chooseInitNode_in, collect_name in Ech as (Hm & _); [|done].
        destruct (proj1 (collect_init_nil (w_plan w3)) Ec (pe_name e)). by exists (pe_Machine e), md.
      * destruct allowReelection; [|inv Hb]. simpl in Hb.
        assert (b = true) as ->; [|inv Hk].
        eapply (clearInitNodeMarks_marked (w_plan w1) (e0 :: l0)); [done|done|done| |exact Hb].
        intros e He. by rewrite Ec.
  - intros (-> & e & He & Hcan & Hu & Hj).
    destruct Hiff as [_ [-> ->]]; [exists e; split; [done|]; split; [done|]; by rewrite <- Hu|].
    simpl. by rewrite (Hurl e He eq_refl), <- Hu.
Qed.

(** ** At most one mark *)

Abbreviation anyK := (fun _ : string * string => True).

Lemma frame_removePlanSecretLabel N e k :
  N (pe_name e) -> runs secrets_wf (frame N anyK) (removePlanSecretLabel e k) (fun _ => True).
Proof.
  intros HN. unfold removePlanSecretLabel.
  eapply runs_bind; [apply _|apply frame_getPlanSecretFromMachine|]. cbv beta. intros s Hs.
  destruct (s_Labels s !! k); [|runs_auto].
  eapply runs_bind; [apply _|by apply frame_update_and_reload|]. cbv beta. intros e' He'.
  eapply runs_bind; [apply _|apply frame_entry_metadata|]. intros md _.
  eapply runs_weaken; [apply frame_put_metadata|done]. unfold pe_name. by rewrite He'.
Qed.

Lemma frame_setInitNodeMark e :
  runs secrets_wf (frame (fun n => n = pe_name e) anyK) (setInitNodeMark e) (fun _ => True).
Proof.
  unfold setInitNodeMark. eapply runs_bind; [apply _|apply frame_entry_metadata|]. intros md _.
  case_bool_decide; [runs_auto|].
  eapply runs_bind; [apply _|by apply frame_set_label|]. cbv beta. intros e' _.
  eapply runs_bind; [apply _|by apply frame_updatePlanSecretLabelsAndAnnotations|]. intros e'' _. runs_auto.
Qed.

(** Marks only disappear. *)
Definition marks_shrink (w w' : World) : Prop := forall n, init_marked (w_plan w') n -> init_marked (w_plan w) n.

#[local] Instance marks_shrink_preorder : PreOrder marks_shrink.
Proof. split; [by intros w n|intros w1 w2 w3 H1 H2 n Hn; by apply H1, H2]. Qed.

Lemma frame_marks_shrink w w' : frame (fun _ => False) anyK w w' -> marks_shrink w w'.
Proof. intros (H1 & _ & H2 & _) n (m & md & Hm & Hmd & Hl). exists m, md. rewrite <- H1, <- H2 by auto. done. Qed.

Lemma removePlanSecretLabel_shrinks e : runs secrets_wf marks_shrink (removePlanSecretLabel e InitNodeLabel) (fun _ => True).
Proof.
  unfold removePlanSecretLabel.
  eapply runs_bind; [apply _|eapply runs_relation; [apply frame_getPlanSecretFromMachine|apply frame_marks_shrink]|].
  cbv beta. intros s Hs. destruct (s_Labels s !! InitNodeLabel); [|runs_auto].
  eapply runs_bind; [apply _|eapply runs_relation; [by apply (frame_update_and_reload (fun _ => False) anyK)|apply frame_marks_shrink]|].
  cbv beta. intros e' He'.
  eapply runs_bind; [apply _|eapply runs_relation; [apply frame_entry_metadata|apply frame_marks_shrink]|]. intros md _.
  intros w Hw. unfold put_metadata, bind, gets, modify. simpl. split; [done|]. split; [|done].
  intros n (m & md' & Hm & Hmd & Hl). simpl in *. destruct (decide (n = pe_name e')) as [->|Hn].
  - rewrite lookup_insert_eq in Hmd. inv Hmd. simpl in Hl. unfold map_get in Hl. by rewrite lookup_delete_eq in Hl.
  - rewrite lookup_insert_ne in Hmd by done. by exists m, md'.
Qed.

Lemma clearInitNodeMark_shrinks e : runs secrets_wf marks_shrink (clearInitNodeMark e) (fun _ => True).
Proof.
  unfold clearInitNodeMark.
  eapply runs_bind; [apply _|eapply runs_relation; [apply frame_entry_metadata|apply frame_marks_shrink]|]. intros md _.
  case_bool_decide; [runs_auto|]. eapply runs_bind; [apply _|apply removePlanSecretLabel_shrinks|]. runs_auto.
Qed.

Lemma clearInitNodeMarks_shrinks l : runs secrets_wf marks_shrink (clearInitNodeMarks l) (fun _ => True).
Proof.
  unfold clearInitNodeMarks. apply runs_for_fold; [apply _|done|]. intros acc e _ _.
  eapply (runs_bind _ _ _ _ (fun _ => True)).
  { eapply runs_attempt_err; [apply _|apply clearInitNodeMark_shrinks]. }
  intros [er|] _; [destruct (IsErrSkip er)|]; runs_auto.
Qed.

Lemma one_init_node_shrink w w' : marks_shrink w w' -> one_init_node (w_plan w) -> one_init_node (w_plan w').
Proof. intros Hs H1 n n' Hn Hn'. by apply H1; apply Hs. Qed.

Lemma frame_clearInitNodeMark e : runs secrets_wf (frame (fun _ => True) anyK) (clearInitNodeMark e) (fun _ => True).
Proof.
  unfold clearInitNodeMark. eapply runs_bind; [apply _|apply frame_entry_metadata|]. intros md _.
  case_bool_decide; [runs_auto|]. eapply runs_bind; [apply _|by apply frame_removePlanSecretLabel|]. runs_auto.
Qed.
Lemma frame_clearInitNodeMarks l : runs secrets_wf (frame (fun _ => True) anyK) (clearInitNodeMarks l) (fun _ => True).
Proof.
  unfold clearInitNodeMarks. apply runs_for_fold; [apply _|done|]. intros acc e _ _. eapply (runs_bind _ _ _ _ (fun _ => True)).
  { eapply runs_attempt_err; [apply _|apply frame_clearInitNodeMark]. }
  intros [er|] _; [destruct (IsErrSkip er)|]; runs_auto.
Qed.

(** When nothing had to be cleared, nothing is marked and nothing has changed. *)
Lemma clearInitNodeMarks_none l w w' : clearInitNodeMarks l w = (w', Ret false) ->
  w' = w /\ forall e, e ∈ l -> exists md, pl_Metadata (w_plan w) !! pe_name e = Some md /\ map_get (md_Labels md) InitNodeLabel = "".
Proof.
  revert w. induction l as [|e l IH]; intros w; [intros [= <-]; split; [done|]; by intros ? ?%elem_of_nil|].
  unfold clearInitNodeMarks. rewrite for_fold_cons. intros (b1 & w1 & H1 & H2)%bind_Ret.
  apply bind_Ret in H1 as (r & w2 & Hr & H1). destruct (attempt_err_Ret _ _ _ _ Hr) as [[-> [u Hu]]|(er & -> & _)].
  - inv H1. apply clearInitNodeMark_Ret in Hu as (-> & Hmd). apply IH in H2 as [-> Hall]. split; [done|].
    intros x [->|Hx]%elem_of_cons; auto.
  - destruct (IsErrSkip er); inv H1. by apply clearInitNodeMarks_true in H2.
Qed.

(** The marks suit a fixed init node: a marked machine is an etcd machine, and if the machine has the fixed ID then its
    plan secret has it. *)
Definition suits_fixed (cp : RKEControlPlane) (p : Plan) : Prop :=
  let id := map_get (cp_Labels cp) InitNodeMachineIDLabel in
  id <> "" -> forall n m, pl_Machines p !! n = Some m -> init_marked p n ->
  isEtcd (entry_of p n m) = true
  /\ (machine_label (entry_of p n m) MachineIDLabel = id -> pe_label (entry_of p n m) MachineIDLabel = id).

(** At most one mark, in a plan and among secrets that are as they should be. *)
Definition elected_wf (w : World) : Prop := secrets_wf w /\ plan_wf (w_plan w) /\ one_init_node (w_plan w).

Lemma elected_wf_setInitNodeMark e w : secrets_wf w -> plan_wf (w_plan w) -> (forall n, init_marked (w_plan w) n -> n = pe_name e) ->
  elected_wf (fst (setInitNodeMark e w)).
Proof.
  intros Hwf Hpwf Hall. destruct (frame_setInitNodeMark e w Hwf) as (Hwf' & (Hm & _ & Hmd & _) & _).
  split; [done|]. split; [intros k m; rewrite Hm; apply Hpwf|].
  assert (forall n, init_marked (w_plan (setInitNodeMark e w).1) n -> n = pe_name e) as Hall'; [|by intros n n' ->%Hall' ->%Hall'].
  intros n (m & md & H1 & H2 & H3). destruct (decide (n = pe_name e)) as [|Hn]; [done|].
  rewrite Hm in H1. rewrite Hmd in H2 by done. apply Hall. by exists m, md.
Qed.

Lemma elected_wf_clearInitNodeMarks l w : elected_wf w -> elected_wf (fst (clearInitNodeMarks l w)).
Proof.
  intros (Hwf & Hpwf & Hone). destruct (clearInitNodeMarks_shrinks l w Hwf) as (Hwf' & Hs & _).
  destruct (frame_clearInitNodeMarks l w Hwf) as (_ & (Hm & _) & _).
  split; [done|]. split; [intros k m; rewrite Hm; apply Hpwf|by eapply one_init_node_shrink].
Qed.

Lemma findInitNode_kept cp w : elected_wf w -> suits_fixed cp (w_plan w) -> elected_wf (fst (findInitNode cp w)).
Proof.
  intros Hw Hsuit. destruct (decide (map_get (cp_Labels cp) InitNodeMachineIDLabel = "")) as [Hid|Hid].
  { destruct (findInitNode_elected cp w Hid) as (r & -> & _). done. }
  specialize (Hsuit Hid). unfold findInitNode. rewrite bool_decide_eq_false_2 by done. cbn [negb].
  unfold findAndDesignateFixedInitNode. rewrite bool_decide_eq_false_2 by done. unfold collectM at 1, bind at 1, gets, ret at 1. unfold bind at 1.
  set (named := fun e => has_metadata e && (pe_label e MachineIDLabel =? map_get (cp_Labels cp) InitNodeMachineIDLabel)).
  destruct (collect (w_plan w) named) as [|entry [|]] eqn:Ec; [done| |done]. destruct (_ !=? "true"); [|done].
  unfold collectM at 1, bind at 1, gets, ret at 1. unfold bind at 1. unfold attempt at 1, bind at 1.
  set (l := List.filter _ _). pose proof (elected_wf_clearInitNodeMarks l w Hw) as Hcl.
  destruct (clearInitNodeMarks l w) as [w1 [[]|e|]] eqn:Ecl; cbn [fst] in Hcl; [done| |done..].
  apply clearInitNodeMarks_none in Ecl as [-> Hnone]. destruct Hw as (Hwf & Hpwf & Hone).
  assert (elected_wf (fst (setInitNodeMark entry w))) as Hset.
  { apply elected_wf_setInitNodeMark; [done..|]. intros n Hn. destruct Hn as (m & md & Hm & Hmd & Hl).
    destruct (Hsuit n m Hm) as [He Hids]; [by exists m, md|]. pose proof (Hpwf n m Hm) as Hnm.
    destruct (decide (machine_label (entry_of (w_plan w) n m) MachineIDLabel = map_get (cp_Labels cp) InitNodeMachineIDLabel)) as [Hx|Hx].
    - assert (entry_of (w_plan w) n m ∈ collect (w_plan w) named) as Hin.
      { apply elem_of_collect. exists n, m. split; [done|]. split; [done|]. unfold named, has_metadata. rewrite Hids by done.
        rewrite !bool_decide_eq_true_2; [done|done|]. simpl. rewrite Hmd. eauto. }
      rewrite Ec in Hin. apply list_elem_of_singleton in Hin as <-. by unfold pe_name; simpl.
    - destruct (Hnone (entry_of (w_plan w) n m)) as (md' & Hmd' & Hl').
      { unfold l. apply elem_of_filter_bool. split; [apply elem_of_collect; eauto|]. by rewrite bool_decide_eq_false_2. }
      unfold pe_name in Hmd'. simpl in Hmd'. rewrite Hnm in Hmd'. congruence. }
  unfold attempt_err, attempt, bind. by destruct (setInitNodeMark entry w) as [w' [?|?|]].
Qed.

(** C14: whatever the outcome of the election, also when a request fails half-way, at most one machine
    is marked as init node afterwards if at most one was before; provided, when the cluster names a fixed init node by its
    machine ID, that only etcd machines are marked and that a marked machine with this ID has it on its plan secret. *)
Theorem electInitNode_one_init_node cp allowReelection w :
  secrets_wf w -> plan_wf (w_plan w) -> one_init_node (w_plan w) -> suits_fixed cp (w_plan w) ->
  one_init_node (w_plan (fst (electInitNode cp allowReelection w))).
Proof.
  intros Hwf0 Hpwf0 Hone0 Hsuit. unfold electInitNode.
  destruct (findInitNode_kept cp w (conj Hwf0 (conj Hpwf0 Hone0)) Hsuit) as (Hwf & Hpwf & Hone). clear Hwf0 Hpwf0 Hone0 Hsuit.
  unfold bind at 1. destruct (findInitNode cp w) as [w1 [[[[found jurl] oe] err]|e|]]; cbn [fst] in *; [|done..]. destruct (_ || _).
  { unfold bind. by destruct err. }
  destruct (_ && _); [done|]. unfold collectM at 1, bind at 1, gets at 1, ret at 1. unfold bind at 1.
  destruct (collect (w_plan w1) isInitNode) as [|e0 l0] eqn:Ec.
  - rewrite (bind_run _ _ _ w1 false) by done. cbv iota.
    rewrite (bind_run _ _ _ w1 (collect (w_plan w1) canBeInitNode)) by done.
    destruct (chooseInitNode _) as [[e u]|]; [|done].
    destruct (elected_wf_setInitNodeMark e w1) as (_ & _ & Hgoal); [done..| |].
    { intros n Hn. by destruct (proj1 (collect_init_nil (w_plan w1)) Ec n). }
    unfold bind. by destruct (setInitNodeMark e w1) as [w' [?| |]].
  - destruct allowReelection; simpl; [|done].
    destruct (clearInitNodeMarks_shrinks (e0 :: l0) w1 Hwf) as (_ & Hs & _).
    unfold bind. destruct (clearInitNodeMarks (e0 :: l0) w1) as [w' [b| |]] eqn:Ecl; simpl in *;
      try by eapply one_init_node_shrink.
    assert (b = true) as ->; [|by eapply one_init_node_shrink].
    eapply (clearInitNodeMarks_marked (w_plan w1) (e0 :: l0)); [done..| |exact Ecl]. intros e He. by rewrite Ec.
Qed.

(** ** Designation *)

(** The mark of an etcd machine is as the designation of [id] wants it. *)
Definition designated (p : Plan) (id : string) (e : planEntry) : Prop :=
  exists md, pl_Metadata p !! pe_name e = Some md /\
    (if machine_label e MachineIDLabel =? id then map_get (md_Labels md) InitNodeLabel = "true"
     else map_get (md_Labels md) InitNodeLabel = "").

Lemma designate_one_Ret id acc e w w' found url inv :
  designate_one id acc e w = (w', Ret (found, url, inv)) ->
  (acc.2 = true -> inv = true) /\
  (inv = false -> w' = w /\ designated (w_plan w) id e /\ (found = true -> acc.1.1 = true \/ machine_label e MachineIDLabel = id)).
Proof.
  destruct acc as [[f u] i]. unfold designate_one, designated. case_bool_decide as Eid.
  - intros (r & w1 & Hr & Hk)%bind_Ret.
    destruct (attempt_err_Ret _ _ _ _ Hr) as [[-> [x Hx]]|(er & -> & _)].
    + apply setInitNodeMark_Ret in Hx as (-> & md & Hmd & Hl).
      apply bind_Ret in Hk as (md' & w2 & (-> & Hmd')%entry_metadata_Ret & Hk). inv Hk. eauto 10.
    + destruct (IsErrSkip er); inv Hk. done.
  - intros (r & w1 & Hr & Hk)%bind_Ret.
    destruct (attempt_err_Ret _ _ _ _ Hr) as [[-> [x Hx]]|(er & -> & _)].
    + apply clearInitNodeMark_Ret in Hx as (-> & md & Hmd & Hl). inv Hk. eauto 10.
    + destruct (IsErrSkip er); inv Hk. done.
Qed.

Lemma designate_loop id l acc w w' found url inv :
  for_fold l acc (designate_one id) w = (w', Ret (found, url, inv)) ->
  (acc.2 = true -> inv = true) /\
  (inv = false -> w' = w /\ Forall (designated (w_plan w) id) l
     /\ (found = true -> acc.1.1 = true \/ Exists (fun e => machine_label e MachineIDLabel = id) l)).
Proof.
  revert acc w. induction l as [|e l IH]; intros acc w.
  - intros [= <- ->]. simpl. auto.
  - rewrite for_fold_cons. intros ([[f u] i] & w1 & H1 & H2)%bind_Ret.
    apply designate_one_Ret in H1 as [A1 A2]. apply IH in H2 as [B1 B2]. simpl in *. split; [auto|].
    intros ->. destruct i; [by specialize (B1 eq_refl)|]. destruct (A2 eq_refl) as (-> & Hd & Hf).
    destruct (B2 eq_refl) as (-> & Hds & Hfs). repeat split; [by constructor|].
    intros Hfound. destruct (Hfs Hfound) as [Hf'|]; [|by right; constructor].
    destruct (Hf Hf'); [by left|by right; constructor].
Qed.

(** A designation that succeeds has found everything in place: among the etcd machines exactly
    those with the given machine ID are marked, there is one, and nothing is written.  A pass that
    has changed a mark never succeeds. *)
Theorem designateInitNodeByMachineID_done cp id w w' url :
  designateInitNodeByMachineID cp id w = (w', Ret url) ->
  w' = w /\ Forall (designated (w_plan w) id) (collect (w_plan w) isEtcd)
  /\ Exists (fun e => machine_label e MachineIDLabel = id) (collect (w_plan w) isEtcd).
Proof.
  unfold designateInitNodeByMachineID. case_bool_decide; [done|].
  intros (l & w1 & Hl & Hk)%bind_Ret. inv Hl. apply bind_Ret in Hk as ([[f u] i] & w2 & Hloop & Hk).
  destruct f; [|inv Hk]. destruct i; inv Hk.
  apply designate_loop in Hloop as [_ Hl]. destruct (Hl eq_refl) as (-> & Hds & Hf).
  split; [done|]. split; [done|]. by destruct (Hf eq_refl).
Qed.
End election.

Section witnesses.
#[local] Existing Instance demoExternal.
#[local] Instance demoP : Planner := demoPlanner ∅ ∅ [] None.

Let etcd : gmap string string := {[ EtcdRoleLabel := "true" ]}.
Let w0 : World := demoWorld [("m1", ∅, <[InitNodeLabel := "true"]> etcd); ("m2", ∅, etcd)].

Lemma electInitNode_elected_witness : electInitNode demoControlPlane true w0 = (w0, Ret "").
Proof.
  apply (electInitNode_elected demoControlPlane true w0 w0 ""); [reflexivity|apply demoWorld_plan_wf|].
  split; [reflexivity|]. eexists. split; [vm_compute; reflexivity|]. split; [vm_compute; reflexivity|].
  split; [vm_compute; reflexivity|]. intros _. apply Forall_forall. vm_compute. repeat constructor.
Defined.

(** A control plane that names [m2] as its init node, while [m1] is marked. *)
Let fixed : RKEControlPlane :=
  mkRKEControlPlane "fleet-default" "c1" "cp-uid" 1 {[ InitNodeMachineIDLabel := "id-2" ]} ∅ false [] demoSpec demoStatus.
Let w2 : World := demoWorld [("m1", ∅, <[InitNodeLabel := "true"]> etcd); ("m2", ∅, <[MachineIDLabel := "id-2"]> etcd)].

Lemma electInitNode_one_init_node_witness :
  one_init_node (w_plan (fst (electInitNode fixed true w2))) /\ collect (w_plan (fst (electInitNode fixed true w2))) isInitNode = [].
Proof.
  assert (forall n md, pl_Metadata (w_plan w2) !! n = Some md -> map_get (md_Labels md) InitNodeLabel = "true" -> n = "m1") as Hall.
  { intros x mdx Hx. apply elem_of_list_to_map_2 in Hx. simpl in Hx.
    rewrite !elem_of_cons in Hx. destruct Hx as [[= -> ->]|[[= -> ->]|Hx]]; [done|done|].
    by apply not_elem_of_nil in Hx. }
  split; [|vm_compute; reflexivity].
  apply (electInitNode_one_init_node fixed true w2); [apply demoWorld_wf|apply demoWorld_plan_wf| |].
  - intros n n' (m & md & _ & Hmd & Hl) (m' & md' & _ & Hmd' & Hl'). by rewrite (Hall n md), (Hall n' md').
  - intros _ n m Hm (m' & md & _ & Hmd & Hl). pose proof (Hall _ _ Hmd Hl) as ->. revert Hm. vm_compute. intros [= <-]. split; [reflexivity|discriminate].
Defined.

(** The machines carry their ID as a label of the machine object. *)
Let w1 : World :=
  set_w_plan (set_pl_Machines (<["m1" := set_m_Labels {[ MachineIDLabel := "id-1" ]} (demoMachine "m1")]>
    (pl_Machines (w_plan w0))) (w_plan w0)) w0.

Lemma designateInitNodeByMachineID_done_witness : exists w' url,
  designateInitNodeByMachineID demoControlPlane "id-1" w1 = (w', Ret url) /\ w' = w1.
Proof.
  destruct (returns_run (designateInitNodeByMachineID demoControlPlane "id-1") w1) as (w' & url & E); [vm_compute; reflexivity|].
  exists w', url. split; [done|]. apply (designateInitNodeByMachineID_done _ _ _ _ _ E).
Defined.
End witnesses.
