(* ===== verification/Drain.v ===== *)
(** * Draining and uncordoning ([pkg/capr/planner/drain.go])

    The planner asks for a drain by writing the options into an annotation; another controller
    drains the node and copies them into the done annotation. *)

From S2P Require Import Prelude GoLib Errors Types External Capr PlanEntry World Store.

Section drain.
Context `{P : Planner}.

(** The first environment entry of the plan that carries a restart stamp. *)
Definition env_stamp (env : string) : option string :=
  let '(k, v) := kv_Split env "=" in
  if (k =? "RESTART_STAMP") || (k =? "$env:RESTART_STAMP") then Some v else None.

Fixpoint first_stamp (envs : list string) : option string :=
  match envs with
  | [] => None
  | e :: rest => match env_stamp e with Some v => Some v | None => first_stamp rest end
  end.

Fixpoint instructions_stamp (instrs : list OneTimeInstruction) : string :=
  match instrs with
  | [] => ""
  | i :: rest => match first_stamp (i_Env i) with Some v => v | None => instructions_stamp rest end
  end.

Definition getRestartStamp (plan : NodePlan) : string := instructions_stamp (np_Instructions plan).

Definition shouldDrain (oldPlan : option NodePlan) (newPlan : NodePlan) : bool :=
  match oldPlan with
  | None => false
  | Some old => getRestartStamp old !=? getRestartStamp newPlan
  end.

Definition optionsToString (options : DrainOptions) (disable : bool) : res string :=
  json_Marshal_DrainOptions (if disable then set_do_Enabled false options else options).

Definition checkForDrainError (annotations : gmap string string) (machineName drainStep : string) : option error :=
  let errStr := map_get annotations DrainErrorAnnotation in
  if (errStr !=? "") && negb (Contains errStr "error trying to reach service")
  then Some (errorString ("error " +:+ drainStep +:+ " machine " +:+ machineName +:+ ": " +:+ errStr))
  else None.

(** The results are Go's: [(true, Some _)] says that draining goes on and has met an error.  The
    maps of an entry's metadata are never nil, [Load] allocates them. *)
Definition drain (oldPlan : option NodePlan) (newPlan : NodePlan) (entry : planEntry) (options : DrainOptions)
  : M (bool * option error) :=
  let* p := gets w_plan in
  match pl_Metadata p !! pe_name entry, m_NodeRef (pe_Machine entry) with
  | Some md, Some _ =>
      let single := (size (pl_Machines p) =? 1)%nat in
      if (negb (do_Enabled options) || single)
         && (length (do_PreDrainHooks options) =? 0)%nat && (length (do_PostDrainHooks options) =? 0)%nat
      then ret (true, None)
      else if negb (shouldDrain oldPlan newPlan) then ret (true, None)
      else
        match optionsToString options single with
        | Fail e => ret (false, Some e)
        | Panic => panic
        | Ret optionString =>
            if map_get (md_Annotations md) DrainAnnotation !=? optionString then
              let* entry := set_annotation entry DrainAnnotation optionString in
              let* e := attempt_err (updatePlanSecretLabelsAndAnnotations entry) in
              ret (false, e)
            else
              match checkForDrainError (md_Annotations md) (pe_name entry) "draining" with
              | Some e => ret (true, Some e)
              | None => ret (map_get (md_Annotations md) DrainDoneAnnotation =? optionString, None)
              end
        end
  | _, _ => ret (true, None)
  end.

Definition undrain (entry : planEntry) : M (bool * option error) :=
  let* md := entry_metadata entry in
  let ann := map_get (md_Annotations md) in
  if (ann DrainAnnotation !=? "") && (ann DrainAnnotation !=? ann UnCordonAnnotation) then
    let* entry := set_annotation entry UnCordonAnnotation (ann DrainAnnotation) in
    let* e := attempt_err (updatePlanSecretLabelsAndAnnotations entry) in
    ret (false, e)
  else
    match checkForDrainError (md_Annotations md) (pe_name entry) "undraining" with
    | Some e => ret (true, Some e)
    | None => ret (ann UnCordonAnnotation =? "", None)
    end.
End drain.

Section draining.
Context `{P : Planner}.

(** Nothing is to be done before the plan of this machine may change. *)
Definition nothing_to_drain (p : Plan) (oldPlan : option NodePlan) (newPlan : NodePlan) (entry : planEntry)
    (options : DrainOptions) : Prop :=
  pl_Metadata p !! pe_name entry = None \/ m_NodeRef (pe_Machine entry) = None
  \/ ((do_Enabled options = false \/ size (pl_Machines p) = 1%nat)
      /\ do_PreDrainHooks options = [] /\ do_PostDrainHooks options = [])
  \/ shouldDrain oldPlan newPlan = false.

Lemma drain_done_iff oldPlan newPlan entry options w w' :
  drain oldPlan newPlan entry options w = (w', Ret (true, None)) <->
  w' = w /\
  (nothing_to_drain (w_plan w) oldPlan newPlan entry options
   \/ exists md str, pl_Metadata (w_plan w) !! pe_name entry = Some md
        /\ optionsToString options (size (pl_Machines (w_plan w)) =? 1)%nat = Ret str
        /\ map_get (md_Annotations md) DrainAnnotation = str /\ map_get (md_Annotations md) DrainDoneAnnotation = str
        /\ checkForDrainError (md_Annotations md) (pe_name entry) "draining" = None).
Proof.
  unfold drain, nothing_to_drain, bind at 1, gets.
  destruct (pl_Metadata (w_plan w) !! pe_name entry) as [md|] eqn:Emd; [|unfold ret; naive_solver].
  destruct (m_NodeRef (pe_Machine entry)) as [nr|]; [|unfold ret; naive_solver].
  destruct (_ && _ && _) eqn:Eoff.
  { rewrite !andb_true_iff, orb_true_iff, negb_true_iff, !Nat.eqb_eq in Eoff.
    rewrite !length_zero_iff_nil in Eoff. unfold ret. naive_solver. }
  destruct (shouldDrain oldPlan newPlan) eqn:Esd; cbn [negb]; [|unfold ret; naive_solver].
  assert (~ ((do_Enabled options = false \/ size (pl_Machines (w_plan w)) = 1%nat)
             /\ do_PreDrainHooks options = [] /\ do_PostDrainHooks options = [])) as Hoff.
  { intros (Ha & Hb & Hc). rewrite Hb, Hc, !andb_false_iff, orb_false_iff, negb_false_iff, !Nat.eqb_neq in Eoff.
    simpl in Eoff. naive_solver congruence. }
  destruct (optionsToString _ _) as [str|e|] eqn:Eopt; [|unfold ret, panic; split; [done|naive_solver]..].
  case_bool_decide as Eann; cbn [negb].
  2:{ split; [|naive_solver]. intros (e1 & w1 & _ & Hk)%bind_Ret. apply bind_Ret in Hk as (? & ? & _ & Hk). inv Hk. }
  destruct (checkForDrainError _ _ _) eqn:Echk; unfold ret; [split; [done|naive_solver]|].
  split.
  - intros [= <- Hd%bool_decide_eq_true_1]. split; [done|]. right. eauto 10.
  - intros (-> & [Hn|(md' & str' & [= <-] & [= <-] & _ & Hd & _)]); [naive_solver congruence|].
    by rewrite bool_decide_eq_true_2.
Qed.

(** [drain] lets a plan through, that is returns [(true, nil)], exactly when there is nothing to
    drain (no node yet, draining switched off and no hooks, or no restart), or when the drain with
    exactly these options was requested, has been reported as done, and left no error; and then it
    has written nothing. *)
Theorem drain_done oldPlan newPlan entry options w w' :
  drain oldPlan newPlan entry options w = (w', Ret (true, None)) <->
  w' = w /\
  (nothing_to_drain (w_plan w) oldPlan newPlan entry options
   \/ exists md str, pl_Metadata (w_plan w) !! pe_name entry = Some md
        /\ optionsToString options (size (pl_Machines (w_plan w)) =? 1)%nat = Ret str
        /\ map_get (md_Annotations md) DrainAnnotation = str /\ map_get (md_Annotations md) DrainDoneAnnotation = str
        /\ checkForDrainError (md_Annotations md) (pe_name entry) "draining" = None).
Proof. apply drain_done_iff. Qed.
End draining.

Section drain_frames.
Context `{P : Planner} (N : string -> Prop) (K : string * string -> Prop).
Local Abbreviation runsF := (runs secrets_wf (frame N K)).

Lemma frame_annotate e k v :
  N (pe_name e) -> (forall key, plan_secret_key (pe_Machine e) = Some key -> K key) ->
  runsF (let* e' := set_annotation e k v in
         let* err := attempt_err (updatePlanSecretLabelsAndAnnotations e') in
         ret (false, err)) (fun _ => True).
Proof.
  intros HN HK. eapply runs_bind; [apply _|by apply frame_set_annotation|]. cbv beta. intros e' [He' _].
  eapply (runs_bind _ _ _ _ (fun _ => True)); [|intros; by apply runs_ret; [apply _|]].
  eapply runs_attempt_err; [apply _|]. apply frame_updatePlanSecretLabelsAndAnnotations. by rewrite He'.
Qed.

Lemma frame_drain old new e options :
  N (pe_name e) -> (forall key, plan_secret_key (pe_Machine e) = Some key -> K key) ->
  runsF (drain old new e options) (fun _ => True).
Proof.
  intros HN HK. unfold drain. eapply (runs_bind _ _ _ _ (fun _ => True)); [runs_auto|]. intros p _.
  pose proof (fun v => frame_annotate e DrainAnnotation v HN HK). repeat case_match; runs_auto.
Qed.

Lemma frame_undrain e :
  N (pe_name e) -> (forall key, plan_secret_key (pe_Machine e) = Some key -> K key) ->
  runsF (undrain e) (fun _ => True).
Proof.
  intros HN HK. unfold undrain. eapply runs_bind; [apply _|apply frame_entry_metadata|]. intros md _.
  pose proof (fun v => frame_annotate e UnCordonAnnotation v HN HK). cbv zeta. repeat case_match; runs_auto.
Qed.
End drain_frames.
