(* ===== verification/Args.v ===== *)
(** * Component arguments ([pkg/capr/planner/planner.go], [filter.go])

    Reading and extending the argument lists of the Kubernetes components in the free-form
    configuration, pruning and filtering that configuration, and the taints of a machine. *)

From S2P Require Import Prelude GoLib Errors Types External Capr PlanEntry.

Definition KubeControllerManagerArg : string := "kube-controller-manager-arg".
Definition KubeControllerManagerExtraMount : string := "kube-controller-manager-extra-mount".
Definition DefaultKubeControllerManagerCertDir : string := "/var/lib/rancher/%s/server/tls/kube-controller-manager".
Definition DefaultKubeControllerManagerDefaultSecurePort : string := "10257".
Definition DefaultKubeControllerManagerCert : string := "kube-controller-manager.crt".
Definition KubeSchedulerArg : string := "kube-scheduler-arg".
Definition KubeSchedulerExtraMount : string := "kube-scheduler-extra-mount".
Definition DefaultKubeSchedulerCertDir : string := "/var/lib/rancher/%s/server/tls/kube-scheduler".
Definition DefaultKubeSchedulerDefaultSecurePort : string := "10259".
Definition DefaultKubeSchedulerCert : string := "kube-scheduler.crt".
Definition SecurePortArgument : string := "secure-port".
Definition CertDirArgument : string := "cert-dir".
Definition TLSCertFileArgument : string := "tls-cert-file".

(** Metadata read without a nil check: a nil pointer panics. *)
Definition pe_md (e : planEntry) : res Metadata :=
  match pe_Metadata e with Some md => Ret md | None => Panic end.

(** ** Arguments *)

Definition equals : Ascii.ascii := Ascii.ascii_of_nat 61.

Definition splitArgKeyVal (val delim : string) : string * string :=
  match SplitN2 val delim with
  | [k; v] => (k, v)
  | _ => ("", "")
  end.

Fixpoint search_arg (args : list string) (searchArg delim : string) : string :=
  match args with
  | [] => ""
  | v :: rest => let '(argKey, argVal) := splitArgKeyVal v delim in
                 if argKey =? searchArg then argVal else search_arg rest searchArg delim
  end.

Definition convertInterfaceSliceToStringSlice (input : list value) : list string := map Sprintv input.

Definition getArgValue (arg : value) (searchArg delim : string) : string :=
  match arg with
  | VSlice l => search_arg (convertInterfaceSliceToStringSlice l) searchArg delim
  | VStrings l => search_arg l searchArg delim
  | VString s => let '(argKey, argVal) := splitArgKeyVal s delim in
                 if argKey =? searchArg then argVal else ""
  | _ => ""
  end.

Definition appendToInterface (input : value) (elem : string) : list string :=
  match input with
  | VSlice l => convertInterfaceSliceToStringSlice l ++ [elem]
  | VStrings l => l ++ [elem]
  | VString s => [s; elem]
  | _ => [elem]
  end.

Definition convertInterfaceToStringSlice (input : value) : list string :=
  match input with
  | VSlice l => convertInterfaceSliceToStringSlice l
  | VStrings l => l
  | VString s => [s]
  | _ => []
  end.

Definition renderArgAndMount (existingArg existingMount : value) (runtime defaultSecurePort defaultCertDir : string)
  : list string * list string :=
  let retArg := convertInterfaceToStringSlice existingArg in
  let retMount := convertInterfaceToStringSlice existingMount in
  let renderedCertDir := Sprintf_s defaultCertDir [runtime] in
  let '(certDirArg, certDirMount) :=
    match retArg with
    | [] => (CertDirArgument +:+ "=" +:+ renderedCertDir, renderedCertDir +:+ ":" +:+ renderedCertDir)
    | _ =>
        let tlsCF := getArgValue (VStrings retArg) TLSCertFileArgument "=" in
        if tlsCF =? "" then
          let certDir := getArgValue (VStrings retArg) CertDirArgument "=" in
          if certDir !=? "" then ("", certDir +:+ ":" +:+ certDir)
          else (CertDirArgument +:+ "=" +:+ renderedCertDir, renderedCertDir +:+ ":" +:+ renderedCertDir)
        else let dir := Dir tlsCF in ("", dir +:+ ":" +:+ dir)
    end in
  let securePortArg :=
    match retArg with
    | [] => SecurePortArgument +:+ "=" +:+ defaultSecurePort
    | _ => if getArgValue (VStrings retArg) SecurePortArgument "=" !=? "" then ""
           else SecurePortArgument +:+ "=" +:+ defaultSecurePort
    end in
  let retArg := if certDirArg !=? "" then appendToInterface existingArg certDirArg else retArg in
  let retArg := if securePortArg !=? "" then appendToInterface (VStrings retArg) securePortArg else retArg in
  let retMount := if runtime =? RuntimeRKE2 then appendToInterface existingMount certDirMount else retMount in
  (retArg, retMount).

(** ** The configuration map *)

Definition prunable (v : value) : bool :=
  match v with
  | VNil | VString EmptyString | VSlice [] | VStrings [] => true
  | _ => false
  end.

Definition PruneEmpty (c : config) : config := filter (fun kv => prunable (snd kv) = false) c.

Section filter.
Context `{External}.

Definition filterField (isServer : bool) (k : string) (v : value) (release : Release) : option value :=
  match v with
  | VNil => None
  | _ =>
      let field :=
        match rel_AgentArgs release !! k with
        | Some f => Some f
        | None => if isServer then rel_ServerArgs release !! k else None
        end in
      match field with
      | None => None
      | Some fieldType =>
          match v with
          | VString _ | VBool _ | VSlice _ =>
              if fieldType =? "boolean" then Some (VBool (convert_ToBool v)) else Some v
          | _ => None
          end
      end
  end.

(** Each key is rewritten or removed on its own, so the order of the map does not matter. *)
Definition filterConfigData (c : config) (controlPlane : RKEControlPlane) (entry : planEntry) : config :=
  let isServer := isControlPlane entry || isEtcd entry in
  match GetKDMReleaseData (Some controlPlane) with
  | None => c
  | Some release => map_imap (fun k v => filterField isServer k v release) c
  end.

(** ** Taints *)

Definition getTaints (entry : planEntry) (cp : RKEControlPlane) : res (list Taint) :=
  let? md := pe_md entry in
  let data := map_get (md_Annotations md) TaintsAnnotation in
  let? result := (if data !=? "" then json_Unmarshal_Taints data else Ret []) in
  if negb (isWorker entry) then
    let etcd :=
      if isEtcd entry && ((GetRuntime (sp_KubernetesVersion (cp_Spec cp)) !=? RuntimeK3S) || negb (isControlPlane entry))
      then [mkTaint "node-role.kubernetes.io/etcd" "" "NoExecute"] else [] in
    let controlplane :=
      if isControlPlane entry then [mkTaint "node-role.kubernetes.io/control-plane" "" "NoSchedule"] else [] in
    Ret (result ++ etcd ++ controlplane)
  else Ret result.
End filter.

(** ** Properties *)

Lemma splitArgKeyVal_pair k v :
  Count_char equals k = O -> splitArgKeyVal (k +:+ "=" +:+ v) "=" = (k, v).
Proof. intros Hk. unfold splitArgKeyVal, SplitN2.
  assert (cut "=" (k +:+ "=" +:+ v) = Some (k, v)) as -> by exact (cut_char equals k v Hk). done.
Qed.

(** Appending an argument does not change an earlier setting of the same key. *)
Lemma search_arg_app l e s d :
  search_arg (l ++ [e]) s d =
    if List.existsb (fun v => fst (splitArgKeyVal v d) =? s) l then search_arg l s d else search_arg [e] s d.
Proof.
  induction l as [|v l IH]; [done|]. cbn [app search_arg List.existsb].
  destruct (splitArgKeyVal v d) as [k x] eqn:E. simpl. case_bool_decide; [done|]. simpl. apply IH.
Qed.

Lemma search_arg_absent l s d :
  List.existsb (fun v => fst (splitArgKeyVal v d) =? s) l = false -> search_arg l s d = "".
Proof.
  induction l as [|v l IH]; [done|]. cbn [search_arg List.existsb].
  destruct (splitArgKeyVal v d) as [k x]. simpl. case_bool_decide; [done|]. apply IH.
Qed.

(** An appended argument shows only where its key was absent. *)
Lemma search_arg_append l k v s :
  Count_char equals k = O ->
  search_arg (l ++ [k +:+ "=" +:+ v]) s "=" = search_arg l s "="
  \/ (k = s /\ search_arg l s "=" = "" /\ search_arg (l ++ [k +:+ "=" +:+ v]) s "=" = v).
Proof.
  intros Hk. rewrite search_arg_app. destruct (List.existsb _ l) eqn:E; [by left|].
  apply search_arg_absent in E. rewrite E. cbn [search_arg]. rewrite splitArgKeyVal_pair by done.
  case_bool_decide; auto.
Qed.

Lemma getArgValue_strings arg s : s <> "" ->
  getArgValue arg s "=" = search_arg (convertInterfaceToStringSlice arg) s "=".
Proof.
  by destruct arg.
Qed.

Lemma appendToInterface_strings v elem : appendToInterface v elem = convertInterfaceToStringSlice v ++ [elem].
Proof. by destruct v. Qed.

(** The argument list [renderArgAndMount] produces extends the given one, first with the
    certificate directory and then with the secure port, each only when it was not set. *)
Lemma renderArgAndMount_args arg mount runtime port dir :
  let l := convertInterfaceToStringSlice arg in
  let get k := search_arg l k "=" in
  fst (renderArgAndMount arg mount runtime port dir) =
    l ++ (if (get TLSCertFileArgument =? "") && (get CertDirArgument =? "")
          then [CertDirArgument +:+ "=" +:+ Sprintf_s dir [runtime]] else [])
      ++ (if get SecurePortArgument =? "" then [SecurePortArgument +:+ "=" +:+ port] else []).
Proof.
  cbv zeta. unfold renderArgAndMount. cbv zeta.
  destruct (convertInterfaceToStringSlice arg) as [|a l] eqn:E.
  { simpl. rewrite appendToInterface_strings, E. done. }
  unfold getArgValue.
  destruct (search_arg (a :: l) TLSCertFileArgument "=" =? ""),
    (search_arg (a :: l) CertDirArgument "=" =? ""),
    (search_arg (a :: l) SecurePortArgument "=" =? "");
    cbn [andb negb fst]; rewrite ?bool_decide_eq_false_2 by done; cbn [negb fst];
    rewrite ?appendToInterface_strings, ?E; cbn [convertInterfaceToStringSlice];
    rewrite ?app_nil_r, <- ?app_assoc; done.
Qed.

(** What a later reader of the rendered list finds for the secure port, the certificate directory
    and the certificate file. *)
Lemma renderArgAndMount_get arg mount runtime port dir s :
  s <> CertDirArgument -> s <> SecurePortArgument -> s <> "" ->
  getArgValue (VStrings (fst (renderArgAndMount arg mount runtime port dir))) s "=" = getArgValue arg s "=".
Proof.
  intros H1 H2 H3. rewrite (getArgValue_strings arg) by done. rewrite renderArgAndMount_args. cbn [getArgValue].
  set (l := convertInterfaceToStringSlice arg). rewrite app_assoc.
  match goal with |- search_arg (?a ++ (if ?c then _ else _)) _ _ = _ => set (l1 := a); destruct c end.
  - destruct (search_arg_append l1 SecurePortArgument port s eq_refl) as [->|(? & _)]; [|done].
    unfold l1. destruct (_ && _); [|by rewrite app_nil_r].
    by destruct (search_arg_append l CertDirArgument (Sprintf_s dir [runtime]) s eq_refl) as [->|(? & _)].
  - rewrite app_nil_r. unfold l1. destruct (_ && _); [|by rewrite app_nil_r].
    by destruct (search_arg_append l CertDirArgument (Sprintf_s dir [runtime]) s eq_refl) as [->|(? & _)].
Qed.

Lemma lookup_PruneEmpty c k :
  PruneEmpty c !! k = match c !! k with Some v => if prunable v then None else Some v | None => None end.
Proof.
  unfold PruneEmpty. destruct (c !! k) as [v|] eqn:E.
  - destruct (prunable v) eqn:Ep.
    + apply map_lookup_filter_None. right. simpl. congruence.
    + apply map_lookup_filter_Some. done.
  - apply map_lookup_filter_None. by left.
Qed.
