(* ===== verification/Probe.v ===== *)
(** * Health probes ([pkg/capr/planner/probe.go]) *)

From S2P Require Import Prelude GoLib Errors Types External Capr PlanEntry Args.

(** Every probe starts after a second, times out after five, and fails after two failures. *)
Definition raw_probe (url cacert clientcert clientkey : string) : Probe :=
  mkProbe "" 1 5 1 2 (mkHTTPGetAction url false clientcert clientkey cacert).

Definition zeroProbe : Probe := mkProbe "" 0 0 0 0 (mkHTTPGetAction "" false "" "" "").

Definition allProbes : gmap string Probe := list_to_map [
  ("calico", raw_probe "http://%s:9099/liveness" "" "" "");
  ("etcd", raw_probe "http://%s:2381/health" "" "" "");
  ("kube-apiserver", raw_probe "https://%s:6443/readyz"
     "/var/lib/rancher/%s/server/tls/server-ca.crt"
     "/var/lib/rancher/%s/server/tls/client-kube-apiserver.crt"
     "/var/lib/rancher/%s/server/tls/client-kube-apiserver.key");
  ("kube-scheduler", raw_probe "https://%s:%s/healthz" "" "" "");
  ("kube-controller-manager", raw_probe "https://%s:%s/healthz" "" "" "");
  ("kubelet", raw_probe "http://%s:10248/healthz" "" "" "")
].

Definition replaceIfFormatSpecifier (str runtime : string) : string :=
  if negb (Contains str "%s") then str else Sprintf_s str [runtime].

Definition replaceRuntimeForProbes (probes : gmap string Probe) (runtime : string) : gmap string Probe :=
  (fun v => let h := pr_HTTPGetAction v in
            let h := set_h_CACert (replaceIfFormatSpecifier (h_CACert h) runtime) h in
            let h := set_h_ClientCert (replaceIfFormatSpecifier (h_ClientCert h) runtime) h in
            let h := set_h_ClientKey (replaceIfFormatSpecifier (h_ClientKey h) runtime) h in
            set_pr_HTTPGetAction h v) <$> probes.

Definition replaceURLForProbes (probes : gmap string Probe) (loopbackAddress : string) : gmap string Probe :=
  (fun v => let h := pr_HTTPGetAction v in
            set_pr_HTTPGetAction (set_h_URL (replaceIfFormatSpecifier (h_URL h) loopbackAddress) h) v) <$> probes.

Definition replaceCACertAndPortForProbes (probe : Probe) (cacert host port : string) : res Probe :=
  if cacert =? "" then Fail (errorString "cacert cannot be empty")
  else if port =? "" then Fail (errorString "port cannot be empty")
  else if host =? "" then Fail (errorString "address cannot be empty")
  else let h := set_h_CACert cacert (pr_HTTPGetAction probe) in
       Ret (set_pr_HTTPGetAction (set_h_URL (Sprintf_s (h_URL h) [host; port]) h) probe).

(** The port a component listens on and the certificate it serves, as read from its arguments. *)
Definition effective_port (arg : value) (defaultSecurePort : string) : string :=
  let securePort := getArgValue arg SecurePortArgument "=" in
  if securePort =? "" then defaultSecurePort else securePort.

Definition effective_cert (arg : value) (runtime defaultCertDir defaultCert : string) : string :=
  let TLSCert := getArgValue arg TLSCertFileArgument "=" in
  if TLSCert =? "" then
    let certDir := getArgValue arg CertDirArgument "=" in
    let certDir := if certDir =? "" then Sprintf_s defaultCertDir [runtime] else certDir in
    certDir +:+ "/" +:+ defaultCert
  else TLSCert.

Definition renderSecureProbe (arg : value) (rawProbe : Probe)
    (runtime loopbackAddress defaultSecurePort defaultCertDir defaultCert : string) : res Probe :=
  replaceCACertAndPortForProbes rawProbe (effective_cert arg runtime defaultCertDir defaultCert)
    loopbackAddress (effective_port arg defaultSecurePort).

Section probe.
Context `{External}.

(** Calico is the default network of rke2 and unknown to k3s. *)
Definition isCalico (controlPlane : RKEControlPlane) (runtime : string) : bool :=
  if runtime !=? RuntimeRKE2 then false
  else let cni := convert_ToString (config_get (sp_MachineGlobalConfig (cp_Spec controlPlane)) "cni") in
       (cni =? "") || (cni =? "calico") || (cni =? "calico+multus").

Definition probeNames (controlPlane : RKEControlPlane) (entry : planEntry) : list string :=
  let runtime := GetRuntime (sp_KubernetesVersion (cp_Spec controlPlane)) in
  (if (runtime !=? RuntimeK3S) && isEtcd entry then ["etcd"] else [])
  ++ (if isControlPlane entry then ["kube-apiserver"; "kube-controller-manager"; "kube-scheduler"] else [])
  ++ (if negb (IsOnlyEtcd entry && (runtime =? RuntimeK3S)) then ["kubelet"] else [])
  ++ (if negb (IsOnlyEtcd entry) && isCalico controlPlane runtime && negb (windows entry) then ["calico"] else []).

Definition generateProbes (controlPlane : RKEControlPlane) (entry : planEntry) (config : config)
  : res (gmap string Probe) :=
  let runtime := GetRuntime (sp_KubernetesVersion (cp_Spec controlPlane)) in
  let probes : gmap string Probe :=
    fold_left (fun m probeName => <[probeName := default zeroProbe (allProbes !! probeName)]> m)
      (probeNames controlPlane entry) ∅ in
  let probes := replaceRuntimeForProbes probes runtime in
  let loopbackAddress := GetLoopbackAddress controlPlane in
  let? probes :=
    (if isControlPlane entry then
       let? kcmProbe := renderSecureProbe (config_get config KubeControllerManagerArg)
         (default zeroProbe (probes !! "kube-controller-manager")) runtime loopbackAddress
         DefaultKubeControllerManagerDefaultSecurePort DefaultKubeControllerManagerCertDir
         DefaultKubeControllerManagerCert in
       let probes := <["kube-controller-manager" := kcmProbe]> probes in
       let? ksProbe := renderSecureProbe (config_get config KubeSchedulerArg)
         (default zeroProbe (probes !! "kube-scheduler")) runtime loopbackAddress
         DefaultKubeSchedulerDefaultSecurePort DefaultKubeSchedulerCertDir DefaultKubeSchedulerCert in
       Ret (<["kube-scheduler" := ksProbe]> probes)
     else Ret probes) in
  Ret (replaceURLForProbes probes loopbackAddress).
End probe.

(** ** Properties *)

Lemma effective_cert_nonempty arg runtime dir cert : effective_cert arg runtime dir cert <> "".
Proof.
  unfold effective_cert. case_bool_decide; [|done]. by destruct (if _ =? _ then _ else _).
Qed.

Lemma loopback_nonempty cp : GetLoopbackAddress cp <> "".
Proof. unfold GetLoopbackAddress. by repeat case_bool_decide. Qed.

Lemma renderSecureProbe_total arg p runtime host port dir cert :
  host <> "" -> port <> "" ->
  renderSecureProbe arg p runtime host port dir cert =
    Ret (set_pr_HTTPGetAction
           (set_h_URL (Sprintf_s (h_URL (pr_HTTPGetAction p)) [host; effective_port arg port])
              (set_h_CACert (effective_cert arg runtime dir cert) (pr_HTTPGetAction p))) p).
Proof.
  intros Hh Hp. unfold renderSecureProbe, replaceCACertAndPortForProbes.
  rewrite !bool_decide_eq_false_2; auto using effective_cert_nonempty.
  unfold effective_port. by case_bool_decide.
Qed.

Lemma dom_fold_insert {A} (f : string -> A) l (m : gmap string A) :
  dom (fold_left (fun m k => <[k := f k]> m) l m) = list_to_set l ∪ dom m.
Proof.
  revert m. induction l as [|k l IH]; intros m; simpl; [set_solver|]. rewrite IH. set_solver.
Qed.

(** [generateProbes] always succeeds, and the probes of a node are exactly those of the components
    its roles and runtime run: etcd only on rke2 etcd nodes, the three control-plane components on
    control-plane nodes, the kubelet everywhere but on etcd-only k3s nodes, and calico on rke2 nodes
    with that network that are neither etcd-only nor Windows. *)
Theorem generateProbes_spec `{External} cp e cfg :
  exists ps, generateProbes cp e cfg = Ret ps /\ dom ps = list_to_set (probeNames cp e).
Proof.
  unfold generateProbes. set (ps0 := replaceRuntimeForProbes _ _).
  assert (dom ps0 = list_to_set (probeNames cp e)) as Hd.
  { unfold ps0, replaceRuntimeForProbes. rewrite dom_fmap_L, dom_fold_insert. set_solver. }
  destruct (isControlPlane e) eqn:Ecp; simpl.
  - do 2 (rewrite renderSecureProbe_total by (apply loopback_nonempty || discriminate); cbn [res_bind]).
    eexists; split; [done|].
    unfold replaceURLForProbes. rewrite dom_fmap_L, !dom_insert_L, Hd.
    unfold probeNames. rewrite Ecp. set_solver.
  - eexists; split; [done|]. unfold replaceURLForProbes. by rewrite dom_fmap_L, Hd.
Qed.

(** The arguments the planner adds to a component never change what is probed: for every user
    setting of the component's arguments, the probe rendered from the final argument list is the
    probe rendered from the user's list, so the port and certificate probed are the ones the
    component was configured with. *)
Theorem renderSecureProbe_renderArgAndMount arg mount p runtime host port dir cert :
  renderSecureProbe (VStrings (fst (renderArgAndMount arg mount runtime port dir))) p runtime host port dir cert
  = renderSecureProbe arg p runtime host port dir cert.
Proof.
  set (arg' := VStrings _).
  assert (effective_port arg' port = effective_port arg port) as Hport.
  { unfold effective_port, arg'. rewrite (getArgValue_strings arg) by done. rewrite renderArgAndMount_args.
    cbn [getArgValue]. set (l := convertInterfaceToStringSlice arg). rewrite app_assoc.
    match goal with |- context [search_arg (?a ++ _) SecurePortArgument _] => set (l1 := a) end.
    assert (search_arg l1 SecurePortArgument "=" = search_arg l SecurePortArgument "=") as E1.
    { unfold l1. destruct (_ && _); [|by rewrite app_nil_r].
      by destruct (search_arg_append l CertDirArgument (Sprintf_s dir [runtime]) SecurePortArgument eq_refl) as [->|(? & _)]. }
    destruct (search_arg l SecurePortArgument "=" =? "") eqn:E2; [|by rewrite app_nil_r, E1, E2].
    destruct (search_arg_append l1 SecurePortArgument port SecurePortArgument eq_refl) as [->|(_ & _ & ->)].
    - by rewrite E1, E2.
    - cbv zeta. by destruct (port =? ""). }
  assert (effective_cert arg' runtime dir cert = effective_cert arg runtime dir cert) as Hcert.
  { unfold effective_cert. cbv zeta. unfold arg'.
    rewrite (renderArgAndMount_get arg mount runtime port dir TLSCertFileArgument) by done.
    case_bool_decide as Etls; [|done].
    f_equal. rewrite (getArgValue_strings arg) in Etls |- * by done.
    rewrite renderArgAndMount_args. cbn [getArgValue]. set (l := convertInterfaceToStringSlice arg) in *.
    rewrite Etls, (bool_decide_eq_true_2 ("" = "")), app_assoc by done. cbn [andb].
    match goal with |- context [search_arg (?a ++ _) CertDirArgument _] => set (l1 := a) end.
    assert (search_arg (l1 ++ (if search_arg l SecurePortArgument "=" =? "" then [SecurePortArgument +:+ "=" +:+ port] else []))
              CertDirArgument "=" = search_arg l1 CertDirArgument "=") as ->.
    { destruct (search_arg l SecurePortArgument "=" =? ""); [|by rewrite app_nil_r].
      by destruct (search_arg_append l1 SecurePortArgument port CertDirArgument eq_refl) as [->|(? & _)]. }
    unfold l1. destruct (search_arg l CertDirArgument "=" =? "") eqn:E; [|by rewrite app_nil_r, E].
    destruct (search_arg_append l CertDirArgument (Sprintf_s dir [runtime]) CertDirArgument eq_refl) as [->|(_ & _ & ->)].
    - by rewrite E.
    - cbv zeta. by destruct (Sprintf_s dir [runtime] =? ""). }
  unfold renderSecureProbe. by rewrite Hport, Hcert.
Qed.
