(* ===== verification/S3Args.v ===== *)
(** * Arguments for snapshots in S3 ([pkg/capr/planner/s3args.go]) *)

From S2P Require Import Prelude GoLib Codec Errors Types External Instances Capr PlanEntry Args.

Definition auditPolicyArg : string := "audit-policy-file".
Definition cloudProviderConfigArg : string := "cloud-provider-config".
Definition privateRegistryArg : string := "private-registry".
Definition flannelConfArg : string := "flannel-conf".

Definition fileParams : list string := [auditPolicyArg; cloudProviderConfigArg; privateRegistryArg; flannelConfArg].
Definition filePaths : gmap string string := {[ privateRegistryArg := "/etc/rancher/%s/registries.yaml" ]}.

(** [configFile] (config.go): where a file named in the configuration is placed. *)
Definition configFile (controlPlane : RKEControlPlane) (filename : string) : string :=
  let runtime := GetRuntime (sp_KubernetesVersion (cp_Spec controlPlane)) in
  let path := map_get filePaths filename in
  if path !=? "" then (if Contains path "%s" then Sprintf_s path [runtime] else path)
  else "/var/lib/rancher/" +:+ runtime +:+ "/etc/config-files/" +:+ filename.

Definition first (one two : string) : string := if one =? "" then two else one.

Definition S3Enabled (s3 : option ETCDSnapshotS3) : bool :=
  match s3 with
  | None => false
  | Some s3 => (s3_Bucket s3 !=? "") || (s3_Endpoint s3 !=? "") || (s3_Folder s3 !=? "")
               || (s3_CloudCredentialName s3 !=? "") || (s3_Region s3 !=? "")
  end.

Record s3Credential := mks3Credential {
  cred_AccessKey : string;
  cred_SecretKey : string;
  cred_Region : string;
  cred_Endpoint : string;
  cred_EndpointCA : string;
  cred_SkipSSLVerify : bool;
  cred_Bucket : string;
  cred_Folder : string
}.
Definition zeroCredential : s3Credential := mks3Credential "" "" "" "" "" false "" "".

(** A certificate that is not base64 yet is encoded. *)
Definition ensure_base64 (v : string) : string :=
  match base64_DecodeString v with Some _ => v | None => base64_EncodeToString v end.

Section s3.
Context `{P : Planner}.

(** [machineprovision.GetCloudCredentialSecret] *)
Definition GetCloudCredentialSecret (ns name : string) : res Secret :=
  let '(globalNS, globalName) := kv_Split name ":" in
  if (globalName !=? "") && (globalNS =? "cattle-global-data") then secretCache_Get globalNS globalName
  else secretCache_Get ns name.

(** The keys of a cloud credential are prefixed by the driver; the prefix is dropped. *)
Definition credential_data (order : list (string * string)) : gmap string string :=
  fold_left (fun data kv => <[snd (kv_RSplit (fst kv) "-") := snd kv]> data) order ∅.

Definition getS3Credential (namespace name : string) : res s3Credential :=
  if name =? "" then Ret zeroCredential
  else
    match GetCloudCredentialSecret namespace name with
    | Fail e => Fail (wrapError ("failed to lookup etcdSnapshotCloudCredentialName: " +:+ Error e) e)
    | Panic => Panic
    | Ret secret =>
        let data := map_get (credential_data (map_to_list (s_Data secret))) in
        Ret (mks3Credential (data "accessKey") (data "secretKey") (data "defaultRegion")
               (data "defaultEndpoint") (data "defaultEndpointCA")
               (data "defaultSkipSSLVerify" =? "true") (data "defaultBucket") (data "defaultFolder"))
    end.

Definition s3CAPath (controlPlane : RKEControlPlane) (ca : string) : string :=
  configFile controlPlane ("s3-endpoint-ca-" +:+ name_Hex ca 5 +:+ ".crt").

Definition generateEndpointCAFileIfPathMatches (controlPlane : RKEControlPlane)
    (existingEndpointCAPath endpointCA : string) : option File :=
  let filePath := s3CAPath controlPlane endpointCA in
  if existingEndpointCAPath =? filePath
  then Some (mkFile (ensure_base64 endpointCA) filePath "" false false)
  else None.

Definition opt_arg (cond : bool) (arg : string) : list string := if cond then [arg] else [].

(** The arguments and files for the certificate authority of the endpoint. *)
Definition endpointCA_args (s3 : ETCDSnapshotS3) (s3Cred : s3Credential) (controlPlane : RKEControlPlane)
    (prefix : string) : list string * list File :=
  let v := first (s3_EndpointCA s3) (cred_EndpointCA s3Cred) in
  if v =? "" then ([], [])
  else if (v =? s3_EndpointCA s3) && HasSuffix v ".crt" then
    let controlPlaneCA :=
      match sp_ETCD (cp_Spec controlPlane) with
      | Some etcd => match etcd_S3 etcd with Some s => s3_EndpointCA s | None => "" end
      | None => ""
      end in
    let possibleCA :=
      if cred_EndpointCA s3Cred !=? ""
      then generateEndpointCAFileIfPathMatches controlPlane v (cred_EndpointCA s3Cred)
      else if controlPlaneCA !=? ""
      then generateEndpointCAFileIfPathMatches controlPlane v controlPlaneCA
      else None in
    (["--" +:+ prefix +:+ "s3-endpoint-ca=" +:+ v], match possibleCA with Some f => [f] | None => [] end)
  else
    let v := ensure_base64 v in
    let filePath := s3CAPath controlPlane v in
    (["--" +:+ prefix +:+ "s3-endpoint-ca=" +:+ filePath], [mkFile v filePath "" false false]).

Definition ToArgs (s3 : option ETCDSnapshotS3) (controlPlane : RKEControlPlane) (prefix : string)
    (secretKeyInEnv : bool) : res (list string * list string * list File) :=
  match s3 with
  | None => Ret ([], [], [])
  | Some s =>
      if negb (S3Enabled s3) then Ret ([], [], [])
      else
        let controlPlaneS3 := match sp_ETCD (cp_Spec controlPlane) with Some etcd => etcd_S3 etcd | None => None end in
        let credName :=
          match controlPlaneS3 with
          | Some c => if s3_CloudCredentialName s =? "" then s3_CloudCredentialName c else s3_CloudCredentialName s
          | None => s3_CloudCredentialName s
          end in
        let? s3Cred := getS3Credential (cp_Namespace controlPlane) credName in
        let arg name v := "--" +:+ prefix +:+ "s3-" +:+ name +:+ "=" +:+ v in
        let region := first (s3_Region s) (cred_Region s3Cred) in
        let folder := first (s3_Folder s) (cred_Folder s3Cred) in
        let endpoint := first (s3_Endpoint s) (cred_Endpoint s3Cred) in
        let '(caArgs, files) := endpointCA_args s s3Cred controlPlane prefix in
        let args :=
          opt_arg ((s3_Bucket s !=? "") || (cred_Bucket s3Cred !=? "")) (arg "bucket" (first (s3_Bucket s) (cred_Bucket s3Cred)))
          ++ opt_arg (cred_AccessKey s3Cred !=? "") (arg "access-key" (cred_AccessKey s3Cred))
          ++ opt_arg ((cred_SecretKey s3Cred !=? "") && negb secretKeyInEnv) (arg "secret-key" (cred_SecretKey s3Cred))
          ++ opt_arg (region !=? "") (arg "region" region)
          ++ opt_arg (folder !=? "") (arg "folder" folder)
          ++ opt_arg (endpoint !=? "") (arg "endpoint" endpoint)
          ++ opt_arg (s3_SkipSSLVerify s || cred_SkipSSLVerify s3Cred) ("--" +:+ prefix +:+ "s3-skip-ssl-verify")
          ++ caArgs in
        let env := opt_arg ((cred_SecretKey s3Cred !=? "") && secretKeyInEnv)
                           ("AWS_SECRET_ACCESS_KEY=" +:+ cred_SecretKey s3Cred) in
        let args := match args with [] => [] | _ => args ++ ["--" +:+ prefix +:+ "s3"] end in
        Ret (args, env, files)
  end.
End s3.

(** ** Properties *)

Lemma elem_of_opt_arg c a x : x ∈ opt_arg c a <-> c = true /\ x = a.
Proof. unfold opt_arg. destruct c; set_solver. Qed.

Lemma ensure_base64_decodes v : is_Some (base64_DecodeString (ensure_base64 v)).
Proof.
  unfold ensure_base64. destruct (base64_DecodeString v) eqn:E; [by rewrite E|].
  rewrite base64_roundtrip. eauto.
Qed.

Section properties.
Context `{P : Planner}.

Lemma generateEndpointCAFile_decodes cp path ca f :
  generateEndpointCAFileIfPathMatches cp path ca = Some f -> is_Some (base64_DecodeString (f_Content f)).
Proof.
  unfold generateEndpointCAFileIfPathMatches. cbv zeta. case_bool_decide; [|done].
  intros [= <-]. apply ensure_base64_decodes.
Qed.

(** Every certificate file holds decodable base64, whether the credential held PEM or base64. *)
Lemma endpointCA_files s cred cp prefix f :
  f ∈ snd (endpointCA_args s cred cp prefix) -> is_Some (base64_DecodeString (f_Content f)).
Proof.
  unfold endpointCA_args. cbv zeta.
  destruct (_ =? ""); [intros Hf; inversion Hf|].
  destruct (_ && _); simpl.
  - match goal with |- context [match ?o with Some _ => _ | None => _ end] => set (ca := o) end.
    destruct ca as [g|] eqn:E; [|intros Hf; inversion Hf].
    intros ->%list_elem_of_singleton. unfold ca in E.
    destruct (cred_EndpointCA cred !=? ""); [by eapply generateEndpointCAFile_decodes|].
    match type of E with (if ?b then _ else _) = _ => destruct b end; [|done].
    by eapply generateEndpointCAFile_decodes.
  - intros ->%list_elem_of_singleton. apply ensure_base64_decodes.
Qed.

Lemma endpointCA_arg s cred cp prefix a :
  a ∈ fst (endpointCA_args s cred cp prefix) -> exists v, a = "--" +:+ prefix +:+ "s3-endpoint-ca=" +:+ v.
Proof.
  unfold endpointCA_args. cbv zeta.
  destruct (_ =? ""); [intros Hf; inversion Hf|].
  destruct (_ && _); simpl; intros ->%list_elem_of_singleton; eauto.
Qed.

(** The secret key is rendered exactly where it is asked for: with [secretKeyInEnv] no argument
    sets the secret key and the only environment variable is the key's; without it nothing is put
    into the environment.  Every certificate file delivered decodes as base64. *)
Theorem ToArgs_secret_key s3 cp prefix inEnv args env files :
  ToArgs s3 cp prefix inEnv = Ret (args, env, files) ->
  (inEnv = true -> forall a, a ∈ args -> HasPrefix a ("--" +:+ prefix +:+ "s3-secret-key") = false)
  /\ (forall v, v ∈ env -> inEnv = true /\ HasPrefix v "AWS_SECRET_ACCESS_KEY=" = true)
  /\ (forall f, f ∈ files -> is_Some (base64_DecodeString (f_Content f))).
Proof.
  unfold ToArgs. destruct s3 as [s|]; [|intros [= <- <- <-]; set_solver].
  destruct (negb _); [intros [= <- <- <-]; set_solver|]. cbv zeta.
  destruct (getS3Credential _ _) as [cred|e|]; [|done..]. cbn [res_bind].
  pose proof (endpointCA_files s cred cp prefix) as Hfiles.
  pose proof (endpointCA_arg s cred cp prefix) as Hca.
  destruct (endpointCA_args s cred cp prefix) as [caArgs fs] eqn:Eca. cbn [fst snd] in *.
  match goal with |- context [match ?l with [] => [] | _ :: _ => _ end] => set (args0 := l) end.
  intros [= <- <- <-]. split; [|split; [|done]].
  - intros -> a Ha.
    assert (a ∈ args0 \/ a = "--" +:+ prefix +:+ "s3") as [Ha'| ->] by (destruct args0; set_solver).
    + unfold args0 in Ha'. rewrite !elem_of_app, !elem_of_opt_arg in Ha'.
      repeat (destruct Ha' as [[Hc ->]|Ha']; [try (by rewrite andb_false_r in Hc); by apply HasPrefix_cancel2|]).
      apply Hca in Ha' as [v ->]. by apply HasPrefix_cancel2.
    + apply HasPrefix_cancel2. done.
  - intros v [[_ ->]%andb_true_iff ->]%elem_of_opt_arg. split; [done|]. exact (HasPrefix_app "AWS_SECRET_ACCESS_KEY=" (cred_SecretKey cred)).
Qed.
End properties.

Section witness.
#[local] Existing Instance demoExternal.
#[local] Instance demoP : Planner :=
  demoPlanner {[ ("fleet-default", "cc") := mkSecret "fleet-default" "cc" "Opaque" ∅ ∅
                   {[ "amazonec2credentialConfig-secretKey" := "k" ]} [] false ]} ∅ [] None.

Lemma ToArgs_secret_key_witness : exists args env files,
  ToArgs (Some (mkETCDSnapshotS3 "s3.example" "" false "b" "" "cc" "")) demoControlPlane "" true = Ret (args, env, files)
  /\ env = ["AWS_SECRET_ACCESS_KEY=k"]
  /\ forall a, a ∈ args -> HasPrefix a ("--" +:+ "" +:+ "s3-secret-key") = false.
Proof.
  destruct (ToArgs (Some (mkETCDSnapshotS3 "s3.example" "" false "b" "" "cc" "")) demoControlPlane "" true)
    as [[[args env] files]| |] eqn:E; [|vm_compute in E; discriminate..].
  exists args, env, files. split; [done|]. split; [vm_compute in E; by injection E as _ <- _|].
  exact (proj1 (ToArgs_secret_key _ _ _ _ _ _ _ E) eq_refl).
Defined.
End witness.
