(* ===== verification/Instructions.v ===== *)
(** * Instructions ([pkg/capr/planner/idempotent.go], [instructions.go])

    One-time and periodic instructions of a node plan, the wrapper that makes an instruction run
    once per attempt, and the restart stamp that decides whether a node restarts. *)

From S2P Require Import Prelude GoLib Codec Errors Types External Capr PlanEntry Args Store.

(** ** Idempotent instructions *)

Definition idempotentActionScript : string := script "
#!/bin/sh

currentHash=``
key=$1
targetHash=$2
hashedCmd=$3
cmd=$4
shift 4

dataRoot=`/var/lib/rancher/capr/idempotence/$key/$hashedCmd/$targetHash`
attemptFile=`$dataRoot/last-attempt`

currentAttempt=$(cat `$attemptFile` || echo `-1`)

if [ `$currentAttempt` != `$CATTLE_AGENT_ATTEMPT_NUMBER` ]; then
	mkdir -p `$dataRoot`
	echo `$CATTLE_AGENT_ATTEMPT_NUMBER` > `$attemptFile`
	exec `$cmd` `$@`
else
	echo `action has already been reconciled to the target hash $targetHash at attempt $currentAttempt`
fi
".

Definition idempotentActionScriptPath : string := "/var/lib/rancher/capr/idempotence/idempotent.sh".

Definition idempotentScriptFile : File :=
  mkFile (base64_EncodeToString idempotentActionScript) idempotentActionScriptPath "" true true.

Definition generateIdempotencyCleanupInstruction (key : string) : OneTimeInstruction :=
  if key =? "" then emptyInstruction
  else mkOneTimeInstruction "remove idempotency tracking" "" []
         ["-c"; "rm -rf /var/lib/rancher/capr/idempotence/" +:+ key] "/bin/sh" false.

Definition idempotentInstruction (identifier value command : string) (args env : list string) : OneTimeInstruction :=
  let hashedCommand := PlanHash command in
  let hashedValue := PlanHash value in
  mkOneTimeInstruction ("idempotent-" +:+ identifier +:+ "-" +:+ hashedValue +:+ "-" +:+ hashedCommand) "" env
    (["-x"; idempotentActionScriptPath; ToLower identifier; hashedValue; hashedCommand; command] ++ args)
    "/bin/sh" false.

Definition convertToIdempotentInstruction (identifier value : string) (instruction : OneTimeInstruction)
  : OneTimeInstruction :=
  set_i_SaveOutput (i_SaveOutput instruction)
    (set_i_Image (i_Image instruction)
       (idempotentInstruction identifier value (i_Command instruction) (i_Args instruction) (i_Env instruction))).

Definition idempotentRestartInstructions (identifier value runtimeUnit : string) : list OneTimeInstruction := [
  idempotentInstruction (identifier +:+ "-reset-failed") value "/bin/sh"
    ["-c"; "if [ $(systemctl is-failed " +:+ runtimeUnit +:+ ") = failed ]; then systemctl reset-failed "
           +:+ runtimeUnit +:+ "; fi"] [];
  idempotentInstruction (identifier +:+ "-restart") value "systemctl" ["restart"; runtimeUnit] []
].

(** ** Restart stamps *)

(** [restartStamp] (config.go): files marked dynamic do not contribute. *)
Definition restartStamp (nodePlan : NodePlan) (controlPlane : RKEControlPlane) (image : string) : string :=
  sha256_hex
    (Itoa (sp_ProvisionGeneration (cp_Spec controlPlane)) +:+ image
     +:+ String.concat "" (map (fun f => f_Path f +:+ f_Content f)
                               (List.filter (fun f => negb (f_Dynamic f)) (np_Files nodePlan)))
     +:+ Itoa (st_ConfigGeneration (cp_Status controlPlane))).

(** ** Install and periodic instructions *)

Definition cp_version (cp : RKEControlPlane) : string := sp_KubernetesVersion (cp_Spec cp).

Section instructions.
Context `{P : Planner}.

(** [getInstallerImage] (planner.go) *)
Definition getInstallerImage (controlPlane : RKEControlPlane) : string :=
  let runtime := GetRuntime (cp_version controlPlane) in
  let installerImage := SystemAgentImage +:+ runtime +:+ ":" +:+ ReplaceAll (cp_version controlPlane) "+" "-" in
  ImageResolver installerImage controlPlane.

Definition agent_env (cattleOS : string) (arg : EnvVar) : list string :=
  if ev_Value arg =? "" then []
  else if cattleOS =? WindowsMachineOS then ["$env:" +:+ ev_Name arg +:+ "=" +:+ quote (ev_Value arg)]
  else [ev_Name arg +:+ "=" +:+ ev_Value arg].

Definition generateInstallInstruction (controlPlane : RKEControlPlane) (entry : planEntry) (env : list string)
  : res OneTimeInstruction :=
  let image := getInstallerImage controlPlane in
  let? md := pe_md entry in
  let cattleOS := map_get (md_Labels md) CattleOSLabel in
  let env := env ++ flat_map (agent_env cattleOS) (sp_AgentEnvVars (cp_Spec controlPlane)) in
  let env := env ++
    (if isOnlyWorker entry then
       if cattleOS =? WindowsMachineOS
       then ["$env:INSTALL_" +:+ GetRuntimeEnv (cp_version controlPlane) +:+ "_EXEC=" +:+ quote "agent"]
       else ["INSTALL_" +:+ GetRuntimeEnv (cp_version controlPlane) +:+ "_EXEC=agent"]
     else []) in
  Ret (if cattleOS =? WindowsMachineOS
       then mkOneTimeInstruction "install" image env ["-File"; "run.ps1"] "powershell.exe" false
       else mkOneTimeInstruction "install" image env ["-c"; "run.sh"] "sh" false).

Definition addInstallInstructionWithRestartStamp (nodePlan : NodePlan) (controlPlane : RKEControlPlane)
    (entry : planEntry) : res NodePlan :=
  let stamp := restartStamp nodePlan controlPlane (getInstallerImage controlPlane) in
  let? md := pe_md entry in
  let restartStampEnv :=
    if map_get (md_Labels md) CattleOSLabel =? WindowsMachineOS
    then "$env:RESTART_STAMP=" +:+ quote stamp
    else "RESTART_STAMP=" +:+ stamp in
  let? instr := generateInstallInstruction controlPlane entry [restartStampEnv] in
  Ret (set_np_Instructions (np_Instructions nodePlan ++ [instr]) nodePlan).

Definition generateInstallInstructionWithSkipStart (controlPlane : RKEControlPlane) (entry : planEntry)
  : res OneTimeInstruction :=
  let? md := pe_md entry in
  let runtime := ToUpper (GetRuntime (cp_version controlPlane)) in
  let skipStartEnv :=
    if map_get (md_Labels md) CattleOSLabel =? WindowsMachineOS
    then "$env:INSTALL_" +:+ runtime +:+ "_SKIP_START=" +:+ quote "true"
    else "INSTALL_" +:+ runtime +:+ "_SKIP_START=true" in
  generateInstallInstruction controlPlane entry [skipStartEnv].

Definition periodic_sh (name cmd : string) : PeriodicInstruction :=
  mkPeriodicInstruction name "" [] ["-c"; cmd] "sh" 600.

Definition append_periodic (nodePlan : NodePlan) (l : list PeriodicInstruction) : NodePlan :=
  set_np_PeriodicInstructions (np_PeriodicInstructions nodePlan ++ l) nodePlan.

Definition addInitNodePeriodicInstruction (nodePlan : NodePlan) (controlPlane : RKEControlPlane) : NodePlan :=
  let runtime := GetRuntime (cp_version controlPlane) in
  append_periodic nodePlan [
    periodic_sh captureAddressInstructionName
      ("curl -f --retry 100 --retry-delay 5 --cacert /var/lib/rancher/" +:+ runtime
       +:+ "/server/tls/server-ca.crt https://localhost:" +:+ Itoa (GetRuntimeSupervisorPort (cp_version controlPlane))
       +:+ "/db/info | grep 'clientURLs'");
    periodic_sh etcdNameInstructionName ("cat /var/lib/rancher/" +:+ runtime +:+ "/server/db/etcd/name")
  ].

Definition addEtcdSnapshotListLocalPeriodicInstruction (nodePlan : NodePlan) (controlPlane : RKEControlPlane) : NodePlan :=
  append_periodic nodePlan [
    periodic_sh "etcd-snapshot-list-local"
      (GetRuntime (cp_version controlPlane) +:+ " etcd-snapshot list --etcd-s3=false 2>/dev/null")].

Definition addEtcdSnapshotListS3PeriodicInstruction (nodePlan : NodePlan) (controlPlane : RKEControlPlane) : NodePlan :=
  append_periodic nodePlan [
    periodic_sh "etcd-snapshot-list-s3"
      (GetRuntime (cp_version controlPlane) +:+ " etcd-snapshot list --etcd-s3 2>/dev/null")].
End instructions.
