(* ===== verification/Config.v ===== *)
(** * The distribution configuration ([pkg/capr/planner/config.go])

    The configuration file of a node is assembled from defaults, user configuration filtered by
    what the release knows, etcd and S3 settings, role settings, tokens, addresses, labels and
    taints; files referred to by the configuration are delivered beside it.  The file starts with the
    registries ([registry.go], [defaultplan.go]). *)

From S2P Require Import Prelude GoLib Codec Errors Types External Capr PlanEntry Args Probe S3Args Instructions.

(** * Registries ([pkg/capr/planner/registry.go], [defaultplan.go])

    The registries file of the container runtime with the certificate files it refers to, and the
    common part of every node plan. *)

Record registries := mkRegistries {
  registriesFileRaw : string;
  certificateFiles : list File
}.

Definition toFile (runtime path content : string) : File :=
  mkFile (base64_EncodeToString content) ("/var/lib/rancher/" +:+ runtime +:+ "/etc/" +:+ path) "" false false.

Definition SecretTypeTLS : string := "kubernetes.io/tls".
Definition SecretTypeBasicAuth : string := "kubernetes.io/basic-auth".
Definition AuthConfigSecretType : string := "rke.cattle.io/auth-config".

Section registry.
Context `{P : Planner}.

(** The path of a certificate file of a registry. *)
Definition registry_path (registryName leaf : string) : string := "tls/registries/" +:+ registryName +:+ leaf.

Definition tls_files (runtime registryName : string) (secret : Secret) : option File * option File :=
  let data := map_get (s_Data secret) in
  ((if data "tls.crt" !=? "" then Some (toFile runtime (registry_path registryName "/tls.crt") (data "tls.crt")) else None),
   (if data "tls.key" !=? "" then Some (toFile runtime (registry_path registryName "/tls.key") (data "tls.key")) else None)).

Definition path_of (f : option File) : string := match f with Some f => f_Path f | None => "" end.

(** One turn of the loop of [renderRegistries]. *)
Definition render_registry (runtime namespace : string) (kv : string * RegistryConfig)
  : res (string * registryConfig * list File) :=
  let '(registryName, config) := kv in
  let? tls :=
    (if rg_TLSSecretName config !=? "" then
       let? secret := secretCache_Get namespace (rg_TLSSecretName config) in
       if s_Type secret !=? SecretTypeTLS
       then Fail (errorString ("secret [" +:+ rg_TLSSecretName config +:+ "] must be of type [" +:+ SecretTypeTLS +:+ "]"))
       else Ret (tls_files runtime registryName secret)
     else Ret (None, None)) in
  let '(cert, key) := tls in
  let ca := if rg_CABundle config !=? ""
            then Some (toFile runtime (registry_path registryName "/ca.crt") (rg_CABundle config)) else None in
  let tlsConf :=
    if rg_InsecureSkipVerify config || (rg_TLSSecretName config !=? "") || (rg_CABundle config !=? "")
    then Some (mkTLSConfig (path_of ca) (path_of cert) (path_of key) (rg_InsecureSkipVerify config)) else None in
  let? auth :=
    (if rg_AuthConfigSecretName config !=? "" then
       let? secret := secretCache_Get namespace (rg_AuthConfigSecretName config) in
       if (s_Type secret !=? AuthConfigSecretType) && (s_Type secret !=? SecretTypeBasicAuth)
       then Fail (errorString ("secret [" +:+ rg_AuthConfigSecretName config +:+ "] must be of type ["
                   +:+ AuthConfigSecretType +:+ "] or [" +:+ SecretTypeBasicAuth +:+ "]"))
       else let data := map_get (s_Data secret) in
            Ret (Some (mkAuthConfig (data "username") (data "password") (data "auth") (data "identityToken")))
     else Ret None) in
  Ret (registryName, mkRegistryConfig auth tlsConf, omap id [cert; key; ca]).

(** [renderRegistries] for a given iteration order of the map of configurations. *)
Definition renderRegistries_from (order : list (string * RegistryConfig)) (runtime namespace : string)
    (registry : Registry) : res registries :=
  let? rendered := res_map (render_registry runtime namespace) order in
  let configs := list_to_map (map fst rendered) in
  let? raw := json_Marshal_Registries (reg_Mirrors registry) configs in
  Ret (mkRegistries raw (sort_by f_Path (flat_map snd rendered))).

Definition renderRegistries (runtime namespace : string) (registry : Registry) : res registries :=
  renderRegistries_from (map_to_list (reg_Configs registry)) runtime namespace registry.

(** [commonNodePlan] *)
Definition commonNodePlan (controlPlane : RKEControlPlane) (np : NodePlan) : res (NodePlan * registries) :=
  match sp_Registries (cp_Spec controlPlane) with
  | None => Ret (np, mkRegistries "" [])
  | Some registry =>
      let? reg := renderRegistries (GetRuntime (sp_KubernetesVersion (cp_Spec controlPlane)))
                    (cp_Namespace controlPlane) registry in
      let file := mkFile (base64_EncodeToString (registriesFileRaw reg)) "/etc/rancher/agent/registries.yaml" "" true false in
      Ret (set_np_Files (np_Files np ++ file :: certificateFiles reg) np, reg)
  end.
End registry.

Definition cfg_set (k : string) (v : value) (c : config) : config := <[k := v]> c.

(** [image.getPrivateRepoURL]: the global configuration first, then the selector-less ones. *)
Fixpoint selector_registry (l : list RKESystemConfig) : option string :=
  match l with
  | [] => None
  | c :: rest =>
      match sys_MachineLabelSelector c, sys_Config c !! "system-default-registry" with
      | None, Some (VString registry) => Some registry
      | _, _ => selector_registry rest
      end
  end.

Section config.
Context `{P : Planner}.

Definition GetPrivateRepoURLFromControlPlane (cp : RKEControlPlane) : string :=
  match sp_MachineGlobalConfig (cp_Spec cp) !! "system-default-registry" with
  | Some (VString v) => v
  | _ => match selector_registry (sp_MachineSelectorConfig (cp_Spec cp)) with
         | Some registry => registry
         | None => SystemDefaultRegistry
         end
  end.

(** ** Parts of the configuration *)

(** An S3 argument [--key=value] becomes an entry; one without value a flag. *)
Definition s3_entry (c : config) (arg : string) : config :=
  let '(k, v) := kv_Split arg "=" in
  let k := TrimPrefix k "--" in
  cfg_set k (if v =? "" then VBool true else VString v) c.

Definition addETCD (c : config) (controlPlane : RKEControlPlane) (entry : planEntry) (renderS3 : bool)
  : res (config * list File) :=
  match sp_ETCD (cp_Spec controlPlane) with
  | Some etcd =>
      if negb (isEtcd entry) then Ret (c, [])
      else
        let c := if etcd_DisableSnapshots etcd then cfg_set "etcd-disable-snapshots" (VBool true) c else c in
        let c := if (0 <? etcd_SnapshotRetention etcd)%Z
                 then cfg_set "etcd-snapshot-retention" (VInt (etcd_SnapshotRetention etcd)) c else c in
        let c := if etcd_SnapshotScheduleCron etcd !=? ""
                 then cfg_set "etcd-snapshot-schedule-cron" (VString (etcd_SnapshotScheduleCron etcd)) c else c in
        if renderS3 then
          let? ' (args, _, files) := ToArgs (etcd_S3 etcd) controlPlane "etcd-" false in
          Ret (fold_left s3_entry args c, files)
        else Ret (c, [])
  | None => Ret (c, [])
  end.

Definition addDefaults (c : config) (controlPlane : RKEControlPlane) : config :=
  if GetRuntime (cp_version controlPlane) =? RuntimeRKE2 then cfg_set "cni" (VString "calico") c else c.

Definition overlay (c data : config) : config := data ∪ c.

(** A nil selector matches every machine; a malformed one is an error. *)
Fixpoint selector_configs (c : config) (labels : gmap string string) (l : list RKESystemConfig) : res config :=
  match l with
  | [] => Ret c
  | opts :: rest =>
      let? matches := LabelSelector_Matches (sys_MachineLabelSelector opts) labels in
      selector_configs
        (if bool_decide (sys_MachineLabelSelector opts = None) || matches then overlay c (sys_Config opts) else c)
        labels rest
  end.

Definition addUserConfig (c : config) (controlPlane : RKEControlPlane) (entry : planEntry) : res config :=
  let c := overlay c (sp_MachineGlobalConfig (cp_Spec controlPlane)) in
  let? c := selector_configs c (m_Labels (pe_Machine entry)) (sp_MachineSelectorConfig (cp_Spec controlPlane)) in
  Ret (filterConfigData c controlPlane entry).

(** Arguments and mounts of one control-plane component. *)
Definition component_config (runtime argKey mountKey port dir : string) (c : config) : config :=
  let '(certDirArg, certDirMount) := renderArgAndMount (config_get c argKey) (config_get c mountKey) runtime port dir in
  let c := cfg_set argKey (VStrings certDirArg) c in
  if runtime =? RuntimeRKE2 then cfg_set mountKey (VStrings certDirMount) c else c.

Definition addRoleConfig (c : config) (controlPlane : RKEControlPlane) (entry : planEntry) (joinServer : string)
  : res (config * string) :=
  let runtime := GetRuntime (cp_version controlPlane) in
  let? js :=
    (if isInitNode entry then Ret (Some "-")
     else if joinServer =? "" then let? md := pe_md entry in Ret (md_Annotations md !! JoinedToAnnotation)
     else Ret (Some joinServer)) in
  match js with
  | None => Ret (c, JoinServerImplausible)
  | Some joinServer =>
      let c := if isInitNode entry && (runtime =? RuntimeK3S) then cfg_set "cluster-init" (VBool true) c else c in
      let c := if (joinServer !=? "") && (joinServer !=? "-") then cfg_set "server" (VString joinServer) c else c in
      let c := if IsOnlyEtcd entry
               then cfg_set "disable-controller-manager" (VBool true)
                      (cfg_set "disable-apiserver" (VBool true) (cfg_set "disable-scheduler" (VBool true) c))
               else if isOnlyControlPlane entry then cfg_set "disable-etcd" (VBool true) c else c in
      let pr := GetPrivateRepoURLFromControlPlane controlPlane in
      let c := if (pr !=? "") && negb (isOnlyWorker entry) then cfg_set "system-default-registry" (VString pr) c else c in
      let c := if isControlPlane entry
               then component_config runtime KubeSchedulerArg KubeSchedulerExtraMount
                      DefaultKubeSchedulerDefaultSecurePort DefaultKubeSchedulerCertDir
                      (component_config runtime KubeControllerManagerArg KubeControllerManagerExtraMount
                         DefaultKubeControllerManagerDefaultSecurePort DefaultKubeControllerManagerCertDir c)
               else c in
      let? md := pe_md entry in
      let nodeName := map_get (md_Labels md) NodeNameLabel in
      let c := if nodeName !=? "" then cfg_set "node-name" (VString nodeName) c else c in
      Ret (c, joinServer)
  end.

Definition authnWebhookFileName (runtime : string) : string :=
  "/var/lib/rancher/" +:+ runtime +:+ "/kube-api-authn-webhook.yaml".

Definition lines (l : list string) : string := Join l newline.

Definition AuthnWebhook (address : string) : string := lines [
  ""; "apiVersion: v1"; "kind: Config"; "clusters:"; "- name: Default"; "  cluster:";
  "    insecure-skip-tls-verify: true"; "    server: http://" +:+ address +:+ ":6440/v1/authenticate";
  "users:"; "- name: Default"; "  user:"; "    insecure-skip-tls-verify: true";
  "current-context: webhook"; "contexts:"; "- name: webhook"; "  context:";
  "    user: Default"; "    cluster: Default"; ""].

Definition addLocalClusterAuthenticationEndpointConfig (c : config) (controlPlane : RKEControlPlane)
    (entry : planEntry) : config :=
  if isOnlyWorker entry || negb (sp_LocalClusterAuthEndpointEnabled (cp_Spec controlPlane)) then c
  else
    let authFile := authnWebhookFileName (GetRuntime (cp_version controlPlane)) in
    cfg_set "kube-apiserver-arg"
      (VStrings (convert_ToStringSlice (config_get c "kube-apiserver-arg")
                 ++ ["authentication-token-webhook-config-file=" +:+ authFile])) c.

Definition addLocalClusterAuthenticationEndpointFile (nodePlan : NodePlan) (controlPlane : RKEControlPlane)
    (entry : planEntry) : NodePlan :=
  if isOnlyWorker entry || negb (sp_LocalClusterAuthEndpointEnabled (cp_Spec controlPlane)) then nodePlan
  else
    let authFile := authnWebhookFileName (GetRuntime (cp_version controlPlane)) in
    let file := mkFile (base64_EncodeToString (AuthnWebhook (GetLoopbackAddress controlPlane))) authFile "" false false in
    set_np_Files (np_Files nodePlan ++ [file]) nodePlan.

(** [addOtherFiles] never fails. *)
Definition addOtherFiles (nodePlan : NodePlan) (controlPlane : RKEControlPlane) (entry : planEntry) : res NodePlan :=
  Ret (addLocalClusterAuthenticationEndpointFile nodePlan controlPlane entry).

(** Worker-only nodes get the agent token as their token, servers get both. *)
Definition addToken (c : config) (entry : planEntry) (tokensSecret : TokensSecret) : config :=
  if ts_ServerToken tokensSecret =? "" then c
  else if isOnlyWorker entry then cfg_set "token" (VString (ts_AgentToken tokensSecret)) c
  else cfg_set "agent-token" (VString (ts_AgentToken tokensSecret))
         (cfg_set "token" (VString (ts_ServerToken tokensSecret)) c).

(** The addresses: annotations first, then what the machine driver reported. *)
Definition driver_addresses (entry : planEntry) (ipAddress internalIPAddress : string) : res (string * string) :=
  let machine := pe_Machine entry in
  let id := m_Namespace machine +:+ "/" +:+ m_Name machine in
  let ref := m_InfrastructureRef machine in
  if (ref_APIVersion ref =? RKEMachineAPIVersion) && ((internalIPAddress =? "") || (ipAddress =? "")) then
    match secretCache_Get (ref_Namespace ref) (MachineStateSecretName (ref_Name ref)) with
    | Panic => Panic
    | Fail e =>
        if IsNotFound e then Fail (errIgnore ("waiting for machine " +:+ id +:+ " driver config to be saved"))
        else Fail (wrapError ("error getting machine state secret for machine " +:+ id +:+ ": " +:+ Error e) e)
    | Ret secret =>
        let extracted := map_get (s_Data secret) "extractedConfig" in
        if extracted =? "" then Fail (errIgnore ("waiting for machine " +:+ id +:+ " driver config to be saved"))
        else
          match ExtractConfigJSON (base64_EncodeToString extracted) with
          | Panic => Panic
          | Fail e => Fail (wrapError ("error getting machine state JSON for machine " +:+ id +:+ ": " +:+ Error e) e)
          | Ret [] => Fail (errorString ("error getting machine state JSON for machine " +:+ id +:+ ": %!w(<nil>)"))
          | Ret driverConfig =>
              Ret ((if ipAddress =? "" then convert_ToString (values_GetValueN driverConfig ["Driver"; "IPAddress"]) else ipAddress),
                   (if internalIPAddress =? "" then convert_ToString (values_GetValueN driverConfig ["Driver"; "PrivateIPAddress"])
                    else internalIPAddress))
          end
    end
  else Ret (ipAddress, internalIPAddress).

Definition append_strings (k v : string) (c : config) : config :=
  cfg_set k (VStrings (convert_ToStringSlice (config_get c k) ++ [v])) c.

Definition addAddresses (c : config) (entry : planEntry) : res config :=
  let? md := pe_md entry in
  let addressProvided := map_get (md_Annotations md) AddressAnnotation !=? "" in
  let? ' (ipAddress, internalIPAddress) :=
    driver_addresses entry (map_get (md_Annotations md) AddressAnnotation)
      (map_get (md_Annotations md) InternalAddressAnnotation) in
  let setNodeExternalIP := (ipAddress !=? "") && (internalIPAddress !=? "") && (ipAddress !=? internalIPAddress) in
  let c := if setNodeExternalIP && negb (isOnlyWorker entry)
           then append_strings "tls-san" ipAddress (cfg_set "advertise-address" (VString internalIPAddress) c) else c in
  let c := if internalIPAddress !=? "" then append_strings "node-ip" internalIPAddress c else c in
  let c := if (convert_ToString (config_get c "cloud-provider-name") =? "") && (addressProvided || setNodeExternalIP)
           then append_strings "node-external-ip" ipAddress c else c in
  Ret c.

Definition addLabels (c : config) (entry : planEntry) : res config :=
  let? md := pe_md entry in
  let data := map_get (md_Annotations md) LabelsAnnotation in
  let? labelMap := (if data !=? "" then json_Unmarshal_StringMap data else Ret ∅) in
  let labels := map (fun kv => fst kv +:+ "=" +:+ snd kv) (map_to_list labelMap)
                ++ [MachineUIDLabel +:+ "=" +:+ m_UID (pe_Machine entry)] in
  Ret (cfg_set "node-label" (VStrings (sort_Strings labels)) c).

Definition addTaints (c : config) (entry : planEntry) (cp : RKEControlPlane) : res config :=
  let? taints := getTaints entry cp in
  let taintString := map Taint_ToString (List.filter (fun t => t_Key t !=? "") taints) in
  Ret (cfg_set "node-taint" (VStrings (sort_Strings taintString)) c).

(** ** Authorised objects *)

Definition AuthorizedSecretAnnotation : string := "v2prov-secret-authorized-for-cluster".

(** [clusterObjectAuthorized] on the annotations of an object; [None] is a nil object. *)
Definition clusterObjectAuthorized (obj : option (gmap string string)) (annotation clusterName : string) : bool * bool :=
  match obj with
  | None => (false, false)
  | Some annotations =>
      if (annotation =? "") || (clusterName =? "") then (false, false)
      else
        let authorizedClusters := Split (map_get annotations annotation) "," in
        let annotationValueFound := (0 <? length authorizedClusters)%nat in
        (List.existsb (fun c => clusterName =? c) authorizedClusters, annotationValueFound)
  end.

Definition retrieveClusterAuthorizedSecret (secret : Secret) (clusterName : string) : res string :=
  let uri := "secret://" +:+ s_Namespace secret +:+ ":" +:+ s_Name secret in
  let '(authorized, ownerFound) := clusterObjectAuthorized (Some (s_Annotations secret)) AuthorizedSecretAnnotation clusterName in
  if negb ownerFound || negb authorized then
    Fail (errorString ("the secret '" +:+ uri +:+ "' provided within the cloud-provider-config does not belong to cluster '"
                       +:+ clusterName +:+ "'"))
  else
    match s_Data secret !! "credential" with
    | Some secretContent => Ret secretContent
    | None => Fail (errorString ("the cloud-provider-config specified a secret, but no config could be found within the secret '"
                                 +:+ uri +:+ "'"))
    end.

(** [checkForSecretFormat]: [None] when the value is not of the form [secret://namespace:name]. *)
Definition checkForSecretFormat (secretFieldName configValue : string) : res (option (string * string)) :=
  if HasPrefix configValue "secret://" then
    match Split (ReplaceAll configValue "secret://" "") ":" with
    | [ns; name] =>
        if (ns =? "") || (name =? "")
        then Fail (errorString ("provided value for " +:+ secretFieldName
                     +:+ " secret is malformed, must be of the format secret://namespace:name"))
        else Ret (Some (ns, name))
    | _ => Fail (errorString ("provided value for " +:+ secretFieldName
                   +:+ " secret is malformed, must be of the format secret://namespace:name"))
    end
  else Ret None.
End config.
