(* ===== verification/DesiredPlan.v ===== *)
(** * The desired plan of a node ([config.go], [manifests.go], [agent.go], [planner.go])

    Files delivered to a node, the manifests of control-plane nodes, and the assembly of the plan
    the planner wants a machine to apply. *)

From S2P Require Import Prelude GoLib Codec Errors Types External Instances Capr PlanEntry Store Drain Args Probe S3Args Instructions Config.

Section desired.
Context `{P : Planner}.

(** ** Files taken from secrets and config maps *)

Definition render_item (kind : string) (obj : Secret) (src : K8sObjectFileSource) (v : KeyToPath) : res File :=
  let content := map_get (s_Data obj) (kp_Key v) in
  if (kp_Hash v !=? "") && (kp_Hash v !=? base64_EncodeToString (string_of_bytes (sha256_Sum256 content)))
  then Fail (errorString (kind +:+ " " +:+ s_Name obj +:+ " does not cotain the expected content"))
  else Ret (mkFile (base64_EncodeToString content) (kp_Path v)
              (if kp_Permissions v !=? "" then kp_Permissions v else fs_DefaultPermissions src)
              (kp_Dynamic v) false).

Definition render_source (kind : string) (get : string -> string -> res Secret) (controlPlane : RKEControlPlane)
    (src : K8sObjectFileSource) : res (list File) :=
  if fs_Name src =? "" then Ret []
  else
    let id := cp_Namespace controlPlane +:+ "/" +:+ fs_Name src in
    match get (cp_Namespace controlPlane) (fs_Name src) with
    | Panic => Panic
    | Fail e => Fail (errorString ("error retrieving " +:+ kind +:+ " " +:+ id +:+ " while rendering files: " +:+ Error e))
    | Ret obj =>
        let '(authorized, found) := clusterObjectAuthorized (Some (s_Annotations obj)) AuthorizedObjectAnnotation
                                      (cp_Name controlPlane) in
        if authorized && found then res_map (render_item kind obj src) (fs_Items src)
        else Fail (errorString ("error rendering files: cluster " +:+ cp_Namespace controlPlane +:+ "/" +:+ cp_Name controlPlane
                     +:+ " was not authorized to access " +:+ kind +:+ " " +:+ id))
    end.

Definition render_file_source (controlPlane : RKEControlPlane) (fs : ProvisioningFileSource) : res (list File) :=
  if (fs_Name (pf_Secret fs) !=? "") && (fs_Name (pf_ConfigMap fs) !=? "") then
    Fail (errorString ("secret " +:+ cp_Namespace controlPlane +:+ "/" +:+ fs_Name (pf_Secret fs) +:+ " and configmap "
      +:+ cp_Namespace controlPlane +:+ "/" +:+ fs_Name (pf_ConfigMap fs)
      +:+ " cannot both be defined at the same time for files, use separate entries"))
  else
    let? a := render_source "secret" secretCache_Get controlPlane (pf_Secret fs) in
    let? b := render_source "configmap" configMapCache_Get controlPlane (pf_ConfigMap fs) in
    Ret (a ++ b).

Definition render_selected (controlPlane : RKEControlPlane) (entry : planEntry) (msf : RKEProvisioningFiles)
  : res (list File) :=
  let? matches := LabelSelector_Matches (rpf_MachineLabelSelector msf) (m_Labels (pe_Machine entry)) in
  if bool_decide (is_Some (rpf_MachineLabelSelector msf)) && negb matches then Ret []
  else let? files := res_map (render_file_source controlPlane) (rpf_FileSources msf) in Ret (concat files).

Definition renderFiles (controlPlane : RKEControlPlane) (entry : planEntry) : res (list File) :=
  let? files := res_map (render_selected controlPlane entry) (sp_MachineSelectorFiles (cp_Spec controlPlane)) in
  Ret (concat files).

(** ** The configuration file *)

(** One turn of the loop over [fileParams]: the content moves to a file and the configuration
    names its path. *)
Definition file_param (controlPlane : RKEControlPlane) (reg : registries) (acc : config * list File) (fileParam : string)
  : res (config * list File) :=
  let '(c, files) := acc in
  let content := if fileParam =? privateRegistryArg then Some (VString (registriesFileRaw reg)) else c !! fileParam in
  match content with
  | None => Ret acc
  | Some content =>
      let? data :=
        (if fileParam =? cloudProviderConfigArg then
           let? fmt := checkForSecretFormat cloudProviderConfigArg (convert_ToString content) in
           match fmt with
           | Some (namespace, name) =>
               let? secret := secretCache_Get namespace name in
               retrieveClusterAuthorizedSecret secret (cp_Name controlPlane)
           | None => Ret (convert_ToString content)
           end
         else Ret (convert_ToString content)) in
      let filePath := configFile controlPlane fileParam in
      Ret (cfg_set fileParam (VString filePath) c,
           files ++ [mkFile (base64_EncodeToString data) filePath "" false false])
  end.

Fixpoint res_fold {A B} (f : B -> A -> res B) (l : list A) (acc : B) : res B :=
  match l with [] => Ret acc | x :: l' => let? acc := f acc x in res_fold f l' acc end.

Definition ConfigYamlFileName (runtime : string) : string :=
  "/etc/rancher/" +:+ runtime +:+ "/config.yaml.d/50-rancher.yaml".

Definition addConfigFile (nodePlan : NodePlan) (controlPlane : RKEControlPlane) (entry : planEntry)
    (tokensSecret : TokensSecret) (joinServer : string) (reg : registries) (renderS3 : bool)
  : res (NodePlan * config * string) :=
  let c := addDefaults ∅ controlPlane in
  let? c := addUserConfig c controlPlane entry in
  let? ' (c, s3Files) := addETCD c controlPlane entry renderS3 in
  let? ' (c, joinedServer) := addRoleConfig c controlPlane entry joinServer in
  if joinedServer =? JoinServerImplausible then Fail (errorString "implausible joined server for entry")
  else
    let c := addLocalClusterAuthenticationEndpointConfig c controlPlane entry in
    let c := addToken c entry tokensSecret in
    let? c := addAddresses c entry in
    let? c := addLabels c entry in
    let? c := addTaints c entry controlPlane in
    let? ' (c, paramFiles) := res_fold (file_param controlPlane reg) fileParams (c, []) in
    let? files := renderFiles controlPlane entry in
    let c := PruneEmpty c in
    let? configData := json_MarshalIndent_Config c in
    let configFile := mkFile (base64_EncodeToString configData)
                        (ConfigYamlFileName (GetRuntime (cp_version controlPlane))) "" false false in
    Ret (set_np_Files (np_Files nodePlan ++ s3Files ++ paramFiles ++ files ++ [configFile]) nodePlan, c, joinedServer).

(** ** Manifests *)

Definition manifest_path (runtime name : string) : string :=
  "/var/lib/rancher/" +:+ runtime +:+ "/server/manifests/rancher/" +:+ name.

Definition generateClusterAgentManifest (controlPlane : RKEControlPlane) (entry : planEntry) : res string :=
  let cluster := sp_ManagementClusterName (cp_Spec controlPlane) in
  if cluster =? "local" then Ret ""
  else
    let? tokens := clusterRegistrationTokens cluster in
    match sort_by fst tokens with
    | [] => Fail (errorString "no cluster registration token found")
    | (_, token) :: _ =>
        let? _ := managementClusters_Get cluster in
        let? taints := getTaints entry controlPlane in
        systemtemplate_ForCluster cluster token taints
    end.

Definition getClusterAgentManifestFile (controlPlane : RKEControlPlane) (runtime : string) (entry : planEntry) : res File :=
  let? data := generateClusterAgentManifest controlPlane entry in
  Ret (mkFile (base64_EncodeToString data) (manifest_path runtime "cluster-agent.yaml") "" true true).

Definition EtcdSnapshotExtraMetadataConfigMap (runtime namespace key v : string) : string := lines [
  ""; "apiVersion: v1"; "kind: ConfigMap"; "metadata:";
  "  name: " +:+ runtime +:+ "-etcd-snapshot-extra-metadata"; "  namespace: " +:+ namespace;
  "data:"; "  " +:+ key +:+ ": " +:+ v; ""].

Definition getEtcdSnapshotExtraMetadata (controlPlane : RKEControlPlane) (runtime : string) : option File :=
  match cp_Annotations controlPlane !! ClusterSpecAnnotation with
  | Some v =>
      let cm := EtcdSnapshotExtraMetadataConfigMap runtime "kube-system" "provisioning-cluster-spec" v in
      Some (mkFile (base64_EncodeToString cm) (manifest_path runtime (runtime +:+ "-etcd-snapshot-extra-metadata.yaml")) "" true true)
  | None => None
  end.

Definition getAddons (controlPlane : RKEControlPlane) (runtime : string) : File :=
  mkFile (base64_EncodeToString (sp_AdditionalManifest (cp_Spec controlPlane))) (manifest_path runtime "addons.yaml") "" true false.

Definition getControlPlaneManifests (controlPlane : RKEControlPlane) (entry : planEntry) : res (list File) :=
  if negb (isControlPlane entry) then Ret []
  else
    let runtime := GetRuntime (cp_version controlPlane) in
    let? clusterAgent := getClusterAgentManifestFile controlPlane runtime entry in
    let snapshotMetadata := match getEtcdSnapshotExtraMetadata controlPlane runtime with Some f => [f] | None => [] end in
    Ret (clusterAgent :: snapshotMetadata ++ [getAddons controlPlane runtime]).

Definition addManifests (nodePlan : NodePlan) (controlPlane : RKEControlPlane) (entry : planEntry) : res NodePlan :=
  let? files := getControlPlaneManifests controlPlane entry in
  Ret (set_np_Files (np_Files nodePlan ++ files) nodePlan).

(** ** Chart configuration *)

Definition isVSphereProvider (controlPlane : RKEControlPlane) (entry : planEntry) : res bool :=
  let? data := addUserConfig ∅ controlPlane entry in
  Ret (match data !! "cloud-provider-name" with Some (VString s) => s =? "rancher-vsphere" | _ => false end).

Definition addVSphereCharts (controlPlane : RKEControlPlane) (entry : planEntry) : res config :=
  let? isVSphere := isVSphereProvider controlPlane entry in
  let values := sp_ChartValues (cp_Spec controlPlane) in
  Ret (match config_get values "rancher-vsphere-csi" with
       | VNil => if (isVSphere : bool) then cfg_set "rancher-vsphere-csi" (VMap []) values else values
       | _ => values
       end).

(** The values of a chart with the cluster ID put in. *)
Definition chart_values (controlPlane : RKEControlPlane) (chartValues : config) (chart : string) : res (string * string) :=
  let valuesMap := default [] (convert_ToMapInterface (config_get chartValues chart)) in
  let valuesMap := data_PutValue valuesMap (VString (sp_ManagementClusterName (cp_Spec controlPlane)))
                     ["global"; "cattle"; "clusterId"] in
  let? data := json_Marshal_Map valuesMap in
  Ret (chart, data).

Definition addChartConfigs (nodePlan : NodePlan) (controlPlane : RKEControlPlane) (entry : planEntry) : res NodePlan :=
  if isOnlyWorker entry then Ret nodePlan
  else
    let? chartValues := addVSphereCharts controlPlane entry in
    let? chartConfigs := res_map (chart_values controlPlane chartValues) (SortedKeys chartValues) in
    let? contents := yaml_HelmChartConfigs chartConfigs in
    let file := mkFile (base64_EncodeToString contents)
                  (manifest_path (GetRuntime (cp_version controlPlane)) "managed-chart-config.yaml") "" true false in
    Ret (set_np_Files (np_Files nodePlan ++ [file]) nodePlan).

(** ** The plan *)

Definition generatePlanWithConfigFiles (controlPlane : RKEControlPlane) (tokensSecret : TokensSecret)
    (entry : planEntry) (joinServer : string) (renderS3 : bool) : res (NodePlan * config * string) :=
  if negb (sp_UnmanagedConfig (cp_Spec controlPlane)) then
    let? ' (nodePlan, reg) := commonNodePlan controlPlane emptyNodePlan in
    let? ' (nodePlan, config, joinedServer) := addConfigFile nodePlan controlPlane entry tokensSecret joinServer reg renderS3 in
    let? nodePlan := addManifests nodePlan controlPlane entry in
    let? nodePlan := addChartConfigs nodePlan controlPlane entry in
    let? nodePlan := addOtherFiles nodePlan controlPlane entry in
    Ret (set_np_Files (np_Files nodePlan ++ [idempotentScriptFile]) nodePlan, config, joinedServer)
  else Ret (emptyNodePlan, ∅, "").

Definition desiredPlan (controlPlane : RKEControlPlane) (tokensSecret : TokensSecret) (entry : planEntry)
    (joinServer : string) : res (NodePlan * string) :=
  let? ' (nodePlan, config, joinedTo) := generatePlanWithConfigFiles controlPlane tokensSecret entry joinServer true in
  let? probes := generateProbes controlPlane entry config in
  let nodePlan := set_np_Probes probes nodePlan in
  let? nodePlan := addInstallInstructionWithRestartStamp nodePlan controlPlane entry in
  let? md := pe_md entry in
  let nodePlan :=
    if isInitNode entry && IsOnlyEtcd entry && bool_decide (md_Annotations md !! JoinURLAutosetDisabled = None)
    then addInitNodePeriodicInstruction nodePlan controlPlane else nodePlan in
  let nodePlan :=
    if isEtcd entry then
      let nodePlan := addEtcdSnapshotListLocalPeriodicInstruction nodePlan controlPlane in
      let s3 := match sp_ETCD (cp_Spec controlPlane) with Some etcd => etcd_S3 etcd | None => None end in
      if S3Enabled s3 && isInitNode entry then addEtcdSnapshotListS3PeriodicInstruction nodePlan controlPlane else nodePlan
    else nodePlan in
  Ret (nodePlan, joinedTo).
End desired.

(** ** Restarts *)

Section restarts.
Context `{P : Planner}.

(** Everything up to the install instruction adds files only. *)
Lemma commonNodePlan_instructions cp np np' reg :
  commonNodePlan cp np = Ret (np', reg) -> np_Instructions np' = np_Instructions np.
Proof. unfold commonNodePlan. intros Hk. case_on_match; res_inv; done. Qed.

Lemma addConfigFile_instructions np cp e ts js reg r np' c js' :
  addConfigFile np cp e ts js reg r = Ret (np', c, js') -> np_Instructions np' = np_Instructions np.
Proof. unfold addConfigFile. intros Hk. res_inv. case_on_match; [done|]. res_inv. done. Qed.

Lemma addManifests_instructions np cp e np' :
  addManifests np cp e = Ret np' -> np_Instructions np' = np_Instructions np.
Proof. unfold addManifests. intros Hk. res_inv. done. Qed.

Lemma addChartConfigs_instructions np cp e np' :
  addChartConfigs np cp e = Ret np' -> np_Instructions np' = np_Instructions np.
Proof. unfold addChartConfigs. intros Hk. case_on_match; res_inv; done. Qed.

Lemma addOtherFiles_instructions np cp e np' :
  addOtherFiles np cp e = Ret np' -> np_Instructions np' = np_Instructions np.
Proof. unfold addOtherFiles, addLocalClusterAuthenticationEndpointFile. intros [= <-]. by case_on_match. Qed.

Lemma generatePlan_instructions cp ts e js r np c js' :
  generatePlanWithConfigFiles cp ts e js r = Ret (np, c, js') -> np_Instructions np = [].
Proof.
  unfold generatePlanWithConfigFiles. intros Hk. case_on_match; res_inv; [|done]. simpl.
  repeat match goal with
  | Ha : addOtherFiles _ _ _ = _ |- _ => apply addOtherFiles_instructions in Ha
  | Ha : addChartConfigs _ _ _ = _ |- _ => apply addChartConfigs_instructions in Ha
  | Ha : addManifests _ _ _ = _ |- _ => apply addManifests_instructions in Ha
  | Ha : addConfigFile _ _ _ _ _ _ _ = _ |- _ => apply addConfigFile_instructions in Ha
  | Ha : commonNodePlan _ _ = _ |- _ => apply commonNodePlan_instructions in Ha
  end. simpl in *. congruence.
Qed.

(** The stamp as it appears in the environment of the install instruction. *)
Definition stamp_text (e : planEntry) (stamp : string) : string :=
  if pe_label e CattleOSLabel =? WindowsMachineOS then quote stamp else stamp.

Context `{!KvLaws}.

Lemma env_stamp_stamp k v : k = "RESTART_STAMP" \/ k = "$env:RESTART_STAMP" -> env_stamp (k +:+ "=" +:+ v) = Some v.
Proof.
  intros Hk. unfold env_stamp. rewrite kv_Split_spec.
  assert (cut "=" (k +:+ "=" +:+ v) = Some (k, v)) as -> by (destruct Hk as [-> | ->]; by apply (cut_char (Ascii.ascii_of_nat 61))).
  by destruct Hk as [-> | ->].
Qed.

Lemma addInstall_stamp np cp e np' :
  np_Instructions np = [] -> addInstallInstructionWithRestartStamp np cp e = Ret np' ->
  np_Files np' = np_Files np /\ getRestartStamp np' = stamp_text e (restartStamp np cp (getInstallerImage cp)).
Proof.
  unfold addInstallInstructionWithRestartStamp, generateInstallInstruction, pe_md, stamp_text, pe_label.
  intros Hnil Hk. destruct (pe_Metadata e) as [md|]; [|done]. cbn [res_bind] in Hk. inv Hk. split; [done|].
  unfold getRestartStamp. cbn [np_Instructions set_np_Instructions]. rewrite Hnil.
  set (st := restartStamp np cp _).
  pose proof (env_stamp_stamp "$env:RESTART_STAMP" (quote st) (or_intror eq_refl)) as Hwin.
  pose proof (env_stamp_stamp "RESTART_STAMP" st (or_introl eq_refl)) as Hlin.
  case_bool_decide; cbn -[env_stamp];
    match goal with |- context [env_stamp ?x] =>
      first [change (env_stamp x) with (env_stamp ("$env:RESTART_STAMP" +:+ "=" +:+ quote st)); rewrite Hwin
            |change (env_stamp x) with (env_stamp ("RESTART_STAMP" +:+ "=" +:+ st)); rewrite Hlin]
    end; done.
Qed.

(** The restart stamp a desired plan carries is the one of the files it delivers. *)
Lemma desiredPlan_stamp cp ts e js plan joinedTo :
  desiredPlan cp ts e js = Ret (plan, joinedTo) ->
  getRestartStamp plan = stamp_text e (restartStamp plan cp (getInstallerImage cp)).
Proof.
  unfold desiredPlan. intros Hk. res_inv.
  match goal with Ha : generatePlanWithConfigFiles _ _ _ _ _ = _ |- _ => apply generatePlan_instructions in Ha end.
  match goal with Ha : addInstallInstructionWithRestartStamp _ _ _ = Ret ?q |- _ =>
    apply addInstall_stamp in Ha as [Hfiles Hstamp]; [|done] end.
  match type of Hstamp with getRestartStamp ?q = _ =>
  assert (forall np', np_Files np' = np_Files q -> np_Instructions np' = np_Instructions q ->
     getRestartStamp np' = stamp_text e (restartStamp np' cp (getInstallerImage cp))) as Hgoal end.
  { intros np' Hf Hi. unfold getRestartStamp in *. rewrite Hi, Hstamp. unfold restartStamp. by rewrite Hf, Hfiles. }
  apply Hgoal; repeat case_match; done.
Qed.

Lemma stamp_text_inj e1 e2 s1 s2 :
  pe_label e1 CattleOSLabel = pe_label e2 CattleOSLabel -> stamp_text e1 s1 = stamp_text e2 s2 <-> s1 = s2.
Proof.
  intros He. unfold stamp_text. rewrite He. case_bool_decide; [|done]. split; [|congruence].
  unfold quote. intros Hq%(inj (String.append dquote)). by apply app_str_inj_r in Hq.
Qed.

Definition static_files (plan : NodePlan) : list (string * string) :=
  map (fun f => (f_Path f, f_Content f)) (List.filter (fun f => negb (f_Dynamic f)) (np_Files plan)).

Lemma restartStamp_static p1 p2 cp1 cp2 image :
  static_files p1 = static_files p2 ->
  sp_ProvisionGeneration (cp_Spec cp1) = sp_ProvisionGeneration (cp_Spec cp2) ->
  st_ConfigGeneration (cp_Status cp1) = st_ConfigGeneration (cp_Status cp2) ->
  restartStamp p1 cp1 image = restartStamp p2 cp2 image.
Proof.
  unfold static_files, restartStamp. intros Hf Hp Hc.
  assert (forall p, map (fun f => f_Path f +:+ f_Content f) (List.filter (fun f => negb (f_Dynamic f)) (np_Files p))
            = map (fun kv => fst kv +:+ snd kv) (static_files p)) as Hm.
  { intros p. unfold static_files. by rewrite map_map. }
  rewrite !Hm. unfold static_files. by rewrite Hf, Hp, Hc.
Qed.

(** When does moving a machine from one desired plan to the next restart it, and so require a
    drain: exactly when the two restart stamps differ; in particular never when only files marked
    dynamic, probes or periodic instructions have changed while the installer image and the two
    generations are the same. *)
Theorem shouldDrain_desiredPlan cp1 cp2 ts1 ts2 e1 e2 js1 js2 p1 p2 j1 j2 :
  desiredPlan cp1 ts1 e1 js1 = Ret (p1, j1) -> desiredPlan cp2 ts2 e2 js2 = Ret (p2, j2) ->
  pe_label e1 CattleOSLabel = pe_label e2 CattleOSLabel ->
  (shouldDrain (Some p1) p2 = true <->
     restartStamp p1 cp1 (getInstallerImage cp1) <> restartStamp p2 cp2 (getInstallerImage cp2))
  /\ (static_files p1 = static_files p2 ->
      sp_ProvisionGeneration (cp_Spec cp1) = sp_ProvisionGeneration (cp_Spec cp2) ->
      st_ConfigGeneration (cp_Status cp1) = st_ConfigGeneration (cp_Status cp2) ->
      getInstallerImage cp1 = getInstallerImage cp2 -> shouldDrain (Some p1) p2 = false).
Proof.
  intros H1%desiredPlan_stamp H2%desiredPlan_stamp He. unfold shouldDrain. rewrite H1, H2. split.
  - rewrite negb_true_iff, bool_decide_eq_false. by rewrite stamp_text_inj.
  - intros Hf Hp Hc Hi. rewrite bool_decide_eq_true_2; [done|]. apply stamp_text_inj; [done|]. rewrite Hi.
    by apply restartStamp_static.
Qed.
End restarts.

Section witnesses.
#[local] Existing Instance demoExternal.
#[local] Existing Instance demoKvLaws.
#[local] Instance demoP : Planner := demoPlanner ∅ ∅ [] None.

Definition demoTokens : TokensSecret := mkTokensSecret "server-token" "agent-token".
Definition demoWorker : gmap string string := {[ WorkerRoleLabel := "true" ]}.

Definition demoDesired (server : string) : NodePlan * string :=
  match desiredPlan demoControlPlane demoTokens (demoEntry "m1" None demoWorker) server with
  | Ret r => r
  | _ => (emptyNodePlan, "")
  end.

Lemma demoDesired_plan server :
  returns (desiredPlan demoControlPlane demoTokens (demoEntry "m1" None demoWorker) server) = true ->
  desiredPlan demoControlPlane demoTokens (demoEntry "m1" None demoWorker) server
    = Ret (fst (demoDesired server), snd (demoDesired server)).
Proof. unfold demoDesired. by destruct (desiredPlan _ _ _ _) as [[]| |]. Qed.

Lemma shouldDrain_desiredPlan_witness :
  shouldDrain (Some (fst (demoDesired "https://a:9345"))) (fst (demoDesired "https://b:9345")) = true.
Proof.
  assert (forall server, server = "https://a:9345" \/ server = "https://b:9345" ->
    returns (desiredPlan demoControlPlane demoTokens (demoEntry "m1" None demoWorker) server) = true) as Hr.
  { intros server [-> | ->]; vm_compute; reflexivity. }
  apply (shouldDrain_desiredPlan _ _ _ _ _ _ _ _ _ _ _ _
           (demoDesired_plan _ (Hr _ (or_introl eq_refl))) (demoDesired_plan _ (Hr _ (or_intror eq_refl)))); [reflexivity|].
  apply (bool_decide_unpack _). vm_compute. exact I.
Defined.
End witnesses.
