(* ===== verification/Disclosure.v ===== *)
(** * What a node is given

    Files come only from secrets and config maps that authorise the cluster, a cloud-provider secret
    only if it authorises the cluster, and the tokens and the server of the configuration are those
    of the node's role. *)

From S2P Require Import Prelude GoLib Codec Errors Types External Instances Capr PlanEntry Store Args Probe S3Args Instructions Config DesiredPlan.

(** ** Authorisation *)

(** The object names the cluster in the comma-separated list of an annotation. *)
Definition authorized_for (annotations : gmap string string) (annotation cluster : string) : Prop :=
  cluster <> "" /\ cluster ∈ Split (map_get annotations annotation) ",".

Lemma clusterObjectAuthorized_true `{Planner} annotations annotation cluster :
  annotation <> "" ->
  fst (clusterObjectAuthorized (Some annotations) annotation cluster) = true <-> authorized_for annotations annotation cluster.
Proof.
  intros Ha. unfold clusterObjectAuthorized, authorized_for. rewrite (bool_decide_eq_false_2 (annotation = "")) by done.
  simpl. case_bool_decide as Hc; simpl; [naive_solver|]. rewrite existsb_exists. split.
  - intros (x & Hx & ->%bool_decide_eq_true_1). split; [done|]. by apply list_elem_of_In.
  - intros [_ Hin]. exists cluster. split; [by apply list_elem_of_In|]. by apply bool_decide_eq_true_2.
Qed.

Section authorisation.
Context `{P : Planner}.

Lemma res_map_elem {A B} (f : A -> res B) l ys y : res_map f l = Ret ys -> y ∈ ys -> exists x, x ∈ l /\ f x = Ret y.
Proof.
  intros Hf%res_map_Ret Hy. induction Hf as [|x z l zs Hx _ IH]; [by apply not_elem_of_nil in Hy|].
  apply elem_of_cons in Hy as [->|Hy]; [exists x; split; [constructor|done]|].
  destruct (IH Hy) as (x' & ? & ?). exists x'. split; [by constructor|done].
Qed.

Lemma elem_of_concat {A} (x : A) ls : x ∈ concat ls -> exists l, l ∈ ls /\ x ∈ l.
Proof.
  induction ls as [|l ls IH]; simpl; [by intros ?%not_elem_of_nil|]. intros [Hx|Hx]%elem_of_app.
  - exists l. split; [constructor|done].
  - destruct (IH Hx) as (l' & ? & ?). exists l'. split; [by constructor|done].
Qed.

(** A file was rendered from an item of an authorised object of the cluster's namespace. *)
Definition rendered_from (cp : RKEControlPlane) (get : string -> string -> res Secret) (src : K8sObjectFileSource)
    (f : File) : Prop :=
  exists obj item, get (cp_Namespace cp) (fs_Name src) = Ret obj /\ item ∈ fs_Items src
    /\ authorized_for (s_Annotations obj) AuthorizedObjectAnnotation (cp_Name cp)
    /\ f_Path f = kp_Path item /\ f_Content f = base64_EncodeToString (map_get (s_Data obj) (kp_Key item)).

Lemma render_source_authorized kind get cp src files f :
  render_source kind get cp src = Ret files -> f ∈ files -> rendered_from cp get src f.
Proof.
  unfold render_source. case_bool_decide; [by intros [= <-] ?%not_elem_of_nil|].
  destruct (get _ _) as [obj|e|] eqn:Eg; [|done..].
  pose proof (clusterObjectAuthorized_true (s_Annotations obj) AuthorizedObjectAnnotation (cp_Name cp)) as Hauth.
  destruct (clusterObjectAuthorized _ _ _) as [[] []]; try done. simpl in Hauth. simpl.
  intros Hr Hf. destruct (res_map_elem _ _ _ _ Hr Hf) as (item & Hin & Hitem).
  exists obj, item. split; [done|]. split; [done|]. split; [by apply Hauth|].
  unfold render_item in Hitem. destruct (_ && _); inv Hitem. done.
Qed.

(** C21: every file a node receives from a secret or a config map was rendered from an object of the
    cluster's namespace that authorises this cluster by name, under the path and with the content of
    the selected key, by a file source whose selector matches the machine. *)
Theorem renderFiles_authorized cp entry files f :
  renderFiles cp entry = Ret files -> f ∈ files ->
  exists msf source, msf ∈ sp_MachineSelectorFiles (cp_Spec cp) /\ source ∈ rpf_FileSources msf
    /\ (rpf_MachineLabelSelector msf = None
        \/ LabelSelector_Matches (rpf_MachineLabelSelector msf) (m_Labels (pe_Machine entry)) = Ret true)
    /\ (rendered_from cp secretCache_Get (pf_Secret source) f
        \/ rendered_from cp configMapCache_Get (pf_ConfigMap source) f).
Proof.
  unfold renderFiles. intros Hk Hf. res_inv. apply elem_of_concat in Hf as (l & Hl & Hf).
  destruct (res_map_elem _ _ _ _ Ha Hl) as (msf & Hmsf & Hsel). unfold render_selected in Hsel.
  apply res_bind_Ret in Hsel as (matches & Hm & Hsel).
  destruct (_ && _) eqn:Eb; [inv Hsel; by apply not_elem_of_nil in Hf|]. res_inv.
  apply elem_of_concat in Hf as (l' & Hl' & Hf).
  match goal with Hr : res_map (render_file_source cp) _ = _ |- _ =>
    destruct (res_map_elem _ _ _ _ Hr Hl') as (source & Hsrc & Hs) end.
  exists msf, source. split; [done|]. split; [done|]. split.
  - destruct (rpf_MachineLabelSelector msf) as [sel|]; [|by left]. right.
    rewrite bool_decide_eq_true_2 in Eb by eauto. by destruct matches.
  - clear Eb. unfold render_file_source in Hs. destruct (_ && _); [done|]. res_inv.
    apply elem_of_app in Hf as [Hf|Hf]; [left|right]; by eapply render_source_authorized.
Qed.

(** The content of a secret named by the cloud-provider configuration is used exactly when the
    secret authorises the cluster and has a credential; it is that credential. *)
Theorem retrieveClusterAuthorizedSecret_spec secret cluster content :
  retrieveClusterAuthorizedSecret secret cluster = Ret content <->
  authorized_for (s_Annotations secret) AuthorizedSecretAnnotation cluster
  /\ s_Data secret !! "credential" = Some content.
Proof.
  unfold retrieveClusterAuthorizedSecret.
  pose proof (clusterObjectAuthorized_true (s_Annotations secret) AuthorizedSecretAnnotation cluster) as Hauth.
  specialize (Hauth ltac:(done)). rewrite <- Hauth.
  assert (snd (clusterObjectAuthorized (Some (s_Annotations secret)) AuthorizedSecretAnnotation cluster) = false ->
          fst (clusterObjectAuthorized (Some (s_Annotations secret)) AuthorizedSecretAnnotation cluster) = false) as Hfound.
  { unfold clusterObjectAuthorized. destruct (_ || _); [done|]. simpl. by destruct (Split _ _). }
  destruct (clusterObjectAuthorized _ _ _) as [auth found]. simpl in *.
  destruct found, auth; simpl; [|naive_solver..]. destruct (s_Data secret !! "credential"); naive_solver.
Qed.
End authorisation.

(** ** Tokens and server *)

Section configuration.
Context `{P : Planner}.

Definition late_keys : list string :=
  ["tls-san"; "advertise-address"; "node-ip"; "node-external-ip"; "node-label"; "node-taint"] ++ fileParams.

Lemma role_keys_early : ("token" ∉ late_keys) /\ ("agent-token" ∉ late_keys) /\ ("server" ∉ late_keys).
Proof. repeat split; by apply (bool_decide_unpack _). Qed.

Lemma cfg_set_ne k k' v c : k <> k' -> cfg_set k v c !! k' = c !! k'.
Proof. apply lookup_insert_ne. Qed.

Lemma addAddresses_keeps c e c' k : addAddresses c e = Ret c' -> k ∉ late_keys -> c' !! k = c !! k.
Proof.
  unfold addAddresses, append_strings. intros Hc Hk. res_inv. unfold late_keys in Hk.
  repeat case_match; rewrite ?cfg_set_ne by (intros <-; set_solver); done.
Qed.
Lemma addLabels_keeps c e c' k : addLabels c e = Ret c' -> k ∉ late_keys -> c' !! k = c !! k.
Proof. unfold addLabels. intros Hc Hk. res_inv. apply cfg_set_ne. intros <-. unfold late_keys in Hk. set_solver. Qed.
Lemma addTaints_keeps c e cp c' k : addTaints c e cp = Ret c' -> k ∉ late_keys -> c' !! k = c !! k.
Proof. unfold addTaints. intros Hc Hk. res_inv. apply cfg_set_ne. intros <-. unfold late_keys in Hk. set_solver. Qed.

Lemma file_params_keep cp reg l c files c' files' k :
  res_fold (file_param cp reg) l (c, files) = Ret (c', files') -> k ∉ l -> c' !! k = c !! k.
Proof.
  revert c files. induction l as [|p l IH]; intros c files; simpl; [by intros [= <- _]|].
  intros Hc [Hp Hl]%not_elem_of_cons. apply res_bind_Ret in Hc as ([c1 f1] & H1 & H2).
  rewrite (IH _ _ H2 Hl). unfold file_param in H1. destruct (if p =? privateRegistryArg then _ else _); [|by inv H1].
  res_inv. by apply cfg_set_ne.
Qed.

Lemma PruneEmpty_keeps c k v : c !! k = Some v -> prunable v = false -> PruneEmpty c !! k = Some v.
Proof. intros Hk Hv. apply map_lookup_filter_Some. auto. Qed.

Lemma if_keeps (b : bool) (c c' : config) k : c' !! k = c !! k -> (if b then c' else c) !! k = c !! k.
Proof. by destruct b. Qed.

Lemma component_config_keeps runtime argKey mountKey port dir c k :
  argKey <> k -> mountKey <> k -> component_config runtime argKey mountKey port dir c !! k = c !! k.
Proof.
  intros H1 H2. unfold component_config. destruct (renderArgAndMount _ _ _ _ _).
  etrans; [apply if_keeps|]; by apply cfg_set_ne.
Qed.

Lemma addRoleConfig_server c cp e js c' joined :
  addRoleConfig c cp e js = Ret (c', joined) -> joined <> "" -> joined <> "-" -> joined <> JoinServerImplausible ->
  c' !! "server" = Some (VString joined).
Proof.
  unfold addRoleConfig. intros Hc H1 H2 H3. apply res_bind_Ret in Hc as (o & _ & Hc).
  destruct o as [j|]; [|res_inv; done].
  apply res_bind_Ret in Hc as (md & _ & Hc). injection Hc as <- ->.
  rewrite (bool_decide_eq_false_2 (joined = "")), (bool_decide_eq_false_2 (joined = "-")) by done. cbn [andb negb].
  etrans; [apply if_keeps; by apply cfg_set_ne|].
  etrans; [apply if_keeps; rewrite !component_config_keeps by done; done|].
  etrans; [apply if_keeps; by apply cfg_set_ne|].
  destruct (IsOnlyEtcd e), (isOnlyControlPlane e); rewrite ?cfg_set_ne by done; apply lookup_insert_eq.
Qed.

Lemma addLocal_keeps c cp e k :
  k <> "kube-apiserver-arg" -> addLocalClusterAuthenticationEndpointConfig c cp e !! k = c !! k.
Proof.
  intros Hk. unfold addLocalClusterAuthenticationEndpointConfig. destruct (_ || _); [done|]. by apply cfg_set_ne.
Qed.

(** The configuration of a node names the server the node joins, and carries the tokens of its
    role: a worker-only node gets the agent token as its token, never the server token; servers get
    the server token and the agent token. *)
Theorem addConfigFile_tokens np cp e ts js reg renderS3 np' c joined :
  addConfigFile np cp e ts js reg renderS3 = Ret (np', c, joined) ->
  ts_ServerToken ts <> "" -> ts_AgentToken ts <> "" ->
  (isOnlyWorker e = true -> c !! "token" = Some (VString (ts_AgentToken ts)))
  /\ (isOnlyWorker e = false -> c !! "token" = Some (VString (ts_ServerToken ts))
                                /\ c !! "agent-token" = Some (VString (ts_AgentToken ts)))
  /\ (joined <> "" -> joined <> "-" -> c !! "server" = Some (VString joined)).
Proof.
  unfold addConfigFile. intros Hc Hs Ha.
  apply res_bind_Ret in Hc as (c1 & _ & Hc). apply res_bind_Ret in Hc as ([c2 s3] & _ & Hc).
  apply res_bind_Ret in Hc as ([c3 j] & Hrole & Hc). case_bool_decide as Hj; [done|]. cbv zeta in Hc.
  set (c4 := addToken _ e ts) in Hc.
  apply res_bind_Ret in Hc as (c5 & H5 & Hc). apply res_bind_Ret in Hc as (c6 & H6 & Hc).
  apply res_bind_Ret in Hc as (c7 & H7 & Hc). apply res_bind_Ret in Hc as ([c8 pf] & H8 & Hc).
  assert (forall k s, k ∉ late_keys -> s <> "" -> c4 !! k = Some (VString s) -> PruneEmpty c8 !! k = Some (VString s)) as Hkeep.
  { intros k s Hk Hne H4. apply PruneEmpty_keeps; [|by destruct s].
    rewrite (file_params_keep _ _ _ _ _ _ _ k H8) by (unfold late_keys in Hk; set_solver).
    rewrite (addTaints_keeps _ _ _ _ k H7), (addLabels_keeps _ _ _ k H6), (addAddresses_keeps _ _ _ k H5) by done. done. }
  res_inv. unfold c4, addToken in Hkeep. rewrite (bool_decide_eq_false_2 (_ = "")) in Hkeep by done.
  destruct role_keys_early as (K1 & K2 & K3). split; [|split].
  - intros Hw. rewrite Hw in Hkeep. apply Hkeep; [done..|apply lookup_insert_eq].
  - intros Hw. rewrite Hw in Hkeep. split; apply Hkeep; [done..| |done|done|apply lookup_insert_eq].
    rewrite cfg_set_ne by done. apply lookup_insert_eq.
  - intros H1 H2. apply Hkeep; [done..|].
    pose proof (addRoleConfig_server _ _ _ _ _ _ Hrole H1 H2 Hj) as Hserver.
    destruct (isOnlyWorker e); rewrite ?cfg_set_ne by done; by rewrite addLocal_keeps.
Qed.
End configuration.

Section witnesses.
#[local] Existing Instance demoExternal.

Definition demoAuthorized : Secret :=
  mkSecret "fleet-default" "files" "Opaque" ∅ {[ AuthorizedObjectAnnotation := "c0,c1" ]} {[ "k" := "content" ]} [] false.
#[local] Instance demoP : Planner := demoPlanner {[ ("fleet-default", "files") := demoAuthorized ]} ∅ [] None.

Let source : ProvisioningFileSource :=
  mkProvisioningFileSource (mkK8sObjectFileSource "files" [mkKeyToPath "k" "/etc/k" false "" ""] "0644")
    (mkK8sObjectFileSource "" [] "").
Let cp : RKEControlPlane := demoControlPlaneOf
  (mkControlPlaneSpec demoUpgradeStrategy ∅ ∅ [] [mkRKEProvisioningFiles None [source]] "" None None None 0 [] false
     None None None None "v1.27.4+rke2r1" "c1" "c-m-1" false) demoStatus.

Lemma renderFiles_authorized_witness : exists f msf source,
  renderFiles cp (demoEntry "m1" None ∅) = Ret [f]
  /\ msf ∈ sp_MachineSelectorFiles (cp_Spec cp) /\ source ∈ rpf_FileSources msf.
Proof.
  destruct (returns_with (fun l => length l = 1%nat) (renderFiles cp (demoEntry "m1" None ∅)))
    as ([|f []] & E & Hv); [vm_compute; reflexivity|done| |done].
  destruct (renderFiles_authorized cp (demoEntry "m1" None ∅) [f] f E ltac:(constructor)) as (msf & src & H1 & H2 & _).
  eauto 10.
Defined.

Lemma addConfigFile_tokens_witness : exists np' c joined,
  addConfigFile emptyNodePlan cp (demoEntry "m1" None demoWorker) demoTokens "https://a:9345" (mkRegistries "" []) true
    = Ret (np', c, joined)
  /\ c !! "token" = Some (VString "agent-token") /\ c !! "server" = Some (VString "https://a:9345").
Proof.
  destruct (returns_with (fun r => snd r = "https://a:9345")
              (addConfigFile emptyNodePlan cp (demoEntry "m1" None demoWorker) demoTokens "https://a:9345"
                 (mkRegistries "" []) true)) as ([[np' c] joined] & E & Hv); [vm_compute; reflexivity|].
  exists np', c, joined. split; [done|].
  cbn [snd] in Hv. subst joined.
  destruct (addConfigFile_tokens _ _ _ _ _ _ _ _ _ _ E) as (H1 & _ & H3); [done|done|].
  split; [by apply H1|by apply H3].
Defined.
End witnesses.
