(* ===== verification/Changes.v ===== *)
(** * Changes of plans, concurrency and join URLs ([pkg/capr/planner/planner.go])

    What the reconciliation of a tier decides with: when a machine counts as unavailable, how many
    machines may be disturbed at once, which differences between two plans are minor, and which server
    a worker joins.  The file starts with the messages in which a tier is summed up ([messages.go]). *)

From S2P Require Import Prelude GoLib Codec Errors Types External Instances Capr PlanEntry World Store Drain Instructions DesiredPlan.

(** * Status messages ([pkg/capr/planner/messages.go]) *)

Definition atMostThree (names : list string) : string :=
  let names := sort_Strings names in
  if (3 <? length names)%nat
  then Join (take 3 names) "," +:+ " and " +:+ Itoa (Z.of_nat (length names - 3)) +:+ " more"
  else Join names ",".

Definition detailedMessage (machines : list string) (messages : gmap string (list string)) : string :=
  match machines with
  | [m] => match default [] (messages !! m) with
           | [] => ""
           | message => ": " +:+ Join message ", "
           end
  | _ => ""
  end.

(** Summaries are taken of a machine without its Reconciled condition. *)
Definition removeReconciledCondition (machine : Machine) : Machine :=
  match m_Conditions machine with
  | [] => machine
  | cs => let conds := List.filter (fun c => c_Type c !=? Reconciled) cs in
          if (length conds =? length cs)%nat then machine else set_m_Conditions conds machine
  end.

Lemma filter_length_id {A} (f : A -> bool) l : length (List.filter f l) = length l -> List.filter f l = l.
Proof.
  induction l as [|x l IH]; simpl; [done|]. destruct (f x); simpl; intros H.
  - f_equal. apply IH. lia.
  - pose proof (List.filter_length_le f l). lia.
Qed.

(** Only the Reconciled condition is removed, and nothing else of the machine changes. *)
Lemma removeReconciledCondition_spec m :
  removeReconciledCondition m = set_m_Conditions (List.filter (fun c => c_Type c !=? Reconciled) (m_Conditions m)) m.
Proof.
  unfold removeReconciledCondition. destruct m as [? ? ? ? ? ? ? ? ? cs ? ? ? ?]. cbn [m_Conditions].
  destruct cs as [|c cs]; [done|]. destruct (Nat.eqb _ _) eqn:E; [|done].
  apply Nat.eqb_eq, filter_length_id in E. rewrite E. done.
Qed.

Record reconcilable := mkReconcilable {
  r_entry : planEntry;
  r_desiredPlan : NodePlan;
  r_joinedURL : string;
  r_change : bool;
  r_minorChange : bool
}.
Definition set_r_entry (e : planEntry) (r : reconcilable) : reconcilable :=
  mkReconcilable e (r_desiredPlan r) (r_joinedURL r) (r_change r) (r_minorChange r).

(** ** Availability *)

Definition isInDrain (entry : planEntry) : bool :=
  (pe_annotation entry PreDrainAnnotation !=? "") || (pe_annotation entry PostDrainAnnotation !=? "")
  || (pe_annotation entry DrainAnnotation !=? "") || (pe_annotation entry UnCordonAnnotation !=? "").

(** Only asked about entries with a plan. *)
Definition isUnavailable (r : reconcilable) : bool :=
  match pe_Plan (r_entry r) with
  | None => false
  | Some n => negb (n_InSync n) || isInDrain (r_entry r)
              || (negb (r_change r) && negb (r_minorChange r) && negb (n_Healthy n))
  end.

Definition planAppliedButWaitingForProbes (n : Node) : bool :=
  match n_AppliedPlan n with
  | None => false
  | Some applied => (n_Plan n =? applied) && negb (n_Healthy n)
  end.

Definition planAppliedButProbesNeverHealthy (n : Node) : bool :=
  planAppliedButWaitingForProbes n && negb (n_ProbesUsable n).

(** ** Concurrency *)

Definition unavailable_now (r : reconcilable) : bool :=
  bool_decide (is_Some (pe_Plan (r_entry r))) && isUnavailable r.

(** The share of [n] machines a percentage allows, in the arithmetic of [float64]. *)
Definition percent_of (n : Z) (percentage : float64) : Z :=
  ceil_to_int (f64_mul (f64_of_Z n) (f64_div percentage (f64_of_Z 100))).

Definition calculateConcurrency (maxUnavailable : string) (reconcilables : list reconcilable) (exclude : roleFilter)
  : res (Z * Z) :=
  let total := Z.of_nat (count (fun r => negb (exclude (r_entry r))) reconcilables) in
  let unavailable := Z.of_nat (count unavailable_now reconcilables) in
  match Atoi maxUnavailable with
  | Some num => Ret (num, unavailable)
  | None =>
      if maxUnavailable =? "" then Ret (1, unavailable)
      else match ParseFloat (TrimSuffix maxUnavailable "%") with
           | None => Fail (errorString "concurrency must be a number or a percentage: invalid syntax")
           | Some percentage => Ret (percent_of total percentage, unavailable)
           end
  end.

(** ** Minor changes *)

(** The loop over the old files: files that did not change leave the map; a file that disappears
    makes the change major unless it was minor. *)
Fixpoint minor_old_files (oldFiles : list File) (newFiles : gmap string File) : option (gmap string File) :=
  match oldFiles with
  | [] => Some newFiles
  | oldFile :: rest =>
      match newFiles !! f_Path oldFile with
      | Some newFile =>
          minor_old_files rest (if f_Content oldFile =? f_Content newFile then delete (f_Path oldFile) newFiles else newFiles)
      | None => if f_Minor oldFile then minor_old_files rest newFiles else None
      end
  end.

Definition files_by_path (files : list File) : gmap string File :=
  fold_left (fun m f => <[f_Path f := f]> m) files ∅.

Definition minorPlanChangeDetected (old new : NodePlan) : bool :=
  if (np_Instructions old !=? np_Instructions new) || (np_PeriodicInstructions old !=? np_PeriodicInstructions new)
     || (np_Probes old !=? np_Probes new) || (np_Error old !=? np_Error new)
  then false
  else if (length (np_Files old) =? 0)%nat && (length (np_Files new) =? 0)%nat then false
  else match minor_old_files (np_Files old) (files_by_path (np_Files new)) with
       | None => false
       | Some newFiles => (newFiles !=? ∅) && List.forallb (fun kv => f_Minor (snd kv)) (map_to_list newFiles)
       end.

(** ** Join URLs *)

Section join_urls.
Context `{P : Planner}.

Definition joinable : roleFilter := roleAnd isControlPlane (roleAnd hasJoinURL (roleNot isDeleting)).

(** The checksum of the machine UID, scaled to the number of candidates; an index out of range
    would panic. *)
Definition MaxUint32 : Z := 2 ^ 32 - 1.
Definition join_index (uid : string) (len : Z) : Z :=
  let ck := Z.of_N (crc32_ChecksumIEEE uid) in
  let ck := if (ck =? MaxUint32)%Z then ck - 1 else ck in
  Z.quot (ck * len) MaxUint32.

Definition calculateJoinURL (entry : planEntry) (plan : Plan) : res string :=
  if isInitNode entry then Ret "-"
  else
    match collect plan joinable with
    | [] => Ret ""
    | entries =>
        match entries !! Z.to_nat (join_index (m_UID (pe_Machine entry)) (Z.of_nat (length entries))) with
        | Some e => Ret (pe_annotation e JoinURLAnnotation)
        | None => Panic
        end
    end.

Definition determineJoinURL (cp : RKEControlPlane) (entry : planEntry) (plan : Plan) (joinURL : string) : res string :=
  if negb (isOnlyWorker entry) then Ret joinURL
  else if joinURL =? "" then
    let joinedTo := match pe_Plan entry with Some n => n_JoinedTo n | None => "" end in
    if (joinedTo !=? "") && validJoinURL plan joinedTo then Ret joinedTo
    else
      let? joinURL := calculateJoinURL entry plan in
      if joinURL =? "" then
        Fail (errorString ("no suitable join URL found to join machine " +:+ m_Namespace (pe_Machine entry) +:+ "/"
                +:+ pe_name entry +:+ " in rkecluster " +:+ cp_Namespace cp +:+ "/" +:+ cp_Name cp +:+ " to"))
      else Ret joinURL
  else Ret joinURL.
End join_urls.

(** ** Which changes are minor *)

Lemma minor_old_files_spec old new rest :
  minor_old_files old new = Some rest ->
  (forall p f, rest !! p = Some f -> new !! p = Some f)
  /\ (forall p f, new !! p = Some f -> rest !! p = Some f \/ exists g, g ∈ old /\ f_Path g = p /\ f_Content g = f_Content f)
  /\ (forall g, g ∈ old -> new !! f_Path g = None -> f_Minor g = true).
Proof.
  revert new. induction old as [|g old IH]; intros new; simpl.
  - intros [= <-]. repeat split; auto. by intros g ?%not_elem_of_nil.
  - destruct (new !! f_Path g) as [f|] eqn:Ef.
    + case_bool_decide as Ec; intros (A & B & C)%IH; (split; [|split]).
      * intros p h Hp. apply A in Hp. by apply lookup_delete_Some in Hp as [_ ?].
      * intros p h Hp. destruct (decide (p = f_Path g)) as [->|Hne].
        { right. exists g. rewrite Hp in Ef. inv Ef. split; [constructor|done]. }
        destruct (B p h) as [|(g' & ? & ?)]; [by rewrite lookup_delete_ne|by left|].
        right. exists g'. split; [by constructor|done].
      * intros g' [->|Hg']%elem_of_cons Hn; [congruence|]. apply C; [done|]. by rewrite lookup_delete_None; right.
      * done.
      * intros p h Hp. destruct (B p h Hp) as [|(g' & ? & ?)]; [by left|]. right. exists g'. split; [by constructor|done].
      * intros g' [->|Hg']%elem_of_cons Hn; [congruence|]. by apply C.
    + destruct (f_Minor g) eqn:Em; [|done]. intros (A & B & C)%IH. split; [done|]. split.
      * intros p h Hp. destruct (B p h Hp) as [|(g' & ? & ?)]; [by left|]. right. exists g'. split; [by constructor|done].
      * intros g' [->|Hg']%elem_of_cons Hn; [done|]. by apply C.
Qed.

(** A change that counts as minor leaves instructions, periodic instructions and probes alone, so it
    never needs a drain; every delivered file that is new or has a new content is itself marked minor,
    and so is every file that is no longer delivered; and there is such a new file. *)
Theorem minorPlanChangeDetected_sound `{External} old new :
  minorPlanChangeDetected old new = true ->
  np_Instructions old = np_Instructions new /\ np_PeriodicInstructions old = np_PeriodicInstructions new
  /\ np_Probes old = np_Probes new /\ shouldDrain (Some old) new = false
  /\ (forall p f, files_by_path (np_Files new) !! p = Some f ->
        f_Minor f = true \/ exists g, g ∈ np_Files old /\ f_Path g = p /\ f_Content g = f_Content f)
  /\ (forall g, g ∈ np_Files old -> files_by_path (np_Files new) !! f_Path g = None -> f_Minor g = true)
  /\ exists p f, files_by_path (np_Files new) !! p = Some f /\ f_Minor f = true.
Proof.
  unfold minorPlanChangeDetected. destruct (_ || _) eqn:E1; [done|].
  rewrite !orb_false_iff, !negb_false_iff, !bool_decide_eq_true in E1. destruct E1 as [[[Hi Hp] Hpr] He].
  destruct (_ && _); [done|]. destruct (minor_old_files _ _) as [rest|] eqn:Em; [|done].
  intros [Hne Hall]%andb_true_iff. apply minor_old_files_spec in Em as (A & B & C).
  rewrite forallb_forall in Hall.
  assert (forall p f, rest !! p = Some f -> f_Minor f = true) as Hminor.
  { intros p f Hf. apply (Hall (p, f)). by apply list_elem_of_In, elem_of_map_to_list. }
  repeat split; auto.
  - unfold shouldDrain, getRestartStamp. by rewrite Hi, bool_decide_eq_true_2.
  - intros p f Hf. destruct (B p f Hf) as [Hr|?]; [left; eauto|by right].
  - apply negb_true_iff, bool_decide_eq_false, map_choose in Hne as (p & f & Hf).
    exists p, f. split; [by apply A|by apply (Hminor p)].
Qed.

(** ** Rounding of the concurrency limit *)

(** A percentage is computed in binary floating point and rounded up, which can allow one machine more
    than the percentage says: 7% of 100 machines are 8. *)
Theorem calculateConcurrency_rounding rs exclude :
  count (fun r => negb (exclude (r_entry r))) rs = 100%nat ->
  calculateConcurrency "7%" rs exclude = Ret (8, Z.of_nat (count unavailable_now rs)).
Proof.
  intros Hn. unfold calculateConcurrency. rewrite Hn.
  replace (Atoi "7%") with (@None Z) by (vm_compute; reflexivity).
  destruct (ParseFloat (TrimSuffix "7%" "%")) as [f|] eqn:Ef; [|vm_compute in Ef; discriminate].
  replace (percent_of (Z.of_nat 100) f) with 8; [done|]. vm_compute in Ef. injection Ef as <-. vm_compute. reflexivity.
Qed.

(** ** Where a worker joins *)

Section joining.
Context `{P : Planner}.

Lemma join_index_bound uid len : 0 < len -> 0 <= join_index uid len < len.
Proof.
  intros Hlen. unfold join_index, MaxUint32. pose proof (crc32_bound uid) as Hb.
  set (c := Z.of_N (crc32_ChecksumIEEE uid)). assert (0 <= c < 2 ^ 32) as Hc by lia.
  assert (exists ck, 0 <= ck < 2 ^ 32 - 1 /\ (if (c =? 2 ^ 32 - 1)%Z then c - 1 else c) = ck) as (ck & Hck & ->).
  { eexists. split; [|reflexivity]. destruct (c =? 2 ^ 32 - 1)%Z eqn:E; lia. } rewrite Z.quot_div_nonneg by nia. split; [apply Z.div_pos; nia|]. apply Z.div_lt_upper_bound; nia.
Qed.

Lemma joinable_valid e : joinable e = true -> isNotDeletingAndControlPlaneOrInitNode e = true.
Proof.
  unfold joinable, roleAnd, roleNot, isNotDeletingAndControlPlaneOrInitNode.
  intros [Hc [_ Hd]%andb_true_iff]%andb_true_iff. by rewrite Hc, Hd.
Qed.

(** The scaled checksum always selects one of the candidates. *)
Lemma calculateJoinURL_spec entry p :
  isInitNode entry = false ->
  (collect p joinable = [] /\ calculateJoinURL entry p = Ret "")
  \/ exists u, calculateJoinURL entry p = Ret u /\ u <> "" /\ validJoinURL p u = true.
Proof.
  intros Hi. unfold calculateJoinURL. rewrite Hi.
  destruct (collect p joinable) as [|e0 l] eqn:Ec; [by left|]. right. rewrite <- Ec.
  pose proof (join_index_bound (m_UID (pe_Machine entry)) (Z.of_nat (length (collect p joinable)))) as Hb.
  destruct Hb as [Hb1 Hb2]; [rewrite Ec; simpl; lia|]. set (i := join_index _ _) in *.
  destruct (lookup_lt_is_Some_2 (collect p joinable) (Z.to_nat i)) as [e He]; [lia|]. rewrite He.
  apply list_elem_of_lookup_2 in He. exists (pe_annotation e JoinURLAnnotation). split; [done|].
  pose proof (collect_include _ _ _ He) as Hj. split.
  - unfold joinable, roleAnd, hasJoinURL in Hj. rewrite !andb_true_iff, negb_true_iff, bool_decide_eq_false in Hj. tauto.
  - apply validJoinURL_spec. exists e. split; [|done].
    apply elem_of_collect in He as (k & m & Hk & -> & _). apply elem_of_collect. exists k, m.
    split; [done|]. split; [done|]. by apply joinable_valid.
Qed.

(** Where a worker joins when no server is forced: it stays where it joined as long as that is the
    join URL of a control-plane or init machine that is not being deleted; otherwise a control-plane
    machine with a join URL is chosen by the checksum of its UID, whose index is always in range; an
    error is returned only if there is no such machine. *)
Theorem determineJoinURL_valid cp entry p :
  isOnlyWorker entry = true -> isInitNode entry = false ->
  (exists u, determineJoinURL cp entry p "" = Ret u /\ u <> "" /\ validJoinURL p u = true
     /\ forall n, pe_Plan entry = Some n -> n_JoinedTo n <> "" -> validJoinURL p (n_JoinedTo n) = true -> u = n_JoinedTo n)
  \/ (collect p joinable = [] /\ exists e, determineJoinURL cp entry p "" = Fail e).
Proof.
  intros Hw Hi. unfold determineJoinURL. rewrite Hw. cbn [negb].
  rewrite (bool_decide_eq_true_2 ("" = "")) by done.
  set (joinedTo := match pe_Plan entry with Some n => n_JoinedTo n | None => "" end).
  destruct (_ && _) eqn:Es.
  - apply andb_true_iff in Es as [Hn%negb_true_iff%bool_decide_eq_false Hv]. left. exists joinedTo.
    repeat split; auto. unfold joinedTo. by intros n ->.
  - destruct (calculateJoinURL_spec entry p Hi) as [[Hc ->]|(u & -> & Hu & Hv)]; simpl.
    + right. eauto.
    + left. rewrite bool_decide_eq_false_2 by done. exists u. repeat split; auto.
      intros n Hn Hne Hval. exfalso. unfold joinedTo in Es. rewrite Hn, Hval, bool_decide_eq_false_2 in Es; done.
Qed.
End joining.

Section witnesses.
#[local] Existing Instance demoExternal.
#[local] Instance demoP : Planner := demoPlanner ∅ ∅ [] None.

Definition demoMinor (content : string) : NodePlan :=
  set_np_Files [mkFile "same" "/a" "" false false; mkFile content "/b" "" true true] demoPlan.

Lemma minorPlanChangeDetected_sound_witness :
  minorPlanChangeDetected (demoMinor "old") (demoMinor "new") = true
  /\ shouldDrain (Some (demoMinor "old")) (demoMinor "new") = false.
Proof.
  assert (minorPlanChangeDetected (demoMinor "old") (demoMinor "new") = true) as Hm by (vm_compute; reflexivity).
  split; [exact Hm|]. apply (minorPlanChangeDetected_sound _ _ Hm).
Defined.

Lemma calculateConcurrency_rounding_witness :
  calculateConcurrency "7%" (replicate 100 (mkReconcilable (demoEntry "m1" None ∅) demoPlan "" false false)) (fun _ => false) = Ret (8, 0).
Proof. exact (calculateConcurrency_rounding (replicate 100 (mkReconcilable (demoEntry "m1" None ∅) demoPlan "" false false)) (fun _ => false) eq_refl). Defined.

Let server : gmap string string := {[ ControlPlaneRoleLabel := "true" ]}.
Let p1 : Plan :=
  mkPlan ∅ {[ "m1" := demoMachine "m1" ]} {[ "m1" := mkMetadata server {[ JoinURLAnnotation := "https://m1:9345" ]} ]}.

Lemma determineJoinURL_valid_witness : exists u,
  determineJoinURL demoControlPlane (demoEntry "m2" None demoWorker) p1 "" = Ret u /\ validJoinURL p1 u = true.
Proof.
  destruct (determineJoinURL_valid demoControlPlane (demoEntry "m2" None demoWorker) p1)
    as [(u & Hu & _ & Hv & _)|[Hc _]]; [reflexivity|reflexivity|eauto|vm_compute in Hc; discriminate].
Defined.
End witnesses.
