(* ===== verification/Reconcile.v ===== *)
(** * Reconciliation of a tier ([pkg/capr/planner/planner.go])

    For the machines of a tier the desired plans are computed, and delivered as far as the
    concurrency of the tier allows; draining, uncordoning and the conditions of the machines are
    driven along.  The second part of the file says what a successful pass over a tier means. *)

From S2P Require Import Prelude GoLib Codec Errors Types External Instances Capr PlanEntry World Store Drain Instructions DesiredPlan Changes.

Section reconcile.
Context `{P : Planner}.

Definition kubeletVersionUpToDate (controlPlane : RKEControlPlane) (machine : Machine) : bool :=
  match m_KubeletVersion machine with
  | None => true
  | Some v =>
      if negb (st_AgentConnected (cp_Status controlPlane)) then true
      else match NewVersion (TrimPrefix v "v"), NewVersion (TrimPrefix (cp_version controlPlane) "v") with
           | Ret kubelet, Ret kubernetes =>
               (Major kubelet =? Major kubernetes) && (Minor kubelet =? Minor kubernetes)
               && (Patch kubelet =? Patch kubernetes)
           | _, _ => false
           end
  end.

(** ** Machine conditions *)

Definition condition_one (messages : gmap string (list string)) (waiting : bool) (machineName : string) : M bool :=
  let* p := gets w_plan in
  match pl_Machines p !! machineName with
  | None => fail (errorString ("found unexpected machine " +:+ machineName +:+ " that is not in cluster plan"))
  | Some machine =>
      let conds := m_Conditions machine in
      if negb (Cond_IsTrue InfrastructureReady conds) then ret true
      else
        match default [] (messages !! machineName) with
        | (_ :: _) as message =>
            let msg := Join message ", " in
            if Cond_GetMessage Reconciled conds =? msg then ret true
            else let* _ := machines_Update (set_m_Conditions (MarkUnknown Reconciled "Waiting" msg conds) machine) in ret true
        | [] =>
            if negb (Cond_IsTrue Reconciled conds)
            then let* _ := machines_Update (set_m_Conditions (MarkTrue Reconciled conds) machine) in ret true
            else ret waiting
        end
  end.

Definition setMachineConditionStatus (machineNames : list string) (messagePrefix : string)
    (messages : gmap string (list string)) : M unit :=
  let* waiting := for_fold machineNames false (condition_one messages) in
  if (waiting : bool)
  then fail (errWaiting (messagePrefix +:+ atMostThree machineNames +:+ detailedMessage machineNames messages))
  else ret tt.

(** ** The loop over the machines of a tier *)

Record tier := mkTier {
  t_ready : list string;
  t_outOfSync : list string;
  t_nonReady : list string;
  t_errMachines : list string;
  t_draining : list string;
  t_uncordoned : list string;
  t_messages : gmap string (list string);
  t_unavailable : Z
}.
Definition emptyTier (unavailable : Z) : tier := mkTier [] [] [] [] [] [] ∅ unavailable.

Definition add_ready (n : string) (t : tier) : tier :=
  mkTier (t_ready t ++ [n]) (t_outOfSync t) (t_nonReady t) (t_errMachines t) (t_draining t) (t_uncordoned t) (t_messages t) (t_unavailable t).
Definition add_outOfSync (n : string) (t : tier) : tier :=
  mkTier (t_ready t) (t_outOfSync t ++ [n]) (t_nonReady t) (t_errMachines t) (t_draining t) (t_uncordoned t) (t_messages t) (t_unavailable t).
Definition add_draining (n : string) (t : tier) : tier :=
  mkTier (t_ready t) (t_outOfSync t) (t_nonReady t) (t_errMachines t) (t_draining t ++ [n]) (t_uncordoned t) (t_messages t) (t_unavailable t).
Definition add_uncordoned (n : string) (t : tier) : tier :=
  mkTier (t_ready t) (t_outOfSync t) (t_nonReady t) (t_errMachines t) (t_draining t) (t_uncordoned t ++ [n]) (t_messages t) (t_unavailable t).
Definition add_message (n msg : string) (t : tier) : tier :=
  mkTier (t_ready t) (t_outOfSync t) (t_nonReady t) (t_errMachines t) (t_draining t) (t_uncordoned t)
    (<[n := default [] (t_messages t !! n) ++ [msg]]> (t_messages t)) (t_unavailable t).
Definition set_unavailable (u : Z) (t : tier) : tier :=
  mkTier (t_ready t) (t_outOfSync t) (t_nonReady t) (t_errMachines t) (t_draining t) (t_uncordoned t) (t_messages t) u.

(** What the summary of the machine and the status of its plan say. *)
Definition summarize_one (r : reconcilable) (t : tier) : tier :=
  let name := pe_name (r_entry r) in
  let summary := Summarize (removeReconciledCondition (pe_Machine (r_entry r))) in
  let planStatusMessage := getPlanStatusReasonMessage (r_entry r) in
  mkTier (t_ready t) (t_outOfSync t)
    (if sm_Transitioning summary then t_nonReady t ++ [name] else t_nonReady t)
    (if sm_Error summary then t_errMachines t ++ [name] else t_errMachines t)
    (t_draining t) (t_uncordoned t)
    (<[name := sm_Message summary ++ (if planStatusMessage !=? "" then [planStatusMessage] else [])]> (t_messages t))
    (t_unavailable t).

(** May a changed plan be delivered to this machine now? *)
Definition may_disrupt (concurrency unavailable : Z) (r : reconcilable) (n : Node) : bool :=
  isInDrain (r_entry r) || n_Failed n || (concurrency =? 0)%Z || (unavailable <? concurrency)%Z
  || planAppliedButProbesNeverHealthy n.

(** A changed plan: drain the node if needed, then deliver. *)
Definition major_change (concurrency : Z) (drainOptions : DrainOptions) (r : reconcilable) (n : Node) (t : tier) : M tier :=
  let name := pe_name (r_entry r) in
  let t := add_outOfSync name t in
  if may_disrupt concurrency (t_unavailable t) r n then
    let planStatusMessage := getPlanStatusReasonMessage (r_entry r) in
    let t := if negb (isUnavailable r) then set_unavailable (t_unavailable t + 1) t else t in
    let* ' (ok, err) := drain (n_AppliedPlan n) (r_desiredPlan r) (r_entry r) drainOptions in
    match ok, err with
    | false, Some e => fail e
    | true, None =>
        let* entry := UpdatePlan (r_entry r) (r_desiredPlan r) (r_joinedURL r) (-1) 1 in
        if pe_annotation entry DrainDoneAnnotation !=? "" then ret (add_message name "drain completed" t)
        else if planStatusMessage =? "" then ret (add_message name WaitingPlanStatusMessage t)
        else ret t
    | _, Some e => ret (add_message name (Error e) (add_draining name t))
    | _, None => ret (add_message name "draining node" (add_draining name t))
    end
  else ret t.

(** An unchanged plan that is applied: uncordon, then wait for the kubelet and the agent. *)
Definition settled (controlPlane : RKEControlPlane) (r : reconcilable) (t : tier) : M tier :=
  let name := pe_name (r_entry r) in
  let* ' (ok, err) := undrain (r_entry r) in
  match ok, err with
  | false, Some e => fail e
  | true, Some e => ret (add_message name (Error e) (add_uncordoned name t))
  | false, None => ret (add_message name "waiting for uncordon to finish" (add_uncordoned name t))
  | true, None =>
      if negb (kubeletVersionUpToDate controlPlane (pe_Machine (r_entry r)))
      then ret (add_message name "waiting for kubelet to update" (add_outOfSync name t))
      else if isControlPlane (r_entry r) && negb (st_AgentConnected (cp_Status controlPlane))
      then ret (add_message name "waiting for cluster agent to connect" (add_outOfSync name t))
      else ret (add_ready name t)
  end.

Definition reconcile_one (controlPlane : RKEControlPlane) (exclude : roleFilter) (concurrency : Z)
    (drainOptions : DrainOptions) (t : tier) (r : reconcilable) : M tier :=
  let* entry := refresh (r_entry r) in
  let r := set_r_entry entry r in
  if exclude (r_entry r) then ret t
  else
    let name := pe_name (r_entry r) in
    let t := summarize_one r t in
    match pe_Plan (r_entry r) with
    | None =>
        let* _ := UpdatePlan (r_entry r) (r_desiredPlan r) (r_joinedURL r) (-1) 1 in ret (add_outOfSync name t)
    | Some n =>
        if r_minorChange r then
          let* _ := UpdatePlan (r_entry r) (r_desiredPlan r) (r_joinedURL r) (-1) 1 in ret (add_outOfSync name t)
        else if r_change r then major_change concurrency drainOptions r n t
        else if getPlanStatusReasonMessage (r_entry r) !=? "" then ret (add_outOfSync name t)
        else settled controlPlane r t
    end.

(** The machines of the tier with their desired plans. *)
Definition reconcilable_of (controlPlane : RKEControlPlane) (tokensSecret : TokensSecret) (plan : Plan)
    (forcedJoinURL : string) (entry : planEntry) : res reconcilable :=
  let? joinURL := determineJoinURL controlPlane entry plan forcedJoinURL in
  let? ' (desired, joinedURL) := desiredPlan controlPlane tokensSecret entry joinURL in
  Ret (mkReconcilable entry desired joinedURL
         (match pe_Plan entry with Some n => n_Plan n !=? desired | None => false end)
         (match pe_Plan entry with Some n => minorPlanChangeDetected (n_Plan n) desired | None => false end)).

(** The statuses of all machines are updated; the first error is the one returned. *)
Definition tier_status (tierName : string) (t : tier) : M unit :=
  let* e1 := attempt_err (setMachineConditionStatus (t_uncordoned t) ("uncordoning " +:+ tierName +:+ " node(s) ") (t_messages t)) in
  let* e2 := attempt_err (setMachineConditionStatus (t_draining t) ("draining " +:+ tierName +:+ " node(s) ") (t_messages t)) in
  let* e3 := attempt_err (setMachineConditionStatus (t_outOfSync t) ("configuring " +:+ tierName +:+ " node(s) ") (t_messages t)) in
  let* e4 := attempt_err (setMachineConditionStatus (t_ready t) "" ∅) in
  match e1, e2, e3, e4 with
  | Some e, _, _, _ | None, Some e, _, _ | None, None, Some e, _ | None, None, None, Some e => fail e
  | None, None, None, None =>
      match t_errMachines t, t_nonReady t with
      | _ :: _, _ => fail (errIgnore ("failing " +:+ tierName +:+ " machine(s) " +:+ atMostThree (t_errMachines t)
                                       +:+ detailedMessage (t_errMachines t) (t_messages t)))
      | [], _ :: _ => fail (errIgnore ("non-ready " +:+ tierName +:+ " machine(s) " +:+ atMostThree (t_nonReady t)
                                        +:+ detailedMessage (t_nonReady t) (t_messages t)))
      | [], [] => ret tt
      end
  end.

Definition reconcile (controlPlane : RKEControlPlane) (tokensSecret : TokensSecret) (required : bool)
    (tierName : string) (include exclude : roleFilter) (maxUnavailable forcedJoinURL : string)
    (drainOptions : DrainOptions) : M unit :=
  let* plan := gets w_plan in
  let entries := collect plan include in
  let* reconcilables := lift (res_map (reconcilable_of controlPlane tokensSecret plan forcedJoinURL)
                                      (List.filter (fun e => negb (exclude e)) entries)) in
  let* ' (concurrency, unavailable) := lift (calculateConcurrency maxUnavailable reconcilables exclude) in
  let* t := for_fold reconcilables (emptyTier unavailable) (reconcile_one controlPlane exclude concurrency drainOptions) in
  match required, entries with
  | true, [] => fail (errWaiting ("waiting for at least one " +:+ tierName +:+ " node"))
  | _, _ => tier_status tierName t
  end.
End reconcile.

(** ** Concurrency of a tier *)

Section concurrency.
Context `{P : Planner}.

(** A machine that is available now and would be disturbed by the delivery of its plan: it has a
    plan, the change is not minor, the plan has not failed, and it has been healthy once. *)
Definition disturbing (r : reconcilable) : bool :=
  match pe_Plan (r_entry r) with
  | None => false
  | Some n => r_change r && negb (r_minorChange r) && negb (isUnavailable r) && negb (n_Failed n)
              && negb (planAppliedButProbesNeverHealthy n)
  end.

Definition secret_of (w : World) (m : Machine) : option Secret :=
  match plan_secret_key m with Some k => w_secrets w !! k | None => None end.

(** Between [w] and [w'] such a machine was touched. *)
Definition disturbed (w w' : World) (r : reconcilable) : bool :=
  disturbing r && bool_decide (secret_of w' (pe_Machine (r_entry r)) <> secret_of w (pe_Machine (r_entry r))).

(** The entry is as the plan of [w] has it. *)
Definition fresh_in (w : World) (r : reconcilable) : Prop :=
  pl_Metadata (w_plan w) !! pe_name (r_entry r) = pe_Metadata (r_entry r).

Lemma refresh_fresh w r : fresh_in w r -> refresh (r_entry r) w = (w, Ret (r_entry r)).
Proof. intros Hf. unfold refresh, bind, gets, ret. rewrite Hf. by destruct (r_entry r). Qed.

Lemma set_r_entry_id r : set_r_entry (r_entry r) r = r.
Proof. by destruct r. Qed.

Definition own_name (r : reconcilable) (n : string) : Prop := n = pe_name (r_entry r).
Definition own_key (r : reconcilable) (k : string * string) : Prop := plan_secret_key (pe_Machine (r_entry r)) = Some k.

Lemma frame_major_change c opts r n t :
  runs secrets_wf (frame (own_name r) (own_key r)) (major_change c opts r n t)
    (fun t' => t_unavailable t <= t_unavailable t' /\
               (may_disrupt c (t_unavailable t) r n = true -> isUnavailable r = false -> t_unavailable t' = t_unavailable t + 1)).
Proof.
  unfold major_change. simpl. destruct (may_disrupt _ _ _ _); [|by apply runs_ret; [apply _|]; simpl; split; [lia|]].
  cbv zeta. set (t1 := if negb (isUnavailable r) then _ else _).
  assert (t_unavailable t <= t_unavailable t1 /\ (isUnavailable r = false -> t_unavailable t1 = t_unavailable t + 1)) as Ht1.
  { unfold t1. destruct (isUnavailable r); simpl; split; (lia || done). }
  clearbody t1. assert (forall t', t_unavailable t' = t_unavailable t1 ->
    t_unavailable t <= t_unavailable t' /\
    (true = true -> isUnavailable r = false -> t_unavailable t' = t_unavailable t + 1)) as Hret.
  { intros t' ->. destruct Ht1. by split; [|intros _]. }
  eapply runs_bind; [apply _|by apply frame_drain|]. intros [ok err] _.
  destruct ok, err as [e|]; try (by apply runs_ret; [apply _|]; apply Hret); [|runs_auto].
  eapply runs_bind; [apply _|by apply frame_UpdatePlan|]. intros e _.
  repeat case_match; apply runs_ret; try apply _; by apply Hret.
Qed.

Lemma frame_settled cp r t :
  runs secrets_wf (frame (own_name r) (own_key r)) (settled cp r t) (fun t' => t_unavailable t' = t_unavailable t).
Proof.
  unfold settled. eapply runs_bind; [apply _|by apply frame_undrain|]. intros [ok err] _.
  destruct ok, err as [e|]; cbv iota; repeat case_match;
    try (by apply runs_ret; [apply _|]); apply runs_fail; apply _.
Qed.

(** One turn of the loop touches its own machine only, and never lowers the count. *)
Lemma reconcile_one_frame cp exclude c opts t r w :
  secrets_wf w -> fresh_in w r ->
  let '(w', o) := reconcile_one cp exclude c opts t r w in
  secrets_wf w' /\ frame (own_name r) (own_key r) w w' /\ forall t', o = Ret t' -> t_unavailable t <= t_unavailable t'.
Proof.
  intros Hwf Hf. unfold reconcile_one. rewrite (bind_run _ _ _ _ _ (refresh_fresh w r Hf)). rewrite set_r_entry_id.
  assert (forall t', t_unavailable t <= t_unavailable t' ->
            secrets_wf w /\ frame (own_name r) (own_key r) w w /\ forall t'', Ret t' = Ret t'' -> t_unavailable t <= t_unavailable t'') as Hret.
  { intros t' Ht'. split; [done|]. split; [reflexivity|]. by intros ? [= <-]. }
  assert (forall (k : M tier) (Q : tier -> Prop), runs secrets_wf (frame (own_name r) (own_key r)) k Q ->
            (forall t', Q t' -> t_unavailable t <= t_unavailable t') ->
            let '(w', o) := k w in
            secrets_wf w' /\ frame (own_name r) (own_key r) w w' /\ forall t', o = Ret t' -> t_unavailable t <= t_unavailable t') as Hrun.
  { intros k Q Hk HQ. destruct (Hk w Hwf) as (H1 & H2 & H3). destruct (k w) as [w' o]. simpl in *.
    split; [done|]. split; [done|]. auto. }
  destruct (exclude _); [by apply Hret|]. destruct (pe_Plan (r_entry r)) as [n|].
  2:{ eapply (Hrun _ (fun t' => t_unavailable t' = t_unavailable t)); [|intros; lia].
      eapply runs_bind; [apply _|by apply frame_UpdatePlan|]. intros. by apply runs_ret; [apply _|]. }
  destruct (r_minorChange r).
  { eapply (Hrun _ (fun t' => t_unavailable t' = t_unavailable t)); [|intros; lia].
    eapply runs_bind; [apply _|by apply frame_UpdatePlan|]. intros. by apply runs_ret; [apply _|]. }
  destruct (r_change r); [eapply Hrun; [apply frame_major_change|simpl; lia]|].
  destruct (_ !=? _); [by apply Hret|]. eapply Hrun; [apply frame_settled|simpl; lia].
Qed.

Lemma may_disrupt_disturbing c u r n :
  pe_Plan (r_entry r) = Some n -> disturbing r = true -> c <> 0 -> may_disrupt c u r n = (u <? c).
Proof.
  intros Hn. unfold disturbing, may_disrupt. rewrite Hn, !andb_true_iff, !negb_true_iff.
  intros [[[_ Hu] ->] ->] Hc. unfold isUnavailable in Hu. rewrite Hn, !orb_false_iff in Hu.
  destruct Hu as [[_ ->] _]. rewrite (proj2 (Z.eqb_neq c 0) Hc), orb_false_r. done.
Qed.

(** A disturbing delivery happens only below the limit, and is counted. *)
Lemma reconcile_one_disturbing cp exclude c opts t r w w' o :
  secrets_wf w -> fresh_in w r -> c <> 0 -> disturbing r = true ->
  reconcile_one cp exclude c opts t r w = (w', o) ->
  w' = w \/ (t_unavailable t < c /\ forall t', o = Ret t' -> t_unavailable t' = t_unavailable t + 1).
Proof.
  intros Hwf Hf Hc Hd. unfold reconcile_one. rewrite (bind_run _ _ _ _ _ (refresh_fresh w r Hf)). rewrite set_r_entry_id.
  destruct (exclude _); [intros [= <- _]; by left|].
  destruct (pe_Plan (r_entry r)) as [n|] eqn:En; [|by unfold disturbing in Hd; rewrite En in Hd].
  pose proof (may_disrupt_disturbing c (t_unavailable t) r n En Hd Hc) as Hm.
  unfold disturbing in Hd. rewrite En, !andb_true_iff, !negb_true_iff in Hd. destruct Hd as [[[[Hch Hmin] Hav] _] _].
  rewrite Hmin, Hch. intros Hrun.
  destruct (frame_major_change c opts r n (summarize_one r t) w Hwf) as (_ & _ & HQ).
  rewrite Hrun in HQ. cbn [summarize_one t_unavailable fst snd] in HQ. rewrite Hm in HQ.
  destruct (t_unavailable t <? c) eqn:Elt.
  - right. split; [lia|]. intros t' Ht'. by apply HQ.
  - left. unfold major_change in Hrun. cbn [summarize_one add_outOfSync t_unavailable] in Hrun. rewrite Hm in Hrun.
    by inv Hrun.
Qed.

Definition separate (r1 r2 : reconcilable) : Prop :=
  pe_name (r_entry r1) <> pe_name (r_entry r2) /\ forall k, own_key r1 k -> own_key r2 k -> False.

Lemma frame_secret_of r1 r2 w w' :
  separate r1 r2 -> frame (own_name r1) (own_key r1) w w' ->
  secret_of w' (pe_Machine (r_entry r2)) = secret_of w (pe_Machine (r_entry r2)).
Proof.
  intros [_ Hs] (_ & _ & _ & Hk). unfold secret_of, own_key in *.
  destruct (plan_secret_key (pe_Machine (r_entry r2))) as [k|] eqn:E; [|done]. apply Hk. intros Hk1. by apply (Hs k).
Qed.

Lemma frame_fresh r1 r2 w w' :
  separate r1 r2 -> frame (own_name r1) (own_key r1) w w' -> fresh_in w r2 -> fresh_in w' r2.
Proof.
  intros [Hn _] (_ & _ & Hm & _) Hf. unfold fresh_in. rewrite Hm; [done|]. unfold own_name. congruence.
Qed.

Lemma disturbed_shift w w1 w' l :
  (forall r, r ∈ l -> secret_of w1 (pe_Machine (r_entry r)) = secret_of w (pe_Machine (r_entry r))) ->
  count (disturbed w w') l = count (disturbed w1 w') l.
Proof.
  induction l as [|r l IH]; intros Hl; [done|]. rewrite !count_cons, IH by (intros; apply Hl; by constructor).
  unfold disturbed. by rewrite Hl by constructor.
Qed.

Lemma disturbed_none w l : count (disturbed w w) l = 0%nat.
Proof.
  induction l as [|r l IH]; [done|]. rewrite count_cons, IH. unfold disturbed.
  rewrite (bool_decide_eq_false_2 (_ <> _)) by auto. by rewrite andb_false_r.
Qed.

(** The loop keeps to the budget, whatever its outcome. *)
Lemma reconcile_loop_budget cp exclude c opts l : forall t w,
  c <> 0 -> secrets_wf w -> Forall (fresh_in w) l -> ForallOrdPairs separate l ->
  secrets_wf (fst (for_fold l t (reconcile_one cp exclude c opts) w))
  /\ (forall r, (forall x, x ∈ l -> separate x r) ->
     secret_of (fst (for_fold l t (reconcile_one cp exclude c opts) w)) (pe_Machine (r_entry r)) = secret_of w (pe_Machine (r_entry r)))
  /\ Z.of_nat (count (disturbed w (fst (for_fold l t (reconcile_one cp exclude c opts) w))) l) <= Z.max 0 (c - t_unavailable t).
Proof.
  induction l as [|x l IH]; intros t w Hc Hwf Hfr Hsep; [repeat split; auto; unfold count; simpl; lia|].
  apply Forall_cons in Hfr as [Hfx Hfl]. inversion Hsep as [|? ? Hxs Hsl]; subst.
  rewrite for_fold_cons.
  pose proof (reconcile_one_frame cp exclude c opts t x w Hwf Hfx) as Hframe.
  pose proof (reconcile_one_disturbing cp exclude c opts t x w) as Hdist.
  destruct (reconcile_one cp exclude c opts t x w) as [w1 o] eqn:E1. destruct Hframe as (Hwf1 & Hfr1 & Hmono).
  specialize (Hdist w1 o Hwf Hfx Hc).
  assert (Z.of_nat (if disturbed w w1 x then 1 else 0) <= Z.max 0 (c - t_unavailable t)
          /\ forall t1, o = Ret t1 -> Z.of_nat (if disturbed w w1 x then 1 else 0) + Z.max 0 (c - t_unavailable t1)
                                      <= Z.max 0 (c - t_unavailable t)) as [Hx0 Hx1].
  { destruct (disturbed w w1 x) eqn:Ed.
    - unfold disturbed in Ed. apply andb_true_iff in Ed as [Ed1 Ed2%bool_decide_eq_true_1].
      destruct (Hdist Ed1 eq_refl) as [-> |[Hlt Hinc]]; [done|]. split; [lia|]. intros t1 ->%Hinc. lia.
    - split; [lia|]. intros t1 Ht1%Hmono. lia. }
  rewrite Forall_forall in Hxs.
  assert (forall r, r ∈ l -> secret_of w1 (pe_Machine (r_entry r)) = secret_of w (pe_Machine (r_entry r))) as Hkeep.
  { intros r Hr. by apply (frame_secret_of x r w w1); [apply Hxs|]. }
  rewrite count_cons, Nat2Z.inj_add. unfold bind. rewrite E1. destruct o as [t1|e|]; simpl.
  - destruct (IH t1 w1 Hc Hwf1) as (IH0 & IH1 & IH2); [|done|].
    { rewrite Forall_forall in *. intros r Hr. apply (frame_fresh x r w w1); auto. }
    set (w2 := (for_fold l t1 _ w1).1) in *.
    assert (secret_of w2 (pe_Machine (r_entry x)) = secret_of w1 (pe_Machine (r_entry x))) as Hx.
    { apply IH1. intros y Hy. destruct (Hxs y Hy) as [Ha Hb]. split; [auto|]. intros k H1 H2. by apply (Hb k). }
    split; [done|]. split.
    + intros r Hr. rewrite IH1 by (intros; apply Hr; by constructor).
      apply (frame_secret_of x r w w1); [apply Hr; constructor|done].
    + rewrite (disturbed_shift w w1 w2 l Hkeep). specialize (Hx1 t1 eq_refl).
      assert (disturbed w w2 x = disturbed w w1 x) as -> by (unfold disturbed; by rewrite Hx). lia.
  - split; [done|]. split; [intros r Hr; apply (frame_secret_of x r w w1); [apply Hr; constructor|done]|].
    rewrite (disturbed_shift w w1 w1 l Hkeep), disturbed_none. lia.
  - split; [done|]. split; [intros r Hr; apply (frame_secret_of x r w w1); [apply Hr; constructor|done]|].
    rewrite (disturbed_shift w w1 w1 l Hkeep), disturbed_none. lia.
Qed.

(** Distinct machines have distinct plan secrets. *)
Definition own_secrets (p : Plan) : Prop :=
  forall n1 n2 m1 m2 k, pl_Machines p !! n1 = Some m1 -> pl_Machines p !! n2 = Some m2 ->
    plan_secret_key m1 = Some k -> plan_secret_key m2 = Some k -> n1 = n2.

Definition tier_reconcilables (cp : RKEControlPlane) (ts : TokensSecret) (p : Plan) (include exclude : roleFilter)
    (forcedJoinURL : string) : res (list reconcilable) :=
  res_map (reconcilable_of cp ts p forcedJoinURL) (List.filter (fun e => negb (exclude e)) (collect p include)).

Lemma tier_reconcilables_entries cp ts p include exclude url rs :
  tier_reconcilables cp ts p include exclude url = Ret rs ->
  map r_entry rs = List.filter (fun e => negb (exclude e)) (collect p include).
Proof.
  unfold tier_reconcilables. intros Hrs%res_map_Ret. induction Hrs as [|e r es rs Hr _ IH]; [done|]. simpl. rewrite IH.
  unfold reconcilable_of in Hr. res_inv. done.
Qed.

Lemma tier_reconcilables_separate cp ts w include exclude url rs :
  plan_wf (w_plan w) -> own_secrets (w_plan w) ->
  tier_reconcilables cp ts (w_plan w) include exclude url = Ret rs ->
  Forall (fresh_in w) rs /\ ForallOrdPairs separate rs.
Proof.
  intros Hwf Hown Hrs%tier_reconcilables_entries.
  assert (forall r, r ∈ rs -> r_entry r ∈ collect (w_plan w) include) as Hin.
  { intros r Hr. apply (elem_of_filter_bool (fun e => negb (exclude e)) _ _). rewrite <- Hrs.
    by apply list_elem_of_In, in_map, list_elem_of_In. }
  assert (NoDup (map (fun r => pe_name (r_entry r)) rs)) as Hnd.
  { rewrite <- (map_map r_entry pe_name), Hrs. by apply NoDup_map_filter, collect_NoDup. }
  clear Hrs. split.
  - apply Forall_forall. intros r Hr. destruct (collect_name _ _ _ Hwf (Hin r Hr)) as (_ & He & _).
    unfold fresh_in. by rewrite He at 2.
  - induction rs as [|r rs IH]; [constructor|]. apply NoDup_cons in Hnd as [Hr Hnd]. constructor.
    + apply Forall_forall. intros r' Hr'.
      destruct (collect_name _ _ _ Hwf (Hin r ltac:(constructor))) as (Hm & _).
      destruct (collect_name _ _ _ Hwf (Hin r' ltac:(by constructor))) as (Hm' & _).
      assert (pe_name (r_entry r) <> pe_name (r_entry r')) as Hne.
      { intros Heq. apply Hr. rewrite Heq, list_elem_of_In. apply (in_map (fun r => pe_name (r_entry r))). by apply list_elem_of_In. }
      split; [done|]. intros k Hk Hk'. by apply Hne, (Hown _ _ _ _ k Hm Hm').
    + apply IH; [|done]. intros; apply Hin. by constructor.
Qed.

(** The conditions of machines are not kept in secrets. *)
Lemma setMachineConditionStatus_frame names prefix messages :
  runs secrets_wf (frame (fun _ => False) (fun _ => False)) (setMachineConditionStatus names prefix messages) (fun _ => True).
Proof.
  unfold setMachineConditionStatus. eapply (runs_bind _ _ _ _ (fun _ => True)).
  - apply runs_for_fold; [apply _|done|]. intros acc n _ _. unfold condition_one. runs_auto.
  - intros [] _; runs_auto.
Qed.

Lemma tier_status_frame name t :
  runs secrets_wf (frame (fun _ => False) (fun _ => False)) (tier_status name t) (fun _ => True).
Proof.
  unfold tier_status.
  do 4 (eapply runs_bind; [apply _|eapply runs_attempt_err; [apply _|apply setMachineConditionStatus_frame]|]; intros ? _).
  repeat case_match; runs_auto.
Qed.

(** C1: the concurrency limit of a tier is respected by every pass, whatever its outcome and whichever
    requests fail: the machines that were unavailable before, together with the available machines
    whose plan secret the pass touches (to drain them or to deliver a disturbing plan), are at most
    as many as the limit allows, unless more were unavailable already. *)
Theorem reconcile_concurrency cp ts required tierName include exclude maxUnavailable url opts w rs concurrency unavailable :
  secrets_wf w -> plan_wf (w_plan w) -> own_secrets (w_plan w) ->
  tier_reconcilables cp ts (w_plan w) include exclude url = Ret rs ->
  calculateConcurrency maxUnavailable rs exclude = Ret (concurrency, unavailable) -> concurrency <> 0 ->
  let w' := fst (reconcile cp ts required tierName include exclude maxUnavailable url opts w) in
  Z.of_nat (count (disturbed w w') rs) + unavailable <= Z.max unavailable concurrency.
Proof.
  intros Hwf Hpwf Hown Hrs Hconc Hc w'.
  destruct (tier_reconcilables_separate _ _ _ _ _ _ _ Hpwf Hown Hrs) as [Hfresh Hsep].
  destruct (reconcile_loop_budget cp exclude concurrency opts rs (emptyTier unavailable) w Hc Hwf Hfresh Hsep) as (Hwf1 & _ & Hb).
  set (loop := for_fold rs _ _) in *. simpl in Hb.
  assert (forall k, w_secrets w' !! k = w_secrets (loop w).1 !! k) as Hw'.
  { unfold w', reconcile. rewrite (bind_run _ _ _ w (w_plan w)) by done. fold (tier_reconcilables cp ts (w_plan w) include exclude url).
    rewrite (bind_run _ _ _ w rs) by (by rewrite Hrs). rewrite (bind_run _ _ _ w (concurrency, unavailable)) by (by rewrite Hconc).
    fold loop. unfold bind. destruct (loop w) as [w1 [t|e|]]; [|done..].
    destruct (tier_status_frame tierName t w1 Hwf1) as (_ & (_ & _ & _ & Hk) & _).
    intros k. destruct required, (collect (w_plan w) include); simpl; try done; apply Hk; auto. }
  assert (forall r, disturbed w w' r = disturbed w (loop w).1 r) as Hd.
  { intros r. unfold disturbed, secret_of. by destruct (plan_secret_key _); [rewrite Hw'|]. }
  unfold count in *. rewrite (filter_ext _ _ Hd). lia.
Qed.
End concurrency.

Section concurrency_witness.
#[local] Existing Instance demoExternal.
#[local] Instance demoP : Planner := demoPlanner ∅ ∅ [] None.

Let w0 : World :=
  let w := demoWorld [("m1", ∅, demoWorker); ("m2", ∅, demoWorker)] in
  set_w_plan (set_pl_Nodes {[ "m1" := demoNode demoPlan; "m2" := demoNode demoPlan ]} (w_plan w)) w.
Let run (w : World) :=
  reconcile demoControlPlane demoTokens true "worker" isWorker isControlPlaneEtcd "1" "https://a:9345" zeroDrainOptions w.

(** Two machines with a disturbing plan, one may be touched. *)
Lemma reconcile_concurrency_witness : exists rs,
  tier_reconcilables demoControlPlane demoTokens (w_plan w0) isWorker isControlPlaneEtcd "https://a:9345" = Ret rs
  /\ count disturbing rs = 2%nat /\ Z.of_nat (count (disturbed w0 (fst (run w0))) rs) + 0 <= Z.max 0 1.
Proof.
  destruct (returns_with (fun rs => count disturbing rs = 2%nat /\ calculateConcurrency "1" rs isControlPlaneEtcd = Ret (1, 0))
              (tier_reconcilables demoControlPlane demoTokens (w_plan w0) isWorker isControlPlaneEtcd "https://a:9345"))
    as (rs & E & Hv); [vm_compute; split; reflexivity|].
  exists rs. split; [done|]. split; [apply Hv|].
  apply (reconcile_concurrency demoControlPlane demoTokens true "worker" isWorker isControlPlaneEtcd "1"
           "https://a:9345" zeroDrainOptions w0 rs 1 0).
  - intros k s Hk. by apply (demoWorld_wf [("m1", ∅, demoWorker); ("m2", ∅, demoWorker)]).
  - intros k m Hk. by apply (demoWorld_plan_wf [("m1", ∅, demoWorker); ("m2", ∅, demoWorker)]).
  - intros n1 n2 m1 m2 k H1 H2. apply (demoWorld_machine [("m1", ∅, demoWorker); ("m2", ∅, demoWorker)]) in H1 as ->.
    apply (demoWorld_machine [("m1", ∅, demoWorker); ("m2", ∅, demoWorker)]) in H2 as ->.
    intros [= <-] [= Hk]. by apply app_str_inj_r in Hk.
  - done.
  - apply Hv.
  - done.
Defined.
End concurrency_witness.

(** * Convergence of a tier

    What a successful pass over a tier says about its machines. *)

(** ** Success of a pass over a tier *)

Create HintDb tier.

Section success.
Context `{P : Planner} `{!NodePlanCodec}.

(** A machine the tier waits for: it is in one of the lists and there is something to say about it. *)
Definition pending (t : tier) (n : string) : Prop := n ∈ t_outOfSync t \/ n ∈ t_draining t \/ n ∈ t_uncordoned t.
Definition blocked (t : tier) (n : string) : Prop := pending t n /\ default [] (t_messages t !! n) <> [].

Lemma condition_one_waiting messages b n w w' b' :
  condition_one messages b n w = (w', Ret b') -> (b = true -> b' = true) /\ (default [] (messages !! n) <> [] -> b' = true).
Proof.
  unfold condition_one. intros (p & w1 & Hp & Hk)%bind_Ret. inv Hp.
  destruct (pl_Machines (w_plan w1) !! n) as [m|]; [|inv Hk].
  destruct (negb (Cond_IsTrue InfrastructureReady _)); [by inv Hk|].
  destruct (default [] (messages !! n)) as [|x l] eqn:Em.
  - destruct (negb _); [apply bind_Ret in Hk as (? & ? & _ & Hk)|]; by inv Hk.
  - destruct (_ =? Join _ _); [|apply bind_Ret in Hk as (? & ? & _ & Hk)]; by inv Hk.
Qed.

Lemma conditions_waiting messages l : forall b w w' b',
  for_fold l b (condition_one messages) w = (w', Ret b') ->
  (b = true -> b' = true) /\ (forall n, n ∈ l -> default [] (messages !! n) <> [] -> b' = true).
Proof.
  induction l as [|x l IH]; intros b w w' b'; [intros [= _ <-]; split; [done|by intros n ?%not_elem_of_nil]|].
  rewrite for_fold_cons. intros (b1 & w1 & H1%condition_one_waiting & H2%IH)%bind_Ret.
  split; [tauto|]. intros n [->|Hn]%elem_of_cons Hm; [tauto|]. by apply (proj2 H2 n).
Qed.

(** No error means that there was nothing to wait for. *)
Lemma setMachineConditionStatus_Ret names prefix messages w w' u :
  setMachineConditionStatus names prefix messages w = (w', Ret u) ->
  forall n, n ∈ names -> default [] (messages !! n) = [].
Proof.
  unfold setMachineConditionStatus. intros (b & w1 & Hl%conditions_waiting & Hk)%bind_Ret. destruct b; [inv Hk|].
  intros n Hn. destruct (default [] (messages !! n)) as [|x l] eqn:E; [done|].
  assert (false = true); [|done]. apply (proj2 Hl n Hn). by rewrite E.
Qed.

Lemma tier_status_Ret name t w w' u : tier_status name t w = (w', Ret u) -> forall n, ~ blocked t n.
Proof.
  unfold tier_status. intros (e1 & w1 & H1%attempt_err_Ret & Hk)%bind_Ret.
  apply bind_Ret in Hk as (e2 & w2 & H2%attempt_err_Ret & Hk). apply bind_Ret in Hk as (e3 & w3 & H3%attempt_err_Ret & Hk).
  apply bind_Ret in Hk as (e4 & w4 & _ & Hk).
  destruct e1, e2, e3; [done..|]. destruct H1 as [[_ [u1 H1]]|(? & ? & _)]; [|done].
  destruct H2 as [[_ [u2 H2]]|(? & ? & _)]; [|done]. destruct H3 as [[_ [u3 H3]]|(? & ? & _)]; [|done].
  intros n [[Hn|[Hn|Hn]] Hm]; apply Hm.
  - by apply (setMachineConditionStatus_Ret _ _ _ _ _ _ H3).
  - by apply (setMachineConditionStatus_Ret _ _ _ _ _ _ H2).
  - by apply (setMachineConditionStatus_Ret _ _ _ _ _ _ H1).
Qed.

(** A turn of the loop adds to the lists, and speaks about its own machine only. *)
Definition grows (name : string) (t t' : tier) : Prop :=
  (forall n, pending t n -> pending t' n) /\ forall n, n <> name -> t_messages t' !! n = t_messages t !! n.

#[local] Instance grows_preorder name : PreOrder (grows name).
Proof.
  split; [done|]. intros t1 t2 t3 [A1 A2] [B1 B2]. split; [auto|]. intros n Hn. by rewrite B2, A2.
Qed.

Lemma add_outOfSync_grows name t : grows name t (add_outOfSync name t).
Proof. split; [|done]. intros n. unfold pending. simpl. rewrite elem_of_app. tauto. Qed.
Lemma add_draining_grows name t : grows name t (add_draining name t).
Proof. split; [|done]. intros n. unfold pending. simpl. rewrite elem_of_app. tauto. Qed.
Lemma add_uncordoned_grows name t : grows name t (add_uncordoned name t).
Proof. split; [|done]. intros n. unfold pending. simpl. rewrite elem_of_app. tauto. Qed.
Lemma add_ready_grows name t : grows name t (add_ready name t).
Proof. done. Qed.
Lemma add_message_grows name msg t : grows name t (add_message name msg t).
Proof. split; [done|]. intros n Hn. simpl. by rewrite lookup_insert_ne. Qed.
Lemma set_unavailable_grows name u t : grows name t (set_unavailable u t).
Proof. done. Qed.
Lemma summarize_one_grows r t : grows (pe_name (r_entry r)) t (summarize_one r t).
Proof. split; [done|]. intros n Hn. simpl. by rewrite lookup_insert_ne. Qed.

Lemma blocked_grows name t t' n : grows name t t' -> n <> name -> blocked t n -> blocked t' n.
Proof. intros [A B] Hn [Hp Hm]. split; [auto|]. by rewrite B. Qed.

Lemma add_message_blocked name msg t : pending t name -> blocked (add_message name msg t) name.
Proof. intros Hp. split; [done|]. simpl. rewrite lookup_insert_eq. simpl. by destruct (default [] _). Qed.

Lemma pending_outOfSync name t : pending (add_outOfSync name t) name.
Proof. left. simpl. rewrite elem_of_app. right. constructor. Qed.
Lemma pending_draining name t : pending (add_draining name t) name.
Proof. right. left. simpl. rewrite elem_of_app. right. constructor. Qed.
Lemma pending_uncordoned name t : pending (add_uncordoned name t) name.
Proof. right. right. simpl. rewrite elem_of_app. right. constructor. Qed.

(** What has been said about a machine says that its plan is not applied. *)
Definition explained (r : reconcilable) (t : tier) : Prop :=
  getPlanStatusReasonMessage (r_entry r) <> "" -> default [] (t_messages t !! pe_name (r_entry r)) <> [].

Lemma summarize_one_explained r t : explained r (summarize_one r t).
Proof.
  intros Hs. simpl. rewrite lookup_insert_eq. simpl. rewrite bool_decide_eq_false_2 by done. simpl.
  by destruct (sm_Message _).
Qed.

#[local] Hint Resolve add_outOfSync_grows add_draining_grows add_uncordoned_grows add_ready_grows add_message_grows
  set_unavailable_grows add_message_blocked pending_outOfSync pending_draining pending_uncordoned : tier.

Lemma major_change_Ret c opts r n t w w' t' :
  explained r t -> major_change c opts r n t w = (w', Ret t') ->
  grows (pe_name (r_entry r)) t t' /\
  ((may_disrupt c (t_unavailable t) r n = false /\ t_unavailable t' = t_unavailable t) \/ blocked t' (pe_name (r_entry r))).
Proof.
  intros Hex. unfold major_change. set (name := pe_name (r_entry r)) in *. simpl.
  destruct (may_disrupt _ _ _ _); [|intros [= _ <-]; split; [auto with tier|by left]].
  set (t1 := if negb (isUnavailable r) then _ else _).
  assert (grows name t t1 /\ pending t1 name /\ t_messages t1 = t_messages t) as (Hg & Hp & Hm).
  { unfold t1. destruct (negb _); (split; [|by split; [apply pending_outOfSync|]]);
      [transitivity (add_outOfSync name t)|]; auto with tier. }
  clearbody t1. intros ([ok err] & w1 & _ & Hk)%bind_Ret.
  assert (forall msg t2, grows name t1 t2 -> pending t2 name ->
            grows name t (add_message name msg t2) /\
            ((true = false /\ t_unavailable (add_message name msg t2) = t_unavailable t) \/ blocked (add_message name msg t2) name)) as Hadd.
  { intros msg t2 Hg2 Hp2. split; [|by right; apply add_message_blocked].
    transitivity t1; [done|]. transitivity t2; auto with tier. }
  destruct ok, err as [e|]; [inv Hk; apply Hadd; auto with tier| |done|inv Hk; apply Hadd; auto with tier].
  apply bind_Ret in Hk as (e' & w2 & _ & Hk). destruct (_ !=? _); [inv Hk; by apply Hadd|].
  case_bool_decide as Hs; inv Hk; [by apply Hadd|]. split; [done|]. right. split; [done|]. rewrite Hm. by apply Hex.
Qed.

(** The kubelet runs the version the cluster is to have, as far as it has reported one and the cluster answers. *)
Definition kubelet_current (cp : RKEControlPlane) (m : Machine) : Prop :=
  forall v, m_KubeletVersion m = Some v -> st_AgentConnected (cp_Status cp) = true ->
    exists kubelet kubernetes, NewVersion (TrimPrefix v "v") = Ret kubelet /\ NewVersion (TrimPrefix (cp_version cp) "v") = Ret kubernetes
      /\ Major kubelet = Major kubernetes /\ Minor kubelet = Minor kubernetes /\ Patch kubelet = Patch kubernetes.

Lemma kubeletVersionUpToDate_spec cp m : kubeletVersionUpToDate cp m = true -> kubelet_current cp m.
Proof.
  unfold kubeletVersionUpToDate, kubelet_current. intros Hv v Hm Ha. rewrite Hm, Ha in Hv. cbn [negb] in Hv.
  destruct (NewVersion (TrimPrefix v "v")) as [a| |], (NewVersion (TrimPrefix (cp_version cp) "v")) as [b| |]; try done.
  rewrite !andb_true_iff, !bool_decide_eq_true in Hv. exists a, b. tauto.
Qed.

Lemma settled_Ret cp r t w w' t' :
  settled cp r t w = (w', Ret t') ->
  grows (pe_name (r_entry r)) t t' /\
  (blocked t' (pe_name (r_entry r)) \/
   t_unavailable t' = t_unavailable t /\ kubelet_current cp (pe_Machine (r_entry r))
   /\ (isControlPlane (r_entry r) = true -> st_AgentConnected (cp_Status cp) = true)).
Proof.
  unfold settled. set (name := pe_name (r_entry r)). intros ([ok err] & w1 & _ & Hk)%bind_Ret.
  assert (forall msg t2, grows name t t2 -> pending t2 name ->
            grows name t (add_message name msg t2) /\ (blocked (add_message name msg t2) name \/
              t_unavailable (add_message name msg t2) = t_unavailable t /\ kubelet_current cp (pe_Machine (r_entry r))
              /\ (isControlPlane (r_entry r) = true -> st_AgentConnected (cp_Status cp) = true))) as Hadd.
  { intros msg t2 Hg2 Hp2. split; [|by left; apply add_message_blocked]. transitivity t2; auto with tier. }
  destruct ok, err as [e|]; [inv Hk; apply Hadd; auto with tier| |done|inv Hk; apply Hadd; auto with tier].
  destruct (kubeletVersionUpToDate _ _) eqn:Hv; cbn [negb] in Hk; [apply kubeletVersionUpToDate_spec in Hv|inv Hk; apply Hadd; auto with tier].
  destruct (isControlPlane _), (st_AgentConnected _); inv Hk; try (apply Hadd; auto with tier; done);
    (split; [auto with tier|right; done]).
Qed.

(** The plan of a machine is applied by its agent, without errors, and healthy. *)
Definition plan_settled (n : Node) : Prop :=
  np_Instructions (n_Plan n) <> [] /\ is_Some (n_AppliedPlan n) /\ np_Error (n_Plan n) = "" /\ n_Healthy n = true /\ n_InSync n = true.

(** A delivery has to wait: there is a limit, it is used up by machines that are unavailable, and none of the exceptions
    applies, that the machine is in a drain already, that its plan has failed, or that it never was healthy. *)
Definition held_back (concurrency unavailable : Z) (r : reconcilable) (n : Node) : Prop :=
  concurrency <> 0 /\ concurrency <= unavailable /\ isInDrain (r_entry r) = false /\ n_Failed n = false
  /\ planAppliedButProbesNeverHealthy n = false.

Lemma may_disrupt_false c u r n : may_disrupt c u r n = false -> held_back c u r n.
Proof. unfold may_disrupt, held_back. rewrite !orb_false_iff, Z.eqb_neq, Z.ltb_ge. tauto. Qed.

(** The plan secret of a machine holds a plan. *)
Definition holds_plan (w : World) (m : Machine) (plan : NodePlan) : Prop :=
  exists s n, secret_of w m = Some s /\ SecretToNode s = Ret (Some n) /\ n_Plan n = plan.

Lemma UpdatePlan_holds r plan joinedTo mf ft w w' e : secrets_wf w ->
  UpdatePlan (r_entry r) plan joinedTo mf ft w = (w', Ret e) -> holds_plan w' (pe_Machine (r_entry r)) plan.
Proof.
  intros Hwf Hrun. destruct (UpdatePlan_Ret _ _ _ _ _ _ _ _ Hwf Hrun) as (key & old & new & n & Hkey & _ & Hw' & Hn & _ & Hp & _).
  exists new, n. unfold secret_of. by rewrite Hkey, Hw', lookup_insert_eq.
Qed.

(** What success says about a machine: it has the desired plan and nothing is left to do, or only a minor
    change was just delivered, or a change is held back by the concurrency limit. *)
Definition at_rest (cp : RKEControlPlane) (concurrency unavailable : Z) (w' : World) (r : reconcilable) : Prop :=
  exists n, pe_Plan (r_entry r) = Some n /\
    ((minorPlanChangeDetected (n_Plan n) (r_desiredPlan r) = true /\ holds_plan w' (pe_Machine (r_entry r)) (r_desiredPlan r))
     \/ (n_Plan n <> r_desiredPlan r /\ held_back concurrency unavailable r n)
     \/ (n_Plan n = r_desiredPlan r /\ plan_settled n /\ kubelet_current cp (pe_Machine (r_entry r))
         /\ (isControlPlane (r_entry r) = true -> st_AgentConnected (cp_Status cp) = true))).

(** What is recorded about the change of the plan. *)
Definition change_recorded (r : reconcilable) : Prop :=
  forall n, pe_Plan (r_entry r) = Some n ->
    r_change r = negb (bool_decide (n_Plan n = r_desiredPlan r)) /\ r_minorChange r = minorPlanChangeDetected (n_Plan n) (r_desiredPlan r).

Lemma tier_reconcilables_recorded cp ts p include exclude url rs :
  tier_reconcilables cp ts p include exclude url = Ret rs -> Forall change_recorded rs.
Proof.
  unfold tier_reconcilables. intros Hrs%res_map_Ret. induction Hrs as [|e r es rs Hr _ IH]; constructor; [|done].
  unfold reconcilable_of in Hr. res_inv. intros k Hk. simpl in *. by rewrite Hk.
Qed.

Lemma at_rest_frame cp c u w w' r : secret_of w' (pe_Machine (r_entry r)) = secret_of w (pe_Machine (r_entry r)) ->
  at_rest cp c u w r -> at_rest cp c u w' r.
Proof. unfold at_rest, holds_plan. intros ->. done. Qed.

Lemma reconcile_one_Ret cp exclude c opts t r w w' t' :
  secrets_wf w -> fresh_in w r -> exclude (r_entry r) = false -> change_recorded r ->
  reconcile_one cp exclude c opts t r w = (w', Ret t') ->
  grows (pe_name (r_entry r)) t t'
  /\ (blocked t' (pe_name (r_entry r)) \/ t_unavailable t' = t_unavailable t /\ at_rest cp c (t_unavailable t) w' r).
Proof.
  intros Hwf Hf Hx Hcmp. unfold reconcile_one. rewrite (bind_run _ _ _ _ _ (refresh_fresh w r Hf)). rewrite set_r_entry_id, Hx.
  set (name := pe_name (r_entry r)) in *. pose proof (summarize_one_explained r t) as Hex.
  pose proof (summarize_one_grows r t) as Hg. assert (t_unavailable (summarize_one r t) = t_unavailable t) as Hu by done.
  set (t1 := summarize_one r t) in *. clearbody t1.
  assert (getPlanStatusReasonMessage (r_entry r) <> "" ->
          grows name t (add_outOfSync name t1) /\ (blocked (add_outOfSync name t1) name
            \/ t_unavailable (add_outOfSync name t1) = t_unavailable t /\ at_rest cp c (t_unavailable t) w' r)) as Hout.
  { intros Hs. split; [transitivity t1; auto with tier|]. left. split; [auto with tier|by apply Hex]. }
  destruct (pe_Plan (r_entry r)) as [n|] eqn:En.
  2:{ intros (e & w1 & _ & Hk)%bind_Ret. inv Hk. apply Hout. unfold getPlanStatusReasonMessage. rewrite En.
      unfold noPlanMessage. by repeat case_match. }
  destruct (Hcmp n En) as [Hch Hmin]. destruct (r_minorChange r) eqn:Em.
  { intros (e & w1 & Hup & Hk)%bind_Ret. inv Hk. split; [transitivity t1; auto with tier|]. right. split; [done|]. exists n. split; [done|].
    left. split; [done|]. by eapply UpdatePlan_holds. }
  destruct (r_change r) eqn:Ec.
  { intros [Hg' [[Hm Hu']|Hb]]%(major_change_Ret _ _ _ _ _ _ _ _ Hex); (split; [by transitivity t1|]); [|by left].
    right. split; [congruence|]. exists n. split; [done|]. right. left. split; [by symmetry in Hch; apply negb_true_iff, bool_decide_eq_false in Hch|].
    rewrite <- Hu. by apply may_disrupt_false. }
  destruct (bool_decide_reflect (getPlanStatusReasonMessage (r_entry r) = "")) as [Hs|Hs]; cbn [negb]; [|intros Heq; inv Heq; by apply Hout].
  intros [Hg' [Hb|(Hu' & Hk & Ha)]]%settled_Ret; (split; [by transitivity t1|]); [by left|].
  right. split; [congruence|]. exists n. split; [done|]. right. right. apply getPlanStatusReasonMessage_empty in Hs as (n' & Hn' & Hd).
  replace n' with n in Hd by congruence. split; [by symmetry in Hch; apply negb_false_iff, bool_decide_eq_true in Hch|]. by split.
Qed.

Lemma reconcile_loop_Ret cp exclude c opts l : forall t w w' t',
  secrets_wf w -> Forall (fresh_in w) l -> ForallOrdPairs separate l -> Forall (fun r => exclude (r_entry r) = false) l -> Forall change_recorded l ->
  for_fold l t (reconcile_one cp exclude c opts) w = (w', Ret t') ->
  secrets_wf w'
  /\ (forall r, (forall x, x ∈ l -> separate x r) -> secret_of w' (pe_Machine (r_entry r)) = secret_of w (pe_Machine (r_entry r)))
  /\ (forall n, ~ n ∈ map (fun r => pe_name (r_entry r)) l -> blocked t n -> blocked t' n)
  /\ ((exists n, blocked t' n) \/ t_unavailable t' = t_unavailable t /\ Forall (at_rest cp c (t_unavailable t) w') l).
Proof.
  induction l as [|x l IH]; intros t w w' t' Hwf Hfr Hsep Hx Hcmp.
  { intros [= <- <-]. split; [done|]. split; [done|]. split; [auto|]. right. split; [done|constructor]. }
  apply Forall_cons in Hfr as [Hfx Hfl]. apply Forall_cons in Hx as [Hxx Hxl]. apply Forall_cons in Hcmp as [Hcx Hcl].
  inversion Hsep as [|? ? Hxs Hsl]; subst. rewrite for_fold_cons. intros (t1 & w1 & H1 & H2)%bind_Ret.
  pose proof (reconcile_one_frame cp exclude c opts t x w Hwf Hfx) as Hframe. rewrite H1 in Hframe.
  destruct Hframe as (Hwf1 & Hfr1 & _). apply reconcile_one_Ret in H1 as [Hg Hr]; [|done..].
  assert (Forall (fresh_in w1) l) as Hfl1.
  { rewrite Forall_forall in *. intros r Hr'. apply (frame_fresh x r w w1); auto. }
  destruct (IH t1 w1 w' t' Hwf1 Hfl1 Hsl Hxl Hcl H2) as (IH1 & IH2 & IH3 & IH4). split; [done|]. split; [|split].
  - intros r Hs. rewrite IH2 by (intros; apply Hs; by right). apply (frame_secret_of x r w w1); [apply Hs; left|done].
  - intros n Hn Hb. simpl in Hn. rewrite elem_of_cons in Hn. apply IH3; [tauto|].
    apply (blocked_grows (pe_name (r_entry x)) t); auto.
  - rewrite Forall_forall in Hxs. destruct Hr as [Hb|[Hu Hr]].
    + left. exists (pe_name (r_entry x)). apply IH3; [|done].
      rewrite list_elem_of_In, in_map_iff. intros (y & Hy & Hin). destruct (Hxs y) as [Hne _]; [by apply list_elem_of_In|]. done.
    + destruct IH4 as [Hb|[Hu' Hl]]; [by left|]. right. rewrite Hu in Hu', Hl. split; [congruence|]. constructor; [|done].
      eapply at_rest_frame; [|exact Hr]. apply IH2. intros y Hy. destruct (Hxs y Hy) as [Ha Hb]. split; [auto|]. intros k K1 K2. by apply (Hb k).
Qed.

(** C2: when a pass over a tier succeeds, every machine of the tier is at rest: it has the desired plan,
    the plan is applied without errors and healthy, the kubelet has the version of the cluster and, on a control plane
    node, the agent is connected.  The only exceptions are a minor change that was delivered in this pass, and a change that
    has to wait: as many machines as the limit allows were unavailable when the pass began, and the machine is not
    in a drain, its plan has not failed, and it has been healthy once. *)
Theorem reconcile_success cp ts required tierName include exclude maxUnavailable url opts w w' rs concurrency unavailable :
  secrets_wf w -> plan_wf (w_plan w) -> own_secrets (w_plan w) ->
  tier_reconcilables cp ts (w_plan w) include exclude url = Ret rs ->
  calculateConcurrency maxUnavailable rs exclude = Ret (concurrency, unavailable) ->
  reconcile cp ts required tierName include exclude maxUnavailable url opts w = (w', Ret tt) ->
  Forall (at_rest cp concurrency unavailable w') rs /\ (required = true -> collect (w_plan w) include <> []).
Proof.
  intros Hwf Hpwf Hown Hrs Hconc.
  destruct (tier_reconcilables_separate _ _ _ _ _ _ _ Hpwf Hown Hrs) as [Hfresh Hsep].
  unfold reconcile. rewrite (bind_run _ _ _ w (w_plan w)) by done. fold (tier_reconcilables cp ts (w_plan w) include exclude url).
  rewrite (bind_run _ _ _ w rs) by (by rewrite Hrs). rewrite (bind_run _ _ _ w (concurrency, unavailable)) by (by rewrite Hconc).
  intros (t & w1 & Hl & Hk)%bind_Ret. split; [|intros -> Hnil; by rewrite Hnil in Hk].
  apply reconcile_loop_Ret in Hl as (Hwf1 & _ & _ & Hl); [|done..| |by eapply tier_reconcilables_recorded].
  - assert (tier_status tierName t w1 = (w', Ret tt)) as Hts by (by destruct required, (collect (w_plan w) include)).
    destruct Hl as [[n Hb]|[_ Hl]]; [by apply (tier_status_Ret _ _ _ _ _ Hts) in Hb|].
    destruct (tier_status_frame tierName t w1 Hwf1) as (_ & (_ & _ & _ & Hkeep) & _). rewrite Hts in Hkeep. cbn [fst] in Hkeep.
    eapply Forall_impl; [exact Hl|]. intros r. apply at_rest_frame. unfold secret_of. destruct (plan_secret_key _); [|done]. apply Hkeep. auto.
  - apply tier_reconcilables_entries in Hrs. apply Forall_forall. intros r Hr.
    assert (r_entry r ∈ map r_entry rs) as Hin by (by apply list_elem_of_In, in_map, list_elem_of_In).
    rewrite Hrs in Hin. apply elem_of_filter_bool in Hin as [_ Hx]. by apply negb_true_iff.
Qed.
End success.

Section witnesses.
#[local] Existing Instance demoExternal.
#[local] Existing Instance demoP.

Let desired : NodePlan :=
  match desiredPlan demoControlPlane demoTokens (demoEntry "m1" None demoWorker) "https://a:9345" with
  | Ret (p, _) => p | _ => emptyNodePlan end.
Let w0 : World :=
  let w := demoWorld [("m1", ∅, demoWorker)] in
  set_w_plan (set_pl_Nodes {[ "m1" := demoNode desired ]} (w_plan w)) w.

Lemma reconcile_success_witness : exists rs,
  tier_reconcilables demoControlPlane demoTokens (w_plan w0) isWorker isControlPlaneEtcd "https://a:9345" = Ret rs
  /\ length rs = 1%nat
  /\ exists w', reconcile demoControlPlane demoTokens true "worker" isWorker isControlPlaneEtcd "1" "https://a:9345" zeroDrainOptions w0 = (w', Ret tt)
  /\ Forall (at_rest demoControlPlane 1 0 w') rs.
Proof.
  destruct (returns_with (fun rs => length rs = 1%nat /\ calculateConcurrency "1" rs isControlPlaneEtcd = Ret (1, 0))
              (tier_reconcilables demoControlPlane demoTokens (w_plan w0) isWorker isControlPlaneEtcd "https://a:9345"))
    as (rs & E & Hv); [vm_compute; split; reflexivity|].
  exists rs. split; [done|]. split; [apply Hv|].
  destruct (returns_run (reconcile demoControlPlane demoTokens true "worker" isWorker isControlPlaneEtcd "1" "https://a:9345"
              zeroDrainOptions) w0) as (w' & [] & Er); [vm_compute; reflexivity|]. exists w'. split; [done|].
  apply (reconcile_success (H0 := demoNodePlanCodec) demoControlPlane demoTokens true "worker" isWorker isControlPlaneEtcd "1"
           "https://a:9345" zeroDrainOptions w0 w' rs 1 0).
  - intros k s Hk. by apply (demoWorld_wf [("m1", ∅, demoWorker)]).
  - intros k m Hk. by apply (demoWorld_plan_wf [("m1", ∅, demoWorker)]).
  - intros n1 n2 m1 m2 k H1 H2. apply (demoWorld_machine [("m1", ∅, demoWorker)]) in H1 as ->.
    apply (demoWorld_machine [("m1", ∅, demoWorker)]) in H2 as ->.
    intros [= <-] [= Hk]. by apply app_str_inj_r in Hk.
  - done.
  - apply Hv.
  - done.
Defined.
End witnesses.
