(* ===== verification/Cluster.v ===== *)
(** * The cluster around the machines ([pkg/capr/planner/planner.go])

    The status that a pass threads along, pausing the owning cluster-api cluster, the state secret,
    and the checks and the full reconciliation that [Process] composes. *)

From S2P Require Import Prelude GoLib Codec Errors Types External Instances Capr PlanEntry World Store InitNode Drain DesiredPlan Changes Reconcile.

(** ** Status passing

    Methods take a status and return a status with an error; the status they return with an error
    is kept, so the pair of world and status is the state. *)
Definition SM (A : Type) : Type := ST (World * ControlPlaneStatus) A.

Definition inW {A} (c : M A) : SM A := fun ws =>
  let '(w, s) := ws in let '(w', r) := c w in ((w', s), r).
Definition get_status : SM ControlPlaneStatus := gets snd.
Definition put_status (s : ControlPlaneStatus) : SM unit := modify (fun ws => (fst ws, s)).
Definition mod_status (f : ControlPlaneStatus -> ControlPlaneStatus) : SM unit := modify (fun ws => (fst ws, f (snd ws))).

Section conditions.
Context `{External}.
(** [Cond.True(&status)] and the like. *)
Definition cond_status (cond v : string) (s : ControlPlaneStatus) : ControlPlaneStatus :=
  set_st_Conditions (Cond_SetStatus cond v (st_Conditions s)) s.
Definition cond_message (cond v : string) (s : ControlPlaneStatus) : ControlPlaneStatus :=
  set_st_Conditions (Cond_Message cond v (st_Conditions s)) s.
Definition cond_reason (cond v : string) (s : ControlPlaneStatus) : ControlPlaneStatus :=
  set_st_Conditions (Cond_Reason cond v (st_Conditions s)) s.
End conditions.

(** ** Programs that keep a part of the status

    [steady J pi E c]: from a status whose part [pi] satisfies [J], a run of [c] that returns a value
    leaves that part as it was, and a run that ends with an error or a panic relates it by [E].  The
    operations of the planner end the pass with an error whenever they change their state, so this is
    the form their transitions take. *)
Section steady.
Context {X : Type} (J : X -> Prop) (pi : ControlPlaneStatus -> X) (E : X -> X -> Prop).

Definition steady {A} (c : SM A) : Prop :=
  forall ws, J (pi (snd ws)) ->
  let '(ws', r) := c ws in
  match r with Ret _ => pi (snd ws') = pi (snd ws) | _ => E (pi (snd ws)) (pi (snd ws')) end.

Lemma steady_ret {A} (a : A) : steady (ret a).
Proof. by intros ws _. Qed.
Lemma steady_get : steady get_status.
Proof. by intros ws _. Qed.
Lemma steady_mod f : (forall s, pi (f s) = pi s) -> steady (mod_status f).
Proof. intros Hf ws _. apply Hf. Qed.

Context `{!Reflexive E}.

Lemma steady_fail {A} e : steady (fail (A := A) e).
Proof. intros ws _. simpl. reflexivity. Qed.
Lemma steady_panic {A} : steady (panic (A := A)).
Proof. intros ws _. simpl. reflexivity. Qed.
Lemma steady_lift {A} (r : res A) : steady (lift r).
Proof. intros ws _. simpl. by destruct r. Qed.
Lemma steady_fail_if e : steady (fail_if e).
Proof. destruct e; [apply steady_fail|apply steady_ret]. Qed.
Lemma steady_inW {A} (c : M A) : steady (inW c).
Proof. intros [w s] _. unfold inW. destruct (c w) as [w' [a| |]]; simpl; reflexivity. Qed.

Lemma steady_bind {A B} (c : SM A) (k : A -> SM B) : steady c -> (forall a, steady (k a)) -> steady (bind c k).
Proof.
  intros Hc Hk ws HJ. unfold bind. specialize (Hc ws HJ). destruct (c ws) as [ws1 [a|e|]]; [|done..].
  specialize (Hk a ws1). rewrite Hc in Hk. apply Hk, HJ.
Qed.

Lemma steady_bind_lift {A B} (r : res A) (k : A -> SM B) :
  (forall a, r = Ret a -> steady (k a)) -> steady (bind (lift r) k).
Proof. intros Hk ws HJ. unfold bind, lift. destruct r as [a|e|]; [by apply Hk|simpl; reflexivity..]. Qed.

Lemma steady_for_fold {A B} (l : list A) (body : B -> A -> SM B) acc :
  (forall acc x, steady (body acc x)) -> steady (for_fold l acc body).
Proof.
  intros Hb. revert acc. induction l as [|x l IH]; intros acc; [apply steady_ret|]. by apply steady_bind.
Qed.
End steady.

Lemma steady_mono {X A} (J : X -> Prop) pi (E E' : X -> X -> Prop) (c : SM A) :
  steady J pi E c -> (forall x y, J x -> E x y -> E' x y) -> steady J pi E' c.
Proof.
  intros Hc HE ws HJ. specialize (Hc ws HJ). destruct (c ws) as [ws' [a|e|]]; auto.
Qed.

(** A step of the world leaves the status alone. *)
Lemma inW_Ret {A} (c : M A) w s ws' a :
  inW c (w, s) = (ws', Ret a) -> exists w', ws' = (w', s) /\ c w = (w', Ret a).
Proof. unfold inW. destruct (c w) as [w' r]. intros [= <- ->]. eauto. Qed.

(** Follows the structure of a program. *)
Ltac steady_step :=
  match goal with
  | |- steady _ _ _ (ret _) => apply steady_ret
  | |- steady _ _ _ get_status => apply steady_get
  | |- steady _ _ _ (mod_status _) => apply steady_mod; by intros
  | |- steady _ _ _ (fail _) => apply steady_fail; apply _
  | |- steady _ _ _ panic => apply steady_panic; apply _
  | |- steady _ _ _ (lift _) => apply steady_lift; apply _
  | |- steady _ _ _ (fail_if _) => apply steady_fail_if; apply _
  | |- steady _ _ _ (inW _) => apply steady_inW; apply _
  | |- steady _ _ _ (for_fold _ _ _) => apply steady_for_fold; intros
  | |- steady _ _ _ (bind _ _) => apply steady_bind; [|intros]
  | |- steady _ _ _ (match ?x with _ => _ end) => destruct x eqn:?
  | |- steady _ _ _ (if ?x then _ else _) => destruct x eqn:?
  | _ => progress cbn beta iota zeta
  end.
Ltac steady_auto := repeat first [solve [eauto with planner] | steady_step].

Definition bootstrapTier : string := "bootstrap".
Definition etcdTier : string := "etcd".
Definition controlPlaneTier : string := "control plane".
Definition workerTier : string := "worker".

Definition ExcludeNodeDrainingAnnotation : string := "machine.cluster.x-k8s.io/exclude-node-draining".
Definition ControlPlaneInitializedCondition : string := "ControlPlaneInitialized".
Definition WaitingForControlPlaneProviderInitializedReason : string := "WaitingForControlPlaneProviderInitialized".

Section cluster.
Context `{P : Planner}.

Definition pauseCAPICluster (cp : RKEControlPlane) (pause : bool) : M unit :=
  RetryOnConflict RetryOnConflict_Steps
    (let* cluster := lift (GetOwnerCAPICluster cp) in
     match cluster with
     | None => fail (errorString ("CAPI cluster does not exist for " +:+ cp_id cp))
     | Some c => if Bool.eqb (cc_Paused c) pause then ret tt else capiClient_Update (set_cc_Paused pause c)
     end).

Definition ensureCAPIClusterControlPlaneInitializedFalse (cp : RKEControlPlane) : M unit :=
  let* cluster := lift (GetOwnerCAPICluster cp) in
  match cluster with
  | None => fail (errorString ("CAPI cluster does not exist for " +:+ cp_id cp))
  | Some c =>
      if negb (capi_IsFalse ControlPlaneInitializedCondition (cc_Conditions c)) then
        capiClient_Update (set_cc_Conditions
          (MarkFalse ControlPlaneInitializedCondition WaitingForControlPlaneProviderInitializedReason "Info"
             "Waiting for control plane provider to indicate the control plane has been initialized"
             (cc_Conditions c)) c)
      else ret tt
  end.

(** [ensureRKEStateSecret]: tokens are generated only for a cluster without any delivered plan. *)
Definition ensureRKEStateSecret (controlPlane : RKEControlPlane) (newCluster : bool) : M TokensSecret :=
  if sp_UnmanagedConfig (cp_Spec controlPlane) then ret (mkTokensSecret "" "")
  else
    let name := name_SafeConcatName [cp_Name controlPlane; "rke"; "state"] in
    match secretCache_Get (cp_Namespace controlPlane) name with
    | Panic => panic
    | Fail e =>
        if IsNotFound e then
          if negb newCluster
          then fail (wrapError ("newCluster was false and secret does not exist: " +:+ Error e) e)
          else
            let* serverToken := randomtoken_Generate in
            let* agentToken := randomtoken_Generate in
            let* _ := secrets_Create
              (mkSecret (cp_Namespace controlPlane) name SecretTypeClusterState ∅ ∅
                 (<["serverToken" := serverToken]> {[ "agentToken" := agentToken ]})
                 [mkOwnerReference RKEAPIVersion "RKEControlPlane" (cp_Name controlPlane) (cp_UID controlPlane) false] false) in
            ret (mkTokensSecret serverToken agentToken)
        else fail e
    | Ret secret =>
        if s_Type secret !=? SecretTypeClusterState
        then fail (errorString ("secret " +:+ s_Namespace secret +:+ "/" +:+ s_Name secret +:+ " type " +:+ s_Type secret
                     +:+ " did not match expected type " +:+ SecretTypeClusterState))
        else ret (mkTokensSecret (map_get (s_Data secret) "serverToken") (map_get (s_Data secret) "agentToken"))
    end.

(** [forceDeleteAllDeletingEtcdMachines] (etcdrestore.go) *)
Definition force_delete_one (entry : planEntry) : M unit :=
  let machine := pe_Machine entry in
  match m_ConfigRef machine with
  | None => ret tt
  | Some ref =>
      if negb (Contains (ref_APIVersion ref) "rke.cattle.io") then ret tt
      else
        let machine := set_m_Annotations (<[ExcludeNodeDrainingAnnotation := "true"]> (m_Annotations machine)) machine in
        let* _ := modify (fun w => set_w_plan (set_pl_Machines (<[m_Name machine := machine]> (pl_Machines (w_plan w))) (w_plan w)) w) in
        let* _ := machines_Update machine in
        let* rb := lift (rkeBootstrapCache_Get (ref_Namespace ref) (ref_Name ref)) in
        rkeBootstrap_Update (set_rb_Annotations (<[ForceRemoveEtcdAnnotation := "true"]> (rb_Annotations rb)) rb)
  end.

Definition forceDeleteAllDeletingEtcdMachines : M nat :=
  let* etcdDeleting := collectM (roleAnd isEtcd isDeleting) in
  let* _ := for_fold etcdDeleting tt (fun _ e => force_delete_one e) in
  ret (length etcdDeleting).

(** ** Checks *)

Definition clusterIsSane (plan : Plan) : bool :=
  negb ((length (collect plan (roleAnd isEtcd (roleNot isDeleting))) =? 0)%nat
        || (length (collect plan (roleAnd isControlPlane (roleNot isDeleting))) =? 0)%nat
        || (length (collect plan (roleAnd isWorker (roleNot isDeleting))) =? 0)%nat).

(** The loop of [getLowestMachineKubeletVersion] for a given order of the machines. *)
Definition lowest_step (lowest : option semver) (machine : Machine) : option semver :=
  match m_KubeletVersion machine with
  | None => lowest
  | Some v => match NewVersion v with
              | Ret ver => match lowest with
                           | None => Some ver
                           | Some l => if LessThan ver l then Some ver else lowest
                           end
              | _ => lowest
              end
  end.
Definition getLowestMachineKubeletVersion (plan : Plan) : option semver :=
  fold_left lowest_step (map snd (map_to_list (pl_Machines plan))) None.

Definition systemUpgradeControllerPSPsDisabled (data : string) : res bool :=
  if data =? "" then Fail (errorString "data for SUC Metadata was blank")
  else match base64_DecodeString data with
       | None => Fail (errorString "illegal base64 data")
       | Some raw => let? enabled := json_Unmarshal_SUCMetadata raw in Ret (negb enabled)
       end.

Definition blockProgressForSUCPSPIf125 `{!SemverLaws} (status : ControlPlaneStatus) (currentVersion lowestKubelet : semver)
  : res unit :=
  if negb (LessThan currentVersion Kubernetes125) && LessThan lowestKubelet Kubernetes125 then
    let conds := st_Conditions status in
    let cond := SystemUpgradeControllerReady in
    if (Cond_GetStatus cond conds =? "") || Cond_IsFalse cond conds || Cond_IsUnknown cond conds then
      if Cond_GetReason cond conds !=? ""
      then Fail (errWaitingf ("waiting for system-upgrade-controller helm chart reconciliation: " +:+ Cond_GetReason cond conds))
      else Fail (errWaiting "waiting for system-upgrade-controller helm chart reconciliation")
    else
      match systemUpgradeControllerPSPsDisabled (Cond_GetMessage cond conds) with
      | Ret true => Ret tt
      | Ret false => Fail (errWaiting "system-upgrade-controller helm chart has podsecuritypolicy enabled, waiting for helm chart reconciliation")
      | Fail e => Fail (errWaitingf ("error occurred while determining whether SUC PSPs were disabled: " +:+ Error e))
      | Panic => Panic
      end
  else Ret tt.

(** ** Full reconciliation *)

(** Run a tier and split its error with [ignoreErrors]. *)
Definition run_tier (firstIgnoreError : option error) (c : M unit) : SM (option error) :=
  let* err := inW (attempt_err c) in
  let '(firstIgnoreError, err) := ignoreErrors firstIgnoreError err in
  let* _ := fail_if err in
  ret firstIgnoreError.

(** The join server for the machines that are not the init node. *)
Definition join_server (cp : RKEControlPlane) (joinServer : string) (firstIgnoreError : option error) : SM string :=
  if joinServer =? "" then
    let* ' (_, joinServer, _, err) := inW (findInitNode cp) in
    let* _ := fail_if err in
    if joinServer =? "" then
      match firstIgnoreError with
      | Some e => fail (errWaiting (Error e +:+ " and join url to be available on bootstrap node"))
      | None => fail (errWaiting "waiting for join url to be available on bootstrap node")
      end
    else ret joinServer
  else ret joinServer.

(** The options of the tiers; a restore ignores draining and concurrency. *)
Definition tier_options (cp : RKEControlPlane) (ignoreDrainAndConcurrency : bool)
  : DrainOptions * DrainOptions * string * string :=
  let us := sp_UpgradeStrategy (cp_Spec cp) in
  if negb ignoreDrainAndConcurrency
  then (us_ControlPlaneDrainOptions us, us_WorkerDrainOptions us, us_ControlPlaneConcurrency us, us_WorkerConcurrency us)
  else (zeroDrainOptions, zeroDrainOptions, "", "").

Definition fullReconcile (cp : RKEControlPlane) (tokens : TokensSecret) (ignoreDrainAndConcurrency : bool) : SM unit :=
  let* joinServer := inW (electInitNode cp true) in
  let '(controlPlaneDrainOptions, workerDrainOptions, controlPlaneConcurrency, workerConcurrency) :=
    tier_options cp ignoreDrainAndConcurrency in
  let* err := inW (attempt_err (reconcile cp tokens true bootstrapTier isEtcd isNotInitNodeOrIsDeleting
                                  "1" "" controlPlaneDrainOptions)) in
  let* _ := mod_status (cond_status Bootstrapped "True") in
  let '(firstIgnoreError, err) := ignoreErrors None err in
  let* _ := fail_if err in
  let* joinServer := join_server cp joinServer firstIgnoreError in
  let* firstIgnoreError := run_tier firstIgnoreError
    (reconcile cp tokens true etcdTier isEtcd isInitNodeOrDeleting "1" joinServer controlPlaneDrainOptions) in
  let* firstIgnoreError := run_tier firstIgnoreError
    (reconcile cp tokens true controlPlaneTier isControlPlane isInitNodeOrDeleting
       controlPlaneConcurrency joinServer controlPlaneDrainOptions) in
  let* joinURLs := inW (collectM joinable) in
  match joinURLs with
  | [] => fail (errWaiting "waiting for control plane to be available")
  | _ =>
      let* s := get_status in
      if negb (st_Initialized s) || negb (st_Ready s) then
        let* _ := mod_status (fun s => set_st_Ready true (set_st_Initialized true s)) in
        fail (errWaiting "marking control plane as initialized and ready")
      else
        let* firstIgnoreError := run_tier firstIgnoreError
          (reconcile cp tokens false workerTier isOnlyWorker isInitNodeOrDeleting workerConcurrency "" workerDrainOptions) in
        match firstIgnoreError with
        | Some e => fail (errWaiting (Error e))
        | None => ret tt
        end
  end.
End cluster.

Section reconciliation.
Context `{P : Planner}.

Lemma steady_run_tier {X} J (pi : ControlPlaneStatus -> X) E `{!Reflexive E} first c : steady J pi E (run_tier first c).
Proof. unfold run_tier. steady_step; [steady_auto|]. destruct (ignoreErrors _ _). steady_auto. Qed.

(** The full reconciliation touches the conditions and the two readiness flags of the status only. *)
Lemma steady_fullReconcile {X} J (pi : ControlPlaneStatus -> X) E `{!Reflexive E} cp ts b :
  (forall s c r i, pi (set_st_Conditions c s) = pi s /\ pi (set_st_Ready r (set_st_Initialized i s)) = pi s) ->
  steady J pi E (fullReconcile cp ts b).
Proof.
  intros Hpi. unfold fullReconcile. steady_step; [steady_auto|].
  destruct (tier_options cp b) as [[[d1 d2] c1] c2]. steady_step; [steady_auto|].
  steady_step; [apply steady_mod; intros s; apply (Hpi s _ true true)|].
  destruct (ignoreErrors _ _) as [first err]. steady_step; [steady_auto|].
  steady_step; [unfold join_server; steady_auto|].
  do 2 (steady_step; [by apply steady_run_tier|]). steady_step; [steady_auto|].
  destruct (_ : list planEntry); [steady_auto|]. steady_step; [steady_auto|].
  destruct (_ || _).
  - steady_step; [apply steady_mod; intros s; apply (Hpi s []) | steady_auto].
  - steady_step; [by apply steady_run_tier|]. steady_auto.
Qed.

(** An ignored error is remembered, so a tier without error is the only way to remember none. *)
Lemma run_tier_Ret first c w s ws' :
  run_tier first c (w, s) = (ws', Ret None) -> exists w', ws' = (w', s) /\ c w = (w', Ret tt) /\ first = None.
Proof.
  unfold run_tier. intros (err & ws1 & Hc & Hk)%bind_Ret. apply inW_Ret in Hc as (w1 & -> & Hc).
  destruct (ignoreErrors first err) as [f e] eqn:Ei. apply bind_Ret in Hk as ([] & ws2 & Hf & Hk).
  destruct e as [e|]; [inv Hf|]. inv Hf. injection Hk as <- ->.
  apply attempt_err_Ret in Hc as [[-> [[] Hc]]|(x & -> & Hc)].
  - unfold ignoreErrors in Ei. inv Ei. eauto.
  - unfold ignoreErrors in Ei. destruct (errors_As is_errIgnore x); [destruct first|]; inv Ei.
Qed.

(** C4: a full reconciliation succeeds only when all is well: the control plane was initialized and ready
    before, the init node is elected, and the four tiers (bootstrap, etcd, control plane, worker) were
    reconciled one after the other without any error, not even one that is ignored in between; the status
    changes in the Bootstrapped condition only. *)
Theorem fullReconcile_success cp ts b w s w' s' :
  fullReconcile cp ts b (w, s) = ((w', s'), Ret tt) ->
  let '(cpDrain, workerDrain, cpConcurrency, workerConcurrency) := tier_options cp b in
  st_Initialized s = true /\ st_Ready s = true /\ s' = cond_status Bootstrapped "True" s
  /\ exists url we w1 wj js w2 w3,
    electInitNode cp true w = (we, Ret url)
    /\ reconcile cp ts true bootstrapTier isEtcd isNotInitNodeOrIsDeleting "1" "" cpDrain we = (w1, Ret tt)
    /\ join_server cp url None (w1, s') = ((wj, s'), Ret js)
    /\ reconcile cp ts true etcdTier isEtcd isInitNodeOrDeleting "1" js cpDrain wj = (w2, Ret tt)
    /\ reconcile cp ts true controlPlaneTier isControlPlane isInitNodeOrDeleting cpConcurrency js cpDrain w2 = (w3, Ret tt)
    /\ collect (w_plan w3) joinable <> []
    /\ reconcile cp ts false workerTier isOnlyWorker isInitNodeOrDeleting workerConcurrency "" workerDrain w3 = (w', Ret tt).
Proof.
  unfold fullReconcile. destruct (tier_options cp b) as [[[d1 d2] c1] c2].
  intros (url & ws1 & He & Hk)%bind_Ret. apply inW_Ret in He as (we & -> & He).
  apply bind_Ret in Hk as (err & ws2 & Hb & Hk). apply inW_Ret in Hb as (w1 & -> & Hb).
  apply bind_Ret in Hk as ([] & ws3 & Hm & Hk). injection Hm as <-. cbn [fst snd] in Hk.
  set (s1 := cond_status Bootstrapped "True" s) in *.
  assert (st_Initialized s1 = st_Initialized s /\ st_Ready s1 = st_Ready s) as [Hi1 Hr1] by done.
  destruct (ignoreErrors None err) as [first e] eqn:Ei. apply bind_Ret in Hk as ([] & ws4 & Hf & Hk).
  destruct e as [e|]; [inv Hf|]. inv Hf. apply bind_Ret in Hk as (js & [wj sj] & Hj & Hk).
  assert (sj = s1) as ->.
  { assert (forall first, steady (fun _ => True) id eq (join_server cp url first)) as Hst.
    { intros. unfold join_server. steady_auto. }
    specialize (Hst first (w1, s1) I). by rewrite Hj in Hst. }
  apply bind_Ret in Hk as (o1 & ws5 & H1 & Hk). apply bind_Ret in Hk as (o2 & ws6 & H2 & Hk).
  apply bind_Ret in Hk as (urls & ws7 & Hc & Hk). destruct ws6 as [w6 s6]. apply inW_Ret in Hc as (w7 & -> & Hc). inv Hc.
  destruct (collect (w_plan w7) joinable) as [|e0 l0] eqn:Ec; [inv Hk|].
  apply bind_Ret in Hk as (sg & ws8 & Hg & Hk). injection Hg as <- <-. cbn [snd] in Hk.
  destruct (negb (st_Initialized s6) || negb (st_Ready s6)) eqn:Er; [apply bind_Ret in Hk as (? & ? & _ & Hk); inv Hk|].
  apply bind_Ret in Hk as (o3 & ws9 & H3 & Hk). destruct o3; [inv Hk|]. injection Hk as ->.
  apply run_tier_Ret in H3 as (w3 & [= <- <-] & H3 & ->).
  destruct ws5 as [w5 s5]. apply run_tier_Ret in H2 as (w2 & [= <- <-] & H2 & ->).
  apply run_tier_Ret in H1 as (w4 & [= <- <-] & H1 & ->).
  apply orb_false_iff in Er as [Er1%negb_false_iff Er2%negb_false_iff].
  apply attempt_err_Ret in Hb as [[-> [[] Hb]]|(x & -> & Hb)]; [|unfold ignoreErrors in Ei; destruct (errors_As is_errIgnore x); inv Ei].
  split; [by rewrite <- Hi1|]. split; [by rewrite <- Hr1|]. split; [done|].
  exists url, we, w1, wj, js, w5, w7. rewrite Ec. repeat split; done.
Qed.

(** ** The state secret *)

(** The tokens of a cluster are generated at most once: they are those of the state secret if there is
    one, and are created only for a cluster without any delivered plan and without such a secret, as a
    secret of the cluster-state type that holds exactly the tokens returned. *)
Theorem ensureRKEStateSecret_once cp newCluster w w' ts :
  sp_UnmanagedConfig (cp_Spec cp) = false ->
  ensureRKEStateSecret cp newCluster w = (w', Ret ts) ->
  let key := (cp_Namespace cp, name_SafeConcatName [cp_Name cp; "rke"; "state"]) in
  (exists s, secretCache_Get (fst key) (snd key) = Ret s /\ s_Type s = SecretTypeClusterState /\ w' = w
     /\ ts = mkTokensSecret (map_get (s_Data s) "serverToken") (map_get (s_Data s) "agentToken"))
  \/ (newCluster = true /\ w_secrets w !! key = None
      /\ (exists e, secretCache_Get (fst key) (snd key) = Fail e /\ IsNotFound e = true)
      /\ exists s, w_secrets w' = <[key := s]> (w_secrets w) /\ s_Type s = SecretTypeClusterState
         /\ ts = mkTokensSecret (map_get (s_Data s) "serverToken") (map_get (s_Data s) "agentToken")).
Proof.
  intros Hm. unfold ensureRKEStateSecret. rewrite Hm. simpl.
  set (name := name_SafeConcatName _). destruct (secretCache_Get (cp_Namespace cp) name) as [s|e|] eqn:Eg; [| |done].
  - case_bool_decide as Ht; cbn [negb]; [|done]. intros [= <- <-]. left. eauto 10.
  - destruct (IsNotFound e) eqn:En; [|done]. destruct newCluster; cbn [negb]; [|done]. intros Hk. right.
    apply bind_Ret in Hk as (t1 & w1 & H1 & Hk). apply bind_Ret in Hk as (t2 & w2 & H2 & Hk).
    assert (forall wa wb t, randomtoken_Generate wa = (wb, Ret t) -> w_secrets wb = w_secrets wa) as Hgen.
    { intros wa wb t. unfold randomtoken_Generate. destruct (w_tokens wa); [done|]. by intros [= <- _]. }
    apply Hgen in H1, H2. apply bind_Ret in Hk as ([] & w3 & H3 & Hk). injection Hk as <- <-.
    unfold secrets_Create in H3. apply bind_Ret in H3 as ([] & w4 & (H4 & _)%api_request_Ret & H3).
    unfold bind, gets, modify in H3. simpl in H3.
    destruct (w_secrets w4 !! _) as [old|] eqn:El; [done|]. injection H3 as <-.
    split; [done|]. rewrite <- H1, <- H2, <- H4. split; [done|]. split; [eauto|].
    eexists. split; [reflexivity|]. split; [done|]. simpl. unfold map_get.
    by rewrite lookup_insert_eq, lookup_insert_ne, lookup_singleton_eq.
Qed.
End reconciliation.

(** ** Pausing *)

Section pausing.
Context `{P : Planner}.

(** When pausing or unpausing succeeds, after any number of conflicts, the owning cluster exists and is
    as wanted: it was so already according to the cache, or an update that sets exactly this has been
    written. *)
Theorem pauseCAPICluster_done cp pause w w' u :
  pauseCAPICluster cp pause w = (w', Ret u) ->
  exists c, GetOwnerCAPICluster cp = Ret (Some c)
    /\ (cc_Paused c = pause \/ w_clusters w' !! (cc_Namespace c, cc_Name c) = Some (set_cc_Paused pause c)).
Proof.
  unfold pauseCAPICluster. intros [w1 Hk]%RetryOnConflict_Ret.
  apply bind_Ret in Hk as (c & w2 & Hc & Hk). unfold lift in Hc. injection Hc as <- Hc.
  destruct c as [c|]; [|done]. exists c. split; [done|]. destruct (Bool.eqb (cc_Paused c) pause) eqn:Ep.
  - left. by apply Bool.eqb_prop.
  - right. unfold capiClient_Update in Hk. apply bind_Ret in Hk as ([] & w3 & _ & Hk).
    apply bind_Ret in Hk as (cs & w4 & Hg & Hk). inv Hg. inv Hk. simpl. apply lookup_insert_eq.
Qed.
End pausing.

Section witnesses.
#[local] Existing Instance demoExternal.
#[local] Instance demoP : Planner := demoPlanner ∅ ∅ [] (Some demoCluster).

Definition demoServerPlan : option Node :=
  match desiredPlan demoControlPlane demoTokens (demoServerEntry None) "" with
  | Ret (p, _) => Some (demoNode p) | _ => None end.

Lemma fullReconcile_success_witness : exists w' s',
  fullReconcile demoControlPlane demoTokens false (demoServerWorld demoServerPlan, demoStatus) = ((w', s'), Ret tt)
  /\ s' = cond_status Bootstrapped "True" demoStatus.
Proof.
  destruct (returns_run (fullReconcile demoControlPlane demoTokens false) (demoServerWorld demoServerPlan, demoStatus))
    as ([w' s'] & [] & E); [vm_compute; reflexivity|].
  exists w', s'. split; [exact E|].
  exact (proj1 (proj2 (proj2 (fullReconcile_success demoControlPlane demoTokens false _ demoStatus w' s' E)))).
Defined.

Lemma ensureRKEStateSecret_once_witness : exists w' ts,
  ensureRKEStateSecret demoControlPlane true (demoWorld []) = (w', Ret ts)
  /\ exists s, w_secrets w' = <[("fleet-default", "c1-rke-state") := s]> (w_secrets (demoWorld [])).
Proof.
  destruct (returns_run (ensureRKEStateSecret demoControlPlane true) (demoWorld [])) as (w' & ts & E); [vm_compute; reflexivity|].
  exists w', ts. split; [exact E|].
  destruct (ensureRKEStateSecret_once demoControlPlane true (demoWorld []) w' ts eq_refl E)
    as [(s & Hs & _)|(_ & _ & _ & s & Hs & _)]; [vm_compute in Hs; discriminate|]. exists s. exact Hs.
Defined.

(** The first update meets a conflict. *)
Lemma pauseCAPICluster_done_witness : exists w' u,
  pauseCAPICluster demoControlPlane true (set_w_faults [Some (StatusError ReasonConflict "conflict")] (demoWorld [])) = (w', Ret u)
  /\ w_clusters w' !! ("fleet-default", "c1") = Some (set_cc_Paused true demoCluster).
Proof.
  destruct (returns_run (pauseCAPICluster demoControlPlane true)
              (set_w_faults [Some (StatusError ReasonConflict "conflict")] (demoWorld []))) as (w' & u & E); [vm_compute; reflexivity|].
  exists w', u. split; [exact E|]. destruct (pauseCAPICluster_done _ _ _ _ _ E) as (c & Hc & Hp).
  assert (GetOwnerCAPICluster demoControlPlane = Ret (Some demoCluster)) as Ho by (vm_compute; reflexivity).
  rewrite Ho in Hc. injection Hc as <-. destruct Hp as [Hp|Hp]; [discriminate Hp|exact Hp].
Defined.
End witnesses.
