(* ===== verification/CertRotation.v ===== *)
(** * Certificate rotation ([pkg/capr/planner/certificaterotation.go]) *)

From S2P Require Import Prelude GoLib Errors Types External Instances Capr PlanEntry World Args Store InitNode Instructions DesiredPlan Changes Reconcile Cluster.

(** ** Shell instructions shared with the other operations ([etcdrestore.go]) *)

Definition sh_instruction (name cmd : string) : OneTimeInstruction :=
  mkOneTimeInstruction name "" [] ["-c"; cmd] "/bin/sh" false.

Definition generateManifestRemovalInstruction (runtime : string) (entry : planEntry) : option OneTimeInstruction :=
  if (runtime =? "") || roleNot (roleOr isEtcd isControlPlane) entry then None
  else Some (sh_instruction "remove server manifests"
               ("rm -rf /var/lib/rancher/" +:+ runtime +:+ "/server/manifests/" +:+ runtime +:+ "-*.yaml")).

Definition generateKillAllInstruction (runtime : string) : OneTimeInstruction :=
  let killAllScript := runtime +:+ "-killall.sh" in
  sh_instruction "shutdown"
    ("if [ -z $(command -v " +:+ runtime +:+ ") ] && [ -z $(command -v " +:+ killAllScript +:+ ") ]; then echo "
     +:+ runtime +:+ " does not appear to be installed; exit 0; else " +:+ killAllScript +:+ "; fi").

Definition append_instructions (l : list OneTimeInstruction) (p : NodePlan) : NodePlan :=
  set_np_Instructions (np_Instructions p ++ l) p.
Definition append_files (l : list File) (p : NodePlan) : NodePlan :=
  set_np_Files (np_Files p ++ l) p.

(** ** When to rotate, and where *)

Definition shouldRotate (cp : RKEControlPlane) : bool :=
  match sp_RotateCertificates (cp_Spec cp) with
  | None => false
  | Some rotation =>
      if negb (st_Initialized (cp_Status cp)) then false
      else negb (st_CertificateRotationGeneration (cp_Status cp) =? rc_Generation rotation)%Z
  end.

Definition rotationContainsService (rotation : RotateCertificates) (service : string) : bool :=
  match rc_Services rotation with
  | [] => true
  | services => List.existsb (fun s => s =? service) services
  end.

Definition workerServices : list string := ["rke2-server"; "k3s-server"; "api-server"; "kubelet"; "kube-proxy"; "auth-proxy"].
Definition controlPlaneServices : list string :=
  workerServices ++ ["controller-manager"; "scheduler"; "rke2-controller"; "k3s-controller"; "admin"; "cloud-controller"].
Definition etcdServices : list string := ["etcd"; "kubelet"; "k3s-server"; "rke2-server"].

Definition relevantServices (entry : planEntry) : gset string :=
  (if isWorker entry then list_to_set workerServices else ∅)
  ∪ (if isControlPlane entry then list_to_set controlPlaneServices else ∅)
  ∪ (if isEtcd entry then list_to_set etcdServices else ∅).

Definition shouldRotateEntry (rotation : RotateCertificates) (entry : planEntry) : bool :=
  match rc_Services rotation with
  | [] => true
  | services => List.existsb (fun s => bool_decide (s ∈ relevantServices entry)) services
  end.

Section certificates.
Context `{P : Planner}.

(** Removal of the self-signed certificate of a control-plane component, so that it is recreated. *)
Definition remove_cert (gen : string) (short : string) (certDir cert manifest runtime : string) : list OneTimeInstruction :=
  let rm suffix path := idempotentInstruction ("certificate-rotation/rm-" +:+ short +:+ "-" +:+ suffix) gen "rm" ["-f"; path] [] in
  [rm "cert" (certDir +:+ "/" +:+ cert); rm "key" (certDir +:+ "/" +:+ ReplaceAll cert ".crt" ".key")]
  ++ (if runtime =? RuntimeRKE2 then [rm "spm" ("/var/lib/rancher/rke2/agent/pod-manifests/" +:+ manifest)] else []).

Definition component_certs (rotation : RotateCertificates) (gen service short argKey cert manifest runtime : string) (c : config)
  : list OneTimeInstruction :=
  let arg := config_get c argKey in
  let certDir := getArgValue arg CertDirArgument "=" in
  if rotationContainsService rotation service && (certDir !=? "") && (getArgValue arg TLSCertFileArgument "=" =? "")
  then remove_cert gen short certDir cert manifest runtime else [].

Definition rotateCertificatesPlan (controlPlane : RKEControlPlane) (tokensSecret : TokensSecret)
    (rotation : RotateCertificates) (entry : planEntry) (joinServer : string) : res (NodePlan * string) :=
  let joinServer := if isOnlyWorker entry then "" else joinServer in
  let? ' (rotatePlan, config, joinedServer) := generatePlanWithConfigFiles controlPlane tokensSecret entry joinServer true in
  let version := cp_version controlPlane in
  let runtime := GetRuntime version in
  let gen := Itoa (rc_Generation rotation) in
  if isOnlyWorker entry then
    Ret (append_instructions (idempotentRestartInstructions "certificate-rotation/restart" gen (GetRuntimeAgentUnit version)) rotatePlan,
         joinedServer)
  else
    let args := ["certificate"; "rotate"] ++ flat_map (fun service => ["-s"; service]) (rc_Services rotation) in
    let rotate := idempotentInstruction "certificate-rotation/rotate" gen runtime args [] in
    let certs :=
      if isControlPlane entry
      then component_certs rotation gen "controller-manager" "kcm" KubeControllerManagerArg DefaultKubeControllerManagerCert
             "kube-controller-manager.yaml" runtime config
           ++ component_certs rotation gen "scheduler" "ks" KubeSchedulerArg DefaultKubeSchedulerCert
                "kube-scheduler.yaml" runtime config
      else [] in
    let removal :=
      if runtime =? RuntimeRKE2 then
        match generateManifestRemovalInstruction runtime entry with
        | Some i => [convertToIdempotentInstruction "certificate-rotation/manifest-removal" gen i]
        | None => []
        end
      else [] in
    Ret (append_instructions
           (rotate :: certs ++ removal
            ++ idempotentRestartInstructions "certificate-rotation/restart" gen (GetRuntimeServerUnit version)) rotatePlan,
         joinedServer).

(** One turn of the loop of [rotateCertificates]. *)
Definition rotate_one (controlPlane : RKEControlPlane) (tokensSecret : TokensSecret) (rotation : RotateCertificates)
    (joinServer : string) (node : planEntry) : M unit :=
  if negb (shouldRotateEntry rotation node) then ret tt
  else
    let* ' (rotatePlan, joinedServer) := lift (rotateCertificatesPlan controlPlane tokensSecret rotation node joinServer) in
    let* ' (_, err) := assignAndCheckPlan ("[" +:+ pe_name node +:+ "] certificate rotation") node rotatePlan joinedServer 0 0 in
    match err with
    | Some e => let* _ := pauseCAPICluster controlPlane true in fail e
    | None => ret tt
    end.

Definition rotateCertificates (controlPlane : RKEControlPlane) (tokensSecret : TokensSecret) : SM unit :=
  match sp_RotateCertificates (cp_Spec controlPlane) with
  | Some rotation =>
      if negb (shouldRotate controlPlane) then ret tt
      else
        let* ' (found, joinServer, _, err) := inW (findInitNode controlPlane) in
        let* _ := fail_if err in
        if negb found || (joinServer =? "") then ret tt
        else
          let* nodes := inW (collectM anyRole) in
          let* _ := inW (for_fold nodes tt (fun _ => rotate_one controlPlane tokensSecret rotation joinServer)) in
          let* err := inW (attempt_err (pauseCAPICluster controlPlane false)) in
          match err with
          | Some _ => fail (errWaiting "unpausing CAPI cluster")
          | None =>
              let* _ := mod_status (set_st_CertificateRotationGeneration (rc_Generation rotation)) in
              fail (errWaiting "certificate rotation done")
          end
  | None => ret tt
  end.
End certificates.

(** ** Completion of a rotation *)

Section completion.
Context `{P : Planner}.

Definition rotated (cp : RKEControlPlane) (ts : TokensSecret) (rotation : RotateCertificates) (js : string) (e : planEntry) : Prop :=
  shouldRotateEntry rotation e = true ->
  exists plan joined, rotateCertificatesPlan cp ts rotation e js = Ret (plan, joined) /\ plan_done e plan.

Lemma rotate_one_Ret cp ts rotation js e w w' u :
  rotate_one cp ts rotation js e w = (w', Ret u) -> w' = w /\ rotated cp ts rotation js e.
Proof.
  unfold rotate_one, rotated. destruct (shouldRotateEntry rotation e); cbn [negb]; [|by intros [= <- _]].
  intros ([plan joined] & w1 & Hl & Hk)%bind_Ret. unfold lift in Hl. injection Hl as <- Hplan.
  apply bind_Ret in Hk as ([e' err] & w2 & Ha & Hk). destruct err as [er|].
  { apply bind_Ret in Hk as (? & ? & _ & Hk). inv Hk. }
  apply assignAndCheckPlan_None in Ha as (-> & -> & Hd). inv Hk. eauto.
Qed.

(** The generation of a certificate rotation is recorded only when the rotation is complete: every
    machine whose services are concerned has applied its rotation plan and is healthy.  Nothing else of
    the status changes, and an earlier generation is never recorded again. *)
Theorem rotateCertificates_complete cp ts w s w' s' r :
  rotateCertificates cp ts (w, s) = ((w', s'), r) ->
  s' = s \/ exists rotation js e w1,
    sp_RotateCertificates (cp_Spec cp) = Some rotation
    /\ st_CertificateRotationGeneration (cp_Status cp) <> rc_Generation rotation
    /\ s' = set_st_CertificateRotationGeneration (rc_Generation rotation) s
    /\ r = Fail (errWaiting "certificate rotation done")
    /\ findInitNode cp w = (w1, Ret (true, js, e, None)) /\ js <> ""
    /\ Forall (rotated cp ts rotation js) (collect (w_plan w1) anyRole).
Proof.
  unfold rotateCertificates. destruct (sp_RotateCertificates (cp_Spec cp)) as [rotation|] eqn:Erot; [|intros [= _ <- _]; by left].
  unfold shouldRotate. rewrite Erot.
  destruct (st_Initialized (cp_Status cp)); cbn [negb]; [|intros [= _ <- _]; by left].
  destruct (st_CertificateRotationGeneration (cp_Status cp) =? rc_Generation rotation)%Z eqn:Egen; cbn [negb];
    [intros [= _ <- _]; by left|]. apply Z.eqb_neq in Egen.
  unfold bind at 1, inW at 1. destruct (findInitNode cp w) as [w1 [[[[found js] e] err]|er|]] eqn:Ef; [|intros [= _ <- _]; by left..].
  destruct err as [er|]; [intros [= _ <- _]; by left|]. rewrite (bind_run (fail_if None) _ _ _ tt) by done.
  destruct found; cbn [negb orb]; [|intros [= _ <- _]; by left].
  case_bool_decide as Hjs; [intros [= _ <- _]; by left|].
  rewrite (bind_run _ _ _ (w1, s) (collect (w_plan w1) anyRole)) by done.
  unfold bind at 1, inW at 1. destruct (for_fold _ _ _ w1) as [w2 [[]|er|]] eqn:Eloop; [|intros [= _ <- _]; by left..].
  apply for_fold_still with (Q := rotated cp ts rotation js) in Eloop as [-> Hall];
    [|intros x w3 u _; apply rotate_one_Ret].
  unfold bind at 1, inW at 1. destruct (attempt_err _ w1) as [w3 [[er|]|er|]]; try (intros [= _ <- _]; by left).
  intros [= <- <- <-]. right. eauto 12.
Qed.
End completion.


Section witness.
#[local] Existing Instance demoExternal.
#[local] Instance demoP : Planner := demoPlanner ∅ ∅ [] (Some demoCluster).

Let cp : RKEControlPlane := demoRequest None None (Some (mkRotateCertificates 5 [])) None.
Let w0 : World := demoServerWorld
  (match rotateCertificatesPlan cp demoTokens (mkRotateCertificates 5 []) (demoServerEntry None) "https://m1:9345" with
   | Ret (p, _) => Some (demoNode p) | _ => None end).

(** A rotation that completes. *)
Lemma rotateCertificates_complete_witness : exists w' s',
  rotateCertificates cp demoTokens (w0, cp_Status cp) = ((w', s'), Fail (errWaiting "certificate rotation done"))
  /\ st_CertificateRotationGeneration s' = 5 /\ st_CertificateRotationGeneration (cp_Status cp) <> 5.
Proof.
  destruct (rotateCertificates cp demoTokens (w0, cp_Status cp)) as [[w' s'] r] eqn:E.
  assert (st_CertificateRotationGeneration (snd (fst (rotateCertificates cp demoTokens (w0, cp_Status cp)))) = 5) as Hg
    by (vm_compute; reflexivity).
  rewrite E in Hg. simpl in Hg. exists w', s'.
  destruct (rotateCertificates_complete cp demoTokens w0 (cp_Status cp) w' s' r E)
    as [-> |(rotation & js & e & w1 & Hrot & Hgen & -> & -> & _)]; [discriminate Hg|].
  injection Hrot as <-. split; [reflexivity|]. split; [reflexivity|discriminate].
Defined.
End witness.
