(* ===== verification/EncryptionKeyRotation.v ===== *)
(** * Rotation of the secrets-encryption keys ([pkg/capr/planner/encryptionkeyrotation.go])

    The leader runs the commands prepare, rotate and reencrypt; after each of them the servers are
    restarted and must report the stage of the leader.  The phase is kept in the status. *)

From S2P Require Import Prelude GoLib Codec Errors Types External Instances Capr PlanEntry World Args Probe Store InitNode Instructions DesiredPlan Changes Reconcile Cluster CertRotation.

Definition encryptionKeyRotationStageReencryptRequest : string := "reencrypt_request".
Definition encryptionKeyRotationStageReencryptActive : string := "reencrypt_active".
Definition encryptionKeyRotationStageReencryptFinished : string := "reencrypt_finished".
Definition encryptionKeyRotationCommandPrepare : string := "prepare".
Definition encryptionKeyRotationCommandRotate : string := "rotate".
Definition encryptionKeyRotationCommandReencrypt : string := "reencrypt".
Definition encryptionKeyRotationSecretsEncryptStatusCommand : string := "secrets-encrypt-status".
Definition encryptionKeyRotationWaitForSystemctlStatusPath : string := "wait_for_systemctl_status.sh".
Definition encryptionKeyRotationWaitForSecretsEncryptStatusPath : string := "wait_for_secrets_encrypt_status.sh".
Definition encryptionKeyRotationSecretsEncryptStatusPath : string := "secrets_encrypt_status.sh".
Definition encryptionKeyRotationEndpointEnv : string := "CONTAINER_RUNTIME_ENDPOINT=unix:///var/run/k3s/containerd/containerd.sock".

Definition encryptionKeyRotationWaitForSystemctlStatus : string := script "
#!/bin/sh

runtimeServer=$1
i=0

while [ $i -lt 30 ]; do
	systemctl is-active $runtimeServer
	if [ $? -eq 0 ]; then
		exit 0
	fi
	sleep 10
	i=$((i + 1))
done
exit 1
".

Definition encryptionKeyRotationWaitForSecretsEncryptStatusScript : string := script "
#!/bin/sh

runtime=$1
i=0

while [ $i -lt 10 ]; do
	$runtime secrets-encrypt status
	if [ $? -eq 0 ]; then
			exit 0
	fi
	sleep 10
	i=$((i + 1))
done
exit 1
".

Definition encryptionKeyRotationSecretsEncryptStatusScript : string := script "
#!/bin/sh

runtime=$1
i=0

while [ $i -lt 10 ]; do
	output=`$($runtime secrets-encrypt status)`
	if [ $? -eq 0 ]; then
		if [ -n `$2` ]; then
			echo $output | grep -q `$2`
				if [ $? -eq 0 ]; then
					exit 0
				fi
		else
			exit 0
		fi
	fi
	sleep 10
	i=$((i + 1))
done
exit 1
".

(** ** Instructions *)

Definition phase (cp : RKEControlPlane) : string := st_RotateEncryptionKeysPhase (cp_Status cp).

(** The generation of the request; the callers have checked that there is one. *)
Definition rek_generation (cp : RKEControlPlane) : Z :=
  match sp_RotateEncryptionKeys (cp_Spec cp) with Some r => re_Generation r | None => 0 end.

Definition encryptionKeyRotationScriptPath (cp : RKEControlPlane) (file : string) : string :=
  "/var/lib/rancher/" +:+ GetRuntime (cp_version cp) +:+ "/capr/encryption-key-rotation/bin/" +:+ file.

Definition encryptionKeyRotationStatusEnv (cp : RKEControlPlane) : string := "ENCRYPTION_KEY_ROTATION_STAGE=" +:+ phase cp.
Definition encryptionKeyRotationGenerationEnv (cp : RKEControlPlane) : string :=
  "ENCRYPTION_KEY_ROTATION_GENERATION=" +:+ Itoa (rek_generation cp).

Definition encryptionKeyRotationSecretsEncryptInstruction (cp : RKEControlPlane) : res OneTimeInstruction :=
  let command :=
    if phase cp =? RotateEncryptionKeysPhasePrepare then Some encryptionKeyRotationCommandPrepare
    else if phase cp =? RotateEncryptionKeysPhaseRotate then Some encryptionKeyRotationCommandRotate
    else if phase cp =? RotateEncryptionKeysPhaseReencrypt then Some encryptionKeyRotationCommandReencrypt
    else None in
  match command with
  | None => Fail (errorString ("cannot determine desired secrets-encrypt command for phase: [" +:+ phase cp +:+ "]"))
  | Some command =>
      Ret (idempotentInstruction (ToLower ("encryption-key-rotation/" +:+ phase cp)) (Itoa (rek_generation cp))
             (GetRuntimeCommand (cp_version cp)) ["secrets-encrypt"; command] [])
  end.

Definition encryptionKeyRotationSecretsEncryptStatusScriptOneTimeInstruction (cp : RKEControlPlane) (expected : string)
  : OneTimeInstruction :=
  mkOneTimeInstruction "secrets-encrypt-status-script" ""
    [encryptionKeyRotationStatusEnv cp; encryptionKeyRotationGenerationEnv cp]
    (["-x"; encryptionKeyRotationScriptPath cp encryptionKeyRotationSecretsEncryptStatusPath; GetRuntimeCommand (cp_version cp)]
     ++ (if expected !=? "" then [expected] else []))
    "sh" false.

Definition encryptionKeyRotationSecretsEncryptStatusOneTimeInstruction (cp : RKEControlPlane) : OneTimeInstruction :=
  mkOneTimeInstruction encryptionKeyRotationSecretsEncryptStatusCommand ""
    [encryptionKeyRotationStatusEnv cp; encryptionKeyRotationGenerationEnv cp]
    ["secrets-encrypt"; "status"] (GetRuntimeCommand (cp_version cp)) true.

Definition encryptionKeyRotationSecretsEncryptStatusPeriodicInstruction (cp : RKEControlPlane) : PeriodicInstruction :=
  mkPeriodicInstruction encryptionKeyRotationSecretsEncryptStatusCommand "" [] ["secrets-encrypt"; "status"]
    (GetRuntimeCommand (cp_version cp)) 5.

Definition wait_instruction (cp : RKEControlPlane) (name script arg : string) (save : bool) : OneTimeInstruction :=
  mkOneTimeInstruction name ""
    [encryptionKeyRotationEndpointEnv; encryptionKeyRotationStatusEnv cp; encryptionKeyRotationGenerationEnv cp]
    ["-x"; encryptionKeyRotationScriptPath cp script; arg] "sh" save.

Definition encryptionKeyRotationWaitForSystemctlStatusInstruction (cp : RKEControlPlane) : OneTimeInstruction :=
  wait_instruction cp "wait-for-systemctl-status" encryptionKeyRotationWaitForSystemctlStatusPath
    (GetRuntimeServerUnit (cp_version cp)) false.

Definition encryptionKeyRotationWaitForSecretsEncryptStatus (cp : RKEControlPlane) : OneTimeInstruction :=
  wait_instruction cp "wait-for-secrets-encrypt-status" encryptionKeyRotationWaitForSecretsEncryptStatusPath
    (GetRuntimeCommand (cp_version cp)) true.

Definition script_file (cp : RKEControlPlane) (content path : string) : File :=
  mkFile (base64_EncodeToString content) (encryptionKeyRotationScriptPath cp path) "" false false.

(** ** Stages reported by the nodes *)

Fixpoint stage_of_lines (l : list string) : res string :=
  match l with
  | [] => Fail (errWaitingf "unable to parse rotation stage from output")
  | v :: rest =>
      match Split v ": " with
      | k :: parts =>
          if k !=? "Current Rotation Stage" then stage_of_lines rest
          else match parts with [] => Panic | status :: _ => Ret status end
      | [] => Panic
      end
  end.

Definition encryptionKeyRotationStageFromOutput (entry : planEntry) (output : string) : res string :=
  let a := Split output newline in
  if (length a <? 2)%nat
  then Fail (errWaitingf ("could not extract current stage from plan for [" +:+ pe_name entry +:+ "]: status output is incomplete"))
  else stage_of_lines a.

Definition encryptionKeyRotationSecretsEncryptStageFromOneTimeStatus (entry : planEntry) : res string :=
  match pe_Plan entry with
  | None => Panic
  | Some n =>
      match n_Output n !! encryptionKeyRotationSecretsEncryptStatusCommand with
      | None => Fail (errWaitingf ("could not extract current status from plan for [" +:+ pe_name entry +:+ "]: no output for status"))
      | Some output => encryptionKeyRotationStageFromOutput entry output
      end
  end.

Definition encryptionKeyRotationSecretsEncryptStageFromPeriodic (entry : planEntry) : res string :=
  match pe_Plan entry with
  | None => Panic
  | Some n =>
      match n_PeriodicOutput n !! encryptionKeyRotationSecretsEncryptStatusCommand with
      | None =>
          if List.existsb (fun i => pi_Name i =? encryptionKeyRotationSecretsEncryptStatusCommand)
                          (np_PeriodicInstructions (n_Plan n))
          then Fail (errWaitingf ("could not extract current status from plan for [" +:+ pe_name entry +:+ "]: no output for status"))
          else Fail (errorString ("could not extract current status from plan for [" +:+ pe_name entry
                       +:+ "]: status command not present in plan"))
      | Some output => encryptionKeyRotationStageFromOutput entry (po_Stdout output)
      end
  end.

Definition encryptionKeyRotationIsCurrentStageAllowed (leaderStage currentPhase : string) : bool :=
  if currentPhase =? RotateEncryptionKeysPhasePrepare then leaderStage =? encryptionKeyRotationCommandPrepare
  else if currentPhase =? RotateEncryptionKeysPhaseRotate then leaderStage =? encryptionKeyRotationCommandRotate
  else if currentPhase =? RotateEncryptionKeysPhaseReencrypt then
    (leaderStage =? encryptionKeyRotationStageReencryptRequest) || (leaderStage =? encryptionKeyRotationStageReencryptActive)
    || (leaderStage =? encryptionKeyRotationStageReencryptFinished)
  else false.

(** ** Status *)

Definition setEncryptionKeyRotateState (rotate : option RotateEncryptionKeys) (phase : string) : SM unit :=
  let* s := get_status in
  if (st_RotateEncryptionKeys s =? rotate) && (st_RotateEncryptionKeysPhase s =? phase) then ret tt
  else
    let* _ := mod_status (fun s => set_st_RotateEncryptionKeysPhase phase (set_st_RotateEncryptionKeys rotate s)) in
    fail (errWaiting "refreshing encryption key rotation state").

Definition resetEncryptionKeyRotateState : SM unit :=
  let* s := get_status in
  if bool_decide (st_RotateEncryptionKeys s = None) && (st_RotateEncryptionKeysPhase s =? "") then ret tt
  else setEncryptionKeyRotateState None "".

Definition encryptionKeyRotationFailed {A} (err : error) : SM A :=
  let* _ := mod_status (set_st_RotateEncryptionKeysPhase RotateEncryptionKeysPhaseFailed) in
  fail (wrapError ("encryption key rotation failed, please perform an etcd restore: " +:+ Error err) err).

Section keys.
Context `{P : Planner}.

Definition encryptionKeyRotationSupported (releaseData : Release) : res bool :=
  match rel_FeatureVersions releaseData !! "encryption-key-rotation" with
  | None => Ret false
  | Some featureVersion =>
      match blang_Make_Major featureVersion with
      | None => Fail (errorString ("unable to parse semver version for encryption key rotation: " +:+ featureVersion))
      | Some major => Ret (major =? 2)%N
      end
  end.

Definition rotateEncryptionKeyInProgress (cp : RKEControlPlane) : bool :=
  bool_decide (phase cp ∈ [RotateEncryptionKeysPhasePrepare; RotateEncryptionKeysPhasePostPrepareRestart;
    RotateEncryptionKeysPhaseRotate; RotateEncryptionKeysPhasePostRotateRestart; RotateEncryptionKeysPhaseReencrypt;
    RotateEncryptionKeysPhasePostReencryptRestart]).

Definition hasValidNonFailedRotateEncryptionKeyStatus (cp : RKEControlPlane) : bool :=
  rotateEncryptionKeyInProgress cp || (phase cp =? RotateEncryptionKeysPhaseDone).

Definition canRotateEncryptionKeys (cp : RKEControlPlane) : bool :=
  match sp_RotateEncryptionKeys (cp_Spec cp) with
  | None => false
  | Some r =>
      if negb (Cond_IsTrue ReadyCond (st_Conditions (cp_Status cp))) && negb (rotateEncryptionKeyInProgress cp) then false
      else match st_RotateEncryptionKeys (cp_Status cp) with
           | Some s => negb ((re_Generation s =? re_Generation r)%Z
                             && ((phase cp =? RotateEncryptionKeysPhaseDone) || (phase cp =? RotateEncryptionKeysPhaseFailed)))
           | None => true
           end
  end.

(** [shouldRestartEncryptionKeyRotation] dereferences the status only after testing the phase. *)
Definition shouldRestartEncryptionKeyRotation (cp : RKEControlPlane) : res bool :=
  if negb (Cond_IsTrue ReadyCond (st_Conditions (cp_Status cp))) then Ret false
  else if (0 <? rek_generation cp)%Z && bool_decide (st_RotateEncryptionKeys (cp_Status cp) = None) then Ret true
  else
    let? stale :=
      (if (phase cp =? RotateEncryptionKeysPhaseDone) || (phase cp =? RotateEncryptionKeysPhaseFailed) || (phase cp =? "")
       then match st_RotateEncryptionKeys (cp_Status cp) with
            | Some s => Ret (negb (rek_generation cp =? re_Generation s)%Z)
            | None => Panic
            end
       else Ret false) in
    if (stale : bool) then Ret true
    else Ret (negb (hasValidNonFailedRotateEncryptionKeyStatus cp)).

Definition encryptionKeyRotationIsSuitableControlPlane (entry : planEntry) : bool :=
  isControlPlane entry && isNotDeleting entry && bool_decide (is_Some (m_NodeRef (pe_Machine entry)))
  && Cond_IsTrue ReadyCond (m_Conditions (pe_Machine entry)).

Definition encryptionKeyRotationFindLeader (status : ControlPlaneStatus) (init : planEntry) : M planEntry :=
  let* p := gets w_plan in
  let machineName := st_RotateEncryptionKeysLeader status in
  let elect :=
    if st_RotateEncryptionKeysPhase status !=? RotateEncryptionKeysPhasePrepare
    then fail (errorString ("cannot elect control plane leader in phase " +:+ st_RotateEncryptionKeysPhase status))
    else if negb (isControlPlane init) then
      match collect p encryptionKeyRotationIsSuitableControlPlane with
      | [] => fail (errorString "no suitable control plane nodes for encryption key rotation")
      | leader :: _ => ret leader
      end
    else ret init in
  match pl_Machines p !! machineName with
  | Some machine =>
      let entry := entry_of p machineName machine in
      if encryptionKeyRotationIsSuitableControlPlane entry then ret entry else elect
  | None => elect
  end.

Definition encryptionKeyRotationIsControlPlaneAndNotLeaderAndInit (cp : RKEControlPlane) : roleFilter := fun entry =>
  isControlPlaneAndNotInitNode entry && (st_RotateEncryptionKeysLeader (cp_Status cp) !=? pe_name entry).

Definition encryptionKeyRotationIsEtcdAndNotControlPlaneAndNotLeaderAndInit (cp : RKEControlPlane) : roleFilter := fun entry =>
  isEtcd entry && negb (isControlPlane entry) && (st_RotateEncryptionKeysLeader (cp_Status cp) !=? pe_name entry)
  && negb (isInitNode entry).

(** The plan that restarts a server and lets it report its stage. *)
Definition restart_plan (cp : RKEControlPlane) (tokensSecret : TokensSecret) (joinServer : string) (entry : planEntry)
    (leaderStage : string) : res (NodePlan * string) :=
  let? ' (nodePlan, config, joinedServer) := generatePlanWithConfigFiles cp tokensSecret entry joinServer true in
  let runtime := GetRuntime (cp_version cp) in
  let gen := Itoa (rek_generation cp) in
  let removal :=
    if runtime =? RuntimeRKE2 then
      match generateManifestRemovalInstruction runtime entry with
      | Some i => [convertToIdempotentInstruction (ToLower ("encryption-key-rotation/manifest-cleanup/" +:+ phase cp)) gen i]
      | None => []
      end
    else [] in
  let restart := idempotentRestartInstructions (ToLower ("encryption-key-rotation/restart/" +:+ phase cp)) gen
                   (GetRuntimeServerUnit (cp_version cp)) in
  let waitFile := script_file cp encryptionKeyRotationWaitForSystemctlStatus encryptionKeyRotationWaitForSystemctlStatusPath in
  let '(files, instructions) :=
    if isControlPlane entry
    then ([script_file cp encryptionKeyRotationSecretsEncryptStatusScript encryptionKeyRotationSecretsEncryptStatusPath;
           script_file cp encryptionKeyRotationWaitForSecretsEncryptStatusScript encryptionKeyRotationWaitForSecretsEncryptStatusPath],
          [encryptionKeyRotationWaitForSecretsEncryptStatus cp;
           encryptionKeyRotationSecretsEncryptStatusScriptOneTimeInstruction cp leaderStage;
           encryptionKeyRotationSecretsEncryptStatusOneTimeInstruction cp])
    else ([], []) in
  let nodePlan := append_files (waitFile :: files) nodePlan in
  let nodePlan := set_np_Instructions
    (removal ++ restart ++ encryptionKeyRotationWaitForSystemctlStatusInstruction cp :: instructions) nodePlan in
  let? probes := generateProbes cp entry config in
  Ret (set_np_Probes probes nodePlan, joinedServer).

Definition operation_message (cp : RKEControlPlane) (entry : planEntry) : string :=
  "encryption key rotation [" +:+ phase cp +:+ "] for machine [" +:+ pe_name entry +:+ "]".

Definition encryptionKeyRotationRestartService (cp : RKEControlPlane) (tokensSecret : TokensSecret) (joinServer : string)
    (entry : planEntry) (scrapeStage : bool) (leaderStage : string) : SM string :=
  let* ' (nodePlan, joinedServer) := lift (restart_plan cp tokensSecret joinServer entry leaderStage) in
  let* ' (entry, err) := inW (assignAndCheckPlan (operation_message cp entry) entry nodePlan joinedServer 5 5) in
  match err with
  | Some e =>
      if IsErrWaiting e then
        match pe_Plan entry with
        | None => panic
        | Some n => if planAppliedButWaitingForProbes n
                    then fail (errWaitingf (Error e +:+ ": " +:+ probesMessage n))
                    else fail e
        end
      else encryptionKeyRotationFailed e
  | None =>
      if negb scrapeStage || negb (isControlPlane entry) then ret ""
      else lift (encryptionKeyRotationSecretsEncryptStageFromOneTimeStatus entry)
  end.

(** One follower must report the stage of the leader. *)
Definition restart_follower (cp : RKEControlPlane) (tokensSecret : TokensSecret) (joinServer leaderStage : string)
    (leader entry : planEntry) : SM unit :=
  let* stage := encryptionKeyRotationRestartService cp tokensSecret joinServer entry true leaderStage in
  if stage !=? leaderStage then
    match m_NodeRef (pe_Machine leader), m_NodeRef (pe_Machine entry) with
    | Some l, Some e =>
        encryptionKeyRotationFailed (errorString ("leader [" +:+ ref_Name l +:+ "] with " +:+ leaderStage
          +:+ " stage and follower [" +:+ ref_Name e +:+ "] with " +:+ stage +:+ " stage"))
    | _, _ => panic
    end
  else ret tt.

Definition encryptionKeyRotationRestartNodes (cp : RKEControlPlane) (tokensSecret : TokensSecret)
    (leader initNode : planEntry) (joinServer : string) : SM unit :=
  let restart e := let* _ := encryptionKeyRotationRestartService cp tokensSecret joinServer e false "" in ret tt in
  let* _ :=
    (if negb (isInitNode leader) then
       let* _ := restart initNode in
       let* entries := inW (collectM (encryptionKeyRotationIsEtcdAndNotControlPlaneAndNotLeaderAndInit cp)) in
       for_fold entries tt (fun _ => restart)
     else ret tt) in
  let* leaderStage := encryptionKeyRotationRestartService cp tokensSecret joinServer leader true "" in
  let* entries := inW (collectM (encryptionKeyRotationIsControlPlaneAndNotLeaderAndInit cp)) in
  for_fold entries tt (fun _ => restart_follower cp tokensSecret joinServer leaderStage leader).

Definition leader_plan (cp : RKEControlPlane) (apply : OneTimeInstruction) (nodePlan : NodePlan) : NodePlan :=
  let nodePlan := append_files
    [script_file cp encryptionKeyRotationWaitForSecretsEncryptStatusScript encryptionKeyRotationWaitForSecretsEncryptStatusPath;
     script_file cp encryptionKeyRotationSecretsEncryptStatusScript encryptionKeyRotationSecretsEncryptStatusPath] nodePlan in
  set_np_PeriodicInstructions [encryptionKeyRotationSecretsEncryptStatusPeriodicInstruction cp]
    (set_np_Instructions
       [apply; encryptionKeyRotationSecretsEncryptStatusScriptOneTimeInstruction cp "";
        encryptionKeyRotationSecretsEncryptStatusOneTimeInstruction cp] nodePlan).

Definition encryptionKeyRotationLeaderPhaseReconcile (cp : RKEControlPlane) (tokensSecret : TokensSecret)
    (joinServer : string) (leader : planEntry) : SM unit :=
  let* ' (nodePlan, _, joinedServer) := lift (generatePlanWithConfigFiles cp tokensSecret leader joinServer true) in
  match encryptionKeyRotationSecretsEncryptInstruction cp with
  | Panic => panic
  | Fail e => encryptionKeyRotationFailed e
  | Ret apply =>
      let* ' (leader, err) := inW (assignAndCheckPlan (operation_message cp leader) leader (leader_plan cp apply nodePlan)
                                   joinedServer 1 1) in
      match err with
      | Some e => if IsErrWaiting e then fail e else encryptionKeyRotationFailed e
      | None =>
          let* stage := lift (encryptionKeyRotationSecretsEncryptStageFromOneTimeStatus leader) in
          let* periodic := lift (encryptionKeyRotationSecretsEncryptStageFromPeriodic leader) in
          if negb (encryptionKeyRotationIsCurrentStageAllowed stage (phase cp))
          then encryptionKeyRotationFailed (errorString ("unexpected encryption key rotation stage [" +:+ stage
                 +:+ "] for phase [" +:+ phase cp +:+ "]"))
          else if ((stage =? encryptionKeyRotationStageReencryptRequest) || (stage =? encryptionKeyRotationStageReencryptActive))
                  && (periodic !=? encryptionKeyRotationStageReencryptFinished)
          then fail (errWaitingf "waiting for encryption key rotation stage to be finished")
          else ret tt
      end
  end.

(** The switch over the phase of the control plane. *)
Definition rotate_phase (cp : RKEControlPlane) (tokensSecret : TokensSecret) (joinServer : string)
    (leader initNode : planEntry) : SM unit :=
  let next := setEncryptionKeyRotateState (sp_RotateEncryptionKeys (cp_Spec cp)) in
  let leaderPhase := encryptionKeyRotationLeaderPhaseReconcile cp tokensSecret joinServer leader in
  let restartNodes := encryptionKeyRotationRestartNodes cp tokensSecret leader initNode joinServer in
  if phase cp =? RotateEncryptionKeysPhasePrepare then
    let* err := inW (attempt_err (pauseCAPICluster cp true)) in
    match err with
    | Some _ => fail (errWaiting "pausing CAPI cluster")
    | None => let* _ := leaderPhase in next RotateEncryptionKeysPhasePostPrepareRestart
    end
  else if phase cp =? RotateEncryptionKeysPhasePostPrepareRestart then
    let* _ := restartNodes in next RotateEncryptionKeysPhaseRotate
  else if phase cp =? RotateEncryptionKeysPhaseRotate then
    let* _ := leaderPhase in next RotateEncryptionKeysPhasePostRotateRestart
  else if phase cp =? RotateEncryptionKeysPhasePostRotateRestart then
    let* _ := restartNodes in next RotateEncryptionKeysPhaseReencrypt
  else if phase cp =? RotateEncryptionKeysPhaseReencrypt then
    let* _ := leaderPhase in next RotateEncryptionKeysPhasePostReencryptRestart
  else if phase cp =? RotateEncryptionKeysPhasePostReencryptRestart then
    let* _ := restartNodes in
    let* err := inW (attempt_err (pauseCAPICluster cp false)) in
    match err with
    | Some _ => fail (errWaiting "unpausing CAPI cluster")
    | None => let* _ := mod_status (set_st_RotateEncryptionKeysLeader "") in next RotateEncryptionKeysPhaseDone
    end
  else fail (errorString ("encountered unknown encryption key rotation phase: " +:+ phase cp)).

Definition rotateEncryptionKeys (cp : RKEControlPlane) (tokensSecret : TokensSecret) (releaseData : Release) : SM unit :=
  match sp_RotateEncryptionKeys (cp_Spec cp) with
  | None => resetEncryptionKeyRotateState
  | Some rotate =>
      let* supported := lift (encryptionKeyRotationSupported releaseData) in
      if negb supported then setEncryptionKeyRotateState (Some rotate) RotateEncryptionKeysPhaseFailed
      else if negb (canRotateEncryptionKeys cp) then ret tt
      else
        let* s := get_status in
        if negb (st_Initialized s) then ret tt
        else
          let* ' (found, joinServer, initNode, err) := inW (findInitNode cp) in
          let* _ := fail_if err in
          if negb found || (joinServer =? "") then ret tt
          else
            let* restart := lift (shouldRestartEncryptionKeyRotation cp) in
            if (restart : bool) then setEncryptionKeyRotateState (Some rotate) RotateEncryptionKeysPhasePrepare
            else
              match initNode with
              | None => panic
              | Some initNode =>
                  let* leader := inW (encryptionKeyRotationFindLeader s initNode) in
                  if st_RotateEncryptionKeysLeader s !=? pe_name leader then
                    let* _ := mod_status (set_st_RotateEncryptionKeysLeader (pe_name leader)) in
                    fail (errWaitingf ("elected " +:+ pe_name leader +:+ " as control plane leader for encryption key rotation"))
                  else rotate_phase cp tokensSecret joinServer leader initNode
              end
  end.
End keys.

(** ** Reading the stage *)

Lemma stage_of_lines_skip before rest :
  (forall l, l ∈ before -> head (Split l ": ") <> Some "Current Rotation Stage") ->
  stage_of_lines (before ++ rest) = stage_of_lines rest.
Proof.
  induction before as [|l before IH]; intros Hb; [done|]. simpl.
  assert (head (Split l ": ") <> Some "Current Rotation Stage") as Hl by (apply Hb; constructor).
  destruct (Split l ": ") as [|k parts] eqn:E; [exfalso; by apply (split_fuel_ne (String.length l) ": " l)|].
  rewrite bool_decide_eq_false_2 by (intros ->; by apply Hl). simpl. apply IH. intros l' Hl'. apply Hb. by constructor.
Qed.

(** The stage of a node is what its status output says on the first line for the stage, whatever comes
    before and after it, as long as the value itself contains no separator; a stage line that stops after
    the key makes the planner panic. *)
Theorem stage_of_output entry output before stage after :
  Split output newline = before ++ stage :: after -> before <> [] ->
  (forall l, l ∈ before -> head (Split l ": ") <> Some "Current Rotation Stage") ->
  (forall v, stage = "Current Rotation Stage: " +:+ v -> Contains v ": " = false ->
     encryptionKeyRotationStageFromOutput entry output = Ret v)
  /\ (stage = "Current Rotation Stage" -> encryptionKeyRotationStageFromOutput entry output = Panic).
Proof.
  intros Ho Hne Hb. unfold encryptionKeyRotationStageFromOutput. rewrite Ho.
  assert ((length (before ++ stage :: after) <? 2)%nat = false) as ->.
  { apply Nat.ltb_ge. rewrite length_app. simpl. destruct before; [done|simpl; lia]. }
  rewrite stage_of_lines_skip by done. split; [|by intros ->].
  intros v -> Hv.
  assert (Split ("Current Rotation Stage: " +:+ v) ": " = ["Current Rotation Stage"; v]) as Hs.
  { assert (cut ": " ("Current Rotation Stage: " +:+ v) = Some ("Current Rotation Stage", v)) as Hc by (by destruct v).
    unfold Contains in Hv. destruct (cut ": " v) as [[??]|] eqn:E; [done|].
    unfold Split. cbn [String.append String.length split_fuel]. cbn [String.append] in Hc. by rewrite Hc, E. }
  cbn [stage_of_lines]. rewrite Hs. done.
Qed.

(** ** The phases of a rotation *)

(** A rotation has to start over: the control plane is ready, and either no request is recorded while one is
    made, or the recorded one has ended and another generation is requested, or the phase is none that a rotation has. *)
Definition restart_demanded `{P : Planner} (cp : RKEControlPlane) : Prop :=
  Cond_IsTrue ReadyCond (st_Conditions (cp_Status cp)) = true
  /\ exists req, sp_RotateEncryptionKeys (cp_Spec cp) = Some req /\
     let p := phase cp in
     let unknown := p ∉ ["Prepare"; "PostPrepareRestart"; "Rotate"; "PostRotateRestart"; "Reencrypt"; "PostReencryptRestart"; "Done"; "Failed"] in
     match st_RotateEncryptionKeys (cp_Status cp) with
     | None => (0 < re_Generation req)%Z \/ unknown /\ p <> ""
     | Some old => (p = "Done" \/ p = "Failed") /\ re_Generation req <> re_Generation old \/ unknown
     end.

(** The transitions of the phase: a request starts over at [Prepare] only when it has to, a rotation
    moves through its phases in order, and it can fail in any of them. *)
Inductive key_step `{P : Planner} (cp : RKEControlPlane) : string -> string -> Prop :=
| key_stay p : key_step cp p p
| key_reset p : sp_RotateEncryptionKeys (cp_Spec cp) = None -> key_step cp p ""
| key_failed p : sp_RotateEncryptionKeys (cp_Spec cp) <> None -> key_step cp p RotateEncryptionKeysPhaseFailed
| key_start p : restart_demanded cp ->
    key_step cp p RotateEncryptionKeysPhasePrepare
| key_prepared : key_step cp RotateEncryptionKeysPhasePrepare RotateEncryptionKeysPhasePostPrepareRestart
| key_prepare_restarted : key_step cp RotateEncryptionKeysPhasePostPrepareRestart RotateEncryptionKeysPhaseRotate
| key_rotated : key_step cp RotateEncryptionKeysPhaseRotate RotateEncryptionKeysPhasePostRotateRestart
| key_rotate_restarted : key_step cp RotateEncryptionKeysPhasePostRotateRestart RotateEncryptionKeysPhaseReencrypt
| key_reencrypted : key_step cp RotateEncryptionKeysPhaseReencrypt RotateEncryptionKeysPhasePostReencryptRestart
| key_done : key_step cp RotateEncryptionKeysPhasePostReencryptRestart RotateEncryptionKeysPhaseDone.

Section phases.
Context `{P : Planner} (cp : RKEControlPlane).

#[local] Instance key_step_refl : Reflexive (key_step cp).
Proof. intros p. apply key_stay. Qed.

Local Abbreviation J := (fun p => p = phase cp).
Local Abbreviation steadyK := (steady J st_RotateEncryptionKeysPhase (key_step cp)).

Lemma steady_setEncryptionKeyRotateState r p :
  key_step cp (phase cp) p -> steadyK (setEncryptionKeyRotateState r p).
Proof.
  intros Hp [w s] HJ. unfold setEncryptionKeyRotateState, bind, get_status, gets. simpl in *.
  destruct (_ && _); simpl; [done|]. by rewrite HJ.
Qed.

Context (Hsp : sp_RotateEncryptionKeys (cp_Spec cp) <> None).

Lemma steady_encryptionKeyRotationFailed {A} e : steadyK (encryptionKeyRotationFailed (A := A) e).
Proof. intros [w s] HJ. simpl. by apply key_failed. Qed.
#[local] Hint Resolve steady_encryptionKeyRotationFailed : planner.

Lemma steady_restartService ts js e b l : steadyK (encryptionKeyRotationRestartService cp ts js e b l).
Proof. unfold encryptionKeyRotationRestartService. steady_auto. Qed.
#[local] Hint Resolve steady_restartService : planner.

Lemma steady_restartNodes ts l i js : steadyK (encryptionKeyRotationRestartNodes cp ts l i js).
Proof. unfold encryptionKeyRotationRestartNodes, restart_follower. steady_auto. Qed.

Lemma steady_leaderPhase ts js l : steadyK (encryptionKeyRotationLeaderPhaseReconcile cp ts js l).
Proof. unfold encryptionKeyRotationLeaderPhaseReconcile. steady_auto. Qed.
#[local] Hint Resolve steady_restartNodes steady_leaderPhase : planner.

Lemma steady_rotate_phase ts js l i : steadyK (rotate_phase cp ts js l i).
Proof.
  unfold rotate_phase.
  repeat match goal with |- steadyK (if ?b then _ else _) => destruct b eqn:? end;
    repeat match goal with Hb : (_ =? _) = true |- _ => apply bool_decide_eq_true_1 in Hb end;
    steady_auto; apply steady_setEncryptionKeyRotateState;
    match goal with Hb : phase cp = _ |- _ => rewrite Hb end; constructor.
Qed.
End phases.

Section rotation.
Context `{P : Planner}.
#[local] Existing Instance key_step_refl.

Lemma restart_demanded_spec cp :
  restart_demanded cp <-> canRotateEncryptionKeys cp = true /\ shouldRestartEncryptionKeyRotation cp = Ret true.
Proof.
  unfold restart_demanded, canRotateEncryptionKeys, shouldRestartEncryptionKeyRotation, hasValidNonFailedRotateEncryptionKeyStatus,
    rotateEncryptionKeyInProgress, rek_generation.
  destruct (sp_RotateEncryptionKeys (cp_Spec cp)) as [req|]; [|naive_solver].
  destruct (Cond_IsTrue ReadyCond _) eqn:Er; cbn [negb andb]; [|split; [naive_solver|]; intros [_ ?]; done].
  set (known := bool_decide (phase cp ∈ [RotateEncryptionKeysPhasePrepare; _; _; _; _; _])).
  assert (phase cp ∉ ["Prepare"; "PostPrepareRestart"; "Rotate"; "PostRotateRestart"; "Reencrypt"; "PostReencryptRestart"; "Done"; "Failed"]
    <-> known = false /\ phase cp <> "Done" /\ phase cp <> "Failed") as Hu.
  { unfold known. rewrite bool_decide_eq_false, !elem_of_cons, !elem_of_nil. unfold RotateEncryptionKeysPhasePrepare, RotateEncryptionKeysPhasePostPrepareRestart,
      RotateEncryptionKeysPhaseRotate, RotateEncryptionKeysPhasePostRotateRestart, RotateEncryptionKeysPhaseReencrypt, RotateEncryptionKeysPhasePostReencryptRestart. tauto. }
  assert (known = true -> phase cp <> "Done" /\ phase cp <> "Failed" /\ phase cp <> "") as Hk.
  { unfold known. rewrite bool_decide_eq_true. intros Hin. rewrite !elem_of_cons, elem_of_nil in Hin. split_and!; intros Hp; rewrite Hp in Hin; by repeat (destruct Hin as [Hin|Hin]; [discriminate Hin|]). }
  clearbody known. cbv zeta. unfold RotateEncryptionKeysPhaseDone, RotateEncryptionKeysPhaseFailed.
  destruct (bool_decide_reflect (phase cp = "Done")) as [H1|H1], (bool_decide_reflect (phase cp = "Failed")) as [H2|H2],
    (bool_decide_reflect (phase cp = "")) as [H3|H3], known, (st_RotateEncryptionKeys (cp_Status cp)) as [old|]; cbn;
    try (destruct (Hk eq_refl) as (? & ? & ?)); try congruence; rewrite ?andb_true_r, ?andb_false_r; cbn [res_bind];
    try destruct (Z.ltb_spec 0 (re_Generation req)); try rewrite (Z.eqb_sym (re_Generation old));
    try destruct (Z.eqb_spec (re_Generation req) (re_Generation old)); cbn; clear Hk; setoid_rewrite Hu; clear Hu; naive_solver lia.
Qed.

Lemma steady_rotateEncryptionKeys cp ts rd :
  steady (fun p => p = phase cp) st_RotateEncryptionKeysPhase (key_step cp) (rotateEncryptionKeys cp ts rd).
Proof.
  unfold rotateEncryptionKeys. destruct (sp_RotateEncryptionKeys (cp_Spec cp)) as [r|] eqn:Esp.
  2:{ unfold resetEncryptionKeyRotateState. steady_auto. apply steady_setEncryptionKeyRotateState. by constructor. }
  assert (sp_RotateEncryptionKeys (cp_Spec cp) <> None) as Hsp by congruence.
  steady_step; [steady_auto|]. destruct (negb _).
  { apply steady_setEncryptionKeyRotateState. by constructor. }
  destruct (canRotateEncryptionKeys cp) eqn:Ecan; cbn [negb]; [|steady_auto]. steady_step; [steady_auto|]. destruct (negb _); [steady_auto|].
  steady_step; [steady_auto|]. destruct a1 as [[[found js] init] err]. steady_step; [steady_auto|].
  destruct (_ || _); [steady_auto|].
  apply steady_bind_lift; [apply _|]. intros [] Hrestart; [apply steady_setEncryptionKeyRotateState; constructor; by apply restart_demanded_spec|].
  pose proof (steady_rotate_phase cp Hsp). steady_auto.
Qed.

(** C13: the phase of a rotation of the encryption keys moves only along its prescribed transitions:
    prepare, restart, rotate, restart, reencrypt, restart, done, with failure possible everywhere; it starts over at
    [Prepare] only when that is demanded, that is when the control plane is ready and no request is recorded while one is
    made, the recorded one has ended and another generation is requested, or the phase is unknown; and it is reset
    exactly when the request is gone.  When a restart is demanded on a control plane that is initialized, of a version that supports it,
    whose init node can be joined, it happens.  Every transition ends the pass with an error: a pass that goes on has not
    changed the phase. *)
Theorem rotateEncryptionKeys_phases cp ts rd w s w' s' r :
  st_RotateEncryptionKeysPhase s = phase cp -> rotateEncryptionKeys cp ts rd (w, s) = ((w', s'), r) ->
  key_step cp (phase cp) (st_RotateEncryptionKeysPhase s')
  /\ (returns r = true -> st_RotateEncryptionKeysPhase s' = phase cp)
  /\ (sp_RotateEncryptionKeys (cp_Spec cp) = None -> st_RotateEncryptionKeys s' = None /\ st_RotateEncryptionKeysPhase s' = "")
  /\ (forall w1 js init, restart_demanded cp -> encryptionKeyRotationSupported rd = Ret true -> st_Initialized s = true ->
       findInitNode cp w = (w1, Ret (true, js, init, None)) -> js <> "" ->
       st_RotateEncryptionKeysPhase s' = "Prepare" /\ st_RotateEncryptionKeys s' = sp_RotateEncryptionKeys (cp_Spec cp)).
Proof.
  intros Hs Hr. pose proof (steady_rotateEncryptionKeys cp ts rd (w, s) Hs) as Hst. rewrite Hr in Hst. simpl in Hst.
  rewrite Hs in Hst. split; [destruct r; [rewrite Hst; apply key_stay|done..]|]. split; [by destruct r|].
  clear Hst. unfold rotateEncryptionKeys in Hr. split.
  - intros Hsp. rewrite Hsp in Hr. unfold resetEncryptionKeyRotateState, setEncryptionKeyRotateState, bind, get_status, gets in Hr. cbn [fst snd] in Hr.
    destruct (bool_decide_reflect (st_RotateEncryptionKeys s = None)) as [H1|H1], (bool_decide_reflect (st_RotateEncryptionKeysPhase s = "")) as [H2|H2];
      cbn [andb] in Hr; repeat (case_bool_decide; try congruence); cbn in Hr; by injection Hr as <- <- <-.
  - intros w1 js init [Hcan Hre]%restart_demanded_spec Hsup Hi Hf Hjs.
    destruct (sp_RotateEncryptionKeys (cp_Spec cp)) as [req|] eqn:Esp; [|unfold canRotateEncryptionKeys in Hcan; by rewrite Esp in Hcan].
    unfold bind at 1, lift at 1 in Hr. rewrite Hsup, Hcan in Hr. cbn [negb] in Hr. unfold bind at 1, get_status, gets at 1 in Hr. cbn [snd] in Hr.
    rewrite Hi in Hr. cbn [negb] in Hr. unfold bind at 1, inW at 1 in Hr. rewrite Hf in Hr. unfold bind at 1, fail_if, ret at 1 in Hr.
    rewrite (bool_decide_eq_false_2 (js = "")) in Hr by done. cbn [negb orb] in Hr. unfold bind at 1, lift at 1 in Hr. rewrite Hre in Hr.
    unfold setEncryptionKeyRotateState, bind, get_status, gets in Hr. cbn [fst snd] in Hr.
    destruct (bool_decide_reflect (st_RotateEncryptionKeys s = Some req)) as [H1|H1],
      (bool_decide_reflect (st_RotateEncryptionKeysPhase s = RotateEncryptionKeysPhasePrepare)) as [H2|H2]; unfold ret, fail, mod_status, modify in Hr; cbn in Hr; injection Hr as <- <- <-; done.
Qed.

(** ** Agreement on the stage *)

Lemma restartService_Ret cp ts js e scrape ls w s ws' stage :
  encryptionKeyRotationRestartService cp ts js e scrape ls (w, s) = (ws', Ret stage) ->
  ws' = (w, s) /\ (exists plan joined, restart_plan cp ts js e ls = Ret (plan, joined) /\ plan_done e plan)
  /\ (scrape = true -> isControlPlane e = true -> encryptionKeyRotationSecretsEncryptStageFromOneTimeStatus e = Ret stage).
Proof.
  unfold encryptionKeyRotationRestartService. intros ([plan joined] & ws1 & Hl & Hk)%bind_Ret.
  unfold lift in Hl. injection Hl as <- Hplan. apply bind_Ret in Hk as ([e' err] & ws2 & Ha & Hk).
  apply inW_Ret in Ha as (w2 & -> & Ha). destruct err as [er|].
  { destruct (IsErrWaiting er); [destruct (pe_Plan e') as [n|]; [destruct (planAppliedButWaitingForProbes n)|]|]; inv Hk. }
  apply assignAndCheckPlan_None in Ha as (-> & -> & Hdone).
  destruct (negb scrape || negb (isControlPlane e)) eqn:Eb.
  - inv Hk. split; [done|]. split; [eauto|]. intros -> Hcp. by rewrite Hcp in Eb.
  - unfold lift in Hk. injection Hk as <- Hstage. split; [done|]. split; [eauto|done].
Qed.

Lemma restart_follower_Ret cp ts js ls leader e w s ws' u :
  isControlPlane e = true -> restart_follower cp ts js ls leader e (w, s) = (ws', Ret u) ->
  ws' = (w, s) /\ (exists plan joined, restart_plan cp ts js e ls = Ret (plan, joined) /\ plan_done e plan)
  /\ encryptionKeyRotationSecretsEncryptStageFromOneTimeStatus e = Ret ls.
Proof.
  intros Hcp. unfold restart_follower. intros (stage & ws1 & (-> & Hplan & Hst)%restartService_Ret & Hk)%bind_Ret.
  case_bool_decide as Hs; cbn [negb] in Hk.
  - inv Hk. auto.
  - repeat case_match; inv Hk.
Qed.

(** The server has been restarted with the plan of this phase, and is done with it. *)
Definition restarted (cp : RKEControlPlane) (ts : TokensSecret) (js ls : string) (e : planEntry) : Prop :=
  exists plan joined, restart_plan cp ts js e ls = Ret (plan, joined) /\ plan_done e plan.

(** A restart phase of the rotation is passed only when every server it concerns has been restarted
    (the init node and the etcd servers too, unless the init node leads), and every control-plane server
    reports the same encryption stage as the leader; nothing is written in the pass that finds this. *)
Theorem restartNodes_agree cp ts leader initNode js w s ws' u :
  isControlPlane leader = true ->
  encryptionKeyRotationRestartNodes cp ts leader initNode js (w, s) = (ws', Ret u) ->
  ws' = (w, s)
  /\ (isInitNode leader = false ->
        restarted cp ts js "" initNode /\
        Forall (restarted cp ts js "") (collect (w_plan w) (encryptionKeyRotationIsEtcdAndNotControlPlaneAndNotLeaderAndInit cp)))
  /\ restarted cp ts js "" leader
  /\ exists stage, encryptionKeyRotationSecretsEncryptStageFromOneTimeStatus leader = Ret stage
       /\ Forall (fun e => restarted cp ts js stage e /\ encryptionKeyRotationSecretsEncryptStageFromOneTimeStatus e = Ret stage)
            (collect (w_plan w) (encryptionKeyRotationIsControlPlaneAndNotLeaderAndInit cp)).
Proof.
  intros Hcp. unfold encryptionKeyRotationRestartNodes. intros ([] & ws1 & Hpre & Hk)%bind_Ret.
  assert (forall e ws2 u', bind (encryptionKeyRotationRestartService cp ts js e false "") (fun _ => ret tt) (w, s) = (ws2, Ret u') ->
            ws2 = (w, s) /\ restarted cp ts js "" e) as Hrestart.
  { intros e ws2 u' (stage & ws3 & (-> & Hp & _)%restartService_Ret & Hr)%bind_Ret. by inv Hr. }
  assert (ws1 = (w, s) /\ (isInitNode leader = false ->
        restarted cp ts js "" initNode /\
        Forall (restarted cp ts js "") (collect (w_plan w) (encryptionKeyRotationIsEtcdAndNotControlPlaneAndNotLeaderAndInit cp))))
    as [-> Hetcd].
  { destruct (isInitNode leader); cbn [negb] in Hpre; [by inv Hpre|].
    apply bind_Ret in Hpre as ([] & ws2 & [-> Hi]%Hrestart & Hpre).
    apply bind_Ret in Hpre as (entries & ws3 & Hc & Hpre). apply inW_Ret in Hc as (w3 & -> & Hc). inv Hc.
    apply for_fold_still with (Q := restarted cp ts js "") in Hpre as [-> Hall]; [by auto|].
    intros x ws2 u' _. apply Hrestart. }
  apply bind_Ret in Hk as (ls & ws2 & (-> & Hlead & Hls)%restartService_Ret & Hk).
  apply bind_Ret in Hk as (entries & ws3 & Hc & Hk). apply inW_Ret in Hc as (w3 & -> & Hc). inv Hc.
  apply for_fold_still with (Q := fun e => restarted cp ts js ls e
     /\ encryptionKeyRotationSecretsEncryptStageFromOneTimeStatus e = Ret ls) in Hk as [-> Hall].
  - split; [done|]. split; [done|]. split; [done|]. exists ls. auto.
  - intros e ws1 u' He Hr. apply restart_follower_Ret in Hr as (-> & Hp & Hst); [by auto|].
    apply collect_include in He. unfold encryptionKeyRotationIsControlPlaneAndNotLeaderAndInit, isControlPlaneAndNotInitNode in He.
    by apply andb_true_iff in He as [[? _]%andb_true_iff _].
Qed.
End rotation.

Section witnesses.
#[local] Existing Instance demoExternal.
#[local] Instance demoP : Planner := demoPlanner ∅ ∅ [] (Some demoCluster).

Let cp : RKEControlPlane := demoRequest None None None (Some (mkRotateEncryptionKeys 1)).
Let release : Release := mkRelease ∅ ∅ {[ "encryption-key-rotation" := "2.0.0" ]}.

(** A new request starts with [Prepare]. *)
Lemma rotateEncryptionKeys_phases_witness : exists w' s' r,
  rotateEncryptionKeys cp demoTokens release (demoServerWorld None, cp_Status cp) = ((w', s'), r)
  /\ key_step cp "" (st_RotateEncryptionKeysPhase s') /\ st_RotateEncryptionKeysPhase s' = RotateEncryptionKeysPhasePrepare.
Proof.
  assert (st_RotateEncryptionKeysPhase (snd (fst (rotateEncryptionKeys cp demoTokens release (demoServerWorld None, cp_Status cp))))
          = RotateEncryptionKeysPhasePrepare) as Hp by (vm_compute; reflexivity).
  destruct (rotateEncryptionKeys cp demoTokens release (demoServerWorld None, cp_Status cp)) as [[w' s'] r] eqn:E.
  exists w', s', r. split; [reflexivity|]. split; [|exact Hp].
  apply (rotateEncryptionKeys_phases cp demoTokens release _ (cp_Status cp) w' s' r eq_refl E).
Defined.

Let plan : NodePlan :=
  match restart_plan cp demoTokens "https://m1:9345" (demoServerEntry None) "" with Ret (p, _) => p | _ => emptyNodePlan end.
Let node : Node := mkNode plan (Some plan) ""
  {[ encryptionKeyRotationSecretsEncryptStatusCommand := "Status: Enabled" +:+ newline +:+ "Current Rotation Stage: prepare" ]}
  ∅ false true true true ∅ true.

Lemma restartNodes_agree_witness : exists stage,
  encryptionKeyRotationSecretsEncryptStageFromOneTimeStatus (demoServerEntry (Some node)) = Ret stage.
Proof.
  destruct (returns_run (encryptionKeyRotationRestartNodes cp demoTokens (demoServerEntry (Some node)) (demoServerEntry (Some node))
              "https://m1:9345") (demoServerWorld (Some node), cp_Status cp)) as (ws' & u & E); [vm_compute; reflexivity|].
  destruct (restartNodes_agree cp demoTokens (demoServerEntry (Some node)) (demoServerEntry (Some node)) "https://m1:9345"
              (demoServerWorld (Some node)) (cp_Status cp) ws' u eq_refl E) as (_ & _ & _ & stage & Hs & _).
  exists stage. exact Hs.
Defined.

Lemma stage_of_output_witness :
  encryptionKeyRotationStageFromOutput (demoServerEntry None)
    ("Status: Enabled" +:+ newline +:+ "Current Rotation Stage: prepare") = Ret "prepare".
Proof.
  apply (stage_of_output (demoServerEntry None) _ ["Status: Enabled"] "Current Rotation Stage: prepare" []);
    [vm_compute; reflexivity|done| |reflexivity|vm_compute; reflexivity].
  intros l ->%list_elem_of_singleton. vm_compute. discriminate.
Defined.
End witnesses.
