(* ===== verification/EtcdCreate.v ===== *)
(** * Creating etcd snapshots ([pkg/capr/planner/etcdcreate.go]) *)

From S2P Require Import Prelude GoLib Errors Types External Instances Capr PlanEntry World Store InitNode Instructions DesiredPlan Changes Reconcile Cluster CertRotation.

Definition setEtcdSnapshotCreateState (create : option ETCDSnapshotCreate) (phase : string) : SM unit :=
  let* s := get_status in
  if (st_ETCDSnapshotCreatePhase s !=? phase) || (st_ETCDSnapshotCreate s !=? create) then
    let* _ := mod_status (fun s => set_st_ETCDSnapshotCreate create (set_st_ETCDSnapshotCreatePhase phase s)) in
    fail (errWaiting "refreshing etcd create state")
  else ret tt.

Definition resetEtcdSnapshotCreateState : SM unit :=
  let* s := get_status in
  if bool_decide (st_ETCDSnapshotCreate s = None) && (st_ETCDSnapshotCreatePhase s =? "") then ret tt
  else setEtcdSnapshotCreateState None "".

Definition startOrRestartEtcdSnapshotCreate (snapshot : ETCDSnapshotCreate) : SM unit :=
  let* s := get_status in
  if st_ETCDSnapshotCreate s !=? Some snapshot
  then setEtcdSnapshotCreateState (Some snapshot) ETCDSnapshotPhaseStarted
  else ret tt.

Section create.
Context `{P : Planner} `{!SemverLaws}.

(** From v1.26 on the sub-command [save] has to be given. *)
Definition generateEtcdSnapshotCreatePlan (controlPlane : RKEControlPlane) (tokensSecret : TokensSecret)
    (entry : planEntry) (joinServer : string) : res (NodePlan * string) :=
  let version := cp_version controlPlane in
  let? v := NewVersion version in
  let args := ["etcd-snapshot"] ++ (if GreaterThan v Kubernetes125 then ["save"] else []) in
  let? ' (createPlan, _, joinedServer) := generatePlanWithConfigFiles controlPlane tokensSecret entry joinServer true in
  let? install := generateInstallInstructionWithSkipStart controlPlane entry in
  Ret (append_instructions [install; mkOneTimeInstruction "create" "" [] args (GetRuntimeCommand version) false] createPlan,
       joinedServer).

Definition snapshot_message (server : planEntry) : string :=
  let byMachine := "etcd snapshot on machine " +:+ m_Namespace (pe_Machine server) +:+ "/" +:+ pe_name server in
  match m_NodeRef (pe_Machine server) with
  | Some ref => if ref_Name ref !=? "" then "etcd snapshot on node " +:+ ref_Name ref else byMachine
  | None => byMachine
  end.

(** The errors of the servers are collected; a plan that cannot be generated ends the loop. *)
Definition create_one (controlPlane : RKEControlPlane) (tokensSecret : TokensSecret) (joinServer : string)
    (errs : list error) (server : planEntry) : M (list error) :=
  let* ' (createPlan, joinedServer) := lift (generateEtcdSnapshotCreatePlan controlPlane tokensSecret server joinServer) in
  let* ' (_, err) := assignAndCheckPlan (snapshot_message server) server createPlan joinedServer 3 3 in
  ret (match err with Some e => errs ++ [e] | None => errs end).

Definition runEtcdSnapshotCreate (controlPlane : RKEControlPlane) (tokensSecret : TokensSecret) (joinServer : string)
  : M (list error) :=
  let* servers := collectM isEtcd in
  match servers with
  | [] => ret [errorString "failed to find node to perform etcd snapshot"]
  | _ =>
      let* r := attempt (for_fold servers [] (create_one controlPlane tokensSecret joinServer)) in
      match r with
      | inl errs => ret errs
      | inr e => ret [e]
      end
  end.

(** Brings the management plane back: the init node first, then the others one after another. *)
Definition runEtcdSnapshotManagementServiceStart (controlPlane : RKEControlPlane) (tokensSecret : TokensSecret)
    (include : roleFilter) (operation : string) : M unit :=
  let* _ := reconcile controlPlane tokensSecret true bootstrapTier isEtcd isNotInitNodeOrIsDeleting "1" ""
              (us_ControlPlaneDrainOptions (sp_UpgradeStrategy (cp_Spec controlPlane))) in
  let* ' (_, joinServer, _, err) := findInitNode controlPlane in
  let* _ := fail_if err in
  if joinServer =? "" then
    fail (errorString ("error encountered restarting cluster during " +:+ operation +:+ ", joinServer was empty"))
  else
    let* entries := collectM include in
    for_fold entries tt (fun _ entry =>
      if isInitNodeOrDeleting entry then ret tt
      else
        let* ' (plan, joinedServer) := lift (desiredPlan controlPlane tokensSecret entry joinServer) in
        let* _ := assignOrFail (operation +:+ " management plane restart") entry plan joinedServer 1 (-1) in
        ret tt).

(** The errors of a round of snapshots: any that is not a wait marks the operation as failed. *)
Fixpoint collect_snapshot_errors (snapshot : ETCDSnapshotCreate) (errs : list error) (stateSet : bool)
    (finErrs : list error) : SM (list error) :=
  match errs with
  | [] => ret finErrs
  | e :: rest =>
      let finErrs := finErrs ++ [e] in
      if negb (IsErrWaiting e) && negb stateSet then
        let* r := attempt_err (setEtcdSnapshotCreateState (Some snapshot) ETCDSnapshotPhaseFailed) in
        match r with
        | Some e' => collect_snapshot_errors snapshot rest stateSet (finErrs ++ [e'])
        | None => collect_snapshot_errors snapshot rest true finErrs
        end
      else collect_snapshot_errors snapshot rest stateSet finErrs
  end.

Definition create_started (controlPlane : RKEControlPlane) (tokensSecret : TokensSecret) (snapshot : ETCDSnapshotCreate) : SM unit :=
  let* ' (found, joinServer, _, err) := inW (findInitNode controlPlane) in
  let* _ := fail_if err in
  if negb found || (joinServer =? "") then ret tt
  else
    let* errs := inW (runEtcdSnapshotCreate controlPlane tokensSecret joinServer) in
    match errs with
    | _ :: _ =>
        let* finErrs := collect_snapshot_errors snapshot errs false [] in
        fail (errWaiting (merr_NewErrors finErrs))
    | [] => setEtcdSnapshotCreateState (Some snapshot) ETCDSnapshotPhaseRestartCluster
    end.

Definition createEtcdSnapshot (controlPlane : RKEControlPlane) (tokensSecret : TokensSecret) : SM unit :=
  match sp_ETCDSnapshotCreate (cp_Spec controlPlane) with
  | None => resetEtcdSnapshotCreateState
  | Some snapshot =>
      let* s := get_status in
      if negb (st_Initialized s) || negb (Cond_IsTrue Bootstrapped (st_Conditions s)) then ret tt
      else
        let* _ := startOrRestartEtcdSnapshotCreate snapshot in
        let phase := st_ETCDSnapshotCreatePhase (cp_Status controlPlane) in
        if phase =? ETCDSnapshotPhaseStarted then create_started controlPlane tokensSecret snapshot
        else if phase =? ETCDSnapshotPhaseRestartCluster then
          let* _ := inW (runEtcdSnapshotManagementServiceStart controlPlane tokensSecret isEtcd "etcd snapshot creation") in
          setEtcdSnapshotCreateState (Some snapshot) ETCDSnapshotPhaseFinished
        else if (phase =? ETCDSnapshotPhaseFailed) || (phase =? ETCDSnapshotPhaseFinished) then ret tt
        else setEtcdSnapshotCreateState (Some snapshot) ETCDSnapshotPhaseStarted
  end.
End create.

(** ** The phases of a snapshot *)

Inductive create_step (cp : RKEControlPlane) : string -> string -> Prop :=
| create_stay p : create_step cp p p
| create_reset p : sp_ETCDSnapshotCreate (cp_Spec cp) = None -> create_step cp p ""
| create_start p : sp_ETCDSnapshotCreate (cp_Spec cp) <> None -> create_step cp p ETCDSnapshotPhaseStarted
| create_failed : create_step cp ETCDSnapshotPhaseStarted ETCDSnapshotPhaseFailed
| create_taken : create_step cp ETCDSnapshotPhaseStarted ETCDSnapshotPhaseRestartCluster
| create_finished : create_step cp ETCDSnapshotPhaseRestartCluster ETCDSnapshotPhaseFinished.

Section create_phases.
Context `{P : Planner} `{!SemverLaws} (cp : RKEControlPlane).
Local Abbreviation cur := (st_ETCDSnapshotCreatePhase (cp_Status cp)).
Local Abbreviation steadyC := (steady (fun p => p = cur) st_ETCDSnapshotCreatePhase (create_step cp)).

#[local] Instance create_step_refl : Reflexive (create_step cp).
Proof. intros p. apply create_stay. Qed.

Lemma steady_setEtcdSnapshotCreateState r p :
  create_step cp cur p -> steadyC (setEtcdSnapshotCreateState r p).
Proof.
  intros Hp [w s] HJ. unfold setEtcdSnapshotCreateState, bind, get_status, gets. simpl in *.
  destruct (_ || _); simpl; [|done]. by rewrite HJ.
Qed.

Lemma setEtcdSnapshotCreateState_phase r p w s :
  st_ETCDSnapshotCreatePhase (snd (fst (setEtcdSnapshotCreateState r p (w, s)))) = p.
Proof.
  unfold setEtcdSnapshotCreateState, bind, get_status, gets. simpl.
  destruct (_ || _) eqn:E; simpl; [done|]. apply orb_false_iff in E as [E _]. by apply negb_false_iff, bool_decide_eq_true_1 in E.
Qed.

(** Collecting the errors of the machines leaves the phase, or marks the snapshot as failed. *)
Lemma collect_snapshot_errors_phase snapshot errs : forall b fin w s,
  st_ETCDSnapshotCreatePhase (snd (fst (collect_snapshot_errors snapshot errs b fin (w, s))))
    = st_ETCDSnapshotCreatePhase s
  \/ st_ETCDSnapshotCreatePhase (snd (fst (collect_snapshot_errors snapshot errs b fin (w, s)))) = ETCDSnapshotPhaseFailed.
Proof.
  induction errs as [|e errs IH]; intros b fin w s; simpl; [by left|]. destruct (_ && _); [|apply IH].
  unfold bind, attempt_err, attempt. unfold bind.
  pose proof (setEtcdSnapshotCreateState_phase (Some snapshot) ETCDSnapshotPhaseFailed w s) as Hp.
  destruct (setEtcdSnapshotCreateState _ _ _) as [[w1 s1] [a|er|]]; simpl in *; [| |by right].
  - destruct (IH true (fin ++ [e]) w1 s1) as [-> | ->]; by right.
  - destruct (IH b ((fin ++ [e]) ++ [er]) w1 s1) as [-> | ->]; by right.
Qed.

Lemma steady_create_started ts snapshot :
  cur = ETCDSnapshotPhaseStarted -> steadyC (create_started cp ts snapshot).
Proof.
  intros Hcur. unfold create_started. steady_step; [steady_auto|].
  destruct (_ : search) as [[[found js] init] err]. steady_step; [steady_auto|]. destruct (_ || _); [steady_auto|].
  steady_step; [steady_auto|]. destruct (_ : list error) as [|e errs].
  - apply steady_setEtcdSnapshotCreateState. rewrite Hcur. constructor.
  - intros [w s] HJ. simpl in HJ. unfold bind.
    pose proof (collect_snapshot_errors_phase snapshot (e :: errs) false [] w s) as Hp.
    destruct (collect_snapshot_errors _ _ _ _ _) as [[w1 s1] [fin|er|]]; simpl in *;
      (destruct Hp as [-> | ->]; [apply create_stay|rewrite HJ, Hcur; constructor]).
Qed.

Lemma steady_createEtcdSnapshot ts : steadyC (createEtcdSnapshot cp ts).
Proof.
  unfold createEtcdSnapshot. destruct (sp_ETCDSnapshotCreate (cp_Spec cp)) as [r|] eqn:Er.
  2:{ unfold resetEtcdSnapshotCreateState. steady_auto. apply steady_setEtcdSnapshotCreateState. by constructor. }
  steady_step; [steady_auto|]. destruct (_ || _); [steady_auto|].
  assert (create_step cp cur ETCDSnapshotPhaseStarted) as Hstart by (constructor; congruence).
  steady_step; [unfold startOrRestartEtcdSnapshotCreate; steady_auto; by apply steady_setEtcdSnapshotCreateState|].
  case_bool_decide as H1; [by apply steady_create_started|]. case_bool_decide as H2.
  { steady_step; [steady_auto|]. apply steady_setEtcdSnapshotCreateState. rewrite H2. constructor. }
  destruct (_ || _); [steady_auto|]. by apply steady_setEtcdSnapshotCreateState.
Qed.

(** The phase of an etcd snapshot moves only along its prescribed transitions: started, then failed or
    taken, then the restart of the management plane, then finished; a new request starts over, and
    without a request the state is cleared.  Every transition ends the pass with an error. *)
Theorem createEtcdSnapshot_phases ts w s w' s' r :
  st_ETCDSnapshotCreatePhase s = cur -> createEtcdSnapshot cp ts (w, s) = ((w', s'), r) ->
  create_step cp cur (st_ETCDSnapshotCreatePhase s') /\ (returns r = true -> st_ETCDSnapshotCreatePhase s' = cur).
Proof.
  intros Hs Hr. pose proof (steady_createEtcdSnapshot ts (w, s) Hs) as Hst. rewrite Hr in Hst. simpl in Hst.
  rewrite Hs in Hst. destruct r; simpl; [rewrite Hst; split; [apply create_stay|done]|by split..].
Qed.
End create_phases.

Section witness.
#[local] Existing Instance demoExternal.
#[local] Existing Instance demoSemverLaws.
#[local] Instance demoP : Planner := demoPlanner ∅ ∅ [] (Some demoCluster).
Let cp : RKEControlPlane := demoRequest (Some (mkETCDSnapshotCreate 1)) None None None.

Lemma createEtcdSnapshot_phases_witness : exists w' s' r,
  createEtcdSnapshot cp demoTokens (demoServerWorld None, cp_Status cp) = ((w', s'), r)
  /\ create_step cp "" (st_ETCDSnapshotCreatePhase s') /\ st_ETCDSnapshotCreatePhase s' = ETCDSnapshotPhaseStarted.
Proof.
  assert (st_ETCDSnapshotCreatePhase (snd (fst (createEtcdSnapshot cp demoTokens (demoServerWorld None, cp_Status cp))))
          = ETCDSnapshotPhaseStarted) as Hp by (vm_compute; reflexivity).
  destruct (createEtcdSnapshot cp demoTokens (demoServerWorld None, cp_Status cp)) as [[w' s'] r] eqn:E.
  exists w', s', r. split; [reflexivity|]. split; [|exact Hp].
  apply (createEtcdSnapshot_phases cp demoTokens _ (cp_Status cp) w' s' r eq_refl E).
Defined.
End witness.
