(* ===== verification/EtcdRestore.v ===== *)
(** * Restoring etcd snapshots ([pkg/capr/planner/etcdrestore.go])

    All nodes are stopped, the snapshot is restored on the init node, pods and nodes that do not
    belong to the restored state are cleaned up, and the cluster is restarted. *)

From S2P Require Import Prelude GoLib Codec Errors Types External Instances Capr PlanEntry World Store InitNode S3Args Instructions DesiredPlan Changes Reconcile Cluster CertRotation.

Definition etcdRestorePostRestoreWaitForPodListCleanupPath : string := "wait_for_pod_list.sh".
Definition etcdRestorePostRestoreWaitForPodListCleanupScript : string := script "
#!/bin/sh

i=0

while [ $i -lt 30 ]; do
	if $@ >/dev/null 2>&1; then
		exit 0
	fi
	sleep 10
	i=$((i + 1))
done
exit 1
".
Definition etcdRestoreNodeCleanUpPath : string := "clean_up_nodes.sh".
Definition etcdRestoreNodeCleanUpScript : string := script "
#!/bin/sh

if [ -z `$KUBECTL` ]; then
        echo `Must define KUBECTL environment variable`
        exit 1
fi

if [ -z `$KUBECONFIG` ]; then
        echo `Must define KUBECONFIG environment variable`
        exit 1
fi

MACHINEIDSFILE=`$1`
NODENAMESFILE=`$2`

if [ -z `$MACHINEIDSFILE` ] || [ -z `$NODENAMESFILE` ]; then
        echo `Must define nodenames file and machineids file`
fi

TMPALLNODES=$(mktemp)
TMPSAVENODES=$(mktemp)

cat `$NODENAMESFILE` > `$TMPSAVENODES`

if ! ${KUBECTL} get nodes --no-headers -o=jsonpath='{range .items[*]}{.metadata.name}{`\n`}{end}' > `$TMPALLNODES`; then
        echo `Error listing all nodes`
        exit 1
fi

while IFS='' read -r IDENTIFIER; do
        if NODENAME=$(${KUBECTL} get node --no-headers -o=jsonpath='{.items[0].metadata.name}' -l rke.cattle.io/machine=`$IDENTIFIER`); then
                echo `$NODENAME` >> `$TMPSAVENODES`
        fi
done < `$MACHINEIDSFILE`

echo `Saving nodes:`
cat `$TMPSAVENODES`

while IFS='' read -r NODE; do
        if [ `${NODE}` = `` ]; then
                continue
        fi
        FOUND=false
        while IFS='' read -r KEEP; do
                if [ `${NODE}` = `${KEEP}` ]; then
                        FOUND=true
                        break
                fi
        done < `$TMPSAVENODES`
        if [ `${FOUND}` != `true` ]; then
                echo `Deleting node ${NODE}`
                ${KUBECTL} delete node `${NODE}` --wait=false
        fi
done < `$TMPALLNODES`
rm `$TMPALLNODES`
rm `$TMPSAVENODES`

rm `$MACHINEIDSFILE`
rm `$NODENAMESFILE`
".
Definition etcdRestoreNodeWaitForReadyPath : string := "wait_for_ready.sh".
Definition etcdRestoreNodeWaitForReadyScript : string := script "
#!/bin/sh

if [ -z `$KUBECTL` ]; then
        echo `Must define KUBECTL environment variable`
        exit 1
fi

if [ -z `$KUBECONFIG` ]; then
        echo `Must define KUBECONFIG environment variable`
        exit 1
fi

TMPMACHINEIDS=$(mktemp)

printf '%s\n' `$@` > `$TMPMACHINEIDS`

DESIREDREADYCOUNT=$(wc -l < `$TMPMACHINEIDS`)

DESIREDNODESREADY=false

while ! $DESIREDNODESREADY; do
        DESIREDNODESREADY=true
        while IFS='' read -r MID; do
                if [ `$MID` = `` ]; then
                        exit
                fi
                if NODEREADY=$(${KUBECTL} get node --no-headers -o=custom-columns=STATUS:status.conditions\[\?\(\@.type==\`Ready\`\)\].status -l rke.cattle.io/machine=`$MID`); then
                        if [ `$NODEREADY` != `True` ]; then
                                DESIREDNODESREADY=false
                                sleep 5
                                break
                        fi
                fi
        done < `$TMPMACHINEIDS`
done


DESIREDREADYCOUNT=$(wc -l < `$TMPMACHINEIDS`)
rm `$TMPMACHINEIDS`

TMPALLREADY=$(mktemp)

ITERCOUNT=0
while [ `$ITERCOUNT` != 60 ]; do
        ACTUALREADYCOUNT=0
        ITERCOUNT=$((ITERCOUNT+1))
        if ! ${KUBECTL} get nodes --no-headers -o=custom-columns=STATUS:status.conditions\[\?\(\@.type==\`Ready\`\)\].status > `$TMPALLREADY`; then
                sleep 5
                continue
        fi
        while IFS='' read -r STATUS; do
                if [ `$STATUS` = `True` ]; then
                        ACTUALREADYCOUNT=$((ACTUALREADYCOUNT+1))
                fi
        done < `$TMPALLREADY`
        if [ `$DESIREDREADYCOUNT` = `$ACTUALREADYCOUNT` ]; then
                break
        fi
        sleep 5
done

rm `$TMPALLREADY`
".
Definition ETCDRestoreMessage : string := "etcd restore".

(** [fmt.Sprintf("%v", restore)] of a pointer to the restore request. *)
Definition Sprintf_restore (r : option ETCDSnapshotRestore) : string :=
  match r with
  | None => "<nil>"
  | Some r => "&{" +:+ sr_Name r +:+ " " +:+ Itoa (sr_Generation r) +:+ " " +:+ sr_RestoreRKEConfig r +:+ "}"
  end.
Definition restore_stamp (cp : RKEControlPlane) : string := Sprintf_restore (st_ETCDSnapshotRestore (cp_Status cp)).

(** ** Status *)

Definition setEtcdSnapshotRestoreState (restore : option ETCDSnapshotRestore) (phase : string) : SM unit :=
  let* s := get_status in
  if (st_ETCDSnapshotRestore s !=? restore) || (st_ETCDSnapshotRestorePhase s !=? phase) then
    let* _ := mod_status (fun s => set_st_ETCDSnapshotRestorePhase phase (set_st_ETCDSnapshotRestore restore s)) in
    fail (errWaiting "refreshing etcd restore state")
  else ret tt.

Definition resetEtcdSnapshotRestoreState : SM unit :=
  let* s := get_status in
  if bool_decide (st_ETCDSnapshotRestore s = None) && (st_ETCDSnapshotRestorePhase s =? "") then ret tt
  else setEtcdSnapshotRestoreState None "".

Definition startOrRestartEtcdSnapshotRestore (restore : ETCDSnapshotRestore) : SM unit :=
  let* s := get_status in
  if st_ETCDSnapshotRestore s !=? Some restore
  then setEtcdSnapshotRestoreState (Some restore) ETCDSnapshotPhaseStarted
  else ret tt.

(** ** Instructions and files *)

Definition rm_rf (name path : string) : OneTimeInstruction := mkOneTimeInstruction name "" [] ["-rf"; path] "rm" false.

Definition server_dir (cp : RKEControlPlane) : string := "/var/lib/rancher/" +:+ GetRuntimeCommand (cp_version cp) +:+ "/server/".

Definition generateCreateEtcdTombstoneInstruction (cp : RKEControlPlane) : OneTimeInstruction :=
  mkOneTimeInstruction "create-etcd-tombstone" "" [] [server_dir cp +:+ "db/etcd/tombstone"] "touch" false.

Definition generateRemoveTLSAndCredDirInstructions (cp : RKEControlPlane) : list OneTimeInstruction :=
  [rm_rf "remove-tls-directory" (server_dir cp +:+ "tls"); rm_rf "remove-cred-directory" (server_dir cp +:+ "cred")].

Definition etcdRestoreScriptPath (cp : RKEControlPlane) (file : string) : string :=
  "/var/lib/rancher/" +:+ GetRuntime (cp_version cp) +:+ "/capr/etcd-restore/bin/" +:+ file.

Definition dynamic_file (content path : string) : File := mkFile (base64_EncodeToString content) path "" true false.

Definition commonPodSelectors : list string := ["kube-system:k8s-app=kube-dns"; "kube-system:k8s-app=kube-dns-autoscaler"].
Definition rke2PodSelectors : list string := [
  "kube-system:app=rke2-metrics-server"; "tigera-operator:k8s-app=tigera-operator"; "calico-system:k8s-app=calico-node";
  "calico-system:k8s-app=calico-kube-controllers"; "calico-system:k8s-app=calico-typha"; "kube-system:k8s-app=canal";
  "kube-system:k8s-app=cilium"; "kube-system:app=rke2-multus"; "kube-system:app.kubernetes.io/name=rke2-ingress-nginx"].

Section restore.
Context `{P : Planner} `{!SemverLaws}.

Definition podSelectors (cp : RKEControlPlane) : list string :=
  commonPodSelectors
  ++ (if GetRuntime (cp_version cp) =? RuntimeRKE2 then rke2PodSelectors else [])
  ++ match SystemPodLabelSelectors with Some f => f cp | None => [] end.

(** Deletion of the pods of the [i]-th selector; a selector without a colon is skipped. *)
Definition pod_cleanup (cp : RKEControlPlane) (kubectl kubeconfig : string) (i : nat) (podSelector : string)
  : list OneTimeInstruction :=
  match cut ":" podSelector with
  | None => []
  | Some (namespace, labelSelector) =>
      [idempotentInstruction ("etcd-restore/post-restore-cleanup-pods-" +:+ Itoa (Z.of_nat i)) (restore_stamp cp) kubectl
         ["--kubeconfig"; kubeconfig; "delete"; "pods"; "-n"; namespace; "-l"; labelSelector; "--wait=false"] []]
  end.

Definition generateEtcdRestorePodCleanupFilesAndInstruction (cp : RKEControlPlane) (cleanupMachineUIDs : list string)
  : list File * list OneTimeInstruction :=
  let '(kubectl, kubeconfig) := GetKubectlAndKubeconfigPaths (cp_version cp) in
  if (kubectl =? "") || (kubeconfig =? "") then ([], [])
  else
    let env := ["KUBECTL=" +:+ kubectl; "KUBECONFIG=" +:+ kubeconfig] in
    ([dynamic_file etcdRestorePostRestoreWaitForPodListCleanupScript
        (etcdRestoreScriptPath cp etcdRestorePostRestoreWaitForPodListCleanupPath);
      dynamic_file etcdRestoreNodeWaitForReadyScript (etcdRestoreScriptPath cp etcdRestoreNodeWaitForReadyPath)],
     [idempotentInstruction "etcd-restore/pods-wait-for-podlist" (restore_stamp cp) "/bin/sh"
        ["-x"; etcdRestoreScriptPath cp etcdRestorePostRestoreWaitForPodListCleanupPath; kubectl; "--kubeconfig"; kubeconfig;
         "get"; "pods"; "--all-namespaces"] [];
      idempotentInstruction "etcd-restore/wait-for-desired-ready-nodes" (restore_stamp cp) "/bin/sh"
        (etcdRestoreScriptPath cp etcdRestoreNodeWaitForReadyPath :: cleanupMachineUIDs) env]
     ++ concat (imap (pod_cleanup cp kubectl kubeconfig) (podSelectors cp))).

Definition generateEtcdRestoreNodeCleanupFilesAndInstruction (cp : RKEControlPlane) (restore : ETCDSnapshotRestore)
    (allMachineUIDs allNodeNames : list string) : list File * list OneTimeInstruction :=
  let '(kubectl, kubeconfig) := GetKubectlAndKubeconfigPaths (cp_version cp) in
  if (kubectl =? "") || (kubeconfig =? "") then ([], [])
  else
    let identifier := name_Hex (sr_Name restore +:+ sr_RestoreRKEConfig restore +:+ Itoa (sr_Generation restore)) 10 in
    let machineIdsFile := etcdRestoreScriptPath cp ("machine-ids-" +:+ identifier) in
    let nodeNamesFile := etcdRestoreScriptPath cp ("node-names-" +:+ identifier) in
    let text l := String.concat "" (map (fun s => s +:+ newline) l) in
    ([dynamic_file etcdRestoreNodeCleanUpScript (etcdRestoreScriptPath cp etcdRestoreNodeCleanUpPath);
      dynamic_file (text allMachineUIDs) machineIdsFile; dynamic_file (text allNodeNames) nodeNamesFile],
     [idempotentInstruction "etcd-restore/cleanup-nodes" (restore_stamp cp) "/bin/sh"
        [etcdRestoreScriptPath cp etcdRestoreNodeCleanUpPath; machineIdsFile; nodeNamesFile]
        ["KUBECTL=" +:+ kubectl; "KUBECONFIG=" +:+ kubeconfig]]).

(** ** Plans *)

Definition restore_args (cp : RKEControlPlane) (snapshot : option ETCDSnapshot) (snapshotName : string)
  : res (list string * list string * list File) :=
  let base := ["server"; "--cluster-reset";
               "--etcd-arg=advertise-client-urls=https://" +:+ GetLoopbackAddress cp +:+ ":2379";
               "--etcd-disable-snapshots=false"] in
  let local name := Ret (base ++ ["--cluster-reset-restore-path=db/snapshots/" +:+ name; "--etcd-s3=false"], [], []) in
  match snapshot with
  | None => local snapshotName
  | Some s =>
      match sf_S3 (es_SnapshotFile s) with
      | None => local (sf_Name (es_SnapshotFile s))
      | Some s3 =>
          let? ' (s3args, env, files) := ToArgs (Some s3) cp "etcd-" true in
          Ret (base ++ ["--cluster-reset-restore-path=" +:+ sf_Name (es_SnapshotFile s)] ++ s3args, env, files)
      end
  end.

Definition generateEtcdSnapshotRestorePlan (cp : RKEControlPlane) (snapshot : option ETCDSnapshot) (snapshotName : string)
    (tokensSecret : TokensSecret) (entry : planEntry) (joinServer : string) : res (NodePlan * string) :=
  match sp_ETCDSnapshotRestore (cp_Spec cp) with
  | None => Fail (errorString "ETCD Snapshot restore was not defined")
  | Some _ =>
      let? ' (nodePlan, _, joinedServer) := generatePlanWithConfigFiles cp tokensSecret entry joinServer false in
      let? ' (args, env, s3Files) := restore_args cp snapshot snapshotName in
      let runtime := GetRuntime (cp_version cp) in
      let stamp := restore_stamp cp in
      let killall := convertToIdempotentInstruction "etcd-restore/restore-kill-all" stamp (generateKillAllInstruction runtime) in
      let removal :=
        if runtime =? RuntimeRKE2 then
          match generateManifestRemovalInstruction runtime entry with
          | Some i => [convertToIdempotentInstruction "etcd-restore/restore-manifest-removal" stamp i]
          | None => []
          end
        else [] in
      let? install := generateInstallInstructionWithSkipStart cp entry in
      let clean := convertToIdempotentInstruction "etcd-restore/clean-etcd-dir" stamp
                     (rm_rf "remove-etcd-db-dir" (server_dir cp +:+ "db/etcd")) in
      let restore := idempotentInstruction "etcd-restore/restore" stamp (GetRuntimeCommand (cp_version cp)) args env in
      Ret (append_instructions (killall :: removal ++ [install; clean; restore]) (append_files s3Files nodePlan), joinedServer)
  end.

Definition generateStopServiceAndKillAllPlan (cp : RKEControlPlane) (tokensSecret : TokensSecret) (server : planEntry)
    (joinServer : string) : res (NodePlan * string) :=
  let? ' (nodePlan, _, joinedServer) := generatePlanWithConfigFiles cp tokensSecret server joinServer true in
  let runtime := GetRuntime (cp_version cp) in
  let removal :=
    if runtime =? RuntimeRKE2 then
      match generateManifestRemovalInstruction runtime server with Some i => [i] | None => [] end
    else [] in
  Ret (append_instructions (generateKillAllInstruction runtime :: removal) nodePlan, joinedServer).

(** ** Steps *)

Definition runEtcdRestoreInitNodeElection (cp : RKEControlPlane) (snapshot : option ETCDSnapshot) : M string :=
  match snapshot with
  | Some s =>
      match sf_S3 (es_SnapshotFile s) with
      | None =>
          match es_Labels s !! MachineIDLabel with
          | Some id => designateInitNodeByMachineID cp id
          | None => fail (errorString ("unable to designate machine as label " +:+ MachineIDLabel +:+ " on snapshot "
                            +:+ es_Namespace s +:+ "/" +:+ es_Name s +:+ " did not exist"))
          end
      | Some _ => electInitNode cp true
      end
  | None =>
      let* candidates := collectM canBeInitNode in
      match candidates with
      | [] => fail (errorString "no init node existed and no corresponding etcd snapshot CR found, no assumption can be made for the machine that contains the snapshot")
      | [_] => electInitNode cp true
      | _ => fail (errorString "more than one init node existed and no corresponding etcd snapshot CR found, no assumption can be made for the machine that contains the snapshot")
      end
  end.

Definition runEtcdSnapshotRestorePlan (cp : RKEControlPlane) (snapshot : option ETCDSnapshot) (snapshotName : string)
    (tokensSecret : TokensSecret) : M unit :=
  let* joinServer := runEtcdRestoreInitNodeElection cp snapshot in
  let* servers := collectM isInitNode in
  match servers with
  | [server] =>
      let* _ := pauseCAPICluster cp true in
      let* ' (restorePlan, joinedServer) :=
        lift (generateEtcdSnapshotRestorePlan cp snapshot snapshotName tokensSecret server joinServer) in
      let* _ := assignOrFail ETCDRestoreMessage server restorePlan joinedServer 1 1 in
      ret tt
  | _ => fail (errorString "more than one init node existed, cannot run etcd snapshot restore")
  end.

Definition with_cleanup (fi : list File * list OneTimeInstruction) (plan : NodePlan) : NodePlan :=
  append_instructions (snd fi) (append_files (fst fi) plan).

Definition runEtcdSnapshotPostRestorePodCleanupPlan (cp : RKEControlPlane) (tokensSecret : TokensSecret) : M unit :=
  let* initNodes := collectM isInitNode in
  match initNodes with
  | [initNode] =>
      let uid := m_UID (pe_Machine initNode) in
      let* ' (initNodePlan, _) := lift (desiredPlan cp tokensSecret initNode "") in
      if isControlPlane initNode then
        let plan := with_cleanup (generateEtcdRestorePodCleanupFilesAndInstruction cp [uid]) initNodePlan in
        let* _ := assignOrFail ETCDRestoreMessage initNode plan "" 5 5 in ret tt
      else
        let* _ := assignOrFail ETCDRestoreMessage initNode initNodePlan "" 5 5 in
        let* ' (_, joinServer, _, err) := findInitNode cp in
        if joinServer =? "" then fail (errWaitingf "waiting for join server")
        else
          let* _ := fail_if err in
          let* controlPlaneEntries := collectM (roleAnd isControlPlane (roleNot isDeleting)) in
          match controlPlaneEntries with
          | [] => fail (errorString "no suitable controlplane entries found for post restore cleanup during etcd restoration")
          | entry :: _ =>
              let* ' (plan, joinedServer) := lift (desiredPlan cp tokensSecret entry joinServer) in
              let plan := with_cleanup (generateEtcdRestorePodCleanupFilesAndInstruction cp [uid; m_UID (pe_Machine entry)]) plan in
              let* _ := assignOrFail ETCDRestoreMessage entry plan joinedServer 5 5 in ret tt
          end
  | _ => fail (errorString "multiple init nodes found")
  end.

Definition runEtcdSnapshotPostRestoreNodeCleanupPlan (cp : RKEControlPlane) (restore : ETCDSnapshotRestore)
    (tokensSecret : TokensSecret) : M unit :=
  let* initNodes := collectM isInitNode in
  match initNodes with
  | [initNode] =>
      let* ' (initNodePlan, _) := lift (desiredPlan cp tokensSecret initNode "") in
      let* nodes := collectM isNotDeleting in
      let allMachineUIDs := List.filter (fun u => u !=? "") (map (fun n => m_UID (pe_Machine n)) nodes) in
      let allNodeNames := List.filter (fun u => u !=? "")
        (map (fun n => match m_NodeRef (pe_Machine n) with Some r => ref_Name r | None => "" end) nodes) in
      let plan := with_cleanup (generateEtcdRestoreNodeCleanupFilesAndInstruction cp restore allMachineUIDs allNodeNames) initNodePlan in
      let* _ := assignOrFail ETCDRestoreMessage initNode plan "" 5 5 in ret tt
  | _ => fail (errorString "multiple init nodes found")
  end.

(** The plan that stops a server before the restore. *)
Definition stop_plan (cp : RKEControlPlane) (tokensSecret : TokensSecret) (server : planEntry) (joinServer : string)
  : res (NodePlan * string) :=
  let? ' (plan, joinedServer) := generateStopServiceAndKillAllPlan cp tokensSecret server joinServer in
  Ret (append_instructions
         (generateIdempotencyCleanupInstruction "etcd-restore"
          :: (if isEtcd server then [generateCreateEtcdTombstoneInstruction cp] else [])
          ++ (if roleOr isEtcd isControlPlane server then generateRemoveTLSAndCredDirInstructions cp else [])) plan,
       joinedServer).

Definition stop_one (cp : RKEControlPlane) (tokensSecret : TokensSecret) (joinServer : string) (updated : bool)
    (server : planEntry) : M bool :=
  match pe_Plan server with
  | None => ret updated
  | Some n =>
      let* ' (stopPlan, joinedServer) := lift (stop_plan cp tokensSecret server joinServer) in
      if n_Plan n !=? stopPlan
      then let* _ := UpdatePlan server stopPlan joinedServer 0 0 in ret true
      else ret updated
  end.

Definition wait_stopped (cp : RKEControlPlane) (server : planEntry) : M unit :=
  match pe_Plan server with
  | None => ret tt
  | Some n =>
      if n_InSync n then ret tt
      else
        let runtime := GetRuntime (cp_version cp) in
        fail (errWaiting
          (match m_NodeRef (pe_Machine server) with
           | None => "waiting to stop " +:+ runtime +:+ " services on machine [" +:+ pe_name server +:+ "]"
           | Some r => "waiting to stop " +:+ runtime +:+ " services on node [" +:+ ref_Name r +:+ "]"
           end))
  end.

Definition runEtcdRestoreServiceStop (cp : RKEControlPlane) (snapshot : option ETCDSnapshot) (tokensSecret : TokensSecret) : M unit :=
  let* joinServer := runEtcdRestoreInitNodeElection cp snapshot in
  let* deletingEtcdNodes := forceDeleteAllDeletingEtcdMachines in
  if negb (deletingEtcdNodes =? 0)%nat
  then fail (errWaitingf ("waiting for " +:+ Itoa (Z.of_nat deletingEtcdNodes) +:+ " etcd machines to delete"))
  else
    let* servers := collectM anyRoleWithoutWindows in
    let* updated := for_fold servers false (stop_one cp tokensSecret joinServer) in
    if (updated : bool)
    then fail (errWaiting ("stopping " +:+ GetRuntime (cp_version cp) +:+ " services on control plane and etcd machines/nodes"))
    else
      let* _ := for_fold servers tt (fun _ => wait_stopped cp) in
      let* etcd := collectM (roleAnd isEtcd (roleNot isDeleting)) in
      match etcd with
      | [] => fail (errWaiting "waiting for suitable etcd nodes for etcd restore continuation")
      | _ => ret tt
      end.

Definition retrieveEtcdSnapshot (cp : RKEControlPlane) : res (option ETCDSnapshot) :=
  match sp_ETCDSnapshotRestore (cp_Spec cp) with
  | None => Fail (errorString "etcdsnapshotrestore spec was nil")
  | Some restore =>
      if sp_ClusterName (cp_Spec cp) =? ""
      then Fail (errorString ("cluster name on rkecontrolplane " +:+ cp_id cp +:+ " was blank"))
      else match etcdSnapshotCache_Get (cp_Namespace cp) (sr_Name restore) with
           | Ret s => Ret (Some s)
           | Fail e => if IsNotFound e then Ret None else Fail e
           | Panic => Panic
           end
  end.

(** A snapshot from before 1.25 cannot be restored to 1.25 or newer; a snapshot whose cluster
    specification cannot be read is not checked. *)
Definition validate_snapshot (snapshot : option ETCDSnapshot) (currentVersion : semver) : res unit :=
  match snapshot with
  | None => Ret tt
  | Some _ =>
      match ParseSnapshotClusterSpecOrError snapshot with
      | Panic => Panic
      | Fail _ => Ret tt
      | Ret kubernetesVersion =>
          let? snapshotK8sVersion := NewVersion kubernetesVersion in
          if negb (LessThan currentVersion Kubernetes125) && LessThan snapshotK8sVersion Kubernetes125
          then Fail (errorString "unable to restore etcd snapshot -- recorded Kubernetes version on snapshot was <= v1.25.0 and current cluster version was v1.25.0 or newer")
          else Ret tt
      end
  end.

(** [if status, err := p.fullReconcile(...); err != nil { return status, err }]: the status of the
    inner scope is returned with an error and dropped otherwise, but conditions that both scopes
    have are the same array elements. *)
Definition alias_conditions (outer inner : list Condition) : list Condition :=
  map (fun c => default c (List.find (fun c' => c_Type c' =? c_Type c) inner)) outer.

Definition shadowed_fullReconcile (cp : RKEControlPlane) (tokensSecret : TokensSecret) : SM unit :=
  let* outer := get_status in
  let* _ := fullReconcile cp tokensSecret true in
  mod_status (fun inner => set_st_Conditions (alias_conditions (st_Conditions outer) (st_Conditions inner)) outer).

(** Sets the state and drops the error it returns. *)
Definition set_restore_state (restore : ETCDSnapshotRestore) (phase : string) : SM unit :=
  let* _ := attempt_err (setEtcdSnapshotRestoreState (Some restore) phase) in ret tt.

Definition restore_phase (cp : RKEControlPlane) (restore : ETCDSnapshotRestore) (tokensSecret : TokensSecret)
    (snapshot : option ETCDSnapshot) : SM unit :=
  let phase := st_ETCDSnapshotRestorePhase (cp_Status cp) in
  let next := setEtcdSnapshotRestoreState (Some restore) in
  if phase =? ETCDSnapshotPhaseStarted then
    let* _ := mod_status (fun s => if st_Initialized s || st_Ready s
                                   then set_st_Ready false (set_st_Initialized false s) else s) in
    let* _ := set_restore_state restore ETCDSnapshotPhaseShutdown in
    fail (errWaitingf "shutting down cluster")
  else if phase =? ETCDSnapshotPhaseShutdown then
    let* _ := inW (runEtcdRestoreServiceStop cp snapshot tokensSecret) in
    let* _ := mod_status (cond_status Bootstrapped "False") in
    let* _ := set_restore_state restore ETCDSnapshotPhaseRestore in
    fail (errWaiting "cluster shutdown complete, running etcd restore")
  else if phase =? ETCDSnapshotPhaseRestore then
    let* _ := inW (runEtcdSnapshotRestorePlan cp snapshot (sr_Name restore) tokensSecret) in
    let* _ := mod_status (fun s => set_st_ConfigGeneration (st_ConfigGeneration s + 1) s) in
    next ETCDSnapshotPhasePostRestorePodCleanup
  else if phase =? ETCDSnapshotPhasePostRestorePodCleanup then
    let* _ := inW (runEtcdSnapshotPostRestorePodCleanupPlan cp tokensSecret) in
    next ETCDSnapshotPhaseInitialRestartCluster
  else if phase =? ETCDSnapshotPhaseInitialRestartCluster then
    let* _ := inW (pauseCAPICluster cp false) in
    let* _ := shadowed_fullReconcile cp tokensSecret in
    next ETCDSnapshotPhasePostRestoreNodeCleanup
  else if phase =? ETCDSnapshotPhasePostRestoreNodeCleanup then
    let* _ := inW (runEtcdSnapshotPostRestoreNodeCleanupPlan cp restore tokensSecret) in
    next ETCDSnapshotPhaseRestartCluster
  else if phase =? ETCDSnapshotPhaseRestartCluster then
    let* _ := inW (pauseCAPICluster cp false) in
    let* _ := shadowed_fullReconcile cp tokensSecret in
    next ETCDSnapshotPhaseFinished
  else if phase =? ETCDSnapshotPhaseFinished then ret tt
  else next ETCDSnapshotPhaseStarted.

Definition restoreEtcdSnapshot (cp : RKEControlPlane) (tokensSecret : TokensSecret) (currentVersion : semver) : SM unit :=
  match sp_ETCDSnapshotRestore (cp_Spec cp) with
  | None => resetEtcdSnapshotRestoreState
  | Some restore =>
      if sr_Name restore =? "" then resetEtcdSnapshotRestoreState
      else
        let* _ := startOrRestartEtcdSnapshotRestore restore in
        let* snapshot := lift (retrieveEtcdSnapshot cp) in
        let* _ := lift (validate_snapshot snapshot currentVersion) in
        restore_phase cp restore tokensSecret snapshot
  end.
End restore.

(** ** The phases of a restore *)

Section restore_phases.
Context `{P : Planner} `{!SemverLaws} (cp : RKEControlPlane).

(** A restore request that is not empty. *)
Definition restore_requested (r : ETCDSnapshotRestore) : Prop :=
  sp_ETCDSnapshotRestore (cp_Spec cp) = Some r /\ sr_Name r <> "".

(** What a pass knows of a restore: the request it works on, how far it is, and the generation of the configuration. *)
Definition progress (s : ControlPlaneStatus) : option ETCDSnapshotRestore * string * Z :=
  (st_ETCDSnapshotRestore s, st_ETCDSnapshotRestorePhase s, st_ConfigGeneration s).

(** The phases in their order; anything else starts. *)
Definition next_phase (p : string) : string :=
  if p =? "Started" then "Shutdown"
  else if p =? "Shutdown" then "Restore"
  else if p =? "Restore" then "PostRestorePodCleanup"
  else if p =? "PostRestorePodCleanup" then "InitialRestartCluster"
  else if p =? "InitialRestartCluster" then "PostRestoreNodeCleanup"
  else if p =? "PostRestoreNodeCleanup" then "RestartCluster"
  else if p =? "RestartCluster" then "Finished"
  else "Started".

(** The snapshot the request names, or none when there is no such object; one that is known to be from before 1.25 is not
    for a cluster that is at 1.25 or newer. *)
Definition usable (v : semver) (req : ETCDSnapshotRestore) (snapshot : option ETCDSnapshot) : Prop :=
  sp_ClusterName (cp_Spec cp) <> "" /\
  match snapshot with
  | None => exists e, etcdSnapshotCache_Get (cp_Namespace cp) (sr_Name req) = Fail e /\ IsNotFound e = true
  | Some s =>
      etcdSnapshotCache_Get (cp_Namespace cp) (sr_Name req) = Ret s
      /\ match ParseSnapshotClusterSpecOrError snapshot with
         | Ret k => exists old, NewVersion k = Ret old /\ ~ (LessThan v Kubernetes125 = false /\ LessThan old Kubernetes125 = true)
         | Fail _ => True
         | Panic => False
         end
  end.

Section request.
Context (ts : TokensSecret) (req : ETCDSnapshotRestore) (snapshot : option ETCDSnapshot).

(** No etcd machine is left that is being deleted, an etcd machine is left to restore on, and every machine that has a
    plan has applied one that kills its services, and on etcd machines marks the old data. *)
Definition services_stopped (w : World) : Prop :=
  collect (w_plan w) (roleAnd isEtcd isDeleting) = [] /\ collect (w_plan w) (roleAnd isEtcd (roleNot isDeleting)) <> []
  /\ forall server n, server ∈ collect (w_plan w) anyRoleWithoutWindows -> pe_Plan server = Some n ->
       n_InSync n = true /\ generateKillAllInstruction (GetRuntime (cp_version cp)) ∈ np_Instructions (n_Plan n)
       /\ (isEtcd server = true -> generateCreateEtcdTombstoneInstruction cp ∈ np_Instructions (n_Plan n)).

(** Where the command that resets the cluster finds the snapshot. *)
Definition restore_path : string :=
  "--cluster-reset-restore-path=" +:+
  match snapshot with
  | None => "db/snapshots/" +:+ sr_Name req
  | Some s => match sf_S3 (es_SnapshotFile s) with None => "db/snapshots/" | Some _ => "" end +:+ sf_Name (es_SnapshotFile s)
  end.

(** The only init node has applied a plan whose last instruction resets the cluster from the snapshot, and is healthy. *)
Definition snapshot_restored (w : World) : Prop :=
  exists server plan args env, collect (w_plan w) isInitNode = [server] /\ plan_done server plan
    /\ last (np_Instructions plan)
        = Some (idempotentInstruction "etcd-restore/restore" (restore_stamp cp) (GetRuntimeCommand (cp_version cp)) args env)
    /\ "--cluster-reset" ∈ args /\ restore_path ∈ args.

(** A control plane machine has applied a plan that deletes the pods. *)
Definition pods_cleaned (w : World) : Prop :=
  exists entry plan uids, entry ∈ collect (w_plan w) isControlPlane /\ plan_done entry plan
    /\ forall i, i ∈ snd (generateEtcdRestorePodCleanupFilesAndInstruction cp uids) -> i ∈ np_Instructions plan.

(** The init node has applied a plan that deletes the nodes, except those of the machines which are not being deleted. *)
Definition nodes_cleaned (w : World) : Prop :=
  exists initNode plan uids names, collect (w_plan w) isInitNode = [initNode] /\ plan_done initNode plan
    /\ (forall i, i ∈ snd (generateEtcdRestoreNodeCleanupFilesAndInstruction cp req uids names) -> i ∈ np_Instructions plan)
    /\ (forall f, f ∈ fst (generateEtcdRestoreNodeCleanupFilesAndInstruction cp req uids names) -> f ∈ np_Files plan)
    /\ forall e, e ∈ collect (w_plan w) isNotDeleting ->
         (m_UID (pe_Machine e) <> "" -> m_UID (pe_Machine e) ∈ uids)
         /\ forall r, m_NodeRef (pe_Machine e) = Some r -> ref_Name r <> "" -> ref_Name r ∈ names.

(** The cluster is reconciled once more, unpaused. *)
Definition restarted (w : World) (s : ControlPlaneStatus) (w' : World) : Prop :=
  exists w0 s', pauseCAPICluster cp false w = (w0, Ret tt) /\ fullReconcile cp ts true (w0, s) = ((w', s'), Ret tt).

Definition work_done (p : string) (w : World) (s : ControlPlaneStatus) (w' : World) : Prop :=
  (p = "Shutdown" -> services_stopped w') /\ (p = "Restore" -> snapshot_restored w')
  /\ (p = "PostRestorePodCleanup" -> pods_cleaned w') /\ (p = "PostRestoreNodeCleanup" -> nodes_cleaned w')
  /\ (p = "InitialRestartCluster" \/ p = "RestartCluster" -> restarted w s w').

(** The work of a phase. *)
Definition work (p : string) : SM unit :=
  if p =? "Shutdown" then inW (runEtcdRestoreServiceStop cp snapshot ts)
  else if p =? "Restore" then inW (runEtcdSnapshotRestorePlan cp snapshot (sr_Name req) ts)
  else if p =? "PostRestorePodCleanup" then inW (runEtcdSnapshotPostRestorePodCleanupPlan cp ts)
  else if p =? "PostRestoreNodeCleanup" then inW (runEtcdSnapshotPostRestoreNodeCleanupPlan cp req ts)
  else if (p =? "InitialRestartCluster") || (p =? "RestartCluster")
       then let* _ := inW (pauseCAPICluster cp false) in shadowed_fullReconcile cp ts
  else ret tt.

(** A pass over a restore: it is over, or held back because the work of the phase has failed, or the work is done and
    the next phase is entered. *)
Inductive restore_pass (w : World) (s : ControlPlaneStatus) : World -> ControlPlaneStatus -> bool -> Prop :=
| pass_finished : st_ETCDSnapshotRestorePhase s = "Finished" -> restore_pass w s w s true
| pass_held w' s' : returns (snd (work (st_ETCDSnapshotRestorePhase s) (w, s))) = false -> progress s' = progress s ->
    restore_pass w s w' s' false
| pass_advanced w' s' : let p := st_ETCDSnapshotRestorePhase s in
    p <> "Finished" -> work_done p w s w' ->
    progress s' = (Some req, next_phase p, st_ConfigGeneration s + (if p =? "Restore" then 1 else 0)) ->
    (p = "Started" -> w' = w /\ st_Initialized s' = false /\ st_Ready s' = false) ->
    (p = "Shutdown" -> st_Conditions s' = Cond_SetStatus Bootstrapped "False" (st_Conditions s)) ->
    restore_pass w s w' s' false.
End request.

(** *** What the work of the phases leaves behind *)

Lemma assignOrFail_Ret msg e plan joined a b w w' e' :
  assignOrFail msg e plan joined a b w = (w', Ret e') -> w' = w /\ plan_done e plan.
Proof.
  unfold assignOrFail. intros ([e1 err] & w1 & Ha & Hk)%bind_Ret. apply bind_Ret in Hk as ([] & w2 & Hf & Hk).
  destruct err; inv Hf. inv Hk. by apply assignAndCheckPlan_None in Ha as (-> & -> & ?).
Qed.

Lemma api_request_plan w : w_plan (fst (api_request w)) = w_plan w.
Proof. unfold api_request. by destruct (w_faults w) as [|[e|] fs]. Qed.

Lemma pauseCAPICluster_plan pause w w' r : pauseCAPICluster cp pause w = (w', r) -> w_plan w' = w_plan w.
Proof.
  intros Hr. enough (wp (pauseCAPICluster cp pause) (fun _ w1 => w_plan w1 = w_plan w) w) as Hw by (unfold wp in Hw; by rewrite Hr in Hw).
  apply (wp_RetryOnConflict _ _ _ (fun w1 => w_plan w1 = w_plan w)); [done| |done].
  intros w1 Hw1. apply wp_bind, wp_lift. destruct (GetOwnerCAPICluster cp) as [[c|]|e|]; [|done..].
  destruct (Bool.eqb _ _); [done|]. unfold capiClient_Update. apply wp_bind. unfold wp. pose proof (api_request_plan w1) as Ha.
  destruct (api_request w1) as [w2 [[]|e|]]; simpl in *; congruence.
Qed.

Lemma stop_plan_kills ts server js plan joined : stop_plan cp ts server js = Ret (plan, joined) ->
  generateKillAllInstruction (GetRuntime (cp_version cp)) ∈ np_Instructions plan
  /\ (isEtcd server = true -> generateCreateEtcdTombstoneInstruction cp ∈ np_Instructions plan).
Proof.
  unfold stop_plan, generateStopServiceAndKillAllPlan. intros Hp. res_inv. cbn [np_Instructions append_instructions set_np_Instructions].
  split; [rewrite !elem_of_app, elem_of_cons; tauto|]. intros ->. rewrite !elem_of_app, !elem_of_cons, elem_of_app. 
  right. right. left. left.
Qed.

Lemma stop_all ts js servers upd w w' :
  for_fold servers upd (stop_one cp ts js) w = (w', Ret false) ->
  w' = w /\ upd = false /\ forall server n, server ∈ servers -> pe_Plan server = Some n -> exists joined, stop_plan cp ts server js = Ret (n_Plan n, joined).
Proof.
  revert upd w. induction servers as [|x l IH]; intros upd w.
  - intros [= <- ->]. split_and!; [done..|]. by intros ? ? ?%elem_of_nil.
  - rewrite for_fold_cons. intros (upd' & w1 & Hx & Hk)%bind_Ret. apply IH in Hk as (-> & -> & Hall).
    unfold stop_one in Hx. destruct (pe_Plan x) as [n|] eqn:En.
    + apply bind_Ret in Hx as ([plan joined] & w2 & Hl & Hx). injection Hl as <- Hl. case_bool_decide as Hn; cbn [negb] in Hx.
      * injection Hx as -> ->. split_and!; [done..|]. intros server n' [->|Hin]%elem_of_cons Hp; [|by eapply Hall].
        rewrite Hp in En. injection En as ->. rewrite Hn. eauto.
      * apply bind_Ret in Hx as (? & ? & _ & Hx). inv Hx.
    + injection Hx as -> ->. split_and!; [done..|]. intros server n' [->|Hin]%elem_of_cons Hp; [congruence|by eapply Hall].
Qed.

Lemma wait_all servers w w' u : for_fold servers tt (fun _ => wait_stopped cp) w = (w', Ret u) ->
  w' = w /\ forall server n, server ∈ servers -> pe_Plan server = Some n -> n_InSync n = true.
Proof.
  revert w. induction servers as [|x l IH]; intros w; [intros [= <- _]; split; [done|]; by intros ? ? ?%elem_of_nil|].
  rewrite for_fold_cons. intros ([] & w1 & Hx & Hk)%bind_Ret. apply IH in Hk as (-> & Hall).
  unfold wait_stopped in Hx. destruct (pe_Plan x) as [n|] eqn:En; [destruct (n_InSync n) eqn:Ei; [|done]|];
    (injection Hx as ->; split; [done|]; intros server n' [->|Hin]%elem_of_cons Hp; [congruence|by eapply Hall]).
Qed.

Lemma runEtcdRestoreServiceStop_done snapshot ts w w' :
  runEtcdRestoreServiceStop cp snapshot ts w = (w', Ret tt) -> services_stopped w'.
Proof.
  unfold runEtcdRestoreServiceStop. intros (js & w1 & _ & Hk)%bind_Ret. apply bind_Ret in Hk as (k & w2 & Hd & Hk).
  unfold forceDeleteAllDeletingEtcdMachines in Hd. apply bind_Ret in Hd as (del & w3 & [= <- <-] & Hd).
  destruct (Nat.eqb_spec k 0) as [->|]; [|done]. cbn [negb] in Hk. apply bind_Ret in Hd as ([] & w4 & Hd & Hd'). injection Hd' as -> Hlen.
  apply length_zero_iff_nil in Hlen. rewrite Hlen in Hd. injection Hd as ->. apply bind_Ret in Hk as (servers & w5 & [= <- <-] & Hk).
  apply bind_Ret in Hk as ([] & w6 & Hs & Hk); [done|]. apply stop_all in Hs as (-> & _ & Hplans).
  apply bind_Ret in Hk as ([] & w7 & Hw & Hk). apply wait_all in Hw as (-> & Hsync).
  apply bind_Ret in Hk as (etcd & w8 & [= <- <-] & Hk). destruct (collect _ (roleAnd isEtcd (roleNot isDeleting))) as [|e l] eqn:He; [done|].
  injection Hk as <-. split; [done|]. split; [by rewrite He|]. intros server n Hin Hp. split; [by eapply Hsync|].
  destruct (Hplans server n Hin Hp) as [joined Hj]. by apply stop_plan_kills in Hj.
Qed.

Lemma restore_args_path snapshot name args env files req : sr_Name req = name ->
  restore_args cp snapshot name = Ret (args, env, files) -> "--cluster-reset" ∈ args /\ restore_path req snapshot ∈ args.
Proof.
  intros <- Hr. unfold restore_args in Hr. unfold restore_path. destruct snapshot as [s|].
  2:{ injection Hr as <- _ _. split; set_solver. }
  destruct (sf_S3 (es_SnapshotFile s)) as [s3|]; [|injection Hr as <- _ _; split; set_solver].
  res_inv. split; set_solver.
Qed.

Lemma runEtcdSnapshotRestorePlan_done ts req snapshot w w' :
  runEtcdSnapshotRestorePlan cp snapshot (sr_Name req) ts w = (w', Ret tt) -> snapshot_restored req snapshot w'.
Proof.
  unfold runEtcdSnapshotRestorePlan. intros (js & w1 & _ & Hk)%bind_Ret. apply bind_Ret in Hk as (servers & w2 & [= <- <-] & Hk).
  destruct (collect _ isInitNode) as [|server [|]] eqn:Hc; [done| |done]. apply bind_Ret in Hk as ([] & w3 & Hp%pauseCAPICluster_plan & Hk).
  apply bind_Ret in Hk as ([plan joined] & w4 & Hl & Hk). injection Hl as <- Hl.
  apply bind_Ret in Hk as (e & w5 & [-> Hd]%assignOrFail_Ret & Hk). injection Hk as <-.
  unfold generateEtcdSnapshotRestorePlan in Hl. destruct (sp_ETCDSnapshotRestore (cp_Spec cp)); [|done]. res_inv.
  match goal with Ha : restore_args _ _ _ = _ |- _ => destruct (restore_args_path _ _ _ _ _ req eq_refl Ha) as [H1 H2] end.
  eexists server, _, _, _. rewrite Hp. split_and!; [done|exact Hd| |exact H1|exact H2].
  cbn [np_Instructions append_instructions set_np_Instructions]. rewrite app_comm_cons, app_assoc, last_app. reflexivity.
Qed.

Lemma with_cleanup_in fi plan :
  (forall i, i ∈ snd fi -> i ∈ np_Instructions (with_cleanup fi plan)) /\ (forall f, f ∈ fst fi -> f ∈ np_Files (with_cleanup fi plan)).
Proof. unfold with_cleanup, append_instructions, append_files. simpl. split; intros x Hx; apply elem_of_app; by right. Qed.

Lemma collect_mono p (f g : roleFilter) e : (forall x, f x = true -> g x = true) -> e ∈ collect p f -> e ∈ collect p g.
Proof. intros Hfg (k & m & Hk & -> & Hf)%elem_of_collect. apply elem_of_collect. eauto 10. Qed.

Lemma runEtcdSnapshotPostRestorePodCleanupPlan_done ts w w' :
  runEtcdSnapshotPostRestorePodCleanupPlan cp ts w = (w', Ret tt) -> pods_cleaned w'.
Proof.
  unfold runEtcdSnapshotPostRestorePodCleanupPlan. intros (l & w1 & [= <- <-] & Hk)%bind_Ret.
  destruct (collect (w_plan w) isInitNode) as [|init [|]] eqn:Hc; [done| |done]. apply bind_Ret in Hk as ([plan joined] & w2 & Hl & Hk). injection Hl as <- _.
  destruct (isControlPlane init) eqn:Hi.
  - apply bind_Ret in Hk as (e & w3 & [-> Hd]%assignOrFail_Ret & Hk). injection Hk as <-. eexists init, _, _. split_and!; [|exact Hd|apply with_cleanup_in].
    assert (init ∈ collect (w_plan w) isInitNode) as (k & m & Hk & -> & _)%elem_of_collect by (rewrite Hc; left). apply elem_of_collect. eauto 10.
  - apply bind_Ret in Hk as (e & w3 & [-> _]%assignOrFail_Ret & Hk). apply bind_Ret in Hk as ([[[b js] oe] err] & w4 & _ & Hk).
    destruct (js =? ""); [done|]. apply bind_Ret in Hk as ([] & w5 & Hf & Hk). destruct err; inv Hf.
    apply bind_Ret in Hk as (l & w6 & [= <- <-] & Hk). destruct (collect _ (roleAnd _ _)) as [|entry rest] eqn:He; [done|].
    apply bind_Ret in Hk as ([plan' joined'] & w7 & Hl & Hk). injection Hl as <- _.
    apply bind_Ret in Hk as (e' & w8 & [-> Hd]%assignOrFail_Ret & Hk). injection Hk as <-. eexists entry, _, _. split_and!; [|exact Hd|apply with_cleanup_in].
    eapply collect_mono; [|rewrite He; left]. intros x [? _]%andb_true_iff. done.
Qed.

Lemma runEtcdSnapshotPostRestoreNodeCleanupPlan_done ts req w w' :
  runEtcdSnapshotPostRestoreNodeCleanupPlan cp req ts w = (w', Ret tt) -> nodes_cleaned req w'.
Proof.
  unfold runEtcdSnapshotPostRestoreNodeCleanupPlan. intros (l & w1 & [= <- <-] & Hk)%bind_Ret.
  destruct (collect (w_plan w) isInitNode) as [|init [|]] eqn:Hc; [done| |done]. apply bind_Ret in Hk as ([plan joined] & w2 & Hl & Hk). injection Hl as <- _.
  apply bind_Ret in Hk as (nodes & w3 & [= <- <-] & Hk). apply bind_Ret in Hk as (e & w4 & [-> Hd]%assignOrFail_Ret & Hk). injection Hk as <-.
  eexists init, _, _, _. split_and!; [done|exact Hd|apply with_cleanup_in..|]. intros x Hx. split.
  - intros Hu. apply elem_of_filter_bool. split; [apply list_elem_of_fmap; eauto|]. by rewrite bool_decide_eq_false_2.
  - intros r Hr Hn. apply elem_of_filter_bool. split; [apply list_elem_of_fmap; exists x; by rewrite Hr|]. by rewrite bool_decide_eq_false_2.
Qed.

Lemma work_done_of ts req snapshot p w s w' s' :
  work ts req snapshot p (w, s) = ((w', s'), Ret tt) -> work_done ts req snapshot p w s w'.
Proof.
  unfold work, work_done. intros Hw. split_and!; [intros -> ..|].
  - apply inW_Ret in Hw as (w1 & [= <- _] & Hw). by eapply runEtcdRestoreServiceStop_done.
  - apply inW_Ret in Hw as (w1 & [= <- _] & Hw). by eapply runEtcdSnapshotRestorePlan_done.
  - apply inW_Ret in Hw as (w1 & [= <- _] & Hw). by eapply runEtcdSnapshotPostRestorePodCleanupPlan_done.
  - apply inW_Ret in Hw as (w1 & [= <- _] & Hw). by eapply runEtcdSnapshotPostRestoreNodeCleanupPlan_done.
  - assert ((let* _ := inW (pauseCAPICluster cp false) in shadowed_fullReconcile cp ts) (w, s) = (w', s', Ret tt) -> restarted ts w s w') as Hr.
    { clear Hw. intros ([] & ws1 & Hp & Hk)%bind_Ret. apply inW_Ret in Hp as (w0 & -> & Hp). unfold shadowed_fullReconcile in Hk.
      apply bind_Ret in Hk as (o & ws2 & [= <- <-] & Hk). apply bind_Ret in Hk as ([] & [w3 s3] & Hf & Hk). injection Hk as <- _. by exists w0, s3. }
    intros [-> | ->]; by apply Hr.
Qed.

(** Whatever comes of it, the work keeps the progress. *)
Lemma work_progress ts req snapshot p ws : progress (snd (fst (work ts req snapshot p ws))) = progress (snd ws).
Proof.
  assert (steady (fun _ => True) progress eq (work ts req snapshot p)) as Hs.
  { assert (steady (fun _ => True) progress eq (shadowed_fullReconcile cp ts)) as Hsh.
    { intros ws0 _. unfold shadowed_fullReconcile. rewrite (bind_run _ _ _ ws0 (snd ws0)) by done.
      assert (steady (fun _ => True) progress eq (fullReconcile cp ts true)) as Hf by (apply steady_fullReconcile; [apply _|done]).
      specialize (Hf ws0 I). unfold bind. by destruct (fullReconcile cp ts true ws0) as [ws' [a| |]]. }
    unfold work. repeat (case_match; [steady_auto|]). steady_auto. }
  specialize (Hs ws I). by destruct (work _ _ _ _ ws) as [[w' s'] [[]|e|]]; simpl in *.
Qed.

Lemma left_restore ts req snapshot w s w' s' b : restore_pass ts req snapshot w s w' s' b ->
  st_ETCDSnapshotRestorePhase s = "Restore" -> progress s' <> progress s -> snapshot_restored req snapshot w'.
Proof. intros [Hf|? ? _ Heq|? ? p _ Hd _ _ _] Hp Hn; [congruence|done|]. by apply Hd. Qed.

(** Entering another phase changes just that and ends the pass. *)
Lemma enter_phase req p w s : st_ETCDSnapshotRestorePhase s <> p ->
  exists e, setEtcdSnapshotRestoreState (Some req) p (w, s)
    = ((w, set_st_ETCDSnapshotRestorePhase p (set_st_ETCDSnapshotRestore (Some req) s)), Fail e).
Proof.
  intros Hp. unfold setEtcdSnapshotRestoreState, bind, get_status, gets. cbn [snd fst]. rewrite (bool_decide_eq_false_2 (_ = p)) by done.
  rewrite orb_true_r. unfold mod_status, modify, fail. cbn. eauto.
Qed.

Lemma bind_after {S A B C} (c : ST S A) (k : A -> ST S B) (k' : B -> ST S C) s :
  bind (bind c k) k' s = bind c (fun a => bind (k a) k') s.
Proof. unfold bind. by destruct (c s) as [s1 [a|e|]]. Qed.

(** Work, then the next phase. *)
Lemma pass_next ts req snapshot w s ws' r : let p := st_ETCDSnapshotRestorePhase s in
  st_ETCDSnapshotRestore s = Some req -> p <> "Finished" -> p <> "Started" -> p <> "Shutdown" -> p <> "Restore" -> next_phase p <> p ->
  (let* _ := work ts req snapshot p in setEtcdSnapshotRestoreState (Some req) (next_phase p)) (w, s) = (ws', r) ->
  restore_pass ts req snapshot w s (fst ws') (snd ws') (returns r).
Proof.
  intros p Hreq Hf H1 H2 H3 Hn. unfold bind at 1. pose proof (work_progress ts req snapshot p (w, s)) as Hpr.
  destruct (work ts req snapshot p (w, s)) as [[w1 s1] [[]|e|]] eqn:Ew; cbn [snd fst] in Hpr.
  - injection Hpr as _ Hp1 Hg. fold p in Hp1.
    destruct (enter_phase req (next_phase p) w1 s1 ltac:(rewrite Hp1; auto)) as [e ->]. intros [= <- <-].
    apply pass_advanced; [done|by eapply work_done_of| |done..]. unfold progress. cbn. rewrite Hg.
    rewrite bool_decide_eq_false_2 by done. by rewrite Z.add_0_r.
  - intros [= <- <-]. apply pass_held; [unfold p in Ew; by rewrite Ew|done].
  - intros [= <- <-]. apply pass_held; [unfold p in Ew; by rewrite Ew|done].
Qed.

Lemma restore_phase_pass ts req snapshot w s ws' r :
  st_ETCDSnapshotRestore s = Some req -> st_ETCDSnapshotRestorePhase s = st_ETCDSnapshotRestorePhase (cp_Status cp) ->
  restore_phase cp req ts snapshot (w, s) = (ws', r) -> restore_pass ts req snapshot w s (fst ws') (snd ws') (returns r).
Proof.
  intros Hreq Hcur. unfold restore_phase. rewrite <- Hcur.
  pose proof (pass_next ts req snapshot w s ws' r) as Hnext.
  destruct (bool_decide_reflect (st_ETCDSnapshotRestorePhase s = ETCDSnapshotPhaseStarted)) as [Hp|H1].
  { unfold set_restore_state, attempt_err, attempt. intros Hr. unfold bind at 1, mod_status, modify in Hr. cbn [fst snd] in Hr.
    set (s1 := if st_Initialized s || st_Ready s then set_st_Ready false (set_st_Initialized false s) else s) in Hr.
    assert (progress s1 = progress s /\ st_Initialized s1 = false /\ st_Ready s1 = false) as (Hs1 & Hi & Hrd).
    { unfold s1. destruct (st_Initialized s) eqn:E1, (st_Ready s) eqn:E2; cbn; auto. }
    unfold progress in Hs1. unfold bind in Hr. destruct (enter_phase req ETCDSnapshotPhaseShutdown w s1) as [e He].
    { injection Hs1 as _ -> _. by rewrite Hp. }
    rewrite He in Hr. injection Hr as <- <-. apply pass_advanced; rewrite Hp; [done| |unfold progress; cbn|cbn; done|done].
    - unfold work_done. split_and!; try done. intros [|]; done.
    - injection Hs1 as _ _ ->. by rewrite Z.add_0_r. }
  destruct (bool_decide_reflect (st_ETCDSnapshotRestorePhase s = ETCDSnapshotPhaseShutdown)) as [Hp|H2].
  { assert (work ts req snapshot (st_ETCDSnapshotRestorePhase s) = inW (runEtcdRestoreServiceStop cp snapshot ts)) as Hwk by (by rewrite Hp).
    unfold bind at 1. destruct (inW (runEtcdRestoreServiceStop cp snapshot ts) (w, s)) as [[w1 s1] [[]|e|]] eqn:Ew.
    2-3: rewrite <- Hwk in Ew; intros [= <- <-]; apply pass_held; [by rewrite Ew|];
      pose proof (work_progress ts req snapshot (st_ETCDSnapshotRestorePhase s) (w, s)) as Hpr; by rewrite Ew in Hpr.
    pose proof Ew as Ei. apply inW_Ret in Ei as (w2 & [= <- ->] & _).
    unfold bind at 1, mod_status, modify. cbn [fst snd]. unfold set_restore_state, attempt_err, attempt, bind.
    destruct (enter_phase req ETCDSnapshotPhaseRestore w1 (cond_status Bootstrapped "False" s)) as [e ->]; [cbn; by rewrite Hp|]. intros [= <- <-].
    apply pass_advanced; rewrite Hp; [done| |unfold progress; cbn|done|done].
    - rewrite <- Hwk in Ew. rewrite <- Hp. by eapply work_done_of.
    - by rewrite Z.add_0_r. }
  destruct (bool_decide_reflect (st_ETCDSnapshotRestorePhase s = ETCDSnapshotPhaseRestore)) as [Hp|H3].
  { assert (work ts req snapshot (st_ETCDSnapshotRestorePhase s) = inW (runEtcdSnapshotRestorePlan cp snapshot (sr_Name req) ts)) as Hwk by (by rewrite Hp).
    unfold bind at 1. destruct (inW (runEtcdSnapshotRestorePlan cp snapshot (sr_Name req) ts) (w, s)) as [[w1 s1] [[]|e|]] eqn:Ew.
    2-3: rewrite <- Hwk in Ew; intros [= <- <-]; apply pass_held; [by rewrite Ew|];
      pose proof (work_progress ts req snapshot (st_ETCDSnapshotRestorePhase s) (w, s)) as Hpr; by rewrite Ew in Hpr.
    pose proof Ew as Ei. apply inW_Ret in Ei as (w2 & [= <- ->] & _). unfold bind, mod_status, modify. cbn [fst snd].
    destruct (enter_phase req ETCDSnapshotPhasePostRestorePodCleanup w1 (set_st_ConfigGeneration (st_ConfigGeneration s + 1) s)) as [e ->];
      [cbn; by rewrite Hp|]. intros [= <- <-].
    apply pass_advanced; rewrite Hp; [done| |unfold progress; cbn; done|done|done].
    rewrite <- Hwk in Ew. rewrite <- Hp. by eapply work_done_of. }
  assert (forall p (c : SM unit), st_ETCDSnapshotRestorePhase s = p -> p <> "Finished" -> next_phase p <> p ->
    (forall w, c w = (let* _ := work ts req snapshot p in setEtcdSnapshotRestoreState (Some req) (next_phase p)) w) ->
    c (w, s) = (ws', r) -> restore_pass ts req snapshot w s (fst ws') (snd ws') (returns r)) as Hgo.
  { intros p c <- ? ? Hc. rewrite Hc. by apply Hnext. }
  clear Hnext.
  destruct (bool_decide_reflect (st_ETCDSnapshotRestorePhase s = ETCDSnapshotPhasePostRestorePodCleanup)) as [Hp|H4]; [by apply (Hgo _ _ Hp)|].
  destruct (bool_decide_reflect (st_ETCDSnapshotRestorePhase s = ETCDSnapshotPhaseInitialRestartCluster)) as [Hp|H5].
  { apply (Hgo _ _ Hp); [done..|]. intros ws. symmetry. apply bind_after. }
  destruct (bool_decide_reflect (st_ETCDSnapshotRestorePhase s = ETCDSnapshotPhasePostRestoreNodeCleanup)) as [Hp|H6]; [by apply (Hgo _ _ Hp)|].
  destruct (bool_decide_reflect (st_ETCDSnapshotRestorePhase s = ETCDSnapshotPhaseRestartCluster)) as [Hp|H7].
  { apply (Hgo _ _ Hp); [done..|]. intros ws. symmetry. apply bind_after. }
  destruct (bool_decide_reflect (st_ETCDSnapshotRestorePhase s = ETCDSnapshotPhaseFinished)) as [Hp|H8]; [intros [= <- <-]; by apply pass_finished|].
  assert (next_phase (st_ETCDSnapshotRestorePhase s) = "Started") as Hnp by (unfold next_phase; rewrite !bool_decide_eq_false_2 by assumption; reflexivity).
  apply (Hgo _ _ eq_refl); [done|by rewrite Hnp|]. intros ws. rewrite Hnp. unfold work. rewrite !bool_decide_eq_false_2 by assumption. reflexivity.
Qed.

(** The checks of the code find the usable snapshots. *)
Lemma usable_spec v req snapshot : sp_ETCDSnapshotRestore (cp_Spec cp) = Some req ->
  usable v req snapshot <-> retrieveEtcdSnapshot cp = Ret snapshot /\ validate_snapshot snapshot v = Ret tt.
Proof.
  intros Hreq. unfold usable, retrieveEtcdSnapshot, validate_snapshot. rewrite Hreq.
  destruct (bool_decide_reflect (sp_ClusterName (cp_Spec cp) = "")) as [|Hc]; [naive_solver|].
  destruct (etcdSnapshotCache_Get _ _) as [s|e|].
  - destruct snapshot as [s0|]; [|split; [intros (_ & e & ? & _); done|intros [? _]; done]].
    split.
    + intros (_ & [= ->] & Hp). split; [done|]. destruct (ParseSnapshotClusterSpecOrError _) as [k|e|]; [|done..].
      destruct Hp as (old & -> & Hv). cbn [res_bind]. destruct (LessThan v Kubernetes125), (LessThan old Kubernetes125); cbn; tauto.
    + intros [[= ->] Hv]. split; [done|]. split; [done|]. destruct (ParseSnapshotClusterSpecOrError _) as [k|e|]; [|done..].
      apply res_bind_Ret in Hv as (old & Ho & Hv). exists old. split; [done|]. intros [H1 H2]. by rewrite H1, H2 in Hv.
  - destruct (IsNotFound e) eqn:He; destruct snapshot as [s0|]; split.
    + intros (_ & ? & _); done.
    + intros [? _]; done.
    + done.
    + intros _. split; [done|]. by exists e.
    + intros (_ & ? & _); done.
    + intros [? _]; done.
    + intros (_ & e' & [= ->] & ?). congruence.
    + intros [? _]; done.
  - destruct snapshot; split; try (by intros (_ & ? & _)); try (by intros [? _]). by intros (_ & e' & ? & _).
Qed.

End restore_phases.

Section witness.
#[local] Existing Instance demoExternal.
#[local] Existing Instance demoSemverLaws.
#[local] Instance demoP : Planner := demoPlanner ∅ ∅ [] (Some demoCluster).
Definition demoRestore : ETCDSnapshotRestore := mkETCDSnapshotRestore "snap" 1 "none".
(** A restore that is about to restore, and its init node, which has applied the plan for it. *)
Definition demoRestoring : RKEControlPlane :=
  let cp := demoRequest None (Some demoRestore) None None in
  demoControlPlaneOf (cp_Spec cp) (set_st_ETCDSnapshotRestorePhase "Restore" (set_st_ETCDSnapshotRestore (Some demoRestore) (cp_Status cp))).
Definition demoRestorePlan : option Node :=
  match generateEtcdSnapshotRestorePlan demoRestoring None "snap" demoTokens (demoServerEntry None) "" with
  | Ret (p, _) => Some (demoNode p) | _ => None end.

End witness.
