(* ===== verification/Process.v ===== *)
(** * One pass over a control plane ([planner.go], [pkg/controllers/capr/planner/controller.go])

    [Process] composes the operations of the planner in their fixed order; [OnChange] turns its
    error into conditions of the control plane.  A pass holds a lock on the UID of the control plane,
    so passes over one control plane do not interleave and each is modelled as one run. *)

From S2P Require Import Prelude GoLib Errors Types External Instances Capr PlanEntry World Store Args Config DesiredPlan Disclosure Changes Reconcile Cluster CertRotation EncryptionKeyRotation EtcdCreate EtcdRestore.

Section process.
Context `{P : Planner} `{!SemverLaws}.

(** What is done about a cluster that lacks a role: no plan is delivered. *)
Definition process_insane (cp : RKEControlPlane) : SM unit :=
  let* _ := mod_status (cond_status Stable "False") in
  let* s := get_status in
  if st_Initialized s || st_Ready s then
    let* _ := mod_status (fun s => set_st_Ready false (set_st_Initialized false s)) in
    fail (errWaitingf ("uninitializing rkecontrolplane " +:+ cp_Namespace cp +:+ "/" +:+ cp_Name cp))
  else
    let* err := inW (attempt_err (ensureCAPIClusterControlPlaneInitializedFalse cp)) in
    match err with
    | Some e => fail (errWaitingf ("uninitializing CAPI cluster: " +:+ Error e))
    | None =>
        let* etcdDeleting := inW forceDeleteAllDeletingEtcdMachines in
        if negb (etcdDeleting =? 0)%nat then fail (errWaiting "waiting for all etcd machines to be deleted")
        else fail (errWaiting "waiting for at least one control plane, etcd, and worker node to be registered")
    end.

(** The cluster was bootstrapped and none of its etcd machines has ever received a plan. *)
Definition etcd_plane_replaced (status : ControlPlaneStatus) (plan : Plan) : bool :=
  (Cond_IsTrue Bootstrapped (st_Conditions status) || negb (length (collect plan (roleOr hasJoinURL hasJoinedTo)) =? 0)%nat)
  && (length (collect plan (roleAnd isEtcd anyPlanDataExists)) =? 0)%nat.

Definition process_sane (cp : RKEControlPlane) (capiCluster : CAPICluster) (currentVersion : semver)
    (releaseData : Release) (anyPlansDelivered : bool) : SM unit :=
  let* _ := mod_status (cond_status Provisioned "True") in
  let* _ := mod_status (cond_message Provisioned "") in
  let* _ := mod_status (cond_reason Provisioned "") in
  let* tokens := inW (ensureRKEStateSecret cp (negb anyPlansDelivered)) in
  let* _ := createEtcdSnapshot cp tokens in
  let* _ := restoreEtcdSnapshot cp tokens currentVersion in
  let* plan := inW (gets w_plan) in
  let* s := get_status in
  let* _ := (match getLowestMachineKubeletVersion plan with
             | Some lowestKubelet => lift (blockProgressForSUCPSPIf125 s currentVersion lowestKubelet)
             | None => ret tt
             end) in
  let* _ := rotateCertificates cp tokens in
  let* _ := rotateEncryptionKeys cp tokens releaseData in
  if IsPaused capiCluster cp then fail (errWaitingf "CAPI cluster or RKEControlPlane is paused")
  else
    let* plan := inW (gets w_plan) in
    let* s := get_status in
    if etcd_plane_replaced s plan then
      let* _ := mod_status (cond_status Stable "False") in
      fail (errWaiting "rkecontrolplane was already initialized but no etcd machines exist that have plans, indicating the etcd plane has been entirely replaced. Restoration from etcd snapshot is required.")
    else fullReconcile cp tokens false.

Definition Process (cp : RKEControlPlane) : SM unit :=
  match NewVersion (sp_KubernetesVersion (cp_Spec cp)) with
  | Panic => panic
  | Fail e => fail (errorString ("rkecluster " +:+ cp_Namespace cp +:+ "/" +:+ cp_Name cp
                +:+ ": error semver parsing kubernetes version " +:+ sp_KubernetesVersion (cp_Spec cp) +:+ ": " +:+ Error e))
  | Ret currentVersion =>
      match ReleaseData cp with
      | None => fail (errWaitingf (cp_Namespace cp +:+ "/" +:+ cp_Name cp +:+ ": releaseData nil for version "
                        +:+ sp_KubernetesVersion (cp_Spec cp)))
      | Some releaseData =>
          match GetOwnerCAPICluster cp with
          | Panic => panic
          | Fail e => if IsNotFound e then fail (errWaiting "CAPI cluster does not exist") else fail e
          | Ret None => fail (errWaiting "CAPI cluster does not exist")
          | Ret (Some capiCluster) =>
              if cc_Deleting capiCluster then
                if IsPaused capiCluster cp
                then let* _ := inW (attempt_err (pauseCAPICluster cp false)) in ret tt
                else ret tt
              else if negb (cc_InfrastructureReady capiCluster) then fail (errWaiting "waiting for infrastructure ready")
              else
                let* anyPlansDelivered := inW (Load capiCluster cp) in
                let* plan := inW (gets w_plan) in
                if negb (clusterIsSane plan) then process_insane cp
                else process_sane cp capiCluster currentVersion releaseData anyPlansDelivered
          end
      end
  end.

(** ** The handler *)

(** What a call of the handler asks of the controller: whether the object is enqueued again after
    five seconds, and the error returned to it. *)
Record outcome := mkOutcome { o_enqueueAfter : bool; o_err : option error }.

Definition set_condition (cond status message reason : string) (s : ControlPlaneStatus) : ControlPlaneStatus :=
  cond_reason cond reason (cond_message cond message (cond_status cond status s)).

(** [Semantic.DeepEqual(cp.Spec, status.AppliedSpec)] compares a struct with a pointer to one: the
    types differ, so they are never deeply equal. *)
Definition spec_DeepEqual_appliedSpec (spec : ControlPlaneSpec) (appliedSpec : option ControlPlaneSpec) : bool := false.

Definition set_cond_error (cond : string) (e : error) (s : ControlPlaneStatus) : ControlPlaneStatus :=
  set_st_Conditions (Cond_SetError cond "" e (st_Conditions s)) s.

Definition OnChange (cp : RKEControlPlane) : SM outcome :=
  if cp_Deleting cp then ret (mkOutcome false None)
  else
    let* _ := mod_status (set_st_ObservedGeneration (cp_Generation cp)) in
    let* err := attempt_err (Process cp) in
    match err with
    | Some e =>
        if IsErrWaiting e then
          let* _ := mod_status (set_condition ReadyCond "Unknown" (Error e) "Waiting") in
          let* s := get_status in
          let* _ := (if negb (spec_DeepEqual_appliedSpec (cp_Spec cp) (st_AppliedSpec s))
                     then mod_status (set_condition Reconciled "Unknown" "RKEControlPlane has not been fully reconciled yet" "Waiting")
                     else ret tt) in
          ret (mkOutcome false None)
        else if IsErrSkip e then ret (mkOutcome true (Some e))
        else
          let* _ := mod_status (fun s => set_cond_error Reconciled e (set_cond_error ReadyCond e s)) in
          ret (mkOutcome false (Some e))
    | None =>
        let* _ := mod_status (set_condition ReadyCond "True" "" "") in
        let* _ := mod_status (set_condition Stable "True" "" "") in
        let* _ := mod_status (set_st_AppliedSpec (Some (cp_Spec cp))) in
        let* _ := mod_status (set_condition Reconciled "True" "" "") in
        ret (mkOutcome false None)
    end.
End process.

(** ** What enqueues a control plane *)

Inductive watched :=
| WatchedSecret (s : Secret)
| WatchedMachine (m : Machine)
| WatchedConfigMap (cm : Secret)
| WatchedOther.

Definition authorized_clusters (obj : Secret) : list (string * string) :=
  let authorizedObjects := map_get (s_Annotations obj) AuthorizedObjectAnnotation in
  if authorizedObjects !=? "" then map (fun c => (s_Namespace obj, c)) (Split authorizedObjects ",") else [].

(** The resolver [Register] hands to [relatedresource.Watch]: namespace and name of the control planes. *)
Definition related_resources (obj : watched) : list (string * string) :=
  match obj with
  | WatchedSecret s =>
      let clusterName := map_get (s_Labels s) ClusterNameLabel in
      (if clusterName !=? "" then [(s_Namespace s, clusterName)] else []) ++ authorized_clusters s
  | WatchedMachine m =>
      let clusterName := map_get (m_Labels m) CAPIClusterNameLabel in
      if clusterName !=? "" then [(m_Namespace m, clusterName)] else []
  | WatchedConfigMap cm => authorized_clusters cm
  | WatchedOther => []
  end.

(** ** A cluster that lacks a role *)

Section insane.
Context `{P : Planner} `{!SemverLaws}.

Definition same_secrets (w w' : World) : Prop := w_secrets w' = w_secrets w.
#[local] Instance same_secrets_preorder : PreOrder same_secrets.
Proof. split; [done|]. intros w1 w2 w3 H1 H2. unfold same_secrets in *. congruence. Qed.
Local Abbreviation runsS c := (runs (fun _ => True) same_secrets c (fun _ => True)).

Lemma api_request_secrets : runsS api_request.
Proof. intros w _. unfold api_request. by destruct (w_faults w) as [|[e|] fs]. Qed.
Lemma modify_secrets f : (forall w, w_secrets (f w) = w_secrets w) -> runsS (modify f).
Proof. intros Hf. apply runs_modify; [|done]. intros w _. split; [done|]. apply Hf. Qed.
#[local] Hint Resolve api_request_secrets : planner.

Lemma machines_Update_secrets m : runsS (machines_Update m).
Proof. unfold machines_Update. runs_auto. Qed.
Lemma capiClient_Update_secrets c : runsS (capiClient_Update c).
Proof. unfold capiClient_Update. runs_auto. Qed.
Lemma rkeBootstrap_Update_secrets b : runsS (rkeBootstrap_Update b).
Proof. unfold rkeBootstrap_Update. runs_auto. Qed.
#[local] Hint Resolve machines_Update_secrets capiClient_Update_secrets rkeBootstrap_Update_secrets : planner.

Lemma ensureCAPI_secrets cp : runsS (ensureCAPIClusterControlPlaneInitializedFalse cp).
Proof. unfold ensureCAPIClusterControlPlaneInitializedFalse. runs_auto. Qed.

Lemma forceDelete_secrets : runsS forceDeleteAllDeletingEtcdMachines.
Proof.
  unfold forceDeleteAllDeletingEtcdMachines. eapply (runs_bind _ _ _ _ (fun _ => True)); [unfold collectM; runs_auto|].
  intros l _. eapply (runs_bind _ _ _ _ (fun _ => True)); [|runs_auto].
  apply runs_for_fold; [apply _|done|]. intros [] e _ _. unfold force_delete_one.
  destruct (m_ConfigRef _) as [ref|]; [|runs_auto]. destruct (negb _); [runs_auto|].
  eapply runs_bind; [apply _|by apply modify_secrets|]. intros _ _. runs_auto.
Qed.

(** As long as the cluster lacks an etcd, control-plane or worker machine, the pass never succeeds and
    never touches a plan secret: it takes the readiness flags back, marks the cluster-api cluster as not
    initialized, and speeds up the deletion of etcd machines. *)
Theorem process_insane_inert cp w s w' s' r :
  process_insane cp (w, s) = ((w', s'), r) ->
  returns r = false /\ w_secrets w' = w_secrets w
  /\ (st_Initialized s || st_Ready s = true -> w' = w /\ st_Initialized s' = false /\ st_Ready s' = false).
Proof.
  unfold process_insane. rewrite (bind_run _ _ _ (w, cond_status Stable "False" s) tt) by done.
  rewrite (bind_run _ _ _ (w, cond_status Stable "False" s) (cond_status Stable "False" s)) by done. simpl.
  destruct (st_Initialized s || st_Ready s); [by intros [= <- <- <-]|].
  unfold bind at 1, inW at 1. pose proof (runs_attempt_err _ _ _ _ (ensureCAPI_secrets cp) w I) as (_ & H1 & _).
  destruct (attempt_err _ w) as [w1 [[e|]|e|]]; simpl in H1; [by intros [= <- <- <-]| |by intros [= <- <- <-]..].
  unfold bind at 1, inW at 1. pose proof (forceDelete_secrets w1 I) as (_ & H2 & _).
  destruct (forceDeleteAllDeletingEtcdMachines w1) as [w2 [n|e|]]; simpl in H2; [|intros [= <- <- <-]; split; [done|]; split; [by etrans|done]..].
  destruct (negb _); intros [= <- <- <-]; (split; [done|]; split; [by etrans|done]).
Qed.
End insane.

(** ** Success of a pass *)

Section success.
Context `{P : Planner} `{!SemverLaws}.

(** C3: a pass over a control plane whose cluster is not being deleted succeeds only if the infrastructure is
    ready, the cluster has machines of every role, neither the cluster nor the control plane is paused, the
    etcd plane has not been replaced as a whole, and the full reconciliation has succeeded, as the last
    thing the pass did. *)
Theorem Process_success cp capiCluster w s w' s' :
  GetOwnerCAPICluster cp = Ret (Some capiCluster) -> cc_Deleting capiCluster = false ->
  Process cp (w, s) = ((w', s'), Ret tt) ->
  cc_InfrastructureReady capiCluster = true /\ IsPaused capiCluster cp = false
  /\ (exists w1 b, Load capiCluster cp w = (w1, Ret b) /\ clusterIsSane (w_plan w1) = true)
  /\ exists w2 s2 tokens, etcd_plane_replaced s2 (w_plan w2) = false
       /\ fullReconcile cp tokens false (w2, s2) = ((w', s'), Ret tt).
Proof.
  intros Ho Hd. unfold Process. destruct (NewVersion _) as [v|e|]; [|done..]. destruct (ReleaseData cp) as [rd|]; [|done].
  rewrite Ho, Hd. destruct (cc_InfrastructureReady capiCluster); [|done]. cbn [negb].
  intros (b & ws1 & Hl & Hk)%bind_Ret. apply inW_Ret in Hl as (w1 & -> & Hl).
  rewrite (bind_run _ _ _ (w1, s) (w_plan w1)) in Hk by done.
  destruct (clusterIsSane (w_plan w1)) eqn:Esane; cbn [negb] in Hk.
  2:{ assert (snd (process_insane cp (w1, s)) <> Ret tt) as Hn; [|by rewrite Hk in Hn].
      intros Hr. unfold process_insane in Hr. unfold bind at 1 2 in Hr. simpl in Hr.
      destruct (_ || _); [done|]. unfold bind at 1, inW at 1 in Hr.
      destruct (attempt_err _ w1) as [w2 [[e|]|e|]]; try done. unfold bind at 1, inW at 1 in Hr.
      destruct (forceDeleteAllDeletingEtcdMachines w2) as [w3 [n|e|]]; try done. by destruct (negb _). }
  split; [done|]. unfold process_sane in Hk.
  do 3 (apply bind_Ret in Hk as ([] & ? & _ & Hk)).
  apply bind_Ret in Hk as (tokens & ws2 & _ & Hk). do 2 (apply bind_Ret in Hk as ([] & ? & _ & Hk)).
  apply bind_Ret in Hk as (? & ? & _ & Hk). apply bind_Ret in Hk as (? & ? & _ & Hk).
  do 3 (apply bind_Ret in Hk as ([] & ? & _ & Hk)).
  destruct (IsPaused capiCluster cp); [done|]. split; [done|]. split; [eauto|].
  match type of Hk with bind _ _ ?x = _ => destruct x as [w2 s2] end.
  rewrite (bind_run _ _ _ (w2, s2) (w_plan w2)), (bind_run _ _ _ (w2, s2) s2) in Hk by done.
  destruct (etcd_plane_replaced s2 (w_plan w2)) eqn:Er; [by apply bind_Ret in Hk as (? & ? & _ & Hk)|]. eauto.
Qed.

End success.

(** ** Objects that are watched *)

(** A secret or config map that authorises a cluster enqueues the control plane of that name in its
    namespace whenever it changes, and a config map enqueues no other one: so a change of an object from
    which files are rendered always leads to a new pass. *)
Theorem authorized_objects_watched obj cluster :
  cluster <> "" ->
  (authorized_for (s_Annotations obj) AuthorizedObjectAnnotation cluster <->
     (s_Namespace obj, cluster) ∈ related_resources (WatchedConfigMap obj))
  /\ (authorized_for (s_Annotations obj) AuthorizedObjectAnnotation cluster ->
        (s_Namespace obj, cluster) ∈ related_resources (WatchedSecret obj)).
Proof.
  intros Hc.
  assert (authorized_for (s_Annotations obj) AuthorizedObjectAnnotation cluster <->
          (s_Namespace obj, cluster) ∈ authorized_clusters obj) as Hiff.
  { unfold authorized_for, authorized_clusters. case_bool_decide as Hs; cbn [negb].
    - rewrite Hs. simpl. split; [intros [_ Hin%list_elem_of_singleton]; done|by intros Hin%not_elem_of_nil].
    - split.
      + intros [_ Hin]. apply list_elem_of_In, in_map_iff. exists cluster. split; [done|]. by apply list_elem_of_In.
      + intros Hin. apply list_elem_of_In, in_map_iff in Hin as (x & [= ->] & Hin).
        split; [done|]. by apply list_elem_of_In. }
  split; [done|]. intros Ha. simpl. apply elem_of_app. right. by apply Hiff.
Qed.

Section witnesses.
#[local] Existing Instance demoExternal.
#[local] Existing Instance demoSemverLaws.

Lemma authorized_objects_watched_witness :
  ("fleet-default", "c1") ∈ related_resources (WatchedSecret demoAuthorized).
Proof.
  apply (authorized_objects_watched demoAuthorized "c1"); [done|]. split; [done|].
  apply (bool_decide_unpack _). vm_compute. exact I.
Defined.

#[local] Instance demoP : Planner := demoPlanner ∅ ∅ [] (Some demoCluster).

(** No machine is there yet. *)
Lemma process_insane_inert_witness : exists w' s' r,
  process_insane demoControlPlane (demoWorld [], demoStatus) = ((w', s'), r) /\ st_Ready s' = false.
Proof.
  destruct (process_insane demoControlPlane (demoWorld [], demoStatus)) as [[w' s'] r] eqn:E.
  exists w', s', r. split; [reflexivity|].
  apply (process_insane_inert demoControlPlane _ _ w' s' r E). reflexivity.
Defined.

End witnesses.

(** A cluster with one machine of all roles that has applied its plan. *)
Section process_witness.
#[local] Existing Instance demoExternal.
#[local] Existing Instance demoSemverLaws.

Let state : Secret := mkSecret "fleet-default" "c1-rke-state" SecretTypeClusterState ∅ ∅
  (<["serverToken" := "server-token"]> {[ "agentToken" := "agent-token" ]}) [] false.
#[local] Instance demoAllRoles : Planner :=
  demoPlanner {[ ("fleet-default", "c1-rke-state") := state ]} ∅ [demoMachine "m1"] (Some demoCluster).

Let md : Metadata := mkMetadata (<[WorkerRoleLabel := "true"]> (md_Labels demoServerMetadata)) (md_Annotations demoServerMetadata).
Let plan : string :=
  match desiredPlan demoControlPlane demoTokens (mkplanEntry (demoMachine "m1") None (Some md)) "" with
  | Ret (p, _) => json_Marshal_NodePlan p | _ => "" end.
Let w0 : World := set_w_secrets
  {[ ("fleet-default", "m1-machine-plan") :=
       mkSecret "fleet-default" "m1-machine-plan" SecretTypeMachinePlan (md_Labels md) (md_Annotations md)
         (<["plan" := plan]> {[ "appliedPlan" := plan ]}) [] false ]} (demoWorld []).

Lemma Process_success_witness : exists w' s' w2 s2 tokens,
  Process demoControlPlane (w0, demoStatus) = ((w', s'), Ret tt)
  /\ fullReconcile demoControlPlane tokens false (w2, s2) = ((w', s'), Ret tt).
Proof.
  destruct (returns_run (Process demoControlPlane) (w0, demoStatus)) as ([w' s'] & [] & E); [vm_compute; reflexivity|].
  assert (GetOwnerCAPICluster demoControlPlane = Ret (Some demoCluster)) as Ho by (vm_compute; reflexivity).
  destruct (Process_success demoControlPlane demoCluster w0 demoStatus w' s' Ho eq_refl E)
    as (_ & _ & _ & w2 & s2 & tokens & _ & Hf).
  exists w', s', w2, s2, tokens. split; [exact E|exact Hf].
Defined.
End process_witness.
