(* ===== verification/Handlers.v ===== *)
(** * The controllers around the planner

    What the handlers of [pkg/controllers/capr] share: their informer caches and the third-party
    functions they call, as parameters; the state they change, which is the [World] of the planner
    together with the nodes of the downstream cluster; optimistic concurrency on secrets. *)

From S2P Require Import Prelude GoLib Errors Types External Instances Capr PlanEntry World Store.

(** ** Parameters *)

(** Caches are read by name or by a set of labels ([labels.SelectorFromSet]); a REST configuration
    and a client are opaque. *)
Class Controllers `{Planner} := {
  machineCache_Get : string -> string -> res Machine;
  machineCache_ListLabels : string -> gmap string string -> res (list Machine);
  secretCache_ListLabels : string -> gmap string string -> res (list Secret);
  etcdSnapshotCache_ListLabels : string -> gmap string string -> res (list ETCDSnapshot);
  serviceAccountCache_Get : string -> string -> res ServiceAccount;
  rkeControlPlaneCache_Get : string -> string -> res RKEControlPlane;
  json_Unmarshal_DrainOptions : string -> res DrainOptions;
  restConfig : Type;
  k8sInterface : Type;
  RESTConfigFromKubeConfig : string -> res restConfig;
  NewForConfig : restConfig -> res k8sInterface
}.

(** The options of a drain are read back as they were written, and their text is not empty. *)
Class DrainOptionsCodec `{Controllers} := {
  DrainOptions_roundtrip o s : json_Marshal_DrainOptions o = Ret s -> json_Unmarshal_DrainOptions s = Ret o;
  DrainOptions_nonempty o s : json_Marshal_DrainOptions o = Ret s -> s <> ""
}.

(** Sample caches: the given machines and control planes, all secrets given. *)
Definition demoControllers (P : @Planner demoExternal) (machines : list Machine) (secrets : list Secret)
    (controlPlane : option RKEControlPlane) : @Controllers demoExternal P := {|
  machineCache_Get ns name := match List.find (fun m => (m_Namespace m =? ns) && (m_Name m =? name)) machines with
                              | Some m => Ret m | None => demoMissing "machine" name end;
  machineCache_ListLabels ns labels := Ret machines;
  secretCache_ListLabels ns labels := Ret secrets;
  etcdSnapshotCache_ListLabels ns labels := Ret [];
  serviceAccountCache_Get ns name := demoMissing "serviceaccount" name;
  rkeControlPlaneCache_Get ns name := match controlPlane with Some cp => Ret cp | None => demoMissing "rkecontrolplane" name end;
  json_Unmarshal_DrainOptions := decode_text;
  restConfig := string;
  k8sInterface := string;
  RESTConfigFromKubeConfig s := Ret s;
  NewForConfig s := Ret s
|}.

Lemma demoDrainOptionsCodec P machines secrets cp : @DrainOptionsCodec _ _ (demoControllers P machines secrets cp).
Proof. split; intros o s [= <-]; [apply decode_encode_text|done]. Qed.

(** ** The downstream cluster *)

Section effects.
Context `{C : Controllers}.

(** [drain.Helper] of kubectl; [dhl_Timeout] is a [time.Duration] in nanoseconds. *)
Record DrainHelper := mkDrainHelper {
  dhl_Client : k8sInterface;
  dhl_Force : bool;
  dhl_GracePeriodSeconds : Z;
  dhl_IgnoreAllDaemonSets : bool;
  dhl_Timeout : Z;
  dhl_DeleteEmptyDirData : bool;
  dhl_DisableEviction : bool;
  dhl_SkipWaitForDeleteTimeoutSeconds : Z
}.

(** The calls of kubectl's drain package that succeeded, most recent first. *)
Inductive node_call :=
| CallCordon (helper : DrainHelper) (node : string) (desired : bool)
| CallDrain (helper : DrainHelper) (node : string).

Record Downstream := mkDownstream {
  ds_nodes : gmap string (gmap string string);      (** annotations by node name *)
  ds_calls : list node_call
}.

Record CWorld := mkCWorld { cw_world : World; cw_down : Downstream }.
Definition set_cw_world (v : World) (w : CWorld) : CWorld := mkCWorld v (cw_down w).
Definition set_cw_down (v : Downstream) (w : CWorld) : CWorld := mkCWorld (cw_world w) v.

Definition CM (A : Type) : Type := ST CWorld A.

(** A program on the objects of the management cluster. *)
Definition mgmt {A} (c : M A) : CM A :=
  fun w => let '(w1, r) := c (cw_world w) in (set_cw_world w1 w, r).

(** [Nodes().Get] and [Nodes().Update] of a downstream client. *)
Definition nodes_Get (name : string) : CM (gmap string string) :=
  let* _ := mgmt api_request in
  let* d := gets cw_down in
  match ds_nodes d !! name with
  | Some annotations => ret annotations
  | None => fail (not_found "node" name)
  end.

Definition nodes_Update (name : string) (annotations : gmap string string) : CM unit :=
  let* _ := mgmt api_request in
  let* d := gets cw_down in
  match ds_nodes d !! name with
  | Some _ => modify (set_cw_down (mkDownstream (<[name := annotations]> (ds_nodes d)) (ds_calls d)))
  | None => fail (not_found "node" name)
  end.

Definition record_call (c : node_call) : CM unit :=
  modify (fun w => set_cw_down (mkDownstream (ds_nodes (cw_down w)) (c :: ds_calls (cw_down w))) w).

(** [drain.RunCordonOrUncordon] and [drain.RunNodeDrain]: they fail, or they are done. *)
Definition RunCordonOrUncordon (helper : DrainHelper) (node : string) (desired : bool) : CM unit :=
  let* _ := mgmt api_request in record_call (CallCordon helper node desired).
Definition RunNodeDrain (helper : DrainHelper) (node : string) : CM unit :=
  let* _ := mgmt api_request in record_call (CallDrain helper node).

(** ** Optimistic concurrency

    A secret in memory with the state of the object it was read in, which stands for its resource
    version: an update is rejected when the object has changed since. *)
Record vsecret := mkvsecret { vs_read : Secret; vs_obj : Secret }.

Definition fresh (s : Secret) : vsecret := mkvsecret s s.

Definition conflict (name : string) : error :=
  StatusError ReasonConflict ("Operation cannot be fulfilled on secrets " +:+ name
    +:+ ": the object has been modified; please apply your changes to the latest version and try again").

Definition secrets_UpdateV (s : vsecret) : M Secret :=
  let* _ := api_request in
  let* ss := gets w_secrets in
  match ss !! (s_Namespace (vs_obj s), s_Name (vs_obj s)) with
  | None => fail (not_found "secret" (s_Name (vs_obj s)))
  | Some cur =>
      if bool_decide (cur = vs_read s) then
        let* _ := modify (set_w_secrets (<[(s_Namespace (vs_obj s), s_Name (vs_obj s)) := vs_obj s]> ss)) in
        ret (vs_obj s)
      else fail (conflict (s_Name (vs_obj s)))
  end.

(** The object a client returns beside an error. *)
Definition zeroSecret : Secret := mkSecret "" "" "" ∅ ∅ ∅ [] false.

(** [Delete] of a machine: a finalizer that holds it turns the deletion into a mark. *)
Definition machines_Delete (held : string -> string -> bool) (ns name : string) : M unit :=
  let* _ := api_request in
  let* ms := gets w_machines in
  match ms !! (ns, name) with
  | None => fail (not_found "machine" name)
  | Some m => modify (set_w_machines (if held ns name then <[(ns, name) := set_m_Deleting true m]> ms else delete (ns, name) ms))
  end.

(** [Get] of a client; an empty name is refused before a request is made. *)
Definition secrets_GetN (ns name : string) : M Secret :=
  if name =? "" then fail (errorString "resource name may not be empty") else secrets_Get ns name.

(** An assignment to an entry of a map read from the API server: an empty map is nil there. *)
Definition assign_entry {S} (m : gmap string string) (k v : string) : ST S (gmap string string) :=
  if bool_decide (m = ∅) then panic else ret (<[k := v]> m).
End effects.
