(* ===== verification/MachineDrain.v ===== *)
(** * The machine-drain controller ([pkg/controllers/capr/machinedrain/machinedrain.go])

    Answers the drain requests of the planner: it reads the options from the drain annotation of a
    plan secret, cordons and drains the node, waits for the hooks, and reports in the done
    annotation; it uncordons the node and clears the annotations when it is asked to.

    The second result of [return secret, retry.RetryOnConflict(...)] assigns [secret]; the compiler
    reads the variable after the call. *)

From S2P Require Import Prelude GoLib Errors Types External Instances Capr PlanEntry World Store Drain Handlers.

Definition annotation (s : Secret) (k : string) : string := map_get (s_Annotations s) k.

Section machinedrain.
Context `{C : Controllers}.

Definition secretAnnotationDoesNotHaveValue (ann value : string) (secret : Secret) : bool :=
  annotation secret ann !=? value.

Definition checkHookAnnotations (drainData : string) (hooks : list DrainHook) (secret : Secret) : bool :=
  List.forallb (fun hook => negb ((dh_Annotation hook !=? "") && (annotation secret (dh_Annotation hook) !=? drainData))) hooks.

(** [NodeRef == nil || NodeRef.Name == ""] *)
Definition node_name (machine : Machine) : option string :=
  match m_NodeRef machine with
  | Some ref => if ref_Name ref =? "" then None else Some (ref_Name ref)
  | None => None
  end.

Definition k8sClient (machine : Machine) : res k8sInterface :=
  let? secret := secretCache_Get (m_Namespace machine) (name_SafeConcatName [m_ClusterName machine; "kubeconfig"]) in
  let? config := RESTConfigFromKubeConfig (map_get (s_Data secret) "value") in
  NewForConfig config.

(** The product of two [int64] values wraps around. *)
Definition helper_of (k8s : k8sInterface) (drainOpts : DrainOptions) : DrainHelper :=
  let timeout := if (do_Timeout drainOpts =? 0)%Z then 600 else do_Timeout drainOpts in
  mkDrainHelper k8s (do_Force drainOpts) (do_GracePeriod drainOpts)
    (match do_IgnoreDaemonSets drainOpts with None => true | Some b => b end)
    (wrap64 (timeout * 1000000000)) (do_DeleteEmptyDirData drainOpts) (do_DisableEviction drainOpts)
    (do_SkipWaitForDeleteTimeoutSeconds drainOpts).

(** Only called for a machine with a node; the node found has the name asked for. *)
Definition getHelper (machine : Machine) (node : string) (drainOpts : DrainOptions) : CM (DrainHelper * string) :=
  let* k8s := lift (k8sClient machine) in
  let* _ := nodes_Get node in
  ret (helper_of k8s drainOpts, node).

Definition cordon (machine : Machine) (drainOpts : DrainOptions) : CM unit :=
  match node_name machine with
  | None => ret tt
  | Some n =>
      let* '(helper, node) := getHelper machine n drainOpts in
      RunCordonOrUncordon helper node true
  end.

Definition performDrain (machine : Machine) (drainOpts : DrainOptions) : CM unit :=
  match node_name machine with
  | None => ret tt
  | Some n =>
      let* '(helper, node) := getHelper machine n drainOpts in
      RunNodeDrain helper node
  end.

(** One attempt of the two functions below: read the secret, and unless it is to be left alone
    change its annotations and write it back. *)
Definition edit_attempt (skip : Secret -> bool) (edit : gmap string string -> CM (gmap string string)) (secret : vsecret)
  : CM (vsecret * option error) :=
  let* r := attempt (mgmt (secrets_GetN (s_Namespace (vs_obj secret)) (s_Name (vs_obj secret)))) in
  match r with
  | inr e => ret (fresh zeroSecret, Some e)
  | inl s =>
      if skip s then ret (fresh s, None)
      else
        let* anns := edit (s_Annotations s) in
        let secret := mkvsecret s (set_s_Annotations anns s) in
        let* e := attempt_err (mgmt (secrets_UpdateV secret)) in
        ret (secret, e)
  end.

Definition updateSecretAnnotationIfCheckTrue (secret : vsecret) (ann value : string) (check : Secret -> bool)
  : CM (option vsecret * option error) :=
  let* '(secret, e) := RetryOnConflict_var RetryOnConflict_Steps
    (edit_attempt (fun s => negb (check s) || (annotation s ann =? value)) (fun anns => assign_entry anns ann value))
    secret in
  ret (Some secret, e).

(** The annotations a finished drain leaves behind. *)
Definition clean_annotations (drainOpts : DrainOptions) (anns : gmap string string) : gmap string string :=
  let anns := foldr delete anns [PreDrainAnnotation; PostDrainAnnotation; DrainAnnotation; DrainDoneAnnotation; UnCordonAnnotation] in
  let anns := foldr delete anns (map dh_Annotation (do_PreDrainHooks drainOpts)) in
  foldr delete anns (map dh_Annotation (do_PostDrainHooks drainOpts)).

Definition cleanSecretAnnotationsIfCheckTrue (secret : vsecret) (drainOpts : DrainOptions) (check : Secret -> bool)
  : CM (option vsecret * option error) :=
  let* '(secret, e) := RetryOnConflict_var RetryOnConflict_Steps
    (edit_attempt (fun s => negb (check s)) (fun anns => ret (clean_annotations drainOpts anns)))
    secret in
  ret (Some secret, e).

(** The hook handshake of both directions: publish the request, then wait for all hooks. *)
Definition hooks_pending (hooks : list DrainHook) (ann drainData : string) (secret : vsecret)
  : CM (option (option vsecret * option error)) :=
  match hooks with
  | [] => ret None
  | _ :: _ =>
      if secretAnnotationDoesNotHaveValue ann drainData (vs_obj secret) then
        let* r := updateSecretAnnotationIfCheckTrue secret ann drainData (secretAnnotationDoesNotHaveValue ann drainData) in
        ret (Some r)
      else if negb (checkHookAnnotations drainData hooks (vs_obj secret)) then ret (Some (Some secret, None))
      else ret None
  end.

Definition unDrain (secret : vsecret) (machine : Machine) (drainData : string) : CM (option vsecret * option error) :=
  match node_name machine with
  | None => ret (Some secret, None)
  | Some n =>
      match json_Unmarshal_DrainOptions drainData with
      | Panic => panic
      | Fail e => ret (Some secret, Some e)
      | Ret drainOpts =>
          let* early := hooks_pending (do_PostDrainHooks drainOpts) PostDrainAnnotation drainData secret in
          match early with
          | Some r => ret r
          | None =>
              let* e := attempt_err (let* '(helper, node) := getHelper machine n drainOpts in
                                     RunCordonOrUncordon helper node false) in
              match e with
              | Some e => ret (None, Some e)
              | None => cleanSecretAnnotationsIfCheckTrue secret drainOpts
                          (checkHookAnnotations drainData (do_PostDrainHooks drainOpts))
              end
          end
      end
  end.

Definition drain (secret : vsecret) (machine : Machine) (drainData : string) : CM (option vsecret * option error) :=
  match json_Unmarshal_DrainOptions drainData with
  | Panic => panic
  | Fail e => ret (None, Some e)
  | Ret drainOpts =>
      let* e := attempt_err (cordon machine drainOpts) in
      match e with
      | Some e => ret (Some secret, Some e)
      | None =>
          let* early := hooks_pending (do_PreDrainHooks drainOpts) PreDrainAnnotation drainData secret in
          match early with
          | Some r => ret r
          | None =>
              let* e := (if do_Enabled drainOpts then attempt_err (performDrain machine drainOpts) else ret None) in
              match e with
              | Some e => ret (None, Some e)
              | None => updateSecretAnnotationIfCheckTrue secret DrainDoneAnnotation drainData
                          (checkHookAnnotations drainData (do_PreDrainHooks drainOpts))
              end
          end
      end
  end.

(** The deferred function: it brings the error annotation up to date.  The results of [OnChange] are
    not named, so what it assigns to [secret] and [err] reaches nobody. *)
Definition drain_error_deferred (oldSecret : vsecret) (secret : option vsecret) (err : option error) : CM unit :=
  let secret := match secret with
                | Some v => if bool_decide (s_Annotations (vs_obj v) = ∅) then oldSecret else v
                | None => oldSecret
                end in
  let anns := s_Annotations (vs_obj secret) in
  match err with
  | None =>
      match anns !! DrainErrorAnnotation with
      | None => ret tt
      | Some _ =>
          let* _ := attempt_err (mgmt (secrets_UpdateV (mkvsecret (vs_read secret)
                      (set_s_Annotations (delete DrainErrorAnnotation anns) (vs_obj secret))))) in ret tt
      end
  | Some e =>
      if map_get anns DrainErrorAnnotation =? Error e then ret tt
      else
        let* anns := assign_entry anns DrainErrorAnnotation (Error e) in
        let* _ := attempt_err (mgmt (secrets_UpdateV (mkvsecret (vs_read secret)
                    (set_s_Annotations anns (vs_obj secret))))) in ret tt
  end.

(** [defer]: the function runs after the body, also when the body panics. *)
Definition with_deferred {A} (body : CM A) (deferred : A -> CM unit) (onPanic : CM unit) : CM A :=
  fun w => match body w with
           | (w1, Ret a) => bind (deferred a) (fun _ => ret a) w1
           | (w1, Fail e) => (w1, Fail e)
           | (w1, Panic) => (fst (onPanic w1), Panic)
           end.

(** What [OnChange] does between the [defer] and its return. *)
Definition drain_dispatch (secret : Secret) (machine : Machine) : CM (option vsecret * option error) :=
  let drainData := annotation secret DrainAnnotation in
  if (drainData !=? "") && (annotation secret DrainDoneAnnotation !=? drainData)
  then drain (fresh secret) machine drainData
  else if annotation secret UnCordonAnnotation !=? ""
  then unDrain (fresh secret) machine drainData
  else ret (Some (fresh secret), None).

Definition OnChange (secret : option Secret) : CM (option vsecret * option error) :=
  match secret with
  | None => ret (None, None)
  | Some s =>
      if s_Deleting s || (map_get (s_Labels s) MachineNameLabel =? "") || (s_Type s !=? SecretTypeMachinePlan)
      then ret (Some (fresh s), None)
      else
        match machineCache_Get (s_Namespace s) (map_get (s_Labels s) MachineNameLabel) with
        | Panic => panic
        | Fail e => ret (Some (fresh s), Some e)
        | Ret machine =>
            with_deferred (drain_dispatch s machine)
              (fun r => drain_error_deferred (fresh s) (fst r) (snd r))
              (drain_error_deferred (fresh s) (Some (fresh s)) None)
        end
  end.
End machinedrain.

(** ** What a run can do to the secret *)

Definition skey (s : Secret) : string * string := (s_Namespace s, s_Name s).

Section effects.
Context `{C : Controllers}.

(** Neither the secrets nor the downstream cluster change. *)
Definition quiet (w w' : CWorld) : Prop :=
  w_secrets (cw_world w') = w_secrets (cw_world w) /\ cw_down w' = cw_down w.

#[global] Instance quiet_preorder : PreOrder quiet.
Proof. split; [by split|]. intros w1 w2 w3 [H1 H2] [H3 H4]. by split; etrans. Qed.

Lemma wp_request (Q : res unit -> CWorld -> Prop) w :
  (forall w', quiet w w' -> Q (Ret tt) w') -> (forall w' e, quiet w w' -> Q (Fail e) w') ->
  wp (mgmt api_request) Q w.
Proof.
  intros H1 H2. unfold wp, mgmt, api_request. destruct (w_faults (cw_world w)) as [|[e|] fs]; simpl;
    [apply H1|apply H2|apply H1]; by split.
Qed.

Lemma mgmt_bind {A B} (c : M A) (k : A -> M B) w :
  mgmt (bind c k) w = bind (mgmt c) (fun a => mgmt (k a)) w.
Proof. unfold mgmt, bind. destruct (c (cw_world w)) as [w1 [a|e|]]; simpl; [|done..]. by destruct (k a w1). Qed.

Lemma wp_mgmt_bind {A B} (c : M A) (k : A -> M B) Q w :
  wp (bind (mgmt c) (fun a => mgmt (k a))) Q w -> wp (mgmt (bind c k)) Q w.
Proof. unfold wp. by rewrite mgmt_bind. Qed.

(** A read finds the stored secret or fails, and changes nothing. *)
Lemma wp_GetN ns name cur (Q : res Secret -> CWorld -> Prop) w :
  w_secrets (cw_world w) !! (ns, name) = Some cur ->
  (forall w', quiet w w' -> Q (Ret cur) w') -> (forall w' e, quiet w w' -> Q (Fail e) w') ->
  wp (mgmt (secrets_GetN ns name)) Q w.
Proof.
  intros Hcur H1 H2. unfold secrets_GetN. destruct (_ =? _); [by apply H2|].
  apply wp_mgmt_bind, wp_bind, wp_request; [|auto]. intros w' [Hw Hd].
  unfold wp, mgmt, bind, gets. simpl. rewrite Hw, Hcur. simpl. by apply H1; split.
Qed.

(** A write takes place on the version that was read, or fails and changes nothing. *)
Lemma wp_UpdateV v cur (Q : res Secret -> CWorld -> Prop) w :
  w_secrets (cw_world w) !! skey (vs_obj v) = Some cur ->
  (forall w', vs_read v = cur -> w_secrets (cw_world w') = <[skey (vs_obj v) := vs_obj v]> (w_secrets (cw_world w)) ->
     cw_down w' = cw_down w -> Q (Ret (vs_obj v)) w') ->
  (forall w' e, quiet w w' -> Q (Fail e) w') ->
  wp (mgmt (secrets_UpdateV v)) Q w.
Proof.
  intros Hcur H1 H2. apply wp_mgmt_bind, wp_bind, wp_request; [|auto]. intros w' [Hw Hd].
  unfold wp, mgmt, bind, gets, modify. simpl. rewrite Hw. unfold skey in *. rewrite Hcur.
  case_bool_decide as Hv; simpl; [apply H1; auto; simpl; by rewrite ?Hw|by apply H2].
Qed.

Section edit.
Context (skip : Secret -> bool) (edit : gmap string string -> CM (gmap string string)) (f : gmap string string -> gmap string string).
Hypothesis edit_spec : forall anns w, edit anns w = (w, Ret (f anns)) \/ edit anns w = (w, Panic).

Definition edited (s : Secret) : Secret := set_s_Annotations (f (s_Annotations s)) s.

(** How the loop of attempts can end when [cur] is stored: the last value of the variable, the error,
    and whether the edited secret has been written. *)
Definition edit_outcome (v0 : vsecret) (cur : Secret) (w : CWorld) (r : res (vsecret * option error)) (w' : CWorld) : Prop :=
  match r with
  | Ret (v, None) =>
      (quiet w w' /\ v = fresh cur /\ skip cur = true)
      \/ (w_secrets (cw_world w') = <[skey cur := edited cur]> (w_secrets (cw_world w)) /\ cw_down w' = cw_down w
          /\ v = mkvsecret cur (edited cur) /\ skip cur = false)
  | Ret (v, Some e) =>
      quiet w w' /\ (v = v0 \/ v = fresh zeroSecret \/ (v = mkvsecret cur (edited cur) /\ skip cur = false))
  | Fail _ => False
  | Panic => quiet w w'
  end.

Lemma edit_attempt_spec v v0 cur w w1 :
  skey (vs_obj v) = skey cur \/ v = fresh zeroSecret -> quiet w w1 ->
  w_secrets (cw_world w) !! skey cur = Some cur ->
  wp (edit_attempt skip edit v) (edit_outcome v0 cur w) w1.
Proof.
  intros Hv Hq Hcur. unfold edit_attempt. apply wp_bind, wp_attempt.
  destruct Hv as [Hv| ->]; [|unfold wp, ret; simpl; by auto]. unfold skey in Hv. injection Hv as -> ->.
  eapply wp_GetN; [rewrite (proj1 Hq); exact Hcur| |]; [intros w2 Hq2|intros w2 e Hq2; unfold wp, ret; simpl; split; [by etrans|by auto]].
  assert (quiet w w2) as Hq' by by etrans.
  destruct (skip cur) eqn:Es; [by left|].
  apply wp_bind. unfold wp at 1. destruct (edit_spec (s_Annotations cur) w2) as [-> | ->]; simpl; [|done].
  apply wp_bind, wp_attempt_err. eapply wp_UpdateV; simpl.
  - rewrite (proj1 Hq'). exact Hcur.
  - intros w3 _ Hw3 Hd3. unfold wp, ret. simpl. right. destruct Hq' as [Hw Hd].
    split; [by rewrite Hw3, Hw|]. split; [by rewrite Hd3|done].
  - intros w3 e Hq3. split; [by etrans|eauto].
Qed.

Lemma edit_loop_spec n v0 cur w :
  skey (vs_obj v0) = skey cur -> w_secrets (cw_world w) !! skey cur = Some cur ->
  wp (RetryOnConflict_var n (edit_attempt skip edit) v0) (edit_outcome v0 cur w) w.
Proof.
  intros Hv0 Hcur. eapply (wp_RetryOnConflict_var _ _ _ _ (fun v w1 => edit_outcome v0 cur w (Ret (v, Some ErrSkip)) w1)).
  - done.
  - intros v w1 [Hq Hv]. eapply wp_mono; [apply (edit_attempt_spec v v0 cur w); auto|].
    + destruct Hv as [-> |[-> |[-> _]]]; auto.
    + intros [[v' [e|]]|e|] w2; auto.
  - repeat split; auto.
Qed.
End edit.

(** The only change of the downstream cluster is a list of calls. *)
Definition called (l : list node_call) (w w' : CWorld) : Prop :=
  w_secrets (cw_world w') = w_secrets (cw_world w) /\ ds_nodes (cw_down w') = ds_nodes (cw_down w)
  /\ ds_calls (cw_down w') = l ++ ds_calls (cw_down w).

Lemma quiet_called w w' : quiet w w' -> called [] w w'.
Proof. intros [H1 H2]. unfold called. by rewrite H1, H2. Qed.

Lemma called_quiet l w w1 w2 : called l w w1 -> quiet w1 w2 -> called l w w2.
Proof. intros (H1 & H2 & H3) [H4 H5]. unfold called. by rewrite H4, H5. Qed.

Lemma called_app l1 l2 w w1 w2 : called l1 w w1 -> called l2 w1 w2 -> called (l2 ++ l1) w w2.
Proof.
  intros (H1 & H2 & H3) (H4 & H5 & H6). unfold called. rewrite H4, H5, H6, H3, H1, H2. by rewrite app_assoc.
Qed.

(** The one call for the node of a machine, if it has one, with the helper built from the options. *)
Definition node_calls (mk : DrainHelper -> string -> node_call) (machine : Machine) (opts : DrainOptions) (l : list node_call) : Prop :=
  match node_name machine with
  | None => l = []
  | Some n => exists k8s, k8sClient machine = Ret k8s /\ l = [mk (helper_of k8s opts) n]
  end.

Lemma wp_node_call (mk : DrainHelper -> string -> node_call) machine n opts w (Q : res unit -> CWorld -> Prop) :
  (forall k8s w', k8sClient machine = Ret k8s -> called [mk (helper_of k8s opts) n] w w' -> Q (Ret tt) w') ->
  (forall w' r, r <> Ret tt -> quiet w w' -> Q r w') ->
  wp (let* '(helper, node) := getHelper machine n opts in
      let* _ := mgmt api_request in record_call (mk helper node)) Q w.
Proof.
  intros H1 H2. apply wp_bind. unfold getHelper. apply wp_bind. unfold wp at 1, lift. simpl.
  destruct (k8sClient machine) as [k8s|e|] eqn:Ek; [|by apply H2..].
  apply wp_bind. unfold nodes_Get. apply wp_bind, wp_request; [|intros; by apply H2].
  intros w1 Hq1. unfold wp at 1, bind, gets. simpl.
  destruct (ds_nodes (cw_down w1) !! n) as [anns|]; simpl; [|by apply H2].
  apply wp_bind, wp_request; [|intros w2 e Hq2; apply H2; [done|by etrans]].
  intros w2 Hq2. assert (quiet w w2) as [Hs Hd] by by etrans. unfold wp, record_call, modify. simpl.
  apply (H1 k8s); [done|]. unfold called. simpl. by rewrite Hs, Hd.
Qed.

Lemma wp_cordon machine opts w (Q : res unit -> CWorld -> Prop) :
  (forall l w', node_calls (fun h n => CallCordon h n true) machine opts l -> called l w w' -> Q (Ret tt) w') ->
  (forall w' r, r <> Ret tt -> quiet w w' -> Q r w') -> wp (cordon machine opts) Q w.
Proof.
  intros H1 H2. unfold cordon, node_calls in *. destruct (node_name machine) as [n|].
  - apply (wp_node_call (fun h n => CallCordon h n true)); eauto.
  - apply (H1 []); [done|]. by apply quiet_called.
Qed.

Lemma wp_performDrain machine opts w (Q : res unit -> CWorld -> Prop) :
  (forall l w', node_calls CallDrain machine opts l -> called l w w' -> Q (Ret tt) w') ->
  (forall w' r, r <> Ret tt -> quiet w w' -> Q r w') -> wp (performDrain machine opts) Q w.
Proof.
  intros H1 H2. unfold performDrain, node_calls in *. destruct (node_name machine) as [n|].
  - apply (wp_node_call CallDrain); eauto.
  - apply (H1 []); [done|]. by apply quiet_called.
Qed.
End effects.

(** ** The moves of the controller *)

(** A secret up to the annotation with the last error. *)
Definition forget_error (s : Secret) : Secret :=
  set_s_Annotations (delete DrainErrorAnnotation (s_Annotations s)) s.

Definition annotate (k v : string) (s : Secret) : Secret := set_s_Annotations (<[k := v]> (s_Annotations s)) s.

Lemma forget_error_skey s1 s2 : forget_error s1 = forget_error s2 -> skey s1 = skey s2.
Proof. intros [=]. unfold skey. congruence. Qed.

(** A drain is asked for and not reported done, according to the secret. *)
Definition drain_requested (s : Secret) : Prop :=
  annotation s DrainAnnotation <> "" /\ annotation s DrainDoneAnnotation <> annotation s DrainAnnotation.

Section moves.
Context `{C : Controllers}.

(** The calls of a run that works on a drain, however far it comes. *)
Definition drain_calls (l : list node_call) : Prop :=
  l = [] \/ (exists h n, l = [CallCordon h n true]) \/ (exists h n h' n', l = [CallDrain h n; CallCordon h' n' true]).

(** The calls of a run that leaves the secret alone. *)
Definition stay_calls (s : Secret) (l : list node_call) : Prop :=
  (drain_requested s /\ drain_calls l)
  \/ (~ drain_requested s /\ (l = [] \/ (annotation s UnCordonAnnotation <> "" /\ exists h n, l = [CallCordon h n false]))).

(** What a call for the observed secret [s] can turn the stored secret [cur] into, and with which
    calls on the node, up to the error annotation. *)
Inductive drain_move (s : Secret) (machine : Machine) (cur : Secret) : list node_call -> Secret -> Prop :=
| move_stay l s' :
    forget_error s' = forget_error cur -> stay_calls s l ->
    drain_move s machine cur l s'
| move_pre opts l s' :
    drain_requested s -> json_Unmarshal_DrainOptions (annotation s DrainAnnotation) = Ret opts ->
    node_calls (fun h n => CallCordon h n true) machine opts l ->
    forget_error s' = forget_error (annotate PreDrainAnnotation (annotation s DrainAnnotation) cur) ->
    drain_move s machine cur l s'
| move_done opts l1 l2 s' :
    drain_requested s -> json_Unmarshal_DrainOptions (annotation s DrainAnnotation) = Ret opts ->
    node_calls (fun h n => CallCordon h n true) machine opts l1 ->
    (if do_Enabled opts then node_calls CallDrain machine opts l2 else l2 = []) ->
    checkHookAnnotations (annotation s DrainAnnotation) (do_PreDrainHooks opts) cur = true ->
    forget_error s' = forget_error (annotate DrainDoneAnnotation (annotation s DrainAnnotation) cur) ->
    drain_move s machine cur (l2 ++ l1) s'
| move_post opts s' :
    ~ drain_requested s -> annotation s UnCordonAnnotation <> "" ->
    json_Unmarshal_DrainOptions (annotation s DrainAnnotation) = Ret opts ->
    forget_error s' = forget_error (annotate PostDrainAnnotation (annotation s DrainAnnotation) cur) ->
    drain_move s machine cur [] s'
| move_clean opts l s' :
    ~ drain_requested s -> annotation s UnCordonAnnotation <> "" -> node_name machine <> None ->
    json_Unmarshal_DrainOptions (annotation s DrainAnnotation) = Ret opts ->
    node_calls (fun h n => CallCordon h n false) machine opts l ->
    checkHookAnnotations (annotation s DrainAnnotation) (do_PostDrainHooks opts) cur = true ->
    forget_error s' = forget_error (set_s_Annotations (clean_annotations opts (s_Annotations cur)) cur) ->
    drain_move s machine cur l s'.

Lemma drain_move_forget s machine cur l s1 s2 :
  drain_move s machine cur l s1 -> forget_error s2 = forget_error s1 -> drain_move s machine cur l s2.
Proof.
  intros Hm Hf. destruct Hm;
    [eapply move_stay|eapply move_pre|eapply move_done|eapply move_post|eapply move_clean]; eauto; by etrans.
Qed.

Lemma node_calls_cordon machine opts l :
  node_calls (fun h n => CallCordon h n true) machine opts l -> drain_calls l.
Proof. unfold node_calls, drain_calls. destruct (node_name machine); [intros (k & _ & ->)|intros ->]; eauto. Qed.

Lemma node_calls_drain machine opts l1 l2 :
  node_calls (fun h n => CallCordon h n true) machine opts l1 ->
  (if do_Enabled opts then node_calls CallDrain machine opts l2 else l2 = []) -> drain_calls (l2 ++ l1).
Proof.
  intros H1 H2. destruct (do_Enabled opts); [|subst; by eapply node_calls_cordon].
  unfold node_calls, drain_calls in *. destruct (node_name machine); [|subst; by left].
  destruct H1 as (k & _ & ->), H2 as (k' & _ & ->). simpl. eauto 10.
Qed.

(** ** Every run is a move *)

(** The state between the body and the deferred function: the calls made, the secret stored, and, when
    the variable still holds the stored version, what the deferred function would write. *)
Definition dispatch_post (s : Secret) (machine : Machine) (cur : Secret) (w : CWorld)
    (r : res (option vsecret * option error)) (w' : CWorld) : Prop :=
  exists l cur', drain_move s machine cur l cur'
    /\ w_secrets (cw_world w') = <[skey cur := cur']> (w_secrets (cw_world w))
    /\ ds_nodes (cw_down w') = ds_nodes (cw_down w) /\ ds_calls (cw_down w') = l ++ ds_calls (cw_down w)
    /\ match r with
       | Ret (Some v, _) => s_Annotations (vs_obj v) = ∅ \/
           (skey (vs_obj v) = skey cur /\ (vs_read v = cur' -> drain_move s machine cur l (vs_obj v)))
       | Ret (None, _) | Panic => True
       | Fail _ => False
       end.

Section dispatch.
Context (s : Secret) (machine : Machine) (cur : Secret) (w : CWorld).
Hypothesis stored : w_secrets (cw_world w) !! skey cur = Some cur.
Hypothesis key_s : skey s = skey cur.

Local Abbreviation post := (dispatch_post s machine cur w).

(** Nothing has been written. *)
Lemma post_stay l r w' :
  called l w w' -> stay_calls s l ->
  match r with
  | Ret (Some v, _) => v = fresh s \/ v = fresh cur \/ v = fresh zeroSecret
  | Ret (None, _) | Panic => True
  | Fail _ => False
  end -> post r w'.
Proof.
  intros (Hs & Hn & Hc) H1 Hr. exists l, cur. split; [by apply move_stay|].
  split; [rewrite Hs; symmetry; by apply insert_id|]. split; [done|]. split; [done|].
  destruct r as [[[v|] e]|e|]; auto. destruct Hr as [-> |[-> | ->]]; simpl; [right..|by left]; split; auto.
  - intros ->. by apply move_stay.
  - intros _. by apply move_stay.
Qed.

(** After the loop of attempts of an edit that is a move. *)
Lemma post_edit skip edit f v0 l w1 n :
  (forall anns w, edit anns w = (w, Ret (f anns)) \/ edit anns w = (w, Panic)) ->
  called l w w1 -> v0 = fresh s -> stay_calls s l ->
  (skip cur = false -> drain_move s machine cur l (edited f cur)) ->
  wp (let* '(v, e) := RetryOnConflict_var n (edit_attempt skip edit) v0 in ret (Some v, e)) post w1.
Proof.
  intros Hf Hc -> H1 Hm. apply wp_bind. eapply wp_mono.
  { apply (edit_loop_spec skip edit f Hf n (fresh s) cur w1); [done|]. by rewrite (proj1 Hc). }
  intros [[v [e|]]|e|] w2; unfold wp, ret; simpl.
  - intros [Hq Hv]. assert (called l w w2) as Hc2 by by eapply called_quiet.
    destruct Hv as [-> |[-> |[-> Hsk]]]; [apply (post_stay l); by auto..|].
    destruct Hc2 as (Hs & Hn & Hcalls). exists l, cur. split; [by apply move_stay|].
    split; [rewrite Hs; symmetry; by apply insert_id|]. repeat split; auto.
  - intros [(Hq & -> & _)|(Hs & Hd & -> & Hsk)].
    + apply (post_stay l); auto. by eapply called_quiet.
    + destruct Hc as (Hs1 & Hn & Hcalls). exists l, (edited f cur). split; [auto|].
      split; [by rewrite Hs, Hs1|]. rewrite Hd. repeat split; auto.
  - done.
  - intros Hq. apply (post_stay l); auto. by eapply called_quiet.
Qed.

Ltac stay l := apply (post_stay l); simpl; solve [eauto using quiet_called, called_quiet | done].

Lemma assign_entry_cases {T} ann v anns (x : T) :
  assign_entry anns ann v x = (x, Ret (<[ann := v]> anns)) \/ assign_entry anns ann v x = (x, Panic).
Proof. unfold assign_entry. case_bool_decide; auto. Qed.

Lemma post_update l w1 ann d check :
  called l w w1 -> stay_calls s l ->
  (check cur = true -> drain_move s machine cur l (annotate ann d cur)) ->
  wp (updateSecretAnnotationIfCheckTrue (fresh s) ann d check) post w1.
Proof.
  intros Hc H1 Hm. unfold updateSecretAnnotationIfCheckTrue.
  apply (post_edit _ _ (<[ann := d]>) _ l); auto; [intros; apply assign_entry_cases|].
  intros [Hck%negb_false_iff _]%orb_false_iff. by apply Hm.
Qed.

Lemma wp_hooks_pending l w1 hooks ann d :
  called l w w1 -> stay_calls s l ->
  drain_move s machine cur l (annotate ann d cur) ->
  wp (hooks_pending hooks ann d (fresh s))
    (fun r w2 => match r with
                 | Ret None => w2 = w1
                 | Ret (Some x) => post (Ret x) w2
                 | Fail e => post (Fail e) w2
                 | Panic => post Panic w2
                 end) w1.
Proof.
  intros Hc H1 Hm. unfold hooks_pending. destruct hooks as [|h hooks]; [done|].
  destruct (secretAnnotationDoesNotHaveValue _ _ _).
  - apply wp_bind. eapply wp_mono; [by apply (post_update l)|]. by intros [r|e|] w2.
  - destruct (checkHookAnnotations _ _ _); [done|]. stay l.
Qed.

Lemma drain_post d :
  d = annotation s DrainAnnotation -> drain_requested s -> wp (drain (fresh s) machine d) post w.
Proof.
  intros -> Hreq. unfold drain. pose proof (quiet_called w w (reflexivity _)) as Hc0.
  assert (stay_calls s []) as Hnil by (left; split; [done|by left]).
  destruct (json_Unmarshal_DrainOptions _) as [opts|e|] eqn:Ej; [|stay (@nil node_call)..].
  apply wp_bind, wp_attempt_err, wp_cordon.
  2:{ intros w1 [[]|e|] Hr Hq; [done|stay (@nil node_call)..]. }
  intros l1 w1 Hl1 Hc1. assert (stay_calls s l1) as Hn1 by (left; split; [done|by eapply node_calls_cordon]).
  apply wp_bind. eapply wp_mono.
  { apply (wp_hooks_pending l1); [done|done|]. by eapply move_pre. }
  intros [[x|]|e|] w2; [done|intros ->|done..].
  assert (forall l2 w3, (if do_Enabled opts then node_calls CallDrain machine opts l2 else l2 = []) -> called l2 w1 w3 ->
    wp (updateSecretAnnotationIfCheckTrue (fresh s) DrainDoneAnnotation (annotation s DrainAnnotation)
      (checkHookAnnotations (annotation s DrainAnnotation) (do_PreDrainHooks opts))) post w3) as Hlast.
  { intros l2 w3 Hl2 Hc2. apply (post_update (l2 ++ l1)); [by eapply called_app| |].
    - left. split; [done|]. by eapply node_calls_drain.
    - intros Hck. by eapply move_done. }
  apply wp_bind. destruct (do_Enabled opts); [apply wp_attempt_err, wp_performDrain; [eauto|]|].
  - intros w2 [[]|e|] Hr Hq; [done|stay l1..].
  - apply (Hlast []); [done|]. by apply quiet_called.
Qed.

Lemma unDrain_post d :
  d = annotation s DrainAnnotation -> ~ drain_requested s -> annotation s UnCordonAnnotation <> "" ->
  wp (unDrain (fresh s) machine d) post w.
Proof.
  intros -> Hreq Hun. unfold unDrain. pose proof (quiet_called w w (reflexivity _)) as Hc0.
  assert (stay_calls s []) as Hnil by (right; split; [done|by left]).
  destruct (node_name machine) as [n|] eqn:En; [|stay (@nil node_call)].
  destruct (json_Unmarshal_DrainOptions _) as [opts|e|] eqn:Ej; [|stay (@nil node_call)..].
  apply wp_bind. eapply wp_mono.
  { apply (wp_hooks_pending []); [done|done|]. by eapply move_post. }
  intros [[x|]|e|] w2; [done|intros ->|done..].
  apply wp_bind, wp_attempt_err, (wp_node_call (fun h n => CallCordon h n false)).
  2:{ intros w1 [[]|e|] Hr Hq; [done|stay (@nil node_call)..]. }
  intros k8s w1 Hk Hc1. apply (post_edit _ _ (clean_annotations opts) _ [CallCordon (helper_of k8s opts) n false]); auto; [right; by eauto 10|].
  intros Hck%negb_false_iff. eapply move_clean; eauto; [congruence|]. unfold node_calls. rewrite En. eauto.
Qed.

Lemma drain_dispatch_post : wp (drain_dispatch s machine) post w.
Proof.
  unfold drain_dispatch. destruct (_ && _) eqn:Ed.
  - apply andb_true_iff in Ed as [H1%negb_true_iff%bool_decide_eq_false H2%negb_true_iff%bool_decide_eq_false].
    by apply drain_post.
  - assert (~ drain_requested s) as Hreq.
    { intros [H1 H2]. apply andb_false_iff in Ed as [Ed|Ed]; apply negb_false_iff, bool_decide_eq_true in Ed; done. }
    destruct (annotation s UnCordonAnnotation !=? "") eqn:Eu.
    + apply negb_true_iff, bool_decide_eq_false in Eu. by apply unDrain_post.
    + assert (stay_calls s []) by (right; split; [done|by left]). pose proof (quiet_called w w (reflexivity _)). stay (@nil node_call).
Qed.

(** The state after the deferred function. *)
Definition moved (w' : CWorld) : Prop :=
  exists l cur', drain_move s machine cur l cur'
    /\ w_secrets (cw_world w') = <[skey cur := cur']> (w_secrets (cw_world w))
    /\ ds_nodes (cw_down w') = ds_nodes (cw_down w) /\ ds_calls (cw_down w') = l ++ ds_calls (cw_down w).

(** A write of the deferred function, with only the error annotation changed. *)
Lemma moved_update l cur' v s' w1 :
  drain_move s machine cur l cur' ->
  w_secrets (cw_world w1) = <[skey cur := cur']> (w_secrets (cw_world w)) ->
  ds_nodes (cw_down w1) = ds_nodes (cw_down w) -> ds_calls (cw_down w1) = l ++ ds_calls (cw_down w) ->
  skey (vs_obj v) = skey cur -> (vs_read v = cur' -> drain_move s machine cur l (vs_obj v)) ->
  forget_error s' = forget_error (vs_obj v) ->
  wp (let* _ := attempt_err (mgmt (secrets_UpdateV (mkvsecret (vs_read v) s'))) in ret tt) (fun _ => moved) w1.
Proof.
  intros Hm Hs Hn Hc Hk Hv Hf. assert (skey s' = skey cur) as Hk' by by rewrite (forget_error_skey _ _ Hf).
  apply wp_bind, wp_attempt_err. apply (wp_UpdateV _ cur'); simpl.
  - by rewrite Hk', Hs, lookup_insert_eq.
  - intros w2 Hr Hs2 Hd2. unfold wp, ret, moved. simpl. exists l, s'. split; [by eapply drain_move_forget; [apply Hv|]|].
    split; [by rewrite Hs2, Hs, Hk', insert_insert_eq|]. by rewrite Hd2.
  - intros w2 e [Hs2 Hd2]. unfold wp, ret, moved. simpl. exists l, cur'. by rewrite Hs2, Hd2.
Qed.

Lemma deferred_moved ov e w1 :
  post (Ret (ov, e)) w1 -> wp (drain_error_deferred (fresh s) ov e) (fun _ => moved) w1.
Proof.
  intros (l & cur' & Hm & Hs & Hn & Hc & Hv). unfold drain_error_deferred.
  set (v := match ov with Some v => if bool_decide (s_Annotations (vs_obj v) = ∅) then fresh s else v | None => fresh s end).
  assert (skey (vs_obj v) = skey cur /\ (vs_read v = cur' -> drain_move s machine cur l (vs_obj v))) as [Hk Hvm].
  { assert (skey (vs_obj (fresh s)) = skey cur /\ (vs_read (fresh s) = cur' -> drain_move s machine cur l (vs_obj (fresh s)))).
    { split; [done|]. by intros <-. }
    unfold v. destruct ov as [v0|]; [|done]. case_bool_decide; [done|]. by destruct Hv. }
  clearbody v. cbv zeta. assert (moved w1) as Hstay by by exists l, cur'.
  destruct e as [e|].
  - destruct (_ =? _); [done|]. apply wp_bind. unfold wp at 1.
    destruct (assign_entry_cases DrainErrorAnnotation (Error e) (s_Annotations (vs_obj v)) w1) as [-> | ->]; simpl; [|done].
    apply (moved_update l cur' v); auto. unfold forget_error. simpl. by rewrite delete_insert_eq.
  - destruct (s_Annotations (vs_obj v) !! DrainErrorAnnotation) eqn:Ea; [|done]. apply (moved_update l cur' v); auto. unfold forget_error. simpl. by rewrite delete_delete_eq.
Qed.

Lemma with_deferred_moved :
  wp (with_deferred (drain_dispatch s machine) (fun r => drain_error_deferred (fresh s) (fst r) (snd r))
        (drain_error_deferred (fresh s) (Some (fresh s)) None)) (fun _ => moved) w.
Proof.
  pose proof drain_dispatch_post as Hp. unfold wp, with_deferred in *.
  destruct (drain_dispatch s machine w) as [w1 [[ov e]|e|]]; simpl in *.
  - apply (wp_bind _ _ (fun _ => moved)). eapply wp_mono; [by apply deferred_moved|]. by intros [[]|?|].
  - by destruct Hp as (? & ? & ? & ? & ? & ? & ?).
  - apply (deferred_moved (Some (fresh s)) None w1). destruct Hp as (l & cur' & H1 & H2 & H3 & H4 & _).
    exists l, cur'. repeat split; auto. right. split; [done|]. by intros <-.
Qed.
End dispatch.

(** Every call of the handler, whatever fails, whether or not the cache is up to date, and also if it
    panics, is a move. *)
Lemma OnChange_moves s cur w w' r :
  OnChange (Some s) w = (w', r) ->
  w_secrets (cw_world w) !! skey cur = Some cur -> skey s = skey cur ->
  quiet w w' \/ exists machine,
    machineCache_Get (s_Namespace s) (map_get (s_Labels s) MachineNameLabel) = Ret machine
    /\ moved s machine cur w w'.
Proof.
  intros Hrun Hcur Hk. unfold OnChange in Hrun. destruct (_ || _ || _); [inv Hrun; by left|].
  destruct (machineCache_Get _ _) as [machine|e|]; [|inv Hrun; by left..].
  right. exists machine. split; [done|]. apply (wp_run _ (fun _ => moved s machine cur w) _ _ _ Hrun). by apply with_deferred_moved.
Qed.
End moves.

Create Rewrite HintDb drain.

(** ** Annotations after a move *)

Lemma annotation_forget k s1 s2 :
  k <> DrainErrorAnnotation -> forget_error s1 = forget_error s2 -> annotation s1 k = annotation s2 k.
Proof.
  intros Hk Hf. apply (f_equal s_Annotations) in Hf. simpl in Hf. unfold annotation, map_get.
  apply (f_equal (fun m => m !! k)) in Hf. by rewrite !lookup_delete_ne in Hf by done; rewrite Hf.
Qed.

Lemma annotation_annotate_eq k v s : annotation (annotate k v s) k = v.
Proof. unfold annotation, annotate, map_get. simpl. by rewrite lookup_insert_eq. Qed.
Lemma annotation_annotate_ne k k' v s : k' <> k -> annotation (annotate k' v s) k = annotation s k.
Proof. intros Hk. unfold annotation, annotate, map_get. simpl. by rewrite lookup_insert_ne. Qed.

Lemma lookup_foldr_delete (m : gmap string string) l k : k ∈ l \/ m !! k = None -> foldr delete m l !! k = None.
Proof.
  induction l as [|x l IH]; simpl; [by intros [?%not_elem_of_nil|?]|].
  rewrite elem_of_cons. destruct (decide (k = x)) as [->|Hne]; [by rewrite lookup_delete_eq|].
  rewrite lookup_delete_ne by done. intros [[?|?]|?]; [done|auto..].
Qed.

Lemma clean_annotations_None opts anns k :
  k ∈ [PreDrainAnnotation; PostDrainAnnotation; DrainAnnotation; DrainDoneAnnotation; UnCordonAnnotation]
  \/ k ∈ map dh_Annotation (do_PreDrainHooks opts ++ do_PostDrainHooks opts) ->
  clean_annotations opts anns !! k = None.
Proof.
  intros Hk. unfold clean_annotations. rewrite map_app, elem_of_app in Hk.
  destruct Hk as [Hk|[Hk|Hk]]; apply lookup_foldr_delete; [right..|by left]; apply lookup_foldr_delete;
    [right|by left]. apply lookup_foldr_delete. by left.
Qed.

Lemma annotation_clean opts k s :
  k ∈ [PreDrainAnnotation; PostDrainAnnotation; DrainAnnotation; DrainDoneAnnotation; UnCordonAnnotation] ->
  annotation (set_s_Annotations (clean_annotations opts (s_Annotations s)) s) k = "".
Proof. intros Hk. unfold annotation, map_get. simpl. by rewrite clean_annotations_None by auto. Qed.

#[export] Hint Rewrite annotation_annotate_eq : drain.
#[export] Hint Rewrite annotation_annotate_ne using done : drain.
#[export] Hint Rewrite annotation_clean using set_solver : drain.

(** Replaces an annotation of the new secret by that of the right-hand side of a move. *)
Ltac forget Hf :=
  match type of Hf with
  | forget_error ?s1 = _ =>
      repeat match goal with
      | |- context [annotation s1 ?k] => rewrite (annotation_forget k _ _ ltac:(done) Hf)
      | HH : context [annotation s1 ?k] |- _ => rewrite (annotation_forget k _ _ ltac:(done) Hf) in HH
      end
  end; autorewrite with drain in *.

Section done.
Context `{C : Controllers}.

(** A run of the controller changes the done annotation of the stored secret to a new value only if,
    in this run and in this order, the node of the machine was cordoned and, when draining is enabled,
    drained, with a helper built from the options the annotation spells out, and all pre-drain hooks of
    these options had been acknowledged in the stored secret.  This holds for every schedule of
    failures, for a stale cache, and if the run ends with an error or a panic. *)
Theorem OnChange_done s cur cur' w w' r :
  OnChange (Some s) w = (w', r) ->
  w_secrets (cw_world w) !! skey cur = Some cur -> skey s = skey cur ->
  w_secrets (cw_world w') !! skey cur = Some cur' ->
  annotation cur' DrainDoneAnnotation <> annotation cur DrainDoneAnnotation ->
  annotation cur' DrainDoneAnnotation <> "" ->
  exists machine opts l1 l2,
    machineCache_Get (s_Namespace s) (map_get (s_Labels s) MachineNameLabel) = Ret machine
    /\ annotation cur' DrainDoneAnnotation = annotation s DrainAnnotation
    /\ json_Unmarshal_DrainOptions (annotation s DrainAnnotation) = Ret opts
    /\ checkHookAnnotations (annotation s DrainAnnotation) (do_PreDrainHooks opts) cur = true
    /\ node_calls (fun h n => CallCordon h n true) machine opts l1
    /\ (if do_Enabled opts then node_calls CallDrain machine opts l2 else l2 = [])
    /\ ds_calls (cw_down w') = l2 ++ l1 ++ ds_calls (cw_down w).
Proof.
  intros Hrun Hcur Hk Hcur' Hne Hne'.
  destruct (OnChange_moves _ _ _ _ _ Hrun Hcur Hk) as [[Hs _]|(machine & Hmach & l & c1 & Hm & Hs & Hn & Hc)].
  { rewrite Hs, Hcur in Hcur'. by inv Hcur'. }
  rewrite Hs, lookup_insert_eq in Hcur'. inv Hcur'.
  destruct Hm as [l s' Hf|opts l s' _ _ _ Hf|opts l1 l2 s' Hreq Hj Hl1 Hl2 Hck Hf|opts s' _ _ _ Hf|opts l s' _ _ _ _ _ _ Hf];
    forget Hf; try done.
  exists machine, opts, l1, l2. rewrite app_assoc. by repeat split.
Qed.
End done.

(** ** Progress without failures *)

Section progress.
Context `{C : Controllers}.

(** No request fails, [cur] is what is stored in place of [s], and the nodes are those of [w0]. *)
Definition calm (s : Secret) (w0 : CWorld) (cur : Secret) (w : CWorld) : Prop :=
  w_faults (cw_world w) = [] /\ w_secrets (cw_world w) = <[skey s := cur]> (w_secrets (cw_world w0))
  /\ ds_nodes (cw_down w) = ds_nodes (cw_down w0).

(** The node of the machine can be reached, if it has one. *)
Definition reachable_node (machine : Machine) (w : CWorld) : Prop :=
  match node_name machine with
  | None => True
  | Some n => (exists k8s, k8sClient machine = Ret k8s) /\ is_Some (ds_nodes (cw_down w) !! n)
  end.

Lemma wp_request_calm (Q : res unit -> CWorld -> Prop) w :
  w_faults (cw_world w) = [] -> Q (Ret tt) w -> wp (mgmt api_request) Q w.
Proof. intros Hf HQ. unfold wp, mgmt, api_request. rewrite Hf. by destruct w. Qed.

Lemma wp_GetN_calm s w0 cur w (Q : res Secret -> CWorld -> Prop) :
  calm s w0 cur w -> s_Name s <> "" -> Q (Ret cur) w -> wp (mgmt (secrets_GetN (s_Namespace s) (s_Name s))) Q w.
Proof.
  intros (Hf & Hs & Hn) Hne HQ. unfold secrets_GetN. rewrite bool_decide_eq_false_2 by done.
  apply wp_mgmt_bind, wp_bind, wp_request_calm; [done|].
  unfold wp, mgmt, bind, gets. simpl. change (s_Namespace s, s_Name s) with (skey s).
  rewrite Hs, lookup_insert_eq. simpl. by destruct w.
Qed.

(** An update of the version stored succeeds, and of another one conflicts. *)
Lemma wp_UpdateV_calm s w0 cur w v (Q : res Secret -> CWorld -> Prop) :
  calm s w0 cur w -> skey (vs_obj v) = skey s ->
  (vs_read v = cur -> forall w', calm s w0 (vs_obj v) w' -> Q (Ret (vs_obj v)) w') ->
  (vs_read v <> cur -> forall w' e, calm s w0 cur w' -> Q (Fail e) w') ->
  wp (mgmt (secrets_UpdateV v)) Q w.
Proof.
  intros (Hf & Hs & Hn) Hk H1 H2. apply wp_mgmt_bind, wp_bind, wp_request_calm; [done|].
  unfold wp, mgmt, bind, gets, modify. simpl. change (s_Namespace (vs_obj v), s_Name (vs_obj v)) with (skey (vs_obj v)).
  rewrite Hk, Hs, lookup_insert_eq. case_bool_decide as Hv; simpl.
  - apply H1; [done|]. repeat split; auto. simpl. by rewrite insert_insert_eq.
  - apply H2; [congruence|]. by repeat split.
Qed.

Lemma wp_node_call_calm s w0 cur (mk : DrainHelper -> string -> node_call) machine n opts w (Q : res unit -> CWorld -> Prop) :
  calm s w0 cur w -> node_name machine = Some n -> reachable_node machine w0 ->
  (forall w', calm s w0 cur w' -> Q (Ret tt) w') ->
  wp (let* '(helper, node) := getHelper machine n opts in
      let* _ := mgmt api_request in record_call (mk helper node)) Q w.
Proof.
  intros (Hf & Hs & Hn) Hname Hr HQ. unfold reachable_node in Hr. rewrite Hname in Hr.
  destruct Hr as [[k8s Hk] [anns Hanns]]. apply wp_bind. unfold getHelper. apply wp_bind. unfold wp at 1, lift. simpl. rewrite Hk.
  apply wp_bind. unfold nodes_Get. apply wp_bind, wp_request_calm; [done|].
  apply wp_bind, wp_gets. rewrite Hn, Hanns. apply wp_ret, wp_bind, wp_request_calm; [done|].
  unfold wp, record_call, modify. simpl. apply HQ. by repeat split.
Qed.

Lemma wp_update_calm s w0 w ann d check (Q : res (option vsecret * option error) -> CWorld -> Prop) :
  (0 < RetryOnConflict_Steps)%nat -> calm s w0 s w -> s_Name s <> "" ->
  s_Annotations s <> ∅ -> check s = true -> annotation s ann <> d ->
  (forall w', calm s w0 (annotate ann d s) w' -> Q (Ret (Some (mkvsecret s (annotate ann d s)), None)) w') ->
  wp (updateSecretAnnotationIfCheckTrue (fresh s) ann d check) Q w.
Proof.
  intros Hst Hc Hname Hne Hck Hann HQ. unfold updateSecretAnnotationIfCheckTrue. destruct RetryOnConflict_Steps as [|n]; [lia|].
  apply wp_bind. cbn [RetryOnConflict_var]. apply wp_bind. unfold edit_attempt. apply wp_bind, wp_attempt.
  eapply wp_GetN_calm; [done..|]. rewrite Hck, bool_decide_eq_false_2 by done. cbn [negb orb].
  apply wp_bind. unfold wp at 1, assign_entry. rewrite bool_decide_eq_false_2 by done. simpl.
  apply wp_bind, wp_attempt_err. eapply (wp_UpdateV_calm s w0 s); [done..| |]; simpl; [|done].
  intros _ w' Hw'. by apply HQ.
Qed.

Lemma wp_clean_calm s w0 w opts check (Q : res (option vsecret * option error) -> CWorld -> Prop) :
  (0 < RetryOnConflict_Steps)%nat -> calm s w0 s w -> s_Name s <> "" -> check s = true ->
  let s' := set_s_Annotations (clean_annotations opts (s_Annotations s)) s in
  (forall w', calm s w0 s' w' -> Q (Ret (Some (mkvsecret s s'), None)) w') ->
  wp (cleanSecretAnnotationsIfCheckTrue (fresh s) opts check) Q w.
Proof.
  intros Hst Hc Hname Hck s' HQ. unfold cleanSecretAnnotationsIfCheckTrue. destruct RetryOnConflict_Steps as [|n]; [lia|].
  apply wp_bind. cbn [RetryOnConflict_var]. apply wp_bind. unfold edit_attempt. apply wp_bind, wp_attempt.
  eapply wp_GetN_calm; [done..|]. rewrite Hck. cbn [negb]. apply wp_bind. unfold wp at 1. simpl.
  apply wp_bind, wp_attempt_err. eapply (wp_UpdateV_calm s w0 s); [done..| |]; simpl; [|done].
  intros _ w' Hw'. by apply HQ.
Qed.

(** Where one run without failures brings the secret. *)
Definition after_hooks (hooks : list DrainHook) (ann d : string) (s done : Secret) : Secret :=
  match hooks with
  | [] => done
  | _ :: _ => if annotation s ann !=? d then annotate ann d s
              else if checkHookAnnotations d hooks s then done else s
  end.

Definition calm_result (s : Secret) (w0 : CWorld) (target : Secret) (r : res (option vsecret * option error)) (w : CWorld) : Prop :=
  exists v, r = Ret (Some v, None) /\ calm s w0 target w
            /\ (v = fresh s /\ target = s \/ v = mkvsecret s target).

Lemma hooks_pending_calm hooks ann d s w0 w done :
  (0 < RetryOnConflict_Steps)%nat -> calm s w0 s w -> s_Name s <> "" -> s_Annotations s <> ∅ ->
  wp (hooks_pending hooks ann d (fresh s))
    (fun r w' => match r with
                 | Ret None => w' = w /\ checkHookAnnotations d hooks s = true /\ after_hooks hooks ann d s done = done
                 | Ret (Some x) => calm_result s w0 (after_hooks hooks ann d s done) (Ret x) w'
                 | _ => False
                 end) w.
Proof.
  intros Hst Hc Hname Hne. unfold hooks_pending, after_hooks. destruct hooks as [|h hooks]; [done|].
  unfold secretAnnotationDoesNotHaveValue at 1. cbn [fresh vs_obj]. destruct (annotation s ann !=? d) eqn:Ea.
  - apply wp_bind. eapply wp_update_calm; [done..| | |].
    + by unfold secretAnnotationDoesNotHaveValue.
    + by apply negb_true_iff, bool_decide_eq_false in Ea.
    + intros w' Hw'. eexists. split; [done|]. split; [done|]. by right.
  - destruct (checkHookAnnotations d (h :: hooks) s) eqn:Eh; cbn [negb]; [done|].
    eexists. split; [done|]. split; [done|]. by left.
Qed.

Section run.
Context (s : Secret) (machine : Machine) (opts : DrainOptions) (w0 : CWorld).
Hypothesis steps : (0 < RetryOnConflict_Steps)%nat.
Hypothesis name_s : s_Name s <> "".
Hypothesis options_s : json_Unmarshal_DrainOptions (annotation s DrainAnnotation) = Ret opts.
Hypothesis node_s : reachable_node machine w0.

Local Abbreviation d := (annotation s DrainAnnotation).

Lemma annotations_ne k : annotation s k <> "" -> s_Annotations s <> ∅.
Proof. intros Hk Hs. apply Hk. unfold annotation, map_get. by rewrite Hs, lookup_empty. Qed.

Lemma drain_calm w :
  calm s w0 s w -> drain_requested s ->
  wp (drain (fresh s) machine d)
    (calm_result s w0 (after_hooks (do_PreDrainHooks opts) PreDrainAnnotation d s (annotate DrainDoneAnnotation d s))) w.
Proof using steps name_s options_s node_s.
  intros Hc [Hd Hdone]. pose proof (annotations_ne _ Hd) as Hne. unfold drain. rewrite options_s.
  apply wp_bind, wp_attempt_err.
  assert (forall mk w1 (Q : res unit -> CWorld -> Prop), calm s w0 s w1 -> (forall w2, calm s w0 s w2 -> Q (Ret tt) w2) ->
    wp (match node_name machine with
        | None => ret tt
        | Some n => let* '(helper, node) := getHelper machine n opts in
                    let* _ := mgmt api_request in record_call (mk helper node) end) Q w1) as Hcall.
  { intros mk w1 Q Hw1 HQ. destruct (node_name machine) as [n|] eqn:En; [by eapply wp_node_call_calm|by apply wp_ret, HQ]. }
  apply (Hcall (fun h n => CallCordon h n true)); [done|]. intros w1 Hw1. apply wp_bind. eapply wp_mono.
  { by apply (hooks_pending_calm (do_PreDrainHooks opts) PreDrainAnnotation d s w0 w1 (annotate DrainDoneAnnotation d s)). }
  intros [[x|]|e|] w2; [by intros Hx|intros (-> & Hck & ->)|done..].
  assert (forall w3, calm s w0 s w3 ->
    wp (updateSecretAnnotationIfCheckTrue (fresh s) DrainDoneAnnotation d (checkHookAnnotations d (do_PreDrainHooks opts)))
      (calm_result s w0 (annotate DrainDoneAnnotation d s)) w3) as Hlast.
  { intros w3 Hw3. eapply wp_update_calm; [done..|]. intros w4 Hw4. eexists. split; [done|]. split; [done|]. by right. }
  apply wp_bind. destruct (do_Enabled opts); [|by apply wp_ret, Hlast].
  apply wp_attempt_err, (Hcall CallDrain); [done|]. auto.
Qed.

Lemma unDrain_calm w n :
  calm s w0 s w -> annotation s UnCordonAnnotation <> "" -> node_name machine = Some n ->
  wp (unDrain (fresh s) machine d)
    (calm_result s w0 (after_hooks (do_PostDrainHooks opts) PostDrainAnnotation d s
       (set_s_Annotations (clean_annotations opts (s_Annotations s)) s))) w.
Proof using steps name_s options_s node_s.
  intros Hc Hun Hn. pose proof (annotations_ne _ Hun) as Hne. unfold unDrain. rewrite options_s, Hn.
  apply wp_bind. eapply wp_mono.
  { apply (hooks_pending_calm (do_PostDrainHooks opts) PostDrainAnnotation d s w0 w
      (set_s_Annotations (clean_annotations opts (s_Annotations s)) s)); auto. }
  intros [[x|]|e|] w2; [by intros Hx|intros (-> & Hck & ->)|done..].
  apply wp_bind, wp_attempt_err. eapply (wp_node_call_calm s w0 s (fun h n => CallCordon h n false)); [done..|].
  intros w3 Hw3. eapply wp_clean_calm; [done..|]. intros w4 Hw4. eexists. split; [done|]. split; [done|]. by right.
Qed.

(** The deferred function only touches the error annotation. *)
Lemma deferred_calm target r w :
  calm_result s w0 target (Ret r) w -> skey target = skey s ->
  wp (drain_error_deferred (fresh s) (fst r) (snd r))
    (fun r' w' => r' = Ret tt /\ exists cur, calm s w0 cur w' /\ forget_error cur = forget_error target) w.
Proof.
  intros (v & [= ->] & Hc & Hv) Hk. unfold drain_error_deferred. cbn [fst snd].
  set (v' := if bool_decide (s_Annotations (vs_obj v) = ∅) then fresh s else v).
  assert (skey (vs_obj v') = skey s /\ (vs_read v' = target -> vs_obj v' = target)) as [Hk' Hv'].
  { unfold v'. destruct Hv as [[-> ->]| ->]; case_bool_decide; by split. }
  clearbody v'. cbv zeta. destruct (s_Annotations (vs_obj v') !! DrainErrorAnnotation) eqn:Ea.
  2:{ apply wp_ret. eauto. }
  apply wp_bind, wp_attempt_err. eapply (wp_UpdateV_calm s w0 target); [done|done|..]; simpl.
  - intros Hr w' Hw'. apply wp_ret. rewrite <- (Hv' Hr). split; [done|]. eexists. split; [done|].
    unfold forget_error. simpl. by rewrite delete_delete_eq.
  - intros _ w' e Hw'. apply wp_ret. eauto.
Qed.
End run.

(** What a run without failures makes of the secret, up to the error annotation. *)
Definition drain_target (machine : Machine) (opts : DrainOptions) (s : Secret) : Secret :=
  let d := annotation s DrainAnnotation in
  if (d !=? "") && (annotation s DrainDoneAnnotation !=? d) then
    after_hooks (do_PreDrainHooks opts) PreDrainAnnotation d s (annotate DrainDoneAnnotation d s)
  else if (annotation s UnCordonAnnotation !=? "") && bool_decide (is_Some (node_name machine)) then
    after_hooks (do_PostDrainHooks opts) PostDrainAnnotation d s
      (set_s_Annotations (clean_annotations opts (s_Annotations s)) s)
  else s.

Lemma after_hooks_skey hooks ann d s done : skey done = skey s -> skey (after_hooks hooks ann d s done) = skey s.
Proof. intros Hd. unfold after_hooks. by repeat case_match. Qed.

Lemma drain_target_skey machine opts s : skey (drain_target machine opts s) = skey s.
Proof. unfold drain_target. repeat case_match; try done; by apply after_hooks_skey. Qed.

(** The secret is one the controller works on. *)
Definition handled (s : Secret) (machine : Machine) : Prop :=
  s_Name s <> "" /\ s_Deleting s = false /\ map_get (s_Labels s) MachineNameLabel <> "" /\ s_Type s = SecretTypeMachinePlan
  /\ machineCache_Get (s_Namespace s) (map_get (s_Labels s) MachineNameLabel) = Ret machine.

Lemma OnChange_calm s machine opts w :
  (0 < RetryOnConflict_Steps)%nat -> handled s machine ->
  json_Unmarshal_DrainOptions (annotation s DrainAnnotation) = Ret opts -> reachable_node machine w ->
  w_faults (cw_world w) = [] -> w_secrets (cw_world w) !! skey s = Some s ->
  exists w' v cur, OnChange (Some s) w = (w', Ret (v, None))
    /\ calm s w cur w' /\ forget_error cur = forget_error (drain_target machine opts s).
Proof.
  intros Hst (Hname & Hdel & Hl & Ht & Hm) Hj Hr Hf Hs.
  assert (calm s w s w) as Hc by (repeat split; auto; by rewrite insert_id).
  assert (exists v w1, drain_dispatch s machine w = (w1, Ret (v, None))
            /\ calm_result s w (drain_target machine opts s) (Ret (v, None)) w1) as (v & w1 & Hrun & Hres).
  { enough (wp (drain_dispatch s machine) (calm_result s w (drain_target machine opts s)) w) as Hwp.
    { unfold wp in Hwp. destruct (drain_dispatch s machine w) as [w1 r]. simpl in Hwp.
      destruct Hwp as (v & -> & Hrest). exists (Some v), w1. split; [done|]. by exists v. }
    unfold drain_dispatch, drain_target. destruct ((_ !=? "") && _) eqn:Ed.
    - apply andb_true_iff in Ed as [H1%negb_true_iff%bool_decide_eq_false H2%negb_true_iff%bool_decide_eq_false].
      by apply (drain_calm s machine opts w).
    - destruct (annotation s UnCordonAnnotation !=? "") eqn:Eu; simpl; [|eexists; by eauto].
      apply negb_true_iff, bool_decide_eq_false in Eu. destruct (node_name machine) as [n|] eqn:En.
      + rewrite bool_decide_eq_true_2 by eauto. by apply (unDrain_calm s machine opts w Hst Hname Hj Hr w n).
      + unfold unDrain. rewrite En, bool_decide_eq_false_2 by by intros []. eexists. eauto. }
  unfold OnChange. rewrite Hdel, Ht, Hm, bool_decide_eq_false_2, bool_decide_eq_true_2 by done. simpl.
  unfold with_deferred. rewrite Hrun.
  pose proof (deferred_calm s w _ _ _ Hres (drain_target_skey machine opts s)) as Hd. unfold wp in Hd.
  unfold bind. destruct (drain_error_deferred (fresh s) (fst (v, None)) (snd (v, None)) w1) as [w2 r2] eqn:Erun.
  cbn [fst snd] in Hd, Erun. destruct Hd as (-> & cur & Hc2 & Hf2). by exists w2, v, cur.
Qed.
End progress.

Section witnesses.
#[local] Existing Instance demoExternal.

Definition demoKubeconfig : Secret := mkSecret "fleet-default" "c1-kubeconfig" "Opaque" ∅ ∅ {[ "value" := "kubeconfig" ]} [] false.
Definition demoDrainPlanner : Planner :=
  demoPlanner {[ ("fleet-default", "c1-kubeconfig") := demoKubeconfig ]} ∅ [demoMachine "m1"; demoMachine "m2"] None.
Definition demoDrainControllers : @Controllers demoExternal demoDrainPlanner :=
  demoControllers demoDrainPlanner [demoMachine "m1"; demoMachine "m2"] [] None.
#[local] Existing Instance demoDrainPlanner.
#[local] Existing Instance demoDrainControllers.

Definition demoDrainOptions : DrainOptions := set_do_Enabled true zeroDrainOptions.
Definition demoDrainSecret (anns : gmap string string) : Secret :=
  set_s_Annotations anns (demoSecret "m1" ∅ {[ MachineNameLabel := "m1" ]}).
Definition demoRequested : Secret := demoDrainSecret {[ DrainAnnotation := encode_text demoDrainOptions ]}.
Definition demoCWorld (s : Secret) (faults : list (option error)) : CWorld :=
  mkCWorld (set_w_faults faults (set_w_secrets {[ skey s := s ]} (demoWorld []))) (mkDownstream {[ "m1" := ∅ ]} []).

Lemma OnChange_done_witness :
  let w' := fst (OnChange (Some demoRequested) (demoCWorld demoRequested [])) in
  exists machine opts l1 l2,
    machineCache_Get "fleet-default" "m1" = Ret machine
    /\ node_calls (fun h n => CallCordon h n true) machine opts l1
    /\ (if do_Enabled opts then node_calls CallDrain machine opts l2 else l2 = [])
    /\ ds_calls (cw_down w') = l2 ++ l1 ++ [].
Proof.
  intros w'.
  destruct (OnChange_done demoRequested demoRequested
    (annotate DrainDoneAnnotation (encode_text demoDrainOptions) demoRequested)
    (demoCWorld demoRequested []) w' (snd (OnChange (Some demoRequested) (demoCWorld demoRequested []))))
    as (m & opts & l1 & l2 & H1 & H2 & H3 & H4 & H5 & H6 & H7).
  - apply surjective_pairing.
  - vm_compute. reflexivity.
  - reflexivity.
  - unfold w'. vm_compute. reflexivity.
  - vm_compute. discriminate.
  - vm_compute. discriminate.
  - exists m, opts, l1, l2. split; [exact H1|]. split; [exact H5|]. split; [exact H6|exact H7].
Defined.
End witnesses.
