(* ===== verification/DrainProtocol.v ===== *)
(** * The drain protocol

    The planner ([Drain]) and the machine-drain controller ([MachineDrain]) talk through the
    annotations of a plan secret.  This file states what the two together promise: an abstract
    protocol with seven rules, a simulation that shows that every interleaving of their runs, with
    any failures in between, follows the rules, an invariant of the protocol, and that a drain and
    its release complete when nothing fails and the hooks answer. *)

From S2P Require Import Prelude GoLib Errors Types External Instances Capr PlanEntry World Store Drain Handlers MachineDrain.

(** ** The abstract protocol *)

(** How far the pods have been moved off the node. *)
Inductive node_state := Schedulable | Cordoned | Emptied.

#[global] Instance node_state_eq_dec : EqDecision node_state.
Proof. solve_decision. Defined.

Record protocol := mkProtocol {
  p_request : string;       (** the options asked for, empty when there is no request *)
  p_finished : string;      (** the options of the drain reported as done *)
  p_release : bool;         (** the planner has asked to uncordon *)
  p_node : node_state
}.

(** A drain is asked for and has not been reported. *)
Definition working (p : protocol) : Prop := p_request p <> "" /\ p_finished p <> p_request p.

Definition cordon_state (n : node_state) : node_state := match n with Schedulable => Cordoned | _ => n end.

Section protocol.
Context `{C : Controllers} (machine : Machine).

(** The node is ready for a change of its plan, as far as the options require. *)
Definition prepared (d : string) (n : node_state) : Prop :=
  node_name machine <> None ->
  n <> Schedulable /\ forall opts, json_Unmarshal_DrainOptions d = Ret opts -> do_Enabled opts = true -> n = Emptied.

Inductive spec_step : protocol -> protocol -> Prop :=
| spec_request p d : d <> "" -> spec_step p (mkProtocol d (p_finished p) (p_release p) (p_node p))
| spec_release p : p_request p <> "" -> spec_step p (mkProtocol (p_request p) (p_finished p) true (p_node p))
| spec_cordon p : working p ->
    spec_step p (mkProtocol (p_request p) (p_finished p) (p_release p) (cordon_state (p_node p)))
| spec_evict p : working p -> p_node p <> Schedulable ->
    spec_step p (mkProtocol (p_request p) (p_finished p) (p_release p) Emptied)
| spec_finish p : working p -> prepared (p_request p) (p_node p) ->
    spec_step p (mkProtocol (p_request p) (p_request p) (p_release p) (p_node p))
| spec_uncordon p : ~ working p -> p_release p = true ->
    spec_step p (mkProtocol (p_request p) (p_finished p) (p_release p) Schedulable)
| spec_reset p : ~ working p -> p_release p = true -> p_node p = Schedulable ->
    spec_step p (mkProtocol "" "" false (p_node p)).

(** The invariant of the protocol: while a drain is reported as done and nobody has asked to uncordon the
    node, the node is as the drain has to leave it. *)
Definition spec_inv (p : protocol) : Prop :=
  p_finished p <> "" -> p_release p = false -> prepared (p_finished p) (p_node p).

Lemma spec_step_inv p q : spec_step p q -> spec_inv p -> spec_inv q.
Proof.
  unfold spec_inv. destruct 1; simpl; auto; try congruence.
  - intros HI Hf Hr Hn. destruct (HI Hf Hr Hn) as [Hs He]. by destruct (p_node p).
  - intros HI Hf Hr Hn. by split.
Qed.

Lemma spec_steps_inv p q : rtc spec_step p q -> spec_inv p -> spec_inv q.
Proof. induction 1; eauto using spec_step_inv. Qed.
End protocol.

(** ** The abstraction *)

Section abstraction.
Context `{C : Controllers}.

Definition apply_call (c : node_call) (n : node_state) : node_state :=
  match c with
  | CallCordon _ _ true => cordon_state n
  | CallCordon _ _ false => Schedulable
  | CallDrain _ _ => Emptied
  end.

(** The state of the node after the calls, the most recent of which comes first. *)
Definition node_state_of (calls : list node_call) : node_state := foldr apply_call Schedulable calls.

Definition abstract (s : Secret) (calls : list node_call) : protocol :=
  mkProtocol (annotation s DrainAnnotation) (annotation s DrainDoneAnnotation)
    (annotation s UnCordonAnnotation !=? "") (node_state_of calls).

Lemma abstract_forget s1 s2 calls : forget_error s1 = forget_error s2 -> abstract s1 calls = abstract s2 calls.
Proof. intros Hf. unfold abstract. by forget Hf. Qed.

Lemma abstract_annotate k v s calls :
  k ∉ [DrainAnnotation; DrainDoneAnnotation; UnCordonAnnotation] -> abstract (annotate k v s) calls = abstract s calls.
Proof. intros Hk. unfold abstract. by rewrite !annotation_annotate_ne by set_solver. Qed.
End abstraction.

(** ** The controller follows the protocol *)

Section simulation.
Context `{C : Controllers} (machine : Machine).
Local Abbreviation steps := (rtc (spec_step machine)).

Lemma drain_calls_simulate s calls l :
  drain_requested s -> drain_calls l -> steps (abstract s calls) (abstract s (l ++ calls)).
Proof.
  intros Hr [-> |[(h & n & ->)|(h & n & h' & n' & ->)]]; [done|apply rtc_once; by apply (spec_cordon _ (abstract s calls))|].
  eapply rtc_l; [by apply (spec_cordon _ (abstract s calls))|]. apply rtc_once.
  apply (spec_evict _ (abstract s (CallCordon h' n' true :: calls))); [done|]. simpl. by destruct (node_state_of calls).
Qed.

Lemma prepared_after opts l1 l2 calls d :
  json_Unmarshal_DrainOptions d = Ret opts ->
  node_calls (fun h n => CallCordon h n true) machine opts l1 ->
  (if do_Enabled opts then node_calls CallDrain machine opts l2 else l2 = []) ->
  prepared machine d (node_state_of ((l2 ++ l1) ++ calls)).
Proof.
  intros Hj H1 H2 Hn. unfold node_calls in *. destruct (node_name machine) as [n|]; [|done].
  destruct H1 as (k & _ & ->). split.
  - destruct (do_Enabled opts); [destruct H2 as (k' & _ & ->)|subst]; simpl; [done|by destruct (node_state_of calls)].
  - intros opts' Hj' He. assert (opts' = opts) as -> by congruence. rewrite He in H2. by destruct H2 as (k' & _ & ->).
Qed.

Lemma move_simulates s calls l s' :
  drain_move s machine s l s' -> steps (abstract s calls) (abstract s' (l ++ calls)).
Proof.
  destruct 1 as [l s' Hf Hst|opts l s' Hr Hj Hl Hf|opts l1 l2 s' Hr Hj Hl1 Hl2 Hck Hf|opts s' Hr Hu Hj Hf|opts l s' Hr Hu Hnn Hj Hl Hck Hf];
    rewrite (abstract_forget _ _ _ Hf).
  - destruct Hst as [[Hr Hl]|[Hr [-> |[Hu (h & n & ->)]]]]; [by apply drain_calls_simulate|done|].
    apply rtc_once, (spec_uncordon _ (abstract s calls)); [done|]. simpl. by rewrite bool_decide_eq_false_2.
  - rewrite abstract_annotate by set_solver.
    apply drain_calls_simulate; [done|]. by eapply node_calls_cordon.
  - etrans; [apply (drain_calls_simulate _ calls (l2 ++ l1)); [done|by eapply node_calls_drain]|].
    eapply rtc_l; [apply (spec_finish _ (abstract s ((l2 ++ l1) ++ calls))); [done|by eapply prepared_after]|].
    unfold abstract. simpl. by autorewrite with drain.
  - by rewrite abstract_annotate by set_solver.
  - unfold node_calls in Hl. destruct (node_name machine) as [n|]; [|done]. destruct Hl as (k8s & _ & ->).
    assert (p_release (abstract s calls) = true) as Hrel by (simpl; by rewrite bool_decide_eq_false_2).
    eapply rtc_l; [by apply (spec_uncordon _ (abstract s calls))|].
    eapply rtc_l; [by apply (spec_reset _ (abstract s (CallCordon (helper_of k8s opts) n false :: calls)))|].
    unfold abstract. simpl. autorewrite with drain. by rewrite bool_decide_eq_true_2.
Qed.
End simulation.

(** ** The planner follows the protocol *)

Section planner.
Context `{P : Planner}.

(** The entry of the planner shows the stored secret: its metadata are the labels and annotations
    [Load] has read. *)
Definition loaded (w : World) (e : planEntry) (s : Secret) : Prop :=
  pl_Metadata (w_plan w) !! pe_name e = Some (mkMetadata (s_Labels s) (s_Annotations s))
  /\ plan_secret_key (pe_Machine e) = Some (skey s).

Lemma CopyMap_insert m k v : labelAnnotationMatch k = true -> CopyMap m (<[k := v]> m) = <[k := v]> m.
Proof.
  intros Hk. apply map_eq. intros j. rewrite lookup_CopyMap. destruct (decide (j = k)) as [->|Hne].
  - by rewrite Hk, lookup_insert_eq.
  - rewrite lookup_insert_ne by done. destruct (labelAnnotationMatch j); [|done]. by destruct (m !! j).
Qed.

Lemma wp_request_secrets (Q : res unit -> World -> Prop) w :
  (forall w', w_secrets w' = w_secrets w -> w_plan w' = w_plan w -> Q (Ret tt) w') ->
  (forall w' e, w_secrets w' = w_secrets w -> Q (Fail e) w') -> wp api_request Q w.
Proof.
  intros H1 H2. unfold wp, api_request. destruct (w_faults w) as [|[e|] fs]; simpl; auto.
Qed.

(** Publishing an annotation of a loaded entry sets it in the stored secret, or changes nothing. *)
Lemma publish_effect e k v s w :
  labelAnnotationMatch k = true -> loaded w e s -> w_secrets w !! skey s = Some s ->
  wp (let* e' := set_annotation e k v in
      let* err := attempt_err (updatePlanSecretLabelsAndAnnotations e') in
      ret (false, err))
    (fun _ w' => w_secrets w' = w_secrets w \/ w_secrets w' = <[skey s := annotate k v s]> (w_secrets w)) w.
Proof.
  intros Hk [Hmd Hkey] Hs. unfold set_annotation, entry_metadata, put_metadata, updatePlanSecretLabelsAndAnnotations,
    getPlanSecretFromMachine, plan_secret_key in *.
  apply wp_bind, wp_bind, wp_bind, wp_gets. rewrite Hmd. apply wp_ret, wp_bind, wp_gets.
  set (md := mkMetadata (s_Labels s) (<[k := v]> (s_Annotations s))). unfold wp at 1, bind at 1, modify. simpl.
  set (w1 := set_w_plan _ w). apply wp_bind, wp_attempt_err, wp_bind.
  destruct (negb _); [by left|]. destruct (m_ConfigRef _) as [ref|]; [|by left]. destruct (_ =? _); [by left|].
  apply (inj Some) in Hkey. unfold secrets_Get. apply wp_bind, wp_bind, wp_request_secrets; [|by left].
  intros w2 Hs2 Hp2. apply wp_bind, wp_gets. rewrite Hs2, Hkey. change (w_secrets w1) with (w_secrets w). rewrite Hs.
  apply wp_ret. destruct (s_Type s !=? _); [by left|]. apply wp_ret.
  apply wp_bind, wp_bind, wp_gets, wp_ret. rewrite Hp2. simpl. rewrite lookup_insert_eq. simpl.
  rewrite CopyMap_id, (CopyMap_insert _ k v Hk).
  unfold update_and_reload, secrets_Update. apply wp_bind, wp_bind, wp_request_secrets; [|intros w3 e0 Hs3; left; exact (eq_trans Hs3 Hs2)].
  intros w3 Hs3 _. apply wp_bind, wp_gets. simpl. change (s_Namespace s, s_Name s) with (skey s).
  rewrite Hs3, Hs2. change (w_secrets w1) with (w_secrets w). rewrite Hs.
  unfold wp, bind, modify, ret, lift. simpl. destruct (SecretToNode _); simpl; by right.
Qed.

Lemma drain_effect old new e options s w w' r :
  Drain.drain old new e options w = (w', r) -> loaded w e s -> w_secrets w !! skey s = Some s ->
  w_secrets w' = w_secrets w
  \/ exists d, optionsToString options (size (pl_Machines (w_plan w)) =? 1)%nat = Ret d
      /\ w_secrets w' = <[skey s := annotate DrainAnnotation d s]> (w_secrets w).
Proof.
  intros Hrun Hl Hs. unfold Drain.drain in Hrun. unfold bind at 1, gets in Hrun.
  destruct (pl_Metadata (w_plan w) !! pe_name e) as [md|] eqn:Emd; [|inv Hrun; by left].
  destruct (m_NodeRef _); [|inv Hrun; by left]. destruct (_ && _ && _); [inv Hrun; by left|].
  destruct (negb _); [inv Hrun; by left|].
  destruct (optionsToString _ _) as [d|err|] eqn:Eo; [|inv Hrun; by left..].
  destruct (_ !=? d).
  - pose proof (publish_effect e DrainAnnotation d s w eq_refl Hl Hs) as Hp.
    destruct (wp_run _ _ _ _ _ Hrun Hp) as [?|?]; [by left|right; eauto].
  - destruct (checkForDrainError _ _ _); inv Hrun; by left.
Qed.

Lemma undrain_effect e s w w' r :
  undrain e w = (w', r) -> loaded w e s -> w_secrets w !! skey s = Some s ->
  w_secrets w' = w_secrets w
  \/ (annotation s DrainAnnotation <> ""
      /\ w_secrets w' = <[skey s := annotate UnCordonAnnotation (annotation s DrainAnnotation) s]> (w_secrets w)).
Proof.
  intros Hrun [Hmd Hkey] Hs. unfold undrain in Hrun. unfold bind at 1, entry_metadata, bind at 1, gets in Hrun.
  rewrite Hmd in Hrun. unfold ret at 1 in Hrun. cbv zeta in Hrun. cbn [md_Annotations] in Hrun.
  change (map_get (s_Annotations s)) with (annotation s) in Hrun. destruct (_ && _) eqn:Eb.
  - apply andb_true_iff in Eb as [Hd%negb_true_iff%bool_decide_eq_false _].
    pose proof (publish_effect e UnCordonAnnotation (annotation s DrainAnnotation) s w eq_refl (conj Hmd Hkey) Hs) as Hp.
    destruct (wp_run _ _ _ _ _ Hrun Hp) as [?|?]; [by left|by right].
  - destruct (checkForDrainError _ _ _); inv Hrun; by left.
Qed.
End planner.

(** ** The system *)

Section system.
Context `{L : DrainOptionsCodec} (machine : Machine) (key : string * string).

Definition stored (w : CWorld) (s : Secret) : Prop := w_secrets (cw_world w) !! key = Some s /\ skey s = key.
Definition calls (w : CWorld) : list node_call := ds_calls (cw_down w).

(** One run of one party.  The planner has loaded the secret it works on and the cache of the
    controller is up to date; requests may fail in any way.  Everybody else (hooks, the agent, the other
    controllers) may change the secret except for the three annotations of the protocol, and anything
    outside of it, but does not cordon or drain the node of the machine. *)
Inductive system_step (w : CWorld) : CWorld -> Prop :=
| step_drain s e old new options w1 r :
    stored w s -> loaded (cw_world w) e s ->
    Drain.drain old new e options (cw_world w) = (w1, r) -> system_step w (set_cw_world w1 w)
| step_undrain s e w1 r :
    stored w s -> loaded (cw_world w) e s -> undrain e (cw_world w) = (w1, r) -> system_step w (set_cw_world w1 w)
| step_controller s w' r :
    stored w s ->
    (forall m, machineCache_Get (s_Namespace s) (map_get (s_Labels s) MachineNameLabel) = Ret m -> m = machine) ->
    OnChange (Some s) w = (w', r) -> system_step w w'
| step_other s s' w' :
    stored w s -> stored w' s' -> calls w' = calls w ->
    (forall k, k ∈ [DrainAnnotation; DrainDoneAnnotation; UnCordonAnnotation] -> annotation s' k = annotation s k) ->
    system_step w w'.

Lemma insert_stored w w' s s' :
  stored w s -> skey s' = skey s -> w_secrets (cw_world w') = <[skey s := s']> (w_secrets (cw_world w)) -> stored w' s'.
Proof. intros [Hs Hk] Hk' Hw. unfold stored. by rewrite Hw, Hk', Hk, lookup_insert_eq. Qed.

Lemma drain_move_skey s cur l s' : drain_move s machine cur l s' -> skey s' = skey cur.
Proof. destruct 1; match goal with HH : forget_error _ = _ |- _ => exact (forget_error_skey _ _ HH) end. Qed.

Lemma system_step_simulates w w' s :
  system_step w w' -> stored w s ->
  exists s', stored w' s' /\ rtc (spec_step machine) (abstract s (calls w)) (abstract s' (calls w')).
Proof.
  intros Hstep Hst. assert (forall s0, stored w s0 -> s0 = s) as Huniq.
  { intros s0 [Ha _]. destruct Hst as [Hb _]. congruence. }
  assert (w_secrets (cw_world w) !! skey s = Some s) as Hs by (destruct Hst as [Ha ->]; done).
  destruct Hstep as [s0 e old new options w1 r Hst0 Hl Hrun|s0 e w1 r Hst0 Hl Hrun|s0 w' r Hst0 Hm Hrun|s0 s' w' Hst0 Hst' Hc Hann];
    apply Huniq in Hst0 as ->.
  - destruct (drain_effect _ _ _ _ _ _ _ _ Hrun Hl Hs) as [Hw|(d & Ho & Hw)].
    + exists s. split; [|done]. by split; simpl; [rewrite Hw; apply Hst|apply Hst].
    + exists (annotate DrainAnnotation d s). split; [by eapply insert_stored|].
      eapply rtc_l; [apply (spec_request _ (abstract s (calls w)) d); by eapply DrainOptions_nonempty|]. unfold abstract. by autorewrite with drain.
  - destruct (undrain_effect _ _ _ _ _ Hrun Hl Hs) as [Hw|(Hd & Hw)].
    + exists s. split; [|done]. by split; simpl; [rewrite Hw; apply Hst|apply Hst].
    + exists (annotate UnCordonAnnotation (annotation s DrainAnnotation) s). split; [by eapply insert_stored|].
      eapply rtc_l; [by apply (spec_release _ (abstract s (calls w)))|]. unfold abstract. simpl. autorewrite with drain.
      by rewrite (bool_decide_eq_false_2 (annotation s DrainAnnotation = "")).
  - destruct (OnChange_moves _ _ _ _ _ Hrun Hs eq_refl) as [[Hw Hd]|(m & Hm' & l & s' & Hmv & Hw & Hn & Hc)].
    + exists s. unfold stored, calls. by rewrite Hw, Hd.
    + rewrite (Hm _ Hm') in Hmv. exists s'. split; [eapply insert_stored; eauto; by eapply drain_move_skey|].
      unfold calls. rewrite Hc. by apply move_simulates.
  - exists s'. split; [done|]. unfold abstract. rewrite Hc, !Hann by set_solver. done.
Qed.

Lemma system_steps_simulate w w' s :
  rtc system_step w w' -> stored w s ->
  exists s', stored w' s' /\ rtc (spec_step machine) (abstract s (calls w)) (abstract s' (calls w')).
Proof.
  intros Hsteps. revert s. induction Hsteps as [w|w1 w2 w3 Hstep _ IH]; intros s Hst; [by exists s|].
  destruct (system_step_simulates _ _ _ Hstep Hst) as (s2 & Hst2 & Hr2).
  destruct (IH _ Hst2) as (s3 & Hst3 & Hr3). exists s3. split; [done|]. by etrans.
Qed.

(** C6: refinement: every interleaving of runs of the planner's [drain] and [undrain], of the
    machine-drain controller and of the other users of a plan secret, with arbitrary failures of
    requests, is simulated by the abstract protocol: options are requested, the node is cordoned and
    emptied before the drain is reported, and it is uncordoned, and the annotations reset, only when
    nothing is being drained and the planner has asked for it. *)
Theorem drain_refines w w' s :
  rtc system_step w w' -> stored w s ->
  exists s', stored w' s' /\ rtc (spec_step machine) (abstract s (calls w)) (abstract s' (calls w')).
Proof. apply system_steps_simulate. Qed.

(** Whatever has happened since a secret without any report of a drain, when the planner's [drain]
    lets a plan through because of a finished drain, and no uncordon is asked for, the node of the
    machine is cordoned, and emptied if the options say so. *)
Theorem drain_done_prepared w w' w'' s s' old new e options :
  rtc system_step w w' -> stored w s -> annotation s DrainDoneAnnotation = "" ->
  stored w' s' -> loaded (cw_world w') e s' -> annotation s' UnCordonAnnotation = "" ->
  annotation s' DrainAnnotation <> "" ->
  Drain.drain old new e options (cw_world w') = (w'', Ret (true, None)) ->
  ~ nothing_to_drain (w_plan (cw_world w')) old new e options ->
  prepared machine (annotation s' DrainAnnotation) (node_state_of (calls w')).
Proof.
  intros Hsteps Hst Hd0 Hst' [Hmd _] Hun Hd Hrun Hnn.
  destruct (system_steps_simulate _ _ _ Hsteps Hst) as (s1 & Hst1 & Hsim).
  assert (s1 = s') as -> by (destruct Hst1 as [? _], Hst' as [? _]; congruence).
  assert (spec_inv machine (abstract s' (calls w'))) as HI.
  { eapply spec_steps_inv; [done|]. intros Hf. done. }
  apply drain_done_iff in Hrun as (_ & [?|(md & str & Hmd' & _ & Ha & Hdone & _)]); [done|].
  rewrite Hmd in Hmd'. injection Hmd' as <-. cbn [md_Annotations] in Ha, Hdone.
  change (map_get (s_Annotations s')) with (annotation s') in Ha, Hdone.
  unfold spec_inv in HI. simpl in HI. rewrite Hdone, <- Ha in HI. apply HI; [done|]. by rewrite bool_decide_eq_true_2.
Qed.
End system.

(** ** Progress *)

Section progress.
Context `{C : Controllers} (machine : Machine).

(** The secret is stored and up to date, no request fails, the node can be reached. *)
Definition ready_to_run (s : Secret) (w : CWorld) : Prop :=
  handled s machine /\ w_secrets (cw_world w) !! skey s = Some s
  /\ w_faults (cw_world w) = [] /\ reachable_node machine w.

(** All hooks have answered the request [d]; the annotations of the protocol are untouched. *)
Definition answered (hooks : list DrainHook) (d : string) (s s' : Secret) : Prop :=
  (forall k, k ∈ [DrainAnnotation; DrainDoneAnnotation; UnCordonAnnotation; PreDrainAnnotation; PostDrainAnnotation] ->
     annotation s' k = annotation s k)
  /\ checkHookAnnotations d hooks s' = true.

(** One run of the controller reaches the goal, or the next one does once the hooks have answered. *)
Definition completes (hooks : list DrainHook) (d : string) (goal : Secret -> Prop) (s : Secret) (w : CWorld) : Prop :=
  exists w1 v1 s1, OnChange (Some s) w = (w1, Ret (v1, None)) /\ w_secrets (cw_world w1) !! skey s = Some s1
    /\ (goal s1 \/ forall s2 w2, answered hooks d s1 s2 -> ready_to_run s2 w2 ->
          exists w3 v3 s3, OnChange (Some s2) w2 = (w3, Ret (v3, None))
            /\ w_secrets (cw_world w3) !! skey s2 = Some s3 /\ goal s3).

Definition reported (d : string) (s : Secret) : Prop :=
  annotation s DrainAnnotation = d /\ annotation s DrainDoneAnnotation = d.

Definition released (opts : DrainOptions) (s : Secret) : Prop :=
  forall k, k ∈ [DrainAnnotation; DrainDoneAnnotation; UnCordonAnnotation; PreDrainAnnotation; PostDrainAnnotation]
            \/ k ∈ map dh_Annotation (do_PreDrainHooks opts ++ do_PostDrainHooks opts) ->
    k <> DrainErrorAnnotation -> annotation s k = "".

Lemma calm_lookup s w cur w' : calm s w cur w' -> w_secrets (cw_world w') !! skey s = Some cur.
Proof. intros (_ & Hs & _). by rewrite Hs, lookup_insert_eq. Qed.

(** The two runs of a direction: [fin] is what the secret becomes when the hooks have answered. *)
Lemma completes_by opts hooks ann d (goal : Secret -> Prop) (fin : Secret -> Secret) (turn : Secret -> Prop) s w :
  (0 < RetryOnConflict_Steps)%nat -> json_Unmarshal_DrainOptions d = Ret opts ->
  ann ∈ [PreDrainAnnotation; PostDrainAnnotation] ->
  (forall s, turn s -> annotation s DrainAnnotation = d) ->
  (forall s, turn s -> drain_target machine opts s = after_hooks hooks ann d s (fin s)) ->
  (forall s s', forget_error s' = forget_error (fin s) -> turn s -> goal s') ->
  (forall s s', turn s -> (forall k, k ∈ [DrainAnnotation; DrainDoneAnnotation; UnCordonAnnotation] ->
     annotation s' k = annotation s k) -> turn s') ->
  turn s -> ready_to_run s w -> completes hooks d goal s w.
Proof.
  intros Hst Hj Hann Hd Htarget Hgoal Hturn Hs (Hh & Hst1 & Hf & Hr).
  destruct (OnChange_calm s machine opts w) as (w1 & v1 & s1 & Hrun1 & Hc1 & Hf1); auto; [by rewrite Hd|].
  exists w1, v1, s1. split; [done|]. split; [by apply (calm_lookup s w)|]. rewrite Htarget in Hf1 by done.
  assert (fin s = after_hooks hooks ann d s (fin s) ->
          goal s1) as Hfin by (intros E; rewrite <- E in Hf1; by eapply Hgoal).
  enough (goal s1 \/ (turn s1 /\ annotation s1 ann = d /\ hooks <> [])) as [?|(Ht1 & Ha1 & Hne)]; [by left| |].
  - right. intros s2 w2 [Hk2 Hck2] (Hh2 & Hst2 & Hf2 & Hr2). assert (turn s2) as Ht2.
    { eapply Hturn; [exact Ht1|]. intros k Hk. apply Hk2. set_solver. }
    destruct (OnChange_calm s2 machine opts w2) as (w3 & v3 & s3 & Hrun3 & Hc3 & Hf3); auto; [by rewrite Hd|].
    exists w3, v3, s3. split; [done|]. split; [by apply (calm_lookup s2 w2)|]. eapply Hgoal; [|exact Ht2].
    rewrite Hf3, Htarget by done. f_equal. unfold after_hooks. destruct hooks; [done|].
    rewrite Hk2 by set_solver. by rewrite Ha1, bool_decide_eq_true_2, Hck2.
  - unfold after_hooks in Hf1, Hfin. destruct hooks as [|h hooks]; [left; by apply Hfin|].
    destruct (annotation s ann !=? d) eqn:Ea.
    + right. split; [|split; [|done]].
      * eapply Hturn; [exact Hs|]. intros k Hk.
        rewrite (annotation_forget k _ _ ltac:(by intros ->; set_solver) Hf1), annotation_annotate_ne; [done|].
        intros ->. set_solver.
      * rewrite (annotation_forget ann _ _ ltac:(by intros ->; set_solver) Hf1). apply annotation_annotate_eq.
    + destruct (checkHookAnnotations d (h :: hooks) s); [left; by apply Hfin|]. right.
      assert (forall k, k <> DrainErrorAnnotation -> annotation s1 k = annotation s k) as Hsame
        by (intros k Hk; by apply annotation_forget).
      split; [|split; [|done]].
      * eapply Hturn; [exact Hs|]. intros k Hk. apply Hsame. intros ->. set_solver.
      * rewrite Hsame by (by intros ->; set_solver). by apply negb_false_iff, bool_decide_eq_true in Ea.
Qed.
End progress.

Section liveness.
Context `{C : Controllers} (machine : Machine).

(** Progress: when no request fails and the node can be reached, a requested drain is reported as done
    after one run of the controller, or after the next run once the pre-drain hooks have answered; and
    a requested uncordon of a machine with a node clears all annotations of the protocol, those of the
    hooks included, after one run, or after the next one once the post-drain hooks have answered. *)
Theorem drain_completes opts s w :
  (0 < RetryOnConflict_Steps)%nat -> ready_to_run machine s w ->
  json_Unmarshal_DrainOptions (annotation s DrainAnnotation) = Ret opts ->
  (drain_requested s ->
     completes machine (do_PreDrainHooks opts) (annotation s DrainAnnotation) (reported (annotation s DrainAnnotation)) s w)
  /\ (~ drain_requested s -> annotation s UnCordonAnnotation <> "" -> node_name machine <> None ->
     completes machine (do_PostDrainHooks opts) (annotation s DrainAnnotation) (released opts) s w).
Proof.
  intros Hst Hr Hj. split.
  - intros Hreq. eapply (completes_by machine opts _ PreDrainAnnotation _ _
      (fun s' => annotate DrainDoneAnnotation (annotation s DrainAnnotation) s')
      (fun s' => annotation s' DrainAnnotation = annotation s DrainAnnotation /\ drain_requested s')); auto; [set_solver|..].
    + by intros s' [? _].
    + intros s' [Hd [Hd1 Hd2]]. unfold drain_target. rewrite !bool_decide_eq_false_2 by done. simpl. by rewrite Hd.
    + intros s1 s2 Hf [Hd _]. unfold reported. by forget Hf.
    + intros s1 s2 [Hd [Hd1 Hd2]] Hk. unfold drain_requested. rewrite !Hk by set_solver. done.
  - intros Hreq Hun Hn. eapply (completes_by machine opts _ PostDrainAnnotation _ _
      (fun s' => set_s_Annotations (clean_annotations opts (s_Annotations s')) s')
      (fun s' => annotation s' DrainAnnotation = annotation s DrainAnnotation /\ ~ drain_requested s'
                 /\ annotation s' UnCordonAnnotation <> "")); auto; [set_solver|..].
    + by intros s' [? _].
    + intros s' (Hd & Hq & Hu). unfold drain_target.
      assert ((annotation s' DrainAnnotation !=? "") && (annotation s' DrainDoneAnnotation !=? annotation s' DrainAnnotation) = false) as ->.
      { apply not_true_is_false. intros [Ha%negb_true_iff%bool_decide_eq_false Hb%negb_true_iff%bool_decide_eq_false]%andb_true_iff.
        by apply Hq. }
      rewrite bool_decide_eq_false_2, bool_decide_eq_true_2 by (done || by apply not_eq_None_Some). simpl. by rewrite Hd.
    + intros s1 s2 Hf _ k Hk Hne. rewrite (annotation_forget k _ _ Hne Hf). unfold annotation, map_get. simpl.
      rewrite clean_annotations_None; [done|]. set_solver.
    + intros s1 s2 (Hd & Hq & Hu) Hk. unfold drain_requested in *. rewrite !Hk by set_solver. done.
Qed.
End liveness.

(** ** A request that finds an old report

    The annotations of a drain stay until the uncordon is finished.  A new request with the same options
    made in between finds the old report, and is let through although the node may be schedulable
    again ([drain_old_report] below); this is why [drain_done_prepared] asks that no uncordon is
    pending. *)

Section witnesses.
#[local] Existing Instance demoExternal.
#[local] Existing Instance demoDrainPlanner.
#[local] Existing Instance demoDrainControllers.
#[local] Instance demoCodec : DrainOptionsCodec := demoDrainOptionsCodec demoDrainPlanner [demoMachine "m1"; demoMachine "m2"] [] None.

Let m1 : Machine := demoMachine "m1".
Let data : string := encode_text demoDrainOptions.
Let drained : Secret := annotate DrainDoneAnnotation data demoRequested.
Let w0 : CWorld := demoCWorld demoRequested [].
Let w1 : CWorld := fst (OnChange (Some demoRequested) w0).

Lemma demo_stored s faults : stored (skey s) (demoCWorld s faults) s.
Proof. split; [|done]. simpl. apply lookup_insert_eq. Qed.

Lemma demo_drained : stored (skey demoRequested) w1 drained.
Proof. split; [|done]. vm_compute. reflexivity. Qed.

Lemma demo_step : system_step m1 (skey demoRequested) w0 w1.
Proof.
  eapply (step_controller _ _ _ demoRequested); [apply demo_stored| |apply surjective_pairing].
  intros m. vm_compute. by intros [= <-].
Qed.

Lemma drain_refines_witness : exists s',
  stored (skey demoRequested) w1 s' /\ rtc (spec_step m1) (abstract demoRequested []) (abstract s' (calls w1)).
Proof.
  apply (drain_refines m1 (skey demoRequested) w0 w1 demoRequested); [apply rtc_once, demo_step|apply demo_stored].
Defined.

(** The planner after the drain, with a new plan that restarts the service. *)
Let stamped (stamp : string) : NodePlan :=
  set_np_Instructions [set_i_Env ["RESTART_STAMP=" +:+ stamp] emptyInstruction] emptyNodePlan.
Let w2 : CWorld := set_cw_world
  (set_w_plan (mkPlan ∅ (<["m1" := m1]> {[ "m2" := demoMachine "m2" ]})
                 {[ "m1" := mkMetadata (s_Labels drained) (s_Annotations drained) ]}) (cw_world w1)) w1.
Let e1 : planEntry := mkplanEntry m1 None None.

Lemma demo_nonempty : ~ nothing_to_drain (w_plan (cw_world w2)) (Some (stamped "1")) (stamped "2") e1 demoDrainOptions.
Proof. intros [Hn|[Hn|[[[Hn|Hn] _]|Hn]]]; vm_compute in Hn; discriminate. Qed.

Lemma drain_done_prepared_witness : prepared m1 (annotation drained DrainAnnotation) (node_state_of (calls w2)).
Proof.
  apply (drain_done_prepared m1 (skey demoRequested) w0 w2 (cw_world w2) demoRequested drained
    (Some (stamped "1")) (stamped "2") e1 demoDrainOptions).
  - eapply rtc_l; [apply demo_step|]. apply rtc_once. by apply (step_other _ _ _ drained drained); [apply demo_drained..| |].
  - apply demo_stored.
  - vm_compute. reflexivity.
  - apply demo_drained.
  - split; vm_compute; reflexivity.
  - vm_compute. reflexivity.
  - vm_compute. discriminate.
  - vm_compute. reflexivity.
  - apply demo_nonempty.
Defined.

Lemma drain_completes_witness :
  completes m1 [] data (reported data) demoRequested w0.
Proof.
  apply (drain_completes m1 demoDrainOptions demoRequested w0).
  - apply Nat.lt_0_succ.
  - repeat split; vm_compute; try reflexivity; try discriminate; eauto.
  - vm_compute. reflexivity.
  - split; vm_compute; discriminate.
Defined.

(** The uncordon was done, but clearing the annotations and reporting the error failed: the node is schedulable, an uncordon is
    still asked for, and a new drain with the same options is taken for finished. *)
Let asked : Secret := annotate UnCordonAnnotation data drained.
Let w3 : CWorld :=
  let unavailable := Some (StatusError ReasonOther "unavailable") in
  fst (OnChange (Some asked) (demoCWorld asked [None; None; unavailable; unavailable])).
Let pass (s : Secret) (w : CWorld) : World :=
  set_w_plan (mkPlan ∅ (<["m1" := m1]> {[ "m2" := demoMachine "m2" ]})
                {[ "m1" := mkMetadata (s_Labels s) (s_Annotations s) ]}) (cw_world w).

Example drain_old_report :
  exists s, stored (skey asked) w3 s
    /\ annotation s UnCordonAnnotation <> "" /\ node_state_of (calls w3) = Schedulable
    /\ shouldDrain (Some (stamped "1")) (stamped "2") = true
    /\ snd (Drain.drain (Some (stamped "1")) (stamped "2") e1 demoDrainOptions
             (pass s w3)) = Ret (true, None).
Proof.
  destruct (w_secrets (cw_world w3) !! skey asked) as [s|] eqn:Es; [|vm_compute in Es; discriminate].
  exists s. vm_compute in Es. injection Es as <-.
  split; [split; vm_compute; reflexivity|]. split; [vm_compute; discriminate|].
  split; [vm_compute; reflexivity|]. split; vm_compute; reflexivity.
Qed.
End witnesses.
