(* ===== verification/SnapshotList.v ===== *)
(** * Lists of etcd snapshots ([pkg/controllers/capr/plansecret/plansecret.go])

    The agent reports the output of [etcd-snapshot list] as text: a table with one snapshot per line.
    The table is read with [bufio.Scanner] and [strings.Fields]; text is treated as ASCII. *)

From S2P Require Import Prelude GoLib Errors.

(** [type snapshot] *)
Record snapshot := mksnapshot {
  sn_Name : string;
  sn_Location : string;
  sn_Size : string;
  sn_Created : string;
  sn_S3 : bool
}.

Fixpoint rev_app (s acc : string) : string :=
  match s with EmptyString => acc | String c s' => rev_app s' (String c acc) end.
Definition rev_string (s : string) : string := rev_app s "".

(** [strings.Fields]: the maximal runs of characters that are not white space; [cur] is the run being
    read, in reverse. *)
Fixpoint fields_from (cur : string) (s : string) : list string :=
  let flush rest := if cur =? "" then rest else rev_string cur :: rest in
  match s with
  | EmptyString => flush []
  | String c s' => if is_space c then flush (fields_from "" s') else fields_from (String c cur) s'
  end.
Definition Fields (s : string) : list string := fields_from "" s.

(** [InvalidKeyChars.ReplaceAllString(s, "-")] for the class [[^-.a-zA-Z0-9]]. *)
Definition valid_key_char (c : Ascii.ascii) : bool :=
  let n := Ascii.nat_of_ascii c in
  ((n =? 45) || (n =? 46) || ((97 <=? n) && (n <=? 122)) || ((65 <=? n) && (n <=? 90)) || ((48 <=? n) && (n <=? 57)))%nat.
Definition InvalidKeyChars_Replace : string -> string :=
  map_str (fun c => if valid_key_char c then c else Ascii.ascii_of_nat 45).

(** The lines of a [bufio.Scanner]: a final empty line is none, a trailing carriage return is dropped,
    and the scan ends at a line of 64 KiB or more. *)
Definition drop_cr (l : string) : string :=
  match rev_string l with
  | String c r => if bool_decide (Ascii.nat_of_ascii c = 13%nat) then rev_string r else l
  | EmptyString => l
  end.
Fixpoint scan_lines (ls : list string) : list string :=
  match ls with
  | [] => []
  | [l] => if (l =? "") || (65536 <=? Z.of_nat (String.length l))%Z then [] else [drop_cr l]
  | l :: rest => if (65536 <=? Z.of_nat (String.length l))%Z then [] else drop_cr l :: scan_lines rest
  end.
Definition Scanner_lines (s : string) : list string := scan_lines (Split s newline).

Definition generateEtcdSnapshotFromListOutput (input : string) : res snapshot :=
  match Fields input with
  | [n; size; created] => Ret (mksnapshot (ToLower (InvalidKeyChars_Replace n)) "" size created true)
  | [n; location; size; created] => Ret (mksnapshot (ToLower (InvalidKeyChars_Replace n)) location size created false)
  | _ => Fail (errorString ("input (" +:+ input +:+ ") did not have 3 or 4 fields"))
  end.

(** A line with the titles of the columns. *)
Definition is_header (s : list string) : bool :=
  match s with
  | [a; b; c] => (ToLower a =? "name") && (ToLower b =? "size") && (ToLower c =? "created")
  | [a; b; c; d] => (ToLower a =? "name") && (ToLower b =? "location") && (ToLower c =? "size") && (ToLower d =? "created")
  | _ => false
  end.

Definition output_line (clusterName : string) (snapshots : gmap string snapshot) (line : string) : gmap string snapshot :=
  let s := Fields line in
  if ((length s =? 3) || (length s =? 4))%nat then
    if is_header s then snapshots
    else match generateEtcdSnapshotFromListOutput line with
         | Ret ss => <[clusterName +:+ "-" +:+ sn_Name ss +:+ "-" +:+ (if sn_S3 ss then "s3" else "local") := ss]> snapshots
         | _ => snapshots
         end
  else snapshots.

Definition outputToEtcdSnapshots (clusterName collectedOutput : string) : gmap string snapshot :=
  fold_left (output_line clusterName) (Scanner_lines collectedOutput) ∅.


(** ** Reading a table back *)

Fixpoint all_str (p : Ascii.ascii -> bool) (s : string) : bool :=
  match s with EmptyString => true | String c s' => p c && all_str p s' end.

(** A field of the table: not empty, without white space. *)
Definition word (s : string) : bool := (s !=? "") && all_str (fun c => negb (is_space c)) s.

Lemma rev_app_app s t acc : rev_app (s +:+ t) acc = rev_app t (rev_app s acc).
Proof. revert acc. induction s as [|c s IH]; intros acc; simpl; [done|apply IH]. Qed.

Lemma rev_app_acc s acc : rev_app s acc = rev_app s "" +:+ acc.
Proof.
  revert acc. induction s as [|c s IH]; intros acc; simpl; [done|]. rewrite IH, (IH (String c "")).
  by rewrite app_assoc_str.
Qed.

Lemma rev_string_involutive s : rev_string (rev_string s) = s.
Proof.
  unfold rev_string. induction s as [|c s IH]; simpl; [done|]. rewrite (rev_app_acc s (String c "")), rev_app_app. simpl. by rewrite IH.
Qed.

Lemma fields_from_word w cur rest :
  all_str (fun c => negb (is_space c)) w = true -> fields_from cur (w +:+ rest) = fields_from (rev_app w cur) rest.
Proof.
  revert cur. induction w as [|c w IH]; intros cur; simpl; [done|].
  intros [Hc%negb_true_iff Hw]%andb_true_iff. rewrite Hc. auto.
Qed.

Lemma rev_string_ne s : s <> "" -> rev_app s "" <> "".
Proof. intros Hs E. apply Hs. rewrite <- (rev_string_involutive s). unfold rev_string. by rewrite E. Qed.

Lemma Fields_Join ws : Forall (fun x => word x = true) ws -> Fields (Join ws " ") = ws.
Proof.
  unfold Fields. induction 1 as [|x ws Hx Hws IH]; [done|].
  apply andb_true_iff in Hx as [Hne%negb_true_iff%bool_decide_eq_false Hx].
  assert (forall rest, (if rev_app x "" =? "" then rest else rev_string (rev_app x "") :: rest) = x :: rest) as Hflush.
  { intros rest. rewrite bool_decide_eq_false_2 by by apply rev_string_ne. f_equal. apply (rev_string_involutive x). }
  destruct ws as [|y ws].
  - simpl. rewrite <- (app_empty_r x) at 1. rewrite fields_from_word by done. apply Hflush.
  - rewrite Join_cons by done. rewrite fields_from_word by done.
    change (fields_from (rev_app x "") (" " +:+ ?t)) with
      (if rev_app x "" =? "" then fields_from "" t else rev_string (rev_app x "") :: fields_from "" t).
    rewrite IH. apply Hflush.
Qed.

(** ** Lines *)

Lemma all_str_app p s t : all_str p (s +:+ t) = all_str p s && all_str p t.
Proof. induction s as [|c s IH]; simpl; [done|]. by rewrite IH, andb_assoc. Qed.

Definition line_char (c : Ascii.ascii) : bool := negb (bool_decide (Ascii.nat_of_ascii c = 10%nat)).

Lemma word_line w : word w = true -> all_str line_char w = true.
Proof.
  intros [_ Hw]%andb_true_iff. induction w as [|c w IH]; simpl in *; [done|].
  apply andb_true_iff in Hw as [Hc Hw]. rewrite (IH Hw), andb_true_r. unfold line_char. case_bool_decide as E; [|done].
  unfold is_space in Hc. by rewrite E in Hc.
Qed.

Lemma Join_line ws : Forall (fun x => word x = true) ws -> all_str line_char (Join ws " ") = true.
Proof.
  induction 1 as [|x ws Hx Hws IH]; [done|]. destruct ws; [simpl; by apply word_line|].
  rewrite Join_cons by done. rewrite !all_str_app, (word_line _ Hx), IH. done.
Qed.

Lemma Count_newline s : all_str line_char s = true -> Count_char (Ascii.ascii_of_nat 10) s = O.
Proof.
  induction s as [|c s IH]; [done|]. cbn [all_str Count_char]. intros [Hc Hs]%andb_true_iff. rewrite (IH Hs).
  case_bool_decide as E; [|done]. unfold line_char in Hc. subst c. by rewrite bool_decide_eq_true_2 in Hc.
Qed.

(** A line of words does not end with a carriage return. *)
Lemma drop_cr_word l w : word w = true -> drop_cr (l +:+ w) = l +:+ w.
Proof.
  intros [Hne%negb_true_iff%bool_decide_eq_false Hw]%andb_true_iff. unfold drop_cr, rev_string.
  rewrite rev_app_app, rev_app_acc.
  assert (forall s, all_str (fun c => negb (is_space c)) s = true -> forall acc, all_str (fun c => negb (is_space c)) acc = true ->
            all_str (fun c => negb (is_space c)) (rev_app s acc) = true) as Hrev.
  { induction s as [|c s IH]; simpl; [done|]. intros [Hc Hs]%andb_true_iff acc Hacc. apply IH; [done|]. simpl. by rewrite Hc. }
  specialize (Hrev w Hw "" eq_refl). apply rev_string_ne in Hne. destruct (rev_app w "") as [|c r]; [done|].
  simpl in *. apply andb_true_iff in Hrev as [Hc _]. case_bool_decide as E; [|done]. unfold is_space in Hc. by rewrite E in Hc.
Qed.

(** ** Tables of local snapshots *)

(** One line of the table, as printed by the snapshot command. *)
Record row := mkrow { row_name : string; row_location : string; row_size : string; row_created : string }.

Definition row_words (r : row) : list string := [row_name r; row_location r; row_size r; row_created r].
Definition header : list string := ["Name"; "Location"; "Size"; "Created"].
Definition table (rows : list row) : string := Join (map (fun ws => Join ws " ") (header :: map row_words rows)) newline.

(** A line that can be read: words that are not the titles, shorter than the limit of the scanner. *)
Definition readable (ws : list string) : Prop :=
  Forall (fun x => word x = true) ws /\ ws <> [] /\ (Z.of_nat (String.length (Join ws " ")) < 65536)%Z.

Definition row_key (clusterName : string) (r : row) : string :=
  clusterName +:+ "-" +:+ ToLower (InvalidKeyChars_Replace (row_name r)) +:+ "-" +:+ "local".
Definition row_snapshot (r : row) : snapshot :=
  mksnapshot (ToLower (InvalidKeyChars_Replace (row_name r))) (row_location r) (row_size r) (row_created r) false.

Lemma drop_cr_readable ws : readable ws -> drop_cr (Join ws " ") = Join ws " ".
Proof.
  intros (Hw & Hne & _). assert (exists l w, Join ws " " = l +:+ w /\ word w = true) as (l & w & -> & Hlw); [|by apply drop_cr_word].
  induction Hw as [|x ws Hx Hws IH]; [done|]. destruct ws as [|y ws]; [by exists "", x|].
  destruct IH as (l & w & E & Hlw); [done|]. exists (x +:+ " " +:+ l), w. split; [|done].
  rewrite Join_cons by done. rewrite E. by rewrite !app_assoc_str.
Qed.

Lemma scan_lines_readable wss :
  Forall readable wss -> scan_lines (map (fun ws => Join ws " ") wss) = map (fun ws => Join ws " ") wss.
Proof.
  induction 1 as [|ws wss Hws Hwss IH]; [done|]. cbn [map scan_lines].
  assert ((65536 <=? Z.of_nat (String.length (Join ws " ")))%Z = false) as Hl by (destruct Hws as (_ & _ & ?); lia).
  assert (Join ws " " <> "") as Hne.
  { intros E. destruct Hws as (Hw & Hne & _). apply (f_equal Fields) in E. rewrite Fields_Join in E by done. done. }
  rewrite Hl, drop_cr_readable, IH by done. destruct wss; simpl; [|done]. by rewrite bool_decide_eq_false_2.
Qed.

Lemma Scanner_lines_Join wss :
  wss <> [] -> Forall readable wss ->
  Scanner_lines (Join (map (fun ws => Join ws " ") wss) newline) = map (fun ws => Join ws " ") wss.
Proof.
  intros Hne Hall. unfold Scanner_lines, newline. rewrite Split_Join; [by apply scan_lines_readable|by destruct wss|].
  apply Forall_map. eapply Forall_impl; [exact Hall|]. intros ws (Hw & _ & _). by apply Count_newline, Join_line.
Qed.

Lemma output_line_row cn m r :
  readable (row_words r) -> is_header (row_words r) = false ->
  output_line cn m (Join (row_words r) " ") = <[row_key cn r := row_snapshot r]> m.
Proof.
  intros (Hw & _ & _) Hh. unfold output_line, generateEtcdSnapshotFromListOutput. rewrite Fields_Join by done.
  by rewrite Hh.
Qed.

Lemma fold_left_insert {A} (l : list (string * A)) (m : gmap string A) :
  NoDup (map fst l) -> fold_left (fun m kv => <[fst kv := snd kv]> m) l m = list_to_map l ∪ m.
Proof.
  revert m. induction l as [|[k v] l IH]; intros m Hnd; simpl; [by rewrite map_empty_union|].
  apply NoDup_cons in Hnd as [Hk Hnd]. rewrite IH by done.
  assert ((list_to_map l : gmap string A) !! k = None) by by apply not_elem_of_list_to_map_1.
  by rewrite <- insert_union_r, <- insert_union_l by done.
Qed.

(** The list of local snapshots is read back from the table the agent reports: for every table of lines of
    words, with distinct names and lines below the limit of the scanner, the result has exactly one
    entry per line, under the name of the cluster, the name with invalid characters replaced and the
    kind, with the location of the line; the line with the titles gives none. *)
Theorem outputToEtcdSnapshots_table cn rows :
  Forall (fun r => readable (row_words r) /\ is_header (row_words r) = false) rows ->
  NoDup (map (row_key cn) rows) ->
  outputToEtcdSnapshots cn (table rows) = list_to_map (map (fun r => (row_key cn r, row_snapshot r)) rows).
Proof.
  intros Hrows Hnd. unfold outputToEtcdSnapshots, table. rewrite Scanner_lines_Join; [|done|].
  2:{ constructor; [by repeat split; repeat constructor|]. apply Forall_map. eapply Forall_impl; [exact Hrows|]. by intros r [? _]. }
  assert (forall m, fold_left (output_line cn) (map (fun ws => Join ws " ") (map row_words rows)) m
    = fold_left (fun m kv => <[fst kv := snd kv]> m) (map (fun r => (row_key cn r, row_snapshot r)) rows) m) as Hfold.
  { clear Hnd. induction Hrows as [|r rows [Hr Hh] _ IH]; intros m; [done|]. cbn [map fold_left fst snd].
    rewrite output_line_row by done. apply IH. }
  cbn [map fold_left]. change (output_line cn ∅ (Join header " ")) with (∅ : gmap string snapshot).
  rewrite Hfold, fold_left_insert, map_union_empty; [done|]. rewrite map_map. exact Hnd.
Qed.

Lemma outputToEtcdSnapshots_table_witness :
  outputToEtcdSnapshots "c1" (table [mkrow "on-demand_1" "file:///s1" "2048" "2024-01-01T00:00:00Z";
                                     mkrow "etcd-2" "file:///s2" "4096" "2024-01-02T00:00:00Z"])
  = <["c1-on-demand-1-local" := mksnapshot "on-demand-1" "file:///s1" "2048" "2024-01-01T00:00:00Z" false]>
      {[ "c1-etcd-2-local" := mksnapshot "etcd-2" "file:///s2" "4096" "2024-01-02T00:00:00Z" false ]}.
Proof.
  apply (outputToEtcdSnapshots_table "c1" [mkrow "on-demand_1" "file:///s1" "2048" "2024-01-01T00:00:00Z";
                                           mkrow "etcd-2" "file:///s2" "4096" "2024-01-02T00:00:00Z"]).
  - repeat constructor; discriminate.
  - apply (bool_decide_eq_true_1 _). vm_compute. reflexivity.
Defined.
