(* ===== verification/PlanSecret.v ===== *)
(** * The plan-secret controller ([pkg/controllers/capr/plansecret/plansecret.go])

    Reads the reports of the system agent in a plan secret: it records the plan that was applied, marks
    that the probes have passed, reflects failures in a condition of the machine, and keeps the list of
    local etcd snapshots up to date.  The last part composes it with the plan store of the planner. *)

From S2P Require Import Prelude GoLib Errors Types External Instances Capr PlanEntry World Store Handlers MachineDrain SnapshotList.

Definition PlanApplied : string := "PlanApplied".
Definition ConditionSeverityError : string := "Error".
Definition StorageAnnotationKey : string := "etcdsnapshot.rke.io/storage".
Definition SnapshotNameKey : string := "etcdsnapshot.rke.io/snapshot-file-name".
Definition StorageLocal : string := "local".

(** [machineOwnerRef]; [BlockOwnerDeletion] is not represented. *)
Definition machineOwnerRef (machine : Machine) : OwnerReference :=
  mkOwnerReference (m_APIVersion machine) (m_Kind machine) (m_Name machine) (m_UID machine) true.

Section plansecret.
Context `{C : Controllers}.

(** ** Keeping the list of snapshots *)

Definition snapshot_object (secret : Secret) (machine : Machine) (nodeName cnl machineID : string) (v : snapshot) : ETCDSnapshot :=
  mkETCDSnapshot (s_Namespace secret) (name_SafeConcatName [cnl; sn_Name v; StorageLocal])
    (<[ClusterNameLabel := cnl]> {[ MachineIDLabel := machineID ]})
    (mkETCDSnapshotFile (sn_Name v) nodeName (sn_Location v) "" None)
    (<[SnapshotNameKey := sn_Name v]> {[ StorageAnnotationKey := StorageLocal ]})
    [machineOwnerRef machine] cnl false.

(** The first loop: snapshots that are gone from the node and known to be missing are deleted. *)
Definition delete_missing (onNode : gmap string snapshot) (etcdSnapshots : list ETCDSnapshot) : M unit :=
  for_fold etcdSnapshots tt (fun _ v =>
    if bool_decide (onNode !! es_Name v = None) && es_Missing v
    then etcdSnapshots_Delete (es_Namespace v) (es_Name v) else ret tt).

(** The second loop; Go iterates over the map in an order of its own, here [order]. *)
Definition create_missing (secret : Secret) (machine : Machine) (nodeName cnl machineID : string)
    (indexed : list string) (order : list (string * snapshot)) : M unit :=
  for_fold order tt (fun _ kv =>
    if bool_decide (fst kv ∈ indexed) then ret tt
    else
      let* e := attempt_err (etcdSnapshots_Create (snapshot_object secret machine nodeName cnl machineID (snd kv))) in
      match e with
      | Some e => if IsAlreadyExists e then ret tt
                  else fail (wrapError ("error while creating etcd snapshot: " +:+ Error e) e)
      | None => ret tt
      end).

(** Only for local snapshots: the machine, whose ID selects its snapshots. *)
Definition snapshot_machine (secret : Secret) (machineName : string) : res (Machine * string) :=
  let? machine := machineCache_Get (s_Namespace secret) machineName in
  if map_get (m_Labels machine) MachineIDLabel !=? ""
  then Ret (machine, map_get (m_Labels machine) MachineIDLabel)
  else Fail (errorString ("error finding machine ID for machine " +:+ m_Namespace machine +:+ "/" +:+ m_Name machine)).

Definition reconcileEtcdSnapshotList (secret : Secret) (s3 : bool) (listStdout : string) : M unit :=
  let cnl := map_get (s_Labels secret) ClusterNameLabel in
  if cnl =? "" then fail (errorString ("node secret did not have label " +:+ ClusterNameLabel))
  else
    match s_Labels secret !! MachineNameLabel with
    | None => fail (errorString ("did not find machine label on secret " +:+ s_Namespace secret +:+ "/" +:+ s_Name secret))
    | Some machineName =>
        let* owner := (if s3 then ret None else let* m := lift (snapshot_machine secret machineName) in ret (Some m)) in
        let ls := match owner with
                  | None => <[ClusterNameLabel := cnl]> {[ NodeNameLabel := "s3" ]}
                  | Some (_, machineID) => <[ClusterNameLabel := cnl]> {[ MachineIDLabel := machineID ]}
                  end in
        let onNode := outputToEtcdSnapshots cnl listStdout in
        let* etcdSnapshots := lift (etcdSnapshotCache_ListLabels (s_Namespace secret) ls) in
        let* _ := delete_missing onNode etcdSnapshots in
        match owner with
        | Some (machine, machineID) =>
            match m_NodeRef machine with
            | Some ref => create_missing secret machine (ref_Name ref) cnl machineID (map es_Name etcdSnapshots) (map_to_list onNode)
            | None => ret tt
            end
        | None => ret tt
        end
    end.

(** ** The condition of the machine *)

(** The condition does not say that the plan failed with this message; reading the severity of an
    absent condition would be a nil dereference. *)
Definition needs_false (conds : list Condition) (msg : string) : res bool :=
  if capi_GetMessage PlanApplied conds !=? msg then Ret true
  else match capi_GetSeverity PlanApplied conds with
       | None => Panic
       | Some sev => Ret ((sev !=? ConditionSeverityError) || negb (capi_IsFalse PlanApplied conds)
                          || (capi_GetReason PlanApplied conds !=? "Error"))
       end.

Definition reconcileMachinePlanAppliedCondition (secret : Secret) (planAppliedErr : option error) : M unit :=
  match s_Labels secret !! MachineNameLabel with
  | None => fail (errorString ("did not find machine label on secret " +:+ s_Namespace secret +:+ "/" +:+ s_Name secret))
  | Some machineName =>
      let* machine := lift (machineCache_Get (s_Namespace secret) machineName) in
      match planAppliedErr with
      | Some e =>
          let* needed := lift (needs_false (m_Conditions machine) (Error e)) in
          if (needed : bool)
          then let* _ := machines_Update (set_m_Conditions
                 (MarkFalse PlanApplied "Error" ConditionSeverityError (Error e) (m_Conditions machine)) machine) in ret tt
          else ret tt
      | None =>
          if negb (capi_IsTrue PlanApplied (m_Conditions machine))
          then let* _ := machines_Update (set_m_Conditions (MarkTrue PlanApplied (m_Conditions machine)) machine) in ret tt
          else ret tt
      end
  end.

(** ** The handler *)

Definition planError : error :=
  errorString "error applying plan -- check rancher-system-agent.service logs on node for more information".

(** A periodic output with a result to work on. *)
Definition usable_output (o : option PeriodicInstructionOutput) : option string :=
  match o with
  | Some v => if (po_ExitCode v =? 0)%Z && (po_Stdout v !=? "") then Some (po_Stdout v) else None
  | None => None
  end.

(** Errors of the two reconciliations are only logged. *)
Definition reconcile_snapshots (secret : Secret) (node : Node) : M unit :=
  let* _ := (match usable_output (n_PeriodicOutput node !! "etcd-snapshot-list-local") with
             | Some out => attempt_err (reconcileEtcdSnapshotList secret false out)
             | None => ret None end) in
  let* _ := (match usable_output (n_PeriodicOutput node !! "etcd-snapshot-list-s3") with
             | Some out => if map_get (s_Labels secret) InitNodeLabel =? "true"
                           then attempt_err (reconcileEtcdSnapshotList secret true out) else ret None
             | None => ret None end) in
  ret tt.

(** The agent has applied this plan and it is not recorded yet. *)
Definition newly_applied (secret : Secret) : bool :=
  let data := map_get (s_Data secret) in
  (data "applied-checksum" =? PlanHash (data "plan")) && (data "plan" !=? data "appliedPlan").

Definition record_applied (secret : Secret) : Secret :=
  if newly_applied secret
  then set_s_Data (<["appliedPlan" := map_get (s_Data secret) "plan"]> (s_Data secret)) secret else secret.

(** The annotation that the probes of this plan have passed once. *)
Definition record_probes (secret : Secret) : M (Secret * bool) :=
  let statuses := map_get (s_Data secret) "probe-statuses" in
  if statuses =? "" then ret (secret, false)
  else
    let* '(_, healthy) := lift (ParseProbeStatuses statuses) in
    if healthy && (map_get (s_Annotations secret) PlanProbesPassedAnnotation =? "") then
      let* now := gets w_now in
      let* anns := assign_entry (s_Annotations secret) PlanProbesPassedAnnotation now in
      ret (set_s_Annotations anns secret, true)
    else ret (secret, false).

Definition OnChange (secret : option Secret) : M (option Secret) :=
  match secret with
  | None => ret None
  | Some s =>
      if (s_Type s !=? SecretTypeMachinePlan) || (size (s_Data s) =? 0)%nat then ret (Some s)
      else
        let* node := lift (SecretToNode s) in
        match node with
        | None => panic
        | Some node =>
            let* _ := reconcile_snapshots s node in
            let data := map_get (s_Data s) in
            let* '(s1, marked) := record_probes (record_applied s) in
            let* s2 := (if newly_applied s || marked then secrets_UpdateV (mkvsecret s s1) else ret s1) in
            let* _ := reconcileMachinePlanAppliedCondition s2
                        (if data "failed-checksum" =? PlanHash (data "plan") then Some planError else None) in
            ret (Some s2)
        end
  end.
End plansecret.

(** ** What the controller writes into the secret *)

(** No secret changes, and requests that were not going to fail still are not. *)
Definition secrets_kept (w w' : World) : Prop :=
  w_secrets w' = w_secrets w /\ (w_faults w = [] -> w_faults w' = []).

#[global] Instance secrets_kept_preorder : PreOrder secrets_kept.
Proof. split; [by split|]. intros w1 w2 w3 [E1 F1] [E2 F2]. split; [by rewrite E2|auto]. Qed.

Section kept.
Context `{C : Controllers}.
Local Abbreviation keeps := (runs (fun _ => True) secrets_kept).

Lemma keeps_request : keeps api_request (fun _ => True).
Proof.
  intros w _. unfold api_request. destruct (w_faults w) as [|[e|] fs] eqn:E; simpl; repeat split; auto; simpl; by rewrite E.
Qed.

Lemma keeps_modify f : (forall w, w_secrets (f w) = w_secrets w /\ w_faults (f w) = w_faults w) -> keeps (modify f) (fun _ => True).
Proof. intros Hf. apply runs_modify; [|done]. intros w _. destruct (Hf w) as [H1 H2]. split; [done|]. split; congruence. Qed.

Local Hint Resolve keeps_request keeps_modify : planner.

Lemma keeps_snapshots_Create s : keeps (etcdSnapshots_Create s) (fun _ => True).
Proof. unfold etcdSnapshots_Create. runs_auto. Qed.
Lemma keeps_snapshots_Delete ns n : keeps (etcdSnapshots_Delete ns n) (fun _ => True).
Proof. unfold etcdSnapshots_Delete. runs_auto. Qed.
Lemma keeps_machines_Update m : keeps (machines_Update m) (fun _ => True).
Proof. unfold machines_Update. runs_auto. Qed.
Local Hint Resolve keeps_snapshots_Create keeps_snapshots_Delete keeps_machines_Update : planner.

Lemma keeps_reconcileEtcdSnapshotList s b out : keeps (reconcileEtcdSnapshotList s b out) (fun _ => True).
Proof. unfold reconcileEtcdSnapshotList, delete_missing, create_missing. runs_auto. Qed.
Lemma keeps_reconcileMachine s e : keeps (reconcileMachinePlanAppliedCondition s e) (fun _ => True).
Proof. unfold reconcileMachinePlanAppliedCondition. runs_auto. Qed.
Local Hint Resolve keeps_reconcileEtcdSnapshotList keeps_reconcileMachine : planner.

Lemma keeps_reconcile_snapshots s n : keeps (reconcile_snapshots s n) (fun _ => True).
Proof. unfold reconcile_snapshots. runs_auto. Qed.
Lemma keeps_record_probes s : keeps (record_probes s) (fun _ => True).
Proof. unfold record_probes, assign_entry. runs_auto. Qed.
End kept.

Lemma runs_wp {S A} (I : S -> Prop) (R : relation S) (c : ST S A) Q s :
  runs I R c Q -> I s -> wp c (fun r s' => R s s' /\ forall a, r = Ret a -> Q a) s.
Proof. intros Hc Hs. destruct (Hc s Hs) as (_ & HR & HQ). by split. Qed.

Section writes.
Context `{C : Controllers}.

(** What an update makes of the secret: the applied plan is recorded when the agent has reported the
    checksum of the plan, and the probes are marked when they are healthy and were not marked. *)
Definition probes_healthy (s : Secret) : Prop :=
  exists statuses, ParseProbeStatuses (map_get (s_Data s) "probe-statuses") = Ret (statuses, true).

Definition written (s s' : Secret) : Prop :=
  s' = record_applied s
  \/ exists now, probes_healthy s /\ map_get (s_Annotations s) PlanProbesPassedAnnotation = ""
       /\ s' = annotate PlanProbesPassedAnnotation now (record_applied s).

Lemma record_applied_frame s k : k <> "appliedPlan" -> map_get (s_Data (record_applied s)) k = map_get (s_Data s) k.
Proof. intros Hk. unfold record_applied. destruct (newly_applied s); [|done]. unfold map_get. simpl. by rewrite lookup_insert_ne. Qed.

Lemma record_applied_Annotations s : s_Annotations (record_applied s) = s_Annotations s.
Proof. unfold record_applied. by destruct (newly_applied s). Qed.

Lemma record_probes_spec s w :
  wp (record_probes (record_applied s))
    (fun r w' => secrets_kept w w' /\ forall s1 b, r = Ret (s1, b) -> written s s1 /\ (b = false -> s1 = record_applied s)) w.
Proof.
  eapply wp_intro. intros w' r Hrun. split.
  { pose proof (runs_wp _ _ _ _ w (keeps_record_probes (record_applied s)) I) as Hk.
    by apply (wp_run _ _ _ _ _ Hrun) in Hk as [? _]. }
  intros s1 b ->. unfold record_probes in Hrun. rewrite record_applied_frame in Hrun by done.
  destruct (_ =? ""); [inv Hrun; by split; [left|]|].
  apply bind_Ret in Hrun as ([st h] & w1 & Hp & Hrun). unfold lift in Hp. injection Hp as -> Hp.
  destruct (h && _) eqn:Eh; [|inv Hrun; by split; [left|]].
  apply andb_true_iff in Eh as [-> Ha%bool_decide_eq_true].
  apply bind_Ret in Hrun as (now & w2 & Hn & Hrun). inv Hn.
  apply bind_Ret in Hrun as (anns & w3 & Hn & Hrun). unfold assign_entry in Hn. case_bool_decide; inv Hn. inv Hrun.
  split; [|done]. right. exists (w_now w'). rewrite record_applied_Annotations in Ha. split; [by exists st|]. by split.
Qed.

Lemma written_skey s s' : written s s' -> skey s' = skey s.
Proof. unfold written, record_applied. intros [-> |(now & _ & _ & ->)]; by destruct (newly_applied s). Qed.

(** The stored secret [cur] is left alone, or was the version [s] and is updated. *)
Definition updated (s cur : Secret) (w w' : World) : Prop :=
  w_secrets w' = w_secrets w
  \/ (cur = s /\ exists s', written s s' /\ w_secrets w' = <[skey s := s']> (w_secrets w)).

Lemma updated_kept s cur w w1 w2 : updated s cur w w1 -> secrets_kept w1 w2 -> updated s cur w w2.
Proof. unfold updated, secrets_kept. by intros Hu [-> _]. Qed.

Lemma secrets_UpdateV_kept v w cur s :
  w_secrets w !! skey s = Some cur -> vs_read v = s -> written s (vs_obj v) ->
  wp (secrets_UpdateV v) (fun _ => updated s cur w) w.
Proof.
  intros Hcur Hr Hwr. unfold secrets_UpdateV. apply wp_bind.
  eapply wp_mono; [apply (runs_wp _ _ _ _ w keeps_request I)|].
  intros [[]|e|] w3 [[Hk3 _] _]; [|by left..].
  apply wp_bind, wp_gets. change (s_Namespace (vs_obj v), s_Name (vs_obj v)) with (skey (vs_obj v)).
  rewrite (written_skey _ _ Hwr), Hk3, Hcur, Hr. case_bool_decide as Hv; [|by left].
  right. split; [done|]. exists (vs_obj v). split; [done|]. simpl. done.
Qed.

Lemma OnChange_writes s cur w w' r :
  OnChange (Some s) w = (w', r) -> w_secrets w !! skey s = Some cur -> updated s cur w w'.
Proof.
  intros Hrun Hcur. unfold OnChange in Hrun. destruct (_ || _); [inv Hrun; by left|].
  apply (wp_run _ (fun _ => updated s cur w) _ _ _ Hrun). clear Hrun. apply wp_bind. unfold wp at 1, lift. simpl.
  destruct (SecretToNode s) as [[n|]|e|]; [|by left..]. apply wp_bind.
  eapply wp_mono; [apply (runs_wp _ _ _ _ w (keeps_reconcile_snapshots s n) I)|].
  intros [[]|e|] w1 [Hk1 _]; [|left; apply Hk1..]. apply wp_bind. eapply wp_mono; [apply record_probes_spec|].
  intros [[s1 b]|e|] w2 [Hk2 Hs1]; [|left; exact (eq_trans (proj1 Hk2) (proj1 Hk1))..].
  assert (w_secrets w2 = w_secrets w) as Hk by exact (eq_trans (proj1 Hk2) (proj1 Hk1)).
  assert (forall s2 w3 e, updated s cur w w3 ->
    wp (let* _ := reconcileMachinePlanAppliedCondition s2 e in ret (Some s2)) (fun _ => updated s cur w) w3) as Hlast.
  { intros s2 w3 e Hw3. apply wp_bind. eapply wp_mono; [apply (runs_wp _ _ _ _ w3 (keeps_reconcileMachine s2 e) I)|].
    intros r0 w4 [Hk4 _]. pose proof (updated_kept _ _ _ _ _ Hw3 Hk4). by destruct r0. }
  apply wp_bind. destruct (newly_applied s || b); [|apply wp_ret, Hlast; by left].
  eapply wp_mono; [apply (secrets_UpdateV_kept _ w2 cur s); [by rewrite Hk|done|by destruct (Hs1 _ _ eq_refl)]|].
  intros r0 w3 Hw3. assert (updated s cur w w3) by (unfold updated in *; by rewrite Hk in Hw3).
  destruct r0; auto.
Qed.
End writes.

(** ** Progress *)

Section progress.
Context `{C : Controllers}.
Hypothesis machines_ok : forall ns n, machineCache_Get ns n <> Panic.
Hypothesis snapshots_ok : forall ns ls, etcdSnapshotCache_ListLabels ns ls <> Panic.

Lemma no_panic_request : no_panic api_request.
Proof. intros w. unfold api_request. by destruct (w_faults w) as [|[e|] fs]. Qed.
Local Hint Resolve no_panic_request : no_panic.

Lemma no_panic_reconcileEtcdSnapshotList s b out : no_panic (reconcileEtcdSnapshotList s b out).
Proof using machines_ok snapshots_ok.
  assert (forall machineName, snapshot_machine s machineName <> Panic) as Hm.
  { intros n. unfold snapshot_machine. pose proof (machines_ok (s_Namespace s) n) as Hmok.
    destruct (machineCache_Get _ n); simpl; [by destruct (_ !=? _)|done..]. }
  unfold reconcileEtcdSnapshotList, delete_missing, create_missing, etcdSnapshots_Delete, etcdSnapshots_Create.
  no_panic_auto.
Qed.

Lemma reconcile_snapshots_returns s n w : exists w', reconcile_snapshots s n w = (w', Ret tt) /\ secrets_kept w w'.
Proof using machines_ok snapshots_ok.
  assert (no_panic (reconcile_snapshots s n)) as Hn.
  { pose proof no_panic_reconcileEtcdSnapshotList. unfold reconcile_snapshots. no_panic_auto. }
  specialize (Hn w). pose proof (keeps_reconcile_snapshots s n w I) as (_ & Hk & _).
  destruct (reconcile_snapshots s n w) as [w' r] eqn:Er. simpl in *. exists w'. split; [|done]. f_equal.
  destruct r as [[]|e|]; [done| |done]. exfalso. revert Er. unfold reconcile_snapshots, attempt_err, attempt, bind, ret.
  intros Er. repeat case_match; simplify_eq.
Qed.

(** The decoding of a secret with its own plan recorded as applied. *)
Lemma SecretToNode_record s n anns :
  SecretToNode s = Ret (Some n) -> map_get (s_Data s) "applied-checksum" = PlanHash (map_get (s_Data s) "plan") ->
  (forall k, k <> PlanProbesPassedAnnotation -> anns !! k = s_Annotations s !! k) ->
  exists n', SecretToNode (set_s_Annotations anns (record_applied s)) = Ret (Some n')
    /\ n_Plan n' = n_Plan n /\ n_AppliedPlan n' = Some (n_Plan n) /\ n_InSync n' = true
    /\ n_Healthy n' = n_Healthy n /\ n_Failed n' = n_Failed n.
Proof.
  intros Hn Hnew Ha. unfold SecretToNode in *. assert (s_Type (set_s_Annotations anns (record_applied s)) = s_Type s) as ->.
  { unfold record_applied. by destruct (newly_applied s). }
  destruct (_ !=? SecretTypeMachinePlan); [done|]. cbv zeta in *.
  set (s' := set_s_Annotations anns (record_applied s)).
  assert (forall k, k <> "appliedPlan" -> map_get (s_Data s') k = map_get (s_Data s) k) as Hd
    by (intros k Hk; by apply (record_applied_frame s)).
  assert (node_failed s' = node_failed s) as -> by (unfold node_failed; cbv zeta; by rewrite !Hd).
  rewrite (Hd "plan"), (Hd "probe-statuses"), (Hd "applied-output"), (Hd "applied-periodic-output") by done.
  assert (map_get (s_Data s') "appliedPlan" = map_get (s_Data s) "plan") as ->.
  { unfold s', record_applied, newly_applied. cbv zeta. rewrite bool_decide_eq_true_2 by done. cbn [andb].
    destruct (map_get (s_Data s) "plan" =? map_get (s_Data s) "appliedPlan") eqn:E; cbn [negb];
      [by apply bool_decide_eq_true in E|]. unfold map_get. simpl. by rewrite lookup_insert_eq. }
  res_inv. rewrite Ha0. cbn [res_bind]. rewrite Ha1. cbn [res_bind].
  destruct (map_get (s_Data s) "plan" =? "") eqn:Ep; [done|]. res_inv. rewrite Ha2. cbn [res_bind].
  cbn [negb res_bind].
  assert (node_joinedTo s' a0 = node_joinedTo s a0) as ->.
  { unfold node_joinedTo. cbn [s_Annotations s' set_s_Annotations]. by rewrite Ha. }
  rewrite Ha4. cbn [res_bind]. rewrite Ha5. cbn [res_bind]. rewrite Ha6. cbn [res_bind].
  eexists. split; [done|]. simpl. by rewrite bool_decide_eq_true_2.
Qed.

(** Without failures, the report of the agent that the plan was applied is recorded, whatever the rest of
    the handler runs into. *)
Lemma OnChange_records s n w w' r :
  OnChange (Some s) w = (w', r) ->
  w_faults w = [] -> w_secrets w !! skey s = Some s -> s_Annotations s <> ∅ ->
  SecretToNode s = Ret (Some n) -> newly_applied s = true ->
  exists s', written s s' /\ w_secrets w' = <[skey s := s']> (w_secrets w).
Proof using machines_ok snapshots_ok.
  intros Hrun Hf Hs Hne Hn Hnew. unfold OnChange in Hrun.
  assert ((s_Type s !=? SecretTypeMachinePlan) || (size (s_Data s) =? 0)%nat = false) as Hg.
  { unfold SecretToNode in Hn. destruct (_ !=? SecretTypeMachinePlan); [done|]. simpl. apply Nat.eqb_neq. intros Hz.
    apply map_size_empty_iff in Hz. apply andb_true_iff in Hnew as [_ Hd%negb_true_iff%bool_decide_eq_false].
    apply Hd. unfold map_get. by rewrite Hz, !lookup_empty. }
  rewrite Hg in Hrun. unfold bind at 1, lift in Hrun. rewrite Hn in Hrun.
  destruct (reconcile_snapshots_returns s n w) as (w1 & Hr1 & Hk1 & Hf1). rewrite (bind_run _ _ _ _ _ Hr1) in Hrun.
  pose proof (record_probes_spec s w1) as Hp. unfold wp in Hp.
  assert (exists s1 b, snd (record_probes (record_applied s) w1) = Ret (s1, b)) as (s1 & b & Hret).
  { unfold record_probes. rewrite record_applied_frame by done. destruct (_ =? "") eqn:Es; [by eexists _, _|].
    unfold SecretToNode in Hn. destruct (_ !=? SecretTypeMachinePlan); [done|]. res_inv. rewrite Es in *. simpl in *.
    unfold bind, lift. rewrite Ha0. cbn. destruct (_ && _); [|by eexists _, _]. unfold assign_entry.
    rewrite record_applied_Annotations, bool_decide_eq_false_2 by done. by eexists _, _. }
  destruct (record_probes (record_applied s) w1) as [w2 r2] eqn:Er2. simpl in Hret, Hp. subst r2.
  rewrite (bind_run _ _ _ _ _ Er2), Hnew in Hrun. cbn [orb] in Hrun. destruct Hp as [[Hk2 Hf2] Hp].
  destruct (Hp _ _ eq_refl) as [Hwr _]. exists s1. split; [done|].
  unfold secrets_UpdateV, api_request in Hrun. unfold bind at 1 2 in Hrun. rewrite (Hf2 (Hf1 Hf)) in Hrun.
  unfold bind at 1, gets in Hrun. cbn [vs_obj vs_read] in Hrun. change (s_Namespace s1, s_Name s1) with (skey s1) in Hrun.
  rewrite (written_skey _ _ Hwr), Hk2, Hk1, Hs, bool_decide_eq_true_2 in Hrun by done.
  unfold bind at 1, modify, ret at 1 in Hrun.
  pose proof (fun e w => keeps_reconcileMachine s1 e w I) as Hk.
  apply (wp_run _ (fun _ w' => w_secrets w' = <[skey s := s1]> (w_secrets w)) _ _ _ Hrun). clear Hrun.
  apply wp_bind. unfold wp. destruct (Hk (if map_get (s_Data s) "failed-checksum" =? PlanHash (map_get (s_Data s) "plan")
    then Some planError else None) (set_w_secrets (<[skey s := s1]> (w_secrets w)) w2)) as (_ & [Hk3 _] & _).
  destruct (reconcileMachinePlanAppliedCondition _ _ _) as [w3 [[]|e|]]; simpl in *; done.
Qed.
End progress.

Section reports.
Context `{C : Controllers}.

(** Whatever fails, a run of the plan-secret controller leaves everything of the stored secret alone but
    two entries: the applied plan changes only to the current plan, and only if the agent has reported the
    checksum of exactly this plan; and the mark that the probes have passed changes only if it was not
    set and all probes of the report are healthy.  No other secret changes. *)
Theorem OnChange_reports s cur cur' w w' r :
  OnChange (Some s) w = (w', r) ->
  w_secrets w !! skey s = Some cur -> w_secrets w' !! skey s = Some cur' ->
  (map_get (s_Data cur') "appliedPlan" = map_get (s_Data cur) "appliedPlan"
   \/ (map_get (s_Data cur') "appliedPlan" = map_get (s_Data cur) "plan"
       /\ map_get (s_Data cur) "applied-checksum" = PlanHash (map_get (s_Data cur) "plan")))
  /\ (annotation cur' PlanProbesPassedAnnotation = annotation cur PlanProbesPassedAnnotation
      \/ (annotation cur PlanProbesPassedAnnotation = "" /\ probes_healthy cur))
  /\ (forall k, k <> "appliedPlan" -> map_get (s_Data cur') k = map_get (s_Data cur) k)
  /\ (forall k, k <> PlanProbesPassedAnnotation -> annotation cur' k = annotation cur k)
  /\ s_Labels cur' = s_Labels cur /\ s_Type cur' = s_Type cur
  /\ (forall key, key <> skey s -> w_secrets w' !! key = w_secrets w !! key).
Proof.
  intros Hrun Hcur Hcur'. destruct (OnChange_writes _ _ _ _ _ Hrun Hcur) as [Hw|(-> & s' & Hwr & Hw)].
  { rewrite Hw in *. assert (cur' = cur) as -> by congruence. repeat split; auto. }
  rewrite Hw, lookup_insert_eq in Hcur'. injection Hcur' as <-.
  assert (forall now, map_get (s_Data (annotate PlanProbesPassedAnnotation now (record_applied s))) = map_get (s_Data (record_applied s)))
    as Hd by done.
  assert (map_get (s_Data s') = map_get (s_Data (record_applied s))) as -> by (by destruct Hwr as [-> |(now & _ & _ & ->)]).
  repeat split.
  - unfold record_applied. destruct (newly_applied s) eqn:Enew; [right|by left].
    apply andb_true_iff in Enew as [Hck%bool_decide_eq_true _]. split; [|done].
    unfold map_get. simpl. by rewrite lookup_insert_eq.
  - unfold annotation. destruct Hwr as [-> |(now & Hh & Ha & ->)]; [left; by rewrite record_applied_Annotations|by right].
  - intros k Hk. by apply record_applied_frame.
  - intros k Hk. destruct Hwr as [-> |(now & _ & _ & ->)]; [|rewrite annotation_annotate_ne by done];
      unfold annotation; by rewrite record_applied_Annotations.
  - destruct Hwr as [-> |(now & _ & _ & ->)]; unfold record_applied; by destruct (newly_applied s).
  - destruct Hwr as [-> |(now & _ & _ & ->)]; unfold record_applied; by destruct (newly_applied s).
  - intros key Hk. by rewrite Hw, lookup_insert_ne.
Qed.
End reports.

(** ** Two cases the handler does not provide for *)

Section cases.
Context `{C : Controllers}.

(** A plan secret with some data but no plan makes the handler panic: there is no node to read outputs from. *)
Lemma OnChange_without_plan s w failed probes :
  s_Type s = SecretTypeMachinePlan -> s_Data s <> ∅ -> map_get (s_Data s) "plan" = "" ->
  node_failed s = Ret failed ->
  (if map_get (s_Data s) "probe-statuses" !=? "" then ParseProbeStatuses (map_get (s_Data s) "probe-statuses")
   else Ret (∅, true)) = Ret probes ->
  OnChange (Some s) w = (w, Panic).
Proof.
  intros Ht Hd Hp Hf Hs. unfold OnChange, SecretToNode. rewrite Ht, (bool_decide_eq_true_2 (_ = SecretTypeMachinePlan)) by done.
  assert ((size (s_Data s) =? 0)%nat = false) as -> by by apply Nat.eqb_neq; rewrite map_size_empty_iff.
  cbv zeta. cbn [negb orb]. unfold bind at 1, lift. rewrite Hf. cbn [res_bind]. rewrite Hs. cbn [res_bind].
  rewrite Hp, bool_decide_eq_true_2 by done. done.
Qed.

(** Objects are named with [SafeConcatName], the snapshots of a list are not: when the name is too long
    and therefore cut, the object of a snapshot that is on the node does not carry its name. *)
Lemma snapshot_name_differs secret machine nodeName cnl machineID v :
  (String.length (name_SafeConcatName [cnl; sn_Name v; StorageLocal])
   < String.length (cnl +:+ "-" +:+ sn_Name v +:+ "-" +:+ "local"))%nat ->
  es_Name (snapshot_object secret machine nodeName cnl machineID v) <> cnl +:+ "-" +:+ sn_Name v +:+ "-" +:+ "local".
Proof. intros Hl E. cbn [es_Name snapshot_object] in E. rewrite E in Hl. by apply Nat.lt_irrefl in Hl. Qed.
End cases.

Section witnesses.
#[local] Existing Instance demoExternal.
#[local] Existing Instance demoDrainPlanner.
#[local] Existing Instance demoDrainControllers.

Definition demoReported : Secret :=
  let plan := json_Marshal_NodePlan demoPlan in
  set_s_Annotations {[ PlanUpdatedTimeAnnotation := "t0" ]}
    (demoSecret "m1" (<["plan" := plan]> {[ "applied-checksum" := PlanHash plan ]}) {[ MachineNameLabel := "m1" ]}).

Let w0 : World := set_w_secrets {[ skey demoReported := demoReported ]} (demoWorld []).

Lemma OnChange_reports_witness : exists cur',
  w_secrets (fst (OnChange (Some demoReported) w0)) !! skey demoReported = Some cur'
  /\ (map_get (s_Data cur') "appliedPlan" = map_get (s_Data demoReported) "appliedPlan"
      \/ (map_get (s_Data cur') "appliedPlan" = map_get (s_Data demoReported) "plan"
          /\ map_get (s_Data demoReported) "applied-checksum" = PlanHash (map_get (s_Data demoReported) "plan")))
  /\ s_Labels cur' = s_Labels demoReported.
Proof.
  destruct (w_secrets (fst (OnChange (Some demoReported) w0)) !! skey demoReported) as [cur'|] eqn:Ec.
  2:{ vm_compute in Ec. discriminate. }
  exists cur'. split; [reflexivity|].
  destruct (OnChange_reports demoReported demoReported cur' w0 (fst (OnChange (Some demoReported) w0))
    (snd (OnChange (Some demoReported) w0))) as (R1 & _ & _ & _ & R5 & _).
  - apply surjective_pairing.
  - vm_compute. reflexivity.
  - exact Ec.
  - split; [exact R1|exact R5].
Defined.
End witnesses.

(** * Delivery of a plan, from the planner to the agent and back

    The composition of the plan store ([Store]) and the plan-secret controller ([PlanSecret]) through the
    plan secret: the planner writes a plan, the agent applies it and reports its checksum, the
    controller records it, and the planner reads that the machine is in sync. *)

(** The report of an agent that has applied the plan it found: it names the checksum of the plan, and may
    change other entries of the data (outputs, probe results), but not the plan itself. *)
Definition agent_applied (s s' : Secret) : Prop :=
  skey s' = skey s /\ s_Annotations s' = s_Annotations s
  /\ map_get (s_Data s') "plan" = map_get (s_Data s) "plan"
  /\ map_get (s_Data s') "applied-checksum" = PlanHash (map_get (s_Data s) "plan").

Section delivery.
Context `{C : Controllers} `{!NodePlanCodec}.
Hypothesis machines_ok : forall ns n, machineCache_Get ns n <> Panic.
Hypothesis snapshots_ok : forall ns ls, etcdSnapshotCache_ListLabels ns ls <> Panic.

(** Both outcomes of the handler on a report: the secret with the plan recorded as applied. *)
Lemma OnChange_recorded s n w w' r :
  OnChange (Some s) w = (w', r) -> w_faults w = [] -> w_secrets w !! skey s = Some s -> s_Annotations s <> ∅ ->
  SecretToNode s = Ret (Some n) ->
  exists s', w_secrets w' !! skey s = Some s' /\ written s s'.
Proof using machines_ok snapshots_ok.
  intros Hrun Hf Hs Hne Hn. destruct (newly_applied s) eqn:Enew.
  - destruct (OnChange_records machines_ok snapshots_ok s n w w' r) as (s' & Hwr & ->); auto.
    exists s'. by rewrite lookup_insert_eq.
  - destruct (OnChange_writes _ _ _ _ _ Hrun Hs) as [Hw|(_ & s' & Hwr & Hw)].
    + exists s. rewrite Hw. split; [done|]. left. unfold record_applied. by rewrite Enew.
    + exists s'. by rewrite Hw, lookup_insert_eq.
Qed.

Lemma written_annotations s s' :
  written s s' -> exists anns, s' = set_s_Annotations anns (record_applied s)
    /\ forall k, k <> PlanProbesPassedAnnotation -> anns !! k = s_Annotations s !! k.
Proof.
  intros [-> |(now & _ & _ & ->)].
  - exists (s_Annotations s). split; [|done]. unfold record_applied. by destruct (newly_applied s), s.
  - eexists. split; [reflexivity|]. intros k Hk. by rewrite record_applied_Annotations, lookup_insert_ne.
Qed.

Lemma decoded_plan s n p :
  SecretToNode s = Ret (Some n) -> map_get (s_Data s) "plan" = json_Marshal_NodePlan p -> n_Plan n = p.
Proof.
  intros Hn Hp. unfold SecretToNode in Hn. destruct (_ !=? SecretTypeMachinePlan); [done|]. cbv zeta in Hn. rewrite Hp in Hn.
  res_inv. destruct (json_Marshal_NodePlan p =? ""); [done|]. res_inv. simpl. rewrite NodePlan_roundtrip in *. congruence.
Qed.

(** C7: a delivered plan converges: when [UpdatePlan] has delivered a plan, the agent reports that it has applied
    the plan it found, its report can be decoded, and the plan-secret controller handles the report
    without failing requests, then, whatever else the controller runs into, the planner decodes the
    secret to a node that has applied exactly the delivered plan and is in sync. *)
Theorem delivery_converges entry plan joinedTo maxFailures failureThreshold w w1 entry' key new s' n w2 w3 r :
  secrets_wf w ->
  UpdatePlan entry plan joinedTo maxFailures failureThreshold w = (w1, Ret entry') ->
  plan_secret_key (pe_Machine entry) = Some key -> w_secrets w1 !! key = Some new ->
  agent_applied new s' -> SecretToNode s' = Ret (Some n) ->
  w_secrets w2 !! key = Some s' -> w_faults w2 = [] ->
  OnChange (Some s') w2 = (w3, r) ->
  exists s3 n3, w_secrets w3 !! key = Some s3 /\ SecretToNode s3 = Ret (Some n3)
    /\ n_Plan n3 = plan /\ n_AppliedPlan n3 = Some plan /\ n_InSync n3 = true.
Proof using All.
  intros Hwf Hup Hkey Hnew (Hk & Ha & Hp & Hc) Hdec Hs' Hf Hrun.
  destruct (UpdatePlan_Ret _ _ _ _ _ _ _ _ Hwf Hup)
    as (key' & old & new' & n0 & Hkey' & _ & Hw1 & _ & _ & _ & _ & _ & _ & _ & _ & _ & Hdata & Hne & Hk').
  rewrite Hkey in Hkey'. injection Hkey' as <-. rewrite Hw1, lookup_insert_eq in Hnew. injection Hnew as ->.
  assert (skey s' = key) as Hsk by (rewrite Hk; exact Hk').
  destruct (OnChange_recorded s' n w2 w3 r) as (s3 & Hs3 & Hwr); auto; [by rewrite Hsk|by rewrite Ha|].
  destruct (written_annotations _ _ Hwr) as (anns & -> & Hanns).
  destruct (SecretToNode_record s' n anns) as (n3 & Hn3 & E1 & E2 & E3 & _); [done|by rewrite Hc, Hp|done|].
  rewrite (decoded_plan s' n plan) in E1, E2 by (done || by rewrite Hp, Hdata).
  exists (set_s_Annotations anns (record_applied s')), n3. rewrite <- Hsk at 1. by repeat split.
Qed.
End delivery.

Section witnesses.
#[local] Existing Instance demoExternal.
#[local] Existing Instance demoNodePlanCodec.
#[local] Existing Instance demoDrainPlanner.
#[local] Existing Instance demoDrainControllers.

Let w0 : World := demoWorld [("m1", ∅, {[ MachineNameLabel := "m1" ]})].
Let key : string * string := ("fleet-default", "m1-machine-plan").
Let entry : planEntry := demoEntry "m1" None {[ MachineNameLabel := "m1" ]}.
Let plan_text : string := json_Marshal_NodePlan demoPlan.
Let run : World * res planEntry := UpdatePlan entry demoPlan "" 1 1 w0.
Let delivered : Secret := default (demoSecret "m1" ∅ ∅) (w_secrets (fst run) !! key).
Let report : Secret := set_s_Data (<["applied-checksum" := PlanHash plan_text]> (s_Data delivered)) delivered.
Let w2 : World := set_w_secrets (<[key := report]> (w_secrets (fst run))) (fst run).

Lemma delivery_converges_witness : exists s3 n3,
  w_secrets (fst (OnChange (Some report) w2)) !! key = Some s3 /\ SecretToNode s3 = Ret (Some n3)
  /\ n_Plan n3 = demoPlan /\ n_AppliedPlan n3 = Some demoPlan /\ n_InSync n3 = true.
Proof.
  assert (exists w1 e1, run = (w1, Ret e1)) as (w1 & e1 & Hrun).
  { apply returns_run. vm_compute. reflexivity. }
  assert (exists n, SecretToNode report = Ret (Some n)) as [n Hn].
  { destruct (SecretToNode report) as [[n|]|e|] eqn:E; [by exists n|vm_compute in E; discriminate..]. }
  eapply (delivery_converges _ _ entry demoPlan "" 1 1 w0 w1 e1 key delivered report n w2).
  - apply demoWorld_wf.
  - exact Hrun.
  - reflexivity.
  - unfold delivered. rewrite Hrun. cbn [fst]. assert (w_secrets w1 = w_secrets (fst run)) as -> by by rewrite Hrun.
    vm_compute. reflexivity.
  - unfold agent_applied. apply conj; [|apply conj; [|apply conj]]; vm_compute; reflexivity.
  - exact Hn.
  - unfold w2. simpl. apply lookup_insert_eq.
  - vm_compute. reflexivity.
  - apply surjective_pairing.
  Unshelve.
  + intros ns m. unfold machineCache_Get, demoDrainControllers, demoControllers. case_match; discriminate.
  + intros ns ls. simpl. discriminate.
Defined.
End witnesses.
