(* ===== verification/Installer.v ===== *)
(** * Install scripts of the system agent ([pkg/capr/installer])

    The script that bootstraps a machine: assignments of environment variables around the script of
    the agent's release, which comes from a local file or from the address of a setting.  Files and
    addresses are parameters, settings are read from their provider ([pkg/settings/setting.go]). *)

From S2P Require Import Prelude GoLib Codec Errors Types.

(** [settings.Setting]: its name and default value. *)
Record Setting := mkSetting { set_Name : string; set_Default : string }.

Class Installation := {
  provider : option (string -> string);
  ReadFile : string -> res string;
  http_Get : string -> res string                 (** the body of the answer *)
}.

Definition CACerts : Setting := mkSetting "cacerts" "".
Definition InternalCACerts : Setting := mkSetting "internal-cacerts" "".
Definition ServerURL : Setting := mkSetting "server-url" "".
Definition SystemAgentVersion : Setting := mkSetting "system-agent-version" "".
Definition WinsAgentVersion : Setting := mkSetting "wins-agent-version" "".
Definition CSIProxyAgentVersion : Setting := mkSetting "csi-proxy-agent-version" "".
Definition CSIProxyAgentURL : Setting :=
  mkSetting "csi-proxy-agent-url" "https://acs-mirror.azureedge.net/csi-proxy/%[1]s/binaries/csi-proxy-%[1]s.tar.gz".
Definition SystemAgentInstallScript : Setting :=
  mkSetting "system-agent-install-script" "https://github.com/rancher/system-agent/releases/download/v0.3.6-rc2/install.sh".
Definition WinsAgentInstallScript : Setting :=
  mkSetting "wins-agent-install-script" "https://raw.githubusercontent.com/rancher/wins/v0.4.15-rc1/install.ps1".
Definition UIPath : Setting := mkSetting "ui-path" "/usr/share/rancher/ui".

Definition SystemAgentInstallPath : string := "/system-agent-install.sh".
Definition WindowsRke2InstallPath : string := "/wins-agent-install.ps1".

(** Package variables, evaluated before a provider of settings exists. *)
Definition localAgentInstallScripts : list string :=
  [set_Default UIPath +:+ "/assets" +:+ SystemAgentInstallPath; "." +:+ SystemAgentInstallPath].
Definition localWindowsRke2InstallScripts : list string :=
  [set_Default UIPath +:+ "/assets" +:+ WindowsRke2InstallPath; "." +:+ WindowsRke2InstallPath].

(** The hash of a service account token that stands for it in scripts and indexes:
    [base64.URLEncoding.EncodeToString] of its SHA-256 sum. *)
Definition base64_URLEncoding (l : list N) : string :=
  map_str (fun c => let n := Ascii.nat_of_ascii c in
                    if bool_decide (n = 43%nat) then Ascii.ascii_of_nat 45
                    else if bool_decide (n = 47%nat) then Ascii.ascii_of_nat 95 else c) (b64_encode l).
Definition token_hash (token : string) : string := base64_URLEncoding (sha256_Sum256 token).

Lemma token_hash_nonempty token : token_hash token <> "".
Proof.
  unfold token_hash, base64_URLEncoding. pose proof (sha256_length token) as Hl.
  by destruct (sha256_Sum256 token) as [|a [|b [|c l]]].
Qed.

Section scripts.
Context `{I : Installation}.

Definition Setting_Get (s : Setting) : string :=
  match provider with None => set_Default s | Some get => get (set_Name s) end.

(** A file that cannot be read is passed over. *)
Fixpoint first_readable (files : list string) : option string :=
  match files with
  | [] => None
  | f :: files' => match ReadFile f with Ret script => Some script | _ => first_readable files' end
  end.

Definition installScript (setting : Setting) (files : list string) : res string :=
  let fetch := http_Get (Setting_Get setting) in
  if Setting_Get setting =? set_Default setting then
    match first_readable files with Some script => Ret script | None => fetch end
  else fetch.

(** [systemtemplate.CAChecksum] and [InternalCAChecksum]. *)
Definition checksum_of (certs : Setting) : string :=
  let ca := Setting_Get certs in
  if ca !=? "" then sha256_hex (if HasSuffix ca newline then ca else ca +:+ newline) else "".
Definition CAChecksum : string := checksum_of CACerts.
Definition InternalCAChecksum : string := checksum_of InternalCACerts.

Definition ca_checksum (internalAPI : bool) : string := if internalAPI then InternalCAChecksum else CAChecksum.

(** [NAME="VALUE"], with a prefix on Windows; variables without a value are left out. *)
Definition env_lines (prefix : string) (envVars : list EnvVar) : string :=
  fold_right (fun e rest => prefix +:+ ev_Name e +:+ "=" +:+ quote (ev_Value e) +:+ newline +:+ rest) ""
    (List.filter (fun e => ev_Value e !=? "") envVars).

Definition binary_url (prefix : string) (version : Setting) (defaultHost : string) : string :=
  let url := Setting_Get ServerURL in
  if Setting_Get version !=? "" then
    if url !=? "" then prefix +:+ "CATTLE_AGENT_BINARY_BASE_URL=" +:+ quote (url +:+ "/assets")
    else if defaultHost !=? "" then prefix +:+ "CATTLE_AGENT_BINARY_BASE_URL=" +:+ quote ("https://" +:+ defaultHost +:+ "/assets")
    else ""
  else "".

Definition linux_token (token : string) : string :=
  if token !=? "" then "CATTLE_ROLE_NONE=true" +:+ newline +:+ "CATTLE_TOKEN=" +:+ quote token else "".
Definition windows_token (token : string) : string :=
  if token !=? "" then "$env:CATTLE_ROLE_NONE=" +:+ quote "true" +:+ newline +:+ "$env:CATTLE_TOKEN=" +:+ quote token else "".

Definition LinuxInstallScript (internalAPI : bool) (token : string) (envVars : list EnvVar) (defaultHost : string) : res string :=
  let? data := installScript SystemAgentInstallScript localAgentInstallScripts in
  let ca := ca_checksum internalAPI in
  let ca := if ca !=? "" then "CATTLE_CA_CHECKSUM=" +:+ quote ca else "" in
  let url := Setting_Get ServerURL in
  let server := if url !=? "" then "CATTLE_SERVER=" +:+ url else "" in
  Ret ("#!/usr/bin/env sh" +:+ newline +:+ env_lines "" envVars +:+ newline
       +:+ binary_url "" SystemAgentVersion defaultHost +:+ newline +:+ server +:+ newline +:+ ca +:+ newline
       +:+ linux_token token +:+ newline +:+ newline +:+ data +:+ newline).

Definition csi_proxy (defaultHost : string) : string * string :=
  let version := Setting_Get CSIProxyAgentVersion in
  let url := Setting_Get ServerURL in
  if version !=? "" then
    (if url !=? "" then url +:+ "/assets/csi-proxy-%[1]s.tar.gz"
     else if defaultHost !=? "" then "https://" +:+ defaultHost +:+ "/assets/csi-proxy-%[1]s.tar.gz"
     else Setting_Get CSIProxyAgentURL, version)
  else (Setting_Get CSIProxyAgentURL, "v1.0.0").

Definition WindowsInstallScript (internalAPI : bool) (token : string) (envVars : list EnvVar) (defaultHost : string) : res string :=
  let? data := installScript WinsAgentInstallScript localWindowsRke2InstallScripts in
  let '(csiProxyURL, csiProxyVersion) := csi_proxy defaultHost in
  let ca := ca_checksum internalAPI in
  let ca := if ca !=? "" then "$env:CATTLE_CA_CHECKSUM=" +:+ quote ca else "" in
  let url := Setting_Get ServerURL in
  let server := if url !=? "" then "$env:CATTLE_SERVER=" +:+ quote url else "" in
  Ret (data +:+ newline +:+ newline +:+ env_lines "$env:" envVars +:+ newline
       +:+ binary_url "$env:" WinsAgentVersion defaultHost +:+ newline +:+ server +:+ newline +:+ ca +:+ newline
       +:+ windows_token token +:+ newline +:+ newline
       +:+ "# Enables CSI Proxy" +:+ newline
       +:+ "$env:CSI_PROXY_URL = " +:+ quote csiProxyURL +:+ newline
       +:+ "$env:CSI_PROXY_VERSION = " +:+ quote csiProxyVersion +:+ newline
       +:+ "$env:CSI_PROXY_KUBELET_PATH = " +:+ quote "C:/var/lib/rancher/rke2/bin/kubelet.exe" +:+ newline +:+ newline
       +:+ "Invoke-WinsInstaller @PSBoundParameters" +:+ newline +:+ "exit 0" +:+ newline).

(** [server.go]: scripts without a token, for any caller; other paths get an empty answer. *)
Definition installer_ServeHTTP (path host : string) (internalAPI : bool) : res string :=
  if path =? SystemAgentInstallPath then LinuxInstallScript internalAPI "" [] host
  else if path =? WindowsRke2InstallPath then WindowsInstallScript internalAPI "" [] host
  else Ret "".

(** ** What the scripts set *)

Lemma Contains_here a s : Contains (a +:+ s) a = true.
Proof. apply Contains_spec. by exists "", s. Qed.

Lemma Contains_later a b sub : Contains b sub = true -> Contains (a +:+ b) sub = true.
Proof. rewrite !Contains_spec. intros (x & y & ->). exists (a +:+ x), y. by rewrite !app_assoc_str. Qed.

Lemma Contains_within a b sub : Contains a sub = true -> Contains (a +:+ b) sub = true.
Proof. rewrite !Contains_spec. intros (x & y & ->). exists x, (y +:+ b). by rewrite !app_assoc_str. Qed.

Lemma env_lines_Contains prefix envVars e :
  e ∈ envVars -> ev_Value e <> "" ->
  Contains (env_lines prefix envVars) (prefix +:+ ev_Name e +:+ "=" +:+ quote (ev_Value e) +:+ newline) = true.
Proof.
  intros He Hv. unfold env_lines. assert (e ∈ List.filter (fun e => ev_Value e !=? "") envVars) as Hin.
  { apply elem_of_filter_bool. split; [done|]. by rewrite bool_decide_eq_false_2. }
  clear He. induction Hin as [x l|x y l Hin IH]; cbn [fold_right].
  - rewrite <- !app_assoc_str. apply Contains_here.
  - rewrite <- !app_assoc_str in *. apply Contains_later. by apply IH.
Qed.
End scripts.

(** Steps over the parts of a text in front of the one looked for. *)
Ltac find_part :=
  match goal with
  | |- Contains (?a +:+ ?b) ?a = true => exact (Contains_here a b)
  | Ha : Contains ?a ?x = true |- Contains (?a +:+ ?b) ?x = true => exact (Contains_within a b x Ha)
  | |- Contains (?a +:+ ?b) ?x = true => refine (Contains_later a b x _); find_part
  end.

Lemma Ret_inj {A} (a b : A) : Ret a = Ret b -> a = b.
Proof. by intros [= ->]. Qed.

Section content.
Context `{I : Installation}.

(** Every variable with a value and the token are set by the script, and it contains the script of the release. *)
Lemma LinuxInstallScript_sets internalAPI token envVars host out :
  LinuxInstallScript internalAPI token envVars host = Ret out ->
  (forall e, e ∈ envVars -> ev_Value e <> "" -> Contains out ("" +:+ ev_Name e +:+ "=" +:+ quote (ev_Value e) +:+ newline) = true)
  /\ (token <> "" -> Contains out ("CATTLE_TOKEN=" +:+ quote token) = true)
  /\ exists data, installScript SystemAgentInstallScript localAgentInstallScripts = Ret data /\ Contains out data = true.
Proof.
  unfold LinuxInstallScript. destruct (installScript _ _) as [data|e|]; [|done..]. intros <-%Ret_inj.
  split; [|split; [|exists data; split; [done|]; find_part]].
  - intros e He Hv. pose proof (env_lines_Contains "" _ _ He Hv). find_part.
  - intros Ht. unfold linux_token. rewrite (bool_decide_eq_false_2 (token = "")) by done. cbn [negb]. rewrite !app_assoc_str.
    rewrite <- (app_assoc_str "CATTLE_TOKEN="). find_part.
Qed.

Lemma WindowsInstallScript_sets internalAPI token envVars host out :
  WindowsInstallScript internalAPI token envVars host = Ret out ->
  (forall e, e ∈ envVars -> ev_Value e <> "" -> Contains out ("$env:" +:+ ev_Name e +:+ "=" +:+ quote (ev_Value e) +:+ newline) = true)
  /\ (token <> "" -> Contains out ("$env:CATTLE_TOKEN=" +:+ quote token) = true)
  /\ exists data, installScript WinsAgentInstallScript localWindowsRke2InstallScripts = Ret data /\ Contains out data = true.
Proof.
  unfold WindowsInstallScript. destruct (installScript _ _) as [data|e|]; [|done..]. cbn [res_bind].
  destruct (csi_proxy host) as [csiURL csiVersion]. intros <-%Ret_inj.
  split; [|split; [|exists data; split; [done|]; find_part]].
  - intros e He Hv. pose proof (env_lines_Contains "$env:" _ _ He Hv). find_part.
  - intros Ht. unfold windows_token. rewrite (bool_decide_eq_false_2 (token = "")) by done. cbn [negb]. rewrite !app_assoc_str.
    rewrite <- (app_assoc_str "$env:CATTLE_TOKEN="). find_part.
Qed.
End content.

(** Files that do not exist, and a release script at every address. *)
Definition demoInstallation : Installation := {|
  provider := Some (fun name => if name =? "server-url" then "https://rancher.example" else "");
  ReadFile f := Fail (errorString (f +:+ ": no such file or directory"));
  http_Get url := Ret "main"
|}.

(** A published vector: the hash of the empty text. *)
Example token_hash_empty : token_hash "" = "47DEQpj8HBSa-_TImW-5JCeuQeRkm5NMpJWZG3hSuFU=".
Proof. vm_compute. reflexivity. Qed.

Example linux_script_text :
  @LinuxInstallScript demoInstallation false "t" [mkEnvVar "HTTP_PROXY" "proxy:8080"; mkEnvVar "NO_PROXY" ""] ""
  = Ret (script "#!/usr/bin/env sh
HTTP_PROXY=`proxy:8080`


CATTLE_SERVER=https://rancher.example

CATTLE_ROLE_NONE=true
CATTLE_TOKEN=`t`

main
").
Proof. vm_compute. reflexivity. Qed.
