(* ===== verification/Taints.v ===== *)
(** * Taints ([pkg/taints/utils.go])

    The text form of taints, and the difference and the union of lists of taints.  The maps of the source
    send a text to the index of its last occurrence; what is collected from a map comes in no particular
    order, so results are described by their elements. *)

From S2P Require Import Prelude GoLib Errors Types.

Definition GetTaintsString (taint : Taint) : string := t_Key taint +:+ "=" +:+ t_Value taint +:+ ":" +:+ t_Effect taint.
Definition GetKeyEffectString (taint : Taint) : string := t_Key taint +:+ ":" +:+ t_Effect taint.

Definition GetTaintFromString (taintStr : string) : option Taint :=
  match Split taintStr "=" with
  | [key; rest] => match Split rest ":" with [v; effect] => Some (mkTaint key v effect) | _ => None end
  | _ => None
  end.

Definition GetStringsFromTaint (taints : list Taint) : list string := map GetTaintsString taints.
Definition GetTaintsFromStrings (sources : list string) : list Taint := omap GetTaintFromString sources.

(** The result of a text that is no taint is a nil pointer, which this function follows. *)
Definition GetRKETaintsFromStrings (sources : list string) : res (list Taint) :=
  res_map (fun s => match GetTaintFromString s with Some t => Ret t | None => Panic end) sources.

(** [rtn[key(taint)] = i] for every element: the index of the last one wins. *)
Fixpoint index_set (key : Taint -> string) (i : nat) (taints : list Taint) (rtn : gmap string nat) : gmap string nat :=
  match taints with
  | [] => rtn
  | t :: rest => index_set key (S i) rest (<[key t := i]> rtn)
  end.
Definition GetTaintSet (taints : list Taint) : gmap string nat := index_set GetTaintsString 0 taints ∅.
Definition GetKeyEffectTaintSet (taints : list Taint) : gmap string nat := index_set GetKeyEffectString 0 taints ∅.

(** The entries of one set that are not in the other, with their taints by index. *)
Definition missing_entries (l : list Taint) (taintSet other : gmap string nat) : list (nat * Taint) :=
  omap (fun ki => match other !! fst ki with Some _ => None | None => pair (snd ki) <$> l !! snd ki end)
    (map_to_list taintSet).
Definition missing_from (l : list Taint) (taintSet other : gmap string nat) : gmap nat Taint :=
  list_to_map (missing_entries l taintSet other).

Definition GetToDiffTaints (current desired : list Taint) : gmap nat Taint * gmap nat Taint :=
  let currentSet := GetTaintSet current in
  let desiredSet := GetTaintSet desired in
  (missing_from desired desiredSet currentSet, missing_from current currentSet desiredSet).

(** [MergeTaints]: the taints of [t2], then those of [t1] whose key and effect are not among them. *)
Definition MergeTaints (t1 t2 : list Taint) : list Taint :=
  let set2 := GetKeyEffectTaintSet t2 in
  t2 ++ omap (fun ki => match set2 !! fst ki with Some _ => None | None => t1 !! snd ki end)
          (map_to_list (GetKeyEffectTaintSet t1)).

(** The taints [nodesyncer/nodetaints.go] writes to the node. *)
Definition updated_taints (current : list Taint) (diff : gmap nat Taint * gmap nat Taint) : list Taint :=
  let '(toAdd, toDel) := diff in
  omap (fun it => if bool_decide (is_Some (toDel !! fst it)) then None else Some (snd it)) (imap pair current)
  ++ map snd (map_to_list toAdd).

(** ** Text *)

Definition free_of (c : Ascii.ascii) (s : string) : Prop := Count_char c s = O.
Definition eq_sign : Ascii.ascii := Ascii.ascii_of_nat 61.
Definition colon : Ascii.ascii := Ascii.ascii_of_nat 58.

Lemma Count_char_app c a b : Count_char c (a +:+ b) = (Count_char c a + Count_char c b)%nat.
Proof. induction a as [|d a IH]; simpl; [done|]. rewrite IH. lia. Qed.

Lemma Split2 c a b : free_of c a -> free_of c b -> Split (a +:+ String c "" +:+ b) (String c "") = [a; b].
Proof.
  intros Ha Hb. change (a +:+ String c "" +:+ b) with (Join [a; b] (String c "")). apply Split_Join; [done|].
  repeat constructor; done.
Qed.

(** A taint whose parts do not contain the separators is read back from its text. *)
Lemma GetTaintFromString_GetTaintsString t :
  free_of eq_sign (t_Key t) -> free_of eq_sign (t_Value t) -> free_of eq_sign (t_Effect t) ->
  free_of colon (t_Value t) -> free_of colon (t_Effect t) ->
  GetTaintFromString (GetTaintsString t) = Some t.
Proof.
  intros H1 H2 H3 H4 H5. unfold GetTaintFromString, GetTaintsString.
  change "=" with (String eq_sign ""). change ":" with (String colon "").
  rewrite (Split2 eq_sign (t_Key t) (t_Value t +:+ String colon "" +:+ t_Effect t)); [|done|].
  - rewrite (Split2 colon (t_Value t) (t_Effect t)) by done. by destruct t.
  - unfold free_of in *. rewrite !Count_char_app, H2, H3. done.
Qed.

(** ** Sets by index *)

Section index.
Context (key : Taint -> string).

Lemma index_set_Some i l rtn k j :
  index_set key i l rtn !! k = Some j ->
  rtn !! k = Some j \/ exists n t, j = (i + n)%nat /\ l !! n = Some t /\ key t = k.
Proof.
  revert i rtn. induction l as [|t l IH]; intros i rtn; simpl; [by left|]. intros [Hr|(n & u & -> & Hn & Hk)]%IH.
  - destruct (decide (key t = k)) as [<-|Hne]; [|rewrite lookup_insert_ne in Hr by done; by left].
    rewrite lookup_insert_eq in Hr. injection Hr as <-. right. exists O, t. by rewrite Nat.add_0_r.
  - right. exists (S n), u. split; [lia|done].
Qed.

Lemma index_set_is_Some i l rtn k :
  is_Some (index_set key i l rtn !! k) <-> is_Some (rtn !! k) \/ exists t, t ∈ l /\ key t = k.
Proof.
  revert i rtn. induction l as [|t l IH]; intros i rtn; simpl.
  - split; [by left|]. intros [Hr|(t & Ht & _)]; [done|by apply elem_of_nil in Ht].
  - rewrite IH. setoid_rewrite elem_of_cons. destruct (decide (key t = k)) as [<-|Hne].
    + rewrite lookup_insert_eq. split; [|by eauto]. right. eauto.
    + rewrite lookup_insert_ne by done. naive_solver.
Qed.

(** Without duplicates every element is at its index. *)
Lemma index_set_unique l n t :
  NoDup (map key l) -> l !! n = Some t -> index_set key 0 l ∅ !! key t = Some n.
Proof.
  intros Hnd Hn. destruct (proj2 (index_set_is_Some 0 l ∅ (key t))) as [j Hj].
  { right. exists t. split; [by eapply list_elem_of_lookup_2|done]. }
  rewrite Hj. apply index_set_Some in Hj as [Hj|(m & u & -> & Hm & Hk)]; [by rewrite lookup_empty in Hj|].
  f_equal. simpl. eapply (NoDup_lookup (map key l)); [done| |]; rewrite list_lookup_fmap; [by rewrite Hm; simpl; rewrite Hk|by rewrite Hn].
Qed.
End index.

Lemma GetTaintSet_elem l s : is_Some (GetTaintSet l !! s) <-> s ∈ GetStringsFromTaint l.
Proof.
  unfold GetTaintSet. rewrite index_set_is_Some, lookup_empty. unfold GetStringsFromTaint. rewrite list_elem_of_fmap.
  split; [intros [[? ?]|(t & Ht & <-)]; [done|eauto]|intros (t & -> & Ht); eauto].
Qed.

(** The entries of the difference: the taints whose text the other list lacks, at their index. *)
Lemma missing_from_Some l other n t :
  missing_from l (GetTaintSet l) (GetTaintSet other) !! n = Some t ->
  l !! n = Some t /\ GetTaintsString t ∉ GetStringsFromTaint other.
Proof.
  unfold missing_from. intros (ki & Hki & Hf)%elem_of_list_to_map_2%list_elem_of_omap. destruct ki as [s i]. simpl in Hf.
  destruct (GetTaintSet other !! s) eqn:Eo; [done|]. destruct (l !! i) as [u|] eqn:El; simpl in Hf; [|done]. injection Hf as -> ->.
  apply elem_of_map_to_list in Hki. split; [done|]. rewrite <- GetTaintSet_elem.
  unfold GetTaintSet in Hki. apply index_set_Some in Hki as [Hki|(m & u & -> & Hm & Hk)]; [by rewrite lookup_empty in Hki|].
  simpl in El. rewrite Hm in El. injection El as ->. rewrite Hk, Eo. by intros [].
Qed.

Lemma missing_from_complete l other s n t :
  GetTaintSet l !! s = Some n -> l !! n = Some t -> s ∉ GetStringsFromTaint other ->
  missing_from l (GetTaintSet l) (GetTaintSet other) !! n = Some t.
Proof.
  intros Hs Hn Ho. unfold missing_from. apply elem_of_list_to_map_1'.
  - intros u (ki & Hki & Hf)%list_elem_of_omap. destruct (GetTaintSet other !! fst ki); [done|].
    destruct (l !! snd ki) as [v|] eqn:Ev; simpl in Hf; [|done]. injection Hf as Hi ->. congruence.
  - apply list_elem_of_omap. exists (s, n). split; [by apply elem_of_map_to_list|]. simpl.
    destruct (GetTaintSet other !! s) eqn:E; [|by rewrite Hn]. exfalso. apply Ho. apply GetTaintSet_elem. by rewrite E.
Qed.

(** What the node gets from the difference of its taints and the desired ones is exactly the desired ones: taints to
    delete are deleted at their index, taints to add are added, and the others stay, so that the next difference
    is empty. *)
Theorem GetToDiffTaints_reaches current desired s :
  NoDup (GetStringsFromTaint current) ->
  s ∈ GetStringsFromTaint (updated_taints current (GetToDiffTaints current desired)) <-> s ∈ GetStringsFromTaint desired.
Proof.
  intros Hnd. unfold updated_taints, GetToDiffTaints. unfold GetStringsFromTaint at 1. rewrite fmap_app, elem_of_app.
  rewrite !list_elem_of_fmap. split.
  - intros [(t & -> & Ht)|(t & -> & Ht)].
    + apply list_elem_of_omap in Ht as ([n u] & Hin & Hf). simpl in Hf. case_bool_decide as Hdel; [done|]. injection Hf as ->.
      apply elem_of_lookup_imap in Hin as (m & v & [= -> ->] & Hm).
      destruct (decide (GetTaintsString v ∈ GetStringsFromTaint desired)) as [Hd|Hd]; [done|]. destruct Hdel. exists v.
      eapply missing_from_complete; [by apply index_set_unique|done|done].
    + apply list_elem_of_fmap in Ht as ([n u] & -> & Ht%elem_of_map_to_list). apply missing_from_Some in Ht as [Hn _].
      simpl. unfold GetStringsFromTaint. apply list_elem_of_fmap_2. by eapply list_elem_of_lookup_2.
  - intros Hs. destruct (decide (s ∈ GetStringsFromTaint current)) as [Hc|Hc].
    + left. unfold GetStringsFromTaint in Hc. apply list_elem_of_fmap in Hc as (t & -> & Ht). exists t. split; [done|].
      apply list_elem_of_lookup in Ht as [n Hn]. apply list_elem_of_omap. exists (n, t). split.
      * apply elem_of_lookup_imap. by exists n, t.
      * simpl. rewrite bool_decide_eq_false_2; [done|]. intros [u [Hu Hno]%missing_from_Some].
        rewrite Hn in Hu. by injection Hu as ->.
    + right. apply GetTaintSet_elem in Hs as [n Hn]. pose proof Hn as Hn'.
      unfold GetTaintSet in Hn'. apply index_set_Some in Hn' as [He|(m & t & -> & Hm & <-)]; [by rewrite lookup_empty in He|].
      exists t. split; [done|]. apply list_elem_of_fmap. exists (m, t). split; [done|]. apply elem_of_map_to_list.
      by eapply missing_from_complete.
Qed.

(** The union covers the keys and effects of both lists, and the second one overrides the first. *)
Lemma MergeTaints_overrides t1 t2 t :
  t ∈ MergeTaints t1 t2 ->
  t ∈ t2 \/ (t ∈ t1 /\ GetKeyEffectString t ∉ map GetKeyEffectString t2).
Proof.
  unfold MergeTaints. intros [Ht|Ht]%elem_of_app; [by left|]. right. apply list_elem_of_omap in Ht as ([k n] & Hin & Hf).
  simpl in Hf. destruct (GetKeyEffectTaintSet t2 !! k) eqn:E; [done|]. split; [by eapply list_elem_of_lookup_2|].
  apply elem_of_map_to_list, index_set_Some in Hin as [Hin|(m & u & -> & Hm & <-)]; [by rewrite lookup_empty in Hin|].
  simpl in Hf. rewrite Hm in Hf. injection Hf as ->. intros (v & Hv & Hin)%list_elem_of_fmap.
  assert (is_Some (GetKeyEffectTaintSet t2 !! GetKeyEffectString t)) as [x Hx]; [|by rewrite E in Hx].
  apply index_set_is_Some. right. by exists v.
Qed.

Lemma MergeTaints_covers t1 t2 t :
  t ∈ t1 \/ t ∈ t2 -> exists u, u ∈ MergeTaints t1 t2 /\ GetKeyEffectString u = GetKeyEffectString t.
Proof.
  intros Ht. unfold MergeTaints. destruct (decide (GetKeyEffectString t ∈ map GetKeyEffectString t2)) as [Hin|Hno].
  { apply list_elem_of_fmap in Hin as (u & Hu & Hin). exists u. split; [apply elem_of_app; by left|done]. }
  destruct Ht as [Ht|Ht]; [|by destruct Hno; apply list_elem_of_fmap_2].
  destruct (proj2 (index_set_is_Some GetKeyEffectString 0 t1 ∅ (GetKeyEffectString t))) as [n Hn]; [eauto|].
  pose proof Hn as Hn'. apply index_set_Some in Hn' as [He|(m & u & -> & Hm & Hk)]; [by rewrite lookup_empty in He|].
  exists u. split; [|done]. apply elem_of_app. right. apply list_elem_of_omap. exists (GetKeyEffectString t, m).
  split; [by apply elem_of_map_to_list|]. simpl. destruct (GetKeyEffectTaintSet t2 !! _) eqn:E; [|done].
  destruct Hno. destruct (proj1 (index_set_is_Some GetKeyEffectString 0 t2 ∅ (GetKeyEffectString t))) as [[x Hx]|(v & Hv & <-)];
    [by eexists|by rewrite lookup_empty in Hx|by apply list_elem_of_fmap_2].
Qed.

Section witnesses.
Let stale : Taint := mkTaint "a" "1" "NoSchedule".
Let kept : Taint := mkTaint "b" "1" "NoSchedule".
Let wanted : Taint := mkTaint "c" "1" "NoExecute".

Lemma GetToDiffTaints_reaches_witness :
  "c=1:NoExecute" ∈ GetStringsFromTaint (updated_taints [stale; kept] (GetToDiffTaints [stale; kept] [kept; wanted]))
  <-> "c=1:NoExecute" ∈ GetStringsFromTaint [kept; wanted].
Proof. apply (GetToDiffTaints_reaches [stale; kept] [kept; wanted]). by apply (bool_decide_unpack _); vm_compute. Defined.

(** A text without a value is no taint, and the conversion for the old cluster type follows the nil pointer. *)
Example taint_without_value : GetRKETaintsFromStrings ["dedicated:NoSchedule"] = Panic.
Proof. reflexivity. Qed.
End witnesses.
