(* ===== verification/ServiceAccountToken.v ===== *)
(** * Tokens of service accounts ([pkg/serviceaccounttoken/secret.go])

    Finds or creates the token secret of a service account and waits until Kubernetes has filled in the
    token.  [env] is what everybody else does to the objects between two looks at the secret. *)

From S2P Require Import Prelude GoLib Errors Types External Instances Capr PlanEntry World Store Handlers.

Definition ServiceAccountSecretLabel : string := "cattle.io/service-account.name".
Definition serviceAccountSecretAnnotation : string := "kubernetes.io/service-account.name".
Definition SecretTypeServiceAccountToken : string := "kubernetes.io/service-account-token".
Definition ServiceAccountTokenKey : string := "token".

Definition serviceAccountSecretPrefix (sa : ServiceAccount) : string := sa_Name sa +:+ "-token-".

(** The template carries a prefix instead of a name. *)
Definition SecretTemplate (sa : ServiceAccount) : Secret :=
  mkSecret (sa_Namespace sa) "" SecretTypeServiceAccountToken {[ ServiceAccountSecretLabel := sa_Name sa ]}
    {[ serviceAccountSecretAnnotation := sa_Name sa ]} ∅
    [mkOwnerReference "v1" "ServiceAccount" (sa_Name sa) (sa_UID sa) false] false.

Definition isSecretForServiceAccount (secret : Secret) (sa : ServiceAccount) : bool :=
  if s_Type secret !=? SecretTypeServiceAccountToken then false
  else sa_Name sa =? map_get (s_Annotations secret) serviceAccountSecretAnnotation.

Definition token_of (s : Secret) : string := map_get (s_Data s) ServiceAccountTokenKey.

Section tokens.
Context `{C : Controllers} (env : World -> World).

(** The lister: the cache when there is one, otherwise a request. *)
Definition secretLister (cached : bool) (sa : ServiceAccount) : M (list Secret) :=
  if cached then lift (secretCache_ListLabels (sa_Namespace sa) {[ ServiceAccountSecretLabel := sa_Name sa ]})
  else
    let* _ := api_request in
    let* ss := gets w_secrets in
    ret (List.filter (fun s => (s_Namespace s =? sa_Namespace sa) && (map_get (s_Labels s) ServiceAccountSecretLabel =? sa_Name sa))
           (map snd (map_to_list ss))).

(** Secrets with the label that are not for this account are deleted; a failure to do so is logged. *)
Definition ServiceAccountSecret (cached : bool) (sa : ServiceAccount) : M (option Secret) :=
  let* r := attempt (secretLister cached sa) in
  match r with
  | inr e => fail (wrapError ("could not get secrets for service account: " +:+ Error e) e)
  | inl secrets =>
      for_fold secrets None (fun result s =>
        if isSecretForServiceAccount s sa then ret (match result with None => Some s | Some _ => result end)
        else let* _ := attempt_err (secrets_Delete (sa_Namespace sa) (s_Name s)) in ret result)
  end.

Definition ensuring (sa : ServiceAccount) (e : error) : error :=
  wrapError ("error ensuring secret for service account [" +:+ sa_Namespace sa +:+ ":" +:+ sa_Name sa +:+ "]: " +:+ Error e) e.

(** One look at the secret, past the cache. *)
Definition token_ready (sa : ServiceAccount) (secret : Secret) : M (Secret * bool) :=
  let* _ := modify env in
  let* r := attempt (secrets_Get (sa_Namespace sa) (s_Name secret)) in
  match r with
  | inr e => fail (ensuring sa e)
  | inl secret => ret (secret, token_of secret !=? "")
  end.

Definition EnsureSecretForServiceAccount (cached : bool) (sa : option ServiceAccount) : M Secret :=
  match sa with
  | None => fail (errorString "could not ensure secret for invalid service account")
  | Some sa =>
      let* r := attempt (ServiceAccountSecret cached sa) in
      match r with
      | inr e => fail (wrapError ("error looking up secret for service account [" +:+ sa_Namespace sa +:+ ":" +:+ sa_Name sa
                                  +:+ "]: " +:+ Error e) e)
      | inl found =>
          let* secret := (match found with
            | Some s => ret s
            | None =>
                let* r := attempt (secrets_CreateGenerated (serviceAccountSecretPrefix sa) (SecretTemplate sa)) in
                match r with inl s => ret s | inr e => fail (ensuring sa e) end
            end) in
          if token_of secret !=? "" then ret secret
          else
            let* r := attempt (ExponentialBackoff 50 (token_ready sa) secret) in
            match r with inl s => ret s | inr e => fail (ensuring sa e) end
      end
  end.

(** [capr.GetPlanServiceAccountTokenSecret]: the secret, and whether it is worth watching for it. *)
Definition GetPlanServiceAccountTokenSecret (planSA : option ServiceAccount) : M (option Secret * bool * option error) :=
  match planSA with
  | None => ret (None, false, Some (errorString "planSA was nil"))
  | Some sa =>
      let* r := attempt (EnsureSecretForServiceAccount true (Some sa)) in
      match r with
      | inr e => ret (None, false, Some (ensuring sa e))
      | inl secret => ret (Some secret, true, None)
      end
  end.
End tokens.

(** ** The secret returned *)

Section returned.
Context `{C : Controllers} (env : World -> World).

Lemma ServiceAccountSecret_valid cached sa w w' s :
  ServiceAccountSecret cached sa w = (w', Ret (Some s)) -> isSecretForServiceAccount s sa = true.
Proof.
  unfold ServiceAccountSecret. intros (r & w1 & _ & Hk)%bind_Ret. destruct r as [secrets|e]; [|done].
  enough (forall l acc w1, (forall s0, acc = Some s0 -> isSecretForServiceAccount s0 sa = true) ->
    for_fold l acc (fun result s => if isSecretForServiceAccount s sa then ret (match result with None => Some s | Some _ => result end)
      else let* _ := attempt_err (secrets_Delete (sa_Namespace sa) (s_Name s)) in ret result) w1 = (w', Ret (Some s)) ->
    isSecretForServiceAccount s sa = true) as Hl by by apply (Hl _ None _ ltac:(done) Hk).
  clear Hk w1. induction l as [|x l IH]; intros acc w1 Hacc; [simpl; intros [= _ ->]; auto|].
  rewrite for_fold_cons. intros (acc' & w2 & Hb & Hk)%bind_Ret. apply (IH acc' w2); [|done]. intros s0 ->.
  destruct (isSecretForServiceAccount x sa) eqn:Ex.
  - inv Hb. destruct acc; simplify_eq; auto.
  - apply bind_Ret in Hb as (e & w3 & _ & Hb). inv Hb. auto.
Qed.

Lemma secrets_CreateGenerated_Ret prefix s w w' s' :
  secrets_CreateGenerated prefix s w = (w', Ret s') ->
  s_Type s' = s_Type s /\ s_Annotations s' = s_Annotations s /\ s_Data s' = s_Data s /\ s_Namespace s' = s_Namespace s.
Proof.
  unfold secrets_CreateGenerated. intros ([] & w1 & _ & Hk)%bind_Ret. apply bind_Ret in Hk as (ts & w2 & Ht & Hk).
  destruct ts as [|[t|e|] ts]; [done| |done..]. apply bind_Ret in Hk as ([] & w3 & _ & Hk).
  apply bind_Ret in Hk as (ss & w4 & _ & Hk). destruct (_ !! _); [done|]. apply bind_Ret in Hk as ([] & w5 & _ & Hk). by inv Hk.
Qed.

Lemma attempt_inl {S A} (c : ST S A) s s' a : attempt c s = (s', Ret (inl a)) -> c s = (s', Ret a).
Proof. unfold attempt. by destruct (c s) as [s1 [x|e|]]; intros [= <- <-]. Qed.

(** ** Stored under their own names *)

Definition anyhow (w w' : World) : Prop := True.
#[global] Instance anyhow_preorder : PreOrder anyhow.
Proof. done. Qed.
(** However it ends, it leaves the secrets under their own names. *)
Definition tidy {A} (c : M A) : Prop := runs secrets_wf anyhow c (fun _ => True).

Lemma tidy_frame {A} N K (c : M A) Q : runs secrets_wf (frame N K) c Q -> tidy c.
Proof. intros Hr. eapply runs_relation; [eapply runs_weaken; [exact Hr|done]|done]. Qed.
Lemma tidy_ran {A} (c : M A) w w' r : tidy c -> secrets_wf w -> c w = (w', r) -> secrets_wf w'.
Proof. intros Ht Hw Hr. destruct (Ht w Hw) as [Hw' _]. by rewrite Hr in Hw'. Qed.
Lemma tidy_request : tidy api_request.
Proof. apply (tidy_frame (fun _ => False) (fun _ => False) _ (fun _ => True)), frame_api_request. Qed.
Lemma secrets_wf_insert w s : secrets_wf w -> secrets_wf (set_w_secrets (<[(s_Namespace s, s_Name s) := s]> (w_secrets w)) w).
Proof. intros Hw k s0. simpl. intros [[<- <-]|[_ ?]]%lookup_insert_Some; [done|by apply Hw]. Qed.
Lemma secrets_wf_delete w k : secrets_wf w -> secrets_wf (set_w_secrets (delete k (w_secrets w)) w).
Proof. intros Hw k' s0. simpl. intros [_ ?]%lookup_delete_Some. by apply Hw. Qed.
Lemma tidy_Create s : tidy (secrets_Create s).
Proof.
  unfold secrets_Create. eapply runs_bind; [apply _|apply tidy_request|]. intros _ _ w Hw. unfold bind, gets, modify, fail.
  destruct (w_secrets w !! _); simpl; [done|]. split; [by apply secrets_wf_insert|done].
Qed.
Lemma tidy_Delete ns name : tidy (secrets_Delete ns name).
Proof.
  unfold secrets_Delete. eapply runs_bind; [apply _|apply tidy_request|]. intros _ _ w Hw. unfold bind, gets, modify, fail.
  destruct (w_secrets w !! _); simpl; [|done]. split; [by apply secrets_wf_delete|done].
Qed.
Lemma tidy_CreateGenerated prefix s : tidy (secrets_CreateGenerated prefix s).
Proof.
  unfold secrets_CreateGenerated. eapply runs_bind; [apply _|apply tidy_request|]. intros _ _ w Hw. unfold bind at 1, gets at 1.
  destruct (w_tokens w) as [|[t|e|] ts]; [done| |done..]. unfold bind, gets, modify, fail, ret. cbn [s_Namespace s_Name w_secrets set_w_tokens].
  destruct (w_secrets w !! _); simpl; [done|]. split; [|done]. apply (secrets_wf_insert (set_w_tokens ts w) (mkSecret _ _ _ _ _ _ _ _)). done.
Qed.
Lemma tidy_ServiceAccountSecret sa : tidy (ServiceAccountSecret true sa).
Proof.
  unfold ServiceAccountSecret, secretLister. eapply (runs_bind _ _ _ _ (fun _ => True)).
  { eapply runs_attempt; [|done..]. apply (runs_lift _ _ _ (fun _ => True)); done. }
  intros [l|e] _; [|apply runs_fail; apply _]. apply runs_for_fold; [apply _|done|]. intros acc x _ _.
  destruct (isSecretForServiceAccount x sa); [by apply runs_ret; [apply _|]|].
  eapply runs_bind; [apply _|eapply runs_attempt_err; [apply _|apply tidy_Delete]|]. intros _ _. by apply runs_ret; [apply _|].
Qed.

(** A loop with an invariant on the variable and the state. *)
Lemma ExponentialBackoff_inv {S V} (I Q : V -> S -> Prop) n (cond : V -> ST S (V * bool)) v s s' v' :
  (forall v s s' v' b, I v s -> cond v s = (s', Ret (v', b)) -> I v' s' /\ (b = true -> Q v' s')) ->
  I v s -> ExponentialBackoff n cond v s = (s', Ret v') -> Q v' s'.
Proof.
  intros Hc. revert v s. induction n as [|n IH]; intros v s Hi; simpl; [done|]. intros ([v1 b] & s1 & H1 & H2)%bind_Ret.
  destruct (Hc _ _ _ _ _ Hi H1) as [Hi1 Hq]. destruct b; [inv H2; auto|by eapply IH].
Qed.

(** A token secret of an account, by its type and its annotation. *)
Definition token_secret_of (sa : ServiceAccount) (s : Secret) : Prop :=
  s_Type s = SecretTypeServiceAccountToken /\ map_get (s_Annotations s) serviceAccountSecretAnnotation = sa_Name sa.
Lemma isSecretForServiceAccount_spec s sa : isSecretForServiceAccount s sa = true <-> token_secret_of sa s.
Proof.
  unfold isSecretForServiceAccount, token_secret_of. destruct (bool_decide_reflect (s_Type s = SecretTypeServiceAccountToken)); cbn [negb];
    rewrite ?bool_decide_eq_true; naive_solver.
Qed.

(** The cache knows the secret as a token secret of the account. *)
Definition cached_token (sa : ServiceAccount) (s : Secret) : Prop :=
  exists l, secretCache_ListLabels (sa_Namespace sa) {[ ServiceAccountSecretLabel := sa_Name sa ]} = Ret l /\ s ∈ l /\ token_secret_of sa s.

(** The secret holds a token, and is one of the account as the cache knows it, or is what is stored under the name of such a
    secret or under a name generated for the account. *)
Definition token_for (sa : ServiceAccount) (s : Secret) (w : World) : Prop :=
  token_of s <> ""
  /\ (cached_token sa s
      \/ exists name, w_secrets w !! (sa_Namespace sa, name) = Some s
           /\ ((exists t, cached_token sa t /\ s_Name t = name) \/ exists suffix, name = sa_Name sa +:+ "-token-" +:+ suffix)).

Lemma ServiceAccountSecret_cached sa w w' s : ServiceAccountSecret true sa w = (w', Ret (Some s)) -> cached_token sa s.
Proof.
  unfold ServiceAccountSecret, secretLister. intros (r & w1 & Hr & Hk)%bind_Ret. unfold attempt, lift in Hr.
  destruct (secretCache_ListLabels _ _) as [l| |] eqn:El; [|inv Hr; done|inv Hr]. injection Hr as <- <-.
  enough (forall l' acc w1, (forall x, x ∈ l' -> x ∈ l) -> (forall s0, acc = Some s0 -> s0 ∈ l /\ token_secret_of sa s0) ->
    for_fold l' acc (fun result s => if isSecretForServiceAccount s sa then ret (match result with None => Some s | Some _ => result end)
      else let* _ := attempt_err (secrets_Delete (sa_Namespace sa) (s_Name s)) in ret result) w1 = (w', Ret (Some s)) ->
    s ∈ l /\ token_secret_of sa s) as Hall by (exists l; split; [done|]; by apply (Hall l None w)).
  clear Hk El. induction l' as [|x l' IH]; intros acc w1 Hsub Hacc; [simpl; intros [= _ ->]; auto|].
  rewrite for_fold_cons. intros (acc' & w2 & Hb & Hk)%bind_Ret. apply (IH acc' w2); [intros; apply Hsub; by right| |done]. intros s0 ->.
  destruct (isSecretForServiceAccount x sa) eqn:Ex.
  - apply isSecretForServiceAccount_spec in Ex. inv Hb. destruct acc; simplify_eq; [auto|]. split; [apply Hsub; left|done].
  - apply bind_Ret in Hb as (e & w3 & _ & Hb). inv Hb. auto.
Qed.

Lemma secrets_CreateGenerated_name prefix s w w' s' :
  secrets_CreateGenerated prefix s w = (w', Ret s') -> exists suffix, s_Name s' = prefix +:+ suffix.
Proof.
  unfold secrets_CreateGenerated. intros ([] & w1 & _ & Hk)%bind_Ret. apply bind_Ret in Hk as (ts & w2 & Ht & Hk).
  destruct ts as [|[t|e|] ts]; [done| |done..]. apply bind_Ret in Hk as ([] & w3 & _ & Hk).
  apply bind_Ret in Hk as (ss & w4 & _ & Hk). destruct (_ !! _); [done|]. apply bind_Ret in Hk as ([] & w5 & _ & Hk). inv Hk. by exists t.
Qed.

(** Whatever else happens to the objects meanwhile, as long as they stay under their own names, the secret returned is a
    token secret found or made for this account. *)
Lemma EnsureSecretForServiceAccount_token sa w w' s :
  (forall w, secrets_wf w -> secrets_wf (env w)) -> secrets_wf w ->
  EnsureSecretForServiceAccount env true (Some sa) w = (w', Ret s) -> token_for sa s w'.
Proof.
  intros Henv Hwf. unfold EnsureSecretForServiceAccount. intros (r & w1 & Hr & Hk)%bind_Ret. destruct r as [found|e]; [|done].
  apply attempt_inl in Hr. pose proof (tidy_ran _ _ _ _ (tidy_ServiceAccountSecret sa) Hwf Hr) as Hwf1.
  apply bind_Ret in Hk as (secret & w2 & Hs & Hk).
  assert (secrets_wf w2 /\ (cached_token sa secret \/ token_of secret = "" /\ exists suffix, s_Name secret = sa_Name sa +:+ "-token-" +:+ suffix)) as [Hwf2 Hv].
  { destruct found as [s0|]; [inv Hs; split; [done|left]; by eapply ServiceAccountSecret_cached|].
    apply bind_Ret in Hs as (r & w3 & Hc & Hs). destruct r as [s0|e]; [inv Hs|done]. apply attempt_inl in Hc.
    split; [by eapply tidy_ran; [apply tidy_CreateGenerated| |exact Hc]|]. right. split.
    - apply secrets_CreateGenerated_Ret in Hc as (_ & _ & Hd & _). unfold token_of. by rewrite Hd.
    - apply secrets_CreateGenerated_name in Hc as [suffix ->]. exists suffix. unfold serviceAccountSecretPrefix. by rewrite app_assoc_str. }
  destruct (token_of secret !=? "") eqn:Et.
  { apply negb_true_iff, bool_decide_eq_false in Et. inv Hk. split; [done|]. destruct Hv as [?|[? _]]; [by left|done]. }
  apply bind_Ret in Hk as (r & w3 & Hp & Hk). destruct r as [s0|e]; inv Hk. apply attempt_inl in Hp.
  apply (ExponentialBackoff_inv (fun v w => secrets_wf w /\ s_Name v = s_Name secret)
    (fun v w => token_of v <> "" /\ w_secrets w !! (sa_Namespace sa, s_Name secret) = Some v)) in Hp as [Ht Hst]; [| |done].
  - split; [done|]. right. exists (s_Name secret). split; [done|]. destruct Hv as [?|[_ ?]]; [left; by exists secret|by right].
  - clear Hp. intros v w4 w5 v' b [Hw4 Hn] Hrun. unfold token_ready in Hrun.
    apply bind_Ret in Hrun as ([] & w6 & [= <-] & Hrun). apply bind_Ret in Hrun as (r & w7 & Hg & Hrun). destruct r as [s1|e]; [|done].
    apply attempt_inl in Hg. pose proof (Henv w4 Hw4) as Hw6. apply secrets_Get_Ret in Hg as (Hs1 & Hs2 & _ & _). injection Hrun as <- <- <-.
    rewrite Hn in Hs1. split; [split|].
    + intros k x. rewrite Hs2. apply Hw6.
    + by injection (Hw6 _ _ Hs1).
    + intros Ht%negb_true_iff%bool_decide_eq_false. by rewrite Hs2.
Qed.

Lemma tidy_EnsureSecretForServiceAccount sa : (forall w, secrets_wf w -> secrets_wf (env w)) -> tidy (EnsureSecretForServiceAccount env true (Some sa)).
Proof.
  intros Henv. unfold EnsureSecretForServiceAccount, tidy. eapply (runs_bind _ _ _ _ (fun _ => True)).
  { eapply runs_attempt; [apply tidy_ServiceAccountSecret|done..]. }
  intros [found|e] _; [|apply runs_fail; apply _]. eapply (runs_bind _ _ _ _ (fun _ => True)).
  { destruct found; [by apply runs_ret; [apply _|]|]. eapply (runs_bind _ _ _ _ (fun _ => True)).
    - eapply runs_attempt; [apply tidy_CreateGenerated|done..].
    - intros [s|e] _; [by apply runs_ret; [apply _|]|apply runs_fail; apply _]. }
  intros secret _. destruct (_ !=? ""); [by apply runs_ret; [apply _|]|]. eapply (runs_bind _ _ _ _ (fun _ => True)).
  - eapply (runs_attempt _ _ _ (fun _ => True)); [|done..]. generalize secret. generalize 50%nat. intros n. induction n as [|n IH]; intros v; simpl; [apply runs_fail; apply _|].
    eapply (runs_bind _ _ _ _ (fun _ => True)); [|intros [v' []] _; [by apply runs_ret; [apply _|]|apply IH]].
    unfold token_ready. eapply (runs_bind _ _ _ _ (fun _ => True)); [apply runs_modify; [|done]; intros w Hw; split; [by apply Henv|done]|]. intros _ _.
    eapply (runs_bind _ _ _ _ (fun _ => True)).
    + eapply runs_attempt; [apply (tidy_frame (fun _ => False) (fun _ => False) _ (fun s => (s_Namespace s, s_Name s) = (sa_Namespace sa, s_Name v))), frame_secrets_Get|done..].
    + intros [s|e] _; [by apply runs_ret; [apply _|]|apply runs_fail; apply _].
  - intros [s|e] _; [by apply runs_ret; [apply _|]|apply runs_fail; apply _].
Qed.

(** A valid token secret in the cache is used as it is. *)
Lemma EnsureSecretForServiceAccount_cached sa s w :
  secretCache_ListLabels (sa_Namespace sa) {[ ServiceAccountSecretLabel := sa_Name sa ]} = Ret [s] ->
  isSecretForServiceAccount s sa = true -> token_of s <> "" ->
  EnsureSecretForServiceAccount env true (Some sa) w = (w, Ret s).
Proof.
  intros Hl Hs Ht. unfold EnsureSecretForServiceAccount, ServiceAccountSecret, secretLister.
  unfold bind, attempt, lift. rewrite Hl. simpl. unfold bind. rewrite Hs. simpl. by rewrite bool_decide_eq_false_2.
Qed.

Lemma GetPlanServiceAccountTokenSecret_cached sa s w :
  secretCache_ListLabels (sa_Namespace sa) {[ ServiceAccountSecretLabel := sa_Name sa ]} = Ret [s] ->
  isSecretForServiceAccount s sa = true -> token_of s <> "" ->
  GetPlanServiceAccountTokenSecret env (Some sa) w = (w, Ret (Some s, true, None)).
Proof.
  intros Hl Hs Ht. unfold GetPlanServiceAccountTokenSecret, bind, attempt.
  by rewrite (EnsureSecretForServiceAccount_cached sa s w Hl Hs Ht).
Qed.
End returned.
