(* ===== verification/EtcdRemoval.v ===== *)
(** * Removal of etcd machines ([bootstrap/controller.go], [etcdmgmt/saferemoval.go])

    An etcd machine carries a hook that keeps cluster-api from tearing its infrastructure down.  When
    the machine is deleted, the bootstrap controller asks the node to leave the etcd cluster and takes
    the hook off once it has left.  The machines, clusters and secrets read here come from caches; the
    node is read from and written to the downstream cluster. *)

From S2P Require Import Prelude GoLib Errors Types External Instances Capr PlanEntry World Store Handlers MachineDrain.

Definition capiMachinePreTerminateAnnotation : string := "pre-terminate.delete.hook.machine.cluster.x-k8s.io/rke-bootstrap-cleanup".
Definition capiMachinePreTerminateAnnotationOwner : string := "rke-bootstrap-controller".

Definition removeAnnotation (runtime : string) : string := "etcd." +:+ runtime +:+ ".cattle.io/remove".
Definition removedNodeNameAnnotation (runtime : string) : string := "etcd." +:+ runtime +:+ ".cattle.io/removed-node-name".

(** What a handler returns: the object, an error, and the delay in seconds after which the object is
    enqueued again, if it asks for that. *)
Record reply := mkReply { rp_bootstrap : RKEBootstrap; rp_err : option error; rp_enqueueAfter : option Z }.

Section removal.
Context `{C : Controllers}.

(** One attempt to set the annotation on the node. *)
Definition request_removal (runtime nodeName : string) : CM unit :=
  let* annotations := nodes_Get nodeName in
  let* annotations := assign_entry annotations (removeAnnotation runtime) "true" in
  nodes_Update nodeName annotations.

Definition SafelyRemoved (config : restConfig) (runtime nodeName : string) : CM bool :=
  let* _ := lift (NewForConfig config) in
  let* r := attempt (nodes_Get nodeName) in
  match r with
  | inr e => if IsNotFound e then ret true else fail e
  | inl annotations =>
      if map_get annotations (removeAnnotation runtime) =? "true"
      then ret (map_get annotations (removedNodeNameAnnotation runtime) !=? "")
      else
        let* _ := RetryOnConflict RetryOnConflict_Steps (request_removal runtime nodeName) in
        ret false
  end.

Definition ensureMachinePreTerminateAnnotationRemoved (bootstrap : RKEBootstrap) (machine : option Machine) : CM reply :=
  match machine with
  | None => ret (mkReply bootstrap None None)
  | Some machine =>
      match m_Annotations machine !! capiMachinePreTerminateAnnotation with
      | None => ret (mkReply bootstrap None None)
      | Some _ =>
          let* e := attempt_err (mgmt (machines_Update
            (set_m_Annotations (delete capiMachinePreTerminateAnnotation (m_Annotations machine)) machine))) in
          ret (mkReply bootstrap e None)
      end
  end.

(** [ForceRemoveEtcdAnnotation] is set to a spelling of "true". *)
Definition force_remove (bootstrap : RKEBootstrap) : bool :=
  match rb_Annotations bootstrap !! ForceRemoveEtcdAnnotation with Some v => ToLower v =? "true" | None => false end.

Definition add_hook (bootstrap : RKEBootstrap) (machine : Machine) : CM reply :=
  if bool_decide (m_Annotations machine !! capiMachinePreTerminateAnnotation = Some capiMachinePreTerminateAnnotationOwner)
  then ret (mkReply bootstrap None None)
  else
    let* e := attempt_err (mgmt (machines_Update (set_m_Annotations
      (<[capiMachinePreTerminateAnnotation := capiMachinePreTerminateAnnotationOwner]> (m_Annotations machine)) machine))) in
    ret (mkReply bootstrap e None).

(** The plan secrets of the cluster whose machine has joined through the join URL of this bootstrap;
    without a plan secret nobody has. *)
Definition joined_machines (bootstrap : RKEBootstrap) : res (list Secret) :=
  match secretCache_Get (rb_Namespace bootstrap) (PlanSecretFromBootstrapName (rb_Name bootstrap)) with
  | Panic => Panic
  | Fail e =>
      if IsNotFound e then Ret []
      else Fail (errorString ("error retrieving plan secret to validate it was not an init node: " +:+ Error e))
  | Ret planSecret =>
      match secretCache_ListLabels (rb_Namespace bootstrap) {[ CAPIClusterNameLabel := rb_ClusterName bootstrap ]} with
      | Panic => Panic
      | Fail e => Fail (errorString ("error encountered list plansecrets to ensure node was not joined: " +:+ Error e))
      | Ret planSecrets =>
          Ret (List.filter (fun ps => map_get (s_Annotations ps) JoinedToAnnotation
                                      =? map_get (s_Annotations planSecret) JoinURLAnnotation) planSecrets)
      end
  end.

(** [secret.Name(clusterName, secret.Kubeconfig)] of cluster-api. *)
Definition kubeconfig_name (clusterName : string) : string := clusterName +:+ "-kubeconfig".

(** The last part of the reconciliation: the machine has a node in a cluster that stays. *)
Definition remove_member (bootstrap : RKEBootstrap) (machine : Machine) (cp : RKEControlPlane) (nodeName : string) : CM reply :=
  let* joined := lift (joined_machines bootstrap) in
  match joined with
  | _ :: _ => ret (mkReply bootstrap (Some ErrSkip) (Some 5))
  | [] =>
      match secretCache_Get (rb_Namespace bootstrap) (kubeconfig_name (rb_ClusterName bootstrap)) with
      | Panic => panic
      | Fail e =>
          if IsNotFound e then ensureMachinePreTerminateAnnotationRemoved bootstrap (Some machine) else fail e
      | Ret kcSecret =>
          let* restConfig := lift (RESTConfigFromKubeConfig (map_get (s_Data kcSecret) "value")) in
          let* removed := SafelyRemoved restConfig (GetRuntimeCommand (sp_KubernetesVersion (cp_Spec cp))) nodeName in
          if removed then ensureMachinePreTerminateAnnotationRemoved bootstrap (Some machine)
          else ret (mkReply bootstrap (Some ErrSkip) (Some 5))
      end
  end.

(** A deleting etcd machine. *)
Definition release_machine (bootstrap : RKEBootstrap) (machine : Machine) : CM reply :=
  let release := ensureMachinePreTerminateAnnotationRemoved bootstrap (Some machine) in
  if rb_ClusterName bootstrap =? "" then release
  else
    match capiClusters_Get (rb_Namespace bootstrap) (rb_ClusterName bootstrap) with
    | Panic | Ret None => panic
    | Fail e => if IsNotFound e then release else fail e
    | Ret (Some capiCluster) =>
        match cc_ControlPlaneRef capiCluster with
        | None => release
        | Some ref =>
            match rkeControlPlaneCache_Get (ref_Namespace ref) (ref_Name ref) with
            | Panic => panic
            | Fail e => if IsNotFound e then release else fail e
            | Ret cp =>
                if cp_Deleting cp || cc_Deleting capiCluster then release
                else
                  match m_NodeRef machine with
                  | None => release
                  | Some node => remove_member bootstrap machine cp (ref_Name node)
                  end
            end
        end
    end.

(** An error of the parts above is returned beside the bootstrap. *)
Definition with_bootstrap (bootstrap : RKEBootstrap) (c : CM reply) : CM reply :=
  let* r := attempt c in
  match r with inl rp => ret rp | inr e => ret (mkReply bootstrap (Some e) None) end.

Definition reconcileMachinePreTerminateAnnotation (bootstrap : RKEBootstrap) : CM reply :=
  match GetMachineByOwner machineCache_Get (rb_Namespace bootstrap) (rb_OwnerReferences bootstrap) with
  | Panic => panic
  | Fail e =>
      if bool_decide (e = ErrNoMachineOwnerRef) || IsNotFound e then ret (mkReply bootstrap None None)
      else ret (mkReply bootstrap (Some e) None)
  | Ret machine =>
      if force_remove bootstrap || negb (bool_decide (is_Some (m_Labels machine !! EtcdRoleLabel)))
      then ensureMachinePreTerminateAnnotationRemoved bootstrap (Some machine)
      else if negb (m_Deleting machine) && negb (rb_Deleting bootstrap) then add_hook bootstrap machine
      else with_bootstrap bootstrap (release_machine bootstrap machine)
  end.

(** [rkeBootstrap.Update] of a copy with the cluster name of the label. *)
Definition OnChange (bootstrap : option RKEBootstrap) : CM (option reply) :=
  match bootstrap with
  | None => ret None
  | Some b =>
      if rb_Deleting b then ret (Some (mkReply b None None))
      else
        let v := map_get (rb_Labels b) CAPIClusterNameLabel in
        if (v !=? "") && (rb_ClusterName b !=? v) then
          let b := set_rb_ClusterName v b in
          let* e := attempt_err (mgmt (rkeBootstrap_Update b)) in
          ret (Some (mkReply b e None))
        else
          let* r := reconcileMachinePreTerminateAnnotation b in ret (Some r)
  end.

Definition OnRemove (bootstrap : RKEBootstrap) : CM reply := reconcileMachinePreTerminateAnnotation bootstrap.
End removal.

(** ** What a run can do *)

Section moves.
Context `{C : Controllers}.

(** An answer "not found" comes from the API server only, so none is in the schedule of failures. *)
Definition honest (w : CWorld) : Prop :=
  Forall (fun f => match f with Some e => IsNotFound e = false | None => True end) (w_faults (cw_world w)).

(** Machines and nodes stay as they are. *)
Definition still (w w' : CWorld) : Prop :=
  w_machines (cw_world w') = w_machines (cw_world w) /\ cw_down w' = cw_down w /\ (honest w -> honest w').

#[global] Instance still_preorder : PreOrder still.
Proof. split; [by repeat split|]. intros w1 w2 w3 (H1 & H2 & H3) (H4 & H5 & H6). repeat split; [by etrans..|auto]. Qed.

Definition mkey (m : Machine) : string * string := (m_Namespace m, m_Name m).

(** The node has left the etcd cluster: it is gone, or its removal is acknowledged. *)
Definition member_removed (runtime node : string) (nodes : gmap string (gmap string string)) : Prop :=
  match nodes !! node with
  | None => True
  | Some annotations => map_get annotations (removeAnnotation runtime) = "true"
                        /\ map_get annotations (removedNodeNameAnnotation runtime) <> ""
  end.

(** The bootstrap asks for the removal without further checks. *)
Definition forced (b : RKEBootstrap) : Prop :=
  exists v, rb_Annotations b !! ForceRemoveEtcdAnnotation = Some v /\ ToLower v = "true".
Lemma force_remove_spec b : force_remove b = true <-> forced b.
Proof.
  unfold force_remove, forced. destruct (rb_Annotations b !! ForceRemoveEtcdAnnotation); [rewrite bool_decide_eq_true|]; naive_solver.
Qed.

(** No plan secret of the cluster says that its machine joined through the join URL of this bootstrap, as far as the
    bootstrap has a plan secret itself. *)
Definition none_joined (b : RKEBootstrap) : Prop :=
  (exists e, secretCache_Get (rb_Namespace b) (PlanSecretFromBootstrapName (rb_Name b)) = Fail e /\ IsNotFound e = true)
  \/ exists own planSecrets, secretCache_Get (rb_Namespace b) (PlanSecretFromBootstrapName (rb_Name b)) = Ret own
       /\ secretCache_ListLabels (rb_Namespace b) {[ CAPIClusterNameLabel := rb_ClusterName b ]} = Ret planSecrets
       /\ forall s, s ∈ planSecrets -> map_get (s_Annotations s) JoinedToAnnotation <> map_get (s_Annotations own) JoinURLAnnotation.
Lemma joined_machines_nil b : joined_machines b = Ret [] -> none_joined b.
Proof.
  unfold joined_machines, none_joined. destruct (secretCache_Get _ _) as [own|e|]; [|destruct (IsNotFound e) eqn:En; [eauto|done]|done].
  destruct (secretCache_ListLabels _ _) as [l|e|]; [|done..]. intros [= Hnil]. right. exists own, l. split; [done|]. split; [done|].
  intros s Hs He. assert (s ∈ []) as Hin; [|by apply elem_of_nil in Hin]. rewrite <- Hnil. apply elem_of_filter_bool. split; [done|]. by apply bool_decide_eq_true.
Qed.

(** A deleting etcd machine of a cluster and control plane that stay, with a node. *)
Definition leaving (b : RKEBootstrap) (m : Machine) (cp : RKEControlPlane) (node : string) : Prop :=
  (m_Deleting m = true \/ rb_Deleting b = true) /\ ~ forced b /\ is_Some (m_Labels m !! EtcdRoleLabel)
  /\ (exists c ref, capiClusters_Get (rb_Namespace b) (rb_ClusterName b) = Ret (Some c) /\ cc_ControlPlaneRef c = Some ref
        /\ cc_Deleting c = false /\ rkeControlPlaneCache_Get (ref_Namespace ref) (ref_Name ref) = Ret cp)
  /\ cp_Deleting cp = false /\ (exists ref, m_NodeRef m = Some ref /\ ref_Name ref = node).

(** The reasons for which the hook may be taken off a machine. *)
Inductive release_reason (b : RKEBootstrap) (m : Machine) (nodes : gmap string (gmap string string)) : Prop :=
| rr_forced : forced b -> release_reason b m nodes
| rr_not_etcd : m_Labels m !! EtcdRoleLabel = None -> release_reason b m nodes
| rr_no_cluster_name : rb_ClusterName b = "" -> release_reason b m nodes
| rr_no_cluster e :
    capiClusters_Get (rb_Namespace b) (rb_ClusterName b) = Fail e -> IsNotFound e = true -> release_reason b m nodes
| rr_no_control_plane_ref c :
    capiClusters_Get (rb_Namespace b) (rb_ClusterName b) = Ret (Some c) -> cc_ControlPlaneRef c = None ->
    release_reason b m nodes
| rr_no_control_plane c ref e :
    capiClusters_Get (rb_Namespace b) (rb_ClusterName b) = Ret (Some c) -> cc_ControlPlaneRef c = Some ref ->
    rkeControlPlaneCache_Get (ref_Namespace ref) (ref_Name ref) = Fail e -> IsNotFound e = true ->
    release_reason b m nodes
| rr_cluster_deleting c ref cp :
    capiClusters_Get (rb_Namespace b) (rb_ClusterName b) = Ret (Some c) -> cc_ControlPlaneRef c = Some ref ->
    rkeControlPlaneCache_Get (ref_Namespace ref) (ref_Name ref) = Ret cp ->
    cp_Deleting cp = true \/ cc_Deleting c = true -> release_reason b m nodes
| rr_no_node : m_NodeRef m = None -> release_reason b m nodes
| rr_no_kubeconfig e :
    none_joined b ->
    secretCache_Get (rb_Namespace b) (kubeconfig_name (rb_ClusterName b)) = Fail e -> IsNotFound e = true ->
    release_reason b m nodes
| rr_member_removed cp node :
    leaving b m cp node -> none_joined b ->
    member_removed (GetRuntimeCommand (sp_KubernetesVersion (cp_Spec cp))) node nodes -> release_reason b m nodes.

(** What one run can change. *)
Inductive removal_move (b : RKEBootstrap) (w w' : CWorld) : Prop :=
| rm_still : still w w' -> removal_move b w w'
| rm_hook m :
    GetMachineByOwner machineCache_Get (rb_Namespace b) (rb_OwnerReferences b) = Ret m ->
    m_Deleting m = false -> rb_Deleting b = false -> force_remove b = false -> is_Some (m_Labels m !! EtcdRoleLabel) ->
    w_machines (cw_world w') = <[mkey m := set_m_Annotations
      (<[capiMachinePreTerminateAnnotation := capiMachinePreTerminateAnnotationOwner]> (m_Annotations m)) m]> (w_machines (cw_world w)) ->
    cw_down w' = cw_down w -> removal_move b w w'
| rm_release m :
    GetMachineByOwner machineCache_Get (rb_Namespace b) (rb_OwnerReferences b) = Ret m ->
    forced b \/ m_Labels m !! EtcdRoleLabel = None \/ m_Deleting m = true \/ rb_Deleting b = true ->
    release_reason b m (ds_nodes (cw_down w)) ->
    w_machines (cw_world w') = <[mkey m := set_m_Annotations
      (delete capiMachinePreTerminateAnnotation (m_Annotations m)) m]> (w_machines (cw_world w)) ->
    cw_down w' = cw_down w -> removal_move b w w'
| rm_request m cp node annotations :
    GetMachineByOwner machineCache_Get (rb_Namespace b) (rb_OwnerReferences b) = Ret m ->
    leaving b m cp node -> none_joined b ->
    ds_nodes (cw_down w) !! node = Some annotations ->
    ds_nodes (cw_down w') = <[node := <[removeAnnotation (GetRuntimeCommand (sp_KubernetesVersion (cp_Spec cp))) := "true"]>
      annotations]> (ds_nodes (cw_down w)) ->
    w_machines (cw_world w') = w_machines (cw_world w) -> removal_move b w w'.

Lemma wp_request_still (Q : res unit -> CWorld -> Prop) w :
  (forall w', still w w' -> Q (Ret tt) w') ->
  (forall w' e, still w w' -> (honest w -> IsNotFound e = false) -> Q (Fail e) w') ->
  wp (mgmt api_request) Q w.
Proof.
  intros H1 H2. unfold wp, mgmt, api_request. destruct (w_faults (cw_world w)) as [|[e|] fs] eqn:Ef; simpl;
    [apply H1|apply H2|apply H1]; repeat split; unfold honest; simpl; rewrite ?Ef; try done; by inversion 1.
Qed.

Lemma wp_nodes_Get name (Q : res (gmap string string) -> CWorld -> Prop) w :
  (forall w' anns, still w w' -> ds_nodes (cw_down w) !! name = Some anns -> Q (Ret anns) w') ->
  (forall w' e, still w w' -> (honest w -> IsNotFound e = true -> ds_nodes (cw_down w) !! name = None) -> Q (Fail e) w') ->
  wp (nodes_Get name) Q w.
Proof.
  intros H1 H2. unfold nodes_Get. apply wp_bind, wp_request_still.
  - intros w' Hs. unfold wp, bind, gets. simpl. destruct Hs as (H3 & H4 & H5). rewrite H4.
    destruct (ds_nodes (cw_down w) !! name) as [anns|] eqn:E; simpl; [apply H1|apply H2]; by repeat split.
  - intros w' e Hs He. apply H2; [done|]. intros Hh. by rewrite He.
Qed.

Lemma wp_machines_Update m (Q : res (option error) -> CWorld -> Prop) w :
  (forall w', w_machines (cw_world w') = <[mkey m := m]> (w_machines (cw_world w)) -> cw_down w' = cw_down w -> Q (Ret None) w') ->
  (forall w' e, still w w' -> Q (Ret (Some e)) w') ->
  wp (attempt_err (mgmt (machines_Update m))) Q w.
Proof.
  intros H1 H2. apply wp_attempt_err. unfold machines_Update. apply wp_mgmt_bind, wp_bind, wp_request_still; [|eauto].
  intros w' (H3 & H4 & H5). unfold wp, mgmt, bind, gets, modify, ret. simpl. apply H1; simpl; [by rewrite H3|done].
Qed.

Lemma wp_request_removal runtime node w (Q : res unit -> CWorld -> Prop) :
  (forall w' anns, ds_nodes (cw_down w) !! node = Some anns ->
     ds_nodes (cw_down w') = <[node := <[removeAnnotation runtime := "true"]> anns]> (ds_nodes (cw_down w)) ->
     w_machines (cw_world w') = w_machines (cw_world w) -> Q (Ret tt) w') ->
  (forall w' r, r <> Ret tt -> still w w' -> Q r w') ->
  wp (request_removal runtime node) Q w.
Proof.
  intros H1 H2. unfold request_removal. apply wp_bind, wp_nodes_Get; [|intros; by apply H2].
  intros w1 anns Hs Hn. apply wp_bind. unfold assign_entry. case_bool_decide; [by apply H2|]. apply wp_ret.
  unfold nodes_Update. apply wp_bind, wp_request_still; [|intros w2 e Hs2 _; apply H2; [done|by etrans]].
  intros w2 Hs2. assert (still w w2) as (Hm & Hd & Hh) by by etrans. unfold wp, bind, gets. simpl. rewrite Hd, Hn.
  unfold modify. simpl. by apply (H1 _ anns).
Qed.
(** The outcomes of [SafelyRemoved]. *)
Lemma wp_SafelyRemoved cfg runtime node w (Q : res bool -> CWorld -> Prop) :
  (forall w', still w w' -> (honest w -> member_removed runtime node (ds_nodes (cw_down w))) -> Q (Ret true) w') ->
  (forall w' anns, ds_nodes (cw_down w) !! node = Some anns ->
     ds_nodes (cw_down w') = <[node := <[removeAnnotation runtime := "true"]> anns]> (ds_nodes (cw_down w)) ->
     w_machines (cw_world w') = w_machines (cw_world w) -> Q (Ret false) w') ->
  (forall w' r, r <> Ret true -> still w w' -> Q r w') ->
  wp (SafelyRemoved cfg runtime node) Q w.
Proof.
  intros Ht Hf Hs. unfold SafelyRemoved. apply wp_bind, wp_lift. destruct (NewForConfig cfg); [|by apply Hs..].
  apply wp_bind, wp_attempt, wp_nodes_Get.
  - intros w1 anns Hs1 Hn. destruct (_ =? "true") eqn:Er.
    + apply wp_ret. destruct (_ !=? "") eqn:Ed; [|by apply Hs]. apply Ht; [done|]. intros _. unfold member_removed.
      rewrite Hn. apply bool_decide_eq_true in Er. by apply negb_true_iff, bool_decide_eq_false in Ed.
    + apply wp_bind, (wp_RetryOnConflict _ _ _ (still w)); [intros w2 e Hs2; by apply Hs| |done].
      intros w2 Hs2. destruct Hs2 as (Hm2 & Hd2 & Hh2). apply wp_request_removal.
      * intros w3 anns' Hn' Hw3 Hm3. apply wp_ret. apply (Hf w3 anns'); [by rewrite <- Hd2|by rewrite <- Hd2|by rewrite Hm3].
      * intros w3 r Hr Hs3. assert (still w w3) as Hs' by (etrans; [|done]; by repeat split).
        destruct r as [[]|e|]; [done|done|by apply Hs].
  - intros w1 e Hs1 He. destruct (IsNotFound e) eqn:En; [|by apply Hs]. apply Ht; [done|]. intros Hh.
    unfold member_removed. by rewrite He.
Qed.

Section steps.
Context (b : RKEBootstrap) (w : CWorld) (m : Machine).
Hypothesis Hhonest : honest w.
Hypothesis Howner : GetMachineByOwner machineCache_Get (rb_Namespace b) (rb_OwnerReferences b) = Ret m.

Lemma wp_release w1 (Q : res reply -> CWorld -> Prop) :
  still w w1 ->
  forced b \/ m_Labels m !! EtcdRoleLabel = None \/ m_Deleting m = true \/ rb_Deleting b = true ->
  release_reason b m (ds_nodes (cw_down w)) ->
  (forall r w', removal_move b w w' -> Q r w') ->
  wp (ensureMachinePreTerminateAnnotationRemoved b (Some m)) Q w1.
Proof.
  intros Hs Hd Hr HQ. unfold ensureMachinePreTerminateAnnotationRemoved.
  destruct (m_Annotations m !! _) eqn:E; [|apply wp_ret, HQ; by apply rm_still].
  apply wp_bind. apply wp_machines_Update.
  - intros w2 Hm Hc. apply wp_ret, HQ. eapply rm_release; eauto; destruct Hs as (H1 & H2 & H3); [by rewrite Hm, H1|by rewrite Hc].
  - intros w2 e Hs2. apply wp_ret, HQ, rm_still. by etrans.
Qed.

Lemma remove_member_moves cp node w1 :
  still w w1 -> leaving b m cp node ->
  wp (remove_member b m cp node) (fun _ w' => removal_move b w w') w1.
Proof.
  intros Hs Hl. assert (m_Deleting m = true \/ rb_Deleting b = true) as Hd by by destruct Hl.
  unfold remove_member. apply wp_bind, wp_lift. destruct (joined_machines b) as [joined|e|] eqn:Ej; [|by apply rm_still..].
  destruct joined as [|s joined]; [apply joined_machines_nil in Ej|apply wp_ret; by apply rm_still].
  destruct (secretCache_Get _ _) as [kc|e|] eqn:Ek; [| |by apply rm_still].
  - apply wp_bind, wp_lift. destruct (RESTConfigFromKubeConfig _) as [cfg|e|]; [|by apply rm_still..].
    apply wp_bind. destruct Hs as (Hs1 & Hs2 & Hs3). apply wp_SafelyRemoved.
    + intros w2 Hw2 Hr. rewrite Hs2 in Hr. eapply wp_release; [|by auto|eapply rr_member_removed; eauto|done].
      etrans; [|done]. by repeat split.
    + intros w2 anns Hn Hw2 Hm2. rewrite Hs2 in Hn, Hw2. apply wp_ret. eapply rm_request; eauto. by etrans.
    + intros w2 r Hr Hw2. assert (removal_move b w w2) as Hstill by (apply rm_still; etrans; [|done]; by repeat split).
      destruct r as [[]| |]; [done|by apply wp_ret|done|done].
  - destruct (IsNotFound e) eqn:En; [|by apply rm_still].
    eapply wp_release; [done|by auto|by eapply rr_no_kubeconfig|done].
Qed.

Lemma release_machine_moves :
  m_Deleting m = true \/ rb_Deleting b = true -> ~ forced b -> is_Some (m_Labels m !! EtcdRoleLabel) ->
  wp (release_machine b m) (fun _ w' => removal_move b w w') w.
Proof.
  intros Hd Hf He. assert (still w w) as Hs by reflexivity. unfold release_machine.
  case_bool_decide as Hcn; [by eapply wp_release; [|auto|apply rr_no_cluster_name|]|].
  destruct (capiClusters_Get _ _) as [[c|]|e|] eqn:Ec; [|by apply rm_still| |by apply rm_still].
  2:{ destruct (IsNotFound e) eqn:En; [|by apply rm_still]. by eapply wp_release; [|auto|eapply rr_no_cluster|]. }
  destruct (cc_ControlPlaneRef c) as [ref|] eqn:Er; [|by eapply wp_release; [|auto|eapply rr_no_control_plane_ref|]].
  destruct (rkeControlPlaneCache_Get _ _) as [cp|e|] eqn:Ecp; [| |by apply rm_still].
  2:{ destruct (IsNotFound e) eqn:En; [|by apply rm_still]. by eapply wp_release; [|auto|eapply rr_no_control_plane|]. }
  destruct (cp_Deleting cp || cc_Deleting c) eqn:Edel; [apply orb_true_iff in Edel; by eapply wp_release; [|auto|eapply rr_cluster_deleting|]|].
  apply orb_false_iff in Edel as [Edel1 Edel2].
  destruct (m_NodeRef m) as [node|] eqn:En; [|by eapply wp_release; [|auto|apply rr_no_node|]].
  apply remove_member_moves; [done|]. repeat split; eauto 10.
Qed.
End steps.

Lemma reconcile_moves b w w' r :
  honest w -> reconcileMachinePreTerminateAnnotation b w = (w', r) -> removal_move b w w'.
Proof.
  intros Hh Hrun. apply (wp_run _ (fun _ w' => removal_move b w w') _ _ _ Hrun). unfold reconcileMachinePreTerminateAnnotation.
  destruct (GetMachineByOwner _ _ _) as [m|e|] eqn:Eo; [|destruct (_ || _); by apply rm_still|by apply rm_still].
  destruct (force_remove b || _) eqn:Ef.
  - eapply wp_release; [done|by reflexivity| | |done]; apply orb_true_iff in Ef as [Ef%force_remove_spec|Ef%negb_true_iff%bool_decide_eq_false]; auto;
      [|by apply rr_forced|apply rr_not_etcd]; [right; left|]; by apply eq_None_not_Some.
  - apply orb_false_iff in Ef as [Ef1 Ef2%negb_false_iff%bool_decide_eq_true].
    destruct (negb (m_Deleting m) && _) eqn:Ed.
    + apply andb_true_iff in Ed as [Ed1%negb_true_iff Ed2%negb_true_iff]. unfold add_hook.
      case_bool_decide; [by apply rm_still|]. apply wp_bind, wp_machines_Update.
      * intros w1 Hm Hc. apply wp_ret. by eapply rm_hook.
      * intros w1 e Hs. apply wp_ret. by apply rm_still.
    + unfold with_bootstrap. apply wp_bind, wp_attempt. eapply wp_mono; [apply (release_machine_moves b w m); auto|].
      * destruct (m_Deleting m), (rb_Deleting b); auto.
      * intros Hf%force_remove_spec. congruence.
      * intros [rp|e|] w1 Hm; [by apply wp_ret..|done].
Qed.
End moves.

(** ** Quorum *)

Section safety.
Context `{C : Controllers}.

(** A run of one of the two handlers on a bootstrap. *)
Definition handled_bootstrap (b : RKEBootstrap) (w w' : CWorld) : Prop :=
  (exists r, OnChange (Some b) w = (w', r)) \/ (exists r, OnRemove b w = (w', r)).

Lemma handled_moves b w w' : honest w -> handled_bootstrap b w w' -> removal_move b w w'.
Proof.
  intros Hh [[r Hr]|[r Hr]]; [|by eapply reconcile_moves].
  apply (wp_run _ (fun _ w' => removal_move b w w') _ _ _ Hr). unfold OnChange.
  destruct (rb_Deleting b); [by apply rm_still|]. destruct (_ && _).
  - apply wp_bind, wp_attempt_err. unfold rkeBootstrap_Update. apply wp_mgmt_bind, wp_bind, wp_request_still.
    + intros w1 (H1 & H2 & H3). by apply rm_still.
    + intros w1 e Hs _. by apply rm_still.
  - apply wp_bind. apply wp_intro. intros w1 r1 Hrun. apply reconcile_moves in Hrun; [|done].
    by destruct r1; [apply wp_ret|..].
Qed.

Definition has_hook (m : Machine) : Prop := is_Some (m_Annotations m !! capiMachinePreTerminateAnnotation).

(** C8: however a run of the bootstrap controller ends, it takes the termination hook off a machine only for one
    of the reasons its contract lists (forced, no etcd machine, cluster or control plane or node or kubeconfig
    gone, or the etcd member has left and no machine is joined to it), and it asks a node to leave the
    etcd cluster only when it is the node of the machine of this bootstrap, which is being deleted from a cluster that
    stays, and no machine of the cluster is joined to it: that node then carries the request, and no other node
    changes. *)
Theorem etcd_removal_safe b w w' k m0 m1 :
  honest w -> handled_bootstrap b w w' ->
  w_machines (cw_world w) !! k = Some m0 -> has_hook m0 ->
  w_machines (cw_world w') !! k = Some m1 ->
  (~ has_hook m1 ->
     exists m, GetMachineByOwner machineCache_Get (rb_Namespace b) (rb_OwnerReferences b) = Ret m /\ mkey m = k
       /\ (forced b \/ m_Labels m !! EtcdRoleLabel = None \/ m_Deleting m = true \/ rb_Deleting b = true)
       /\ release_reason b m (ds_nodes (cw_down w)))
  /\ (forall node, ds_nodes (cw_down w') !! node <> ds_nodes (cw_down w) !! node ->
        exists m cp anns, GetMachineByOwner machineCache_Get (rb_Namespace b) (rb_OwnerReferences b) = Ret m
          /\ leaving b m cp node /\ none_joined b /\ has_hook m1 /\ ds_nodes (cw_down w) !! node = Some anns
          /\ ds_nodes (cw_down w') !! node = Some (<[removeAnnotation (GetRuntimeCommand (sp_KubernetesVersion (cp_Spec cp))) := "true"]> anns)).
Proof.
  intros Hh Hrun Hm0 Hk0 Hm1. destruct (handled_moves _ _ _ Hh Hrun)
    as [(Hm & Hd & _)|m Ho _ _ _ _ Hm Hd|m Ho Hwhy Hr Hm Hd|m cp node anns Ho Hl Hj Hn Hw Hm];
    rewrite Hm in Hm1; try (split; [|intros node' Hne; by rewrite Hd in Hne]).
  - intros Hno. by simplify_eq.
  - intros Hno. destruct (decide (mkey m = k)) as [<-|Hne]; [|rewrite lookup_insert_ne in Hm1 by done; by simplify_eq].
    rewrite lookup_insert_eq in Hm1. injection Hm1 as <-. destruct Hno. exists capiMachinePreTerminateAnnotationOwner.
    apply lookup_insert_eq.
  - intros Hno. destruct (decide (mkey m = k)) as [<-|Hne]; [by exists m|].
    rewrite lookup_insert_ne in Hm1 by done. by simplify_eq.
  - simplify_eq. split; [by intros []|]. intros node' Hne.
    destruct (decide (node = node')) as [<-|Hnn]; [exists m, cp, anns; by rewrite Hw, lookup_insert_eq|]. by rewrite Hw, lookup_insert_ne in Hne.
Qed.
End safety.

(** ** Progress *)

Section progress.
Context `{C : Controllers}.

(** The rke2 or k3s server on the node acknowledges the removal. *)
Definition acknowledge (runtime node : string) (w : CWorld) : CWorld :=
  set_cw_down (mkDownstream
    (alter (<[removedNodeNameAnnotation runtime := node]>) node (ds_nodes (cw_down w))) (ds_calls (cw_down w))) w.

Lemma removeAnnotation_ne runtime : removedNodeNameAnnotation runtime <> removeAnnotation runtime.
Proof.
  unfold removedNodeNameAnnotation, removeAnnotation. intros E. do 2 apply app_inj_l in E. done.
Qed.

Lemma nodes_Get_calm node w anns :
  w_faults (cw_world w) = [] -> ds_nodes (cw_down w) !! node = Some anns -> nodes_Get node w = (w, Ret anns).
Proof.
  intros Hf Hn. unfold nodes_Get, bind, mgmt, api_request, gets. rewrite Hf. simpl. rewrite Hn. by destruct w.
Qed.

Lemma nodes_Update_calm node w anns anns' :
  w_faults (cw_world w) = [] -> ds_nodes (cw_down w) !! node = Some anns ->
  nodes_Update node anns' w
  = (set_cw_down (mkDownstream (<[node := anns']> (ds_nodes (cw_down w))) (ds_calls (cw_down w))) w, Ret tt).
Proof.
  intros Hf Hn. unfold nodes_Update, bind, mgmt, api_request, gets. rewrite Hf. simpl. rewrite Hn. by destruct w.
Qed.

Lemma machines_Update_calm m w :
  w_faults (cw_world w) = [] ->
  exists w', mgmt (machines_Update m) w = (w', Ret m) /\ w_machines (cw_world w') !! mkey m = Some m.
Proof.
  intros Hf. unfold machines_Update, bind, mgmt, api_request, gets, modify, ret. rewrite Hf. simpl.
  eexists. split; [done|]. apply lookup_insert_eq.
Qed.

Section member.
Context (b : RKEBootstrap) (m : Machine) (cp : RKEControlPlane) (node : string) (kc : Secret) (cfg : restConfig) (k8s : k8sInterface).
Hypothesis Hsteps : (0 < RetryOnConflict_Steps)%nat.
Hypothesis Howner : GetMachineByOwner machineCache_Get (rb_Namespace b) (rb_OwnerReferences b) = Ret m.
Hypothesis Hname : rb_ClusterName b <> "".
Hypothesis Hleaving : leaving b m cp node.
Hypothesis Hjoined : joined_machines b = Ret [].
Hypothesis Hkc : secretCache_Get (rb_Namespace b) (kubeconfig_name (rb_ClusterName b)) = Ret kc.
Hypothesis Hcfg : RESTConfigFromKubeConfig (map_get (s_Data kc) "value") = Ret cfg.
Hypothesis Hk8s : NewForConfig cfg = Ret k8s.
Hypothesis Hhook : has_hook m.
Let runtime : string := GetRuntimeCommand (sp_KubernetesVersion (cp_Spec cp)).

Lemma reconcile_leaving w :
  reconcileMachinePreTerminateAnnotation b w
  = with_bootstrap b (let* removed := SafelyRemoved cfg runtime node in
      if removed then ensureMachinePreTerminateAnnotationRemoved b (Some m)
      else ret (mkReply b (Some ErrSkip) (Some 5))) w.
Proof.
  destruct Hleaving as (Hd & Hf & He & (c & ref & Hc & Href & Hcd & Hcp) & Hcpd & (nref & Hn & <-)).
  unfold reconcileMachinePreTerminateAnnotation. rewrite <- force_remove_spec, not_true_iff_false in Hf. rewrite Howner, Hf, bool_decide_eq_true_2 by done. simpl.
  replace (negb (m_Deleting m) && negb (rb_Deleting b)) with false by (destruct (m_Deleting m), (rb_Deleting b); naive_solver).
  unfold with_bootstrap, release_machine. rewrite bool_decide_eq_false_2, Hc, Href, Hcp, Hcpd, Hcd, Hn by done. simpl.
  unfold remove_member, lift. rewrite Hjoined, Hkc, Hcfg. done.
Qed.

Lemma first_run w anns :
  w_faults (cw_world w) = [] -> ds_nodes (cw_down w) !! node = Some anns -> anns <> ∅ ->
  map_get anns (removeAnnotation runtime) <> "true" ->
  reconcileMachinePreTerminateAnnotation b w
  = (set_cw_down (mkDownstream (<[node := <[removeAnnotation runtime := "true"]> anns]> (ds_nodes (cw_down w))) (ds_calls (cw_down w))) w,
     Ret (mkReply b (Some ErrSkip) (Some 5))).
Proof.
  intros Hf Hn Ha Hr. rewrite reconcile_leaving. unfold with_bootstrap, SafelyRemoved.
  assert (request_removal runtime node w = (set_cw_down (mkDownstream (<[node := <[removeAnnotation runtime := "true"]> anns]>
    (ds_nodes (cw_down w))) (ds_calls (cw_down w))) w, Ret tt)) as Hreq.
  { unfold request_removal. rewrite (bind_run _ _ _ _ _ (nodes_Get_calm node w anns Hf Hn)). unfold assign_entry.
    rewrite bool_decide_eq_false_2 by done. by apply nodes_Update_calm with anns. }
  unfold bind, attempt, lift. rewrite Hk8s, (nodes_Get_calm node w anns Hf Hn), bool_decide_eq_false_2 by done.
  destruct RetryOnConflict_Steps as [|n]; [lia|]. simpl. unfold bind, attempt. by rewrite Hreq.
Qed.

Lemma last_run w anns :
  w_faults (cw_world w) = [] -> ds_nodes (cw_down w) !! node = Some anns ->
  map_get anns (removeAnnotation runtime) = "true" -> map_get anns (removedNodeNameAnnotation runtime) <> "" ->
  exists w', reconcileMachinePreTerminateAnnotation b w = (w', Ret (mkReply b None None))
    /\ w_machines (cw_world w') !! mkey m
       = Some (set_m_Annotations (delete capiMachinePreTerminateAnnotation (m_Annotations m)) m).
Proof.
  intros Hf Hn Ha Hr. rewrite reconcile_leaving. unfold with_bootstrap, SafelyRemoved, bind, attempt, lift.
  rewrite Hk8s, (nodes_Get_calm node w anns Hf Hn), bool_decide_eq_true_2, bool_decide_eq_false_2 by done. cbn.
  destruct Hhook as [v Hv]. rewrite Hv.
  destruct (machines_Update_calm (set_m_Annotations (delete capiMachinePreTerminateAnnotation (m_Annotations m)) m) w Hf)
    as (w' & Hu & Hw'). exists w'. unfold attempt_err, bind, attempt. by rewrite Hu.
Qed.
Lemma OnChange_reconcile w :
  rb_Deleting b = false -> map_get (rb_Labels b) CAPIClusterNameLabel = rb_ClusterName b ->
  OnChange (Some b) w = bind (reconcileMachinePreTerminateAnnotation b) (fun r => ret (Some r)) w.
Proof.
  intros Hd Hl. unfold OnChange. rewrite Hd, Hl, (bool_decide_eq_true_2 (rb_ClusterName b = rb_ClusterName b)) by done.
  by rewrite andb_false_r.
Qed.

(** The removal of an etcd machine completes: when the machine is being deleted from a cluster that stays, nobody
    is joined to it and requests succeed, the next run marks the node for removal and asks to be called again, and the
    run after the node has acknowledged takes the hook off the machine, without an error. *)
Theorem removal_completes w anns :
  rb_Deleting b = false -> map_get (rb_Labels b) CAPIClusterNameLabel = rb_ClusterName b -> node <> "" ->
  w_faults (cw_world w) = [] -> ds_nodes (cw_down w) !! node = Some anns -> anns <> ∅ ->
  map_get anns (removeAnnotation runtime) <> "true" ->
  exists w1 w2,
    OnChange (Some b) w = (w1, Ret (Some (mkReply b (Some ErrSkip) (Some 5))))
    /\ OnChange (Some b) (acknowledge runtime node w1) = (w2, Ret (Some (mkReply b None None)))
    /\ w_machines (cw_world w2) !! mkey m
       = Some (set_m_Annotations (delete capiMachinePreTerminateAnnotation (m_Annotations m)) m).
Proof.
  intros Hd Hl Hnn Hf Hn Ha Hr. pose proof (first_run w anns Hf Hn Ha Hr) as H1.
  set (w1 := fst (reconcileMachinePreTerminateAnnotation b w)). assert (w1 = fst (reconcileMachinePreTerminateAnnotation b w)) as Ew by done.
  rewrite H1 in Ew. cbn [fst] in Ew.
  destruct (last_run (acknowledge runtime node w1)
    (<[removedNodeNameAnnotation runtime := node]> (<[removeAnnotation runtime := "true"]> anns))) as (w2 & H2 & H3).
  - by rewrite Ew.
  - rewrite Ew. cbn. by rewrite lookup_alter_eq, lookup_insert_eq.
  - unfold map_get. rewrite lookup_insert_ne by apply removeAnnotation_ne. by rewrite lookup_insert_eq.
  - unfold map_get. by rewrite lookup_insert_eq.
  - exists w1, w2. rewrite !OnChange_reconcile by done. unfold bind at 1 2. rewrite H1, H2, Ew. done.
Qed.
End member.
End progress.

Section witnesses.
#[local] Existing Instance demoExternal.

(** The machine is being deleted; its plan secret has a join URL and the other machine has joined elsewhere. *)
Definition demoEtcdMachine : Machine :=
  mkMachine "fleet-default" "m1" "m1-uid" {[ EtcdRoleLabel := "true" ]}
    {[ capiMachinePreTerminateAnnotation := capiMachinePreTerminateAnnotationOwner ]} true None
    (mkObjectReference "CustomMachine" "fleet-default" "m1" "rke.cattle.io/v1") "Deleting" []
    (Some (mkObjectReference "Node" "" "m1" "v1")) None [] None "c1" "cluster.x-k8s.io/v1beta1" "Machine" None None.
Definition demoStayingCluster : CAPICluster :=
  mkCAPICluster "fleet-default" "c1" ∅ false false
    (Some (mkObjectReference "RKEControlPlane" "fleet-default" "c1" "rke.cattle.io/v1")) true [].
Definition demoPlanSecret (name : string) (anns : gmap string string) : Secret :=
  mkSecret "fleet-default" (name +:+ "-machine-plan") SecretTypeMachinePlan {[ CAPIClusterNameLabel := "c1" ]} anns ∅ [] false.
Definition demoBootstrap : RKEBootstrap :=
  mkRKEBootstrap "fleet-default" "m1" ∅ [mkOwnerReference capi_GroupVersion "Machine" "m1" "" true]
    {[ CAPIClusterNameLabel := "c1" ]} false "c1" None false.
Definition demoRemovalPlanner (joinURL : gmap string string) : Planner :=
  demoPlanner {[ ("fleet-default", "c1-kubeconfig") := demoKubeconfig; ("fleet-default", "m1-machine-plan") := demoPlanSecret "m1" joinURL ]}
    ∅ [demoEtcdMachine] (Some demoStayingCluster).
Definition demoRemovalControllers (joinURL joinedTo : gmap string string) : @Controllers demoExternal (demoRemovalPlanner joinURL) :=
  demoControllers (demoRemovalPlanner joinURL) [demoEtcdMachine]
    [demoPlanSecret "m1" joinURL; demoPlanSecret "m2" joinedTo] (Some demoControlPlane).
Definition demoJoinURL : gmap string string := {[ JoinURLAnnotation := "https://10.0.0.1:9345" ]}.
Definition demoJoined : gmap string string := {[ JoinedToAnnotation := "https://10.0.0.2:9345" ]}.
Definition demoRP : Planner := demoRemovalPlanner demoJoinURL.
#[local] Existing Instance demoRP.
Definition demoRC : @Controllers demoExternal demoRP := demoRemovalControllers demoJoinURL demoJoined.
#[local] Existing Instance demoRC.

Definition demoRemovalWorld (anns : gmap string string) : CWorld :=
  mkCWorld (set_w_machines {[ mkey demoEtcdMachine := demoEtcdMachine ]} (mkWorld (mkPlan ∅ ∅ ∅) ∅ ∅ ∅ ∅ ∅ [] "" []))
    (mkDownstream {[ "m1" := anns ]} []).

Lemma demo_leaving : leaving demoBootstrap demoEtcdMachine demoControlPlane "m1".
Proof.
  split; [by left|]. split; [by intros ?%force_remove_spec|]. split; [eexists; reflexivity|]. split; [|split; [done|by eexists]].
  exists demoStayingCluster, (mkObjectReference "RKEControlPlane" "fleet-default" "c1" "rke.cattle.io/v1"). by repeat split.
Qed.

Lemma removal_completes_witness :
  exists w1 w2,
    OnChange (Some demoBootstrap) (demoRemovalWorld {[ "role" := "etcd" ]}) = (w1, Ret (Some (mkReply demoBootstrap (Some ErrSkip) (Some 5))))
    /\ OnChange (Some demoBootstrap) (acknowledge "rke2" "m1" w1) = (w2, Ret (Some (mkReply demoBootstrap None None)))
    /\ w_machines (cw_world w2) !! ("fleet-default", "m1")
       = Some (set_m_Annotations (delete capiMachinePreTerminateAnnotation (m_Annotations demoEtcdMachine)) demoEtcdMachine).
Proof.
  apply (removal_completes (C := demoRC) demoBootstrap demoEtcdMachine demoControlPlane "m1" demoKubeconfig "kubeconfig" "kubeconfig")
    with (anns := {[ "role" := "etcd" ]}); try done; [vm_compute; lia|apply demo_leaving|by eexists].
Defined.

Lemma etcd_removal_safe_witness :
  let w := demoRemovalWorld {[ removeAnnotation "rke2" := "true"; removedNodeNameAnnotation "rke2" := "m1" ]} in
  exists m1, w_machines (cw_world (fst (OnChange (Some demoBootstrap) w))) !! ("fleet-default", "m1") = Some m1
    /\ ~ has_hook m1
    /\ exists m, GetMachineByOwner machineCache_Get (rb_Namespace demoBootstrap) (rb_OwnerReferences demoBootstrap) = Ret m
         /\ mkey m = ("fleet-default", "m1") /\ release_reason demoBootstrap m (ds_nodes (cw_down w)).
Proof.
  intros w. eexists. split; [vm_compute; reflexivity|]. split; [vm_compute; by intros [v [=]]|].
  destruct (etcd_removal_safe demoBootstrap w (fst (OnChange (Some demoBootstrap) w)) ("fleet-default", "m1") demoEtcdMachine
    (set_m_Annotations ∅ demoEtcdMachine)) as [Hr _].
  - constructor.
  - left. exists (snd (OnChange (Some demoBootstrap) w)). apply surjective_pairing.
  - reflexivity.
  - by eexists.
  - vm_compute. reflexivity.
  - destruct Hr as (m & Ho & Hk & _ & Hr); [vm_compute; by intros [v [=]]|]. by exists m.
Defined.

(** A machine without a join URL counts as joined to by every plan secret without the annotation [joined-to],
    its own included: its member is never removed and the hook stays. *)
Lemma removal_without_join_url :
  let C := demoRemovalControllers ∅ demoJoined in
  @joined_machines demoExternal (demoRemovalPlanner ∅) C demoBootstrap = Ret [demoPlanSecret "m1" ∅].
Proof. vm_compute. reflexivity. Qed.

(** A node without annotations: the assignment is to a nil map. *)
Lemma removal_of_bare_node : snd (OnChange (Some demoBootstrap) (demoRemovalWorld ∅)) = Panic.
Proof. vm_compute. reflexivity. Qed.
End witnesses.
