(* ===== verification/Bootstrap.v ===== *)
(** * Objects generated for a bootstrap ([bootstrap/controller.go])

    For every machine the bootstrap controller generates the plan secret, a service account that may
    read and write this one secret, and, as long as the machine is not going away, a service account
    whose token opens the door of the config server together with the secret with the install script.
    The objects are applied by wrangler, which makes the bootstrap their owner. *)

From S2P Require Import Prelude GoLib Codec Errors Types External Instances Capr PlanEntry World Store Handlers Installer ServiceAccountToken.

Definition rkeBootstrapName : string := "rke.cattle.io/rkebootstrap-name".

(** ** Generated objects *)

Record PolicyRule := mkPolicyRule {
  pr_Verbs : list string; pr_APIGroups : list string; pr_Resources : list string; pr_ResourceNames : list string
}.
Record Role := mkRole { ro_Namespace : string; ro_Name : string; ro_Rules : list PolicyRule }.
Record Subject := mkSubject { sj_Kind : string; sj_Name : string; sj_Namespace : string }.
Record RoleBinding := mkRoleBinding {
  rbd_Namespace : string; rbd_Name : string; rbd_Subjects : list Subject; rbd_RoleKind : string; rbd_RoleName : string
}.

Inductive object :=
| ObjServiceAccount (sa : ServiceAccount)
| ObjSecret (s : Secret)
| ObjRole (r : Role)
| ObjRoleBinding (rb : RoleBinding).

(** Of a deployment: the containers with the host ports of their ports. *)
Record Container := mkContainer { ct_Name : string; ct_HostPorts : list Z }.

(** [rkev1.RKEBootstrapStatus] *)
Record RKEBootstrapStatus := mkBootstrapStatus { bs_DataSecretName : option string; bs_Ready : bool }.

(** The caches and third-party functions only this controller uses. *)
Class BootstrapDeps `{Controllers} := {
  deploymentCache_Get : string -> string -> res (list Container);
  IsPaused_Bootstrap : CAPICluster -> RKEBootstrap -> bool
}.

Definition shouldCreateBootstrapSecret (phase : string) : bool :=
  (phase !=? "Deleting") && (phase !=? "Deleted") && (phase !=? "Failed").

(** The labels of the bootstrap win. *)
Definition getLabelsAndAnnotationsForPlanSecret (bootstrap : RKEBootstrap) (machine : Machine)
  : gmap string string * gmap string string :=
  (rb_Labels bootstrap ∪ {[ MachineNameLabel := m_Name machine; ClusterNameLabel := rb_ClusterName bootstrap ]},
   rb_Annotations bootstrap).

Section bootstrap.
Context `{B : BootstrapDeps} `{I : Installation} (env : World -> World).

Definition plan_service_account (machine : Machine) (bootstrap : RKEBootstrap) : ServiceAccount :=
  let planSecretName := PlanSecretFromBootstrapName (rb_Name bootstrap) in
  mkServiceAccount (rb_Namespace bootstrap) planSecretName
    (<[MachineNameLabel := m_Name machine]> (<[rkeBootstrapName := rb_Name bootstrap]> (<[RoleLabel := RolePlan]>
       {[ PlanSecret := planSecretName ]}))) [] "".

Definition assignPlanSecret (machine : Machine) (bootstrap : RKEBootstrap) : list object :=
  let planSecretName := PlanSecretFromBootstrapName (rb_Name bootstrap) in
  let '(labels, annotations) := getLabelsAndAnnotationsForPlanSecret bootstrap machine in
  let sa := plan_service_account machine bootstrap in
  [ObjServiceAccount sa;
   ObjSecret (mkSecret (rb_Namespace bootstrap) planSecretName SecretTypeMachinePlan labels annotations ∅ [] false);
   ObjRole (mkRole (rb_Namespace bootstrap) planSecretName
     [mkPolicyRule ["watch"; "get"; "update"; "list"] [""] ["secrets"] [planSecretName]]);
   ObjRoleBinding (mkRoleBinding (rb_Namespace bootstrap) planSecretName
     [mkSubject "ServiceAccount" (sa_Name sa) (sa_Namespace sa)] "Role" planSecretName)].

Definition getEnvVar (bootstrap : RKEBootstrap) (capiCluster : CAPICluster) : res (list EnvVar) :=
  match cc_ControlPlaneRef capiCluster with
  | None => Ret []
  | Some ref =>
      if ref_Kind ref !=? "RKEControlPlane" then Ret []
      else let? cp := rkeControlPlaneCache_Get (rb_Namespace bootstrap) (ref_Name ref) in
           Ret (map (fun env => mkEnvVar (ev_Name env) (ev_Value env)) (sp_AgentEnvVars (cp_Spec cp)))
  end.

Definition rancherDeploymentHasHostPort : res bool :=
  match deploymentCache_Get "cattle-system" "rancher" with
  | Panic => Panic
  | Fail e => if IsNotFound e then Ret false else Fail e
  | Ret containers =>
      Ret (List.existsb (fun c => List.existsb (fun port => (ct_Name c =? "rancher") && negb (port =? 0)%Z) (ct_HostPorts c)) containers)
  end.

Definition getBootstrapSecret (namespace name : string) (envVars : list EnvVar) (machine : Machine) : M (option Secret) :=
  match serviceAccountCache_Get namespace name with
  | Panic => panic
  | Fail e => if IsNotFound e then ret None else fail e
  | Ret sa =>
      let* secret := EnsureSecretForServiceAccount env true (Some sa) in
      let hash := token_hash (token_of secret) in
      let* hasHostPort := lift rancherDeploymentHasHostPort in
      let install := if map_get (m_Labels machine) CattleOSLabel =? WindowsMachineOS then WindowsInstallScript else LinuxInstallScript in
      let* data := lift (install hasHostPort hash envVars "") in
      ret (Some (mkSecret namespace name "rke.cattle.io/bootstrap" ∅ ∅ {[ "value" := data ]} [] false))
  end.

Definition bootstrap_account_name (bootstrap : RKEBootstrap) : string :=
  name_SafeConcatName [rb_Name bootstrap; "machine"; "bootstrap"].

Definition bootstrap_service_account (machine : Machine) (bootstrap : RKEBootstrap) : ServiceAccount :=
  mkServiceAccount (rb_Namespace bootstrap) (bootstrap_account_name bootstrap)
    (<[MachineNameLabel := m_Name machine]> (<[rkeBootstrapName := rb_Name bootstrap]> {[ RoleLabel := RoleBootstrap ]})) [] "".

Definition assignBootStrapSecret (machine : Machine) (bootstrap : RKEBootstrap) (capiCluster : CAPICluster)
  : M (option Secret * list object) :=
  if negb (shouldCreateBootstrapSecret (m_Phase machine)) then ret (None, [])
  else
    let* envVars := lift (getEnvVar bootstrap capiCluster) in
    let sa := bootstrap_service_account machine bootstrap in
    let* bootstrapSecret := getBootstrapSecret (sa_Namespace sa) (sa_Name sa) envVars machine in
    ret (bootstrapSecret, [ObjServiceAccount sa]).

(** The objects, the status and the error, and the delay in seconds after which it asks to be called again. *)
Record generated := mkGenerated {
  gn_objects : list object; gn_status : RKEBootstrapStatus; gn_err : option error; gn_enqueueAfter : option Z
}.

Definition waiting (status : RKEBootstrapStatus) : generated := mkGenerated [] status (Some ErrSkip) (Some 10).
Definition failing (status : RKEBootstrapStatus) (e : error) : generated := mkGenerated [] status (Some e) None.

(** The objects once machine and cluster are at hand. *)
Definition generate (machine : Machine) (capiCluster : CAPICluster) (bootstrap : RKEBootstrap) (status : RKEBootstrapStatus)
  : M generated :=
  let* r := attempt (assignBootStrapSecret machine bootstrap capiCluster) in
  match r with
  | inr e => ret (failing status e)
  | inl (bootstrapSecret, objs) =>
      let result := assignPlanSecret machine bootstrap in
      match bootstrapSecret with
      | None => ret (mkGenerated (result ++ objs) status None None)
      | Some s =>
          let status := match bs_DataSecretName status with
                        | None => mkBootstrapStatus (Some (s_Name s)) true
                        | Some _ => status
                        end in
          ret (mkGenerated (result ++ [ObjSecret s] ++ objs) status None None)
      end
  end.

Definition GeneratingHandler (bootstrap : RKEBootstrap) (status : RKEBootstrapStatus) : M generated :=
  match GetOwnerCAPIMachine machineCache_Get (rb_Namespace bootstrap) (rb_OwnerReferences bootstrap) with
  | Panic => panic
  | Fail e => if IsNotFound e then ret (waiting status) else ret (failing status e)
  | Ret machine =>
      match capiClusters_Get (m_Namespace machine) (m_ClusterName machine) with
      | Panic | Ret None => panic
      | Fail e => if IsNotFound e then ret (waiting status) else ret (failing status e)
      | Ret (Some capiCluster) =>
          if IsPaused_Bootstrap capiCluster bootstrap then ret (waiting status)
          else if negb (cc_InfrastructureReady capiCluster) then ret (waiting status)
          else generate machine capiCluster bootstrap status
      end
  end.
End bootstrap.

(** [Register]: the bootstraps enqueued for a changed service account or machine. *)
Definition bootstrap_of_service_account (sa : ServiceAccount) : list (string * string) :=
  match sa_Labels sa !! rkeBootstrapName with Some name => [(sa_Namespace sa, name)] | None => [] end.
Definition bootstrap_of_machine (machine : Machine) : list (string * string) :=
  match m_ConfigRef machine with
  | Some ref => if ref_Kind ref =? "RKEBootstrap" then [(m_Namespace machine, ref_Name ref)] else []
  | None => []
  end.

(** ** What the generated objects permit

    Role-based access control on these objects: a subject may do what a role of a binding that names it allows; an
    empty list of resource names in a rule stands for all names. *)

Definition rule_allows (verb resource name : string) (r : PolicyRule) : bool :=
  bool_decide (verb ∈ pr_Verbs r) && bool_decide ("" ∈ pr_APIGroups r) && bool_decide (resource ∈ pr_Resources r)
  && (bool_decide (pr_ResourceNames r = []) || bool_decide (name ∈ pr_ResourceNames r)).

Definition binding_of (o : object) : option RoleBinding := match o with ObjRoleBinding b => Some b | _ => None end.
Definition role_of (o : object) : option Role := match o with ObjRole r => Some r | _ => None end.

(** A service account may perform [verb] on the core resource [resource/name] of a namespace. *)
Definition may (objs : list object) (sa : ServiceAccount) (verb ns resource name : string) : bool :=
  List.existsb (fun b =>
    (rbd_Namespace b =? ns)
    && List.existsb (fun s => (sj_Kind s =? "ServiceAccount") && (sj_Name s =? sa_Name sa) && (sj_Namespace s =? sa_Namespace sa)) (rbd_Subjects b)
    && List.existsb (fun r => (ro_Namespace r =? ns) && (ro_Name r =? rbd_RoleName b) && List.existsb (rule_allows verb resource name) (ro_Rules r))
         (omap role_of objs))
    (omap binding_of objs).

(** ** Facts about the handler *)

Section facts.
Context `{B : BootstrapDeps} `{I : Installation} (env : World -> World).

(** Whether the objects contain a bootstrap secret, and which. *)
Lemma generate_objects machine cluster b st w w' g :
  generate env machine cluster b st w = (w', Ret g) -> gn_err g = None ->
  exists extra, gn_objects g = assignPlanSecret machine b ++ extra
    /\ (extra = [] \/ extra = [ObjServiceAccount (bootstrap_service_account machine b)]
        \/ exists s, extra = [ObjSecret s; ObjServiceAccount (bootstrap_service_account machine b)] /\ s_Name s = bootstrap_account_name b).
Proof.
  unfold generate. intros (r & w1 & Hr & Hk)%bind_Ret He. destruct r as [[bs objs]|e]; [|by inv Hk].
  apply attempt_inl in Hr. unfold assignBootStrapSecret in Hr. destruct (negb _) eqn:Es.
  { inv Hr. inv Hk. eexists. split; [reflexivity|auto]. }
  apply bind_Ret in Hr as (envVars & w2 & _ & Hr). apply bind_Ret in Hr as (bs' & w3 & Hg & Hr). inv Hr.
  assert (forall s, bs = Some s -> s_Name s = bootstrap_account_name b) as Hname.
  { intros s ->. unfold getBootstrapSecret in Hg. destruct (serviceAccountCache_Get _ _) as [sa|e|]; [|by destruct (IsNotFound e)|done].
    apply bind_Ret in Hg as (tok & w4 & _ & Hg). apply bind_Ret in Hg as (port & w5 & _ & Hg).
    apply bind_Ret in Hg as (data & w6 & _ & Hg). by inv Hg. }
  destruct bs as [s|]; inv Hk; simpl; eexists; (split; [reflexivity|]); [right; right; exists s; auto|auto].
Qed.

(** The handler reports no error only after it has generated the objects of the machine that owns the bootstrap. *)
Lemma GeneratingHandler_Ret b st w w' g :
  GeneratingHandler env b st w = (w', Ret g) -> gn_err g = None ->
  exists machine cluster,
    GetOwnerCAPIMachine machineCache_Get (rb_Namespace b) (rb_OwnerReferences b) = Ret machine
    /\ capiClusters_Get (m_Namespace machine) (m_ClusterName machine) = Ret (Some cluster)
    /\ IsPaused_Bootstrap cluster b = false /\ cc_InfrastructureReady cluster = true
    /\ generate env machine cluster b st w = (w', Ret g).
Proof.
  unfold GeneratingHandler. destruct (GetOwnerCAPIMachine _ _ _) as [machine|e|] eqn:Em; [| |done].
  2:{ destruct (IsNotFound e); intros [= _ <-]; done. }
  destruct (capiClusters_Get _ _) as [[cluster|]|e|] eqn:Ec; [|done| |done].
  2:{ destruct (IsNotFound e); intros [= _ <-]; done. }
  destruct (IsPaused_Bootstrap cluster b) eqn:Ep; [intros [= _ <-]; done|].
  destruct (cc_InfrastructureReady cluster) eqn:Ei; simpl; [|intros [= _ <-]; done].
  intros Hg _. by exists machine, cluster.
Qed.
End facts.

Section claims.
Context `{B : BootstrapDeps} `{I : Installation} (env : World -> World).

Lemma may_generated b machine extra sa verb ns resource name :
  omap binding_of extra = [] -> omap role_of extra = [] ->
  may (assignPlanSecret machine b ++ extra) sa verb ns resource name = true <->
  sa_Name sa = PlanSecretFromBootstrapName (rb_Name b) /\ sa_Namespace sa = rb_Namespace b
  /\ ns = rb_Namespace b /\ resource = "secrets" /\ name = PlanSecretFromBootstrapName (rb_Name b)
  /\ verb ∈ ["watch"; "get"; "update"; "list"].
Proof.
  intros Hb Hr. unfold may, assignPlanSecret, getLabelsAndAnnotationsForPlanSecret. rewrite !omap_app, Hb, Hr. simpl.
  rewrite !orb_false_r. unfold rule_allows. simpl.
  repeat rewrite ?andb_true_iff, ?bool_decide_eq_true. rewrite !list_elem_of_singleton. naive_solver.
Qed.

(** The generated objects give the plan service account of a machine exactly the right to watch, get, update
    and list the plan secret of this machine, and give nothing to a service account of another name, such as the one
    whose token is in the install script. *)
Theorem generated_permissions b st w w' g sa verb ns resource name :
  GeneratingHandler env b st w = (w', Ret g) -> gn_err g = None ->
  may (gn_objects g) sa verb ns resource name = true <->
  sa_Name sa = PlanSecretFromBootstrapName (rb_Name b) /\ sa_Namespace sa = rb_Namespace b
  /\ ns = rb_Namespace b /\ resource = "secrets" /\ name = PlanSecretFromBootstrapName (rb_Name b)
  /\ verb ∈ ["watch"; "get"; "update"; "list"].
Proof.
  intros Hg He. destruct (GeneratingHandler_Ret env b st w w' g Hg He) as (machine & cluster & _ & _ & _ & _ & Hgen).
  destruct (generate_objects env _ _ _ _ _ _ _ Hgen He) as (extra & -> & Hex).
  apply may_generated; destruct Hex as [-> |[-> |(s & -> & _)]]; done.
Qed.

(** A generated service account as wrangler's apply stores it: owned by the bootstrap, with a UID of its own. *)
Definition applied (b : RKEBootstrap) (bootstrapUID uid : string) (sa : ServiceAccount) : ServiceAccount :=
  mkServiceAccount (sa_Namespace sa) (sa_Name sa) (sa_Labels sa)
    [mkOwnerReference RKEAPIVersion "RKEBootstrap" (rb_Name b) bootstrapUID true] uid.

Lemma applied_owned b bUID uid sa machine :
  sa_Namespace sa = rb_Namespace b ->
  rkeBootstrapCache_Get (rb_Namespace b) (rb_Name b) = Ret b ->
  (exists o, o ∈ rb_OwnerReferences b /\ or_Kind o = "Machine" /\ or_Name o = machine) ->
  IsOwnedByMachine machine (applied b bUID uid sa) = Ret true.
Proof.
  intros Hns Hb (o & Ho & Hk & Hn). unfold IsOwnedByMachine, applied. cbn. rewrite Hns, Hb.
  rewrite (proj2 (existsb_exists _ _)); [done|]. exists o. rewrite <- list_elem_of_In.
  split; [done|]. by rewrite Hk, Hn, !bool_decide_eq_true_2.
Qed.

(** The plan service account is accepted for the machine, with the plan secret of the bootstrap. *)
Lemma plan_account_accepted b bUID uid machine :
  m_Name machine <> "" -> PlanSecretFromBootstrapName (rb_Name b) <> "" ->
  rkeBootstrapCache_Get (rb_Namespace b) (rb_Name b) = Ret b ->
  (exists o, o ∈ rb_OwnerReferences b /\ or_Kind o = "Machine" /\ or_Name o = m_Name machine) ->
  let sa := applied b bUID uid (plan_service_account machine b) in
  PlanSACheck (m_Name machine) (Some sa) = Ret tt /\ GetPlanSecretName (Some sa) = Ret (PlanSecretFromBootstrapName (rb_Name b)).
Proof.
  intros Hm Hp Hb Ho sa. unfold PlanSACheck, GetPlanSecretName.
  assert (map_get (sa_Labels sa) MachineNameLabel = m_Name machine) as -> by (unfold map_get; simpl; by rewrite lookup_insert_eq).
  assert (map_get (sa_Labels sa) RoleLabel = RolePlan) as ->.
  { unfold map_get. simpl. rewrite !lookup_insert_ne by done. by rewrite lookup_insert_eq. }
  assert (map_get (sa_Labels sa) PlanSecret = PlanSecretFromBootstrapName (rb_Name b)) as ->.
  { unfold map_get. simpl. rewrite !lookup_insert_ne by done. by rewrite lookup_singleton_eq. }
  rewrite (bool_decide_eq_false_2 (m_Name machine = "")), (bool_decide_eq_false_2 (PlanSecretFromBootstrapName (rb_Name b) = "")) by done.
  rewrite !bool_decide_eq_true_2 by done. simpl. unfold sa. by rewrite applied_owned.
Qed.

(** The script of a bootstrap secret carries the hash of the token of the bootstrap service account. *)
Lemma getBootstrapSecret_script ns name envVars machine w w' s :
  getBootstrapSecret env ns name envVars machine w = (w', Ret (Some s)) ->
  exists sa tok, serviceAccountCache_Get ns name = Ret sa
    /\ EnsureSecretForServiceAccount env true (Some sa) w = (w', Ret tok)
    /\ Contains (map_get (s_Data s) "value") ("CATTLE_TOKEN=" +:+ quote (token_hash (token_of tok))) = true.
Proof.
  unfold getBootstrapSecret. destruct (serviceAccountCache_Get ns name) as [sa|e|]; [|by destruct (IsNotFound e)|done].
  intros (tok & w1 & Ht & Hk)%bind_Ret.
  apply bind_Ret in Hk as (port & w2 & Hp & Hk). apply bind_Ret in Hk as (data & w3 & Hd & Hk).
  unfold lift in Hp, Hd. injection Hp as <- _. injection Hd as <- Hd. injection Hk as <- <-.
  exists sa, tok. split; [done|]. split; [done|]. unfold map_get. simpl. rewrite lookup_singleton_eq. simpl.
  destruct (_ =? WindowsMachineOS); [apply WindowsInstallScript_sets in Hd|apply LinuxInstallScript_sets in Hd].
  - destruct Hd as (_ & Hd & _). specialize (Hd (token_hash_nonempty _)).
    apply Contains_spec in Hd as (x & y & ->). apply Contains_spec. exists (x +:+ "$env:"), y. by rewrite !app_assoc_str.
  - destruct Hd as (_ & Hd & _). apply Hd, token_hash_nonempty.
Qed.
End claims.

(** Without an owner reference to a machine the handler does not wait for one: it returns an error. *)
Lemma GeneratingHandler_unowned `{B : BootstrapDeps} `{I : Installation} env b st w :
  rb_OwnerReferences b = [] ->
  GeneratingHandler env b st w = (w, Ret (failing st ErrNoMatchingControllerOwnerRef)).
Proof. intros Ho. unfold GeneratingHandler, GetOwnerCAPIMachine, GetOwnerFromGVK. by rewrite Ho. Qed.

Section witnesses.
#[local] Existing Instance demoExternal.
Definition demoBootstrapPlanner : Planner := demoPlanner ∅ ∅ [demoMachine "m1"] (Some demoCluster).
#[local] Existing Instance demoBootstrapPlanner.
Definition demoBootstrapControllers : Controllers :=
  demoControllers demoBootstrapPlanner [demoMachine "m1"] [] (Some demoControlPlane).
#[local] Existing Instance demoBootstrapControllers.
Definition demoBootstrapDeps : BootstrapDeps := {|
  deploymentCache_Get ns name := Ret [mkContainer "rancher" [0]];
  IsPaused_Bootstrap c b := cc_Paused c
|}.
#[local] Existing Instance demoBootstrapDeps.
#[local] Existing Instance demoInstallation.

Definition demoOwnedBootstrap : RKEBootstrap :=
  mkRKEBootstrap "fleet-default" "m1" ∅ [mkOwnerReference capi_GroupVersion "Machine" "m1" "m1-uid" true]
    {[ CAPIClusterNameLabel := "c1" ]} false "c1" None false.
Definition demoBootstrapWorld : World := mkWorld (mkPlan ∅ ∅ ∅) ∅ ∅ ∅ ∅ ∅ [] "" [].

Lemma generated_permissions_witness :
  exists g, GeneratingHandler id demoOwnedBootstrap (mkBootstrapStatus None false) demoBootstrapWorld = (demoBootstrapWorld, Ret g)
    /\ forall verb ns resource name,
         may (gn_objects g) (plan_service_account (demoMachine "m1") demoOwnedBootstrap) verb ns resource name = true ->
         ns = "fleet-default" /\ resource = "secrets" /\ name = "m1-machine-plan".
Proof.
  eexists. split; [vm_compute; reflexivity|]. intros verb ns resource name Hm.
  apply (generated_permissions id demoOwnedBootstrap (mkBootstrapStatus None false) demoBootstrapWorld demoBootstrapWorld) in Hm;
    [|vm_compute; reflexivity|reflexivity].
  destruct Hm as (_ & _ & Hns & Hres & Hname & _). split; [exact Hns|]. split; [exact Hres|]. rewrite Hname. reflexivity.
Defined.
End witnesses.
