(* ===== verification/ConfigServer.v ===== *)
(** * The config server ([pkg/capr/configserver])

    The server the system agent of a new machine calls: it finds the machine the caller speaks for,
    by the token of the bootstrap service account or by a cluster registration token, and hands out the
    name of the machine's plan secret with a token of the plan service account.

    A watch is the list of the objects of its events until its channel is closed. *)

From S2P Require Import Prelude GoLib Codec Errors Types External Instances Capr PlanEntry World Store DesiredPlan Handlers Installer ServiceAccountToken Bootstrap.

Definition ConnectClusterInfo : string := "/v3/connect/cluster-info".
Definition ConnectConfigYamlPath : string := "/v3/connect/config-yaml".
Definition ConnectAgent : string := "/v3/connect/agent".
Definition machineIDHeader : string := "X-Cattle-Id".
Definition headerPrefix : string := "X-Cattle-".
Definition ServiceAccountNameKey : string := "kubernetes.io/service-account.name".
Definition ServiceAccountUIDKey : string := "kubernetes.io/service-account.uid".

(** [http.Request]; header names are canonical. *)
Record Request := mkRequest {
  rq_Header : gmap string (list string);
  rq_Path : string;
  rq_Host : string;
  rq_InternalAPI : bool
}.

Definition Header_Get (req : Request) (name : string) : string :=
  match rq_Header req !! name with Some (v :: _) => v | _ => "" end.

(** What is written to the client. *)
Inductive response :=
| NoAnswer
| StatusOnly (code : Z)
| HttpError (msg : string) (code : Z)
| AgentInfo (namespace secretName kubeConfig : string)
| JsonBody (body : string).

Inductive watch_object := WatchServiceAccount (sa : ServiceAccount) | WatchSecret (s : Secret) | WatchOther.

(** A kubeconfig with one cluster, one user and one context. *)
Record kubeConfig := mkKubeConfig { kcf_Server : string; kcf_CA : option string; kcf_Token : string }.

Class ConfigServerDeps `{Controllers} := {
  informersSynced : bool;
  secretsCached : list Secret;
  clusterTokensCached : list (string * string);                     (** namespace and token *)
  serviceAccountsCache_ListLabels : string -> gmap string string -> res (list ServiceAccount);
  serviceAccounts_Watch : string -> gmap string string -> res (list watch_object);
  secrets_WatchLabels : string -> gmap string string -> res (list watch_object);
  secrets_WatchName : string -> string -> res (list watch_object);
  provisioningClusterCache_Get : string -> string -> res string;   (** [Spec.KubernetesVersion] *)
  clientcmd_Write : kubeConfig -> res string;
  json_Marshal_Headers : gmap string (list string) -> res string;
  json_Marshal_Info : gmap string string -> res string
}.

(** Caches and watches answer with objects that match what they were asked for. *)
Class SelectorLaws `{ConfigServerDeps} := {
  secretCache_Get_key ns name s : secretCache_Get ns name = Ret s -> s_Namespace s = ns /\ s_Name s = name;
  secrets_WatchName_key ns name l s :
    secrets_WatchName ns name = Ret l -> WatchSecret s ∈ l -> s_Namespace s = ns /\ s_Name s = name;
  serviceAccounts_List_key ns sel l sa :
    serviceAccountsCache_ListLabels ns sel = Ret l -> sa ∈ l -> sa_Namespace sa = ns /\ sel ⊆ sa_Labels sa;
  serviceAccounts_Watch_key ns sel l sa :
    serviceAccounts_Watch ns sel = Ret l -> WatchServiceAccount sa ∈ l -> sa_Namespace sa = ns /\ sel ⊆ sa_Labels sa;
  secrets_WatchLabels_key ns sel l s :
    secrets_WatchLabels ns sel = Ret l -> WatchSecret s ∈ l -> s_Namespace s = ns /\ sel ⊆ s_Labels s
}.

(** [New]: the index of the secrets, and of the cluster registration tokens. *)
Definition token_index (s : Secret) : list string :=
  if s_Type s =? SecretTypeServiceAccountToken then [token_hash (token_of s)] else [].

Definition bearer (req : Request) : string := TrimPrefix (Header_Get req "Authorization") "Bearer ".

Definition machineRequestSecretName (name : string) : string := "custom-" +:+ take_str 12 (sha256_hex name).

Definition dataFromHeaders (req : Request) : gmap string (list string) :=
  list_to_map (map (fun kv => (ToLower (TrimPrefix (fst kv) headerPrefix), snd kv))
    (List.filter (fun kv => HasPrefix (fst kv) headerPrefix) (map_to_list (rq_Header req)))).

Section server.
Context `{D : ConfigServerDeps} `{I : Installation} (env : World -> World).

Definition secretsCache_GetByIndex (token : string) : list Secret :=
  List.filter (fun s => bool_decide (token ∈ token_index s)) secretsCached.
Definition clusterTokenCache_GetByIndex (token : string) : list (string * string) :=
  List.filter (fun t => snd t =? token) clusterTokensCached.

(** ** Who is calling *)

Definition findMachineByProvisioningSA (req : Request) : res (string * string) :=
  match secretsCache_GetByIndex (bearer req) with
  | [] => Ret ("", "")
  | s :: _ =>
      let? sa := serviceAccountCache_Get (s_Namespace s) (map_get (s_Annotations s) ServiceAccountNameKey) in
      if (map_get (sa_Labels sa) RoleLabel !=? RoleBootstrap) || (sa_UID sa !=? map_get (s_Annotations s) ServiceAccountUIDKey)
      then Ret ("", "")
      else
        let? foundParent := IsOwnedByMachine (map_get (sa_Labels sa) MachineNameLabel) sa in
        if foundParent then Ret (sa_Namespace sa, map_get (sa_Labels sa) MachineNameLabel) else Ret ("", "")
  end.

Definition createSecret (namespace name : string) (data : gmap string (list string)) : M Secret :=
  let* dataBytes := lift (json_Marshal_Headers data) in
  let s := mkSecret namespace name MachineRequestType ∅ ∅ {[ "data" := dataBytes ]} [] false in
  let* _ := secrets_Create s in
  ret s.

(** The first secret of the watch that names a machine. *)
Fixpoint first_ready (events : list watch_object) : option Secret :=
  match events with
  | [] => None
  | WatchSecret s :: rest => if map_get (s_Labels s) MachineNameLabel !=? "" then Some s else first_ready rest
  | _ :: rest => first_ready rest
  end.

Definition waitReady (secret : Secret) : M Secret :=
  if map_get (s_Labels secret) MachineNameLabel !=? "" then ret secret
  else
    let* _ := api_request in
    let* events := lift (secrets_WatchName (s_Namespace secret) (s_Name secret)) in
    match first_ready events with
    | Some s => ret s
    | None => fail (errorString ("timeout waiting for " +:+ s_Namespace secret +:+ "/" +:+ s_Name secret +:+ " to be ready"))
    end.

Definition findMachineByClusterToken (req : Request) : M (string * string) :=
  let token := bearer req in
  let machineID := Header_Get req machineIDHeader in
  if token =? "" then ret ("", "")
  else if machineID =? "" then ret ("", "")
  else
    match clusterTokenCache_GetByIndex token with
    | [] => ret ("", "")
    | (ns, _) :: _ =>
        let secretName := machineRequestSecretName machineID in
        let* secret := (match secretCache_Get ns secretName with
          | Ret s => ret s
          | Fail e => if IsNotFound e then createSecret ns secretName (dataFromHeaders req) else fail e
          | Panic => panic
          end) in
        let* secret := waitReady secret in
        let* _ := attempt_err (secrets_Delete (s_Namespace secret) (s_Name secret)) in
        ret (map_get (s_Labels secret) MachineNamespaceLabel, map_get (s_Labels secret) MachineNameLabel)
    end.

Definition findMachineByID (machineID ns : string) : res Machine :=
  let? machines := machineCache_ListLabels ns {[ MachineIDLabel := machineID ]} in
  match machines with
  | [m] => Ret m
  | _ => Fail (errorString ("unable to find machine " +:+ machineID +:+ ", found " +:+ Itoa (Z.of_nat (length machines)) +:+ " machine(s)"))
  end.

Definition setOrUpdateMachineID (machineNamespace machineName machineID : string) : M unit :=
  let* machine := lift (machineCache_Get machineNamespace machineName) in
  if map_get (m_Labels machine) MachineIDLabel =? machineID then ret tt
  else
    let* _ := machines_Update (set_m_Labels (<[MachineIDLabel := machineID]> (m_Labels machine)) machine) in
    ret tt.

(** ** What is handed out *)

Definition plan_selector (machineName : string) : gmap string string :=
  {[ MachineNameLabel := machineName; RoleLabel := RolePlan ]}.

(** The name of the plan secret of an account that belongs to the machine. *)
Definition checked_plan_secret (machineName : string) (planSA : ServiceAccount) : M string :=
  let* r := attempt (lift (PlanSACheck machineName (Some planSA))) in
  match r with
  | inr _ => ret ""
  | inl _ =>
      let* r := attempt (lift (GetPlanSecretName (Some planSA))) in
      match r with inl planSecret => ret planSecret | inr _ => ret "" end
  end.

Fixpoint first_plan (machineName : string) (planSAs : list ServiceAccount) : M (option (string * Secret)) :=
  match planSAs with
  | [] => ret None
  | planSA :: rest =>
      let* planSecret := checked_plan_secret machineName planSA in
      if planSecret =? "" then first_plan machineName rest
      else
        let* r := GetPlanServiceAccountTokenSecret env (Some planSA) in
        match r with
        | (Some tokenSecret, _, None) => ret (Some (planSecret, tokenSecret))
        | _ => first_plan machineName rest
        end
  end.

(** The loop over the events of the watch for service accounts: it delivers, or ends with the values of
    [planSA] and [planSecret].  An event with another object sets [planSA] to nil. *)
Fixpoint watch_plan (machineName : string) (events : list watch_object) (planSA : option ServiceAccount) (planSecret : string)
  : M ((string * Secret) + (option ServiceAccount * string)) :=
  match events with
  | [] => ret (inr (planSA, planSecret))
  | WatchServiceAccount sa :: rest =>
      let* r := attempt (lift (PlanSACheck machineName (Some sa))) in
      match r with
      | inr _ => watch_plan machineName rest (Some sa) planSecret
      | inl _ =>
          let* r := attempt (lift (GetPlanSecretName (Some sa))) in
          match r with
          | inr _ => watch_plan machineName rest (Some sa) ""
          | inl planSecret =>
              if planSecret =? "" then watch_plan machineName rest (Some sa) planSecret
              else
                let* r := GetPlanServiceAccountTokenSecret env (Some sa) in
                match r with
                | (Some tokenSecret, _, None) => ret (inl (planSecret, tokenSecret))
                | (_, watchable, _) =>
                    if watchable : bool then ret (inr (Some sa, planSecret))
                    else watch_plan machineName rest (Some sa) planSecret
                end
          end
      end
  | _ :: rest => watch_plan machineName rest None planSecret
  end.

Fixpoint first_secret (events : list watch_object) : option Secret :=
  match events with
  | [] => None
  | WatchSecret s :: _ => Some s
  | _ :: rest => first_secret rest
  end.

(** From the machine to the plan: the cache first, then a watch for its plan service account, then one for the
    token of the account. *)
Definition deliver (machineNamespace machineName : string) : M (string * Secret) :=
  let* planSAs := lift (serviceAccountsCache_ListLabels machineNamespace (plan_selector machineName)) in
  let* found := first_plan machineName planSAs in
  match found with
  | Some r => ret r
  | None =>
      let* _ := api_request in
      let* events := lift (serviceAccounts_Watch machineNamespace (plan_selector machineName)) in
      let* r := watch_plan machineName events None "" in
      match r with
      | inl r => ret r
      | inr (Some planSA, planSecret) =>
          if planSecret =? "" then fail (errorString "could not start secret watch for token secret")
          else
            let* _ := api_request in
            let* events := lift (secrets_WatchLabels machineNamespace {[ ServiceAccountSecretLabel := sa_Name planSA ]}) in
            match first_secret events with
            | Some secret => ret (planSecret, secret)
            | None => fail (errorString "timeout waiting for plan")
            end
      | inr (None, _) => fail (errorString "could not start secret watch for token secret")
      end
  end.

(** The machine the caller speaks for; a provisioning account goes before a cluster token. *)
Definition find_machine (req : Request) : M (string * string) :=
  let* r := lift (findMachineByProvisioningSA req) in
  if snd r =? "" then findMachineByClusterToken req else ret r.

Definition findSA (req : Request) : M (string * option Secret) :=
  let machineID := Header_Get req machineIDHeader in
  if machineID =? "" then ret ("", None)
  else
    let* '(machineNamespace, machineName) := find_machine req in
    if (machineName =? "") || (machineNamespace =? "") then fail (errorString "machine not found by request")
    else
      let* _ := setOrUpdateMachineID machineNamespace machineName machineID in
      let* '(planSecret, tokenSecret) := deliver machineNamespace machineName in
      ret (planSecret, Some tokenSecret).

(** ** Answers *)

Definition getClusterKubernetesVersion (clusterName ns : string) : res string := provisioningClusterCache_Get ns clusterName.

Definition infoKubernetesVersion (machineID ns : string) : res string :=
  if machineID =? "" then Ret ""
  else
    let? machine := findMachineByID machineID ns in
    match m_Labels machine !! CAPIClusterNameLabel with
    | None => Fail (errorString "unable to find cluster name for machine")
    | Some clusterName => getClusterKubernetesVersion clusterName ns
    end.

(** One look at the plan secret; the cache takes the namespace first. *)
Definition plan_secret_ready (ns name : string) (secret : option Secret) : M (option Secret * bool) :=
  match secretCache_Get name ns with
  | Panic => panic
  | Fail e => if IsNotFound e then ret (None, false) else fail e
  | Ret s => ret (Some s, negb (map_get (s_Data s) RolePlan =? ""))
  end.

Definition getMachinePlanSecret (ns name : string) : M (option Secret) :=
  ExponentialBackoff 10 (plan_secret_ready ns name) None.

Definition value_get (m : list (string * value)) (k : string) : option value :=
  match List.find (fun kv => fst kv =? k) m with Some (_, v) => Some v | None => None end.

(** The content of the last file with the path; values of another type make an assertion panic. *)
Fixpoint file_content (path : string) (files : list value) (content : string) : res string :=
  match files with
  | [] => Ret content
  | VMap f :: rest =>
      match value_get f "path" with
      | Some (VString p) =>
          if p =? path then
            match value_get f "content" with
            | Some (VString c) => file_content path rest c
            | Some _ => Panic
            | None => file_content path rest content
            end
          else file_content path rest content
      | _ => file_content path rest content
      end
  | _ :: _ => Panic
  end.

Definition config_yaml (name ns : string) : M string :=
  let* mpSecret := getMachinePlanSecret ns name in
  match mpSecret with
  | None => panic
  | Some mpSecret =>
      let* config := lift (json_Unmarshal_Map (map_get (s_Data mpSecret) RolePlan)) in
      match config !! "files" with
      | None => fail (errorString "no files in the plan")
      | Some files =>
          let* kubernetesVersion := lift (getClusterKubernetesVersion (map_get (s_Labels mpSecret) CAPIClusterNameLabel) ns) in
          match files with
          | VSlice files =>
              let* content := lift (file_content (ConfigYamlFileName (GetRuntime kubernetesVersion)) files "") in
              if content =? "" then fail (errorString "no config content")
              else match base64_DecodeString content with
                   | Some jsonContent => ret jsonContent
                   | None => fail (errorString "illegal base64 data")
                   end
          | _ => panic
          end
      end
  end.

(** An error becomes the answer 500. *)
Definition or_error {A} (c : M A) (answer : A -> response) : M response :=
  let* r := attempt c in
  match r with inl a => ret (answer a) | inr e => ret (HttpError (Error e) 500) end.

Definition connectConfigYaml (name ns : string) : M response := or_error (config_yaml name ns) JsonBody.

Fixpoint cluster_info (req : Request) (ns : string) (fields : list string) (info : gmap string string) : res (gmap string string) :=
  match fields with
  | [] => Ret info
  | f :: rest =>
      if ToLower f =? "kubernetesversion" then
        let? k8sv := infoKubernetesVersion (Header_Get req machineIDHeader) ns in
        cluster_info req ns rest (<[f := k8sv]> info)
      else cluster_info req ns rest info
  end.

Definition connectClusterInfo (secret : Secret) (req : Request) : M response :=
  match dataFromHeaders req !! "field" with
  | None | Some [] => ret (HttpError "no field headers" 500)
  | Some fields =>
      or_error (let* info := lift (cluster_info req (s_Namespace secret) fields ∅) in lift (json_Marshal_Info info)) JsonBody
  end.

Definition nonblank (pem : string) (otherwise : option string) : option string :=
  if TrimSpace pem !=? "" then Some pem else otherwise.

(** The address and the certificates of the server for this caller. *)
Definition server_address (req : Request) : string * option string :=
  let url := Setting_Get ServerURL in
  let ca := nonblank (Setting_Get CACerts) None in
  if url =? "" then ("https://" +:+ rq_Host req, nonblank (Setting_Get InternalCACerts) ca)
  else if rq_InternalAPI req then (url, nonblank (Setting_Get InternalCACerts) ca)
  else (url, ca).

Definition connectAgent (planSecret : string) (secret : Secret) (req : Request) : M response :=
  let '(url, ca) := server_address req in
  or_error (lift (clientcmd_Write (mkKubeConfig url ca (token_of secret))))
    (fun kubeConfig => AgentInfo (s_Namespace secret) planSecret kubeConfig).

Definition ServeHTTP (req : Request) : M response :=
  if negb informersSynced then ret (StatusOnly 401)
  else
    let* r := attempt (findSA req) in
    match r with
    | inr e => if IsNotFound e then ret (StatusOnly 401) else ret (HttpError (Error e) 500)
    | inl (_, None) => ret (StatusOnly 401)
    | inl (planSecret, Some secret) =>
        if bool_decide (s_Data secret !! ServiceAccountTokenKey = None) then ret (StatusOnly 401)
        else if rq_Path req =? ConnectConfigYamlPath then connectConfigYaml planSecret (s_Namespace secret)
        else if rq_Path req =? ConnectAgent then connectAgent planSecret secret req
        else if rq_Path req =? ConnectClusterInfo then connectClusterInfo secret req
        else ret NoAnswer
    end.
End server.

(** ** Who gets what *)

Section authentication.
Context `{D : ConfigServerDeps} `{I : Installation} (env : World -> World).

(** A service account belongs to a machine: a bootstrap that owns it is owned by the machine. *)
Definition belongs_to (machineName : string) (sa : ServiceAccount) : Prop :=
  exists o bootstrap m, o ∈ sa_OwnerReferences sa /\ or_Kind o = "RKEBootstrap"
    /\ rkeBootstrapCache_Get (sa_Namespace sa) (or_Name o) = Ret bootstrap
    /\ m ∈ rb_OwnerReferences bootstrap /\ or_Kind m = "Machine" /\ or_Name m = machineName.

(** A secret as the cache has it, or as a watch for it has shown it. *)
Definition seen_secret (ns name : string) (s : Secret) : Prop :=
  secretCache_Get ns name = Ret s \/ exists l, secrets_WatchName ns name = Ret l /\ WatchSecret s ∈ l.

(** The request speaks for the machine: its token is the hash of a token of the bootstrap service account of a
    bootstrap of the machine, or it is a cluster registration token, and the machine request that is stored for the caller
    in the namespace of this token names the machine. *)
Inductive speaks_for (req : Request) (ns name : string) : Prop :=
| by_provisioning_account s sa :
    s ∈ secretsCached -> s_Type s = SecretTypeServiceAccountToken -> bearer req = token_hash (token_of s) ->
    serviceAccountCache_Get (s_Namespace s) (map_get (s_Annotations s) ServiceAccountNameKey) = Ret sa ->
    map_get (sa_Labels sa) RoleLabel = RoleBootstrap -> sa_UID sa = map_get (s_Annotations s) ServiceAccountUIDKey ->
    sa_Namespace sa = ns -> map_get (sa_Labels sa) MachineNameLabel = name -> belongs_to name sa ->
    speaks_for req ns name
| by_cluster_token tokenNamespace s :
    bearer req <> "" -> (tokenNamespace, bearer req) ∈ clusterTokensCached -> Header_Get req machineIDHeader <> "" ->
    seen_secret tokenNamespace ("custom-" +:+ take_str 12 (sha256_hex (Header_Get req machineIDHeader))) s ->
    map_get (s_Labels s) MachineNamespaceLabel = ns -> map_get (s_Labels s) MachineNameLabel = name ->
    speaks_for req ns name.

Lemma findMachineByProvisioningSA_Ret req ns name :
  findMachineByProvisioningSA req = Ret (ns, name) -> name <> "" -> speaks_for req ns name.
Proof.
  unfold findMachineByProvisioningSA. destruct (secretsCache_GetByIndex (bearer req)) as [|s l] eqn:Ei; [by intros [= <- <-]|].
  assert (s ∈ secretsCache_GetByIndex (bearer req)) as Hs by (rewrite Ei; constructor).
  apply elem_of_filter_bool in Hs as [Hs Ht%bool_decide_eq_true].
  unfold token_index in Ht. case_bool_decide as Hty; [|by apply elem_of_nil in Ht]. apply list_elem_of_singleton in Ht.
  intros (sa & Hsa & Hk)%res_bind_Ret Hn. destruct (_ || _) eqn:Ec; [by inv Hk|].
  apply orb_false_iff in Ec as [Hr%negb_false_iff%bool_decide_eq_true Hu%negb_false_iff%bool_decide_eq_true].
  apply res_bind_Ret in Hk as ([] & Ho & Hk); [|by inv Hk]. inv Hk. eapply by_provisioning_account; try done. by apply owned_by_machine_true.
Qed.

Context `{!SelectorLaws}.

Lemma first_ready_Some l s : first_ready l = Some s -> WatchSecret s ∈ l /\ map_get (s_Labels s) MachineNameLabel <> "".
Proof.
  induction l as [|[sa|s0|] l IH]; simpl; [done| | |]; try (intros (Hin & Hl)%IH; split; [by right|done]).
  destruct (_ !=? "") eqn:E; [intros [= <-]; split; [by left|by apply negb_true_iff, bool_decide_eq_false in E]|].
  intros (Hin & Hl)%IH. split; [by right|done].
Qed.

Lemma waitReady_Ret s w w' s' : waitReady s w = (w', Ret s') ->
  map_get (s_Labels s') MachineNameLabel <> "" /\ (s' = s \/ exists l, secrets_WatchName (s_Namespace s) (s_Name s) = Ret l /\ WatchSecret s' ∈ l).
Proof.
  unfold waitReady. destruct (_ !=? "") eqn:E; [intros [= _ <-]; split; [by apply negb_true_iff, bool_decide_eq_false in E|by left]|].
  intros ([] & w1 & _ & Hk)%bind_Ret. apply bind_Ret in Hk as (l & w2 & Hl & Hk). injection Hl as <- Hl.
  destruct (first_ready l) as [s0|] eqn:Ef; [|done]. inv Hk. apply first_ready_Some in Ef as [Hin Hn]. split; [done|]. right. by exists l.
Qed.

Lemma findMachineByClusterToken_Ret req w w' ns name :
  findMachineByClusterToken req w = (w', Ret (ns, name)) -> name <> "" -> speaks_for req ns name.
Proof.
  unfold findMachineByClusterToken. case_bool_decide as Ht; [by intros [= _ <- <-]|].
  case_bool_decide as Hid; [by intros [= _ <- <-]|].
  destruct (clusterTokenCache_GetByIndex (bearer req)) as [|[tns tok] l] eqn:Ei; [by intros [= _ <- <-]|].
  assert ((tns, tok) ∈ clusterTokenCache_GetByIndex (bearer req)) as Hin by (rewrite Ei; constructor).
  apply elem_of_filter_bool in Hin as [Hin Htok%bool_decide_eq_true]. simpl in Htok. subst tok.
  intros (s & w1 & Hs & Hk)%bind_Ret Hn. apply bind_Ret in Hk as (s' & w2 & Hw & Hk).
  apply bind_Ret in Hk as (e & w3 & _ & Hk). inv Hk. apply waitReady_Ret in Hw as [Hl Hw].
  eapply (by_cluster_token _ _ _ tns s'); try done. fold (machineRequestSecretName (Header_Get req machineIDHeader)).
  destruct (secretCache_Get _ _) as [s0|e0|] eqn:Ec; [| |done].
  - inv Hs. destruct Hw as [->|(evs & He & Hx)]; [by left|]. right. exists evs. by destruct (secretCache_Get_key _ _ _ Ec) as [<- <-].
  - destruct (IsNotFound e0); [|done]. unfold createSecret in Hs. apply bind_Ret in Hs as (d & w4 & _ & Hs).
    apply bind_Ret in Hs as ([] & w5 & _ & Hs). inv Hs. destruct Hw as [->|(evs & He & Hx)]; [|right; by exists evs].
    by cbn in Hl.
Qed.

Lemma find_machine_Ret req w w' ns name :
  find_machine req w = (w', Ret (ns, name)) -> name <> "" -> speaks_for req ns name.
Proof.
  unfold find_machine. intros ([ns0 name0] & w1 & Hr & Hk)%bind_Ret Hn. injection Hr as <- Hr. simpl in Hk.
  case_bool_decide; [by eapply findMachineByClusterToken_Ret|]. inv Hk. by apply findMachineByProvisioningSA_Ret.
Qed.

(** A service account with the labels of the plan service accounts of a machine, as the cache has it or as a watch has
    shown it. *)
Definition seen_account (ns name : string) (sa : ServiceAccount) : Prop :=
  sa_Namespace sa = ns /\ sa_Labels sa !! MachineNameLabel = Some name /\ sa_Labels sa !! RoleLabel = Some RolePlan
  /\ ((exists l, serviceAccountsCache_ListLabels ns (plan_selector name) = Ret l /\ sa ∈ l)
      \/ exists l, serviceAccounts_Watch ns (plan_selector name) = Ret l /\ WatchServiceAccount sa ∈ l).

(** The account is a plan service account of the machine, for this plan secret. *)
Definition plan_account (ns name planSecret : string) (sa : ServiceAccount) : Prop :=
  seen_account ns name sa /\ belongs_to name sa /\ planSecret <> "" /\ map_get (sa_Labels sa) PlanSecret = planSecret.

Lemma plan_account_checked ns name planSecret sa : seen_account ns name sa ->
  PlanSACheck name (Some sa) = Ret tt -> GetPlanSecretName (Some sa) = Ret planSecret -> plan_account ns name planSecret sa.
Proof.
  intros Hseen Hc Hg. split; [done|]. unfold PlanSACheck in Hc. destruct (name =? ""); [done|]. destruct (_ || _ || _); [done|].
  apply res_bind_Ret in Hc as ([] & Ho & Hc); [|done]. split; [by apply owned_by_machine_true|].
  unfold GetPlanSecretName in Hg. case_bool_decide; [done|]. by injection Hg as <-.
Qed.

Inductive delivered (ns name planSecret : string) (s : Secret) (w : World) : Prop :=
| delivered_token sa : plan_account ns name planSecret sa -> token_for sa s w -> delivered ns name planSecret s w
| delivered_watched sa sa' l :
    plan_account ns name planSecret sa -> seen_account ns name sa' ->
    secrets_WatchLabels ns {[ ServiceAccountSecretLabel := sa_Name sa' ]} = Ret l -> WatchSecret s ∈ l ->
    s_Namespace s = ns -> s_Labels s !! ServiceAccountSecretLabel = Some (sa_Name sa') ->
    delivered ns name planSecret s w.

(** What others do to the secrets leaves them under their own names. *)
Context (Henv : forall w, secrets_wf w -> secrets_wf (env w)).

(** A token secret comes without an error and with the flag, or not at all. *)
Lemma GetPlanServiceAccountTokenSecret_Ret sa w w' r :
  secrets_wf w -> GetPlanServiceAccountTokenSecret env (Some sa) w = (w', Ret r) ->
  (exists s, r = (Some s, true, None) /\ token_for sa s w') \/ (exists e, r = (None, false, Some e)).
Proof.
  intros Hwf. unfold GetPlanServiceAccountTokenSecret. intros (x & w1 & Hx & Hk)%bind_Ret. destruct x as [s|e]; inv Hk; [left|right; eauto].
  apply attempt_inl, EnsureSecretForServiceAccount_token in Hx; [|done..]. eauto.
Qed.
Lemma tidy_GetPlanServiceAccountTokenSecret sa : tidy (GetPlanServiceAccountTokenSecret env (Some sa)).
Proof.
  unfold GetPlanServiceAccountTokenSecret. eapply (runs_bind _ _ _ _ (fun _ => True)).
  - eapply runs_attempt; [by apply tidy_EnsureSecretForServiceAccount|done..].
  - intros [x|e] _; by apply runs_ret; [apply _|].
Qed.

Lemma attempt_lift_inl {S A} (r : res A) (w w' : S) a : attempt (lift r) w = (w', Ret (inl a)) -> w' = w /\ r = Ret a.
Proof. intros H'%attempt_inl. by injection H' as -> ->. Qed.
Lemma attempt_lift_state {S A} (r : res A) (w w' : S) x : attempt (lift r) w = (w', Ret x) -> w' = w.
Proof. unfold attempt, lift. by destruct r; intros [= <- _]. Qed.

Lemma checked_plan_secret_Ret name sa w w' p : checked_plan_secret name sa w = (w', Ret p) ->
  w' = w /\ (p = "" \/ PlanSACheck name (Some sa) = Ret tt /\ GetPlanSecretName (Some sa) = Ret p).
Proof.
  unfold checked_plan_secret. intros (x & w1 & Hx & Hk)%bind_Ret. pose proof (attempt_lift_state _ _ _ _ Hx) as ->.
  destruct x as [[]|e]; [|inv Hk; auto]. apply attempt_lift_inl in Hx as [_ Hx]. apply bind_Ret in Hk as (y & w2 & Hy & Hk).
  pose proof (attempt_lift_state _ _ _ _ Hy) as ->. destruct y as [q|e]; inv Hk; [|auto]. apply attempt_lift_inl in Hy as [_ Hy]. auto.
Qed.

Lemma first_plan_Ret ns name sas w w' o :
  (forall sa, sa ∈ sas -> seen_account ns name sa) -> secrets_wf w -> first_plan env name sas w = (w', Ret o) ->
  secrets_wf w' /\ forall planSecret s, o = Some (planSecret, s) -> delivered ns name planSecret s w'.
Proof.
  revert w. induction sas as [|sa sas IH]; intros w Hns Hwf; simpl; [by intros [= <- <-]|].
  assert (forall w1, secrets_wf w1 -> first_plan env name sas w1 = (w', Ret o) ->
    secrets_wf w' /\ forall planSecret s, o = Some (planSecret, s) -> delivered ns name planSecret s w') as Hrest.
  { intros w1 Hw1. apply IH; [|done]. intros sa' Hsa'. apply Hns. by right. }
  intros (p & w1 & [-> Hp]%checked_plan_secret_Ret & Hk)%bind_Ret. case_bool_decide as Hpe; [by eapply Hrest|].
  destruct Hp as [?|[Hc Hg']]; [done|].
  apply bind_Ret in Hk as (r & w2 & Hg & Hk). pose proof (tidy_ran _ _ _ _ (tidy_GetPlanServiceAccountTokenSecret sa) Hwf Hg) as Hwf2.
  apply GetPlanServiceAccountTokenSecret_Ret in Hg as [(s0 & -> & Ht)|(e & ->)]; [|by eapply Hrest|done]. inv Hk. split; [done|].
  intros ? ? [= <- <-]. apply (delivered_token _ _ _ _ _ sa); [|done]. apply plan_account_checked; [apply Hns; left|done..].
Qed.

Lemma watch_plan_Ret ns name events w w' planSA planSecret r :
  (forall sa, WatchServiceAccount sa ∈ events -> seen_account ns name sa) -> secrets_wf w ->
  watch_plan env name events planSA planSecret w = (w', Ret r) ->
  (planSecret <> "" -> exists sa, plan_account ns name planSecret sa) ->
  match r with
  | inl (p, s) => delivered ns name p s w'
  | inr (sa, p) => (p <> "" -> exists sa, plan_account ns name p sa)
                   /\ (sa = planSA \/ sa = None \/ exists sa', sa = Some sa' /\ WatchServiceAccount sa' ∈ events)
  end.
Proof.
  revert w planSA planSecret. induction events as [|ev events IH]; intros w planSA planSecret Hns Hwf; simpl.
  { intros [= _ <-] Hp. split; [done|by left]. }
  assert (forall w1 sa p, secrets_wf w1 -> watch_plan env name events sa p w1 = (w', Ret r) ->
    (p <> "" -> exists sa, plan_account ns name p sa) -> sa = None \/ (exists sa', sa = Some sa' /\ ev = WatchServiceAccount sa') ->
    match r with inl (p, s) => delivered ns name p s w'
    | inr (sa, p) => (p <> "" -> exists sa, plan_account ns name p sa)
                   /\ (sa = planSA \/ sa = None \/ exists sa', sa = Some sa' /\ WatchServiceAccount sa' ∈ ev :: events) end) as Hrest.
  { intros w1 sa p Hw1 Hr Hp Hsa. pose proof (IH w1 sa p) as Hrec. specialize (Hrec ltac:(intros sa' ?; apply Hns; by right) Hw1 Hr Hp).
    destruct r as [[p' s']|[sa' p']]; [done|]. destruct Hrec as [Hrec1 Hrec2]. split; [done|]. right.
    destruct Hrec2 as [-> |[-> |(sa'' & -> & Hin)]]; [|by left|right; exists sa''; split; [done|by right]].
    destruct Hsa as [-> |(sa'' & -> & ->)]; [by left|right; exists sa''; split; [done|by left]]. }
  destruct ev as [sa|s0|]; intros Hk Hp; [|by eapply Hrest; [exact Hwf|exact Hk|exact Hp|by left]..].
  apply bind_Ret in Hk as (x & w1 & Hx & Hk). pose proof (attempt_lift_state _ _ _ _ Hx) as ->.
  destruct x as [[]|e]; [|by eapply Hrest; [exact Hwf|exact Hk|exact Hp|eauto]].
  apply attempt_lift_inl in Hx as [_ Hx]. apply bind_Ret in Hk as (y & w2 & Hy & Hk). pose proof (attempt_lift_state _ _ _ _ Hy) as ->.
  destruct y as [q|e]; [|by eapply Hrest; [exact Hwf|exact Hk|done|eauto]]. apply attempt_lift_inl in Hy as [_ Hy].
  assert (plan_account ns name q sa) as Hacc by (apply plan_account_checked; [apply Hns; by left|done..]).
  destruct (bool_decide_reflect (q = "")); [by eapply Hrest; [exact Hwf|exact Hk|done|eauto]|]. apply bind_Ret in Hk as (z & w3 & Hz & Hk).
  pose proof (tidy_ran _ _ _ _ (tidy_GetPlanServiceAccountTokenSecret sa) Hwf Hz) as Hwf3.
  apply GetPlanServiceAccountTokenSecret_Ret in Hz as [(s0 & -> & Ht)|(e & ->)]; [|by eapply Hrest; [exact Hwf3|exact Hk|eauto|eauto]|done].
  inv Hk. by eapply delivered_token.
Qed.

Lemma first_secret_Some l s : first_secret l = Some s -> WatchSecret s ∈ l.
Proof. induction l as [|[sa|s0|] l IH]; simpl; [done|right; auto|intros [= <-]; left|right; auto]. Qed.

Lemma plan_selector_spec name labels : plan_selector name ⊆ labels -> labels !! MachineNameLabel = Some name /\ labels !! RoleLabel = Some RolePlan.
Proof. intros Hs. split; eapply lookup_weaken; try exact Hs; unfold plan_selector; by simplify_map_eq. Qed.

Lemma deliver_Ret ns name w w' planSecret s :
  secrets_wf w -> deliver env ns name w = (w', Ret (planSecret, s)) -> delivered ns name planSecret s w'.
Proof.
  intros Hwf. unfold deliver. intros (sas & w1 & Hl & Hk)%bind_Ret. injection Hl as <- Hl.
  apply bind_Ret in Hk as (found & w2 & Hf & Hk). apply (first_plan_Ret ns) in Hf as [Hwf2 Hf]; [| |done].
  2:{ intros sa Hsa. destruct (serviceAccounts_List_key _ _ _ _ Hl Hsa) as [Hns [? ?]%plan_selector_spec]. repeat (split; [done|]). left. eauto. }
  destruct found as [[p s0]|]; [inv Hk; by apply Hf|].
  apply bind_Ret in Hk as ([] & w3 & Hq & Hk). pose proof (tidy_ran _ _ _ _ tidy_request Hwf2 Hq) as Hwf3.
  apply bind_Ret in Hk as (events & w4 & He & Hk). injection He as <- He.
  assert (forall sa, WatchServiceAccount sa ∈ events -> seen_account ns name sa) as Hseen.
  { intros sa Hsa. destruct (serviceAccounts_Watch_key _ _ _ _ He Hsa) as [Hns [? ?]%plan_selector_spec]. repeat (split; [done|]). right. eauto. }
  apply bind_Ret in Hk as (r & w5 & Hr & Hk). eapply (watch_plan_Ret ns) in Hr; [|done..].
  destruct r as [[p s0]|[[sa|] p]]; [by inv Hk| |done]. case_bool_decide as Hpe; [done|].
  destruct Hr as [Hacc [?|[?|(sa' & [= ->] & Hin)]]]; [done|done|]. destruct (Hacc Hpe) as (sa0 & Hsa0).
  apply bind_Ret in Hk as ([] & w6 & _ & Hk). apply bind_Ret in Hk as (l & w7 & Hl' & Hk). injection Hl' as <- Hl'.
  destruct (first_secret l) as [s0|] eqn:Es; [|done]. inv Hk. apply first_secret_Some in Es.
  destruct (secrets_WatchLabels_key _ _ _ _ Hl' Es) as [Hns' Hsel'].
  apply (delivered_watched _ _ _ _ _ sa0 sa' l); auto. eapply lookup_weaken; [|exact Hsel']. apply lookup_singleton_eq.
Qed.

Lemma tidy_find_machine req : tidy (find_machine req).
Proof.
  assert (forall A (r : res A), tidy (lift r)) as Hlift by (intros; by apply (runs_lift _ _ _ (fun _ => True))).
  assert (forall A (a : A), tidy (ret a)) as Hret by (intros; by apply runs_ret; [apply _|]).
  assert (forall A e, tidy (fail (A := A) e)) as Hfail by (intros; apply runs_fail; apply _).
  unfold tidy, find_machine in *. eapply runs_bind; [apply _|apply Hlift|]. intros r _. destruct (snd r =? ""); [|apply Hret].
  unfold findMachineByClusterToken. destruct (bearer req =? ""); [apply Hret|]. destruct (Header_Get req machineIDHeader =? ""); [apply Hret|].
  destruct (clusterTokenCache_GetByIndex _) as [|[ns tok] l]; [apply Hret|].
  eapply (runs_bind _ _ _ _ (fun _ => True)); [|intros s _; eapply (runs_bind _ _ _ _ (fun _ => True)); [|intros s' _]].
  - destruct (secretCache_Get _ _) as [s0|e|]; [apply Hret| |apply runs_panic; apply _]. destruct (IsNotFound e); [|apply Hfail].
    unfold createSecret. eapply runs_bind; [apply _|apply Hlift|]. intros d _. eapply runs_bind; [apply _|apply tidy_Create|]. intros _ _. apply Hret.
  - unfold waitReady. destruct (_ !=? ""); [apply Hret|]. eapply runs_bind; [apply _|apply tidy_request|]. intros _ _.
    eapply runs_bind; [apply _|apply Hlift|]. intros l' _. destruct (first_ready l'); [apply Hret|apply Hfail].
  - eapply runs_bind; [apply _|eapply runs_attempt_err; [apply _|apply tidy_Delete]|]. intros e _. apply Hret.
Qed.

Lemma tidy_setOrUpdateMachineID ns name id : tidy (setOrUpdateMachineID ns name id).
Proof.
  unfold setOrUpdateMachineID, tidy. eapply (runs_bind _ _ _ _ (fun _ => True)); [by apply runs_lift|]. intros m _.
  destruct (_ =? id); [by apply runs_ret; [apply _|]|]. eapply (runs_bind _ _ _ _ (fun _ => True)); [|intros; by apply runs_ret; [apply _|]].
  unfold machines_Update. eapply runs_bind; [apply _|apply tidy_request|]. intros _ _ w Hw. by unfold bind, gets, modify, ret.
Qed.

Lemma findSA_Ret req w w' planSecret s :
  secrets_wf w -> findSA env req w = (w', Ret (planSecret, Some s)) ->
  exists ns name, ns <> "" /\ name <> "" /\ speaks_for req ns name /\ delivered ns name planSecret s w'.
Proof.
  intros Hwf. unfold findSA. case_bool_decide; [done|]. intros ([ns name] & w1 & Hf & Hk)%bind_Ret.
  pose proof (tidy_ran _ _ _ _ (tidy_find_machine req) Hwf Hf) as Hwf1.
  destruct (_ || _) eqn:Ee; [done|]. apply orb_false_iff in Ee as [Hn%bool_decide_eq_false Hns%bool_decide_eq_false].
  apply bind_Ret in Hk as ([] & w2 & Hset & Hk). pose proof (tidy_ran _ _ _ _ (tidy_setOrUpdateMachineID _ _ _) Hwf1 Hset) as Hwf2.
  apply bind_Ret in Hk as ([p s0] & w3 & Hd & Hk). inv Hk.
  exists ns, name. split; [done|]. split; [done|]. split; [by eapply find_machine_Ret|by eapply deliver_Ret].
Qed.

(** What is read for an answer changes nothing. *)
Lemma plan_secret_ready_reads ns name v w : fst (plan_secret_ready ns name v w) = w.
Proof. unfold plan_secret_ready. by destruct (secretCache_Get name ns) as [s0|e|]; [|destruct (IsNotFound e)|]. Qed.
Lemma getMachinePlanSecret_reads ns name w w' r : getMachinePlanSecret ns name w = (w', r) -> w' = w.
Proof.
  unfold getMachinePlanSecret. generalize (None : option Secret). generalize 10%nat. intros n. induction n as [|n IH]; intros v; [by intros [= <- _]|].
  cbn [ExponentialBackoff]. unfold bind. pose proof (plan_secret_ready_reads ns name v w) as Hw.
  destruct (plan_secret_ready ns name v w) as [w1 [[v' []]|e|]]; simpl in Hw; subst w1; [by intros [= <- _]|apply IH|by intros [= <- _]..].
Qed.
Lemma config_yaml_reads name ns w w' r : config_yaml name ns w = (w', r) -> w' = w.
Proof.
  unfold config_yaml, bind at 1. destruct (getMachinePlanSecret ns name w) as [w1 r1] eqn:Hg. apply getMachinePlanSecret_reads in Hg as ->.
  destruct r1 as [[s|]|e|]; [|by intros [= <- _]..]. unfold bind, lift, fail, ret, panic. repeat (case_match; simplify_eq/=; try (by intros [= <- _])).
  all: intros Hx; by injection Hx.
Qed.
End authentication.

Section claims.
Context `{D : ConfigServerDeps} `{I : Installation} (env : World -> World) `{!SelectorLaws}.

(** The address of this server: the configured one, otherwise the one the caller has used; and certificates that are
    configured for it. *)
Definition own_address (req : Request) (url : string) (ca : option string) : Prop :=
  url = (if bool_decide (Setting_Get ServerURL = "") then "https://" +:+ rq_Host req else Setting_Get ServerURL)
  /\ forall pem, ca = Some pem -> pem = Setting_Get CACerts \/ pem = Setting_Get InternalCACerts.

Lemma server_address_own req : own_address req (fst (server_address req)) (snd (server_address req)).
Proof.
  unfold server_address, own_address, nonblank. destruct (Setting_Get ServerURL =? ""); [|destruct (rq_InternalAPI req)]; (split; [done|]); intros pem;
    repeat destruct (_ !=? _); simpl; intros [= <-]; auto.
Qed.


(** The cache is asked with namespace and name the wrong way round: a plan secret is only found when they are equal. *)
Lemma getMachinePlanSecret_swapped ns name w w' s :
  getMachinePlanSecret ns name w = (w', Ret s) -> exists s0, s = Some s0 /\ s_Namespace s0 = name /\ s_Name s0 = ns.
Proof.
  intros (v & w1 & Hr)%ExponentialBackoff_Ret. unfold plan_secret_ready in Hr.
  destruct (secretCache_Get name ns) as [s0|e|] eqn:E; [|by destruct (IsNotFound e)|done].
  injection Hr as _ <- _. exists s0. by apply secretCache_Get_key in E.
Qed.
End claims.

(** ** From the install script to the plan *)

Section end_to_end.
Context `{D : ConfigServerDeps} `{B : !BootstrapDeps} `{I : Installation} (env : World -> World).

(** A machine with its bootstrap, and the stored service accounts generated for it. *)
Context (machine : Machine) (b : RKEBootstrap) (bootstrapUID uid planUID : string).
Let bootstrapSA : ServiceAccount := applied b bootstrapUID uid (bootstrap_service_account machine b).
Let planSA : ServiceAccount := applied b bootstrapUID planUID (plan_service_account machine b).
Let planSecretName : string := PlanSecretFromBootstrapName (rb_Name b).

Hypothesis Hns : rb_Namespace b <> "".
Hypothesis Hname : m_Name machine <> "".
Hypothesis Hplan : planSecretName <> "".
Hypothesis Howner : exists o, o ∈ rb_OwnerReferences b /\ or_Kind o = "Machine" /\ or_Name o = m_Name machine.
Hypothesis Hb : rkeBootstrapCache_Get (rb_Namespace b) (rb_Name b) = Ret b.
Hypothesis Hmachine : machineCache_Get (rb_Namespace b) (m_Name machine) = Ret machine.
Hypothesis Hsa : serviceAccountCache_Get (rb_Namespace b) (bootstrap_account_name b) = Ret bootstrapSA.
Hypothesis Hplans : serviceAccountsCache_ListLabels (rb_Namespace b) (plan_selector (m_Name machine)) = Ret [planSA].

(** The token of the bootstrap account as the token controller of Kubernetes fills it in; no other secret in the
    cache has the same hash. *)
Definition issued (tok : Secret) : Prop :=
  s_Type tok = SecretTypeServiceAccountToken /\ s_Namespace tok = rb_Namespace b
  /\ map_get (s_Annotations tok) ServiceAccountNameKey = bootstrap_account_name b
  /\ map_get (s_Annotations tok) ServiceAccountUIDKey = uid
  /\ token_of tok <> ""
  /\ secretCache_ListLabels (rb_Namespace b) {[ ServiceAccountSecretLabel := bootstrap_account_name b ]} = Ret [tok]
  /\ secretsCache_GetByIndex (token_hash (token_of tok)) = [tok].

Lemma findMachineByProvisioningSA_issued tok req :
  issued tok -> bearer req = token_hash (token_of tok) ->
  findMachineByProvisioningSA req = Ret (rb_Namespace b, m_Name machine).
Proof.
  intros (Hty & Htns & Hn & Hu & _ & _ & Hi) Hbe. unfold findMachineByProvisioningSA. rewrite Hbe, Hi, Htns, Hn, Hu, Hsa. cbn [res_bind].
  assert (map_get (sa_Labels bootstrapSA) MachineNameLabel = m_Name machine) as Hl by (unfold map_get; simpl; by rewrite lookup_insert_eq).
  assert (map_get (sa_Labels bootstrapSA) RoleLabel = RoleBootstrap) as ->.
  { unfold map_get. simpl. rewrite !lookup_insert_ne by done. by rewrite lookup_singleton_eq. }
  rewrite Hl, !bool_decide_eq_true_2 by done. cbn [negb orb].
  unfold bootstrapSA at 1. by rewrite applied_owned.
Qed.

Lemma deliver_ready ptok w :
  secretCache_ListLabels (rb_Namespace b) {[ ServiceAccountSecretLabel := planSecretName ]} = Ret [ptok] ->
  isSecretForServiceAccount ptok planSA = true -> token_of ptok <> "" ->
  deliver env (rb_Namespace b) (m_Name machine) w = (w, Ret (planSecretName, ptok)).
Proof.
  intros Hl Hv Ht. destruct (plan_account_accepted b bootstrapUID planUID machine Hname Hplan Hb Howner) as [Hc Hp].
  unfold deliver, bind at 1, lift at 1. rewrite Hplans. unfold bind at 1. cbn [first_plan].
  unfold bind at 1. unfold checked_plan_secret, bind at 1, attempt, lift. fold planSA in Hc, Hp. rewrite Hc.
  unfold bind, ret. rewrite Hp. rewrite bool_decide_eq_false_2 by done.
  by rewrite (GetPlanServiceAccountTokenSecret_cached env planSA ptok w).
Qed.

Lemma setOrUpdateMachineID_calm id w : w_faults w = [] ->
  exists w', setOrUpdateMachineID (rb_Namespace b) (m_Name machine) id w = (w', Ret tt)
    /\ w_secrets w' = w_secrets w /\ (map_get (m_Labels machine) MachineIDLabel = id
        \/ w_machines w' !! (m_Namespace machine, m_Name machine)
           = Some (set_m_Labels (<[MachineIDLabel := id]> (m_Labels machine)) machine)).
Proof.
  intros Hf. unfold setOrUpdateMachineID, bind at 1, lift. rewrite Hmachine. case_bool_decide; [eauto|].
  unfold machines_Update, bind, api_request, gets, modify, ret. rewrite Hf. simpl. eexists. split; [done|]. split; [done|].
  right. apply lookup_insert_eq.
Qed.

Lemma script_token tok envVars w0 w0' s :
  issued tok ->
  getBootstrapSecret env (rb_Namespace b) (bootstrap_account_name b) envVars machine w0 = (w0', Ret (Some s)) ->
  Contains (map_get (s_Data s) "value") ("CATTLE_TOKEN=" +:+ quote (token_hash (token_of tok))) = true.
Proof.
  intros (Hty & Htns & Hn & Hu & Htok & Hlist & _) (sa & tok' & Hc & He & Hscript)%getBootstrapSecret_script.
  rewrite Hsa in Hc. injection Hc as <-. rewrite (EnsureSecretForServiceAccount_cached env bootstrapSA tok w0) in He; [by inv He|done| |done].
  unfold isSecretForServiceAccount. rewrite Hty, bool_decide_eq_true_2 by done. cbn [negb].
  by apply bool_decide_eq_true_2.
Qed.

(** A machine that runs the install script generated for it gets its plan: the script carries the hash of the
    token of the bootstrap service account, with which the config server, once its caches have the generated
    accounts and their tokens, recognises the machine, records the caller's id on it, and answers with the plan
    secret of exactly this machine and the token of the account that may read it. *)
Theorem bootstrap_reaches_plan tok ptok envVars w0 w0' s req w kubeconfig :
  issued tok ->
  secretCache_ListLabels (rb_Namespace b) {[ ServiceAccountSecretLabel := planSecretName ]} = Ret [ptok] ->
  isSecretForServiceAccount ptok planSA = true -> token_of ptok <> "" -> s_Namespace ptok = rb_Namespace b ->
  getBootstrapSecret env (rb_Namespace b) (bootstrap_account_name b) envVars machine w0 = (w0', Ret (Some s)) ->
  informersSynced = true -> w_faults w = [] ->
  rq_Path req = ConnectAgent -> Header_Get req machineIDHeader <> "" -> bearer req = token_hash (token_of tok) ->
  clientcmd_Write (mkKubeConfig (fst (server_address req)) (snd (server_address req)) (token_of ptok)) = Ret kubeconfig ->
  Contains (map_get (s_Data s) "value") ("CATTLE_TOKEN=" +:+ quote (token_hash (token_of tok))) = true
  /\ exists w', ServeHTTP env req w = (w', Ret (AgentInfo (rb_Namespace b) planSecretName kubeconfig))
      /\ (map_get (m_Labels machine) MachineIDLabel = Header_Get req machineIDHeader
          \/ w_machines w' !! (m_Namespace machine, m_Name machine)
             = Some (set_m_Labels (<[MachineIDLabel := Header_Get req machineIDHeader]> (m_Labels machine)) machine)).
Proof.
  intros Hiss Hl Hv Ht Hpns Hs Hsync Hf Hpath Hid Hbe Hkc. split; [by apply (script_token tok envVars w0 w0')|].
  destruct (setOrUpdateMachineID_calm (Header_Get req machineIDHeader) w Hf) as (w' & Hset & _ & Hlab).
  exists w'. split; [|done].
  assert (findSA env req w = (w', Ret (planSecretName, Some ptok))) as Hfind.
  { unfold findSA, find_machine. rewrite bool_decide_eq_false_2 by done. unfold bind at 1, bind at 1, lift at 1.
    rewrite (findMachineByProvisioningSA_issued tok req Hiss Hbe). cbn [snd]. rewrite bool_decide_eq_false_2 by done.
    unfold ret at 1. rewrite !bool_decide_eq_false_2 by done. cbn [orb]. unfold bind at 1. rewrite Hset. unfold bind.
    by rewrite (deliver_ready ptok w' Hl Hv Ht). }
  unfold ServeHTTP. rewrite Hsync. cbn [negb]. unfold bind at 1, attempt. rewrite Hfind.
  rewrite bool_decide_eq_false_2.
  2:{ intros Hnone. apply Ht. unfold token_of, map_get. by rewrite Hnone. }
  rewrite Hpath. cbn. unfold connectAgent. destruct (server_address req) as [url ca]. cbn in Hkc.
  unfold or_error, bind, attempt, lift. by rewrite Hkc, Hpns.
Qed.
End end_to_end.


Section witnesses.
#[local] Existing Instance demoExternal.
#[local] Existing Instance demoInstallation.
Definition demoServerPlanner : Planner := demoPlanner ∅ ∅ [demoMachine "m1"] (Some demoCluster).
#[local] Existing Instance demoServerPlanner.

(** The accounts generated for the machine, as stored, and their tokens. *)
Definition demoServerBootstrap : RKEBootstrap :=
  mkRKEBootstrap "fleet-default" "m1" ∅ [mkOwnerReference "" "Machine" "m1" "" true] ∅ false "c1" None false.
Definition demoAccounts : list ServiceAccount :=
  [applied demoServerBootstrap "b-uid" "sa-uid" (mkServiceAccount "fleet-default" "m1-machine-bootstrap"
     (<[MachineNameLabel := "m1"]> (<[rkeBootstrapName := "m1"]> {[ RoleLabel := RoleBootstrap ]})) [] "");
   applied demoServerBootstrap "b-uid" "plan-uid" (mkServiceAccount "fleet-default" "m1-machine-plan"
     (<[MachineNameLabel := "m1"]> (<[rkeBootstrapName := "m1"]> (<[RoleLabel := RolePlan]> {[ PlanSecret := "m1-machine-plan" ]}))) [] "")].
Definition demoToken (account uid token : string) : Secret :=
  mkSecret "fleet-default" (account +:+ "-token-x") SecretTypeServiceAccountToken {[ ServiceAccountSecretLabel := account ]}
    (<[ServiceAccountNameKey := account]> {[ ServiceAccountUIDKey := uid ]}) {[ "token" := token ]} [] false.
Definition demoTokens : list Secret :=
  [demoToken "m1-machine-bootstrap" "sa-uid" "secret1"; demoToken "m1-machine-plan" "plan-uid" "secret2"].

Definition matches (sel labels : gmap string string) : bool :=
  List.forallb (fun kv => bool_decide (labels !! fst kv = Some (snd kv))) (map_to_list sel).

Lemma matches_sub sel labels : matches sel labels = true -> sel ⊆ labels.
Proof.
  unfold matches. rewrite forallb_forall. intros Hall. apply map_subseteq_spec. intros k v Hk.
  apply elem_of_map_to_list, list_elem_of_In, Hall in Hk. by apply bool_decide_eq_true in Hk.
Qed.

Definition demoServerControllers : Controllers := {|
  machineCache_Get ns name := if (ns =? "fleet-default") && (name =? "m1") then Ret (demoMachine "m1") else demoMissing "machine" name;
  machineCache_ListLabels ns labels := Ret [demoMachine "m1"];
  secretCache_ListLabels ns labels := Ret (List.filter (fun s => (s_Namespace s =? ns) && matches labels (s_Labels s)) demoTokens);
  etcdSnapshotCache_ListLabels ns labels := Ret [];
  serviceAccountCache_Get ns name :=
    match List.find (fun sa => (sa_Namespace sa =? ns) && (sa_Name sa =? name)) demoAccounts with
    | Some sa => Ret sa | None => demoMissing "serviceaccount" name end;
  rkeControlPlaneCache_Get ns name := Ret demoControlPlane;
  json_Unmarshal_DrainOptions := decode_text;
  restConfig := string;
  k8sInterface := string;
  RESTConfigFromKubeConfig s := Ret s;
  NewForConfig s := Ret s
|}.
#[local] Existing Instance demoServerControllers.

Definition demoServerDeps : ConfigServerDeps := {|
  informersSynced := true;
  secretsCached := demoTokens;
  clusterTokensCached := [];
  serviceAccountsCache_ListLabels ns sel :=
    Ret (List.filter (fun sa => (sa_Namespace sa =? ns) && matches sel (sa_Labels sa)) demoAccounts);
  serviceAccounts_Watch ns sel := Ret [];
  secrets_WatchLabels ns sel := Ret [];
  secrets_WatchName ns name := Ret [];
  provisioningClusterCache_Get ns name := Ret "v1.27.4+rke2r1";
  clientcmd_Write c := Ret (kcf_Server c +:+ " " +:+ kcf_Token c);
  json_Marshal_Headers h := Ret "{}";
  json_Marshal_Info i := Ret "{}"
|}.
#[local] Existing Instance demoServerDeps.
Definition demoServerBootstrapDeps : BootstrapDeps :=
  {| deploymentCache_Get ns name := demoMissing "deployment" name; IsPaused_Bootstrap c b := cc_Paused c |}.
#[local] Existing Instance demoServerBootstrapDeps.

Lemma demoSelectorLaws : SelectorLaws.
Proof.
  split; [by intros ns name s Hs; cbn in Hs; rewrite lookup_empty in Hs|by intros ns name l s [= <-] ?%elem_of_nil| |
    by intros ns sel l s [= <-] ?%elem_of_nil|by intros ns sel l s [= <-] ?%elem_of_nil].
  intros ns sel l sa <-%Ret_inj Hin.
  apply elem_of_filter_bool in Hin as [_ [Hn%bool_decide_eq_true Hm%matches_sub]%andb_true_iff]. done.
Qed.

Definition demoRequest (token : string) : Request :=
  mkRequest (<["Authorization" := ["Bearer " +:+ token]]> {[ machineIDHeader := ["id1"] ]}) ConnectAgent "rancher.example" false.
Definition demoServerWorld : World := mkWorld (mkPlan ∅ ∅ ∅) ∅ ∅ ∅ ∅ ∅ [] "" [].


Definition demoScriptSecret : Secret :=
  mkSecret "fleet-default" "m1-machine-bootstrap" "rke.cattle.io/bootstrap" ∅ ∅
    {[ "value" := match LinuxInstallScript false (token_hash "secret1") [] "" with Ret d => d | _ => "" end ]} [] false.

Lemma bootstrap_reaches_plan_witness :
  let req := demoRequest (token_hash "secret1") in
  Contains (map_get (s_Data demoScriptSecret) "value") ("CATTLE_TOKEN=" +:+ quote (token_hash "secret1")) = true
  /\ exists w', ServeHTTP id req demoServerWorld = (w', Ret (AgentInfo "fleet-default" "m1-machine-plan" "https://rancher.example secret2")).
Proof.
  intros req.
  destruct (bootstrap_reaches_plan id (demoMachine "m1") demoServerBootstrap "b-uid" "sa-uid" "plan-uid"
    ltac:(done) ltac:(done) ltac:(done)
    ltac:(exists (mkOwnerReference "" "Machine" "m1" "" true); split; [left|split; reflexivity])
    eq_refl eq_refl ltac:(vm_compute; reflexivity) ltac:(vm_compute; reflexivity)
    (demoToken "m1-machine-bootstrap" "sa-uid" "secret1") (demoToken "m1-machine-plan" "plan-uid" "secret2")
    [] demoServerWorld demoServerWorld demoScriptSecret req demoServerWorld "https://rancher.example secret2")
    as (H1 & w' & H2 & _); [|vm_compute; reflexivity|reflexivity|vm_compute; discriminate|reflexivity|vm_compute; reflexivity
      |reflexivity|reflexivity|reflexivity|vm_compute; discriminate|vm_compute; reflexivity|vm_compute; reflexivity|].
  - split; [reflexivity|]. split; [reflexivity|]. split; [reflexivity|]. split; [reflexivity|]. split; [vm_compute; discriminate|].
    split; vm_compute; reflexivity.
  - split; [exact H1|exists w'; exact H2].
Defined.
End witnesses.
