(* ===== verification/Unmanaged.v ===== *)
(** * Custom machines ([pkg/controllers/capr/unmanaged/controller.go])

    A machine that registers itself with a cluster registration token leaves a machine request, a secret
    with its headers.  This controller finds the machine of the request or creates it, and names it in the
    labels of the secret, where the config server waits for them. *)

From S2P Require Import Prelude GoLib Errors Types External Instances Capr PlanEntry World Store Handlers Installer Taints ServiceAccountToken Bootstrap ConfigServer.

Definition MachineControlPlaneLabel : string := "cluster.x-k8s.io/control-plane".

(** [rkev1.CustomMachine] *)
Record CustomMachine := mkCustomMachine {
  cm_Namespace : string;
  cm_Name : string;
  cm_Labels : gmap string string;
  cm_ProviderID : string;
  cm_Conditions : list Condition;
  cm_Ready : bool
}.

Class UnmanagedDeps `{Controllers} := {
  mgmtClusterCache_Get : string -> res string;                         (** the name of the cluster *)
  clusterCache_ByV3 : string -> res (list (string * string));          (** namespace and name, by management cluster *)
  json_Marshal_Labels : gmap string string -> res string;
  json_Marshal_Taints : list Taint -> res string
}.

(** The objects of a new machine. *)
Record machineObjects := mkMachineObjects { mo_bootstrap : RKEBootstrap; mo_custom : CustomMachine; mo_machine : Machine }.

Section unmanaged.
Context `{U : UnmanagedDeps}.

(** [data.Object] *)
Definition data_String (d : config) (k : string) : string := convert_ToString (config_get d k).
Definition data_Bool (d : config) (k : string) : bool := convert_ToBool (config_get d k).
Definition data_StringSlice (d : config) (k : string) : list string := convert_ToStringSlice (config_get d k).

Definition findMachine (cluster : CAPICluster) (machineName machineID : string) : res string :=
  match machineCache_Get (cc_Namespace cluster) machineName with
  | Panic => Panic
  | Ret _ => Ret machineName
  | Fail e =>
      if IsNotFound e then
        let? machines := machineCache_ListLabels (cc_Namespace cluster) {[ MachineIDLabel := machineID ]} in
        match machines with
        | [m] => if m_ClusterName m !=? cc_Name cluster then Ret "" else Ret (m_Name m)
        | _ => Ret ""
        end
      else Fail e
  end.

(** [if cond { labels[k] = v }] *)
Definition set_if (cond : bool) (k v : string) (labels : gmap string string) : gmap string string :=
  if cond then <[k := v]> labels else labels.

Definition role_labels (d : config) : gmap string string :=
  let labels := set_if (data_Bool d "role-control-plane") ControlPlaneRoleLabel "true" ∅ in
  let labels := set_if (data_Bool d "role-control-plane") MachineControlPlaneLabel "true" labels in
  let labels := set_if (data_Bool d "role-etcd") EtcdRoleLabel "true" labels in
  let labels := set_if (data_Bool d "role-worker") WorkerRoleLabel "true" labels in
  set_if (data_String d "node-name" !=? "") NodeNameLabel (data_String d "node-name") labels.

Definition system_labels (capiCluster : CAPICluster) (d : config) : gmap string string :=
  <[CAPIClusterNameLabel := cc_Name capiCluster]> (<[ClusterNameLabel := cc_Name capiCluster]>
    (<[MachineIDLabel := data_String d "id"]> (role_labels d))).

(** The labels the user asked for: all of them, and the labels with those that are not taken yet. *)
Definition user_label (acc : gmap string string * gmap string string) (str : string) : gmap string string * gmap string string :=
  let '(k, v) := kv_Split str "=" in
  if k =? "" then acc
  else (<[k := v]> (fst acc), match snd acc !! k with Some _ => snd acc | None => <[k := v]> (snd acc) end).

Definition user_labels (d : config) (labels : gmap string string) : gmap string string * gmap string string :=
  fold_left user_label (Split (data_String d "labels") ",") (∅, labels).

Definition core_taints (d : config) : list Taint :=
  flat_map (fun taint => GetTaintsFromStrings (Split taint ",")) (data_StringSlice d "taints").

Definition address_annotations (d : config) : gmap string string :=
  set_if (data_String d "internal-address" !=? "") InternalAddressAnnotation (data_String d "internal-address")
    (set_if (data_String d "address" !=? "") AddressAnnotation (data_String d "address") ∅).

Definition createMachineObjects (capiCluster : CAPICluster) (machineName : string) (d : config) : res machineObjects :=
  let '(labelsMap, labels) := user_labels d (system_labels capiCluster d) in
  let annotations := address_annotations d in
  let? annotations := (if bool_decide (labelsMap = ∅) then Ret annotations
                       else let? text := json_Marshal_Labels labelsMap in Ret (<[LabelsAnnotation := text]> annotations)) in
  let coreTaints := core_taints d in
  let? annotations := (if bool_decide (coreTaints = []) then Ret annotations
                       else let? text := json_Marshal_Taints coreTaints in Ret (<[TaintsAnnotation := text]> annotations)) in
  let ns := cc_Namespace capiCluster in
  Ret (mkMachineObjects
    (mkRKEBootstrap ns machineName annotations [] labels false (cc_Name capiCluster) None false)
    (mkCustomMachine ns machineName labels "" [] false)
    (mkMachine ns machineName "" labels ∅ false
       (Some (mkObjectReference "RKEBootstrap" ns machineName RKEAPIVersion))
       (mkObjectReference "CustomMachine" ns machineName RKEAPIVersion)
       "" [] None None [] None (cc_Name capiCluster) "" "" None None)).

(** [ApplyObjects] on objects that do not exist: one request each.  Custom machines are not read back here. *)
Definition apply_objects (objs : machineObjects) : M unit :=
  let* _ := rkeBootstrap_Update (mo_bootstrap objs) in
  let* _ := api_request in
  let* _ := machines_Update (mo_machine objs) in
  ret tt.

Definition createMachine (capiCluster : CAPICluster) (secret : Secret) (d : config) : M unit :=
  let* objs := lift (createMachineObjects capiCluster (s_Name secret) d) in
  apply_objects objs.

Definition getCAPICluster (secret : Secret) : res (option CAPICluster) :=
  match mgmtClusterCache_Get (s_Namespace secret) with
  | Panic => Panic
  | Fail e => if IsNotFound e then Ret None else Fail e
  | Ret cluster =>
      let? rClusters := clusterCache_ByV3 cluster in
      match rClusters with
      | [] => Ret None
      | (ns, name) :: _ => capiClusters_Get ns name
      end
  end.

(** The request is named after its machine. *)
Definition label_request (capiCluster : CAPICluster) (machineName : string) (secret : Secret) : M Secret :=
  if (map_get (s_Labels secret) MachineNamespaceLabel !=? cc_Namespace capiCluster)
     || (map_get (s_Labels secret) MachineNameLabel !=? machineName)
  then secrets_Update (set_s_Labels
         (<[MachineNameLabel := machineName]> (<[MachineNamespaceLabel := cc_Namespace capiCluster]> (s_Labels secret))) secret)
  else ret secret.

Definition onSecretChange (secret : option Secret) : M (option Secret) :=
  match secret with
  | None => ret None
  | Some s =>
      if s_Type s !=? MachineRequestType then ret (Some s)
      else
        match json_Unmarshal_Map (map_get (s_Data s) "data") with
        | Panic => panic
        | Fail _ => ret (Some s)
        | Ret d =>
            let* capiCluster := lift (getCAPICluster s) in
            match capiCluster with
            | None => ret (Some s)
            | Some capiCluster =>
                let* found := lift (findMachine capiCluster (s_Name s) (data_String d "id")) in
                let* machineName := (if found =? "" then let* _ := createMachine capiCluster s d in ret (s_Name s) else ret found) in
                let* s := label_request capiCluster machineName s in
                ret (Some s)
            end
        end
  end.

(** The goroutine of [onSecretChange], a minute later. *)
Definition request_expires (s : Secret) : M unit :=
  let* _ := attempt_err (secrets_Delete (s_Namespace s) (s_Name s)) in ret tt.

(** The status of a custom machine: the new object, and whether it is written. *)
Definition onUnmanagedMachineOnRemove (customMachine : CustomMachine) : CustomMachine := customMachine.
Definition onUnmanagedMachineChange (machine : option CustomMachine) : option CustomMachine * bool :=
  match machine with
  | None => (None, false)
  | Some m =>
      if negb (Cond_IsTrue ReadyCond (cm_Conditions m)) then
        (Some (mkCustomMachine (cm_Namespace m) (cm_Name m) (cm_Labels m) (cm_ProviderID m)
                 (Cond_Message ReadyCond "" (Cond_SetStatus ReadyCond "True" (cm_Conditions m))) (cm_Ready m)), true)
      else if negb (cm_Ready m) && (cm_ProviderID m !=? "") then
        (Some (mkCustomMachine (cm_Namespace m) (cm_Name m) (cm_Labels m) (cm_ProviderID m) (cm_Conditions m) true), true)
      else (Some m, false)
  end.
End unmanaged.

(** ** The objects of a machine *)

Section objects.
Context `{U : UnmanagedDeps}.

(** Labels that are set are not replaced by labels of the user. *)
Lemma user_labels_keep d labels k v : labels !! k = Some v -> snd (user_labels d labels) !! k = Some v.
Proof.
  unfold user_labels. generalize (Split (data_String d "labels") ",") as l. intros l Hk.
  enough (forall acc, snd acc !! k = Some v -> snd (fold_left user_label l acc) !! k = Some v) as Hf by by apply Hf.
  clear Hk. induction l as [|x l IH]; intros acc Hacc; simpl; [done|]. apply IH. unfold user_label.
  destruct (kv_Split x "=") as [k' v']. case_bool_decide; [done|]. simpl.
  destruct (snd acc !! k') eqn:E; [done|]. rewrite lookup_insert_ne; [done|]. by intros ->; congruence.
Qed.

Lemma set_if_keep cond k v labels k' : k <> k' -> set_if cond k v labels !! k' = labels !! k'.
Proof. intros Hne. unfold set_if. destruct cond; [by rewrite lookup_insert_ne|done]. Qed.

Lemma set_if_here k v labels : set_if true k v labels !! k = Some v.
Proof. apply lookup_insert_eq. Qed.

(** The role labels a request asks for. *)
Definition requested_roles (d : config) : list string :=
  (if data_Bool d "role-control-plane" then [ControlPlaneRoleLabel; MachineControlPlaneLabel] else [])
  ++ (if data_Bool d "role-etcd" then [EtcdRoleLabel] else []) ++ (if data_Bool d "role-worker" then [WorkerRoleLabel] else []).

Lemma role_labels_requested d k : k ∈ requested_roles d -> role_labels d !! k = Some "true".
Proof.
  unfold requested_roles, role_labels.
  destruct (data_Bool d "role-control-plane"), (data_Bool d "role-etcd"), (data_Bool d "role-worker"); cbn [app];
    repeat (intros [-> |Hk]%elem_of_cons; [rewrite ?set_if_keep by done; by apply set_if_here|revert Hk]);
    by intros ?%elem_of_nil.
Qed.

Lemma system_labels_spec c d :
  system_labels c d !! CAPIClusterNameLabel = Some (cc_Name c) /\ system_labels c d !! ClusterNameLabel = Some (cc_Name c)
  /\ system_labels c d !! MachineIDLabel = Some (data_String d "id")
  /\ forall k, k ∈ requested_roles d -> system_labels c d !! k = Some "true".
Proof.
  unfold system_labels. split; [apply lookup_insert_eq|].
  split; [rewrite lookup_insert_ne by done; apply lookup_insert_eq|].
  split; [rewrite !lookup_insert_ne by done; apply lookup_insert_eq|].
  intros k Hk. rewrite !lookup_insert_ne; [by apply role_labels_requested|..]; intros <-; revert Hk; unfold requested_roles;
    destruct (data_Bool d "role-control-plane"), (data_Bool d "role-etcd"), (data_Bool d "role-worker"); cbn [app];
    repeat (intros [E|Hk]%elem_of_cons; [discriminate E|revert Hk]); by intros ?%elem_of_nil.
Qed.

(** The objects created for a machine request fit together and carry what was asked for: bootstrap, custom machine
    and machine have the same name, namespace and labels, the machine refers to the other two, the labels record
    the caller's id, the cluster and every requested role, and no label of the user replaces one of these. *)
Theorem createMachineObjects_consistent c name d objs :
  createMachineObjects c name d = Ret objs ->
  let b := mo_bootstrap objs in let m := mo_machine objs in
  (rb_Namespace b, rb_Name b) = (cc_Namespace c, name) /\ (m_Namespace m, m_Name m) = (cc_Namespace c, name)
  /\ (cm_Namespace (mo_custom objs), cm_Name (mo_custom objs)) = (cc_Namespace c, name)
  /\ rb_Labels b = m_Labels m /\ cm_Labels (mo_custom objs) = m_Labels m
  /\ rb_ClusterName b = cc_Name c /\ m_ClusterName m = cc_Name c
  /\ m_ConfigRef m = Some (mkObjectReference "RKEBootstrap" (cc_Namespace c) name RKEAPIVersion)
  /\ m_InfrastructureRef m = mkObjectReference "CustomMachine" (cc_Namespace c) name RKEAPIVersion
  /\ m_Labels m !! MachineIDLabel = Some (data_String d "id")
  /\ m_Labels m !! CAPIClusterNameLabel = Some (cc_Name c) /\ m_Labels m !! ClusterNameLabel = Some (cc_Name c)
  /\ forall k, k ∈ requested_roles d -> m_Labels m !! k = Some "true".
Proof.
  unfold createMachineObjects. destruct (user_labels d (system_labels c d)) as [lm labels] eqn:El.
  intros (a1 & _ & Hk)%res_bind_Ret. apply res_bind_Ret in Hk as (a2 & _ & Hk). injection Hk as <-.
  destruct (system_labels_spec c d) as (H2 & H3 & H4 & H5).
  assert (forall k v, system_labels c d !! k = Some v -> labels !! k = Some v) as Hkeep.
  { intros k v Hv. apply (user_labels_keep d) in Hv. by rewrite El in Hv. }
  cbn. repeat split; auto.
Qed.
End objects.

(** ** Registration *)

Section registration.
Context `{U : UnmanagedDeps} `{D : !ConfigServerDeps} `{I : Installation}.

(** A caller with a cluster registration token whose machine is not known yet. *)
Context (req : Request) (tokenNamespace name text : string) (d : config) (c : CAPICluster) (objs : machineObjects).
Let id : string := Header_Get req machineIDHeader.
Let request : Secret := mkSecret tokenNamespace name MachineRequestType ∅ ∅ {[ "data" := text ]} [] false.
Let labelled : Secret :=
  set_s_Labels (<[MachineNameLabel := name]> (<[MachineNamespaceLabel := cc_Namespace c]> ∅)) request.

Hypothesis Hname : name = machineRequestSecretName id.
Hypothesis Hbearer : bearer req <> "".
Hypothesis Hid : id <> "".
Hypothesis Htoken : clusterTokenCache_GetByIndex (bearer req) = [(tokenNamespace, bearer req)].
Hypothesis Hcache : exists e, secretCache_Get tokenNamespace name = Fail e /\ IsNotFound e = true.
Hypothesis Hheaders : json_Marshal_Headers (dataFromHeaders req) = Ret text.
Hypothesis Hdata : json_Unmarshal_Map text = Ret d.
Hypothesis Hcluster : getCAPICluster request = Ret (Some c).
Hypothesis Hns : cc_Namespace c <> "".
Hypothesis Hfind : findMachine c name (data_String d "id") = Ret "".
Hypothesis Hobjs : createMachineObjects c name d = Ret objs.

Lemma name_nonempty : name <> "".
Proof. by rewrite Hname. Qed.

Lemma onSecretChange_request w :
  w_faults w = [] -> w_secrets w !! (tokenNamespace, name) = Some request ->
  exists w', onSecretChange (Some request) w = (w', Ret (Some labelled))
    /\ w_secrets w' = <[(tokenNamespace, name) := labelled]> (w_secrets w)
    /\ w_machines w' !! (cc_Namespace c, name) = Some (mo_machine objs)
    /\ w_bootstraps w' !! (cc_Namespace c, name) = Some (mo_bootstrap objs).
Proof.
  intros Hf Hs. assert (map_get (s_Data request) "data" = text) as Ht by (unfold map_get; simpl; by rewrite lookup_singleton_eq).
  assert ((m_Namespace (mo_machine objs), m_Name (mo_machine objs)) = (cc_Namespace c, name)
    /\ (rb_Namespace (mo_bootstrap objs), rb_Name (mo_bootstrap objs)) = (cc_Namespace c, name)) as [Em Eb].
  { pose proof Hobjs as Ho. unfold createMachineObjects in Ho. destruct (user_labels _ _) as [lm labels].
    apply res_bind_Ret in Ho as (a1 & _ & Hk). apply res_bind_Ret in Hk as (a2 & _ & Hk). by injection Hk as <-. }
  unfold onSecretChange. cbn [s_Type request]. rewrite bool_decide_eq_true_2, Ht, Hdata by done. cbn [negb].
  unfold bind at 1, lift at 1. rewrite Hcluster. unfold bind at 1, lift at 1. cbn [s_Name request]. rewrite Hfind, bool_decide_eq_true_2 by done.
  unfold bind at 1, createMachine, apply_objects, lift. cbn [s_Name request].
  unfold rkeBootstrap_Update, machines_Update, bind, api_request, gets, modify, ret. rewrite Hobjs, Hf. simpl. rewrite Hf. simpl. rewrite Hf. simpl.
  unfold label_request. cbn [s_Labels request]. unfold map_get. rewrite !lookup_empty. cbn [default].
  rewrite bool_decide_eq_false_2 by done. cbn [negb orb].
  unfold secrets_Update, bind, api_request, gets, modify, ret. simpl. rewrite Hf. simpl. rewrite Hs. eexists. split; [reflexivity|]. simpl.
  rewrite Em, Eb. split; [done|]. split; apply lookup_insert_eq.
Qed.

Lemma createSecret_calm w :
  w_faults w = [] -> w_secrets w !! (tokenNamespace, name) = None ->
  createSecret tokenNamespace name (dataFromHeaders req) w
  = (set_w_secrets (<[(tokenNamespace, name) := request]> (w_secrets w)) w, Ret request).
Proof.
  intros Hf Hnone. unfold createSecret, bind, lift. rewrite Hheaders. fold request.
  unfold secrets_Create, bind, api_request, gets, modify, ret. rewrite Hf. cbn [s_Namespace s_Name request]. by rewrite Hnone.
Qed.

Lemma waitReady_labelled w :
  w_faults w = [] -> secrets_WatchName tokenNamespace name = Ret [WatchSecret request; WatchSecret labelled] ->
  waitReady request w = (w, Ret labelled).
Proof.
  intros Hf Hw. assert (map_get (s_Labels request) MachineNameLabel = "") as Hr by (unfold map_get; simpl; by rewrite lookup_empty).
  assert (map_get (s_Labels labelled) MachineNameLabel = name) as Hl by (unfold map_get; simpl; by rewrite lookup_insert_eq).
  unfold waitReady. rewrite Hr, bool_decide_eq_true_2 by done. cbn [negb]. unfold bind, api_request, lift. rewrite Hf.
  cbn [s_Namespace s_Name request]. rewrite Hw. cbn [first_ready]. rewrite Hr, Hl, bool_decide_eq_true_2 by done. cbn [negb].
  by rewrite bool_decide_eq_false_2 by apply name_nonempty.
Qed.

Lemma findMachineByClusterToken_labelled w :
  w_faults w = [] -> w_secrets w !! (tokenNamespace, name) = None ->
  secrets_WatchName tokenNamespace name = Ret [WatchSecret request; WatchSecret labelled] ->
  exists w', findMachineByClusterToken req w = (w', Ret (cc_Namespace c, name)) /\ w_secrets w' = w_secrets w.
Proof.
  intros Hf Hnone Hw. destruct Hcache as (e & He & Hnf). unfold findMachineByClusterToken.
  rewrite (bool_decide_eq_false_2 (bearer req = "")), (bool_decide_eq_false_2 (Header_Get req machineIDHeader = "")) by done.
  rewrite Htoken. fold id. rewrite <- Hname, He, Hnf.
  rewrite (bind_run _ _ _ _ _ (createSecret_calm w Hf Hnone)).
  set (w1 := set_w_secrets _ w). rewrite (bind_run _ _ _ _ _ (waitReady_labelled w1 Hf Hw)).
  unfold bind, attempt_err, attempt, secrets_Delete, bind, api_request, gets. change (w_faults w1) with (w_faults w). rewrite Hf.
  cbn [s_Namespace s_Name labelled set_s_Labels request]. change (w_secrets w1) with (<[(tokenNamespace, name) := request]> (w_secrets w)).
  rewrite lookup_insert_eq. unfold modify, ret. eexists. split.
  - reflexivity.
  - simpl. by rewrite delete_insert_id.
Qed.

(** A machine that registers itself with a cluster registration token is found: the request it leaves makes the
    controller create the machine with its bootstrap in the namespace of the cluster and name it in the labels of the
    request, and the config server, which waits for these labels, takes it for the caller's machine and removes the
    request. *)
Theorem custom_registration w :
  w_faults w = [] -> w_secrets w !! (tokenNamespace, name) = None ->
  secrets_WatchName tokenNamespace name = Ret [WatchSecret request; WatchSecret labelled] ->
  exists w1 w2 w3,
    createSecret tokenNamespace name (dataFromHeaders req) w = (w1, Ret request)
    /\ onSecretChange (Some request) w1 = (w2, Ret (Some labelled))
    /\ w_secrets w2 !! (tokenNamespace, name) = Some labelled
    /\ w_machines w2 !! (cc_Namespace c, name) = Some (mo_machine objs)
    /\ w_bootstraps w2 !! (cc_Namespace c, name) = Some (mo_bootstrap objs)
    /\ findMachineByClusterToken req w = (w3, Ret (cc_Namespace c, name)) /\ w_secrets w3 = w_secrets w.
Proof.
  intros Hf Hnone Hw. pose proof (createSecret_calm w Hf Hnone) as Hc1.
  destruct (onSecretChange_request (set_w_secrets (<[(tokenNamespace, name) := request]> (w_secrets w)) w) Hf (lookup_insert_eq _ _ _))
    as (w2 & Hc2 & Hc3 & Hc4 & Hc5).
  destruct (findMachineByClusterToken_labelled w Hf Hnone Hw) as (w3 & Hc6 & Hc7).
  eexists _, w2, w3. split; [exact Hc1|]. split; [exact Hc2|]. split; [rewrite Hc3; apply lookup_insert_eq|]. done.
Qed.
End registration.

(** A machine found by the name of the request is taken whatever cluster it belongs to; only the search by id checks
    the cluster. *)
Lemma findMachine_by_name `{U : UnmanagedDeps} c m machineName id :
  machineCache_Get (cc_Namespace c) machineName = Ret m -> findMachine c machineName id = Ret machineName.
Proof. intros Hm. unfold findMachine. by rewrite Hm. Qed.

Lemma findMachine_by_id `{U : UnmanagedDeps} c machineName id name e :
  machineCache_Get (cc_Namespace c) machineName = Fail e -> findMachine c machineName id = Ret name -> name <> "" ->
  exists m, machineCache_ListLabels (cc_Namespace c) {[ MachineIDLabel := id ]} = Ret [m] /\ m_Name m = name /\ m_ClusterName m = cc_Name c.
Proof.
  intros He. unfold findMachine. rewrite He. destruct (IsNotFound e); [|done].
  intros (l & Hl & Hk)%res_bind_Ret Hn. destruct l as [|m [|]]; [by inv Hk| |by inv Hk].
  destruct (_ !=? _) eqn:Ec; [by inv Hk|]. inv Hk. apply negb_false_iff, bool_decide_eq_true in Ec. by exists m.
Qed.

(** The status of a custom machine settles: two more calls leave it alone. *)
Lemma onUnmanagedMachineChange_settles `{U : UnmanagedDeps} m m1 m2 :
  (forall l, Cond_IsTrue ReadyCond (Cond_Message ReadyCond "" (Cond_SetStatus ReadyCond "True" l)) = true) ->
  onUnmanagedMachineChange (Some m) = (Some m1, true) -> fst (onUnmanagedMachineChange (Some m1)) = Some m2 ->
  onUnmanagedMachineChange (Some m2) = (Some m2, false).
Proof.
  intros Hc. unfold onUnmanagedMachineChange. destruct (negb (Cond_IsTrue ReadyCond (cm_Conditions m))) eqn:E1.
  - intros [= <-]. simpl. rewrite Hc. simpl. destruct (negb (cm_Ready m) && _) eqn:E2; simpl; intros [= <-]; simpl; rewrite Hc; simpl; [done|].
    by rewrite E2.
  - destruct (negb (cm_Ready m) && _) eqn:E2; intros [= <-]. simpl. rewrite E1. simpl. intros [= <-]. simpl. by rewrite E1.
Qed.

Section witnesses.
#[local] Existing Instance demoExternal.
Definition demoCustomPlanner : Planner := demoPlanner ∅ ∅ [] (Some demoCluster).
#[local] Existing Instance demoCustomPlanner.
Definition demoCustomControllers : Controllers := demoControllers demoCustomPlanner [] [] (Some demoControlPlane).
#[local] Existing Instance demoCustomControllers.
Definition demoUnmanagedDeps : UnmanagedDeps := {|
  mgmtClusterCache_Get name := Ret name;
  clusterCache_ByV3 name := Ret [("fleet-default", "c1")];
  json_Marshal_Labels l := Ret "labels";
  json_Marshal_Taints l := Ret "taints"
|}.
#[local] Existing Instance demoUnmanagedDeps.

Definition demoCustomName : string := Eval vm_compute in machineRequestSecretName "id1".
Definition demoCustomRequest : Secret := mkSecret "c-m-1" demoCustomName MachineRequestType ∅ ∅ {[ "data" := "{}" ]} [] false.
Definition demoCustomLabelled : Secret :=
  set_s_Labels (<[MachineNameLabel := demoCustomName]> (<[MachineNamespaceLabel := "fleet-default"]> ∅)) demoCustomRequest.
Definition demoCustomDeps : ConfigServerDeps := {|
  informersSynced := true;
  secretsCached := [];
  clusterTokensCached := [("c-m-1", "token1")];
  serviceAccountsCache_ListLabels ns sel := Ret [];
  serviceAccounts_Watch ns sel := Ret [];
  secrets_WatchLabels ns sel := Ret [];
  secrets_WatchName ns name := Ret [WatchSecret demoCustomRequest; WatchSecret demoCustomLabelled];
  provisioningClusterCache_Get ns name := Ret "v1.27.4+rke2r1";
  clientcmd_Write c := Ret (kcf_Token c);
  json_Marshal_Headers h := Ret "{}";
  json_Marshal_Info i := Ret "{}"
|}.
#[local] Existing Instance demoCustomDeps.
Definition demoCustomCall : Request :=
  mkRequest (<["Authorization" := ["Bearer token1"]]> {[ machineIDHeader := ["id1"] ]}) ConnectAgent "rancher.example" false.
Definition demoObjects : machineObjects :=
  Eval vm_compute in match createMachineObjects demoCluster demoCustomName ∅ with
                     | Ret o => o
                     | _ => mkMachineObjects (mkRKEBootstrap "" "" ∅ [] ∅ false "" None false) (mkCustomMachine "" "" ∅ "" [] false) (demoMachine "")
                     end.
Definition demoCustomWorld : World := mkWorld (mkPlan ∅ ∅ ∅) ∅ ∅ ∅ ∅ ∅ [] "" [].

Lemma createMachineObjects_consistent_witness :
  createMachineObjects demoCluster demoCustomName ∅ = Ret demoObjects
  /\ m_Labels (mo_machine demoObjects) !! ClusterNameLabel = Some "c1".
Proof.
  assert (createMachineObjects demoCluster demoCustomName ∅ = Ret demoObjects) as Ho by (vm_compute; reflexivity).
  split; [exact Ho|]. apply (createMachineObjects_consistent demoCluster demoCustomName ∅ demoObjects Ho).
Defined.

Lemma custom_registration_witness :
  exists w2 w3,
    w_machines w2 !! ("fleet-default", demoCustomName) = Some (mo_machine demoObjects)
    /\ findMachineByClusterToken demoCustomCall demoCustomWorld = (w3, Ret ("fleet-default", demoCustomName)).
Proof.
  destruct (custom_registration demoCustomCall "c-m-1" demoCustomName "{}" ∅ demoCluster demoObjects
    ltac:(vm_compute; reflexivity) ltac:(vm_compute; discriminate) ltac:(vm_compute; discriminate) ltac:(vm_compute; reflexivity)
    ltac:(eexists; split; [vm_compute; reflexivity|reflexivity]) eq_refl eq_refl eq_refl ltac:(vm_compute; discriminate)
    ltac:(vm_compute; reflexivity) ltac:(vm_compute; reflexivity) demoCustomWorld eq_refl eq_refl eq_refl)
    as (w1 & w2 & w3 & _ & _ & _ & Hm & _ & Hf & _).
  exists w2, w3. split; [exact Hm|exact Hf].
Defined.
End witnesses.
