(* ===== verification/ControlPlane.v ===== *)
(** * Removal of a control plane ([rkecontrolplane/controlplane.go])

    The control plane object manages its control plane nodes and so goes last: its removal handler asks for the
    deletion of the custom machines among them and holds the finalizer, by an error, while any machine is left.
    [DoRemoveAndUpdateStatus] of [capr/common.go] turns progress into conditions. *)

From S2P Require Import Prelude GoLib Errors Types External Instances Capr PlanEntry World Store Handlers.

Definition Updated : string := "Updated".
Definition Waiting : string := "Waiting".
Definition Pending : string := "Pending".
Definition Removed : string := "Removed".
Definition Connected : string := "Connected".

(** [machine_held]: a finalizer holds the machine, so that a deletion only marks it; the other two are caches of
    management clusters (their conditions, by name) and of provisioning clusters (by management cluster). *)
Class ControlPlaneDeps `{Controllers} := {
  machine_held : string -> string -> bool;                              (** namespace, name *)
  mgmtCluster_Conditions : string -> res (list Condition);
  provClusterCache_ByCluster : string -> res (list (string * string))
}.

Record RWorld := mkRWorld { rw_world : World; rw_controlPlanes : gmap (string * string) RKEControlPlane }.
Definition RM (A : Type) : Type := ST RWorld A.

Definition objects {A} (c : M A) : RM A :=
  fun w => let '(w1, r) := c (rw_world w) in (mkRWorld w1 (rw_controlPlanes w), r).

Definition set_cp_Status (v : ControlPlaneStatus) (r : RKEControlPlane) : RKEControlPlane :=
  mkRKEControlPlane (cp_Namespace r) (cp_Name r) (cp_UID r) (cp_Generation r) (cp_Labels r) (cp_Annotations r)
    (cp_Deleting r) (cp_OwnerReferences r) (cp_Spec r) v.

Section controlplane.
Context `{D : ControlPlaneDeps}.

(** [UpdateStatus]: the status subresource of the stored object. *)
Definition rkeControlPlanes_UpdateStatus (cp : RKEControlPlane) : RM RKEControlPlane :=
  let* _ := objects api_request in
  let* cps := gets rw_controlPlanes in
  match cps !! (cp_Namespace cp, cp_Name cp) with
  | None => fail (not_found "rkecontrolplane" (cp_Name cp))
  | Some stored =>
      let new := set_cp_Status (cp_Status cp) stored in
      let* _ := modify (fun w => mkRWorld (rw_world w) (<[(cp_Namespace cp, cp_Name cp) := new]> cps)) in
      ret new
  end.

(** The conditions of the object, the error, and the delay in seconds after which it asks to be called again. *)
Definition DoRemoveAndUpdateStatus {S} (conditions : list Condition) (doRemove : ST S string)
  : ST S (list Condition * option error * option Z) :=
  let conditions :=
    if negb (Cond_IsTrue Provisioned conditions) || negb (Cond_IsTrue Waiting conditions)
       || negb (Cond_IsTrue Pending conditions) || negb (Cond_IsTrue Updated conditions)
    then Cond_SetStatus Updated "True" (Cond_SetStatus Pending "True" (Cond_SetStatus Waiting "True"
           (Cond_SetStatus Provisioned "True" conditions)))
    else conditions in
  let* r := attempt doRemove in
  ret (match r with
       | inr e => if IsErrSkip e then (conditions, Some e, None) else (Cond_SetError Removed "" e conditions, Some e, None)
       | inl message =>
           if message =? "" then
             (Cond_Message Removed "" (Cond_Reason Removed "" (Cond_SetStatus Removed "True" conditions)), None, None)
           else
             (Cond_Message Removed message (Cond_Reason Removed "Waiting" (Cond_SetStatus Removed "Unknown" conditions)),
              Some ErrSkip, Some 5)
       end).

Definition is_custom (m : Machine) : bool :=
  (ref_APIVersion (m_InfrastructureRef m) =? "rke.cattle.io/v1") && (ref_Kind (m_InfrastructureRef m) =? "CustomMachine").

Definition delete_custom (machine : Machine) : M unit :=
  if negb (is_custom machine) then ret tt
  else if m_Deleting machine then ret tt
  else
    let* r := attempt_err (machines_Delete machine_held (m_Namespace machine) (m_Name machine)) in
    match r with
    | Some e => fail (errorString ("error deleting machine " +:+ m_Namespace machine +:+ "/" +:+ m_Name machine +:+ ": " +:+ Error e))
    | None => ret tt
    end.

Definition doRemove (cp : RKEControlPlane) : M string :=
  let* machines := lift (machineCache_ListLabels (cp_Namespace cp)
                           {[ CAPIClusterNameLabel := cp_Name cp; ControlPlaneRoleLabel := "true" ]}) in
  let* otherMachines := lift (machineCache_ListLabels (cp_Namespace cp)
                                {[ ClusterNameLabel := cp_Name cp; ControlPlaneRoleLabel := "true" ]}) in
  let allMachines := machines ++ otherMachines in
  let* _ := for_fold allMachines tt (fun _ => delete_custom) in
  lift (GetMachineDeletionStatus allMachines).

(** The object, the error and the delay; a failed status update returns the object of the client, which is not used. *)
Record removal := mkRemoval { rm_object : RKEControlPlane; rm_err : option error; rm_enqueueAfter : option Z }.

Definition OnRemove (cp : RKEControlPlane) : RM removal :=
  let* '(conditions, err, after) := DoRemoveAndUpdateStatus (st_Conditions (cp_Status cp)) (objects (doRemove cp)) in
  if bool_decide (conditions = st_Conditions (cp_Status cp)) then ret (mkRemoval cp err after)
  else
    let* r := attempt (rkeControlPlanes_UpdateStatus (set_cp_Status (set_st_Conditions conditions (cp_Status cp)) cp)) in
    match r with
    | inr updateErr => ret (mkRemoval cp (Some updateErr) after)
    | inl cp => ret (mkRemoval cp err after)
    end.

(** The status and the delay; there is no error. *)
Definition OnChange (obj : RKEControlPlane) (status : ControlPlaneStatus) : ControlPlaneStatus * option Z :=
  let status := set_st_ObservedGeneration (cp_Generation obj) status in
  match mgmtCluster_Conditions (sp_ManagementClusterName (cp_Spec obj)) with
  | Ret conditions =>
      (mkControlPlaneStatus (st_AppliedSpec status) (st_Conditions status) (st_Ready status) (st_ObservedGeneration status)
         (st_CertificateRotationGeneration status) (st_RotateEncryptionKeys status) (st_RotateEncryptionKeysPhase status)
         (st_RotateEncryptionKeysLeader status) (st_ETCDSnapshotRestore status) (st_ETCDSnapshotRestorePhase status)
         (st_ETCDSnapshotCreate status) (st_ETCDSnapshotCreatePhase status) (st_ConfigGeneration status)
         (st_Initialized status) (Cond_IsTrue Connected conditions), None)
  | _ => (status, Some 2)
  end.

Definition clusterWatch (cluster : string) : res (list (string * string)) :=
  let? provClusters := provClusterCache_ByCluster cluster in
  Ret (match provClusters with key :: _ => [key] | [] => [] end).
End controlplane.

(** ** The control plane goes last *)

Section last.
Context `{D : ControlPlaneDeps}.

Definition machine_key (m : Machine) : string * string := (m_Namespace m, m_Name m).

(** The machine cache shows the machines of the API server. *)
Definition cache_synced (w : World) : Prop :=
  (forall k m, w_machines w !! k = Some m -> k = machine_key m)
  /\ forall ns labels, exists l, machineCache_ListLabels ns labels = Ret l
     /\ forall m, m ∈ l <-> w_machines w !! machine_key m = Some m /\ m_Namespace m = ns /\ labels ⊆ m_Labels m.

(** Machines of the control plane, labelled with the cluster in the way of Cluster API or in the way of Rancher. *)
Definition control_plane_machine (cp : RKEControlPlane) (m : Machine) : bool :=
  (m_Namespace m =? cp_Namespace cp) && bool_decide (m_Labels m !! ControlPlaneRoleLabel = Some "true")
  && (bool_decide (m_Labels m !! CAPIClusterNameLabel = Some (cp_Name cp)) || bool_decide (m_Labels m !! ClusterNameLabel = Some (cp_Name cp))).

(** A deletion was asked for [k] by one of the machines. *)
Definition marks (l : list Machine) (k : string * string) : bool :=
  List.existsb (fun m => bool_decide (machine_key m = k) && is_custom m && negb (m_Deleting m)) l.

Definition mark_if (b : bool) (m : Machine) : Machine := if b then set_m_Deleting true m else m.

Lemma mark_if_or b1 b2 m : mark_if b2 (mark_if b1 m) = mark_if (b1 || b2) m.
Proof. by destruct b1, b2, m. Qed.

Lemma delete_custom_calm m m0 w :
  w_faults w = [] -> w_machines w !! machine_key m = Some m0 -> machine_held (m_Namespace m) (m_Name m) = true ->
  exists w', delete_custom m w = (w', Ret tt) /\ w_faults w' = []
    /\ forall k, w_machines w' !! k = mark_if (marks [m] k) <$> w_machines w !! k.
Proof.
  intros Hf Hm Hh. unfold delete_custom, marks. cbn [List.existsb]. destruct (is_custom m); cbn [negb].
  2: { exists w. repeat split; [done|]. intros k. rewrite andb_false_r. simpl. by destruct (w_machines w !! k). }
  destruct (m_Deleting m); cbn [negb].
  { exists w. repeat split; [done|]. intros k. rewrite andb_false_r. simpl. by destruct (w_machines w !! k). }
  unfold bind, attempt_err, bind, attempt, machines_Delete, bind, api_request, gets, modify, ret. rewrite Hf.
  unfold machine_key in Hm. rewrite Hm, Hh. eexists. split; [reflexivity|]. split; [done|]. intros k. cbn.
  rewrite !andb_true_r, orb_false_r. case_bool_decide as Ek; simpl.
  - subst k. unfold machine_key. by rewrite lookup_insert_eq, Hm.
  - rewrite lookup_insert_ne by done. by destruct (w_machines w !! k).
Qed.

Lemma delete_customs_calm l w :
  w_faults w = [] ->
  (forall m, m ∈ l -> is_Some (w_machines w !! machine_key m) /\ machine_held (m_Namespace m) (m_Name m) = true) ->
  exists w', for_fold l tt (fun _ => delete_custom) w = (w', Ret tt) /\ w_faults w' = []
    /\ forall k, w_machines w' !! k = mark_if (marks l k) <$> w_machines w !! k.
Proof.
  revert w. induction l as [|m l IH]; intros w Hf Hl.
  - exists w. repeat split; [done|]. intros k. simpl. by destruct (w_machines w !! k).
  - destruct (Hl m) as [[m0 Hm] Hh]; [constructor|].
    destruct (delete_custom_calm m m0 w Hf Hm Hh) as (w1 & Hr1 & Hf1 & Hw1).
    destruct (IH w1 Hf1) as (w2 & Hr2 & Hf2 & Hw2).
    { intros m' Hm'. destruct (Hl m') as [Hs Hh']; [by constructor|]. split; [|done]. rewrite Hw1. by apply fmap_is_Some. }
    exists w2. rewrite for_fold_cons, (bind_run _ _ _ _ _ Hr1). repeat split; [done..|]. intros k.
    rewrite Hw2, Hw1. unfold marks at 3. cbn [List.existsb]. fold (marks l k).
    destruct (w_machines w !! k) as [x|]; simpl; [|done]. by rewrite mark_if_or, orb_false_r.
Qed.

(** What the two lists hold. *)
Lemma doRemove_lists cp w :
  cache_synced w ->
  exists l, doRemove cp w = (let* _ := for_fold l tt (fun _ => delete_custom) in lift (GetMachineDeletionStatus l)) w
    /\ forall m, m ∈ l <-> w_machines w !! machine_key m = Some m /\ control_plane_machine cp m = true.
Proof.
  intros [Hkeys Hsync].
  destruct (Hsync (cp_Namespace cp) {[ CAPIClusterNameLabel := cp_Name cp; ControlPlaneRoleLabel := "true" ]}) as (l1 & Hl1 & Hm1).
  destruct (Hsync (cp_Namespace cp) {[ ClusterNameLabel := cp_Name cp; ControlPlaneRoleLabel := "true" ]}) as (l2 & Hl2 & Hm2).
  exists (l1 ++ l2). split; [unfold doRemove, bind, lift; by rewrite Hl1, Hl2|].
  assert (forall k m, k <> ControlPlaneRoleLabel ->
    {[ k := cp_Name cp; ControlPlaneRoleLabel := "true" ]} ⊆ m_Labels m
    <-> m_Labels m !! k = Some (cp_Name cp) /\ m_Labels m !! ControlPlaneRoleLabel = Some "true") as Hsub.
  { intros k m Hk. split.
    - intros Hs. split; [|by eapply lookup_weaken; [|exact Hs]; rewrite lookup_insert_ne, lookup_singleton_eq].
      eapply lookup_weaken; [|exact Hs]. apply lookup_insert_eq.
    - intros [Ha Hb]. apply insert_subseteq_l; [done|]. by apply map_singleton_subseteq_l. }
  intros m. rewrite elem_of_app, Hm1, Hm2, !Hsub by done. unfold control_plane_machine.
  rewrite !andb_true_iff, orb_true_iff, !bool_decide_eq_true. naive_solver.
Qed.

(** Only an empty list has nothing left to report. *)
Lemma GetMachineDeletionStatus_done l : GetMachineDeletionStatus l = Ret "" <-> l = [].
Proof.
  unfold GetMachineDeletionStatus. split; [|by intros ->].
  destruct (sort_by m_Name l) as [|m l'] eqn:E.
  - intros _. pose proof (sort_by_perm m_Name l) as Hp. rewrite E in Hp. by apply Permutation_nil in Hp.
  - by destruct (m_FailureReason m); [case_bool_decide|].
Qed.

Lemma GetMachineDeletionStatus_total l : GetMachineDeletionStatus l <> Panic.
Proof.
  unfold GetMachineDeletionStatus. destruct (sort_by m_Name l) as [|m l']; [done|].
  by destruct (m_FailureReason m); [case_bool_decide|].
Qed.

Lemma no_panic_delete l w : snd (for_fold l tt (fun _ => delete_custom) w) <> Panic.
Proof.
  apply no_panic_for_fold. intros [] m. unfold delete_custom, machines_Delete.
  intros w'. destruct (negb (is_custom m)); [done|]. destruct (m_Deleting m); [done|].
  unfold bind, attempt_err, bind, attempt, api_request, gets, modify, ret.
  by destruct (w_faults w') as [|[e|] fs]; simpl; try done; destruct (w_machines w' !! _).
Qed.

Lemma mark_if_deleting b m : m_Deleting m = true -> mark_if b m = m.
Proof. destruct b, m; simpl; [|done]. by intros ->. Qed.

Lemma marks_listed cp w l k m :
  cache_synced w -> (forall x, x ∈ l <-> w_machines w !! machine_key x = Some x /\ control_plane_machine cp x = true) ->
  w_machines w !! k = Some m -> mark_if (marks l k) m = mark_if (control_plane_machine cp m && is_custom m) m.
Proof.
  intros [Hkeys _] Hin Hk. destruct (m_Deleting m) eqn:Ed; [by rewrite !mark_if_deleting|]. f_equal. apply eq_true_iff_eq.
  unfold marks. rewrite existsb_exists. pose proof (Hkeys k m Hk) as ->. split.
  - intros (x & Hx & [[Ek Hc]%andb_true_iff _]%andb_true_iff). apply bool_decide_eq_true in Ek.
    apply list_elem_of_In, Hin in Hx as [Hx Hcp]. rewrite Ek, Hk in Hx. injection Hx as ->. by rewrite Hcp.
  - intros [Hcp Hc]%andb_true_iff. exists m. split; [by apply list_elem_of_In, Hin|]. by rewrite bool_decide_eq_true_2, Hc, Ed.
Qed.

(** The handler always answers; its error is nil only for an empty list and a status that was written. *)
Lemma OnRemove_reply cp w w1 r :
  doRemove cp (rw_world w) = (w1, r) -> r <> Panic ->
  exists w' o, OnRemove cp w = (w', Ret o) /\ w_machines (rw_world w') = w_machines w1
    /\ (rm_err o = None -> r = Ret "")
    /\ (w_faults w1 = [] -> rw_controlPlanes w !! (cp_Namespace cp, cp_Name cp) <> None -> r = Ret "" -> rm_err o = None).
Proof.
  intros Hr Hp. unfold OnRemove.
  destruct (DoRemoveAndUpdateStatus (st_Conditions (cp_Status cp)) (objects (doRemove cp)) w) as [w2 r2] eqn:E.
  assert (exists conds err after, r2 = Ret (conds, err, after) /\ w2 = mkRWorld w1 (rw_controlPlanes w) /\ (err = None <-> r = Ret ""))
    as (conds & err & after & -> & -> & Herr).
  { unfold DoRemoveAndUpdateStatus, bind, attempt, objects in E. rewrite Hr in E.
    destruct r as [msg|e|]; [case_bool_decide as Em|destruct (IsErrSkip e)|done]; injection E as <- <-; eexists _, _, _;
      (split; [reflexivity|split; [reflexivity|]]); naive_solver. }
  rewrite (bind_run _ _ _ _ _ E). case_bool_decide.
  { eexists _, _. split; [reflexivity|]. split; [done|]. simpl. naive_solver. }
  unfold bind, attempt, rkeControlPlanes_UpdateStatus, bind, objects, gets, api_request. cbn [rw_world rw_controlPlanes].
  destruct (w_faults w1) as [|[e|] fs] eqn:Ef; cbn [rw_controlPlanes cp_Namespace cp_Name set_cp_Status];
    try destruct (rw_controlPlanes w !! _) as [st|] eqn:Es; eexists _, _; (split; [reflexivity|]); split; try done; simpl; naive_solver.
Qed.

(** The control plane object goes last: its removal is over, which gives its finalizer up, only when no control
    plane machine of the cluster is left, whichever of the two cluster labels it carries; until then every call is
    answered with an error, and when the requests are granted the custom machines among them are marked for deletion
    and no other machine is touched; once none is left, removal is over. *)
Theorem control_plane_removed_last cp w :
  cache_synced (rw_world w) ->
  let left m := w_machines (rw_world w) !! machine_key m = Some m /\ control_plane_machine cp m = true in
  exists w' o, OnRemove cp w = (w', Ret o)
    /\ (rm_err o = None -> forall m, ~ left m)
    /\ (w_faults (rw_world w) = [] -> rw_controlPlanes w !! (cp_Namespace cp, cp_Name cp) <> None ->
        (forall m, left m -> machine_held (m_Namespace m) (m_Name m) = true) ->
        ((forall m, ~ left m) -> rm_err o = None)
        /\ forall k, w_machines (rw_world w') !! k
             = (fun m => mark_if (control_plane_machine cp m && is_custom m) m) <$> w_machines (rw_world w) !! k).
Proof.
  intros Hs left. destruct (doRemove_lists cp (rw_world w) Hs) as (l & Hl & Hin).
  destruct (doRemove cp (rw_world w)) as [w1 r] eqn:Er.
  assert (r <> Panic /\ (r = Ret "" -> l = [])) as [Hp Hnil].
  { symmetry in Hl. unfold bind, lift in Hl. destruct (for_fold _ _ _ _) as [w2 r2] eqn:Ef.
    pose proof (no_panic_delete l (rw_world w)) as Hnp. rewrite Ef in Hnp. simpl in Hnp.
    destruct r2 as [[]|e|]; injection Hl as -> <-; [|done..]. split; [apply GetMachineDeletionStatus_total|].
    apply GetMachineDeletionStatus_done. }
  destruct (OnRemove_reply cp w w1 r Er Hp) as (w' & o & Ho & Hm & Herr1 & Herr2). exists w', o. split; [done|]. split.
  - intros He m Hm'. specialize (Hnil (Herr1 He)). apply Hin in Hm'. subst l. by apply elem_of_nil in Hm'.
  - intros Hf Hcp Hheld. destruct (delete_customs_calm l (rw_world w) Hf) as (w2 & Hr2 & Hf2 & Hw2).
    { intros m Hm'%Hin. split; [exists m; apply Hm'|by apply Hheld]. }
    rewrite (bind_run _ _ _ _ _ Hr2) in Hl. unfold lift in Hl. injection Hl as -> ->. split.
    + intros Hno. apply Herr2; [done..|]. apply GetMachineDeletionStatus_done.
      destruct l as [|m l]; [done|]. exfalso. apply (Hno m), Hin. constructor.
    + intros k. rewrite Hm, Hw2. destruct (w_machines (rw_world w) !! k) as [m|] eqn:Ek; [|done]. simpl. f_equal.
      by apply (marks_listed cp (rw_world w)).
Qed.
End last.

Section witnesses.
#[local] Existing Instance demoExternal.
Definition demoRemovalPlanner : Planner := demoPlanner ∅ ∅ [] (Some demoCluster).
#[local] Existing Instance demoRemovalPlanner.
Definition demoCustomNode : Machine :=
  mkMachine "fleet-default" "m1" "" {[ ClusterNameLabel := "c1"; ControlPlaneRoleLabel := "true" ]} ∅ false None
    (mkObjectReference "CustomMachine" "fleet-default" "m1" RKEAPIVersion) "" [] None None [] None "c1" "" "" None None.
Definition demoRemovalControllers : Controllers := {|
  machineCache_Get ns name := demoMissing "machine" name;
  machineCache_ListLabels ns labels :=
    Ret (if bool_decide ("fleet-default" = ns) && bool_decide (labels ⊆ m_Labels demoCustomNode) then [demoCustomNode] else []);
  secretCache_ListLabels ns labels := Ret [];
  etcdSnapshotCache_ListLabels ns labels := Ret [];
  serviceAccountCache_Get ns name := demoMissing "serviceaccount" name;
  rkeControlPlaneCache_Get ns name := Ret demoControlPlane;
  json_Unmarshal_DrainOptions := decode_text;
  restConfig := string;
  k8sInterface := string;
  RESTConfigFromKubeConfig s := Ret s;
  NewForConfig s := Ret s
|}.
#[local] Existing Instance demoRemovalControllers.
Definition demoControlPlaneDeps : ControlPlaneDeps :=
  {| machine_held _ _ := true; mgmtCluster_Conditions _ := Ret []; provClusterCache_ByCluster _ := Ret [] |}.
#[local] Existing Instance demoControlPlaneDeps.
Definition demoRemoval : RWorld :=
  mkRWorld (mkWorld (mkPlan ∅ ∅ ∅) ∅ {[ ("fleet-default", "m1") := demoCustomNode ]} ∅ ∅ ∅ [] "" [])
    {[ ("fleet-default", "c1") := demoControlPlane ]}.

Lemma control_plane_removed_last_witness :
  exists w' o, OnRemove demoControlPlane demoRemoval = (w', Ret o) /\ rm_err o <> None
    /\ w_machines (rw_world w') !! ("fleet-default", "m1") = Some (set_m_Deleting true demoCustomNode).
Proof.
  destruct (control_plane_removed_last demoControlPlane demoRemoval) as (w' & o & Ho & Hlast & Hok).
  { assert (forall k m, w_machines (rw_world demoRemoval) !! k = Some m -> k = ("fleet-default", "m1") /\ m = demoCustomNode) as Hone.
    { intros k m Hk. change (({[ ("fleet-default", "m1") := demoCustomNode ]} : gmap (string * string) Machine) !! k = Some m) in Hk. by apply lookup_singleton_Some in Hk as [<- <-]. }
    split; [by intros k m [-> ->]%Hone|]. intros ns labels. eexists. split; [reflexivity|]. intros m. split.
    - destruct (bool_decide _) eqn:E1; [destruct (bool_decide (labels ⊆ _)) eqn:E2|]; simpl; [|by intros ?%elem_of_nil..].
      intros ->%list_elem_of_singleton. apply bool_decide_eq_true in E1, E2. done.
    - intros ([_ ->]%Hone & <- & Hl). rewrite !bool_decide_eq_true_2 by done. constructor. }
  exists w', o. split; [exact Ho|]. split.
  - intros He. apply (Hlast He demoCustomNode). by split; vm_compute.
  - destruct Hok as [_ Hm]; [reflexivity|vm_compute; discriminate|by intros|]. rewrite Hm. vm_compute. reflexivity.
Defined.
End witnesses.
