(* ===== verification/RkeCluster.v ===== *)
(** * The infrastructure object of a cluster ([rkecluster/controller.go])

    Cluster API waits for the infrastructure object of a cluster to be ready; for these clusters there is nothing to
    prepare, so its controller sets an endpoint and the ready flag and is done.  The handler is called again for every
    change of the object, its own included. *)

From S2P Require Import Prelude GoLib Errors Types External Instances Capr World Handlers.

(** [capi.APIEndpoint] *)
Record APIEndpoint := mkAPIEndpoint { ep_Host : string; ep_Port : Z }.
#[global] Instance APIEndpoint_eq_dec : EqDecision APIEndpoint.
Proof. solve_decision. Defined.

Record RKECluster := mkRKECluster {
  rc_Namespace : string;
  rc_Name : string;
  rc_OwnerReferences : list OwnerReference;
  rc_ControlPlaneEndpoint : option APIEndpoint;
  rc_Conditions : list Condition;
  rc_Ready : bool
}.

(** Third-party functions: [IsPaused] of the annotations of Cluster API, [IsValid] of an endpoint. *)
Class RkeClusterDeps `{Controllers} := {
  IsPaused_RKECluster : CAPICluster -> RKECluster -> bool;
  IsValid : APIEndpoint -> bool
}.

(** The object stored for the cluster with the failures of the requests to come, and whether a call was asked for. *)
Record RCWorld := mkRCWorld { rcw_cluster : RKECluster; rcw_faults : list (option error); rcw_enqueued : list Z }.

Section rkecluster.
Context `{D : RkeClusterDeps}.

Definition rc_request : ST RCWorld unit := fun w =>
  match rcw_faults w with
  | [] => (w, Ret tt)
  | None :: fs => (mkRCWorld (rcw_cluster w) fs (rcw_enqueued w), Ret tt)
  | Some e :: fs => (mkRCWorld (rcw_cluster w) fs (rcw_enqueued w), Fail e)
  end.

Definition store_cluster (c : RKECluster) : ST RCWorld RKECluster :=
  let* _ := modify (fun w => mkRCWorld c (rcw_faults w) (rcw_enqueued w)) in ret c.

(** [Update] writes all but the status, [UpdateStatus] the status. *)
Definition rkeCluster_Update (c : RKECluster) : ST RCWorld RKECluster :=
  let* _ := rc_request in
  let* cur := gets rcw_cluster in
  store_cluster (mkRKECluster (rc_Namespace cur) (rc_Name cur) (rc_OwnerReferences c) (rc_ControlPlaneEndpoint c) (rc_Conditions cur) (rc_Ready cur)).
Definition rkeCluster_UpdateStatus (c : RKECluster) : ST RCWorld RKECluster :=
  let* _ := rc_request in
  let* cur := gets rcw_cluster in
  store_cluster (mkRKECluster (rc_Namespace cur) (rc_Name cur) (rc_OwnerReferences cur) (rc_ControlPlaneEndpoint cur) (rc_Conditions c) (rc_Ready c)).

Definition EnqueueAfter (seconds : Z) : ST RCWorld unit :=
  modify (fun w => mkRCWorld (rcw_cluster w) (rcw_faults w) (seconds :: rcw_enqueued w)).

Definition endpoint_missing (cluster : RKECluster) : bool :=
  match rc_ControlPlaneEndpoint cluster with None => true | Some e => negb (IsValid e) end.

Definition status_stale (cluster : RKECluster) : bool :=
  negb (bool_decide (rc_Conditions cluster = [])) || negb (rc_Ready cluster).

Definition GetOwnerCAPICluster_RKE (cluster : RKECluster) : res (option CAPICluster) :=
  let? '(ref, namespace) := GetOwnerFromGVK capi_GroupVersion "Cluster" (rc_Namespace cluster) (rc_OwnerReferences cluster) in
  capiClusters_Get namespace (or_Name ref).

Definition OnChange (cluster : option RKECluster) : ST RCWorld (option RKECluster) :=
  match cluster with
  | None => ret None
  | Some cluster =>
      match GetOwnerCAPICluster_RKE cluster with
      | Panic | Ret None => panic
      | Fail e =>
          if IsNotFound e then let* _ := EnqueueAfter 10 in fail ErrSkip else fail e
      | Ret (Some capiCluster) =>
          if IsPaused_RKECluster capiCluster cluster then fail ErrSkip
          else if endpoint_missing cluster then
            let* c := rkeCluster_Update (mkRKECluster (rc_Namespace cluster) (rc_Name cluster) (rc_OwnerReferences cluster)
                        (Some (mkAPIEndpoint "localhost" 6443)) (rc_Conditions cluster) (rc_Ready cluster)) in
            ret (Some c)
          else if status_stale cluster then
            let* c := rkeCluster_UpdateStatus (mkRKECluster (rc_Namespace cluster) (rc_Name cluster) (rc_OwnerReferences cluster)
                        (rc_ControlPlaneEndpoint cluster) [] true) in
            ret (Some c)
          else ret (Some cluster)
      end
  end.

(** [Register]: the infrastructure object of a changed cluster that is not paused. *)
Definition rke_cluster_trigger (namespace name : string) (capiCluster : CAPICluster) : list (string * string) :=
  if cc_Paused capiCluster then [] else [(namespace, name)].

(** ** The loop of the controller ends

    Calls of the handler on the stored object, one after the other. *)

Fixpoint calls (n : nat) : ST RCWorld unit :=
  match n with
  | O => ret tt
  | S n' => let* c := gets rcw_cluster in let* _ := attempt (OnChange (Some c)) in calls n'
  end.

(** What is still to be written. *)
Definition todo (c : RKECluster) : nat := Nat.b2n (endpoint_missing c) + Nat.b2n (status_stale c).
End rkecluster.

Section settles.
Context `{D : RkeClusterDeps}.
Hypothesis localhost_valid : IsValid (mkAPIEndpoint "localhost" 6443) = true.

(** The cluster that owns the object is there and not paused. *)
Definition owned_by (capi : CAPICluster) (c : RKECluster) : Prop :=
  GetOwnerCAPICluster_RKE c = Ret (Some capi) /\ forall c', IsPaused_RKECluster capi c' = false.

(** Nothing is left to do: the call makes no request. *)
Lemma OnChange_settled capi w :
  owned_by capi (rcw_cluster w) -> todo (rcw_cluster w) = 0%nat ->
  OnChange (Some (rcw_cluster w)) w = (w, Ret (Some (rcw_cluster w))).
Proof.
  intros [Ho Hp] Ht. unfold OnChange. rewrite Ho, Hp. unfold todo in Ht.
  by destruct (endpoint_missing _), (status_stale _).
Qed.

(** Otherwise a request is made: it fails, which uses a failure up, or the object has less to do. *)
Lemma OnChange_progress capi w :
  owned_by capi (rcw_cluster w) -> todo (rcw_cluster w) <> 0%nat ->
  exists w' r, OnChange (Some (rcw_cluster w)) w = (w', r) /\ r <> Panic /\ owned_by capi (rcw_cluster w')
    /\ (todo (rcw_cluster w') + length (rcw_faults w') < todo (rcw_cluster w) + length (rcw_faults w))%nat.
Proof.
  intros [Ho Hp] Ht. unfold OnChange. rewrite Ho, Hp. destruct w as [c fs q]. cbn in *. unfold todo in *.
  assert (forall c', rc_Namespace c' = rc_Namespace c -> rc_OwnerReferences c' = rc_OwnerReferences c -> owned_by capi c') as Hsame.
  { intros c' E1 E2. split; [|done]. unfold GetOwnerCAPICluster_RKE in *. by rewrite E1, E2. }
  destruct (endpoint_missing c) eqn:E1; [|destruct (status_stale c) eqn:E2; [|done]];
    unfold rkeCluster_Update, rkeCluster_UpdateStatus, store_cluster, bind, rc_request, gets, modify, ret; cbn;
    destruct fs as [|[e|] fs]; (eexists _, _; split; [reflexivity|]; split; [done|]; split; [by apply Hsame|]); cbn;
    unfold endpoint_missing, status_stale in *; cbn; rewrite ?localhost_valid, ?E1, ?E2; cbn; lia.
Qed.

Lemma calls_settled capi n w : owned_by capi (rcw_cluster w) -> todo (rcw_cluster w) = 0%nat -> calls n w = (w, Ret tt).
Proof.
  intros Ho Ht. induction n as [|n IH]; [done|]. cbn [calls]. unfold bind at 1, gets. cbv beta iota zeta.
  unfold bind, attempt. by rewrite (OnChange_settled capi w Ho Ht).
Qed.

Lemma calls_settle capi n w :
  owned_by capi (rcw_cluster w) -> (todo (rcw_cluster w) + length (rcw_faults w) <= n)%nat ->
  exists w', calls n w = (w', Ret tt) /\ owned_by capi (rcw_cluster w') /\ todo (rcw_cluster w') = 0%nat.
Proof.
  revert w. induction n as [|n IH]; intros w Ho Hn; [exists w; repeat split; [apply Ho..|lia]|].
  destruct (decide (todo (rcw_cluster w) = 0%nat)) as [Ht|Ht]; [by exists w; rewrite (calls_settled capi)|].
  destruct (OnChange_progress capi w Ho Ht) as (w' & r & Hr & Hp & Ho' & Hlt).
  cbn [calls]. unfold bind at 1, gets. cbv beta iota zeta. unfold bind, attempt. rewrite Hr. destruct r; [apply IH; [done|lia]..|done].
Qed.

(** The loop of the controller ends, whatever requests fail in between: with [k] requests that can fail still to
    come, after [2 + k] calls the object has an endpoint, is ready and carries no stale conditions, and from then on
    a call makes no request and changes nothing, so that it causes no further call. *)
Theorem rkecluster_settles capi n w :
  owned_by capi (rcw_cluster w) -> (2 + length (rcw_faults w) <= n)%nat ->
  exists w', calls n w = (w', Ret tt)
    /\ endpoint_missing (rcw_cluster w') = false /\ rc_Ready (rcw_cluster w') = true /\ rc_Conditions (rcw_cluster w') = []
    /\ OnChange (Some (rcw_cluster w')) w' = (w', Ret (Some (rcw_cluster w'))).
Proof.
  intros Ho Hn. destruct (calls_settle capi n w Ho) as (w' & Hc & Ho' & Ht).
  { unfold todo. destruct (endpoint_missing _), (status_stale _); simpl; lia. }
  exists w'. split; [done|]. pose proof (OnChange_settled capi w' Ho' Ht) as Hs. unfold todo in Ht.
  destruct (endpoint_missing (rcw_cluster w')); [done|]. destruct (status_stale (rcw_cluster w')) eqn:E; [done|].
  unfold status_stale in E. apply orb_false_iff in E as [E1%negb_false_iff E2%negb_false_iff].
  apply bool_decide_eq_true in E1. done.
Qed.
End settles.

Section witnesses.
#[local] Existing Instance demoExternal.
Definition demoInfraPlanner : Planner := demoPlanner ∅ ∅ [] (Some demoCluster).
#[local] Existing Instance demoInfraPlanner.
Definition demoInfraControllers : Controllers := demoControllers demoInfraPlanner [] [] None.
#[local] Existing Instance demoInfraControllers.
Definition demoRkeClusterDeps : RkeClusterDeps :=
  {| IsPaused_RKECluster c _ := cc_Paused c; IsValid e := negb (ep_Host e =? "") && negb (ep_Port e =? 0)%Z |}.
#[local] Existing Instance demoRkeClusterDeps.
Definition demoInfra : RCWorld :=
  mkRCWorld (mkRKECluster "fleet-default" "c1" [mkOwnerReference capi_GroupVersion "Cluster" "c1" "" true] None
    [mkCondition "Ready" "Unknown" "" "" ""] false) [Some (errorString "timeout")] [].

Lemma rkecluster_settles_witness :
  exists w', calls 3 demoInfra = (w', Ret tt) /\ rc_Ready (rcw_cluster w') = true.
Proof.
  destruct (rkecluster_settles (D := demoRkeClusterDeps) ltac:(vm_compute; reflexivity) demoCluster 3 demoInfra) as (w' & Hc & _ & Hr & _).
  - split; [vm_compute; reflexivity|]. intros c'. reflexivity.
  - simpl. lia.
  - exists w'. split; [exact Hc|exact Hr].
Defined.
End witnesses.
