(* ===== verification/ProvisionTemplate.v ===== *)
(** * Objects of a provisioning job ([machineprovision/template.go])

    A machine of a cloud provider is created and deleted by a job that runs rancher-machine.  The objects around the
    job are applied together with the infrastructure machine as their owner: the secret with the state of the
    driver, secrets with credentials, files and certificates, a service account with its role, and the job. *)

From S2P Require Import Prelude GoLib Errors Types External Instances Capr World Handlers Installer Bootstrap.

Definition InfraMachineGroup : string := "rke.cattle.io/infra-machine-group".
Definition InfraMachineVersion : string := "rke.cattle.io/infra-machine-version".
Definition InfraMachineKind : string := "rke.cattle.io/infra-machine-kind".
Definition InfraMachineName : string := "rke.cattle.io/infra-machine-name".
Definition InfraJobRemove : string := "rke.cattle.io/infra-remove".
Definition CapiMachineName : string := "rke.cattle.io/capi-machine-name".
Definition pathToMachineFiles : string := "/path/to/machine/files".
Definition sslCertDir : string := "/etc/rancher/ssl".

Record GroupVersionKind := mkGVK { gvk_Group : string; gvk_Version : string; gvk_Kind : string }.
#[global] Instance GroupVersionKind_eq_dec : EqDecision GroupVersionKind.
Proof. solve_decision. Defined.

(** A volume with the content of a secret; without items it holds all keys. *)
Record Volume := mkVolume { vo_Name : string; vo_SecretName : string; vo_Items : list (string * string); vo_DefaultMode : Z }.
Record VolumeMount := mkVolumeMount { vm_Name : string; vm_MountPath : string; vm_SubPath : string; vm_ReadOnly : bool }.

(** The pod of a job, with its single container. *)
Record PodTemplate := mkPodTemplate {
  pt_Labels : gmap string string;
  pt_Volumes : list Volume;
  pt_VolumeMounts : list VolumeMount;
  pt_Image : string;
  pt_ImagePullPolicy : string;
  pt_Args : list string;
  pt_EnvSecret : string;
  pt_RunAs : Z;
  pt_ServiceAccountName : string
}.

(** [batchv1.Job]; conditions and completion are reported by the job controller. *)
Record Job := mkJob {
  j_Namespace : string;
  j_Name : string;
  j_Labels : gmap string string;
  j_BackoffLimit : Z;
  j_Template : PodTemplate;
  j_Selector : option LabelSelector;
  j_Conditions : list Condition;
  j_Completed : bool
}.

(** [rkev1.RKEMachineStatus] without the addresses, which are not set here. *)
Record RKEMachineStatus := mkMachineStatus {
  ms_Conditions : list Condition;
  ms_JobName : string;
  ms_Ready : bool;
  ms_DriverHash : string;
  ms_DriverURL : string;
  ms_CloudCredentialSecretName : string;
  ms_FailureReason : string;
  ms_FailureMessage : string
}.

Record driverArgs := mkDriverArgs {
  da_Status : RKEMachineStatus;
  da_DriverName : string;
  da_ImageName : string;
  da_CapiMachineName : string;
  da_MachineName : string;
  da_MachineNamespace : string;
  da_MachineGVK : GroupVersionKind;
  da_ImagePullPolicy : string;
  da_EnvSecret : Secret;
  da_FilesSecret : option Secret;
  da_CertsSecret : option Secret;
  da_StateSecretName : string;
  da_BootstrapSecretName : string;
  da_BootstrapRequired : bool;
  da_Args : list string;
  da_BackoffLimit : Z
}.

Inductive provision_object := PlainObj (o : object) | JobObj (j : Job).

(** Octal file modes. *)
Definition mode_0777 : Z := 511.
Definition mode_0644 : Z := 420.
Definition oneThousand : Z := 1000.

Section template.
Context `{E : External}.

Definition GetJobName (name : string) : string := name_SafeConcatName [name; "machine"; "provision"].

Definition state_secret (args : driverArgs) : Secret :=
  mkSecret (da_MachineNamespace args) (da_StateSecretName args) "rke.cattle.io/machine-state" ∅ ∅ ∅ [] false.

(** The files secret gets the name of the job if it has none. *)
Definition named_files (args : driverArgs) : option Secret :=
  match da_FilesSecret args with
  | Some s => Some (if s_Name s =? ""
                    then mkSecret (da_MachineNamespace args) (GetJobName (da_MachineName args)) (s_Type s) (s_Labels s) (s_Annotations s)
                           (s_Data s) (s_OwnerReferences s) (s_Deleting s)
                    else s)
  | None => None
  end.

Definition job_volumes (args : driverArgs) : list Volume :=
  (if da_BootstrapRequired args then [mkVolume "bootstrap" (da_BootstrapSecretName args) [] mode_0777] else [])
  ++ (match named_files args with
      | Some s => [mkVolume "machine-files" (s_Name s)
                     (sort_by fst (map (fun kv => (fst kv, fst kv)) (map_to_list (s_Data s)))) mode_0644]
      | None => []
      end)
  ++ (match da_CertsSecret args with Some s => [mkVolume "machine-certs" (s_Name s) [] mode_0644] | None => [] end).

(** The mounts in the order of their paths; those of the certificates are listed in the order of a map. *)
Definition mounts_from (args : driverArgs) (cert_keys : list string) : list VolumeMount :=
  sort_by vm_MountPath
    ((if da_BootstrapRequired args then [mkVolumeMount "bootstrap" "/run/secrets/machine" "" true] else [])
     ++ (match da_FilesSecret args with Some _ => [mkVolumeMount "machine-files" pathToMachineFiles "" true] | None => [] end)
     ++ map (fun key => mkVolumeMount "machine-certs" (sslCertDir +:+ "/" +:+ key) key true) cert_keys).

Definition cert_keys (args : driverArgs) : list string :=
  match da_CertsSecret args with Some s => map fst (map_to_list (s_Data s)) | None => [] end.

Definition job_labels (args : driverArgs) : gmap string string :=
  <[InfraMachineGroup := gvk_Group (da_MachineGVK args)]> (<[InfraMachineVersion := gvk_Version (da_MachineGVK args)]>
    (<[InfraMachineKind := gvk_Kind (da_MachineGVK args)]> (<[InfraMachineName := da_MachineName args]>
      (<[InfraJobRemove := if da_BootstrapRequired args then "false" else "true"]>
        {[ CapiMachineName := da_CapiMachineName args ]})))).

Definition provision_job (args : driverArgs) : Job :=
  let saName := GetJobName (da_MachineName args) in
  mkJob (da_MachineNamespace args) saName (job_labels args) (da_BackoffLimit args)
    (mkPodTemplate (job_labels args) (job_volumes args) (mounts_from args (cert_keys args)) (da_ImageName args)
       (da_ImagePullPolicy args) (da_Args args) (s_Name (da_EnvSecret args)) oneThousand saName)
    None [] false.

Definition objects (ready : bool) (args : driverArgs) : list provision_object :=
  let secret := PlainObj (ObjSecret (state_secret args)) in
  if ready then [secret]
  else
    let saName := GetJobName (da_MachineName args) in
    let ns := da_MachineNamespace args in
    let subject := mkSubject "ServiceAccount" saName ns in
    [PlainObj (ObjSecret (da_EnvSecret args));
     secret;
     PlainObj (ObjServiceAccount (mkServiceAccount ns saName ∅ [] ""));
     PlainObj (ObjRole (mkRole ns saName [mkPolicyRule ["get"; "update"] [""] ["secrets"] [da_StateSecretName args]]));
     PlainObj (ObjRoleBinding (mkRoleBinding ns saName [subject] "Role" saName))]
    ++ (match named_files args with Some s => [PlainObj (ObjSecret s)] | None => [] end)
    ++ (match da_CertsSecret args with Some s => [PlainObj (ObjSecret s)] | None => [] end)
    ++ [PlainObj (ObjRoleBinding (mkRoleBinding ns (name_SafeConcatName [saName; "extension"]) [subject] "Role" "rke2-machine-provisioner"));
        JobObj (provision_job args)].
End template.
