(* ===== verification/ProvisionArgs.v ===== *)
(** * Arguments of a provisioning job ([machineprovision/args.go])

    The command line of rancher-machine, the environment with the cloud credential, and the secrets with files and
    certificates, from the specification of the infrastructure machine and the objects around it.  The second part of the
    file is about host names: they are labels within the limit. *)

From S2P Require Import Prelude GoLib Codec Errors Types External Instances Capr World S3Args Handlers Installer Bootstrap ProvisionTemplate.

(** An infrastructure machine, an object of a type the node driver defines.  Go keeps it as untyped data: the
    specification is a map of values, the scalar fields of the status are kept as their texts. *)
Record InfraMachine := mkInfra {
  im_Namespace : string;
  im_Name : string;
  im_Labels : gmap string string;
  im_Annotations : gmap string string;
  im_Deleting : bool;
  im_OwnerReferences : list OwnerReference;
  im_GVK : GroupVersionKind;
  im_Spec : config;
  im_Fields : gmap string string;
  im_Conditions : list Condition;
  im_Addresses : list MachineAddress
}.

(** [v3.NodeDriver] and [provv1.Cluster], as far as they are read. *)
Record NodeDriver := mkNodeDriver { nd_Name : string; nd_URL : string; nd_Checksum : string }.
Record RancherCluster := mkRancherCluster { rcl_Deleting : bool; rcl_ClusterName : string }.

(** [corev1.Pod]: the terminated containers have an exit code and a message. *)
Record Pod := mkPod {
  p_Namespace : string;
  p_Labels : gmap string string;
  p_CreationTimestamp : Z;
  p_Phase : string;
  p_Terminated : list (option (Z * string))
}.

(** Caches of the controller, the environment and the file system. *)
Class ProvisionDeps `{Controllers} := {
  jobs_Get : string -> string -> res Job;
  jobs_List : string -> gmap string string -> res (list Job);
  pods_List : string -> option LabelSelector -> res (list Pod);
  namespaceDeleting : string -> res bool;
  machineSetCache_Get : string -> string -> res unit;
  nodeDriverCache_Get : string -> res NodeDriver;
  rancherClusterCache_Get : string -> string -> res RancherCluster;
  dynamic_dataSecretName : string -> string -> string -> string -> res string;   (** API version, kind, namespace, name *)
  IsPaused_Infra : CAPICluster -> InfraMachine -> bool;
  provision_held : string -> string -> bool;                                      (** machines with a finalizer *)
  Getenv : string -> string;
  Stat : string -> bool
}.

Definition awsClusterTagPrefix : string := "kubernetes.io/cluster/".
Definition DockerMachineDriverPrefix : string := "docker-machine-driver-".
Definition HostnameLengthLimitAnnotation : string := "rke.cattle.io/hostname-length-limit".
Definition MinimumHostnameLengthLimit : Z := 10.
Definition MaximumHostnameLengthLimit : Z := 63.
Definition WhitelistEnvironmentVars : Setting := mkSetting "whitelist-envvars" "HTTP_PROXY,HTTPS_PROXY,NO_PROXY".
Definition MachineProvisionImage : Setting := mkSetting "machine-provision-image" "rancher/machine:v0.15.0-rancher109".
Definition MachineProvisionImagePullPolicy : Setting := mkSetting "machine-provision-image-pull-policy" "Always".

Definition envNameOverride : gmap string string :=
  list_to_map [("amazonec2", "AWS"); ("rackspace", "OS"); ("openstack", "OS"); ("vmwarevsphere", "VSPHERE");
               ("vmwarefusion", "FUSION"); ("vmwarevcloudair", "VCLOUDAIR")].

(** Schema field and driver field, by driver ([management/node/controller.go]). *)
Definition SchemaToDriverFields : gmap string (list (string * string)) :=
  list_to_map [("aliyunecs", [("sshKeyContents", "sshKeypath")]);
               ("amazonec2", [("sshKeyContents", "sshKeypath"); ("userdata", "userdata")]);
               ("azure", [("customData", "customData")]);
               ("digitalocean", [("sshKeyContents", "sshKeyPath"); ("userdata", "userdata")]);
               ("exoscale", [("sshKey", "sshKey"); ("userdata", "userdata")]);
               ("openstack", [("cacert", "cacert"); ("privateKeyFile", "privateKeyFile"); ("userDataFile", "userDataFile")]);
               ("otc", [("privateKeyFile", "privateKeyFile")]);
               ("packet", [("userdata", "userdata")]);
               ("pod", [("userdata", "userdata")]);
               ("vmwarevsphere", [("cloudConfig", "cloud-config")]);
               ("google", [("authEncodedJson", "authEncodedJson")])].
Definition SSHKeyFields : list string := ["sshKeyContents"; "sshKey"; "privateKeyFile"].

(** [path.Join] *)
Definition path_Join (l : list string) : string :=
  match List.filter (fun s => s !=? "") l with [] => "" | l => Clean (Join l "/") end.

Definition is_lower (c : Ascii.ascii) : bool := let n := Ascii.nat_of_ascii c in (97 <=? n)%nat && (n <=? 122)%nat.
Definition is_upper (c : Ascii.ascii) : bool := let n := Ascii.nat_of_ascii c in (65 <=? n)%nat && (n <=? 90)%nat.

(** [regExHyphen.ReplaceAllString(s, "${1}" + sep + "${2}")]: [sep] between a lower and an upper case letter. *)
Fixpoint hyphenate (sep s : string) : string :=
  match s with
  | String a (String b _ as rest) => String a (if is_lower a && is_upper b then sep +:+ hyphenate sep rest else hyphenate sep rest)
  | _ => s
  end.

Section args.
Context `{D : ProvisionDeps} `{I : Installation}.

Definition status_field (infra : InfraMachine) (k : string) : string := map_get (im_Fields infra) k.
Definition spec_String (infra : InfraMachine) (k : string) : string := convert_ToString (config_get (im_Spec infra) k).

(** [obj.String("spec", "common", k)] *)
Definition spec_common (infra : InfraMachine) (k : string) : string :=
  match config_get (im_Spec infra) "common" with
  | VMap l => convert_ToString (values_GetValueN l [k])
  | _ => ""
  end.

Definition PrefixPrivateRegistry (image : string) : string :=
  if SystemDefaultRegistry =? "" then image else SystemDefaultRegistry +:+ "/" +:+ image.

Definition GetMachineProvisionImagePullPolicy : string :=
  let policy := Setting_Get MachineProvisionImagePullPolicy in
  if bool_decide (policy ∈ ["Always"; "IfNotPresent"; "Never"]) then policy else "Always".

Definition getWhitelistedEnvVars : gmap string string :=
  fold_left (fun result wlVar => let wlVar := TrimSpace wlVar in
                                 if Getenv wlVar !=? "" then <[wlVar := Getenv wlVar]> result else result)
    (Split (Setting_Get WhitelistEnvironmentVars) ",") ∅.

Definition getNodeDriverName (infra : InfraMachine) : string := ToLower (TrimSuffix (gvk_Kind (im_GVK infra)) "Machine").

Definition hashName (name : string) : string := take_str 32 (sha256_hex name).
Definition hashFile (path : string) : res string := let? content := ReadFile path in Ret (sha256_hex content).

Definition getDriverDownloadURL (nd : NodeDriver) : res (string * string) :=
  if Getenv "CATTLE_DEV_MODE" !=? "" then Ret (nd_URL nd, nd_Checksum nd)
  else
    let driverName := if HasPrefix (nd_Name nd) DockerMachineDriverPrefix then nd_Name nd
                      else DockerMachineDriverPrefix +:+ nd_Name nd in
    let path := path_Join [Setting_Get UIPath; "assets"; driverName] in
    if negb (Stat path) then Ret (nd_URL nd, nd_Checksum nd)
    else let? hash := hashFile path in Ret (Setting_Get ServerURL +:+ "/assets/" +:+ driverName, hash).

Definition getHostname (infra : InfraMachine) : res string :=
  let limitAnno := map_get (im_Annotations infra) HostnameLengthLimitAnnotation in
  let limit := if limitAnno !=? "" then
                 match Atoi limitAnno with
                 | Some l => if (l <? MinimumHostnameLengthLimit)%Z || (MaximumHostnameLengthLimit <? l)%Z
                             then MaximumHostnameLengthLimit else l
                 | None => MaximumHostnameLengthLimit
                 end
               else MaximumHostnameLengthLimit in
  SafeConcatName limit [ReplaceAll (im_Name infra) "." "-"].

Definition getInstanceName (infra : InfraMachine) : string := name_SafeConcatName [ReplaceAll (im_Name infra) "." "-"].

(** The name of the secret with the bootstrap data of the machine. *)
Definition provision_bootstrapSecret (machine : option Machine) : res string :=
  match machine with
  | None => Ret ""
  | Some m =>
      match m_ConfigRef m with
      | None => Ret ""
      | Some ref =>
          match dynamic_dataSecretName (ref_APIVersion ref) (ref_Kind ref) (m_Namespace m) (ref_Name ref) with
          | Fail e => if IsNotFound e then Ret "" else Fail e
          | r => r
          end
      end
  end.

Definition getSecretData (machine : option Machine) (infra : InfraMachine) (create : bool)
  : res (string * string * gmap string string) :=
  if bool_decide (machine = None) && create then Fail ErrSkip
  else
    let cloudCredentialSecretName :=
      let spec := spec_common infra "cloudCredentialSecretName" in
      if spec =? "" then status_field infra "cloudCredentialSecretName" else spec in
    let? result := (match machine with
                    | Some m => if cloudCredentialSecretName !=? ""
                                then let? s := GetCloudCredentialSecret (m_Namespace m) cloudCredentialSecretName in Ret (s_Data s)
                                else Ret ∅
                    | None => Ret ∅
                    end) in
    let? bootstrapName := provision_bootstrapSecret machine in
    Ret (bootstrapName, cloudCredentialSecretName, result).

(** The variable of a credential, whose key is prefixed by the driver. *)
Definition env_name (driver k : string) : string :=
  let envName := map_get envNameOverride driver in
  ToUpper ((if envName =? "" then driver else envName) +:+ "_" +:+ hyphenate "_" (snd (kv_RSplit k "-"))).

Definition env_data (driver : string) (order : list (string * string)) (env : gmap string string) : gmap string string :=
  fold_left (fun env kv => <[env_name driver (fst kv) := snd kv]> env) order env.

Definition addAwsClusterOwnedTag (args : config) (clusterID : string) : config :=
  let tagValue := awsClusterTagPrefix +:+ clusterID +:+ ",owned" in
  let tagString := convert_ToString (config_get args "tags") in
  match args !! "tags" with
  | None => <["tags" := VString tagValue]> args
  | Some _ =>
      if tagString =? "" then <["tags" := VString tagValue]> args
      else if negb (Contains tagString awsClusterTagPrefix) then <["tags" := VString (tagString +:+ "," +:+ tagValue)]> args
      else args
  end.

(** The arguments of one field; numbers are of type float64, fields of another type give none. *)
Definition field_args (driverName : string) (kv : string * value) : list string :=
  let '(k, v) := kv in
  if k =? "providerID" then []
  else
    let dmField := "--" +:+ driverName +:+ "-" +:+ ToLower (hyphenate "-" k) in
    match v with
    | VNum t => [dmField +:+ "=" +:+ t]
    | VString s => if s =? "" then [] else [dmField +:+ "=" +:+ s]
    | VBool b => if b then [dmField] else []
    | VSlice l => omap (fun s => match s with VString s => Some (dmField +:+ "=" +:+ s) | _ => None end) l
    | _ => []
    end.

Definition toArgs_from (driverName : string) (args : config) (order : list (string * value)) : list string :=
  sort_Strings (flat_map (field_args driverName) order
    ++ (if (driverName =? "amazonec2") && (convert_ToString (config_get args "securityGroup") !=? "rancher-nodes")
           && (match config_get args "securityGroupReadonly" with VNil => true | _ => false end)
        then ["--amazonec2-security-group-readonly"] else [])).

Definition toArgs (driverName : string) (args : config) (clusterID : string) : list string :=
  let args := if driverName =? "amazonec2" then addAwsClusterOwnedTag args clusterID else args in
  toArgs_from driverName args (map_to_list args).

(** One aliased field: its content moves from the configuration to the secret. *)
Definition file_field (acc : gmap string string * config) (field : string * string) : gmap string string * config :=
  let '(secretData, cfg) := acc in
  let '(schemaField, driverField) := field in
  match cfg !! schemaField with
  | Some (VString fileContents) =>
      let cfg := delete schemaField cfg in
      if fileContents =? "" then (secretData, cfg)
      else
        let fileName := if bool_decide (schemaField ∈ SSHKeyFields) then "id_rsa" else driverField in
        let fileContents := if HasSuffix fileContents newline then fileContents else fileContents +:+ newline in
        (<[fileName := fileContents]> secretData, <[driverField := VString (path_Join [pathToMachineFiles; fileName])]> cfg)
  | _ => (secretData, cfg)
  end.

Definition constructFilesSecret (driver : string) (cfg : config) : option Secret * config :=
  match SchemaToDriverFields !! driver with
  | Some fields =>
      let '(secretData, cfg) := fold_left file_field fields (∅, cfg) in
      (Some (mkSecret "" "" "" ∅ ∅ secretData [] false), cfg)
  | None => (None, cfg)
  end.

Definition constructCertsSecret (machineName machineNamespace : string) : res (option Secret) :=
  let data := if Setting_Get CACerts !=? "" then {[ "tls.crt" := Setting_Get CACerts ]} else ∅ in
  let data := if Setting_Get InternalCACerts !=? "" then <["internal-tls.crt" := Setting_Get InternalCACerts]> data else data in
  let? data := (match secretCache_Get "cattle-system" "tls-additional" with
                | Ret s => Ret (s_Data s ∪ data)
                | Fail e => if IsNotFound e then Ret data else Fail e
                | Panic => Panic
                end) in
  Ret (if bool_decide (data = ∅) then None
       else Some (mkSecret machineNamespace (name_SafeConcatName ["machine"; "certs"; hashName machineName]) "" ∅ ∅ data [] false)).

(** The address and the checksum of the driver; a driver that is gone is taken from the status on removal. *)
Definition driver_download (infra : InfraMachine) (driver : string) (create : bool) : res (string * string) :=
  match nodeDriverCache_Get driver with
  | Panic => Panic
  | Fail e =>
      if negb create && IsNotFound e then Ret (status_field infra "driverURL", status_field infra "driverHash") else Fail e
  | Ret nd => if HasPrefix (nd_URL nd) "local://" then Ret ("", "") else getDriverDownloadURL nd
  end.

(** The command after the common flags. *)
Definition driver_command (infra : InfraMachine) (args : config) (driver : string) (create : bool) : res (list string) :=
  if create then
    let? hostname := getHostname infra in
    let? rancherCluster := rancherClusterCache_Get (im_Namespace infra) (map_get (im_Labels infra) CAPIClusterNameLabel) in
    Ret (["create"; "--driver=" +:+ driver; "--custom-install-script=/run/secrets/machine/value"]
         ++ (if hostname !=? getInstanceName infra then ["--hostname-override=" +:+ hostname] else [])
         ++ toArgs driver args (rcl_ClusterName rancherCluster))
  else Ret ["rm"; "-y"; "--update-config"].

(** The maps [args] and [infra.data] share are changed in place in Go; what is written to the API server is the status
    only, so the changed specification does not leave this function. *)
Definition getArgsEnvAndStatus (infra : InfraMachine) (args : config) (driver : string) (create : bool) : res driverArgs :=
  let? '(url, hash) := driver_download infra driver create in
  let machineName := map_get (im_Labels infra) CapiMachineName in
  let? machine := machineCache_Get (im_Namespace infra) machineName in
  let? '(bootstrapName, cloudCredentialSecretName, secrets) := getSecretData (Some machine) infra create in
  let envSecret := mkSecret (im_Namespace infra) (name_SafeConcatName [im_Name infra; "machine"; "driver"; "secret"]) "" ∅ ∅
                     (env_data driver (map_to_list secrets) getWhitelistedEnvVars) [] false in
  let secretName := MachineStateSecretName (im_Name infra) in
  let '(filesSecret, args) := constructFilesSecret driver args in
  let? command := driver_command infra args driver create in
  let? certsSecret := constructCertsSecret (im_Name infra) (im_Namespace infra) in
  let cmd := ["--driver-download-url=" +:+ url; "--driver-hash=" +:+ hash; "--secret-namespace=" +:+ im_Namespace infra;
              "--secret-name=" +:+ secretName] ++ command ++ [getInstanceName infra] in
  Ret (mkDriverArgs
    (mkMachineStatus [] "" (spec_String infra "providerID" !=? "") hash url cloudCredentialSecretName "" "")
    driver (PrefixPrivateRegistry (Setting_Get MachineProvisionImage)) machineName (im_Name infra) (im_Namespace infra) (im_GVK infra)
    GetMachineProvisionImagePullPolicy envSecret filesSecret certsSecret secretName bootstrapName create cmd
    (if create then 0 else 3)).
End args.

(** * Host names of provisioned machines ([machineprovision/args.go])

    The host name given to a machine is derived from the name of an object, which may be longer than a host name and
    contain dots; it is a label of the domain name system within the limit of the cluster. *)

(** ** Characters *)

Abbreviation chars := String.list_ascii_of_string.

Definition dot : Ascii.ascii := Ascii.ascii_of_nat 46.
Definition dash : Ascii.ascii := Ascii.ascii_of_nat 45.

Definition lower_alnum (c : Ascii.ascii) : bool :=
  let n := Ascii.nat_of_ascii c in ((97 <=? n) && (n <=? 122) || (48 <=? n) && (n <=? 57))%nat.
Definition label_char (c : Ascii.ascii) : bool := lower_alnum c || bool_decide (c = dash).

(** The ends of a name are letters or digits. *)
Definition alnum_ends (s : string) : Prop :=
  (exists c, head (chars s) = Some c /\ lower_alnum c = true) /\ (exists c, last (chars s) = Some c /\ lower_alnum c = true).

(** A label of RFC 1123, and the names Kubernetes accepts for objects, up to its rules for the characters around a dot. *)
Definition dns_label (s : string) : Prop :=
  (String.length s <= 63)%nat /\ Forall (fun c => label_char c = true) (chars s) /\ alnum_ends s.
Definition object_name (s : string) : Prop :=
  Forall (fun c => label_char c || bool_decide (c = dot) = true) (chars s) /\ alnum_ends s.

Lemma chars_app a b : chars (a +:+ b) = chars a ++ chars b.
Proof. induction a as [|c a IH]; [done|]. simpl. by rewrite IH. Qed.

Lemma chars_take n s : chars (take_str n s) = take n (chars s).
Proof. revert s. induction n as [|n IH]; intros [|c s]; [done..|]. simpl. by rewrite IH. Qed.

Lemma length_chars s : length (chars s) = String.length s.
Proof. induction s; simpl; auto. Qed.

Lemma chars_string_of_bytes l : chars (string_of_bytes l) = map byte_of l.
Proof. induction l as [|b l IH]; [done|]. simpl. by rewrite IH. Qed.

(** ** Digests are made of lower case letters and digits *)

Lemma be_bytes_bound n v : Forall (fun b => (b < 256)%N) (Sha256.be_bytes n v).
Proof.
  revert v. induction n as [|n IH]; intros v; [constructor|]. simpl. apply Forall_app. split; [apply IH|].
  repeat constructor. by apply N.mod_lt.
Qed.

Lemma sha256_bound s : Forall (fun b => (b < 256)%N) (sha256_Sum256 s).
Proof.
  unfold sha256_Sum256, Sha256.sum. generalize (Sha256.blocks (Nat.div (length (Sha256.words (Sha256.padded (bytes_of s)))) 16)
    Sha256.h0 (Sha256.words (Sha256.padded (bytes_of s)))). intros l.
  induction l as [|x l IH]; [constructor|]. cbn [flat_map]. apply Forall_app. split; [apply be_bytes_bound|done].
Qed.

Lemma hex_digit_alnum n : (n < 16)%N -> lower_alnum (hex_digit n) = true.
Proof.
  intros Hn. assert (List.forallb (fun n => lower_alnum (hex_digit (N.of_nat n))) (seq 0 16) = true) as Ha by by vm_compute.
  rewrite forallb_forall in Ha. specialize (Ha (N.to_nat n)). rewrite N2Nat.id in Ha. apply Ha, in_seq. lia.
Qed.

Lemma sha256_hex_alnum s : Forall (fun c => lower_alnum c = true) (chars (sha256_hex s)).
Proof.
  unfold sha256_hex, hex_EncodeToString. rewrite chars_string_of_bytes. pose proof (sha256_bound s) as Hb.
  induction Hb as [|b l Hb _ IH]; [constructor|]. cbn [flat_map map app]. rewrite !byte_of_val.
  repeat constructor; [| |done]; apply hex_digit_alnum; [apply N.Div0.div_lt_upper_bound; lia|by apply N.mod_lt].
Qed.

(** ** Dots become dashes *)

Definition dash_for_dot (c : Ascii.ascii) : Ascii.ascii := if bool_decide (c = dot) then dash else c.

Lemma chars_no_dot s : cut "." s = None -> map dash_for_dot (chars s) = chars s.
Proof.
  intros Hc. induction s as [|c s IH]; [done|]. simpl. unfold dash_for_dot at 1. case_bool_decide as E.
  - apply (proj1 (cut_None _ _)) with (a := "") (b := s) in Hc. by subst c.
  - f_equal. apply IH. apply cut_None. intros a b ->. apply (proj1 (cut_None _ _)) with (a := String c a) (b := b) in Hc. done.
Qed.

Lemma cut_dot_front s a b : cut "." s = Some (a, b) -> cut "." a = None.
Proof.
  revert a b. induction s as [|c s IH]; intros a b; [done|]. cbn [cut]. destruct (String.prefix "." (String c s)) eqn:E.
  { by intros [= <- <-]. }
  destruct (cut "." s) as [[a' b']|]; [|done]. intros [= <- <-]. cbn [cut].
  rewrite (IH _ _ eq_refl). rewrite prefix_cons in E |- *. destruct (decide _); [by destruct s|done].
Qed.

Lemma chars_ReplaceAll s : chars (ReplaceAll s "." "-") = map dash_for_dot (chars s).
Proof.
  unfold ReplaceAll, Split. generalize (Nat.le_refl (String.length s)). generalize (String.length s) at 2 3 as n.
  intros n. revert s. induction n as [|n IH]; intros s Hn.
  { by destruct s; [|simpl in Hn; lia]. }
  cbn [split_fuel]. destruct (cut "." s) as [[a b]|] eqn:Ec; [|simpl; by rewrite chars_no_dot].
  pose proof (cut_length _ _ _ _ Ec) as Hl. pose proof (cut_dot_front _ _ _ Ec) as Hf. apply cut_Some in Ec. subst s.
  assert (split_fuel n "." b <> []) as Hne by (destruct n; simpl; [done|by case_match; [case_match|]]).
  rewrite Join_cons by done. rewrite !chars_app, IH by (rewrite Hl in Hn; simpl in Hn; lia). rewrite !map_app, (chars_no_dot a Hf). done.
Qed.

Lemma ReplaceAll_label s : object_name s ->
  Forall (fun c => label_char c = true) (chars (ReplaceAll s "." "-")) /\ alnum_ends (ReplaceAll s "." "-").
Proof.
  intros [Hc [[c [Hh Hhc]] [d [Hl Hld]]]]. unfold alnum_ends. rewrite chars_ReplaceAll.
  assert (forall c, lower_alnum c = true -> dash_for_dot c = c) as Hk.
  { intros x Hx. unfold dash_for_dot. case_bool_decide; [by subst x|done]. }
  split; [|split].
  - apply Forall_map. eapply Forall_impl; [exact Hc|]. intros x Hx. unfold dash_for_dot. case_bool_decide as E; [done|].
    cbv beta in Hx. rewrite bool_decide_eq_false_2 in Hx by done. by rewrite orb_false_r in Hx.
  - exists c. split; [|done]. destruct (chars s); [done|]. simpl in *. by injection Hh as ->; rewrite Hk.
  - exists d. split; [|done]. change (map dash_for_dot) with (fmap (M := list) dash_for_dot). rewrite fmap_last, Hl. simpl. by rewrite Hk.
Qed.

(** ** The name that fits *)

Lemma cut_name_label l n h m :
  Forall (fun c => label_char c = true) l -> (exists c, head l = Some c /\ lower_alnum c = true) ->
  Forall (fun c => lower_alnum c = true) h -> (0 < n)%nat -> (0 < m <= length h)%nat ->
  let r := take n l ++ [dash] ++ take m h in
  Forall (fun c => label_char c = true) r /\ (exists c, head r = Some c /\ lower_alnum c = true)
  /\ (exists c, last r = Some c /\ lower_alnum c = true).
Proof.
  intros Hl (c & Hc & Hca) Hh Hn Hm r. split; [|split].
  - apply Forall_app. split; [by apply Forall_take|]. constructor; [done|]. apply Forall_take.
    eapply Forall_impl; [exact Hh|]. intros x Hx. unfold label_char. by rewrite Hx.
  - exists c. split; [|done]. destruct l as [|x l], n as [|n]; [done|done|lia|]. done.
  - subst r. rewrite last_app, last_app. destruct (last (take m h)) as [x|] eqn:Ex.
    + exists x. split; [done|]. rewrite Forall_forall in Hh. apply Hh.
      apply last_Some_elem_of in Ex. rewrite <- (take_drop m h). apply elem_of_app. by left.
    + apply last_None in Ex. apply (f_equal length) in Ex. rewrite length_take in Ex. simpl in Ex. lia.
Qed.

Lemma slice_chars s n t : slice s 0 n = Ret t -> chars t = take (Z.to_nat n) (chars s).
Proof. unfold slice. destruct (_ && _); [|done]. intros [= <-]. by rewrite Z.sub_0_r, chars_take. Qed.

Lemma SafeConcatName_label limit s r :
  (10 <= limit)%Z -> Forall (fun c => label_char c = true) (chars s) -> alnum_ends s -> SafeConcatName limit [s] = Ret r ->
  Forall (fun c => label_char c = true) (chars r) /\ alnum_ends r.
Proof.
  intros Hlim Hs He. pose proof He as [Hh _]. unfold SafeConcatName. simpl Join. cbv zeta.
  destruct (Z.of_nat (String.length s) <=? limit)%Z; [by intros [= <-]|].
  destruct (limit =? 0)%Z eqn:E0; [lia|]. destruct (limit <=? 5)%Z eqn:E5; [lia|].
  destruct (String.get _ s); [|done]. pose proof (sha256_hex_alnum s) as Hx.
  pose proof (length_sha256_hex s) as Hlen. rewrite <- length_chars in Hlen. unfold alnum_ends.
  destruct (_ || _); intros (pre & Ha & Hr)%res_bind_Ret; apply res_bind_Ret in Hr as (b & Hb & Hr).
  - pose proof (slice_Ret _ _ _ _ Ha) as Hla. rewrite bool_decide_eq_false_2 in Hr by (intros ->; simpl in Hla; lia).
    injection Hr as <-. apply slice_chars in Ha, Hb. rewrite chars_app; cbn [app String.list_ascii_of_string]; rewrite Ha, Hb.
    apply (cut_name_label (chars s) _ (chars (sha256_hex s))); [done|done|done|lia|lia].
  - injection Hr as <-. apply slice_chars in Ha, Hb. rewrite chars_app; cbn [app String.list_ascii_of_string]; rewrite Ha, Hb.
    apply (cut_name_label (chars s) _ (chars (sha256_hex s))); [done|done|done|lia|lia].
Qed.

(** The limit of a cluster: the annotation, unless it is no number or out of range. *)
Definition hostname_limit (infra : InfraMachine) : Z :=
  match Atoi (map_get (im_Annotations infra) HostnameLengthLimitAnnotation) with
  | Some l => if bool_decide (MinimumHostnameLengthLimit <= l <= MaximumHostnameLengthLimit)%Z then l else MaximumHostnameLengthLimit
  | None => MaximumHostnameLengthLimit
  end.

Lemma hostname_limit_range infra : (10 <= hostname_limit infra <= 63)%Z.
Proof.
  unfold hostname_limit, MinimumHostnameLengthLimit, MaximumHostnameLengthLimit. destruct (Atoi _); [|lia]. case_bool_decide; lia.
Qed.

Lemma getHostname_limit infra : getHostname infra = SafeConcatName (hostname_limit infra) [ReplaceAll (im_Name infra) "." "-"].
Proof.
  unfold getHostname, hostname_limit, MinimumHostnameLengthLimit, MaximumHostnameLengthLimit. f_equal. case_bool_decide as E; cbn [negb].
  - by rewrite E.
  - destruct (Atoi _) as [l|]; [|done]. case_bool_decide as E1; destruct (l <? 10)%Z eqn:E2, (63 <? l)%Z eqn:E3; simpl; lia.
Qed.

Lemma getHostname_total infra : exists h, getHostname infra = Ret h.
Proof.
  rewrite getHostname_limit. pose proof (hostname_limit_range infra).
  destruct (SafeConcatName_fits (hostname_limit infra) [ReplaceAll (im_Name infra) "." "-"]) as (h & Hh & _); [lia|lia|eauto].
Qed.

(** Whatever the annotation of the machine says, its host name exists and is a valid label of the domain name
    system within the limit: the annotation if that is between 10 and 63, else 63.  A name that is short enough is only
    freed of its dots. *)
Lemma getHostname_spec infra :
  object_name (im_Name infra) ->
  exists h, getHostname infra = Ret h /\ dns_label h /\ (Z.of_nat (String.length h) <= hostname_limit infra)%Z
    /\ ((Z.of_nat (String.length (im_Name infra)) <= hostname_limit infra)%Z -> h = ReplaceAll (im_Name infra) "." "-").
Proof.
  intros Hn. rewrite getHostname_limit. pose proof (hostname_limit_range infra) as Hr.
  destruct (SafeConcatName_fits (hostname_limit infra) [ReplaceAll (im_Name infra) "." "-"]) as (h & Hh & Hl); [lia|lia|].
  exists h. destruct (ReplaceAll_label _ Hn) as [Hc He]. split; [done|]. split.
  - split; [lia|]. apply (SafeConcatName_label (hostname_limit infra) (ReplaceAll (im_Name infra) "." "-")); [lia|done|done|done].
  - split; [done|]. intros Hs. unfold SafeConcatName in Hh. simpl Join in Hh. cbv zeta in Hh.
    assert (String.length (ReplaceAll (im_Name infra) "." "-") = String.length (im_Name infra)) as E.
    { rewrite <- (length_chars (ReplaceAll _ _ _)), chars_ReplaceAll, length_map. apply length_chars. }
    rewrite (proj2 (Z.leb_le _ _)) in Hh by lia. by injection Hh as <-.
Qed.
