(* ===== verification/MachineProvision.v ===== *)
(** * Machine provisioning ([machineprovision/controller.go])

    The controller of infrastructure machines.  It applies the objects of a provisioning job, follows the job and
    reports in the status of the machine: a condition [CreateJob], and [DeleteJob] once the machine goes.  Both jobs
    have the same name, so applying the one replaces the other. *)

From S2P Require Import Prelude GoLib Codec Errors Types External Instances Capr World Handlers Installer Bootstrap S3Args ProvisionTemplate ProvisionArgs.

Definition createJobConditionType : string := "CreateJob".
Definition deleteJobConditionType : string := "DeleteJob".
Definition forceRemoveMachineAnn : string := "provisioning.cattle.io/force-machine-remove".
Definition CreateMachineError : string := "CreateError".

(** ** State

    The objects of the management cluster, the infrastructure machines by kind, namespace and name, the calls of
    wrangler's apply with their success, most recent first, and the delays asked for.  A failed call may have applied
    some of its objects. *)

Definition infra_key (infra : InfraMachine) : string * string * string := (gvk_Kind (im_GVK infra), im_Namespace infra, im_Name infra).

Record apply_call := mkApply { ap_owner : string * string * string; ap_objects : list provision_object; ap_done : bool }.

Record PWorld := mkPWorld {
  pw_world : World;
  pw_infra : gmap (string * string * string) InfraMachine;
  pw_applied : list apply_call;
  pw_enqueued : list Z
}.

Definition PM (A : Type) : Type := ST PWorld A.

Definition on_world {A} (c : M A) : PM A :=
  fun w => let '(w1, r) := c (pw_world w) in (mkPWorld w1 (pw_infra w) (pw_applied w) (pw_enqueued w), r).

Definition put_infra (infra : InfraMachine) : PM unit :=
  modify (fun w => mkPWorld (pw_world w) (<[infra_key infra := infra]> (pw_infra w)) (pw_applied w) (pw_enqueued w)).

Definition EnqueueAfter (seconds : Z) : PM unit :=
  modify (fun w => mkPWorld (pw_world w) (pw_infra w) (pw_applied w) (seconds :: pw_enqueued w)).

Definition with_status (infra : InfraMachine) (fields : gmap string string) (conditions : list Condition) (addresses : list MachineAddress) : InfraMachine :=
  mkInfra (im_Namespace infra) (im_Name infra) (im_Labels infra) (im_Annotations infra) (im_Deleting infra)
    (im_OwnerReferences infra) (im_GVK infra) (im_Spec infra) fields conditions addresses.
Definition with_labels (infra : InfraMachine) (labels : gmap string string) : InfraMachine :=
  mkInfra (im_Namespace infra) (im_Name infra) labels (im_Annotations infra) (im_Deleting infra)
    (im_OwnerReferences infra) (im_GVK infra) (im_Spec infra) (im_Fields infra) (im_Conditions infra) (im_Addresses infra).
Definition with_spec (infra : InfraMachine) (spec : config) : InfraMachine :=
  mkInfra (im_Namespace infra) (im_Name infra) (im_Labels infra) (im_Annotations infra) (im_Deleting infra)
    (im_OwnerReferences infra) (im_GVK infra) spec (im_Fields infra) (im_Conditions infra) (im_Addresses infra).

(** [dynamic.UpdateStatus] and [dynamic.Update] of an object: the first writes the status, the other all the rest. *)
Definition dynamic_UpdateStatus (infra : InfraMachine) : PM InfraMachine :=
  let* _ := on_world api_request in
  let* stored := gets pw_infra in
  match stored !! infra_key infra with
  | None => fail (not_found (gvk_Kind (im_GVK infra)) (im_Name infra))
  | Some cur =>
      let new := with_status cur (im_Fields infra) (im_Conditions infra) (im_Addresses infra) in
      let* _ := put_infra new in ret new
  end.

Definition dynamic_Update (infra : InfraMachine) : PM InfraMachine :=
  let* _ := on_world api_request in
  let* stored := gets pw_infra in
  match stored !! infra_key infra with
  | None => fail (not_found (gvk_Kind (im_GVK infra)) (im_Name infra))
  | Some cur =>
      let new := with_status infra (im_Fields cur) (im_Conditions cur) (im_Addresses cur) in
      let* _ := put_infra new in ret new
  end.

(** [apply.WithOwner(infra).ApplyObjects(objs...)] *)
Definition ApplyObjects (infra : InfraMachine) (objs : list provision_object) : PM unit :=
  let* e := attempt_err (on_world api_request) in
  let* _ := modify (fun w => mkPWorld (pw_world w) (pw_infra w)
              (mkApply (infra_key infra) objs (bool_decide (e = None)) :: pw_applied w) (pw_enqueued w)) in
  fail_if e.

(** ** Conditions and status *)

(** [summary.Condition.Equals] *)
Definition cond_Equals (a b : Condition) : bool :=
  (c_Type a =? c_Type b) && (c_Status a =? c_Status b) && (c_Reason a =? c_Reason b) && (c_Message a =? c_Message b).

Definition insertOrUpdateCondition (conditions : list Condition) (desired : Condition) : list Condition * bool :=
  if List.existsb (cond_Equals desired) conditions then (conditions, false)
  else if List.existsb (fun c => c_Type c =? c_Type desired) conditions
  then (map (fun c => if c_Type c =? c_Type desired then desired else c) conditions, true)
  else (conditions ++ [desired], true).

Definition getCondition (conditions : list Condition) (conditionType : string) : option Condition :=
  List.find (fun c => c_Type c =? conditionType) conditions.

(** The scalar fields of a status in its JSON form, which omits zero values. *)
Definition status_data (state : RKEMachineStatus) : list (string * string) :=
  List.filter (fun kv => snd kv !=? "")
    [("jobName", ms_JobName state); ("ready", if ms_Ready state then "true" else ""); ("driverHash", ms_DriverHash state);
     ("driverUrl", ms_DriverURL state); ("cloudCredentialSecretName", ms_CloudCredentialSecretName state);
     ("failureReason", ms_FailureReason state); ("failureMessage", ms_FailureMessage state)].

Definition reconcile_conditions (conditions desired : list Condition) : list Condition * bool :=
  fold_left (fun acc c => let '(conds, changed) := insertOrUpdateCondition (fst acc) c in (conds, snd acc || changed)) desired (conditions, false).

Definition reconcileStatus (infra : InfraMachine) (state : RKEMachineStatus) : InfraMachine :=
  let statusData := status_data state in
  let changed := List.existsb (fun kv => status_field infra (fst kv) !=? snd kv) statusData in
  let '(conditions, conditions_changed) := reconcile_conditions (im_Conditions infra) (ms_Conditions state) in
  with_status infra
    (if changed || conditions_changed then list_to_map statusData ∪ im_Fields infra else im_Fields infra) conditions (im_Addresses infra).

Definition zeroStatus : RKEMachineStatus := mkMachineStatus [] "" false "" "" "" "" "".
Definition condition_status (l : list Condition) : RKEMachineStatus := mkMachineStatus l "" false "" "" "" "" "".
Definition set_ms_JobName (n : string) (s : RKEMachineStatus) : RKEMachineStatus :=
  mkMachineStatus (ms_Conditions s) n (ms_Ready s) (ms_DriverHash s) (ms_DriverURL s) (ms_CloudCredentialSecretName s) (ms_FailureReason s) (ms_FailureMessage s).

Definition machine_verb (podLabels : gmap string string) : string :=
  if map_get podLabels InfraJobRemove =? "true" then "deleting" else "creating".
Definition server_of (podLabels : gmap string string) (namespace : string) : string :=
  "server [" +:+ namespace +:+ "/" +:+ map_get podLabels InfraMachineName +:+ "] of kind (" +:+ map_get podLabels InfraMachineKind
  +:+ ") for machine " +:+ map_get podLabels CapiMachineName +:+ " in infrastructure provider".
Definition FailedMachineMessage (podLabels : gmap string string) (namespace failureReason failureMessage : string) : string :=
  "failed " +:+ machine_verb podLabels +:+ " " +:+ server_of podLabels namespace +:+ ": " +:+ failureReason +:+ ": " +:+ failureMessage.
Definition ExecutingMachineMessage (podLabels : gmap string string) (namespace : string) : string :=
  machine_verb podLabels +:+ " " +:+ server_of podLabels namespace.

(** Both conditions of a job that is over. *)
Definition done_status (condType : string) : RKEMachineStatus :=
  condition_status [mkCondition condType "True" "" "" ""; mkCondition "Ready" "True" "" "" ""].

Fixpoint first_failed (terminated : list (option (Z * string))) : option string :=
  match terminated with
  | [] => None
  | Some (exitCode, message) :: rest => if negb (exitCode =? 0)%Z then Some (TrimSpace message) else first_failed rest
  | None :: rest => first_failed rest
  end.

Definition getMachineStatusFromPod (pod : Pod) (condType : string) : RKEMachineStatus :=
  let reason := if condType =? deleteJobConditionType then DeleteMachineError else CreateMachineError in
  if p_Phase pod =? "Succeeded" then done_status condType
  else
    match first_failed (p_Terminated pod) with
    | Some failureMessage =>
        let message := FailedMachineMessage (p_Labels pod) (p_Namespace pod) reason failureMessage in
        mkMachineStatus [mkCondition condType "False" reason message ""; mkCondition "Ready" "False" reason message ""]
          "" false "" "" "" reason failureMessage
    | None => zeroStatus
    end.

(** The pod created last; the first of several that were created at the same time. *)
Definition last_pod (pods : list Pod) : option Pod :=
  fold_left (fun last pod => match last with
                             | None => Some pod
                             | Some l => if (p_CreationTimestamp l <? p_CreationTimestamp pod)%Z then Some pod else last
                             end) pods None.

Definition validGVK (gvk : GroupVersionKind) : bool :=
  (gvk_Group gvk =? "rke-machine.cattle.io") && (gvk_Version gvk =? "v1") && HasSuffix (gvk_Kind gvk) "Machine"
  && (gvk_Kind gvk !=? "CustomMachine").

Section controller.
Context `{D : ProvisionDeps} `{I : Installation}.

Definition executing_status (job : Job) : RKEMachineStatus :=
  condition_status [mkCondition "Ready" "False" "" (ExecutingMachineMessage (pt_Labels (j_Template job)) (j_Namespace job)) ""].

Definition getMachineStatus (job : Job) : res RKEMachineStatus :=
  let condType := if map_get (pt_Labels (j_Template job)) InfraJobRemove =? "true" then deleteJobConditionType else createJobConditionType in
  if Cond_IsTrue "Complete" (j_Conditions job) then Ret (done_status condType)
  else if Cond_IsTrue "Failed" (j_Conditions job) then
    let? pods := pods_List (j_Namespace job) (j_Selector job) in
    Ret (match last_pod pods with Some pod => getMachineStatusFromPod pod condType | None => executing_status job end)
  else Ret (executing_status job).

Definition getJobFromInfraMachine (infra : InfraMachine) : res Job :=
  let gvk := im_GVK infra in
  let? jobs := jobs_List (im_Namespace infra)
    (<[InfraMachineGroup := gvk_Group gvk]> (<[InfraMachineVersion := gvk_Version gvk]> (<[InfraMachineKind := gvk_Kind gvk]>
       {[ InfraMachineName := im_Name infra ]}))) in
  match jobs with
  | [] => Fail (not_found "jobs" (GetJobName (im_Name infra)))
  | job :: _ => Ret job
  end.

Definition shouldCleanupObjects (job : Job) (infra : InfraMachine) : bool :=
  if j_Completed job then true
  else
    match getCondition (im_Conditions infra) createJobConditionType with
    | None => false
    | Some createJobCondition =>
        if (c_Reason createJobCondition =? CreateMachineError)
           || (ToLower (map_get (im_Annotations infra) forceRemoveMachineAnn) =? "true")
        then (ToLower (map_get (pt_Labels (j_Template job)) InfraJobRemove) =? "true") && Cond_IsTrue "Failed" (j_Conditions job)
        else false
    end.

(** Whether the machine is provisioned: its condition says so and it has a provider id. *)
Definition infra_ready (infra : InfraMachine) : bool :=
  match getCondition (im_Conditions infra) "Ready" with
  | Some cond => (c_Status cond =? "True") && (spec_String infra "providerID" !=? "")
  | None => false
  end.

Definition run (infra : InfraMachine) (create : bool) : PM (RKEMachineStatus * bool) :=
  let* dArgs := lift (getArgsEnvAndStatus infra (im_Spec infra) (getNodeDriverName infra) create) in
  if (da_BootstrapSecretName dArgs =? "") && da_BootstrapRequired dArgs then
    let* _ := EnqueueAfter 2 in ret (zeroStatus, false)
  else
    let failure := status_field infra "failureReason" =? (if create then CreateMachineError else DeleteMachineError) in
    let* _ := ApplyObjects infra (objects ((infra_ready infra || failure) && create) dArgs) in
    ret (da_Status dArgs, failure).

(** What the job reports goes into the status. *)
Definition report_job (job : Job) (infra : InfraMachine) : res InfraMachine :=
  let? newStatus := getMachineStatus job in
  Ret (reconcileStatus infra (set_ms_JobName (j_Name job) newStatus)).

(** A failure to create hides the status of the deletion. *)
Definition reset_failure (infra : InfraMachine) : InfraMachine :=
  if status_field infra "failureReason" =? CreateMachineError
  then with_status infra (<["failureMessage" := ""]> (<["failureReason" := ""]> (im_Fields infra))) (im_Conditions infra) (im_Addresses infra)
  else infra.

Definition job_pending (condType message : string) : RKEMachineStatus :=
  condition_status [mkCondition condType "Unknown" "" message ""].

Definition doRemove (infra : InfraMachine) : PM unit :=
  let* '(state, _) := run infra false in
  let infra := reconcileStatus infra state in
  match getCondition (im_Conditions infra) deleteJobConditionType with
  | None =>
      let* _ := dynamic_UpdateStatus (reconcileStatus infra (job_pending deleteJobConditionType "creating machine deletion job")) in
      fail ErrSkip
  | Some _ =>
      let jobName := status_field infra "jobName" in
      if jobName =? "" then fail ErrSkip
      else
        match jobs_Get (im_Namespace infra) jobName with
        | Panic => panic
        | Fail e =>
            if IsNotFound e then let* _ := dynamic_UpdateStatus infra in fail ErrSkip else fail e
        | Ret job =>
            let* infra := lift (report_job job infra) in
            let* _ := dynamic_UpdateStatus (reset_failure infra) in
            fail ErrSkip
        end
  end.

(** The create job has not finished: it is followed here, since [OnChange] leaves a deleting machine alone. *)
Definition finish_create (infra : InfraMachine) : PM unit :=
  match getJobFromInfraMachine infra with
  | Panic => panic
  | Fail e => if IsNotFound e then ApplyObjects infra [] else fail e
  | Ret job =>
      let* '(state, _) := run infra true in
      let* infra := lift (report_job job (reconcileStatus infra state)) in
      let* _ := dynamic_UpdateStatus infra in
      fail (errorString ("cannot delete machine " +:+ im_Name infra +:+ " because create job has not finished"))
  end.

(** Nothing stands in the way of the delete job. *)
Definition remove_infra (infra : InfraMachine) : PM unit :=
  let clusterName := map_get (im_Labels infra) CAPIClusterNameLabel in
  if clusterName =? "" then fail (errorString ("error retrieving the clustername for machine, label key " +:+ CAPIClusterNameLabel
                                                 +:+ " does not appear to exist for dynamic machine " +:+ im_Namespace infra +:+ "/" +:+ im_Name infra))
  else
    match GetOwnerCAPIMachine machineCache_Get (im_Namespace infra) (im_OwnerReferences infra) with
    | Panic => panic
    | Fail e =>
        if bool_decide (e = ErrNoMatchingControllerOwnerRef) || IsNotFound e then doRemove infra else fail e
    | Ret machine =>
        match m_NodeRef machine with
        | None => doRemove infra
        | Some _ =>
            match rancherClusterCache_Get (im_Namespace infra) clusterName with
            | Panic => panic
            | Fail e => if IsNotFound e then doRemove infra else fail e
            | Ret _ => doRemove infra
            end
        end
    end.

(** [Ret tt] gives the finalizer of the machine up. *)
Definition OnRemove (infra : InfraMachine) : PM unit :=
  let* removed := lift (namespaceDeleting (im_Namespace infra)) in
  if (removed : bool) then ret tt
  else
    match GetOwnerCAPIMachineSet machineSetCache_Get (im_Namespace infra) (im_OwnerReferences infra) with
    | Panic => panic
    | Ret _ => ret tt
    | Fail _ =>
        match getCondition (im_Conditions infra) createJobConditionType with
        | None => ret tt
        | Some cond =>
            if c_Status cond =? "Unknown" then finish_create infra
            else
              match getCondition (im_Conditions infra) deleteJobConditionType with
              | Some cond =>
                  if c_Status cond !=? "Unknown" then
                    match getJobFromInfraMachine infra with
                    | Panic => panic
                    | Fail e => if IsNotFound e then ApplyObjects infra [] else fail e
                    | Ret job =>
                        if shouldCleanupObjects job infra then ApplyObjects infra []
                        else if c_Status cond =? "True" then fail ErrSkip
                        else remove_infra infra
                    end
                  else remove_infra infra
              | None => remove_infra infra
              end
        end
    end.

(** A machine that waits for something: it is called again. *)
Definition wait_again : PM unit := let* _ := EnqueueAfter 10 in fail ErrSkip.

(** The part of [OnChange] once everything the job needs is there. *)
Definition provision (infra : InfraMachine) (machine : Machine) : PM unit :=
  let* '(state, failure) := run infra true in
  let* _ := (if failure : bool then on_world (machines_Delete provision_held (m_Namespace machine) (m_Name machine)) else ret tt) in
  let infra := reconcileStatus infra state in
  match getCondition (im_Conditions infra) createJobConditionType with
  | None =>
      let* _ := dynamic_UpdateStatus (reconcileStatus infra (job_pending createJobConditionType "creating machine provision job")) in
      ret tt
  | Some _ =>
      let jobName := status_field infra "jobName" in
      if jobName =? "" then ret tt
      else
        match jobs_Get (im_Namespace infra) jobName with
        | Panic => panic
        | Fail e => if IsNotFound e then let* _ := dynamic_UpdateStatus infra in ret tt else fail e
        | Ret job =>
            let* infra := lift (report_job job infra) in
            let* _ := dynamic_UpdateStatus infra in ret tt
        end
  end.

Definition OnChange (infra : InfraMachine) : PM unit :=
  if im_Deleting infra then ret tt
  else
    match GetOwnerCAPIMachine machineCache_Get (im_Namespace infra) (im_OwnerReferences infra) with
    | Panic => panic
    | Fail e => if IsNotFound e then wait_again else fail e
    | Ret machine =>
        if map_get (im_Labels infra) CapiMachineName =? "" then
          let* _ := dynamic_Update (with_labels infra (<[CapiMachineName := m_Name machine]> (im_Labels infra))) in ret tt
        else
          match GetCAPIClusterFromLabel machine with
          | Panic | Ret None => panic
          | Fail e => if IsNotFound e then wait_again else fail e
          | Ret (Some capiCluster) =>
              if IsPaused_Infra capiCluster infra then wait_again
              else if negb (cc_InfrastructureReady capiCluster) then wait_again
              else match m_DataSecretName machine with
                   | None => wait_again
                   | Some _ => provision infra machine
                   end
          end
    end.

(** A changed job: its machine learns the name of the job, or is looked at again.  [dynamic.Get] reads the stored
    object. *)
Definition OnJobChange (job : option Job) : PM unit :=
  match job with
  | None => ret tt
  | Some job =>
      let labels := pt_Labels (j_Template job) in
      let name := map_get labels InfraMachineName in
      let kind := map_get labels InfraMachineKind in
      if (name =? "") || (kind =? "") then ret tt
      else
        let* stored := gets pw_infra in
        match stored !! (kind, j_Namespace job, name) with
        | None => ret tt
        | Some infra =>
            if status_field infra "jobName" =? "" then
              let* _ := dynamic_UpdateStatus (with_status infra (<["jobName" := j_Name job]> (im_Fields infra)) (im_Conditions infra) (im_Addresses infra)) in
              ret tt
            else EnqueueAfter 0
        end
  end.

(** [setCondition]: the outcome of a step as a condition; nothing in the package calls it. *)
Definition setCondition (infra : InfraMachine) (conditionType : string) (err : option error) : PM unit :=
  if bool_decide (err = Some ErrSkip) then ret tt
  else
    let desired := match err with
                   | Some e => mkCondition conditionType "False" "Error" (Error e) ""
                   | None => mkCondition conditionType "True" "" "" ""
                   end in
    let '(conditions, updated) := insertOrUpdateCondition (im_Conditions infra) desired in
    if negb updated then ret tt
    else
      let* _ := dynamic_UpdateStatus (with_status infra (im_Fields infra) conditions (im_Addresses infra)) in
      fail_if err.
End controller.

(** ** Which jobs are applied *)

Section jobs.
Context `{D : ProvisionDeps} `{I : Installation}.

Definition job_of (o : provision_object) : option Job := match o with JobObj j => Some j | PlainObj _ => None end.
Definition jobs_of (a : apply_call) : list Job := omap job_of (ap_objects a).
Definition is_delete_job (j : Job) : Prop := map_get (pt_Labels (j_Template j)) InfraJobRemove = "true".
Definition is_create_job (j : Job) : Prop := map_get (pt_Labels (j_Template j)) InfraJobRemove = "false".

(** The calls of apply a run adds satisfy [P]. *)
Definition logged (P : apply_call -> Prop) (w w' : PWorld) : Prop :=
  exists l, pw_applied w' = l ++ pw_applied w /\ Forall P l.

#[global] Instance logged_preorder P : PreOrder (logged P).
Proof.
  split.
  - intros w. exists []. by split; [|constructor].
  - intros w1 w2 w3 (l1 & E1 & Hl1) (l2 & E2 & Hl2). exists (l2 ++ l1). rewrite E2, E1, app_assoc. split; [done|]. by apply Forall_app.
Qed.

Lemma logged_quiet P w w' : pw_applied w' = pw_applied w -> logged P w w'.
Proof. intros E. exists []. by split; [|constructor]. Qed.

Abbreviation logs P c := (runs (fun _ => True) (logged P) c (fun _ => True)).

Lemma logs_on_world {A} P (c : M A) : logs P (on_world c).
Proof. intros w _. unfold on_world. destruct (c (pw_world w)) as [w1 r]. repeat split. by apply logged_quiet. Qed.

Lemma logs_EnqueueAfter P n : logs P (EnqueueAfter n).
Proof. intros w _. repeat split. by apply logged_quiet. Qed.

Lemma logs_put_infra P infra : logs P (put_infra infra).
Proof. intros w _. repeat split. by apply logged_quiet. Qed.

#[local] Hint Resolve logs_on_world logs_EnqueueAfter logs_put_infra : planner.

Lemma logs_UpdateStatus P infra : logs P (dynamic_UpdateStatus infra).
Proof. unfold dynamic_UpdateStatus. runs_auto. Qed.
Lemma logs_Update P infra : logs P (dynamic_Update infra).
Proof. unfold dynamic_Update. runs_auto. Qed.

Lemma logs_ApplyObjects (P : apply_call -> Prop) infra objs :
  (forall b, P (mkApply (infra_key infra) objs b)) -> logs P (ApplyObjects infra objs).
Proof.
  intros HP. unfold ApplyObjects. eapply (runs_bind _ _ _ _ (fun _ => True)); [runs_auto|]. intros e _.
  eapply (runs_bind _ _ _ _ (fun _ => True)); [|intros; runs_auto].
  intros w _. repeat split. exists [mkApply (infra_key infra) objs (bool_decide (e = None))]. split; [done|].
  constructor; [apply HP|constructor].
Qed.

#[local] Hint Resolve logs_UpdateStatus logs_Update : planner.

(** The job among the objects has the label of its purpose. *)
Lemma getArgsEnvAndStatus_required infra args driver create d :
  getArgsEnvAndStatus infra args driver create = Ret d -> da_BootstrapRequired d = create.
Proof.
  unfold getArgsEnvAndStatus. intros Hd. res_inv. destruct (constructFilesSecret driver args). by res_inv.
Qed.

Lemma objects_job ready d j : JobObj j ∈ objects ready d -> ready = false /\ j = provision_job d.
Proof.
  unfold objects. destruct ready.
  - by intros ?%list_elem_of_singleton.
  - rewrite !elem_of_app. destruct (named_files d), (da_CertsSecret d); set_solver.
Qed.

Lemma provision_job_label d :
  map_get (pt_Labels (j_Template (provision_job d))) InfraJobRemove = if da_BootstrapRequired d then "false" else "true".
Proof. unfold provision_job, job_labels, map_get. cbn [pt_Labels j_Template]. by rewrite !lookup_insert_ne, lookup_insert_eq by done. Qed.

(** The objects are those of this machine, and so is the one job they may contain; [Q] says when it is applied. *)
Definition applies (Q : Job -> Prop) (infra : InfraMachine) (a : apply_call) : Prop :=
  ap_owner a = infra_key infra
  /\ forall j, j ∈ jobs_of a -> j_Namespace j = im_Namespace infra /\ j_Name j = GetJobName (im_Name infra) /\ Q j.

Definition create_failed (infra : InfraMachine) : Prop := status_field infra "failureReason" = CreateMachineError.

Lemma elem_of_jobs_of j a : j ∈ jobs_of a <-> JobObj j ∈ ap_objects a.
Proof.
  unfold jobs_of. rewrite list_elem_of_omap. split; [|by intros ?; exists (JobObj j)].
  intros (o & Ho & Hj). by destruct o; inv Hj.
Qed.

Lemma getArgsEnvAndStatus_names infra args driver create d :
  getArgsEnvAndStatus infra args driver create = Ret d ->
  da_MachineNamespace d = im_Namespace infra /\ da_MachineName d = im_Name infra.
Proof.
  unfold getArgsEnvAndStatus. intros Hd. res_inv. destruct (constructFilesSecret driver args). by res_inv.
Qed.

Lemma logs_run (Q : Job -> Prop) infra (create : bool) :
  (forall j, if create then is_create_job j -> infra_ready infra = false -> ~ create_failed infra -> Q j else is_delete_job j -> Q j) ->
  logs (applies Q infra) (run infra create).
Proof.
  intros HQ. unfold run. eapply (runs_bind _ _ _ _ (fun d => da_BootstrapRequired d = create
    /\ da_MachineNamespace d = im_Namespace infra /\ da_MachineName d = im_Name infra)).
  { apply runs_lift; [apply _|]. intros d Hd. split; [by eapply getArgsEnvAndStatus_required|].
    by eapply getArgsEnvAndStatus_names. }
  intros d (Hc & Hns & Hname). destruct (_ && _); [runs_auto|].
  eapply (runs_bind _ _ _ _ (fun _ => True)); [|intros; runs_auto].
  apply logs_ApplyObjects. intros b. split; [done|]. intros j Hj%elem_of_jobs_of. cbn [ap_objects] in Hj.
  apply objects_job in Hj as [Hready ->]. pose proof (provision_job_label d) as Hl. rewrite Hc in Hl.
  unfold provision_job in *. cbn [j_Namespace j_Name] in *. rewrite Hns, Hname in *. split; [done|]. split; [done|].
  specialize (HQ (provision_job d)). destruct create; unfold provision_job in HQ; rewrite Hname, Hns in HQ; apply HQ; [done|..|done];
    rewrite andb_true_r in Hready; apply orb_false_iff in Hready as [Hr Hf]; [done|].
  intros E. unfold create_failed in E. by rewrite E, bool_decide_eq_true_2 in Hf.
Qed.

Lemma logs_doRemove (Q : Job -> Prop) infra : (forall j, is_delete_job j -> Q j) -> logs (applies Q infra) (doRemove infra).
Proof.
  intros HQ. unfold doRemove. pose proof (logs_run Q infra false HQ). runs_auto.
Qed.

Lemma logs_remove_infra (Q : Job -> Prop) infra : (forall j, is_delete_job j -> Q j) -> logs (applies Q infra) (remove_infra infra).
Proof. intros HQ. unfold remove_infra. pose proof (logs_doRemove Q infra HQ). runs_auto. Qed.

Lemma logs_clean Q infra : logs (applies Q infra) (ApplyObjects infra []).
Proof. apply logs_ApplyObjects. intros b. split; [done|]. by intros j Hj%elem_of_nil. Qed.

Lemma logs_finish_create (Q : Job -> Prop) infra : (forall j, is_create_job j -> Q j) -> logs (applies Q infra) (finish_create infra).
Proof.
  intros HQ. unfold finish_create. pose proof (logs_clean Q infra).
  pose proof (logs_run Q infra true (fun j Hj _ _ => HQ j Hj)). runs_auto.
Qed.

(** What a removal may apply, and what a change. *)
Definition removal_job (infra : InfraMachine) (j : Job) : Prop :=
  exists cond, getCondition (im_Conditions infra) createJobConditionType = Some cond
    /\ ((is_create_job j /\ c_Status cond = "Unknown") \/ (is_delete_job j /\ c_Status cond <> "Unknown")).
Definition creation_job (infra : InfraMachine) (j : Job) : Prop :=
  is_create_job j /\ im_Deleting infra = false /\ infra_ready infra = false /\ ~ create_failed infra.

Lemma logs_OnRemove infra : logs (applies (removal_job infra) infra) (OnRemove infra).
Proof.
  unfold OnRemove. eapply (runs_bind _ _ _ _ (fun _ => True)); [runs_auto|]. intros removed _. destruct removed; [runs_auto|].
  destruct (GetOwnerCAPIMachineSet _ _ _); [runs_auto| |runs_auto].
  destruct (getCondition (im_Conditions infra) createJobConditionType) as [c|] eqn:Ec; [|runs_auto].
  destruct (c_Status c =? "Unknown") eqn:Eu.
  { apply bool_decide_eq_true in Eu. apply logs_finish_create. intros j Hj. exists c. eauto. }
  apply bool_decide_eq_false in Eu. pose proof (logs_clean (removal_job infra) infra).
  pose proof (logs_remove_infra (removal_job infra) infra ltac:(intros j Hj; exists c; eauto)). runs_auto.
Qed.

Lemma logs_OnChange infra : logs (applies (creation_job infra) infra) (OnChange infra).
Proof.
  unfold OnChange, wait_again, provision. destruct (im_Deleting infra) eqn:Ed; [runs_auto|].
  pose proof (logs_run (creation_job infra) infra true (fun j H1 H2 H3 => conj H1 (conj Ed (conj H2 H3)))). runs_auto.
Qed.

(** C9: the jobs of a machine are applied in order, whatever fails on the way: a removal applies a delete job only when
    the outcome of the create job is recorded, and until then only the create job; a change applies a create job only
    for a machine that stays, is not ready and has not failed.  Either way the objects belong to the machine, and the
    job has the one name of the jobs of this machine, so that no second job can run beside it. *)
Theorem provision_jobs_ordered infra w :
  logged (applies (removal_job infra) infra) w (fst (OnRemove infra w))
  /\ logged (applies (creation_job infra) infra) w (fst (OnChange infra w)).
Proof.
  destruct (logs_OnRemove infra w Logic.I) as (_ & Hr & _). destruct (logs_OnChange infra w Logic.I) as (_ & Hc & _). done.
Qed.

Definition job_gone (infra : InfraMachine) : Prop := exists e, getJobFromInfraMachine infra = Fail e /\ IsNotFound e = true.

(** The delete job is over, or it failed and nothing was created or its removal is forced. *)
Definition deletion_over (infra : InfraMachine) : Prop :=
  exists job, getJobFromInfraMachine infra = Ret job
    /\ (j_Completed job = true
        \/ (ToLower (map_get (pt_Labels (j_Template job)) InfraJobRemove) = "true" /\ Cond_IsTrue "Failed" (j_Conditions job) = true
            /\ ((exists c, getCondition (im_Conditions infra) createJobConditionType = Some c /\ c_Reason c = CreateMachineError)
                \/ ToLower (map_get (im_Annotations infra) forceRemoveMachineAnn) = "true"))).

(** The objects of the machine were cleaned up by the last call of apply. *)
Definition cleaned_up (infra : InfraMachine) (w w' : PWorld) : Prop :=
  pw_applied w' = mkApply (infra_key infra) [] true :: pw_applied w.

Lemma ApplyObjects_Ret infra objs w w' :
  ApplyObjects infra objs w = (w', Ret tt) -> pw_applied w' = mkApply (infra_key infra) objs true :: pw_applied w.
Proof.
  unfold ApplyObjects. intros (e & w1 & He & Hk)%bind_Ret. apply bind_Ret in Hk as ([] & w2 & Hm & Hk).
  destruct e; [done|]. injection Hk as <-. injection Hm as <-. cbn.
  apply attempt_err_Ret in He as [[_ [u Hu]]|(e & [=] & _)]. unfold on_world in Hu.
  destruct (api_request (pw_world w)) as [w3 r]. by injection Hu as <- _.
Qed.

Lemma shouldCleanupObjects_true job infra :
  getJobFromInfraMachine infra = Ret job -> shouldCleanupObjects job infra = true -> deletion_over infra.
Proof.
  intros Hj Hs. unfold shouldCleanupObjects in Hs. exists job. split; [done|]. destruct (j_Completed job); [by left|right].
  destruct (getCondition _ createJobConditionType) as [c|] eqn:Ec; [|done].
  destruct (_ || _) eqn:E; [|done]. apply andb_true_iff in Hs as [Hl Hf]. apply bool_decide_eq_true in Hl.
  apply orb_true_iff in E as [E|E]; apply bool_decide_eq_true in E; eauto 10.
Qed.

(** The delete job is followed with an error as long as the machine is there. *)
Lemma doRemove_holds infra w w' u : doRemove infra w = (w', Ret u) -> False.
Proof.
  unfold doRemove. intros ([state f] & w1 & _ & Hk)%bind_Ret.
  destruct (getCondition _ _); [|by apply bind_Ret in Hk as (? & ? & _ & ?)].
  destruct (_ =? ""); [done|]. destruct (jobs_Get _ _) as [job|e|]; [| |done].
  - apply bind_Ret in Hk as (i & w2 & _ & Hk). by apply bind_Ret in Hk as (? & ? & _ & ?).
  - destruct (IsNotFound e); [|done]. by apply bind_Ret in Hk as (? & ? & _ & ?).
Qed.

Lemma remove_infra_holds infra w w' u : remove_infra infra w = (w', Ret u) -> False.
Proof.
  unfold remove_infra. destruct (_ =? ""); [done|].
  destruct (GetOwnerCAPIMachine _ _ _) as [m|e|]; [|destruct (_ || _); [apply doRemove_holds|done]|done].
  destruct (m_NodeRef m); [|apply doRemove_holds].
  destruct (rancherClusterCache_Get _ _) as [c|e|]; [apply doRemove_holds| |done].
  destruct (IsNotFound e); [apply doRemove_holds|done].
Qed.

Lemma finish_create_Ret infra w w' :
  finish_create infra w = (w', Ret tt) -> job_gone infra /\ cleaned_up infra w w'.
Proof.
  unfold finish_create, job_gone. destruct (getJobFromInfraMachine infra) as [job|e|]; [| |done].
  - intros ([state f] & w1 & _ & Hk)%bind_Ret. apply bind_Ret in Hk as (i & w2 & _ & Hk). by apply bind_Ret in Hk as (? & ? & _ & ?).
  - destruct (IsNotFound e) eqn:E; [|done]. intros Ha%ApplyObjects_Ret. split; [by exists e|done].
Qed.

(** An infrastructure machine is let go, which gives its finalizer up, only when nothing it stands for can be left: its
    namespace goes, it was never adopted by a machine, no create job was ever tried, the create job is gone, or the
    outcome of the deletion is recorded and the delete job is gone, complete, or has failed for a machine that was not
    created or whose removal is forced; in the cases with a job, the objects of the job have been cleaned up. *)
Theorem OnRemove_releases infra w w' :
  OnRemove infra w = (w', Ret tt) ->
  namespaceDeleting (im_Namespace infra) = Ret true
  \/ (exists u, GetOwnerCAPIMachineSet machineSetCache_Get (im_Namespace infra) (im_OwnerReferences infra) = Ret u)
  \/ getCondition (im_Conditions infra) createJobConditionType = None
  \/ cleaned_up infra w w' /\ exists c, getCondition (im_Conditions infra) createJobConditionType = Some c
     /\ ((c_Status c = "Unknown" /\ job_gone infra)
         \/ (c_Status c <> "Unknown" /\ (job_gone infra \/ deletion_over infra)
             /\ exists d, getCondition (im_Conditions infra) deleteJobConditionType = Some d /\ c_Status d <> "Unknown")).
Proof.
  unfold OnRemove. intros (removed & w1 & Hn & Hk)%bind_Ret. injection Hn as <- Hn. destruct removed; [by left|right].
  destruct (GetOwnerCAPIMachineSet _ _ _) as [u|e|] eqn:Es; [left; by exists u| |done]. right.
  destruct (getCondition (im_Conditions infra) createJobConditionType) as [c|]; [right|by left].
  destruct (c_Status c =? "Unknown") eqn:Eu.
  { apply bool_decide_eq_true in Eu. apply finish_create_Ret in Hk as [Hg Hc]. eauto 8. }
  apply bool_decide_eq_false in Eu.
  destruct (getCondition (im_Conditions infra) deleteJobConditionType) as [d|]; [|by apply remove_infra_holds in Hk].
  destruct (c_Status d !=? "Unknown") eqn:Ed; [|by apply remove_infra_holds in Hk].
  apply negb_true_iff, bool_decide_eq_false in Ed. unfold job_gone.
  destruct (getJobFromInfraMachine infra) as [job|e'|] eqn:Ej; [| |done].
  - destruct (shouldCleanupObjects job infra) eqn:Ec.
    + apply ApplyObjects_Ret in Hk. apply (shouldCleanupObjects_true job infra Ej) in Ec. eauto 10.
    + destruct (c_Status d =? "True"); [done|]. by apply remove_infra_holds in Hk.
  - destruct (IsNotFound e') eqn:E'; [|done]. apply ApplyObjects_Ret in Hk. eauto 12.
Qed.
End jobs.

Section witnesses.
#[local] Existing Instance demoExternal.
#[local] Existing Instance demoInstallation.

Definition demoPoolMachine : Machine :=
  mkMachine "fleet-default" "m1" "m1-uid" {[ CAPIClusterNameLabel := "c1" ]} ∅ false
    (Some (mkObjectReference "RKEBootstrap" "fleet-default" "m1" "rke.cattle.io/v1"))
    (mkObjectReference "DigitaloceanMachine" "fleet-default" "pool1-m1" "rke-machine.cattle.io/v1")
    "Provisioning" [] None None [] None "c1" "cluster.x-k8s.io/v1beta1" "Machine" (Some "m1-machine-bootstrap") None.
Definition demoCredential : Secret :=
  mkSecret "cattle-global-data" "cc-1" "Opaque" ∅ ∅ {[ "digitaloceancredentialConfig-accessToken" := "secret" ]} [] false.
Definition demoPoolPlanner : Planner :=
  demoPlanner {[ ("cattle-global-data", "cc-1") := demoCredential ]} ∅ [demoPoolMachine] (Some demoCluster).
#[local] Existing Instance demoPoolPlanner.
Definition demoPoolControllers : Controllers := demoControllers demoPoolPlanner [demoPoolMachine] [] None.
#[local] Existing Instance demoPoolControllers.

(** Caches with the given jobs. *)
Definition demoPoolDeps (jobs : list Job) : ProvisionDeps := {|
  jobs_Get ns name := match List.find (fun j => (j_Namespace j =? ns) && (j_Name j =? name)) jobs with
                      | Some j => Ret j | None => demoMissing "job" name end;
  jobs_List ns labels := Ret jobs;
  pods_List ns s := Ret [];
  namespaceDeleting ns := Ret false;
  machineSetCache_Get ns name := demoMissing "machineset" name;
  nodeDriverCache_Get name := Ret (mkNodeDriver name "local://" "");
  rancherClusterCache_Get ns name := Ret (mkRancherCluster false "c-m-1");
  dynamic_dataSecretName v k ns name := Ret (name +:+ "-machine-bootstrap");
  IsPaused_Infra c i := cc_Paused c;
  provision_held ns name := true;
  Getenv name := "";
  Stat path := false
|}.

Definition demoInfra (conditions : list Condition) : InfraMachine :=
  mkInfra "fleet-default" "pool1-m1" {[ CAPIClusterNameLabel := "c1" ]} ∅ false
    [mkOwnerReference capi_GroupVersion "Machine" "m1" "m1-uid" true]
    (mkGVK "rke-machine.cattle.io" "v1" "DigitaloceanMachine")
    {[ "common" := VMap [("cloudCredentialSecretName", VString "cattle-global-data:cc-1")] ]} ∅ conditions [].
Definition demoPoolWorld (infras : gmap (string * string * string) InfraMachine) : PWorld :=
  mkPWorld (mkWorld (mkPlan ∅ ∅ ∅) ∅ ∅ ∅ ∅ ∅ [] "" []) infras [] [].
Definition demoRemoved : InfraMachine :=
  demoInfra [mkCondition createJobConditionType "True" "" "" ""; mkCondition deleteJobConditionType "True" "" "" ""].

Lemma OnRemove_releases_witness :
  let D := demoPoolDeps [] in
  exists w', OnRemove demoRemoved (demoPoolWorld ∅) = (w', Ret tt) /\ job_gone demoRemoved.
Proof.
  intros D. eexists. split; [vm_compute; reflexivity|].
  destruct (OnRemove_releases (D := D) demoRemoved (demoPoolWorld ∅) _ ltac:(vm_compute; reflexivity))
    as [Hn|[[u Hu]|[Hc|(_ & c & Hc & [[Hu _]|(_ & [Hg|(job & Hj & _)] & _)])]]]; [discriminate Hn|discriminate Hu|discriminate Hc| |exact Hg|discriminate Hj].
  injection Hc as <-. discriminate Hu.
Defined.
End witnesses.
