(* ===== verification/NodeLookup.v ===== *)
(** * Node look-up ([machinenodelookup/controller.go])

    Once the node of a machine has registered in the downstream cluster, its provider id and addresses are copied to
    the infrastructure machine; with the provider id the infrastructure counts as ready. *)

From S2P Require Import Prelude GoLib Codec Errors Types External Instances Capr World Handlers Installer Bootstrap ProvisionTemplate ProvisionArgs MachineProvision.

Definition nodeErrorEnqueueTime : Z := 15.

(** [corev1.Node] *)
Record NodeInfo := mkNodeInfo { ni_ProviderID : string; ni_Conditions : list Condition; ni_Addresses : list MachineAddress }.

(** The kubeconfig of a cluster, by namespace and name, and the nodes of the downstream cluster with a label. *)
Class NodeLookupDeps `{ProvisionDeps} := {
  GetRESTConfig : string -> string -> res restConfig;
  nodes_List : k8sInterface -> string -> string -> res (list NodeInfo)         (** label and value *)
}.

Section lookup.
Context `{N : NodeLookupDeps}.

(** The node that carries the UID of the machine, if it is usable. *)
Definition ready_node (k8s : k8sInterface) (machine : Machine) : option NodeInfo :=
  match nodes_List k8s MachineUIDLabel (m_UID machine) with
  | Ret (node :: _) => if (ni_ProviderID node =? "") || negb (Cond_IsTrue "Ready" (ni_Conditions node)) then None else Some node
  | _ => None
  end.

(** The addresses go to the status first, then the provider id to the specification. *)
Definition record_node (infra : InfraMachine) (node : NodeInfo) : PM unit :=
  if spec_String infra "providerID" !=? ni_ProviderID node then
    let* newObj := dynamic_UpdateStatus (with_status infra (im_Fields infra) (im_Conditions infra) (ni_Addresses node)) in
    let* _ := dynamic_Update (with_spec newObj (<["providerID" := VString (ni_ProviderID node)]> (im_Spec newObj))) in
    ret tt
  else ret tt.

Definition infra_condition_true (infra : InfraMachine) : bool :=
  match getCondition (im_Conditions infra) "Ready" with Some c => ToLower (c_Status c) =? "true" | None => false end.

(** With the infrastructure machine at hand. *)
Definition lookup_node (infra : InfraMachine) (machine : Machine) : PM unit :=
  if negb (infra_condition_true infra) then EnqueueAfter nodeErrorEnqueueTime
  else
    let* _ := lift (rancherClusterCache_Get (m_Namespace machine) (m_ClusterName machine)) in
    let* config := lift (GetRESTConfig (m_Namespace machine) (m_ClusterName machine)) in
    let* clientset := lift (NewForConfig config) in
    match ready_node clientset machine with
    | None => EnqueueAfter nodeErrorEnqueueTime
    | Some node => record_node infra node
    end.

Definition associateMachineWithNode (bootstrap : option RKEBootstrap) : PM unit :=
  match bootstrap with
  | None => ret tt
  | Some b =>
      if rb_Deleting b then ret tt
      else if negb (rb_Ready b) || (default "" (rb_DataSecretName b) =? "") then ret tt
      else
        match GetMachineByOwner machineCache_Get (rb_Namespace b) (rb_OwnerReferences b) with
        | Panic => panic
        | Fail e => if bool_decide (e = ErrNoMachineOwnerRef) then fail ErrSkip else fail e
        | Ret machine =>
            if default "" (m_ProviderID machine) !=? "" then ret tt
            else
              let ref := m_InfrastructureRef machine in
              let* stored := gets pw_infra in
              match stored !! (ref_Kind ref, m_Namespace machine, ref_Name ref) with
              | None => ret tt
              | Some infra => lookup_node infra machine
              end
        end
  end.
End lookup.
