(* ===== verification/ProvisionLifecycle.v ===== *)
(** * The life of a provisioned machine

    The controllers of [MachineProvision] and [NodeLookup] together: a machine whose job runs to completion becomes
    ready, and a machine that goes is let go after its delete job. *)

From S2P Require Import Prelude GoLib Codec Errors Types External Instances Capr World S3Args Handlers Installer Bootstrap ProvisionTemplate ProvisionArgs MachineProvision NodeLookup.

(** ** Status reconciliation *)

Definition types_unique (l : list Condition) : Prop := NoDup (map c_Type l).

Definition cond_status (l : list Condition) (t : string) : option string := c_Status <$> getCondition l t.

Lemma getCondition_Some l t c : getCondition l t = Some c -> c ∈ l /\ c_Type c = t.
Proof. intros [Hin Ht]%find_some. apply bool_decide_eq_true in Ht. by apply list_elem_of_In in Hin. Qed.

Lemma getCondition_None l t : getCondition l t = None <-> t ∉ map c_Type l.
Proof.
  unfold getCondition. induction l as [|c l IH]; simpl; [by split; [intros _ ?%elem_of_nil|]|].
  case_bool_decide as E; [split; [done|]; intros Hn; destruct Hn; rewrite E; constructor|].
  rewrite IH, not_elem_of_cons. naive_solver.
Qed.

Lemma getCondition_unique l c : types_unique l -> c ∈ l -> getCondition l (c_Type c) = Some c.
Proof.
  unfold types_unique, getCondition. induction l as [|x l IH]; simpl; [by intros _ ?%elem_of_nil|].
  intros [Hx Hl]%NoDup_cons [->|Hc]%elem_of_cons; [by rewrite bool_decide_eq_true_2|].
  case_bool_decide as E; [|by apply IH]. destruct Hx. rewrite E. by apply list_elem_of_fmap_2.
Qed.

Lemma map_replace_types c l : map c_Type (map (fun x => if c_Type x =? c_Type c then c else x) l) = map c_Type l.
Proof. rewrite map_map. apply map_ext. intros x. by case_bool_decide. Qed.

Lemma getCondition_replace c l t :
  getCondition (map (fun x => if c_Type x =? c_Type c then c else x) l) t
  = (fun x => if c_Type x =? c_Type c then c else x) <$> getCondition l t.
Proof.
  unfold getCondition. induction l as [|x l IH]; [done|]. cbn [map List.find].
  assert (c_Type (if c_Type x =? c_Type c then c else x) = c_Type x) as -> by by case_bool_decide.
  by destruct (c_Type x =? t).
Qed.

Lemma insertOrUpdateCondition_types l c : types_unique l -> types_unique (fst (insertOrUpdateCondition l c)).
Proof.
  unfold insertOrUpdateCondition, types_unique. destruct (List.existsb (cond_Equals c) l); [done|].
  destruct (List.existsb _ l) eqn:E; simpl; [by rewrite map_replace_types|]. intros Hl. rewrite map_app. apply NoDup_app.
  split; [done|]. split; [|by repeat constructor; intros ?%elem_of_nil]. intros t Ht [->|[]%elem_of_nil]%elem_of_cons.
  apply list_elem_of_fmap in Ht as (x & Hx & Hin). assert (List.existsb (fun y => c_Type y =? c_Type c) l = true) as E'; [|congruence].
  apply existsb_exists. exists x. split; [by apply list_elem_of_In|]. by apply bool_decide_eq_true_2.
Qed.

(** A condition that is set has the desired status, the others keep theirs. *)
Lemma insertOrUpdateCondition_status l c t :
  types_unique l ->
  cond_status (fst (insertOrUpdateCondition l c)) t = if t =? c_Type c then Some (c_Status c) else cond_status l t.
Proof.
  intros Hu. unfold insertOrUpdateCondition, cond_status. destruct (List.existsb (cond_Equals c) l) eqn:E1.
  { apply existsb_exists in E1 as (x & Hx & Heq). unfold cond_Equals in Heq. apply andb_true_iff in Heq as [Heq _].
    apply andb_true_iff in Heq as [Heq _]. apply andb_true_iff in Heq as [Et Es]. apply bool_decide_eq_true in Et, Es.
    case_bool_decide as E; [|done]. subst t. simpl. rewrite Et, (getCondition_unique l x); [by rewrite Es|done|by apply list_elem_of_In]. }
  clear E1. destruct (List.existsb (fun x => c_Type x =? c_Type c) l) eqn:E2; cbn [fst].
  - rewrite getCondition_replace. case_bool_decide as E.
    + subst t. apply existsb_exists in E2 as (x & Hx & Et). apply bool_decide_eq_true in Et.
      rewrite <- Et, (getCondition_unique l x); [|done|by apply list_elem_of_In]. simpl. by rewrite Et, bool_decide_eq_true_2.
    + destruct (getCondition l t) as [x|] eqn:Ex; [|done]. simpl. apply getCondition_Some in Ex as [_ Ex].
      by rewrite bool_decide_eq_false_2 by congruence.
  - assert (getCondition l (c_Type c) = None) as Hn.
    { apply getCondition_None. intros (x & Hx & Hin)%list_elem_of_fmap.
      assert (List.existsb (fun y => c_Type y =? c_Type c) l = true) as E'; [|congruence].
      apply existsb_exists. exists x. split; [by apply list_elem_of_In|]. by apply bool_decide_eq_true_2. }
    assert (forall l1 l2 x, getCondition (l1 ++ l2) x = match getCondition l1 x with Some y => Some y | None => getCondition l2 x end) as Happ.
    { intros l1 l2 x. unfold getCondition. induction l1 as [|y l1 IH]; simpl; [done|]. by case_bool_decide. }
    rewrite Happ. case_bool_decide as E; [subst t; rewrite Hn; unfold getCondition; simpl; by rewrite bool_decide_eq_true_2|].
    destruct (getCondition l t); [done|]. unfold getCondition. simpl. by rewrite bool_decide_eq_false_2.
Qed.

Lemma reconcile_conditions_fst desired l b :
  fst (fold_left (fun acc c => let '(conds, changed) := insertOrUpdateCondition (fst acc) c in (conds, snd acc || changed)) desired (l, b))
  = fold_left (fun conds c => fst (insertOrUpdateCondition conds c)) desired l.
Proof.
  revert l b. induction desired as [|c desired IH]; intros l b; [done|]. cbn [fold_left fst snd].
  destruct (insertOrUpdateCondition l c) as [l' b']. apply IH.
Qed.

(** The conditions after a reconciliation: the desired ones, the last of a type, and the others as they were. *)
Lemma reconcile_conditions_spec desired l :
  types_unique l ->
  types_unique (fst (reconcile_conditions l desired))
  /\ forall t, cond_status (fst (reconcile_conditions l desired)) t
               = match List.find (fun c => c_Type c =? t) (rev desired) with
                 | Some c => Some (c_Status c)
                 | None => cond_status l t
                 end.
Proof.
  unfold reconcile_conditions. rewrite reconcile_conditions_fst. revert l.
  induction desired as [|c desired IH] using rev_ind; intros l Hl; [done|].
  rewrite fold_left_app, rev_app_distr. cbn [fold_left rev app List.find]. destruct (IH l Hl) as [Hu Hs].
  split; [by apply insertOrUpdateCondition_types|]. intros t. rewrite insertOrUpdateCondition_status by done.
  rewrite (bool_decide_ext (t = c_Type c) (c_Type c = t)) by done. destruct (c_Type c =? t); [done|]. apply Hs.
Qed.

Lemma reconcileStatus_conditions i st :
  im_Conditions (reconcileStatus i st) = fst (reconcile_conditions (im_Conditions i) (ms_Conditions st)).
Proof. unfold reconcileStatus. by destruct (reconcile_conditions _ _). Qed.

(** The fields of the status are written, the others stay. *)
Lemma reconcileStatus_field i st k :
  status_field (reconcileStatus i st) k = default (status_field i k) ((list_to_map (status_data st) : gmap string string) !! k).
Proof.
  unfold reconcileStatus. destruct (reconcile_conditions _ _) as [conds b].
  destruct (List.existsb _ (status_data st) || b) eqn:E; unfold status_field, map_get; cbn [im_Fields with_status].
  - rewrite lookup_union. destruct (list_to_map _ !! k); [by destruct (im_Fields i !! k)|by destruct (im_Fields i !! k)].
  - apply orb_false_iff in E as [E _]. destruct (list_to_map _ !! k) as [v|] eqn:Ek; [|done]. simpl.
    apply elem_of_list_to_map_2, list_elem_of_In in Ek. destruct (decide (map_get (im_Fields i) k = v)) as [|Hne]; [done|].
    assert (List.existsb (fun kv => status_field i (fst kv) !=? snd kv) (status_data st) = true) as E'; [|congruence].
    apply existsb_exists. exists (k, v). split; [done|]. by apply negb_true_iff, bool_decide_eq_false.
Qed.

(** All but the status. *)
Definition same_spec (i i' : InfraMachine) : Prop :=
  im_Namespace i' = im_Namespace i /\ im_Name i' = im_Name i /\ im_Labels i' = im_Labels i /\ im_Annotations i' = im_Annotations i
  /\ im_Deleting i' = im_Deleting i /\ im_OwnerReferences i' = im_OwnerReferences i /\ im_GVK i' = im_GVK i
  /\ im_Spec i' = im_Spec i.

#[global] Instance same_spec_preorder : PreOrder same_spec.
Proof. split; unfold same_spec; [done|]. intros a b c. naive_solver congruence. Qed.

Lemma reconcileStatus_spec i st : same_spec i (reconcileStatus i st).
Proof. unfold reconcileStatus. by destruct (reconcile_conditions _ _). Qed.

Lemma same_spec_key i i' : same_spec i i' -> infra_key i' = infra_key i.
Proof. unfold same_spec, infra_key. intros (-> & -> & _ & _ & _ & _ & -> & _). done. Qed.

Lemma same_spec_with_status i i' : same_spec i i' -> with_status i (im_Fields i') (im_Conditions i') (im_Addresses i') = i'.
Proof. destruct i, i'. unfold same_spec, with_status. simpl. naive_solver. Qed.

Lemma reconcileStatus_addresses i st : im_Addresses (reconcileStatus i st) = im_Addresses i.
Proof. unfold reconcileStatus. by destruct (reconcile_conditions _ _). Qed.

(** A field is written unless the value is empty. *)
Lemma lookup_nonempty (l : list (string * string)) k old :
  NoDup (map fst l) ->
  default old ((list_to_map (List.filter (fun kv => snd kv !=? "") l) : gmap string string) !! k)
  = match (list_to_map l : gmap string string) !! k with Some v => if v =? "" then old else v | None => old end.
Proof.
  induction l as [|[k' v] l IH]; [done|]. cbn [map fst snd List.filter list_to_map foldr]. intros [Hk Hl]%NoDup_cons.
  specialize (IH Hl). destruct (decide (k = k')) as [->|Hne].
  - rewrite lookup_insert_eq. case_bool_decide as E; cbn [negb].
    + rewrite IH. by rewrite not_elem_of_list_to_map_1 by done.
    + cbn [list_to_map foldr fst snd uncurry]. by rewrite lookup_insert_eq.
  - rewrite lookup_insert_ne by done. destruct (negb _); [|done].
    cbn [list_to_map foldr fst snd uncurry]. by rewrite lookup_insert_ne.
Qed.

Definition status_fields (st : RKEMachineStatus) : gmap string string :=
  list_to_map [("jobName", ms_JobName st); ("ready", if ms_Ready st then "true" else ""); ("driverHash", ms_DriverHash st);
     ("driverUrl", ms_DriverURL st); ("cloudCredentialSecretName", ms_CloudCredentialSecretName st);
     ("failureReason", ms_FailureReason st); ("failureMessage", ms_FailureMessage st)].

Lemma reconcile_field i st k :
  status_field (reconcileStatus i st) k
  = match status_fields st !! k with Some v => if v =? "" then status_field i k else v | None => status_field i k end.
Proof.
  rewrite reconcileStatus_field. unfold status_data. apply lookup_nonempty. cbn. by repeat (constructor; [set_solver|]); constructor.
Qed.

Lemma reconcile_jobName i st :
  status_field (reconcileStatus i st) "jobName" = if ms_JobName st =? "" then status_field i "jobName" else ms_JobName st.
Proof. rewrite reconcile_field. by unfold status_fields; cbn [list_to_map foldr uncurry]; rewrite lookup_insert_eq. Qed.

Lemma reconcile_ready i st :
  status_field (reconcileStatus i st) "ready" = if ms_Ready st then "true" else status_field i "ready".
Proof.
  rewrite reconcile_field. unfold status_fields; cbn [list_to_map foldr uncurry]; rewrite lookup_insert_ne, lookup_insert_eq by done.
  by destruct (ms_Ready st).
Qed.

Lemma reconcile_failure i st :
  status_field (reconcileStatus i st) "failureReason"
  = if ms_FailureReason st =? "" then status_field i "failureReason" else ms_FailureReason st.
Proof. rewrite reconcile_field. by unfold status_fields; cbn [list_to_map foldr uncurry]; rewrite !lookup_insert_ne, lookup_insert_eq by done. Qed.

(** ** Requests that succeed *)

Definition calm (w : PWorld) : Prop := w_faults (pw_world w) = [].
Definition stored (i : InfraMachine) (w : PWorld) : Prop := pw_infra w !! infra_key i = Some i.
Definition with_stored (i : InfraMachine) (w : PWorld) : PWorld :=
  mkPWorld (pw_world w) (<[infra_key i := i]> (pw_infra w)) (pw_applied w) (pw_enqueued w).
Definition with_applied (i : InfraMachine) (objs : list provision_object) (w : PWorld) : PWorld :=
  mkPWorld (pw_world w) (pw_infra w) (mkApply (infra_key i) objs true :: pw_applied w) (pw_enqueued w).

Lemma on_world_calm w : calm w -> on_world api_request w = (w, Ret tt).
Proof. unfold calm, on_world, api_request. intros ->. by destruct w. Qed.

Lemma stored_with_stored i w : stored i (with_stored i w).
Proof. apply lookup_insert_eq. Qed.

Lemma ApplyObjects_calm i objs w : calm w -> ApplyObjects i objs w = (with_applied i objs w, Ret tt).
Proof.
  intros Hc. unfold ApplyObjects, attempt_err, attempt, bind. rewrite on_world_calm by done. reflexivity.
Qed.

Lemma UpdateStatus_calm i i' w :
  calm w -> stored i w -> same_spec i i' -> dynamic_UpdateStatus i' w = (with_stored i' w, Ret i').
Proof.
  intros Hc Hs He. unfold dynamic_UpdateStatus, bind. rewrite on_world_calm by done. cbn. rewrite (same_spec_key _ _ He), Hs.
  cbn. rewrite (same_spec_with_status _ _ He). done.
Qed.

Lemma Update_calm i i' w :
  calm w -> stored i w -> infra_key i' = infra_key i -> im_Fields i' = im_Fields i -> im_Conditions i' = im_Conditions i ->
  im_Addresses i' = im_Addresses i -> dynamic_Update i' w = (with_stored i' w, Ret i').
Proof.
  intros Hc Hs Hk Hf Hco Ha. unfold dynamic_Update, bind. rewrite on_world_calm by done. cbn. rewrite Hk, Hs.
  cbn. rewrite <- Hf, <- Hco, <- Ha. by destruct i'.
Qed.

(** ** What a job needs *)

Section lifecycle.
Context `{N : NodeLookupDeps} `{I : Installation}.

(** Everything around an infrastructure machine is there: its machine with bootstrap data, the cluster, the driver, the
    credential and the certificates. *)
Record provisionable (infra : InfraMachine) (machine : Machine) : Prop := {
  pv_alive : im_Deleting infra = false;
  pv_owner : GetOwnerCAPIMachine machineCache_Get (im_Namespace infra) (im_OwnerReferences infra) = Ret machine;
  pv_machine : machineCache_Get (im_Namespace infra) (m_Name machine) = Ret machine;
  pv_name : m_Name machine <> "";
  pv_cluster : exists cc, GetCAPIClusterFromLabel machine = Ret (Some cc) /\ cc_InfrastructureReady cc = true
                          /\ forall i, IsPaused_Infra cc i = false;
  pv_data : m_DataSecretName machine <> None;
  pv_driver : exists p, driver_download infra (getNodeDriverName infra) true = Ret p;
  pv_credential : spec_common infra "cloudCredentialSecretName" <> ""
                  /\ exists s, GetCloudCredentialSecret (m_Namespace machine) (spec_common infra "cloudCredentialSecretName") = Ret s;
  pv_bootstrap : exists s, provision_bootstrapSecret (Some machine) = Ret s /\ s <> "";
  pv_rancher : exists rc, rancherClusterCache_Get (im_Namespace infra) (map_get (im_Labels infra) CAPIClusterNameLabel) = Ret rc;
  pv_certs : exists c, constructCertsSecret (im_Name infra) (im_Namespace infra) = Ret c
}.

(** It depends on the identity of the machine, its owner, its cluster and its credential only. *)
Definition same_place (i i' : InfraMachine) : Prop :=
  im_Namespace i' = im_Namespace i /\ im_Name i' = im_Name i /\ im_Deleting i' = im_Deleting i
  /\ im_OwnerReferences i' = im_OwnerReferences i /\ im_GVK i' = im_GVK i
  /\ map_get (im_Labels i') CAPIClusterNameLabel = map_get (im_Labels i) CAPIClusterNameLabel
  /\ spec_common i' "cloudCredentialSecretName" = spec_common i "cloudCredentialSecretName".

#[global] Instance same_place_preorder : PreOrder same_place.
Proof. split; unfold same_place; [done|]. intros a b c. naive_solver congruence. Qed.

Lemma same_spec_place i i' : same_spec i i' -> same_place i i'.
Proof.
  unfold same_spec, same_place, spec_common. intros (-> & -> & -> & _ & -> & -> & -> & ->). done.
Qed.

Lemma same_place_key i i' : same_place i i' -> infra_key i' = infra_key i.
Proof. unfold same_place, infra_key. intros (-> & -> & _ & _ & -> & _). done. Qed.

Lemma provisionable_place i i' machine : same_place i i' -> provisionable i machine -> provisionable i' machine.
Proof.
  intros (E1 & E2 & E3 & E4 & E5 & E6 & E7) [P1 P2 P3 P4 P5 P6 P7 P8 P9 P10 P11].
  split; rewrite ?E1, ?E2, ?E3, ?E4, ?E6, ?E7; try done. unfold getNodeDriverName in *. rewrite E5. exact P7.
Qed.

Definition create_args (i : InfraMachine) (d : driverArgs) : Prop :=
  getArgsEnvAndStatus i (im_Spec i) (getNodeDriverName i) true = Ret d /\ da_BootstrapSecretName d <> ""
  /\ ms_Conditions (da_Status d) = [] /\ ms_JobName (da_Status d) = "" /\ ms_FailureReason (da_Status d) = ""
  /\ ms_Ready (da_Status d) = (spec_String i "providerID" !=? "").

Lemma getArgs_ok i machine :
  provisionable i machine -> map_get (im_Labels i) CapiMachineName = m_Name machine -> exists d, create_args i d.
Proof.
  intros [P1 P2 P3 P4 P5 P6 P7 P8 P9 P10 P11] Hl. unfold create_args, getArgsEnvAndStatus.
  destruct P7 as [[url hash] ->]. destruct P8 as (Hc & s & Hs). destruct P9 as (b & Hb & Hbn). destruct P10 as [rc Hrc].
  destruct P11 as [c Hcs]. destruct (getHostname_total i) as [h Hh]. cbn [res_bind]. rewrite Hl, P3. cbn [res_bind].
  unfold getSecretData. cbv zeta. rewrite (bool_decide_eq_false_2 (Some machine = None)) by done. cbn [andb].
  rewrite !(bool_decide_eq_false_2 (spec_common i _ = "") Hc). cbn [negb]. rewrite Hs. cbn [res_bind]. rewrite Hb. cbn [res_bind].
  destruct (constructFilesSecret _ _) as [files args]. unfold driver_command. rewrite Hh. cbn [res_bind]. rewrite Hrc. cbn [res_bind].
  rewrite Hcs. cbn [res_bind]. eexists. split; [reflexivity|]. done.
Qed.

Definition create_failure (i : InfraMachine) : bool := status_field i "failureReason" =? CreateMachineError.

Lemma run_calm i d w :
  create_args i d -> calm w ->
  run i true w = (with_applied i (objects (infra_ready i || create_failure i) d) w, Ret (da_Status d, create_failure i)).
Proof.
  intros (Hd & Hb & _) Hc. unfold run, bind, lift. rewrite Hd. rewrite (bool_decide_eq_false_2 (_ = "") Hb). cbn [andb].
  rewrite ApplyObjects_calm by done. by rewrite andb_true_r.
Qed.

(** ** The calls of the controller *)

Definition labelled (i : InfraMachine) (machine : Machine) : Prop := map_get (im_Labels i) CapiMachineName = m_Name machine.

Lemma OnChange_label i machine w :
  provisionable i machine -> map_get (im_Labels i) CapiMachineName = "" -> calm w -> stored i w ->
  OnChange i w = (with_stored (with_labels i (<[CapiMachineName := m_Name machine]> (im_Labels i))) w, Ret tt).
Proof.
  intros P Hl Hc Hs. unfold OnChange. rewrite (pv_alive _ _ P), (pv_owner _ _ P), Hl. rewrite bool_decide_eq_true_2 by done.
  unfold bind. by rewrite (Update_calm i) by done.
Qed.

Lemma OnChange_provision i machine w : provisionable i machine -> labelled i machine -> OnChange i w = provision i machine w.
Proof.
  intros P Hl. unfold OnChange. rewrite (pv_alive _ _ P), (pv_owner _ _ P), Hl, (bool_decide_eq_false_2 (_ = "") (pv_name _ _ P)).
  destruct (pv_cluster _ _ P) as (cc & -> & Hr & Hp). rewrite Hp, Hr. cbn. pose proof (pv_data _ _ P). by destruct (m_DataSecretName machine).
Qed.

Lemma calm_applied i objs w : calm w -> calm (with_applied i objs w).
Proof. done. Qed.

Lemma reconcile_args_conditions i d : create_args i d -> im_Conditions (reconcileStatus i (da_Status d)) = im_Conditions i.
Proof. intros (_ & _ & Hd & _). rewrite reconcileStatus_conditions, Hd. done. Qed.

Lemma provision_first i machine d w :
  create_args i d -> calm w -> stored i w -> create_failure i = false -> getCondition (im_Conditions i) createJobConditionType = None ->
  provision i machine w
  = (with_stored (reconcileStatus (reconcileStatus i (da_Status d)) (job_pending createJobConditionType "creating machine provision job"))
       (with_applied i (objects (infra_ready i) d) w), Ret tt).
Proof.
  intros Hd Hc Hs Hf Hn. unfold provision. unfold bind at 1. rewrite (run_calm i d w Hd Hc), Hf, orb_false_r.
  unfold bind at 1. cbn [ret]. rewrite (reconcile_args_conditions i d Hd), Hn. unfold bind. by rewrite (UpdateStatus_calm i); [|done|done|
    etransitivity; apply reconcileStatus_spec].
Qed.

Lemma provision_follow i machine d job st w :
  create_args i d -> calm w -> stored i w -> create_failure i = false -> getCondition (im_Conditions i) createJobConditionType <> None ->
  status_field i "jobName" = j_Name job -> j_Name job <> "" -> jobs_Get (im_Namespace i) (j_Name job) = Ret job ->
  getMachineStatus job = Ret st ->
  provision i machine w
  = (with_stored (reconcileStatus (reconcileStatus i (da_Status d)) (set_ms_JobName (j_Name job) st))
       (with_applied i (objects (infra_ready i) d) w), Ret tt).
Proof.
  intros Hd Hc Hs Hf Hn Hj Hjn Hg Hst. unfold provision. unfold bind at 1. rewrite (run_calm i d w Hd Hc), Hf, orb_false_r.
  unfold bind at 1. cbn [ret]. rewrite (reconcile_args_conditions i d Hd). destruct (getCondition (im_Conditions i) createJobConditionType) as [cc|]; [|by destruct Hn].
  rewrite reconcile_jobName. destruct Hd as (_ & _ & _ & -> & _). rewrite (bool_decide_eq_true_2 ("" = "")) by done.
  rewrite Hj, (bool_decide_eq_false_2 (_ = "") Hjn). destruct (reconcileStatus_spec i (da_Status d)) as (-> & _).
  rewrite Hg. unfold bind at 1, report_job. rewrite Hst. cbn [res_bind lift ret]. unfold bind.
  rewrite (UpdateStatus_calm i); [done|done|done|]. etransitivity; apply reconcileStatus_spec.
Qed.

(** ** Phases *)

(** Where the machine stands: what its conditions say about the create job and the machine, and the job it knows. *)
Record phase (i0 i : InfraMachine) (create ready : option string) (job : string) : Prop := {
  ph_place : same_place i0 i;
  ph_types : types_unique (im_Conditions i);
  ph_create : cond_status (im_Conditions i) createJobConditionType = create;
  ph_ready : cond_status (im_Conditions i) "Ready" = ready;
  ph_job : status_field i "jobName" = job;
  ph_fail : create_failure i = false
}.

Lemma phase_reconcile i0 i c r jn st c' r' jn' :
  phase i0 i c r jn -> ms_FailureReason st = "" ->
  match List.find (fun x => c_Type x =? createJobConditionType) (rev (ms_Conditions st)) with Some x => Some (c_Status x) | None => c end = c' ->
  match List.find (fun x => c_Type x =? "Ready") (rev (ms_Conditions st)) with Some x => Some (c_Status x) | None => r end = r' ->
  (if ms_JobName st =? "" then jn else ms_JobName st) = jn' ->
  phase i0 (reconcileStatus i st) c' r' jn'.
Proof.
  intros [P1 P2 P3 P4 P5 P6] Hf Hc Hr Hj. destruct (reconcile_conditions_spec (ms_Conditions st) (im_Conditions i) P2) as [Hu Hs].
  split.
  - etransitivity; [exact P1|apply same_spec_place, reconcileStatus_spec].
  - by rewrite reconcileStatus_conditions.
  - by rewrite reconcileStatus_conditions, Hs, P3.
  - by rewrite reconcileStatus_conditions, Hs, P4.
  - by rewrite reconcile_jobName, P5.
  - unfold create_failure. rewrite reconcile_failure, Hf. by rewrite (bool_decide_eq_true_2 ("" = "")).
Qed.

Lemma phase_args i0 i d c r jn : create_args i d -> phase i0 i c r jn -> phase i0 (reconcileStatus i (da_Status d)) c r jn.
Proof.
  intros (_ & _ & Hc & Hj & Hf & _) P. eapply phase_reconcile; [exact P|done|by rewrite Hc|by rewrite Hc|].
  rewrite Hj. by rewrite (bool_decide_eq_true_2 ("" = "")).
Qed.

Lemma phase_first i0 i d c r jn msg :
  create_args i d -> phase i0 i c r jn ->
  phase i0 (reconcileStatus (reconcileStatus i (da_Status d)) (job_pending createJobConditionType msg)) (Some "Unknown") r jn.
Proof. intros Hd P. eapply phase_reconcile; [by eapply phase_args|done..]. Qed.

Lemma phase_done i0 i d c r jn j :
  create_args i d -> phase i0 i c r jn -> j <> "" ->
  phase i0 (reconcileStatus (reconcileStatus i (da_Status d)) (set_ms_JobName j (done_status createJobConditionType)))
    (Some "True") (Some "True") j.
Proof.
  intros Hd P Hj. eapply phase_reconcile; [by eapply phase_args|done|done|done|]. cbn. by rewrite bool_decide_eq_false_2.
Qed.

Lemma phase_create_Some i0 i c r jn : phase i0 i (Some c) r jn -> getCondition (im_Conditions i) createJobConditionType <> None.
Proof. intros P E. pose proof (ph_create _ _ _ _ _ P) as Hc. unfold cond_status in Hc. by rewrite E in Hc. Qed.

Lemma phase_infra_ready i0 i c r jn :
  phase i0 i c r jn -> infra_ready i = bool_decide (r = Some "True") && (spec_String i "providerID" !=? "").
Proof.
  intros P. pose proof (ph_ready _ _ _ _ _ P) as Hr. unfold cond_status in Hr. unfold infra_ready.
  destruct (getCondition _ "Ready") as [x|]; simpl in Hr; subst r; [|done]. f_equal. apply bool_decide_ext. naive_solver congruence.
Qed.

(** ** The steps of a life *)

Record standing (i0 i : InfraMachine) (machine : Machine) (w : PWorld) (create ready : option string) (job providerID : string) : Prop := {
  st_calm : calm w;
  st_stored : stored i w;
  st_label : labelled i machine;
  st_phase : phase i0 i create ready job;
  st_provider : spec_String i "providerID" = providerID
}.

(** A handler is called with the object as it is stored. *)
Definition on_stored (key : string * string * string) (handler : InfraMachine -> PM unit) : PM unit :=
  let* objs := gets pw_infra in
  match objs !! key with Some i => handler i | None => ret tt end.

Lemma on_stored_step key h i w : stored i w -> infra_key i = key -> on_stored key h w = h i w.
Proof. unfold stored, on_stored, bind, gets. intros Hs <-. cbn. by rewrite Hs. Qed.

Lemma standing_key i0 i m w c r j p : standing i0 i m w c r j p -> infra_key i = infra_key i0.
Proof. intros S. eapply same_place_key, ph_place, st_phase, S. Qed.

Lemma standing_args i0 i m w c r j p : provisionable i0 m -> standing i0 i m w c r j p -> exists d, create_args i d.
Proof.
  intros P S. apply (getArgs_ok i m); [|exact (st_label _ _ _ _ _ _ _ _ S)].
  eapply provisionable_place; [|exact P]. eapply ph_place, st_phase, S.
Qed.

Lemma standing_OnChange i0 i m w c r j p :
  provisionable i0 m -> standing i0 i m w c r j p -> on_stored (infra_key i0) OnChange w = provision i m w.
Proof.
  intros P S. rewrite (on_stored_step _ _ i) by (apply S || by eapply standing_key).
  apply OnChange_provision; [|apply S]. eapply provisionable_place; [|exact P]. eapply ph_place, st_phase, S.
Qed.

Lemma standing_after i0 i m w c r j p i' c' r' j' d ready :
  standing i0 i m w c r j p -> same_spec i i' -> phase i0 i' c' r' j' ->
  standing i0 i' m (with_stored i' (with_applied i (objects ready d) w)) c' r' j' p.
Proof.
  intros S He Hp. destruct S as [S1 S2 S3 S4 S5]. destruct He as (E1 & E2 & E3 & _ & _ & _ & _ & E4). split; [done|apply stored_with_stored| |done|].
  - unfold labelled. by rewrite E3.
  - unfold spec_String in *. by rewrite E4.
Qed.

Lemma reconcileStatus_spec2 i st1 st2 : same_spec i (reconcileStatus (reconcileStatus i st1) st2).
Proof. etransitivity; apply reconcileStatus_spec. Qed.

(** The first call with the label applies the create job and records that it is pending. *)
Lemma step_create i0 i m w r j p :
  provisionable i0 m -> standing i0 i m w None r j p -> r <> Some "True" ->
  exists d i' w', on_stored (infra_key i0) OnChange w = (w', Ret tt) /\ standing i0 i' m w' (Some "Unknown") r j p
    /\ create_args i d /\ im_Addresses i' = im_Addresses i
    /\ pw_applied w' = mkApply (infra_key i0) (objects false d) true :: pw_applied w.
Proof.
  intros P S Hr. destruct (standing_args _ _ _ _ _ _ _ _ P S) as [d Hd]. exists d.
  eexists _, _. rewrite (standing_OnChange i0 i m w _ _ _ _ P S).
  pose proof (st_phase _ _ _ _ _ _ _ _ S) as Hp. split.
  { apply provision_first; [done|apply S|apply S|apply Hp|]. pose proof (ph_create _ _ _ _ _ Hp) as Hc. unfold cond_status in Hc.
    by destruct (getCondition _ createJobConditionType). }
  split; [eapply standing_after; [exact S|apply reconcileStatus_spec2|by eapply phase_first]|]. split; [done|].
  split; [by rewrite !reconcileStatus_addresses|]. cbn. rewrite (standing_key _ _ _ _ _ _ _ _ S), (phase_infra_ready _ _ _ _ _ Hp).
  by rewrite (bool_decide_eq_false_2 (r = Some "True") Hr).
Qed.

Record completed_job (i0 : InfraMachine) (job : Job) : Prop := {
  cj_namespace : j_Namespace job = im_Namespace i0;
  cj_name : j_Name job <> "";
  cj_cached : jobs_Get (im_Namespace i0) (j_Name job) = Ret job;
  cj_machine : map_get (pt_Labels (j_Template job)) InfraMachineName = im_Name i0 /\ im_Name i0 <> "";
  cj_kind : map_get (pt_Labels (j_Template job)) InfraMachineKind = gvk_Kind (im_GVK i0) /\ gvk_Kind (im_GVK i0) <> "";
  cj_create : map_get (pt_Labels (j_Template job)) InfraJobRemove = "false";
  cj_complete : Cond_IsTrue "Complete" (j_Conditions job) = true
}.

Lemma completed_status i0 job : completed_job i0 job -> getMachineStatus job = Ret (done_status createJobConditionType).
Proof. intros [_ _ _ _ _ Hr Hc]. unfold getMachineStatus. by rewrite Hc, Hr. Qed.

(** With the job known and complete, a call records that the machine is created. *)
Lemma step_follow i0 i m job w c r p :
  provisionable i0 m -> completed_job i0 job -> standing i0 i m w (Some c) r (j_Name job) p ->
  exists d i' w', on_stored (infra_key i0) OnChange w = (w', Ret tt) /\ standing i0 i' m w' (Some "True") (Some "True") (j_Name job) p
    /\ im_Addresses i' = im_Addresses i /\ create_args i d
    /\ (p <> "" -> status_field i' "ready" = "true")
    /\ pw_applied w' = mkApply (infra_key i0) (objects (bool_decide (r = Some "True") && (p !=? "")) d) true :: pw_applied w.
Proof.
  intros P J S. destruct (standing_args _ _ _ _ _ _ _ _ P S) as [d Hd]. exists d.
  eexists _, _. rewrite (standing_OnChange i0 i m w _ _ _ _ P S).
  pose proof (st_phase _ _ _ _ _ _ _ _ S) as Hp. split.
  { apply provision_follow; [done|apply S|apply S|apply Hp|by eapply phase_create_Some|apply Hp|apply J| |by eapply completed_status].
    destruct (ph_place _ _ _ _ _ Hp) as (-> & _). apply J. }
  split; [eapply standing_after; [exact S|apply reconcileStatus_spec2|eapply phase_done; [done|exact Hp|apply J]]|].
  split; [by rewrite !reconcileStatus_addresses|]. split; [done|]. split.
  - intros Hpid. rewrite !reconcile_ready. destruct Hd as (_ & _ & _ & _ & _ & ->). rewrite (st_provider _ _ _ _ _ _ _ _ S).
    cbn. by rewrite (bool_decide_eq_false_2 (p = "") Hpid).
  - cbn. by rewrite (standing_key _ _ _ _ _ _ _ _ S), (phase_infra_ready _ _ _ _ _ Hp), (st_provider _ _ _ _ _ _ _ _ S).
Qed.

(** The first call of all writes the label. *)
Record fresh (i : InfraMachine) : Prop := {
  fr_label : map_get (im_Labels i) CapiMachineName = "";
  fr_conditions : im_Conditions i = [];
  fr_job : status_field i "jobName" = "";
  fr_failure : status_field i "failureReason" = "";
  fr_provider : spec_String i "providerID" = ""
}.

Lemma step_label i m w :
  provisionable i m -> fresh i -> calm w -> stored i w ->
  exists i' w', on_stored (infra_key i) OnChange w = (w', Ret tt) /\ standing i i' m w' None None "" ""
    /\ im_Addresses i' = im_Addresses i /\ pw_applied w' = pw_applied w.
Proof.
  intros P F Hc Hs. set (i' := with_labels i (<[CapiMachineName := m_Name m]> (im_Labels i))). exists i', (with_stored i' w).
  rewrite (on_stored_step _ _ i) by done. rewrite (OnChange_label i m) by (done || apply F). split; [done|]. split; [|done]. destruct F as [F1 F2 F3 F4 F5].
  split; [done|apply stored_with_stored|by unfold labelled, map_get; cbn; rewrite lookup_insert_eq| |done].
  split; [|subst i'; cbn; rewrite F2; constructor|by subst i'; cbn; rewrite F2|by subst i'; cbn; rewrite F2|done|
          unfold create_failure; by rewrite bool_decide_eq_false_2 by (unfold status_field in F4 |- *; cbn; by rewrite F4)].
  split; [done|]. repeat (split; [done|]). split; [|done]. unfold map_get. cbn. by rewrite lookup_insert_ne.
Qed.

(** The job reports itself to its machine. *)
Lemma step_job i0 i m job w c r p :
  completed_job i0 job -> standing i0 i m w c r "" p ->
  exists i' w', OnJobChange (Some job) w = (w', Ret tt) /\ standing i0 i' m w' c r (j_Name job) p
    /\ im_Addresses i' = im_Addresses i /\ pw_applied w' = pw_applied w.
Proof.
  intros J [S1 S2 S3 S4 S5]. destruct J as [J1 J2 _ [J3 J3'] [J4 J4'] _ _]. unfold OnJobChange.
  rewrite J3, J4, (bool_decide_eq_false_2 (_ = "") J3'), (bool_decide_eq_false_2 (_ = "") J4'). cbn [orb]. unfold bind at 1, gets.
  cbn [ret]. assert ((gvk_Kind (im_GVK i0), j_Namespace job, im_Name i0) = infra_key i) as ->.
  { rewrite (same_place_key _ _ (ph_place _ _ _ _ _ S4)), J1. done. }
  rewrite S2, (ph_job _ _ _ _ _ S4), (bool_decide_eq_true_2 ("" = "")) by done. unfold bind.
  set (i' := with_status _ _ _ _). assert (same_spec i i') as He by done. rewrite (UpdateStatus_calm i i' w S1 S2 He).
  exists i', (with_stored i' w). split; [done|]. split; [|done]. destruct S4 as [P1 P2 P3 P4 P5 P6].
  split; [done|apply stored_with_stored|done| |done]. split; [etransitivity; [exact P1|by apply same_spec_place]|done|done|done| |].
  - unfold status_field, map_get. cbn. by rewrite lookup_insert_eq.
  - unfold create_failure, status_field, map_get in P6 |- *. cbn. by rewrite lookup_insert_ne.
Qed.

(** The bootstrap of the machine is ready, the machine has no provider id yet, and its node has registered. *)
Record registered (i0 : InfraMachine) (machine : Machine) (b : RKEBootstrap) (node : NodeInfo) : Prop := {
  rg_alive : rb_Deleting b = false;
  rg_ready : rb_Ready b = true /\ default "" (rb_DataSecretName b) <> "";
  rg_owner : GetMachineByOwner machineCache_Get (rb_Namespace b) (rb_OwnerReferences b) = Ret machine;
  rg_provider : default "" (m_ProviderID machine) = "";
  rg_infra : (ref_Kind (m_InfrastructureRef machine), m_Namespace machine, ref_Name (m_InfrastructureRef machine)) = infra_key i0;
  rg_cluster : exists rc, rancherClusterCache_Get (m_Namespace machine) (m_ClusterName machine) = Ret rc;
  rg_node : exists config k8s, GetRESTConfig (m_Namespace machine) (m_ClusterName machine) = Ret config
            /\ NewForConfig config = Ret k8s /\ ready_node k8s machine = Some node
}.

Lemma ready_node_provider k8s machine node : ready_node k8s machine = Some node -> ni_ProviderID node <> "".
Proof.
  unfold ready_node. destruct (nodes_List _ _ _) as [[|n l]| |]; [done| |done..].
  destruct (_ || _) eqn:E; [done|]. intros [= <-]. apply orb_false_iff in E as [E _]. by apply bool_decide_eq_false in E.
Qed.

Lemma config_get_insert k v (c : config) : config_get (<[k := v]> c) k = v.
Proof. unfold config_get. by rewrite lookup_insert_eq. Qed.

(** The node look-up copies the provider id and the addresses of the node. *)
Lemma step_node i0 i m b node w c j :
  (forall s, convert_ToString (VString s) = s) -> registered i0 m b node -> standing i0 i m w c (Some "True") j "" ->
  exists i' w', associateMachineWithNode (Some b) w = (w', Ret tt) /\ standing i0 i' m w' c (Some "True") j (ni_ProviderID node)
    /\ im_Addresses i' = ni_Addresses node /\ pw_applied w' = pw_applied w.
Proof.
  intros Hstr [R1 [R2 R2'] R3 R4 R5 [rc R6] (cfg & k8s & R7 & R8 & R9)] [S1 S2 S3 S4 S5].
  pose proof (ready_node_provider _ _ _ R9) as Hp.
  unfold associateMachineWithNode. rewrite R1, R2, R3, R4, (bool_decide_eq_false_2 (_ = "") R2'), (bool_decide_eq_true_2 ("" = "")) by done.
  cbn [negb orb]. unfold bind at 1, gets. cbn [ret]. rewrite R5, <- (same_place_key _ _ (ph_place _ _ _ _ _ S4)), S2.
  unfold lookup_node. assert (infra_condition_true i = true) as ->.
  { unfold infra_condition_true. pose proof (ph_ready _ _ _ _ _ S4) as Hr. unfold cond_status in Hr.
    destruct (getCondition _ "Ready") as [x|]; [|done]. simpl in Hr. injection Hr as ->. done. }
  cbn [negb]. rewrite R6, R7. unfold bind at 1, lift. cbn [ret]. unfold bind at 1. unfold bind at 1. rewrite R8. rewrite R9.
  unfold record_node. rewrite S5. rewrite (bool_decide_eq_false_2 ("" = ni_ProviderID node)) by congruence. cbn [negb].
  unfold bind. set (i1 := with_status i _ _ _). assert (same_spec i i1) as He by done.
  rewrite (UpdateStatus_calm i i1 w S1 S2 He). set (i2 := with_spec i1 _).
  rewrite (Update_calm i1 i2 (with_stored i1 w)); [|done|apply stored_with_stored|done..].
  eexists i2, _. split; [done|]. split; [|done]. destruct S4 as [P1 P2 P3 P4 P5 P6].
  split; [done|apply stored_with_stored|done| |unfold spec_String; change (im_Spec i2) with (<["providerID" := VString (ni_ProviderID node)]> (im_Spec i1)); by rewrite config_get_insert, Hstr].
  split; [|done..]. etransitivity; [exact P1|]. etransitivity; [by apply same_spec_place, He|].
  repeat (split; [done|]). unfold spec_common, config_get. cbn. by rewrite lookup_insert_ne.
Qed.

(** ** A machine comes to life *)

(** The calls that matter, in the order in which the objects change: the machine is seen, labelled, its job runs and
    reports, and its node registers. *)
Definition lifecycle (key : string * string * string) (job : Job) (b : RKEBootstrap) : PM unit :=
  let* _ := on_stored key OnChange in
  let* _ := on_stored key OnChange in
  let* _ := OnJobChange (Some job) in
  let* _ := on_stored key OnChange in
  let* _ := associateMachineWithNode (Some b) in
  on_stored key OnChange.

Lemma objects_create_job i d :
  create_args i d ->
  exists j, JobObj j ∈ objects false d /\ is_create_job j /\ j_Namespace j = im_Namespace i /\ j_Name j = GetJobName (im_Name i).
Proof.
  intros (Hd & _). destruct (getArgsEnvAndStatus_names _ _ _ _ _ Hd) as [E1 E2]. exists (provision_job d). split.
  - unfold objects. rewrite !elem_of_app. right; right. set_solver.
  - unfold is_create_job. rewrite provision_job_label, (getArgsEnvAndStatus_required _ _ _ _ _ Hd). by rewrite <- E1, <- E2.
Qed.

Lemma objects_state_secret i d : create_args i d ->
  objects true d = [PlainObj (ObjSecret (mkSecret (im_Namespace i) (MachineStateSecretName (im_Name i)) "rke.cattle.io/machine-state" ∅ ∅ ∅ [] false))].
Proof.
  intros (Hd & _). destruct (getArgsEnvAndStatus_names _ _ _ _ _ Hd) as [E1 E2].
  unfold objects, state_secret. rewrite E1. do 4 f_equal. revert Hd. unfold getArgsEnvAndStatus. intros Hd. res_inv.
  destruct (constructFilesSecret _ _). by res_inv.
Qed.

(** C11: provisioning completes.  When what the job of a new machine needs is there, the API server answers, the job
    completes and the node registers, the calls of the controllers end with a machine that has the provider id and the
    addresses of its node and whose status says ready; on the way the create job was applied, and the last call keeps
    only the secret with the state of the driver, which removes the job and its credentials. *)
Theorem provisioning_completes infra machine job b node w :
  (forall s, convert_ToString (VString s) = s) -> provisionable infra machine -> fresh infra -> calm w -> stored infra w ->
  completed_job infra job -> registered infra machine b node ->
  exists i w', lifecycle (infra_key infra) job b w = (w', Ret tt) /\ stored i w' /\ infra_key i = infra_key infra
    /\ infra_ready i = true /\ status_field i "ready" = "true"
    /\ spec_String i "providerID" = ni_ProviderID node /\ im_Addresses i = ni_Addresses node
    /\ exists created again,
         pw_applied w' = [mkApply (infra_key infra)
                            [PlainObj (ObjSecret (mkSecret (im_Namespace infra) (MachineStateSecretName (im_Name infra))
                                                    "rke.cattle.io/machine-state" ∅ ∅ ∅ [] false))] true;
                          mkApply (infra_key infra) again true; mkApply (infra_key infra) created true] ++ pw_applied w
         /\ exists j, JobObj j ∈ created /\ is_create_job j /\ j_Namespace j = im_Namespace infra
                      /\ j_Name j = GetJobName (im_Name infra).
Proof.
  intros Hstr P F Hc Hs J R. destruct (step_label infra machine w P F Hc Hs) as (i1 & w1 & E1 & S1 & _ & A1).
  destruct (step_create _ _ _ _ _ _ _ P S1 ltac:(done)) as (d2 & i2 & w2 & E2 & S2 & D2 & _ & A2).
  destruct (step_job _ _ _ _ _ _ _ _ J S2) as (i3 & w3 & E3 & S3 & _ & A3).
  destruct (step_follow _ _ _ _ _ _ _ _ P J S3) as (d4 & i4 & w4 & E4 & S4 & _ & _ & _ & A4).
  destruct (step_node _ _ _ _ _ _ _ _ Hstr R S4) as (i5 & w5 & E5 & S5 & Had & A5).
  destruct (step_follow _ _ _ _ _ _ _ _ P J S5) as (d6 & i6 & w6 & E6 & S6 & Had6 & D6 & Hrd & A6).
  assert (ni_ProviderID node <> "") as Hp by (destruct R as [_ _ _ _ _ _ (cfg & k8s & _ & _ & Hn)]; by eapply ready_node_provider).
  exists i6, w6. split; [unfold lifecycle, bind; by rewrite E1, E2, E3, E4, E5|]. split; [apply S6|].
  split; [by eapply standing_key|]. split.
  { rewrite (phase_infra_ready _ _ _ _ _ (st_phase _ _ _ _ _ _ _ _ S6)), (st_provider _ _ _ _ _ _ _ _ S6).
    by rewrite (bool_decide_eq_false_2 (_ = "") Hp). }
  split; [by apply Hrd|]. split; [apply S6|]. split; [by rewrite Had6|].
  exists (objects false d2), (objects false d4). split.
  - rewrite (bool_decide_eq_false_2 (_ = "") Hp) in A6. rewrite (bool_decide_eq_true_2 (Some "True" = Some "True")) in A6 by done.
    cbn [negb andb] in A6. rewrite A6, A5, A4, A3, A2, A1.
    rewrite (objects_state_secret _ _ D6). by destruct (ph_place _ _ _ _ _ (st_phase _ _ _ _ _ _ _ _ S5)) as (-> & -> & _).
  - destruct (objects_create_job _ _ D2) as (j & Hj). destruct (ph_place _ _ _ _ _ (st_phase _ _ _ _ _ _ _ _ S1)) as (<- & <- & _). by exists j.
Qed.
End lifecycle.

(** ** Removal without its context *)

Section removal.
Context `{D : ProvisionDeps} `{I : Installation}.

(** The removal goes on when the owning machine is gone, but its first step reads that machine again, so that it ends
    with the same error each time. *)
Lemma remove_infra_orphan infra p e w :
  map_get (im_Labels infra) CAPIClusterNameLabel <> "" ->
  GetOwnerCAPIMachine machineCache_Get (im_Namespace infra) (im_OwnerReferences infra) = Fail e -> IsNotFound e = true ->
  driver_download infra (getNodeDriverName infra) false = Ret p ->
  machineCache_Get (im_Namespace infra) (map_get (im_Labels infra) CapiMachineName) = Fail e ->
  remove_infra infra w = (w, Fail e).
Proof.
  intros Hl Ho He Hp Hm. unfold remove_infra. rewrite (bool_decide_eq_false_2 (_ = "") Hl), Ho, He, orb_true_r.
  unfold doRemove, run, bind, lift, getArgsEnvAndStatus. rewrite Hp. destruct p. cbn [res_bind]. by rewrite Hm.
Qed.

(** The address of a driver is written to one key of the status and read from another: a removal after the driver is
    gone has no address. *)
Lemma removal_driver_url infra st driver e :
  status_field infra "driverURL" = "" -> nodeDriverCache_Get driver = Fail e -> IsNotFound e = true ->
  exists hash, driver_download (reconcileStatus infra st) driver false = Ret ("", hash).
Proof.
  intros Hu Hn He. unfold driver_download. rewrite Hn, He. cbn [negb andb]. eexists. do 2 f_equal.
  rewrite reconcile_field. unfold status_fields. cbn [list_to_map foldr uncurry]. rewrite !lookup_insert_ne by done. by rewrite lookup_empty.
Qed.
End removal.

Section witnesses.
#[local] Existing Instance demoExternal.
#[local] Existing Instance demoInstallation.
#[local] Existing Instance demoPoolPlanner.
#[local] Existing Instance demoPoolControllers.

Definition demoCreated : Job :=
  mkJob "fleet-default" "pool1-m1-machine-provision" ∅ 0
    (mkPodTemplate (<[InfraMachineName := "pool1-m1"]> (<[InfraMachineKind := "DigitaloceanMachine"]> {[ InfraJobRemove := "false" ]}))
       [] [] "" "" [] "" oneThousand "") None [mkCondition "Complete" "True" "" "" ""] true.
Definition demoRegistered : NodeInfo := mkNodeInfo "digitalocean://1" [mkCondition "Ready" "True" "" "" ""] [].
Definition demoCreatedDeps : ProvisionDeps := demoPoolDeps [demoCreated].
#[local] Existing Instance demoCreatedDeps.
Definition demoLookupDeps : NodeLookupDeps := {|
  GetRESTConfig ns name := Ret "config";
  nodes_List k8s label value := Ret [demoRegistered]
|}.
#[local] Existing Instance demoLookupDeps.
Definition demoPoolBootstrap : RKEBootstrap :=
  mkRKEBootstrap "fleet-default" "m1" ∅ [mkOwnerReference capi_GroupVersion "Machine" "m1" "m1-uid" true] ∅ false "c1"
    (Some "m1-machine-bootstrap") true.

Lemma demo_provisionable : provisionable (demoInfra []) demoPoolMachine.
Proof.
  split; try done; try (eexists; split; [reflexivity|done]); try (eexists; reflexivity).
  split; [done|]. eexists. reflexivity.
Qed.

Lemma provisioning_completes_witness :
  exists i w', lifecycle (infra_key (demoInfra [])) demoCreated demoPoolBootstrap (demoPoolWorld {[ infra_key (demoInfra []) := demoInfra [] ]})
               = (w', Ret tt) /\ stored i w' /\ infra_ready i = true /\ status_field i "ready" = "true".
Proof.
  destruct (provisioning_completes (demoInfra []) demoPoolMachine demoCreated demoPoolBootstrap demoRegistered
              (demoPoolWorld {[ infra_key (demoInfra []) := demoInfra [] ]})) as (i & w' & Hl & Hs & _ & Hr & Hd & _).
  - reflexivity.
  - exact demo_provisionable.
  - split; reflexivity.
  - reflexivity.
  - apply lookup_singleton_eq.
  - split; try done; by split.
  - split; try done; [by eexists|]. by exists "config", "config".
  - exists i, w'. exact (conj Hl (conj Hs (conj Hr Hd))).
Defined.
End witnesses.
