(* ===== verification/ProvTypes.v ===== *)
(** * Clusters of provisioning.cattle.io ([pkg/apis/provisioning.cattle.io/v1])

    The object a user writes: a cluster with its machine pools.  Its controllers derive the objects of the engine from
    it: the control plane the planner works on, the cluster of Cluster API and its machine deployments. *)

From S2P Require Import Prelude GoLib Codec Errors Types External Instances Capr World Handlers.

(** Untyped data is compared structurally; the entries of a [VMap] are in the order of their keys. *)
#[global] Instance value_eq_dec : EqDecision value.
Proof.
  refine (fix go (a b : value) : Decision (a = b) :=
    let _ : EqDecision value := @go in
    match a, b with
    | VNil, VNil => left _
    | VBool x, VBool y => cast_if (decide (x = y))
    | VInt x, VInt y => cast_if (decide (x = y))
    | VNum x, VNum y => cast_if (decide (x = y))
    | VString x, VString y => cast_if (decide (x = y))
    | VStrings x, VStrings y => cast_if (decide (x = y))
    | VSlice x, VSlice y => cast_if (decide (x = y))
    | VMap x, VMap y => cast_if (decide (x = y))
    | _, _ => right _
    end); congruence.
Defined.

#[global] Instance RKESystemConfig_eq_dec : EqDecision RKESystemConfig.
Proof. solve_decision. Defined.

(** [intstr.IntOrString] *)
Inductive IntOrString := IntVal (z : Z) | StrVal (s : string).

(** ** The specification *)

(** [rkev1.RKEClusterSpecCommon]; of [Networking] the preferred stack. *)
Record RKEClusterSpecCommon := mkCommon {
  co_UpgradeStrategy : UpgradeStrategy;
  co_ChartValues : config;
  co_MachineGlobalConfig : config;
  co_MachineSelectorConfig : list RKESystemConfig;
  co_MachineSelectorFiles : list RKEProvisioningFiles;
  co_AdditionalManifest : string;
  co_Registries : option Registry;
  co_ETCD : option ETCD;
  co_Networking : option string;
  co_ProvisionGeneration : Z
}.

Record RKEMachinePoolRollingUpdate := mkRollingUpdate { ru_MaxUnavailable : option IntOrString; ru_MaxSurge : option IntOrString }.

(** [RKEMachinePool] with the embedded [RKECommonNodeConfig]; durations in nanoseconds. *)
Record RKEMachinePool := mkPool {
  mp_Labels : gmap string string;
  mp_Taints : list Taint;
  mp_CloudCredentialSecretName : string;
  mp_Paused : bool;
  mp_EtcdRole : bool;
  mp_ControlPlaneRole : bool;
  mp_WorkerRole : bool;
  mp_DrainBeforeDelete : bool;
  mp_DrainBeforeDeleteTimeout : option Z;
  mp_NodeConfig : option ObjectReference;
  mp_Name : string;
  mp_Quantity : option Z;
  mp_RollingUpdate : option RKEMachinePoolRollingUpdate;
  mp_MachineDeploymentLabels : gmap string string;
  mp_MachineDeploymentAnnotations : gmap string string;
  mp_NodeStartupTimeout : option Z;
  mp_UnhealthyNodeTimeout : option Z;
  mp_MaxUnhealthy : option string;
  mp_UnhealthyRange : option string;
  mp_MachineOS : string;
  mp_DynamicSchemaSpec : string;
  mp_HostnameLengthLimit : Z
}.

Record RKEConfig := mkRKEConfig {
  rk_Common : RKEClusterSpecCommon;
  rk_ETCDSnapshotCreate : option ETCDSnapshotCreate;
  rk_ETCDSnapshotRestore : option ETCDSnapshotRestore;
  rk_RotateCertificates : option RotateCertificates;
  rk_RotateEncryptionKeys : option RotateEncryptionKeys;
  rk_MachinePools : list RKEMachinePool;
  rk_DefaultHostnameLengthLimit : Z;                    (** of [MachinePoolDefaults] *)
  rk_InfrastructureRef : option ObjectReference
}.

Record LocalClusterAuthEndpoint := mkAuthEndpoint { ae_Enabled : bool; ae_FQDN : string; ae_CACerts : string }.

(** The customizations of the agents are kept as data. *)
Record ClusterSpec := mkClusterSpec {
  cs_CloudCredentialSecretName : string;
  cs_KubernetesVersion : string;
  cs_ClusterAPIConfig : option string;                  (** the name of the cluster *)
  cs_RKEConfig : option RKEConfig;
  cs_LocalClusterAuthEndpoint : LocalClusterAuthEndpoint;
  cs_AgentEnvVars : list EnvVar;
  cs_ClusterAgentDeploymentCustomization : option value;
  cs_DefaultPodSecurityAdmissionConfigurationTemplateName : string;
  cs_DefaultPodSecurityPolicyTemplateName : string;
  cs_DefaultClusterRoleForProjectMembers : string;
  cs_EnableNetworkPolicy : option bool;
  cs_FleetAgentDeploymentCustomization : option value;
  cs_RedeploySystemAgentGeneration : Z
}.

Record ClusterStatus := mkClusterStatus {
  ct_Ready : bool;
  ct_ClusterName : string;
  ct_FleetWorkspaceName : string;
  ct_ClientSecretName : string;
  ct_AgentDeployed : bool;
  ct_ObservedGeneration : Z;
  ct_Conditions : list Condition
}.

(** [provv1.Cluster] *)
Record ProvCluster := mkProvCluster {
  pc_Namespace : string;
  pc_Name : string;
  pc_UID : string;
  pc_Labels : gmap string string;
  pc_Annotations : gmap string string;
  pc_Finalizers : list string;
  pc_Deleting : bool;
  pc_Spec : ClusterSpec;
  pc_Status : ClusterStatus
}.

Definition set_pc_Spec (v : ClusterSpec) (c : ProvCluster) : ProvCluster :=
  mkProvCluster (pc_Namespace c) (pc_Name c) (pc_UID c) (pc_Labels c) (pc_Annotations c) (pc_Finalizers c) (pc_Deleting c) v (pc_Status c).
Definition set_pc_Status (v : ClusterStatus) (c : ProvCluster) : ProvCluster :=
  mkProvCluster (pc_Namespace c) (pc_Name c) (pc_UID c) (pc_Labels c) (pc_Annotations c) (pc_Finalizers c) (pc_Deleting c) (pc_Spec c) v.
Definition set_cs_KubernetesVersion (v : string) (s : ClusterSpec) : ClusterSpec :=
  mkClusterSpec (cs_CloudCredentialSecretName s) v (cs_ClusterAPIConfig s) (cs_RKEConfig s) (cs_LocalClusterAuthEndpoint s) (cs_AgentEnvVars s)
    (cs_ClusterAgentDeploymentCustomization s) (cs_DefaultPodSecurityAdmissionConfigurationTemplateName s)
    (cs_DefaultPodSecurityPolicyTemplateName s) (cs_DefaultClusterRoleForProjectMembers s) (cs_EnableNetworkPolicy s)
    (cs_FleetAgentDeploymentCustomization s) (cs_RedeploySystemAgentGeneration s).
Definition set_cs_RKEConfig (v : option RKEConfig) (s : ClusterSpec) : ClusterSpec :=
  mkClusterSpec (cs_CloudCredentialSecretName s) (cs_KubernetesVersion s) (cs_ClusterAPIConfig s) v (cs_LocalClusterAuthEndpoint s) (cs_AgentEnvVars s)
    (cs_ClusterAgentDeploymentCustomization s) (cs_DefaultPodSecurityAdmissionConfigurationTemplateName s)
    (cs_DefaultPodSecurityPolicyTemplateName s) (cs_DefaultClusterRoleForProjectMembers s) (cs_EnableNetworkPolicy s)
    (cs_FleetAgentDeploymentCustomization s) (cs_RedeploySystemAgentGeneration s).
Definition set_ct_Conditions (v : list Condition) (s : ClusterStatus) : ClusterStatus :=
  mkClusterStatus (ct_Ready s) (ct_ClusterName s) (ct_FleetWorkspaceName s) (ct_ClientSecretName s) (ct_AgentDeployed s) (ct_ObservedGeneration s) v.
Definition set_rk_MachinePools (v : list RKEMachinePool) (r : RKEConfig) : RKEConfig :=
  mkRKEConfig (rk_Common r) (rk_ETCDSnapshotCreate r) (rk_ETCDSnapshotRestore r) (rk_RotateCertificates r) (rk_RotateEncryptionKeys r) v
    (rk_DefaultHostnameLengthLimit r) (rk_InfrastructureRef r).
Definition set_mp_DynamicSchemaSpec (v : string) (p : RKEMachinePool) : RKEMachinePool :=
  mkPool (mp_Labels p) (mp_Taints p) (mp_CloudCredentialSecretName p) (mp_Paused p) (mp_EtcdRole p) (mp_ControlPlaneRole p) (mp_WorkerRole p)
    (mp_DrainBeforeDelete p) (mp_DrainBeforeDeleteTimeout p) (mp_NodeConfig p) (mp_Name p) (mp_Quantity p) (mp_RollingUpdate p)
    (mp_MachineDeploymentLabels p) (mp_MachineDeploymentAnnotations p) (mp_NodeStartupTimeout p) (mp_UnhealthyNodeTimeout p) (mp_MaxUnhealthy p)
    (mp_UnhealthyRange p) (mp_MachineOS p) v (mp_HostnameLengthLimit p).
