(* ===== verification/ProvTemplate.v ===== *)
(** * Objects of a cluster ([provisioningcluster/template.go])

    The objects derived from a cluster: the control plane with the specification the planner reads, the cluster of
    Cluster API that ties everything together, and a machine deployment for each machine pool, with a template for its
    infrastructure machines and a health check. *)

From S2P Require Import Prelude GoLib Codec Errors Types External Instances Capr World Handlers Args S3Args Bootstrap Unmanaged ProvisionTemplate ProvisionArgs ProvTypes.

Definition MachineTemplateHashLabel : string := "rke.cattle.io/machine-template-hash".
Definition RKEMachinePoolNameLabel : string := "rke.cattle.io/rke-machine-pool-name".
Definition MachineTemplateClonedFromGroupVersionAnn : string := "rke.cattle.io/cloned-from-group-version".
Definition MachineTemplateClonedFromKindAnn : string := "rke.cattle.io/cloned-from-kind".
Definition MachineTemplateClonedFromNameAnn : string := "rke.cattle.io/cloned-from-name".
Definition DefaultMachineOS : string := "linux".
Definition DefaultMachineConfigAPIVersion : string := "rke-machine-config.cattle.io/v1".

(** Constants of wrangler and Cluster API. *)
Definition LabelPrune : string := "objectset.rio.cattle.io/prune".
Definition ExcludeNodeDrainingAnnotation : string := "machine.cluster.x-k8s.io/exclude-node-draining".
Definition MachineDeploymentNameLabel : string := "cluster.x-k8s.io/deployment-name".

(** ** Objects *)

(** The configuration of a machine pool, an untyped object: [nc_Data] is all of it. *)
Record NodeConfig := mkNodeConfig {
  nc_APIVersion : string;
  nc_Kind : string;
  nc_Namespace : string;
  nc_Name : string;
  nc_OwnerReferences : list OwnerReference;
  nc_Data : config
}.

(** The template of infrastructure machines, an untyped object; [mt_Spec] is [spec.template.spec]. *)
Record MachineTemplate := mkMachineTemplate {
  mt_APIVersion : string;
  mt_Kind : string;
  mt_Namespace : string;
  mt_Name : string;
  mt_Labels : gmap string string;
  mt_Annotations : gmap string string;
  mt_ClusterName : string;
  mt_Spec : config
}.

Record RKEBootstrapTemplate := mkBootstrapTemplate {
  bt_Namespace : string;
  bt_Name : string;
  bt_Labels : gmap string string;
  bt_ClusterName : string;
  bt_TemplateClusterName : string
}.

(** [capi.Cluster] as it is created. *)
Record CapiClusterObject := mkCapiClusterObject {
  kc_Namespace : string;
  kc_Name : string;
  kc_OwnerReferences : list OwnerReference;
  kc_InfrastructureRef : ObjectReference;
  kc_ControlPlaneRef : ObjectReference
}.

(** [capi.MachineDeployment]; the strategy is a rolling update that deletes the oldest machines. *)
Record MachineDeployment := mkMachineDeployment {
  dp_Namespace : string;
  dp_Name : string;
  dp_Labels : gmap string string;
  dp_Annotations : gmap string string;
  dp_ClusterName : string;
  dp_Replicas : option Z;
  dp_Strategy : string;
  dp_DeletePolicy : string;
  dp_MaxSurge : option IntOrString;
  dp_MaxUnavailable : option IntOrString;
  dp_TemplateLabels : gmap string string;
  dp_TemplateAnnotations : gmap string string;
  dp_ConfigRef : ObjectReference;
  dp_InfrastructureRef : ObjectReference;
  dp_NodeDrainTimeout : option Z;
  dp_Paused : bool
}.

(** [capi.MachineHealthCheck]; a condition has a type, a status and a timeout. *)
Record MachineHealthCheck := mkHealthCheck {
  hc_Namespace : string;
  hc_Name : string;
  hc_ClusterName : string;
  hc_Selector : gmap string string;
  hc_UnhealthyConditions : list (string * string * Z);
  hc_MaxUnhealthy : option IntOrString;
  hc_UnhealthyRange : option string;
  hc_NodeStartupTimeout : option Z
}.

Inductive prov_object :=
| PRKECluster (namespace name : string)
| PControlPlane (cp : RKEControlPlane)
| PCapiCluster (c : CapiClusterObject)
| PBootstrapTemplate (t : RKEBootstrapTemplate)
| PMachineTemplate (t : MachineTemplate)
| PMachineDeployment (d : MachineDeployment)
| PHealthCheck (h : MachineHealthCheck).

(** ** Surroundings *)

(** [v3.Cluster], as far as it is written here. *)
Record MgmtCluster := mkMgmtCluster { mg_Name : string; mg_Conditions : list Condition }.

(** The caches, of which two are missing in an installation without cluster management, and encodings. *)
Class ProvDeps `{UnmanagedDeps} := {
  dynamicSchemaSpec : Type;
  ResourceFields : dynamicSchemaSpec -> gset string;
  json_Marshal_DynamicSchemaSpec : dynamicSchemaSpec -> res string;
  json_Unmarshal_DynamicSchemaSpec : string -> res dynamicSchemaSpec;
  dynamicSchema : option (string -> res dynamicSchemaSpec);
  mgmtClusterCache : option (string -> res MgmtCluster);
  clusterCache : res (list ProvCluster);
  dynamic_Get : string -> string -> string -> string -> res NodeConfig;         (** API version, kind, namespace, name *)
  EncodeToMap_Common : gmap string string -> list Taint -> string -> res (list (string * value));
  intstr_Parse : string -> IntOrString;
  json_Marshal_ClusterSpec : ClusterSpec -> res string;
  json_Unmarshal_ClusterSpec : string -> res ClusterSpec;
  gzip : string -> res string
}.

(** What the controller writes: clusters, the configurations of pools and the management clusters, most recent first,
    the clusters it asks for, and the failures of the requests to come. *)
Record PSWorld := mkPSWorld {
  ps_clusters : gmap (string * string) ProvCluster;
  ps_nodeConfigs : list NodeConfig;
  ps_mgmt : list MgmtCluster;
  ps_enqueued : list (string * string);
  ps_faults : list (option error)
}.
Definition PSM (A : Type) : Type := ST PSWorld A.

Definition ps_request : PSM unit := fun w =>
  match ps_faults w with
  | [] => (w, Ret tt)
  | f :: fs => (mkPSWorld (ps_clusters w) (ps_nodeConfigs w) (ps_mgmt w) (ps_enqueued w) fs,
                match f with None => Ret tt | Some e => Fail e end)
  end.

Section template.
Context `{D : ProvDeps}.

Definition getInfraRef (name : string) : ObjectReference := mkObjectReference "RKECluster" "" name RKEAPIVersion.

Definition pruneBySchema (data : config) (spec : dynamicSchemaSpec) : config :=
  filter (fun kv => fst kv ∈ ResourceFields spec) data.

(** ** Machine templates *)

Definition cluster_owner (cluster : ProvCluster) : OwnerReference :=
  mkOwnerReference "provisioning.cattle.io/v1" "Cluster" (pc_Name cluster) (pc_UID cluster) true.

(** Whether the configuration is owned already, or why it cannot be. *)
Fixpoint owned_config (cluster : ProvCluster) (nc : NodeConfig) (owners : list OwnerReference) : res bool :=
  let used := "can not use " +:+ nc_Namespace nc +:+ "/" +:+ nc_Name nc +:+ " [" +:+ nc_APIVersion nc +:+ ", Kind=" +:+ nc_Kind nc
              +:+ "] because it is already owned by " in
  match owners with
  | [] => Ret false
  | owner :: rest =>
      if (or_Kind owner =? "Cluster") && (or_APIVersion owner =? "provisioning.cattle.io/v1") then
        if or_Name owner !=? pc_Name cluster then Fail (errorString (used +:+ "cluster " +:+ or_Name owner)) else Ret true
      else if or_Controller owner then Fail (errorString (used +:+ or_Kind owner +:+ " " +:+ or_Name owner))
      else owned_config cluster nc rest
  end.

Definition dynamic_Update (nc : NodeConfig) : PSM unit :=
  let* _ := ps_request in
  modify (fun w => mkPSWorld (ps_clusters w) (nc :: ps_nodeConfigs w) (ps_mgmt w) (ps_enqueued w) (ps_faults w)).

Definition takeOwnership (cluster : ProvCluster) (nc : NodeConfig) : PSM unit :=
  let* owned := lift (owned_config cluster nc (nc_OwnerReferences nc)) in
  if (owned : bool) then ret tt
  else dynamic_Update (mkNodeConfig (nc_APIVersion nc) (nc_Kind nc) (nc_Namespace nc) (nc_Name nc)
                         (nc_OwnerReferences nc ++ [cluster_owner cluster]) (nc_Data nc)).

Definition createMachineTemplateHash (name : string) (spec : config) : string :=
  let spec := PruneEmpty (delete "common" spec) in
  let bytes := match json_Marshal_Map (map_to_list spec) with Ret s => s | _ => "" end in
  take_str 8 (sha256_hex (name +:+ bytes)).

(** The credential of the pool, or else of the cluster, is put beside the common settings once it is known to exist. *)
Definition pool_common (cluster : ProvCluster) (pool : RKEMachinePool) : res (list (string * value)) :=
  let? commonData := EncodeToMap_Common (mp_Labels pool) (mp_Taints pool) (mp_CloudCredentialSecretName pool) in
  let secretName := if mp_CloudCredentialSecretName pool !=? "" then mp_CloudCredentialSecretName pool
                    else cs_CloudCredentialSecretName (pc_Spec cluster) in
  if secretName !=? "" then
    let? _ := GetCloudCredentialSecret (pc_Namespace cluster) secretName in
    Ret (data_PutValue commonData (VString secretName) ["cloudCredentialSecretName"])
  else Ret commonData.

Definition toMachineTemplate (machinePoolName : string) (cluster : ProvCluster) (pool : RKEMachinePool) (ref : ObjectReference)
  : PSM MachineTemplate :=
  let apiVersion := if ref_APIVersion ref =? "" then DefaultMachineConfigAPIVersion else ref_APIVersion ref in
  let* nodeConfig := lift (dynamic_Get apiVersion (ref_Kind ref) (pc_Namespace cluster) (ref_Name ref)) in
  let* _ := takeOwnership cluster nodeConfig in
  if mp_DynamicSchemaSpec pool =? "" then fail ErrSkip
  else
    let* spec := lift (json_Unmarshal_DynamicSchemaSpec (mp_DynamicSchemaSpec pool)) in
    let* commonData := lift (pool_common cluster pool) in
    let data := <["common" := VMap commonData]> (pruneBySchema (nc_Data nodeConfig) spec) in
    let mtHash := createMachineTemplateHash machinePoolName data in
    ret (mkMachineTemplate RKEMachineAPIVersion (TrimSuffix (ref_Kind ref) "Config" +:+ "MachineTemplate") (pc_Namespace cluster)
           (name_SafeConcatName [machinePoolName; mtHash])
           (<[MachineTemplateHashLabel := mtHash]> {[ LabelPrune := "false" ]})
           (<[MachineTemplateClonedFromGroupVersionAnn := apiVersion]>
              (<[MachineTemplateClonedFromKindAnn := ref_Kind ref]> {[ MachineTemplateClonedFromNameAnn := ref_Name ref ]}))
           (pc_Name cluster) data).

(** ** Machine deployments *)

(** A limit out of range is not used. *)
Definition usable_limit (limit : Z) : bool := negb (limit <? MinimumHostnameLengthLimit)%Z && negb (MaximumHostnameLengthLimit <? limit)%Z.

Definition populateHostnameLengthLimitAnnotation (pool : RKEMachinePool) (defaultLimit : Z) (annotations : gmap string string)
  : gmap string string :=
  let limit := mp_HostnameLengthLimit pool in
  let hostnameLimit := if negb (limit =? 0)%Z && usable_limit limit then limit else 0 in
  let hostnameLimit := if (hostnameLimit =? 0)%Z && negb (defaultLimit =? 0)%Z && usable_limit defaultLimit then defaultLimit else hostnameLimit in
  if negb (hostnameLimit =? 0)%Z then <[HostnameLengthLimitAnnotation := Itoa hostnameLimit]> annotations else annotations.

Definition pool_os (pool : RKEMachinePool) : string := if mp_MachineOS pool =? "" then DefaultMachineOS else mp_MachineOS pool.

(** The labels of the machines of a pool: those of the user come last. *)
Definition template_labels (cluster : ProvCluster) (deployment : string) (pool : RKEMachinePool) : gmap string string :=
  let labels : gmap string string :=
    <[CAPIClusterNameLabel := pc_Name cluster]> (<[ClusterNameLabel := pc_Name cluster]>
      (<[MachineDeploymentNameLabel := deployment]> {[ RKEMachinePoolNameLabel := mp_Name pool ]})) in
  let labels := if mp_EtcdRole pool then <[EtcdRoleLabel := "true"]> labels else labels in
  let labels := if mp_ControlPlaneRole pool
                then <[MachineControlPlaneLabel := "true"]> (<[ControlPlaneRoleLabel := "true"]> labels) else labels in
  let labels := if mp_WorkerRole pool then <[WorkerRoleLabel := "true"]> labels else labels in
  mp_Labels pool ∪ <[CattleOSLabel := pool_os pool]> labels.

(** [assign]: a value goes into the annotations as text. *)
Definition template_annotations (config : RKEConfig) (pool : RKEMachinePool) : res (gmap string string) :=
  let annotations : gmap string string := if mp_DrainBeforeDelete pool then ∅ else {[ ExcludeNodeDrainingAnnotation := "true" ]} in
  let annotations := populateHostnameLengthLimitAnnotation pool (rk_DefaultHostnameLengthLimit config) annotations in
  let? annotations := (if bool_decide (mp_Labels pool = ∅) then Ret annotations
                       else let? text := json_Marshal_Labels (mp_Labels pool) in Ret (<[LabelsAnnotation := text]> annotations)) in
  if bool_decide (mp_Taints pool = []) then Ret annotations
  else let? text := json_Marshal_Taints (mp_Taints pool) in Ret (<[TaintsAnnotation := text]> annotations).

Definition bootstrap_name (cluster : ProvCluster) : string := name_SafeConcatName [pc_Name cluster; "bootstrap"; "template"].

Definition machine_deployment (cluster : ProvCluster) (config : RKEConfig) (pool : RKEMachinePool) (infraRef : ObjectReference)
  : res MachineDeployment :=
  let name := name_SafeConcatName [pc_Name cluster; mp_Name pool] in
  let? annotations := template_annotations config pool in
  Ret (mkMachineDeployment (pc_Namespace cluster) name
         (<[CattleOSLabel := pool_os pool]> (mp_MachineDeploymentLabels pool) ∪ mp_Labels pool)
         (mp_MachineDeploymentAnnotations pool) (pc_Name cluster) (mp_Quantity pool) "RollingUpdate" "Oldest"
         (mp_RollingUpdate pool ≫= ru_MaxSurge) (mp_RollingUpdate pool ≫= ru_MaxUnavailable)
         (template_labels cluster name pool) annotations
         (mkObjectReference "RKEBootstrapTemplate" (pc_Namespace cluster) (bootstrap_name cluster) RKEAPIVersion)
         infraRef (mp_DrainBeforeDeleteTimeout pool) (mp_Paused pool)).

Definition deploymentHealthChecks (d : MachineDeployment) (pool : RKEMachinePool) (timeout : Z) : MachineHealthCheck :=
  mkHealthCheck (dp_Namespace d) (dp_Name d) (dp_ClusterName d) {[ MachineDeploymentNameLabel := dp_Name d ]}
    [("Ready", "Unknown", timeout); ("Ready", "False", timeout)]
    (intstr_Parse <$> mp_MaxUnhealthy pool) (mp_UnhealthyRange pool) (mp_NodeStartupTimeout pool).

(** What a pool must have, and the reference to its configuration. *)
Definition pool_ref (pool : RKEMachinePool) : res ObjectReference :=
  let invalid := Fail (errorString ("invalid machinePool [" +:+ mp_Name pool +:+ "] missing name or valid config")) in
  match mp_NodeConfig pool with
  | None => invalid
  | Some ref =>
      if (mp_Name pool =? "") || (ref_Name ref =? "") || (ref_Kind ref =? "") then invalid
      else if negb (mp_EtcdRole pool) && negb (mp_ControlPlaneRole pool) && negb (mp_WorkerRole pool)
      then Fail (errorString ("at least one role of etcd, control-plane or worker must be assigned to machinePool [" +:+ mp_Name pool +:+ "]"))
      else Ret ref
  end.

(** The objects of one pool: a template unless the pool names an infrastructure of its own, the deployment and the
    health check. *)
Definition pool_objects (cluster : ProvCluster) (config : RKEConfig) (pool : RKEMachinePool) (ref : ObjectReference) : PSM (list prov_object) :=
  let* '(templates, infraRef) :=
    (if (ref_APIVersion ref =? "") || (ref_APIVersion ref =? DefaultMachineConfigAPIVersion) then
       let* t := toMachineTemplate (name_SafeConcatName [pc_Name cluster; mp_Name pool]) cluster pool ref in
       ret ([PMachineTemplate t], mkObjectReference (mt_Kind t) (mt_Namespace t) (mt_Name t) (mt_APIVersion t))
     else ret ([], ref)) in
  let* d := lift (machine_deployment cluster config pool infraRef) in
  ret (templates ++ [PMachineDeployment d]
       ++ (match mp_UnhealthyNodeTimeout pool with
           | Some timeout => if (0 <? timeout)%Z then [PHealthCheck (deploymentHealthChecks d pool timeout)] else []
           | None => []
           end)).

(** The pools with the names seen so far; a pool of size 0 is passed over. *)
Fixpoint pools_objects (cluster : ProvCluster) (config : RKEConfig) (seen : list string) (pools : list RKEMachinePool)
  : PSM (list prov_object) :=
  match pools with
  | [] => ret []
  | pool :: rest =>
      if bool_decide (mp_Quantity pool = Some 0) then pools_objects cluster config seen rest
      else
        let* ref := lift (pool_ref pool) in
        if bool_decide (mp_Name pool ∈ seen) then fail (errorString ("duplicate machinePool name [" +:+ mp_Name pool +:+ "] used"))
        else
          let* objs := pool_objects cluster config pool ref in
          let* others := pools_objects cluster config (mp_Name pool :: seen) rest in
          ret (objs ++ others)
  end.

Definition machineDeployments (cluster : ProvCluster) (config : RKEConfig) : PSM (list prov_object) :=
  match dynamicSchema with
  | None => ret []
  | Some _ =>
      let* objs := pools_objects cluster config [] (rk_MachinePools config) in
      ret ((if bool_decide (rk_MachinePools config = []) then []
            else [PBootstrapTemplate (mkBootstrapTemplate (pc_Namespace cluster) (bootstrap_name cluster)
                                        {[ ClusterNameLabel := pc_Name cluster ]} (pc_Name cluster) (pc_Name cluster))]) ++ objs)
  end.

(** ** Control plane *)

(** The specification without the operations, which would cause reconciliation. *)
Definition filtered_spec (spec : ClusterSpec) (config : RKEConfig) : ClusterSpec :=
  set_cs_RKEConfig (Some (mkRKEConfig (rk_Common config) None None None None (rk_MachinePools config)
                            (rk_DefaultHostnameLengthLimit config) (rk_InfrastructureRef config))) spec.

(** [capr.CompressInterface] of a specification. *)
Definition CompressInterface (spec : ClusterSpec) : res string :=
  let? text := json_Marshal_ClusterSpec spec in
  let? gz := gzip text in
  Ret (base64_EncodeToString gz).

Definition new_status : ControlPlaneStatus := mkControlPlaneStatus None [] false 0 0 None "" "" None "" None "" 0 false false.

Definition rkeControlPlane (cluster : ProvCluster) (config : RKEConfig) : res RKEControlPlane :=
  let spec := pc_Spec cluster in
  let common := rk_Common config in
  let? b64GZCluster := CompressInterface (filtered_spec spec config) in
  Ret (mkRKEControlPlane (pc_Namespace cluster) (pc_Name cluster) "" 0
         {[ InitNodeMachineIDLabel := map_get (pc_Labels cluster) InitNodeMachineIDLabel ]}
         {[ ClusterSpecAnnotation := b64GZCluster ]} false []
         (mkControlPlaneSpec (co_UpgradeStrategy common) (co_ChartValues common) (co_MachineGlobalConfig common) (co_MachineSelectorConfig common)
            (co_MachineSelectorFiles common) (co_AdditionalManifest common) (co_Registries common) (co_ETCD common) (co_Networking common)
            (co_ProvisionGeneration common) (cs_AgentEnvVars spec) (ae_Enabled (cs_LocalClusterAuthEndpoint spec))
            (rk_ETCDSnapshotCreate config) (rk_ETCDSnapshotRestore config) (rk_RotateCertificates config) (rk_RotateEncryptionKeys config)
            (cs_KubernetesVersion spec) (pc_Name cluster) (ct_ClusterName (pc_Status cluster)) false)
         new_status).

Definition capiCluster (cluster : ProvCluster) (cp : RKEControlPlane) (infraRef : ObjectReference) : CapiClusterObject :=
  mkCapiClusterObject (pc_Namespace cluster) (pc_Name cluster) [cluster_owner cluster] infraRef
    (mkObjectReference "RKEControlPlane" (cp_Namespace cp) (cp_Name cp) RKEAPIVersion).

Definition objects (cluster : ProvCluster) (config : RKEConfig) : PSM (list prov_object) :=
  if pc_Deleting cluster then ret []
  else
    let '(infra, infraRef) := match rk_InfrastructureRef config with
                              | None => ([PRKECluster (pc_Namespace cluster) (pc_Name cluster)], getInfraRef (pc_Name cluster))
                              | Some ref => ([], ref)
                              end in
    let* cp := lift (rkeControlPlane cluster config) in
    let* deployments := machineDeployments cluster config in
    ret (infra ++ [PControlPlane cp; PCapiCluster (capiCluster cluster cp infraRef)] ++ deployments).
End template.
