(* ===== verification/ProvObjects.v ===== *)
(** * What the objects of a cluster amount to

    Properties of [ProvTemplate]: the objects refer to each other and to nothing that is missing, each machine pool has
    its machine deployment, and what a pool says about roles and host names reaches the planner and the machines. *)

From S2P Require Import Prelude GoLib Codec Errors Types External Instances Capr PlanEntry World Args S3Args Handlers Installer Bootstrap Unmanaged ProvisionTemplate ProvisionArgs ProvTypes ProvTemplate.

(** ** References *)

Section objects.
Context `{D : ProvDeps}.

Definition deployment_of (o : prov_object) : option MachineDeployment := match o with PMachineDeployment d => Some d | _ => None end.
Definition deployments_of (objs : list prov_object) : list MachineDeployment := omap deployment_of objs.

(** The pools that have machines. *)
Definition active (config : RKEConfig) : list RKEMachinePool := filter (fun p => mp_Quantity p <> Some 0) (rk_MachinePools config).

Definition refers_to_template (ref : ObjectReference) (t : MachineTemplate) : Prop :=
  ref = mkObjectReference (mt_Kind t) (mt_Namespace t) (mt_Name t) (mt_APIVersion t).

(** The labels of the machines of a pool, label by label: a label the pool sets itself, otherwise the roles it has, its
    operating system, and where the machine belongs. *)
Definition pool_label (cluster : ProvCluster) (deployment : string) (pool : RKEMachinePool) (k : string) : option string :=
  let role (b : bool) : option string := if b then Some "true" else None in
  match mp_Labels pool !! k with
  | Some v => Some v
  | None =>
      if k =? "rke.cattle.io/etcd-role" then role (mp_EtcdRole pool)
      else if k =? "rke.cattle.io/control-plane-role" then role (mp_ControlPlaneRole pool)
      else if k =? "cluster.x-k8s.io/control-plane" then role (mp_ControlPlaneRole pool)
      else if k =? "rke.cattle.io/worker-role" then role (mp_WorkerRole pool)
      else if k =? "cattle.io/os" then Some (if mp_MachineOS pool =? "" then "linux" else mp_MachineOS pool)
      else if k =? "cluster.x-k8s.io/cluster-name" then Some (pc_Name cluster)
      else if k =? "rke.cattle.io/cluster-name" then Some (pc_Name cluster)
      else if k =? "cluster.x-k8s.io/deployment-name" then Some deployment
      else if k =? "rke.cattle.io/rke-machine-pool-name" then Some (mp_Name pool)
      else None
  end.

(** A control plane as the specification of the cluster wants it. *)
Definition specified (cluster : ProvCluster) (config : RKEConfig) (cp : RKEControlPlane) : Prop :=
  cp_Namespace cp = pc_Namespace cluster /\ cp_Name cp = pc_Name cluster
  /\ map_get (cp_Labels cp) InitNodeMachineIDLabel = map_get (pc_Labels cluster) InitNodeMachineIDLabel
  /\ let spec := cp_Spec cp in
     let common := rk_Common config in
     sp_KubernetesVersion spec = cs_KubernetesVersion (pc_Spec cluster) /\ sp_ClusterName spec = pc_Name cluster
     /\ sp_ManagementClusterName spec = ct_ClusterName (pc_Status cluster)
     /\ sp_UpgradeStrategy spec = co_UpgradeStrategy common /\ sp_ChartValues spec = co_ChartValues common
     /\ sp_MachineGlobalConfig spec = co_MachineGlobalConfig common /\ sp_MachineSelectorConfig spec = co_MachineSelectorConfig common
     /\ sp_MachineSelectorFiles spec = co_MachineSelectorFiles common /\ sp_AdditionalManifest spec = co_AdditionalManifest common
     /\ sp_Registries spec = co_Registries common /\ sp_ETCD spec = co_ETCD common
     /\ sp_ETCDSnapshotCreate spec = rk_ETCDSnapshotCreate config /\ sp_ETCDSnapshotRestore spec = rk_ETCDSnapshotRestore config
     /\ sp_RotateCertificates spec = rk_RotateCertificates config /\ sp_RotateEncryptionKeys spec = rk_RotateEncryptionKeys config.

(** A deployment of a pool among the objects: its size, its machines, and the templates it refers to. *)
Record deploys (cluster : ProvCluster) (config : RKEConfig) (objs : list prov_object) (pool : RKEMachinePool) (d : MachineDeployment) : Prop := {
  dep_namespace : dp_Namespace d = pc_Namespace cluster;
  dep_name : dp_Name d = name_SafeConcatName [pc_Name cluster; mp_Name pool];
  dep_cluster : dp_ClusterName d = pc_Name cluster;
  dep_size : dp_Replicas d = mp_Quantity pool;
  dep_labels : forall k, dp_TemplateLabels d !! k = pool_label cluster (dp_Name d) pool k;
  dep_annotations : template_annotations config pool = Ret (dp_TemplateAnnotations d);
  dep_bootstrap : dp_ConfigRef d = mkObjectReference "RKEBootstrapTemplate" (pc_Namespace cluster) (bootstrap_name cluster) RKEAPIVersion;
  dep_infra : (exists t, PMachineTemplate t ∈ objs /\ refers_to_template (dp_InfrastructureRef d) t /\ mt_Namespace t = pc_Namespace cluster
                         /\ mt_ClusterName t = pc_Name cluster)
              \/ mp_NodeConfig pool = Some (dp_InfrastructureRef d);
  dep_role : mp_EtcdRole pool || mp_ControlPlaneRole pool || mp_WorkerRole pool = true
}.

Lemma deploys_mono cluster config objs objs' pool d :
  objs ⊆ objs' -> deploys cluster config objs pool d -> deploys cluster config objs' pool d.
Proof. intros Hs [? ? ? ? ? ? ? [(t & Ht & ?)|?] ?]; split; try done; [left; exists t; eauto|by right]. Qed.

Lemma toMachineTemplate_Ret n cluster pool ref w w' t :
  toMachineTemplate n cluster pool ref w = (w', Ret t) -> mt_Namespace t = pc_Namespace cluster /\ mt_ClusterName t = pc_Name cluster.
Proof.
  unfold toMachineTemplate. intros (nc & w1 & _ & Hk)%bind_Ret. apply bind_Ret in Hk as (? & w2 & _ & Hk).
  destruct (_ =? ""); [done|]. apply bind_Ret in Hk as (? & w3 & _ & Hk). apply bind_Ret in Hk as (? & w4 & _ & Hk).
  by injection Hk as _ <-.
Qed.

Lemma lookup_insert_test (m : gmap string string) k v k' : <[k := v]> m !! k' = if k' =? k then Some v else m !! k'.
Proof. case_bool_decide as E; [subst k'; by rewrite lookup_insert_eq|by rewrite lookup_insert_ne]. Qed.

Lemma template_labels_lookup cluster n pool k : template_labels cluster n pool !! k = pool_label cluster n pool k.
Proof.
  unfold template_labels, pool_label, pool_os. cbv zeta. rewrite lookup_union. destruct (mp_Labels pool !! k) as [v|]; [by rewrite union_Some_l|].
  rewrite (left_id_L None (∪)). unfold DefaultMachineOS. generalize (if mp_MachineOS pool =? "" then "linux" else mp_MachineOS pool). intros os.
  rewrite <- (insert_empty RKEMachinePoolNameLabel (mp_Name pool)).
  destruct (mp_EtcdRole pool), (mp_ControlPlaneRole pool), (mp_WorkerRole pool); rewrite !lookup_insert_test, lookup_empty;
    repeat (case_bool_decide; [first [subst k; reflexivity | exfalso; match goal with He : k = _, Hn : k <> _ |- _ => apply Hn; exact He end]|]); reflexivity.
Qed.

Lemma pool_objects_Ret cluster config pool ref w w' objs :
  pool_ref pool = Ret ref -> pool_objects cluster config pool ref w = (w', Ret objs) ->
  exists d, deployments_of objs = [d] /\ deploys cluster config objs pool d.
Proof.
  intros Hr. unfold pool_objects. intros ([ts infra] & w1 & Ht & Hk)%bind_Ret. apply bind_Ret in Hk as (d & w2 & Hd & Hk).
  injection Hd as <- Hd. injection Hk as _ <-. exists d. pose proof Hd as Hd'. unfold machine_deployment in Hd.
  apply res_bind_Ret in Hd as (ann & Hann & [= <-]). unfold pool_ref in Hr. destruct (mp_NodeConfig pool) as [r|] eqn:En; [|done].
  destruct (_ || _); [done|]. destruct (_ && _) eqn:Er; [done|]. injection Hr as ->.
  assert (mp_EtcdRole pool || mp_ControlPlaneRole pool || mp_WorkerRole pool = true) as Hrole
    by (by destruct (mp_EtcdRole pool), (mp_ControlPlaneRole pool), (mp_WorkerRole pool)).
  set (d := mkMachineDeployment _ _ _ _ _ _ _ _ _ _ _ _ _ _ _ _).
  set (hs := match mp_UnhealthyNodeTimeout pool with Some timeout => _ | None => [] end).
  assert (deployments_of hs = []) as Hhs by (subst hs; destruct (mp_UnhealthyNodeTimeout pool); [by destruct (0 <? z)%Z|done]).
  assert (deployments_of ts = [] /\ ((exists t, ts = [PMachineTemplate t] /\ refers_to_template infra t /\ mt_Namespace t = pc_Namespace cluster
     /\ mt_ClusterName t = pc_Name cluster) \/ infra = ref)) as [Hts Hi].
  { destruct (_ || _).
    - apply bind_Ret in Ht as (t & w3 & Ht & Hk). injection Hk as <- <- <-. split; [done|]. left. exists t.
      apply toMachineTemplate_Ret in Ht as []. done.
    - injection Ht as <- <- <-. split; [done|]. by right. }
  split.
  - unfold deployments_of in *. rewrite !omap_app, Hts. cbn. by rewrite Hhs.
  - split; try done; [intros k; apply template_labels_lookup|]. subst d. cbn [dp_InfrastructureRef]. destruct Hi as [(t & -> & Ht')|Hi]; [left|right; by rewrite Hi].
    exists t. split; [|done]. apply elem_of_app. left. by apply list_elem_of_singleton.
Qed.

Lemma pools_objects_Ret cluster config seen pools w w' objs :
  pools_objects cluster config seen pools w = (w', Ret objs) ->
  let pools' := filter (fun p => mp_Quantity p <> Some 0) pools in
  Forall2 (deploys cluster config objs) pools' (deployments_of objs)
  /\ NoDup (map mp_Name pools') /\ Forall (fun p => mp_Name p ∉ seen) pools'.
Proof.
  revert seen w w' objs. induction pools as [|pool pools IH]; intros seen w w' objs; cbn [pools_objects].
  { intros [= <- <-]. split; [constructor|]. split; constructor. }
  rewrite filter_cons. case_bool_decide as Eq; [rewrite decide_False by (intros Hn; done); apply IH|].
  rewrite decide_True by done. intros (ref & w1 & Hr & Hk)%bind_Ret. injection Hr as <- Hr.
  case_bool_decide as Es; [done|]. apply bind_Ret in Hk as (objs1 & w2 & Ho1 & Hk). apply bind_Ret in Hk as (objs2 & w3 & Ho2 & Hk).
  injection Hk as _ <-. destruct (pool_objects_Ret _ _ _ _ _ _ _ Hr Ho1) as (d & Hd & Hdep). destruct (IH _ _ _ _ Ho2) as (Hf & Hn & Hseen).
  unfold deployments_of in *. rewrite omap_app, Hd. cbn [map app]. split; [|split].
  - constructor; [eapply deploys_mono; [|exact Hdep]; set_solver|]. eapply Forall2_impl; [exact Hf|]. intros p x. apply deploys_mono. set_solver.
  - apply NoDup_cons. split; [|done]. intros Hin. apply list_elem_of_fmap in Hin as (p & Hp & Hpin).
    rewrite Forall_forall in Hseen. specialize (Hseen p Hpin). rewrite <- Hp in Hseen. set_solver.
  - constructor; [done|]. eapply Forall_impl; [exact Hseen|]. intros p. set_solver.
Qed.


(** ** Roles *)

(** A pool without labels of its own that mean a role. *)
Definition plain_labels (pool : RKEMachinePool) : Prop :=
  mp_Labels pool !! EtcdRoleLabel = None /\ mp_Labels pool !! ControlPlaneRoleLabel = None /\ mp_Labels pool !! WorkerRoleLabel = None
  /\ mp_Labels pool !! CattleOSLabel = None.

Lemma pool_label_roles cluster n pool :
  plain_labels pool ->
  let label := pool_label cluster n pool in
  label EtcdRoleLabel = (if mp_EtcdRole pool then Some "true" else None)
  /\ label ControlPlaneRoleLabel = (if mp_ControlPlaneRole pool then Some "true" else None)
  /\ label WorkerRoleLabel = (if mp_WorkerRole pool then Some "true" else None)
  /\ label CattleOSLabel = Some (pool_os pool).
Proof. intros (P1 & P2 & P3 & P4). unfold pool_label. cbv zeta. by rewrite P1, P2, P3, P4. Qed.

(** The planner sees the roles of the pool: for a machine of the deployment of a pool without labels that mean
    roles, whose labels are in the metadata of its plan, the role filters of the planner answer as the pool says, and
    so does the test for Windows. *)
Theorem pool_roles_planned cluster config objs pool d entry md :
  deploys cluster config objs pool d -> plain_labels pool ->
  pe_Metadata entry = Some md -> md_Labels md = dp_TemplateLabels d ->
  isEtcd entry = mp_EtcdRole pool /\ isControlPlane entry = mp_ControlPlaneRole pool /\ isWorker entry = mp_WorkerRole pool
  /\ anyRole entry = true /\ windows entry = (pool_os pool =? WindowsMachineOS).
Proof.
  intros Hd Hp Hm Hl. pose proof (dep_role _ _ _ _ _ Hd) as Hrole.
  destruct (pool_label_roles cluster (dp_Name d) pool Hp) as (E1 & E2 & E3 & E4).
  rewrite <- (dep_labels _ _ _ _ _ Hd), <- Hl in E1, E2, E3, E4.
  assert (isEtcd entry = mp_EtcdRole pool) as Hi1.
  { unfold isEtcd, has_metadata, pe_label, map_get. rewrite Hm, E1. by destruct (mp_EtcdRole pool). }
  assert (isControlPlane entry = mp_ControlPlaneRole pool) as Hi2.
  { unfold isControlPlane, has_metadata, pe_label, map_get. rewrite Hm, E2. by destruct (mp_ControlPlaneRole pool). }
  assert (isWorker entry = mp_WorkerRole pool) as Hi3.
  { unfold isWorker, has_metadata, pe_label, map_get. rewrite Hm, E3. by destruct (mp_WorkerRole pool). }
  split; [done|]. split; [done|]. split; [done|]. split.
  - unfold anyRole, noRole. rewrite Hi1, Hi2, Hi3. by destruct (mp_EtcdRole pool), (mp_ControlPlaneRole pool), (mp_WorkerRole pool).
  - unfold windows. by rewrite Hm, E4.
Qed.

(** ** Host names *)

Definition pool_limit (config : RKEConfig) (pool : RKEMachinePool) : Z :=
  if usable_limit (mp_HostnameLengthLimit pool) then mp_HostnameLengthLimit pool
  else if usable_limit (rk_DefaultHostnameLengthLimit config) then rk_DefaultHostnameLengthLimit config
  else MaximumHostnameLengthLimit.

Lemma usable_limit_spec z : usable_limit z = true <-> (10 <= z <= 63)%Z.
Proof.
  unfold usable_limit, MinimumHostnameLengthLimit, MaximumHostnameLengthLimit. rewrite andb_true_iff, !negb_true_iff, !Z.ltb_ge. lia.
Qed.

Lemma populate_limit pool def m :
  m !! HostnameLengthLimitAnnotation = None ->
  populateHostnameLengthLimitAnnotation pool def m !! HostnameLengthLimitAnnotation
  = if usable_limit (mp_HostnameLengthLimit pool) then Some (Itoa (mp_HostnameLengthLimit pool))
    else if usable_limit def then Some (Itoa def) else None.
Proof.
  intros Hm. unfold populateHostnameLengthLimitAnnotation. cbv zeta.
  assert (forall z, usable_limit z = true -> (z =? 0)%Z = false) as Hz by (intros z Hu%usable_limit_spec; lia).
  destruct (usable_limit (mp_HostnameLengthLimit pool)) eqn:E1.
  - rewrite (Hz _ E1). cbn [negb andb]. rewrite (Hz _ E1). cbn [andb]. rewrite (Hz _ E1). cbn [negb]. by rewrite lookup_insert_eq.
  - rewrite andb_false_r. cbn [Z.eqb andb]. destruct (usable_limit def) eqn:E2.
    + rewrite (Hz _ E2). cbn [negb andb]. rewrite (Hz _ E2). cbn [negb]. by rewrite lookup_insert_eq.
    + by rewrite andb_false_r.
Qed.

Lemma template_annotations_limit config pool ann :
  template_annotations config pool = Ret ann ->
  ann !! HostnameLengthLimitAnnotation
  = if usable_limit (mp_HostnameLengthLimit pool) then Some (Itoa (mp_HostnameLengthLimit pool))
    else if usable_limit (rk_DefaultHostnameLengthLimit config) then Some (Itoa (rk_DefaultHostnameLengthLimit config)) else None.
Proof.
  unfold template_annotations. cbv zeta. set (base := if mp_DrainBeforeDelete pool then _ else _). intros (a & Ha & Hr)%res_bind_Ret.
  rewrite <- (populate_limit pool (rk_DefaultHostnameLengthLimit config) base).
  2: { subst base. destruct (mp_DrainBeforeDelete pool); [apply lookup_empty|by apply lookup_singleton_ne]. }
  assert (a !! HostnameLengthLimitAnnotation
          = populateHostnameLengthLimitAnnotation pool (rk_DefaultHostnameLengthLimit config) base !! HostnameLengthLimitAnnotation) as <-.
  { destruct (bool_decide (mp_Labels pool = ∅)); [by injection Ha as <-|]. apply res_bind_Ret in Ha as (t & _ & [= <-]). by rewrite lookup_insert_ne. }
  destruct (bool_decide (mp_Taints pool = [])); [by injection Hr as <-|]. apply res_bind_Ret in Hr as (t & _ & [= <-]). by rewrite lookup_insert_ne.
Qed.

(** The limit of a pool bounds the names of its hosts: for an infrastructure machine that carries the annotation of
    the machines of the pool, the host name is a valid label no longer than the limit of the pool, or else the default
    of the cluster, or else 63; limits that are not between 10 and 63 do not count. *)
Theorem pool_hostname_bounded config pool ann infra :
  template_annotations config pool = Ret ann ->
  im_Annotations infra !! HostnameLengthLimitAnnotation = ann !! HostnameLengthLimitAnnotation -> object_name (im_Name infra) ->
  exists h, getHostname infra = Ret h /\ dns_label h /\ (Z.of_nat (String.length h) <= pool_limit config pool)%Z.
Proof.
  intros Ha Hi Hn. assert (hostname_limit infra = pool_limit config pool) as E.
  { unfold hostname_limit, map_get. rewrite Hi, (template_annotations_limit _ _ _ Ha). unfold pool_limit, MinimumHostnameLengthLimit.
    destruct (usable_limit (mp_HostnameLengthLimit pool)) eqn:E1; [|destruct (usable_limit (rk_DefaultHostnameLengthLimit config)) eqn:E2];
      cbn [default from_option id]; [apply usable_limit_spec in E1|apply usable_limit_spec in E2|reflexivity];
      rewrite Atoi_Itoa by (unfold int64_min, int64_max; lia); unfold MaximumHostnameLengthLimit; by rewrite bool_decide_eq_true_2. }
  rewrite <- E. destruct (getHostname_spec infra Hn) as (h & Hh & Hd & Hl & _). eauto.
Qed.
End objects.

Section witnesses.
#[local] Existing Instance demoExternal.
#[local] Existing Instance demoCustomPlanner.
#[local] Existing Instance demoCustomControllers.
#[local] Existing Instance demoUnmanagedDeps.

Definition demoCommon : RKEClusterSpecCommon := mkCommon demoUpgradeStrategy ∅ ∅ [] [] "" None None None 0.
Definition demoNodeConfig : NodeConfig :=
  mkNodeConfig DefaultMachineConfigAPIVersion "DigitaloceanConfig" "fleet-default" "nc-1" [] {[ "size" := VString "s-2vcpu" ]}.
Definition demoPool (name : string) : RKEMachinePool :=
  mkPool ∅ [] "" false true true false false None (Some (mkObjectReference "DigitaloceanConfig" "" "nc-1" "")) name (Some 3) None ∅ ∅ None
    (Some 300000000000) None None "" "schema" 15.
Definition demoRKEConfig (pools : list RKEMachinePool) : RKEConfig := mkRKEConfig demoCommon None None None None pools 0 None.
Definition demoProvSpec (config : RKEConfig) : ClusterSpec :=
  mkClusterSpec "" "v1.27.4+rke2r1" None (Some config) (mkAuthEndpoint false "" "") [] None "" "" "" None None 0.
Definition demoProvCluster (config : RKEConfig) : ProvCluster :=
  mkProvCluster "fleet-default" "c1" "c1-uid" ∅ ∅ ["controller.cattle.io/rke-cluster-remove"] false (demoProvSpec config)
    (mkClusterStatus false "c-m-1" "fleet-default" "" false 0 []).

(** A schema is the list of its fields. *)
Definition demoProvDeps (decode : string -> res ClusterSpec) (clusters : list ProvCluster) : ProvDeps := {|
  dynamicSchemaSpec := list string;
  ResourceFields l := list_to_set l;
  json_Marshal_DynamicSchemaSpec l := Ret (Join l ",");
  json_Unmarshal_DynamicSchemaSpec s := Ret (Split s ",");
  dynamicSchema := Some (fun name => Ret ["size"; "region"]);
  mgmtClusterCache := Some (fun name => Ret (mkMgmtCluster name []));
  clusterCache := Ret clusters;
  dynamic_Get v k ns name := Ret demoNodeConfig;
  EncodeToMap_Common l t s := Ret [];
  intstr_Parse s := StrVal s;
  json_Marshal_ClusterSpec s := Ret (cs_KubernetesVersion s);
  json_Unmarshal_ClusterSpec := decode;
  gzip s := Ret s
|}.
#[local] Instance demoTemplateDeps : ProvDeps := demoProvDeps (fun _ => Fail ErrSkip) [].
Definition demoProvWorld : PSWorld := mkPSWorld ∅ [] [] [] [].

Definition demoPools : RKEConfig := demoRKEConfig [demoPool "cp"].

Lemma demo_objects : exists w' objs, objects (demoProvCluster demoPools) demoPools demoProvWorld = (w', Ret objs).
Proof.
  assert (match snd (objects (demoProvCluster demoPools) demoPools demoProvWorld) with Ret _ => true | _ => false end = true) as Hr
    by (vm_compute; reflexivity).
  destruct (objects (demoProvCluster demoPools) demoPools demoProvWorld) as [w' r]. cbn [snd] in Hr. destruct r; [eauto|discriminate..].
Qed.


Lemma pool_roles_planned_witness :
  exists w' objs d, objects (demoProvCluster demoPools) demoPools demoProvWorld = (w', Ret objs) /\ deployments_of objs = [d]
    /\ forall entry, pe_Metadata entry = Some (mkMetadata (dp_TemplateLabels d) ∅ ) -> isEtcd entry = true /\ isWorker entry = false.
Proof.
  destruct demo_objects as (w' & objs & E). exists w', objs.
  assert (exists d, deployments_of objs = [d] /\ deploys (demoProvCluster demoPools) demoPools objs (demoPool "cp") d) as (d & Hd & Hdep).
  { unfold objects in E. cbn [pc_Deleting demoProvCluster rk_InfrastructureRef demoPools demoRKEConfig] in E.
    apply bind_Ret in E as (cp & w1 & _ & Hk). apply bind_Ret in Hk as (deps & w2 & Hdeps & Hk). injection Hk as _ <-.
    unfold machineDeployments in Hdeps. cbn [dynamicSchema demoTemplateDeps demoProvDeps] in Hdeps.
    apply bind_Ret in Hdeps as (objs & w3 & Hp & Hk). injection Hk as _ <-. destruct (pools_objects_Ret _ _ _ _ _ _ _ Hp) as (Hf & _).
    change (filter _ (rk_MachinePools demoPools)) with [demoPool "cp"] in Hf. inversion Hf as [|p d ps ds Hd Hds Ep Ed]. subst. inversion Hds. subst.
    exists d. split; [done|]. eapply deploys_mono; [|exact Hd]. set_solver. }
  exists d. split; [exact E|]. split; [exact Hd|]. intros entry Hm.
  destruct (pool_roles_planned (demoProvCluster demoPools) demoPools objs (demoPool "cp") d entry _ Hdep ltac:(repeat split) Hm eq_refl) as (He & _ & Hw & _).
  split; [exact He|exact Hw].
Defined.

Definition demoMachineAnnotations : gmap string string :=
  match template_annotations demoPools (demoPool "cp") with Ret a => a | _ => ∅ end.
Definition demoHost : InfraMachine :=
  mkInfra "fleet-default" "c1-cp.abcde-fghij-klmno" ∅ demoMachineAnnotations false []
    (mkGVK "rke-machine.cattle.io" "v1" "DigitaloceanMachine") ∅ ∅ [] [].

Lemma pool_hostname_bounded_witness :
  exists h, getHostname demoHost = Ret h /\ dns_label h /\ (Z.of_nat (String.length h) <= pool_limit demoPools (demoPool "cp"))%Z.
Proof.
  apply (pool_hostname_bounded demoPools (demoPool "cp") demoMachineAnnotations demoHost).
  - reflexivity.
  - reflexivity.
  - split; [by repeat constructor|]. split; eexists; by split; [reflexivity|].
Defined.
End witnesses.
