(* ===== verification/ProvController.v ===== *)
(** * The controller of clusters ([provisioningcluster/controller.go])

    It keeps the schemas of the machine pools, reconciles the specification with a snapshot that is restored, derives
    the objects of a cluster and reports the state of the control plane in the status. *)

From S2P Require Import Prelude GoLib Codec Errors Types External Instances Capr World Handlers Args S3Args Bootstrap Unmanaged ControlPlane ProvisionTemplate ProvisionArgs ProvTypes ProvTemplate.

Definition restoreRKEConfigKubernetesVersion : string := "kubernetesVersion".
Definition restoreRKEConfigAll : string := "all".
Definition restoreRKEConfigNone : string := "none".

Section controller.
Context `{D : ProvDeps}.

(** ** Requests *)

(** [clusterController.Update] writes all but the status, [UpdateStatus] the status. *)
Definition cluster_write (f : ProvCluster -> ProvCluster) (c : ProvCluster) : PSM ProvCluster :=
  let* _ := ps_request in
  let* stored := gets ps_clusters in
  match stored !! (pc_Namespace c, pc_Name c) with
  | None => fail (not_found "clusters.provisioning.cattle.io" (pc_Name c))
  | Some cur =>
      let* _ := modify (fun w => mkPSWorld (<[(pc_Namespace c, pc_Name c) := f cur]> (ps_clusters w)) (ps_nodeConfigs w) (ps_mgmt w) (ps_enqueued w) (ps_faults w)) in
      ret (f cur)
  end.
Definition cluster_Update (c : ProvCluster) : PSM ProvCluster := cluster_write (fun cur => set_pc_Status (pc_Status cur) c) c.
Definition cluster_UpdateStatus (c : ProvCluster) : PSM ProvCluster := cluster_write (set_pc_Status (pc_Status c)) c.

Definition mgmtCluster_Update (m : MgmtCluster) : PSM unit :=
  let* _ := ps_request in
  modify (fun w => mkPSWorld (ps_clusters w) (ps_nodeConfigs w) (m :: ps_mgmt w) (ps_enqueued w) (ps_faults w)).

Definition cluster_Enqueue (key : string * string) : PSM unit :=
  modify (fun w => mkPSWorld (ps_clusters w) (ps_nodeConfigs w) (ps_mgmt w) (key :: ps_enqueued w) (ps_faults w)).

(** ** Clusters by the configuration of their pools *)

Definition toInfraRefKey (ref : ObjectReference) (namespace : string) : string :=
  (if ref_APIVersion ref =? "" then DefaultMachineConfigAPIVersion else ref_APIVersion ref)
  +:+ "/" +:+ ref_Kind ref +:+ "/" +:+ namespace +:+ "/" +:+ ref_Name ref.

Definition byNodeInfraIndex (c : ProvCluster) : list string :=
  if ct_ClusterName (pc_Status c) =? "" then []
  else match cs_RKEConfig (pc_Spec c) with
       | None => []
       | Some config => omap (fun p => (fun ref => toInfraRefKey ref (pc_Namespace c)) <$> mp_NodeConfig p) (rk_MachinePools config)
       end.

Definition matchRKENodeGroup (apiVersion kind : string) : bool := (apiVersion =? DefaultMachineConfigAPIVersion) && HasSuffix kind "Config".

(** [GetByIndex]: the cached clusters with the key among those of the index. *)
Definition clusters_GetByIndex (key : string) : res (list ProvCluster) :=
  let? l := clusterCache in Ret (filter (fun c => key ∈ byNodeInfraIndex c) l).

Definition infraWatch (obj : option NodeConfig) : PSM unit :=
  match obj with
  | None => ret tt
  | Some nc =>
      let* clusters := lift (clusters_GetByIndex (toInfraRefKey (mkObjectReference (nc_Kind nc) (nc_Namespace nc) (nc_Name nc) (nc_APIVersion nc)) (nc_Namespace nc))) in
      for_fold clusters tt (fun _ c => cluster_Enqueue (pc_Namespace c, pc_Name c))
  end.

(** ** Schemas of the pools *)

Definition schema_valid (pool : RKEMachinePool) : bool :=
  (mp_DynamicSchemaSpec pool !=? "") && match json_Unmarshal_DynamicSchemaSpec (mp_DynamicSchemaSpec pool) with Ret _ => true | _ => false end.
Definition foreign_config (ref : ObjectReference) : bool := (ref_APIVersion ref !=? DefaultMachineConfigAPIVersion) && (ref_APIVersion ref !=? "").

(** The pool of the inner loop with its schema. *)
Definition pool_schema (pool : RKEMachinePool) : res RKEMachinePool :=
  if schema_valid pool then Ret pool
  else match mp_NodeConfig pool with
       | None => Fail (errorString "machine pool node config must not be nil")
       | Some ref =>
           if foreign_config ref then Ret pool
           else match dynamicSchema with
                | None => Panic
                | Some get =>
                    let? ds := get (ToLower (ref_Kind ref)) in
                    let? specJSON := json_Marshal_DynamicSchemaSpec ds in
                    Ret (set_mp_DynamicSchemaSpec specJSON pool)
                end
       end.

(** The outer loop looks for a pool whose schema is missing; from there on the schemas are filled in. *)
Fixpoint fill_schemas (pools : list RKEMachinePool) : res (option (list RKEMachinePool)) :=
  match pools with
  | [] => Ret None
  | pool :: rest =>
      let skip := schema_valid pool || match mp_NodeConfig pool with None => true | Some ref => foreign_config ref end in
      if skip then let? filled := fill_schemas rest in Ret (cons pool <$> filled)
      else let? filled := res_map pool_schema pools in Ret (Some filled)
  end.

Definition OnChange (cluster : option ProvCluster) : PSM unit :=
  match cluster with
  | None => ret tt
  | Some c =>
      if pc_Deleting c then ret tt
      else match cs_RKEConfig (pc_Spec c) with
           | None => ret tt
           | Some config =>
               let* filled := lift (fill_schemas (rk_MachinePools config)) in
               match filled with
               | None => ret tt
               | Some pools =>
                   let* _ := cluster_Update (set_pc_Spec (set_cs_RKEConfig (Some (set_rk_MachinePools pools config)) (pc_Spec c)) c) in ret tt
               end
           end
  end.

(** ** Restoring the specification of a snapshot *)

Definition findSnapshotClusterSpec (ns name : string) : res ClusterSpec :=
  match etcdSnapshotCache_Get ns name with
  | Panic => Panic
  | Fail e => Fail (wrapError ("error retrieving etcdsnapshot " +:+ ns +:+ "/" +:+ name +:+ ": " +:+ Error e) e)
  | Ret snapshot => snapshot_ClusterSpec (DecompressInterface json_Unmarshal_ClusterSpec) (Some snapshot)
  end.

(** [Networking] is compared as a pointer.  The two are allocated by a deep copy and by the decoder, so they are equal
    only when both are nil. *)
Definition networking_differs (a b : option string) : bool := match a, b with None, None => false | _, _ => true end.

Definition restored_common (own desired : RKEClusterSpecCommon) : RKEClusterSpecCommon :=
  mkCommon (co_UpgradeStrategy desired) (co_ChartValues desired) (co_MachineGlobalConfig desired) (co_MachineSelectorConfig desired)
    (co_MachineSelectorFiles own) (co_AdditionalManifest desired) (co_Registries desired) (co_ETCD own) (co_Networking desired)
    (co_ProvisionGeneration own).

Definition common_differs (own desired : RKEClusterSpecCommon) : bool :=
  negb (bool_decide (co_MachineGlobalConfig own = co_MachineGlobalConfig desired))
  || negb (bool_decide (co_MachineSelectorConfig own = co_MachineSelectorConfig desired))
  || negb (bool_decide (co_ChartValues own = co_ChartValues desired))
  || negb (bool_decide (co_Registries own = co_Registries desired))
  || negb (bool_decide (co_UpgradeStrategy own = co_UpgradeStrategy desired))
  || (co_AdditionalManifest own !=? co_AdditionalManifest desired)
  || networking_differs (co_Networking own) (co_Networking desired).

(** Each field is assigned when it differs, so the result has the desired fields; a snapshot without an RKE
    configuration ends in a nil pointer. *)
Definition reconcileClusterSpecEtcdRestore (spec desired : ClusterSpec) : res (ClusterSpec * bool) :=
  match cs_RKEConfig spec, cs_RKEConfig desired with
  | Some own, Some wanted =>
      let changed := common_differs (rk_Common own) (rk_Common wanted)
        || (cs_KubernetesVersion spec !=? cs_KubernetesVersion desired)
        || (cs_DefaultPodSecurityPolicyTemplateName spec !=? cs_DefaultPodSecurityPolicyTemplateName desired)
        || (cs_DefaultPodSecurityAdmissionConfigurationTemplateName spec !=? cs_DefaultPodSecurityAdmissionConfigurationTemplateName desired)
        || negb (bool_decide (cs_ClusterAgentDeploymentCustomization spec = cs_ClusterAgentDeploymentCustomization desired))
        || negb (bool_decide (cs_FleetAgentDeploymentCustomization spec = cs_FleetAgentDeploymentCustomization desired)) in
      Ret (mkClusterSpec (cs_CloudCredentialSecretName spec) (cs_KubernetesVersion desired) (cs_ClusterAPIConfig spec)
             (Some (mkRKEConfig (restored_common (rk_Common own) (rk_Common wanted)) (rk_ETCDSnapshotCreate own) (rk_ETCDSnapshotRestore own)
                      (rk_RotateCertificates own) (rk_RotateEncryptionKeys own) (rk_MachinePools own) (rk_DefaultHostnameLengthLimit own)
                      (rk_InfrastructureRef own)))
             (cs_LocalClusterAuthEndpoint spec) (cs_AgentEnvVars spec) (cs_ClusterAgentDeploymentCustomization desired)
             (cs_DefaultPodSecurityAdmissionConfigurationTemplateName desired) (cs_DefaultPodSecurityPolicyTemplateName desired)
             (cs_DefaultClusterRoleForProjectMembers spec) (cs_EnableNetworkPolicy spec) (cs_FleetAgentDeploymentCustomization desired)
             (cs_RedeploySystemAgentGeneration spec), changed)
  | _, _ => Panic
  end.

(** The specification to be written before the restore goes on, if any. *)
Definition restore_target (c : ProvCluster) (restore : ETCDSnapshotRestore) : res (option ClusterSpec) :=
  let? desired := findSnapshotClusterSpec (pc_Namespace c) (sr_Name restore) in
  if sr_RestoreRKEConfig restore =? restoreRKEConfigKubernetesVersion then
    Ret (if cs_KubernetesVersion (pc_Spec c) !=? cs_KubernetesVersion desired
         then Some (set_cs_KubernetesVersion (cs_KubernetesVersion desired) (pc_Spec c)) else None)
  else if sr_RestoreRKEConfig restore =? restoreRKEConfigAll then
    let? '(spec, changed) := reconcileClusterSpecEtcdRestore (pc_Spec c) desired in
    Ret (if changed : bool then Some spec else None)
  else Ret None.

(** Whether the configuration is restored along with the data, and not yet by the control plane. *)
Definition pending_restore (c : ProvCluster) (config : RKEConfig) (cp : RKEControlPlane) : option ETCDSnapshotRestore :=
  match rk_ETCDSnapshotRestore config with
  | None => None
  | Some r =>
      if (sr_Name r !=? "") && (sr_RestoreRKEConfig r !=? "") && (sr_RestoreRKEConfig r !=? restoreRKEConfigNone)
         && negb (bool_decide (st_ETCDSnapshotRestore (cp_Status cp) = Some r))
      then Some r else None
  end.

(** ** Derived state *)

Definition getRKEControlPlaneForCluster (c : ProvCluster) : res (option RKEControlPlane) :=
  match capiClusters_Get (pc_Namespace c) (pc_Name c) with
  | Panic | Ret None => Panic
  | Fail e => if IsNotFound e then Ret None else Fail e
  | Ret (Some capiCluster) =>
      match cc_ControlPlaneRef capiCluster with
      | None => Ret None
      | Some ref =>
          if ref_Kind ref !=? "RKEControlPlane" then Ret None
          else match rkeControlPlaneCache_Get (ref_Namespace ref) (ref_Name ref) with
               | Panic => Panic
               | Fail e => if IsNotFound e && pc_Deleting c then Ret None else Fail e
               | Ret cp => Ret (Some cp)
               end
      end
  end.

Definition retrieveMgmtClusterFromCache (c : ProvCluster) : res MgmtCluster :=
  match mgmtClusterCache with
  | None => Fail (errorString "management cluster cache was nil")
  | Some get => get (ct_ClusterName (pc_Status c))
  end.

(** The conditions with [toCondition] like [fromCondition], and whether they changed. *)
Definition reconcileCondition (to : list Condition) (toCondition : string) (from : list Condition) (fromCondition : string) : list Condition * bool :=
  if (Cond_GetStatus fromCondition from !=? Cond_GetStatus toCondition to) || (Cond_GetReason fromCondition from !=? Cond_GetReason toCondition to)
     || (Cond_GetMessage fromCondition from !=? Cond_GetMessage toCondition to)
  then (Cond_Message toCondition (Cond_GetMessage fromCondition from)
          (Cond_Reason toCondition (Cond_GetReason fromCondition from)
             (Cond_SetStatus toCondition (Cond_GetStatus fromCondition from) to)), true)
  else (to, false).

Definition copied (to : list Condition) (toCondition : string) (from : list Condition) (fromCondition : string) : list Condition :=
  fst (reconcileCondition to toCondition from fromCondition).

(** The conditions of the status and of the management cluster, which is written whether or not they changed. *)
Definition report_conditions (status : ClusterStatus) (cp : RKEControlPlane) (mgmt : option MgmtCluster) : PSM ClusterStatus :=
  let from := st_Conditions (cp_Status cp) in
  let conds := copied (copied (ct_Conditions status) Updated from ReadyCond) Provisioned from ReadyCond in
  let useRKEControlPlaneReadyStatus := negb (Cond_IsTrue Stable from) in
  let conds := if useRKEControlPlaneReadyStatus then copied conds ReadyCond from ReadyCond else conds in
  match mgmt with
  | None => ret (set_ct_Conditions conds status)
  | Some m =>
      let conds := if useRKEControlPlaneReadyStatus then conds else copied conds ReadyCond (mg_Conditions m) ReadyCond in
      let* _ := mgmtCluster_Update (mkMgmtCluster (mg_Name m) (copied (copied (mg_Conditions m) Updated from ReadyCond) Provisioned from Provisioned)) in
      ret (set_ct_Conditions conds status)
  end.

(** The objects and the status.  With an error the status handler of wrangler keeps the status as it was. *)
Definition OnRancherClusterChange (obj : ProvCluster) (status : ClusterStatus) : PSM (list prov_object * ClusterStatus) :=
  match cs_RKEConfig (pc_Spec obj) with
  | None => ret ([], status)
  | Some config =>
      if (ct_ClusterName (pc_Status obj) =? "") || pc_Deleting obj then ret ([], status)
      else if cs_KubernetesVersion (pc_Spec obj) =? ""
      then fail (errorString ("kubernetesVersion not set on " +:+ pc_Namespace obj +:+ "/" +:+ pc_Name obj))
      else if bool_decide (pc_Finalizers obj = []) then fail ErrSkip
      else
        let* rkeCP := lift (getRKEControlPlaneForCluster obj) in
        let* mgmtCluster := (match retrieveMgmtClusterFromCache obj with Ret m => ret (Some m) | Fail _ => ret None | Panic => panic end) in
        let* status :=
          (match rkeCP with
           | None => ret status
           | Some cp =>
               let* _ :=
                 (match pending_restore obj config cp with
                  | None => ret tt
                  | Some restore =>
                      let* target := lift (restore_target obj restore) in
                      match target with
                      | None => ret tt
                      | Some spec => let* _ := cluster_Update (set_pc_Spec spec obj) in fail ErrSkip
                      end
                  end) in
               report_conditions status cp mgmtCluster
           end) in
        let* objs := objects obj config in
        ret (objs, status)
  end.

(** [Ret tt] gives the finalizer of the cluster up. *)
Definition OnRemove (cluster : option ProvCluster) : PSM unit :=
  match cluster with
  | None => ret tt
  | Some c =>
      if bool_decide (cs_RKEConfig (pc_Spec c) = None) || (ct_ClusterName (pc_Status c) =? "") then ret tt
      else
        let* rkeCP := lift (getRKEControlPlaneForCluster c) in
        match rkeCP with
        | None => ret tt
        | Some cp =>
            let from := st_Conditions (cp_Status cp) in
            let report_cluster :=
              (let '(conds, changed) := reconcileCondition (ct_Conditions (pc_Status c)) Removed from Removed in
               let* _ := (if changed : bool then let* _ := cluster_UpdateStatus (set_pc_Status (set_ct_Conditions conds (pc_Status c)) c) in ret tt else ret tt) in
               fail ErrSkip) in
            match retrieveMgmtClusterFromCache c with
            | Panic => panic
            | Fail e => if IsNotFound e then ret tt else report_cluster
            | Ret m =>
                let '(conds, changed) := reconcileCondition (mg_Conditions m) Removed from Removed in
                if changed : bool then
                  let* err := attempt_err (mgmtCluster_Update (mkMgmtCluster (mg_Name m) conds)) in
                  match err with
                  | Some e => if IsNotFound e then ret tt else fail e
                  | None => report_cluster
                  end
                else report_cluster
            end
        end
  end.
End controller.
