(* ===== verification/ProvRestore.v ===== *)
(** * Clusters settle

    Properties of [ProvController]: the configuration of a snapshot reaches the control plane, unless it speaks of
    networking; schemas are filled in once; a cluster is let go after its control plane; and the status of the control
    plane is what a user sees. *)

From S2P Require Import Prelude GoLib Codec Errors Types External Instances Capr World Handlers Args S3Args Bootstrap Unmanaged ControlPlane Installer ProvisionTemplate ProvisionArgs ProvTypes ProvTemplate ProvObjects ProvController.

Section restore.
Context `{D : ProvDeps}.

(** ** The configuration of a snapshot *)

Lemma restored_common_same own desired :
  co_Networking desired = None -> common_differs (restored_common own desired) desired = false.
Proof.
  intros Hn. unfold common_differs, restored_common, networking_differs.
  cbn [co_MachineGlobalConfig co_MachineSelectorConfig co_ChartValues co_Registries co_UpgradeStrategy co_AdditionalManifest co_Networking].
  rewrite Hn. by rewrite !bool_decide_eq_true_2.
Qed.

Lemma reconcile_restore_settles spec desired spec' changed wanted :
  cs_RKEConfig desired = Some wanted -> co_Networking (rk_Common wanted) = None ->
  reconcileClusterSpecEtcdRestore spec desired = Ret (spec', changed) ->
  reconcileClusterSpecEtcdRestore spec' desired = Ret (spec', false).
Proof.
  intros Hd Hn. unfold reconcileClusterSpecEtcdRestore. rewrite Hd. destruct (cs_RKEConfig spec) as [own|]; [|done].
  intros [= <- _]. cbn -[bool_decide common_differs]. rewrite restored_common_same by done. by rewrite !bool_decide_eq_true_2.
Qed.

Lemma networking_always_changes spec desired wanted spec' changed net :
  cs_RKEConfig desired = Some wanted -> co_Networking (rk_Common wanted) = Some net ->
  reconcileClusterSpecEtcdRestore spec desired = Ret (spec', changed) -> changed = true.
Proof.
  intros Hd Hn. unfold reconcileClusterSpecEtcdRestore. rewrite Hd. destruct (cs_RKEConfig spec) as [own|]; [|done].
  intros [= _ <-]. unfold common_differs. rewrite Hn.
  assert (networking_differs (co_Networking (rk_Common own)) (Some net) = true) as -> by (by destruct (co_Networking (rk_Common own))).
  by rewrite !orb_true_r.
Qed.

(** A specification that is restored keeps the machine pools and the request for the restore. *)
Definition keeps_request (config : RKEConfig) (spec : ClusterSpec) : Prop :=
  exists config', cs_RKEConfig spec = Some config' /\ rk_ETCDSnapshotRestore config' = rk_ETCDSnapshotRestore config
    /\ rk_MachinePools config' = rk_MachinePools config /\ rk_InfrastructureRef config' = rk_InfrastructureRef config.

Lemma restore_target_keeps c config r spec :
  cs_RKEConfig (pc_Spec c) = Some config -> restore_target c r = Ret (Some spec) -> keeps_request config spec.
Proof.
  intros Hc. unfold restore_target. intros (desired & _ & Hr)%res_bind_Ret.
  destruct (_ =? restoreRKEConfigKubernetesVersion).
  - destruct (_ !=? _); [|done]. injection Hr as <-. by exists config.
  - destruct (_ =? restoreRKEConfigAll); [|done]. apply res_bind_Ret in Hr as ([s ch] & Hs & Hr). destruct ch; [|done]. injection Hr as <-.
    unfold reconcileClusterSpecEtcdRestore in Hs. rewrite Hc in Hs. destruct (cs_RKEConfig desired); [|done]. injection Hs as <- _. by eexists.
Qed.

(** If the whole configuration is wanted, the snapshot says nothing about networking. *)
Definition no_networking (ns : string) (r : ETCDSnapshotRestore) : Prop :=
  sr_RestoreRKEConfig r = restoreRKEConfigAll -> forall desired wanted, findSnapshotClusterSpec ns (sr_Name r) = Ret desired -> cs_RKEConfig desired = Some wanted ->
  co_Networking (rk_Common wanted) = None.

Lemma restore_target_settles c r spec :
  no_networking (pc_Namespace c) r -> restore_target c r = Ret (Some spec) -> restore_target (set_pc_Spec spec c) r = Ret None.
Proof.
  intros Hn. unfold restore_target. intros (desired & Hd & Hr)%res_bind_Ret. change (pc_Namespace (set_pc_Spec spec c)) with (pc_Namespace c).
  rewrite Hd. cbn [res_bind]. destruct (_ =? restoreRKEConfigKubernetesVersion).
  - destruct (_ !=? _); [|done]. injection Hr as <-. cbn. by rewrite bool_decide_eq_true_2.
  - destruct (bool_decide_reflect (sr_RestoreRKEConfig r = restoreRKEConfigAll)) as [Hall|]; [|done].
    apply res_bind_Ret in Hr as ([s ch] & Hs & Hr). destruct ch; [|done]. injection Hr as <-.
    destruct (cs_RKEConfig desired) as [wanted|] eqn:Ew; [|by unfold reconcileClusterSpecEtcdRestore in Hs; rewrite Ew in Hs; destruct (cs_RKEConfig _)].
    cbn [set_pc_Spec pc_Spec]. by rewrite (reconcile_restore_settles _ _ _ _ wanted Ew (Hn Hall _ _ Hd Ew) Hs).
Qed.

(** ** The calls around a restore *)

(** The cluster can be reconciled and has a control plane. *)
Record reconcilable (c : ProvCluster) (config : RKEConfig) (cp : RKEControlPlane) : Prop := {
  rl_config : cs_RKEConfig (pc_Spec c) = Some config;
  rl_name : ct_ClusterName (pc_Status c) <> "";
  rl_alive : pc_Deleting c = false;
  rl_version : cs_KubernetesVersion (pc_Spec c) <> "";
  rl_finalizer : pc_Finalizers c <> [];
  rl_cp : getRKEControlPlaneForCluster c = Ret (Some cp);
  rl_mgmt : retrieveMgmtClusterFromCache c <> Panic
}.

Definition mgmt_of (c : ProvCluster) : option MgmtCluster := match retrieveMgmtClusterFromCache c with Ret m => Some m | _ => None end.

Lemma OnRancherClusterChange_unfold c config cp st w :
  reconcilable c config cp ->
  OnRancherClusterChange c st w
  = (let* _ := (match pending_restore c config cp with
                | None => ret tt
                | Some restore =>
                    let* target := lift (restore_target c restore) in
                    match target with
                    | None => ret tt
                    | Some spec => let* _ := cluster_Update (set_pc_Spec spec c) in fail ErrSkip
                    end
                end) in
     let* status := report_conditions st cp (mgmt_of c) in
     let* objs := objects c config in
     ret (objs, status)) w.
Proof.
  intros [R1 R2 R3 R4 R5 R6 R7]. unfold OnRancherClusterChange. rewrite R1, R3, orb_false_r, (bool_decide_eq_false_2 (_ = "") R2),
    (bool_decide_eq_false_2 (_ = "") R4), (bool_decide_eq_false_2 (_ = []) R5), R6. unfold mgmt_of. unfold bind at 1, lift at 1.
  destruct (retrieveMgmtClusterFromCache c); [| |done]; unfold bind, ret;
    (destruct (pending_restore c config cp); [destruct (lift _ w) as [? [[]| |]]|]; try done;
     repeat (match goal with |- context [cluster_Update ?x ?y] => destruct (cluster_Update x y) as [? []] end); done).
Qed.

Definition pkey (c : ProvCluster) : string * string := (pc_Namespace c, pc_Name c).

Definition with_cluster (c : ProvCluster) (w : PSWorld) : PSWorld :=
  mkPSWorld (<[pkey c := c]> (ps_clusters w)) (ps_nodeConfigs w) (ps_mgmt w) (ps_enqueued w) (ps_faults w).

Lemma cluster_Update_calm c spec w :
  ps_faults w = [] -> ps_clusters w !! pkey c = Some c ->
  cluster_Update (set_pc_Spec spec c) w = (with_cluster (set_pc_Spec spec c) w, Ret (set_pc_Spec spec c)).
Proof.
  intros Hf Hs. unfold cluster_Update, cluster_write, ps_request, bind. rewrite Hf. unfold gets. cbn. unfold pkey in Hs. by rewrite Hs.
Qed.

Lemma restore_write c config cp st w r spec :
  reconcilable c config cp -> ps_faults w = [] -> ps_clusters w !! pkey c = Some c -> pending_restore c config cp = Some r ->
  restore_target c r = Ret (Some spec) ->
  OnRancherClusterChange c st w = (with_cluster (set_pc_Spec spec c) w, Fail ErrSkip).
Proof.
  intros R Hf Hs Hp Ht. rewrite (OnRancherClusterChange_unfold _ _ _ _ _ R), Hp. unfold bind, lift. rewrite Ht.
  by rewrite cluster_Update_calm.
Qed.

Lemma pending_request c config cp r : pending_restore c config cp = Some r -> rk_ETCDSnapshotRestore config = Some r.
Proof. unfold pending_restore. destruct (rk_ETCDSnapshotRestore config) as [x|]; [|done]. destruct (_ && _); [|done]. by intros [= ->]. Qed.

Lemma pending_restore_ext c c' config config' cp :
  rk_ETCDSnapshotRestore config' = rk_ETCDSnapshotRestore config -> pending_restore c' config' cp = pending_restore c config cp.
Proof. unfold pending_restore. by intros ->. Qed.

Lemma restored_version c config r spec desired :
  cs_RKEConfig (pc_Spec c) = Some config -> findSnapshotClusterSpec (pc_Namespace c) (sr_Name r) = Ret desired ->
  restore_target c r = Ret (Some spec) -> cs_KubernetesVersion spec = cs_KubernetesVersion desired.
Proof.
  intros Hc Hd. unfold restore_target. rewrite Hd. cbn [res_bind]. destruct (_ =? restoreRKEConfigKubernetesVersion).
  - destruct (_ !=? _); [|done]. by intros [= <-].
  - destruct (_ =? restoreRKEConfigAll); [|done]. intros ([s ch] & Hs & Hr)%res_bind_Ret. destruct ch; [|done]. injection Hr as <-.
    unfold reconcileClusterSpecEtcdRestore in Hs. rewrite Hc in Hs. destruct (cs_RKEConfig desired); [|done]. by injection Hs as <- _.
Qed.

Lemma reconcilable_restored c config cp r spec :
  reconcilable c config cp -> restore_target c r = Ret (Some spec) -> cs_KubernetesVersion spec <> "" ->
  exists config', reconcilable (set_pc_Spec spec c) config' cp /\ rk_ETCDSnapshotRestore config' = rk_ETCDSnapshotRestore config
    /\ rk_MachinePools config' = rk_MachinePools config.
Proof.
  intros R Ht Hv. destruct (restore_target_keeps _ _ _ _ (rl_config _ _ _ R) Ht) as (config' & E1 & E2 & E3 & _).
  exists config'. split; [|done]. destruct R as [R1 R2 R3 R4 R5 R6 R7]. by split.
Qed.

(** A cluster with the configuration of a snapshot: the version; and, when the whole configuration is wanted, what the
    snapshot says about upgrades, charts, the machines, manifests, registries, networking, pod security and agents.  The
    rest is as before. *)
Definition spec_restored (r : ETCDSnapshotRestore) (before desired after : ClusterSpec) (own wanted config : RKEConfig) : Prop :=
  let whole := sr_RestoreRKEConfig r =? "all" in
  let from := if whole then desired else before in
  let common := if whole then rk_Common wanted else rk_Common own in
  cs_KubernetesVersion after = cs_KubernetesVersion desired
  /\ cs_DefaultPodSecurityPolicyTemplateName after = cs_DefaultPodSecurityPolicyTemplateName from
  /\ cs_DefaultPodSecurityAdmissionConfigurationTemplateName after = cs_DefaultPodSecurityAdmissionConfigurationTemplateName from
  /\ cs_ClusterAgentDeploymentCustomization after = cs_ClusterAgentDeploymentCustomization from
  /\ cs_FleetAgentDeploymentCustomization after = cs_FleetAgentDeploymentCustomization from
  /\ rk_Common config = mkCommon (co_UpgradeStrategy common) (co_ChartValues common) (co_MachineGlobalConfig common)
       (co_MachineSelectorConfig common) (co_MachineSelectorFiles (rk_Common own)) (co_AdditionalManifest common) (co_Registries common)
       (co_ETCD (rk_Common own)) (co_Networking common) (co_ProvisionGeneration (rk_Common own))
  /\ rk_MachinePools config = rk_MachinePools own /\ rk_ETCDSnapshotRestore config = rk_ETCDSnapshotRestore own.

(** A control plane that is to restore the snapshot with this configuration. *)
Definition to_be_restored (r : ETCDSnapshotRestore) (desired : ClusterSpec) (config : RKEConfig) (cp : RKEControlPlane) : Prop :=
  let spec := cp_Spec cp in
  let common := rk_Common config in
  sp_ETCDSnapshotRestore spec = Some r /\ sp_KubernetesVersion spec = cs_KubernetesVersion desired
  /\ sp_UpgradeStrategy spec = co_UpgradeStrategy common /\ sp_ChartValues spec = co_ChartValues common
  /\ sp_MachineGlobalConfig spec = co_MachineGlobalConfig common /\ sp_MachineSelectorConfig spec = co_MachineSelectorConfig common
  /\ sp_MachineSelectorFiles spec = co_MachineSelectorFiles common /\ sp_AdditionalManifest spec = co_AdditionalManifest common
  /\ sp_Registries spec = co_Registries common /\ sp_ETCD spec = co_ETCD common /\ sp_StackPreference spec = co_Networking common.

Lemma common_same own wanted : common_differs own wanted = false ->
  own = mkCommon (co_UpgradeStrategy wanted) (co_ChartValues wanted) (co_MachineGlobalConfig wanted) (co_MachineSelectorConfig wanted)
    (co_MachineSelectorFiles own) (co_AdditionalManifest wanted) (co_Registries wanted) (co_ETCD own) (co_Networking wanted) (co_ProvisionGeneration own).
Proof.
  unfold common_differs. rewrite !orb_false_iff, !negb_false_iff, !bool_decide_eq_true.
  intros ((((((<- & <-) & <-) & <-) & <-) & <-) & Hn). destruct own as [? ? ? ? ? ? ? ? [n|] ?]; cbn in *; [done|]. by destruct (co_Networking wanted).
Qed.

(** The cluster once it needs no more changes for the restore. *)
Lemma restore_target_spec c own r desired wanted target :
  cs_RKEConfig (pc_Spec c) = Some own -> findSnapshotClusterSpec (pc_Namespace c) (sr_Name r) = Ret desired -> cs_RKEConfig desired = Some wanted ->
  sr_RestoreRKEConfig r = "kubernetesVersion" \/ sr_RestoreRKEConfig r = "all" -> restore_target c r = Ret target ->
  let after := default (pc_Spec c) target in
  exists config, cs_RKEConfig after = Some config /\ spec_restored r (pc_Spec c) desired after own wanted config.
Proof.
  intros Hc Hd Hw Hmode. unfold restore_target. rewrite Hd. cbn [res_bind]. unfold spec_restored. destruct Hmode as [-> | ->].
  - rewrite bool_decide_eq_true_2 by done. intros [= <-]. exists own.
    destruct (bool_decide_reflect (cs_KubernetesVersion (pc_Spec c) = cs_KubernetesVersion desired)); cbn; (split; [done|]);
      split_and!; try done; by destruct (rk_Common own).
  - rewrite (bool_decide_eq_false_2 ("all" = restoreRKEConfigKubernetesVersion)) by done. rewrite !(bool_decide_eq_true_2 ("all" = _)) by done.
    intros ([s ch] & Hs & Hr)%res_bind_Ret. unfold reconcileClusterSpecEtcdRestore in Hs. rewrite Hc, Hw in Hs. injection Hs as <- <-.
    destruct (_ || _) eqn:Ech in Hr; injection Hr as <-; cbn [default].
    + eexists. split; [reflexivity|]. cbn. split_and!; done.
    + exists own. split; [done|]. rewrite !orb_false_iff, !negb_false_iff, !bool_decide_eq_true in Ech.
      destruct Ech as (((((Hcom & ?) & ?) & ?) & ?) & ?). split_and!; try done. by apply common_same.
Qed.


(** [n] calls for the cluster as it is stored all end with the wish to be called again. *)
Fixpoint put_off (n : nat) (key : string * string) (w : PSWorld) : Prop :=
  match n with
  | O => True
  | S n => exists c w', ps_clusters w !! key = Some c /\ OnRancherClusterChange c (pc_Status c) w = (w', Fail ErrSkip) /\ put_off n key w'
  end.

(** A snapshot whose configuration speaks of networking is never restored with the whole configuration: the two
    pointers to the networking differ on each call, so each call writes the cluster and ends, and the control plane
    never learns of the restore, however often the controller is called. *)
Theorem restore_networking_stuck n c config cp w r desired wanted net :
  reconcilable c config cp -> ps_faults w = [] -> ps_clusters w !! pkey c = Some c -> pending_restore c config cp = Some r ->
  sr_RestoreRKEConfig r = restoreRKEConfigAll -> findSnapshotClusterSpec (pc_Namespace c) (sr_Name r) = Ret desired ->
  cs_KubernetesVersion desired <> "" -> cs_RKEConfig desired = Some wanted -> co_Networking (rk_Common wanted) = Some net ->
  put_off n (pkey c) w.
Proof.
  revert c config w. induction n as [|n IH]; intros c config w R Hf Hs Hp Ha Hd Hv Hw Hn; [done|].
  assert (exists spec, restore_target c r = Ret (Some spec)) as [spec Ht].
  { unfold restore_target. rewrite Hd. cbn [res_bind]. rewrite Ha. rewrite bool_decide_eq_false_2 by done.
    rewrite bool_decide_eq_true_2 by done. destruct (reconcileClusterSpecEtcdRestore (pc_Spec c) desired) as [[s ch]|e|] eqn:E.
    - rewrite (networking_always_changes _ _ _ _ _ _ Hw Hn E). cbn. by exists s.
    - unfold reconcileClusterSpecEtcdRestore in E. by rewrite Hw, (rl_config _ _ _ R) in E.
    - unfold reconcileClusterSpecEtcdRestore in E. by rewrite Hw, (rl_config _ _ _ R) in E. }
  pose proof (restored_version _ _ _ _ _ (rl_config _ _ _ R) Hd Ht) as Hver.
  destruct (reconcilable_restored _ _ _ _ _ R Ht) as (config1 & R1 & Hr1 & _); [congruence|].
  exists c, (with_cluster (set_pc_Spec spec c) w). split; [done|]. split; [by eapply restore_write|].
  apply (IH (set_pc_Spec spec c) config1); try done; [apply lookup_insert_eq|]. by rewrite (pending_restore_ext c _ config _ cp Hr1).
Qed.
End restore.

(** ** Schemas *)

Section schemas.
Context `{D : ProvDeps}.

(** What is relied upon of the encoding: a schema is read back, and its text is not empty. *)
Hypothesis schema_decodes : forall ds s, json_Marshal_DynamicSchemaSpec ds = Ret s -> s <> "" /\ exists ds', json_Unmarshal_DynamicSchemaSpec s = Ret ds'.

(** A pool that needs no schema, or has one. *)
Definition schema_settled (p : RKEMachinePool) : Prop :=
  schema_valid p = true \/ match mp_NodeConfig p with None => True | Some ref => foreign_config ref = true end.

Lemma set_schema_id p : set_mp_DynamicSchemaSpec (mp_DynamicSchemaSpec p) p = p.
Proof. by destruct p. Qed.

Lemma pool_schema_settled p p' :
  pool_schema p = Ret p' -> schema_settled p' /\ p' = set_mp_DynamicSchemaSpec (mp_DynamicSchemaSpec p') p.
Proof.
  unfold pool_schema. destruct (schema_valid p) eqn:Ev.
  - intros [= <-]. split; [by left|by rewrite set_schema_id].
  - destruct (mp_NodeConfig p) as [ref|] eqn:En; [|done]. destruct (foreign_config ref) eqn:Ef.
    + intros [= <-]. split; [right; by rewrite En|by rewrite set_schema_id].
    + destruct dynamicSchema as [get|]; [|done]. intros (ds & _ & Hr)%res_bind_Ret. apply res_bind_Ret in Hr as (s & Hs & [= <-]).
      split; [|done]. left. destruct (schema_decodes _ _ Hs) as (Hne & ds' & Hd). unfold schema_valid. cbn [mp_DynamicSchemaSpec set_mp_DynamicSchemaSpec].
      by rewrite Hd, bool_decide_eq_false_2.
Qed.

Lemma fill_schemas_settled pools : Forall schema_settled pools -> fill_schemas pools = Ret None.
Proof.
  induction 1 as [|p pools Hp _ IH]; [done|]. cbn [fill_schemas]. rewrite IH.
  assert (schema_valid p || match mp_NodeConfig p with None => true | Some ref => foreign_config ref end = true) as ->; [|done].
  destruct Hp as [->|Hp]; [done|]. apply orb_true_iff. right. by destruct (mp_NodeConfig p).
Qed.

Lemma fill_schemas_filled pools pools' :
  fill_schemas pools = Ret (Some pools') ->
  Forall schema_settled pools' /\ Forall2 (fun p p' => p' = set_mp_DynamicSchemaSpec (mp_DynamicSchemaSpec p') p) pools pools'.
Proof.
  revert pools'. induction pools as [|p pools IH]; intros pools'; cbn [fill_schemas]; [done|].
  destruct (schema_valid p || _) eqn:Es.
  - intros ([l|] & Hl & [= <-])%res_bind_Ret. destruct (IH _ Hl) as [Hs Hf].
    split; constructor; try done; [|by rewrite set_schema_id]. apply orb_true_iff in Es as [Es|Es]; [by left|right].
    by destruct (mp_NodeConfig p).
  - intros (l & Hl & [= <-])%res_bind_Ret. apply res_map_Ret in Hl. split.
    + clear -Hl schema_decodes. induction Hl as [|x y xs ys Hxy _ IHl]; constructor; [by apply (pool_schema_settled x)|done].
    + clear -Hl schema_decodes. induction Hl as [|x y xs ys Hxy _ IHl]; constructor; [by apply (pool_schema_settled x)|done].
Qed.

(** The schemas of the pools are filled in once.  A call that changes the cluster changes nothing but schemas, and
    for the cluster it has written the next call has nothing to do; a cluster is left alone exactly when every pool has
    a schema that can be read or needs none. *)
Theorem schemas_settle pools :
  (forall pools', fill_schemas pools = Ret (Some pools') ->
     Forall2 (fun p p' => p' = set_mp_DynamicSchemaSpec (mp_DynamicSchemaSpec p') p) pools pools' /\ fill_schemas pools' = Ret None)
  /\ (fill_schemas pools = Ret None <-> Forall schema_settled pools).
Proof.
  split.
  - intros pools' Hf. destruct (fill_schemas_filled _ _ Hf) as [Hs Hf2]. split; [done|]. by apply fill_schemas_settled.
  - split; [|apply fill_schemas_settled]. induction pools as [|p pools IH]; [constructor|]. cbn [fill_schemas].
    destruct (schema_valid p || _) eqn:Es; [|by intros (l & _ & [=])%res_bind_Ret].
    intros ([l|] & Hl & Hr)%res_bind_Ret; [done|]. constructor; [|by apply IH].
    apply orb_true_iff in Es as [Es|Es]; [by left|right]. by destruct (mp_NodeConfig p).
Qed.
End schemas.

(** ** Removal, watches and conditions *)

Section removal.
Context `{D : ProvDeps}.

(** A cluster is let go only when nothing of it is left to wait for: it is not of this kind, was never set up, its control
    plane is gone, or its management cluster is gone; a failed request never lets it go. *)
Theorem OnRemove_waits c w w' :
  OnRemove (Some c) w = (w', Ret tt) ->
  cs_RKEConfig (pc_Spec c) = None \/ ct_ClusterName (pc_Status c) = "" \/ getRKEControlPlaneForCluster c = Ret None
  \/ exists cp, getRKEControlPlaneForCluster c = Ret (Some cp)
     /\ ((exists e, retrieveMgmtClusterFromCache c = Fail e /\ IsNotFound e = true)
         \/ exists m conds w1 e, retrieveMgmtClusterFromCache c = Ret m
            /\ reconcileCondition (mg_Conditions m) Removed (st_Conditions (cp_Status cp)) Removed = (conds, true)
            /\ mgmtCluster_Update (mkMgmtCluster (mg_Name m) conds) w = (w1, Fail e) /\ IsNotFound e = true).
Proof.
  assert (forall cp w, snd ((let '(conds, changed) := reconcileCondition (ct_Conditions (pc_Status c)) Removed (st_Conditions (cp_Status cp)) Removed in
               let* _ := (if changed : bool then let* _ := cluster_UpdateStatus (set_pc_Status (set_ct_Conditions conds (pc_Status c)) c) in ret tt else ret tt) in
               fail (A := unit) ErrSkip) w) <> Ret tt) as Hhold.
  { intros cp w0. destruct (reconcileCondition _ _ _ _) as [conds ch]. unfold bind. destruct ch; [|done].
    by destruct (cluster_UpdateStatus _ w0) as [w1 []]. }
  unfold OnRemove. destruct (bool_decide _ || _) eqn:E.
  { intros _. apply orb_true_iff in E as [E%bool_decide_eq_true|E%bool_decide_eq_true]; eauto. }
  intros (cp & w1 & Hcp & Hk)%bind_Ret. injection Hcp as <- Hcp. destruct cp as [cp|]; [|eauto]. right; right; right. exists cp. split; [done|].
  destruct (retrieveMgmtClusterFromCache c) as [m|e|] eqn:Em; [| |done].
  - right. destruct (reconcileCondition (mg_Conditions m) _ _ _) as [conds ch] eqn:Er. destruct ch; [|by destruct (Hhold cp w (f_equal snd Hk))].
    apply bind_Ret in Hk as (err & w2 & Hu & Hk). destruct err as [e|]; [|by destruct (Hhold cp w2 (f_equal snd Hk))].
    apply attempt_err_Ret in Hu as [[[=] _]|(e' & [= <-] & Hu)]. destruct (IsNotFound e) eqn:En; [|done]. exists m, conds, w2, e. done.
  - left. destruct (IsNotFound e) eqn:En; [eauto|]. by destruct (Hhold cp w (f_equal snd Hk)).
Qed.

Lemma copied_view `{!CondLaws} to t from f t' :
  cond_view t' (copied to t from f) = if t' =? t then cond_view f from else cond_view t' to.
Proof.
  unfold copied, reconcileCondition, cond_view. destruct (_ || _) eqn:E; cbn [fst].
  - rewrite GetStatus_Message, GetStatus_Reason, GetStatus_SetStatus, GetReason_Message, GetReason_Reason, GetReason_SetStatus,
      GetMessage_Message, GetMessage_Reason, GetMessage_SetStatus. by destruct (t' =? t).
  - destruct (t' =? t) eqn:Et; [apply bool_decide_eq_true in Et; subst t'|done]. apply orb_false_iff in E as [E E3]. apply orb_false_iff in E as [E1 E2].
    apply negb_false_iff, bool_decide_eq_true in E1, E2, E3. congruence.
Qed.

(** What a user sees of a cluster is the state of its control plane: after a call, [Updated] and [Provisioned] say what the
    control plane says of [Ready]; [Ready] says the same while the control plane is not stable, and afterwards what the
    management cluster says of it; no other condition changes. *)
Theorem report_conditions_view `{!CondLaws} st cp mgmt w w' st' :
  report_conditions st cp mgmt w = (w', Ret st') ->
  let from := st_Conditions (cp_Status cp) in
  cond_view Updated (ct_Conditions st') = cond_view ReadyCond from
  /\ cond_view Provisioned (ct_Conditions st') = cond_view ReadyCond from
  /\ cond_view ReadyCond (ct_Conditions st')
     = (if Cond_IsTrue Stable from then match mgmt with Some m => cond_view ReadyCond (mg_Conditions m) | None => cond_view ReadyCond (ct_Conditions st) end
        else cond_view ReadyCond from)
  /\ forall t, t ∉ [Updated; Provisioned; ReadyCond] -> cond_view t (ct_Conditions st') = cond_view t (ct_Conditions st).
Proof.
  unfold report_conditions. cbv zeta. intros Hr.
  assert (exists conds, st' = set_ct_Conditions conds st
    /\ forall t, cond_view t conds = cond_view t
         (let base := copied (copied (ct_Conditions st) Updated (st_Conditions (cp_Status cp)) ReadyCond) Provisioned (st_Conditions (cp_Status cp)) ReadyCond in
          if Cond_IsTrue Stable (st_Conditions (cp_Status cp))
          then match mgmt with Some m => copied base ReadyCond (mg_Conditions m) ReadyCond | None => base end
          else copied base ReadyCond (st_Conditions (cp_Status cp)) ReadyCond)) as (conds & -> & Hv).
  { destruct mgmt as [m|].
    - apply bind_Ret in Hr as (u & w1 & _ & Hk). injection Hk as _ <-. eexists. split; [done|]. intros t. by destruct (Cond_IsTrue Stable _).
    - injection Hr as _ <-. eexists. split; [done|]. intros t. by destruct (Cond_IsTrue Stable _). }
  cbn [ct_Conditions set_ct_Conditions]. clear Hr. cbv zeta in Hv.
  destruct (Cond_IsTrue Stable _), mgmt as [m|]; (split; [|split; [|split]]);
    try (rewrite Hv, !copied_view; reflexivity);
    intros t Ht; rewrite Hv, !copied_view; rewrite !bool_decide_eq_false_2 by (intros ->; set_solver); done.
Qed.

(** The clusters that use a configuration are exactly those that are looked at again when it changes. *)
Lemma infraWatch_enqueues nc clusters w :
  clusterCache = Ret clusters ->
  let key := toInfraRefKey (mkObjectReference (nc_Kind nc) (nc_Namespace nc) (nc_Name nc) (nc_APIVersion nc)) (nc_Namespace nc) in
  infraWatch (Some nc) w
  = (mkPSWorld (ps_clusters w) (ps_nodeConfigs w) (ps_mgmt w)
       (rev (map (fun c => (pc_Namespace c, pc_Name c)) (filter (fun c => key ∈ byNodeInfraIndex c) clusters)) ++ ps_enqueued w) (ps_faults w), Ret tt).
Proof.
  intros Hc key. unfold infraWatch, clusters_GetByIndex. rewrite Hc. cbn [res_bind]. unfold bind, lift. fold key.
  generalize (filter (fun c => key ∈ byNodeInfraIndex c) clusters). intros l. revert w.
  induction l as [|c l IH]; intros w; [by destruct w|]. cbn [for_fold map rev]. unfold bind at 1, cluster_Enqueue at 1, modify at 1.
  rewrite IH. cbn. by rewrite <- app_assoc.
Qed.
End removal.

Section witnesses.
#[local] Existing Instance demoExternal.

(** Caches with a control plane and a snapshot, whose metadata holds the specification [decode] reads. *)
Definition demoRestoreCluster : CAPICluster :=
  mkCAPICluster "fleet-default" "c1" ∅ false false (Some (mkObjectReference "RKEControlPlane" "fleet-default" "c1" RKEAPIVersion)) true [].
Definition demoSnapshot : ETCDSnapshot :=
  mkETCDSnapshot "fleet-default" "snap1" ∅
    (mkETCDSnapshotFile "on-demand" "" "" (base64_EncodeToString (base64_EncodeToString "spec")) None) ∅ [] "c1" false.
Definition demoRestorePlanner : Planner :=
  let P := demoPlanner ∅ ∅ [] (Some demoRestoreCluster) in {|
  secretCache_Get := @secretCache_Get _ P;
  configMapCache_Get := @configMapCache_Get _ P;
  capiClusters_Get := @capiClusters_Get _ P;
  rkeBootstrapCache_Get := @rkeBootstrapCache_Get _ P;
  etcdSnapshotCache_Get ns name := Ret demoSnapshot;
  machineCache_List := @machineCache_List _ P;
  clusterRegistrationTokens := @clusterRegistrationTokens _ P;
  managementClusters_Get := @managementClusters_Get _ P;
  ImageResolver := @ImageResolver _ P;
  ReleaseData := @ReleaseData _ P;
  SystemAgentImage := @SystemAgentImage _ P;
  SystemPodLabelSelectors := @SystemPodLabelSelectors _ P
|}.
#[local] Existing Instance demoRestorePlanner.
Definition demoRestoreControllers : Controllers := demoControllers demoRestorePlanner [] [] (Some demoControlPlane).
#[local] Existing Instance demoRestoreControllers.
Definition demoRestoreUnmanaged : UnmanagedDeps := {|
  mgmtClusterCache_Get name := Ret name;
  clusterCache_ByV3 name := Ret [];
  json_Marshal_Labels l := Ret "labels";
  json_Marshal_Taints l := Ret "taints"
|}.
#[local] Existing Instance demoRestoreUnmanaged.
Definition demoRestoreDeps (networking : option string) : ProvDeps := {|
  dynamicSchemaSpec := list string;
  ResourceFields l := list_to_set l;
  json_Marshal_DynamicSchemaSpec l := Ret ("," +:+ Join l ",");
  json_Unmarshal_DynamicSchemaSpec s := Ret (Split s ",");
  dynamicSchema := Some (fun name => Ret ["size"; "region"]);
  mgmtClusterCache := Some (fun name => Ret (mkMgmtCluster name []));
  clusterCache := Ret [];
  dynamic_Get v k ns name := Ret demoNodeConfig;
  EncodeToMap_Common l t s := Ret [];
  intstr_Parse s := StrVal s;
  json_Marshal_ClusterSpec s := Ret (cs_KubernetesVersion s);
  json_Unmarshal_ClusterSpec _ :=
    Ret (mkClusterSpec "" "v1.26.7+rke2r1" None
           (Some (mkRKEConfig (mkCommon demoUpgradeStrategy ∅ ∅ [] [] "" None None networking 0) None None None None [] 0 None))
           (mkAuthEndpoint false "" "") [] None "" "" "" None None 0);
  gzip s := Ret s
|}.

Definition demoRestoreRequest : ETCDSnapshotRestore := mkETCDSnapshotRestore "snap1" 1 restoreRKEConfigAll.
Definition demoRestoring : RKEConfig := mkRKEConfig demoCommon None (Some demoRestoreRequest) None None [demoPool "cp"] 0 None.
Definition demoRestoringCluster : ProvCluster := demoProvCluster demoRestoring.
Definition demoRestoreWorld : PSWorld := mkPSWorld {[ pkey demoRestoringCluster := demoRestoringCluster ]} [] [] [] [].

Lemma demo_reconcilable net : reconcilable (D := demoRestoreDeps net) demoRestoringCluster demoRestoring demoControlPlane.
Proof. by split. Qed.


Lemma restore_networking_stuck_witness :
  let D := demoRestoreDeps (Some "ipv4") in put_off 100 (pkey demoRestoringCluster) demoRestoreWorld.
Proof.
  intros D. eassert (findSnapshotClusterSpec "fleet-default" "snap1" = Ret _) as Hf by reflexivity.
  exact (restore_networking_stuck (D := D) 100 demoRestoringCluster demoRestoring demoControlPlane demoRestoreWorld demoRestoreRequest _ _ "ipv4"
           (demo_reconcilable (Some "ipv4")) eq_refl (lookup_singleton_eq _ _) eq_refl eq_refl Hf ltac:(discriminate) eq_refl eq_refl).
Defined.

Lemma schemas_settle_witness :
  let D := demoRestoreDeps None in
  let bare := set_mp_DynamicSchemaSpec "" (demoPool "cp") in
  exists pools', fill_schemas [bare; demoPool "worker"] = Ret (Some pools') /\ fill_schemas pools' = Ret None.
Proof.
  intros D bare. eexists. split; [reflexivity|].
  apply (proj1 (schemas_settle (D := D) ltac:(intros ds s [= <-]; split; [discriminate|by eexists]) [bare; demoPool "worker"])). reflexivity.
Defined.

Lemma OnRemove_waits_witness :
  let D := demoRestoreDeps None in
  let c := set_pc_Spec (set_cs_RKEConfig None (pc_Spec demoRestoringCluster)) demoRestoringCluster in
  OnRemove (Some c) demoRestoreWorld = (demoRestoreWorld, Ret tt) /\ cs_RKEConfig (pc_Spec c) = None.
Proof.
  intros D c. split; [reflexivity|]. destruct (OnRemove_waits (D := D) c demoRestoreWorld demoRestoreWorld eq_refl) as [Hn|[Hn|[Hn|(cp & Hn & _)]]];
    [exact Hn|discriminate Hn|discriminate Hn|reflexivity].
Defined.

Lemma report_conditions_view_witness :
  let ready := mkCondition ReadyCond "False" "Waiting" "waiting for etcd" "" in
  let cp := set_cp_Status (set_st_Conditions [ready] (cp_Status demoControlPlane)) demoControlPlane in
  exists w' st', report_conditions (pc_Status demoRestoringCluster) cp None demoRestoreWorld = (w', Ret st')
    /\ cond_view Updated (ct_Conditions st') = ("False", "Waiting", "waiting for etcd").
Proof.
  intros ready cp. eexists _, _. split; [reflexivity|].
  exact (proj1 (@report_conditions_view demoExternal demoCondLaws (pc_Status demoRestoringCluster) cp None demoRestoreWorld _ _ eq_refl)).
Defined.
End witnesses.
