(* ===== verification/SystemAgent.v ===== *)
(** * System agents and their upgrades ([managesystemagent], [managedchart])

    Fleet delivers two things to a cluster: a bundle with the plans that upgrade the system agent on its nodes, and the
    chart of the system-upgrade-controller, which executes such plans.  The chart comes as a managed chart, from which
    another controller makes a bundle; a third one watches that bundle and reports in a condition of the control plane
    whether the chart fits the version of Kubernetes. *)

From S2P Require Import Prelude GoLib Codec Errors Types External Instances Capr World Handlers Args S3Args Bootstrap Unmanaged Installer Instructions Config PlanEntry Store InitNode Drain DesiredPlan Changes Reconcile Cluster ProvisionTemplate ProvisionArgs ProvTypes ProvTemplate ProvObjects.

Definition generationSecretName : string := "system-agent-upgrade-generation".
Definition MaxHelmReleaseNameLength : Z := 53.
Definition System : string := "cattle-system".
Definition ClustersLocalNamespace : string := "fleet-local".
Definition AgentImage : Setting := mkSetting "agent-image" "rancher/rancher-agent:v2.9-head".
Definition AuthImage : Setting := mkSetting "auth-image" "rancher/kube-api-auth:v0.2.1".
Definition InternalServerURL : Setting := mkSetting "internal-server-url" "".
Definition SystemAgentUpgradeImage : Setting := mkSetting "system-agent-upgrade-image" "".
Definition WinsAgentUpgradeImage : Setting := mkSetting "wins-agent-upgrade-image" "".
Definition SystemUpgradeControllerChartVersion : Setting := mkSetting "system-upgrade-controller-chart-version" "".

(** ** Objects *)

(** [upgradev1.Plan]: it tolerates every taint and selects the nodes of an operating system; [up_EnvFrom] is a secret. *)
Record UpgradePlan := mkUpgradePlan {
  up_Namespace : string;
  up_Name : string;
  up_Annotations : gmap string string;
  up_Concurrency : Z;
  up_Version : string;
  up_OS : string;
  up_ServiceAccountName : string;
  up_Image : string;
  up_Env : list EnvVar;
  up_EnvFrom : string;
  up_Secrets : list string
}.

Inductive agent_object :=
| APlan (p : UpgradePlan)
| AServiceAccount (namespace name : string)
| AClusterRole (name : string) (rules : list PolicyRule)
| AClusterRoleBinding (name : string) (subject : Subject) (role : string)
| ASecret (s : Secret).

Definition object_kind (o : agent_object) : string :=
  match o with
  | APlan _ => "Plan" | AServiceAccount _ _ => "ServiceAccount" | AClusterRole _ _ => "ClusterRole"
  | AClusterRoleBinding _ _ _ => "ClusterRoleBinding" | ASecret _ => "Secret"
  end.
Definition object_namespace (o : agent_object) : string :=
  match o with APlan p => up_Namespace p | AServiceAccount ns _ => ns | ASecret s => s_Namespace s | _ => "" end.
Definition object_name_of (o : agent_object) : string :=
  match o with
  | APlan p => up_Name p | AServiceAccount _ n => n | AClusterRole n _ => n | AClusterRoleBinding n _ _ => n | ASecret s => s_Name s
  end.

(** [v1alpha1.BundleTarget]: a cluster by name, unless it carries a label. *)
Record BundleTarget := mkBundleTarget { bt_Cluster : string; bt_Unless : string }.
Definition unmanaged_agent : string := "provisioning.cattle.io/unmanaged-system-agent".

Record BundleResource := mkBundleResource { br_Name : string; br_Content : string; br_Encoding : string }.
Record BundleSummary := mkBundleSummary { bs_Ready : Z; bs_DesiredReady : Z; bs_ErrApplied : Z; bs_NonReady : list string }.

(** [v1alpha1.Bundle]; the values of its helm options when there are any, and the summary Fleet reports. *)
Record Bundle := mkBundle {
  bu_Namespace : string;
  bu_Name : string;
  bu_DefaultNamespace : string;
  bu_HelmVersion : string;
  bu_Values : option (list (string * value));
  bu_Targets : list BundleTarget;
  bu_Resources : list BundleResource;
  bu_Summary : BundleSummary
}.

(** [v3.ManagedChart] *)
Record ManagedChart := mkManagedChart {
  mc_Namespace : string;
  mc_Name : string;
  mc_DefaultNamespace : string;
  mc_RepoName : string;
  mc_Chart : string;
  mc_Version : string;
  mc_Values : option (list (string * value));
  mc_Targets : list BundleTarget
}.

(** The images a management cluster asks for. *)
Record MgmtImages := mkMgmtImages {
  mi_DesiredAgentImage : string;
  mi_AgentImageOverride : string;
  mi_AuthEndpointEnabled : bool;
  mi_DesiredAuthImage : string
}.

(** An entry of a chart's archive: name, whether it is a regular file, and content. *)
Record TarEntry := mkTarEntry { te_Name : string; te_Regular : bool; te_Content : string }.

Class AgentDeps `{ProvDeps} := {
  registrationToken : string -> string -> res string;                      (** its text, by cluster and name *)
  provClusters_Get : string -> string -> res ProvCluster;
  bundles_Get : string -> string -> res Bundle;
  charts_Chart : string -> string -> string -> res (list TarEntry);        (** repository, chart, version *)
  json_Marshal_Object : agent_object -> res string;
  json_Marshal_SUCMetadata : bool -> res string
}.

Section agent.
Context `{A : AgentDeps} `{I : Installation} `{!SemverLaws}.

(** ** Images ([provisioningv2/image/resolve.go]) *)

Definition getPrivateRepoURL (machineGlobalConfig : config) (machineSelectorConfig : list RKESystemConfig) : string :=
  match machineGlobalConfig !! "system-default-registry" with
  | Some (VString v) => v
  | _ => default SystemDefaultRegistry (selector_registry machineSelectorConfig)
  end.

Definition GetPrivateRepoURLFromCluster (cluster : ProvCluster) : string :=
  match cs_RKEConfig (pc_Spec cluster) with
  | Some config => getPrivateRepoURL (co_MachineGlobalConfig (rk_Common config)) (co_MachineSelectorConfig (rk_Common config))
  | None => SystemDefaultRegistry
  end.

(** The credentials of that registry, if the cluster configures them. *)
Definition GetPrivateRepoSecretFromCluster (cluster : ProvCluster) : string :=
  match cs_RKEConfig (pc_Spec cluster) with
  | Some config =>
      match co_Registries (rk_Common config) with
      | Some reg => match reg_Configs reg !! GetPrivateRepoURLFromCluster cluster with
                    | Some c => rg_AuthConfigSecretName c
                    | None => ""
                    end
      | None => ""
      end
  | None => ""
  end.

Definition resolve (reg image : string) : string :=
  if (reg !=? "") && negb (HasPrefix image reg)
  then path_Join [reg; if negb (Contains image "/") then "rancher/" +:+ image else image]
  else image.
Definition ResolveWithCluster (image : string) (cluster : ProvCluster) : string := resolve (GetPrivateRepoURLFromCluster cluster) image.
Definition ResolveWithControlPlane (image : string) (cp : RKEControlPlane) : string := resolve (GetPrivateRepoURLFromControlPlane cp) image.

Definition GetDesiredAgentImage (cp : RKEControlPlane) (mgmt : MgmtImages) : string :=
  let desiredAgent := if mi_AgentImageOverride mgmt !=? "" then mi_AgentImageOverride mgmt else mi_DesiredAgentImage mgmt in
  if (desiredAgent =? "") || (desiredAgent =? "fixed") then ResolveWithControlPlane (Setting_Get AgentImage) cp else desiredAgent.

Definition GetDesiredAuthImage (cp : RKEControlPlane) (mgmt : MgmtImages) : string :=
  if mi_AuthEndpointEnabled mgmt then
    if (mi_DesiredAuthImage mgmt =? "") || (mi_DesiredAuthImage mgmt =? "fixed") then ResolveWithControlPlane (Setting_Get AuthImage) cp
    else mi_DesiredAuthImage mgmt
  else "".

(** ** The agent *)

(** An image and its version. *)
Definition split_image (image : string) : string * string :=
  match cut ":" image with Some (name, version) => (name, version) | None => (image, "latest") end.

Definition upgrade_plan (name os : string) (setting : Setting) (cluster : ProvCluster) (env : list EnvVar) (secretName : string) : UpgradePlan :=
  let '(image, version) := split_image (Setting_Get setting) in
  mkUpgradePlan System name {[ "upgrade.cattle.io/digest" := "spec.upgrade.envs,spec.upgrade.envFrom" ]} 10 version os "system-agent-upgrader"
    (ResolveWithCluster image cluster) env secretName
    (if (cs_RedeploySystemAgentGeneration (pc_Spec cluster) =? 0)%Z then [] else [generationSecretName]).

Definition installer (cluster : ProvCluster) (config : RKEConfig) (secretName : string) : list agent_object :=
  let env := cs_AgentEnvVars (pc_Spec cluster)
             ++ (if bool_decide (co_MachineSelectorConfig (rk_Common config) = []) then [mkEnvVar "CATTLE_ROLE_WORKER" "true"] else []) in
  [APlan (upgrade_plan "system-agent-upgrader" "linux" SystemAgentUpgradeImage cluster env secretName);
   APlan (upgrade_plan "system-agent-upgrader-windows" "windows" WinsAgentUpgradeImage cluster env secretName);
   AServiceAccount System "system-agent-upgrader";
   AClusterRole "system-agent-upgrader" [mkPolicyRule ["get"] [""] ["nodes"] []];
   AClusterRoleBinding "system-agent-upgrader" (mkSubject "ServiceAccount" "system-agent-upgrader" System) "system-agent-upgrader"]
  ++ (if (cs_RedeploySystemAgentGeneration (pc_Spec cluster) =? 0)%Z then []
      else [ASecret (mkSecret System generationSecretName "" ∅ ∅
                       (<["cluster-uid" := pc_UID cluster]> {[ "generation" := Itoa (cs_RedeploySystemAgentGeneration (pc_Spec cluster)) ]}) [] false)]).

Definition ToResources (objs : list agent_object) : res (list BundleResource) :=
  res_map (fun o =>
    let? data := json_Marshal_Object o in
    Ret (mkBundleResource (name_SafeConcatName [object_kind o; object_namespace o; object_name_of o; take_str 12 (sha256_hex data)] +:+ ".yaml") data ""))
    objs.

(** The local cluster connects to the server itself, with the token of its registration. *)
Definition local_secret (cluster : ProvCluster) : res (string * list agent_object) :=
  if (ct_ClusterName (pc_Status cluster) =? "local") && (pc_Namespace cluster =? ClustersLocalNamespace) then
    let? token := registrationToken (ct_ClusterName (pc_Status cluster)) "default-token" in
    if token =? "" then Fail (errorString ("token not yet generated for " +:+ ct_ClusterName (pc_Status cluster) +:+ "/default-token"))
    else
      let server := Setting_Get InternalServerURL in
      let secretName := "stv-aggregation-local-" +:+ take_str 12 (sha256_hex (server +:+ token +:+ InternalCAChecksum)) in
      Ret (secretName, [ASecret (mkSecret System secretName "" ∅ ∅
                                   (<["CATTLE_SERVER" := server]> (<["CATTLE_TOKEN" := token]> {[ "CATTLE_CA_CHECKSUM" := InternalCAChecksum ]})) [] false)])
  else Ret ("stv-aggregation", []).

(** The secret of a local cluster and the bundle. *)
Definition OnChange (cluster : ProvCluster) : res (list agent_object * option Bundle) :=
  match cs_RKEConfig (pc_Spec cluster) with
  | None => Ret ([], None)
  | Some config =>
      if Setting_Get SystemAgentUpgradeImage =? "" then Ret ([], None)
      else if ct_FleetWorkspaceName (pc_Status cluster) =? "" then Fail ErrSkip
      else
        let? '(secretName, objs) := local_secret cluster in
        let? resources := ToResources (installer cluster config secretName) in
        let? name := SafeConcatName MaxHelmReleaseNameLength [pc_Name cluster; "managed"; "system"; "agent"] in
        Ret (objs, Some (mkBundle (ct_FleetWorkspaceName (pc_Status cluster)) name System "" None
                           [mkBundleTarget (pc_Name cluster) unmanaged_agent] resources (mkBundleSummary 0 0 0 [])))
  end.

(** ** The chart *)

Definition suc_name (clusterName : string) : res string := SafeConcatName 48 [clusterName; "managed"; "system-upgrade-controller"].

(** The values of the chart, their keys in order. *)
Definition suc_values (registry : string) (pspEnabled : bool) : list (string * value) :=
  [("global", VMap [("cattle", VMap [("psp", VMap [("enabled", VBool pspEnabled)]); ("systemDefaultRegistry", VString registry)])])].

Definition OnChangeInstallSUC (cluster : ProvCluster) : res (list ManagedChart) :=
  if bool_decide (cs_RKEConfig (pc_Spec cluster) = None) then Ret []
  else if ct_FleetWorkspaceName (pc_Status cluster) =? "" then Ret []
  else
    let? currentVersion := NewVersion (cs_KubernetesVersion (pc_Spec cluster)) in
    let pspEnabled := LessThan currentVersion Kubernetes125 in
    let? name := suc_name (pc_Name cluster) in
    Ret [mkManagedChart (ct_FleetWorkspaceName (pc_Status cluster)) name System "rancher-charts" "system-upgrade-controller"
           (Setting_Get SystemUpgradeControllerChartVersion) (Some (suc_values (GetPrivateRepoURLFromCluster cluster) pspEnabled))
           [mkBundleTarget (pc_Name cluster) unmanaged_agent]].

(** [managedchart]: the bundle of a chart, with its files in the order of their names. *)
Definition chart_resource (chart : string) (e : TarEntry) : res BundleResource :=
  let? gz := gzip (te_Content e) in
  Ret (mkBundleResource (TrimPrefix (te_Name e) (chart +:+ "/")) (base64_EncodeToString gz) "base64+gz").

Definition ManagedChart_OnChange (mcc : ManagedChart) : res Bundle :=
  let? entries := charts_Chart (mc_RepoName mcc) (mc_Chart mcc) (mc_Version mcc) in
  let? name := SafeConcatName MaxHelmReleaseNameLength ["mcc"; mc_Name mcc] in
  let? resources := res_map (chart_resource (mc_Chart mcc)) (List.filter te_Regular entries) in
  Ret (mkBundle (mc_Namespace mcc) name (mc_DefaultNamespace mcc) (mc_Version mcc) (mc_Values mcc) (mc_Targets mcc)
         (sort_by br_Name resources) (mkBundleSummary 0 0 0 [])).

(** ** The condition of the control plane *)

Definition value_map (v : value) : option (list (string * value)) := match v with VMap l => Some l | _ => None end.
Definition map_field (k : string) (l : list (string * value)) : value := default VNil (snd <$> List.find (fun kv => fst kv =? k) l).

(** [global.cattle.psp.enabled] of the values: the first two results are the steps that may fail in between. *)
Definition psp_values (values : list (string * value)) : option (list (string * value)) :=
  global ← value_map (map_field "global" values);
  cattle ← value_map (map_field "cattle" global);
  value_map (map_field "psp" cattle).

(** The condition with a reason and no message. *)
Definition suc_condition (status reason : string) (st : ControlPlaneStatus) : ControlPlaneStatus :=
  cond_status SystemUpgradeControllerReady status (cond_message SystemUpgradeControllerReady "" (cond_reason SystemUpgradeControllerReady reason st)).

Definition waiting_reason : string := "waiting for system-upgrade-controller bundle update".

(** Fleet has rolled the bundle out. *)
Definition rolled_out (s : BundleSummary) : bool := (bs_Ready s =? bs_DesiredReady s)%Z && negb (bs_DesiredReady s =? 0)%Z.

Definition rollout_reason (s : BundleSummary) : string :=
  match bs_NonReady s with
  | message :: _ => if negb (bs_ErrApplied s =? 0)%Z then "error encountered waiting for system-upgrade-controller bundle roll out: " +:+ message
                    else "waiting for system-upgrade-controller bundle roll out"
  | [] => "waiting for system-upgrade-controller bundle roll out"
  end.

(** The chart is deployed with these settings. *)
Definition judge_psp (psp : list (string * value)) (obj : RKEControlPlane) (status : ControlPlaneStatus) : res ControlPlaneStatus :=
  let? currentVersion := NewVersion (sp_KubernetesVersion (cp_Spec obj)) in
  match map_field "enabled" psp with
  | VBool enabled =>
      if negb (LessThan currentVersion Kubernetes125) && enabled then
        Ret (cond_status SystemUpgradeControllerReady "False"
               (cond_reason SystemUpgradeControllerReady "system-upgrade-controller is deployed with podsecuritypolicy enabled" status))
      else
        let? metadata := json_Marshal_SUCMetadata enabled in
        Ret (cond_status SystemUpgradeControllerReady "True" (cond_reason SystemUpgradeControllerReady ""
               (cond_message SystemUpgradeControllerReady (base64_EncodeToString metadata) status)))
  | _ => Ret (suc_condition "Unknown" waiting_reason status)
  end.

(** With an error the status handler of wrangler keeps the status as it was.  Cached objects have an empty [TypeMeta]. *)
Definition syncSystemUpgradeControllerStatus (obj : RKEControlPlane) (status : ControlPlaneStatus) : res ControlPlaneStatus :=
  let? cluster := provClusters_Get (cp_Namespace obj) (cp_Name obj) in
  if ct_FleetWorkspaceName (pc_Status cluster) =? ""
  then Fail (errorString ("unable to sync system upgrade controller status for [&TypeMeta{Kind:,APIVersion:,}] [" +:+ pc_Namespace cluster +:+ "/" +:+ pc_Name cluster
                            +:+ "], status.FleetWorkspaceName was blank"))
  else
    let? chartName := suc_name (cp_Name obj) in
    let? bundleName := SafeConcatName MaxHelmReleaseNameLength ["mcc"; chartName] in
    match bundles_Get (ct_FleetWorkspaceName (pc_Status cluster)) bundleName with
    | Panic => Panic
    | Fail e => if IsNotFound e then Ret (suc_condition "False" ("unable to find bundle " +:+ bundleName +:+ ": " +:+ Error e) status) else Fail e
    | Ret sucBundle =>
        if negb (rolled_out (bu_Summary sucBundle)) then Ret (suc_condition "Unknown" (rollout_reason (bu_Summary sucBundle)) status)
        else match bu_Values sucBundle with
             | None => Ret (suc_condition "Unknown" "waiting for system-upgrade-controller bundle values availability" status)
             | Some values =>
                 match psp_values values with
                 | None => Ret (suc_condition "Unknown" waiting_reason status)
                 | Some psp => judge_psp psp obj status
                 end
             end
    end.
End agent.

(** ** The gate before 1.25

    Kubernetes 1.25 has no pod security policies, so the chart must be deployed without them before the nodes are
    upgraded.  The condition written here is what the planner waits for in [blockProgressForSUCPSPIf125]. *)

(** The images of a cluster come from the same registry, whether they are resolved for the cluster or for its control plane. *)
Lemma private_registry_agrees `{A : AgentDeps} cluster config cp :
  cs_RKEConfig (pc_Spec cluster) = Some config -> rkeControlPlane cluster config = Ret cp ->
  GetPrivateRepoURLFromCluster cluster = GetPrivateRepoURLFromControlPlane cp.
Proof.
  intros Hc. unfold rkeControlPlane. intros (b & _ & [= <-])%res_bind_Ret.
  unfold GetPrivateRepoURLFromCluster, GetPrivateRepoURLFromControlPlane, getPrivateRepoURL. rewrite Hc. cbn [cp_Spec sp_MachineGlobalConfig sp_MachineSelectorConfig].
  destruct (_ !! "system-default-registry") as [[]|]; try done; by destruct (selector_registry _).
Qed.

(** The metadata is read back, and its text is not empty. *)
Class SUCCodec `{AgentDeps} := {
  SUCMetadata_Marshal b : exists s, json_Marshal_SUCMetadata b = Ret s;
  SUCMetadata_roundtrip b s : json_Marshal_SUCMetadata b = Ret s -> s <> "" /\ json_Unmarshal_SUCMetadata s = Ret b
}.

Section gate.
Context `{A : AgentDeps} `{I : Installation} `{!SemverLaws} `{!CondLaws} `{!SUCCodec}.

Lemma base64_nonempty s : s <> "" -> base64_EncodeToString s <> "".
Proof.
  intros Hs E. pose proof (base64_roundtrip s) as Hr. rewrite E in Hr. by injection Hr as Hr.
Qed.

Lemma PSPsDisabled_metadata b s :
  json_Marshal_SUCMetadata b = Ret s -> systemUpgradeControllerPSPsDisabled (base64_EncodeToString s) = Ret (negb b).
Proof.
  intros Hs. destruct (SUCMetadata_roundtrip b s Hs) as [Hne Hu]. unfold systemUpgradeControllerPSPsDisabled.
  rewrite (bool_decide_eq_false_2 _ (base64_nonempty s Hne)), base64_roundtrip, Hu. done.
Qed.

(** The planner is held up by any status of the condition but [True]. *)
Lemma block_unless_true s cur lowest :
  LessThan cur Kubernetes125 = false -> LessThan lowest Kubernetes125 = true ->
  Cond_GetStatus SystemUpgradeControllerReady (st_Conditions s) ∈ ["False"; "Unknown"] -> blockProgressForSUCPSPIf125 s cur lowest <> Ret tt.
Proof.
  intros Hc Hl Hs. unfold blockProgressForSUCPSPIf125. rewrite Hc, Hl. cbn [negb andb].
  rewrite IsFalse_status, IsUnknown_status. destruct (_ || _ || _) eqn:E; [by destruct (_ !=? _)|].
  apply orb_false_iff in E as [E E3]. apply orb_false_iff in E as [_ E2]. apply bool_decide_eq_false in E2, E3. set_solver.
Qed.

Lemma suc_condition_status v reason s : Cond_GetStatus SystemUpgradeControllerReady (st_Conditions (suc_condition v reason s)) = v.
Proof. unfold suc_condition, cond_status. cbn. rewrite GetStatus_SetStatus. by rewrite bool_decide_eq_true_2. Qed.

Lemma block_suc_condition v reason s cur lowest :
  LessThan cur Kubernetes125 = false -> LessThan lowest Kubernetes125 = true -> v ∈ ["False"; "Unknown"] ->
  blockProgressForSUCPSPIf125 (suc_condition v reason s) cur lowest <> Ret tt.
Proof. intros Hc Hl Hv. apply block_unless_true; [done..|]. by rewrite suc_condition_status. Qed.

Lemma judge_psp_gate psp obj st st' cur lowest :
  judge_psp psp obj st = Ret st' -> NewVersion (sp_KubernetesVersion (cp_Spec obj)) = Ret cur ->
  LessThan cur Kubernetes125 = false -> LessThan lowest Kubernetes125 = true ->
  blockProgressForSUCPSPIf125 st' cur lowest = Ret tt -> map_field "enabled" psp = VBool false.
Proof.
  intros Hj Hv Hc Hl Hb. unfold judge_psp in Hj. rewrite Hv in Hj. cbn [res_bind] in Hj.
  destruct (map_field "enabled" psp) as [|b| | | | | |];
    try (injection Hj as <-; exfalso; revert Hb; apply block_suc_condition; [done..|set_solver]).
  destruct b; [|done]. exfalso. revert Hb. rewrite Hc in Hj. cbn [negb andb] in Hj. injection Hj as <-.
  apply block_unless_true; [done..|]. unfold cond_status. cbn. rewrite GetStatus_SetStatus, bool_decide_eq_true_2 by done. set_solver.
Qed.

Lemma rolled_out_true s : rolled_out s = true -> bs_Ready s = bs_DesiredReady s /\ bs_DesiredReady s <> 0%Z.
Proof. unfold rolled_out. rewrite andb_true_iff, negb_true_iff, Z.eqb_eq, Z.eqb_neq. done. Qed.

(** The gate is safe.  When the condition is brought up to date and the planner then goes on to a version without pod
    security policies while a node still runs one with them, the bundle of the chart is there, is rolled out completely,
    and is deployed with the policies switched off. *)
Theorem suc_gate_safe obj st st' cur lowest :
  syncSystemUpgradeControllerStatus obj st = Ret st' -> NewVersion (sp_KubernetesVersion (cp_Spec obj)) = Ret cur ->
  LessThan cur Kubernetes125 = false -> LessThan lowest Kubernetes125 = true ->
  blockProgressForSUCPSPIf125 st' cur lowest = Ret tt ->
  exists cluster name b values psp, provClusters_Get (cp_Namespace obj) (cp_Name obj) = Ret cluster
    /\ bundles_Get (ct_FleetWorkspaceName (pc_Status cluster)) name = Ret b /\ bs_Ready (bu_Summary b) = bs_DesiredReady (bu_Summary b)
    /\ bs_DesiredReady (bu_Summary b) <> 0%Z /\ bu_Values b = Some values /\ psp_values values = Some psp /\ map_field "enabled" psp = VBool false.
Proof.
  unfold syncSystemUpgradeControllerStatus. intros (cluster & Hcl & Hs)%res_bind_Ret Hv Hc Hl Hb.
  destruct (_ =? ""); [done|]. apply res_bind_Ret in Hs as (chart & _ & Hs). apply res_bind_Ret in Hs as (name & _ & Hs).
  destruct (bundles_Get _ name) as [b|e|] eqn:Eb; [| |done].
  - destruct (rolled_out (bu_Summary b)) eqn:Er; cbn [negb] in Hs;
      [|injection Hs as <-; by apply block_suc_condition in Hb; [|done|done|set_solver]].
    destruct (bu_Values b) as [values|] eqn:Ev; [|injection Hs as <-; by apply block_suc_condition in Hb; [|done|done|set_solver]].
    destruct (psp_values values) as [psp|] eqn:Ep; [|injection Hs as <-; by apply block_suc_condition in Hb; [|done|done|set_solver]].
    exists cluster, name, b, values, psp. destruct (rolled_out_true _ Er). pose proof (judge_psp_gate _ _ _ _ _ _ Hs Hv Hc Hl Hb). done.
  - destruct (IsNotFound e); [|done]. injection Hs as <-. by apply block_suc_condition in Hb; [|done|done|set_solver].
Qed.

(** The gate opens.  Once the bundle made from the chart of a cluster is stored and Fleet has rolled it out, the next
    look at it lets the planner of that cluster go on, whatever the version and the nodes are. *)
Theorem suc_gate_opens cluster mcc bundle deployed obj st cur :
  cs_RKEConfig (pc_Spec cluster) <> None -> ct_FleetWorkspaceName (pc_Status cluster) <> "" ->
  NewVersion (cs_KubernetesVersion (pc_Spec cluster)) = Ret cur ->
  OnChangeInstallSUC cluster = Ret [mcc] -> ManagedChart_OnChange mcc = Ret bundle ->
  bundles_Get (bu_Namespace bundle) (bu_Name bundle) = Ret deployed -> bu_Values deployed = bu_Values bundle ->
  rolled_out (bu_Summary deployed) = true ->
  provClusters_Get (cp_Namespace obj) (cp_Name obj) = Ret cluster -> cp_Name obj = pc_Name cluster ->
  sp_KubernetesVersion (cp_Spec obj) = cs_KubernetesVersion (pc_Spec cluster) ->
  exists st', syncSystemUpgradeControllerStatus obj st = Ret st' /\ forall lowest, blockProgressForSUCPSPIf125 st' cur lowest = Ret tt.
Proof.
  intros Hr Hw Hv Hm Hb Hd Hvals Hro Hcl Hname Hver. unfold OnChangeInstallSUC in Hm.
  rewrite (bool_decide_eq_false_2 _ Hr), (bool_decide_eq_false_2 (_ = "") Hw), Hv in Hm. cbn [res_bind] in Hm.
  apply res_bind_Ret in Hm as (name & Hn & [= <-]). unfold ManagedChart_OnChange in Hb. apply res_bind_Ret in Hb as (entries & _ & Hb).
  apply res_bind_Ret in Hb as (bname & Hbn & Hb). apply res_bind_Ret in Hb as (resources & _ & [= <-]). cbn in Hbn, Hd, Hvals.
  unfold syncSystemUpgradeControllerStatus. rewrite Hcl. cbn [res_bind]. rewrite (bool_decide_eq_false_2 (_ = "") Hw), Hname, Hn.
  cbn [res_bind]. rewrite Hbn. cbn [res_bind]. rewrite Hd, Hro, Hvals. cbn [negb].
  change (psp_values (suc_values (GetPrivateRepoURLFromCluster cluster) (LessThan cur Kubernetes125)))
    with (Some [("enabled", VBool (LessThan cur Kubernetes125))]).
  unfold judge_psp. rewrite Hver, Hv. cbn [res_bind]. change (map_field "enabled" [("enabled", VBool (LessThan cur Kubernetes125))]) with (VBool (LessThan cur Kubernetes125)).
  destruct (SUCMetadata_Marshal (LessThan cur Kubernetes125)) as [s Hs]. rewrite andb_comm, andb_negb_r, Hs. cbn [res_bind].
  eexists. split; [done|]. intros lowest. unfold blockProgressForSUCPSPIf125. destruct (LessThan cur Kubernetes125) eqn:El; [done|].
  destruct (LessThan lowest Kubernetes125); cbn [negb andb]; [|done]. unfold cond_status, cond_reason, cond_message. cbn [st_Conditions set_st_Conditions].
  rewrite IsFalse_status, IsUnknown_status, GetStatus_SetStatus, (bool_decide_eq_true_2 (SystemUpgradeControllerReady = _)) by done. cbn [orb].
  change (("True" =? "") || ("True" =? "False") || ("True" =? "Unknown")) with false. cbn iota.
  rewrite GetMessage_SetStatus, GetMessage_Reason, GetMessage_Message, (bool_decide_eq_true_2 (SystemUpgradeControllerReady = _)) by done.
  by rewrite (PSPsDisabled_metadata _ _ Hs).
Qed.
End gate.

Section witnesses.
#[local] Existing Instance demoExternal.
#[local] Existing Instance demoCustomPlanner.
#[local] Existing Instance demoCustomControllers.
#[local] Existing Instance demoUnmanagedDeps.
#[local] Existing Instance demoTemplateDeps.
#[local] Existing Instance demoInstallation.
#[local] Existing Instance demoSemverLaws.
#[local] Existing Instance demoCondLaws.

(** Fleet has rolled out the bundle with the given setting. *)
Definition demoAgentDeps : AgentDeps := {|
  registrationToken c n := Ret "token";
  provClusters_Get ns name := Ret (demoProvCluster demoPools);
  bundles_Get ns name := Ret (mkBundle ns name System "" (Some (suc_values "" false)) [] [] (mkBundleSummary 3 3 0 []));
  charts_Chart r c v := Ret [mkTarEntry "system-upgrade-controller/Chart.yaml" true "name: system-upgrade-controller"];
  json_Marshal_Object o := Ret (object_name_of o);
  json_Marshal_SUCMetadata b := Ret (if b then "pspEnabled" else "pspDisabled")
|}.
#[local] Existing Instance demoAgentDeps.

Lemma demoSUCCodec : SUCCodec.
Proof. split; intros [|]; [by eexists|by eexists|by intros s [= <-]|by intros s [= <-]]. Qed.
#[local] Existing Instance demoSUCCodec.

Lemma suc_gate_safe_witness :
  exists st' b, syncSystemUpgradeControllerStatus demoControlPlane demoStatus = Ret st'
    /\ blockProgressForSUCPSPIf125 st' ((1, 27, 4)%N : @semver demoExternal) ((1, 24, 9)%N : @semver demoExternal) = Ret tt
    /\ bs_Ready (bu_Summary b) = bs_DesiredReady (bu_Summary b).
Proof.
  eassert (syncSystemUpgradeControllerStatus demoControlPlane demoStatus = Ret _) as E by (vm_compute; reflexivity).
  destruct (suc_gate_safe demoControlPlane demoStatus _ ((1, 27, 4)%N : @semver demoExternal) ((1, 24, 9)%N : @semver demoExternal) E eq_refl eq_refl eq_refl
              ltac:(vm_compute; reflexivity)) as (c & name & b & values & psp & _ & _ & Hr & _).
  eexists _, b. split; [exact E|]. split; [vm_compute; reflexivity|exact Hr].
Defined.

Lemma suc_gate_opens_witness :
  exists st', syncSystemUpgradeControllerStatus demoControlPlane demoStatus = Ret st'
    /\ forall lowest, blockProgressForSUCPSPIf125 st' ((1, 27, 4)%N : @semver demoExternal) lowest = Ret tt.
Proof.
  eapply (suc_gate_opens (demoProvCluster demoPools) _ _ _ demoControlPlane demoStatus ((1, 27, 4)%N : @semver demoExternal));
    [discriminate|discriminate|reflexivity|reflexivity|reflexivity|reflexivity|reflexivity|reflexivity|reflexivity|reflexivity|reflexivity].
Defined.
End witnesses.
