(* ===== verification/Encodings.v ===== *)
(** * Durations and further encodings of Go's standard library

    Durations come first.  Then [base64.RawStdEncoding], base32 without padding, hexadecimal texts of bytes and the scanner of [fmt], as the
    hashing of tokens and the names of users need them. *)

From Stdlib Require Import SpecFloat.
From S2P Require Import Prelude GoLib Codec Errors.

(** * Durations ([time] of Go's standard library)

    A duration is an [int64] of nanoseconds; products wrap around, differences of times saturate. *)

Definition Millisecond : Z := 10 ^ 6.
Definition Second : Z := 10 ^ 9.
Definition Minute : Z := 60 * Second.
Definition Hour : Z := 60 * Minute.

(** A value within the range is kept, and every result is within it. *)

Lemma wrap64_id z : int64_min <= z <= int64_max -> wrap64 z = z.
Proof. unfold int64_min, int64_max, wrap64. intros H. rewrite Z.mod_small; lia. Qed.

Lemma wrap64_range z : int64_min <= wrap64 z <= int64_max.
Proof. unfold int64_min, int64_max, wrap64. pose proof (Z.mod_pos_bound (z + 2 ^ 63) (2 ^ 64) ltac:(lia)). lia. Qed.

(** [time.Duration(n) * time.Millisecond] *)
Definition millis (n : Z) : Z := wrap64 (n * Millisecond).

(** [d.Milliseconds()]: Go's division truncates. *)
Definition Milliseconds (d : Z) : Z := Z.quot d Millisecond.

(** [t.Sub(u)] of two times in nanoseconds. *)
Definition time_Sub (t u : Z) : Z := Z.max int64_min (Z.min int64_max (t - u)).

(** [d.Seconds()] *)
Definition f64_add : float64 -> float64 -> float64 := SFadd 53 1024.
Definition Seconds (d : Z) : float64 := f64_add (f64_of_Z (Z.quot d Second)) (f64_div (f64_of_Z (Z.rem d Second)) (f64_of_Z Second)).
Definition f64_ge (a b : float64) : bool := SFleb b a.

(** ** [time.ParseDuration] *)

Definition digit_val (c : Ascii.ascii) : option Z :=
  let n := Ascii.nat_of_ascii c in if ((48 <=? n) && (n <=? 57))%nat then Some (Z.of_nat n - 48) else None.

Definition is_dot (c : Ascii.ascii) : bool := bool_decide (Ascii.nat_of_ascii c = 46%nat).

(** Digits up to [2 ^ 63]; [None] on overflow. *)
Fixpoint leadingInt (x : Z) (s : string) : option (Z * string) :=
  match s with
  | EmptyString => Some (x, s)
  | String c s' =>
      match digit_val c with
      | None => Some (x, s)
      | Some d =>
          if 2 ^ 63 / 10 <? x then None
          else let x := x * 10 + d in if 2 ^ 63 <? x then None else leadingInt x s'
      end
  end.

(** Digits that do not fit any more are dropped; the second result is the power of ten read. *)
Fixpoint leadingFraction (x : Z) (scale : Z) (overflow : bool) (s : string) : Z * Z * string :=
  match s with
  | EmptyString => (x, scale, s)
  | String c s' =>
      match digit_val c with
      | None => (x, scale, s)
      | Some d =>
          if overflow then leadingFraction x scale true s'
          else if (2 ^ 63 - 1) / 10 <? x then leadingFraction x scale true s'
          else let y := x * 10 + d in
               if 2 ^ 63 <? y then leadingFraction x scale true s' else leadingFraction y (scale * 10) false s'
      end
  end.

Fixpoint span_unit (s : string) : string * string :=
  match s with
  | EmptyString => ("", "")
  | String c s' => if is_dot c then ("", s) else match digit_val c with Some _ => ("", s) | None => let '(a, b) := span_unit s' in (String c a, b) end
  end.

Definition unitMap (u : string) : option Z :=
  if u =? "ns" then Some 1
  else if (u =? "us") || (u =? "µs") || (u =? "μs") then Some (10 ^ 3)
  else if u =? "ms" then Some Millisecond
  else if u =? "s" then Some Second
  else if u =? "m" then Some Minute
  else if u =? "h" then Some Hour
  else None.

(** A conversion of a finite float to [uint64] truncates. *)
Definition f64_trunc (x : float64) : Z :=
  match x with
  | S754_finite s m e => let a := if (0 <=? e) then Z.pos m * 2 ^ e else Z.pos m / 2 ^ (- e) in if s then - a else a
  | _ => 0
  end.

(** One number with its unit. *)
Definition duration_item (s : string) : option (Z * string) :=
  match s with
  | EmptyString => None
  | String c _ =>
      if negb (is_dot c || match digit_val c with Some _ => true | None => false end) then None
      else match leadingInt 0 s with
           | None => None
           | Some (v, s1) =>
               let pre := negb (String.length s =? String.length s1)%nat in
               let '(f, scale, s2, post) :=
                 match s1 with
                 | String c1 s1' =>
                     if is_dot c1 then let '(f, scale, s2) := leadingFraction 0 1 false s1' in
                                       (f, scale, s2, negb (String.length s1' =? String.length s2)%nat)
                     else (0, 1, s1, false)
                 | EmptyString => (0, 1, s1, false)
                 end in
               if negb pre && negb post then None
               else let '(u, rest) := span_unit s2 in
                    match unitMap u with
                    | None => None
                    | Some unit =>
                        if 2 ^ 63 / unit <? v then None
                        else let v := v * unit in
                             let v := if 0 <? f then v + f64_trunc (f64_mul (f64_of_Z f) (f64_div (f64_of_Z unit) (f64_of_Z scale))) else v in
                             if 2 ^ 63 <? v then None else Some (v, rest)
                    end
           end
  end.

(** Every item is at least one character long. *)
Fixpoint duration_items (fuel : nat) (d : Z) (s : string) : option Z :=
  match s with
  | EmptyString => Some d
  | String _ _ =>
      match fuel with
      | O => None
      | S fuel' =>
          match duration_item s with
          | None => None
          | Some (v, rest) => let d := d + v in if 2 ^ 63 <? d then None else duration_items fuel' d rest
          end
      end
  end.

Definition ParseDuration (orig : string) : res Z :=
  let invalid := Fail (errorString ("time: invalid duration " +:+ quote orig)) in
  let '(neg, s) := match orig with
                   | String c s' => if bool_decide (Ascii.nat_of_ascii c = 45%nat) then (true, s')
                                    else if bool_decide (Ascii.nat_of_ascii c = 43%nat) then (false, s') else (false, orig)
                   | EmptyString => (false, orig)
                   end in
  if s =? "0" then Ret 0
  else if s =? "" then invalid
  else match duration_items (String.length s) 0 s with
       | None => invalid
       | Some d => if neg then Ret (wrap64 (- d)) else if 2 ^ 63 - 1 <? d then invalid else Ret d
       end.

Example ParseDuration_examples :
  (ParseDuration "129600m", ParseDuration "1h30m", ParseDuration "1.5m", ParseDuration "-.5s", ParseDuration "m")
  = (Ret (129600 * Minute), Ret (90 * Minute), Ret (90 * Second), Ret (- 500 * Millisecond), Fail (errorString ("time: invalid duration " +:+ quote "m"))).
Proof. vm_compute. reflexivity. Qed.

(** The fuel is enough: what an item leaves is shorter than what it was given. *)
Lemma leadingInt_length s : forall x v rest, leadingInt x s = Some (v, rest) -> (String.length rest <= String.length s)%nat.
Proof.
  induction s as [|c s IH]; intros x v rest; simpl; [intros [= <- <-]; done|].
  destruct (digit_val c); [|intros [= <- <-]; done]. repeat case_match; try done. intros ?%IH. lia.
Qed.

Lemma leadingFraction_length s : forall x sc o, (String.length (snd (leadingFraction x sc o s)) <= String.length s)%nat.
Proof.
  induction s as [|c s IH]; intros x sc o; simpl; [done|].
  destruct (digit_val c); [|done]. repeat case_match; etrans; try apply IH; lia.
Qed.

Lemma span_unit_length s : forall u rest, span_unit s = (u, rest) -> (String.length u + String.length rest = String.length s)%nat.
Proof.
  induction s as [|c s IH]; intros u rest; simpl; [intros [= <- <-]; done|].
  destruct (is_dot c); [intros [= <- <-]; done|]. destruct (digit_val c); [intros [= <- <-]; done|].
  destruct (span_unit s) as [a b]. intros [= <- <-]. simpl. by rewrite (IH a b).
Qed.

Lemma duration_item_shorter s v rest : duration_item s = Some (v, rest) -> (String.length rest < String.length s)%nat.
Proof.
  unfold duration_item. destruct s as [|c s]; [done|]. destruct (negb _); [done|].
  destruct (leadingInt 0 (String c s)) as [[v0 s1]|] eqn:E1; [|done]. apply leadingInt_length in E1.
  set (frac := match s1 with String c1 s1' => _ | EmptyString => _ end).
  assert (String.length (snd (fst frac)) <= String.length s1)%nat as E2.
  { unfold frac. destruct s1 as [|c1 s1']; [done|]. destruct (is_dot c1); [|done].
    pose proof (leadingFraction_length s1' 0 1 false) as Hl. destruct (leadingFraction 0 1 false s1') as [[f sc] s2]. simpl in *. lia. }
  destruct frac as [[[f sc] s2] post]. simpl in E2. destruct (negb _ && negb post); [done|].
  destruct (span_unit s2) as [u r] eqn:E3. apply span_unit_length in E3.
  destruct (unitMap u) as [unit|] eqn:Eu; [|done]. assert (u <> "") as Hu by by intros ->.
  assert (String.length u <> 0)%nat by (by destruct u).
  repeat case_match; try done; intros [= <- <-]; simpl in *; lia.
Qed.

Lemma duration_items_fuel n : forall m d s,
  (String.length s <= n)%nat -> (String.length s <= m)%nat -> duration_items n d s = duration_items m d s.
Proof.
  induction n as [|n IH]; intros m d s Hn Hm.
  - destruct s; [by destruct m|simpl in Hn; lia].
  - destruct s as [|c s]; [by destruct m|]. destruct m as [|m]; [simpl in Hm; lia|]. cbn [duration_items].
    destruct (duration_item (String c s)) as [[v rest]|] eqn:E; [|done]. apply duration_item_shorter in E.
    case_match; [done|]. simpl in *. apply IH; lia.
Qed.

(** * Encodings *)

#[local] Open Scope N_scope.

(** ** Base64 without padding *)

Fixpoint raw64_encode (l : list N) : string :=
  match l with
  | a :: b :: c :: l' =>
      let n := a * 65536 + b * 256 + c in
      String (b64_char (n / 262144)) (String (b64_char (n / 4096 mod 64))
        (String (b64_char (n / 64 mod 64)) (String (b64_char (n mod 64)) (raw64_encode l'))))
  | [a; b] =>
      let n := a * 1024 + b * 4 in
      String (b64_char (n / 4096)) (String (b64_char (n / 64 mod 64)) (String (b64_char (n mod 64)) ""))
  | [a] => let n := a * 16 in String (b64_char (n / 64)) (String (b64_char (n mod 64)) "")
  | [] => ""
  end.

(** A last group of two or three characters stands for one or two bytes; its spare bits are dropped. *)
Fixpoint raw64_decode (s : string) : option (list N) :=
  match s with
  | EmptyString => Some []
  | String c1 (String c2 (String c3 (String c4 s'))) =>
      match b64_val c1, b64_val c2, b64_val c3, b64_val c4 with
      | Some v1, Some v2, Some v3, Some v4 =>
          let n := v1 * 262144 + v2 * 4096 + v3 * 64 + v4 in
          (fun l => n / 65536 :: n / 256 mod 256 :: n mod 256 :: l) <$> raw64_decode s'
      | _, _, _, _ => None
      end
  | String c1 (String c2 (String c3 EmptyString)) =>
      match b64_val c1, b64_val c2, b64_val c3 with
      | Some v1, Some v2, Some v3 => let n := (v1 * 4096 + v2 * 64 + v3) / 4 in Some [n / 256; n mod 256]
      | _, _, _ => None
      end
  | String c1 (String c2 EmptyString) =>
      match b64_val c1, b64_val c2 with
      | Some v1, Some v2 => Some [(v1 * 64 + v2) / 16]
      | _, _ => None
      end
  | String _ EmptyString => None
  end.

Definition RawStd_EncodeToString (l : list N) : string := raw64_encode l.
Definition RawStd_DecodeString (s : string) : option (list N) := raw64_decode (strip_crlf s).

Lemma raw64_decode_encode l : Forall (fun b => b < 256) l -> raw64_decode (raw64_encode l) = Some l.
Proof.
  induction l as [| a | a b | a b c l IH] using list_ind3; intros Hl; cbn [raw64_encode raw64_decode]; [done|..];
    repeat match goal with H : Forall _ (_ :: _) |- _ => inv H end; b64_char_tac.
  - do 2 f_equal. div_lia.
  - do 3 f_equal; [|f_equal]; div_lia.
  - rewrite IH by done. simpl. f_equal. f_equal; [|f_equal; [|f_equal]]; div_lia.
Qed.

(** The characters of an encoding; neither of the separators of a hash is one. *)
Definition b64_alphabet (c : Ascii.ascii) : bool := match b64_val c with Some _ => true | None => false end.

Fixpoint all_chars (p : Ascii.ascii -> bool) (s : string) : bool :=
  match s with EmptyString => true | String c s' => p c && all_chars p s' end.

Lemma all_chars_app p a b : all_chars p (a +:+ b) = all_chars p a && all_chars p b.
Proof. induction a as [|c a IH]; simpl; [done|]. by rewrite IH, andb_assoc. Qed.

Lemma all_chars_impl (p q : Ascii.ascii -> bool) s :
  (forall c, p c = true -> q c = true) -> all_chars p s = true -> all_chars q s = true.
Proof. intros Hpq. induction s as [|c s IH]; simpl; [done|]. intros [Hc Hs]%andb_true_iff. by rewrite (Hpq c), IH. Qed.

Lemma all_chars_count p c s : all_chars p s = true -> p c = false -> Count_char c s = O.
Proof.
  intros Hs Hc. induction s as [|d s IH]; simpl in *; [done|]. apply andb_true_iff in Hs as [Hd Hs].
  rewrite bool_decide_eq_false_2 by congruence. by rewrite IH.
Qed.

Lemma b64_alphabet_char n : n < 64 -> b64_alphabet (b64_char n) = true.
Proof. intros Hn. unfold b64_alphabet. by rewrite (proj1 (b64_char_facts n Hn)). Qed.

Lemma raw64_alphabet l : Forall (fun b => b < 256) l -> all_chars b64_alphabet (raw64_encode l) = true.
Proof.
  intros Hl. induction l as [| a | a b | a b c l IH] using list_ind3; cbn [raw64_encode all_chars]; [done|..];
    repeat match goal with H : Forall _ (_ :: _) |- _ => inv H end;
    rewrite ?b64_alphabet_char by div_lia; [done|done|]. by rewrite IH.
Qed.

Lemma strip_crlf_alphabet s : all_chars b64_alphabet s = true -> strip_crlf s = s.
Proof.
  intros Hs. unfold strip_crlf. rewrite <- (string_of_bytes_of s) at 2. f_equal.
  induction s as [|c s IH]; simpl in *; [done|]. apply andb_true_iff in Hs as [Hc Hs].
  assert (byte_val c <> 10 /\ byte_val c <> 13) as [H1 H2].
  { unfold b64_alphabet, b64_val, byte_val in *. split; intros E; by rewrite E in Hc. }
  rewrite (proj2 (N.eqb_neq _ _) H1), (proj2 (N.eqb_neq _ _) H2). simpl. by rewrite IH.
Qed.

Lemma RawStd_roundtrip l : Forall (fun b => b < 256) l -> RawStd_DecodeString (RawStd_EncodeToString l) = Some l.
Proof.
  intros Hl. unfold RawStd_DecodeString, RawStd_EncodeToString.
  by rewrite strip_crlf_alphabet, raw64_decode_encode by auto using raw64_alphabet.
Qed.

(** ** Base32 without padding *)

(** Five bytes give eight digits; a last group is filled with zero bits. *)
Definition b32_digits (l : list N) : list N :=
  let n := fold_left (fun acc b => acc * 256 + b) (take 5 (l ++ [0; 0; 0; 0; 0])) 0 in
  take (Nat.div (8 * length l + 4) 5) (map (fun i => n / 2 ^ (35 - 5 * N.of_nat i) mod 32) (seq 0 8)).

Fixpoint b32_groups (l : list N) : list N :=
  match l with
  | a :: b :: c :: d :: e :: l' => b32_digits [a; b; c; d; e] ++ b32_groups l'
  | [] => []
  | _ => b32_digits l
  end.

Definition b32_std (n : N) : Ascii.ascii := Ascii.ascii_of_N (if n <? 26 then 65 + n else 24 + n).
Definition b32_hex (n : N) : Ascii.ascii := Ascii.ascii_of_N (if n <? 10 then 48 + n else 55 + n).

Fixpoint string_of (l : list Ascii.ascii) : string :=
  match l with [] => "" | c :: l' => String c (string_of l') end.

(** [base32.StdEncoding] and [base32.HexEncoding], both without padding. *)
Definition base32_Std (l : list N) : string := string_of (map b32_std (b32_groups l)).
Definition base32_Hex (l : list N) : string := string_of (map b32_hex (b32_groups l)).

(** Test vectors of RFC 4648. *)
Example base32_foobar :
  (base32_Std (bytes_of "foobar"), base32_Std (bytes_of "foob"), base32_Hex (bytes_of "fooba"), base32_Hex (bytes_of "fo"))
  = ("MZXW6YTBOI", "MZXW6YQ", "CPNMUOJ1", "CPNG").
Proof. vm_compute. reflexivity. Qed.

Lemma b32_digits_bound l : Forall (fun d => d < 32) (b32_digits l).
Proof.
  unfold b32_digits. apply Forall_take, Forall_forall. intros d Hd.
  apply list_elem_of_In, in_map_iff in Hd as (i & <- & _). by apply N.mod_lt.
Qed.

Lemma b32_groups_bound l : Forall (fun d => d < 32) (b32_groups l).
Proof.
  revert l. fix IH 1. intros [|a [|b [|c [|d [|e l]]]]]; cbn [b32_groups]; try apply b32_digits_bound; [constructor|].
  apply Forall_app. split; [apply b32_digits_bound|apply IH].
Qed.

Lemma length_b32_groups l : length (b32_groups l) = Nat.div (8 * length l + 4) 5.
Proof.
  assert (forall l, (length l <= 5)%nat -> length (b32_digits l) = Nat.div (8 * length l + 4) 5) as Hd.
  { intros l' Hl. unfold b32_digits. rewrite length_take, length_map, length_seq.
    apply Nat.min_l, Nat.lt_succ_r, Nat.Div0.div_lt_upper_bound. lia. }
  revert l. fix IH 1. intros [|a [|b [|c [|d [|e l]]]]]; cbn [b32_groups]; try (apply Hd; simpl; lia); [done|].
  rewrite length_app, IH, Hd by (simpl; lia). cbn [length].
  replace (8 * S (S (S (S (S (length l))))) + 4)%nat with (8 * length l + 4 + 8 * 5)%nat by lia.
  rewrite Nat.div_add by lia. change (Nat.div (8 * 5 + 4) 5) with 8%nat. lia.
Qed.

Lemma length_string_of l : String.length (string_of l) = length l.
Proof. induction l as [|c l IH]; simpl; by rewrite ?IH. Qed.

Lemma take_string_of n l : take_str n (string_of l) = string_of (take n l).
Proof. revert l. induction n as [|n IH]; intros [|c l]; simpl; by rewrite ?IH. Qed.

(** The letters and digits of a lower-case name. *)
Definition lower_alnum (c : Ascii.ascii) : bool :=
  let n := Ascii.N_of_ascii c in (97 <=? n) && (n <=? 122) || (48 <=? n) && (n <=? 57).

Lemma b32_std_lower d : d < 32 -> lower_alnum (lower_ascii (b32_std d)) = true.
Proof.
  intros Hd. assert (forallb (fun i => lower_alnum (lower_ascii (b32_std (N.of_nat i)))) (seq 0 32) = true) as Hall by (vm_compute; reflexivity).
  rewrite forallb_forall in Hall. rewrite <- (N2Nat.id d). apply Hall, in_seq. lia.
Qed.

Lemma ToLower_string_of l : ToLower (string_of l) = string_of (map lower_ascii l).
Proof. unfold ToLower. induction l as [|c l IH]; simpl; by rewrite ?IH. Qed.

Lemma all_chars_string_of p l : all_chars p (string_of l) = forallb p l.
Proof. induction l as [|c l IH]; simpl; by rewrite ?IH. Qed.

Lemma base32_lower n l : all_chars lower_alnum (ToLower (take_str n (base32_Std l))) = true.
Proof.
  unfold base32_Std. rewrite take_string_of, ToLower_string_of, all_chars_string_of. apply forallb_forall. intros c Hc.
  apply in_map_iff in Hc as (x & <- & Hx). apply list_elem_of_In, (subseteq_take n) in Hx.
  apply list_elem_of_In, in_map_iff in Hx as (d & <- & Hd). apply b32_std_lower.
  pose proof (b32_groups_bound l) as Hb. rewrite Forall_forall in Hb. by apply Hb, list_elem_of_In.
Qed.
