(* ===== verification/Hashers.v ===== *)
(** * Hashes of tokens ([auth/tokens/hashers])

    The keys of tokens are stored as salted hashes.  A stored hash names the version of its hasher, so hashes of older
    versions can still be verified. *)

From S2P Require Import Prelude GoLib Codec Errors Encodings.

(** The digests of [golang.org/x/crypto]. *)
Class HashDeps := {
  sha3_Sum512 : string -> list N;
  scrypt_Key : string -> list N -> Z -> Z -> Z -> Z -> res (list N)     (** password, salt, N, r, p, keyLen *)
}.

(** Digests are bytes, of the length of the algorithm. *)
Class HashLaws `{HashDeps} := {
  sha3_Sum512_length s : length (sha3_Sum512 s) = 64%nat;
  sha3_Sum512_bytes s : Forall (fun b => b < 256)%N (sha3_Sum512 s);
  scrypt_Key_length p s n r q k d : scrypt_Key p s n r q k = Ret d -> Z.of_nat (length d) = k;
  scrypt_Key_bytes p s n r q k d : scrypt_Key p s n r q k = Ret d -> Forall (fun b => b < 256)%N d
}.

(** ** [fmt.Sscanf]

    A scanner takes a value off the front of the input; [None] is an error. *)

Definition scanner (A : Type) : Type := string -> option (A * string).

(** Spaces before an operand are skipped; a line feed is an error. *)
Fixpoint SkipSpace (s : string) : option string :=
  match s with
  | EmptyString => Some ""
  | String c s' =>
      if bool_decide (Ascii.nat_of_ascii c = 10%nat) then None
      else if is_space c then SkipSpace s' else Some s
  end.

Definition is_digit (c : Ascii.ascii) : bool := let n := Ascii.nat_of_ascii c in ((48 <=? n) && (n <=? 57))%nat.

Fixpoint span (p : Ascii.ascii -> bool) (s : string) : string * string :=
  match s with
  | EmptyString => ("", "")
  | String c s' => if p c then let '(a, b) := span p s' in (String c a, b) else ("", s)
  end.

(** [%d] into a [uint] and into an [int]. *)
Definition scanUint : scanner N := fun s =>
  match SkipSpace s with
  | None => None
  | Some s =>
      let '(tok, rest) := span is_digit s in
      match parse_uint tok with
      | Some z => if (z <? 2 ^ 64)%Z then Some (Z.to_N z, rest) else None
      | None => None
      end
  end.

Definition scanInt : scanner Z := fun s =>
  match SkipSpace s with
  | None => None
  | Some s =>
      let '(sign, s) := match s with
                        | String c s' => if bool_decide (Ascii.nat_of_ascii c ∈ [43%nat; 45%nat]) then (String c "", s') else ("", s)
                        | EmptyString => ("", s)
                        end in
      let '(tok, rest) := span is_digit s in
      match Atoi (sign +:+ tok) with Some z => Some (z, rest) | None => None end
  end.

Definition hex_val (c : Ascii.ascii) : option N :=
  let n := Ascii.N_of_ascii c in
  if ((48 <=? n) && (n <=? 57))%N then Some (n - 48)%N
  else if ((97 <=? n) && (n <=? 102))%N then Some (n - 87)%N
  else if ((65 <=? n) && (n <=? 70))%N then Some (n - 55)%N else None.

Fixpoint hex_bytes (s : string) : option (list N * string) :=
  match s with
  | EmptyString => Some ([], "")
  | String c1 s1 =>
      match hex_val c1 with
      | None => Some ([], s)
      | Some v1 =>
          match s1 with
          | EmptyString => None
          | String c2 s2 =>
              match hex_val c2 with
              | None => None
              | Some v2 => match hex_bytes s2 with Some (l, rest) => Some ((v1 * 16 + v2)%N :: l, rest) | None => None end
              end
          end
      end
  end.

(** [%x] into bytes, of which there must be one at least. *)
Definition scanHex : scanner (list N) := fun s =>
  match SkipSpace s with
  | None => None
  | Some s => match hex_bytes s with Some ([], _) => None | r => r end
  end.

(** [%s]: the text up to the next space; not at the end of the input. *)
Definition scanString : scanner string := fun s =>
  match SkipSpace s with
  | None | Some EmptyString => None
  | Some s => Some (span (fun c => negb (is_space c)) s)
  end.

Definition scanLiteral (l : string) : scanner unit := fun s =>
  if HasPrefix s l then Some (tt, drop_str (String.length l) s) else None.

Notation "'let%' x ':=' c 'in' k" := (match c with Some x => k | None => None end)
  (at level 10, x pattern, c at level 200, k at level 200, only parsing).

(** The format of scrypt hashes: [$%d:%x:%d:%d:%d:%s]. *)
Definition Sscanf_scrypt (s : string) : option (N * list N * N * Z * Z * string) :=
  let% (_, s) := scanLiteral "$" s in
  let% (version, s) := scanUint s in
  let% (_, s) := scanLiteral ":" s in
  let% (salt, s) := scanHex s in
  let% (_, s) := scanLiteral ":" s in
  let% (n, s) := scanUint s in
  let% (_, s) := scanLiteral ":" s in
  let% (r, s) := scanInt s in
  let% (_, s) := scanLiteral ":" s in
  let% (p, s) := scanInt s in
  let% (_, s) := scanLiteral ":" s in
  let% (enc, _) := scanString s in
  Some (version, salt, n, r, p, enc).

(** [strings.SplitN(s, sep, 3)]. *)
Definition SplitN3 (s sep : string) : list string :=
  match cut sep s with Some (a, b) => a :: SplitN2 b sep | None => [s] end.

(** ** Hashers *)

Definition ScryptVersion : Z := 1.
Definition SHA256Version : Z := 2.
Definition SHA3Version : Z := 3.
Definition sha512variation : Z := 1.

Inductive Hasher := ScryptHasher | Sha256Hasher | Sha3Hasher.

#[global] Instance Hasher_eq_dec : EqDecision Hasher.
Proof. solve_decision. Defined.

Definition GetHasher : Hasher := Sha3Hasher.

Definition GetHashVersion (hash : string) : res Z :=
  match SplitN3 (TrimPrefix hash "$") ":" with
  | [v; _; _] => match Atoi v with Some version => Ret version | None => Fail (errorString "unable to convert hash version") end
  | _ => Fail (errorString "hash format invalid")
  end.

Definition GetHasherForHash (hash : string) : res Hasher :=
  match GetHashVersion hash with
  | Panic => Panic
  | Fail err => Fail (wrapError ("unable to determine version for hash, " +:+ Error err) err)
  | Ret version =>
      if version =? ScryptVersion then Ret ScryptHasher
      else if version =? SHA256Version then Ret Sha256Hasher
      else if version =? SHA3Version then Ret Sha3Hasher
      else Fail (errorString ("invalid version " +:+ Itoa version +:+ ", no hasher exists for that version"))
  end.

(** [1 << n] at the type [int]. *)
Definition shl_one (n : N) : Z := if (n <? 63)%N then 2 ^ Z.of_N n else if (n =? 63)%N then int64_min else 0.

(** The conversion of an unsigned number to [int]. *)
Definition int_of_uint (n : N) : Z := if (n <? 2 ^ 63)%N then Z.of_N n else Z.of_N n - 2 ^ 64.

Definition mismatch : error := errorString "secretKey hash does not match".
Definition bad_version (version want : Z) : error :=
  errorString ("hash version " +:+ Itoa version +:+ " does not match package version " +:+ Itoa want).
Definition RawStd_Decode (s : string) : res (list N) :=
  match RawStd_DecodeString s with Some l => Ret l | None => Fail (errorString "illegal base64 data") end.
Definition Atoi_err (s : string) : res Z :=
  match Atoi s with Some z => Ret z | None => Fail (errorString ("strconv.Atoi: parsing " +:+ quote s +:+ ": invalid syntax")) end.

Section hashers.
Context `{HashDeps}.

(** [subtle.ConstantTimeCompare]: equality. *)
Definition compare_key (decodedKey hashed : list N) : res unit := if bool_decide (decodedKey = hashed) then Ret tt else Fail mismatch.

(** The salt is what [rand.Read] gives. *)
Definition Scrypt_CreateHash (rand : res (list N)) (secretKey : string) : res string :=
  let? salt := rand in
  let? dk := scrypt_Key secretKey salt (shl_one 15) 8 1 64 in
  Ret ("$" +:+ Itoa ScryptVersion +:+ ":" +:+ hex_EncodeToString salt +:+ ":" +:+ Itoa 15 +:+ ":" +:+ Itoa 8 +:+ ":" +:+ Itoa 1
       +:+ ":" +:+ RawStd_EncodeToString dk).

Definition Scrypt_VerifyHash (hash secretKey : string) : res unit :=
  match Sscanf_scrypt hash with
  | None => Fail (errorString "input does not match format")
  | Some (version, salt, n, r, p, enc) =>
      if int_of_uint version !=? ScryptVersion then Fail (bad_version (int_of_uint version) ScryptVersion)
      else
        let? dk := RawStd_Decode enc in
        let? verify := scrypt_Key secretKey salt (shl_one n) r p (Z.of_nat (length dk)) in
        compare_key dk verify
  end.

Definition Sha256_CreateHash (rand : res (list N)) (secretKey : string) : res string :=
  let? salt := rand in
  let hash := sha256_Sum256 (string_of_bytes salt +:+ secretKey) in
  Ret ("$" +:+ Itoa SHA256Version +:+ ":" +:+ RawStd_EncodeToString salt +:+ ":" +:+ RawStd_EncodeToString hash).

Definition Sha256_VerifyHash (hash secretKey : string) : res unit :=
  if negb (HasPrefix hash "$") then Fail (errorString "hash format invalid")
  else match SplitN3 (TrimPrefix hash "$") ":" with
       | [v; salt; enc] =>
           let? version := Atoi_err v in
           if version !=? SHA256Version then Fail (bad_version version SHA256Version)
           else
             let? decodedKey := RawStd_Decode enc in
             if bool_decide (decodedKey = []) then Fail mismatch
             else
               let? decodedSalt := RawStd_Decode salt in
               compare_key decodedKey (sha256_Sum256 (string_of_bytes decodedSalt +:+ secretKey))
       | _ => Fail (errorString "hash format invalid")
       end.

Definition Sha3_CreateHash (rand : res (list N)) (secretKey : string) : res string :=
  match rand with
  | Panic => Panic
  | Fail err => Fail (wrapError ("unable to read random values for salt: " +:+ Error err) err)
  | Ret salt =>
      let hash := sha3_Sum512 (string_of_bytes salt +:+ secretKey) in
      Ret ("$" +:+ Itoa SHA3Version +:+ ":" +:+ Itoa sha512variation +:+ ":" +:+ RawStd_EncodeToString salt +:+ ":" +:+ RawStd_EncodeToString hash)
  end.

Definition Sha3_VerifyHash (hash secretKey : string) : res unit :=
  if negb (HasPrefix hash "$") then Fail (errorString "hash format invalid")
  else match Split (TrimPrefix hash "$") ":" with
       | [v; variation; salt; enc] =>
           let? version := Atoi_err v in
           if version !=? SHA3Version then Fail (bad_version version SHA3Version)
           else
             match Atoi variation with
             | None => Fail (errorString "unable to convert hash variation to an int")
             | Some variationVersion =>
                 if variationVersion !=? sha512variation then
                   Fail (errorString ("sha3 variation " +:+ Itoa variationVersion +:+ " is not a known variation: [" +:+ Itoa sha512variation +:+ "]"))
                 else
                   let? decodedKey := RawStd_Decode enc in
                   if bool_decide (decodedKey = []) then Fail mismatch
                   else
                     let? decodedSalt := RawStd_Decode salt in
                     compare_key decodedKey (sha3_Sum512 (string_of_bytes decodedSalt +:+ secretKey))
             end
       | _ => Fail (errorString "hash format invalid")
       end.

(** The interface [Hasher]. *)
Definition CreateHash (h : Hasher) : res (list N) -> string -> res string :=
  match h with ScryptHasher => Scrypt_CreateHash | Sha256Hasher => Sha256_CreateHash | Sha3Hasher => Sha3_CreateHash end.
Definition VerifyHash (h : Hasher) : string -> string -> res unit :=
  match h with ScryptHasher => Scrypt_VerifyHash | Sha256Hasher => Sha256_VerifyHash | Sha3Hasher => Sha3_VerifyHash end.

(** ** Hashes verify *)

(** What is compared: the digest of a key under a salt. *)
Definition digest (h : Hasher) (salt : list N) (key : string) : res (list N) :=
  match h with
  | ScryptHasher => scrypt_Key key salt 32768 8 1 64
  | Sha256Hasher => Ret (sha256_Sum256 (string_of_bytes salt +:+ key))
  | Sha3Hasher => Ret (sha3_Sum512 (string_of_bytes salt +:+ key))
  end.

Definition colon : Ascii.ascii := Ascii.ascii_of_nat 58.
Definition bytes (l : list N) : Prop := Forall (fun b => b < 256)%N l.

Lemma TrimPrefix_app p s : TrimPrefix (p +:+ s) p = s.
Proof. unfold TrimPrefix. by rewrite HasPrefix_app, drop_str_app. Qed.

Lemma SplitN3_parts a b c :
  Count_char colon a = O -> Count_char colon b = O -> SplitN3 (a +:+ ":" +:+ b +:+ ":" +:+ c) ":" = [a; b; c].
Proof.
  intros Ha Hb. unfold SplitN3, SplitN2. change ":" with (String colon ""). simpl.
  by rewrite cut_char, cut_char.
Qed.

Lemma RawStd_no_colon l : bytes l -> Count_char colon (RawStd_EncodeToString l) = O.
Proof. intros Hl. eapply all_chars_count; [by apply raw64_alphabet|reflexivity]. Qed.

Lemma RawStd_Decode_Encode l : bytes l -> RawStd_Decode (RawStd_EncodeToString l) = Ret l.
Proof. intros Hl. unfold RawStd_Decode. by rewrite RawStd_roundtrip. Qed.

Lemma compare_key_Ret a b : compare_key a b = Ret tt <-> a = b.
Proof. unfold compare_key. case_bool_decide; naive_solver. Qed.

Lemma sha256_bytes s : bytes (sha256_Sum256 s).
Proof.
  unfold sha256_Sum256, Sha256.sum, bytes. apply Forall_forall. intros b [w [_ Hb]]%list_elem_of_In%in_flat_map.
  revert w Hb. generalize 4%nat as n. induction n as [|n IH]; intros w Hb; [done|].
  apply in_app_or in Hb as [Hb|[<-|[]]]; [by eapply IH|]. by apply N.mod_lt.
Qed.

Lemma hex_digit_facts n : (n < 16)%N -> hex_val (hex_digit n) = Some n /\ hex_digit n <> colon.
Proof.
  intros Hn. assert (forallb (fun i => bool_decide (hex_val (hex_digit (N.of_nat i)) = Some (N.of_nat i) /\ hex_digit (N.of_nat i) <> colon)) (seq 0 16) = true) as Hall
    by (vm_compute; reflexivity).
  rewrite forallb_forall in Hall. rewrite <- (N2Nat.id n). eapply bool_decide_eq_true_1, Hall, in_seq. lia.
Qed.

Lemma hex_Encode_cons b l :
  hex_EncodeToString (b :: l) = String (hex_digit (b / 16)) (String (hex_digit (b mod 16)) (hex_EncodeToString l)).
Proof. unfold hex_EncodeToString. cbn [flat_map app string_of_bytes]. by rewrite !byte_of_val. Qed.

Lemma hex_digits_of b : (b < 256)%N -> (b / 16 < 16)%N /\ (b mod 16 < 16)%N.
Proof. intros Hb. split; div_lia. Qed.

Lemma hex_no_colon l : bytes l -> Count_char colon (hex_EncodeToString l) = O.
Proof.
  induction 1 as [|b l Hb _ IH]; [done|]. rewrite hex_Encode_cons. destruct (hex_digits_of b Hb) as [H1 H2]. cbn [Count_char].
  rewrite IH, !bool_decide_eq_false_2; [done|intros E; symmetry in E; revert E; by apply hex_digit_facts..].
Qed.

(** Scanning what was printed. *)
Lemma hex_bytes_Encode l rest : bytes l -> hex_bytes (hex_EncodeToString l +:+ String colon rest) = Some (l, String colon rest).
Proof.
  induction 1 as [|b l Hb _ IH]; [done|]. rewrite hex_Encode_cons. destruct (hex_digits_of b Hb) as [H1 H2].
  cbn [String.append hex_bytes]. rewrite (proj1 (hex_digit_facts _ H1)), (proj1 (hex_digit_facts _ H2)), IH.
  do 3 f_equal. div_lia.
Qed.

Lemma SkipSpace_hex b l rest : (b < 256)%N ->
  SkipSpace (hex_EncodeToString (b :: l) +:+ rest) = Some (hex_EncodeToString (b :: l) +:+ rest).
Proof.
  intros Hb. rewrite hex_Encode_cons. destruct (hex_digits_of b Hb) as [H1 _]. cbn [String.append SkipSpace].
  assert (forall n, (n < 16)%N -> Ascii.nat_of_ascii (hex_digit n) <> 10%nat /\ is_space (hex_digit n) = false) as Hd.
  { intros n Hn. assert (forallb (fun i => bool_decide (Ascii.nat_of_ascii (hex_digit (N.of_nat i)) <> 10%nat /\ is_space (hex_digit (N.of_nat i)) = false)) (seq 0 16) = true) as Hall
      by (vm_compute; reflexivity).
    rewrite forallb_forall in Hall. rewrite <- (N2Nat.id n). eapply bool_decide_eq_true_1, Hall, in_seq. lia. }
  destruct (Hd _ H1) as [E1 E2]. by rewrite bool_decide_eq_false_2, E2.
Qed.

Lemma not_space_alphabet c : b64_alphabet c = true -> is_space c = false /\ Ascii.nat_of_ascii c <> 10%nat.
Proof.
  assert (forallb (fun i => let c := Ascii.ascii_of_nat i in negb (b64_alphabet c) || (negb (is_space c) && bool_decide (Ascii.nat_of_ascii c <> 10%nat))) (seq 0 256) = true) as Hall
    by (vm_compute; reflexivity).
  rewrite forallb_forall in Hall. intros Hc. specialize (Hall (Ascii.nat_of_ascii c)). cbv beta zeta in Hall. rewrite Ascii.ascii_nat_embedding, Hc in Hall.
  assert (In (Ascii.nat_of_ascii c) (seq 0 256)) as Hin by (apply in_seq; pose proof (Ascii.nat_ascii_bounded c); lia).
  apply Hall, andb_true_iff in Hin as [Hs Hn]. apply negb_true_iff in Hs. by apply bool_decide_eq_true in Hn.
Qed.

Lemma scanString_alphabet c s : all_chars b64_alphabet (String c s) = true -> scanString (String c s) = Some (String c s, "").
Proof.
  intros Hs. assert (forall t, all_chars b64_alphabet t = true -> span (fun c => negb (is_space c)) t = (t, "")) as Hspan.
  { induction t as [|d t IH]; simpl; [done|]. intros [Hd Ht]%andb_true_iff.
    apply not_space_alphabet in Hd as [-> _]. simpl. by rewrite IH. }
  unfold scanString. cbn [SkipSpace]. pose proof Hs as [Hc _]%andb_true_iff. apply not_space_alphabet in Hc as [E1 E2].
  rewrite bool_decide_eq_false_2, E1 by done. by rewrite Hspan.
Qed.

Lemma Sscanf_Sprintf_scrypt salt c enc :
  bytes salt -> salt <> [] -> all_chars b64_alphabet (String c enc) = true ->
  Sscanf_scrypt ("$1:" +:+ hex_EncodeToString salt +:+ ":15:8:1:" +:+ String c enc) = Some (1%N, salt, 15%N, 8, 1, String c enc).
Proof.
  intros Hs Hne He. destruct salt as [|b salt]; [done|].
  assert (scanHex (hex_EncodeToString (b :: salt) +:+ ":15:8:1:" +:+ String c enc) = Some (b :: salt, ":15:8:1:" +:+ String c enc)) as Hh.
  { unfold scanHex. rewrite SkipSpace_hex by by inv Hs.
    change (":15:8:1:" +:+ String c enc) with (String colon ("15:8:1:" +:+ String c enc)). by rewrite hex_bytes_Encode. }
  unfold Sscanf_scrypt.
  change (scanLiteral "$" ("$1:" +:+ ?x)) with (Some (tt, "1:" +:+ x)). cbn beta iota.
  change (scanUint ("1:" +:+ ?x)) with (Some (1%N, ":" +:+ x)). cbn beta iota.
  change (scanLiteral ":" (":" +:+ ?x)) with (Some (tt, x)). cbn beta iota. rewrite Hh. cbn beta iota.
  change (scanLiteral ":" (":15:8:1:" +:+ ?x)) with (Some (tt, "15:8:1:" +:+ x)). cbn beta iota.
  change (scanUint ("15:8:1:" +:+ ?x)) with (Some (15%N, ":8:1:" +:+ x)). cbn beta iota.
  change (scanLiteral ":" (":8:1:" +:+ ?x)) with (Some (tt, "8:1:" +:+ x)). cbn beta iota.
  change (scanInt ("8:1:" +:+ ?x)) with (Some (8, ":1:" +:+ x)). cbn beta iota.
  change (scanLiteral ":" (":1:" +:+ ?x)) with (Some (tt, "1:" +:+ x)). cbn beta iota.
  change (scanInt ("1:" +:+ ?x)) with (Some (1, ":" +:+ x)). cbn beta iota.
  change (scanLiteral ":" (":" +:+ ?x)) with (Some (tt, x)). cbn beta iota. by rewrite scanString_alphabet.
Qed.

Context `{!HashLaws}.

Lemma VerifyHash_sha256 salt key key' : bytes salt ->
  let hash := "$2:" +:+ RawStd_EncodeToString salt +:+ ":" +:+ RawStd_EncodeToString (sha256_Sum256 (string_of_bytes salt +:+ key)) in
  Sha256_VerifyHash hash key' = Ret tt <-> sha256_Sum256 (string_of_bytes salt +:+ key') = sha256_Sum256 (string_of_bytes salt +:+ key).
Proof.
  intros Hs hash. unfold Sha256_VerifyHash, hash. set (d := sha256_Sum256 _).
  change ("$2:" +:+ ?x) with ("$" +:+ "2" +:+ ":" +:+ x). rewrite HasPrefix_app, TrimPrefix_app. cbn [negb].
  rewrite SplitN3_parts by (by rewrite ?RawStd_no_colon). cbn [Atoi_err res_bind].
  change (Atoi_err "2") with (Ret 2). cbn [res_bind]. change (2 !=? SHA256Version) with false. cbv iota.
  rewrite !RawStd_Decode_Encode by (apply sha256_bytes || done). cbn [res_bind].
  rewrite bool_decide_eq_false_2 by (intros E; pose proof (sha256_length (string_of_bytes salt +:+ key)) as Hl; unfold d in E; by rewrite E in Hl).
  rewrite compare_key_Ret. done.
Qed.

Lemma Split_sha3 salt enc : Count_char colon salt = O -> Count_char colon enc = O ->
  Split ("3:1:" +:+ salt +:+ ":" +:+ enc) ":" = ["3"; "1"; salt; enc].
Proof.
  intros Hs He. rewrite <- (Split_Join colon ["3"; "1"; salt; enc]) by (try done; by repeat constructor). f_equal.
Qed.

Lemma VerifyHash_sha3 salt key key' : bytes salt ->
  let hash := "$3:1:" +:+ RawStd_EncodeToString salt +:+ ":" +:+ RawStd_EncodeToString (sha3_Sum512 (string_of_bytes salt +:+ key)) in
  Sha3_VerifyHash hash key' = Ret tt <-> sha3_Sum512 (string_of_bytes salt +:+ key') = sha3_Sum512 (string_of_bytes salt +:+ key).
Proof.
  intros Hs hash. unfold Sha3_VerifyHash, hash. set (d := sha3_Sum512 _).
  assert (bytes d) as Hd by apply sha3_Sum512_bytes.
  change ("$3:1:" +:+ ?x) with ("$" +:+ "3:1:" +:+ x). rewrite HasPrefix_app, TrimPrefix_app. cbn [negb].
  rewrite Split_sha3 by (by rewrite ?RawStd_no_colon).
  change (Atoi_err "3") with (Ret 3). cbn [res_bind]. change (3 !=? SHA3Version) with false. cbv iota.
  change (Atoi "1") with (Some 1). cbv iota. change (1 !=? sha512variation) with false. cbv iota.
  rewrite !RawStd_Decode_Encode by done. cbn [res_bind].
  rewrite bool_decide_eq_false_2 by (intros E; pose proof (sha3_Sum512_length (string_of_bytes salt +:+ key)) as Hl; unfold d in E; by rewrite E in Hl).
  rewrite compare_key_Ret. done.
Qed.

Lemma VerifyHash_scrypt salt dk key' : bytes salt -> salt <> [] -> bytes dk -> length dk = 64%nat ->
  Scrypt_VerifyHash ("$1:" +:+ hex_EncodeToString salt +:+ ":15:8:1:" +:+ RawStd_EncodeToString dk) key' = Ret tt
  <-> scrypt_Key key' salt 32768 8 1 64 = Ret dk.
Proof.
  intros Hs Hne Hd Hl. unfold Scrypt_VerifyHash. pose proof (raw64_alphabet dk Hd) as Ha.
  unfold RawStd_EncodeToString. pose proof (RawStd_Decode_Encode dk Hd) as Hr. unfold RawStd_EncodeToString in Hr.
  destruct (raw64_encode dk) as [|c enc] eqn:E; [by destruct dk as [|? [|? [|? ?]]]|].
  rewrite Sscanf_Sprintf_scrypt by done. change (int_of_uint 1 !=? ScryptVersion) with false. cbv iota.
  rewrite Hr. cbn [res_bind]. rewrite Hl. change (shl_one 15) with 32768. change (Z.of_nat 64) with 64.
  destruct (scrypt_Key key' salt 32768 8 1 64) as [v|e|]; cbn [res_bind]; [rewrite compare_key_Ret; naive_solver|done..].
Qed.

(** The version a scrypt hasher finds. *)
Lemma Scrypt_VerifyHash_version v rest key :
  v ∈ ["2"; "3"] -> Scrypt_VerifyHash ("$" +:+ v +:+ ":" +:+ rest) key <> Ret tt.
Proof.
  intros Hv. unfold Scrypt_VerifyHash.
  destruct (Sscanf_scrypt ("$" +:+ v +:+ ":" +:+ rest)) as [[[[[[version salt] n] r] p] enc]|] eqn:E; [|done].
  assert (version = 2%N \/ version = 3%N) as Hver.
  { apply elem_of_cons in Hv as [->|Hv%list_elem_of_singleton]; [left|right; subst v]; revert E; unfold Sscanf_scrypt.
    - change (scanLiteral "$" ("$" +:+ "2" +:+ ":" +:+ ?x)) with (Some (tt, "2:" +:+ x)). cbn beta iota.
      change (scanUint ("2:" +:+ ?x)) with (Some (2%N, ":" +:+ x)). cbn beta iota. repeat case_match; naive_solver.
    - change (scanLiteral "$" ("$" +:+ "3" +:+ ":" +:+ ?x)) with (Some (tt, "3:" +:+ x)). cbn beta iota.
      change (scanUint ("3:" +:+ ?x)) with (Some (3%N, ":" +:+ x)). cbn beta iota. repeat case_match; naive_solver. }
  by destruct Hver as [-> | ->].
Qed.

(** The hash of a key under a salt is verified by the hasher that made it, and by no other one. *)
Definition verifies (h : Hasher) (salt : list N) (key hash : string) : Prop :=
  GetHasherForHash hash = Ret h
  /\ (forall key', VerifyHash h hash key' = Ret tt <-> digest h salt key' = digest h salt key)
  /\ forall h' key', h' <> h -> VerifyHash h' hash key' <> Ret tt.

Lemma scrypt_verifies salt key hash :
  bytes salt -> salt <> [] -> CreateHash ScryptHasher (Ret salt) key = Ret hash -> verifies ScryptHasher salt key hash.
Proof.
  intros Hs Hne. unfold verifies. cbn [CreateHash VerifyHash digest].
  unfold Scrypt_CreateHash. cbn [res_bind]. change (shl_one 15) with 32768.
  destruct (scrypt_Key key salt 32768 8 1 64) as [dk|e|] eqn:E; cbn [res_bind]; [|done..]. intros Hc.
  assert (hash = "$1:" +:+ hex_EncodeToString salt +:+ ":15:8:1:" +:+ RawStd_EncodeToString dk) as -> by (injection Hc as Hc; symmetry; exact Hc).
  pose proof (scrypt_Key_bytes _ _ _ _ _ _ _ E) as Hd. pose proof (scrypt_Key_length _ _ _ _ _ _ _ E) as Hl.
  split; [|split].
  - unfold GetHasherForHash, GetHashVersion. change ("$1:" +:+ ?x) with ("$" +:+ "1" +:+ ":" +:+ x). rewrite TrimPrefix_app.
    change (":15:8:1:" +:+ ?x) with (":" +:+ "15:8:1:" +:+ x). by rewrite SplitN3_parts by by rewrite ?hex_no_colon.
  - intros key'. rewrite VerifyHash_scrypt by (done || lia). done.
  - change ("$1:" +:+ ?x) with ("$" +:+ "1" +:+ ":" +:+ x).
    intros [] key' Hh; [done| |]; cbn [VerifyHash].
    + unfold Sha256_VerifyHash. rewrite HasPrefix_app, TrimPrefix_app. cbn [negb].
      change (":15:8:1:" +:+ ?x) with (":" +:+ "15:8:1:" +:+ x). by rewrite SplitN3_parts by by rewrite ?hex_no_colon.
    + unfold Sha3_VerifyHash. rewrite HasPrefix_app, TrimPrefix_app. cbn [negb].
      assert (Split ("1" +:+ ":" +:+ hex_EncodeToString salt +:+ ":15:8:1:" +:+ RawStd_EncodeToString dk) ":"
              = ["1"; hex_EncodeToString salt; "15"; "8"; "1"; RawStd_EncodeToString dk]) as ->; [|done].
      rewrite <- (Split_Join colon ["1"; hex_EncodeToString salt; "15"; "8"; "1"; RawStd_EncodeToString dk]); [done..|].
      repeat constructor; by rewrite ?hex_no_colon, ?RawStd_no_colon.
Qed.

Lemma sha256_verifies salt key hash :
  bytes salt -> salt <> [] -> CreateHash Sha256Hasher (Ret salt) key = Ret hash -> verifies Sha256Hasher salt key hash.
Proof.
  intros Hs Hne. unfold verifies. cbn [CreateHash VerifyHash digest].
  intros Hc. set (d := sha256_Sum256 (string_of_bytes salt +:+ key)).
  assert (hash = "$2:" +:+ RawStd_EncodeToString salt +:+ ":" +:+ RawStd_EncodeToString d) as -> by (injection Hc as Hc; symmetry; exact Hc).
  split; [|split].
  - unfold GetHasherForHash, GetHashVersion. change ("$2:" +:+ ?x) with ("$" +:+ "2" +:+ ":" +:+ x). rewrite TrimPrefix_app.
    by rewrite SplitN3_parts by by rewrite ?RawStd_no_colon.
  - intros key'. pose proof (VerifyHash_sha256 salt key key' Hs) as Hv. cbv zeta in Hv. fold d in Hv. rewrite Hv. split; [by intros ->|by intros [=]].
  - intros [] key' Hh; [|done|]; cbn [VerifyHash]; change ("$2:" +:+ ?x) with ("$" +:+ "2" +:+ ":" +:+ x).
    + apply Scrypt_VerifyHash_version. set_solver.
    + unfold Sha3_VerifyHash. rewrite HasPrefix_app, TrimPrefix_app. cbn [negb].
      assert (Split ("2" +:+ ":" +:+ RawStd_EncodeToString salt +:+ ":" +:+ RawStd_EncodeToString d) ":"
              = ["2"; RawStd_EncodeToString salt; RawStd_EncodeToString d]) as ->; [|done].
      rewrite <- (Split_Join colon ["2"; RawStd_EncodeToString salt; RawStd_EncodeToString d]); [done..|].
      repeat constructor; rewrite ?RawStd_no_colon; auto. apply sha256_bytes.
Qed.

Lemma sha3_verifies salt key hash :
  bytes salt -> salt <> [] -> CreateHash Sha3Hasher (Ret salt) key = Ret hash -> verifies Sha3Hasher salt key hash.
Proof.
  intros Hs Hne. unfold verifies. cbn [CreateHash VerifyHash digest].
  intros Hc. set (d := sha3_Sum512 (string_of_bytes salt +:+ key)).
  assert (hash = "$3:1:" +:+ RawStd_EncodeToString salt +:+ ":" +:+ RawStd_EncodeToString d) as -> by (injection Hc as Hc; symmetry; exact Hc).
  split; [|split].
  - unfold GetHasherForHash, GetHashVersion. change ("$3:1:" +:+ ?x) with ("$" +:+ "3" +:+ ":" +:+ "1" +:+ ":" +:+ x). rewrite TrimPrefix_app.
    by rewrite SplitN3_parts.
  - intros key'. pose proof (VerifyHash_sha3 salt key key' Hs) as Hv. cbv zeta in Hv. fold d in Hv. rewrite Hv. split; [by intros ->|by intros [=]].
  - intros [] key' Hh; [| |done]; cbn [VerifyHash]; change ("$3:1:" +:+ ?x) with ("$" +:+ "3" +:+ ":" +:+ "1" +:+ ":" +:+ x).
    + apply Scrypt_VerifyHash_version. set_solver.
    + unfold Sha256_VerifyHash. rewrite HasPrefix_app, TrimPrefix_app. cbn [negb]. by rewrite SplitN3_parts.
Qed.

(** C26: a hash is verified by the hasher that made it, which its version names, and by no other one, and it is verified
    for exactly the keys that have the digest of the key it was made of, whatever the salt. *)
Theorem hash_verifies h salt key hash :
  bytes salt -> salt <> [] -> CreateHash h (Ret salt) key = Ret hash ->
  GetHasherForHash hash = Ret h
  /\ (forall key', VerifyHash h hash key' = Ret tt <-> digest h salt key' = digest h salt key)
  /\ forall h' key', h' <> h -> VerifyHash h' hash key' <> Ret tt.
Proof. intros Hs Hne Hc. destruct h; [by apply scrypt_verifies|by apply sha256_verifies|by apply sha3_verifies]. Qed.
End hashers.

(** ** Sample digests

    They satisfy the laws and are easy to evaluate; they are not digests. *)

Definition demo_digest (n : nat) (s : string) : list N := take n (bytes_of s ++ replicate n 0%N).

Lemma demo_digest_length n s : length (demo_digest n s) = n.
Proof. unfold demo_digest. rewrite length_take, length_app, length_replicate. lia. Qed.
Lemma demo_digest_bytes n s : bytes (demo_digest n s).
Proof. unfold demo_digest. apply Forall_take, Forall_app. split; [apply bytes_of_bound|by apply Forall_replicate]. Qed.

Definition demoHash : HashDeps := {|
  sha3_Sum512 := demo_digest 64;
  scrypt_Key password salt n r p keyLen :=
    if (0 <=? keyLen)%Z then Ret (demo_digest (Z.to_nat keyLen) (string_of_bytes salt +:+ password)) else Fail (errorString "scrypt: parameters are too large")
|}.

Lemma demoHashLaws : @HashLaws demoHash.
Proof.
  split; cbn [sha3_Sum512 scrypt_Key demoHash].
  - apply demo_digest_length.
  - apply demo_digest_bytes.
  - intros p s n r q k d. destruct (Z.leb_spec 0 k); [|done]. intros [= <-]. rewrite demo_digest_length. lia.
  - intros p s n r q k d. destruct (0 <=? k)%Z; [|done]. intros [= <-]. apply demo_digest_bytes.
Qed.

Lemma hash_verifies_witness :
  exists hash, @CreateHash demoHash Sha3Hasher (Ret [1; 2; 3; 4; 5; 6; 7; 8]%N) "secret" = Ret hash
    /\ GetHasherForHash hash = Ret Sha3Hasher /\ @VerifyHash demoHash Sha3Hasher hash "secret" = Ret tt
    /\ @VerifyHash demoHash Sha3Hasher hash "other" <> Ret tt.
Proof.
  eexists. split; [reflexivity|].
  edestruct (@hash_verifies demoHash demoHashLaws Sha3Hasher [1; 2; 3; 4; 5; 6; 7; 8]%N "secret") as (Hg & Hv & _).
  - by repeat constructor.
  - done.
  - reflexivity.
  - split; [exact Hg|]. split; [by apply Hv|]. intros Hk. apply Hv in Hk. vm_compute in Hk. discriminate Hk.
Defined.
