(* ===== verification/Tokens.v ===== *)
(** * Tokens ([auth/tokens])

    A user is recognised by a token: its name and its key are presented together, the object of the token holds the key
    or a hash of it, the user, and a time to live.  [token_util.go] reads and verifies what is presented; the manager
    creates, lists and deletes tokens; [purge_daemon.go] deletes the expired ones. *)

From S2P Require Import Prelude GoLib Codec Errors Types Capr World Encodings Hashers.

(** ** Types ([authn_types.go]) *)

Record Principal := mkPrincipal {
  p_Name : string;
  p_DisplayName : string;
  p_LoginName : string;
  p_Provider : string;
  p_ExtraInfo : gmap string string
}.

(** Times are nanoseconds. *)
Record Token := mkToken {
  tk_Name : string;
  tk_Labels : gmap string string;
  tk_Annotations : gmap string string;
  tk_Created : Z;
  tk_Token : string;
  tk_UserPrincipal : Principal;
  tk_GroupPrincipals : list Principal;
  tk_ProviderInfo : gmap string string;
  tk_UserID : string;
  tk_AuthProvider : string;
  tk_TTLMillis : Z;
  tk_IsDerived : bool;
  tk_Description : string;
  tk_Expired : bool;
  tk_Current : bool;
  tk_ClusterName : string;
  tk_Enabled : option bool
}.

Record User := mkUser {
  u_APIVersion : string;
  u_Kind : string;
  u_Name : string;
  u_UID : string;
  u_Labels : gmap string string;
  u_DisplayName : string;
  u_PrincipalIDs : list string;
  u_Enabled : option bool
}.

(** A map that may be nil. *)
Record UserAttribute := mkUserAttribute {
  ua_Name : string;
  ua_OwnerReferences : list OwnerReference;
  ua_GroupPrincipals : option (gmap string (list Principal));
  ua_ExtraByProvider : option (gmap string (gmap string (list string)))
}.

#[global] Instance Principal_eq_dec : EqDecision Principal.
Proof. solve_decision. Defined.

Definition zeroPrincipal : Principal := mkPrincipal "" "" "" "" ∅.

(** Updates of a token. *)
Definition set_tk_Token (key : string) (annotations : gmap string string) (t : Token) : Token :=
  mkToken (tk_Name t) (tk_Labels t) annotations (tk_Created t) key (tk_UserPrincipal t) (tk_GroupPrincipals t) (tk_ProviderInfo t)
    (tk_UserID t) (tk_AuthProvider t) (tk_TTLMillis t) (tk_IsDerived t) (tk_Description t) (tk_Expired t) (tk_Current t)
    (tk_ClusterName t) (tk_Enabled t).
Definition set_tk_Labels (labels : gmap string string) (t : Token) : Token :=
  mkToken (tk_Name t) labels (tk_Annotations t) (tk_Created t) (tk_Token t) (tk_UserPrincipal t) (tk_GroupPrincipals t) (tk_ProviderInfo t)
    (tk_UserID t) (tk_AuthProvider t) (tk_TTLMillis t) (tk_IsDerived t) (tk_Description t) (tk_Expired t) (tk_Current t)
    (tk_ClusterName t) (tk_Enabled t).
Definition set_tk_Flags (expired current : bool) (t : Token) : Token :=
  mkToken (tk_Name t) (tk_Labels t) (tk_Annotations t) (tk_Created t) (tk_Token t) (tk_UserPrincipal t) (tk_GroupPrincipals t) (tk_ProviderInfo t)
    (tk_UserID t) (tk_AuthProvider t) (tk_TTLMillis t) (tk_IsDerived t) (tk_Description t) expired current
    (tk_ClusterName t) (tk_Enabled t).
(** The server gives a created object its name and its time. *)
Definition set_tk_Created (name : string) (now : Z) (t : Token) : Token :=
  mkToken name (tk_Labels t) (tk_Annotations t) now (tk_Token t) (tk_UserPrincipal t) (tk_GroupPrincipals t) (tk_ProviderInfo t)
    (tk_UserID t) (tk_AuthProvider t) (tk_TTLMillis t) (tk_IsDerived t) (tk_Description t) (tk_Expired t) (tk_Current t)
    (tk_ClusterName t) (tk_Enabled t).

(** ** Constants *)

Definition UserIDLabel : string := "authn.management.cattle.io/token-userId".
Definition TokenKindLabel : string := "authn.management.cattle.io/kind".
Definition TokenHashed : string := "authn.management.cattle.io/token-hashed".
Definition secretNameEnding : string := "-secret".
Definition SecretNamespace : string := "cattle-system".
Definition AuthValuePrefix : string := "Bearer".
Definition BasicAuthPrefix : string := "Basic".
Definition StatusOK : Z := 200.
Definition StatusUnauthorized : Z := 401.
Definition StatusGone : Z := 410.
Definition StatusUnprocessableEntity : Z := 422.
Definition StatusInternalServerError : Z := 500.

(** ** [token_util.go] *)

(** Of a request: the [Authorization] header, empty when there is none, and the session cookie. *)
Record Request := mkRequest { rq_Authorization : string; rq_Cookie : option string }.

Definition EqualFold (a b : string) : bool := ToLower a =? ToLower b.

(** [base64.URLEncoding] differs from the standard alphabet in two characters. *)
Definition url_char (c : Ascii.ascii) : Ascii.ascii :=
  let n := Ascii.nat_of_ascii c in
  if (n =? 45)%nat then Ascii.ascii_of_nat 43 else if (n =? 95)%nat then Ascii.ascii_of_nat 47
  else if ((n =? 43) || (n =? 47))%nat then Ascii.ascii_of_nat 0 else c.
Definition URLEncoding_DecodeString (s : string) : option string := base64_DecodeString (map_str url_char s).

Definition GetTokenAuthFromRequest (req : Request) : string :=
  let authHeader := TrimSpace (rq_Authorization req) in
  if authHeader !=? "" then
    match SplitN2 authHeader " " with
    | scheme :: rest =>
        if EqualFold scheme AuthValuePrefix then match rest with v :: _ => TrimSpace v | [] => "" end
        else if EqualFold scheme BasicAuthPrefix then
          match rest with v :: _ => default "" (URLEncoding_DecodeString (TrimSpace v)) | [] => "" end
        else ""
    | [] => ""
    end
  else default "" (rq_Cookie req).

Definition SplitTokenParts (tokenID : string) : string * string :=
  match Split tokenID ":" with
  | [name; key] => (name, key)
  | name :: _ => (name, "")
  | [] => ("", "")
  end.

Definition IsExpired (now : Z) (token : Token) : bool :=
  if (tk_TTLMillis token =? 0)%Z then false
  else f64_ge (Seconds (time_Sub now (tk_Created token))) (Seconds (millis (tk_TTLMillis token))).

Definition extractClusterIDFromResponseType (responseType : string) : string :=
  match SplitN2 responseType "_" with [_; id] => id | _ => "" end.

Definition getAuthProviderName (principalID : string) : string :=
  match Split principalID "://" with
  | externalType :: _ => match Split externalType "_" with p :: _ => p | [] => "" end
  | [] => ""
  end.

(** A principal without a scheme is out of range. *)
Definition getUserID (principalID : string) : res string :=
  match Split principalID "://" with _ :: id :: _ => Ret id | _ => Panic end.

Section token_util.
Context `{HashDeps}.

Definition invalidAuthTokenErr : error := errorString "Invalid auth token value".

(** The status code beside the error. *)
Definition VerifyToken (now : Z) (storedToken : option Token) (tokenName tokenKey : string) : Z * option error :=
  match storedToken with
  | None => (StatusUnprocessableEntity, Some invalidAuthTokenErr)
  | Some t =>
      if tk_Name t !=? tokenName then (StatusUnprocessableEntity, Some invalidAuthTokenErr)
      else
        let verified :=
          if map_get (tk_Annotations t) TokenHashed =? "true" then
            match GetHasherForHash (tk_Token t) with
            | Ret hasher => match VerifyHash hasher (tk_Token t) tokenKey with
                            | Ret _ => None
                            | _ => Some (StatusUnprocessableEntity, Some invalidAuthTokenErr)
                            end
            | _ => Some (StatusInternalServerError, Some (errorString "unable to verify hash"))
            end
          else if tk_Token t !=? tokenKey then Some (StatusUnprocessableEntity, Some invalidAuthTokenErr)
          else None in
        match verified with
        | Some r => r
        | None => if IsExpired now t then (StatusGone, Some (errorString "must authenticate")) else (StatusOK, None)
        end
  end.

(** With the feature enabled the key of a token is replaced by its hash. *)
Definition ConvertTokenKeyToHash (enabled : bool) (rand : res (list N)) (token : Token) : res Token :=
  if negb enabled then Ret token
  else if tk_Token token =? "" then Ret token
  else match CreateHash GetHasher rand (tk_Token token) with
       | Ret hashedToken => Ret (set_tk_Token hashedToken (<[TokenHashed := "true"]> (tk_Annotations token)) token)
       | Fail _ => Fail (errorString "failed to generate hash from token")
       | Panic => Panic
       end.
End token_util.

(** ** The manager

    The objects of the API server: users, tokens and attributes beside the [World], whose random texts serve as token
    keys and as suffixes of generated names; salts; the time. *)

Record AWorld := mkAWorld {
  aw_world : World;
  aw_users : gmap string User;
  aw_tokens : gmap string Token;
  aw_attributes : gmap string UserAttribute;
  aw_salts : list (res (list N));
  aw_now : Z
}.
Definition set_aw_world (v : World) (w : AWorld) : AWorld := mkAWorld v (aw_users w) (aw_tokens w) (aw_attributes w) (aw_salts w) (aw_now w).
Definition set_aw_users (v : gmap string User) (w : AWorld) : AWorld := mkAWorld (aw_world w) v (aw_tokens w) (aw_attributes w) (aw_salts w) (aw_now w).
Definition set_aw_tokens (v : gmap string Token) (w : AWorld) : AWorld := mkAWorld (aw_world w) (aw_users w) v (aw_attributes w) (aw_salts w) (aw_now w).
Definition set_aw_attributes (v : gmap string UserAttribute) (w : AWorld) : AWorld := mkAWorld (aw_world w) (aw_users w) (aw_tokens w) v (aw_salts w) (aw_now w).
Definition set_aw_salts (v : list (res (list N))) (w : AWorld) : AWorld := mkAWorld (aw_world w) (aw_users w) (aw_tokens w) (aw_attributes w) v (aw_now w).

Definition AM (A : Type) : Type := ST AWorld A.

(** A program on the objects of the [World]. *)
Definition core {A} (c : M A) : AM A := fun w => let '(w1, r) := c (aw_world w) in (set_aw_world w1 w, r).

(** [rand.Read] *)
Definition rand_salt : AM (res (list N)) := fun w =>
  match aw_salts w with
  | [] => (w, Ret (Fail (errorString "no entropy")))
  | s :: rest => (set_aw_salts rest w, Ret s)
  end.

Definition tokens_Get (name : string) : AM Token :=
  let* _ := core api_request in
  let* ts := gets aw_tokens in
  match ts !! name with Some t => ret t | None => fail (not_found "tokens.management.cattle.io" name) end.

Definition tokens_Delete (name : string) : AM unit :=
  let* _ := core api_request in
  let* ts := gets aw_tokens in
  match ts !! name with
  | Some _ => modify (set_aw_tokens (delete name ts))
  | None => fail (not_found "tokens.management.cattle.io" name)
  end.

Definition tokens_store (t : Token) : AM Token :=
  let* ts := gets aw_tokens in
  match ts !! tk_Name t with
  | Some _ => fail (already_exists "tokens.management.cattle.io" (tk_Name t))
  | None => let* _ := modify (set_aw_tokens (<[tk_Name t := t]> ts)) in ret t
  end.

Definition tokens_Create (t : Token) : AM Token :=
  let* _ := core api_request in
  let* now := gets aw_now in
  tokens_store (set_tk_Created (tk_Name t) now t).

(** [Create] with [GenerateName]. *)
Definition tokens_CreateGenerated (prefix : string) (t : Token) : AM Token :=
  let* _ := core api_request in
  let* suffix := core randomtoken_Generate in
  let* now := gets aw_now in
  tokens_store (set_tk_Created (prefix +:+ suffix) now t).

Definition tokens_Update (t : Token) : AM Token :=
  let* _ := core api_request in
  let* ts := gets aw_tokens in
  match ts !! tk_Name t with
  | Some _ => let* _ := modify (set_aw_tokens (<[tk_Name t := t]> ts)) in ret t
  | None => fail (not_found "tokens.management.cattle.io" (tk_Name t))
  end.

(** [List] with a selector for one label. *)
Definition tokens_List (label value : string) : AM (list Token) :=
  let* _ := core api_request in
  let* ts := gets aw_tokens in
  ret (List.filter (fun t => bool_decide (tk_Labels t !! label = Some value)) (map snd (map_to_list ts))).

(** Caches, settings and features. *)
Class AuthDeps `{HashDeps} := {
  tokenIndexer_ByIndex : string -> res (list Token);                     (** by the key of [tokenKeyIndexer] *)
  userLister_Get : string -> res User;
  userAttributeLister_Get : string -> res UserAttribute;
  authSecretLister_Get : string -> string -> res Secret;
  tokenLister_List : res (list Token);
  GoSyntax : error -> string;                                            (** the verb [%#v] *)
  TokenHashing_Enabled : bool;
  AuthTokenMaxTTLMinutes : string;
  KubeconfigDefaultTokenTTLMinutes : string
}.

(** The index of the cache: tokens by the text they store, which is the key or its hash. *)
Definition tokenKeyIndexer (token : Token) : list string := [tk_Token token].
Definition userPrincipalIndexer (user : User) : list string := u_PrincipalIDs user.

Section manager.
Context `{A : AuthDeps}.

(** *** Times to live *)

Definition ParseTokenTTL (ttl : string) : res Z :=
  match ParseDuration (ttl +:+ "m") with
  | Ret dur => Ret dur
  | Fail err => Fail (errorString ("error parsing token ttl: " +:+ Error err))
  | Panic => Panic
  end.

Definition ClampToMaxTTL (ttl : Z) : res Z :=
  match ParseTokenTTL AuthTokenMaxTTLMinutes with
  | Panic => Panic
  | Fail err => Fail (wrapError ("failed to parse setting 'auth-token-max-ttl-minutes': " +:+ Error err) err)
  | Ret maxTTL =>
      if (maxTTL =? 0)%Z then Ret ttl
      else if (ttl =? 0)%Z then Ret maxTTL
      else if (ttl <=? maxTTL)%Z then Ret ttl
      else Ret maxTTL
  end.

Definition GetKubeconfigDefaultTokenTTLInMilliSeconds : res Z :=
  match ParseTokenTTL KubeconfigDefaultTokenTTLMinutes with
  | Panic => Panic
  | Fail err => Fail (wrapError ("failed to parse setting 'kubeconfig-default-token-ttl-minutes': " +:+ Error err) err)
  | Ret defaultTokenTTL =>
      match ClampToMaxTTL defaultTokenTTL with
      | Panic => Panic
      | Fail err => Fail (wrapError ("failed to validate token ttl: " +:+ Error err) err)
      | Ret tokenTTL => Ret (Milliseconds tokenTTL)
      end
  end.

(** *** Tokens *)

(** A created token and its key. *)
Definition createToken (k8sToken : Token) : AM (Token * string) :=
  let* r := attempt (core randomtoken_Generate) in
  match r with
  | inr _ => fail (errorString "failed to generate token key")
  | inl key =>
      let t := set_tk_Labels (<[UserIDLabel := tk_UserID k8sToken]> (tk_Labels k8sToken)) (set_tk_Token key (tk_Annotations k8sToken) k8sToken) in
      let* salt := (if TokenHashing_Enabled && (key !=? "") then rand_salt else ret (Ret [])) in
      let* t := lift (ConvertTokenKeyToHash TokenHashing_Enabled salt t) in
      let* created := tokens_CreateGenerated "token-" t in
      ret (created, key)
  end.

(** A failure carries its HTTP status; 0 when the code leaves it open. *)
Definition failed (code : Z) (err : error) {X} : AM (X + Z * error) := ret (inr (code, err)).

Definition check_token (tokenName tokenKey : string) (stored : Token) : AM (Token + Z * error) :=
  let* now := gets aw_now in
  match VerifyToken now (Some stored) tokenName tokenKey with
  | (code, Some err) => failed code err
  | (_, None) => ret (inl stored)
  end.

Definition find_token (tokenName tokenKey : string) : AM (Token + Z * error) :=
  let* r := attempt (tokens_Get tokenName) in
  match r with
  | inr err => failed 404 (errorString ("failed to retrieve auth token, error: " +:+ GoSyntax err))
  | inl stored => check_token tokenName tokenKey stored
  end.

Definition getToken (tokenAuthValue : string) : AM (Token + Z * error) :=
  let '(tokenName, tokenKey) := SplitTokenParts tokenAuthValue in
  match tokenIndexer_ByIndex tokenKey with
  | Panic => panic
  | Fail err => if IsNotFound err then find_token tokenName tokenKey
                else failed 404 (errorString ("failed to retrieve auth token from cache, error: " +:+ Error err))
  | Ret [] => find_token tokenName tokenKey
  | Ret (stored :: _) => check_token tokenName tokenKey stored
  end.

(** The token asked for: its time to live, description and cluster. *)
Record TokenInput := mkTokenInput { ti_TTLMillis : Z; ti_Description : string; ti_ClusterID : string }.

Definition derived_token (token : Token) (jsonInput : TokenInput) (tokenTTL : Z) : Token :=
  mkToken "" ∅ ∅ 0 "" (tk_UserPrincipal token) [] (tk_ProviderInfo token) (tk_UserID token) (tk_AuthProvider token)
    (Milliseconds tokenTTL) true (ti_Description jsonInput) false false (ti_ClusterID jsonInput) None.

Definition createDerivedToken (jsonInput : TokenInput) (tokenAuthValue : string) : AM (Token * string + Z * error) :=
  let* r := getToken tokenAuthValue in
  match r with
  | inr (_, err) => failed 401 err
  | inl token =>
      match ClampToMaxTTL (millis (ti_TTLMillis jsonInput)) with
      | Panic => panic
      | Fail err => failed 500 (errorString ("error validating max-ttl " +:+ Error err))
      | Ret tokenTTL =>
          let* r := attempt (createToken (derived_token token jsonInput tokenTTL)) in
          match r with inl t => ret (inl t) | inr err => failed 0 err end
      end
  end.

Definition mark_expired (now : Z) (t : Token) : Token := if IsExpired now t then set_tk_Flags true (tk_Current t) t else t.

Definition getTokens (tokenAuthValue : string) : AM (list Token + Z * error) :=
  let* r := getToken tokenAuthValue in
  match r with
  | inr (_, err) => failed 401 err
  | inl storedToken =>
      let* r := attempt (tokens_List UserIDLabel (tk_UserID storedToken)) in
      match r with
      | inr err => failed 0 (errorString ("error getting tokens for user: " +:+ tk_UserID storedToken +:+ " selector: " +:+ UserIDLabel +:+ "="
                               +:+ tk_UserID storedToken +:+ "  err: " +:+ Error err))
      | inl tokenList => let* now := gets aw_now in ret (inl (map (mark_expired now) tokenList))
      end
  end.

Definition deleteTokenByName (tokenName : string) : AM (Z * option error) :=
  let* e := attempt_err (tokens_Delete tokenName) in
  ret (match e with
       | Some err => if IsNotFound err then (0, None) else (500, Some (errorString "failed to delete token"))
       | None => (0, None)
       end).

(** An expired token passes the tests of the status, but the pointer to it is nil. *)
Definition deleteToken (tokenAuthValue : string) : AM (Z * option error) :=
  let* r := getToken tokenAuthValue in
  match r with
  | inr (status, err) =>
      if (status =? 404)%Z then ret (0, None)
      else if negb (status =? 410)%Z then ret (401, Some err)
      else panic
  | inl storedToken => deleteTokenByName (tk_Name storedToken)
  end.

Definition getTokenByID (tokenAuthValue tokenID : string) : AM (Token + Z * error) :=
  let* r := getToken tokenAuthValue in
  match r with
  | inr (_, err) => failed 401 err
  | inl storedToken =>
      let* r := attempt (tokens_Get tokenID) in
      match r with
      | inr err => failed 404 err
      | inl token =>
          if tk_UserID token !=? tk_UserID storedToken then failed 404 (errorString (tokenID +:+ " not found"))
          else let* now := gets aw_now in ret (inl (mark_expired now token))
      end
  end.

Definition updateToken (token : Token) : AM Token := tokens_Update token.

(** *** Handlers *)

(** What a handler answers: a response, an API error with its status, or an error without one. *)
Inductive reply :=
| Response (code : Z) (body : list (option Token))
| Created (body : Token) (token : string)
| APIError (code : Z) (msg : string)
| PlainError (err : error).

Definition no_token : reply := APIError StatusUnauthorized "No valid token cookie or auth header".
Definition api_error (status : Z) (err : error) : reply :=
  APIError (if (status =? 0)%Z then StatusInternalServerError else status) (Error err).

(** The body of the request is decoded before. *)
Definition deriveToken (req : Request) (jsonInput : TokenInput) : AM reply :=
  let tokenAuthValue := GetTokenAuthFromRequest req in
  if tokenAuthValue =? "" then ret no_token
  else
    let* r := createDerivedToken jsonInput tokenAuthValue in
    ret (match r with
         | inr (status, err) => api_error status err
         | inl (token, unhashedTokenKey) => Created token (tk_Name token +:+ ":" +:+ unhashedTokenKey)
         end).

Definition mark_current (current t : Token) : Token :=
  set_tk_Flags (tk_Expired t) ((tk_Name current =? tk_Name t) && negb (tk_IsDerived current)) t.

(** The slice is made with the length of the list and then appended to. *)
Definition listTokens (req : Request) : AM reply :=
  let tokenAuthValue := GetTokenAuthFromRequest req in
  if tokenAuthValue =? "" then ret no_token
  else
    let* r := getTokens tokenAuthValue in
    match r with
    | inr (status, err) => ret (api_error status err)
    | inl tokens =>
        let* r := getToken tokenAuthValue in
        ret (match r with
             | inr (_, err) => PlainError err
             | inl current => Response StatusOK (replicate (length tokens) None ++ map (fun t => Some (mark_current current t)) tokens)
             end)
    end.

Definition logout (req : Request) : AM reply :=
  let tokenAuthValue := GetTokenAuthFromRequest req in
  if tokenAuthValue =? "" then ret no_token
  else
    let* '(status, err) := deleteToken tokenAuthValue in
    ret (match err with Some err => api_error status err | None => Response StatusOK [] end).

Definition getTokenFromRequest (req : Request) (tokenID : string) : AM reply :=
  let tokenAuthValue := GetTokenAuthFromRequest req in
  if tokenAuthValue =? "" then ret no_token
  else
    let* r := getToken tokenAuthValue in
    match r with
    | inr (_, err) => ret (PlainError err)
    | inl current =>
        let* r := getTokenByID tokenAuthValue tokenID in
        ret (match r with
             | inr (status, err) => api_error (if (status =? 410)%Z then 404 else status) err
             | inl token => Response StatusOK [Some (mark_current current token)]
             end)
    end.

Definition removeToken (req : Request) (tokenID : string) : AM reply :=
  let tokenAuthValue := GetTokenAuthFromRequest req in
  if tokenAuthValue =? "" then ret no_token
  else
    let* r := getTokenByID tokenAuthValue tokenID in
    let remove (t_Name : string) : AM reply :=
      let* r := getToken tokenAuthValue in
      match r with
      | inr (_, err) => ret (PlainError err)
      | inl current =>
          if (tk_Name current =? t_Name) && negb (tk_IsDerived current)
          then ret (APIError 400 "Cannot delete token for current session. Use logout instead")
          else
            let* '(_, err) := deleteTokenByName t_Name in
            ret (match err with Some err => PlainError err | None => Response 204 [] end)
      end in
    match r with
    | inr (status, err) => if negb (status =? 410)%Z then ret (api_error status err) else remove ""
    | inl t => remove (tk_Name t)
    end.

(** The handlers of the token schema ([api.go]). *)
Definition tokenActionHandler (actionName : string) (req : Request) : AM reply :=
  if actionName =? "logout" then logout req else ret (APIError 404 "").
Definition tokenCreateHandler (req : Request) (jsonInput : TokenInput) : AM reply := deriveToken req jsonInput.
Definition tokenListHandler (req : Request) (id : string) : AM reply :=
  if id !=? "" then getTokenFromRequest req id else listTokens req.
Definition tokenDeleteHandler (req : Request) (id : string) : AM reply := removeToken req id.

(** *** Secrets of providers *)

Definition UpdateSecret (userID provider secret : string) : AM unit :=
  let* cached := lift (authSecretLister_Get SecretNamespace (userID +:+ secretNameEnding)) in
  if bool_decide (s_Data cached = ∅) then panic
  else let* _ := core (secrets_Update (set_s_Data (<[provider := secret]> (s_Data cached)) cached)) in ret tt.

Definition CreateSecret (userID provider secret : string) : AM unit :=
  match authSecretLister_Get SecretNamespace (userID +:+ secretNameEnding) with
  | Panic => panic
  | Fail err =>
      if negb (IsNotFound err) then fail err
      else core (secrets_Create (mkSecret SecretNamespace (userID +:+ secretNameEnding) "" ∅ ∅ {[ provider := secret ]} [] false))
  | Ret _ => UpdateSecret userID provider secret
  end.

Definition GetSecret (userID provider : string) (fallbackTokens : list Token) : res string :=
  let fallback (err : option error) : res string :=
    match List.find (fun t => map_get (tk_ProviderInfo t) "access_token" !=? "") fallbackTokens with
    | Some t => Ret (map_get (tk_ProviderInfo t) "access_token")
    | None => match err with Some e => Fail e | None => Ret "" end
    end in
  match authSecretLister_Get SecretNamespace (userID +:+ secretNameEnding) with
  | Panic => Panic
  | Fail err => if negb (IsNotFound err) then Fail err else fallback (Some err)
  | Ret cached => if map_get (s_Data cached) provider !=? "" then Ret (map_get (s_Data cached) provider) else fallback None
  end.

(** *** Attributes of users *)

(** The attribute and whether it has to be created. *)
Definition EnsureAndGetUserAttribute (userID : string) : AM (UserAttribute * bool) :=
  let missing : AM (UserAttribute * bool) :=
    let* user := lift (userLister_Get userID) in
    ret (mkUserAttribute userID [mkOwnerReference (u_APIVersion user) (u_Kind user) (u_Name user) (u_UID user) false] (Some ∅) (Some ∅), true) in
  match userAttributeLister_Get userID with
  | Panic => panic
  | Fail err =>
      if negb (IsNotFound err) then fail err
      else
        let* _ := core api_request in
        let* stored := gets aw_attributes in
        match stored !! userID with
        | Some attribs => if ua_Name attribs !=? "" then ret (attribs, false) else missing
        | None => missing
        end
  | Ret attribs => if ua_Name attribs !=? "" then ret (attribs, false) else missing
  end.

Definition group_names (l : list Principal) : list string := sort_Strings (map p_Name l).
Definition provider_groups (attribs : UserAttribute) (provider : string) : list Principal :=
  default [] (default ∅ (ua_GroupPrincipals attribs) !! provider).

Definition UserAttributeChanged (attribs : UserAttribute) (provider : string) (extraInfo : gmap string (list string))
    (groupPrincipals : list Principal) : bool :=
  if negb (bool_decide (group_names (provider_groups attribs provider) = group_names groupPrincipals)) then true
  else match ua_ExtraByProvider attribs with
       | None => true
       | Some extras => negb (bool_decide (extras !! provider = Some extraInfo))
       end.

Definition put_groups (attribs : UserAttribute) (provider : string) (groupPrincipals : list Principal)
    (userExtraInfo : gmap string (list string)) : res UserAttribute :=
  match ua_GroupPrincipals attribs with
  | None => Panic
  | Some groups =>
      Ret (mkUserAttribute (ua_Name attribs) (ua_OwnerReferences attribs) (Some (<[provider := groupPrincipals]> groups))
             (Some (<[provider := userExtraInfo]> (default ∅ (ua_ExtraByProvider attribs)))))
  end.

Definition attributes_Create (a : UserAttribute) : AM unit :=
  let* _ := core api_request in
  let* stored := gets aw_attributes in
  match stored !! ua_Name a with
  | Some _ => fail (already_exists "userattributes.management.cattle.io" (ua_Name a))
  | None => modify (set_aw_attributes (<[ua_Name a := a]> stored))
  end.
Definition attributes_Update (a : UserAttribute) : AM unit :=
  let* _ := core api_request in
  let* stored := gets aw_attributes in
  match stored !! ua_Name a with
  | Some _ => modify (set_aw_attributes (<[ua_Name a := a]> stored))
  | None => fail (not_found "userattributes.management.cattle.io" (ua_Name a))
  end.

Definition UserAttributeCreateOrUpdate (userID provider : string) (groupPrincipals : list Principal)
    (userExtraInfo : option (gmap string (list string))) : AM unit :=
  let* '(attribs, needCreate) := EnsureAndGetUserAttribute userID in
  let extra := default ∅ userExtraInfo in
  if needCreate : bool then let* a := lift (put_groups attribs provider groupPrincipals extra) in attributes_Create a
  else if UserAttributeChanged attribs provider extra groupPrincipals
  then let* a := lift (put_groups attribs provider groupPrincipals extra) in attributes_Update a
  else ret tt.

Definition GetGroupsForTokenAuthProvider (token : Token) : res (list Principal) :=
  match userAttributeLister_Get (tk_UserID token) with
  | Panic => Panic
  | Fail _ => Ret (tk_GroupPrincipals token)
  | Ret attribs =>
      Ret (match default ∅ (ua_GroupPrincipals attribs) !! tk_AuthProvider token with
           | Some groups => groups
           | None => tk_GroupPrincipals token
           end)
  end.

(** A provider without groups does not count as found. *)
Definition IsMemberOf (token : Token) (group : Principal) : res bool :=
  let named (l : list Principal) : bool := List.existsb (fun p => p_Name p =? p_Name group) l in
  match userAttributeLister_Get (tk_UserID token) with
  | Panic => Panic
  | Fail _ => Ret (named (tk_GroupPrincipals token))
  | Ret attribs =>
      let groups := default ∅ (ua_GroupPrincipals attribs) in
      let hit := match groups !! tk_AuthProvider token with Some (_ :: _) => true | _ => false end in
      Ret (List.existsb (fun kv => named (snd kv)) (map_to_list groups) || (negb hit && named (tk_GroupPrincipals token)))
  end.

(** *** Login *)

Definition PerUserCacheProviders : list string := ["github"; "azuread"; "googleoauth"; "oidc"; "keycloakoidc"].
Definition uaBackoff_Steps : nat := 5.

Definition login_token (userID : string) (userPrincipal : Principal) (ttl : Z) (description : string) : Token :=
  mkToken "" {[ TokenKindLabel := "session" ]} ∅ 0 "" userPrincipal [] ∅ userID (p_Provider userPrincipal) ttl false description
    false false "" None.

Definition NewLoginToken (userID : string) (userPrincipal : Principal) (groupPrincipals : list Principal) (providerToken : string)
    (ttl : Z) (description : string) (userExtraInfo : option (gmap string (list string))) : AM (Token * string) :=
  let provider := p_Provider userPrincipal in
  let* _ := (if bool_decide (provider ∈ PerUserCacheProviders) && (providerToken !=? "") then
               let* e := attempt_err (CreateSecret userID provider providerToken) in
               match e with Some err => fail (errorString ("unable to create secret: " +:+ Error err)) | None => ret tt end
             else ret tt) in
  let* e := attempt_err (ExponentialBackoff uaBackoff_Steps
              (fun _ => let* e := attempt_err (UserAttributeCreateOrUpdate userID provider groupPrincipals userExtraInfo) in
                        ret (tt, match e with None => true | Some _ => false end)) tt) in
  match e with
  | Some _ => fail (errorString "unable to create userAttribute")
  | None => createToken (login_token userID userPrincipal ttl description)
  end.

(** The value of the session cookie. *)
Definition CreateTokenAndSetCookie (userID : string) (userPrincipal : Principal) (groupPrincipals : list Principal) (providerToken description : string)
    (userExtraInfo : option (gmap string (list string))) : AM (string + string) :=
  let* r := attempt (NewLoginToken userID userPrincipal groupPrincipals providerToken 0 description userExtraInfo) in
  ret (match r with
       | inr err => inr ("Failed creating token with error: " +:+ Error err)
       | inl (token, unhashedTokenKey) => inl (tk_Name token +:+ ":" +:+ unhashedTokenKey)
       end).

(** Which items of a stream of tokens the caller may see, by the label of their user. *)
Definition TokenStreamTransformer (req : Request) (data : list Token) : AM (list Token + Z * error) :=
  let tokenAuthValue := GetTokenAuthFromRequest req in
  if tokenAuthValue =? "" then failed StatusUnauthorized (errorString "[TokenStreamTransformer] failed: No valid token cookie or auth header")
  else
    let* r := getToken tokenAuthValue in
    match r with
    | inr (code, err) => failed code (errorString ("[TokenStreamTransformer] failed: " +:+ Error err))
    | inl storedToken => ret (inl (List.filter (fun t => bool_decide (tk_Labels t !! UserIDLabel = Some (tk_UserID storedToken))) data))
    end.

(** *** Expired tokens *)

(** [purge], for the tokens of users; errors are logged. *)
Definition purge : AM unit :=
  match tokenLister_List with
  | Ret allTokens =>
      for_fold allTokens tt (fun _ token =>
        let* now := gets aw_now in
        if IsExpired now token then let* _ := attempt_err (tokens_Delete (tk_Name token)) in ret tt else ret tt)
  | Fail _ => ret tt
  | Panic => panic
  end.
End manager.
