(* ===== verification/Authenticate.v ===== *)
(** * Authentication of requests ([auth/requests])

    The authenticators find out which user a request comes from: by a token of Rancher, by a review of a token of
    Kubernetes, by the token of a service account of a downstream cluster, or as somebody the user may impersonate.  The
    filter in front of the proxies turns the user into impersonation headers. *)

From S2P Require Import Prelude GoLib Codec Errors Types Capr World Encodings Hashers Tokens.

Definition UserAttributePrincipalID : string := "principalid".
Definition UserAttributeUserName : string := "username".
Definition AllAuthenticated : string := "system:authenticated".
Definition cattle_authenticated : string := "system:cattle:authenticated".
Definition error_user : string := "system:cattle:error".
Definition ServiceAccountUsernamePrefix : string := "system:serviceaccount:".

Definition ErrMustAuthenticate : error := errorString "Unauthorized 401: must authenticate".
(** [errors.Wrapf] *)
Definition Wrap (e : error) (msg : string) : error := wrapError (msg +:+ ": " +:+ Error e) e.

Record AuthenticatorResponse := mkAuthResponse {
  ar_IsAuthed : bool;
  ar_User : string;
  ar_UserPrincipal : string;
  ar_Groups : list string;
  ar_Extras : gmap string (list string)
}.

(** [user.DefaultInfo] *)
Record UserInfo := mkUserInfo { ui_Name : string; ui_UID : string; ui_Groups : list string; ui_Extra : gmap string (list string) }.

(** The status of a [TokenReview]. *)
Record ReviewStatus := mkReviewStatus { rs_Authenticated : bool; rs_User : UserInfo }.

(** [RegisteredClaims]: the subject, and the end of the validity. *)
Record Claims := mkClaims { cl_Subject : string; cl_ExpiresAt : option Z }.

(** The cluster a request is routed to; the extra attributes a provider knows, nil for none; the review of a token by a
    cluster; the parser of a JWT; the proxy configurations of a cluster. *)
Class RequestDeps `{AuthDeps} := {
  clusterRouter : Request -> string;
  GetUserExtraAttributes : string -> Principal -> res (option (gmap string (list string)));
  TokenReviews_Create : string -> res ReviewStatus;
  downstreamReview : string -> res (string -> res ReviewStatus);
  ParseUnverified : string -> res Claims;
  clusterProxyConfigs : string -> res (list bool)
}.

(** The headers of a request, by name. *)
Abbreviation headers := (gmap string (list string)).

Section authenticate.
Context `{R : RequestDeps}.

(** ** Tokens of Rancher ([authenticate.go]) *)

Definition verify_stored (tokenName tokenKey : string) (stored : Token) : AM Token :=
  let* now := gets aw_now in
  match VerifyToken now (Some stored) tokenName tokenKey with
  | (_, Some err) => fail (Wrap ErrMustAuthenticate ("failed to verify token: " +:+ Error err))
  | (_, None) => ret stored
  end.

Definition lookup_stored (tokenName tokenKey : string) : AM Token :=
  let* r := attempt (tokens_Get tokenName) in
  match r with
  | inr err => fail (if IsNotFound err then ErrMustAuthenticate
                     else Wrap ErrMustAuthenticate ("failed to retrieve auth token, error: " +:+ GoSyntax err))
  | inl stored => verify_stored tokenName tokenKey stored
  end.

Definition TokenFromRequest (req : Request) : AM Token :=
  let tokenAuthValue := GetTokenAuthFromRequest req in
  if tokenAuthValue =? "" then fail ErrMustAuthenticate
  else
    let '(tokenName, tokenKey) := SplitTokenParts tokenAuthValue in
    if (tokenName =? "") || (tokenKey =? "") then fail ErrMustAuthenticate
    else
      match tokenIndexer_ByIndex tokenKey with
      | Panic => panic
      | Fail err => if IsNotFound err then lookup_stored tokenName tokenKey
                    else fail (Wrap ErrMustAuthenticate ("failed to retrieve auth token from cache, error: " +:+ Error err))
      | Ret [] => lookup_stored tokenName tokenKey
      | Ret (stored :: _) => verify_stored tokenName tokenKey stored
      end.

(** The extras of all providers, gathered in the order of the iteration. *)
Definition gather_extras (order : list (gmap string (list string))) : gmap string (list string) :=
  fold_left (fun acc extra => merge (fun a b => match a, b with
                                                | Some x, Some y => Some (x ++ y)
                                                | Some x, None => Some x
                                                | None, b => b
                                                end) acc extra) order ∅.

Definition getUserExtraInfo (order : list (string * gmap string (list string))) (token : Token) (u : User) (attribs : option UserAttribute)
  : res (gmap string (list string)) :=
  let from_provider : res (gmap string (list string)) :=
    let? extraInfo := GetUserExtraAttributes (tk_AuthProvider token) (tk_UserPrincipal token) in
    Ret (match extraInfo with
         | None => ∅
         | Some extra =>
             let extra := if bool_decide (default [] (extra !! UserAttributePrincipalID) = [])
                          then <[UserAttributePrincipalID := u_PrincipalIDs u]> extra else extra in
             if bool_decide (default [] (extra !! UserAttributeUserName) = [])
             then <[UserAttributeUserName := [u_DisplayName u]]> extra else extra
         end) in
  match attribs ≫= ua_ExtraByProvider with
  | Some extras =>
      if bool_decide (extras = ∅) then from_provider
      else if (tk_AuthProvider token =? "local") || (tk_AuthProvider token =? "") then Ret (gather_extras (map snd order))
      else match extras !! tk_AuthProvider token with Some e => Ret e | None => from_provider end
  | None => from_provider
  end.

(** The maps of an attribute are read in some order. *)
Definition group_list (order : list (string * list Principal)) (token : Token) (attribs : option UserAttribute) : list string :=
  let local p := TrimPrefix (p_Name p) "local://" in
  let hitProvider := match attribs with
                     | Some a => bool_decide (is_Some (default ∅ (ua_GroupPrincipals a) !! tk_AuthProvider token))
                     | None => false
                     end in
  match attribs with Some _ => flat_map (fun kv => map local (snd kv)) order | None => [] end
  ++ (if hitProvider then [] else map local (tk_GroupPrincipals token))
  ++ [AllAuthenticated; cattle_authenticated].

(** With the orders in which the two maps are read; the refresh of the user runs beside. *)
Definition authenticate_user (groups : gmap string (list Principal) -> list (string * list Principal))
    (extras : gmap string (gmap string (list string)) -> list (string * gmap string (list string))) (token : Token) (attribs : option UserAttribute)
  : res AuthenticatorResponse :=
  let? u := userLister_Get (tk_UserID token) in
  if bool_decide (u_Enabled u = Some false) then Fail (Wrap ErrMustAuthenticate "user is not enabled")
  else
    let gs := group_list (groups (default ∅ (attribs ≫= ua_GroupPrincipals))) token attribs in
    let? extra := getUserExtraInfo (extras (default ∅ (attribs ≫= ua_ExtraByProvider))) token u attribs in
    Ret (mkAuthResponse true (tk_UserID token) (p_Name (tk_UserPrincipal token)) gs extra).

Definition Authenticate_from (groups : gmap string (list Principal) -> list (string * list Principal))
    (extras : gmap string (gmap string (list string)) -> list (string * gmap string (list string))) (req : Request) : AM AuthenticatorResponse :=
  let* token := TokenFromRequest req in
  if bool_decide (tk_Enabled token = Some false) then fail (Wrap ErrMustAuthenticate "user's token is not enabled")
  else if (tk_ClusterName token !=? "") && (tk_ClusterName token !=? clusterRouter req) then fail (Wrap ErrMustAuthenticate "clusterID does not match")
  else
    match userAttributeLister_Get (tk_UserID token) with
    | Panic => panic
    | Fail err => if IsNotFound err then lift (authenticate_user groups extras token None) else fail err
    | Ret a => lift (authenticate_user groups extras token (Some a))
    end.

Definition Authenticate : Request -> AM AuthenticatorResponse := Authenticate_from map_to_list map_to_list.

(** What the middleware is given of a response. *)
Definition ToAuthMiddleware (auth : Request -> AM AuthenticatorResponse) (req : Request) : AM (UserInfo * bool) :=
  let* resp := auth req in
  ret (mkUserInfo (ar_User resp) (ar_User resp) (ar_Groups resp) (ar_Extras resp), ar_IsAuthed resp).

(** ** Chains ([chained.go]) *)

Fixpoint Chain_Authenticate (auths : list (Request -> AM AuthenticatorResponse)) (req : Request) : AM AuthenticatorResponse :=
  match auths with
  | [] => ret (mkAuthResponse false "" "" [] ∅)
  | auth :: rest => let* resp := auth req in if ar_IsAuthed resp then ret resp else Chain_Authenticate rest req
  end.

(** The first token that is found; without authenticators neither a token nor an error. *)
Fixpoint Chain_TokenFromRequest (auths : list (Request -> AM Token)) (lastErr : option error) (req : Request) : AM (option Token) :=
  match auths with
  | [] => match lastErr with Some e => fail e | None => ret None end
  | auth :: rest =>
      let* r := attempt (auth req) in
      match r with inl t => ret (Some t) | inr e => Chain_TokenFromRequest rest (Some e) req end
  end.

(** ** Impersonation ([impersonate.go], [sar]) *)

(** The client for access reviews of a cluster: user, verb, resource and name give the status. *)
Definition AccessReview : Type := string -> string -> string -> string -> res bool.

Definition checkUserCanImpersonateUser (sar : AccessReview) (user impUser : string) : res bool := sar user "impersonate" "users" impUser.

Fixpoint checkUserCanImpersonateGroup (sar : AccessReview) (user : string) (groups : list string) : res bool :=
  match groups with
  | [] => Ret true
  | g :: rest => let? allowed := sar user "impersonate" "groups" g in if allowed : bool then checkUserCanImpersonateGroup sar user rest else Ret false
  end.

(** The getter of the client may fail. *)
Definition UserCanImpersonateUser (getter : res AccessReview) (user impUser : string) : res bool :=
  let? sar := getter in checkUserCanImpersonateUser sar user impUser.
Definition UserCanImpersonateGroups (getter : res AccessReview) (user : string) (groups : list string) : res bool :=
  let? sar := getter in checkUserCanImpersonateGroup sar user groups.

Definition groupsEqual (group1 group2 : list string) : bool :=
  (length group1 =? length group2)%nat && bool_decide ((list_to_set group1 : gset string) = list_to_set group2).

(** The user of the context, if any; the headers that ask for another one. *)
Definition Impersonating_Authenticate (sar : option (res AccessReview)) (context : option UserInfo) (reqUser : string) (reqGroup : list string)
  : res (option UserInfo) :=
  match context with
  | None => Ret None
  | Some info =>
      let user := ui_Name info in
      let groups := ui_Groups info in
      let? impersonateUser :=
        match sar with
        | Some sar =>
            if (reqUser !=? "") && (reqUser !=? user) then
              let? canDo := UserCanImpersonateUser sar user reqUser in
              if canDo : bool then Ret true else Fail (errorString "not allowed to impersonate")
            else Ret false
        | None => Ret false
        end in
      let? impersonateGroup :=
        match sar with
        | Some sar =>
            if bool_decide (reqGroup <> []) && negb (groupsEqual reqGroup groups) then
              let? canDo := UserCanImpersonateGroups sar user reqGroup in
              if canDo : bool then Ret true else Fail (errorString "not allowed to impersonate")
            else Ret false
        | None => Ret false
        end in
      let user' := if impersonateUser : bool then reqUser else user in
      let groups' := if impersonateUser || impersonateGroup
                     then (if impersonateGroup : bool then reqGroup else []) ++ [AllAuthenticated] else groups in
      Ret (Some (mkUserInfo user' user' groups' (ui_Extra info)))
  end.

(** ** Tokens of Kubernetes ([token_review.go], [service_account.go])

    Both come after an authenticator that has left the error user in the context. *)

Definition TokenReview_Authenticate (info : UserInfo) (hasAuth : bool) (req : Request) : res (UserInfo * bool) :=
  if ui_Name info !=? error_user then Ret (info, hasAuth)
  else match TokenReviews_Create (GetTokenAuthFromRequest req) with
       | Panic => Panic
       | Fail _ => Ret (info, false)
       | Ret status => Ret (mkUserInfo (ui_Name (rs_User status)) (ui_UID (rs_User status)) (ui_Groups (rs_User status)) ∅, true)
       end.

(** [VerifyExpiresAt(now, false)]: valid before the end; without an end always. *)
Definition isTokenExpired (now : Z) (claims : Claims) : bool :=
  match cl_ExpiresAt claims with None => false | Some e => negb (now <? e)%Z end.

(** The last component: the request is marked as one of a service account. *)
Definition ServiceAccount_Authenticate (now : Z) (info : UserInfo) (hasAuth : bool) (clusterID : string) (req : Request)
  : res (UserInfo * bool * bool) :=
  let reject := Ret (info, false, false) in
  if ui_Name info !=? error_user then Ret (info, hasAuth, false)
  else if clusterID =? "" then Fail (errorString "no clusterID found in request")
  else match clusterProxyConfigs clusterID with
       | Panic => Panic
       | Fail _ => reject
       | Ret [] => reject
       | Ret (_ :: _ :: _) => reject
       | Ret [enabled] =>
           if negb enabled then reject
           else
             let rawToken := GetTokenAuthFromRequest req in
             let? claims := ParseUnverified rawToken in
             if negb (HasPrefix (cl_Subject claims) ServiceAccountUsernamePrefix) then reject
             else if isTokenExpired now claims then reject
             else match downstreamReview clusterID with
                  | Panic => Panic
                  | Fail _ => reject
                  | Ret create =>
                      match create rawToken with
                      | Panic => Panic
                      | Fail _ => reject
                      | Ret status => Ret (rs_User status, rs_Authenticated status, true)
                      end
                  end
       end.

(** ** The filter ([filter.go]) *)


(** [textproto.CanonicalMIMEHeaderKey]: capitals at the start and after a hyphen; a name with other characters than
    those of a token is left alone. *)
Definition token_char (c : Ascii.ascii) : bool :=
  let n := Ascii.nat_of_ascii c in
  ((48 <=? n) && (n <=? 57) || (65 <=? n) && (n <=? 90) || (97 <=? n) && (n <=? 122))%nat
  || bool_decide (n ∈ [33; 35; 36; 37; 38; 39; 42; 43; 45; 46; 94; 95; 96; 124; 126]%nat).
Fixpoint canonical_chars (upper : bool) (s : string) : string :=
  match s with
  | EmptyString => ""
  | String c s' => String (if upper then upper_ascii c else lower_ascii c) (canonical_chars (bool_decide (Ascii.nat_of_ascii c = 45%nat)) s')
  end.
Definition CanonicalHeaderKey (s : string) : string := if all_chars token_char s then canonical_chars true s else s.

Definition header_Set (k v : string) (h : headers) : headers := <[CanonicalHeaderKey k := [v]]> h.
Definition header_Add (k v : string) (h : headers) : headers :=
  <[CanonicalHeaderKey k := default [] (h !! CanonicalHeaderKey k) ++ [v]]> h.
Definition header_Del (k : string) (h : headers) : headers := delete (CanonicalHeaderKey k) h.

Definition ImpersonateExtra : string := "Impersonate-Extra-".

(** The attributes are kept by their lower-case names. *)
Definition IsValidUserExtraAttribute (key : string) : bool := bool_decide (ToLower key ∈ [UserAttributePrincipalID; UserAttributeUserName]).

(** A deletion uses the canonical form of the name. *)
Definition clean_extra (h : headers) : headers :=
  fold_left (fun acc header =>
    if HasPrefix header ImpersonateExtra && negb (IsValidUserExtraAttribute (TrimPrefix header ImpersonateExtra))
    then header_Del header acc else acc) (map fst (map_to_list h)) h.

Definition add_extras (order : list (string * list string)) (h : headers) : headers :=
  fold_left (fun acc kv => fold_left (fun acc s => if s !=? "" then header_Add (ImpersonateExtra +:+ fst kv) s acc else acc) (snd kv) acc) order h.

(** The headers the request is forwarded with; [None]: it is refused with 401. *)
Definition authHeader_ServeHTTP (context : option UserInfo) (saAuthenticated : bool) (h : headers) : option headers :=
  match context with
  | None => None
  | Some info =>
      if ui_Name info =? error_user then None
      else
        let h := clean_extra h in
        if saAuthenticated then Some h
        else
          let h := header_Del "Impersonate-Group" (header_Set "Impersonate-User" (ui_Name info) h) in
          let h := fold_left (fun acc g => header_Add "Impersonate-Group" g acc) (ui_Groups info) h in
          Some (add_extras (map_to_list (ui_Extra info)) h)
  end.

(** [authedFilter]: which paths need a user. *)
Definition authedFilter_matches (pathPrefix : string) (ignorePrefix : list string) (path : string) : bool :=
  HasPrefix path pathPrefix && negb (List.existsb (HasPrefix path) ignorePrefix).
Definition authedFilter_ServeHTTP (pathPrefix : string) (ignorePrefix : list string) (path : string) (context : option UserInfo) : bool :=
  negb (authedFilter_matches pathPrefix ignorePrefix path)
  || match context with None => false | Some info => ui_Name info !=? error_user end.
End authenticate.
