(* ===== verification/TokenSafety.v ===== *)
(** * Who is let in

    Properties of [Tokens] and [Authenticate]: whom a request is taken for, that tokens which were given out are
    accepted, how long derived tokens live, and what the API for tokens lets a user do to tokens. *)

From S2P Require Import Prelude GoLib Codec Errors Types Capr World Encodings Hashers Tokens Authenticate.

Section safety.
Context `{R : RequestDeps}.

(** The key of a token is stored as it is, or as a hash. *)
Definition key_matches (t : Token) (key : string) : Prop :=
  if map_get (tk_Annotations t) TokenHashed =? "true"
  then exists h, GetHasherForHash (tk_Token t) = Ret h /\ VerifyHash h (tk_Token t) key = Ret tt
  else tk_Token t = key.

Lemma VerifyToken_None now t name key code :
  VerifyToken now (Some t) name key = (code, None) -> tk_Name t = name /\ key_matches t key /\ IsExpired now t = false.
Proof.
  unfold VerifyToken, key_matches. destruct (tk_Name t =? name) eqn:En; [|done]. apply bool_decide_eq_true in En.
  cbn [negb]. destruct (map_get (tk_Annotations t) TokenHashed =? "true").
  - destruct (GetHasherForHash (tk_Token t)) as [h| |]; [|done..]. destruct (VerifyHash h (tk_Token t) key) as [[]| |] eqn:Eh; [|done..].
    destruct (IsExpired now t) eqn:Ex; [done|]. eauto.
  - destruct (tk_Token t =? key) eqn:Ek; [|done]. apply bool_decide_eq_true in Ek. cbn [negb].
    destruct (IsExpired now t); [done|]. eauto.
Qed.

Lemma VerifyToken_ok now t key :
  key_matches t key -> IsExpired now t = false -> VerifyToken now (Some t) (tk_Name t) key = (StatusOK, None).
Proof.
  unfold VerifyToken, key_matches. intros Hk Hx. rewrite bool_decide_eq_true_2 by done. cbn [negb].
  destruct (map_get (tk_Annotations t) TokenHashed =? "true").
  - destruct Hk as (h & -> & ->). by rewrite Hx.
  - subst key. rewrite bool_decide_eq_true_2 by done. cbn [negb]. by rewrite Hx.
Qed.

(** Where the object of a token comes from: the index of keys, or the API server. *)
Definition token_known (w : AWorld) (name key : string) (t : Token) : Prop :=
  (exists rest, tokenIndexer_ByIndex key = Ret (t :: rest)) \/ aw_tokens w !! name = Some t.

(** A request only changes the schedule of failures. *)
Definition quiet (w w' : AWorld) : Prop :=
  aw_tokens w' = aw_tokens w /\ aw_users w' = aw_users w /\ aw_attributes w' = aw_attributes w /\ aw_salts w' = aw_salts w /\ aw_now w' = aw_now w
  /\ w_tokens (aw_world w') = w_tokens (aw_world w) /\ w_secrets (aw_world w') = w_secrets (aw_world w).

#[local] Instance quiet_preorder : PreOrder quiet.
Proof.
  split; [by intros w|]. intros w1 w2 w3 (?&?&?&?&?&?&?) (?&?&?&?&?&?&?). unfold quiet. repeat split; congruence.
Qed.

Lemma core_request w w' r : core api_request w = (w', r) -> quiet w w'.
Proof.
  unfold core, api_request. destruct (w_faults (aw_world w)) as [|[e|] fs]; intros [= <- <-]; by destruct w.
Qed.

Lemma tokens_Get_run name w w' r :
  tokens_Get name w = (w', r) -> quiet w w' /\ r <> Panic /\ forall t, r = Ret t -> aw_tokens w !! name = Some t.
Proof.
  unfold tokens_Get, bind. destruct (core api_request w) as [w1 r1] eqn:E. pose proof (core_request _ _ _ E) as Hq.
  assert (r1 <> Panic) as Hp by (intros ->; revert E; unfold core, api_request; destruct (w_faults (aw_world w)) as [|[e|] fs]; done).
  destruct r1; [|intros [= <- <-]; naive_solver..]. unfold gets.
  destruct Hq as (Ht & Hq). rewrite Ht. destruct (aw_tokens w !! name) eqn:El; intros [= <- <-]; unfold quiet; naive_solver.
Qed.

(** What is known of a token that was accepted for a name and a key. *)
Definition accepted (w : AWorld) (name key : string) (t : Token) : Prop :=
  token_known w name key t /\ tk_Name t = name /\ key_matches t key /\ IsExpired (aw_now w) t = false.

Lemma verify_stored_sound name key stored w w' t :
  verify_stored name key stored w = (w', Ret t) ->
  w' = w /\ stored = t /\ tk_Name t = name /\ key_matches t key /\ IsExpired (aw_now w) t = false.
Proof.
  unfold verify_stored, bind, gets. destruct (VerifyToken (aw_now w) (Some stored) name key) as [code [e|]] eqn:Ev; [done|].
  intros [= <- <-]. apply VerifyToken_None in Ev. naive_solver.
Qed.

Lemma lookup_stored_sound name key w w' t :
  lookup_stored name key w = (w', Ret t) -> quiet w w' /\ accepted w name key t.
Proof.
  unfold lookup_stored, bind at 1, attempt. destruct (tokens_Get name w) as [w1 r1] eqn:Eg.
  apply tokens_Get_run in Eg as (Hq & _ & Hg). destruct r1 as [t0|e|]; [|by destruct (IsNotFound e)|done].
  intros (-> & -> & Hn & Hk & Hx)%verify_stored_sound. split; [done|]. split; [right; by apply Hg|].
  destruct Hq as (_ & _ & _ & _ & Hnow & _). rewrite Hnow in Hx. done.
Qed.

Lemma TokenFromRequest_sound req w w' t :
  TokenFromRequest req w = (w', Ret t) ->
  quiet w w' /\ exists name key, SplitTokenParts (GetTokenAuthFromRequest req) = (name, key) /\ key <> "" /\ accepted w name key t.
Proof.
  unfold TokenFromRequest. destruct (GetTokenAuthFromRequest req =? ""); [done|].
  destruct (SplitTokenParts (GetTokenAuthFromRequest req)) as [name key].
  destruct (name =? "") eqn:En; [done|]. destruct (key =? "") eqn:Ek; [done|]. cbn [orb]. apply bool_decide_eq_false in Ek.
  assert (lookup_stored name key w = (w', Ret t) -> quiet w w' /\ exists n k, (name, key) = (n, k) /\ k <> "" /\ accepted w n k t) as Hl
    by (intros [Hq Ha]%lookup_stored_sound; eauto 10).
  destruct (tokenIndexer_ByIndex key) as [[|stored rest]|e|] eqn:Ei; [done| |by destruct (IsNotFound e)|done].
  intros (-> & -> & Ha)%verify_stored_sound. split; [done|]. exists name, key. repeat (split; [done|]). split; [left; eauto|done].
Qed.

(** C15: whom a request is taken for.  When a request is authenticated as a user, it presents the name and the key of a
    token of this user that is known to the server; the key is the stored one, or verified by the hasher of the stored
    hash; the token is not expired, not disabled, and meant for the cluster the request goes to if it is bound to one;
    the user exists and is not disabled.  The groups are those all users have, those the attributes of the user have from
    any provider, and, when these know nothing of the provider of the token, those of the token. *)
Theorem authenticate_sound groups extras req w w' resp :
  (forall m, groups m ≡ₚ map_to_list m) -> Authenticate_from groups extras req w = (w', Ret resp) ->
  exists name key t u, SplitTokenParts (GetTokenAuthFromRequest req) = (name, key) /\ key <> "" /\ accepted w name key t
    /\ ar_User resp = tk_UserID t /\ tk_Enabled t <> Some false
    /\ (tk_ClusterName t = "" \/ tk_ClusterName t = clusterRouter req)
    /\ userLister_Get (tk_UserID t) = Ret u /\ u_Enabled u <> Some false
    /\ forall g, g ∈ ar_Groups resp <-> g ∈ [AllAuthenticated; cattle_authenticated]
         \/ (exists p, p ∈ tk_GroupPrincipals t /\ g = TrimPrefix (p_Name p) "local://"
              /\ forall a m, userAttributeLister_Get (tk_UserID t) = Ret a -> ua_GroupPrincipals a = Some m -> m !! tk_AuthProvider t = None)
         \/ exists a m provider ps p, userAttributeLister_Get (tk_UserID t) = Ret a /\ ua_GroupPrincipals a = Some m
               /\ m !! provider = Some ps /\ p ∈ ps /\ g = TrimPrefix (p_Name p) "local://".
Proof.
  intros Hperm. unfold Authenticate_from. intros (t & w1 & Ht & Hr)%bind_Ret.
  apply TokenFromRequest_sound in Ht as (_ & name & key & Hsp & Hk & Ha).
  destruct (bool_decide (tk_Enabled t = Some false)) eqn:Een; [done|]. apply bool_decide_eq_false in Een.
  destruct ((tk_ClusterName t !=? "") && (tk_ClusterName t !=? clusterRouter req)) eqn:Ecl; [done|].
  assert (tk_ClusterName t = "" \/ tk_ClusterName t = clusterRouter req) as Hcl.
  { apply andb_false_iff in Ecl as [E|E]; apply negb_false_iff, bool_decide_eq_true in E; auto. }
  assert (exists attribs, authenticate_user groups extras t attribs = Ret resp
            /\ forall a, attribs = Some a <-> userAttributeLister_Get (tk_UserID t) = Ret a) as (attribs & Hau & Hat).
  { destruct (userAttributeLister_Get (tk_UserID t)) as [a|e|]; [injection Hr as _ Hr; exists (Some a); naive_solver| |done].
    destruct (IsNotFound e); [|done]. injection Hr as _ Hr. by exists None. }
  unfold authenticate_user in Hau. apply res_bind_Ret in Hau as (u & Hu & Hau).
  destruct (bool_decide (u_Enabled u = Some false)) eqn:Eu; [done|]. apply bool_decide_eq_false in Eu.
  apply res_bind_Ret in Hau as (extra & _ & Hau). injection Hau as <-.
  exists name, key, t, u. repeat (split; [done|]). cbn [ar_Groups]. intros g. unfold group_list. rewrite !elem_of_app.
  assert (g ∈ (match attribs with
     | Some _ => flat_map (fun kv => map (fun p => TrimPrefix (p_Name p) "local://") (snd kv)) (groups (default ∅ (attribs ≫= ua_GroupPrincipals)))
     | None => [] end) <-> exists a m provider ps p, userAttributeLister_Get (tk_UserID t) = Ret a /\ ua_GroupPrincipals a = Some m
               /\ m !! provider = Some ps /\ p ∈ ps /\ g = TrimPrefix (p_Name p) "local://") as ->.
  { destruct attribs as [a|]; [|split; [by intros ?%elem_of_nil|intros (a & _ & _ & _ & _ & Ha' & _); by apply Hat in Ha']].
    rewrite list_elem_of_In, in_flat_map. setoid_rewrite <- list_elem_of_In. setoid_rewrite Hperm. cbn. split.
    - intros ([provider ps] & Hin & (p & Hp & Hg)%list_elem_of_fmap). apply elem_of_map_to_list in Hin.
      destruct (ua_GroupPrincipals a) as [m|] eqn:Em; [|done]. simpl in Hin. exists a, m, provider, ps, p. split_and!; [by apply Hat|done..].
    - intros (a' & m & provider & ps & p & Ha' & Hm & Hps & Hp & ->). apply Hat in Ha' as [= <-]. exists (provider, ps). rewrite Hm.
      split; [by apply elem_of_map_to_list|]. apply list_elem_of_fmap. eauto. }
  assert (g ∈ (if match attribs with
     | Some a => bool_decide (is_Some (default ∅ (ua_GroupPrincipals a) !! tk_AuthProvider t)) | None => false end
     then [] else map (fun p => TrimPrefix (p_Name p) "local://") (tk_GroupPrincipals t))
     <-> exists p, p ∈ tk_GroupPrincipals t /\ g = TrimPrefix (p_Name p) "local://"
              /\ forall a m, userAttributeLister_Get (tk_UserID t) = Ret a -> ua_GroupPrincipals a = Some m -> m !! tk_AuthProvider t = None) as ->;
    [|tauto].
  assert (match attribs with
     | Some a => bool_decide (is_Some (default ∅ (ua_GroupPrincipals a) !! tk_AuthProvider t)) | None => false end = false
     <-> forall a m, userAttributeLister_Get (tk_UserID t) = Ret a -> ua_GroupPrincipals a = Some m -> m !! tk_AuthProvider t = None) as Hhit.
  { destruct attribs as [a|].
    - rewrite bool_decide_eq_false, <- eq_None_not_Some. split.
      + intros Hn a' m Ha' Hm. apply Hat in Ha' as [= <-]. by rewrite Hm in Hn.
      + intros Hn. destruct (ua_GroupPrincipals a) as [m|] eqn:Em; [|done]. by apply (Hn a m); [apply Hat|].
    - split; [|done]. intros _ a m Ha'. by apply Hat in Ha'. }
  destruct (match attribs with Some a => bool_decide _ | None => false end).
  - split; [by intros ?%elem_of_nil|]. intros (p & _ & _ & Hp). by apply Hhit in Hp.
  - rewrite list_elem_of_fmap. split; [|naive_solver]. intros (p & -> & Hp). exists p. split_and!; [done..|]. by apply Hhit.
Qed.

(** ** Tokens that are given out are accepted *)

(** Text without spaces and colons, as the names and the keys of tokens are. *)
Definition plain_char (c : Ascii.ascii) : bool := negb (is_space c) && negb (bool_decide (c = colon)).
Definition plain (s : string) : Prop := s <> "" /\ all_chars plain_char s = true.

Lemma rev_app_rev a : forall b acc, String.rev_app (String.rev_app a b) acc = String.rev_app b (a +:+ acc).
Proof. induction a as [|c a IH]; intros b acc; simpl; [done|]. by rewrite IH. Qed.

Lemma rev_involutive s : String.rev (String.rev s) = s.
Proof. unfold String.rev. rewrite rev_app_rev. simpl. apply app_empty_r. Qed.

Lemma rev_app_spec a : forall acc, String.rev_app a acc = String.rev a +:+ acc.
Proof.
  unfold String.rev. induction a as [|c a IH]; intros acc; simpl; [done|]. by rewrite IH, (IH (String c "")), app_assoc_str.
Qed.

(** A text that begins and ends with other characters than spaces is not changed by trimming. *)
Lemma TrimSpace_ends c m d : is_space c = false -> is_space d = false -> TrimSpace (String c (m +:+ String d "")) = String c (m +:+ String d "").
Proof.
  intros Hc Hd. unfold TrimSpace. cbn [trim_left]. rewrite Hc.
  assert (exists r, String.rev (String c (m +:+ String d "")) = String d r) as [r Hr].
  { unfold String.rev. cbn [String.rev_app].
    assert (forall m acc, exists r, String.rev_app (m +:+ String d "") acc = String d r) as Hm.
    { clear. induction m as [|x m IH]; intros acc; simpl; [eauto|]. apply IH. }
    apply Hm. }
  rewrite Hr. cbn [trim_left]. rewrite Hd, <- Hr. apply rev_involutive.
Qed.

Lemma last_char s : s <> "" -> exists m d, s = m +:+ String d "".
Proof.
  induction s as [|c s IH]; [done|]. intros _. destruct s as [|c' s]; [exists "", c; done|].
  destruct IH as (m & d & ->); [done|]. by exists (String c m), d.
Qed.

Lemma plain_ends s : plain s -> exists m d, s = m +:+ String d "" /\ is_space d = false.
Proof.
  intros [Hne Hs]. destruct (last_char s Hne) as (m & d & ->). exists m, d. split; [done|].
  rewrite all_chars_app in Hs. apply andb_true_iff in Hs as [_ Hd]. simpl in Hd. rewrite andb_true_r in Hd.
  apply andb_true_iff in Hd as [Hd _]. by apply negb_true_iff in Hd.
Qed.

Lemma plain_no_colon s : plain s -> Count_char colon s = O.
Proof. intros [_ Hs]. by eapply all_chars_count. Qed.

(** A pair of a name and a key, as it is presented. *)
Definition presented (name key : string) : string := name +:+ ":" +:+ key.

Lemma SplitTokenParts_presented name key : plain name -> plain key -> SplitTokenParts (presented name key) = (name, key).
Proof.
  intros Hn Hk. unfold SplitTokenParts, presented.
  assert (Split (name +:+ ":" +:+ key) ":" = [name; key]) as ->; [|done].
  rewrite <- (Split_Join colon [name; key]); [done|done|]. repeat constructor; by apply plain_no_colon.
Qed.

(** A request that presents the pair, in the header or in the cookie. *)
Definition presents (req : Request) (name key : string) : Prop :=
  rq_Authorization req = "Bearer " +:+ presented name key
  \/ rq_Authorization req = "" /\ rq_Cookie req = Some (presented name key).

Lemma GetTokenAuth_presents req name key : plain name -> plain key -> presents req name key -> GetTokenAuthFromRequest req = presented name key.
Proof.
  intros Hn Hk [Ha|[Ha Hc]]; unfold GetTokenAuthFromRequest; rewrite Ha; [|by rewrite Hc].
  destruct (plain_ends key Hk) as (m & d & -> & Hd). destruct name as [|c name]; [by destruct Hn|].
  assert (is_space c = false) as Hcs.
  { destruct Hn as [_ Hn]. simpl in Hn. apply andb_true_iff in Hn as [Hn _]. unfold plain_char in Hn. apply andb_true_iff in Hn as [Hn _]. by apply negb_true_iff in Hn. }
  assert (presented (String c name) (m +:+ String d "") = String c ((name +:+ ":" +:+ m) +:+ String d "")) as Hp.
  { unfold presented. cbn [String.append]. by rewrite !app_assoc_str. }
  assert (TrimSpace ("Bearer " +:+ presented (String c name) (m +:+ String d "")) = "Bearer " +:+ presented (String c name) (m +:+ String d "")) as ->.
  { rewrite Hp. change ("Bearer " +:+ ?x) with (String (Ascii.ascii_of_nat 66) ("earer " +:+ x)).
    change ("earer " +:+ String c ((name +:+ ":" +:+ m) +:+ String d "")) with ((("earer " +:+ String c (name +:+ ":" +:+ m))) +:+ String d "").
    by apply TrimSpace_ends. }
  change ("Bearer " +:+ ?x !=? "") with true. cbv iota.
  change (SplitN2 ("Bearer " +:+ ?x) " ") with ["Bearer"; x]. cbv iota.
  change (EqualFold "Bearer" AuthValuePrefix) with true. cbv iota. rewrite Hp. by apply TrimSpace_ends.
Qed.

(** Salts are bytes, and not empty. *)
Definition good_salts (w : AWorld) : Prop := Forall (fun r => forall salt, r = Ret salt -> bytes salt /\ salt <> []) (aw_salts w).

Definition same_salts (w w' : AWorld) : Prop := aw_salts w' = aw_salts w.
#[local] Instance same_salts_preorder : PreOrder same_salts.
Proof. split; [done|]. intros w1 w2 w3 H1 H2. by unfold same_salts in *; rewrite H2. Qed.

Abbreviation keeps_salts c := (runs (fun _ => True) same_salts c (fun _ => True)).

Lemma keeps_core {X} (c : M X) : keeps_salts (core c).
Proof. intros w _. unfold core, same_salts. by destruct (c (aw_world w)). Qed.
#[local] Hint Resolve keeps_core : planner.

Lemma keeps_attributes_Create a : keeps_salts (attributes_Create a).
Proof. unfold attributes_Create. runs_auto. Qed.
Lemma keeps_attributes_Update a : keeps_salts (attributes_Update a).
Proof. unfold attributes_Update. runs_auto. Qed.
#[local] Hint Resolve keeps_attributes_Create keeps_attributes_Update : planner.

Lemma keeps_UserAttribute u p gs e : keeps_salts (UserAttributeCreateOrUpdate u p gs e).
Proof. unfold UserAttributeCreateOrUpdate, EnsureAndGetUserAttribute. runs_auto. Qed.
Lemma keeps_CreateSecret u p t : keeps_salts (CreateSecret u p t).
Proof. unfold CreateSecret, UpdateSecret. runs_auto. Qed.
#[local] Hint Resolve keeps_UserAttribute keeps_CreateSecret : planner.

Lemma keeps_Backoff {V} n (cond : V -> AM (V * bool)) : (forall v, keeps_salts (cond v)) -> forall v, keeps_salts (ExponentialBackoff n cond v).
Proof. intros Hc. induction n as [|n IH]; intros v; simpl; runs_auto. Qed.

Lemma keeps_run {X} (c : AM X) w w' r : keeps_salts c -> c w = (w', r) -> same_salts w w'.
Proof. intros Hc E. destruct (Hc w I) as (_ & Hs & _). by rewrite E in Hs. Qed.

(** A token as it is stored, of the one that was asked for. *)
Definition stored_as (k8s t : Token) : Prop :=
  tk_UserID t = tk_UserID k8s /\ tk_ClusterName t = tk_ClusterName k8s /\ tk_Enabled t = tk_Enabled k8s /\ tk_TTLMillis t = tk_TTLMillis k8s
  /\ tk_GroupPrincipals t = tk_GroupPrincipals k8s /\ tk_AuthProvider t = tk_AuthProvider k8s /\ tk_UserPrincipal t = tk_UserPrincipal k8s
  /\ tk_IsDerived t = tk_IsDerived k8s.

Context `{!HashLaws}.

(** What a key is converted to matches it. *)
Lemma ConvertTokenKeyToHash_matches enabled salt token t :
  (enabled = true -> forall s, salt = Ret s -> bytes s /\ s <> []) -> tk_Token token <> "" -> map_get (tk_Annotations token) TokenHashed <> "true" ->
  ConvertTokenKeyToHash enabled salt token = Ret t -> key_matches t (tk_Token token) /\ stored_as token t /\ tk_Name t = tk_Name token.
Proof.
  intros Hs Hne Hann. unfold ConvertTokenKeyToHash. destruct enabled; cbn [negb].
  - rewrite bool_decide_eq_false_2 by done. destruct (CreateHash GetHasher salt (tk_Token token)) as [hashed|e|] eqn:Eh; [|done..].
    intros [= <-]. split; [|done]. unfold key_matches. cbn [tk_Annotations set_tk_Token tk_Token].
    assert (map_get (<[TokenHashed := "true"]> (tk_Annotations token)) TokenHashed = "true") as -> by (unfold map_get; by rewrite lookup_insert_eq).
    rewrite bool_decide_eq_true_2 by done. destruct salt as [salt|e|]; [|done..]. destruct (Hs eq_refl salt eq_refl) as [Hb Hnil].
    destruct (sha3_verifies salt (tk_Token token) hashed Hb Hnil Eh) as (Hg & Hv & _). exists Sha3Hasher. split; [done|]. by apply Hv.
  - intros [= <-]. split; [|done]. unfold key_matches. by rewrite bool_decide_eq_false_2.
Qed.

Lemma rand_salt_good w w' salt s : good_salts w -> rand_salt w = (w', Ret salt) -> salt = Ret s -> bytes s /\ s <> [].
Proof.
  unfold rand_salt, good_salts. destruct (aw_salts w) as [|s0 rest]; intros Hg; [intros [= <- <-]; done|].
  intros [= <- <-] ->. inv Hg. auto.
Qed.

(** The key of a created token matches what is stored, whether keys are hashed or not. *)
Lemma createToken_spec k8s w w' t key :
  good_salts w -> key <> "" -> map_get (tk_Annotations k8s) TokenHashed <> "true" -> createToken k8s w = (w', Ret (t, key)) ->
  key_matches t key /\ stored_as k8s t /\ aw_tokens w' !! tk_Name t = Some t.
Proof.
  intros Hsalts Hkey Hann. unfold createToken. intros (r & w1 & Hr & Hc)%bind_Ret.
  assert (aw_salts w1 = aw_salts w) as Hs1.
  { revert Hr. unfold attempt, core. destruct (randomtoken_Generate (aw_world w)) as [w0 [x|e|]]; intros [= <- _]; done. }
  destruct r as [key0|e]; [|done]. apply bind_Ret in Hc as (salt & w2 & Hsalt & Hc).
  apply bind_Ret in Hc as (t1 & w3 & Ht1 & Hc). unfold lift in Ht1. injection Ht1 as -> Ht1.
  apply bind_Ret in Hc as (t2 & w4 & Ht2 & Hc). injection Hc as <- <- <-.
  unfold tokens_CreateGenerated in Ht2. apply bind_Ret in Ht2 as (_ & w5 & _ & Ht2). apply bind_Ret in Ht2 as (suffix & w6 & _ & Ht2).
  apply bind_Ret in Ht2 as (now & w7 & Hnow & Ht2). unfold tokens_store in Ht2. apply bind_Ret in Ht2 as (ts & w8 & Hts & Ht2).
  injection Hts as <- <-. destruct (aw_tokens w7 !! tk_Name _) eqn:El; [done|].
  apply bind_Ret in Ht2 as ([] & w9 & Hm & Ht2). inv Hm. inv Ht2. cbn [aw_tokens set_aw_tokens].
  apply ConvertTokenKeyToHash_matches in Ht1 as (Hk & Hst & _); [|intros Hen s0 ->|done|done].
  2: { rewrite Hen, (bool_decide_eq_false_2 (key0 = "")) in Hsalt by done. eapply rand_salt_good; [|exact Hsalt|done]. by unfold good_salts; rewrite Hs1. }
  split; [exact Hk|]. split; [exact Hst|]. apply lookup_insert_eq.
Qed.

(** The index of keys knows the token, or nothing. *)
Definition index_agrees (key : string) (t : Token) : Prop :=
  match tokenIndexer_ByIndex key with
  | Ret [] => True
  | Ret (t' :: _) => t' = t
  | Fail e => IsNotFound e = true
  | Panic => False
  end.

(** The caches know the user, who is not disabled; providers answer. *)
Definition known_user (userID : string) : Prop :=
  (exists u, userLister_Get userID = Ret u /\ u_Enabled u <> Some false)
  /\ (match userAttributeLister_Get userID with Ret _ => True | Fail e => IsNotFound e = true | Panic => False end)
  /\ forall provider p, exists e, GetUserExtraAttributes provider p = Ret e.

Lemma verify_stored_ok key t w :
  key_matches t key -> IsExpired (aw_now w) t = false -> verify_stored (tk_Name t) key t w = (w, Ret t).
Proof. intros Hk Hx. unfold verify_stored, bind, gets. by rewrite VerifyToken_ok. Qed.

Lemma TokenFromRequest_ok req t key w :
  plain (tk_Name t) -> plain key -> presents req (tk_Name t) key -> key_matches t key -> IsExpired (aw_now w) t = false ->
  aw_tokens w !! tk_Name t = Some t -> w_faults (aw_world w) = [] -> index_agrees key t -> TokenFromRequest req w = (w, Ret t).
Proof.
  intros Hn Hk Hp Hm Hx Ht Hf Hi. unfold TokenFromRequest. rewrite (GetTokenAuth_presents _ _ _ Hn Hk Hp).
  rewrite SplitTokenParts_presented by done.
  rewrite (bool_decide_eq_false_2 (tk_Name t = "")) by apply Hn. rewrite (bool_decide_eq_false_2 (key = "")) by apply Hk.
  rewrite (bool_decide_eq_false_2 (presented _ _ = "")).
  2: { unfold presented. destruct (tk_Name t); [by destruct Hn|done]. }
  cbn [orb].
  assert (lookup_stored (tk_Name t) key w = (w, Ret t)) as Hl.
  { unfold lookup_stored, bind at 1, attempt, tokens_Get, bind, core, api_request, gets. rewrite Hf.
    destruct w as [w0 us ts at_ sa now]. cbn [aw_world aw_tokens set_aw_world] in *. rewrite Ht. by apply verify_stored_ok. }
  unfold index_agrees in Hi. destruct (tokenIndexer_ByIndex key) as [[|t' rest]|e|]; [done| | |done].
  - subst t'. by apply verify_stored_ok.
  - by rewrite Hi.
Qed.

Lemma getUserExtraInfo_total order token u attribs :
  (forall provider p, exists e, GetUserExtraAttributes provider p = Ret e) -> exists x, getUserExtraInfo order token u attribs = Ret x.
Proof.
  intros Hall. unfold getUserExtraInfo. destruct (Hall (tk_AuthProvider token) (tk_UserPrincipal token)) as [e ->].
  destruct (attribs ≫= ua_ExtraByProvider) as [m|]; simpl; [|eauto]. case_bool_decide; [eauto|].
  destruct (_ || _); [eauto|]. destruct (m !! _); eauto.
Qed.

(** C22: a token that was given out at a login is accepted: whatever time has passed as long as the token has not
    expired, and whether keys are stored hashed or not, a request that presents its name and its key, as a bearer token
    or in the session cookie, is authenticated as the user who has logged in, as long as the user is known and not
    disabled. *)
Theorem login_authenticates userID p gs ptok ttl desc extra w w1 t key :
  good_salts w -> NewLoginToken userID p gs ptok ttl desc extra w = (w1, Ret (t, key)) -> plain (tk_Name t) -> plain key ->
  aw_tokens w1 !! tk_Name t = Some t
  /\ forall w2 req groups extras,
       aw_tokens w2 !! tk_Name t = Some t -> w_faults (aw_world w2) = [] -> IsExpired (aw_now w2) t = false ->
       index_agrees key t -> known_user userID -> presents req (tk_Name t) key ->
       exists resp, Authenticate_from groups extras req w2 = (w2, Ret resp) /\ ar_IsAuthed resp = true /\ ar_User resp = userID.
Proof.
  intros Hsalts Hlogin Hn Hk. unfold NewLoginToken in Hlogin. apply bind_Ret in Hlogin as (x & wa & Ha & Hlogin).
  assert (same_salts w wa) as Hsa by (eapply keeps_run; [|exact Ha]; runs_auto).
  apply bind_Ret in Hlogin as (e & wb & Hb & Hlogin).
  assert (same_salts wa wb) as Hsb.
  { eapply keeps_run; [|exact Hb]. eapply runs_attempt_err; [apply _|]. apply keeps_Backoff. intros []. runs_auto. }
  destruct e as [e|]; [done|]. apply createToken_spec in Hlogin as (Hm & (Hu & Hc & He & _) & Hst);
    [|by unfold good_salts; rewrite Hsb, Hsa|by apply Hk|done].
  split; [done|]. intros w2 req groups extras Ht Hf Hx Hi ((u & Hul & Hue) & Hattr & Hextra) Hp.
  unfold Authenticate_from. rewrite (bind_run _ _ _ _ _ (TokenFromRequest_ok req t key w2 Hn Hk Hp Hm Hx Ht Hf Hi)).
  rewrite He, Hc, Hu. cbn [login_token tk_Enabled tk_ClusterName tk_UserID].
  rewrite bool_decide_eq_false_2 by done. rewrite (bool_decide_eq_true_2 ("" = "")) by done. cbn [negb andb].
  assert (forall attribs, exists resp, authenticate_user groups extras t attribs = Ret resp /\ ar_IsAuthed resp = true /\ ar_User resp = userID) as Hrest.
  { intros attribs. unfold authenticate_user. rewrite Hu. cbn [login_token tk_UserID]. rewrite Hul. cbn [res_bind]. rewrite bool_decide_eq_false_2 by done.
    destruct (getUserExtraInfo_total (extras (default ∅ (attribs ≫= ua_ExtraByProvider))) t u attribs Hextra) as [ex ->].
    eexists. split; [reflexivity|]. done. }
  unfold lift. destruct (userAttributeLister_Get userID) as [a|e|]; [destruct (Hrest (Some a)) as (resp & -> & Hr)| |done]; [by exists resp|].
  rewrite Hattr. destruct (Hrest None) as (resp & -> & Hr). by exists resp.
Qed.

(** ** Derived tokens *)

Lemma check_token_inl name key stored w w' t :
  check_token name key stored w = (w', Ret (inl t)) ->
  w' = w /\ stored = t /\ tk_Name t = name /\ key_matches t key /\ IsExpired (aw_now w) t = false.
Proof.
  unfold check_token, bind, gets. destruct (VerifyToken (aw_now w) (Some stored) name key) as [code [e|]] eqn:Ev; [done|].
  intros [= <- <-]. apply VerifyToken_None in Ev. naive_solver.
Qed.

Lemma check_token_quiet name key stored w w' r : check_token name key stored w = (w', r) -> w' = w /\ r <> Panic.
Proof.
  unfold check_token, bind, gets, failed, ret. destruct (VerifyToken (aw_now w) (Some stored) name key) as [code [e|]]; intros [= <- <-]; done.
Qed.

Lemma find_token_run name key w w' r :
  find_token name key w = (w', r) -> quiet w w' /\ forall t, r = Ret (inl t) -> accepted w name key t.
Proof.
  unfold find_token, bind at 1, attempt. destruct (tokens_Get name w) as [w1 r1] eqn:Eg.
  apply tokens_Get_run in Eg as (Hq & Hp & Hg). destruct r1 as [t0|e|]; [|intros [= <- <-]; done|done].
  intros Hc. pose proof (check_token_quiet _ _ _ _ _ _ Hc) as [-> _]. split; [done|]. intros t ->.
  apply check_token_inl in Hc as (_ & -> & Hn & Hk & Hx). split; [right; by apply Hg|].
  destruct Hq as (_ & _ & _ & _ & Hnow & _). rewrite Hnow in Hx. done.
Qed.

Lemma getToken_run v w w' r :
  getToken v w = (w', r) -> quiet w w' /\ forall t, r = Ret (inl t) -> accepted w (fst (SplitTokenParts v)) (snd (SplitTokenParts v)) t.
Proof.
  unfold getToken. destruct (SplitTokenParts v) as [name key]. cbn [fst snd].
  destruct (tokenIndexer_ByIndex key) as [[|stored rest]|e|] eqn:Ei; [apply find_token_run| |destruct (IsNotFound e); [apply find_token_run|by intros [= <- <-]]|by intros [= <- <-]].
  intros Hc. pose proof (check_token_quiet _ _ _ _ _ _ Hc) as [-> _]. split; [done|]. intros t ->.
  apply check_token_inl in Hc as (_ & -> & Hn & Hk & Hx). split; [left; eauto|done].
Qed.

(** The rest of the fields of a created token, with no assumption on its key. *)
Lemma createToken_fields k8s w w' t key : createToken k8s w = (w', Ret (t, key)) -> stored_as k8s t.
Proof.
  unfold createToken. intros (r & w1 & _ & Hc)%bind_Ret. destruct r as [key0|e]; [|done].
  apply bind_Ret in Hc as (salt & w2 & _ & Hc). apply bind_Ret in Hc as (t1 & w3 & Ht1 & Hc). unfold lift in Ht1. injection Ht1 as -> Ht1.
  apply bind_Ret in Hc as (t2 & w4 & Ht2 & Hc). injection Hc as <- <- <-.
  apply bind_Ret in Ht2 as (_ & w5 & _ & Ht2). apply bind_Ret in Ht2 as (suffix & w6 & _ & Ht2).
  apply bind_Ret in Ht2 as (now & w7 & _ & Ht2). apply bind_Ret in Ht2 as (ts & w8 & _ & Ht2).
  destruct (ts !! _); [done|]. apply bind_Ret in Ht2 as (u & w9 & _ & Ht2). injection Ht2 as <- <-.
  unfold ConvertTokenKeyToHash in Ht1. destruct TokenHashing_Enabled; cbn [negb] in Ht1; [|by injection Ht1 as <-].
  destruct (tk_Token _ =? ""); [by injection Ht1 as <-|]. destruct (CreateHash _ _ _); [by injection Ht1 as <-|done..].
Qed.

Lemma createDerivedToken_inl input v w w' t key :
  createDerivedToken input v w = (w', Ret (inl (t, key))) ->
  exists parent ttl, accepted w (fst (SplitTokenParts v)) (snd (SplitTokenParts v)) parent
    /\ ClampToMaxTTL (millis (ti_TTLMillis input)) = Ret ttl /\ stored_as (derived_token parent input ttl) t.
Proof.
  unfold createDerivedToken. intros (r & w1 & Hg & Hc)%bind_Ret. apply getToken_run in Hg as [_ Hg].
  destruct r as [parent|[code e]]; [|done]. specialize (Hg parent eq_refl).
  destruct (ClampToMaxTTL _) as [ttl|e|] eqn:El; [|done..]. apply bind_Ret in Hc as (r & w2 & Hr & Hc). exists parent, ttl.
  destruct r as [[t0 k0]|e]; [|done]. injection Hc as <- <- <-. unfold attempt in Hr.
  destruct (createToken _ w1) as [w3 [x|e|]] eqn:Et; [|done..]. injection Hr as <- ->. by apply createToken_fields in Et.
Qed.

(** C23: derived tokens are bounded.  With a limit of at least a millisecond, a token derived at the request of a user,
    whose time to live is in the range a duration can hold, belongs to the user of the token that was presented, expires
    within the limit, and within the time asked for if one was. *)
Theorem derived_token_bounded input v w w' t key m :
  createDerivedToken input v w = (w', Ret (inl (t, key))) ->
  ParseTokenTTL AuthTokenMaxTTLMinutes = Ret m -> Millisecond <= m -> 0 <= ti_TTLMillis input <= 9223372036854 ->
  (exists parent, accepted w (fst (SplitTokenParts v)) (snd (SplitTokenParts v)) parent /\ tk_UserID t = tk_UserID parent)
  /\ tk_IsDerived t = true /\ 1 <= tk_TTLMillis t <= Milliseconds m
  /\ (ti_TTLMillis input <> 0 -> tk_TTLMillis t <= ti_TTLMillis input).
Proof.
  intros Hc Hm Hms Hin. apply createDerivedToken_inl in Hc as (parent & ttl & Ha & Hcl & Hu & _ & _ & Ht & _ & _ & _ & Hd).
  split; [by exists parent|]. split; [done|]. rewrite Ht. cbn [tk_TTLMillis derived_token].
  unfold ClampToMaxTTL in Hcl. rewrite Hm in Hcl. unfold millis in Hcl. unfold Millisecond in *.
  rewrite wrap64_id in Hcl by (unfold int64_min, int64_max; lia). unfold Milliseconds, Millisecond.
  rewrite (proj2 (Z.eqb_neq m 0)) in Hcl by lia.
  assert (forall x, 10 ^ 6 <= x -> 1 <= Z.quot x (10 ^ 6)) as Hq by (intros x Hx; apply Z.quot_le_lower_bound; lia).
  destruct (Z.eqb_spec (ti_TTLMillis input * 10 ^ 6) 0) as [E|E].
  - injection Hcl as <-. repeat split; [by apply Hq|lia|lia].
  - destruct (Z.leb_spec (ti_TTLMillis input * 10 ^ 6) m); injection Hcl as <-.
    + rewrite Z.quot_mul by lia. repeat split; [lia| |lia]. apply Z.quot_le_lower_bound; lia.
    + repeat split; [by apply Hq|lia|]. intros _. apply Z.quot_le_upper_bound; lia.
Qed.

(** A request outside that range gets around the limit: the multiplication that makes a duration of the time to live
    wraps around to less than a millisecond, which passes the limit and is stored as zero, and a token with a time to
    live of zero never expires. *)
Theorem derived_token_unbounded desc cluster v w w' t key m :
  createDerivedToken (mkTokenInput 76480200929599801 desc cluster) v w = (w', Ret (inl (t, key))) ->
  ParseTokenTTL AuthTokenMaxTTLMinutes = Ret m -> Millisecond <= m ->
  tk_TTLMillis t = 0 /\ forall now, IsExpired now t = false.
Proof.
  intros Hc Hm Hms. apply createDerivedToken_inl in Hc as (parent & ttl & _ & Hcl & _ & _ & _ & Ht & _).
  assert (tk_TTLMillis t = 0) as E.
  { rewrite Ht. cbn [tk_TTLMillis derived_token]. unfold ClampToMaxTTL in Hcl. rewrite Hm in Hcl. cbn [ti_TTLMillis] in Hcl.
    change (millis 76480200929599801) with 64 in Hcl. unfold Millisecond in Hms. rewrite (proj2 (Z.eqb_neq m 0)) in Hcl by lia.
    change (64 =? 0)%Z with false in Hcl. cbv iota in Hcl. rewrite (proj2 (Z.leb_le 64 m)) in Hcl by lia. by injection Hcl as <-. }
  split; [done|]. intros now. unfold IsExpired. by rewrite E.
Qed.

(** ** The API for tokens *)

(** Tokens are stored under their names. *)
Definition named (w : AWorld) : Prop := forall n t, aw_tokens w !! n = Some t -> tk_Name t = n.

Lemma deleteTokenByName_run name w w' r :
  deleteTokenByName name w = (w', r) -> forall n, aw_tokens w' !! n = aw_tokens w !! n \/ n = name /\ aw_tokens w' !! n = None.
Proof.
  unfold deleteTokenByName. intros Hr n.
  assert (fst (tokens_Delete name w) = w') as <-.
  { revert Hr. unfold bind, attempt_err, bind, attempt, ret. destruct (tokens_Delete name w) as [w1 [u|e|]]; intros [= <- _]; done. }
  unfold tokens_Delete, bind, gets. destruct (core api_request w) as [w1 r1] eqn:E. apply core_request in E as (Ht & _).
  rewrite <- Ht. destruct r1; [|by left..]. destruct (aw_tokens w1 !! name) eqn:El; [|by left]. cbn.
  destruct (decide (n = name)) as [->|Hn]; [right; by rewrite lookup_delete_eq|left; by rewrite lookup_delete_ne].
Qed.

Lemma quiet_getTokenByID v id : runs (fun _ => True) quiet (getTokenByID v id) (fun _ => True).
Proof.
  assert (forall n, runs (fun _ => True) quiet (tokens_Get n) (fun _ => True)) as Hg.
  { intros n w _. destruct (tokens_Get n w) as [w' r] eqn:E. apply tokens_Get_run in E as (Hq & _). done. }
  assert (runs (fun _ => True) quiet (getToken v) (fun _ => True)) as Hv.
  { intros w _. destruct (getToken v w) as [w' r] eqn:E. apply getToken_run in E as (Hq & _). done. }
  unfold getTokenByID, failed. runs_auto. eapply runs_attempt; [apply Hg|done..].
Qed.

Lemma getTokenByID_run v id w w' r :
  getTokenByID v id w = (w', Ret r) ->
  quiet w w' /\ match r with
                | inl t => exists caller t0, accepted w (fst (SplitTokenParts v)) (snd (SplitTokenParts v)) caller
                             /\ aw_tokens w !! id = Some t0 /\ tk_Name t = tk_Name t0 /\ tk_UserID t0 = tk_UserID caller
                | inr (code, _) => code <> 410
                end.
Proof.
  unfold getTokenByID. intros (r0 & w1 & Hg & Hc)%bind_Ret. apply getToken_run in Hg as [Hq Hg].
  destruct r0 as [caller|[code e]]; [|injection Hc as <- <-; done]. specialize (Hg caller eq_refl).
  apply bind_Ret in Hc as (r1 & w2 & Hr1 & Hc). unfold attempt in Hr1. destruct (tokens_Get id w1) as [w3 r3] eqn:Et.
  apply tokens_Get_run in Et as (Hq2 & _ & Ht). assert (quiet w w3) as Hq3 by (by etrans).
  destruct r3 as [t0|e|]; [|injection Hr1 as <- <-; injection Hc as <- <-; done|done]. injection Hr1 as <- <-.
  destruct (tk_UserID t0 =? tk_UserID caller) eqn:Eu; cbn [negb] in Hc; [|injection Hc as <- <-; done].
  apply bool_decide_eq_true in Eu. injection Hc as <- <-. split; [done|]. exists caller, t0. split; [done|].
  split; [destruct Hq as (<- & _); by apply Ht|]. split; [|done]. unfold mark_expired. by destruct (IsExpired _ t0).
Qed.

(** What a caller may delete: the token that is presented, and tokens of its user. *)
Definition own_token (req : Request) (w : AWorld) (n : string) : Prop :=
  exists name key caller, SplitTokenParts (GetTokenAuthFromRequest req) = (name, key) /\ accepted w name key caller
    /\ (n = name \/ exists t, aw_tokens w !! n = Some t /\ tk_UserID t = tk_UserID caller).

Lemma logout_own req w w' r n :
  logout req w = (w', r) -> aw_tokens w' !! n = aw_tokens w !! n \/ aw_tokens w' !! n = None /\ own_token req w n.
Proof.
  unfold logout. destruct (GetTokenAuthFromRequest req =? ""); [by intros [= <- _]; left|]. unfold bind at 1.
  destruct (deleteToken (GetTokenAuthFromRequest req) w) as [w1 r1] eqn:Ed.
  intros Hr. assert (w' = w1) as -> by (destruct r1 as [[? ?]|?|]; injection Hr as <- _; done). clear Hr.
  unfold deleteToken, bind at 1 in Ed. destruct (getToken (GetTokenAuthFromRequest req) w) as [w2 r2] eqn:Eg.
  apply getToken_run in Eg as [(Hq & _) Hg]. destruct r2 as [[t|[code e]]|e|]; [| |injection Ed as <- _; left; by rewrite Hq..].
  - destruct (deleteTokenByName_run _ _ _ _ Ed n) as [E|[-> E]]; [left; by rewrite E, Hq|right]. split; [done|].
    specialize (Hg t eq_refl). unfold own_token. destruct (SplitTokenParts (GetTokenAuthFromRequest req)) as [name key]. exists name, key, t.
    split; [done|]. split; [done|]. left. apply Hg.
  - left. destruct (code =? 404)%Z; [injection Ed as <- _; by rewrite Hq|].
    destruct (negb (code =? 410)%Z); injection Ed as <- _; by rewrite Hq.
Qed.

Lemma removeToken_own req id w w' r n :
  named w -> removeToken req id w = (w', r) -> aw_tokens w' !! n = aw_tokens w !! n \/ aw_tokens w' !! n = None /\ own_token req w n.
Proof.
  intros Hnamed. unfold removeToken. destruct (GetTokenAuthFromRequest req =? ""); [by intros [= <- _]; left|]. unfold bind at 1.
  destruct (getTokenByID (GetTokenAuthFromRequest req) id w) as [w1 r1] eqn:Eg.
  pose proof (quiet_getTokenByID (GetTokenAuthFromRequest req) id w I) as (_ & Hq0 & _). rewrite Eg in Hq0. cbn [fst] in Hq0.
  destruct r1 as [r1|e|]; [|intros [= <- _]; left; destruct Hq0 as [-> _]; done..].
  apply getTokenByID_run in Eg as [Hq Hg]. destruct r1 as [t|[code e]].
  2: { rewrite (proj2 (Z.eqb_neq code 410)) by done. intros [= <- _]. left. destruct Hq as [-> _]. done. }
  unfold bind at 1. destruct (getToken (GetTokenAuthFromRequest req) w1) as [w2 r2] eqn:E2. apply getToken_run in E2 as [Hq2 _].
  assert (aw_tokens w2 = aw_tokens w) as Hw2 by (destruct Hq2 as [-> _], Hq as [-> _]; done).
  destruct r2 as [[current|[code e]]|e|]; [|intros [= <- _]; left; by rewrite Hw2..].
  destruct ((tk_Name current =? tk_Name t) && negb (tk_IsDerived current)); [intros [= <- _]; left; by rewrite Hw2|].
  unfold bind at 1. destruct (deleteTokenByName (tk_Name t) w2) as [w3 r3] eqn:Ed. intros Hr.
  assert (w' = w3) as -> by (destruct r3 as [[? [?|]]|?|]; injection Hr as <- _; done).
  destruct (deleteTokenByName_run _ _ _ _ Ed n) as [E|[-> E]]; [left; by rewrite E, Hw2|right]. split; [done|].
  destruct Hg as (caller & t0 & Ha & Ht0 & Hn & Hu). unfold own_token. destruct (SplitTokenParts (GetTokenAuthFromRequest req)) as [name key].
  exists name, key, caller. split; [done|]. split; [done|]. right. exists t0. split; [|done]. by rewrite Hn, (Hnamed _ _ Ht0).
Qed.

(** C16: nobody deletes the tokens of others.  A logout or a removal leaves all tokens alone but at most those of the
    user whose valid token the request presents. *)
Theorem token_api_isolated req id w w' r n :
  named w -> logout req w = (w', r) \/ removeToken req id w = (w', r) ->
  aw_tokens w' !! n = aw_tokens w !! n \/ aw_tokens w' !! n = None /\ own_token req w n.
Proof. intros Hn [Hr|Hr]; [by eapply logout_own|by eapply removeToken_own]. Qed.

(** ** Behaviours behind defects *)

(** A logout with an expired token reads the name of a token that is nil. *)
Lemma logout_expired_panics req t key w :
  plain (tk_Name t) -> plain key -> presents req (tk_Name t) key -> key_matches t key -> IsExpired (aw_now w) t = true ->
  aw_tokens w !! tk_Name t = Some t -> w_faults (aw_world w) = [] -> tokenIndexer_ByIndex key = Ret [] -> snd (logout req w) = Panic.
Proof.
  intros Hn Hk Hp Hm Hx Ht Hf Hi. unfold logout. rewrite (GetTokenAuth_presents _ _ _ Hn Hk Hp).
  rewrite (bool_decide_eq_false_2 (presented _ _ = "")).
  2: { unfold presented. destruct (tk_Name t); [by destruct Hn|done]. }
  assert (VerifyToken (aw_now w) (Some t) (tk_Name t) key = (StatusGone, Some (errorString "must authenticate"))) as Hv.
  { unfold VerifyToken. rewrite bool_decide_eq_true_2 by done. cbn [negb].
    unfold key_matches in Hm. destruct (map_get (tk_Annotations t) TokenHashed =? "true").
    - destruct Hm as (h & -> & ->). by rewrite Hx.
    - subst key. rewrite bool_decide_eq_true_2 by done. cbn [negb]. by rewrite Hx. }
  assert (getToken (presented (tk_Name t) key) w = (w, Ret (inr (StatusGone, errorString "must authenticate")))) as Hg.
  { unfold getToken. rewrite SplitTokenParts_presented, Hi by done.
    unfold find_token, bind at 1, attempt, tokens_Get, bind, core, api_request, gets. rewrite Hf.
    destruct w as [w0 us ts at_ sa now]. cbn [aw_world aw_tokens set_aw_world aw_now] in *. rewrite Ht.
    unfold check_token, bind, gets, ret, set_aw_world. cbn -[VerifyToken]. by rewrite Hv. }
  unfold deleteToken. unfold bind at 1. by rewrite (bind_run _ _ _ _ _ Hg).
Qed.

(** The list of tokens is answered with as many nil entries in front. *)
Lemma listTokens_nil_entries req w w' code body :
  listTokens req w = (w', Ret (Response code body)) ->
  exists l, body = replicate (length l) None ++ map Some l.
Proof.
  unfold listTokens. destruct (_ =? ""); [done|]. intros (r & w1 & _ & Hr)%bind_Ret. destruct r as [ts|[status e]]; [|done].
  apply bind_Ret in Hr as (r & w2 & _ & Hr). destruct r as [cur|[? ?]]; [|done]. injection Hr as _ _ <-.
  exists (map (mark_current cur) ts). by rewrite length_map, map_map.
Qed.
End safety.

(** ** Samples *)

Section witnesses.
#[local] Existing Instance demoHash.
Definition demoUser : User := mkUser "" "" "u-1" "" ∅ "Ada" ["local://u-1"] None.
#[local] Instance demoAuth : AuthDeps := {|
  tokenIndexer_ByIndex key := Ret [];
  userLister_Get name := if name =? "u-1" then Ret demoUser else Fail (not_found "user" name);
  userAttributeLister_Get name := Fail (not_found "userattribute" name);
  authSecretLister_Get ns name := Fail (not_found "secret" name);
  tokenLister_List := Ret [];
  GoSyntax := Error;
  TokenHashing_Enabled := true;
  AuthTokenMaxTTLMinutes := "129600";
  KubeconfigDefaultTokenTTLMinutes := "43200"
|}.
#[local] Instance demoRequests : RequestDeps := {|
  clusterRouter req := "";
  GetUserExtraAttributes provider p := Ret None;
  TokenReviews_Create t := Fail (errorString "unreachable");
  downstreamReview c := Fail (errorString "unreachable");
  ParseUnverified t := Fail (errorString "not a JWT");
  clusterProxyConfigs c := Ret []
|}.
#[local] Existing Instance demoHashLaws.

Definition demoAuthWorld : AWorld :=
  mkAWorld (mkWorld (mkPlan ∅ ∅ ∅) ∅ ∅ ∅ ∅ ∅ [] "" [Ret "k3y"; Ret "abcde"; Ret "k4y"; Ret "fghij"]) {[ "u-1" := demoUser ]} ∅ ∅
    [Ret [1; 2; 3; 4; 5; 6; 7; 8]%N; Ret [8; 7; 6; 5; 4; 3; 2; 1]%N] 1000.

Definition demoLogin : AM (Token * string) := NewLoginToken "u-1" (mkPrincipal "local://u-1" "" "" "local" ∅) [] "" 0 "" None.
Definition demoLoggedIn : AWorld := Eval vm_compute in fst (demoLogin demoAuthWorld).
Definition demoSession : Token := Eval vm_compute in match snd (demoLogin demoAuthWorld) with Ret (t, _) => t | _ => login_token "" zeroPrincipal 0 "" end.
Definition demoBearer : Request := mkRequest "Bearer token-abcde:k3y" None.

Lemma demoLogin_run : demoLogin demoAuthWorld = (demoLoggedIn, Ret (demoSession, "k3y")).
Proof. vm_compute. reflexivity. Qed.

Lemma login_authenticates_witness :
  exists resp, Authenticate demoBearer demoLoggedIn = (demoLoggedIn, Ret resp) /\ ar_User resp = "u-1".
Proof.
  destruct (login_authenticates "u-1" (mkPrincipal "local://u-1" "" "" "local" ∅) [] "" 0 "" None demoAuthWorld demoLoggedIn demoSession "k3y")
    as [Hst Hreq].
  - constructor; [|constructor; [|constructor]]; intros salt [= <-]; (split; [by repeat constructor|discriminate]).
  - exact demoLogin_run.
  - split; [discriminate|reflexivity].
  - split; [discriminate|reflexivity].
  - destruct (Hreq demoLoggedIn demoBearer map_to_list map_to_list) as (resp & Hr & _ & Hu).
    + exact Hst.
    + reflexivity.
    + reflexivity.
    + exact Logic.I.
    + split; [by exists demoUser|]. split; [reflexivity|]. intros; by eexists.
    + by left.
    + by exists resp.
Defined.

Lemma authenticate_sound_witness :
  exists t, tk_UserID t = "u-1" /\ accepted demoLoggedIn "token-abcde" "k3y" t.
Proof.
  destruct (authenticate_sound map_to_list map_to_list demoBearer demoLoggedIn demoLoggedIn
              (mkAuthResponse true "u-1" "local://u-1" [AllAuthenticated; cattle_authenticated] ∅))
    as (name & key & t & u & Hs & _ & Ha & Hu & _).
  - by intros m.
  - vm_compute. reflexivity.
  - exists t. split; [by symmetry|]. injection Hs as <- <-. exact Ha.
Defined.

Definition demoDerive (ttl : Z) : AM (Token * string + Z * error) := createDerivedToken (mkTokenInput ttl "" "") "token-abcde:k3y".
Definition demoDerivedToken (ttl : Z) : Token :=
  match snd (demoDerive ttl demoLoggedIn) with Ret (inl (t, _)) => t | _ => login_token "" zeroPrincipal 0 "" end.
Definition demoDerivedWorld (ttl : Z) : AWorld := fst (demoDerive ttl demoLoggedIn).

Lemma derived_token_bounded_witness :
  1 <= tk_TTLMillis (demoDerivedToken 1000) <= 129600 * 60000 /\ tk_TTLMillis (demoDerivedToken 1000) <= 1000.
Proof.
  destruct (derived_token_bounded (mkTokenInput 1000 "" "") "token-abcde:k3y" demoLoggedIn (demoDerivedWorld 1000) (demoDerivedToken 1000) "k4y" (129600 * Minute))
    as (_ & _ & Hb & Hle).
  - vm_compute. reflexivity.
  - vm_compute. reflexivity.
  - vm_compute. discriminate.
  - simpl. lia.
  - split; [exact Hb|]. apply Hle. discriminate.
Defined.

Lemma derived_token_unbounded_witness :
  tk_TTLMillis (demoDerivedToken 76480200929599801) = 0 /\ IsExpired (10 ^ 18) (demoDerivedToken 76480200929599801) = false.
Proof.
  destruct (derived_token_unbounded "" "" "token-abcde:k3y" demoLoggedIn (demoDerivedWorld 76480200929599801) (demoDerivedToken 76480200929599801) "k4y" (129600 * Minute))
    as [Ht Hx].
  - vm_compute. reflexivity.
  - vm_compute. reflexivity.
  - vm_compute. discriminate.
  - split; [exact Ht|apply Hx].
Defined.

Lemma token_api_isolated_witness :
  let w' := fst (logout demoBearer demoLoggedIn) in
  aw_tokens w' !! "token-zzzzz" = aw_tokens demoLoggedIn !! "token-zzzzz" \/ own_token demoBearer demoLoggedIn "token-zzzzz".
Proof.
  destruct (token_api_isolated demoBearer "" demoLoggedIn (fst (logout demoBearer demoLoggedIn)) (snd (logout demoBearer demoLoggedIn)) "token-zzzzz") as [E|[_ E]].
  - intros n t Hn. change (({[ "token-abcde" := demoSession ]} : gmap string Token) !! n = Some t) in Hn.
    by apply lookup_singleton_Some in Hn as [<- <-].
  - left. apply surjective_pairing.
  - by left.
  - by right.
Defined.
End witnesses.
