(* ===== verification/RequestSafety.v ===== *)
(** * What a request is forwarded as

    Properties of [Authenticate]: impersonation needs the permission of the cluster, and the headers of a forwarded
    request name the user it was authenticated as. *)

From S2P Require Import Prelude GoLib Codec Errors Types Capr World Encodings Hashers Tokens Authenticate.

(** ** Impersonation *)

Lemma checkUserCanImpersonateGroup_true sar user groups :
  checkUserCanImpersonateGroup sar user groups = Ret true -> forall g, g ∈ groups -> sar user "impersonate" "groups" g = Ret true.
Proof.
  induction groups as [|g groups IH]; simpl; [by intros _ g ?%elem_of_nil|].
  intros (b & Hb & Hr)%res_bind_Ret. destruct b; [|done]. intros g' [->|Hg']%elem_of_cons; auto.
Qed.

(** The review of the cluster has allowed [user] to impersonate. *)
Definition allowed (sar : res AccessReview) (user resource name : string) : Prop :=
  exists review, sar = Ret review /\ review user "impersonate" resource name = Ret true.

(** C25: impersonation is authorised.  A request that asks to act as another user or with other groups is taken for that
    user, or with these groups, only if the review of the cluster has allowed it for this user, and for each of the
    groups; a request taken for another user keeps none of the groups of the caller. *)
Theorem impersonation_authorized sar info reqUser reqGroup info' :
  Impersonating_Authenticate (Some sar) (Some info) reqUser reqGroup = Ret (Some info') ->
  (ui_Name info' = ui_Name info \/ ui_Name info' = reqUser /\ allowed sar (ui_Name info) "users" reqUser)
  /\ forall g, g ∈ ui_Groups info' ->
       (g ∈ ui_Groups info /\ ui_Name info' = ui_Name info) \/ g = AllAuthenticated
       \/ (g ∈ reqGroup /\ allowed sar (ui_Name info) "groups" g).
Proof.
  unfold Impersonating_Authenticate. intros (iu & Hiu & Hr)%res_bind_Ret. apply res_bind_Ret in Hr as (ig & Hig & Hr). injection Hr as <-.
  cbn [ui_Name ui_Groups]. split.
  - destruct iu; [right|by left]. split; [done|]. destruct ((reqUser !=? "") && (reqUser !=? ui_Name info)); [|done].
    apply res_bind_Ret in Hiu as (b & Hb & Hiu). destruct b; [|done]. by apply res_bind_Ret in Hb as (review & -> & Hb); exists review.
  - intros g Hg. destruct iu, ig; cbn [orb] in Hg; [| | |by left];
      (apply elem_of_app in Hg as [Hg|Hg%list_elem_of_singleton]; [|by right; left]); try by apply elem_of_nil in Hg.
    all: right; right; split; [done|]; destruct (_ && _) in Hig; [|done]; apply res_bind_Ret in Hig as (b & Hb & Hig); destruct b; [|done];
      apply res_bind_Ret in Hb as (review & -> & Hb); exists review; split; [done|]; by eapply checkUserCanImpersonateGroup_true.
Qed.

(** ** Headers *)

Lemma canonical_extra k : exists k', CanonicalHeaderKey (ImpersonateExtra +:+ k) = ImpersonateExtra +:+ k'.
Proof.
  unfold CanonicalHeaderKey. destruct (all_chars token_char (ImpersonateExtra +:+ k)); [|by exists k].
  exists (canonical_chars true k). reflexivity.
Qed.

Definition extra_header (k : string) : Prop := exists k', k = ImpersonateExtra +:+ k'.

Lemma HasPrefix_extra k : HasPrefix k ImpersonateExtra = true <-> extra_header k.
Proof. unfold HasPrefix. rewrite prefix_spec. done. Qed.

(** Other headers are not touched by the extras. *)
Lemma add_extras_lookup order h k :
  add_extras order h !! k = h !! k
  \/ exists a l, (a, l) ∈ order /\ k = CanonicalHeaderKey (ImpersonateExtra +:+ a).
Proof.
  unfold add_extras. revert h. induction order as [|[a l] order IH]; intros h; [by left|]. cbn [fold_left].
  edestruct IH as [->|(a' & l' & Hin & ->)]; [|right; exists a', l'; split; [by constructor|done]].
  cbn [fst snd]. clear IH. assert (forall vs h, fold_left (fun acc s => if s !=? "" then header_Add (ImpersonateExtra +:+ a) s acc else acc) vs h !! k = h !! k
      \/ k = CanonicalHeaderKey (ImpersonateExtra +:+ a)) as Hl.
  { induction vs as [|v vs IH]; intros h'; [by left|]. cbn [fold_left]. destruct (IH (if v !=? "" then header_Add (ImpersonateExtra +:+ a) v h' else h')) as [->| ->]; [|by right].
    destruct (v !=? ""); [|by left]. unfold header_Add.
    destruct (decide (CanonicalHeaderKey (ImpersonateExtra +:+ a) = k)) as [<-|Hk]; [by right|left; by rewrite lookup_insert_ne]. }
  destruct (Hl l h) as [->| ->]; [by left|right]. exists a, l. split; [constructor|done].
Qed.

Lemma add_groups_lookup groups h :
  let h' := fold_left (fun acc g => header_Add "Impersonate-Group" g acc) groups h in
  default [] (h' !! "Impersonate-Group") = default [] (h !! "Impersonate-Group") ++ groups
  /\ forall k, k <> "Impersonate-Group" -> h' !! k = h !! k.
Proof.
  revert h. induction groups as [|g groups IH]; intros h; [by rewrite app_nil_r|]. cbn [fold_left].
  destruct (IH (header_Add "Impersonate-Group" g h)) as [Hg Hk]. split.
  - rewrite Hg. unfold header_Add. change (CanonicalHeaderKey "Impersonate-Group") with "Impersonate-Group". rewrite lookup_insert_eq. simpl.
    by rewrite <- app_assoc.
  - intros k Hne. rewrite Hk by done. unfold header_Add. change (CanonicalHeaderKey "Impersonate-Group") with "Impersonate-Group". by rewrite lookup_insert_ne.
Qed.

(** Headers arrive under their canonical names. *)
Definition canonical (h : headers) : Prop := forall k vs, h !! k = Some vs -> CanonicalHeaderKey k = k.

Lemma clean_extra_lookup h k vs :
  canonical h -> clean_extra h !! k = Some vs ->
  h !! k = Some vs /\ (HasPrefix k ImpersonateExtra = true -> IsValidUserExtraAttribute (TrimPrefix k ImpersonateExtra) = true).
Proof.
  intros Hc. unfold clean_extra.
  assert (forall l acc, (forall x, x ∈ l -> CanonicalHeaderKey x = x) ->
    fold_left (fun acc header => if HasPrefix header ImpersonateExtra && negb (IsValidUserExtraAttribute (TrimPrefix header ImpersonateExtra))
                                 then header_Del header acc else acc) l acc !! k = Some vs ->
    acc !! k = Some vs /\ (k ∈ l -> HasPrefix k ImpersonateExtra && negb (IsValidUserExtraAttribute (TrimPrefix k ImpersonateExtra)) = false)) as Hl.
  { induction l as [|x l IH]; intros acc Hx; cbn [fold_left]; [intros H; split; [done|by intros ?%elem_of_nil]|].
    intros H. destruct (IH _ ltac:(intros; apply Hx; by constructor) H) as [Ha Hin].
    destruct (HasPrefix x ImpersonateExtra && negb (IsValidUserExtraAttribute (TrimPrefix x ImpersonateExtra))) eqn:Ex.
    - unfold header_Del in Ha. rewrite (Hx x) in Ha by constructor. apply lookup_delete_Some in Ha as [Hne Ha]. split; [done|].
      intros [->|Hk]%elem_of_cons; [done|auto].
    - split; [done|]. intros [->|Hk]%elem_of_cons; [done|auto]. }
  intros H. apply Hl in H as [Hh Hv].
  - split; [done|]. intros Hp. rewrite Hp in Hv. cbn [andb] in Hv. apply negb_false_iff, Hv.
    apply list_elem_of_In, in_map_iff. exists (k, vs). split; [done|]. by apply list_elem_of_In, elem_of_map_to_list.
  - intros x Hx. apply list_elem_of_In, in_map_iff in Hx as ([x' vs'] & <- & Hx). apply list_elem_of_In, elem_of_map_to_list in Hx. by eapply Hc.
Qed.

(** C24: what is forwarded.  A request is forwarded only with a user; unless a service account has signed it, its
    impersonation headers name exactly the user and the groups it was authenticated with, whatever the caller has put
    there, and a header with an extra attribute bears the name of one of the known attributes or of an attribute of the
    user. *)
Theorem forwarded_as_user context h h' :
  authHeader_ServeHTTP context false h = Some h' -> canonical h ->
  exists info, context = Some info /\ ui_Name info <> error_user /\ h' !! "Impersonate-User" = Some [ui_Name info]
    /\ default [] (h' !! "Impersonate-Group") = ui_Groups info
    /\ forall k, extra_header k -> is_Some (h' !! k) ->
         IsValidUserExtraAttribute (TrimPrefix k ImpersonateExtra) = true
         \/ exists a l, ui_Extra info !! a = Some l /\ k = CanonicalHeaderKey (ImpersonateExtra +:+ a).
Proof.
  intros Hs Hc. unfold authHeader_ServeHTTP in Hs. destruct context as [info|]; [|done].
  destruct (ui_Name info =? error_user) eqn:En; [done|]. apply bool_decide_eq_false in En. injection Hs as <-. exists info.
  set (h1 := header_Del "Impersonate-Group" (header_Set "Impersonate-User" (ui_Name info) (clean_extra h))).
  destruct (add_groups_lookup (ui_Groups info) h1) as [Hg Hk]. set (h2 := fold_left _ _ h1) in *.
  assert (forall a, CanonicalHeaderKey (ImpersonateExtra +:+ a) <> "Impersonate-User" /\ CanonicalHeaderKey (ImpersonateExtra +:+ a) <> "Impersonate-Group") as Hne.
  { intros a. destruct (canonical_extra a) as [k' ->]. done. }
  assert (h1 !! "Impersonate-User" = Some [ui_Name info] /\ h1 !! "Impersonate-Group" = None) as [Hu Hn].
  { unfold h1, header_Del, header_Set. change (CanonicalHeaderKey "Impersonate-Group") with "Impersonate-Group". change (CanonicalHeaderKey "Impersonate-User") with "Impersonate-User".
    by rewrite lookup_delete_ne, lookup_insert_eq, lookup_delete_eq. }
  split; [done|]. split; [done|]. split; [|split].
  - destruct (add_extras_lookup (map_to_list (ui_Extra info)) h2 "Impersonate-User") as [->|(a & l & _ & E)]; [by rewrite Hk|by destruct (Hne a)].
  - destruct (add_extras_lookup (map_to_list (ui_Extra info)) h2 "Impersonate-Group") as [->|(a & l & _ & E)]; [by rewrite Hg, Hn|by destruct (Hne a)].
  - intros k [k' ->] [vs Hv]. destruct (add_extras_lookup (map_to_list (ui_Extra info)) h2 (ImpersonateExtra +:+ k')) as [E|(a & l & Hin & E)].
    2: { right. exists a, l. split; [by apply elem_of_map_to_list|done]. }
    left. rewrite E, Hk in Hv by done. unfold h1, header_Del, header_Set in Hv.
    change (CanonicalHeaderKey "Impersonate-Group") with "Impersonate-Group" in Hv. change (CanonicalHeaderKey "Impersonate-User") with "Impersonate-User" in Hv.
    rewrite lookup_delete_ne, lookup_insert_ne in Hv by done. apply clean_extra_lookup in Hv as [_ Hv]; [|done]. apply Hv, HasPrefix_app.
Qed.

(** ** Behaviours behind defects *)

Section defects.
Context `{R : RequestDeps}.

(** The answer of a token review counts whether or not it says that the token is authentic. *)
Lemma token_review_unauthenticated info hasAuth req status :
  ui_Name info = error_user -> TokenReviews_Create (GetTokenAuthFromRequest req) = Ret status -> rs_Authenticated status = false ->
  exists info', TokenReview_Authenticate info hasAuth req = Ret (info', true) /\ ui_Name info' = ui_Name (rs_User status).
Proof.
  intros Hn Hr _. unfold TokenReview_Authenticate. rewrite bool_decide_eq_true_2 by done. cbn [negb]. rewrite Hr. by eexists.
Qed.
End defects.

(** An extra attribute the caller has put into the request is forwarded in front of that of the user. *)
Definition spoofed : headers := {[ "Impersonate-Extra-Username" := ["admin"] ]}.
Definition ada : UserInfo := mkUserInfo "u-1" "u-1" [AllAuthenticated] {[ UserAttributeUserName := ["Ada"] ]}.

Lemma caller_extra_forwarded :
  (fun h => h !! "Impersonate-Extra-Username") <$> authHeader_ServeHTTP (Some ada) false spoofed = Some (Some ["admin"; "Ada"]).
Proof. vm_compute. reflexivity. Qed.

(** ** Samples *)

Lemma impersonation_authorized_witness :
  exists info', Impersonating_Authenticate (Some (Ret (fun user verb resource name => Ret (name =? "u-2")))) (Some ada) "u-2" [] = Ret (Some info')
    /\ ui_Name info' = "u-2" /\ (forall g, g ∈ ui_Groups info' -> g = AllAuthenticated).
Proof.
  eexists. split; [reflexivity|]. split; [reflexivity|]. intros g Hg.
  destruct (impersonation_authorized (Ret (fun user verb resource name => Ret (name =? "u-2"))) ada "u-2" []
    (mkUserInfo "u-2" "u-2" [AllAuthenticated] {[ UserAttributeUserName := ["Ada"] ]})) as [_ Hall].
  - reflexivity.
  - destruct (Hall g Hg) as [[_ E]|[E|[E _]]]; [discriminate E|exact E|by apply elem_of_nil in E].
Defined.

Definition forwarded : headers := Eval vm_compute in default ∅ (authHeader_ServeHTTP (Some ada) false spoofed).

Lemma forwarded_run : authHeader_ServeHTTP (Some ada) false spoofed = Some forwarded.
Proof. vm_compute. reflexivity. Qed.

Lemma forwarded_as_user_witness : forwarded !! "Impersonate-User" = Some ["u-1"].
Proof.
  destruct (forwarded_as_user (Some ada) spoofed forwarded forwarded_run) as (info & Hi & _ & Hu & _).
  - intros k vs Hk. unfold spoofed in Hk. apply lookup_singleton_Some in Hk as [<- _]. reflexivity.
  - injection Hi as <-. exact Hu.
Defined.
