(* ===== verification/KubeConfig.v ===== *)
(** * Kubeconfigs of clusters ([provisioningv2/kubeconfig/manager.go])

    For each cluster there is a user of its own with a token, and a secret with a kubeconfig that holds the token and
    leads to the proxy of Rancher.  The secret is checked whenever it is asked for, and replaced when it is out of date.
    The second part holds the theorems about it. *)

From S2P Require Import Prelude GoLib Codec Errors Types External Instances Capr World ProvTypes Encodings Hashers Tokens Authenticate TokenSafety.

Definition provisioning_APIVersion : string := "provisioning.cattle.io/v1".

(** [clientcmdapi.Config]: clusters with server and certificate, users with their token, contexts with both names. *)
Record KubeConfig := mkKubeConfig {
  kc_Clusters : gmap string (string * string);
  kc_AuthInfos : gmap string string;
  kc_Contexts : gmap string (string * string);
  kc_CurrentContext : string
}.

Record ClusterRoleTemplateBinding := mkCRTB {
  crtb_Name : string;
  crtb_Namespace : string;
  crtb_ClusterName : string;
  crtb_UserName : string;
  crtb_UserPrincipalName : string;
  crtb_RoleTemplateName : string
}.

(** [clientcmd] and the settings. *)
Class KubeEnv `{AuthDeps} := {
  clientcmd_Write : KubeConfig -> res string;
  clientcmd_Load : string -> res KubeConfig;
  InternalServerURL : string;
  InternalCACerts : string
}.

(** A written kubeconfig is not empty, and is read back. *)
Class KubeCodec `{KubeEnv} := {
  clientcmd_roundtrip c s : clientcmd_Write c = Ret s -> s <> "" /\ clientcmd_Load s = Ret c
}.

Class KubeCaches := {
  tokensCache_Get : string -> res Token;
  userCache_Get : string -> res User;
  kubeSecretCache_Get : string -> string -> res Secret
}.

(** ** Names *)

Definition getKubeConfigSecretName (clusterName : string) : string := clusterName +:+ "-kubeconfig".
Definition getPrincipalID (clusterNamespace clusterName : string) : string :=
  "system://provisioning/" +:+ clusterNamespace +:+ "/" +:+ clusterName.
Definition getUserNameForPrincipal (principal : string) : string := "u-" +:+ ToLower (take_str 10 (base32_Std (sha256_Sum256 principal))).
Definition getPrincipalAndUserName (clusterNamespace clusterName : string) : string * string :=
  let principalID := getPrincipalID clusterNamespace clusterName in (principalID, getUserNameForPrincipal principalID).
Definition labelsForUser (principalID : string) : gmap string string :=
  {[ take_str 63 (base32_Hex (bytes_of principalID)) := "hashed-principal-name" ]}.

(** The user is named by a text of twelve characters without colons or spaces, and labels stay within their limit. *)
Lemma getUserNameForPrincipal_shape p :
  String.length (getUserNameForPrincipal p) = 12%nat
  /\ exists s, getUserNameForPrincipal p = "u-" +:+ s /\ all_chars lower_alnum s = true.
Proof.
  unfold getUserNameForPrincipal. split; [|eexists; split; [reflexivity|apply base32_lower]].
  unfold base32_Std. rewrite length_app_str, take_string_of, ToLower_string_of, length_string_of, length_map, length_take, length_map, length_b32_groups, sha256_length.
  reflexivity.
Qed.

Lemma labelsForUser_bound p k v : labelsForUser p !! k = Some v -> (String.length k <= 63)%nat.
Proof. unfold labelsForUser. intros [<- _]%lookup_singleton_Some. rewrite length_take_str. lia. Qed.

Section manager.
Context `{E : KubeEnv} `{C : KubeCaches} `{X : External}.

(** ** Users *)

Definition users_Create (u : User) : AM unit :=
  let* _ := core api_request in
  let* us := gets aw_users in
  match us !! u_Name u with
  | Some _ => fail (already_exists "users.management.cattle.io" (u_Name u))
  | None => modify (set_aw_users (<[u_Name u := u]> us))
  end.
Definition users_Delete (name : string) : AM unit :=
  let* _ := core api_request in
  let* us := gets aw_users in
  match us !! name with
  | Some _ => modify (set_aw_users (delete name us))
  | None => fail (not_found "users.management.cattle.io" name)
  end.

Definition createUser (principalID userName : string) : AM unit :=
  match userCache_Get userName with
  | Panic => panic
  | Ret _ => ret tt
  | Fail err => if IsNotFound err then users_Create (mkUser "" "" userName "" (labelsForUser principalID) "" [principalID] None) else fail err
  end.

Definition deleteUser (userName : string) : AM unit :=
  let* e := attempt_err (users_Delete userName) in
  match e with
  | Some err => if IsNotFound err then ret tt else fail err
  | None => ret tt
  end.

Definition EnsureUser (clusterNamespace clusterName : string) : AM string :=
  let '(principalID, userName) := getPrincipalAndUserName clusterNamespace clusterName in
  let* _ := createUser principalID userName in ret userName.

Definition DeleteUser (clusterNamespace clusterName : string) : AM unit :=
  deleteUser (getUserNameForPrincipal (getPrincipalID clusterNamespace clusterName)).

(** ** Tokens *)

Definition getCachedToken (clusterNamespace clusterName : string) : res (string * Token) :=
  let userName := snd (getPrincipalAndUserName clusterNamespace clusterName) in
  let? token := tokensCache_Get userName in Ret (userName, token).

Definition saved_token (r : res Secret) : res string :=
  match r with
  | Ret secret => Ret (map_get (s_Data secret) "token")
  | Fail err => if IsNotFound err then Ret "" else Fail err
  | Panic => Panic
  end.
Definition getSavedToken (kubeConfigNamespace kubeConfigName : string) : res string :=
  saved_token (kubeSecretCache_Get kubeConfigNamespace kubeConfigName).
Definition getSavedTokenNoCache (kubeConfigNamespace kubeConfigName : string) : AM string :=
  let* r := attempt (core (secrets_Get kubeConfigNamespace kubeConfigName)) in
  lift (saved_token (match r with inl s => Ret s | inr e => Fail e end)).

Definition user_token (userName tokenValue : string) : Token :=
  mkToken userName {[ UserIDLabel := userName; TokenKindLabel := "provisioning" ]} ∅ 0 tokenValue zeroPrincipal [] ∅ userName "local" 0 true ""
    false false "" None.

Definition drop_user_token (userName : string) : AM unit :=
  let* e := attempt_err (let* _ := tokens_Get userName in tokens_Delete userName) in
  match e with
  | Some err => if IsNotFound err then ret tt else fail err
  | None => ret tt
  end.

Definition createUserToken (userName : string) : AM string :=
  let* _ := drop_user_token userName in
  let* r := attempt (core randomtoken_Generate) in
  match r with
  | inr err => fail (wrapError ("failed to generate token key: " +:+ Error err) err)
  | inl tokenValue =>
      let* salt := (if TokenHashing_Enabled && (tokenValue !=? "") then rand_salt else ret (Ret [])) in
      match ConvertTokenKeyToHash TokenHashing_Enabled salt (user_token userName tokenValue) with
      | Panic => panic
      | Fail err => fail (wrapError ("unable to hash token: " +:+ Error err) err)
      | Ret token => let* _ := tokens_Create token in ret (userName +:+ ":" +:+ tokenValue)
      end
  end.

(** The token of the secret, of the cache or of the server, or else a new one. *)
Definition getToken (clusterNamespace clusterName : string) : AM string :=
  let kubeConfigSecretName := getKubeConfigSecretName clusterName in
  let* token := lift (getSavedToken clusterNamespace kubeConfigSecretName) in
  if token !=? "" then ret token
  else
    let* token := getSavedTokenNoCache clusterNamespace kubeConfigSecretName in
    if token !=? "" then ret token
    else
      let* userName := EnsureUser clusterNamespace clusterName in
      createUserToken userName.

Definition GetCRTBForClusterOwner (cluster : ProvCluster) (status : ClusterStatus) : res ClusterRoleTemplateBinding :=
  if ct_ClusterName status =? "" then Fail (errorString "management cluster is not assigned to v1.Cluster")
  else
    let principalID := getPrincipalID (pc_Namespace cluster) (pc_Name cluster) in
    Ret (mkCRTB (name_SafeConcatName [ct_ClusterName status; pc_Namespace cluster; "owner"]) (ct_ClusterName status) (ct_ClusterName status)
           (getUserNameForPrincipal principalID) principalID "cluster-owner").

(** ** The kubeconfig *)

(** Whether the kubeconfig could not be examined, and whether it is valid. *)
Definition kubeConfigValid (kcData : string) (cluster : ProvCluster) (currentServerURL currentServerCA currentManagementClusterName : string)
    (secretLabels : gmap string string) : res (bool * bool) :=
  if kcData =? "" then Ret (true, false)
  else match clientcmd_Load kcData with
       | Panic => Panic
       | Fail _ => Ret (true, false)
       | Ret kc =>
           match kc_Clusters kc !! "cluster" with
           | None => Panic
           | Some (server, ca) =>
               match Split server "/k8s/clusters/" with
               | [serverURL; managementCluster] =>
                   match getCachedToken (pc_Namespace cluster) (pc_Name cluster) with
                   | Panic => Panic
                   | Fail _ => Ret (true, false)
                   | Ret (userName, token) =>
                       match kc_AuthInfos kc !! "user" with
                       | None => Panic
                       | Some kcToken =>
                           let tokenMatches : res (option bool) :=
                             if map_get (tk_Annotations token) TokenHashed =? "true" then
                               match GetHasherForHash (tk_Token token) with
                               | Panic => Panic
                               | Fail _ => Ret None
                               | Ret hasher => Ret (Some (match VerifyHash hasher (tk_Token token) (snd (SplitTokenParts kcToken)) with Ret _ => true | _ => false end))
                               end
                             else Ret (Some ((userName +:+ ":" +:+ tk_Token token) =? kcToken)) in
                           let? m := tokenMatches in
                           match m with
                           | None => Ret (true, false)
                           | Some matches =>
                               if negb (bool_decide (secretLabels !! CAPIClusterNameLabel = Some (pc_Name cluster))) then Ret (false, false)
                               else if (serverURL !=? currentServerURL) || (TrimSpace currentServerCA !=? ca)
                                       || (managementCluster !=? currentManagementClusterName) || negb matches then Ret (false, false)
                               else Ret (false, true)
                           end
                       end
                   end
               | _ => Ret (true, false)
               end
           end
       end.

Definition new_kubeconfig (serverURL cacert managementClusterName tokenValue : string) : KubeConfig :=
  mkKubeConfig {[ "cluster" := (serverURL +:+ "/k8s/clusters/" +:+ managementClusterName, TrimSpace cacert) ]} {[ "user" := tokenValue ]}
    {[ "default" := ("cluster", "user") ]} "default".

Definition kubeconfig_secret (cluster : ProvCluster) (secretName data tokenValue : string) : Secret :=
  mkSecret (pc_Namespace cluster) secretName "" {[ CAPIClusterNameLabel := pc_Name cluster ]} ∅ {[ "value" := data; "token" := tokenValue ]}
    [mkOwnerReference provisioning_APIVersion "Cluster" (pc_Name cluster) (pc_UID cluster) false] false.

(** The secret is not there, or was just deleted. *)
Definition create_kubeconfig (cluster : ProvCluster) (secretName managementClusterName : string) : AM (gmap string string) :=
  let* r := attempt (core (secrets_Get (pc_Namespace cluster) secretName)) in
  match r with
  | inl secret => ret (s_Data secret)
  | inr _ =>
      let* tokenValue := getToken (pc_Namespace cluster) (pc_Name cluster) in
      let* data := lift (clientcmd_Write (new_kubeconfig InternalServerURL InternalCACerts managementClusterName tokenValue)) in
      let secret := kubeconfig_secret cluster secretName data tokenValue in
      let* _ := core (secrets_Create secret) in
      ret (s_Data secret)
  end.

(** Whether a cached secret has to be replaced. *)
Definition outdated (cluster : ProvCluster) (managementClusterName : string) (secret : Secret) : res bool :=
  let? '(retrievalError, isValid) := kubeConfigValid (map_get (s_Data secret) "value") cluster InternalServerURL InternalCACerts managementClusterName (s_Labels secret) in
  Ret ((negb retrievalError && negb isValid) || bool_decide (s_Data secret !! "token" = None) || bool_decide (s_OwnerReferences secret = [])).

Definition getKubeConfigData (cluster : ProvCluster) (secretName managementClusterName : string) : AM (gmap string string) :=
  if InternalServerURL =? "" then fail (errorString "server url is missing, can't generate kubeconfig for fleet import cluster")
  else match kubeSecretCache_Get (pc_Namespace cluster) secretName with
       | Panic => panic
       | Fail err => if IsNotFound err then create_kubeconfig cluster secretName managementClusterName else fail err
       | Ret secret =>
           let* replace := lift (outdated cluster managementClusterName secret) in
           if negb replace then ret (s_Data secret)
           else
             let* e := attempt_err (core (secrets_Delete (pc_Namespace cluster) secretName)) in
             match e with
             | Some err => if IsNotFound err then create_kubeconfig cluster secretName managementClusterName else fail err
             | None => create_kubeconfig cluster secretName managementClusterName
             end
       end.

Definition GetKubeConfig (cluster : ProvCluster) (status : ClusterStatus) : AM Secret :=
  match cs_ClusterAPIConfig (pc_Spec cluster) with
  | Some clusterName => lift (kubeSecretCache_Get (pc_Namespace cluster) (getKubeConfigSecretName clusterName))
  | None =>
      let secretName := getKubeConfigSecretName (pc_Name cluster) in
      let* data := getKubeConfigData cluster secretName (ct_ClusterName status) in
      ret (mkSecret (pc_Namespace cluster) secretName "" ∅ ∅ data [] false)
  end.
End manager.

(** * Kubeconfigs stay

    A kubeconfig that was made is valid, so that it is kept; and what happens to one whose
    token is no longer valid. *)

Section stable.
Context `{E : KubeEnv} `{!KubeCodec} `{!HashLaws}.

(** What the requests around users and tokens leave alone. *)
Definition keeps_rest (w w' : AWorld) : Prop :=
  w_tokens (aw_world w') = w_tokens (aw_world w) /\ w_secrets (aw_world w') = w_secrets (aw_world w) /\ aw_salts w' = aw_salts w.
#[local] Instance keeps_rest_preorder : PreOrder keeps_rest.
Proof. split; [done|]. intros w1 w2 w3 (?&?&?) (?&?&?). unfold keeps_rest. repeat split; congruence. Qed.

Abbreviation restful c := (runs (fun _ => True) keeps_rest c (fun _ => True)).

Lemma restful_request : restful (core api_request).
Proof. intros w _. unfold core, api_request, keeps_rest. by destruct (w_faults (aw_world w)) as [|[e|] fs]. Qed.
#[local] Hint Resolve restful_request : planner.

Lemma restful_tokens_Get n : restful (tokens_Get n).
Proof. unfold tokens_Get. runs_auto. Qed.
Lemma restful_tokens_Delete n : restful (tokens_Delete n).
Proof. unfold tokens_Delete. runs_auto. Qed.
#[local] Hint Resolve restful_tokens_Get restful_tokens_Delete : planner.

Lemma restful_drop u : restful (drop_user_token u).
Proof. unfold drop_user_token. runs_auto. Qed.
Lemma restful_EnsureUser `{KubeCaches} ns n : restful (EnsureUser ns n).
Proof. unfold EnsureUser, createUser, users_Create. cbn [getPrincipalAndUserName]. runs_auto; by apply runs_modify. Qed.

Lemma restful_run {X} (c : AM X) w w' r : restful c -> c w = (w', r) -> keeps_rest w w'.
Proof. intros Hc Hr. destruct (Hc w I) as (_ & Hk & _). by rewrite Hr in Hk. Qed.

(** Random texts are plain. *)
Definition good_keys (w : AWorld) : Prop := Forall (fun r => forall k, r = Ret k -> plain k) (w_tokens (aw_world w)).

(** The stored token of a new pair matches its key. *)
Lemma createUserToken_spec userName w w' v :
  good_keys w -> good_salts w -> createUserToken userName w = (w', Ret v) ->
  exists key t, v = presented userName key /\ plain key /\ key_matches t key /\ tk_Name t = userName /\ aw_tokens w' !! userName = Some t
    /\ w_secrets (aw_world w') = w_secrets (aw_world w).
Proof.
  intros Hkeys Hsalts. unfold createUserToken. intros ([] & w1 & Hd & Hc)%bind_Ret.
  apply restful_run in Hd as (Hk1 & Hs1 & Hsa1); [|apply restful_drop]. apply bind_Ret in Hc as (r & w2 & Hr & Hc).
  unfold attempt, core, randomtoken_Generate in Hr. rewrite Hk1 in Hr. unfold good_keys in Hkeys.
  destruct (w_tokens (aw_world w)) as [|r0 rest]; [inv Hr; done|]. inv Hkeys.
  destruct r0 as [key|e|]; [|inv Hr; done|done]. inv Hr. assert (plain key) as Hpl by auto.
  apply bind_Ret in Hc as (salt & w3 & Hsalt & Hc).
  assert (w_secrets (aw_world w3) = w_secrets (aw_world w)) as Hs3.
  { rewrite <- Hs1. revert Hsalt. destruct (TokenHashing_Enabled && _); [|by intros [= <- _]].
    unfold rand_salt. cbn [aw_salts set_aw_world]. destruct (aw_salts w1); by intros [= <- _]. }
  destruct (ConvertTokenKeyToHash _ salt _) as [t1|e|] eqn:Et; [|done..].
  apply ConvertTokenKeyToHash_matches in Et as (Hm & _ & Hn); [|intros Hen s ->|apply Hpl|done].
  2: { rewrite Hen, (bool_decide_eq_false_2 (key = "")) in Hsalt by apply Hpl. eapply rand_salt_good; [|exact Hsalt|done].
       unfold good_salts. cbn [aw_salts set_aw_world]. by rewrite Hsa1. }
  apply bind_Ret in Hc as (t2 & w4 & Ht2 & Hc). injection Hc as <- <-.
  unfold tokens_Create in Ht2. apply bind_Ret in Ht2 as (u & w5 & Hreq & Ht2). apply bind_Ret in Ht2 as (now & w6 & Hnow & Ht2). inv Hnow.
  unfold tokens_store in Ht2. apply bind_Ret in Ht2 as (ts & w7 & Hts & Ht2). inv Hts.
  destruct (aw_tokens w7 !! _); [done|]. apply bind_Ret in Ht2 as ([] & w8 & Hmod & Ht2). inv Hmod. inv Ht2.
  apply restful_run in Hreq as (_ & Hs5 & _); [|apply restful_request].
  exists key, (set_tk_Created (tk_Name t1) (aw_now w7) t1). repeat (split; [done|]). cbn [tk_Name set_tk_Created aw_tokens set_aw_tokens aw_world].
  split; [rewrite Hn; apply lookup_insert_eq|]. by rewrite Hs5.
Qed.

Definition cluster_user (cluster : ProvCluster) : string := getUserNameForPrincipal (getPrincipalID (pc_Namespace cluster) (pc_Name cluster)).

Lemma cluster_user_plain cluster : plain (cluster_user cluster).
Proof.
  destruct (getUserNameForPrincipal_shape (getPrincipalID (pc_Namespace cluster) (pc_Name cluster))) as (_ & s & Hs & Hc).
  unfold cluster_user, plain. rewrite Hs. split; [done|]. rewrite all_chars_app. apply andb_true_iff. split; [reflexivity|].
  eapply all_chars_impl; [|exact Hc]. clear. intros c Hc. destruct c as [[] [] [] [] [] [] [] []]; vm_compute in Hc |- *; done.
Qed.

(** A new kubeconfig with the token it was made for. *)
Lemma create_kubeconfig_spec `{C : KubeCaches} cluster mgmt w w1 data e :
  let name := getKubeConfigSecretName (pc_Name cluster) in
  good_keys w -> good_salts w -> kubeSecretCache_Get (pc_Namespace cluster) name = Fail e -> IsNotFound e = true ->
  w_secrets (aw_world w) !! (pc_Namespace cluster, name) = None -> create_kubeconfig cluster name mgmt w = (w1, Ret data) ->
  exists key t value, plain key /\ key_matches t key
    /\ clientcmd_Write (new_kubeconfig InternalServerURL InternalCACerts mgmt (presented (cluster_user cluster) key)) = Ret value
    /\ data = s_Data (kubeconfig_secret cluster name value (presented (cluster_user cluster) key))
    /\ w_secrets (aw_world w1) !! (pc_Namespace cluster, name) = Some (kubeconfig_secret cluster name value (presented (cluster_user cluster) key))
    /\ aw_tokens w1 !! cluster_user cluster = Some t.
Proof.
  intros name Hkeys Hsalts Hcache Hnf Hnone. unfold create_kubeconfig. intros (r & wa & Hr & Hc)%bind_Ret.
  assert (keeps_rest w wa /\ exists e', r = inr e') as [Hka [e' ->]].
  { revert Hr. unfold attempt, core, secrets_Get, bind, api_request, gets, keeps_rest.
    destruct (w_faults (aw_world w)) as [|[f|] fs]; cbn [w_secrets set_w_faults]; rewrite ?Hnone; intros [= <- <-]; cbn; eauto. }
  apply bind_Ret in Hc as (v & wb & Hv & Hc). unfold getToken, bind at 1, lift, getSavedToken in Hv. fold name in Hv. rewrite Hcache in Hv.
  cbn [saved_token] in Hv. rewrite Hnf in Hv. change ("" !=? "") with false in Hv. cbv iota in Hv.
  apply bind_Ret in Hv as (v0 & wc & Hv0 & Hv).
  assert (keeps_rest wa wc /\ v0 = "") as [Hkc ->].
  { destruct Hka as (_ & Hsec & _). revert Hv0. unfold getSavedTokenNoCache, bind, attempt, core, secrets_Get, bind, api_request, gets, keeps_rest, lift.
    destruct (w_faults (aw_world wa)) as [|[f|] fs]; cbn [w_secrets set_w_faults]; rewrite ?Hsec, ?Hnone; cbn [saved_token];
      [|destruct (IsNotFound f)|]; intros [= <- <-]; done. }
  change ("" !=? "") with false in Hv. cbv iota in Hv. apply bind_Ret in Hv as (user & wd & Hu & Hv).
  assert (keeps_rest wc wd /\ user = cluster_user cluster) as [Hkd ->].
  { split; [eapply restful_run; [apply restful_EnsureUser|exact Hu]|]. revert Hu. unfold EnsureUser. cbn [getPrincipalAndUserName].
    intros (x & wx & _ & Hx)%bind_Ret. by injection Hx as _ <-. }
  assert (keeps_rest w wd) as (Hk & Hs & Hsa) by (etrans; [exact Hka|]; by etrans).
  apply createUserToken_spec in Hv as (key & t & -> & Hpl & Hm & _ & Ht & Hsb);
    [|unfold good_keys; by rewrite Hk|unfold good_salts; by rewrite Hsa].
  apply bind_Ret in Hc as (value & we & Hval & Hc). unfold lift in Hval. injection Hval as -> Hval.
  apply bind_Ret in Hc as ([] & wf & Hcr & Hc). injection Hc as <- <-. exists key, t, value. repeat (split; [done|]).
  revert Hcr. unfold core, secrets_Create, bind, api_request, gets. cbn [s_Namespace s_Name kubeconfig_secret].
  assert (forall x, w_secrets (set_w_faults x (aw_world we)) = w_secrets (aw_world we)) as Hfs by done.
  destruct (w_faults (aw_world we)) as [|[f|] fs]; rewrite ?Hfs, ?Hsb, ?Hs, ?Hnone; [| |]; intros [= <-]; cbn [aw_tokens aw_world set_aw_world w_secrets set_w_secrets];
    (split; [apply lookup_insert_eq|done]).
Qed.

(** The kubeconfig that was made is valid, when the caches show the token it was made with. *)
Lemma new_kubeconfig_valid `{C : KubeCaches} cluster mgmt value key t :
  Split (InternalServerURL +:+ "/k8s/clusters/" +:+ mgmt) "/k8s/clusters/" = [InternalServerURL; mgmt] ->
  clientcmd_Write (new_kubeconfig InternalServerURL InternalCACerts mgmt (presented (cluster_user cluster) key)) = Ret value ->
  tokensCache_Get (cluster_user cluster) = Ret t -> plain key -> key_matches t key ->
  kubeConfigValid value cluster InternalServerURL InternalCACerts mgmt {[ CAPIClusterNameLabel := pc_Name cluster ]} = Ret (false, true).
Proof.
  intros Hsplit Hw Htok Hpl Hm. apply clientcmd_roundtrip in Hw as [Hne Hload]. unfold kubeConfigValid.
  rewrite bool_decide_eq_false_2, Hload by done. set (kc := new_kubeconfig _ _ _ _).
  assert (kc_Clusters kc !! "cluster" = Some (InternalServerURL +:+ "/k8s/clusters/" +:+ mgmt, TrimSpace InternalCACerts)) as -> by apply lookup_singleton_eq.
  assert (kc_AuthInfos kc !! "user" = Some (presented (cluster_user cluster) key)) as -> by apply lookup_singleton_eq. rewrite Hsplit.
  unfold getCachedToken. cbn [getPrincipalAndUserName snd]. change (getUserNameForPrincipal (getPrincipalID _ _)) with (cluster_user cluster). rewrite Htok.
  cbn [res_bind]. rewrite SplitTokenParts_presented by (done || apply cluster_user_plain). cbn [snd].
  assert ((if map_get (tk_Annotations t) TokenHashed =? "true" then
             match GetHasherForHash (tk_Token t) with
             | Panic => Panic
             | Fail _ => Ret None
             | Ret hasher => Ret (Some (match VerifyHash hasher (tk_Token t) key with Ret _ => true | _ => false end))
             end
           else Ret (Some ((cluster_user cluster +:+ ":" +:+ tk_Token t) =? presented (cluster_user cluster) key))) = Ret (Some true)) as ->.
  { unfold key_matches in Hm. destruct (map_get (tk_Annotations t) TokenHashed =? "true").
    - by destruct Hm as (h & -> & ->).
    - subst key. by rewrite bool_decide_eq_true_2. }
  cbn [res_bind]. rewrite lookup_singleton_eq. rewrite !bool_decide_eq_true_2 by done. done.
Qed.

(** A kubeconfig settles.  When the kubeconfig of a cluster was made, with a token whose key is stored hashed or not,
    then as soon as the caches show the secret and the token that were stored, it is found valid: asking for it again
    changes nothing and gives the same kubeconfig. *)
Theorem kubeconfig_settles (C1 : KubeCaches) cluster status w w1 secret e :
  let name := getKubeConfigSecretName (pc_Name cluster) in
  let mgmt := ct_ClusterName status in
  cs_ClusterAPIConfig (pc_Spec cluster) = None -> good_keys w -> good_salts w ->
  kubeSecretCache_Get (pc_Namespace cluster) name = Fail e -> IsNotFound e = true ->
  w_secrets (aw_world w) !! (pc_Namespace cluster, name) = None ->
  Split (InternalServerURL +:+ "/k8s/clusters/" +:+ mgmt) "/k8s/clusters/" = [InternalServerURL; mgmt] ->
  GetKubeConfig cluster status w = (w1, Ret secret) ->
  exists stored t, w_secrets (aw_world w1) !! (pc_Namespace cluster, name) = Some stored /\ aw_tokens w1 !! cluster_user cluster = Some t
    /\ forall (C2 : KubeCaches) w2, kubeSecretCache_Get (pc_Namespace cluster) name = Ret stored -> tokensCache_Get (cluster_user cluster) = Ret t ->
         GetKubeConfig (C := C2) cluster status w2 = (w2, Ret secret).
Proof.
  intros name mgmt Hapi Hkeys Hsalts Hcache Hnf Hnone Hsplit. unfold GetKubeConfig. rewrite Hapi.
  intros (data & wa & Hd & Hr)%bind_Ret. injection Hr as <- <-. unfold getKubeConfigData in Hd.
  destruct (InternalServerURL =? "") eqn:Eurl; [done|]. fold name mgmt in Hd. rewrite Hcache, Hnf in Hd.
  destruct (create_kubeconfig_spec cluster mgmt w wa data e Hkeys Hsalts Hcache Hnf Hnone Hd) as (key & t & value & Hpl & Hm & Hval & -> & Hs & Ht).
  eexists _, t. split; [exact Hs|]. split; [done|]. intros C2 w2 Hc2 Ht2. unfold getKubeConfigData. rewrite Eurl. fold name mgmt. rewrite Hc2.
  assert (outdated (C := C2) cluster mgmt (kubeconfig_secret cluster name value (presented (cluster_user cluster) key)) = Ret false) as Ho.
  { unfold outdated. cbn [s_Data s_Labels s_OwnerReferences kubeconfig_secret].
    assert (map_get {[ "value" := value; "token" := presented (cluster_user cluster) key ]} "value" = value) as ->
      by (unfold map_get; by rewrite lookup_insert_eq).
    rewrite (new_kubeconfig_valid (C := C2) cluster mgmt value key t Hsplit Hval Ht2 Hpl Hm). cbn [res_bind negb andb].
    rewrite lookup_insert_ne, lookup_singleton_eq by done. done. }
  unfold bind, lift. fold name. rewrite Ho. done.
Qed.

(** Requests that are granted. *)
Definition with_secrets (ss : gmap (string * string) Secret) (w : AWorld) : AWorld := set_aw_world (set_w_secrets ss (aw_world w)) w.

Lemma delete_calm ns n s w : w_faults (aw_world w) = [] -> w_secrets (aw_world w) !! (ns, n) = Some s ->
  core (secrets_Delete ns n) w = (with_secrets (delete (ns, n) (w_secrets (aw_world w))) w, Ret tt).
Proof. intros Hf Hs. unfold core, secrets_Delete, bind, api_request, gets. by rewrite Hf, Hs. Qed.
Lemma get_calm_none ns n w : w_faults (aw_world w) = [] -> w_secrets (aw_world w) !! (ns, n) = None ->
  core (secrets_Get ns n) w = (w, Fail (not_found "secret" n)).
Proof. intros Hf Hs. unfold core, secrets_Get, bind, api_request, gets. rewrite Hf, Hs. by destruct w. Qed.
Lemma create_calm s w : w_faults (aw_world w) = [] -> w_secrets (aw_world w) !! (s_Namespace s, s_Name s) = None ->
  core (secrets_Create s) w = (with_secrets (<[(s_Namespace s, s_Name s) := s]> (w_secrets (aw_world w))) w, Ret tt).
Proof. intros Hf Hs. unfold core, secrets_Create, bind, api_request, gets. by rewrite Hf, Hs. Qed.

Lemma create_kubeconfig_saved `{C : KubeCaches} cluster name mgmt old tok value w :
  name = getKubeConfigSecretName (pc_Name cluster) -> w_faults (aw_world w) = [] -> w_secrets (aw_world w) !! (pc_Namespace cluster, name) = None ->
  kubeSecretCache_Get (pc_Namespace cluster) name = Ret old -> s_Data old !! "token" = Some tok -> tok <> "" ->
  clientcmd_Write (new_kubeconfig InternalServerURL InternalCACerts mgmt tok) = Ret value ->
  let new := kubeconfig_secret cluster name value tok in
  create_kubeconfig cluster name mgmt w = (with_secrets (<[(pc_Namespace cluster, name) := new]> (w_secrets (aw_world w))) w, Ret (s_Data new)).
Proof.
  intros Hn Hf Hnone Hcache Htok Hne Hval new. unfold create_kubeconfig. unfold bind at 1, attempt. rewrite get_calm_none by done.
  assert (getToken (pc_Namespace cluster) (pc_Name cluster) w = (w, Ret tok)) as Hg.
  { unfold getToken, bind, lift, getSavedToken. rewrite <- Hn, Hcache. cbn [saved_token].
    assert (map_get (s_Data old) "token" = tok) as -> by (unfold map_get; by rewrite Htok). by rewrite bool_decide_eq_false_2. }
  rewrite (bind_run _ _ _ _ _ Hg). unfold bind at 1, lift. rewrite Hval. fold new.
  by rewrite (bind_run _ _ _ _ _ (create_calm new w Hf Hnone)).
Qed.

(** A token that is out of date stays.  When a kubeconfig is replaced, whatever the reason, the new one is made with
    the token of the old one, because the cache still shows the old secret; and if the reason was a token that does not
    match the stored one, the new kubeconfig is found out of date as well. *)
Theorem kubeconfig_stale_token (C1 : KubeCaches) cluster mgmt old stored tok value w :
  let name := getKubeConfigSecretName (pc_Name cluster) in
  InternalServerURL <> "" -> w_faults (aw_world w) = [] ->
  kubeSecretCache_Get (pc_Namespace cluster) name = Ret old -> outdated cluster mgmt old = Ret true ->
  s_Data old !! "token" = Some tok -> tok <> "" -> w_secrets (aw_world w) !! (pc_Namespace cluster, name) = Some stored ->
  clientcmd_Write (new_kubeconfig InternalServerURL InternalCACerts mgmt tok) = Ret value ->
  let new := kubeconfig_secret cluster name value tok in
  (exists w1, getKubeConfigData cluster name mgmt w = (w1, Ret (s_Data new)) /\ w_secrets (aw_world w1) !! (pc_Namespace cluster, name) = Some new)
  /\ forall t, tokensCache_Get (cluster_user cluster) = Ret t -> map_get (tk_Annotations t) TokenHashed <> "true" ->
       presented (cluster_user cluster) (tk_Token t) <> tok ->
       Split (InternalServerURL +:+ "/k8s/clusters/" +:+ mgmt) "/k8s/clusters/" = [InternalServerURL; mgmt] ->
       outdated cluster mgmt new = Ret true.
Proof.
  intros name Hurl Hf Hcache Hout Htok Hne Hstored Hval new. split.
  - unfold getKubeConfigData. rewrite bool_decide_eq_false_2 by done. rewrite Hcache. unfold bind at 1, lift. rewrite Hout. cbn [negb].
    unfold bind at 1, attempt_err, bind at 1, attempt. rewrite (delete_calm _ _ stored) by done. unfold ret at 1.
    rewrite (create_kubeconfig_saved cluster name mgmt old tok value) by (done || apply lookup_delete_eq).
    eexists. split; [reflexivity|]. apply lookup_insert_eq.
  - intros t Ht Hann Hdiff Hsplit. unfold outdated. cbn [s_Data s_Labels s_OwnerReferences kubeconfig_secret new].
    assert (map_get {[ "value" := value; "token" := tok ]} "value" = value) as -> by (unfold map_get; by rewrite lookup_insert_eq).
    apply clientcmd_roundtrip in Hval as [Hnv Hload]. unfold kubeConfigValid. rewrite bool_decide_eq_false_2, Hload by done.
    set (kc := new_kubeconfig _ _ _ _).
    assert (kc_Clusters kc !! "cluster" = Some (InternalServerURL +:+ "/k8s/clusters/" +:+ mgmt, TrimSpace InternalCACerts)) as -> by apply lookup_singleton_eq.
    assert (kc_AuthInfos kc !! "user" = Some tok) as -> by apply lookup_singleton_eq. rewrite Hsplit.
    unfold getCachedToken. cbn [getPrincipalAndUserName snd]. change (getUserNameForPrincipal (getPrincipalID _ _)) with (cluster_user cluster). rewrite Ht. cbn [res_bind].
    rewrite (bool_decide_eq_false_2 (map_get (tk_Annotations t) TokenHashed = "true")) by done. cbn [res_bind].
    rewrite lookup_singleton_eq. rewrite (bool_decide_eq_true_2 (Some (pc_Name cluster) = _)) by done. cbn [negb].
    rewrite (bool_decide_eq_false_2 (_ +:+ ":" +:+ tk_Token t = tok)) by done. rewrite !bool_decide_eq_true_2 by done. done.
Qed.
End stable.

(** ** Samples *)

Section witnesses.
#[local] Existing Instance demoHash.
#[local] Existing Instance demoHashLaws.
#[local] Existing Instance demoAuth.

#[local] Instance KubeConfig_format : TextFormat KubeConfig.
Proof.
  refine (format_via (B := list (string * (string * string)) * gmap string string * list (string * (string * string)) * string)
    (fun c => (map_to_list (kc_Clusters c), kc_AuthInfos c, map_to_list (kc_Contexts c), kc_CurrentContext c))
    (fun '(a, b, c, d) => mkKubeConfig (list_to_map a) b (list_to_map c) d) _).
  intros [a b c d]. cbn [kc_Clusters kc_AuthInfos kc_Contexts kc_CurrentContext]. by rewrite !list_to_map_to_list.
Defined.

#[local] Instance demoKube : KubeEnv := {|
  clientcmd_Write c := Ret (encode_text c); clientcmd_Load := decode_text; InternalServerURL := "https://10.0.0.1"; InternalCACerts := ""
|}.
#[local] Instance demoKubeCodec : KubeCodec.
Proof. split. intros c s [= <-]. split; [done|apply decode_encode_text]. Qed.

Definition demoKubeCaches (token : res Token) (secret : res Secret) : KubeCaches := {|
  tokensCache_Get name := token; userCache_Get name := Fail (not_found "user" name); kubeSecretCache_Get ns name := secret
|}.
Definition demoSpec : ClusterSpec := mkClusterSpec "" "" None None (mkAuthEndpoint false "" "") [] None "" "" "" None None 0.
Definition demoKubeStatus : ClusterStatus := mkClusterStatus true "c-m-1" "" "" false 0 [].
Definition demoKubeCluster : ProvCluster := mkProvCluster "fleet-default" "c1" "uid" ∅ ∅ [] false demoSpec demoKubeStatus.
Definition demoKubeWorld : AWorld :=
  mkAWorld (mkWorld (mkPlan ∅ ∅ ∅) ∅ ∅ ∅ ∅ ∅ [] "" [Ret "k3y"]) ∅ ∅ ∅ [Ret [1; 2; 3; 4; 5; 6; 7; 8]%N] 1000.
Definition absent : error := not_found "secret" "c1-kubeconfig".

(** The state and the kubeconfig after the first call. *)
Definition demoFirst : AM Secret := GetKubeConfig (C := demoKubeCaches (Fail absent) (Fail absent)) demoKubeCluster demoKubeStatus.
Definition demoAfter : AWorld := Eval vm_compute in fst (demoFirst demoKubeWorld).
Definition demoConfig : Secret := Eval vm_compute in match snd (demoFirst demoKubeWorld) with Ret s => s | _ => mkSecret "" "" "" ∅ ∅ ∅ [] false end.
Lemma demoFirst_run : demoFirst demoKubeWorld = (demoAfter, Ret demoConfig).
Proof. vm_compute. reflexivity. Qed.

Lemma kubeconfig_settles_witness :
  exists stored t, GetKubeConfig (C := demoKubeCaches (Ret t) (Ret stored)) demoKubeCluster demoKubeStatus demoAfter = (demoAfter, Ret demoConfig).
Proof.
  destruct (kubeconfig_settles (demoKubeCaches (Fail absent) (Fail absent)) demoKubeCluster demoKubeStatus demoKubeWorld demoAfter demoConfig absent)
    as (stored & t & _ & _ & Hagain).
  - reflexivity.
  - constructor; [|constructor]. intros k [= <-]. split; [discriminate|reflexivity].
  - constructor; [|constructor]. intros salt [= <-]. split; [by repeat constructor|discriminate].
  - reflexivity.
  - reflexivity.
  - reflexivity.
  - reflexivity.
  - exact demoFirst_run.
  - exists stored, t. exact (Hagain (demoKubeCaches (Ret t) (Ret stored)) demoAfter eq_refl eq_refl).
Defined.

(** A secret with an old token, and the token that is stored now. *)
Definition demoOld : Secret :=
  mkSecret "fleet-default" "c1-kubeconfig" "" {[ CAPIClusterNameLabel := "c1" ]} ∅
    {[ "value" := encode_text (new_kubeconfig "https://10.0.0.1" "" "c-m-1" "u-1:old"); "token" := "u-1:old" ]}
    [mkOwnerReference provisioning_APIVersion "Cluster" "c1" "uid" false] false.
Definition demoNewToken : Token := user_token "u-1" "new".
Definition demoStaleWorld : AWorld :=
  mkAWorld (mkWorld (mkPlan ∅ ∅ ∅) {[ ("fleet-default", "c1-kubeconfig") := demoOld ]} ∅ ∅ ∅ ∅ [] "" []) ∅ ∅ ∅ [] 1000.

Lemma demoOld_outdated : outdated (C := demoKubeCaches (Ret demoNewToken) (Ret demoOld)) demoKubeCluster "c-m-1" demoOld = Ret true.
Proof. vm_compute. reflexivity. Qed.

Lemma kubeconfig_stale_token_witness :
  exists w1 data, getKubeConfigData (C := demoKubeCaches (Ret demoNewToken) (Ret demoOld)) demoKubeCluster "c1-kubeconfig" "c-m-1" demoStaleWorld = (w1, Ret data)
    /\ data !! "token" = Some "u-1:old".
Proof.
  destruct (kubeconfig_stale_token (demoKubeCaches (Ret demoNewToken) (Ret demoOld)) demoKubeCluster "c-m-1" demoOld demoOld "u-1:old"
              (encode_text (new_kubeconfig "https://10.0.0.1" "" "c-m-1" "u-1:old")) demoStaleWorld) as [(w1 & Hr & _) _].
  - discriminate.
  - reflexivity.
  - reflexivity.
  - exact demoOld_outdated.
  - reflexivity.
  - discriminate.
  - reflexivity.
  - reflexivity.
  - eexists w1, _. split; [exact Hr|]. reflexivity.
Defined.
End witnesses.
