(* ===== verification/MgmtCluster.v ===== *)
(** * Management clusters ([provisioningv2/cluster])

    A cluster has two objects: the one of [provisioning.cattle.io] that a user writes, and the one of
    [management.cattle.io] the rest of Rancher works with.  Two generators derive one from the other: clusters of old are
    named by the management cluster, all others by the user.  The removal handlers take both away, in an order that
    depends on which of them came first.  The last part holds the theorems about the generators. *)

From S2P Require Import Prelude GoLib Codec Errors Types External Instances Capr World Installer ControlPlane ProvTypes SystemAgent Encodings Hashers Tokens Authenticate TokenSafety KubeConfig.

Definition creatorIDAnn : string := "field.cattle.io/creatorId".
Definition administratedAnn : string := "provisioning.cattle.io/administrated".
Definition mgmtClusterNameAnn : string := "provisioning.cattle.io/management-cluster-name".
Definition fleetWorkspaceNameAnn : string := "provisioning.cattle.io/fleet-workspace-name".
Definition descriptionAnn : string := "field.cattle.io/description".

(** ** Objects *)

(** [v3.ClusterSpec], as far as it is written here; customizations of agents are data, the endpoint is kept apart. *)
Record V3ClusterSpec := mkV3Spec {
  v3_DisplayName : string;
  v3_Description : string;
  v3_DefaultPodSecurityPolicyTemplateName : string;
  v3_DefaultPodSecurityAdmissionConfigurationTemplateName : string;
  v3_DefaultClusterRoleForProjectMembers : string;
  v3_EnableNetworkPolicy : option bool;
  v3_DesiredAgentImage : string;
  v3_DesiredAuthImage : string;
  v3_PrivateRegistrySecret : string;
  v3_PrivateRegistryURL : string;
  v3_AgentEnvVars : list EnvVar;
  v3_ClusterAgentDeploymentCustomization : option value;
  v3_FleetAgentDeploymentCustomization : option value;
  v3_ImportedConfig : bool;
  v3_FleetWorkspaceName : string
}.

Record V3Cluster := mkV3Cluster {
  vc_Name : string;
  vc_Labels : gmap string string;
  vc_Annotations : gmap string string;
  vc_Finalizers : list string;
  vc_Deleting : bool;
  vc_Spec : V3ClusterSpec;
  vc_LocalClusterAuthEndpoint : LocalClusterAuthEndpoint;
  vc_Conditions : list Condition
}.
Definition set_vc_Deleting (v : bool) (c : V3Cluster) : V3Cluster :=
  mkV3Cluster (vc_Name c) (vc_Labels c) (vc_Annotations c) (vc_Finalizers c) v (vc_Spec c) (vc_LocalClusterAuthEndpoint c) (vc_Conditions c).
Definition set_pc_Deleting (v : bool) (c : ProvCluster) : ProvCluster :=
  mkProvCluster (pc_Namespace c) (pc_Name c) (pc_UID c) (pc_Labels c) (pc_Annotations c) (pc_Finalizers c) v (pc_Spec c) (pc_Status c).

(** The untyped object that is applied, without the status; an endpoint that is missing is left as it is. *)
Record NormalizedCluster := mkNormalized {
  nz_Name : string;
  nz_Labels : gmap string string;
  nz_Annotations : gmap string string;
  nz_Spec : V3ClusterSpec;
  nz_LocalClusterAuthEndpoint : option LocalClusterAuthEndpoint
}.

Inductive mgmt_object :=
| GCluster (c : NormalizedCluster)
| GOwnerBinding (b : ClusterRoleTemplateBinding)
| GAdminBinding (name user role : string).

(** The API server: users, tokens, secrets, machines and clusters of Cluster API in the [AWorld], the two kinds of
    clusters, the locked value of the feature [rke2], registration tokens, the agents deployed, and the keys asked for
    again with their delays in seconds. *)
Record GWorld := mkGWorld {
  gw_auth : AWorld;
  gw_clusters : gmap (string * string) ProvCluster;
  gw_mgmt : gmap string V3Cluster;
  gw_feature : option (option bool);
  gw_registration : gmap (string * string) string;
  gw_deployed : list (string * list value);
  gw_enqueued : list (string * string * Z)
}.
Definition set_gw_auth (v : AWorld) (w : GWorld) : GWorld :=
  mkGWorld v (gw_clusters w) (gw_mgmt w) (gw_feature w) (gw_registration w) (gw_deployed w) (gw_enqueued w).
Definition set_gw_clusters (v : gmap (string * string) ProvCluster) (w : GWorld) : GWorld :=
  mkGWorld (gw_auth w) v (gw_mgmt w) (gw_feature w) (gw_registration w) (gw_deployed w) (gw_enqueued w).
Definition set_gw_mgmt (v : gmap string V3Cluster) (w : GWorld) : GWorld :=
  mkGWorld (gw_auth w) (gw_clusters w) v (gw_feature w) (gw_registration w) (gw_deployed w) (gw_enqueued w).
Definition set_gw_feature (v : option (option bool)) (w : GWorld) : GWorld :=
  mkGWorld (gw_auth w) (gw_clusters w) (gw_mgmt w) v (gw_registration w) (gw_deployed w) (gw_enqueued w).
Definition set_gw_registration (v : gmap (string * string) string) (w : GWorld) : GWorld :=
  mkGWorld (gw_auth w) (gw_clusters w) (gw_mgmt w) (gw_feature w) v (gw_deployed w) (gw_enqueued w).

Definition GM (A : Type) : Type := ST GWorld A.
(** A program on users, tokens and secrets. *)
Definition auth {A} (c : AM A) : GM A := fun w => let '(w1, r) := c (gw_auth w) in (set_gw_auth w1 w, r).
Definition g_request : GM unit := auth (core api_request).
Definition enqueueAfter (ns name : string) (seconds : Z) : GM unit :=
  modify (fun w => mkGWorld (gw_auth w) (gw_clusters w) (gw_mgmt w) (gw_feature w) (gw_registration w) (gw_deployed w)
                     ((ns, name, seconds) :: gw_enqueued w)).

(** Wrangler ([yaml], [kstatus]), features, and what deploys the agent: the configuration of the cluster, the manifest
    of the server, its objects and their application. *)
Class ClusterEnv := {
  CleanAnnotationsForExport : gmap string string -> gmap string string;
  SetActive : list Condition -> list Condition;
  SetTransitioning : list Condition -> string -> list Condition;
  MCM_Enabled : bool;
  FleetWorkspaceBackPopulation_Enabled : bool;
  import_RESTConfig : string -> res string;
  import_Get : string -> string -> res string;                          (** certificate and address *)
  import_ToObjects : string -> res (list value);
  import_Apply : string -> list value -> res unit
}.

Class ClusterCaches := {
  v3Cache_Get : string -> res V3Cluster;
  provCache_ByCluster : string -> res (list ProvCluster);                (** by the key of [byClusterIndex] *)
  provCache_List : res (list ProvCluster);
  featureCache_Get : res (option bool);                                  (** the locked value of [rke2] *)
  registrationCache_Get : string -> string -> res string;
  registrationCache_List : string -> res (list string);                  (** the texts of the tokens *)
  capiCache_Get : string -> string -> res CAPICluster;
  controlPlanesCache_Get : string -> string -> res unit;
  machinesCache_List : string -> gmap string string -> res (list Machine)
}.

(** ** Names *)

(** [^(c-[a-z0-9]{5}|local)$] *)
Definition mgmtNameRegexp (s : string) : bool :=
  (s =? "local")
  || match s with
     | String a (String b r) =>
         bool_decide (String a (String b "") = "c-") && (String.length r =? 5)%nat && all_chars lower_alnum r
     | _ => false
     end.
(** The name of either object decides. *)
Definition isLegacyCluster (name : string) : bool := mgmtNameRegexp name.

Definition byClusterIndex (obj : ProvCluster) : list string :=
  if ct_ClusterName (pc_Status obj) =? "" then [] else [ct_ClusterName (pc_Status obj)].
Definition byCloudCredentialIndex (obj : ProvCluster) : list string :=
  if cs_CloudCredentialSecretName (pc_Spec obj) =? "" then [] else [cs_CloudCredentialSecretName (pc_Spec obj)].

(** ** From a management cluster ([generateProvisioningClusterFromLegacyCluster]) *)

Section generate.
Context `{E : ClusterEnv}.

Definition zeroClusterSpec : ClusterSpec := mkClusterSpec "" "" None None (mkAuthEndpoint false "" "") [] None "" "" "" None None 0.
Definition zeroClusterStatus : ClusterStatus := mkClusterStatus false "" "" "" false 0 [].

Definition generateProvisioningClusterFromLegacyCluster (cluster : V3Cluster) : list ProvCluster :=
  if negb (isLegacyCluster (vc_Name cluster)) || (v3_FleetWorkspaceName (vc_Spec cluster) =? "") then []
  else
    let z := zeroClusterSpec in
    let spec := mkClusterSpec (cs_CloudCredentialSecretName z) (cs_KubernetesVersion z) (cs_ClusterAPIConfig z) (cs_RKEConfig z)
                  (cs_LocalClusterAuthEndpoint z) (cs_AgentEnvVars z) (v3_ClusterAgentDeploymentCustomization (vc_Spec cluster))
                  (cs_DefaultPodSecurityAdmissionConfigurationTemplateName z) (cs_DefaultPodSecurityPolicyTemplateName z)
                  (cs_DefaultClusterRoleForProjectMembers z) (cs_EnableNetworkPolicy z) (v3_FleetAgentDeploymentCustomization (vc_Spec cluster))
                  (cs_RedeploySystemAgentGeneration z) in
    [mkProvCluster (v3_FleetWorkspaceName (vc_Spec cluster)) (vc_Name cluster) "" (CleanAnnotationsForExport (vc_Labels cluster))
       (CleanAnnotationsForExport (vc_Annotations cluster)) [] false spec zeroClusterStatus].

(** [isImportedCluster]: the endpoint of an imported cluster is driven by the management cluster. *)
Definition NormalizeCluster (cluster : V3Cluster) (isImportedCluster : bool) : NormalizedCluster :=
  mkNormalized (vc_Name cluster) (vc_Labels cluster) (vc_Annotations cluster) (vc_Spec cluster)
    (if isImportedCluster then None else Some (vc_LocalClusterAuthEndpoint cluster)).
End generate.

Section handler.
Context `{X : External} `{N : Installation} `{K : KubeEnv} `{!KubeCaches} `{E : ClusterEnv} `{C : ClusterCaches}.

(** ** Requests *)

(** A finalizer holds an object that is deleted. *)
Definition mgmtClusters_Get (name : string) : GM V3Cluster :=
  let* _ := g_request in
  let* cs := gets gw_mgmt in
  match cs !! name with Some c => ret c | None => fail (not_found "clusters.management.cattle.io" name) end.
Definition mgmtClusters_Delete (name : string) : GM unit :=
  let* _ := g_request in
  let* cs := gets gw_mgmt in
  match cs !! name with
  | None => fail (not_found "clusters.management.cattle.io" name)
  | Some c => modify (set_gw_mgmt (if bool_decide (vc_Finalizers c = []) then delete name cs else <[name := set_vc_Deleting true c]> cs))
  end.
Definition clusters_Delete (ns name : string) : GM unit :=
  let* _ := g_request in
  let* cs := gets gw_clusters in
  match cs !! (ns, name) with
  | None => fail (not_found "clusters.provisioning.cattle.io" name)
  | Some c => modify (set_gw_clusters (if bool_decide (pc_Finalizers c = []) then delete (ns, name) cs else <[(ns, name) := set_pc_Deleting true c]> cs))
  end.
Definition clusters_UpdateStatus (c : ProvCluster) : GM ProvCluster :=
  let* _ := g_request in
  let* cs := gets gw_clusters in
  match cs !! (pc_Namespace c, pc_Name c) with
  | None => fail (not_found "clusters.provisioning.cattle.io" (pc_Name c))
  | Some cur =>
      let new := set_pc_Status (pc_Status c) cur in
      let* _ := modify (set_gw_clusters (<[(pc_Namespace c, pc_Name c) := new]> cs)) in ret new
  end.
(** The finalizer of its own controllers holds a cluster of Cluster API. *)
Definition capiClusters_Delete (ns name : string) : GM unit :=
  auth (core (let* _ := api_request in
              let* cs := gets w_clusters in
              match cs !! (ns, name) with
              | None => fail (not_found "clusters.cluster.x-k8s.io" name)
              | Some c => modify (set_w_clusters (<[(ns, name) := mkCAPICluster (cc_Namespace c) (cc_Name c) (cc_Annotations c) true (cc_Paused c)
                                                     (cc_ControlPlaneRef c) (cc_InfrastructureReady c) (cc_Conditions c)]> cs))
              end)).
Definition features_Update (lockedValue : option bool) : GM unit :=
  let* _ := g_request in
  let* f := gets gw_feature in
  match f with
  | Some _ => modify (set_gw_feature (Some lockedValue))
  | None => fail (not_found "features.management.cattle.io" "rke2")
  end.
Definition clusterTokens_Create (ns name clusterName : string) : GM unit :=
  let* _ := g_request in
  let* ts := gets gw_registration in
  match ts !! (ns, name) with
  | Some _ => fail (already_exists "clusterregistrationtokens.management.cattle.io" name)
  | None => modify (set_gw_registration (<[(ns, name) := clusterName]> ts))
  end.

(** Whether an object that is not there counts as deleted. *)
Definition ignore_not_found (c : GM unit) : GM unit :=
  let* e := attempt_err c in
  match e with Some err => if IsNotFound err then ret tt else fail err | None => ret tt end.

(** ** Small handlers *)

Definition clusterWatch (name : string) : list (string * string) :=
  match provCache_ByCluster name with
  | Ret (c :: _) => [(pc_Namespace c, pc_Name c)]
  | _ => []
  end.

Definition createToken (cluster : option V3Cluster) : GM unit :=
  match cluster with
  | None => ret tt
  | Some c =>
      match registrationCache_Get (vc_Name c) "default-token" with
      | Ret _ => ret tt
      | Fail err => if IsNotFound err then clusterTokens_Create (vc_Name c) "default-token" (vc_Name c) else fail err
      | Panic => panic
      end
  end.

(** The feature is locked while there are clusters that need it. *)
Definition updateFeatureLockedValue (lockValueToTrue : bool) : GM unit :=
  let* locked := lift featureCache_Get in
  let unchanged := match locked with None => negb lockValueToTrue | Some v => Bool.eqb v lockValueToTrue end in
  if unchanged then ret tt
  else if lockValueToTrue then features_Update (Some true)
  else
    let* clusters := lift provCache_List in
    if List.existsb (fun c => negb (pc_Deleting c) && negb (isLegacyCluster (pc_Name c)) && bool_decide (is_Some (cs_RKEConfig (pc_Spec c)))) clusters
    then ret tt
    else features_Update None.

(** [rand[:8]]: a shorter text is out of range. *)
Definition mgmtClusterName : GM string :=
  let* rand := auth (core randomtoken_Generate) in
  if (String.length rand <? 8)%nat then panic else ret (name_SafeConcatName ["c"; "m"; take_str 8 rand]).

(** ** The status *)

(** Conditions that other controllers report. *)
Definition kept_apart (rke : bool) (t : string) : bool :=
  bool_decide (t ∈ ["Updated"; "Provisioned"; "Removed"]) || (rke && (t =? "Ready")).
Definition put_condition (c : Condition) (l : list Condition) : list Condition :=
  let new := mkCondition (c_Type c) (c_Status c) (c_Reason c) (c_Message c) "" in
  if List.existsb (fun p => c_Type p =? c_Type c) l then map (fun p => if c_Type p =? c_Type c then new else p) l else l ++ [new].
Definition copy_conditions (rke : bool) (from to : list Condition) : list Condition :=
  fold_left (fun acc c => if kept_apart rke (c_Type c) then acc else put_condition c acc) from to.

(** The bindings for the user of the cluster. *)
Definition owner_objects (cluster : ProvCluster) (status : ClusterStatus) : GM (list mgmt_object) :=
  if MCM_Enabled then let* crtb := lift (GetCRTBForClusterOwner cluster status) in ret [GOwnerBinding crtb]
  else if (pc_Namespace cluster =? ClustersLocalNamespace) && (pc_Name cluster =? "local") then
    let* user := auth (EnsureUser (pc_Namespace cluster) (pc_Name cluster)) in
    ret [GAdminBinding "fleet-local-cluster-admin" user "cluster-admin"]
  else ret [].

(** The status without the client secret; [existing]: the cached management cluster. *)
Definition observed_status (generation : Z) (cluster : ProvCluster) (status : ClusterStatus) (existing : option V3Cluster) (name : string) : ClusterStatus :=
  let conds := match existing with
               | Some e => copy_conditions (bool_decide (is_Some (cs_RKEConfig (pc_Spec cluster)))) (vc_Conditions e) (ct_Conditions status)
               | None => ct_Conditions status
               end in
  let agent := match existing with Some e => Cond_IsTrue "AgentDeployed" (vc_Conditions e) | None => ct_AgentDeployed status end in
  let ready := ct_Ready status || match existing with Some e => Cond_IsTrue "Ready" (vc_Conditions e) | None => false end in
  mkClusterStatus ready name (ct_FleetWorkspaceName status) (ct_ClientSecretName status) agent generation
    (if ready then SetActive conds else SetTransitioning conds "").

Definition updateStatus (generation : Z) (objs : list mgmt_object) (cluster : ProvCluster) (status : ClusterStatus) (name : string)
  : GM (list mgmt_object * ClusterStatus) :=
  let* existing := (match v3Cache_Get name with
                    | Ret e => ret (Some e)
                    | Fail err => if IsNotFound err then ret None else fail err
                    | Panic => panic
                    end) in
  let status := observed_status generation cluster status existing name in
  if ct_Ready status then
    let* secret := auth (GetKubeConfig cluster status) in
    let status := mkClusterStatus (ct_Ready status) (ct_ClusterName status) (ct_FleetWorkspaceName status) (s_Name secret) (ct_AgentDeployed status)
                    (ct_ObservedGeneration status) (ct_Conditions status) in
    let* more := owner_objects cluster status in
    ret (objs ++ more, status)
  else ret (objs, status).

(** ** To a management cluster *)

Definition backpopulateMgmtClusterFleetWorkspaceName (name own : string) : GM string :=
  match v3Cache_Get name with
  | Ret existing => ret (v3_FleetWorkspaceName (vc_Spec existing))
  | Fail err => if IsNotFound err then ret own else fail err
  | Panic => panic
  end.

Definition new_spec (cluster : ProvCluster) (importedConfig : bool) (workspace : string) : V3ClusterSpec :=
  let s := pc_Spec cluster in
  mkV3Spec (pc_Name cluster) (map_get (pc_Annotations cluster) descriptionAnn) (cs_DefaultPodSecurityPolicyTemplateName s)
    (cs_DefaultPodSecurityAdmissionConfigurationTemplateName s) (cs_DefaultClusterRoleForProjectMembers s) (cs_EnableNetworkPolicy s)
    (ResolveWithCluster (Setting_Get AgentImage) cluster) (ResolveWithCluster (Setting_Get AuthImage) cluster)
    (GetPrivateRepoSecretFromCluster cluster) (GetPrivateRepoURLFromCluster cluster)
    (map (fun e => mkEnvVar (ev_Name e) (ev_Value e)) (cs_AgentEnvVars s)) (cs_ClusterAgentDeploymentCustomization s)
    (cs_FleetAgentDeploymentCustomization s) importedConfig workspace.

(** The recorded name, else the name of the annotation, else a new one. *)
Definition management_name (cluster : ProvCluster) : GM string :=
  let recorded := ct_ClusterName (pc_Status cluster) in
  if (map_get (pc_Annotations cluster) mgmtClusterNameAnn !=? "") && (recorded =? "") then ret (map_get (pc_Annotations cluster) mgmtClusterNameAnn)
  else if recorded =? "" then mgmtClusterName
  else ret recorded.

Definition fleet_workspace (cluster : ProvCluster) (name : string) : GM string :=
  if FleetWorkspaceBackPopulation_Enabled then
    let forced := map_get (delete creatorIDAnn (pc_Annotations cluster)) fleetWorkspaceNameAnn in
    if forced !=? "" then ret forced
    else
      let* workspace := backpopulateMgmtClusterFleetWorkspaceName name "" in
      ret (if workspace =? "" then pc_Namespace cluster else workspace)
  else ret (pc_Namespace cluster).

Definition createNewCluster (generation : Z) (cluster : ProvCluster) (status : ClusterStatus) (importedConfig : bool)
  : GM (list mgmt_object * ClusterStatus) :=
  let rke := bool_decide (is_Some (cs_RKEConfig (pc_Spec cluster))) in
  let* _ := (if rke then updateFeatureLockedValue true else ret tt) in
  let* name := management_name cluster in
  let annotations := pc_Annotations cluster ∪ {[ administratedAnn := if rke then "true" else "false" ]} in
  let* workspace := fleet_workspace cluster name in
  let newCluster := mkV3Cluster name (pc_Labels cluster) annotations [] false (new_spec cluster importedConfig workspace)
                      (cs_LocalClusterAuthEndpoint (pc_Spec cluster)) [] in
  let status := mkClusterStatus (ct_Ready status) (ct_ClusterName status) workspace (ct_ClientSecretName status) (ct_AgentDeployed status)
                  (ct_ObservedGeneration status) (ct_Conditions status) in
  updateStatus generation [GCluster (NormalizeCluster newCluster (negb rke))] cluster status name.

Definition createCluster (generation : Z) (cluster : ProvCluster) (status : ClusterStatus) (importedConfig : bool)
  : GM (list mgmt_object * ClusterStatus) :=
  if isLegacyCluster (pc_Name cluster) then
    let* mgmtCluster := lift (v3Cache_Get (pc_Name cluster)) in
    updateStatus generation [] cluster status (vc_Name mgmtCluster)
  else createNewCluster generation cluster status importedConfig.

(** *** The agent of an imported cluster ([import.go]) *)

Definition deploy (cluster : ProvCluster) (secretNamespace secretName token : string) : GM unit :=
  let again : GM unit := let* _ := enqueueAfter (pc_Namespace cluster) (pc_Name cluster) 2 in fail ErrSkip in
  match kubeSecretCache_Get secretNamespace secretName with
  | Panic => panic
  | Fail err => if IsNotFound err then again else fail err
  | Ret secret =>
      if bool_decide (s_Data secret = ∅) then again
      else
        let* cfg := lift (import_RESTConfig (map_get (s_Data secret) "value")) in
        let* body := lift (import_Get InternalCACerts (InternalServerURL +:+ "/v3/import/" +:+ token +:+ ".yaml")) in
        let* objs := lift (import_ToObjects body) in
        let* _ := lift (import_Apply cfg objs) in
        modify (fun w => mkGWorld (gw_auth w) (gw_clusters w) (gw_mgmt w) (gw_feature w) (gw_registration w) ((cfg, objs) :: gw_deployed w)
                           (gw_enqueued w))
  end.

(** Only for a cluster that names one of Cluster API. *)
Definition deployAgent (cluster : ProvCluster) (status : ClusterStatus) : GM bool :=
  let again : GM bool := let* _ := enqueueAfter (pc_Namespace cluster) (pc_Name cluster) 2 in ret false in
  match v3Cache_Get (ct_ClusterName status) with
  | Panic => panic
  | Fail err => if IsNotFound err then again else fail err
  | Ret _ =>
      let* tokens := lift (registrationCache_List (ct_ClusterName status)) in
      match tokens with
      | [] => again
      | tokenValue :: _ =>
          if tokenValue =? "" then again
          else match cs_ClusterAPIConfig (pc_Spec cluster) with
               | None => panic
               | Some clusterName =>
                   let* _ := deploy cluster (pc_Namespace cluster) (clusterName +:+ "-kubeconfig") tokenValue in ret true
               end
      end
  end.

Definition createClusterAndDeployAgent (generation : Z) (cluster : ProvCluster) (status : ClusterStatus) : GM (list mgmt_object * ClusterStatus) :=
  let* '(objs, status) := createCluster generation cluster status true in
  if ct_AgentDeployed status || (ct_ClusterName status =? "") then ret (objs, status)
  else
    let* ok := deployAgent cluster status in
    ret (objs, mkClusterStatus (ct_Ready status) (ct_ClusterName status) (ct_FleetWorkspaceName status) (ct_ClientSecretName status) ok
                 (ct_ObservedGeneration status) (ct_Conditions status)).

Definition generateLegacyClusterFromProvisioningCluster (generation : Z) (cluster : ProvCluster) (status : ClusterStatus)
  : GM (list mgmt_object * ClusterStatus) :=
  match cs_ClusterAPIConfig (pc_Spec cluster) with
  | Some _ => createClusterAndDeployAgent generation cluster status
  | None => createCluster generation cluster status true
  end.

(** ** Removal ([remove.go]) *)

(** An error keeps the finalizer; [ErrSkip] is one that is not reported. *)
Definition OnMgmtClusterRemove (name : string) : GM unit :=
  let* provisioningClusters := lift (provCache_ByCluster name) in
  let* _ := for_fold provisioningClusters tt (fun _ c => clusters_Delete (pc_Namespace c) (pc_Name c)) in
  let legacyCluster := List.existsb (fun c => isLegacyCluster (pc_Name c)) provisioningClusters in
  if bool_decide (provisioningClusters = []) || legacyCluster then ret tt
  else let* _ := enqueueAfter "" name 5 in fail ErrSkip.

(** The management cluster of a cluster that is removed; the message says what is waited for. *)
Definition remove_mgmt (cluster : ProvCluster) : GM string :=
  let name := ct_ClusterName (pc_Status cluster) in
  if name =? "" then ret ""
  else
    let* r := attempt (mgmtClusters_Get name) in
    match r with
    | inr err => if IsNotFound err then ret "" else fail err
    | inl mgmtCluster =>
        if pc_Namespace cluster !=? v3_FleetWorkspaceName (vc_Spec mgmtCluster) then ret ""
        else
          let* _ := ignore_not_found (mgmtClusters_Delete name) in
          if isLegacyCluster (pc_Name cluster) then
            match v3Cache_Get name with
            | Panic => panic
            | Fail err => if IsNotFound err then ret "" else ret ("waiting for cluster [" +:+ name +:+ "] to delete")
            | Ret _ => ret ("waiting for cluster [" +:+ name +:+ "] to delete")
            end
          else let* _ := updateFeatureLockedValue false in ret ""
    end.

(** Machines go first, then the cluster of Cluster API, then the user. *)
Definition remove_rest (cluster : ProvCluster) (capiPresent : bool) : GM string :=
  let* machines := lift (machinesCache_List (pc_Namespace cluster) {[ CAPIClusterNameLabel := pc_Name cluster ]}) in
  match machines with
  | _ :: _ => lift (GetMachineDeletionStatus machines)
  | [] =>
      if capiPresent then ret ("waiting for cluster-api cluster [" +:+ pc_Name cluster +:+ "] to delete")
      else let* _ := auth (DeleteUser (pc_Namespace cluster) (pc_Name cluster)) in ret ""
  end.

Definition doClusterRemove (cluster : ProvCluster) : GM string :=
  let* waiting := remove_mgmt cluster in
  if waiting !=? "" then ret waiting
  else
    match capiCache_Get (pc_Namespace cluster) (pc_Name cluster) with
    | Panic => panic
    | Fail err => if IsNotFound err then remove_rest cluster false else fail err
    | Ret capiCluster =>
        let* _ := (if cc_Deleting capiCluster then ret tt else ignore_not_found (capiClusters_Delete (cc_Namespace capiCluster) (cc_Name capiCluster))) in
        match controlPlanesCache_Get (pc_Namespace cluster) (pc_Name cluster) with
        | Panic => panic
        | Fail err => if IsNotFound err then remove_rest cluster true else fail err
        | Ret _ => fail ErrSkip
        end
    end.

Definition OnClusterRemove (cluster : ProvCluster) : GM unit :=
  let* '(conditions, err, after) := DoRemoveAndUpdateStatus (ct_Conditions (pc_Status cluster)) (doClusterRemove cluster) in
  let* _ := (match after with Some s => enqueueAfter (pc_Namespace cluster) (pc_Name cluster) s | None => ret tt end) in
  let* _ := (if bool_decide (conditions = ct_Conditions (pc_Status cluster)) then ret tt
             else let* _ := clusters_UpdateStatus (set_pc_Status (set_ct_Conditions conditions (pc_Status cluster)) cluster) in ret tt) in
  match err with Some e => fail e | None => ret tt end.
End handler.

(** * Two objects for one cluster

    Each of the two kinds of clusters is derived from the other one, but
    never back, and a cluster keeps the management cluster it was given. *)

(** A name that fits is only joined. *)
Class NameLaws `{External} := {
  name_SafeConcatName_short l : (String.length (Join l "-") < 64)%nat -> name_SafeConcatName l = Join l "-"
}.

(** The management clusters among the objects. *)
Definition generated (objs : list mgmt_object) : list NormalizedCluster :=
  flat_map (fun o => match o with GCluster c => [c] | _ => [] end) objs.

Lemma generated_app a b : generated (a ++ b) = generated a ++ generated b.
Proof. apply flat_map_app. Qed.

Section generation.
Context `{X : External} `{N : Installation} `{K : KubeEnv} `{!KubeCaches} `{E : ClusterEnv} `{C : ClusterCaches}.

Lemma owner_objects_generated cluster status w w' objs : owner_objects cluster status w = (w', Ret objs) -> generated objs = [].
Proof.
  unfold owner_objects. destruct MCM_Enabled.
  - intros (crtb & w1 & _ & Hr)%bind_Ret. by injection Hr as _ <-.
  - destruct (_ && _); [|by intros [= _ <-]]. intros (u & w1 & _ & Hr)%bind_Ret. by injection Hr as _ <-.
Qed.

(** The status names the management cluster, and only bindings are added to the objects. *)
Lemma updateStatus_spec gen objs cluster status name w w' objs' status' :
  updateStatus gen objs cluster status name w = (w', Ret (objs', status')) ->
  generated objs' = generated objs /\ ct_ClusterName status' = name /\ (ct_Ready status = true -> ct_Ready status' = true)
  /\ ct_ObservedGeneration status' = gen.
Proof.
  unfold updateStatus. intros (existing & w1 & _ & Hr)%bind_Ret. set (st := observed_status _ _ _ _ _) in Hr.
  assert (ct_Ready status = true -> ct_Ready st = true) as Hready by (unfold st, observed_status; cbn [ct_Ready]; by intros ->).
  destruct (ct_Ready st) eqn:Er.
  2: { injection Hr as _ <- <-. repeat split. intros Hs. by apply Hready in Hs. }
  apply bind_Ret in Hr as (secret & w2 & _ & Hr). apply bind_Ret in Hr as (more & w3 & Hm & Hr). injection Hr as _ <- <-.
  rewrite generated_app, (owner_objects_generated _ _ _ _ _ Hm), app_nil_r. repeat split; cbn [ct_ClusterName ct_Ready ct_ObservedGeneration]; auto.
Qed.

Lemma createNewCluster_spec gen cluster status imported w w' objs status' :
  createNewCluster gen cluster status imported w = (w', Ret (objs, status')) ->
  exists c w1 w2, generated objs = [c] /\ nz_Name c = ct_ClusterName status' /\ v3_DisplayName (nz_Spec c) = pc_Name cluster
    /\ management_name cluster w1 = (w2, Ret (nz_Name c)).
Proof.
  unfold createNewCluster. intros ([] & w1 & _ & Hr)%bind_Ret. apply bind_Ret in Hr as (name & w2 & Hn & Hr).
  apply bind_Ret in Hr as (ws & w3 & _ & Hr). apply updateStatus_spec in Hr as (Hg & Hs & _).
  eexists _, w1, w2. split; [exact Hg|]. by cbn [NormalizeCluster nz_Name vc_Name nz_Spec vc_Spec v3_DisplayName new_spec].
Qed.

Lemma generate_create gen cluster status w w' objs status' :
  generateLegacyClusterFromProvisioningCluster gen cluster status w = (w', Ret (objs, status')) ->
  exists w1 st, createCluster gen cluster status true w = (w1, Ret (objs, st)) /\ ct_ClusterName st = ct_ClusterName status'.
Proof.
  unfold generateLegacyClusterFromProvisioningCluster. destruct (cs_ClusterAPIConfig (pc_Spec cluster)); [|eauto].
  unfold createClusterAndDeployAgent. intros ([objs1 st] & w1 & Hc & Hr)%bind_Ret. exists w1, st.
  destruct (_ || _); [by injection Hr as _ <- <-|]. apply bind_Ret in Hr as (ok & w2 & _ & Hr). by injection Hr as _ <- <-.
Qed.

Lemma mgmtClusterName_shape `{!NameLaws} w w' name : mgmtClusterName w = (w', Ret name) -> exists r, String.length r = 8%nat /\ name = "c-m-" +:+ r.
Proof.
  unfold mgmtClusterName. intros (rand & w1 & _ & Hr)%bind_Ret. destruct (String.length rand <? 8)%nat eqn:El; [done|].
  apply Nat.ltb_ge in El. assert (String.length (take_str 8 rand) = 8%nat) as Hl by (rewrite length_take_str; lia).
  set (r := take_str 8 rand) in *. clearbody r. injection Hr as _ <-. exists r. split; [done|]. rewrite name_SafeConcatName_short; [done|].
  change (Join ["c"; "m"; r] "-") with ("c-m-" +:+ r). rewrite length_app_str, Hl. simpl. lia.
Qed.

Lemma new_name_not_legacy r : String.length r = 8%nat -> isLegacyCluster ("c-m-" +:+ r) = false.
Proof. intros Hr. unfold isLegacyCluster, mgmtNameRegexp. cbn. by rewrite Hr. Qed.

(** The generators do not cycle.  A management cluster that is made for a cluster of a user, without a name that
    the user has prescribed, is not one of old, so that no further cluster is made from it; and a cluster that is made
    from a management cluster of old bears its name, is recorded as belonging to it, and makes no management cluster. *)
Theorem generators_do_not_cycle `{!NameLaws} :
  (forall gen cluster status w w' objs status',
     isLegacyCluster (pc_Name cluster) = false -> ct_ClusterName (pc_Status cluster) = "" ->
     map_get (pc_Annotations cluster) mgmtClusterNameAnn = "" ->
     generateLegacyClusterFromProvisioningCluster gen cluster status w = (w', Ret (objs, status')) ->
     exists c, generated objs = [c] /\ nz_Name c = ct_ClusterName status' /\ v3_DisplayName (nz_Spec c) = pc_Name cluster
       /\ forall stored, vc_Name stored = nz_Name c -> generateProvisioningClusterFromLegacyCluster stored = [])
  /\ (forall legacy p gen status cached w w' objs status',
     p ∈ generateProvisioningClusterFromLegacyCluster legacy -> v3Cache_Get (vc_Name legacy) = Ret cached -> vc_Name cached = vc_Name legacy ->
     generateLegacyClusterFromProvisioningCluster gen p status w = (w', Ret (objs, status')) ->
     pc_Name p = vc_Name legacy /\ generated objs = [] /\ ct_ClusterName status' = vc_Name legacy).
Proof.
  split.
  - intros gen cluster status w w' objs status' Hl Hn Ha Hg. apply generate_create in Hg as (w1 & st & Hc & <-).
    unfold createCluster in Hc. rewrite Hl in Hc. apply createNewCluster_spec in Hc as (c & w2 & w3 & Hg & Hs & Hd & Hm).
    exists c. repeat (split; [done|]). intros stored Hstored. unfold management_name in Hm. rewrite Hn, Ha in Hm.
    apply mgmtClusterName_shape in Hm as (r & Hr & Hc). unfold generateProvisioningClusterFromLegacyCluster.
    by rewrite Hstored, Hc, new_name_not_legacy.
  - intros legacy p gen status cached w w' objs status' Hp Hcache Hname Hg. apply generate_create in Hg as (w1 & st & Hc & <-).
    unfold generateProvisioningClusterFromLegacyCluster in Hp. destruct (negb _ || _) eqn:El; [by apply elem_of_nil in Hp|].
    apply orb_false_iff in El as [El _]. apply negb_false_iff in El. apply list_elem_of_singleton in Hp. subst p. split; [done|].
    unfold createCluster in Hc. cbn [pc_Name] in Hc. rewrite El in Hc. apply bind_Ret in Hc as (m & w2 & Hm & Hc).
    unfold lift in Hm. rewrite Hcache in Hm. injection Hm as <- <-. apply updateStatus_spec in Hc as (Hg & Hs & _). by rewrite Hs, Hname.
Qed.

Lemma management_name_kept `{!NameLaws} cluster w w' name :
  management_name cluster w = (w', Ret name) -> name <> "" /\ (ct_ClusterName (pc_Status cluster) <> "" -> name = ct_ClusterName (pc_Status cluster)).
Proof.
  unfold management_name. case_bool_decide as Ea; case_bool_decide as En; cbn [negb andb]; try (by intros [= _ <-]).
  intros (r & _ & ->)%mgmtClusterName_shape. done.
Qed.

(** A cluster keeps its management cluster.  Once the name of the status of a pass is recorded, every later pass,
    whatever else has changed in the cluster and around it, makes the same management cluster and records the same name. *)
Theorem management_cluster_kept `{!NameLaws} gen gen' cluster cluster' status status' w w' w1 w1' objs objs' :
  isLegacyCluster (pc_Name cluster) = false ->
  generateLegacyClusterFromProvisioningCluster gen cluster (pc_Status cluster) w = (w', Ret (objs, status)) ->
  pc_Name cluster' = pc_Name cluster -> ct_ClusterName (pc_Status cluster') = ct_ClusterName status ->
  generateLegacyClusterFromProvisioningCluster gen' cluster' (pc_Status cluster') w1 = (w1', Ret (objs', status')) ->
  ct_ClusterName status' = ct_ClusterName status
  /\ exists c c', generated objs = [c] /\ generated objs' = [c'] /\ nz_Name c' = nz_Name c.
Proof.
  intros Hl Hg Hn Hrec Hg'. apply generate_create in Hg as (wa & st & Hc & Hs). apply generate_create in Hg' as (wb & st2 & Hc' & Hs').
  unfold createCluster in Hc, Hc'. rewrite Hn, Hl in Hc'. rewrite Hl in Hc.
  apply createNewCluster_spec in Hc as (c & w2 & w3 & Hgen & Hname & _ & Hm). apply management_name_kept in Hm as [Hne _].
  apply createNewCluster_spec in Hc' as (c' & w4 & w5 & Hgen' & Hname' & _ & Hm'). apply management_name_kept in Hm' as [_ Hm'].
  rewrite Hrec, <- Hs, <- Hname in Hm'. specialize (Hm' Hne). split; [congruence|]. by exists c, c'.
Qed.
End generation.

(** ** Samples *)

Section witnesses.
#[local] Existing Instance demoHash.
#[local] Existing Instance demoAuth.
#[local] Existing Instance demoExternal.
#[local] Existing Instance demoInstallation.
#[local] Existing Instance demoKube.

#[local] Instance demoNameLaws : NameLaws.
Proof. split. reflexivity. Qed.

Definition demoClusterEnv : ClusterEnv := {|
  CleanAnnotationsForExport m := m;
  SetActive l := l;
  SetTransitioning l m := l;
  MCM_Enabled := true;
  FleetWorkspaceBackPopulation_Enabled := false;
  import_RESTConfig s := Ret s;
  import_Get ca url := Ret "";
  import_ToObjects s := Ret [];
  import_Apply cfg objs := Ret tt
|}.
#[local] Existing Instance demoClusterEnv.

(** Caches that show one management cluster or none. *)
Definition demoClusterCaches (mgmt : res V3Cluster) : ClusterCaches := {|
  v3Cache_Get name := mgmt;
  provCache_ByCluster name := Ret [];
  provCache_List := Ret [];
  featureCache_Get := Ret None;
  registrationCache_Get ns name := Ret "t";
  registrationCache_List ns := Ret ["t"];
  capiCache_Get ns name := Fail (not_found "cluster" name);
  controlPlanesCache_Get ns name := Fail (not_found "rkecontrolplane" name);
  machinesCache_List ns labels := Ret []
|}.
#[local] Instance demoNoKube : KubeCaches := demoKubeCaches (Fail absent) (Fail absent).
#[local] Instance demoEmpty : ClusterCaches := demoClusterCaches (Fail absent).

Definition demoNewStatus : ClusterStatus := zeroClusterStatus.
Definition demoUserCluster : ProvCluster := mkProvCluster "fleet-default" "c1" "uid" ∅ ∅ [] false demoSpec demoNewStatus.
Definition demoGWorld (tokens : list (res string)) : GWorld :=
  mkGWorld (mkAWorld (mkWorld (mkPlan ∅ ∅ ∅) ∅ ∅ ∅ ∅ ∅ [] "" tokens) ∅ ∅ ∅ [] 1000) ∅ ∅ (Some None) ∅ [] [].
Definition demoPass (cluster : ProvCluster) : GM (list mgmt_object * ClusterStatus) :=
  generateLegacyClusterFromProvisioningCluster 1 cluster (pc_Status cluster).
Definition demoPassed : list mgmt_object * ClusterStatus :=
  Eval vm_compute in match snd (demoPass demoUserCluster (demoGWorld [Ret "abcdefghij"])) with Ret r => r | _ => ([], demoNewStatus) end.
Definition demoRecorded : ProvCluster := set_pc_Status (snd demoPassed) demoUserCluster.
Definition demoPassedAgain : list mgmt_object * ClusterStatus :=
  Eval vm_compute in match snd (demoPass demoRecorded (demoGWorld [])) with Ret r => r | _ => ([], demoNewStatus) end.

Lemma demoPass_run : demoPass demoUserCluster (demoGWorld [Ret "abcdefghij"]) = (demoGWorld [], Ret (fst demoPassed, snd demoPassed)).
Proof. vm_compute. reflexivity. Qed.
Lemma demoPassAgain_run : demoPass demoRecorded (demoGWorld []) = (demoGWorld [], Ret (fst demoPassedAgain, snd demoPassedAgain)).
Proof. vm_compute. reflexivity. Qed.

Lemma generators_do_not_cycle_witness :
  exists c, generated (fst demoPassed) = [c] /\ nz_Name c = "c-m-abcdefgh"
    /\ forall stored, vc_Name stored = nz_Name c -> generateProvisioningClusterFromLegacyCluster stored = [].
Proof.
  destruct (proj1 generators_do_not_cycle 1 demoUserCluster demoNewStatus _ _ _ _ eq_refl eq_refl eq_refl demoPass_run) as (c & Hg & Hn & _ & Hnone).
  exists c. split; [exact Hg|]. split; [exact Hn|exact Hnone].
Defined.

Lemma management_cluster_kept_witness :
  exists c, generated (fst demoPassedAgain) = [c] /\ nz_Name c = "c-m-abcdefgh".
Proof.
  destruct (management_cluster_kept 1 1 demoUserCluster demoRecorded (snd demoPassed) (snd demoPassedAgain) _ _ _ _ _ _ eq_refl demoPass_run eq_refl eq_refl demoPassAgain_run)
    as (_ & c & c' & Hc & Hc' & Hn).
  exists c'. split; [exact Hc'|]. rewrite Hn. injection Hc as <-. reflexivity.
Defined.
End witnesses.
