(* ===== verification/ClusterRemoval.v ===== *)
(** * Removal of the two objects of a cluster

    Properties of the removal handlers of [MgmtCluster]: a cluster goes after everything that belongs to it, and the two
    handlers, which wait for each other in an order that depends on the kind of the cluster, come to an end. *)

From S2P Require Import Prelude GoLib Codec Errors Types External Instances Capr World Installer ControlPlane ProvTypes SystemAgent Encodings Hashers Tokens Authenticate TokenSafety KubeConfig MgmtCluster.

Abbreviation capi_clusters w := (w_clusters (aw_world (gw_auth w))).
Abbreviation machines_of w := (w_machines (aw_world (gw_auth w))).
Abbreviation faults_of w := (w_faults (aw_world (gw_auth w))).
Abbreviation users_of w := (aw_users (gw_auth w)).

Definition found {A} (kind name : string) (o : option A) : res A := match o with Some x => Ret x | None => Fail (not_found kind name) end.

(** Caches that show the objects of the API server. *)
Definition synced (B : ClusterCaches) (w : GWorld) : ClusterCaches := {|
  v3Cache_Get name := found "cluster" name (gw_mgmt w !! name);
  provCache_ByCluster name := Ret (List.filter (fun c => bool_decide (name ∈ byClusterIndex c)) (map snd (map_to_list (gw_clusters w))));
  provCache_List := Ret (map snd (map_to_list (gw_clusters w)));
  featureCache_Get := found "feature" "rke2" (gw_feature w);
  registrationCache_Get := @registrationCache_Get B;
  registrationCache_List := @registrationCache_List B;
  capiCache_Get ns name := found "cluster" name (capi_clusters w !! (ns, name));
  controlPlanesCache_Get := @controlPlanesCache_Get B;
  machinesCache_List ns labels :=
    Ret (List.filter (fun m => (m_Namespace m =? ns) && bool_decide (labels ⊆ m_Labels m)) (map snd (map_to_list (machines_of w))))
|}.

Definition machine_of (ns name : string) (m : Machine) : Prop := m_Namespace m = ns /\ m_Labels m !! CAPIClusterNameLabel = Some name.

Lemma synced_machines B w ns name :
  @machinesCache_List (synced B w) ns {[ CAPIClusterNameLabel := name ]} = Ret [] <->
  forall k m, machines_of w !! k = Some m -> ~ machine_of ns name m.
Proof.
  cbn [machinesCache_List synced]. split.
  - intros H k m Hk [Hns Hl]. injection H as H.
    assert (m ∈ List.filter (fun m => (m_Namespace m =? ns) && bool_decide ({[ CAPIClusterNameLabel := name ]} ⊆ m_Labels m)) (map snd (map_to_list (machines_of w)))) as Hin.
    { apply list_elem_of_In, filter_In. split; [apply in_map_iff; exists (k, m); split; [done|]; by apply list_elem_of_In, elem_of_map_to_list|].
      rewrite !bool_decide_eq_true_2; [done| |done]. by apply map_singleton_subseteq_l. }
    rewrite H in Hin. by apply elem_of_nil in Hin.
  - intros H. f_equal. destruct (List.filter _ _) as [|m l] eqn:El; [done|exfalso].
    assert (In m (m :: l)) as Hin by (by left). rewrite <- El in Hin. apply filter_In in Hin as [Hin Hm].
    apply in_map_iff in Hin as ([k m'] & E & Hin). simpl in E. subst m'. apply list_elem_of_In, elem_of_map_to_list in Hin.
    apply andb_true_iff in Hm as [Hns Hl]. apply bool_decide_eq_true in Hns, Hl. apply map_singleton_subseteq_l in Hl. by apply (H k m Hin).
Qed.

Section safety.
Context `{X : External} `{B : ClusterCaches}.

(** A failed request does not pretend that the object is missing. *)
Definition honest (w : GWorld) : Prop := Forall (fun f => forall e, f = Some e -> IsNotFound e = false) (faults_of w).

(** What most requests leave alone. *)
Definition steady (w w' : GWorld) : Prop := gw_mgmt w' = gw_mgmt w /\ (honest w -> honest w').
#[local] Instance steady_preorder : PreOrder steady.
Proof. split; [done|]. intros w1 w2 w3 [M1 H1] [M2 H2]. split; [congruence|auto]. Qed.
Abbreviation steadily c := (runs (fun _ => True) steady c (fun _ => True)).

Lemma g_request_spec w w' r :
  g_request w = (w', r) ->
  gw_mgmt w' = gw_mgmt w /\ gw_clusters w' = gw_clusters w /\ gw_feature w' = gw_feature w /\ users_of w' = users_of w
  /\ (honest w -> honest w' /\ forall e, r = Fail e -> IsNotFound e = false) /\ r <> Panic.
Proof.
  unfold g_request, auth, core, api_request, honest. destruct (w_faults (aw_world (gw_auth w))) as [|[e|] fs] eqn:Ef; intros [= <- <-]; cbn; rewrite ?Ef;
    do 4 (split; [done|]); (split; [|done]); intros Hh; [by split|apply Forall_cons in Hh as [Hf Hh]..]; (split; [done|]); naive_solver.
Qed.

Lemma steady_request : steadily g_request.
Proof.
  intros w _. destruct (g_request w) as [w' r] eqn:Er. apply g_request_spec in Er as (Hm & _ & _ & _ & Hh & Hp).
  split; [done|]. split; [split; [done|naive_solver]|done].
Qed.
#[local] Hint Resolve steady_request : planner.

Lemma steady_feature `{C : ClusterCaches} b : steadily (updateFeatureLockedValue b).
Proof. unfold updateFeatureLockedValue, features_Update. runs_auto; by apply runs_modify. Qed.
Lemma steady_status c : steadily (clusters_UpdateStatus c).
Proof. unfold clusters_UpdateStatus. runs_auto; by apply runs_modify. Qed.
Lemma steady_enqueue ns n s : steadily (enqueueAfter ns n s).
Proof. by apply runs_modify. Qed.
Lemma steady_run {A} (c : GM A) w w' r : steadily c -> c w = (w', r) -> steady w w'.
Proof. intros Hc Hr. destruct (Hc w I) as (_ & Hk & _). by rewrite Hr in Hk. Qed.

Lemma ignore_not_found_Ret c w w' :
  ignore_not_found c w = (w', Ret tt) -> c w = (w', Ret tt) \/ exists e, c w = (w', Fail e) /\ IsNotFound e = true.
Proof.
  unfold ignore_not_found, bind, attempt_err, bind, attempt, ret. destruct (c w) as [w1 [[]|e|]]; [| |done].
  - intros [= <-]. by left.
  - destruct (IsNotFound e) eqn:En; intros [= <-]. right. by exists e.
Qed.

(** What has become of the management cluster when the cluster goes. *)
Definition mgmt_done (cluster : ProvCluster) (w : GWorld) : Prop :=
  let name := ct_ClusterName (pc_Status cluster) in
  name = "" \/ gw_mgmt w !! name = None
  \/ exists v, gw_mgmt w !! name = Some v
       /\ (v3_FleetWorkspaceName (vc_Spec v) <> pc_Namespace cluster \/ (vc_Deleting v = true /\ isLegacyCluster (pc_Name cluster) = false)).

Lemma mgmtClusters_Get_spec name w w' r :
  honest w -> mgmtClusters_Get name w = (w', r) ->
  steady w w' /\ match r with
                 | Ret v => gw_mgmt w !! name = Some v
                 | Fail e => IsNotFound e = true -> gw_mgmt w !! name = None
                 | Panic => False
                 end.
Proof.
  intros Hh. unfold mgmtClusters_Get, bind at 1. destruct (g_request w) as [w1 r1] eqn:Er. apply g_request_spec in Er as (Hm & _ & _ & _ & Hr & Hp).
  destruct (Hr Hh) as [Hh1 Hnf]. destruct r1 as [[]|e|]; [|intros [= <- <-]; split; [by split|]; by rewrite (Hnf e eq_refl)|done].
  unfold bind, gets. rewrite Hm. destruct (gw_mgmt w !! name) as [v|]; intros [= <- <-]; by split.
Qed.

Lemma mgmtClusters_Delete_spec name w w' r :
  honest w -> mgmtClusters_Delete name w = (w', r) ->
  honest w' /\ match r with
               | Ret _ => gw_mgmt w' !! name = None \/ exists v, gw_mgmt w' !! name = Some v /\ vc_Deleting v = true
               | Fail e => IsNotFound e = true -> gw_mgmt w' !! name = None
               | Panic => False
               end.
Proof.
  intros Hh. unfold mgmtClusters_Delete, bind at 1. destruct (g_request w) as [w1 r1] eqn:Er. apply g_request_spec in Er as (Hm & _ & _ & _ & Hr & Hp).
  destruct (Hr Hh) as [Hh1 Hnf]. destruct r1 as [[]|e|]; [|intros [= <- <-]; split; [done|]; by rewrite (Hnf e eq_refl)|done].
  unfold bind, gets, modify. destruct (gw_mgmt w1 !! name) as [v|] eqn:Ev; intros [= <- <-]; split; try done.
  cbn [gw_mgmt set_gw_mgmt]. case_bool_decide; [left; apply lookup_delete_eq|right]. eexists. split; [apply lookup_insert_eq|done].
Qed.

Lemma remove_mgmt_done cluster w w' :
  honest w -> remove_mgmt (C := synced B w) cluster w = (w', Ret "") -> honest w' /\ mgmt_done cluster w'.
Proof.
  intros Hh. unfold remove_mgmt, mgmt_done. set (name := ct_ClusterName (pc_Status cluster)). case_bool_decide as En; [intros [= <-]; by split; [|left]|].
  unfold bind at 1, attempt. destruct (mgmtClusters_Get name w) as [w1 r] eqn:Eg. apply mgmtClusters_Get_spec in Eg as [[Hm1 Hh1] Hr]; [|done].
  specialize (Hh1 Hh). destruct r as [v|e|]; [| |done].
  2: { destruct (IsNotFound e); intros [= <-]. split; [done|]. right. left. rewrite Hm1. auto. }
  case_bool_decide as Ens; cbn [negb]; [|intros [= <-]; split; [done|]; right; right; exists v; rewrite Hm1; split; [done|by left]].
  intros ([] & w2 & Hd & Hr2)%bind_Ret.
  assert (honest w2 /\ (gw_mgmt w2 !! name = None \/ exists v, gw_mgmt w2 !! name = Some v /\ vc_Deleting v = true)) as [Hh2 Hgone].
  { apply ignore_not_found_Ret in Hd as [Hd|(e & Hd & He)]; apply mgmtClusters_Delete_spec in Hd as [Hh2 Hd]; auto. }
  destruct (isLegacyCluster (pc_Name cluster)) eqn:El.
  - cbn [v3Cache_Get synced] in Hr2. by rewrite Hr in Hr2.
  - apply bind_Ret in Hr2 as ([] & w3 & Hf & Hr2). injection Hr2 as <-. apply steady_run in Hf as [Hm3 Hh3]; [|apply steady_feature].
    split; [auto|]. right. rewrite Hm3. destruct Hgone as [Hg|(v' & Hg & Hdel)]; [by left|right]. exists v'. auto.
Qed.

Abbreviation user_of cluster := (getUserNameForPrincipal (getPrincipalID (pc_Namespace cluster) (pc_Name cluster))).

Lemma DeleteUser_spec cluster w w' :
  honest w -> auth (DeleteUser (pc_Namespace cluster) (pc_Name cluster)) w = (w', Ret tt) ->
  users_of w' !! user_of cluster = None /\ gw_mgmt w' = gw_mgmt w.
Proof.
  intros Hh. unfold auth, DeleteUser, deleteUser, users_Delete, bind, attempt_err, bind, attempt, core, api_request, gets, modify, ret.
  unfold honest in Hh. destruct (w_faults (aw_world (gw_auth w))) as [|[e|] fs].
  - destruct (aw_users (set_aw_world _ _) !! user_of cluster) eqn:Eu; intros [= <-]; cbn; (split; [|done]); [apply lookup_delete_eq|exact Eu].
  - apply Forall_cons in Hh as [Hf _]. rewrite (Hf e eq_refl). done.
  - destruct (aw_users (set_aw_world _ _) !! user_of cluster) eqn:Eu; intros [= <-]; cbn; (split; [|done]); [apply lookup_delete_eq|exact Eu].
Qed.

Lemma DoRemoveAndUpdateStatus_done {S} conds (c : ST S string) s s' conds' after :
  DoRemoveAndUpdateStatus conds c s = (s', Ret (conds', None, after)) -> c s = (s', Ret "") /\ after = None.
Proof.
  unfold DoRemoveAndUpdateStatus, bind, attempt, ret. destruct (c s) as [s1 [m|e|]]; [| |done].
  - case_bool_decide as Em; [subst|]; by intros [= <- _ <-].
  - by destruct (IsErrSkip e).
Qed.

Lemma doClusterRemove_done cluster w w' :
  honest w -> doClusterRemove (C := synced B w) cluster w = (w', Ret "") ->
  mgmt_done cluster w' /\ users_of w' !! user_of cluster = None
  /\ capi_clusters w !! (pc_Namespace cluster, pc_Name cluster) = None
  /\ forall k m, machines_of w !! k = Some m -> ~ machine_of (pc_Namespace cluster) (pc_Name cluster) m.
Proof.
  intros Hh. unfold doClusterRemove. intros (msg & w1 & Hm & Hr)%bind_Ret.
  case_bool_decide as Em; cbn [negb] in Hr; [subst msg|by injection Hr as _ ->]. apply remove_mgmt_done in Hm as [Hh1 Hm]; [|done].
  cbn [capiCache_Get synced] in Hr. destruct (capi_clusters w !! _) as [cc|] eqn:Ecc; cbn [found] in Hr.
  - apply bind_Ret in Hr as ([] & w2 & _ & Hr). destruct (controlPlanesCache_Get _ _) as [|e|]; [done| |done].
    destruct (IsNotFound e); [|done]. unfold remove_rest in Hr. apply bind_Ret in Hr as (ms & w3 & _ & Hr).
    destruct ms as [|m ms]; [by injection Hr|]. unfold lift in Hr. injection Hr as _ Hr. by apply GetMachineDeletionStatus_done in Hr.
  - cbn [IsNotFound] in Hr. change (IsNotFound (not_found _ _)) with true in Hr. cbv iota in Hr. unfold remove_rest in Hr.
    apply bind_Ret in Hr as (ms & w3 & Hms & Hr). unfold lift in Hms. injection Hms as <- Hms.
    destruct ms as [|m ms]; [|unfold lift in Hr; injection Hr as _ Hr; by apply GetMachineDeletionStatus_done in Hr].
    apply bind_Ret in Hr as ([] & w4 & Hu & Hr). injection Hr as <-. apply DeleteUser_spec in Hu as [Hu Hm4]; [|done].
    split; [unfold mgmt_done; by rewrite Hm4|]. split; [done|]. split; [done|]. apply (synced_machines B). cbn [machinesCache_List synced]. by rewrite Hms.
Qed.

(** C18: a cluster goes last.  With caches that are up to date when the handler starts, the finalizer of a cluster is released,
    under any schedule of failures that do not pretend that an object is missing, only when its machines and its cluster of Cluster API are gone, its user was deleted, and
    its management cluster is gone, or is being deleted, or belongs to another workspace by now; a cluster of old waits
    until the management cluster is gone. *)
Theorem cluster_removed_last cluster w w' :
  honest w -> OnClusterRemove (C := synced B w) cluster w = (w', Ret tt) ->
  mgmt_done cluster w' /\ users_of w' !! user_of cluster = None
  /\ capi_clusters w !! (pc_Namespace cluster, pc_Name cluster) = None
  /\ forall k m, machines_of w !! k = Some m -> ~ machine_of (pc_Namespace cluster) (pc_Name cluster) m.
Proof.
  intros Hh. unfold OnClusterRemove. intros ([[conds err] after] & w1 & Hd & Hr)%bind_Ret.
  apply bind_Ret in Hr as ([] & w2 & Hq & Hr). apply bind_Ret in Hr as ([] & w3 & Hu & Hr). destruct err as [e|]; [done|].
  injection Hr as <-. apply DoRemoveAndUpdateStatus_done in Hd as [Hd ->]. injection Hq as <-.
  apply doClusterRemove_done in Hd as (Hm & Hus & Hrest); [|done].
  assert (gw_mgmt w3 = gw_mgmt w1 /\ users_of w3 = users_of w1) as [Em Eu].
  { case_bool_decide; [by injection Hu as <-|]. apply bind_Ret in Hu as (c & w4 & Hu & Hr). injection Hr as <-.
    unfold clusters_UpdateStatus in Hu. apply bind_Ret in Hu as ([] & w5 & Hq & Hu). apply g_request_spec in Hq as (Hm5 & _ & _ & Hu5 & _).
    unfold bind, gets, modify, ret in Hu. destruct (gw_clusters w5 !! _); [|done]. injection Hu as <- _. by rewrite <- Hm5, <- Hu5. }
  unfold mgmt_done. rewrite Em, Eu. by split.
Qed.
End safety.

(** ** The two handlers come to an end *)

Lemma filter_values_none `{Countable Key} {A} (f : A -> bool) (m : gmap Key A) :
  (forall k x, m !! k = Some x -> f x = false) -> List.filter f (map snd (map_to_list m)) = [].
Proof.
  intros Hf. destruct (List.filter _ _) as [|x l] eqn:El; [done|exfalso]. assert (In x (x :: l)) as Hin by (by left).
  rewrite <- El in Hin. apply filter_In in Hin as [Hin Hx]. apply in_map_iff in Hin as ([k y] & E & Hin). simpl in E. subst y.
  apply list_elem_of_In, elem_of_map_to_list, Hf in Hin. congruence.
Qed.

Lemma List_filter_perm {A} (f : A -> bool) (l l' : list A) : l ≡ₚ l' -> List.filter f l ≡ₚ List.filter f l'.
Proof.
  induction 1 as [|x l l' _ IH|x y l|l1 l2 l3 _ IH1 _ IH2]; cbn [List.filter]; [done| | |by etrans].
  - destruct (f x); [by constructor|done].
  - destruct (f x), (f y); try done. constructor.
Qed.

Lemma filter_values_one `{Countable Key} {A} (f : A -> bool) (m : gmap Key A) k x :
  m !! k = Some x -> f x = true -> (forall k' x', m !! k' = Some x' -> f x' = true -> k' = k) -> List.filter f (map snd (map_to_list m)) = [x].
Proof.
  intros Hk Hx Hone. apply Permutation_singleton_r. rewrite <- (insert_delete_id m k x Hk) at 1.
  etrans; [apply List_filter_perm, Permutation_map, map_to_list_insert, lookup_delete_eq|]. cbn [map List.filter snd]. rewrite Hx.
  rewrite filter_values_none; [done|]. intros k' x' [Hne Hk']%lookup_delete_Some. destruct (f x') eqn:Ef; [|done]. by apply Hone in Hk'; subst.
Qed.

Section liveness.
Context `{X : External} (B : ClusterCaches) (ns n m : string) (Hm : m <> "").

(** A handler runs on an object that is being deleted; without an error its finalizer, the last one, is removed. *)
Definition mgmt_pass (w : GWorld) : GWorld :=
  match gw_mgmt w !! m with
  | Some v =>
      if vc_Deleting v then
        match OnMgmtClusterRemove (C := synced B w) m w with
        | (w', Ret _) => set_gw_mgmt (delete m (gw_mgmt w')) w'
        | (w', _) => w'
        end
      else w
  | None => w
  end.
Definition cluster_pass (w : GWorld) : GWorld :=
  match gw_clusters w !! (ns, n) with
  | Some c =>
      if pc_Deleting c then
        match OnClusterRemove (C := synced B w) c w with
        | (w', Ret _) => set_gw_clusters (delete (ns, n) (gw_clusters w')) w'
        | (w', _) => w'
        end
      else w
  | None => w
  end.

Abbreviation user := (getUserNameForPrincipal (getPrincipalID ns n)).

(** The objects that belong to the pair are gone, requests succeed, and the two objects are there, deleted or not. *)
Definition cluster_is (w : GWorld) (p : option bool) : Prop :=
  match p with
  | None => gw_clusters w !! (ns, n) = None /\ users_of w !! user = None
  | Some d => exists c, gw_clusters w !! (ns, n) = Some c /\ pc_Deleting c = d /\ ct_ClusterName (pc_Status c) = m /\ pc_Finalizers c <> []
  end.
Definition mgmt_is (w : GWorld) (v : option bool) : Prop :=
  match v with
  | None => gw_mgmt w !! m = None
  | Some d => exists x, gw_mgmt w !! m = Some x /\ vc_Deleting x = d /\ vc_Finalizers x <> [] /\ v3_FleetWorkspaceName (vc_Spec x) = ns
  end.
Record pair_is (w : GWorld) (p v : option bool) : Prop := {
  pr_faults : faults_of w = [];
  pr_feature : is_Some (gw_feature w);
  pr_capi : capi_clusters w !! (ns, n) = None;
  pr_machines : forall k x, machines_of w !! k = Some x -> ~ machine_of ns n x;
  pr_keys : forall k c, gw_clusters w !! k = Some c -> k = (pc_Namespace c, pc_Name c);
  pr_only : forall k c, gw_clusters w !! k = Some c -> ct_ClusterName (pc_Status c) = m -> k = (ns, n);
  pr_cluster : cluster_is w p;
  pr_mgmt : mgmt_is w v
}.

Lemma g_request_calm w : faults_of w = [] -> g_request w = (w, Ret tt).
Proof. unfold g_request, auth, core, api_request. intros ->. destruct w as [a ? ? ? ? ? ?]. by destruct a. Qed.

(** The object of the cluster is replaced by one that differs in its marks or conditions only. *)
Lemma pair_put w d v c c' :
  pair_is w (Some d) v -> gw_clusters w !! (ns, n) = Some c -> pc_Namespace c' = pc_Namespace c -> pc_Name c' = pc_Name c ->
  ct_ClusterName (pc_Status c') = m -> pc_Finalizers c' <> [] ->
  pair_is (set_gw_clusters (<[(ns, n) := c']> (gw_clusters w)) w) (Some (pc_Deleting c')) v.
Proof.
  intros [Hf Hfe Hca Hma Hk Ho Hc Hv] Hl Hns Hn Hs Hfi. split; cbn [gw_auth gw_feature gw_clusters gw_mgmt set_gw_clusters]; [done..| | | |done].
  - intros k x [[<- <-]|[Hne Hx]]%lookup_insert_Some; [|by apply Hk]. rewrite Hns, Hn. by apply Hk.
  - intros k x [[<- <-]|[Hne Hx]]%lookup_insert_Some; [done|by apply Ho].
  - exists c'. split; [apply lookup_insert_eq|done].
Qed.

Lemma listed w p v : pair_is w p v -> @provCache_ByCluster (synced B w) m = Ret (match p with Some _ => match gw_clusters w !! (ns, n) with Some c => [c] | None => [] end | None => [] end).
Proof.
  intros [_ _ _ _ Hk Ho Hc _]. cbn [provCache_ByCluster synced]. f_equal.
  assert (forall c, bool_decide (m ∈ byClusterIndex c) = bool_decide (ct_ClusterName (pc_Status c) = m)) as Hidx.
  { intros c. apply bool_decide_ext. unfold byClusterIndex. case_bool_decide as E; [|rewrite list_elem_of_singleton; naive_solver].
    rewrite E. split; [by intros ?%elem_of_nil|congruence]. }
  destruct p as [d|].
  - destruct Hc as (c & Hl & _ & Hs & _). rewrite Hl. apply (filter_values_one _ _ (ns, n)); [done|by rewrite Hidx, bool_decide_eq_true_2|].
    intros k c' Hk'. rewrite Hidx. intros E%bool_decide_eq_true. by eapply Ho.
  - destruct Hc as [Hl _]. apply filter_values_none. intros k c Hk'. rewrite Hidx. apply bool_decide_eq_false. intros E.
    apply (Ho _ _ Hk') in E as ->. congruence.
Qed.

(** A pass over the management cluster. *)
Lemma mgmt_pass_step w p v :
  pair_is w p v ->
  pair_is (mgmt_pass w)
    (match v, p with Some true, Some _ => Some true | _, _ => p end)
    (match v with
     | Some true => match p with None => None | Some _ => if isLegacyCluster n then None else Some true end
     | _ => v
     end).
Proof.
  intros Hp. pose proof Hp as [Hf Hfe Hca Hma Hk Ho Hc Hv]. unfold mgmt_pass. destruct v as [d|]; cbn [mgmt_is] in Hv; [|by rewrite Hv; destruct p].
  destruct Hv as (x & Hx & Hd & Hfin & Hws). rewrite Hx, Hd. destruct d; [|by destruct p]. clear Hd.
  unfold OnMgmtClusterRemove. rewrite (listed _ _ _ Hp). unfold bind at 1, lift. destruct p as [d|].
  - destruct Hc as (c & Hl & Hd & Hs & Hcf). rewrite Hl. pose proof (Hk _ _ Hl) as [= Ens En].
    rewrite for_fold_cons. unfold bind at 1 2, clusters_Delete at 1, bind at 1. rewrite g_request_calm by done. unfold bind, gets.
    rewrite <- Ens, <- En, Hl, (bool_decide_eq_false_2 (pc_Finalizers c = [])) by done. unfold modify. cbn [for_fold List.existsb]. rewrite orb_false_r, <- En.
    pose proof (pair_put _ _ _ _ (set_pc_Deleting true c) Hp Hl eq_refl eq_refl Hs Hcf) as Hp'. cbn [pc_Deleting set_pc_Deleting] in Hp'.
    set (w1 := set_gw_clusters _ w) in *. unfold ret at 1. cbn [orb]. change (bool_decide ([c] = [])) with false. cbn [orb].
    destruct (isLegacyCluster n).
    + unfold ret. destruct Hp' as [? ? ? ? ? ? ? ?]. split; try done. apply lookup_delete_eq.
    + unfold bind, enqueueAfter, modify, fail. by destruct Hp' as [? ? ? ? ? ? ? ?].
  - cbn [for_fold List.existsb]. unfold bind, ret. change (bool_decide (([] : list ProvCluster) = [])) with true. cbn [orb].
    split; try done. apply lookup_delete_eq.
Qed.

(** Changes outside the two objects. *)
Lemma pair_feature w p v x : pair_is w p v -> pair_is (set_gw_feature (Some x) w) p v.
Proof. intros [? ? ? ? ? ? ? ?]. by split. Qed.

Lemma feature_calm w0 w p v b :
  pair_is w p v -> is_Some (gw_feature w0) ->
  exists w', updateFeatureLockedValue (C := synced B w0) b w = (w', Ret tt) /\ pair_is w' p v /\ gw_clusters w' = gw_clusters w.
Proof.
  intros Hp [f Hf0]. pose proof Hp as [Hf [y Hy] _ _ _ _ _ _]. unfold updateFeatureLockedValue. cbn [featureCache_Get provCache_List synced].
  rewrite Hf0. unfold bind at 1, lift at 1. cbn [found].
  assert (forall x, exists w', features_Update x w = (w', Ret tt) /\ pair_is w' p v /\ gw_clusters w' = gw_clusters w) as Hup.
  { intros x. unfold features_Update, bind. rewrite g_request_calm by done. unfold gets. rewrite Hy. unfold modify.
    eexists. split; [reflexivity|]. split; [by apply pair_feature|done]. }
  destruct (match f with None => _ | Some _ => _ end); [by exists w|]. destruct b; [apply Hup|].
  unfold bind at 1, lift. destruct (List.existsb _ _); [by exists w|apply Hup].
Qed.

(** The management cluster is asked to go; a cluster of old waits for it. *)
Lemma remove_mgmt_step w v c :
  pair_is w (Some true) v -> gw_clusters w !! (ns, n) = Some c -> ct_ClusterName (pc_Status c) = m ->
  exists w' msg, remove_mgmt (C := synced B w) c w = (w', Ret msg)
    /\ pair_is w' (Some true) (match v with Some _ => Some true | None => None end) /\ gw_clusters w' = gw_clusters w
    /\ bool_decide (msg = "") = match v with Some _ => negb (isLegacyCluster n) | None => true end.
Proof.
  intros Hp Hl Hs. pose proof Hp as [Hf Hfe _ _ Hk _ _ Hv]. pose proof (Hk _ _ Hl) as [= Ens En]. unfold remove_mgmt. rewrite Hs.
  rewrite (bool_decide_eq_false_2 (m = "")) by done. unfold bind at 1, attempt, mgmtClusters_Get, bind. rewrite g_request_calm by done. unfold gets.
  destruct v as [d|]; cbn [mgmt_is] in Hv.
  2: { rewrite Hv. change (IsNotFound (not_found _ _)) with true. unfold fail. cbv iota. change (IsNotFound (not_found _ _)) with true. by exists w, "". }
  destruct Hv as (x & Hx & Hd & Hfin & Hws). rewrite Hx. unfold ret at 1. rewrite (bool_decide_eq_true_2 (pc_Namespace c = _)) by congruence. cbn [negb].
  unfold ignore_not_found, attempt_err, bind, attempt, mgmtClusters_Delete, bind. rewrite g_request_calm by done. unfold gets. rewrite Hx.
  rewrite (bool_decide_eq_false_2 (vc_Finalizers x = [])) by done. unfold modify, ret.
  set (w1 := set_gw_mgmt _ w).
  assert (pair_is w1 (Some true) (Some true)) as Hp1.
  { destruct Hp as [? ? ? ? ? ? ? ?]. split; try done. exists (set_vc_Deleting true x). split; [apply lookup_insert_eq|done]. }
  rewrite <- En. destruct (isLegacyCluster n).
  - cbn [v3Cache_Get synced]. rewrite Hx. cbn [found]. eexists w1, _. split; [reflexivity|]. split; [done|]. by split.
  - destruct (feature_calm w w1 _ _ false Hp1 Hfe) as (w2 & -> & Hp2 & Hc2). exists w2, "". split; [reflexivity|]. split; [done|]. by split.
Qed.

(** Nothing is left of the cluster but its user. *)
Lemma doClusterRemove_step w v c :
  pair_is w (Some true) v -> gw_clusters w !! (ns, n) = Some c -> ct_ClusterName (pc_Status c) = m ->
  exists w' msg, doClusterRemove (C := synced B w) c w = (w', Ret msg)
    /\ pair_is w' (Some true) (match v with Some _ => Some true | None => None end) /\ gw_clusters w' = gw_clusters w
    /\ bool_decide (msg = "") = match v with Some _ => negb (isLegacyCluster n) | None => true end
    /\ (msg = "" -> users_of w' !! user = None).
Proof.
  intros Hp Hl Hs. destruct (remove_mgmt_step w v c Hp Hl Hs) as (w1 & msg & Hr & Hp1 & Hc1 & Hmsg).
  pose proof Hp as [_ _ Hca Hma Hk _ _ _]. pose proof (Hk _ _ Hl) as [= Ens En].
  unfold doClusterRemove. rewrite (bind_run _ _ _ _ _ Hr). destruct (bool_decide (msg = "")) eqn:Em; cbn [negb].
  2: { apply bool_decide_eq_false in Em. exists w1, msg. split; [reflexivity|]. rewrite bool_decide_eq_false_2 by done. naive_solver. }
  cbn [capiCache_Get synced]. rewrite <- Ens, <- En, Hca. cbn [found]. change (IsNotFound (not_found _ _)) with true. cbv iota.
  unfold remove_rest. rewrite <- Ens, <- En. rewrite (proj2 (synced_machines B w ns n) Hma). unfold bind at 1, lift.
  pose proof (pr_faults _ _ _ Hp1) as Hf1.
  unfold auth, DeleteUser, deleteUser, users_Delete, bind, attempt_err, bind, attempt, core, api_request, gets, modify, ret. rewrite Hf1.
  change (IsNotFound (not_found _ _)) with true.
  destruct (aw_users (set_aw_world _ _) !! user) eqn:Eu; eexists _, ""; (split; [reflexivity|]);
    (split; [destruct Hp1 as [? ? ? ? ? ? ? ?]; by split|]); (split; [done|]); (split; [by rewrite <- Hmsg|]); intros _; [apply lookup_delete_eq|exact Eu].
Qed.

(** The handler around it records the progress in the conditions. *)
Lemma OnClusterRemove_step w v c :
  pair_is w (Some true) v -> gw_clusters w !! (ns, n) = Some c -> ct_ClusterName (pc_Status c) = m ->
  exists w' r, OnClusterRemove (C := synced B w) c w = (w', r)
    /\ pair_is w' (Some true) (match v with Some _ => Some true | None => None end)
    /\ match v with
       | Some _ => if isLegacyCluster n then r = Fail ErrSkip else r = Ret tt /\ users_of w' !! user = None
       | None => r = Ret tt /\ users_of w' !! user = None
       end.
Proof.
  intros Hp Hl Hs. destruct (doClusterRemove_step w v c Hp Hl Hs) as (w1 & msg & Hr & Hp1 & Hc1 & Hmsg & Hu).
  pose proof Hp as [_ _ _ _ Hk _ Hc _]. pose proof (Hk _ _ Hl) as [= Ens En].
  destruct Hc as (c0 & Hl0 & Hdel & _ & Hfin). rewrite Hl in Hl0. injection Hl0 as <-.
  assert (exists conds err after, DoRemoveAndUpdateStatus (ct_Conditions (pc_Status c)) (doClusterRemove (C := synced B w) c) w = (w1, Ret (conds, err, after))
    /\ err = if bool_decide (msg = "") then None else Some ErrSkip) as (conds & err & after & Hd & ->).
  { unfold DoRemoveAndUpdateStatus, bind, attempt. rewrite Hr. unfold ret. destruct (bool_decide (msg = "")); eauto 6. }
  unfold OnClusterRemove. rewrite (bind_run _ _ _ _ _ Hd).
  assert (exists w2, (match after with Some s => enqueueAfter (pc_Namespace c) (pc_Name c) s | None => ret tt end) w1 = (w2, Ret tt)
    /\ pair_is w2 (Some true) (match v with Some _ => Some true | None => None end) /\ gw_clusters w2 = gw_clusters w /\ users_of w2 = users_of w1) as (w2 & Hq & Hp2 & Hc2 & Hu2).
  { destruct after; [|by exists w1]. eexists. split; [reflexivity|]. split; [destruct Hp1 as [? ? ? ? ? ? ? ?]; by split|done]. }
  rewrite (bind_run _ _ _ _ _ Hq).
  assert (exists w3, (if bool_decide (conds = ct_Conditions (pc_Status c)) then ret tt
      else let* _ := clusters_UpdateStatus (set_pc_Status (set_ct_Conditions conds (pc_Status c)) c) in ret tt) w2 = (w3, Ret tt)
    /\ pair_is w3 (Some true) (match v with Some _ => Some true | None => None end) /\ users_of w3 = users_of w1) as (w3 & Hst & Hp3 & Hu3).
  { destruct (bool_decide (conds = ct_Conditions (pc_Status c))); [by exists w2|]. unfold clusters_UpdateStatus, bind. rewrite g_request_calm by apply Hp2. unfold gets, modify, ret.
    cbn [pc_Namespace pc_Name set_pc_Status]. rewrite <- Ens, <- En, Hc2, Hl. eexists. split; [reflexivity|]. split; [|done].
    rewrite <- Hc2 in Hl |- *.
    pose proof (pair_put _ _ _ c (set_pc_Status (set_ct_Conditions conds (pc_Status c)) c) Hp2 Hl eq_refl eq_refl Hs Hfin) as Hp'.
    cbn [pc_Deleting set_pc_Status] in Hp'. rewrite Hdel in Hp'. exact Hp'. }
  rewrite (bind_run _ _ _ _ _ Hst). exists w3. rewrite Hu3. destruct (bool_decide (msg = "")) eqn:Em.
  - apply bool_decide_eq_true in Em. exists (Ret tt). split; [done|]. split; [done|]. destruct v; [destruct (isLegacyCluster n); [done|]|]; auto.
  - exists (Fail ErrSkip). split; [done|]. split; [done|]. by destruct v; [destruct (isLegacyCluster n)|].
Qed.

Lemma cluster_pass_step w p v :
  pair_is w p v ->
  pair_is (cluster_pass w)
    (match p with Some true => match v with Some _ => if isLegacyCluster n then Some true else None | None => None end | _ => p end)
    (match p, v with Some true, Some _ => Some true | _, _ => v end).
Proof.
  intros Hp. pose proof (pr_cluster _ _ _ Hp) as Hc. unfold cluster_pass. destruct p as [d|]; cbn [cluster_is] in Hc; [|by destruct Hc as [-> _]; destruct v].
  destruct Hc as (c & Hl & Hd & Hs & Hfin). rewrite Hl, Hd. destruct d; [|by destruct v].
  destruct (OnClusterRemove_step w v c Hp Hl Hs) as (w' & r & -> & Hp' & Hr).
  assert (r = Ret tt /\ users_of w' !! user = None -> forall v', pair_is w' (Some true) v' ->
          pair_is (match r with Ret _ => set_gw_clusters (delete (ns, n) (gw_clusters w')) w' | _ => w' end) None v') as Hdone.
  { intros [-> Hu] v' [? ? ? ? Hk Ho ? ?]. split; try done; cbn [gw_clusters set_gw_clusters].
    - intros k x [_ Hx]%lookup_delete_Some. by apply Hk.
    - intros k x [_ Hx]%lookup_delete_Some. by apply Ho.
    - split; [apply lookup_delete_eq|done]. }
  destruct v as [d|]; [destruct (isLegacyCluster n)|]; [by subst r|auto..].
Qed.

(** C17: removal ends.  When one of the two objects of a cluster is deleted, by whichever side, and nothing else is left
    of the cluster, then five passes of the two handlers release both and delete the user, when the caches are up to date at
    each pass and no request fails: neither kind of cluster gets stuck with each object waiting for the other. *)
Theorem cluster_removal_completes w d d' :
  pair_is w (Some d) (Some d') -> d || d' = true ->
  let w' := mgmt_pass (cluster_pass (mgmt_pass (cluster_pass (mgmt_pass w)))) in
  gw_clusters w' !! (ns, n) = None /\ gw_mgmt w' !! m = None /\ users_of w' !! user = None.
Proof.
  intros Hp Hd w'. assert (pair_is w' None None) as [_ _ _ _ _ _ [Hc Hu] Hv]; [|done]. unfold w'.
  apply mgmt_pass_step, cluster_pass_step, mgmt_pass_step, cluster_pass_step, mgmt_pass_step in Hp.
  destruct d, d'; try done; destruct (isLegacyCluster n); exact Hp.
Qed.
End liveness.

(** ** Samples *)

Section witnesses.
#[local] Existing Instance demoExternal.

Definition demoV3Spec (workspace : string) : V3ClusterSpec := mkV3Spec "c1" "" "" "" "" None "" "" "" "" [] None None true workspace.
Definition demoV3 (name : string) (deleting : bool) : V3Cluster :=
  mkV3Cluster name ∅ ∅ ["mgmt-cluster-remove"] deleting (demoV3Spec "fleet-default") (mkAuthEndpoint false "" "") [].
Definition demoRemoved (name mgmt : string) (deleting : bool) : ProvCluster :=
  mkProvCluster "fleet-default" name "uid" ∅ ∅ ["provisioning-cluster-remove"] deleting demoSpec (mkClusterStatus true mgmt "fleet-default" "" true 0 []).
Definition demoBase : ClusterCaches := {|
  v3Cache_Get name := Fail absent;
  provCache_ByCluster name := Ret [];
  provCache_List := Ret [];
  featureCache_Get := Ret None;
  registrationCache_Get ns name := Fail absent;
  registrationCache_List ns := Ret [];
  capiCache_Get ns name := Fail absent;
  controlPlanesCache_Get ns name := Fail absent;
  machinesCache_List ns labels := Ret []
|}.
Definition demoPair (name mgmt : string) (d d' : bool) : GWorld :=
  mkGWorld (mkAWorld (mkWorld (mkPlan ∅ ∅ ∅) ∅ ∅ ∅ ∅ ∅ [] "" []) ∅ ∅ ∅ [] 1000)
    {[ ("fleet-default", name) := demoRemoved name mgmt d ]} {[ mgmt := demoV3 mgmt d' ]} (Some (Some true)) ∅ [] [].

Lemma demoPair_is name mgmt d d' : pair_is "fleet-default" name mgmt (demoPair name mgmt d d') (Some d) (Some d').
Proof.
  unfold demoPair. split; try done; cbn [gw_clusters].
  - intros k c [<- <-]%lookup_singleton_Some. done.
  - intros k c [<- <-]%lookup_singleton_Some _. done.
  - eexists. split; [apply lookup_singleton_eq|]. done.
  - eexists. split; [apply lookup_singleton_eq|]. done.
Qed.

(** A cluster of old that is deleted on its own side. *)
Lemma cluster_removal_completes_witness :
  let w' := mgmt_pass demoBase "c-abcde" (cluster_pass demoBase "fleet-default" "c-abcde" (mgmt_pass demoBase "c-abcde"
              (cluster_pass demoBase "fleet-default" "c-abcde" (mgmt_pass demoBase "c-abcde" (demoPair "c-abcde" "c-abcde" true false))))) in
  gw_clusters w' !! ("fleet-default", "c-abcde") = None /\ gw_mgmt w' !! "c-abcde" = None.
Proof.
  destruct (cluster_removal_completes demoBase "fleet-default" "c-abcde" "c-abcde" ltac:(discriminate) (demoPair "c-abcde" "c-abcde" true false) true false
    (demoPair_is _ _ _ _) eq_refl) as (Hc & Hv & _).
  split; [exact Hc|exact Hv].
Defined.

Definition demoRemovalWorld : GWorld := demoPair "c1" "c-m-abcdefgh" true false.
Definition demoRemovedWorld : GWorld := Eval vm_compute in fst (OnClusterRemove (C := synced demoBase demoRemovalWorld) (demoRemoved "c1" "c-m-abcdefgh" true) demoRemovalWorld).
Lemma demoRemoval_run :
  OnClusterRemove (C := synced demoBase demoRemovalWorld) (demoRemoved "c1" "c-m-abcdefgh" true) demoRemovalWorld = (demoRemovedWorld, Ret tt).
Proof. vm_compute. reflexivity. Qed.

Lemma cluster_removed_last_witness : mgmt_done (demoRemoved "c1" "c-m-abcdefgh" true) demoRemovedWorld.
Proof.
  destruct (cluster_removed_last (B := demoBase) (demoRemoved "c1" "c-m-abcdefgh" true) demoRemovalWorld demoRemovedWorld) as [Hd _].
  - constructor.
  - exact demoRemoval_run.
  - exact Hd.
Defined.
End witnesses.
