(* ===== verification/Quota.v ===== *)
(** * Resource quotas: limits, quantities and namespace conditions

    A project limits what its namespaces may use together; every namespace asks for a share in an annotation.  This file
    holds the limits ([resource_quota_types.go]), their conversion to resource lists ([resource_quota_common.go]), the test
    whether a share fits ([resourcequota/quota_validate.go]) and the conditions kept in an annotation of a namespace
    ([namespace/namespace_utils.go]). *)

From S2P Require Import Prelude GoLib Errors Types World.

(** ** Limits *)

Record ResourceQuotaLimit := mkQuotaLimit {
  l_Pods : string;
  l_Services : string;
  l_ReplicationControllers : string;
  l_Secrets : string;
  l_ConfigMaps : string;
  l_PersistentVolumeClaims : string;
  l_ServicesNodePorts : string;
  l_ServicesLoadBalancers : string;
  l_RequestsCPU : string;
  l_RequestsMemory : string;
  l_RequestsStorage : string;
  l_LimitsCPU : string;
  l_LimitsMemory : string
}.

Record ContainerResourceLimit := mkContainerLimit {
  cl_RequestsCPU : string;
  cl_RequestsMemory : string;
  cl_LimitsCPU : string;
  cl_LimitsMemory : string
}.

Record ProjectResourceQuota := mkProjectQuota { pq_Limit : ResourceQuotaLimit; pq_UsedLimit : ResourceQuotaLimit }.
Record NamespaceResourceQuota := mkNamespaceQuota { nq_Limit : ResourceQuotaLimit }.

#[global] Instance ResourceQuotaLimit_eq_dec : EqDecision ResourceQuotaLimit.
Proof. solve_decision. Defined.
#[global] Instance ContainerResourceLimit_eq_dec : EqDecision ContainerResourceLimit.
Proof. solve_decision. Defined.
#[global] Instance ProjectResourceQuota_eq_dec : EqDecision ProjectResourceQuota.
Proof. solve_decision. Defined.
#[global] Instance NamespaceResourceQuota_eq_dec : EqDecision NamespaceResourceQuota.
Proof. solve_decision. Defined.

(** The fields with their names in JSON. *)
Definition limit_fields (l : ResourceQuotaLimit) : list (string * string) :=
  [("pods", l_Pods l); ("services", l_Services l); ("replicationControllers", l_ReplicationControllers l); ("secrets", l_Secrets l);
   ("configMaps", l_ConfigMaps l); ("persistentVolumeClaims", l_PersistentVolumeClaims l); ("servicesNodePorts", l_ServicesNodePorts l);
   ("servicesLoadBalancers", l_ServicesLoadBalancers l); ("requestsCpu", l_RequestsCPU l); ("requestsMemory", l_RequestsMemory l);
   ("requestsStorage", l_RequestsStorage l); ("limitsCpu", l_LimitsCPU l); ("limitsMemory", l_LimitsMemory l)].
Definition container_fields (l : ContainerResourceLimit) : list (string * string) :=
  [("requestsCpu", cl_RequestsCPU l); ("requestsMemory", cl_RequestsMemory l); ("limitsCpu", cl_LimitsCPU l); ("limitsMemory", cl_LimitsMemory l)].

(** [convert.EncodeToMap] of a struct of texts whose fields are left out when empty. *)
Definition omitempty (fields : list (string * string)) : gmap string string := list_to_map (List.filter (fun kv => snd kv !=? "") fields).
Definition limit_map (l : ResourceQuotaLimit) : gmap string string := omitempty (limit_fields l).
Definition container_map (l : ContainerResourceLimit) : gmap string string := omitempty (container_fields l).
(** A nil pointer encodes to no map at all. *)
Definition limit_ptr_map (l : option ResourceQuotaLimit) : gmap string string := match l with Some l => limit_map l | None => ∅ end.

(** [convert.ToObj]: names that are no fields are dropped. *)
Definition limit_of (m : gmap string string) : ResourceQuotaLimit :=
  let g := map_get m in
  mkQuotaLimit (g "pods") (g "services") (g "replicationControllers") (g "secrets") (g "configMaps") (g "persistentVolumeClaims")
    (g "servicesNodePorts") (g "servicesLoadBalancers") (g "requestsCpu") (g "requestsMemory") (g "requestsStorage") (g "limitsCpu") (g "limitsMemory").
Definition container_of (m : gmap string string) : ContainerResourceLimit :=
  let g := map_get m in mkContainerLimit (g "requestsCpu") (g "requestsMemory") (g "limitsCpu") (g "limitsMemory").

#[global] Arguments limit_map : simpl never.
#[global] Arguments limit_of : simpl never.
#[global] Arguments container_map : simpl never.

Definition zeroLimit : ResourceQuotaLimit := limit_of ∅.
Definition limit_names : list string := map fst (limit_fields zeroLimit).

(** ** Objects *)

Record Namespace := mkNamespace {
  ns_Name : string;
  ns_ResourceVersion : Z;
  ns_Annotations : gmap string string;
  ns_Deleting : bool
}.
#[global] Instance Namespace_eq_dec : EqDecision Namespace.
Proof. solve_decision. Defined.
Definition set_ns_Annotations (a : gmap string string) (ns : Namespace) : Namespace := mkNamespace (ns_Name ns) (ns_ResourceVersion ns) a (ns_Deleting ns).

Record Project := mkProject {
  pj_Namespace : string;
  pj_Name : string;
  pj_ResourceVersion : Z;
  pj_Deleting : bool;
  pj_ResourceQuota : option ProjectResourceQuota;
  pj_NamespaceDefaultResourceQuota : option NamespaceResourceQuota;
  pj_ContainerDefaultResourceLimit : option ContainerResourceLimit
}.
#[global] Instance Project_eq_dec : EqDecision Project.
Proof. solve_decision. Defined.

(** One entry of the conditions kept in the annotation. *)
Record ns_condition := mkNsCondition {
  nc_Type : string;
  nc_Status : string;
  nc_Message : string;
  nc_LastUpdateTime : string
}.

(** ** Quantities and their lists

    [resource.Quantity], the package [quota] of the API server, and JSON; [map_range] is the order in which Go happens
    to visit a map. *)
Class QuotaLib := {
  Quantity : Type;
  ParseQuantity : string -> res Quantity;
  Quantity_String : Quantity -> string;
  quota_Add : gmap string Quantity -> gmap string Quantity -> gmap string Quantity;
  quota_LessThanOrEqual : gmap string Quantity -> gmap string Quantity -> list string;
  quota_IsNegative : gmap string Quantity -> list string;
  quota_Mask : gmap string Quantity -> list string -> gmap string Quantity;
  Semantic_DeepEqual : gmap string Quantity -> gmap string Quantity -> bool;
  map_range : gmap string string -> list (string * string);
  json_Marshal_quota : NamespaceResourceQuota -> res string;
  json_Unmarshal_quota : string -> res NamespaceResourceQuota;
  json_Unmarshal_containerLimit : string -> res ContainerResourceLimit;
  json_Marshal_status : list ns_condition -> res string;
  json_Unmarshal_status : string -> res (list ns_condition)
}.
Abbreviation ResourceList := (gmap string Quantity).

(** Sums of amounts that may be missing. *)
Definition add_amounts : option Z -> option Z -> option Z := union_with (fun x y => Some (x + y)).

(** Documented: a quantity is a number, [Add] sums per resource, [LessThanOrEqual] names the resources of the second list
    that the first one exceeds, [IsNegative] those below zero, [Mask] keeps the named ones, and equality of quantities is
    equality of the numbers; what is written as a text, or as JSON, is read back. *)
Class QuotaLaws `{QuotaLib} := {
  amount : Quantity -> Z;
  map_range_perm m : map_range m ≡ₚ map_to_list m;
  Add_amount a b k : amount <$> quota_Add a b !! k = add_amounts (amount <$> a !! k) (amount <$> b !! k);
  LessThanOrEqual_spec a b k :
    k ∈ quota_LessThanOrEqual a b <-> exists x y, a !! k = Some x /\ b !! k = Some y /\ amount y < amount x;
  IsNegative_spec a k : k ∈ quota_IsNegative a <-> exists x, a !! k = Some x /\ amount x < 0;
  Mask_spec a ks k : quota_Mask a ks !! k = if decide (k ∈ ks) then a !! k else None;
  DeepEqual_spec a b : Semantic_DeepEqual a b = true <-> forall k, amount <$> a !! k = amount <$> b !! k;
  Parse_String q : exists q', ParseQuantity (Quantity_String q) = Ret q' /\ amount q' = amount q;
  Parse_zero : exists q, ParseQuantity "0" = Ret q /\ amount q = 0;
  String_nonempty q : Quantity_String q <> "";
  Marshal_quota q : exists s, json_Marshal_quota q = Ret s /\ s <> "" /\ json_Unmarshal_quota s = Ret q;
  Marshal_status l : exists s, json_Marshal_status l = Ret s /\ s <> "" /\ json_Unmarshal_status s = Ret l
}.

Section conversion.
Context `{L : QuotaLib}.

(** ** Does a share fit? ([quota_validate.go]) *)

(** The loop over the entries of a limit; [rename] gives the names of the result. *)
Fixpoint parse_from (rename : string -> string) (order : list (string * string)) (acc : ResourceList) : res ResourceList :=
  match order with
  | [] => Ret acc
  | (k, v) :: rest => let? q := ParseQuantity v in parse_from rename rest (<[rename k := q]> acc)
  end.

Definition ConvertLimitToResourceList (limit : option ResourceQuotaLimit) : res ResourceList :=
  parse_from id (map_range (limit_ptr_map limit)) ∅.

Fixpoint add_limits (nsLimits : list (option ResourceQuotaLimit)) (acc : ResourceList) : res ResourceList :=
  match nsLimits with
  | [] => Ret acc
  | nsLimit :: rest => let? l := ConvertLimitToResourceList nsLimit in add_limits rest (quota_Add acc l)
  end.

(** Whether the share fits, and the resources for which it does not with what would be used of them. *)
Definition IsQuotaFit (nsLimit : option ResourceQuotaLimit) (nsLimits : list (option ResourceQuotaLimit)) (projectLimit : option ResourceQuotaLimit)
  : res (bool * option ResourceList) :=
  let? nsResourceList := ConvertLimitToResourceList nsLimit in
  let? nssResourceList := add_limits nsLimits (quota_Add ∅ nsResourceList) in
  let? projectResourceList := ConvertLimitToResourceList projectLimit in
  let exceeded := quota_LessThanOrEqual nssResourceList projectResourceList ++ quota_IsNegative nsResourceList in
  if bool_decide (exceeded = []) then Ret (true, None) else Ret (false, Some (quota_Mask nssResourceList exceeded)).

(** [utils.FormatResourceList] *)
Definition FormatResourceList (resources : ResourceList) : string :=
  Join (sort_Strings (map (fun kv => fst kv +:+ "=" +:+ Quantity_String (snd kv)) (map_to_list resources))) ",".

(** ** Conversions ([resource_quota_common.go]) *)

Definition convertResourceListToLimit (rList : ResourceList) : ResourceQuotaLimit := limit_of (Quantity_String <$> rList).

Definition resourceQuotaConversion : gmap string string := {[
  "replicationControllers" := "replicationcontrollers";
  "configMaps" := "configmaps";
  "persistentVolumeClaims" := "persistentvolumeclaims";
  "servicesNodePorts" := "services.nodeports";
  "servicesLoadBalancers" := "services.loadbalancers";
  "requestsCpu" := "requests.cpu";
  "requestsMemory" := "requests.memory";
  "requestsStorage" := "requests.storage";
  "limitsCpu" := "limits.cpu";
  "limitsMemory" := "limits.memory" ]}.
Definition limitRangerRequestConversion : gmap string string := {[ "requestsCpu" := "cpu"; "requestsMemory" := "memory" ]}.
Definition limitRangerLimitConversion : gmap string string := {[ "limitsCpu" := "cpu"; "limitsMemory" := "memory" ]}.

(** The name Kubernetes gives to a resource. *)
Definition native (key : string) : string := default key (resourceQuotaConversion !! key).

Definition convertProjectResourceLimitToResourceList (limit : ResourceQuotaLimit) : res ResourceList :=
  parse_from native (map_range (limit_map limit)) ∅.
(** The [Hard] list of a quota specification. *)
Definition convertResourceLimitResourceQuotaSpec (limit : ResourceQuotaLimit) : res ResourceList :=
  convertProjectResourceLimitToResourceList limit.

Fixpoint container_from (order : list (string * string)) (requests limits : ResourceList) : res (ResourceList * ResourceList) :=
  match order with
  | [] => Ret (requests, limits)
  | (key, v) :: rest =>
      match limitRangerRequestConversion !! key, limitRangerLimitConversion !! key with
      | Some name, _ => let? q := ParseQuantity v in container_from rest (<[name := q]> requests) limits
      | None, Some name => let? q := ParseQuantity v in container_from rest requests (<[name := q]> limits)
      | None, None => container_from rest requests limits
      end
  end.
(** Requests and limits; [None] when nothing is limited. *)
Definition convertContainerResourceLimitToResourceList (limit : ContainerResourceLimit) : res (option (ResourceList * ResourceList)) :=
  if bool_decide (container_map limit = ∅) then Ret None
  else let? r := container_from (map_range (container_map limit)) ∅ ∅ in Ret (Some r).

(** An item of a limit range; its type is [Container]. *)
Record LimitRangeItem := mkLimitRangeItem {
  li_Type : string;
  li_Default : ResourceList;
  li_DefaultRequest : ResourceList
}.
Definition convertPodResourceLimitToLimitRangeSpec (podResourceLimit : ContainerResourceLimit) : res (option (list LimitRangeItem)) :=
  let? r := convertContainerResourceLimitToResourceList podResourceLimit in
  match r with
  | None => Ret None
  | Some (request, limit) => Ret (Some [mkLimitRangeItem "Container" limit request])
  end.

(** ** Conditions of namespaces ([namespace_utils.go]) *)

Definition statusAnn : string := "cattle.io/status".
Definition status_text (b : bool) : string := if b then "True" else "False".

Fixpoint put_ns_condition (c : ns_condition) (l : list ns_condition) : list ns_condition :=
  match l with
  | [] => [c]
  | x :: l' => if nc_Type x =? nc_Type c then c :: l' else x :: put_ns_condition c l'
  end.

(** [now]: the text of the current time with the given delay. *)
Definition GenerateConditionAnnotation (ann now conditionType conditionStatus message : string) : res string :=
  let? conditions := (if ann =? "" then Ret [] else json_Unmarshal_status ann) in
  let conditionMessage := if conditionStatus =? "True" then "" else message in
  json_Marshal_status (put_ns_condition (mkNsCondition conditionType conditionStatus conditionMessage now) conditions).

Definition SetNamespaceCondition (clock : Z -> string) (ns : Namespace) (d : Z) (conditionType : string) (conditionStatus : bool) (message : string)
  : res Namespace :=
  let? ann := GenerateConditionAnnotation (map_get (ns_Annotations ns) statusAnn) (clock d) conditionType (status_text conditionStatus) message in
  Ret (set_ns_Annotations (<[statusAnn := ann]> (ns_Annotations ns)) ns).

Definition IsNamespaceConditionSet (ns : Namespace) (conditionType : string) (conditionStatus : bool) : res bool :=
  let ann := map_get (ns_Annotations ns) statusAnn in
  if ann =? "" then Ret false
  else
    let? conditions := json_Unmarshal_status ann in
    Ret (List.existsb (fun c => (nc_Type c =? conditionType) && (nc_Status c =? status_text conditionStatus)) conditions).
End conversion.

(** [ref.Parse] *)
Definition ref_FromStrings (namespace name : string) : string := namespace +:+ ":" +:+ name.
Definition ref_Parse (ref : string) : string * string :=
  match SplitN2 ref ":" with
  | [namespace; name] => (namespace, name)
  | name :: _ => ("", name)
  | [] => ("", "")
  end.

(** ** Limits and their maps *)

Lemma map_get_Some (m : gmap string string) k v : m !! k = Some v -> map_get m k = v.
Proof. unfold map_get. by intros ->. Qed.
Lemma map_get_None (m : gmap string string) k : m !! k = None -> map_get m k = "".
Proof. unfold map_get. by intros ->. Qed.

Lemma lookup_omitempty fields k v :
  NoDup (map fst fields) -> omitempty fields !! k = Some v <-> (k, v) ∈ fields /\ v <> "".
Proof.
  intros Hnd. unfold omitempty. rewrite <- elem_of_list_to_map.
  - rewrite elem_of_filter_bool. cbn [snd]. rewrite negb_true_iff, bool_decide_eq_false. done.
  - apply NoDup_map_filter, Hnd.
Qed.

Lemma map_get_omitempty fields k v : NoDup (map fst fields) -> (k, v) ∈ fields -> map_get (omitempty fields) k = v.
Proof.
  intros Hnd Hin. destruct (decide (v = "")) as [->|Hv].
  - apply map_get_None, eq_None_not_Some. intros [x [Hx Hn]%lookup_omitempty]; [|done].
    apply Hn. revert Hin Hx. clear Hn. induction fields as [|[k' y] l IH]; simpl in *; [by intros ?%elem_of_nil|].
    apply NoDup_cons in Hnd as [Hk Hnd].
    assert (forall z, (k', z) ∈ l -> False) as Hno.
    { intros z Hz. apply Hk. apply list_elem_of_In, in_map_iff. exists (k', z). by rewrite <- list_elem_of_In. }
    intros [[= <- <-]|Hl]%elem_of_cons [[= ->]|Hr]%elem_of_cons; [done|by apply Hno in Hr|naive_solver|by apply IH].
  - apply map_get_Some, lookup_omitempty; done.
Qed.

Lemma limit_fields_NoDup l : NoDup (map fst (limit_fields l)).
Proof. cbn. apply (bool_decide_unpack _). vm_compute. done. Qed.
Lemma container_fields_NoDup l : NoDup (map fst (container_fields l)).
Proof. cbn. apply (bool_decide_unpack _). vm_compute. done. Qed.
#[export] Hint Resolve limit_fields_NoDup container_fields_NoDup : planner.

(** Encoding loses nothing. *)
Lemma limit_of_map l : limit_of (limit_map l) = l.
Proof.
  unfold limit_of, limit_map. destruct l; f_equal; (apply map_get_omitempty; [apply limit_fields_NoDup|cbn; repeat (first [by left|right])]).
Qed.

Lemma limit_map_inj l1 l2 : limit_map l1 = limit_map l2 -> l1 = l2.
Proof. intros Hl. by rewrite <- (limit_of_map l1), Hl, limit_of_map. Qed.

(** The entries of a limit are named by its fields, and none is empty. *)
Lemma limit_map_names l k v : limit_map l !! k = Some v -> k ∈ limit_names /\ v <> "".
Proof.
  intros [Hin Hv]%lookup_omitempty; [|apply limit_fields_NoDup]. split; [|done].
  change limit_names with ((limit_fields l).*1). by apply (list_elem_of_fmap_2 fst) in Hin.
Qed.

Lemma limit_map_of (m : gmap string string) k :
  limit_map (limit_of m) !! k = if bool_decide (k ∈ limit_names) then m !! k ≫= (fun v => if v =? "" then None else Some v) else None.
Proof.
  apply option_eq. intros v. unfold limit_map. rewrite lookup_omitempty by apply limit_fields_NoDup.
  change (limit_fields (limit_of m)) with ((fun k => (k, map_get m k)) <$> limit_names). rewrite list_elem_of_fmap.
  unfold map_get. case_bool_decide as Hk; [|naive_solver]. destruct (m !! k) as [x|] eqn:Em; cbn; [case_bool_decide as Hx|].
  - split; [|done]. intros [(y & [= -> ->] & _) Hv]. by rewrite Em in Hv.
  - split; [intros [(y & [= -> ->] & _) Hv]; by rewrite Em|]. intros [= <-]. split; [|done]. exists k. by rewrite Em.
  - split; [|done]. intros [(y & [= -> ->] & _) Hv]. by rewrite Em in Hv.
Qed.

(** A map that holds fields only, none of them empty, is kept. *)
Lemma limit_map_of_id (m : gmap string string) :
  (forall k v, m !! k = Some v -> k ∈ limit_names /\ v <> "") -> limit_map (limit_of m) = m.
Proof.
  intros Hm. apply map_eq. intros k. rewrite limit_map_of. destruct (m !! k) as [v|] eqn:E; cbn.
  - apply Hm in E as [Hk Hv]. by rewrite bool_decide_eq_true_2, bool_decide_eq_false_2.
  - by case_bool_decide.
Qed.

(** Kubernetes has a name of its own for every field. *)
Lemma native_inj k1 k2 : k1 ∈ limit_names -> k2 ∈ limit_names -> native k1 = native k2 -> k1 = k2.
Proof.
  assert (Forall (fun a => Forall (fun b => native a = native b -> a = b) limit_names) limit_names) as Hf.
  { apply (bool_decide_unpack _). vm_compute. done. }
  intros H1 H2. rewrite Forall_forall in Hf. specialize (Hf k1 H1). rewrite Forall_forall in Hf. by apply Hf.
Qed.

(** ** Amounts *)

Section amounts.
Context `{L : QuotaLib} `{!QuotaLaws}.

Definition text_amount (v : string) : option Z := match ParseQuantity v with Ret q => Some (amount q) | _ => None end.
(** What a limit says about a resource. *)
Definition limit_amount (l : option ResourceQuotaLimit) (k : string) : option Z := limit_ptr_map l !! k ≫= text_amount.
(** Every entry is a quantity. *)
Definition wf_limit (l : option ResourceQuotaLimit) : Prop := forall k v, limit_ptr_map l !! k = Some v -> is_Some (text_amount v).
(** What the namespaces ask for together. *)
Definition sum_amounts (ls : list (option ResourceQuotaLimit)) (k : string) : option Z :=
  foldr (fun l acc => add_amounts (limit_amount l k) acc) None ls.

Lemma text_amount_Some v a : text_amount v = Some a <-> exists q, ParseQuantity v = Ret q /\ amount q = a.
Proof. unfold text_amount. destruct (ParseQuantity v); naive_solver. Qed.

Lemma add_amounts_assoc a b c : add_amounts a (add_amounts b c) = add_amounts (add_amounts a b) c.
Proof. destruct a, b, c; cbn; try done. by rewrite Z.add_assoc. Qed.
Lemma add_amounts_comm a b : add_amounts a b = add_amounts b a.
Proof. destruct a, b; cbn; try done. by rewrite Z.add_comm. Qed.
Lemma add_amounts_None_l a : add_amounts None a = a.
Proof. by destruct a. Qed.
Lemma default_add_amounts a b : default 0 (add_amounts a b) = default 0 a + default 0 b.
Proof. destruct a, b; cbn; lia. Qed.

Lemma sum_amounts_perm ls1 ls2 k : ls1 ≡ₚ ls2 -> sum_amounts ls1 k = sum_amounts ls2 k.
Proof.
  induction 1 as [|x l1 l2 _ IH|x y l|l1 l2 l3 _ IH1 _ IH2]; cbn; [done|by f_equal| |congruence].
  fold (sum_amounts l k). rewrite !add_amounts_assoc. f_equal. apply add_amounts_comm.
Qed.

Lemma parse_from_Ret f order acc r :
  NoDup (map (fun kv => f (fst kv)) order) -> parse_from f order acc = Ret r ->
  (forall k v, (k, v) ∈ order -> exists q, ParseQuantity v = Ret q /\ r !! f k = Some q)
  /\ forall j, (forall k v, (k, v) ∈ order -> f k <> j) -> r !! j = acc !! j.
Proof.
  revert acc. induction order as [|[k v] order IH]; intros acc; cbn [map fst parse_from].
  - intros _ [= <-]. split; [by intros ?? ?%elem_of_nil|done].
  - intros [Hk Hnd]%NoDup_cons Hr. res_inv. apply IH in Hr as [Hin Hout]; [|done].
    assert (forall k' v', (k', v') ∈ order -> f k' <> f k) as Hne.
    { intros k' v' Hkv Hf. apply Hk. apply list_elem_of_In, in_map_iff. exists (k', v'). by rewrite <- list_elem_of_In. }
    split.
    + intros k' v' [[= -> ->]|Hl]%elem_of_cons; [|by apply Hin]. exists a. split; [done|]. rewrite Hout by done. apply lookup_insert_eq.
    + intros j Hj. rewrite Hout; [|intros k' v' Hkv; apply (Hj k' v'); by right]. apply lookup_insert_ne. apply (Hj k v). by left.
Qed.

Lemma parse_from_total f order acc : (forall k v, (k, v) ∈ order -> is_Some (text_amount v)) -> exists r, parse_from f order acc = Ret r.
Proof.
  revert acc. induction order as [|[k v] order IH]; intros acc Hp; cbn; [eauto|].
  destruct (Hp k v) as [a (q & -> & _)%text_amount_Some]; [by left|]. cbn. apply IH. intros ???. eapply Hp. by right.
Qed.

Lemma elem_of_range (m : gmap string string) k v : (k, v) ∈ map_range m <-> m !! k = Some v.
Proof. by rewrite map_range_perm, elem_of_map_to_list. Qed.

Lemma NoDup_range (f : string -> string) (m : gmap string string) :
  (forall k1 k2, is_Some (m !! k1) -> is_Some (m !! k2) -> f k1 = f k2 -> k1 = k2) -> NoDup (map (fun kv => f (fst kv)) (map_range m)).
Proof.
  intros Hf. rewrite map_range_perm. assert (NoDup (map_to_list m).*1) as Hnd by apply NoDup_fst_map_to_list.
  assert (forall kv, kv ∈ map_to_list m -> is_Some (m !! fst kv)) as Hm by (intros [k v] ?%elem_of_map_to_list; eauto).
  induction (map_to_list m) as [|[k v] l IH]; cbn in *; [constructor|]. apply NoDup_cons in Hnd as [Hk Hnd]. apply NoDup_cons. split.
  - intros ([k' v'] & Ef & Hin)%list_elem_of_In%in_map_iff. cbn in Ef. apply list_elem_of_In in Hin.
    apply Hf in Ef; [|apply (Hm (k', v')); by right|apply (Hm (k, v)); by left]. subst k'. apply Hk.
    apply (list_elem_of_fmap_2 fst) in Hin. done.
  - apply IH; [done|]. intros kv ?. apply Hm. by right.
Qed.

(** The result of a conversion, by the amounts. *)
Lemma parse_range_amount f (m : gmap string string) r :
  (forall k1 k2, is_Some (m !! k1) -> is_Some (m !! k2) -> f k1 = f k2 -> k1 = k2) ->
  parse_from f (map_range m) ∅ = Ret r ->
  (forall k v, m !! k = Some v -> is_Some (text_amount v) /\ amount <$> r !! f k = text_amount v)
  /\ forall j, (forall k, is_Some (m !! k) -> f k <> j) -> r !! j = None.
Proof.
  intros Hf [Hin Hout]%parse_from_Ret; [|by apply NoDup_range]. split.
  - intros k v Hv. destruct (Hin k v) as (q & Hq & Hr); [by apply elem_of_range|]. unfold text_amount. rewrite Hq, Hr. cbn. eauto.
  - intros j Hj. rewrite Hout; [done|]. intros k v Hkv%elem_of_range. eauto.
Qed.

Lemma Convert_Ret l r : ConvertLimitToResourceList l = Ret r -> wf_limit l /\ forall k, amount <$> r !! k = limit_amount l k.
Proof.
  unfold ConvertLimitToResourceList, wf_limit, limit_amount. intros [Hin Hout]%parse_range_amount; [|done]. split.
  - intros k v Hv. by apply (Hin k v).
  - intros k. destruct (limit_ptr_map l !! k) as [v|] eqn:E; cbn; [by apply (Hin k v)|].
    rewrite Hout; [done|]. intros k' [v' Hv'] <-. unfold id in E. congruence.
Qed.

Lemma Convert_total l : wf_limit l -> exists r, ConvertLimitToResourceList l = Ret r.
Proof. intros Hl. apply parse_from_total. intros k v Hkv%elem_of_range. by apply (Hl k). Qed.

Lemma add_limits_Ret ls acc r :
  add_limits ls acc = Ret r -> Forall wf_limit ls /\ forall k, amount <$> r !! k = add_amounts (amount <$> acc !! k) (sum_amounts ls k).
Proof.
  revert acc. induction ls as [|l ls IH]; intros acc; cbn; [intros [= <-]; split; [constructor|]; intros k; by rewrite add_amounts_comm, add_amounts_None_l|].
  intros Hr. res_inv. apply IH in Hr as [Hw Hs]. apply Convert_Ret in Ha as [Hl Ha]. split; [by constructor|].
  intros k. by rewrite Hs, Add_amount, Ha, <- add_amounts_assoc.
Qed.

Lemma add_limits_total ls acc : Forall wf_limit ls -> exists r, add_limits ls acc = Ret r.
Proof.
  revert acc. induction ls as [|l ls IH]; intros acc Hw; cbn; [eauto|]. apply Forall_cons in Hw as [[rl Hl]%Convert_total Hw].
  rewrite Hl. cbn. by apply IH.
Qed.

(** A resource for which the share does not fit. *)
Definition violates (own : option ResourceQuotaLimit) (others : list (option ResourceQuotaLimit)) (project : option ResourceQuotaLimit) (k : string) : Prop :=
  (exists x p, sum_amounts (own :: others) k = Some x /\ limit_amount project k = Some p /\ p < x)
  \/ exists a, limit_amount own k = Some a /\ a < 0.

Lemma violates_present own others project k : violates own others project k -> is_Some (sum_amounts (own :: others) k).
Proof. intros [(x & _ & Hx & _)|(a & Ha & _)]; [eauto|]. cbn. rewrite Ha. destruct (foldr _ _ _); cbn; eauto. Qed.

Lemma IsQuotaFit_Ret own others project fit exceeded :
  IsQuotaFit own others project = Ret (fit, exceeded) ->
  wf_limit own /\ Forall wf_limit others /\ wf_limit project
  /\ (fit = true <-> forall k, ~ violates own others project k)
  /\ (fit = true -> exceeded = None)
  /\ (fit = false -> exists e, exceeded = Some e
        /\ forall k, (violates own others project k -> amount <$> e !! k = sum_amounts (own :: others) k)
                     /\ (is_Some (e !! k) -> violates own others project k)).
Proof.
  unfold IsQuotaFit. intros Hr. res_inv. apply Convert_Ret in Ha as [Hw1 H1], Ha1 as [Hw3 H3]. apply add_limits_Ret in Ha0 as [Hw2 H2].
  assert (forall k, amount <$> a0 !! k = sum_amounts (own :: others) k) as Hsum.
  { intros k. by rewrite H2, Add_amount, lookup_empty, H1, add_amounts_None_l. }
  set (names := quota_LessThanOrEqual a0 a1 ++ quota_IsNegative a) in Hr.
  assert (forall k, k ∈ names <-> violates own others project k) as Hnames.
  { intros k. unfold names. rewrite elem_of_app, LessThanOrEqual_spec, IsNegative_spec. unfold violates. f_equiv.
    - split.
      + intros (x & y & Hx & Hy & Hlt). exists (amount x), (amount y). by rewrite <- Hsum, <- H3, Hx, Hy.
      + intros (x & p & Hx & Hp & Hlt). rewrite <- Hsum, fmap_Some in Hx. rewrite <- H3, fmap_Some in Hp. naive_solver.
    - rewrite <- H1. setoid_rewrite fmap_Some. naive_solver. }
  do 3 (split; [done|]). case_bool_decide as Hn; inv Hr.
  - split; [|done]. split; [|done]. intros _ k Hv%Hnames. rewrite Hn in Hv. by apply elem_of_nil in Hv.
  - split; [|split; [done|]].
    + split; [done|]. intros Hk. destruct names as [|k names]; [done|]. destruct (Hk k). apply Hnames. by left.
    + intros _. eexists. split; [done|]. intros k. rewrite Mask_spec, <- Hnames. case_decide; [split; [by rewrite Hsum|done]|split; [done|by intros []]].
Qed.

Lemma IsQuotaFit_total own others project :
  wf_limit own -> Forall wf_limit others -> wf_limit project -> exists fit exceeded, IsQuotaFit own others project = Ret (fit, exceeded).
Proof.
  intros [r1 H1]%Convert_total H2 [r3 H3]%Convert_total. unfold IsQuotaFit. rewrite H1. cbn [res_bind].
  destruct (add_limits_total others (quota_Add ∅ r1) H2) as [r2 ->]. cbn [res_bind]. rewrite H3. cbn [res_bind]. case_bool_decide; eauto.
Qed.

(** The native list of a limit. *)
Lemma convertSpec_Ret l r :
  convertResourceLimitResourceQuotaSpec l = Ret r ->
  wf_limit (Some l) /\ (forall k, k ∈ limit_names -> amount <$> r !! native k = limit_amount (Some l) k)
  /\ forall j q, r !! j = Some q -> exists k, k ∈ limit_names /\ native k = j.
Proof.
  unfold convertResourceLimitResourceQuotaSpec, convertProjectResourceLimitToResourceList. intros [Hin Hout]%parse_range_amount.
  - split; [intros k v Hv; by apply (Hin k v)|]. split.
    + intros k Hk. unfold limit_amount, limit_ptr_map. destruct (limit_map l !! k) as [v|] eqn:E; cbn; [by apply (Hin k v)|].
      rewrite Hout; [done|]. intros k' [v' Hv'] Hkk. assert (k' = k) as ->; [|congruence]. apply native_inj; [|done..]. by eapply limit_map_names.
    + intros j q Hj. destruct (decide (Exists (fun kv => native (fst kv) = j) (map_to_list (limit_map l)))) as [He|Hn].
      * apply Exists_exists in He as ([k v] & Hkv%elem_of_map_to_list & Hj'). exists k. split; [by eapply limit_map_names|done].
      * rewrite Hout in Hj; [done|]. intros k [v Hv] Hj'. apply Hn. apply Exists_exists. exists (k, v). by rewrite elem_of_map_to_list.
  - intros k1 k2 [v1 H1%limit_map_names] [v2 H2%limit_map_names]. apply native_inj; naive_solver.
Qed.

Lemma convertSpec_total l : wf_limit (Some l) -> exists r, convertResourceLimitResourceQuotaSpec l = Ret r.
Proof. intros Hl. apply parse_from_total. intros k v Hkv%elem_of_range. by apply (Hl k). Qed.
End amounts.
