(* ===== verification/QuotaSync.v ===== *)
(** * Resource quotas: the controllers ([managementuser/resourcequota])

    For every namespace of a project there is a quota of Kubernetes and a limit range with what the namespace asks for, as
    far as the project allows it; the project records what its namespaces use together. *)

From S2P Require Import Prelude GoLib Errors Types World Quota.

Definition projectIDAnnotation : string := "field.cattle.io/projectId".
Definition resourceQuotaLabel : string := "resourcequota.management.cattle.io/default-resource-quota".
Definition resourceQuotaAnnotation : string := "field.cattle.io/resourceQuota".
Definition limitRangeAnnotation : string := "field.cattle.io/containerDefaultResourceLimit".
Definition ResourceQuotaValidatedCondition : string := "ResourceQuotaValidated".
Definition ResourceQuotaInitCondition : string := "ResourceQuotaInit".

(** ** State *)

Record ResourceQuota `{QuotaLib} := mkResourceQuota {
  q_Namespace : string;
  q_Name : string;
  q_ResourceVersion : Z;
  q_Labels : gmap string string;
  q_Hard : gmap string Quantity
}.
#[global] Arguments mkResourceQuota {_} _ _ _ _ _.

Record LimitRange `{QuotaLib} := mkLimitRange {
  lr_Namespace : string;
  lr_Name : string;
  lr_ResourceVersion : Z;
  lr_Labels : gmap string string;
  lr_Limits : list LimitRangeItem
}.
#[global] Arguments mkLimitRange {_} _ _ _ _ _.

(** The objects behind the API servers, the schedule of failures, the suffixes of generated names, the clock (the text of
    the time a given number of seconds from now), and the namespaces that were enqueued. *)
Record QWorld `{QuotaLib} := mkQWorld {
  qw_namespaces : gmap string Namespace;
  qw_quotas : gmap (string * string) ResourceQuota;
  qw_limitRanges : gmap (string * string) LimitRange;
  qw_projects : gmap (string * string) Project;
  qw_faults : list (option error);
  qw_suffixes : list string;
  qw_clock : Z -> string;
  qw_enqueued : list string
}.
#[global] Arguments mkQWorld {_} _ _ _ _ _ _ _ _.

(** What the controllers read from their caches: objects by label, the projects of the cluster, and the namespaces with a
    given project. *)
Class QuotaCaches `{QuotaLib} := {
  resourceQuotaLister_List : string -> gmap string string -> res (list ResourceQuota);
  limitRangeLister_List : string -> gmap string string -> res (list LimitRange);
  projectLister_Get : string -> string -> res Project;
  nsIndexer_ByIndex : string -> res (list Namespace)
}.

(** The keys of a namespace in the index. *)
Definition nsByProjectID (ns : Namespace) : list string := match ns_Annotations ns !! projectIDAnnotation with Some id => [id] | None => [] end.

Section controllers.
Context `{L : QuotaLib}.

Definition QM (A : Type) : Type := ST QWorld A.

Definition set_qw_namespaces (v : gmap string Namespace) (w : QWorld) : QWorld :=
  mkQWorld v (qw_quotas w) (qw_limitRanges w) (qw_projects w) (qw_faults w) (qw_suffixes w) (qw_clock w) (qw_enqueued w).
Definition set_qw_quotas (v : gmap (string * string) ResourceQuota) (w : QWorld) : QWorld :=
  mkQWorld (qw_namespaces w) v (qw_limitRanges w) (qw_projects w) (qw_faults w) (qw_suffixes w) (qw_clock w) (qw_enqueued w).
Definition set_qw_limitRanges (v : gmap (string * string) LimitRange) (w : QWorld) : QWorld :=
  mkQWorld (qw_namespaces w) (qw_quotas w) v (qw_projects w) (qw_faults w) (qw_suffixes w) (qw_clock w) (qw_enqueued w).
Definition set_qw_projects (v : gmap (string * string) Project) (w : QWorld) : QWorld :=
  mkQWorld (qw_namespaces w) (qw_quotas w) (qw_limitRanges w) v (qw_faults w) (qw_suffixes w) (qw_clock w) (qw_enqueued w).
Definition set_qw_faults (v : list (option error)) (w : QWorld) : QWorld :=
  mkQWorld (qw_namespaces w) (qw_quotas w) (qw_limitRanges w) (qw_projects w) v (qw_suffixes w) (qw_clock w) (qw_enqueued w).
Definition set_qw_suffixes (v : list string) (w : QWorld) : QWorld :=
  mkQWorld (qw_namespaces w) (qw_quotas w) (qw_limitRanges w) (qw_projects w) (qw_faults w) v (qw_clock w) (qw_enqueued w).
Definition set_qw_enqueued (v : list string) (w : QWorld) : QWorld :=
  mkQWorld (qw_namespaces w) (qw_quotas w) (qw_limitRanges w) (qw_projects w) (qw_faults w) (qw_suffixes w) (qw_clock w) v.

(** ** Requests

    The server refuses an update of an object that has changed since it was read; an update that changes nothing keeps the
    version. *)

Definition q_request : QM unit := fun w =>
  match qw_faults w with
  | [] => (w, Ret tt)
  | None :: fs => (set_qw_faults fs w, Ret tt)
  | Some e :: fs => (set_qw_faults fs w, Fail e)
  end.
Definition conflict (kind name : string) : error :=
  StatusError ReasonConflict ("Operation cannot be fulfilled on " +:+ kind +:+ " " +:+ name).
Definition generated_name : QM string := fun w =>
  match qw_suffixes w with
  | [] => (w, Fail (StatusError ReasonOther "cannot generate a name"))
  | s :: ss => (set_qw_suffixes ss w, Ret ("default-" +:+ s))
  end.

Definition namespaces_Update (ns : Namespace) : QM Namespace :=
  let* _ := q_request in
  let* nss := gets qw_namespaces in
  match nss !! ns_Name ns with
  | None => fail (not_found "namespaces" (ns_Name ns))
  | Some cur =>
      if negb (ns_ResourceVersion cur =? ns_ResourceVersion ns)%Z then fail (conflict "namespaces" (ns_Name ns))
      else if bool_decide (ns = cur) then ret cur
      else
        let new := mkNamespace (ns_Name ns) (ns_ResourceVersion ns + 1) (ns_Annotations ns) (ns_Deleting ns) in
        let* _ := modify (set_qw_namespaces (<[ns_Name ns := new]> nss)) in ret new
  end.

Definition resourceQuotas_Create (namespace : string) (labels : gmap string string) (hard : ResourceList) : QM unit :=
  let* _ := q_request in
  let* name := generated_name in
  let* qs := gets qw_quotas in
  match qs !! (namespace, name) with
  | Some _ => fail (already_exists "resourcequotas" name)
  | None => modify (set_qw_quotas (<[(namespace, name) := mkResourceQuota namespace name 1 labels hard]> qs))
  end.
Definition resourceQuotas_Update (q : ResourceQuota) : QM unit :=
  let* _ := q_request in
  let* qs := gets qw_quotas in
  match qs !! (q_Namespace q, q_Name q) with
  | None => fail (not_found "resourcequotas" (q_Name q))
  | Some cur =>
      if negb (q_ResourceVersion cur =? q_ResourceVersion q)%Z then fail (conflict "resourcequotas" (q_Name q))
      else modify (set_qw_quotas (<[(q_Namespace q, q_Name q) :=
                     mkResourceQuota (q_Namespace q) (q_Name q) (q_ResourceVersion q + 1) (q_Labels q) (q_Hard q)]> qs))
  end.
Definition resourceQuotas_Delete (namespace name : string) : QM unit :=
  let* _ := q_request in
  let* qs := gets qw_quotas in
  match qs !! (namespace, name) with
  | None => fail (not_found "resourcequotas" name)
  | Some _ => modify (set_qw_quotas (delete (namespace, name) qs))
  end.

Definition limitRange_Create (namespace : string) (labels : gmap string string) (limits : list LimitRangeItem) : QM unit :=
  let* _ := q_request in
  let* name := generated_name in
  let* ls := gets qw_limitRanges in
  match ls !! (namespace, name) with
  | Some _ => fail (already_exists "limitranges" name)
  | None => modify (set_qw_limitRanges (<[(namespace, name) := mkLimitRange namespace name 1 labels limits]> ls))
  end.
Definition limitRange_Update (r : LimitRange) : QM unit :=
  let* _ := q_request in
  let* ls := gets qw_limitRanges in
  match ls !! (lr_Namespace r, lr_Name r) with
  | None => fail (not_found "limitranges" (lr_Name r))
  | Some cur =>
      if negb (lr_ResourceVersion cur =? lr_ResourceVersion r)%Z then fail (conflict "limitranges" (lr_Name r))
      else modify (set_qw_limitRanges (<[(lr_Namespace r, lr_Name r) :=
                     mkLimitRange (lr_Namespace r) (lr_Name r) (lr_ResourceVersion r + 1) (lr_Labels r) (lr_Limits r)]> ls))
  end.
Definition limitRange_Delete (namespace name : string) : QM unit :=
  let* _ := q_request in
  let* ls := gets qw_limitRanges in
  match ls !! (namespace, name) with
  | None => fail (not_found "limitranges" name)
  | Some _ => modify (set_qw_limitRanges (delete (namespace, name) ls))
  end.

Definition projects_Update (p : Project) : QM unit :=
  let* _ := q_request in
  let* ps := gets qw_projects in
  match ps !! (pj_Namespace p, pj_Name p) with
  | None => fail (not_found "projects" (pj_Name p))
  | Some cur =>
      if negb (pj_ResourceVersion cur =? pj_ResourceVersion p)%Z then fail (conflict "projects" (pj_Name p))
      else if bool_decide (p = cur) then ret tt
      else modify (set_qw_projects (<[(pj_Namespace p, pj_Name p) :=
                     mkProject (pj_Namespace p) (pj_Name p) (pj_ResourceVersion p + 1) (pj_Deleting p) (pj_ResourceQuota p)
                       (pj_NamespaceDefaultResourceQuota p) (pj_ContainerDefaultResourceLimit p)]> ps))
  end.

(** ** Annotations and projects ([resource_quota_common.go]) *)

Definition getNamespaceResourceQuota (ns : Namespace) : string := map_get (ns_Annotations ns) resourceQuotaAnnotation.
Definition getNamespaceContainerDefaultResourceLimit (ns : Namespace) : string := map_get (ns_Annotations ns) limitRangeAnnotation.
Definition getProjectID (ns : Namespace) : string := map_get (ns_Annotations ns) projectIDAnnotation.

Definition getNamespaceResourceQuotaLimit (ns : Namespace) : res (option ResourceQuotaLimit) :=
  let value := getNamespaceResourceQuota ns in
  if value =? "" then Ret None
  else let? nsQuota := json_Unmarshal_quota value in Ret (Some (nq_Limit nsQuota)).
Definition getNamespaceContainerResourceLimit (ns : Namespace) : res (option ContainerResourceLimit) :=
  let value := getNamespaceContainerDefaultResourceLimit ns in
  if (value =? "") || (value =? "null") then Ret None
  else let? nsLimit := json_Unmarshal_containerLimit value in Ret (Some nsLimit).

Section sync.
Context `{C : !QuotaCaches}.

(** The project of a namespace, if it is known here. *)
Definition project_of (ns : Namespace) : res (option Project) :=
  let projectID := getProjectID ns in
  if projectID =? "" then Ret None
  else
    let '(projectNamespace, projectName) := ref_Parse projectID in
    if projectName =? "" then Ret None
    else match projectLister_Get projectNamespace projectName with
         | Ret p => Ret (Some p)
         | Fail err => if IsNotFound err then Ret None else Fail err
         | Panic => Panic
         end.

Definition getProjectResourceQuotaLimit (ns : Namespace) : res (option ResourceQuotaLimit * string) :=
  let? project := project_of ns in
  match project with
  | None => Ret (None, "")
  | Some p => match pj_ResourceQuota p with None => Ret (None, "") | Some q => Ret (Some (pq_Limit q), getProjectID ns) end
  end.
Definition getProjectNamespaceDefaultQuota (ns : Namespace) : res (option NamespaceResourceQuota) :=
  let? project := project_of ns in
  match project with
  | None => Ret None
  | Some p => match pj_ResourceQuota p with None => Ret None | Some _ => Ret (pj_NamespaceDefaultResourceQuota p) end
  end.
Definition getProjectContainerDefaultLimit (ns : Namespace) : res (option ContainerResourceLimit) :=
  let? project := project_of ns in
  match project with None => Ret None | Some p => Ret (pj_ContainerDefaultResourceLimit p) end.

(** ** What a namespace gets *)

(** The entries of [requested] replace those of [acc] that are there. *)
Fixpoint override_from (order : list (string * string)) (acc : gmap string string) : gmap string string :=
  match order with
  | [] => acc
  | (key, v) :: rest => override_from rest (match acc !! key with Some _ => <[key := v]> acc | None => acc end)
  end.

Definition completeQuota (requestedQuota defaultQuota : ResourceQuotaLimit) : ResourceQuotaLimit :=
  limit_of (override_from (map_range (limit_map requestedQuota)) (limit_map defaultQuota)).

Definition completeLimit (existingLimit : ContainerResourceLimit) (defaultLimit : option ContainerResourceLimit) : option ContainerResourceLimit :=
  match defaultLimit with
  | None => None
  | Some defaultLimit =>
      let newLimitMap := override_from (map_range (container_map existingLimit)) (container_map defaultLimit) in
      if bool_decide (container_map existingLimit = newLimitMap) then None else Some (container_of newLimitMap)
  end.

Definition zeroOutResourceQuotaLimit (limit : ResourceQuotaLimit) (exceeded : ResourceList) : ResourceQuotaLimit :=
  limit_of (((fun _ => "0") <$> exceeded) ∪ limit_map limit).

(** The limit of the namespace with its [Hard] list. *)
Definition deriveRequestedResourceQuota (ns : Namespace) : res (option (ResourceQuotaLimit * ResourceList)) :=
  let? requested := getNamespaceResourceQuotaLimit ns in
  let? defaultQuota := getProjectNamespaceDefaultQuota ns in
  match defaultQuota with
  | None => Ret None
  | Some d =>
      let quotaLimit := match requested with None => nq_Limit d | Some r => completeQuota r (nq_Limit d) end in
      let? newQuotaSpec := convertResourceLimitResourceQuotaSpec quotaLimit in
      Ret (Some (quotaLimit, newQuotaSpec))
  end.

Definition getExistingResourceQuota (ns : Namespace) : res (option ResourceQuota) :=
  let? quota := resourceQuotaLister_List (ns_Name ns) {[ resourceQuotaLabel := "true" ]} in Ret (head quota).
Definition getExistingLimitRange (ns : Namespace) : res (option LimitRange) :=
  let? ranges := limitRangeLister_List (ns_Name ns) {[ resourceQuotaLabel := "true" ]} in Ret (head ranges).

Fixpoint limits_of_others (name : string) (objects : list Namespace) : res (list (option ResourceQuotaLimit)) :=
  match objects with
  | [] => Ret []
  | other :: rest =>
      if ns_Name other =? name then limits_of_others name rest
      else
        let? nsLimit := getNamespaceResourceQuotaLimit other in
        let? nsLimits := limits_of_others name rest in
        Ret (nsLimit :: nsLimits)
  end.
Definition getNamespacesLimits (ns : Namespace) (projectID : string) : res (list (option ResourceQuotaLimit)) :=
  let? objects := nsIndexer_ByIndex projectID in limits_of_others (ns_Name ns) objects.

(** ** The quota of a namespace ([resource_quota_sync.go]) *)

Definition setValidated (ns : Namespace) (value : bool) (msg : string) : QM Namespace :=
  let* clock := gets qw_clock in
  let* toUpdate := lift (SetNamespaceCondition clock ns 1 ResourceQuotaValidatedCondition value msg) in
  namespaces_Update toUpdate.

(** The request is recorded before it is validated. *)
Definition validateAndSetNamespaceQuota (ns : Namespace) (quotaToUpdate : NamespaceResourceQuota) : QM (bool * Namespace * option ResourceList) :=
  if ns_Deleting ns then ret (true, ns, None)
  else
    let* '(projectLimit, projectID) := lift (getProjectResourceQuotaLimit ns) in
    match projectLimit with
    | None => ret (true, ns, None)
    | Some limit =>
        let* b := lift (json_Marshal_quota quotaToUpdate) in
        let* updatedNs := namespaces_Update (set_ns_Annotations (<[resourceQuotaAnnotation := b]> (ns_Annotations ns)) ns) in
        let* nsLimits := lift (getNamespacesLimits ns projectID) in
        let* '(isFit, exceeded) := lift (IsQuotaFit (Some (nq_Limit quotaToUpdate)) nsLimits (Some limit)) in
        let msg := match exceeded with
                   | Some e => if isFit then "" else "Resource quota [" +:+ FormatResourceList e +:+ "] exceeds project limit"
                   | None => ""
                   end in
        let* validated := setValidated updatedNs isFit msg in
        ret (isFit, validated, exceeded)
    end.

Definition createResourceQuota (ns : Namespace) (spec : ResourceList) : QM unit :=
  resourceQuotas_Create (ns_Name ns) {[ resourceQuotaLabel := "true" ]} spec.
Definition updateResourceQuota (quota : ResourceQuota) (spec : ResourceList) : QM unit :=
  resourceQuotas_Update (mkResourceQuota (q_Namespace quota) (q_Name quota) (q_ResourceVersion quota) (q_Labels quota) spec).
Definition deleteResourceQuota (quota : ResourceQuota) : QM unit := resourceQuotas_Delete (q_Namespace quota) (q_Name quota).

Inductive quota_operation :=
| op_none
| op_create (limit : ResourceQuotaLimit) (spec : ResourceList)
| op_update (existing : ResourceQuota) (limit : ResourceQuotaLimit) (spec : ResourceList)
| op_delete (existing : ResourceQuota).

Definition choose_operation (existing : option ResourceQuota) (derived : option (ResourceQuotaLimit * ResourceList)) : quota_operation :=
  let wanted := match derived with Some (limit, spec) => if bool_decide (map_size spec = 0%nat) then None else Some (limit, spec) | None => None end in
  match existing, wanted with
  | None, None => op_none
  | None, Some (limit, spec) => op_create limit spec
  | Some q, None => op_delete q
  | Some q, Some (limit, spec) => if Semantic_DeepEqual (q_Hard q) spec then op_none else op_update q limit spec
  end.

(** The namespace to go on with, when it is not the one given: only a share that was refused on an update hands on the
    namespace that was written; elsewhere the variable of the source is shadowed, or never assigned. *)
Definition perform_operation (ns : Namespace) (op : quota_operation) : QM (option Namespace) :=
  match op with
  | op_none => ret None
  | op_create limit spec =>
      let* '(isFit, _, exceeded) := validateAndSetNamespaceQuota ns (mkNamespaceQuota limit) in
      let* spec := (if isFit then ret spec
                    else lift (convertResourceLimitResourceQuotaSpec (zeroOutResourceQuotaLimit limit (default ∅ exceeded)))) in
      let* _ := createResourceQuota ns spec in ret None
  | op_update existing limit spec =>
      let* '(isFit, upd, _) := validateAndSetNamespaceQuota ns (mkNamespaceQuota limit) in
      if isFit then let* _ := updateResourceQuota existing spec in ret None
      else ret (Some upd)
  | op_delete existing =>
      let* _ := namespaces_Update (set_ns_Annotations (delete resourceQuotaAnnotation (ns_Annotations ns)) ns) in
      let* _ := deleteResourceQuota existing in ret None
  end.

(** An error of [SetNamespaceCondition] is ignored. *)
Definition CreateResourceQuota (ns : Namespace) : QM Namespace :=
  let* existing := lift (getExistingResourceQuota ns) in
  let* derived := lift (deriveRequestedResourceQuota ns) in
  let* updated := perform_operation ns (choose_operation existing derived) in
  let updated := default ns updated in
  let* set := lift (IsNamespaceConditionSet ns ResourceQuotaInitCondition true) in
  if set then ret updated
  else
    let* clock := gets qw_clock in
    match SetNamespaceCondition clock updated 1 ResourceQuotaInitCondition true "" with
    | Ret toUpdate => namespaces_Update toUpdate
    | Fail _ => namespaces_Update updated
    | Panic => panic
    end.

(** ** The limit range of a namespace *)

Definition getResourceLimitToUpdate (ns : Namespace) : res (option (list LimitRangeItem)) :=
  let? nsLimit := getNamespaceContainerResourceLimit ns in
  let? projectLimit := getProjectContainerDefaultLimit ns in
  match nsLimit, projectLimit with
  | Some l, _ => convertPodResourceLimitToLimitRangeSpec (default l (completeLimit l projectLimit))
  | None, Some l => convertPodResourceLimitToLimitRangeSpec l
  | None, None => Ret None
  end.

Definition limitsChanged (existing toUpdate : list LimitRangeItem) : bool :=
  negb (length existing =? length toUpdate)%nat
  || match existing, toUpdate with
     | e :: _, u :: _ => negb (Semantic_DeepEqual (li_DefaultRequest e) (li_DefaultRequest u)) || negb (Semantic_DeepEqual (li_Default e) (li_Default u))
     | _, _ => true
     end.

Definition createDefaultLimitRange (ns : Namespace) (spec : list LimitRangeItem) : QM unit :=
  limitRange_Create (ns_Name ns) {[ resourceQuotaLabel := "true" ]} spec.
Definition updateDefaultLimitRange (limitRange : LimitRange) (spec : list LimitRangeItem) : QM unit :=
  limitRange_Update (mkLimitRange (lr_Namespace limitRange) (lr_Name limitRange) (lr_ResourceVersion limitRange) (lr_Labels limitRange) spec).
Definition deleteDefaultLimitRange (limitRange : LimitRange) : QM unit := limitRange_Delete (lr_Namespace limitRange) (lr_Name limitRange).

Definition createLimitRange (ns : Namespace) : QM unit :=
  let* existing := lift (getExistingLimitRange ns) in
  let* limitRangeSpec := lift (getResourceLimitToUpdate ns) in
  match existing, limitRangeSpec with
  | None, None => ret tt
  | None, Some spec => createDefaultLimitRange ns spec
  | Some r, None => deleteDefaultLimitRange r
  | Some r, Some spec => if limitsChanged (lr_Limits r) spec then updateDefaultLimitRange r spec else ret tt
  end.

Definition syncResourceQuota (ns : option Namespace) : QM unit :=
  match ns with
  | None => ret tt
  | Some ns =>
      if ns_Deleting ns then ret tt
      else let* _ := CreateResourceQuota ns in createLimitRange ns
  end.

(** ** What the namespaces of a project use ([resource_quota_calculate_used.go]) *)

Fixpoint used_from (namespaces : list Namespace) (acc : ResourceList) : res ResourceList :=
  match namespaces with
  | [] => Ret acc
  | ns :: rest =>
      if ns_Deleting ns then used_from rest acc
      else
        let? set := IsNamespaceConditionSet ns ResourceQuotaValidatedCondition true in
        if set then
          let? nsLimit := getNamespaceResourceQuotaLimit ns in
          let? nsResourceList := ConvertLimitToResourceList nsLimit in
          used_from rest (quota_Add acc nsResourceList)
        else used_from rest acc
  end.

(** The comparison with the recorded limit is one of a struct with a pointer, which always differ. *)
Definition calculateProjectResourceQuota (projectID : string) : QM unit :=
  let '(projectNamespace, projectName) := ref_Parse projectID in
  match projectLister_Get projectNamespace projectName with
  | Panic => panic
  | Fail err => if IsNotFound err then ret tt else fail err
  | Ret project =>
      match pj_ResourceQuota project with
      | None => ret tt
      | Some quota =>
          let* namespaces := lift (nsIndexer_ByIndex projectID) in
          let* nssResourceList := lift (used_from namespaces ∅) in
          let limit := convertResourceListToLimit nssResourceList in
          projects_Update (mkProject (pj_Namespace project) (pj_Name project) (pj_ResourceVersion project) (pj_Deleting project)
                             (Some (mkProjectQuota (pq_Limit quota) limit)) (pj_NamespaceDefaultResourceQuota project)
                             (pj_ContainerDefaultResourceLimit project))
      end
  end.

Definition calculateResourceQuotaUsed (ns : option Namespace) : QM unit :=
  match ns with
  | None => ret tt
  | Some ns => if getProjectID ns =? "" then ret tt else calculateProjectResourceQuota (getProjectID ns)
  end.
Definition calculateResourceQuotaUsedProject (clusterName : string) (p : option Project) : QM unit :=
  match p with
  | None => ret tt
  | Some p => if pj_Deleting p then ret tt else calculateProjectResourceQuota (clusterName +:+ ":" +:+ pj_Name p)
  end.

(** ** Changes of a project ([namespace_quota_reset.go], [resource_quota_validate.go]) *)

Definition resetNamespaceQuota (project : option Project) : QM unit :=
  match project with
  | None => ret tt
  | Some project =>
      if pj_Deleting project || bool_decide (is_Some (pj_ResourceQuota project)) then ret tt
      else
        let* namespaces := lift (nsIndexer_ByIndex (pj_Namespace project +:+ ":" +:+ pj_Name project)) in
        for_fold namespaces tt (fun _ ns =>
          if getNamespaceResourceQuota ns =? "" then ret tt
          else
            let* _ := namespaces_Update (set_ns_Annotations (delete resourceQuotaAnnotation (ns_Annotations ns)) ns) in ret tt)
  end.

Definition reconcileNamespaces (p : option Project) : QM unit :=
  match p with
  | None => ret tt
  | Some p =>
      if pj_Deleting p then ret tt
      else
        let* namespaces := lift (nsIndexer_ByIndex (pj_Namespace p +:+ ":" +:+ pj_Name p)) in
        modify (fun w => set_qw_enqueued (qw_enqueued w ++ map ns_Name namespaces) w)
  end.
End sync.
End controllers.
