(* ===== verification/QuotaSafety.v ===== *)
(** * Properties of resource quotas

    The concrete quantities the witnesses are evaluated with, and the theorems on shares, limits and what is used. *)

From Stdlib Require Import DecimalString DecimalZ DecimalFacts.
From S2P Require Import Prelude GoLib Codec Errors Types External Instances World Quota QuotaSync.

(** * Concrete quantities

    Whole numbers as quantities, and a text format in place of JSON: they satisfy the laws of [Quota], and the witnesses of
    the theorems on quotas are evaluated with them.  They are not a model of those libraries. *)

#[local] Instance limit_format : TextFormat ResourceQuotaLimit := format_via limit_map limit_of limit_of_map.
#[local] Instance ns_condition_format : TextFormat ns_condition.
Proof.
  refine (format_via (fun c => (nc_Type c, nc_Status c, nc_Message c, nc_LastUpdateTime c)) (fun '(a, b, c, d) => mkNsCondition a b c d) _). by intros [].
Defined.

Definition whole_text {A} `{TextFormat A} (a : A) : string := String (Ascii.ascii_of_nat 35) (put a "").
Definition from_text {A} `{TextFormat A} (s : string) : res A :=
  match s with
  | String _ t => match get t with Some (a, _) => Ret a | None => Fail (errorString "invalid text") end
  | EmptyString => Fail (errorString "unexpected end of input")
  end.
Lemma from_whole_text {A} `{TextFormat A} (a : A) : from_text (whole_text a) = Ret a.
Proof. unfold from_text, whole_text. by rewrite get_put. Qed.

#[global] Instance whole_numbers : QuotaLib := {|
  Quantity := Z;
  ParseQuantity s := match NilZero.int_of_string s with Some d => Ret (Z.of_int d) | None => Fail (errorString "quantities must match the regular expression") end;
  Quantity_String := Itoa;
  quota_Add a b := union_with (fun x y => Some (x + y)) a b;
  quota_LessThanOrEqual a b :=
    omap (fun kv => match a !! fst kv with Some x => if snd kv <? x then Some (fst kv) else None | None => None end) (map_to_list b);
  quota_IsNegative a := omap (fun kv => if snd kv <? 0 then Some (fst kv) else None) (map_to_list a);
  quota_Mask a ks := filter (fun kv => fst kv ∈ ks) a;
  Semantic_DeepEqual a b := bool_decide (a = b);
  map_range := map_to_list;
  json_Marshal_quota q := Ret (whole_text (nq_Limit q));
  json_Unmarshal_quota s := res_bind (from_text s) (fun l => Ret (mkNamespaceQuota l));
  json_Unmarshal_containerLimit s := res_bind (from_text s) (fun m => Ret (container_of m));
  json_Marshal_status l := Ret (whole_text l);
  json_Unmarshal_status s := from_text s
|}.

Lemma parse_Itoa z : NilZero.int_of_string (Itoa z) = Some (Z.to_int z).
Proof. unfold Itoa. apply NilZero.isi; destruct z; cbn; try done; intros [= Hn]; by apply DecimalPos.Unsigned.to_uint_nonnil in Hn. Qed.

#[global] Instance whole_numbers_laws : QuotaLaws (H := whole_numbers).
Proof.
  refine {| amount := (id : @Quantity whole_numbers -> Z) |}; cbn.
  - done.
  - intros a b k. rewrite !option_fmap_id. apply lookup_union_with.
  - intros a b k. rewrite list_elem_of_omap. split.
    + intros ([j y] & Hj%elem_of_map_to_list & Hk). cbn in Hk. destruct (a !! j) as [x|] eqn:Ea; [|done]. destruct (Z.ltb_spec y x); [|done]. inv Hk. eauto.
    + intros (x & y & Hx & Hy & Hlt). exists (k, y). rewrite elem_of_map_to_list. split; [done|]. cbn. rewrite Hx. unfold id in Hlt. by rewrite (proj2 (Z.ltb_lt y x)).
  - intros a k. rewrite list_elem_of_omap. split.
    + intros ([j y] & Hj%elem_of_map_to_list & Hk). cbn in Hk. destruct (Z.ltb_spec y 0); [|done]. inv Hk. eauto.
    + intros (x & Hx & Hlt). exists (k, x). rewrite elem_of_map_to_list. split; [done|]. cbn. unfold id in Hlt. by rewrite (proj2 (Z.ltb_lt x 0)).
  - intros a ks k. case_decide as Hk.
    + destruct (a !! k) as [x|] eqn:Ea; [by apply map_lookup_filter_Some_2|]. apply map_lookup_filter_None_2. by left.
    + apply map_lookup_filter_None_2. right. by intros x _.
  - intros a b. rewrite bool_decide_eq_true. setoid_rewrite option_fmap_id. split; [by intros ->|apply map_eq].
  - intros q. exists q. by rewrite parse_Itoa, of_to.
  - by exists 0.
  - apply Itoa_nonempty.
  - intros [q]. eexists. split; [done|]. split; [done|]. by rewrite from_whole_text.
  - intros l. eexists. split; [done|]. split; [done|]. apply from_whole_text.
Defined.

(** ** A project with two namespaces

    The project allows ten pods, and gives three to a namespace that asks for nothing.  The namespace [a] has asked for
    five; [b] is new. *)

Definition pods (n : string) : ResourceQuotaLimit := limit_of {[ "pods" := n ]}.
Definition demo_clock (seconds : Z) : string := "2024-05-01T12:00:0" +:+ Itoa seconds +:+ "Z".
Definition demo_project : Project :=
  mkProject "c-abcde" "p-1" 7 false (Some (mkProjectQuota (pods "10") zeroLimit)) (Some (mkNamespaceQuota (pods "3")))
    (Some (container_of {[ "requestsCpu" := "1"; "limitsCpu" := "2" ]})).
Definition asking (name : string) (extra : gmap string string) : Namespace := mkNamespace name 1 (<[projectIDAnnotation := "c-abcde:p-1"]> extra) false.
Definition demo_status (t v : string) : string := whole_text [mkNsCondition t v "" "2024-04-30T08:00:00Z"].
Definition demo_a : Namespace :=
  asking "a" {[ resourceQuotaAnnotation := whole_text (pods "5"); statusAnn := demo_status ResourceQuotaValidatedCondition "True" ]}.
Definition demo_b (request : string) : Namespace := asking "b" {[ resourceQuotaAnnotation := whole_text (pods request) ]}.
Definition demo_quota : ResourceQuota :=
  mkResourceQuota "a" "default-x" 1 {[ resourceQuotaLabel := "true" ]} ({[ "pods" := 5 ]} : gmap string Z).
Definition demo_quotas (request : string) (faults : list (option error)) : QWorld :=
  mkQWorld {[ "a" := demo_a; "b" := demo_b request ]} {[ ("a", "default-x") := demo_quota ]} ∅ {[ ("c-abcde", "p-1") := demo_project ]} faults
    ["y1"; "y2"; "y3"] demo_clock [].

(** ** Caches that show the objects of the API server *)

Section synced.
Context `{L : QuotaLib}.

Definition found {A} (kind name : string) (o : option A) : res A := match o with Some x => Ret x | None => Fail (not_found kind name) end.
Definition values {K A} `{Countable K} (m : gmap K A) : list A := map snd (map_to_list m).

(** The lists of the caches are in no particular order. *)
Definition quota_synced (w : QWorld) : QuotaCaches := {|
  resourceQuotaLister_List n labels := Ret (List.filter (fun q => (q_Namespace q =? n) && bool_decide (labels ⊆ q_Labels q)) (values (qw_quotas w)));
  limitRangeLister_List n labels := Ret (List.filter (fun r => (lr_Namespace r =? n) && bool_decide (labels ⊆ lr_Labels r)) (values (qw_limitRanges w)));
  projectLister_Get ns name := found "projects" name (qw_projects w !! (ns, name));
  nsIndexer_ByIndex id := Ret (List.filter (fun ns => bool_decide (id ∈ nsByProjectID ns)) (values (qw_namespaces w)))
|}.

(** One call of the handler on the namespace as it is stored. *)
Definition handle (n : string) (w : QWorld) : QWorld * res unit := syncResourceQuota (C := quota_synced w) (qw_namespaces w !! n) w.

End synced.

(** ** What a namespace asks for *)

Lemma lookup_override order acc k :
  NoDup (order.*1) ->
  override_from order acc !! k = match acc !! k with
                                 | Some v => Some (default v ((list_to_map order : gmap string string) !! k))
                                 | None => None
                                 end.
Proof.
  revert acc. induction order as [|[j v] order IH]; intros acc; cbn [fmap list_fmap fst]; [intros _; cbn; rewrite lookup_empty; by destruct (acc !! k)|].
  intros [Hj Hnd]%NoDup_cons. cbn [override_from list_to_map foldr]. rewrite IH by done.
  change (list_to_map ((j, v) :: order) : gmap string string) with (<[j := v]> (list_to_map order : gmap string string)).
  destruct (decide (j = k)) as [->|Hjk].
  - rewrite lookup_insert_eq. assert ((list_to_map order : gmap string string) !! k = None) as -> by by apply not_elem_of_list_to_map.
    destruct (acc !! k) eqn:Ek; cbn; [by rewrite lookup_insert_eq|by rewrite Ek].
  - rewrite (lookup_insert_ne (list_to_map order)) by done. destruct (acc !! j); [by rewrite lookup_insert_ne|done].
Qed.

Section requests.
Context `{L : QuotaLib} `{!QuotaLaws}.

Lemma override_range (m acc : gmap string string) k :
  override_from (map_range m) acc !! k = match acc !! k with Some v => Some (default v (m !! k)) | None => None end.
Proof.
  assert (NoDup (map_range m).*1) as Hnd by (rewrite map_range_perm; apply NoDup_fst_map_to_list).
  rewrite lookup_override by done. by rewrite (list_to_map_proper _ (map_to_list m)), list_to_map_to_list by (done || apply map_range_perm).
Qed.

(** The share: the resources of the default, with the requested limits where there are some. *)
Lemma limit_map_complete r d k :
  limit_map (completeQuota r d) !! k = match limit_map d !! k with Some v => Some (default v (limit_map r !! k)) | None => None end.
Proof.
  unfold completeQuota. rewrite limit_map_of_id; [apply override_range|]. intros j v. rewrite override_range.
  destruct (limit_map d !! j) as [x|] eqn:Ed; [|done]. apply limit_map_names in Ed as [Hj Hx]. intros [= <-]. split; [done|].
  destruct (limit_map r !! j) as [y|] eqn:Er; cbn; [by apply limit_map_names in Er as []|done].
Qed.

Lemma completeQuota_idem r d : completeQuota (completeQuota r d) d = completeQuota r d.
Proof. apply limit_map_inj, map_eq. intros k. rewrite !limit_map_complete. destruct (limit_map d !! k); [|done]. done. Qed.
Lemma completeQuota_default d : completeQuota d d = d.
Proof. apply limit_map_inj, map_eq. intros k. rewrite limit_map_complete. by destruct (limit_map d !! k). Qed.

(** The limit after the resources that do not fit were set to zero. *)
Lemma limit_amount_zeroed l (e : ResourceList) k :
  (forall j, is_Some (e !! j) -> j ∈ limit_names) ->
  limit_amount (Some (zeroOutResourceQuotaLimit l e)) k = match e !! k with Some _ => Some 0 | None => limit_amount (Some l) k end.
Proof.
  intros He. unfold limit_amount, limit_ptr_map, zeroOutResourceQuotaLimit. rewrite limit_map_of_id.
  - destruct (e !! k) as [x|] eqn:Ek.
    + rewrite lookup_union_l' by (rewrite lookup_fmap, Ek; eauto). rewrite lookup_fmap, Ek. cbn.
      destruct Parse_zero as (q & Hq & Hz). unfold text_amount. by rewrite Hq, Hz.
    + rewrite lookup_union_r by by rewrite lookup_fmap, Ek. done.
  - intros j v [Hj|[_ Hj]]%lookup_union_Some_raw; [|by apply limit_map_names in Hj].
    rewrite lookup_fmap in Hj. apply fmap_Some in Hj as (x & Hx & ->). split; [apply He; eauto|done].
Qed.

Lemma limit_amount_names l k a : limit_amount l k = Some a -> k ∈ limit_names.
Proof.
  unfold limit_amount. destruct l as [l|]; cbn; [|by rewrite lookup_empty]. destruct (limit_map l !! k) eqn:E; [|done]. intros _.
  by apply limit_map_names in E as [].
Qed.

Lemma sum_amounts_names ls k : is_Some (sum_amounts ls k) -> k ∈ limit_names.
Proof.
  induction ls as [|l ls IH]; cbn; [by intros []|]. destruct (limit_amount l k) eqn:E; [intros _; by eapply limit_amount_names|].
  by rewrite add_amounts_None_l.
Qed.
End requests.

(** ** Runs of the handler *)

Section safety.
Context `{L : QuotaLib} `{!QuotaLaws} `{C : !QuotaCaches}.

(** What requests about namespaces leave alone. *)
Definition aside (w w' : QWorld) : Prop :=
  qw_quotas w' = qw_quotas w /\ qw_limitRanges w' = qw_limitRanges w /\ qw_projects w' = qw_projects w
  /\ qw_suffixes w' = qw_suffixes w /\ qw_clock w' = qw_clock w /\ (qw_faults w = [] -> qw_faults w' = []).
#[local] Instance aside_preorder : PreOrder aside.
Proof. split; [by repeat split|]. unfold aside. intros w1 w2 w3 ?? . destruct_and!. repeat split; [congruence..|auto]. Qed.

Definition bumped (ns : Namespace) : Namespace := mkNamespace (ns_Name ns) (ns_ResourceVersion ns + 1) (ns_Annotations ns) (ns_Deleting ns).

Lemma q_request_spec w w' r :
  q_request w = (w', r) -> aside w w' /\ qw_namespaces w' = qw_namespaces w /\ r <> Panic /\ (qw_faults w = [] -> w' = w /\ r = Ret tt).
Proof. unfold q_request. destruct (qw_faults w) as [|[e|] fs] eqn:E; intros [= <- <-]; repeat split; try done; cbn; congruence. Qed.

Lemma namespaces_Update_spec ns w w' r :
  namespaces_Update ns w = (w', r) ->
  aside w w' /\ match r with
               | Ret new => exists cur, qw_namespaces w !! ns_Name ns = Some cur /\ ns_ResourceVersion cur = ns_ResourceVersion ns
                   /\ new = (if bool_decide (ns = cur) then ns else bumped ns) /\ qw_namespaces w' = <[ns_Name ns := new]> (qw_namespaces w)
               | Fail _ => qw_namespaces w' = qw_namespaces w
               | Panic => False
               end.
Proof.
  unfold namespaces_Update, bind, gets. destruct (q_request w) as [w1 r1] eqn:E1. apply q_request_spec in E1 as (Ha & Hn & Hp & _).
  destruct r1 as [[]|e|]; [|by intros [= <- <-]|done]. rewrite <- Hn. destruct (qw_namespaces w1 !! ns_Name ns) as [cur|] eqn:Ec; [|by intros [= <- <-]].
  destruct (Z.eqb_spec (ns_ResourceVersion cur) (ns_ResourceVersion ns)) as [Hv|Hv]; cbn [negb]; [|by intros [= <- <-]]. case_bool_decide as Hc.
  - intros [= <- <-]. split; [done|]. subst cur. exists ns. rewrite bool_decide_eq_true_2 by done. by rewrite insert_id.
  - intros [= <- <-]. split; [done|]. exists cur. by rewrite bool_decide_eq_false_2.
Qed.

Lemma setValidated_spec ns v msg w w' r :
  setValidated ns v msg w = (w', r) ->
  aside w w' /\ (forall m, m <> ns_Name ns -> qw_namespaces w' !! m = qw_namespaces w !! m).
Proof.
  unfold setValidated, bind, gets, lift. destruct (SetNamespaceCondition _ _ _ _ _ _) as [ns'|e|] eqn:Es; [|by intros [= <- <-]..].
  assert (ns_Name ns' = ns_Name ns) as Hname by (unfold SetNamespaceCondition in Es; res_inv; done).
  intros [Ha Hr]%namespaces_Update_spec. split; [done|]. intros m Hm. rewrite Hname in Hr.
  destruct r; [|by rewrite Hr|done]. destruct Hr as (cur & _ & _ & _ & ->). by rewrite lookup_insert_ne.
Qed.

(** Validation never touches quotas, and a share that is accepted was tested against the others. *)
Lemma validate_spec ns q w w' r :
  validateAndSetNamespaceQuota ns q w = (w', r) ->
  aside w w' /\ (forall m, m <> ns_Name ns -> qw_namespaces w' !! m = qw_namespaces w !! m)
  /\ forall fit ns' ex, r = Ret (fit, ns', ex) ->
     (ns_Deleting ns = true /\ fit = true)
     \/ (exists id, getProjectResourceQuotaLimit ns = Ret (None, id) /\ fit = true)
     \/ exists limit id others, getProjectResourceQuotaLimit ns = Ret (Some limit, id) /\ getNamespacesLimits ns id = Ret others
           /\ IsQuotaFit (Some (nq_Limit q)) others (Some limit) = Ret (fit, ex).
Proof.
  unfold validateAndSetNamespaceQuota. destruct (ns_Deleting ns) eqn:Ed; [intros [= <- <-]; (split; [done|split; [done|naive_solver]])|].
  unfold bind, lift. destruct (getProjectResourceQuotaLimit ns) as [[[limit|] id]|e|] eqn:Ep; [|intros [= <- <-]; (split; [done|split; [done|naive_solver]])..].
  destruct (json_Marshal_quota q) as [b|e|]; [|intros [= <- <-]; (split; [done|split; [done|naive_solver]])..].
  destruct (namespaces_Update _ w) as [w1 r1] eqn:E1. apply namespaces_Update_spec in E1 as [Ha1 H1]. cbn [ns_Name set_ns_Annotations] in H1.
  assert (forall m, m <> ns_Name ns -> qw_namespaces w1 !! m = qw_namespaces w !! m) as Hm1.
  { intros m Hm. destruct r1; [|by rewrite H1|done]. destruct H1 as (cur & _ & _ & _ & ->). by rewrite lookup_insert_ne. }
  destruct r1 as [ns1|e|]; [|intros [= <- <-]; (split; [done|split; [done|naive_solver]])|done].
  assert (ns_Name ns1 = ns_Name ns) as Hname by (destruct H1 as (cur & _ & _ & -> & _); by case_bool_decide).
  destruct (getNamespacesLimits ns id) as [others|e|] eqn:Eo; [|intros [= <- <-]; (split; [done|split; [done|naive_solver]])..].
  destruct (IsQuotaFit _ _ _) as [[fit ex]|e|] eqn:Ef; [|intros [= <- <-]; (split; [done|split; [done|naive_solver]])..].
  destruct (setValidated _ _ _ _) as [w2 r2] eqn:E2. apply setValidated_spec in E2 as [Ha2 Hm2]. rewrite Hname in Hm2.
  assert (aside w w2) by (etrans; [exact Ha1|exact Ha2]). assert (forall m, m <> ns_Name ns -> qw_namespaces w2 !! m = qw_namespaces w !! m) by (intros m Hm; by rewrite Hm2, Hm1).
  destruct r2; intros [= <- <-]; (split; [done|]); (split; [done|]); [|done..]. intros fit' ns' ex' [= -> -> ->]. right. right. by exists limit, id, others.
Qed.

(** A list of limits for the namespace that keeps within the project beside the other namespaces. *)
Definition within_project (limit : ResourceQuotaLimit) (others : list (option ResourceQuotaLimit)) (hard : ResourceList) : Prop :=
  forall k a, k ∈ limit_names -> amount <$> hard !! native k = Some a ->
  0 <= a /\ (a = 0 \/ forall p, limit_amount (Some limit) k = Some p -> a + default 0 (sum_amounts others k) <= p).

Lemma unviolated own others limit k a :
  ~ violates (Some own) others (Some limit) k -> limit_amount (Some own) k = Some a ->
  0 <= a /\ (a = 0 \/ forall p, limit_amount (Some limit) k = Some p -> a + default 0 (sum_amounts others k) <= p).
Proof.
  intros Hv Ha. split.
  - destruct (Z.le_gt_cases 0 a); [done|]. destruct Hv. right. exists a. split; [done|lia].
  - right. intros p Hp. destruct (Z.le_gt_cases (a + default 0 (sum_amounts others k)) p) as [|Hgt]; [done|]. destruct Hv. left.
    exists (a + default 0 (sum_amounts others k)), p. split; [|split; [done|lia]]. cbn. rewrite Ha. fold (sum_amounts others k).
    destruct (sum_amounts others k); cbn; f_equal; lia.
Qed.

Lemma fit_within own others limit spec ex :
  IsQuotaFit (Some own) others (Some limit) = Ret (true, ex) -> convertResourceLimitResourceQuotaSpec own = Ret spec -> within_project limit others spec.
Proof.
  intros (_ & _ & _ & Hfit & _)%IsQuotaFit_Ret (_ & Hs & _)%convertSpec_Ret k a Hk Ha. rewrite Hs in Ha by done.
  apply (unviolated own); [by apply Hfit|done].
Qed.

Lemma zeroed_within own others limit spec e :
  IsQuotaFit (Some own) others (Some limit) = Ret (false, e) ->
  convertResourceLimitResourceQuotaSpec (zeroOutResourceQuotaLimit own (default ∅ e)) = Ret spec -> within_project limit others spec.
Proof.
  intros (_ & _ & _ & _ & _ & Hex)%IsQuotaFit_Ret (_ & Hs & _)%convertSpec_Ret k a Hk Ha. rewrite Hs in Ha by done.
  destruct Hex as (ex & -> & Hex); [done|]. change (default ∅ (Some ex)) with ex in Ha.
  rewrite limit_amount_zeroed in Ha.
  2: { intros j [_ Hv]%(fun Hj => conj Hj (proj2 (Hex j) Hj)). apply (sum_amounts_names (Some own :: others)). by eapply violates_present. }
  destruct (ex !! k) as [x|] eqn:Ek; [by inv Ha; split; [|left]|].
  apply (unviolated own); [|done].
  intros Hv. destruct (Hex k) as [Hyes _]. specialize (Hyes Hv).  destruct (violates_present _ _ _ _ Hv) as [y Hy]. by rewrite Ek, Hy in Hyes.
Qed.

(** ** Quotas that are written *)

(** A quota that is new or different is one of the namespace and satisfies [P]. *)
Definition writes (n : string) (P : ResourceList -> Prop) (w w' : QWorld) : Prop :=
  forall key q, qw_quotas w' !! key = Some q -> qw_quotas w !! key <> Some q -> fst key = n /\ P (q_Hard q).
Lemma writes_same n P w w' : qw_quotas w' = qw_quotas w -> writes n P w w'.
Proof. intros Hq key q. rewrite Hq. congruence. Qed.

Lemma quotas_Create_spec n labels hard w w' r : resourceQuotas_Create n labels hard w = (w', r) -> writes n (fun h => h = hard) w w'.
Proof.
  unfold resourceQuotas_Create, bind, gets, generated_name. destruct (q_request w) as [w1 r1] eqn:E1. apply q_request_spec in E1 as ((Hq & _) & _).
  destruct r1; [|by intros [= <- <-]; apply writes_same..]. destruct (qw_suffixes w1) as [|x ss]; [by intros [= <- <-]; apply writes_same|].
  cbn [qw_quotas set_qw_suffixes]. destruct (qw_quotas w1 !! _); intros [= <- <-]; [by apply writes_same|].
  intros key q. cbn. rewrite Hq, lookup_insert_Some. intros [[<- <-]|[_ H1]] H2; [done|congruence].
Qed.

Lemma quotas_Update_spec qn w w' r : resourceQuotas_Update qn w = (w', r) -> writes (q_Namespace qn) (fun h => h = q_Hard qn) w w'.
Proof.
  unfold resourceQuotas_Update, bind, gets. destruct (q_request w) as [w1 r1] eqn:E1. apply q_request_spec in E1 as ((Hq & _) & _).
  destruct r1; [|by intros [= <- <-]; apply writes_same..]. destruct (qw_quotas w1 !! _) as [cur|]; [|intros [= <- <-]; by apply writes_same].
  destruct (negb _); intros [= <- <-]; [by apply writes_same|].
  intros key q. cbn. rewrite Hq, lookup_insert_Some. intros [[<- <-]|[_ H1]] H2; [done|congruence].
Qed.

Lemma quotas_Delete_spec ns name w w' r n P : resourceQuotas_Delete ns name w = (w', r) -> writes n P w w'.
Proof.
  unfold resourceQuotas_Delete, bind, gets. destruct (q_request w) as [w1 r1] eqn:E1. apply q_request_spec in E1 as ((Hq & _) & _).
  destruct r1; [|by intros [= <- <-]; apply writes_same..]. destruct (qw_quotas w1 !! _) as [cur|]; intros [= <- <-]; [|by apply writes_same].
  intros key q. cbn. rewrite Hq, lookup_delete_Some. naive_solver.
Qed.

Lemma writes_trans_l n P w1 w2 w3 : qw_quotas w2 = qw_quotas w1 -> writes n P w2 w3 -> writes n P w1 w3.
Proof. unfold writes. by intros ->. Qed.
Lemma writes_trans_r n P w1 w2 w3 : writes n P w1 w2 -> qw_quotas w3 = qw_quotas w2 -> writes n P w1 w3.
Proof. unfold writes. by intros H1 ->. Qed.
Lemma writes_mono n (P Q : ResourceList -> Prop) w w' : (forall h, P h -> Q h) -> writes n P w w' -> writes n Q w w'.
Proof. intros HPQ HP key q H1 H2. destruct (HP key q H1 H2). auto. Qed.

(** What a namespace asks for: what the text of its annotation stands for, and nothing without one. *)
Definition asks (ns : Namespace) (l : option ResourceQuotaLimit) : Prop :=
  match ns_Annotations ns !! resourceQuotaAnnotation with
  | None | Some EmptyString => l = None
  | Some text => exists q, json_Unmarshal_quota text = Ret q /\ l = Some (nq_Limit q)
  end.
(** The namespace is in a project with a limit, by the annotation that names it. *)
Definition in_project (ns : Namespace) (id : string) (limit : ResourceQuotaLimit) : Prop :=
  exists cluster name project quota, ns_Annotations ns !! projectIDAnnotation = Some id
    /\ id = cluster +:+ ":" +:+ name /\ Count_char (Ascii.ascii_of_nat 58) cluster = O /\ name <> ""
    /\ projectLister_Get cluster name = Ret project /\ pj_ResourceQuota project = Some quota /\ limit = pq_Limit quota.
(** What has been granted to the namespace, beside what the others that the cache has in its project ask for. *)
Definition granted (ns : Namespace) (hard : ResourceList) : Prop :=
  forall id limit, in_project ns id limit ->
  exists namespaces others, nsIndexer_ByIndex id = Ret namespaces
    /\ Forall2 asks (filter (fun o => ns_Name o <> ns_Name ns) namespaces) others /\ within_project limit others hard.

Lemma asks_read ns l : getNamespaceResourceQuotaLimit ns = Ret l -> asks ns l.
Proof.
  unfold getNamespaceResourceQuotaLimit, asks, getNamespaceResourceQuota, map_get. destruct (ns_Annotations ns !! resourceQuotaAnnotation) as [[|c t]|]; cbn.
  - by intros [= <-].
  - intros (q & Hq & [= <-])%res_bind_Ret. by exists q.
  - by intros [= <-].
Qed.
Lemma limits_of_others_asked name l others :
  limits_of_others name l = Ret others -> Forall2 asks (filter (fun o => ns_Name o <> name) l) others.
Proof.
  revert others. induction l as [|o l IH]; intros others; cbn [limits_of_others]; [intros [= <-]; constructor|]. rewrite filter_cons.
  destruct (bool_decide_reflect (ns_Name o = name)) as [He|He].
  - rewrite decide_False by naive_solver. apply IH.
  - rewrite decide_True by done. intros (a & Ha%asks_read & (rest & Hr & [= <-])%res_bind_Ret)%res_bind_Ret. constructor; [done|by apply IH].
Qed.
Lemma in_project_limit ns id limit : in_project ns id limit -> getProjectResourceQuotaLimit ns = Ret (Some limit, id).
Proof.
  intros (cluster & name & project & quota & Hid & Hsplit & Hc & Hne & Hp & Hq & ->). unfold getProjectResourceQuotaLimit, project_of, getProjectID, map_get.
  rewrite Hid. change (default EmptyString (Some id)) with id. assert (ref_Parse id = (cluster, name)) as ->.
  { unfold ref_Parse, SplitN2. rewrite Hsplit. assert (cut ":" (cluster +:+ ":" +:+ name) = Some (cluster, name)) as ->; [|done].
    exact (cut_char (Ascii.ascii_of_nat 58) cluster name Hc). }
  rewrite bool_decide_eq_false_2 by (rewrite Hsplit; by destruct cluster). rewrite bool_decide_eq_false_2 by done. rewrite Hp. cbn. by rewrite Hq.
Qed.

(** The quotas listed for a namespace are in it. *)
Definition lists_own : Prop := forall n labels l q, resourceQuotaLister_List n labels = Ret l -> q ∈ l -> q_Namespace q = n.

Lemma derived_spec ns limit spec : deriveRequestedResourceQuota ns = Ret (Some (limit, spec)) -> convertResourceLimitResourceQuotaSpec limit = Ret spec.
Proof. unfold deriveRequestedResourceQuota. intros Hd. res_inv. destruct a0 as [d|]; [|done]. res_inv. done. Qed.

Lemma validated_within ns limit w w' fit ns' ex spec :
  ns_Deleting ns = false -> validateAndSetNamespaceQuota ns (mkNamespaceQuota limit) w = (w', Ret (fit, ns', ex)) ->
  convertResourceLimitResourceQuotaSpec (if fit then limit else zeroOutResourceQuotaLimit limit (default ∅ ex)) = Ret spec -> granted ns spec.
Proof.
  intros Hd (_ & _ & Hr)%validate_spec Hspec id pl Hp%in_project_limit. destruct (Hr _ _ _ eq_refl) as [[Hd' _]|[(id' & Hp' & _)|(pl' & id' & others & Hp' & Ho & Hfit)]]; [congruence..|].
  assert (pl' = pl /\ id' = id) as [-> ->] by (split; congruence). apply res_bind_Ret in Ho as (namespaces & Hl & Ho). exists namespaces, others. split; [done|].
  split; [by apply limits_of_others_asked|]. cbn [nq_Limit] in Hfit.
  destruct fit; [by eapply fit_within|by eapply zeroed_within].
Qed.

Lemma perform_writes ns existing derived w w' r :
  lists_own -> ns_Deleting ns = false -> getExistingResourceQuota ns = Ret existing -> deriveRequestedResourceQuota ns = Ret derived ->
  perform_operation ns (choose_operation existing derived) w = (w', r) -> writes (ns_Name ns) (granted ns) w w'.
Proof.
  intros Hown Hd Hex Hder. unfold choose_operation.
  assert (forall q, existing = Some q -> q_Namespace q = ns_Name ns) as Hq.
  { intros q ->. unfold getExistingResourceQuota in Hex. res_inv. destruct a as [|q' l]; [done|]. cbn in *. inv H1. eapply Hown; [done|by left]. }
  set (wanted := match derived with Some _ => _ | None => None end).
  assert (forall limit spec, wanted = Some (limit, spec) -> convertResourceLimitResourceQuotaSpec limit = Ret spec) as Hw.
  { intros limit spec. unfold wanted. destruct derived as [[l' s']|]; [|done]. case_bool_decide; [done|]. intros [= -> ->]. by eapply derived_spec. }
  clearbody wanted. destruct existing as [q|], wanted as [[limit spec]|]; cbn [perform_operation].
  - destruct (Semantic_DeepEqual _ _); [intros [= <- <-]; by apply writes_same|]. cbn [perform_operation]. unfold bind.
    destruct (validateAndSetNamespaceQuota _ _ w) as [w1 r1] eqn:E1. pose proof (validate_spec _ _ _ _ _ E1) as ((Hq1 & _) & _).
    destruct r1 as [[[fit ns'] ex]|e|]; [|intros [= <- <-]; by apply writes_same..].
    destruct fit; [|intros [= <- <-]; by apply writes_same]. destruct (updateResourceQuota q spec w1) as [w2 r2] eqn:E2.
    apply quotas_Update_spec in E2. cbn [q_Namespace q_Hard] in E2. rewrite (Hq q eq_refl) in E2.
    assert (writes (ns_Name ns) (granted ns) w w2) by (eapply writes_trans_l; [done|]; eapply writes_mono; [|done]; intros ? ->; eapply validated_within; [done|exact E1|by apply Hw]).
    by destruct r2; intros [= <- <-].
  - unfold bind. destruct (namespaces_Update _ w) as [w1 r1] eqn:E1. apply namespaces_Update_spec in E1 as ((Hq1 & _) & _).
    destruct r1; [|intros [= <- <-]; by apply writes_same..]. destruct (deleteResourceQuota q w1) as [w2 r2] eqn:E2.
    apply (quotas_Delete_spec _ _ _ _ _ (ns_Name ns) (granted ns)) in E2. destruct r2; intros [= <- <-]; by eapply writes_trans_l.
  - unfold bind. destruct (validateAndSetNamespaceQuota _ _ w) as [w1 r1] eqn:E1. pose proof (validate_spec _ _ _ _ _ E1) as ((Hq1 & _) & _).
    destruct r1 as [[[fit ns'] ex]|e|]; [|intros [= <- <-]; by apply writes_same..].
    destruct ((if fit then ret spec else lift _) w1) as [w1' r1'] eqn:Es.
    assert (w1' = w1 /\ forall s, r1' = Ret s -> granted ns s) as [-> Hs].
    { destruct fit; inv Es; (split; [done|]); intros s Hs; inv Hs; (eapply validated_within; [done..|]); [by apply Hw|done]. }
    destruct r1' as [s|e|]; [|intros [= <- <-]; by apply writes_same..].
    destruct (createResourceQuota ns s w1) as [w2 r2] eqn:E2. apply quotas_Create_spec in E2.
    assert (writes (ns_Name ns) (granted ns) w w2) by (eapply writes_trans_l; [done|]; eapply writes_mono; [|done]; intros ? ->; by apply Hs).
    by destruct r2; intros [= <- <-].
  - intros [= <- <-]. by apply writes_same.
Qed.

(** Limit ranges are kept apart from quotas. *)
Definition same_quotas (w w' : QWorld) : Prop := qw_quotas w' = qw_quotas w.
#[local] Instance same_quotas_preorder : PreOrder same_quotas.
Proof. split; [done|]. unfold same_quotas. congruence. Qed.

Lemma same_quotas_request : runs (fun _ => True) same_quotas q_request (fun _ => True).
Proof. intros w _. destruct (q_request w) as [w' r] eqn:E. by apply q_request_spec in E as ((Hq & _) & _). Qed.
Lemma same_quotas_name : runs (fun _ => True) same_quotas generated_name (fun _ => True).
Proof. intros w _. unfold generated_name. by destruct (qw_suffixes w). Qed.
#[local] Hint Resolve same_quotas_request same_quotas_name : planner.

Lemma createLimitRange_quotas ns : runs (fun _ => True) same_quotas (createLimitRange ns) (fun _ => True).
Proof.
  unfold createLimitRange, createDefaultLimitRange, updateDefaultLimitRange, deleteDefaultLimitRange, limitRange_Create, limitRange_Update, limitRange_Delete.
  runs_auto; by apply runs_modify.
Qed.

Lemma CreateResourceQuota_writes ns w w' r :
  lists_own -> ns_Deleting ns = false -> CreateResourceQuota ns w = (w', r) -> writes (ns_Name ns) (granted ns) w w'.
Proof.
  intros Hown Hd. unfold CreateResourceQuota, bind, lift, gets.
  destruct (getExistingResourceQuota ns) as [existing|e|] eqn:Eex; [|intros [= <- <-]; by apply writes_same..].
  destruct (deriveRequestedResourceQuota ns) as [derived|e|] eqn:Eder; [|intros [= <- <-]; by apply writes_same..].
  destruct (perform_operation _ _ w) as [w1 r1] eqn:E1. pose proof (perform_writes _ _ _ _ _ _ Hown Hd Eex Eder E1) as Hw.
  destruct r1 as [updated|e|]; [|by intros [= <- <-]..].
  destruct (IsNamespaceConditionSet _ _ _) as [[]|e|]; [by intros [= <- <-]| |by intros [= <- <-]..].
  destruct (SetNamespaceCondition _ _ _ _ _ _) as [ns'|e|]; [| |by intros [= <- <-]];
    intros ((Hq & _) & _)%namespaces_Update_spec; by eapply writes_trans_r.
Qed.

(** C36: Whatever fails, a quota that a run of the handler creates or changes is one of the namespace, and when the annotation of
    the namespace names a project with a limit it keeps within that project: no resource is negative, and each one is either
    set to zero or, with what the annotations of the other namespaces ask for that the cache has in the project, within
    the limit of the project; a namespace without the annotation asks for nothing.  The cache lists for a namespace only
    quotas that are in it. *)
Theorem quota_within_project ns w w' r :
  lists_own -> syncResourceQuota (Some ns) w = (w', r) -> writes (ns_Name ns) (granted ns) w w'.
Proof.
  intros Hown. unfold syncResourceQuota. destruct (ns_Deleting ns) eqn:Hd; [intros [= <- <-]; by apply writes_same|].
  unfold bind. destruct (CreateResourceQuota ns w) as [w1 r1] eqn:E1. pose proof (CreateResourceQuota_writes _ _ _ _ Hown Hd E1) as Hw.
  destruct r1 as [ns'|e|]; [|by intros [= <- <-]..]. intros E2. destruct (createLimitRange_quotas ns w1 I) as (_ & Hq & _).
  rewrite E2 in Hq. by eapply writes_trans_r.
Qed.
End safety.

Lemma synced_lists_own `{L : QuotaLib} w : lists_own (C := quota_synced w).
Proof. intros n labels l q [= <-] [_ [Hn _]%andb_true_iff]%elem_of_filter_bool. by apply bool_decide_eq_true in Hn. Qed.

(** The amount of a resource in a quota of the world. *)
Definition hard_of (w : QWorld (H := whole_numbers)) (key : string * string) (k : string) : option Z :=
  match qw_quotas w !! key with Some q => (q_Hard q : gmap string Z) !! k | None => None end.
Definition demo_run : QWorld (H := whole_numbers) * res unit :=
  syncResourceQuota (C := quota_synced (demo_quotas "4" [])) (Some (demo_b "4")) (demo_quotas "4" []).
Lemma demo_run_quota : hard_of (fst demo_run) ("b", "default-y1") "pods" = Some 4.
Proof. vm_compute. reflexivity. Qed.

Lemma quota_within_project_witness :
  exists others, Forall2 asks [demo_a] others /\ (4 = 0 \/ 4 + default 0 (sum_amounts others "pods") <= 10).
Proof.
  pose proof demo_run_quota as Hh. unfold hard_of in Hh. destruct (qw_quotas (fst demo_run) !! ("b", "default-y1")) as [q|] eqn:Eq; [|discriminate Hh].
  destruct (quota_within_project (C := quota_synced (demo_quotas "4" [])) (demo_b "4") (demo_quotas "4" []) (fst demo_run) (snd demo_run)
              (synced_lists_own _) (surjective_pairing _) ("b", "default-y1") q Eq) as [_ Hg].
  - change (qw_quotas (demo_quotas "4" [])) with ({[ ("a", "default-x") := demo_quota ]} : gmap (string * string) ResourceQuota).
    rewrite lookup_singleton_ne by discriminate. discriminate.
  - destruct (Hg "c-abcde:p-1" (pods "10")) as (namespaces & others & Hl & Ho & Hw).
    { exists "c-abcde", "p-1", demo_project, (mkProjectQuota (pods "10") zeroLimit). split; [vm_compute; reflexivity|]. do 2 (split; [reflexivity|]).
      split; [discriminate|]. split; [vm_compute; reflexivity|]. split; reflexivity. }
    exists others. split.
    { assert (filter (fun o => ns_Name o <> ns_Name (demo_b "4")) namespaces = [demo_a]) as Hf; [|rewrite <- Hf; exact Ho].
      injection Hl as <-. vm_compute. reflexivity. }
    destruct (Hw "pods" 4) as [_ [Hz|Hp]]; [left| |left; exact Hz|right].
    + change (native "pods") with "pods". change (@fmap option _ Z Z id ((q_Hard q : gmap string Z) !! "pods") = Some 4). rewrite Hh. reflexivity.
    + apply Hp. vm_compute. reflexivity.
Defined.

(** ** What a project records *)

Section used.
Context `{L : QuotaLib} `{!QuotaLaws} `{C : !QuotaCaches}.

(** The namespaces that count, and what they ask for. *)
Definition counts (ns : Namespace) : bool :=
  negb (ns_Deleting ns) && match IsNamespaceConditionSet ns ResourceQuotaValidatedCondition true with Ret b => b | _ => false end.
Definition request_of (ns : Namespace) : option ResourceQuotaLimit := match getNamespaceResourceQuotaLimit ns with Ret l => l | _ => None end.

Lemma used_from_Ret l acc r :
  used_from l acc = Ret r -> forall k, amount <$> r !! k = add_amounts (amount <$> acc !! k) (sum_amounts (map request_of (List.filter counts l)) k).
Proof.
  revert acc. induction l as [|ns l IH]; intros acc; cbn [used_from List.filter].
  - intros [= <-] k. by rewrite add_amounts_comm, add_amounts_None_l.
  - unfold counts at 1, request_of. destruct (ns_Deleting ns); [apply IH|]. intros Hr. apply res_bind_Ret in Hr as (b & -> & Hr). cbn [negb andb].
    destruct b; [|by apply IH]. apply res_bind_Ret in Hr as (lim & Hlim & Hr). apply res_bind_Ret in Hr as (rl & Hrl & Hr).
    intros k. rewrite (IH _ Hr k), Add_amount. apply Convert_Ret in Hrl as [_ ->]. cbn [map sum_amounts foldr]. rewrite Hlim.
    by rewrite <- add_amounts_assoc.
Qed.

Lemma listToLimit_amount r k :
  (forall j, is_Some (r !! j) -> j ∈ limit_names) -> limit_amount (Some (convertResourceListToLimit r)) k = amount <$> r !! k.
Proof.
  intros Hr. unfold limit_amount, limit_ptr_map, convertResourceListToLimit. rewrite limit_map_of, lookup_fmap. destruct (r !! k) as [x|] eqn:Ek; cbn; [|by case_bool_decide].
  rewrite (bool_decide_eq_true_2 (k ∈ limit_names)) by (apply Hr; eauto). rewrite bool_decide_eq_false_2 by apply String_nonempty. cbn.
  destruct (Parse_String x) as (x' & Hx & <-). unfold text_amount. by rewrite Hx.
Qed.

(** A run for a project with a quota that ends well records in the project, for every resource, the sum of what its
    validated namespaces ask for; namespaces that are being deleted, or not validated, do not count, and nothing else of the
    project is changed. *)
Theorem used_limit_recorded id ns name project quota w w' :
  ref_Parse id = (ns, name) -> projectLister_Get ns name = Ret project -> pj_ResourceQuota project = Some quota ->
  calculateProjectResourceQuota id w = (w', Ret tt) ->
  exists namespaces stored used, nsIndexer_ByIndex id = Ret namespaces
    /\ qw_projects w' = <[(pj_Namespace project, pj_Name project) := stored]> (qw_projects w)
    /\ pj_ResourceQuota stored = Some (mkProjectQuota (pq_Limit quota) used)
    /\ pj_NamespaceDefaultResourceQuota stored = pj_NamespaceDefaultResourceQuota project
    /\ pj_ContainerDefaultResourceLimit stored = pj_ContainerDefaultResourceLimit project
    /\ (forall k, limit_amount (Some used) k = sum_amounts (map request_of (List.filter counts namespaces)) k)
    /\ qw_namespaces w' = qw_namespaces w /\ qw_quotas w' = qw_quotas w.
Proof.
  intros Hid Hget Hq. unfold calculateProjectResourceQuota. rewrite Hid, Hget, Hq. unfold bind at 1, lift at 1.
  destruct (nsIndexer_ByIndex id) as [namespaces|e|] eqn:Ei; [|done..]. unfold bind at 1, lift at 1.
  destruct (used_from namespaces ∅) as [r|e|] eqn:Eu; [|done..]. pose proof (used_from_Ret _ _ _ Eu) as Hr. setoid_rewrite lookup_empty in Hr.
  setoid_rewrite add_amounts_None_l in Hr. set (used := convertResourceListToLimit r).
  assert (forall k, limit_amount (Some used) k = sum_amounts (map request_of (List.filter counts namespaces)) k) as Hused.
  { intros k. unfold used. rewrite listToLimit_amount; [apply Hr|]. intros j [x Hx]. eapply sum_amounts_names. rewrite <- Hr, Hx. cbn. eauto. }
  clearbody used. set (new := mkProject _ _ _ _ _ _ _). unfold projects_Update, bind, gets. destruct (q_request w) as [w1 r1] eqn:E1.
  apply q_request_spec in E1 as ((Hqs & _ & Hps & _) & Hns & _ & _). destruct r1; [|done..]. cbn [pj_Namespace pj_Name new].
  destruct (qw_projects w1 !! _) as [cur|] eqn:Ec; [|done]. destruct (negb _); [done|]. rewrite <- Hps, <- Hns, <- Hqs. case_bool_decide as Hsame; intros [= <-].
  - exists namespaces, new, used. rewrite insert_id by by rewrite Ec, Hsame. by repeat (split; [done|]).
  - eexists namespaces, _, used. split; [done|]. split; [cbn; reflexivity|]. by repeat (split; [done|]).
Qed.
End used.

Definition demo_used : QWorld (H := whole_numbers) * res unit :=
  calculateProjectResourceQuota (C := quota_synced (demo_quotas "4" [])) "c-abcde:p-1" (demo_quotas "4" []).
Lemma demo_used_Ret : snd demo_used = Ret tt.
Proof. vm_compute. reflexivity. Qed.

Lemma used_limit_recorded_witness :
  exists stored used, qw_projects (fst demo_used) = <[("c-abcde", "p-1") := stored]> (qw_projects (demo_quotas "4" []))
    /\ pj_ResourceQuota stored = Some (mkProjectQuota (pods "10") used) /\ limit_amount (Some used) "pods" = Some 5.
Proof.
  destruct (used_limit_recorded (C := quota_synced (demo_quotas "4" [])) "c-abcde:p-1" "c-abcde" "p-1" demo_project (mkProjectQuota (pods "10") zeroLimit)
              (demo_quotas "4" []) (fst demo_used)) as (namespaces & stored & used & Hl & Hp & Hq & _ & _ & Hu & _).
  - vm_compute. reflexivity.
  - vm_compute. reflexivity.
  - reflexivity.
  - rewrite <- demo_used_Ret. apply surjective_pairing.
  - exists stored, used. split; [exact Hp|]. split; [exact Hq|]. rewrite Hu. injection Hl as <-. vm_compute. reflexivity.
Defined.

(** ** The test itself *)

(** A report that names exactly the resources in conflict, each with what would be used of it. *)
Definition exact_report `{L : QuotaLib} `{!QuotaLaws} (own : option ResourceQuotaLimit) (others : list (option ResourceQuotaLimit))
    (project : option ResourceQuotaLimit) (e : ResourceList) : Prop :=
  forall k, (violates own others project k -> amount <$> e !! k = sum_amounts (own :: others) k)
    /\ (is_Some (e !! k) -> violates own others project k).

(** The test of a share is exact: when all texts are quantities it succeeds, it accepts the share if and only if no
    resource of it is negative and no resource of the project is exceeded by all shares together, and it reports exactly the
    resources for which this is not so, each with what would be used of it; with a text that is no quantity it fails. *)
Theorem quota_fit_exact `{L : QuotaLib} `{!QuotaLaws} own others project :
  (wf_limit own /\ Forall wf_limit others /\ wf_limit project <-> exists fit exceeded, IsQuotaFit own others project = Ret (fit, exceeded))
  /\ forall fit exceeded, IsQuotaFit own others project = Ret (fit, exceeded) ->
     (fit = true <-> forall k, ~ violates own others project k)
     /\ (fit = true -> exceeded = None)
     /\ (fit = false -> exists e, exceeded = Some e /\ exact_report own others project e).
Proof.
  split.
  - split; [intros (H1 & H2 & H3); by apply IsQuotaFit_total|]. intros (fit & ex & Hr). apply IsQuotaFit_Ret in Hr. naive_solver.
  - intros fit ex (_ & _ & _ & H1 & H2 & H3)%IsQuotaFit_Ret. done.
Qed.

Lemma quota_fit_exact_witness :
  exists e, IsQuotaFit (Some (pods "6")) [Some (pods "5")] (Some (pods "10")) = Ret (false, Some e)
    /\ exists k, violates (Some (pods "6")) [Some (pods "5")] (Some (pods "10")) k.
Proof.
  eexists ({[ "pods" := 11 ]} : gmap string Z).
  assert (IsQuotaFit (Some (pods "6")) [Some (pods "5")] (Some (pods "10")) = Ret (false, Some ({[ "pods" := 11 ]} : gmap string Z))) as Hr by (vm_compute; reflexivity).
  split; [exact Hr|]. exists "pods".
  destruct (proj2 (quota_fit_exact (Some (pods "6")) [Some (pods "5")] (Some (pods "10"))) false _ Hr) as (_ & _ & He).
  destruct (He eq_refl) as (e & Heq & Hk). apply (Hk "pods"). injection Heq as <-. vm_compute. eexists. reflexivity.
Defined.

(** ** Behaviours of the code *)

(** A request that is refused stays recorded, and the limits of all other namespaces are added up as they are: a negative
    one, though refused itself, makes room for others beyond the limit of the project. *)
Example negative_share_makes_room :
  IsQuotaFit (Some (pods "-100")) [Some (pods "10")] (Some (pods "10")) = Ret (false, Some ({[ "pods" := -90 ]} : gmap string Z))
  /\ IsQuotaFit (Some (pods "50")) [Some (pods "10"); Some (pods "-100")] (Some (pods "10")) = Ret (true, None).
Proof. split; vm_compute; reflexivity. Qed.
