(* ===== verification/QuotaRollout.v ===== *)
(** * How a new namespace gets its quota

    Two runs of the handler with up-to-date caches: the first one creates the quota and then loses its last write to a
    conflict with itself, the second one completes the work. *)

From S2P Require Import Prelude GoLib Codec Errors Types External Instances World Quota QuotaSync QuotaSafety.

(** ** Conditions *)

Definition has_condition (t : string) (v : bool) (l : list ns_condition) : bool :=
  List.existsb (fun c => (nc_Type c =? t) && (nc_Status c =? status_text v)) l.

Lemma has_put_other c t v l : nc_Type c <> t -> has_condition t v (put_ns_condition c l) = has_condition t v l.
Proof.
  intros Hc. unfold has_condition. induction l as [|x l IH]; cbn; [by rewrite (bool_decide_eq_false_2 (nc_Type c = t))|].
  case_bool_decide as Hx; cbn; [|by rewrite IH]. rewrite Hx. by rewrite (bool_decide_eq_false_2 (nc_Type c = t)).
Qed.

Lemma has_put_same c v l : nc_Status c = status_text v -> has_condition (nc_Type c) v (put_ns_condition c l) = true.
Proof.
  intros Hc. unfold has_condition. induction l as [|x l IH]; cbn; [by rewrite !bool_decide_eq_true_2|].
  case_bool_decide as Hx; cbn; [by rewrite !bool_decide_eq_true_2|]. by rewrite IH, orb_true_r.
Qed.

Lemma has_put_different c v l :
  nc_Status c <> status_text v -> has_condition (nc_Type c) v l = false -> has_condition (nc_Type c) v (put_ns_condition c l) = false.
Proof.
  intros Hc. unfold has_condition. induction l as [|x l IH]; cbn; [by rewrite (bool_decide_eq_false_2 (nc_Status c = _)), andb_false_r|].
  intros [Hx Hl]%orb_false_iff. case_bool_decide as Ht; cbn; [|cbn in Hx; rewrite IH by done; by rewrite ?(bool_decide_eq_false_2 (nc_Type x = nc_Type c))].
  rewrite (bool_decide_eq_false_2 (nc_Status c = _)) by done. by rewrite andb_false_r.
Qed.

Lemma status_text_inj v1 v2 : status_text v1 = status_text v2 -> v1 = v2.
Proof. by destruct v1, v2. Qed.

Section conditions.
Context `{L : QuotaLib} `{!QuotaLaws}.

Definition conditions_of (ns : Namespace) : res (list ns_condition) :=
  if map_get (ns_Annotations ns) statusAnn =? "" then Ret [] else json_Unmarshal_status (map_get (ns_Annotations ns) statusAnn).

Lemma IsNamespaceConditionSet_eq ns t v :
  IsNamespaceConditionSet ns t v = res_bind (conditions_of ns) (fun l => Ret (has_condition t v l)).
Proof. unfold IsNamespaceConditionSet, conditions_of. by case_bool_decide. Qed.

(** A condition is set in the annotation, and nothing else changes. *)
Lemma SetNamespaceCondition_run clock ns d t v msg l :
  conditions_of ns = Ret l ->
  exists s c, SetNamespaceCondition clock ns d t v msg = Ret (set_ns_Annotations (<[statusAnn := s]> (ns_Annotations ns)) ns)
    /\ nc_Type c = t /\ nc_Status c = status_text v
    /\ conditions_of (set_ns_Annotations (<[statusAnn := s]> (ns_Annotations ns)) ns) = Ret (put_ns_condition c l).
Proof.
  intros Hl. unfold SetNamespaceCondition, GenerateConditionAnnotation. unfold conditions_of in Hl. rewrite Hl. cbn [res_bind].
  match goal with |- context [put_ns_condition ?c l] => set (c0 := c) end.
  destruct (Marshal_status (put_ns_condition c0 l)) as (s & Hs & Hne & Hun). exists s, c0. rewrite Hs. cbn [res_bind].
  do 3 (split; [done|]). unfold conditions_of. cbn [ns_Annotations set_ns_Annotations].
  rewrite (map_get_Some _ _ s) by apply lookup_insert_eq. by rewrite bool_decide_eq_false_2.
Qed.
End conditions.

(** ** Lists of caches *)

Section synced.
Context `{L : QuotaLib}.

Lemma values_insert_new {K A} `{Countable K} (m : gmap K A) k x : m !! k = None -> values (<[k := x]> m) ≡ₚ x :: values m.
Proof. intros Hk. unfold values. by rewrite map_to_list_insert. Qed.
Lemma values_split {K A} `{Countable K} (m : gmap K A) k x : m !! k = Some x -> values m ≡ₚ x :: values (delete k m).
Proof. intros Hk. rewrite <- (insert_delete_id m k x) at 1 by done. apply values_insert_new, lookup_delete_eq. Qed.
Lemma values_insert_old {K A} `{Countable K} (m : gmap K A) k x : values (<[k := x]> m) ≡ₚ x :: values (delete k m).
Proof. rewrite <- insert_delete_eq. apply values_insert_new, lookup_delete_eq. Qed.

(** The other namespaces, in whatever order they are listed. *)
Lemma limits_of_others_perm n l1 l2 ls1 :
  l1 ≡ₚ l2 -> limits_of_others n l1 = Ret ls1 -> exists ls2, limits_of_others n l2 = Ret ls2 /\ ls1 ≡ₚ ls2.
Proof.
  intros Hp. revert ls1. induction Hp as [|x l1 l2 _ IH|x y l|l1 l2 l3 _ IH1 _ IH2]; intros ls1; cbn.
  - intros [= <-]. eauto.
  - case_bool_decide; [apply IH|]. intros Hr. res_inv. apply IH in Ha0 as (ls2 & Hls2 & Hperm). rewrite Ha. cbn. rewrite Hls2. cbn. eauto.
  - case_bool_decide; case_bool_decide; intros Hr; res_inv; eauto.
    + exists (a :: a0). rewrite Ha. cbn. by rewrite Ha0.
    + exists (a :: a0). rewrite Ha. cbn. by rewrite Ha0.
    + rewrite Ha1. cbn. rewrite Ha. cbn. rewrite Ha2. cbn. eexists. split; [done|]. constructor.
  - intros (ls2 & H2 & Hp2)%IH1. apply IH2 in H2 as (ls3 & H3 & Hp3). exists ls3. split; [done|]. by etrans.
Qed.

Lemma limits_of_others_own n ns l : ns_Name ns = n -> limits_of_others n (ns :: l) = limits_of_others n l.
Proof. intros Hn. cbn. by rewrite bool_decide_eq_true_2. Qed.
End synced.

(** ** Requests that succeed *)

Section runs.
Context `{L : QuotaLib} `{!QuotaLaws}.

Definition with_namespace (ns : Namespace) (w : QWorld) : QWorld := set_qw_namespaces (<[ns_Name ns := ns]> (qw_namespaces w)) w.

Lemma with_namespace_id ns w : qw_namespaces w !! ns_Name ns = Some ns -> with_namespace ns w = w.
Proof. intros Hs. unfold with_namespace. rewrite insert_id by done. by destruct w. Qed.
Lemma with_namespace_twice ns1 ns2 w : ns_Name ns1 = ns_Name ns2 -> with_namespace ns2 (with_namespace ns1 w) = with_namespace ns2 w.
Proof. intros Hn. unfold with_namespace. cbn. by rewrite Hn, insert_insert_eq. Qed.

(** The namespace after an update, and the version by which a change is noticed. *)
Lemma namespaces_Update_run ns cur w :
  qw_faults w = [] -> qw_namespaces w !! ns_Name ns = Some cur -> ns_ResourceVersion cur = ns_ResourceVersion ns -> ns_Name cur = ns_Name ns ->
  exists new, namespaces_Update ns w = (with_namespace new w, Ret new) /\ ns_Name new = ns_Name ns /\ ns_Annotations new = ns_Annotations ns
    /\ ns_Deleting new = ns_Deleting ns
    /\ (ns_ResourceVersion ns <= ns_ResourceVersion new) /\ (ns_Annotations ns <> ns_Annotations cur -> ns_ResourceVersion ns < ns_ResourceVersion new).
Proof.
  intros Hf Hs Hv Hn. unfold namespaces_Update, bind, gets, q_request. rewrite Hf. cbn. rewrite Hs, Hv, Z.eqb_refl. cbn. case_bool_decide as Hc.
  - exists cur. rewrite with_namespace_id by by rewrite Hn. subst cur. repeat split; [lia|done].
  - exists (bumped ns). cbn. repeat split; lia.
Qed.

Lemma setValidated_run ns v msg w l :
  qw_faults w = [] -> qw_namespaces w !! ns_Name ns = Some ns -> conditions_of ns = Ret l ->
  exists ns' s c, setValidated ns v msg w = (with_namespace ns' w, Ret ns') /\ ns_Name ns' = ns_Name ns /\ ns_Deleting ns' = ns_Deleting ns
    /\ ns_Annotations ns' = <[statusAnn := s]> (ns_Annotations ns)
    /\ nc_Type c = ResourceQuotaValidatedCondition /\ nc_Status c = status_text v /\ conditions_of ns' = Ret (put_ns_condition c l)
    /\ ns_ResourceVersion ns <= ns_ResourceVersion ns' /\ (ns_ResourceVersion ns' = ns_ResourceVersion ns -> conditions_of ns' = conditions_of ns).
Proof.
  intros Hf Hs Hl. unfold setValidated, bind at 1, gets.
  destruct (SetNamespaceCondition_run (qw_clock w) ns 1 ResourceQuotaValidatedCondition v msg l Hl) as (s & c & -> & Ht & Hst & Hcond).
  destruct (namespaces_Update_run (set_ns_Annotations (<[statusAnn := s]> (ns_Annotations ns)) ns) ns w) as (new & Hrun & Hn & Ha & Hd & Hle & Hlt); [done..|].
  exists new, s, c. cbn in Hn, Ha, Hd, Hle, Hlt. split; [exact Hrun|]. do 5 (split; [done|]).
  assert (conditions_of new = Ret (put_ns_condition c l)) as Hc by (unfold conditions_of in *; by rewrite Ha).
  split; [done|]. split; [done|]. intros Hv. destruct (decide (<[statusAnn := s]> (ns_Annotations ns) = ns_Annotations ns)) as [Heq|Hne];
    [|apply Hlt in Hne; lia]. unfold conditions_of. by rewrite Ha, Heq.
Qed.

Lemma conditions_of_annotations ns ns' :
  map_get (ns_Annotations ns') statusAnn = map_get (ns_Annotations ns) statusAnn -> conditions_of ns' = conditions_of ns.
Proof. unfold conditions_of. by intros ->. Qed.

Section validate.
Context `{C : !QuotaCaches}.

Lemma validate_run ns q w l limit id others fit ex :
  qw_faults w = [] -> qw_namespaces w !! ns_Name ns = Some ns -> ns_Deleting ns = false -> conditions_of ns = Ret l ->
  getProjectResourceQuotaLimit ns = Ret (Some limit, id) -> getNamespacesLimits ns id = Ret others ->
  IsQuotaFit (Some (nq_Limit q)) others (Some limit) = Ret (fit, ex) ->
  exists ns' b s c, validateAndSetNamespaceQuota ns q w = (with_namespace ns' w, Ret (fit, ns', ex))
    /\ ns_Name ns' = ns_Name ns /\ ns_Deleting ns' = false
    /\ json_Marshal_quota q = Ret b /\ ns_Annotations ns' = <[statusAnn := s]> (<[resourceQuotaAnnotation := b]> (ns_Annotations ns))
    /\ nc_Type c = ResourceQuotaValidatedCondition /\ nc_Status c = status_text fit /\ conditions_of ns' = Ret (put_ns_condition c l)
    /\ ns_ResourceVersion ns <= ns_ResourceVersion ns' /\ (ns_ResourceVersion ns' = ns_ResourceVersion ns -> conditions_of ns' = conditions_of ns).
Proof.
  intros Hf Hs Hd Hl Hp Ho Hfit. unfold validateAndSetNamespaceQuota. rewrite Hd. unfold bind at 1, lift at 1. rewrite Hp.
  destruct (Marshal_quota q) as (b & Hb & _). rewrite Hb. unfold bind at 1, lift at 1.
  destruct (namespaces_Update_run (set_ns_Annotations (<[resourceQuotaAnnotation := b]> (ns_Annotations ns)) ns) ns w) as (ns1 & Hrun & Hn & Ha & Hd1 & Hle & _); [done..|].
  cbn in Hn, Ha, Hd1, Hle. rewrite (bind_run _ _ _ _ _ Hrun), Ho. unfold bind at 1, lift at 1. rewrite Hfit. unfold bind at 1, lift at 1.
  assert (conditions_of ns1 = Ret l) as Hl1.
  { rewrite <- Hl. apply conditions_of_annotations. rewrite Ha. unfold map_get. by rewrite lookup_insert_ne. }
  match goal with |- context [setValidated ns1 fit ?m] => destruct (setValidated_run ns1 fit m (with_namespace ns1 w) l) as (ns2 & s & c & Hset & Hn2 & Hd2 & Ha2 & Ht & Hst & Hc & Hle2 & Hsame) end;
    [done|unfold with_namespace; cbn; apply lookup_insert_eq|done|].
  exists ns2, b, s, c. rewrite (bind_run _ _ _ _ _ Hset), with_namespace_twice by done. split; [done|].
  split; [congruence|]. split; [congruence|]. split; [done|]. split; [by rewrite Ha2, Ha|]. do 3 (split; [done|]). split; [lia|].
  intros Hv. rewrite Hsame by lia. by rewrite Hl1, Hl.
Qed.
End validate.
End runs.

(** ** A new namespace *)

Section rollout.
Context `{L : QuotaLib} `{!QuotaLaws}.

Abbreviation own_label := ({[ resourceQuotaLabel := "true" ]} : gmap string string).

(** No request fails, the namespace belongs to a project with quotas, texts are well-formed, nothing has been set up for
    the namespace yet, and the server has unused names at hand. *)
Record new_namespace (w : QWorld) (ns : Namespace) (p : Project) (pq : ProjectResourceQuota) (d : NamespaceResourceQuota)
    (request : ResourceQuotaLimit) (others : list (option ResourceQuotaLimit)) (ranges : option (list LimitRangeItem)) : Prop := {
  nn_faults : qw_faults w = [];
  nn_stored : qw_namespaces w !! ns_Name ns = Some ns;
  nn_alive : ns_Deleting ns = false;
  nn_project : project_of (C := quota_synced w) ns = Ret (Some p);
  nn_quota : pj_ResourceQuota p = Some pq;
  nn_default : pj_NamespaceDefaultResourceQuota p = Some d;
  nn_request : exists requested, getNamespaceResourceQuotaLimit ns = Ret requested
                 /\ request = match requested with Some r => completeQuota r (nq_Limit d) | None => nq_Limit d end;
  nn_wf : wf_limit (Some request);
  nn_some : exists k v, limit_map request !! k = Some v;
  nn_others : getNamespacesLimits (C := quota_synced w) ns (getProjectID ns) = Ret others;
  nn_others_wf : Forall wf_limit others;
  nn_limit_wf : wf_limit (Some (pq_Limit pq));
  nn_quotas : resourceQuotaLister_List (QuotaCaches := quota_synced w) (ns_Name ns) own_label = Ret [];
  nn_ranges : limitRangeLister_List (QuotaCaches := quota_synced w) (ns_Name ns) own_label = Ret [];
  nn_wanted : getResourceLimitToUpdate (C := quota_synced w) ns = Ret ranges;
  nn_names : exists s1 s2 rest, qw_suffixes w = s1 :: s2 :: rest /\ qw_quotas w !! (ns_Name ns, "default-" +:+ s1) = None
               /\ qw_limitRanges w !! (ns_Name ns, "default-" +:+ s2) = None;
  nn_conditions : exists l, conditions_of ns = Ret l /\ has_condition ResourceQuotaInitCondition true l = false
                    /\ forall v, has_condition ResourceQuotaValidatedCondition v l = false
}.

Lemma project_of_eq w w' ns ns' :
  qw_projects w' = qw_projects w -> getProjectID ns' = getProjectID ns -> project_of (C := quota_synced w') ns' = project_of (C := quota_synced w) ns.
Proof. intros Hp Hid. unfold project_of. rewrite Hid. cbn [projectLister_Get quota_synced]. by rewrite Hp. Qed.

Lemma project_limit_eq (C : QuotaCaches) ns p pq :
  project_of ns = Ret (Some p) -> pj_ResourceQuota p = Some pq -> getProjectResourceQuotaLimit ns = Ret (Some (pq_Limit pq), getProjectID ns).
Proof. intros Hp Hq. unfold getProjectResourceQuotaLimit. rewrite Hp. cbn. by rewrite Hq. Qed.

(** What the namespace asks for, and that it can be written as a list. *)
Lemma derived_eq (C : QuotaCaches) ns p pq d requested request :
  project_of ns = Ret (Some p) -> pj_ResourceQuota p = Some pq -> pj_NamespaceDefaultResourceQuota p = Some d ->
  getNamespaceResourceQuotaLimit ns = Ret requested ->
  request = match requested with Some r => completeQuota r (nq_Limit d) | None => nq_Limit d end -> wf_limit (Some request) ->
  exists spec, convertResourceLimitResourceQuotaSpec request = Ret spec /\ deriveRequestedResourceQuota ns = Ret (Some (request, spec)).
Proof.
  intros Hp Hq Hd Hr -> Hwf. destruct (convertSpec_total _ Hwf) as [spec Hspec]. exists spec. split; [done|].
  unfold deriveRequestedResourceQuota, getProjectNamespaceDefaultQuota. rewrite Hr, Hp. cbn [res_bind]. rewrite Hq, Hd. cbn [res_bind].
  destruct requested; by rewrite Hspec.
Qed.

Lemma spec_nonempty l spec k v : convertResourceLimitResourceQuotaSpec l = Ret spec -> limit_map l !! k = Some v -> map_size spec <> 0%nat.
Proof.
  intros (Hwf & Hs & _)%convertSpec_Ret Hk. pose proof (limit_map_names _ _ _ Hk) as [Hin _]. specialize (Hs k Hin).
  destruct (Hwf k v Hk) as [a Ha]. unfold limit_amount, limit_ptr_map in Hs. rewrite Hk in Hs. cbn in Hs. rewrite Ha in Hs.
  apply fmap_Some in Hs as (q & Hq & _). intros Hz. apply map_size_empty_inv in Hz. subst spec. by rewrite lookup_empty in Hq.
Qed.

(** The others are the same after the namespace itself was written. *)
Lemma limits_without_own n ns f l : ns_Name ns = n -> limits_of_others n (List.filter f (ns :: l)) = limits_of_others n (List.filter f l).
Proof. intros Hn. cbn [List.filter]. destruct (f ns); [by apply limits_of_others_own|done]. Qed.

Lemma others_kept w w' ns ns' id others :
  qw_namespaces w !! ns_Name ns = Some ns -> ns_Name ns' = ns_Name ns -> qw_namespaces w' = <[ns_Name ns := ns']> (qw_namespaces w) ->
  getNamespacesLimits (C := quota_synced w) ns id = Ret others ->
  exists others', getNamespacesLimits (C := quota_synced w') ns' id = Ret others' /\ others ≡ₚ others'.
Proof.
  intros Hs Hn Hw. unfold getNamespacesLimits. cbn [nsIndexer_ByIndex quota_synced res_bind]. rewrite Hn, Hw.
  set (f := fun x => bool_decide (id ∈ nsByProjectID x)). intros Ho.
  eapply limits_of_others_perm in Ho as (o1 & Ho1 & Hp1); [|apply filter_bool_perm, (values_split _ _ _ Hs)].
  rewrite limits_without_own in Ho1 by done. rewrite <- (limits_without_own _ ns') in Ho1 by done.
  eapply limits_of_others_perm in Ho1 as (o2 & Ho2 & Hp2); [|apply filter_bool_perm; symmetry; apply values_insert_old].
  exists o2. split; [done|]. by etrans.
Qed.

(** The same shares in another order fit or do not fit alike. *)
Lemma violates_perm own o1 o2 project k : o1 ≡ₚ o2 -> violates own o1 project k -> violates own o2 project k.
Proof. intros Hp. unfold violates. by rewrite (sum_amounts_perm (own :: o1) (own :: o2)) by by constructor. Qed.

Lemma IsQuotaFit_perm own o1 o2 project fit ex :
  o1 ≡ₚ o2 -> IsQuotaFit own o1 project = Ret (fit, ex) -> exists ex', IsQuotaFit own o2 project = Ret (fit, ex').
Proof.
  intros Hp (W1 & W2 & W3 & Hfit & _)%IsQuotaFit_Ret. destruct (IsQuotaFit_total own o2 project) as (fit' & ex' & Hr); [done|by rewrite <- Hp|done|].
  exists ex'. rewrite Hr. apply IsQuotaFit_Ret in Hr as (_ & _ & _ & Hfit' & _). do 2 f_equal.
  enough (fit' = true <-> fit = true) by (destruct fit, fit'; naive_solver). rewrite Hfit, Hfit'. split; intros Hk k Hv; apply (Hk k);
    by (eapply violates_perm; [|done]).
Qed.

(** What is granted: the share, with zero for the resources that do not fit. *)
Definition grant (own : ResourceQuotaLimit) (fit : bool) (ex : option ResourceList) : ResourceQuotaLimit :=
  if fit then own else zeroOutResourceQuotaLimit own (default ∅ ex).

Lemma grant_total own fit ex : wf_limit (Some own) -> exists spec, convertResourceLimitResourceQuotaSpec (grant own fit ex) = Ret spec.
Proof.
  intros Hwf. apply convertSpec_total. unfold grant. destruct fit; [done|]. intros k v. unfold limit_ptr_map, zeroOutResourceQuotaLimit. rewrite limit_map_of.
  case_bool_decide; [|done]. destruct ((_ ∪ _) !! k) as [x|] eqn:Ek; [|done]. cbn. case_bool_decide; [done|]. intros [= <-].
  apply lookup_union_Some_raw in Ek as [Hz|[_ Ho]]; [|by eapply Hwf]. rewrite lookup_fmap in Hz. apply fmap_Some in Hz as (y & _ & ->).
  destruct Parse_zero as (z & Hz & Ha). unfold text_amount. rewrite Hz. eauto.
Qed.

Lemma grant_amount own others limit fit ex k :
  IsQuotaFit (Some own) others (Some limit) = Ret (fit, ex) ->
  (violates (Some own) others (Some limit) k -> limit_amount (Some (grant own fit ex)) k = Some 0)
  /\ (~ violates (Some own) others (Some limit) k -> limit_amount (Some (grant own fit ex)) k = limit_amount (Some own) k).
Proof.
  intros (_ & _ & _ & Hfit & _ & Hex)%IsQuotaFit_Ret. unfold grant. destruct fit; [split; [intros Hv; destruct (proj1 Hfit eq_refl k Hv)|done]|].
  destruct Hex as (e & -> & He); [done|]. change (default ∅ (Some e)) with e.
  assert (forall j, violates (Some own) others (Some limit) j <-> is_Some (e !! j)) as Hdom.
  { intros j. destruct (He j) as [Hyes Hno]. split; [|done]. intros Hv. destruct (violates_present _ _ _ _ Hv) as [y Hy].
    rewrite Hy in Hyes. apply fmap_Some in Hyes as (z & Hz & _); eauto. }
  rewrite limit_amount_zeroed.
  2: { intros j Hj%Hdom. apply (sum_amounts_names (Some own :: others)). by eapply violates_present. }
  rewrite Hdom. split; [by intros [z ->]|]. intros Hn. destruct (e !! k); [destruct Hn; eauto|done].
Qed.

(** ** The first run *)

Lemma Create_quota_run n labels hard w s rest :
  qw_faults w = [] -> qw_suffixes w = s :: rest -> qw_quotas w !! (n, "default-" +:+ s) = None ->
  resourceQuotas_Create n labels hard w
  = (set_qw_quotas (<[(n, "default-" +:+ s) := mkResourceQuota n ("default-" +:+ s) 1 labels hard]> (qw_quotas w)) (set_qw_suffixes rest w), Ret tt).
Proof. intros Hf Hs Hn. unfold resourceQuotas_Create, bind, gets, q_request, generated_name. rewrite Hf, Hs. cbn -[String.append]. by rewrite Hn. Qed.

Lemma namespaces_Update_conflict ns cur w :
  qw_faults w = [] -> qw_namespaces w !! ns_Name ns = Some cur -> ns_ResourceVersion cur <> ns_ResourceVersion ns ->
  namespaces_Update ns w = (w, Fail (conflict "namespaces" (ns_Name ns))).
Proof.
  intros Hf Hs Hv. unfold namespaces_Update, bind, gets, q_request. rewrite Hf. cbn. rewrite Hs.
  by destruct (Z.eqb_spec (ns_ResourceVersion cur) (ns_ResourceVersion ns)).
Qed.

(** The world after the first run. *)
Definition created (ns1 : Namespace) (name : string) (hard : ResourceList) (rest : list string) (w : QWorld) : QWorld :=
  set_qw_quotas (<[(ns_Name ns1, name) := mkResourceQuota (ns_Name ns1) name 1 own_label hard]> (qw_quotas w)) (set_qw_suffixes rest (with_namespace ns1 w)).

Lemma quota_first_run w ns p pq d request others ranges :
  new_namespace w ns p pq d request others ranges ->
  exists fit ex ns1 b st c l hard s1 s2 rest,
    IsQuotaFit (Some request) others (Some (pq_Limit pq)) = Ret (fit, ex)
    /\ convertResourceLimitResourceQuotaSpec (grant request fit ex) = Ret hard
    /\ handle (ns_Name ns) w = (created ns1 ("default-" +:+ s1) hard (s2 :: rest) w, Fail (conflict "namespaces" (ns_Name ns)))
    /\ ns_Name ns1 = ns_Name ns /\ ns_Deleting ns1 = false
    /\ json_Marshal_quota (mkNamespaceQuota request) = Ret b /\ ns_Annotations ns1 = <[statusAnn := st]> (<[resourceQuotaAnnotation := b]> (ns_Annotations ns))
    /\ nc_Type c = ResourceQuotaValidatedCondition /\ nc_Status c = status_text fit
    /\ conditions_of ns = Ret l /\ conditions_of ns1 = Ret (put_ns_condition c l)
    /\ qw_suffixes w = s1 :: s2 :: rest /\ qw_limitRanges w !! (ns_Name ns, "default-" +:+ s2) = None.
Proof.
  intros N. destruct (nn_request _ _ _ _ _ _ _ _ N) as (requested & Hreq & Heq). destruct (nn_names _ _ _ _ _ _ _ _ N) as (s1 & s2 & rest & Hsuf & Hfree & Hfree2).
  destruct (nn_conditions _ _ _ _ _ _ _ _ N) as (l & Hl & Hinit & Hval). destruct (nn_some _ _ _ _ _ _ _ _ N) as (k & v & Hk).
  destruct N as [Hf Hs Hd Hp Hq Hdef _ Hwf _ Ho Howf Hlwf Hquotas _ _ _ _].
  destruct (IsQuotaFit_total (Some request) others (Some (pq_Limit pq))) as (fit & ex & Hfit); [done..|].
  destruct (grant_total request fit ex Hwf) as [hard Hhard].
  destruct (derived_eq (quota_synced w) ns p pq d requested request) as (spec & Hspec & Hder); [done..|].
  pose proof (project_limit_eq (quota_synced w) ns p pq Hp Hq) as Hlim.
  destruct (validate_run (C := quota_synced w) ns (mkNamespaceQuota request) w l _ _ others fit ex Hf Hs Hd Hl Hlim Ho Hfit)
    as (ns1 & b & st & c & Hval1 & Hn1 & Hd1 & Hb & Ha1 & Ht & Hst & Hc1 & Hle & Hsame).
  exists fit, ex, ns1, b, st, c, l, hard, s1, s2, rest. do 2 (split; [done|]). split; [|by repeat (split; [done|])].
  assert (ns_ResourceVersion ns1 <> ns_ResourceVersion ns) as Hrv.
  { intros Hv%Hsame. rewrite Hc1, Hl in Hv. injection Hv as Hv. apply (has_put_same c fit l) in Hst. rewrite Ht, Hv in Hst. by rewrite Hval in Hst. }
  unfold handle. rewrite Hs. cbn [syncResourceQuota]. rewrite Hd. unfold bind at 1, CreateResourceQuota at 1.
  unfold getExistingResourceQuota. rewrite Hquotas. cbn [res_bind head]. unfold bind at 1, lift at 1. rewrite Hder. unfold bind at 1, lift at 1.
  unfold choose_operation. rewrite bool_decide_eq_false_2 by by eapply spec_nonempty. cbn [perform_operation].
  set (k1 := fun updated : option Namespace => _).
  assert (perform_operation (C := quota_synced w) ns (op_create request spec) w = (created ns1 ("default-" +:+ s1) hard (s2 :: rest) w, Ret None)) as Hop.
  { cbn [perform_operation]. rewrite (bind_run _ _ _ _ _ Hval1).
    rewrite (bind_run _ _ (with_namespace ns1 w) (with_namespace ns1 w) hard).
    2: { unfold grant in Hhard. destruct fit; [|unfold lift; by rewrite Hhard]. rewrite Hspec in Hhard. by injection Hhard as ->. }
    unfold createResourceQuota. rewrite (bind_run _ _ _ (created ns1 ("default-" +:+ s1) hard (s2 :: rest) w) tt); [done|].
    unfold created. rewrite Hn1. by rewrite (Create_quota_run _ _ _ _ s1 (s2 :: rest)). }
  cbn [perform_operation] in Hop. rewrite (bind_run _ _ _ _ _ Hop). subst k1. cbn beta. cbn [default from_option].
  rewrite IsNamespaceConditionSet_eq, Hl. cbn [res_bind]. rewrite Hinit. unfold bind, lift, gets.
  destruct (SetNamespaceCondition_run (qw_clock (created ns1 ("default-" +:+ s1) hard (s2 :: rest) w)) ns 1 ResourceQuotaInitCondition true "" l Hl) as (st' & c' & Hset & _).
  cbn [from_option id] in *. rewrite Hset. rewrite (namespaces_Update_conflict _ ns1); [done|done| |done]. cbn. rewrite Hn1. apply lookup_insert_eq.
Qed.

(** ** The second run *)

(** The outcome of the validation is noted, nothing else. *)
Definition noted (fit : bool) (l : list ns_condition) : Prop :=
  has_condition ResourceQuotaInitCondition true l = false /\ forall v, has_condition ResourceQuotaValidatedCondition v l = bool_decide (v = fit).

Lemma noted_put fit c l :
  nc_Type c = ResourceQuotaValidatedCondition -> nc_Status c = status_text fit -> has_condition ResourceQuotaInitCondition true l = false ->
  (forall v, v <> fit -> has_condition ResourceQuotaValidatedCondition v l = false) -> noted fit (put_ns_condition c l).
Proof.
  intros Ht Hs Hi Hv. split; [rewrite has_put_other; [done|]; by rewrite Ht|]. intros v. rewrite <- Ht. case_bool_decide as Hfit.
  - subst v. by apply has_put_same.
  - apply has_put_different; [|rewrite Ht; by apply Hv]. rewrite Hs. intros Heq%status_text_inj. congruence.
Qed.

Lemma listed_new n (w : QWorld) w' key q :
  resourceQuotaLister_List (QuotaCaches := quota_synced w) n own_label = Ret [] -> qw_quotas w !! key = None ->
  qw_quotas w' = <[key := q]> (qw_quotas w) -> q_Namespace q = n -> q_Labels q = own_label ->
  resourceQuotaLister_List (QuotaCaches := quota_synced w') n own_label = Ret [q].
Proof.
  cbn [resourceQuotaLister_List quota_synced]. intros Hnil Hk -> Hn Hl. injection Hnil as Hnil. f_equal. apply Permutation_singleton_r.
  rewrite (filter_bool_perm _ _ _ (values_insert_new _ _ q Hk)). cbn [List.filter]. rewrite Hnil, Hn, Hl, !bool_decide_eq_true_2; done.
Qed.

Lemma ranges_listed_new n (w : QWorld) w' key r :
  limitRangeLister_List (QuotaCaches := quota_synced w) n own_label = Ret [] -> qw_limitRanges w !! key = None ->
  qw_limitRanges w' = <[key := r]> (qw_limitRanges w) -> lr_Namespace r = n -> lr_Labels r = own_label ->
  limitRangeLister_List (QuotaCaches := quota_synced w') n own_label = Ret [r].
Proof.
  cbn [limitRangeLister_List quota_synced]. intros Hnil Hk -> Hn Hl. injection Hnil as Hnil. f_equal. apply Permutation_singleton_r.
  rewrite (filter_bool_perm _ _ _ (values_insert_new _ _ r Hk)). cbn [List.filter]. rewrite Hnil, Hn, Hl, !bool_decide_eq_true_2; done.
Qed.

Lemma recorded_limit ns b request :
  json_Marshal_quota (mkNamespaceQuota request) = Ret b -> ns_Annotations ns !! resourceQuotaAnnotation = Some b ->
  getNamespaceResourceQuotaLimit ns = Ret (Some request).
Proof.
  intros Hb Ha. unfold getNamespaceResourceQuotaLimit, getNamespaceResourceQuota. rewrite (map_get_Some _ _ _ Ha).
  destruct (Marshal_quota (mkNamespaceQuota request)) as (b' & Hb' & Hne & Hu). rewrite Hb in Hb'. injection Hb' as <-.
  rewrite bool_decide_eq_false_2 by done. by rewrite Hu.
Qed.

(** Once there is a quota with what is granted, an operation on it only notes the outcome again. *)
Lemma regrant_run (C : QuotaCaches) w ns q request spec others limit id fit ex l :
  qw_faults w = [] -> qw_namespaces w !! ns_Name ns = Some ns -> ns_Deleting ns = false -> conditions_of ns = Ret l -> noted fit l ->
  getProjectResourceQuotaLimit ns = Ret (Some limit, id) -> getNamespacesLimits ns id = Ret others ->
  IsQuotaFit (Some request) others (Some limit) = Ret (fit, ex) -> convertResourceLimitResourceQuotaSpec request = Ret spec -> map_size spec <> 0%nat ->
  getNamespaceResourceQuotaLimit ns = Ret (Some request) ->
  (fit = true -> q_Hard q = spec) ->
  exists ns' u l', perform_operation ns (choose_operation (Some q) (Some (request, spec))) w = (with_namespace ns' w, Ret u)
    /\ default ns u = ns' /\ ns_Name ns' = ns_Name ns /\ conditions_of ns' = Ret l' /\ noted fit l'
    /\ getNamespaceResourceQuotaLimit ns' = Ret (Some request).
Proof.
  intros Hf Hs Hd Hl Hnoted Hlim Ho Hfit Hspec Hsize Hann Hhard. unfold choose_operation. rewrite bool_decide_eq_false_2 by done.
  destruct (Semantic_DeepEqual (q_Hard q) spec) eqn:Edeep.
  { exists ns, None, l. rewrite with_namespace_id by done. cbn. by repeat (split; [done|]). }
  destruct fit; [rewrite Hhard in Edeep by done; assert (Semantic_DeepEqual spec spec = true) by (by apply DeepEqual_spec); congruence|].
  destruct (validate_run ns (mkNamespaceQuota request) w l limit id others false ex Hf Hs Hd Hl Hlim Ho Hfit)
    as (ns' & b & st & c & Hval & Hn & _ & Hb & Ha & Ht & Hst & Hc & _ & _).
  exists ns', (Some ns'), (put_ns_condition c l). cbn [perform_operation]. rewrite (bind_run _ _ _ _ _ Hval).
  do 4 (split; [done|]). split; [apply noted_put; [done..|by apply Hnoted|]; intros v Hv; destruct Hnoted as [_ ->]; by rewrite bool_decide_eq_false_2|].
  apply (recorded_limit _ b); [done|]. by rewrite Ha, lookup_insert_ne, lookup_insert_eq.
Qed.

(** What is set up in the end. *)
Record set_up (w : QWorld) (n : string) (request : ResourceQuotaLimit) (others : list (option ResourceQuotaLimit)) (limit : ResourceQuotaLimit)
    (ranges : option (list LimitRangeItem)) : Prop := {
  su_namespace : exists ns fit, qw_namespaces w !! n = Some ns /\ getNamespaceResourceQuotaLimit ns = Ret (Some request)
    /\ IsNamespaceConditionSet ns ResourceQuotaInitCondition true = Ret true
    /\ IsNamespaceConditionSet ns ResourceQuotaValidatedCondition true = Ret fit
    /\ (fit = true <-> forall k, ~ violates (Some request) others (Some limit) k);
  su_quota : exists q, resourceQuotaLister_List (QuotaCaches := quota_synced w) n own_label = Ret [q]
    /\ forall k, k ∈ limit_names ->
         (violates (Some request) others (Some limit) k -> amount <$> q_Hard q !! native k = Some 0)
         /\ (~ violates (Some request) others (Some limit) k -> amount <$> q_Hard q !! native k = limit_amount (Some request) k);
  su_range : exists rs, limitRangeLister_List (QuotaCaches := quota_synced w) n own_label = Ret rs
    /\ map lr_Limits rs = match ranges with Some items => [items] | None => [] end
}.

Lemma wanted_eq (w w' : QWorld) ns ns' :
  qw_projects w' = qw_projects w -> getProjectID ns' = getProjectID ns ->
  getNamespaceContainerDefaultResourceLimit ns' = getNamespaceContainerDefaultResourceLimit ns ->
  getResourceLimitToUpdate (C := quota_synced w') ns' = getResourceLimitToUpdate (C := quota_synced w) ns.
Proof.
  intros Hp Hid Hc. unfold getResourceLimitToUpdate, getNamespaceContainerResourceLimit, getProjectContainerDefaultLimit.
  by rewrite Hc, (project_of_eq w w' ns ns' Hp Hid).
Qed.

(** The limit range of a namespace that has none. *)
Lemma createLimitRange_run (C : QuotaCaches) ns ranges w s rest :
  limitRangeLister_List (ns_Name ns) own_label = Ret [] -> getResourceLimitToUpdate ns = Ret ranges ->
  qw_faults w = [] -> qw_suffixes w = s :: rest -> qw_limitRanges w !! (ns_Name ns, "default-" +:+ s) = None ->
  createLimitRange ns w = (match ranges with
                           | None => w
                           | Some items => set_qw_limitRanges (<[(ns_Name ns, "default-" +:+ s) := mkLimitRange (ns_Name ns) ("default-" +:+ s) 1 own_label items]>
                                             (qw_limitRanges w)) (set_qw_suffixes rest w)
                           end, Ret tt).
Proof.
  intros Hl Hr Hf Hs Hn. unfold createLimitRange, getExistingLimitRange. rewrite Hl, Hr. destruct ranges as [items|]; [|done].
  unfold bind at 1, lift at 1. cbn [res_bind head]. unfold bind at 1, lift at 1.
  unfold createDefaultLimitRange, limitRange_Create, bind, gets, q_request, generated_name. rewrite Hf, Hs. cbn -[String.append]. by rewrite Hn.
Qed.

(** A run on a namespace that has its quota already. *)
Lemma completing_run w ns p pq d request others ranges q fit ex l spec s rest :
  qw_faults w = [] -> qw_namespaces w !! ns_Name ns = Some ns -> ns_Deleting ns = false ->
  project_of (C := quota_synced w) ns = Ret (Some p) -> pj_ResourceQuota p = Some pq -> pj_NamespaceDefaultResourceQuota p = Some d ->
  getNamespaceResourceQuotaLimit ns = Ret (Some request) -> completeQuota request (nq_Limit d) = request -> wf_limit (Some request) ->
  convertResourceLimitResourceQuotaSpec request = Ret spec -> map_size spec <> 0%nat ->
  getNamespacesLimits (C := quota_synced w) ns (getProjectID ns) = Ret others -> IsQuotaFit (Some request) others (Some (pq_Limit pq)) = Ret (fit, ex) ->
  conditions_of ns = Ret l -> noted fit l ->
  resourceQuotaLister_List (QuotaCaches := quota_synced w) (ns_Name ns) own_label = Ret [q] -> (fit = true -> q_Hard q = spec) ->
  limitRangeLister_List (QuotaCaches := quota_synced w) (ns_Name ns) own_label = Ret [] -> getResourceLimitToUpdate (C := quota_synced w) ns = Ret ranges ->
  qw_suffixes w = s :: rest -> qw_limitRanges w !! (ns_Name ns, "default-" +:+ s) = None ->
  exists ns2, handle (ns_Name ns) w = (match ranges with
      | None => with_namespace ns2 w
      | Some items => set_qw_limitRanges (<[(ns_Name ns, "default-" +:+ s) := mkLimitRange (ns_Name ns) ("default-" +:+ s) 1 own_label items]>
                        (qw_limitRanges w)) (set_qw_suffixes rest (with_namespace ns2 w))
      end, Ret tt)
    /\ ns_Name ns2 = ns_Name ns /\ getNamespaceResourceQuotaLimit ns2 = Ret (Some request)
    /\ IsNamespaceConditionSet ns2 ResourceQuotaInitCondition true = Ret true
    /\ IsNamespaceConditionSet ns2 ResourceQuotaValidatedCondition true = Ret fit.
Proof.
  intros Hf Hs Hd Hp Hq Hdef Hreq Hidem Hwf Hspec Hsize Ho Hfit Hl Hnoted Hquota Hhard Hranges Hwanted Hsuf Hfree.
  destruct (derived_eq (quota_synced w) ns p pq d (Some request) request) as (spec' & Hspec' & Hder); [done..|].
  assert (spec' = spec) as -> by congruence. pose proof (project_limit_eq (quota_synced w) ns p pq Hp Hq) as Hlim.
  destruct (regrant_run (quota_synced w) w ns q request spec others (pq_Limit pq) (getProjectID ns) fit ex l)
    as (ns' & u & l' & Hop & Hu & Hn' & Hl' & Hnoted' & Hreq'); [done..|].
  destruct (SetNamespaceCondition_run (qw_clock (with_namespace ns' w)) ns' 1 ResourceQuotaInitCondition true "" l' Hl') as (st & c & Hset & Ht & Hst & Hc).
  destruct (namespaces_Update_run (set_ns_Annotations (<[statusAnn := st]> (ns_Annotations ns')) ns') ns' (with_namespace ns' w))
    as (ns2 & Hupd & Hn2 & Ha2 & _); [done|cbn; apply lookup_insert_eq|done..|].
  cbn in Hn2, Ha2. rewrite with_namespace_twice in Hupd by done.
  assert (conditions_of ns2 = Ret (put_ns_condition c l')) as Hc2 by (rewrite <- Hc; apply conditions_of_annotations; cbn; by rewrite Ha2).
  exists ns2. split.
  - unfold handle. rewrite Hs. cbn [syncResourceQuota]. rewrite Hd.
    rewrite (bind_run _ _ w (with_namespace ns2 w) ns2).
    + by rewrite (createLimitRange_run (quota_synced w) ns ranges _ s rest).
    + unfold CreateResourceQuota, getExistingResourceQuota. rewrite Hquota. cbn [res_bind head]. unfold bind at 1, lift at 1. rewrite Hder.
      unfold bind at 1, lift at 1. rewrite (bind_run _ _ _ _ _ Hop). rewrite IsNamespaceConditionSet_eq, Hl. cbn [res_bind].
      rewrite (proj1 Hnoted). unfold bind at 1, lift at 1. rewrite Hu. unfold bind, gets. by rewrite Hset.
  - split; [congruence|]. split; [|rewrite !IsNamespaceConditionSet_eq, Hc2; cbn [res_bind]; rewrite <- Ht at 1;
      rewrite has_put_same, has_put_other, (proj2 Hnoted') by (done || by rewrite Ht); split; [done|]; f_equal; by destruct fit].
    revert Hreq'. unfold getNamespaceResourceQuotaLimit, getNamespaceResourceQuota, map_get. by rewrite Ha2, lookup_insert_ne.
Qed.

(** C37: A new namespace of a project gets its quota in two runs of the handler, when no request fails and the caches are up to
    date at the start of each run: the first run
    creates the quota and ends with a conflict, since it writes the namespace once more as it was read; the second run
    completes the work.  Then the request is recorded and its validation noted, the quota grants every resource that fits
    and nothing of those that do not, and the limit range is the one that [getResourceLimitToUpdate] computes for the namespace. *)
Theorem new_namespace_set_up w ns p pq d request others ranges :
  new_namespace w ns p pq d request others ranges ->
  exists w1 w2, handle (ns_Name ns) w = (w1, Fail (conflict "namespaces" (ns_Name ns))) /\ handle (ns_Name ns) w1 = (w2, Ret tt)
    /\ set_up w2 (ns_Name ns) request others (pq_Limit pq) ranges.
Proof.
  intros N. destruct (quota_first_run _ _ _ _ _ _ _ _ N) as (fit & ex & ns1 & b & st & c & l & hard & s1 & s2 & rest & Hfit & Hhard & Hrun1 & Hn1 & Hd1 & Hb & Ha1
    & Ht & Hst & Hl & Hl1 & Hsuf & Hfree2).
  destruct (nn_request _ _ _ _ _ _ _ _ N) as (requested & Hreq & Heq). destruct (nn_names _ _ _ _ _ _ _ _ N) as (s1' & s2' & rest' & Hsuf' & Hfree & _).
  assert (s1' = s1) as -> by congruence. clear s2' rest' Hsuf'. destruct (nn_conditions _ _ _ _ _ _ _ _ N) as (l0 & Hl0 & Hinit & Hval).
  assert (l0 = l) as -> by congruence. destruct (nn_some _ _ _ _ _ _ _ _ N) as (k & v & Hk).
  destruct N as [Hf Hs Hd Hp Hq Hdef _ Hwf _ Ho Howf Hlwf Hquotas Hranges Hwanted _ _].
  set (w1 := created ns1 ("default-" +:+ s1) hard (s2 :: rest) w) in *. exists w1.
  pose proof (others_kept w w1 ns ns1 (getProjectID ns) others Hs Hn1 ltac:(cbn; by rewrite Hn1) Ho) as (others1 & Ho1 & Hperm).
  destruct (IsQuotaFit_perm _ _ others1 _ _ _ Hperm Hfit) as (ex1 & Hfit1).
  destruct (convertSpec_total _ Hwf) as [spec Hspec].
  assert (forall a, a <> statusAnn -> a <> resourceQuotaAnnotation -> map_get (ns_Annotations ns1) a = map_get (ns_Annotations ns) a) as Hann.
  { intros a Hx Hy. unfold map_get. by rewrite Ha1, !lookup_insert_ne by done. }
  assert (getProjectID ns1 = getProjectID ns) as Hid by by apply Hann.
  set (q := mkResourceQuota (ns_Name ns1) ("default-" +:+ s1) 1 own_label hard).
  assert (resourceQuotaLister_List (QuotaCaches := quota_synced w1) (ns_Name ns1) own_label = Ret [q]) as Hq1.
  { apply (listed_new _ w w1 (ns_Name ns1, "default-" +:+ s1)); [|by rewrite Hn1|done..]. by rewrite Hn1. }
  destruct (completing_run w1 ns1 p pq d request others1 ranges q fit ex1 (put_ns_condition c l) spec s2 rest) as (ns2 & Hrun2 & Hn2 & Hreq2 & Hi2 & Hv2); try done.
  { cbn. apply lookup_insert_eq. }
  { by rewrite (project_of_eq w w1 ns ns1). }
  { apply (recorded_limit _ b); [done|]. by rewrite Ha1, lookup_insert_ne, lookup_insert_eq. }
  { rewrite Heq. destruct requested; [apply completeQuota_idem|apply completeQuota_default]. }
  { by eapply spec_nonempty. }
  { by rewrite Hid. }
  { apply noted_put; [done..|]. intros x _. apply Hval. }
  { intros ->. cbn in Hhard |- *. congruence. }
  { by rewrite Hn1. }
  { rewrite (wanted_eq w w1 ns ns1); [done..|by apply Hann]. }
  { by rewrite Hn1. }
  eexists. split; [done|]. rewrite <- Hn1. split; [exact Hrun2|].
  set (w2 := match ranges with Some _ => _ | None => _ end).
  assert (qw_namespaces w2 = <[ns_Name ns1 := ns2]> (qw_namespaces w1) /\ qw_quotas w2 = qw_quotas w1) as [Hns2 Hqs2].
  { unfold w2. destruct ranges; cbn; by rewrite Hn2. }
  split.
  - exists ns2, fit. rewrite Hns2, lookup_insert_eq. do 4 (split; [done|]). by apply IsQuotaFit_Ret in Hfit as (_ & _ & _ & Hiff & _).
  - exists q. cbn [resourceQuotaLister_List quota_synced] in Hq1 |- *. rewrite Hqs2. split; [done|]. intros j Hj. cbn [q q_Hard].
    apply convertSpec_Ret in Hhard as (_ & Hamount & _). rewrite Hamount by done. by apply (grant_amount _ others).
  - unfold w2. destruct ranges as [items|].
    + exists [mkLimitRange (ns_Name ns1) ("default-" +:+ s2) 1 own_label items]. split; [|done].
      apply (ranges_listed_new _ w1 _ (ns_Name ns1, "default-" +:+ s2)); [by rewrite Hn1..|done|done|done].
    + exists []. split; [|done]. by rewrite Hn1.
Qed.
End rollout.

(** ** A new namespace beside another one *)

Abbreviation demo_world := (demo_quotas "4" []).
Definition demo_ranges : option (list (LimitRangeItem (L := whole_numbers))) :=
  match getResourceLimitToUpdate (C := quota_synced demo_world) (demo_b "4") with Ret r => r | _ => None end.
Lemma demo_ranges_wanted : getResourceLimitToUpdate (C := quota_synced demo_world) (demo_b "4") = Ret demo_ranges.
Proof.
  assert (returns (getResourceLimitToUpdate (C := quota_synced demo_world) (demo_b "4")) = true) as Hr by (vm_compute; reflexivity).
  unfold demo_ranges. by destruct (getResourceLimitToUpdate _).
Qed.

Lemma pods_wf n : returns (ParseQuantity (QuotaLib := whole_numbers) n) = true -> n <> "" -> wf_limit (Some (pods n)).
Proof.
  intros Hn Hne k v. unfold limit_ptr_map, pods. rewrite limit_map_of_id; [|intros j x [<- <-]%lookup_singleton_Some; split; [vm_compute; left|done]].
  intros [<- <-]%lookup_singleton_Some. unfold text_amount. destruct (ParseQuantity n); [eauto|done..].
Qed.

Lemma demo_new : new_namespace demo_world (demo_b "4") demo_project (mkProjectQuota (pods "10") zeroLimit) (mkNamespaceQuota (pods "3")) (pods "4")
                   [Some (pods "5")] demo_ranges.
Proof.
  split.
  - reflexivity.
  - reflexivity.
  - reflexivity.
  - vm_compute. reflexivity.
  - reflexivity.
  - reflexivity.
  - exists (Some (pods "4")). split; vm_compute; reflexivity.
  - by apply pods_wf.
  - exists "pods", "4". vm_compute. reflexivity.
  - vm_compute. reflexivity.
  - constructor; [by apply pods_wf|constructor].
  - by apply pods_wf.
  - cbn [resourceQuotaLister_List quota_synced]. reflexivity.
  - cbn [limitRangeLister_List quota_synced]. reflexivity.
  - apply demo_ranges_wanted.
  - exists "y1", "y2", ["y3"]. split; [reflexivity|].
    change (qw_quotas demo_world) with ({[ ("a", "default-x") := demo_quota ]} : gmap (string * string) ResourceQuota).
    change (qw_limitRanges demo_world) with (∅ : gmap (string * string) LimitRange). split; [|apply lookup_empty]. by rewrite lookup_singleton_ne.
  - exists []. split; [vm_compute; reflexivity|]. by split; [|intros []].
Qed.

Lemma new_namespace_set_up_witness :
  exists w1 w2, handle "b" demo_world = (w1, Fail (conflict "namespaces" "b")) /\ handle "b" w1 = (w2, Ret tt)
    /\ set_up w2 "b" (pods "4") [Some (pods "5")] (pods "10") demo_ranges.
Proof. exact (new_namespace_set_up demo_world (demo_b "4") demo_project _ _ _ _ _ demo_new). Defined.
