(* ===== verification/QuotaStore.v ===== *)
(** * Resource quotas at the API ([store/namespace/store.go], [customization/project/project_store.go])

    Before a namespace or a project is stored, its quota is checked: that of a namespace against the project and the other
    namespaces, that of a project against what its namespaces use already. *)

From S2P Require Import Prelude GoLib Codec Errors Types External Instances World Quota QuotaSync QuotaSafety.

Definition quotaField : string := "resourceQuota".
Definition namespaceQuotaField : string := "namespaceDefaultResourceQuota".
Definition containerResourceLimitField : string := "containerDefaultResourceLimit".
Definition roleTemplatesRequired : string := "authz.management.cattle.io/creator-role-bindings".

(** [mgmtclient.Project] and [clusterclient.Namespace], as far as they are read; limits are pointers, and the default for
    containers is kept as the data it stands for. *)
Record ClientProject := mkClientProject {
  cp_ID : string;
  cp_ClusterID : string;
  cp_ResourceQuota : option (option ResourceQuotaLimit * option ResourceQuotaLimit);      (** limit and used limit *)
  cp_NamespaceDefaultResourceQuota : option (option ResourceQuotaLimit);
  cp_ContainerDefaultResourceLimit : value
}.
Record ClientNamespace := mkClientNamespace {
  cn_ID : string;
  cn_ProjectID : string;
  cn_ResourceQuota : option (option ResourceQuotaLimit)
}.
Record RoleTemplate := mkRoleTemplate {
  rt_Name : string;
  rt_ProjectCreatorDefault : bool;
  rt_Locked : bool
}.

(** Norman ([access], [convert], [values], [httperror]), the stores below, the listers, and the client of the cluster. *)
Class StoreDeps := {
  store_ToString : value -> string;
  ToObj_namespaceQuota : value -> res (option ResourceQuotaLimit);
  ToObj_projectQuota : value -> res (option ResourceQuotaLimit);
  values_PutValue : config -> value -> list string -> config;
  NewFieldAPIError : string -> string -> string -> error;
  NewAPIError : string -> string -> error;
  json_Marshal_required : gmap string (list string) -> res string;
  access_Namespace : string -> res ClientNamespace;
  access_Project : string -> res ClientProject;
  access_Namespaces : string -> res (list ClientNamespace);                              (** by project *)
  nsStore_Create : config -> res config;
  nsStore_Update : config -> string -> res config;
  projectStore_base_Create : config -> res config;
  projectStore_base_Update : config -> string -> res config;
  projectStore_base_Delete : string -> res config;
  projectLabels_Get : string -> string -> res (gmap string string);
  roleTemplateLister_List : res (list RoleTemplate);
  clusterLister_Get : string -> res unit;
  ToRESTConfig : string -> res bool;                                                     (** whether there is one *)
  cluster_Namespaces : string -> res (list (gmap string string))                         (** their annotations *)
}.

Section stores.
Context `{L : QuotaLib} `{D : StoreDeps}.

(** [limitToLimit]: from the type of the client, by way of JSON. *)
Definition limitToLimit (from : option ResourceQuotaLimit) : ResourceQuotaLimit := default zeroLimit from.

(** The names of one limit that the other lacks, in the order Go visits them; only the first is reported. *)
Definition missing_names (project ns : ResourceQuotaLimit) : list string :=
  List.filter (fun k => negb (bool_decide (is_Some (limit_map ns !! k)))) (map fst (map_range (limit_map project))).

(** Both limits have the same resources. *)
Definition check_fields (field short : string) (missing : string -> string) (project ns : ResourceQuotaLimit) : res unit :=
  if negb (map_size (limit_map ns) =? map_size (limit_map project))%nat then Fail (NewFieldAPIError "MissingRequired" field short)
  else match missing_names project ns with
       | k :: _ => Fail (NewFieldAPIError "MissingRequired" field (missing k))
       | [] => Ret tt
       end.

(** ** Namespaces *)

Definition set_default_limit (project : ClientProject) (data : config) : config :=
  match config_get data containerResourceLimitField with
  | VMap (_ :: _) => data
  | _ => <[containerResourceLimitField := cp_ContainerDefaultResourceLimit project]> data
  end.

Definition other_limits (id : string) (namespaces : list ClientNamespace) : list (option ResourceQuotaLimit) :=
  flat_map (fun n => if cn_ID n =? id then [] else match cn_ResourceQuota n with Some l => [Some (limitToLimit l)] | None => [] end) namespaces.

(** The data, with the default for containers filled in. *)
Definition ns_validateResourceQuota (data : config) (id : string) (update : bool) : res config :=
  let quota := config_get data quotaField in
  let? projectID := (if update then let? ns := access_Namespace id in Ret (cn_ProjectID ns) else Ret (store_ToString (config_get data "projectId"))) in
  if projectID =? "" then Ret data
  else
    let? project := access_Project projectID in
    match cp_ResourceQuota project with
    | None => Ret data
    | Some (limit, _) =>
        let? nsLimit := (match quota with
                         | VNil => Ret (cp_NamespaceDefaultResourceQuota project)
                         | v => let? l := ToObj_namespaceQuota v in Ret (Some l)
                         end) in
        match nsLimit with
        | None => Ret data
        | Some nsLimit =>
            let projectQuotaLimit := limitToLimit limit in
            let nsQuotaLimit := limitToLimit nsLimit in
            let? _ := check_fields quotaField "does not have all fields defined on a project quota"
                        (fun k => "misses " +:+ k +:+ " defined on a project quota") projectQuotaLimit nsQuotaLimit in
            let? namespaces := access_Namespaces projectID in
            let data := set_default_limit project data in
            let? '(isFit, exceeded) := IsQuotaFit (Some nsQuotaLimit) (other_limits id namespaces) (Some projectQuotaLimit) in
            if isFit then Ret data
            else Fail (NewFieldAPIError "MaxLimitExceeded" quotaField ("exceeds projectLimit on fields: " +:+ FormatResourceList (default ∅ exceeded)))
        end
    end.

(** Conditions of a namespace that is created. *)
Definition initial_roles : string :=
  "{" +:+ quote "type" +:+ ": " +:+ quote "InitialRolesPopulated" +:+ ", " +:+ quote "status" +:+ ": " +:+ quote "Unknown" +:+ ", " +:+ quote "message" +:+ ": "
  +:+ quote "Populating initial roles" +:+ "}".
Definition initial_quota : string :=
  "{" +:+ quote "type" +:+ ": " +:+ quote "ResourceQuotaValidated" +:+ ", " +:+ quote "status" +:+ ": " +:+ quote "Unknown" +:+ ", " +:+ quote "message" +:+ ": "
  +:+ quote "Validating resource quota" +:+ "}".
Definition initial_status (withQuota : bool) : string :=
  "{" +:+ quote "conditions" +:+ ": [" +:+ initial_roles +:+ (if withQuota then "," +:+ initial_quota else "") +:+ "]}".

Definition namespace_Create (data : config) : res config :=
  let data := values_PutValue data (VString (initial_status (bool_decide (is_Some (data !! quotaField))))) ["annotations"; "cattle.io/status"] in
  let? data := ns_validateResourceQuota data "" false in nsStore_Create data.
Definition namespace_Update (data : config) (id : string) : res config :=
  let? data := ns_validateResourceQuota data id true in nsStore_Update data id.

(** ** Projects *)

Definition getNamespacesCount (project : ClientProject) : res nat :=
  let? _ := clusterLister_Get (cp_ClusterID project) in
  let? present := ToRESTConfig (cp_ClusterID project) in
  if present then
    let? namespaces := cluster_Namespaces (cp_ClusterID project) in
    Ret (length (List.filter (fun a => map_get a projectIDAnnotation =? cp_ID project) namespaces))
  else Ret 0%nat.

Definition fits_or (own : ResourceQuotaLimit) (others : list (option ResourceQuotaLimit)) (project : ResourceQuotaLimit) (err : string -> error) : res unit :=
  let? '(isFit, exceeded) := IsQuotaFit (Some own) others (Some project) in
  if isFit then Ret tt else Fail (err (FormatResourceList (default ∅ exceeded))).

Definition isQuotaFit (nsQuotaLimit projectQuotaLimit : ResourceQuotaLimit) (id : string) : res unit :=
  let? _ := fits_or nsQuotaLimit [] projectQuotaLimit
              (fun f => NewFieldAPIError "MaxLimitExceeded" namespaceQuotaField ("exceeds " +:+ quotaField +:+ " on fields: " +:+ f)) in
  if id =? "" then Ret tt
  else
    let? project := access_Project id in
    let defaults := limit_map nsQuotaLimit in
    let used := match cp_ResourceQuota project with Some (_, Some u) => limit_map u | _ => ∅ end in
    let limitToAdd := filter (fun kv => used !! fst kv = None) defaults in
    let limitToRemove := filter (fun kv => defaults !! fst kv = None) used in
    let? _ := fits_or (limit_of (used ∖ limitToRemove)) [] projectQuotaLimit
                (fun f => NewFieldAPIError "MaxLimitExceeded" quotaField ("is below the used limit on fields: " +:+ f)) in
    if bool_decide (limitToAdd = ∅) && bool_decide (limitToRemove = ∅) then Ret tt
    else
      let converted := limit_of limitToAdd in
      let? namespacesCount := getNamespacesCount project in
      fits_or zeroLimit (repeat (Some converted) namespacesCount) projectQuotaLimit
        (fun f => NewFieldAPIError "MaxLimitExceeded" namespaceQuotaField
                    ("exceeds project limit on fields " +:+ f +:+ " when applied to all namespaces in a project")).

Definition is_nil (v : value) : bool := match v with VNil => true | _ => false end.

Definition project_validateResourceQuota (data : config) (id : string) : res unit :=
  let quotaO := config_get data quotaField in
  let nsQuotaO := config_get data namespaceQuotaField in
  let quotaOk := negb (is_nil quotaO) in
  let namespaceQuotaOk := negb (is_nil nsQuotaO) in
  if negb (Bool.eqb quotaOk namespaceQuotaOk) then
    Fail (NewFieldAPIError "MissingRequired" (if quotaOk then namespaceQuotaField else quotaField) "")
  else if negb quotaOk then Ret tt
  else
    let? nsLimit := ToObj_namespaceQuota nsQuotaO in
    let? projectLimit := ToObj_projectQuota quotaO in
    let projectQuotaLimit := limitToLimit projectLimit in
    let nsQuotaLimit := limitToLimit nsLimit in
    let? _ := check_fields namespaceQuotaField ("does not have all fields defined on a " +:+ quotaField)
                (fun k => "misses " +:+ k +:+ " defined on a " +:+ quotaField) projectQuotaLimit nsQuotaLimit in
    isQuotaFit nsQuotaLimit projectQuotaLimit id.

Definition createProjectAnnotation : res string :=
  let? rt := roleTemplateLister_List in
  let required := map rt_Name (List.filter (fun r => rt_ProjectCreatorDefault r && negb (rt_Locked r)) rt) in
  json_Marshal_required (if bool_decide (required = []) then ∅ else {[ "required" := required ]}).

Definition project_Create (data : config) : res config :=
  let? annotation := createProjectAnnotation in
  let? _ := project_validateResourceQuota data "" in
  projectStore_base_Create (values_PutValue data (VString annotation) ["annotations"; roleTemplatesRequired]).
Definition project_Update (data : config) (id : string) : res config :=
  let? _ := project_validateResourceQuota data id in projectStore_base_Update data id.
Definition project_Delete (id : string) : res config :=
  let parts := Split id ":" in
  match parts, last parts with
  | first :: _, Some name =>
      let? labels := projectLabels_Get first name in
      if map_get labels "authz.management.cattle.io/system-project" =? "true" then Fail (NewAPIError "MethodNotAllowed" "System Project cannot be deleted")
      else projectStore_base_Delete id
  | _, _ => Panic
  end.
End stores.

(** ** What is admitted *)

Section admitted.
Context `{L : QuotaLib} `{!QuotaLaws} `{D : StoreDeps}.

Lemma check_fields_Ret field short missing project ns u :
  check_fields field short missing project ns = Ret u -> forall k, is_Some (limit_map project !! k) <-> is_Some (limit_map ns !! k).
Proof.
  unfold check_fields. destruct (Nat.eqb_spec (map_size (limit_map ns)) (map_size (limit_map project))) as [Hsize|]; [|done]. cbn [negb].
  destruct (missing_names project ns) as [|k l] eqn:Em; [|done]. intros _.
  assert (dom (limit_map project) ⊆@{gset string} dom (limit_map ns)) as Hsub.
  { intros k [v Hv]%elem_of_dom. apply elem_of_dom. destruct (limit_map ns !! k) eqn:Ek; [eauto|]. exfalso.
    assert (k ∈ missing_names project ns) as Hin; [|rewrite Em in Hin; by apply elem_of_nil in Hin].
    apply elem_of_filter_bool. rewrite Ek. split; [|by rewrite bool_decide_eq_false_2 by by intros []].
    apply (list_elem_of_fmap_2 fst _ (k, v)), elem_of_range, Hv. }
  assert (dom (limit_map project) =@{gset string} dom (limit_map ns)) as Hdom.
  { apply leibniz_equiv, set_subseteq_size_equiv; [done|]. rewrite !size_dom. change (map_size (limit_map ns) <= map_size (limit_map project))%nat. lia. }
  intros k. by rewrite <- !(elem_of_dom (D := gset string)), Hdom.
Qed.

(** A share that fits, resource by resource. *)
Lemma fit_amounts own others project ex k p :
  IsQuotaFit (Some own) others (Some project) = Ret (true, ex) -> limit_amount (Some project) k = Some p ->
  forall a, limit_amount (Some own) k = Some a -> 0 <= a /\ a + default 0 (sum_amounts others k) <= p.
Proof.
  intros (_ & _ & _ & Hfit & _)%IsQuotaFit_Ret Hp a Ha. assert (~ violates (Some own) others (Some project) k) as Hv by by apply Hfit.
  split; [by apply (unviolated own others project k)|]. destruct (Z.le_gt_cases (a + default 0 (sum_amounts others k)) p) as [|Hgt]; [done|]. destruct Hv. left.
  exists (a + default 0 (sum_amounts others k)), p. split; [|split; [done|lia]]. cbn. rewrite Ha. fold (sum_amounts others k). destruct (sum_amounts others k); cbn; f_equal; lia.
Qed.

Lemma fits_or_Ret own others project err u : fits_or own others project err = Ret u -> exists ex, IsQuotaFit (Some own) others (Some project) = Ret (true, ex).
Proof. unfold fits_or. intros Hr. res_inv. destruct b; [eauto|done]. Qed.

Lemma amount_present l k : wf_limit (Some l) -> is_Some (limit_map l !! k) -> is_Some (limit_amount (Some l) k).
Proof. intros Hwf [v Hv]. unfold limit_amount, limit_ptr_map. rewrite Hv. cbn. by eapply Hwf. Qed.
Lemma amount_lookup l k a : limit_amount (Some l) k = Some a -> is_Some (limit_map l !! k).
Proof. unfold limit_amount, limit_ptr_map. destruct (limit_map l !! k); [eauto|done]. Qed.

(** What the namespaces other than [id] ask for of a resource, together; one without a quota or a limit asks for nothing. *)
Definition asked_by (n : ClientNamespace) (k : string) : Z :=
  match cn_ResourceQuota n with Some (Some l) => default 0 (limit_amount (Some l) k) | _ => 0 end.
Definition asked_by_others (id : string) (namespaces : list ClientNamespace) (k : string) : Z :=
  foldr Z.add 0 (map (fun n => asked_by n k) (filter (fun n => cn_ID n <> id) namespaces)).

Lemma limit_amount_zero k : limit_amount (Some zeroLimit) k = None.
Proof.
  change (limit_amount (Some zeroLimit) k) with (limit_amount (Some (limit_of ∅)) k). unfold limit_amount, limit_ptr_map. rewrite limit_map_of_id; [by rewrite lookup_empty|].
  intros j v. by rewrite lookup_empty.
Qed.
Lemma limitToLimit_amount l k : limit_amount (Some (limitToLimit l)) k = limit_amount l k.
Proof. destruct l as [l|]; [done|]. unfold limitToLimit. change (default zeroLimit None) with zeroLimit. rewrite limit_amount_zero. unfold limit_amount. cbn. by rewrite lookup_empty. Qed.
Lemma limitToLimit_map l k : is_Some (limit_map (limitToLimit l) !! k) <-> is_Some (limit_ptr_map l !! k).
Proof.
  destruct l as [l|]; [done|]. unfold limitToLimit. change (default zeroLimit None) with (limit_of ∅). rewrite limit_map_of_id; [done|]. intros j v. by rewrite lookup_empty.
Qed.
Lemma other_limits_asked id namespaces k : default 0 (sum_amounts (other_limits id namespaces) k) = asked_by_others id namespaces k.
Proof.
  unfold other_limits, asked_by_others. induction namespaces as [|n namespaces IH]; [done|]. rewrite filter_cons. cbn [flat_map].
  destruct (bool_decide_reflect (cn_ID n = id)) as [He|He]; [rewrite decide_False by naive_solver; exact IH|]. rewrite decide_True by done. cbn [map foldr].
  rewrite <- IH. unfold asked_by. destruct (cn_ResourceQuota n) as [l|]; [|done]. cbn [app sum_amounts foldr]. rewrite default_add_amounts, limitToLimit_amount.
  destruct l as [l|]; [done|]. unfold limit_amount. cbn [limit_ptr_map]. by rewrite lookup_empty.
Qed.

(** The limit that is checked: the one asked for, or, without one, the default of the project, also when the namespace has a limit
    already. *)
Definition checked_limit (data : config) (project : ClientProject) (nsLimit : option (option ResourceQuotaLimit)) : Prop :=
  match config_get data quotaField with
  | VNil => nsLimit = cp_NamespaceDefaultResourceQuota project
  | v => exists l, ToObj_namespaceQuota v = Ret l /\ nsLimit = Some l
  end.

(** C38: When the API admits a namespace, or a change of one, in a project with a quota, a limit has been checked: the one in the
    request or, if it has none, the default of the project for namespaces; this one has a limit for exactly the resources of the
    project, and for each of them it is not negative and, with those of the other namespaces of the project, within
    the limit of the project.  If there is neither, nothing is checked, and the request stays as it is; otherwise at most the default for
    containers is filled in. *)
Theorem namespace_quota_admitted data data' id (update : bool) project projectID limit used :
  (if update then exists ns, access_Namespace id = Ret ns /\ cn_ProjectID ns = projectID else store_ToString (config_get data "projectId") = projectID) ->
  projectID <> "" -> access_Project projectID = Ret project -> cp_ResourceQuota project = Some (limit, used) ->
  ns_validateResourceQuota data id update = Ret data' ->
  exists checked, checked_limit data project checked
  /\ match checked with
     | None => data' = data
     | Some nsLimit =>
         (forall field, field <> containerResourceLimitField -> data' !! field = data !! field)
         /\ exists namespaces, access_Namespaces projectID = Ret namespaces
         /\ forall k, (is_Some (limit_ptr_map limit !! k) <-> is_Some (limit_ptr_map nsLimit !! k))
            /\ forall p, limit_amount limit k = Some p ->
               exists a, limit_amount nsLimit k = Some a /\ 0 <= a /\ a + asked_by_others id namespaces k <= p
     end.
Proof.
  intros Hid Hne Hp Hq. unfold ns_validateResourceQuota.
  set (r := if update then _ else _). assert (r = Ret projectID) as -> by (unfold r; destruct update; [destruct Hid as (ns & -> & <-)|rewrite Hid]; done). cbn [res_bind].
  rewrite bool_decide_eq_false_2 by done. rewrite Hp. cbn [res_bind]. rewrite Hq. intros (checked & Hc & Hr)%res_bind_Ret. exists checked. split.
  { unfold checked_limit. destruct (config_get data quotaField); try (by injection Hc as <-); apply res_bind_Ret in Hc as (lim & Hlim & [= <-]); by exists lim. }
  destruct checked as [nsLimit|]; [|by injection Hr as <-].
  apply res_bind_Ret in Hr as (u & Hf & Hr). apply res_bind_Ret in Hr as (namespaces & Hl & Hr). apply res_bind_Ret in Hr as ([fit ex] & Hfit & Hr).
  destruct fit; [|done]. injection Hr as <-. split.
  { intros field Hfield. unfold set_default_limit. destruct (config_get data containerResourceLimitField) as [| | | | | | |[|? ?]]; try done; by rewrite lookup_insert_ne. }
  exists namespaces. split; [done|]. intros k. pose proof (check_fields_Ret _ _ _ _ _ _ Hf) as Hdom. setoid_rewrite limitToLimit_map in Hdom. split; [apply Hdom|].
  intros p Hk. rewrite <- limitToLimit_amount in Hk. pose proof (amount_lookup _ _ _ Hk) as Hin%limitToLimit_map%Hdom%limitToLimit_map.
  apply amount_present in Hin as [a Ha]; [|by apply IsQuotaFit_Ret in Hfit as (Hwf & _)].
  exists a. rewrite <- other_limits_asked. split; [by rewrite <- limitToLimit_amount|]. by eapply fit_amounts.
Qed.

Lemma sum_repeat l n k a : limit_amount (Some l) k = Some a -> default 0 (sum_amounts (repeat (Some l) n) k) = Z.of_nat n * a /\ (n <> 0%nat -> is_Some (sum_amounts (repeat (Some l) n) k)).
Proof.
  intros Ha. induction n as [|n [IH _]]; [done|]. cbn [repeat sum_amounts foldr]. rewrite default_add_amounts, Ha. fold (sum_amounts (repeat (Some l) n) k). rewrite IH. cbn.
  split; [lia|]. intros _. destruct (sum_amounts (repeat (Some l) n) k); eauto.
Qed.

(** The texts of part of a limit. *)
Lemma limit_amount_part l (m : gmap string string) k : m ⊆ limit_map l -> limit_amount (Some (limit_of m)) k = m !! k ≫= text_amount.
Proof.
  intros Hm. unfold limit_amount, limit_ptr_map. rewrite limit_map_of_id; [done|]. intros j v Hj. eapply limit_map_names, lookup_weaken; [exact Hj|exact Hm].
Qed.

Lemma IsQuotaFit_wf own others project r : IsQuotaFit own others project = Ret r -> wf_limit own /\ wf_limit project.
Proof. destruct r. intros Hr. apply IsQuotaFit_Ret in Hr. naive_solver. Qed.

(** What a change of a project that is accepted leaves room for. *)
Lemma isQuotaFit_Ret ns project id stored u k p a :
  isQuotaFit ns project id = Ret u -> id <> "" -> access_Project id = Ret stored ->
  limit_amount (Some project) k = Some p -> limit_amount (Some ns) k = Some a ->
  0 <= a /\ a <= p
  /\ match cp_ResourceQuota stored with
     | Some (_, Some used) =>
         (forall x, limit_amount (Some used) k = Some x -> 0 <= x <= p)
         /\ (limit_map used !! k = None -> exists n, getNamespacesCount stored = Ret n /\ Z.of_nat n * a <= p)
     | _ => exists n, getNamespacesCount stored = Ret n /\ Z.of_nat n * a <= p
     end.
Proof.
  intros Hr Hid Hs Hp Ha. unfold isQuotaFit in Hr. apply res_bind_Ret in Hr as ([] & [ex Hfit]%fits_or_Ret & Hr).
  pose proof (fit_amounts _ _ _ _ _ _ Hfit Hp a Ha) as [Hlo Hhi]. cbn in Hhi. rewrite Z.add_0_r in Hhi. split; [done|]. split; [done|].
  rewrite bool_decide_eq_false_2 in Hr by done. rewrite Hs in Hr. cbn [res_bind] in Hr.
  set (usedMap := match cp_ResourceQuota stored with Some (_, Some u) => limit_map u | _ => ∅ end) in Hr.
  set (limitToAdd := filter (fun kv => usedMap !! fst kv = None) (limit_map ns)) in Hr. set (limitToRemove := filter _ usedMap) in Hr.
  apply res_bind_Ret in Hr as ([] & [ex2 Hused]%fits_or_Ret & Hr). destruct (amount_lookup _ _ _ Ha) as [v Hv].
  assert (usedMap !! k = None -> exists n, getNamespacesCount stored = Ret n /\ Z.of_nat n * a <= p) as Hcount.
  { intros Hnone. assert (limitToAdd !! k = Some v) as Hadd by (by apply map_lookup_filter_Some_2).
    rewrite (bool_decide_eq_false_2 (limitToAdd = ∅)) in Hr by (intros He; by rewrite He, lookup_empty in Hadd). cbn [andb] in Hr.
    apply res_bind_Ret in Hr as (n & Hn & [ex3 Hall]%fits_or_Ret). exists n. split; [done|].
    assert (limit_amount (Some (limit_of limitToAdd)) k = Some a) as Hka.
    { rewrite (limit_amount_part ns) by apply map_filter_subseteq. rewrite Hadd. unfold limit_amount, limit_ptr_map in Ha. by rewrite Hv in Ha. }
    destruct (sum_repeat _ n _ _ Hka) as [Hsum Hsome]. destruct n as [|n]; [lia|]. destruct (Hsome ltac:(lia)) as [x Hx]. rewrite Hx in Hsum. cbn [default] in Hsum.
    apply IsQuotaFit_Ret in Hall as (_ & _ & _ & Hiff & _). destruct (Z.le_gt_cases x p) as [|Hgt]; [cbn in Hsum; lia|].
    destruct (proj1 Hiff eq_refl k). left. exists x, p. split; [|split; [done|lia]]. cbn [sum_amounts foldr]. fold (sum_amounts (repeat (Some (limit_of limitToAdd)) (S n)) k).
    rewrite Hx. change (limit_amount (Some zeroLimit) k) with (limit_amount (Some (limit_of ∅)) k). rewrite (limit_amount_part ns) by apply map_empty_subseteq. by rewrite lookup_empty. }
  destruct (cp_ResourceQuota stored) as [[lim [used|]]|]; [|by apply Hcount..]. split; [|done]. intros x Hx.
  assert ((usedMap ∖ limitToRemove) !! k = limit_map used !! k) as Hkeep.
  { destruct (amount_lookup _ _ _ Hx) as [y Hy]. rewrite Hy. apply lookup_difference_Some. split; [done|]. apply map_lookup_filter_None_2. right. intros z _. cbn. by rewrite Hv. }
  assert (limit_amount (Some (limit_of (usedMap ∖ limitToRemove))) k = Some x) as Hkx.
  { rewrite (limit_amount_part used) by by apply map_subseteq_difference_l. by rewrite Hkeep. }
  pose proof (fit_amounts _ _ _ _ _ _ Hused Hp x Hkx) as Hux. cbn in Hux. lia.
Qed.

(** A change of the quota of a project that the API accepts has defaults for exactly the resources it limits, and for
    each of them the limit covers the default, what the project has recorded as used, and, for a resource that was not
    limited before, the default for all namespaces of the project. *)
Theorem project_quota_admitted data id stored projectLimit nsLimit :
  id <> "" -> access_Project id = Ret stored ->
  is_nil (config_get data quotaField) = false -> is_nil (config_get data namespaceQuotaField) = false ->
  ToObj_namespaceQuota (config_get data namespaceQuotaField) = Ret nsLimit -> ToObj_projectQuota (config_get data quotaField) = Ret projectLimit ->
  project_validateResourceQuota data id = Ret tt ->
  forall k, (is_Some (limit_map (limitToLimit projectLimit) !! k) <-> is_Some (limit_map (limitToLimit nsLimit) !! k))
    /\ forall p, limit_amount (Some (limitToLimit projectLimit)) k = Some p ->
       exists a, limit_amount (Some (limitToLimit nsLimit)) k = Some a /\ 0 <= a /\ a <= p
         /\ match cp_ResourceQuota stored with
            | Some (_, Some used) =>
                (forall x, limit_amount (Some used) k = Some x -> 0 <= x <= p)
                /\ (limit_map used !! k = None -> exists n, getNamespacesCount stored = Ret n /\ Z.of_nat n * a <= p)
            | _ => exists n, getNamespacesCount stored = Ret n /\ Z.of_nat n * a <= p
            end.
Proof.
  intros Hid Hs Hq0 Hn0 Hto1 Hto2. unfold project_validateResourceQuota. rewrite Hq0, Hn0, Hto1, Hto2. cbn [negb Bool.eqb res_bind]. intros Hrest k.
  apply res_bind_Ret in Hrest as (u & Hf & Hrest). pose proof (check_fields_Ret _ _ _ _ _ _ Hf) as Hdom. split; [apply Hdom|].
  intros p Hp. pose proof (amount_lookup _ _ _ Hp) as Hin%Hdom. apply amount_present in Hin as [a Ha].
  - exists a. split; [done|]. by eapply isQuotaFit_Ret.
  - unfold isQuotaFit in Hrest. apply res_bind_Ret in Hrest as (x & [ex Hfit]%fits_or_Ret & _). by apply IsQuotaFit_wf in Hfit as [].
Qed.
End admitted.

(** ** Concrete stores *)

Definition demo_client_project (used : option ResourceQuotaLimit) : ClientProject :=
  mkClientProject "c-abcde:p-1" "c-abcde" (Some (Some (pods "10"), used)) (Some (Some (pods "3"))) (VMap [("limitsCpu", VString "2")]).
Definition demo_text (v : value) : option ResourceQuotaLimit := match v with VString t => Some (pods t) | _ => None end.

#[local] Instance demo_stores : StoreDeps := {|
  store_ToString v := match v with VString t => t | _ => "" end;
  ToObj_namespaceQuota v := Ret (demo_text v);
  ToObj_projectQuota v := Ret (demo_text v);
  values_PutValue c v keys := match keys with [a; b] => <[a := VMap [(b, v)]]> c | _ => c end;
  NewFieldAPIError code field msg := errorString (code +:+ " " +:+ field +:+ ": " +:+ msg);
  NewAPIError code msg := errorString (code +:+ ": " +:+ msg);
  json_Marshal_required m := Ret "{}";
  access_Namespace id := Ret (mkClientNamespace id "c-abcde:p-1" None);
  access_Project id := Ret (demo_client_project (Some (pods "5")));
  access_Namespaces id := Ret [mkClientNamespace "a" id (Some (Some (pods "5"))); mkClientNamespace "b" id None];
  nsStore_Create c := Ret c;
  nsStore_Update c _ := Ret c;
  projectStore_base_Create c := Ret c;
  projectStore_base_Update c _ := Ret c;
  projectStore_base_Delete _ := Ret ∅;
  projectLabels_Get _ _ := Ret ∅;
  roleTemplateLister_List := Ret [mkRoleTemplate "project-owner" true false];
  clusterLister_Get _ := Ret tt;
  ToRESTConfig _ := Ret true;
  cluster_Namespaces _ := Ret [{[ projectIDAnnotation := "c-abcde:p-1" ]}]
|}.

Definition demo_data : config := {[ quotaField := VString "4"; "projectId" := VString "c-abcde:p-1" ]}.
Definition demo_admitted : config := Eval vm_compute in set_default_limit (demo_client_project None) demo_data.

Lemma namespace_quota_admitted_witness :
  exists a, limit_amount (Some (pods "4")) "pods" = Some a /\ 0 <= a /\ a + 5 <= 10.
Proof.
  destruct (namespace_quota_admitted demo_data demo_admitted "" false (demo_client_project (Some (pods "5"))) "c-abcde:p-1" (Some (pods "10")) (Some (pods "5")))
    as (checked & Hc & Hk); [reflexivity|discriminate|reflexivity..|vm_compute; reflexivity|].
  assert (checked = Some (Some (pods "4"))) as ->.
  { unfold checked_limit in Hc. change (config_get demo_data quotaField) with (VString "4") in Hc. cbv iota in Hc. destruct Hc as (l & [= <-] & ->). reflexivity. }
  destruct Hk as (_ & namespaces & [= <-] & Hk). destruct (Hk "pods") as [_ Hp]. destruct (Hp 10) as (a & Ha & Hb); [vm_compute; reflexivity|].
  exists a. split; [exact Ha|exact Hb].
Defined.

Definition demo_change : config := {[ quotaField := VString "8"; namespaceQuotaField := VString "2" ]}.

Lemma project_quota_admitted_witness :
  exists a, limit_amount (Some (pods "2")) "pods" = Some a /\ 0 <= a /\ a <= 8
    /\ forall x, limit_amount (Some (pods "5")) "pods" = Some x -> 0 <= x <= 8.
Proof.
  destruct (project_quota_admitted demo_change "c-abcde:p-1" (demo_client_project (Some (pods "5"))) (Some (pods "8")) (Some (pods "2")))
    with (k := "pods") as [_ Hp]; [discriminate|reflexivity..|vm_compute; reflexivity|].
  destruct (Hp 8) as (a & Ha & H0 & H8 & Hu & _); [vm_compute; reflexivity|]. exists a. split; [exact Ha|]. split; [exact H0|]. split; [exact H8|exact Hu].
Defined.
