(* ===== verification/Rbac.v ===== *)
(** * Access control: objects, names and templates ([pkg/rbac/common.go])

    Roles and bindings of Kubernetes as the controllers of Rancher make them, the bindings of role templates to users and
    groups, the names of the derived bindings, and the rules a template gives together with the templates it inherits. *)

From S2P Require Import Prelude GoLib Codec Errors Types External Encodings World.

(** ** Objects *)

(** A rule; a slice that the code tests for nil, or compares with [reflect.DeepEqual], is an option. *)
Record PolicyRule := mkPolicyRule {
  r_Verbs : list string;
  r_APIGroups : list string;
  r_Resources : list string;
  r_ResourceNames : option (list string);
  r_NonResourceURLs : option (list string)
}.
#[global] Instance PolicyRule_eq_dec : EqDecision PolicyRule.
Proof. solve_decision. Defined.

Lemma exists_cons {A} (P : A -> Prop) x l : (exists y, y ∈ x :: l /\ P y) <-> P x \/ exists y, y ∈ l /\ P y.
Proof.
  split.
  - intros (y & [->|Hy]%elem_of_cons & HP); [by left|right; by exists y].
  - intros [HP|(y & Hy & HP)]; [exists x; split; [left|done]|exists y; split; [by right|done]].
Qed.

Definition slice_of {A} (l : option (list A)) : list A := default [] l.
Definition ContainsString (l : list string) (s : string) : bool := bool_decide (s ∈ l).

(** [equality.Semantic.DeepEqual] takes a nil and an empty slice for equal. *)
Definition semantic_rule (r : PolicyRule) : PolicyRule :=
  mkPolicyRule (r_Verbs r) (r_APIGroups r) (r_Resources r) (Some (slice_of (r_ResourceNames r))) (Some (slice_of (r_NonResourceURLs r))).
Definition rules_DeepEqual (a b : list PolicyRule) : bool := bool_decide (map semantic_rule a = map semantic_rule b).

Record Subject := mkSubject {
  sub_Kind : string;
  sub_APIGroup : string;
  sub_Name : string;
  sub_Namespace : string
}.
#[global] Instance Subject_eq_dec : EqDecision Subject.
Proof. solve_decision. Defined.

Record RoleRef := mkRoleRef { ref_Kind : string; ref_Name : string }.
#[global] Instance RoleRef_eq_dec : EqDecision RoleRef.
Proof. solve_decision. Defined.

Record ClusterRole := mkClusterRole {
  cr_Name : string;
  cr_UID : string;
  cr_ResourceVersion : Z;
  cr_Labels : gmap string string;
  cr_Annotations : gmap string string;
  cr_OwnerReferences : list OwnerReference;
  cr_Rules : list PolicyRule
}.
#[global] Instance ClusterRole_eq_dec : EqDecision ClusterRole.
Proof. solve_decision. Defined.

(** A role binding; one of the cluster has no namespace. *)
Record Binding := mkBinding {
  b_Namespace : string;
  b_Name : string;
  b_ResourceVersion : Z;
  b_Labels : gmap string string;
  b_Annotations : gmap string string;
  b_OwnerReferences : list OwnerReference;
  b_Subjects : list Subject;
  b_RoleRef : RoleRef
}.
#[global] Instance Binding_eq_dec : EqDecision Binding.
Proof. solve_decision. Defined.

Record Role := mkRole {
  ro_Namespace : string;
  ro_Name : string;
  ro_ResourceVersion : Z;
  ro_OwnerReferences : list OwnerReference;
  ro_Rules : list PolicyRule
}.
#[global] Instance Role_eq_dec : EqDecision Role.
Proof. solve_decision. Defined.

Record RoleTemplate := mkRoleTemplate {
  rt_Name : string;
  rt_Deleting : bool;
  rt_Builtin : bool;
  rt_External : bool;
  rt_Administrative : bool;
  rt_Context : string;
  rt_Rules : list PolicyRule;
  rt_RoleTemplateNames : list string
}.
#[global] Instance RoleTemplate_eq_dec : EqDecision RoleTemplate.
Proof. solve_decision. Defined.

Record RTBMeta := mkRTBMeta {
  rtb_Namespace : string;
  rtb_Name : string;
  rtb_UID : string;
  rtb_ResourceVersion : Z;
  rtb_Labels : gmap string string;
  rtb_Annotations : gmap string string;
  rtb_Deleting : bool
}.
#[global] Instance RTBMeta_eq_dec : EqDecision RTBMeta.
Proof. solve_decision. Defined.

Record ClusterRoleTemplateBinding := mkCRTB {
  crtb_Meta : RTBMeta;
  crtb_UserName : string;
  crtb_UserPrincipalName : string;
  crtb_GroupName : string;
  crtb_GroupPrincipalName : string;
  crtb_ClusterName : string;
  crtb_RoleTemplateName : string
}.
Record ProjectRoleTemplateBinding := mkPRTB {
  prtb_Meta : RTBMeta;
  prtb_UserName : string;
  prtb_UserPrincipalName : string;
  prtb_GroupName : string;
  prtb_GroupPrincipalName : string;
  prtb_ServiceAccount : string;
  prtb_ProjectName : string;
  prtb_RoleTemplateName : string
}.
#[global] Instance ClusterRoleTemplateBinding_eq_dec : EqDecision ClusterRoleTemplateBinding.
Proof. solve_decision. Defined.
#[global] Instance ProjectRoleTemplateBinding_eq_dec : EqDecision ProjectRoleTemplateBinding.
Proof. solve_decision. Defined.

(** What the code passes as a [metav1.Object]. *)
Inductive RTB := aCRTB (b : ClusterRoleTemplateBinding) | aPRTB (b : ProjectRoleTemplateBinding).
Definition rtb_meta (b : RTB) : RTBMeta := match b with aCRTB b => crtb_Meta b | aPRTB b => prtb_Meta b end.

Record GlobalRoleBinding := mkGRB {
  grb_Name : string;
  grb_Deleting : bool;
  grb_UserName : string;
  grb_GroupPrincipalName : string;
  grb_GlobalRoleName : string
}.

(** ** Subjects *)

Definition GlobalAdmin : string := "admin".
Definition rbac_GroupName : string := "rbac.authorization.k8s.io".

Definition subject_error (what : string) (b : RTB) : error := errorString (what +:+ ": " +:+ rtb_Name (rtb_meta b)).
Definition more_than_one : string := "roletemplatebinding has more than one subject fields set".

(** User, then group principal, then group: the second one that is set is an error.  A service account replaces them. *)
Definition BuildSubjectFromRTB (b : RTB) : res Subject :=
  let '(userName, groupPrincipalName, groupName, sa) :=
    match b with
    | aPRTB b => (prtb_UserName b, prtb_GroupPrincipalName b, prtb_GroupName b, prtb_ServiceAccount b)
    | aCRTB b => (crtb_UserName b, crtb_GroupPrincipalName b, crtb_GroupName b, "")
    end in
  let '(name, kind) := if userName !=? "" then (userName, "User") else ("", "") in
  let? '(name, kind) :=
    (if groupPrincipalName !=? "" then
       if name !=? "" then Fail (subject_error more_than_one b) else Ret (groupPrincipalName, "Group")
     else Ret (name, kind)) in
  let? '(name, kind) :=
    (if groupName !=? "" then
       if name !=? "" then Fail (subject_error more_than_one b) else Ret (groupName, "Group")
     else Ret (name, kind)) in
  let? '(name, kind, namespace) :=
    (if sa !=? "" then
       match SplitN2 sa ":" with
       | [ns; n] => Ret (n, "ServiceAccount", ns)
       | _ => Fail (subject_error ("service account " +:+ sa +:+ " of projectroletemplatebinding is invalid") b)
       end
     else Ret (name, kind, "")) in
  if name =? "" then Fail (subject_error "roletemplatebinding doesn't have any subject fields set" b)
  else Ret (mkSubject kind (if kind =? "ServiceAccount" then "" else rbac_GroupName) name namespace).

Definition GetGRBTargetKey (grb : GlobalRoleBinding) : string :=
  if grb_UserName grb =? "" then "u-" +:+ ToLower (take_str 10 (base32_Std (sha256_Sum256 (grb_GroupPrincipalName grb)))) else grb_UserName grb.
Definition GrbCRBName (grb : GlobalRoleBinding) : string :=
  (if grb_GlobalRoleName grb =? GlobalAdmin then "globaladmin-" else "globalrestrictedadmin-") +:+ GetGRBTargetKey grb.
Definition GetGRBSubject (grb : GlobalRoleBinding) : Subject :=
  if (grb_UserName grb =? "") && (grb_GroupPrincipalName grb !=? "") then mkSubject "Group" rbac_GroupName (grb_GroupPrincipalName grb) ""
  else mkSubject "User" rbac_GroupName (grb_UserName grb) "".

(** ** Names of bindings *)

Definition getBindingHash (namespace : string) (role : RoleRef) (subject : Subject) : string :=
  ToLower (take_str 10 (base32_Std (sha256_Sum256
    (namespace +:+ ref_Kind role +:+ ref_Name role +:+ sub_Kind subject +:+ sub_Name subject)))).
Definition NameForRoleBinding (namespace : string) (role : RoleRef) (subject : Subject) : string :=
  "rb-" +:+ getBindingHash namespace role subject.
Definition NameForClusterRoleBinding (role : RoleRef) (subject : Subject) : string := "crb-" +:+ getBindingHash "" role subject.

Definition GetRTBLabel `{External} (m : RTBMeta) : string := name_SafeConcatName [rtb_Namespace m +:+ "_" +:+ rtb_Name m].

(** ** Rules and resources *)

Definition mgmt_GroupName : string := "management.cattle.io".
Definition isRuleInTargetAPIGroup (rule : PolicyRule) : bool :=
  List.existsb (fun group => (group =? mgmt_GroupName) || (group =? "*")) (r_APIGroups rule).
Definition RuleGivesResourceAccess (rule : PolicyRule) (resourceName : string) : bool :=
  if negb (isRuleInTargetAPIGroup rule) then false
  else List.existsb (fun resource => (resource =? resourceName) || (resource =? "*")) (r_Resources rule).

(** ** The rules of a template with all it inherits

    The recursion visits no template twice; [n] bounds its depth, and is never used up (see below). *)
Section rules.
Context (clusterRoles : gmap string ClusterRole) (roleTemplates : gmap string RoleTemplate).

(** The rules a template gives by itself: those of the cluster role it stands for come first. *)
Definition own_rules (rt : RoleTemplate) : res (list PolicyRule) :=
  if rt_External rt && (rt_Context rt =? "cluster") then
    match clusterRoles !! rt_Name rt with
    | None => Fail (not_found "clusterroles" (rt_Name rt))
    | Some cr => Ret (cr_Rules cr ++ rt_Rules rt)
    end
  else Ret (rt_Rules rt).

(** The loop over the inherited templates, with the recursive call [visit]. *)
Fixpoint gather_inherited (visit : RoleTemplate -> list PolicyRule -> gset string -> res (list PolicyRule * gset string))
    (names : list string) (rules : list PolicyRule) (seen : gset string) : res (list PolicyRule * gset string) :=
  match names with
  | [] => Ret (rules, seen)
  | r :: rest =>
      if bool_decide (r ∈ seen) then gather_inherited visit rest rules seen
      else
        match roleTemplates !! r with
        | None => Fail (not_found "roletemplates" r)
        | Some next => let? '(rules, seen) := visit next rules seen in gather_inherited visit rest rules seen
        end
  end.

Fixpoint gatherRules (n : nat) (rt : RoleTemplate) (rules : list PolicyRule) (seen : gset string) : res (list PolicyRule * gset string) :=
  match n with
  | O => Panic
  | S n' =>
      let seen := {[ rt_Name rt ]} ∪ seen in
      let? own := own_rules rt in
      gather_inherited (gatherRules n') (rt_RoleTemplateNames rt) (rules ++ own) seen
  end.

Definition RulesFromTemplate (rt : RoleTemplate) : res (list PolicyRule) :=
  let? '(rules, _) := gatherRules (S (size roleTemplates)) rt [] ∅ in Ret rules.
End rules.

(** The name of the cluster role binding of the owners of a cluster, by the name of the cluster. *)
Definition ProvisioningClusterAdminName `{External} (clusterName : string) : string :=
  name_SafeConcatName ["crt"; clusterName; "cluster-owner"].
