(* ===== verification/RoleTemplates.v ===== *)
(** * Role templates and what they inherit ([handler_base.go])

    A role template may name others that it inherits.  [gatherRoles] collects a template with all of them, and gives up
    when a chain is too long; [isClusterOwner] searches the same templates without such a limit. *)

From stdpp Require Import finite relations.
From S2P Require Import Prelude GoLib Errors World Rbac.

Definition rolesCircularHardLimit : Z := 500.

Definition lower_rule (r : PolicyRule) : PolicyRule :=
  mkPolicyRule (map ToLower (r_Verbs r)) (r_APIGroups r) (map ToLower (r_Resources r)) (r_ResourceNames r) (r_NonResourceURLs r).
Definition lower_template (rt : RoleTemplate) : RoleTemplate :=
  if rt_External rt then rt
  else mkRoleTemplate (rt_Name rt) (rt_Deleting rt) (rt_Builtin rt) (rt_External rt) (rt_Administrative rt) (rt_Context rt) (map lower_rule (rt_Rules rt))
         (rt_RoleTemplateNames rt).
Definition ToLowerRoleTemplates (roleTemplates : gmap string RoleTemplate) : gmap string RoleTemplate := lower_template <$> roleTemplates.

(** The rules of a cluster owner: the permission to own clusters, or any rule on URLs. *)
Definition owner_rule (rule : PolicyRule) : bool :=
  (ContainsString (r_Resources rule) "clusters" && ContainsString (r_Verbs rule) "own")
  || match r_NonResourceURLs rule with Some _ => true | None => false end.
Definition owner_by_itself (rt : RoleTemplate) : bool :=
  (rt_Builtin rt && (rt_Context rt =? "cluster") && (rt_Name rt =? "cluster-owner")) || List.existsb owner_rule (rt_Rules rt).

Section templates.
Context (templates : gmap string RoleTemplate).

Definition rtLister_Get (name : string) : res RoleTemplate :=
  match templates !! name with Some rt => Ret rt | None => Fail (not_found "roletemplates" name) end.

Definition too_deep (rt : RoleTemplate) : error :=
  errorString ("roletemplate '" +:+ rt_Name rt +:+ "' has caused " +:+ Itoa rolesCircularHardLimit
               +:+ " recursive function calls, possible circular dependency").

(** The loop over the inherited templates, with the recursive call [gather]. *)
Fixpoint gather_names (gather : RoleTemplate -> gmap string RoleTemplate -> res (gmap string RoleTemplate)) (names : list string)
    (roleTemplates : gmap string RoleTemplate) : res (gmap string RoleTemplate) :=
  match names with
  | [] => Ret roleTemplates
  | rtName :: rest =>
      match rtLister_Get rtName with
      | Ret subRT => let? m := gather subRT roleTemplates in gather_names gather rest m
      | Fail err => Fail (wrapError ("couldn't get RoleTemplate " +:+ rtName +:+ ": " +:+ Error err) err)
      | Panic => Panic
      end
  end.

Definition gatherRolesRecurse (gather : RoleTemplate -> gmap string RoleTemplate -> res (gmap string RoleTemplate)) (rt : RoleTemplate)
    (roleTemplates : gmap string RoleTemplate) : res (gmap string RoleTemplate) :=
  gather_names gather (rt_RoleTemplateNames rt) (<[rt_Name rt := rt]> roleTemplates).

(** [left] is what is left of the hard limit: [rolesCircularHardLimit - depthCounter]. *)
Fixpoint gatherRoles_from (left : nat) (rt : RoleTemplate) (roleTemplates : gmap string RoleTemplate) : res (gmap string RoleTemplate) :=
  match left with
  | O => Fail (too_deep rt)
  | S left' => let? m := gatherRolesRecurse (gatherRoles_from left') rt roleTemplates in Ret (ToLowerRoleTemplates m)
  end.
Definition gatherRoles (rt : RoleTemplate) : res (gmap string RoleTemplate) :=
  gatherRoles_from (Z.to_nat rolesCircularHardLimit) rt ∅.

(** The search has no limit of its own: one that never returns exhausts the stack, which is a panic.  As many nested calls
    as there are templates, and one more, are allowed here; see [isClusterOwner_bounded]. *)
Fixpoint owner_among (search : string -> res bool) (names : list string) : res bool :=
  match names with
  | [] => Ret false
  | inherited :: rest => let? isOwner := search inherited in if isOwner : bool then Ret true else owner_among search rest
  end.
Fixpoint isClusterOwner_fuel (n : nat) (rtName : string) : res bool :=
  match n with
  | O => Panic
  | S n' =>
      let? rt := rtLister_Get rtName in
      if owner_by_itself rt then Ret true else owner_among (isClusterOwner_fuel n') (rt_RoleTemplateNames rt)
  end.
Definition isClusterOwner (rtName : string) : res bool := isClusterOwner_fuel (S (size templates)) rtName.

(** ** Inheritance *)

Definition inherits (a b : RoleTemplate) : Prop := exists name, name ∈ rt_RoleTemplateNames a /\ templates !! name = Some b.

(** The cache holds every template under its name. *)
Definition keyed : Prop := forall name rt, templates !! name = Some rt -> rt_Name rt = name.

(** Every template that is named from [rt] on is there. *)
Definition resolved (rt : RoleTemplate) : Prop :=
  forall t name, rtc inherits rt t -> name ∈ rt_RoleTemplateNames t -> is_Some (templates !! name).

(** The templates reached from [rt], each under its name. *)
Definition reaches (rt : RoleTemplate) (m : gmap string RoleTemplate) : Prop :=
  forall name t, m !! name = Some t <-> exists t0, rtc inherits rt t0 /\ rt_Name t0 = name /\ t = lower_template t0.
End templates.

(** ** Lower case *)

Lemma lower_ascii_idem c : lower_ascii (lower_ascii c) = lower_ascii c.
Proof. destruct c as [[] [] [] [] [] [] [] []]; vm_compute; reflexivity. Qed.
Lemma ToLower_idem s : ToLower (ToLower s) = ToLower s.
Proof. unfold ToLower. induction s as [|c s IH]; simpl; [done|]. by rewrite lower_ascii_idem, IH. Qed.
Lemma lower_rule_idem r : lower_rule (lower_rule r) = lower_rule r.
Proof.
  unfold lower_rule. simpl. rewrite !map_map. f_equal; apply map_ext, ToLower_idem.
Qed.
Lemma lower_template_idem rt : lower_template (lower_template rt) = lower_template rt.
Proof.
  unfold lower_template. destruct (rt_External rt) eqn:Ex; simpl; rewrite ?Ex; [done|]. simpl.
  rewrite map_map. f_equal. apply map_ext, lower_rule_idem.
Qed.
Lemma lower_template_name rt : rt_Name (lower_template rt) = rt_Name rt.
Proof. unfold lower_template. by destruct (rt_External rt). Qed.

(** A text and the same in lower case: capitals become the small letters 32 places on, all else stays. *)
Definition lowered_char (c d : Ascii.ascii) : Prop :=
  let n := Ascii.nat_of_ascii c in if (65 <=? n)%nat && (n <=? 90)%nat then Ascii.nat_of_ascii d = (n + 32)%nat else d = c.
Definition lowered_text (s t : string) : Prop := Forall2 lowered_char (String.list_ascii_of_string s) (String.list_ascii_of_string t).
(** A rule with its verbs and resources in lower case. *)
Definition lowered_rule (r r' : PolicyRule) : Prop :=
  Forall2 lowered_text (r_Verbs r) (r_Verbs r') /\ Forall2 lowered_text (r_Resources r) (r_Resources r')
  /\ r_APIGroups r' = r_APIGroups r /\ r_ResourceNames r' = r_ResourceNames r /\ r_NonResourceURLs r' = r_NonResourceURLs r.
(** A template with its rules in lower case; an external one has no rules of its own, and stays. *)
Definition lowered (t t' : RoleTemplate) : Prop :=
  rt_Name t' = rt_Name t /\ rt_Deleting t' = rt_Deleting t /\ rt_Builtin t' = rt_Builtin t /\ rt_External t' = rt_External t
  /\ rt_Administrative t' = rt_Administrative t /\ rt_Context t' = rt_Context t /\ rt_RoleTemplateNames t' = rt_RoleTemplateNames t
  /\ if rt_External t then rt_Rules t' = rt_Rules t else Forall2 lowered_rule (rt_Rules t) (rt_Rules t').

Lemma lower_ascii_spec c d : lowered_char c d <-> d = lower_ascii c.
Proof.
  assert (forall m, (m < 256)%nat -> Ascii.nat_of_ascii d = m <-> d = Ascii.ascii_of_nat m) as Hd.
  { intros m Hm. split; [intros <-; by rewrite Ascii.ascii_nat_embedding|intros ->; by apply Ascii.nat_ascii_embedding]. }
  unfold lowered_char. cbv zeta. destruct ((65 <=? Ascii.nat_of_ascii c)%nat && (Ascii.nat_of_ascii c <=? 90)%nat) eqn:E.
  - rewrite Hd by (apply andb_true_iff in E as [_ E%Nat.leb_le]; lia).
    assert (lower_ascii c = Ascii.ascii_of_nat (Ascii.nat_of_ascii c + 32)) as ->; [|done]. revert E. clear. by destruct c as [[] [] [] [] [] [] [] []].
  - assert (lower_ascii c = c) as ->; [|done]. revert E. clear. by destruct c as [[] [] [] [] [] [] [] []].
Qed.
Lemma lowered_text_spec s t : lowered_text s t <-> t = ToLower s.
Proof.
  unfold lowered_text, ToLower. revert t. induction s as [|c s IH]; intros [|d t]; simpl.
  - split; [done|constructor].
  - split; [intros H; inversion H|done].
  - split; [intros H; inversion H|done].
  - rewrite Forall2_cons, lower_ascii_spec, IH. split; [by intros [-> ->]|by intros [= -> ->]].
Qed.
Lemma Forall2_map {A B} (R : A -> B -> Prop) (f : A -> B) l l' : (forall a b, R a b <-> b = f a) -> Forall2 R l l' <-> l' = map f l.
Proof.
  intros HR. revert l'. induction l as [|a l IH]; intros [|b l']; simpl.
  - split; [done|constructor].
  - split; [intros H; inversion H|done].
  - split; [intros H; inversion H|done].
  - rewrite Forall2_cons, HR, IH. split; [by intros [-> ->]|by intros [= -> ->]].
Qed.
Lemma lowered_spec t t' : lowered t t' <-> t' = lower_template t.
Proof.
  assert (forall r r', lowered_rule r r' <-> r' = lower_rule r) as Hr.
  { intros r r'. unfold lowered_rule, lower_rule. rewrite !(Forall2_map _ ToLower) by apply lowered_text_spec.
    destruct r, r'; simpl. split; [by intros (-> & -> & -> & -> & ->)|by intros [= -> -> -> -> ->]]. }
  unfold lowered, lower_template. destruct t as [? ? ? [] ? ? ? ?], t'; simpl; [|rewrite (Forall2_map _ lower_rule) by done].
  - split; [by intros (-> & -> & -> & -> & -> & -> & -> & ->)|by intros [= -> -> -> -> -> -> -> ->]].
  - split; [by intros (-> & -> & -> & -> & -> & -> & -> & ->)|by intros [= -> -> -> -> -> -> -> ->]].
Qed.

Section closure.
Context (templates : gmap string RoleTemplate) (Hkeyed : keyed templates).

(** ** What is gathered *)

(** A map on the way: templates of the cache, some in lower case already. *)
Definition from_cache (m : gmap string RoleTemplate) : Prop :=
  forall name t, m !! name = Some t -> exists c, templates !! name = Some c /\ lower_template t = lower_template c.
Definition reached (rt : RoleTemplate) (name : string) : Prop := exists t, rtc (inherits templates) rt t /\ rt_Name t = name.

Lemma gather_names_spec gather names acc m :
  (forall b acc m, templates !! rt_Name b = Some b -> from_cache acc -> gather b acc = Ret m ->
    from_cache m /\ forall name, name ∈ dom m <-> name ∈ dom acc \/ reached b name) ->
  from_cache acc -> gather_names templates gather names acc = Ret m ->
  from_cache m /\ forall name, name ∈ dom m <-> name ∈ dom acc \/ exists x b, x ∈ names /\ templates !! x = Some b /\ reached b name.
Proof.
  intros Hg. revert acc. induction names as [|x names IH]; intros acc Hacc; simpl.
  - intros [= <-]. split; [done|]. intros name. split; [by left|]. intros [?|(x & _ & Hx & _)]; [done|by apply elem_of_nil in Hx].
  - unfold rtLister_Get. destruct (templates !! x) as [b|] eqn:Hb; [|done].
    intros (m1 & H1 & H2)%res_bind_Ret.
    destruct (Hg b acc m1) as [Hm1 Hd1]; [by rewrite (Hkeyed _ _ Hb)|done|done|].
    destruct (IH m1 Hm1 H2) as [Hm Hd]. split; [done|]. intros name. rewrite Hd, Hd1. split.
    + intros [[?|?]|(y & c & Hy & Hc & Hr)]; [by left|right; exists x, b; split; [left|]; done|].
      right. exists y, c. split; [by right|done].
    + intros [?|(y & c & Hy & Hc & Hr)]; [by left; left|]. apply elem_of_cons in Hy as [->|Hy]; [|right; by exists y, c].
      left. right. congruence.
Qed.

Lemma gatherRoles_spec n rt acc m :
  templates !! rt_Name rt = Some rt -> from_cache acc -> gatherRoles_from templates n rt acc = Ret m ->
  from_cache m /\ forall name, name ∈ dom m <-> name ∈ dom acc \/ reached rt name.
Proof.
  revert rt acc m. induction n as [|n IH]; intros rt acc m Hrt Hacc; simpl; [done|].
  intros (m1 & H1 & [= <-])%res_bind_Ret.
  assert (from_cache (<[rt_Name rt := rt]> acc)) as Hacc'.
  { intros name t. rewrite lookup_insert_Some. intros [[<- <-]|[_ Ht]]; [by exists rt|by apply Hacc]. }
  apply gather_names_spec in H1 as [Hm1 Hd1]; [|exact IH|exact Hacc']. split.
  - intros name t. unfold ToLowerRoleTemplates. rewrite lookup_fmap, fmap_Some. intros (t0 & Ht0 & ->).
    destruct (Hm1 _ _ Ht0) as (c & Hc & He). exists c. by rewrite lower_template_idem.
  - intros name. unfold ToLowerRoleTemplates. rewrite dom_fmap, Hd1, dom_insert, elem_of_union, elem_of_singleton. split.
    + intros [[->|?]|(x & b & Hx & Hb & t & Ht & Hn)]; [right; exists rt; split; [constructor|done]|by left|].
      right. exists t. split; [|done]. eapply rtc_l; [|exact Ht]. by exists x.
    + intros [?|(t & Ht & Hn)]; [by left; right|]. inversion Ht as [|? b ? (x & Hx & Hb) Hr]; subst; [by left; left|].
      right. exists x, b. split; [done|]. split; [done|]. by exists t.
Qed.

Lemma gathered_lower n rt acc m name t : gatherRoles_from templates n rt acc = Ret m -> m !! name = Some t -> lower_template t = t.
Proof.
  destruct n as [|n]; simpl; [done|]. intros (m1 & _ & [= <-])%res_bind_Ret. unfold ToLowerRoleTemplates.
  rewrite lookup_fmap, fmap_Some. intros (t0 & _ & ->). apply lower_template_idem.
Qed.

Lemma rtc_cached rt t : templates !! rt_Name rt = Some rt -> rtc (inherits templates) rt t -> templates !! rt_Name t = Some t.
Proof.
  intros Hrt Hr. induction Hr as [|rt b t (x & _ & Hb) _ IH]; [done|]. apply IH. by rewrite (Hkeyed _ _ Hb).
Qed.

Lemma gathered_reaches n rt m : templates !! rt_Name rt = Some rt -> gatherRoles_from templates n rt ∅ = Ret m -> reaches templates rt m.
Proof.
  intros Hrt Hg. destruct (gatherRoles_spec n rt ∅ m) as [Hm Hd]; [done|by intros ? ?; rewrite lookup_empty|done|]. intros name t. split.
  - intros Ht. destruct (Hm _ _ Ht) as (c & Hc & He). rewrite (gathered_lower _ _ _ _ _ _ Hg Ht) in He.
    assert (name ∈ dom m) as [Hi|(t0 & Hr & Hn)]%Hd by (by apply elem_of_dom_2 in Ht); [by rewrite dom_empty in Hi|].
    exists t0. split; [done|]. split; [done|]. apply rtc_cached in Hr; [|done]. rewrite Hn in Hr. congruence.
  - intros (t0 & Hr & Hn & ->). assert (name ∈ dom m) as [t Ht]%elem_of_dom by (apply Hd; right; by exists t0).
    rewrite Ht. f_equal. destruct (Hm _ _ Ht) as (c & Hc & He). rewrite (gathered_lower _ _ _ _ _ _ Hg Ht) in He.
    apply rtc_cached in Hr; [|done]. rewrite Hn in Hr. congruence.
Qed.

(** ** When it succeeds *)

(** All chains that start at [rt] end before they have [n] links, and no name on them is missing. *)
Fixpoint fits (n : nat) (rt : RoleTemplate) : Prop :=
  match n with
  | O => False
  | S n' => forall name, name ∈ rt_RoleTemplateNames rt -> exists b, templates !! name = Some b /\ fits n' b
  end.

Lemma fits_spec n rt : fits n rt <-> resolved templates rt /\ ~ exists t, nsteps (inherits templates) n rt t.
Proof.
  revert rt. induction n as [|n IH]; intros rt; simpl.
  - split; [done|]. intros [_ Hn]. apply Hn. exists rt. constructor.
  - split.
    + intros Hf. split.
      * intros t name Hr Hname. inversion Hr as [|? b ? (x & Hx & Hb) Hr']; subst; [by destruct (Hf _ Hname) as (b & -> & _)|].
        destruct (Hf x Hx) as (b' & Hb' & Hf'). simplify_eq. apply IH in Hf' as [Hres _]. by apply (Hres t).
      * intros (t & Ht). inversion Ht as [|? ? b ? (x & Hx & Hb) Hr]; subst. destruct (Hf x Hx) as (b' & Hb' & Hf'). simplify_eq.
        apply IH in Hf' as [_ Hno]. apply Hno. by exists t.
    + intros [Hres Hno] name Hname. destruct (Hres rt name) as [b Hb]; [constructor|done|]. exists b. split; [done|]. apply IH. split.
      * intros t x Hr Hx. apply (Hres t); [|done]. eapply rtc_l; [|done]. by exists name.
      * intros (t & Ht). apply Hno. exists t. econstructor; [|done]. by exists name.
Qed.

Lemma gather_names_total (gather : RoleTemplate -> gmap string RoleTemplate -> res (gmap string RoleTemplate)) (P : RoleTemplate -> Prop) names acc :
  (forall b acc, (exists m, gather b acc = Ret m) <-> P b) ->
  (exists m, gather_names templates gather names acc = Ret m) <-> forall x, x ∈ names -> exists b, templates !! x = Some b /\ P b.
Proof.
  intros Hg. revert acc. induction names as [|x names IH]; intros acc; simpl.
  - split; [by intros _ x Hx%elem_of_nil|]. intros _. by exists acc.
  - unfold rtLister_Get. split.
    + intros (m & Hm) y Hy. destruct (templates !! x) as [b|] eqn:Hb; [|done]. apply res_bind_Ret in Hm as (m1 & H1 & H2).
      apply elem_of_cons in Hy as [->|Hy]; [exists b; split; [done|]; apply (Hg b acc); by exists m1|].
      apply (proj1 (IH m1)); [by exists m|done].
    + intros Hall. destruct (Hall x) as (b & -> & HP); [left|]. apply (Hg b acc) in HP as (m1 & ->). simpl.
      apply IH. intros y Hy. apply Hall. by right.
Qed.

Lemma gatherRoles_total n rt acc : (exists m, gatherRoles_from templates n rt acc = Ret m) <-> fits n rt.
Proof.
  revert rt acc. induction n as [|n IH]; intros rt acc; simpl; [split; [by intros (m & ?)|done]|].
  rewrite <- (gather_names_total (gatherRoles_from templates n) (fits n) _ (<[rt_Name rt := rt]> acc) IH).
  unfold gatherRolesRecurse. split; intros (m & Hm).
  - apply res_bind_Ret in Hm as (m1 & -> & _). by exists m1.
  - rewrite Hm. by eexists.
Qed.

(** ** The search for cluster owners *)

Definition owns (rt : RoleTemplate) : Prop := exists t, rtc (inherits templates) rt t /\ owner_by_itself t = true.

Lemma owner_among_spec search names (P : string -> Prop) :
  (forall x, x ∈ names -> exists b : bool, search x = Ret b /\ (b = true <-> P x)) ->
  exists b : bool, owner_among search names = Ret b /\ (b = true <-> exists x, x ∈ names /\ P x).
Proof.
  induction names as [|x names IH]; intros Hs; simpl.
  - exists false. split; [done|]. split; [done|]. by intros (x & Hx%elem_of_nil & _).
  - destruct (Hs x) as (b & -> & Hb); [left|]. simpl. destruct b.
    + exists true. split; [done|]. split; [|done]. intros _. exists x. split; [left|by apply Hb].
    + destruct IH as (b & -> & Hb'); [by intros y Hy; apply Hs; right|]. exists b. split; [done|]. rewrite Hb'. split.
      * intros (y & Hy & HP). exists y. split; [by right|done].
      * intros (y & Hy & HP). apply elem_of_cons in Hy as [->|Hy]; [by apply Hb in HP|by exists y].
Qed.

Lemma isClusterOwner_fuel_spec n name rt :
  templates !! name = Some rt -> fits n rt -> exists b : bool, isClusterOwner_fuel templates n name = Ret b /\ (b = true <-> owns rt).
Proof.
  revert name rt. induction n as [|n IH]; intros name rt Hrt Hf; [done|]. simpl. unfold rtLister_Get. rewrite Hrt. simpl.
  destruct (owner_by_itself rt) eqn:Ho; [exists true; split; [done|]; split; [|done]; intros _; exists rt; split; [constructor|done]|].
  destruct (owner_among_spec (isClusterOwner_fuel templates n) (rt_RoleTemplateNames rt) (fun x => exists b, templates !! x = Some b /\ owns b))
    as (b & Hb & Hiff).
  { intros x Hx. destruct (Hf x Hx) as (b & Hb & Hfb). destruct (IH x b Hb Hfb) as (r & Hr & Hri). exists r. split; [done|].
    rewrite Hri. split; [by exists b|]. intros (b' & Hb' & Ho'). by simplify_eq. }
  exists b. split; [done|]. rewrite Hiff. split.
  - intros (x & Hx & c & Hc & t & Ht & Hot). exists t. split; [|done]. eapply rtc_l; [|done]. by exists x.
  - intros (t & Ht & Hot). inversion Ht as [|? c ? (x & Hx & Hc) Hr]; subst; [congruence|]. exists x. split; [done|].
    exists c. split; [done|]. by exists t.
Qed.

(** ** Long chains are circular *)

Lemma chain_cached n rt t : templates !! rt_Name rt = Some rt -> nsteps (inherits templates) n rt t ->
  exists l, length l = S n /\ head l = Some rt /\ (forall x, x ∈ l -> x ∈ map snd (map_to_list templates))
    /\ forall i a b, l !! i = Some a -> l !! S i = Some b -> inherits templates a b.
Proof.
  intros Hrt (l & Hlen & Hhd & _ & Hl)%nsteps_list. exists l. split; [done|]. split; [done|]. split; [|done].
  intros x Hx. apply list_elem_of_lookup in Hx as (i & Hi).
  assert (exists k, templates !! k = Some x) as (k & Hk).
  { destruct i as [|i]; [rewrite head_lookup in Hhd; exists (rt_Name rt); congruence|].
    destruct (lookup_lt_is_Some_2 l i) as [a Ha]; [apply lookup_lt_Some in Hi; lia|].
    destruct (Hl i a x Ha Hi) as (k & _ & Hk). by exists k. }
  rewrite list_elem_of_In, in_map_iff. exists (k, x). split; [done|]. by apply list_elem_of_In, elem_of_map_to_list.
Qed.

Lemma chain_between (l : list RoleTemplate) i j a b :
  (forall i a b, l !! i = Some a -> l !! S i = Some b -> inherits templates a b) -> (i <= j)%nat -> l !! i = Some a -> l !! j = Some b ->
  nsteps (inherits templates) (j - i) a b.
Proof.
  intros Hl Hij Ha Hb. remember (j - i)%nat as d eqn:Hd. revert j b Hij Hb Hd. induction d as [|d IH]; intros j b Hij Hb Hd.
  - assert (j = i) as -> by lia. simplify_eq. constructor.
  - destruct j as [|j]; [lia|]. destruct (lookup_lt_is_Some_2 l j) as [c Hc]; [apply lookup_lt_Some in Hb; lia|].
    eapply nsteps_r; [apply (IH j c); [lia|done|lia]|]. by eapply Hl.
Qed.

Lemma long_chain_circular n rt t : templates !! rt_Name rt = Some rt -> (size templates <= n)%nat -> nsteps (inherits templates) n rt t ->
  exists c, rtc (inherits templates) rt c /\ tc (inherits templates) c c.
Proof.
  intros Hrt Hn Hs. destruct (chain_cached n rt t Hrt Hs) as (l & Hlen & Hhd & Hin & Hl).
  destruct (list_pigeonhole l (map snd (map_to_list templates))) as (i & j & c & Hij & Hi & Hj).
  - intros x Hx. by apply Hin.
  - rewrite length_map, length_map_to_list, Hlen. lia.
  - exists c. rewrite head_lookup in Hhd. split.
    + apply (rtc_nsteps_2 (i - 0)). eapply chain_between; [exact Hl|lia|exact Hhd|exact Hi].
    + apply tc_nsteps. exists (j - i)%nat. split; [lia|]. eapply chain_between; [exact Hl|lia|exact Hi|exact Hj].
Qed.

Lemma circular_endless rt c n : rtc (inherits templates) rt c -> tc (inherits templates) c c -> exists t, nsteps (inherits templates) n rt t.
Proof.
  intros Hr Hc.
  enough (forall n x, tc (inherits templates) x c -> exists t, nsteps (inherits templates) n x t) as H.
  { apply H. by eapply tc_rtc_l. }
  clear n Hr. induction n as [|n IH]; intros x Hx; [exists x; constructor|].
  apply tc_nsteps in Hx as (k & Hk & Hx). destruct k as [|k]; [lia|]. inversion Hx as [|? ? y ? H1 H2]; subst.
  destruct (IH y) as (t & Ht); [|exists t; by econstructor].
  eapply tc_rtc_l; [by apply (rtc_nsteps_2 k)|done].
Qed.

(** The calls allowed for the search are enough, unless the templates are circular: then it would not end. *)
Lemma isClusterOwner_bounded name rt n :
  templates !! name = Some rt -> fits n rt -> exists b : bool, isClusterOwner templates name = Ret b /\ (b = true <-> owns rt).
Proof.
  intros Hrt [Hres Hno]%fits_spec. apply isClusterOwner_fuel_spec; [done|]. apply fits_spec. split; [done|].
  intros (t & Ht). destruct (long_chain_circular (S (size templates)) rt t) as (c & Hc & Hcc); [by rewrite (Hkeyed _ _ Hrt)|lia|done|].
  apply Hno. by eapply circular_endless.
Qed.
End closure.

(** ** All rules of a template

    The search of [RulesFromTemplate] marks every template it enters, so that it ends on every cache, and leaves out nothing. *)
Section all_rules.
Context (clusterRoles : gmap string ClusterRole) (templates : gmap string RoleTemplate) (Hkeyed : keyed templates).

(** The templates that are new in [seen'] are reached from a template that satisfies [from], have rules, and everything they inherit
    has been seen; the rules added are theirs. *)
Definition explored (from : RoleTemplate -> Prop) (seen seen' : gset string) (rules rules' : list PolicyRule) : Prop :=
  seen ⊆ seen'
  /\ (forall x, x ∈ seen' -> x ∉ seen -> exists t own a, templates !! x = Some t /\ own_rules clusterRoles t = Ret own
        /\ from a /\ rtc (inherits templates) a t /\ forall y, y ∈ rt_RoleTemplateNames t -> y ∈ seen')
  /\ (forall rule, rule ∈ rules' <-> rule ∈ rules \/ exists x t own, x ∈ seen' /\ (x ∉ seen) /\ templates !! x = Some t
        /\ own_rules clusterRoles t = Ret own /\ rule ∈ own).

(** Why it may fail: a cluster role or a template that is missing. *)
Definition broken (from : RoleTemplate -> Prop) : Prop :=
  exists a t, from a /\ rtc (inherits templates) a t
    /\ ((exists e, own_rules clusterRoles t = Fail e) \/ exists y, y ∈ rt_RoleTemplateNames t /\ templates !! y = None).

Definition search_result (P : gset string -> list PolicyRule -> Prop) (bad : Prop) (r : res (list PolicyRule * gset string)) : Prop :=
  match r with Panic => False | Fail _ => bad | Ret (rules', seen') => P seen' rules' end.

Definition unseen (seen : gset string) : nat := size (dom templates ∖ seen).

Lemma explored_refl from seen rules : explored from seen seen rules rules.
Proof. split; [done|]. split; [done|]. intros rule. split; [by left|]. by intros [?|(x & t & own & H1 & H2 & _)]. Qed.

Lemma explored_trans from s1 s2 s3 r1 r2 r3 : explored from s1 s2 r1 r2 -> explored from s2 s3 r2 r3 -> explored from s1 s3 r1 r3.
Proof.
  intros (H1 & H2 & H3) (K1 & K2 & K3). split; [set_solver|]. split.
  - intros x Hx Hn. destruct (decide (x ∈ s2)) as [Hs|Hs]; [|by apply K2].
    destruct (H2 x Hs Hn) as (t & own & a & ? & ? & ? & ? & Hy). exists t, own, a. split_and!; [done..|]. intros y Hy'. by apply K1, Hy.
  - intros rule. rewrite K3, H3. split.
    + intros [[?|(x & t & own & ? & ? & ? & ? & ?)]|(x & t & own & ? & Hn & ? & ? & ?)]; [by left|right; exists x, t, own; set_solver|].
      right. exists x, t, own. split; [done|]. split; [|done]. by intros Hx%H1.
    + intros [?|(x & t & own & Hx & ? & ? & ? & ?)]; [by left; left|]. destruct (decide (x ∈ s2)).
      * left. right. by exists x, t, own.
      * right. by exists x, t, own.
Qed.

Lemma explored_mono (from from' : RoleTemplate -> Prop) s s' r r' :
  (forall a t, from a -> rtc (inherits templates) a t -> exists a', from' a' /\ rtc (inherits templates) a' t) ->
  explored from s s' r r' -> explored from' s s' r r'.
Proof.
  intros Hf (H1 & H2 & H3). split; [done|]. split; [|done]. intros x Hx Hn. destruct (H2 x Hx Hn) as (t & own & a & ? & ? & Ha & Hr & ?).
  destruct (Hf a t Ha Hr) as (a' & ? & ?). by exists t, own, a'.
Qed.

(** One more template on the way: the loop over what it inherits. *)
Lemma gather_inherited_spec visit root names rules seen n :
  (forall b rules seen, templates !! rt_Name b = Some b -> rt_Name b ∉ seen -> (unseen seen <= n)%nat ->
    search_result (fun seen' rules' => explored (eq b) seen seen' rules rules' /\ rt_Name b ∈ seen') (broken (eq b)) (visit b rules seen)) ->
  (forall y, y ∈ names -> y ∈ rt_RoleTemplateNames root) -> (unseen seen <= n)%nat ->
  search_result (fun seen' rules' => explored (inherits templates root) seen seen' rules rules' /\ forall y, y ∈ names -> y ∈ seen')
    (broken (eq root)) (gather_inherited templates visit names rules seen).
Proof.
  intros Hv. revert rules seen. induction names as [|y names IH]; intros rules seen Hn Hu; simpl.
  { split; [apply explored_refl|]. by intros y Hy%elem_of_nil. }
  assert (forall z, z ∈ names -> z ∈ rt_RoleTemplateNames root) as Hn' by (intros; apply Hn; by right).
  case_bool_decide as Hs.
  - specialize (IH rules seen Hn' Hu). destruct (gather_inherited _ _ _ _ _) as [[rules' seen']|e|]; simpl in *; [|done..].
    destruct IH as [He Ha]. split; [done|]. intros z [->|Hz]%elem_of_cons; [|by apply Ha]. by apply He.
  - destruct (templates !! y) as [b|] eqn:Hb.
    2: { simpl. exists root, root. split; [done|]. split; [constructor|]. right. exists y. split; [apply Hn; left|done]. }
    pose proof (Hkeyed _ _ Hb) as Hname. assert (inherits templates root b) as Hi by (exists y; split; [apply Hn; left|done]).
    specialize (Hv b rules seen). rewrite Hname in Hv. specialize (Hv Hb Hs Hu).
    destruct (visit b rules seen) as [[rules1 seen1]|e|]; simpl in *; [|..|done].
    2: { destruct Hv as (a & t & <- & Hr & Hbad). exists root, t. split; [done|]. split; [by eapply rtc_l|done]. }
    destruct Hv as [He Hin]. apply (explored_mono _ (inherits templates root)) in He; [|intros a t <- Hr; by exists b].
    assert (unseen seen1 <= n)%nat as Hu1.
    { etrans; [|exact Hu]. unfold unseen. apply subseteq_size. destruct He as [Hsub _]. set_solver. }
    specialize (IH rules1 seen1 Hn' Hu1). destruct (gather_inherited _ _ _ _ _) as [[rules' seen']|e|]; simpl in *; [|done..].
    destruct IH as [He' Ha]. split; [by eapply explored_trans|]. intros z [->|Hz]%elem_of_cons; [|by apply Ha]. by apply He'.
Qed.

Lemma gatherRules_spec n rt rules seen :
  templates !! rt_Name rt = Some rt -> rt_Name rt ∉ seen -> (unseen seen <= n)%nat ->
  search_result (fun seen' rules' => explored (eq rt) seen seen' rules rules' /\ rt_Name rt ∈ seen') (broken (eq rt))
    (gatherRules clusterRoles templates n rt rules seen).
Proof.
  revert rt rules seen. induction n as [|n IH]; intros rt rules seen Hrt Hs Hu.
  { assert (rt_Name rt ∈ dom templates ∖ seen) as Hin by (apply elem_of_difference; split; [by apply elem_of_dom_2 in Hrt|done]).
    unfold unseen in Hu. assert (dom templates ∖ seen ≡ ∅) as He by (apply size_empty_iff; lia). set_solver. }
  simpl. destruct (own_rules clusterRoles rt) as [own|e|] eqn:Ho; simpl.
  2: { exists rt, rt. split; [done|]. split; [constructor|]. left. by exists e. }
  2: { unfold own_rules in Ho. by repeat case_match. }
  assert (unseen ({[rt_Name rt]} ∪ seen) <= n)%nat as Hu'.
  { assert (unseen ({[rt_Name rt]} ∪ seen) < unseen seen)%nat; [|lia]. unfold unseen. apply subset_size.
    apply elem_of_dom_2 in Hrt. split; [set_solver|]. intros Hsub. specialize (Hsub (rt_Name rt)). set_solver. }
  pose proof (gather_inherited_spec (gatherRules clusterRoles templates n) rt (rt_RoleTemplateNames rt) (rules ++ own)
    ({[rt_Name rt]} ∪ seen) n IH ltac:(done) Hu') as Hspec.
  destruct (gather_inherited _ _ _ _ _) as [[rules' seen']|e|]; simpl in *; [|done..]. destruct Hspec as [(H1 & H2 & H3) Hall].
  split; [|set_solver]. split; [set_solver|]. split.
  - intros x Hx Hn. destruct (decide (x = rt_Name rt)) as [->|Hne].
    + exists rt, own, rt. split; [done|]. split; [done|]. split; [done|]. split; [constructor|exact Hall].
    + destruct (H2 x Hx) as (t & o & a & ? & ? & Hi & Hr & ?); [set_solver|]. exists t, o, rt. split; [done|]. split; [done|]. split; [done|]. split; [by eapply rtc_l|done].
  - intros rule. rewrite H3, elem_of_app. split.
    + intros [[?|?]|(x & t & o & ? & ? & ? & ? & ?)]; [by left|right; exists (rt_Name rt), rt, own; set_solver|].
      right. exists x, t, o. set_solver.
    + intros [?|(x & t & o & ? & ? & ? & ? & ?)]; [by left; left|]. destruct (decide (x = rt_Name rt)) as [->|Hne].
      * left. right. congruence.
      * right. exists x, t, o. set_solver.
Qed.
End all_rules.

(** C34: The roles gathered for a template are exactly the templates reached from it by inheritance, each under its name, with
    the verbs and resources of their rules in lower case, except that external templates are as they are; and they are
    gathered if and only if no inherited template is missing and no chain of inheritance has 500 links, so that circular
    templates are refused. *)
Theorem gatherRoles_closure (templates : gmap string RoleTemplate) (rt : RoleTemplate) :
  keyed templates -> templates !! rt_Name rt = Some rt ->
  (forall roles, gatherRoles templates rt = Ret roles ->
     forall name t, roles !! name = Some t <-> exists t0, rtc (inherits templates) rt t0 /\ rt_Name t0 = name /\ lowered t0 t)
  /\ ((exists roles, gatherRoles templates rt = Ret roles) <->
      resolved templates rt /\ ~ exists t, nsteps (inherits templates) 500 rt t).
Proof.
  intros Hk Hrt. split; [intros roles Hg; setoid_rewrite lowered_spec; by eapply gathered_reaches|].
  change 500%nat with (Z.to_nat rolesCircularHardLimit). unfold gatherRoles. by rewrite gatherRoles_total, fits_spec.
Qed.

(** Collecting all rules of a template ends on every cache, circular templates included; it succeeds if and only if no
    inherited template and no cluster role of an external one is missing, and then gives the rules of the templates reached by
    inheritance, and no others. *)
Theorem RulesFromTemplate_complete (clusterRoles : gmap string ClusterRole) (templates : gmap string RoleTemplate) (rt : RoleTemplate) :
  keyed templates -> templates !! rt_Name rt = Some rt ->
  match RulesFromTemplate clusterRoles templates rt with
  | Panic => False
  | Fail _ => broken clusterRoles templates (eq rt)
  | Ret rules => ~ broken clusterRoles templates (eq rt)
      /\ forall rule, rule ∈ rules <-> exists t own, rtc (inherits templates) rt t /\ own_rules clusterRoles t = Ret own /\ rule ∈ own
  end.
Proof.
  intros Hk Hrt. unfold RulesFromTemplate.
  pose proof (gatherRules_spec clusterRoles templates Hk (S (size templates)) rt [] ∅ Hrt ltac:(set_solver)) as Hspec.
  destruct (gatherRules _ _ _ _ _ _) as [[rules seen]|e|]; simpl; [|apply Hspec|apply Hspec]; unfold unseen; rewrite ?difference_empty_L, ?size_dom; [|lia..].
  destruct Hspec as [(_ & H2 & H3) Hin]; [unfold unseen; rewrite difference_empty_L, size_dom; lia|].
  assert (forall t, rtc (inherits templates) rt t -> exists own, own_rules clusterRoles t = Ret own /\ rt_Name t ∈ seen
            /\ forall y, y ∈ rt_RoleTemplateNames t -> y ∈ seen) as Hall.
  { intros t Hr. assert (rt_Name t ∈ seen /\ templates !! rt_Name t = Some t) as [Hs Ht].
    { clear H3. revert t Hr. apply rtc_ind_r; [done|]. intros t b _ (y & Hy & Hb) [Hs Ht]. rewrite (Hk _ _ Hb). split; [|done].
      destruct (H2 _ Hs) as (t' & _ & _ & Ht' & _ & _ & _ & Hc); [set_solver|]. simplify_eq. by apply Hc. }
    destruct (H2 _ Hs) as (t' & own & a & Ht' & Ho & _ & _ & Hy); [set_solver|]. simplify_eq. by exists own. }
  split.
  - intros (a & t & <- & Hr & Hbad). destruct (Hall t Hr) as (own & Ho & Hs & Hy). destruct Hbad as [(e & He)|(y & Hyn & Hm)]; [congruence|].
    apply Hy in Hyn. destruct (H2 y Hyn) as (t' & _ & _ & Ht' & _); [set_solver|]. congruence.
  - intros rule. rewrite H3. split.
    + intros [Hx%elem_of_nil|(x & t & own & Hx & _ & Ht & Ho & Hr)]; [done|]. destruct (H2 x Hx) as (t' & o & a & Ht' & _ & <- & Hr' & _); [set_solver|].
      simplify_eq. by exists t, own.
    + intros (t & own & Hr & Ho & Hin'). right. destruct (Hall t Hr) as (o & _ & Hs & _). exists (rt_Name t), t, own.
      split; [done|]. split; [set_solver|]. split; [by eapply rtc_cached|done].
Qed.

(** C35: After the roles were gathered the search for cluster owners ends for every one of them, although it has no limit of its
    own, and says whether the template or one it inherits has the rules of an owner. *)
Theorem owner_search_ends (templates : gmap string RoleTemplate) (rt : RoleTemplate) (roles : gmap string RoleTemplate) name t :
  keyed templates -> templates !! rt_Name rt = Some rt -> gatherRoles templates rt = Ret roles -> roles !! name = Some t ->
  exists cached, templates !! name = Some cached
    /\ exists b : bool, isClusterOwner templates name = Ret b /\ (b = true <-> owns templates cached).
Proof.
  intros Hk Hrt Hg Ht. destruct (proj1 (gathered_reaches templates Hk _ rt roles Hrt Hg name t) Ht) as (c & Hr & Hn & _).
  assert (templates !! name = Some c) as Hc by (rewrite <- Hn; by eapply rtc_cached). exists c. split; [done|].
  assert (exists roles, gatherRoles_from templates (Z.to_nat rolesCircularHardLimit) rt ∅ = Ret roles) as Hf by (by exists roles).
  apply gatherRoles_total, fits_spec in Hf as [Hres Hno].
  apply (isClusterOwner_bounded templates Hk name c (Z.to_nat rolesCircularHardLimit) Hc). apply fits_spec. split.
  - intros t' x Hr' Hx. apply (Hres t'); [by etrans|done].
  - intros (t' & Ht'). apply rtc_nsteps in Hr as (k & Hk').
    destruct (nsteps_add_inv (R := inherits templates) (Z.to_nat rolesCircularHardLimit) k rt t') as (y & Hy & _); [|apply Hno; by exists y].
    rewrite Nat.add_comm. by eapply nsteps_trans.
Qed.

(** ** An example *)

Definition rule_of (verbs resources : list string) : PolicyRule := mkPolicyRule verbs [""] resources None None.
Definition template_of (name : string) (rules : list PolicyRule) (names : list string) : RoleTemplate :=
  mkRoleTemplate name false false false false "cluster" rules names.

(** A member that inherits two templates, one of them through the other, and two templates that inherit each other. *)
Definition member : RoleTemplate := template_of "member" [rule_of ["Get"] ["Pods"]] ["viewer"; "owner"].
Definition viewer : RoleTemplate := template_of "viewer" [rule_of ["list"] ["pods"]] ["owner"].
Definition an_owner : RoleTemplate := template_of "owner" [rule_of ["own"] ["clusters"]] [].
Definition left_half : RoleTemplate := template_of "left" [rule_of ["get"] ["nodes"]] ["right"].
Definition right_half : RoleTemplate := template_of "right" [rule_of ["list"] ["nodes"]] ["left"].
Definition demo_templates : gmap string RoleTemplate :=
  list_to_map (map (fun t => (rt_Name t, t)) [member; viewer; an_owner; left_half; right_half]).

Lemma demo_keyed : keyed demo_templates.
Proof.
  intros name rt. unfold demo_templates. intros Hl%elem_of_list_to_map_2. simpl in Hl.
  repeat (apply elem_of_cons in Hl as [Hl|Hl]; [by inv Hl|]). by apply elem_of_nil in Hl.
Qed.

(** A template with capitals, and an external one. *)
Definition capital : RoleTemplate := template_of "capital" [rule_of ["Get"] ["Nodes"]] ["outside"].
Definition outside : RoleTemplate := mkRoleTemplate "outside" false false true false "cluster" [rule_of ["Get"] ["Nodes"]] [].
Definition capital_templates : gmap string RoleTemplate := list_to_map (map (fun t => (rt_Name t, t)) [capital; outside]).

Lemma gatherRoles_closure_witness :
  exists roles, gatherRoles capital_templates capital = Ret roles /\ rt_Rules <$> roles !! "capital" = Some [rule_of ["get"] ["nodes"]]
  /\ forall name t, roles !! name = Some t <-> exists t0, rtc (inherits capital_templates) capital t0 /\ rt_Name t0 = name /\ lowered t0 t.
Proof.
  eexists. split; [vm_compute; reflexivity|]. split; [vm_compute; reflexivity|].
  apply (gatherRoles_closure capital_templates capital); [|vm_compute; reflexivity|vm_compute; reflexivity].
  intros name rt. unfold capital_templates. intros Hl%elem_of_list_to_map_2. simpl in Hl.
  repeat (apply elem_of_cons in Hl as [Hl|Hl]; [by inv Hl|]). by apply elem_of_nil in Hl.
Defined.

Lemma owner_search_ends_witness : exists b : bool, isClusterOwner demo_templates "member" = Ret b /\ (b = true <-> owns demo_templates member).
Proof.
  destruct (owner_search_ends demo_templates member (default ∅ (match gatherRoles demo_templates member with Ret m => Some m | _ => None end))
    "member" (lower_template member) demo_keyed) as (c & Hc & Hb); [vm_compute; reflexivity..|].
  assert (c = member) as -> by (vm_compute in Hc; by inversion Hc). exact Hb.
Defined.

Lemma RulesFromTemplate_complete_witness :
  RulesFromTemplate ∅ demo_templates left_half = Ret (rt_Rules left_half ++ rt_Rules right_half)
  /\ ~ broken ∅ demo_templates (eq left_half).
Proof.
  assert (RulesFromTemplate ∅ demo_templates left_half = Ret (rt_Rules left_half ++ rt_Rules right_half)) as Hr by (vm_compute; reflexivity).
  split; [exact Hr|]. pose proof (RulesFromTemplate_complete ∅ demo_templates left_half demo_keyed ltac:(vm_compute; reflexivity)) as H.
  rewrite Hr in H. apply H.
Defined.

(** Circular templates are refused when roles are gathered, but the search for an owner has no end. *)
Example circular_templates :
  match gatherRoles demo_templates left_half with Fail _ => true | _ => false end = true /\ isClusterOwner demo_templates "left" = Panic.
Proof. split; vm_compute; reflexivity. Qed.
