(* ===== verification/RbacStore.v ===== *)
(** * Access control: the stored objects and the caches

    The objects behind the API servers of Rancher and of the downstream cluster that the access controllers read and write, and
    what they read from their caches. *)

From S2P Require Import Prelude GoLib Errors Types External World Handlers Tokens Rbac RoleTemplates.

(** A namespace with what the access controllers look at. *)
Record NS := mkNS {
  n_Name : string;
  n_ResourceVersion : Z;
  n_Labels : gmap string string;
  n_Annotations : gmap string string;
  n_Deleting : bool;
  n_Phase : string
}.
#[global] Instance NS_eq_dec : EqDecision NS.
Proof. solve_decision. Defined.

(** A project of the cluster; the conditions that matter are those that are true. *)
Record AProject := mkAProject {
  pr_Namespace : string;
  pr_Name : string;
  pr_UID : string;
  pr_ResourceVersion : Z;
  pr_Labels : gmap string string;
  pr_Conditions : gset string;
  pr_Deleting : bool
}.
#[global] Instance AProject_eq_dec : EqDecision AProject.
Proof. solve_decision. Defined.

(** The base holds the secrets of the downstream cluster and the schedule of failures for all requests.  The cache of cluster
    roles is part of the state, since the code writes into cached objects.  The counter numbers new objects. *)
Record RWorld := mkRWorld {
  rw_base : World;
  rw_counter : Z;
  rw_crCache : gmap string ClusterRole;
  rw_clusterRoles : gmap string ClusterRole;
  rw_bindings : gmap (string * string) Binding;
  rw_roles : gmap (string * string) Role;
  rw_namespaces : gmap string NS;
  rw_serviceAccounts : gmap (string * string) ServiceAccount;
  rw_crtbs : gmap (string * string) ClusterRoleTemplateBinding;
  rw_prtbs : gmap (string * string) ProjectRoleTemplateBinding;
  rw_projects : gmap (string * string) AProject
}.

Definition set_rw_base v w := mkRWorld v (rw_counter w) (rw_crCache w) (rw_clusterRoles w) (rw_bindings w) (rw_roles w) (rw_namespaces w) (rw_serviceAccounts w) (rw_crtbs w) (rw_prtbs w) (rw_projects w).
Definition set_rw_counter v w := mkRWorld (rw_base w) v (rw_crCache w) (rw_clusterRoles w) (rw_bindings w) (rw_roles w) (rw_namespaces w) (rw_serviceAccounts w) (rw_crtbs w) (rw_prtbs w) (rw_projects w).
Definition set_rw_crCache v w := mkRWorld (rw_base w) (rw_counter w) v (rw_clusterRoles w) (rw_bindings w) (rw_roles w) (rw_namespaces w) (rw_serviceAccounts w) (rw_crtbs w) (rw_prtbs w) (rw_projects w).
Definition set_rw_clusterRoles v w := mkRWorld (rw_base w) (rw_counter w) (rw_crCache w) v (rw_bindings w) (rw_roles w) (rw_namespaces w) (rw_serviceAccounts w) (rw_crtbs w) (rw_prtbs w) (rw_projects w).
Definition set_rw_bindings v w := mkRWorld (rw_base w) (rw_counter w) (rw_crCache w) (rw_clusterRoles w) v (rw_roles w) (rw_namespaces w) (rw_serviceAccounts w) (rw_crtbs w) (rw_prtbs w) (rw_projects w).
Definition set_rw_roles v w := mkRWorld (rw_base w) (rw_counter w) (rw_crCache w) (rw_clusterRoles w) (rw_bindings w) v (rw_namespaces w) (rw_serviceAccounts w) (rw_crtbs w) (rw_prtbs w) (rw_projects w).
Definition set_rw_namespaces v w := mkRWorld (rw_base w) (rw_counter w) (rw_crCache w) (rw_clusterRoles w) (rw_bindings w) (rw_roles w) v (rw_serviceAccounts w) (rw_crtbs w) (rw_prtbs w) (rw_projects w).
Definition set_rw_serviceAccounts v w := mkRWorld (rw_base w) (rw_counter w) (rw_crCache w) (rw_clusterRoles w) (rw_bindings w) (rw_roles w) (rw_namespaces w) v (rw_crtbs w) (rw_prtbs w) (rw_projects w).
Definition set_rw_crtbs v w := mkRWorld (rw_base w) (rw_counter w) (rw_crCache w) (rw_clusterRoles w) (rw_bindings w) (rw_roles w) (rw_namespaces w) (rw_serviceAccounts w) v (rw_prtbs w) (rw_projects w).
Definition set_rw_prtbs v w := mkRWorld (rw_base w) (rw_counter w) (rw_crCache w) (rw_clusterRoles w) (rw_bindings w) (rw_roles w) (rw_namespaces w) (rw_serviceAccounts w) (rw_crtbs w) v (rw_projects w).
Definition set_rw_projects v w := mkRWorld (rw_base w) (rw_counter w) (rw_crCache w) (rw_clusterRoles w) (rw_bindings w) (rw_roles w) (rw_namespaces w) (rw_serviceAccounts w) (rw_crtbs w) (rw_prtbs w) v.

Definition RM (A : Type) : Type := ST RWorld A.
Definition on_base {A} (c : M A) : RM A := fun w => let '(b, r) := c (rw_base w) in (set_rw_base b w, r).
Definition r_request : RM unit := on_base api_request.

(** ** Requests for objects of any kind

    A kind says where its objects are stored, under which key, and how their versions are read and written. *)
Record kind (K : Type) `{Countable K} (A : Type) := mkKind {
  k_name : string;
  k_get : RWorld -> gmap K A;
  k_set : gmap K A -> RWorld -> RWorld;
  k_key : A -> K;
  k_text : K -> string;
  k_version : A -> Z;
  k_with_version : Z -> A -> A;
  k_with_uid : string -> A -> A
}.
Arguments mkKind {K _ _ A}. Arguments k_name {K _ _ A}. Arguments k_get {K _ _ A}. Arguments k_set {K _ _ A}. Arguments k_key {K _ _ A}.
Arguments k_text {K _ _ A}. Arguments k_version {K _ _ A}. Arguments k_with_version {K _ _ A}. Arguments k_with_uid {K _ _ A}.

Section requests.
Context `{Countable K} {A : Type} `{EqDecision A} (k : kind K A).

Definition conflicting (key : K) : error :=
  StatusError ReasonConflict ("Operation cannot be fulfilled on " +:+ k_name k +:+ " " +:+ k_text k key).

Definition obj_Get (key : K) : RM A :=
  let* _ := r_request in
  let* m := gets (k_get k) in
  match m !! key with Some a => ret a | None => fail (not_found (k_name k) (k_text k key)) end.

Definition obj_Create (a : A) : RM A :=
  let* _ := r_request in
  let* m := gets (k_get k) in
  match m !! k_key k a with
  | Some _ => fail (already_exists (k_name k) (k_text k (k_key k a)))
  | None =>
      let* n := gets rw_counter in
      let* _ := modify (set_rw_counter (n + 1)) in
      let new := k_with_version k 1 (k_with_uid k ("uid-" +:+ Itoa n) a) in
      let* _ := modify (k_set k (<[k_key k a := new]> m)) in ret new
  end.

(** The server refuses an update of an object that has changed since it was read; an update that changes nothing keeps the
    version. *)
Definition obj_Update (a : A) : RM A :=
  let* _ := r_request in
  let* m := gets (k_get k) in
  match m !! k_key k a with
  | None => fail (not_found (k_name k) (k_text k (k_key k a)))
  | Some cur =>
      if negb (k_version k cur =? k_version k a)%Z then fail (conflicting (k_key k a))
      else if bool_decide (a = cur) then ret cur
      else
        let new := k_with_version k (k_version k a + 1) a in
        let* _ := modify (k_set k (<[k_key k a := new]> m)) in ret new
  end.

Definition obj_Delete (key : K) : RM unit :=
  let* _ := r_request in
  let* m := gets (k_get k) in
  match m !! key with
  | None => fail (not_found (k_name k) (k_text k key))
  | Some _ => modify (k_set k (delete key m))
  end.
End requests.

Definition set_cr_Rules (v : list PolicyRule) (c : ClusterRole) : ClusterRole :=
  mkClusterRole (cr_Name c) (cr_UID c) (cr_ResourceVersion c) (cr_Labels c) (cr_Annotations c) (cr_OwnerReferences c) v.
Definition set_ro_Rules (v : list PolicyRule) (r : Role) : Role := mkRole (ro_Namespace r) (ro_Name r) (ro_ResourceVersion r) (ro_OwnerReferences r) v.
Definition set_b_Labels (v : gmap string string) (b : Binding) : Binding :=
  mkBinding (b_Namespace b) (b_Name b) (b_ResourceVersion b) v (b_Annotations b) (b_OwnerReferences b) (b_Subjects b) (b_RoleRef b).
Definition set_rtb_Labels (v : gmap string string) (m : RTBMeta) : RTBMeta :=
  mkRTBMeta (rtb_Namespace m) (rtb_Name m) (rtb_UID m) (rtb_ResourceVersion m) v (rtb_Annotations m) (rtb_Deleting m).
Definition set_crtb_Meta (v : RTBMeta) (b : ClusterRoleTemplateBinding) : ClusterRoleTemplateBinding :=
  mkCRTB v (crtb_UserName b) (crtb_UserPrincipalName b) (crtb_GroupName b) (crtb_GroupPrincipalName b) (crtb_ClusterName b) (crtb_RoleTemplateName b).
Definition set_prtb_Meta (v : RTBMeta) (b : ProjectRoleTemplateBinding) : ProjectRoleTemplateBinding :=
  mkPRTB v (prtb_UserName b) (prtb_UserPrincipalName b) (prtb_GroupName b) (prtb_GroupPrincipalName b) (prtb_ServiceAccount b)
    (prtb_ProjectName b) (prtb_RoleTemplateName b).
Definition set_rtb_ResourceVersion (v : Z) (m : RTBMeta) : RTBMeta :=
  mkRTBMeta (rtb_Namespace m) (rtb_Name m) (rtb_UID m) v (rtb_Labels m) (rtb_Annotations m) (rtb_Deleting m).
Definition set_n_Annotations (v : gmap string string) (n : NS) : NS := mkNS (n_Name n) (n_ResourceVersion n) (n_Labels n) v (n_Deleting n) (n_Phase n).

Definition pair_text (key : string * string) : string := fst key +:+ "/" +:+ snd key.

Definition kind_clusterRole : kind string ClusterRole :=
  mkKind "clusterroles" rw_clusterRoles set_rw_clusterRoles cr_Name id cr_ResourceVersion
    (fun v c => mkClusterRole (cr_Name c) (cr_UID c) v (cr_Labels c) (cr_Annotations c) (cr_OwnerReferences c) (cr_Rules c))
    (fun u c => mkClusterRole (cr_Name c) u (cr_ResourceVersion c) (cr_Labels c) (cr_Annotations c) (cr_OwnerReferences c) (cr_Rules c)).
Definition kind_binding : kind (string * string) Binding :=
  mkKind "rolebindings" rw_bindings set_rw_bindings (fun b => (b_Namespace b, b_Name b)) pair_text b_ResourceVersion
    (fun v b => mkBinding (b_Namespace b) (b_Name b) v (b_Labels b) (b_Annotations b) (b_OwnerReferences b) (b_Subjects b) (b_RoleRef b)) (fun _ b => b).
Definition kind_role : kind (string * string) Role :=
  mkKind "roles" rw_roles set_rw_roles (fun r => (ro_Namespace r, ro_Name r)) pair_text ro_ResourceVersion
    (fun v r => mkRole (ro_Namespace r) (ro_Name r) v (ro_OwnerReferences r) (ro_Rules r)) (fun _ r => r).
Definition kind_namespace : kind string NS :=
  mkKind "namespaces" rw_namespaces set_rw_namespaces n_Name id n_ResourceVersion
    (fun v n => mkNS (n_Name n) v (n_Labels n) (n_Annotations n) (n_Deleting n) (n_Phase n)) (fun _ n => n).
Definition kind_serviceAccount : kind (string * string) ServiceAccount :=
  mkKind "serviceaccounts" rw_serviceAccounts set_rw_serviceAccounts (fun s => (sa_Namespace s, sa_Name s)) pair_text (fun _ => 0) (fun _ s => s)
    (fun u s => mkServiceAccount (sa_Namespace s) (sa_Name s) (sa_Labels s) (sa_OwnerReferences s) u).
Definition kind_crtb : kind (string * string) ClusterRoleTemplateBinding :=
  mkKind "clusterroletemplatebindings" rw_crtbs set_rw_crtbs (fun b => (rtb_Namespace (crtb_Meta b), rtb_Name (crtb_Meta b))) pair_text
    (fun b => rtb_ResourceVersion (crtb_Meta b)) (fun v b => set_crtb_Meta (set_rtb_ResourceVersion v (crtb_Meta b)) b) (fun _ b => b).
Definition kind_prtb : kind (string * string) ProjectRoleTemplateBinding :=
  mkKind "projectroletemplatebindings" rw_prtbs set_rw_prtbs (fun b => (rtb_Namespace (prtb_Meta b), rtb_Name (prtb_Meta b))) pair_text
    (fun b => rtb_ResourceVersion (prtb_Meta b)) (fun v b => set_prtb_Meta (set_rtb_ResourceVersion v (prtb_Meta b)) b) (fun _ b => b).
Definition kind_project : kind (string * string) AProject :=
  mkKind "projects" rw_projects set_rw_projects (fun p => (pr_Namespace p, pr_Name p)) pair_text pr_ResourceVersion
    (fun v p => mkAProject (pr_Namespace p) (pr_Name p) (pr_UID p) v (pr_Labels p) (pr_Conditions p) (pr_Deleting p)) (fun _ p => p).

(** ** Caches

    The lists are in the order in which the cache happens to return them. *)
Class RbacCaches := {
  clusterName : string;
  templateCache : gmap string RoleTemplate;
  bindingCache : list Binding;
  roleCache : gmap (string * string) Role;
  projectCache : list AProject;
  crtbCache : list ClusterRoleTemplateBinding;
  prtbCache : list ProjectRoleTemplateBinding;
  namespaceCache : list NS;
  serviceAccountCacheAt : nat -> gmap (string * string) ServiceAccount;     (** at the start, and at later looks of a call *)
  userCache : gmap string User;
  userAttributeCache : gmap string UserAttribute
}.

(** A set of labels as a selector, and the test whether it selects. *)
Definition selects (set labels : gmap string string) : bool := bool_decide (map_Forall (fun key v => labels !! key = Some v) set).

Definition crLister_Get (name : string) : RM ClusterRole :=
  let* m := gets rw_crCache in
  match m !! name with Some cr => ret cr | None => fail (not_found "clusterroles" name) end.

(** The order in which Go happens to iterate over a map, at a given place of the code. *)
Class MapOrder := {
  range {A : Type} : string -> gmap string A -> list (string * A);
  range_perm {A : Type} place (m : gmap string A) : range place m ≡ₚ map_to_list m
}.

Section caches.
Context `{C : RbacCaches}.

Definition serviceAccountCache : gmap (string * string) ServiceAccount := serviceAccountCacheAt 0.

(** Bindings of a namespace ("": of the cluster) by labels. *)
Definition rbLister_List (ns : string) (set : gmap string string) : list Binding :=
  List.filter (fun b => (b_Namespace b =? ns) && selects set (b_Labels b)) bindingCache.
Definition rbLister_Get (ns name : string) : res Binding :=
  match List.find (fun b => (b_Namespace b =? ns) && (b_Name b =? name)) bindingCache with
  | Some b => Ret b
  | None => Fail (not_found "rolebindings" name)
  end.
Definition crbLister_List (set : gmap string string) : list Binding := rbLister_List "" set.
Definition crbLister_Get (name : string) : res Binding := rbLister_Get "" name.
Definition nsLister_Get (name : string) : res NS :=
  match List.find (fun n => n_Name n =? name) namespaceCache with Some n => Ret n | None => Fail (not_found "namespaces" name) end.
End caches.
