(* ===== verification/Impersonation.v ===== *)
(** * Impersonation in downstream clusters ([pkg/impersonation], [rbac/impersonation_handler.go])

    What users do in a downstream cluster is done by a service account of theirs there, which may impersonate the user and
    nobody else.  The account, its role and its binding are made when a user is bound to a role, and when the user first
    comes along. *)

From S2P Require Import Prelude GoLib Errors Types External Instances World Store Handlers ServiceAccountToken Tokens Authenticate Rbac RoleTemplates RbacStore.

Definition impersonationLabel : string := "authz.cluster.cattle.io/impersonator".
Definition ImpersonationNamespace : string := "cattle-impersonation-system".
Definition ImpersonationPrefix : string := "cattle-impersonation-".

(** [user.DefaultInfo], as far as it is used. *)
Record ImpersonatedUser := mkImpersonatedUser {
  iu_UID : string;
  iu_Groups : list string;
  iu_Extra : gmap string (list string)
}.

Section impersonation.
Context `{C : Controllers} `{R : RbacCaches} `{O : MapOrder} (env : World -> World).

(** ** The user *)

Definition isInList (item : string) (list : list string) : bool := List.existsb (fun s => item =? s) list.

Definition add_group (groups : list string) (p : Principal) : list string :=
  if isInList (p_Name p) groups then groups else groups ++ [p_Name p].

(** What one provider knows under [key] is appended, unless it is nothing. *)
Definition append_extra (key : string) (exs extras : gmap string (list string)) : gmap string (list string) :=
  match exs !! key with
  | Some ((_ :: _) as l) => <[key := default [] (extras !! key) ++ l]> extras
  | _ => extras
  end.

Definition sort_extra (key : string) (extras : gmap string (list string)) : gmap string (list string) :=
  match extras !! key with Some l => <[key := sort_Strings l]> extras | None => extras end.

(** Groups and extras of a user with attributes, before they are sorted. *)
Definition groups_of_attributes (a : UserAttribute) : list string :=
  fold_left (fun groups '(_, gps) => fold_left add_group gps groups) (range "groups" (default ∅ (ua_GroupPrincipals a)))
    ["system:authenticated"; "system:cattle:authenticated"].
Definition extras_of_attributes (a : UserAttribute) : gmap string (list string) :=
  fold_left (fun extras '(_, exs) => append_extra UserAttributePrincipalID exs (append_extra UserAttributeUserName exs extras))
    (range "extras" (default ∅ (ua_ExtraByProvider a))) ∅.
(** Those of a system user, which has no attributes. *)
Definition extras_of_user (u : User) : gmap string (list string) :=
  let extras := if u_DisplayName u !=? "" then <[UserAttributeUserName := [u_DisplayName u]]> ∅ else ∅ in
  match u_PrincipalIDs u with [] => extras | ids => <[UserAttributePrincipalID := ids]> extras end.

Definition getUser (uid : string) : res ImpersonatedUser :=
  match userCache !! uid with
  | None => Fail (not_found "users" uid)
  | Some u =>
      let '(groups, extras) :=
        match userAttributeCache !! uid with
        | None => (["system:authenticated"; "system:cattle:authenticated"], extras_of_user u)
        | Some a => (groups_of_attributes a, extras_of_attributes a)
        end in
      Ret (mkImpersonatedUser (u_Name u) (sort_Strings groups)
             (sort_extra UserAttributePrincipalID (sort_extra UserAttributeUserName extras)))
  end.

(** ** The role *)

Definition impersonation_rule (group resource : string) (names : list string) : PolicyRule :=
  mkPolicyRule ["impersonate"] [group] [resource] (Some names) None.
Definition rulesForUser (user : ImpersonatedUser) : list PolicyRule :=
  [impersonation_rule "" "users" [iu_UID user]]
  ++ match iu_Groups user with [] => [] | groups => [impersonation_rule "" "groups" groups] end
  ++ match iu_Extra user !! UserAttributePrincipalID with
     | Some ids => [impersonation_rule "authentication.k8s.io" "userextras/principalid" ids]
     | None => []
     end
  ++ match iu_Extra user !! UserAttributeUserName with
     | Some names => [impersonation_rule "authentication.k8s.io" "userextras/username" names]
     | None => []
     end.

Definition impersonation_name (user : ImpersonatedUser) : string := ImpersonationPrefix +:+ iu_UID user.
Definition impersonation_labels : gmap string string := {[ impersonationLabel := "true" ]}.
Definition owned_by_role (role : ClusterRole) : list OwnerReference :=
  [mkOwnerReference "rbac.authorization.k8s.io/v1" "ClusterRole" (cr_Name role) (cr_UID role) false].

(** One attempt: the object of the cache is changed, and then sent. *)
Definition update_role_once (name : string) (rules : list PolicyRule) (_ : option ClusterRole) : RM (option ClusterRole * option error) :=
  let* cache := gets rw_crCache in
  match cache !! name with
  | None => ret (None, None)
  | Some role =>
      if bool_decide (cr_Rules role = rules) then ret (Some role, None)
      else
        let role := set_cr_Rules rules role in
        let* _ := modify (set_rw_crCache (<[name := role]> cache)) in
        let* r := attempt (obj_Update kind_clusterRole role) in
        match r with inl updated => ret (Some updated, None) | inr err => ret (None, Some err) end
  end.
Definition checkAndUpdateRole (user : ImpersonatedUser) (rules : list PolicyRule) : RM (option ClusterRole) :=
  let* '(role, err) := RetryOnConflict_var 5 (update_role_once (impersonation_name user) rules) None in
  match err with Some e => fail e | None => ret role end.

Definition zero_role : ClusterRole := mkClusterRole "" "" 0 ∅ ∅ [] [].

(** An error of the creation other than that it exists is dropped, and the empty object of the client is used. *)
Definition createRole (user : ImpersonatedUser) (rules : list PolicyRule) : RM ClusterRole :=
  let name := impersonation_name user in
  let* cache := gets rw_crCache in
  match cache !! name with
  | Some role => ret role
  | None =>
      let* r := attempt (obj_Create kind_clusterRole (mkClusterRole name "" 0 impersonation_labels ∅ [] rules)) in
      match r with
      | inl role => ret role
      | inr err => if IsAlreadyExists err then obj_Get kind_clusterRole name else ret zero_role
      end
  end.

(** ** Account, binding and namespace *)

Definition createNamespace : RM unit :=
  match nsLister_Get ImpersonationNamespace with
  | Ret _ => ret tt
  | Panic => panic
  | Fail err =>
      if IsNotFound err then
        let* e := attempt_err (obj_Create kind_namespace (mkNS ImpersonationNamespace 0 impersonation_labels ∅ false "")) in
        match e with Some err => if IsAlreadyExists err then ret tt else fail err | None => ret tt end
      else fail err
  end.

(** The server refuses references to an owner without a name. *)
Definition serviceAccounts_Create (sa : ServiceAccount) : RM ServiceAccount :=
  if List.existsb (fun o => or_Name o =? "") (sa_OwnerReferences sa)
  then let* _ := r_request in fail (StatusError ReasonOther "ServiceAccount is invalid")
  else obj_Create kind_serviceAccount sa.

Definition sa_error (name : string) (err : error) : error :=
  wrapError ("impersonation: error getting service account [" +:+ ImpersonationNamespace +:+ ":" +:+ name +:+ "]: " +:+ Error err) err.

Definition createServiceAccount (user : ImpersonatedUser) (role : ClusterRole) : RM ServiceAccount :=
  let name := impersonation_name user in
  let* sa := (match serviceAccountCache !! (ImpersonationNamespace, name) with
    | Some sa => ret sa
    | None =>
        let* r := attempt (serviceAccounts_Create (mkServiceAccount ImpersonationNamespace name impersonation_labels (owned_by_role role) "")) in
        let* r := (match r with
          | inr err => if IsAlreadyExists err then attempt (obj_Get kind_serviceAccount (ImpersonationNamespace, name)) else ret (inr err)
          | inl sa => ret (inl sa)
          end) in
        match r with inl sa => ret sa | inr err => fail (sa_error name err) end
    end) in
  let* r := attempt (on_base (EnsureSecretForServiceAccount env true (Some sa))) in
  match r with
  | inl _ => ret sa
  | inr err => fail (wrapError ("impersonation: error ensuring secret for service account " +:+ name +:+ ": " +:+ Error err) err)
  end.

Definition createRoleBinding (user : ImpersonatedUser) (role : ClusterRole) (sa : ServiceAccount) : RM unit :=
  let name := impersonation_name user in
  match crbLister_Get name with
  | Ret _ => ret tt
  | Panic => panic
  | Fail err =>
      if IsNotFound err then
        let* e := attempt_err (obj_Create kind_binding
          (mkBinding "" name 0 impersonation_labels ∅ (owned_by_role role) [mkSubject "ServiceAccount" "" (sa_Name sa) (sa_Namespace sa)]
             (mkRoleRef "ClusterRole" (cr_Name role)))) in
        match e with Some err => if IsAlreadyExists err then ret tt else fail err | None => ret tt end
      else fail err
  end.

(** The wait for the account to appear in the cache and for its token; [i] counts the looks. *)
Definition account_ready (sa : ServiceAccount) (v : nat * option ServiceAccount) : RM ((nat * option ServiceAccount) * bool) :=
  let i := fst v in
  match serviceAccountCacheAt i !! (ImpersonationNamespace, sa_Name sa) with
  | None => ret ((S i, None), false)
  | Some found =>
      let* secret := on_base (ServiceAccountSecret true sa) in
      match secret with
      | None => ret ((S i, Some found), false)
      | Some s => ret ((S i, Some found), match s_Data s !! ServiceAccountTokenKey with Some _ => true | None => false end)
      end
  end.
Definition waitForServiceAccount (sa : ServiceAccount) : RM (option ServiceAccount) :=
  let* r := attempt (ExponentialBackoff 10 (account_ready sa) (1%nat, None)) in
  match r with
  | inl (_, found) => ret found
  | inr err => fail (wrapError ("failed to get secret for service account: " +:+ sa_Namespace sa +:+ "/" +:+ sa_Name sa +:+ ", error: " +:+ Error err) err)
  end.

Definition SetUpImpersonation (user : ImpersonatedUser) : RM (option ServiceAccount) :=
  let rules := rulesForUser user in
  let* role := checkAndUpdateRole user rules in
  let existing := match role, crbLister_Get (impersonation_name user) with
                  | Some _, Ret _ => serviceAccountCache !! (ImpersonationNamespace, impersonation_name user)
                  | _, _ => None
                  end in
  match existing with
  | Some sa => ret (Some sa)
  | None =>
      let* _ := createNamespace in
      let* role := createRole user rules in
      let* sa := createServiceAccount user role in
      let* _ := createRoleBinding user role sa in
      waitForServiceAccount sa
  end.

Definition GetToken (sa : ServiceAccount) : RM string :=
  let* r := attempt (on_base (EnsureSecretForServiceAccount env true (Some sa))) in
  match r with
  | inr err => fail (wrapError ("error getting secret: " +:+ Error err) err)
  | inl secret => match s_Data secret !! "token" with
                  | Some token => ret token
                  | None => fail (errorString "error getting token: invalid secret object")
                  end
  end.

(** ** From the bindings of a user ([impersonation_handler.go]) *)

Definition rtbByClusterAndUserNotDeleting (b : RTB) : list string :=
  if rtb_Deleting (rtb_meta b) then []
  else match b with
       | aPRTB b =>
           if (prtb_UserName b !=? "") && (prtb_ProjectName b !=? "") then
             match SplitN2 (prtb_ProjectName b) ":" with [cluster; _] => [cluster +:+ "-" +:+ prtb_UserName b] | _ => [] end
           else []
       | aCRTB b => if (crtb_UserName b !=? "") && (crtb_ClusterName b !=? "") then [crtb_ClusterName b +:+ "-" +:+ crtb_UserName b] else []
       end.

Definition ensureServiceAccountImpersonator (username : string) : RM unit :=
  match getUser username with
  | Ret user => let* _ := SetUpImpersonation user in ret tt
  | Fail err => if IsNotFound err then ret tt else fail err
  | Panic => panic
  end.

Definition deleteServiceAccountImpersonator (username : string) : RM unit :=
  let key := clusterName +:+ "-" +:+ username in
  let crtbs := List.filter (fun b => bool_decide (key ∈ rtbByClusterAndUserNotDeleting (aCRTB b))) crtbCache in
  let prtbs := List.filter (fun b => bool_decide (key ∈ rtbByClusterAndUserNotDeleting (aPRTB b))) prtbCache in
  if (0 <? Z.of_nat (length crtbs) + Z.of_nat (length prtbs))%Z then ret tt
  else
    let* e := attempt_err (obj_Delete kind_clusterRole (ImpersonationPrefix +:+ username)) in
    match e with Some err => if IsNotFound err then ret tt else fail err | None => ret tt end.
End impersonation.

(** ** What the account may do *)

(** The identities recorded for a user under a key: those of all providers, or those of the user itself. *)
Definition recorded `{RbacCaches} (uid : string) (u : User) (key x : string) : Prop :=
  match userAttributeCache !! uid with
  | Some a => exists provider exs l, default ∅ (ua_ExtraByProvider a) !! provider = Some exs /\ exs !! key = Some l /\ x ∈ l
  | None => (key = UserAttributePrincipalID /\ x ∈ u_PrincipalIDs u) \/ (key = UserAttributeUserName /\ x = u_DisplayName u /\ x <> "")
  end.
Definition extra_resource (resource key : string) : Prop :=
  (resource = "userextras/principalid" /\ key = UserAttributePrincipalID) \/ (resource = "userextras/username" /\ key = UserAttributeUserName).

(** Whom or what a user stands for, by the API group and the resource of Kubernetes' impersonation. *)
Definition stands_for `{RbacCaches} (uid group resource name : string) : Prop :=
  exists u, userCache !! uid = Some u
  /\ ((group = "" /\ resource = "users" /\ name = uid)
      \/ (group = "" /\ resource = "groups" /\ (name ∈ ["system:authenticated"; "system:cattle:authenticated"]
           \/ exists a provider gps p, userAttributeCache !! uid = Some a /\ default ∅ (ua_GroupPrincipals a) !! provider = Some gps
                /\ p ∈ gps /\ p_Name p = name))
      \/ group = "authentication.k8s.io" /\ exists key, extra_resource resource key /\ recorded uid u key name).

Lemma elem_of_ordered {A} `{O : MapOrder} place (m : gmap string A) k v : (k, v) ∈ range place m <-> m !! k = Some v.
Proof. by rewrite range_perm, elem_of_map_to_list. Qed.

Lemma isInList_spec x l : isInList x l = true <-> x ∈ l.
Proof.
  unfold isInList. rewrite List.existsb_exists. setoid_rewrite <- list_elem_of_In. split.
  - intros (y & Hy & He). case_bool_decide; by subst.
  - intros Hx. exists x. split; [done|]. by rewrite bool_decide_true.
Qed.

Lemma elem_of_add_groups gps groups x : x ∈ fold_left add_group gps groups <-> x ∈ groups \/ exists p, p ∈ gps /\ p_Name p = x.
Proof.
  revert groups. induction gps as [|p gps IH]; intros groups; simpl.
  - split; [by left|]. intros [?|(p & Hp%elem_of_nil & _)]; done.
  - rewrite IH. unfold add_group. setoid_rewrite elem_of_cons. destruct (isInList (p_Name p) groups) eqn:Hi.
    + apply isInList_spec in Hi. naive_solver.
    + rewrite elem_of_app, list_elem_of_singleton. naive_solver.
Qed.

Section allowed.
Context `{R : RbacCaches} `{O : MapOrder}.

Lemma elem_of_groups a x :
  x ∈ groups_of_attributes a <-> x ∈ ["system:authenticated"; "system:cattle:authenticated"]
    \/ exists provider gps p, default ∅ (ua_GroupPrincipals a) !! provider = Some gps /\ p ∈ gps /\ p_Name p = x.
Proof.
  unfold groups_of_attributes. set (l := range _ _). set (m := default ∅ _).
  assert (forall k gps, (k, gps) ∈ l <-> m !! k = Some gps) as Hl by (intros; apply elem_of_ordered).
  setoid_rewrite <- Hl. clearbody l. clear m Hl. generalize ["system:authenticated"; "system:cattle:authenticated"].
  induction l as [|[k gps] l IH]; intros groups; simpl.
  - split; [by left|]. intros [?|(k & gps & p & Hp%elem_of_nil & _)]; done.
  - rewrite IH, elem_of_add_groups. setoid_rewrite elem_of_cons. naive_solver.
Qed.

(** Lists of extras are never empty, and hold what the providers say. *)
Definition extras_hold (extras : gmap string (list string)) (P : string -> string -> Prop) : Prop :=
  forall key, (key = UserAttributePrincipalID \/ key = UserAttributeUserName) ->
    extras !! key <> Some [] /\ forall x, x ∈ default [] (extras !! key) <-> P key x.

Lemma append_extra_hold key exs extras P :
  (key = UserAttributePrincipalID \/ key = UserAttributeUserName) -> extras_hold extras P ->
  extras_hold (append_extra key exs extras) (fun k x => P k x \/ (k = key /\ exists l, exs !! key = Some l /\ x ∈ l)).
Proof.
  intros Hkey Hh k Hk. destruct (Hh k Hk) as [H1 H2]. unfold append_extra.
  destruct (exs !! key) as [[|y l]|] eqn:He; try (split; [done|]; intros x; rewrite H2; split; [by left|]; intros [?|(-> & l' & [= <-] & Hx)]; [done|];
    by apply elem_of_nil in Hx).
  - destruct (decide (k = key)) as [->|Hne].
    + rewrite lookup_insert_eq. split; [intros [= Hn]; by destruct (default [] (extras !! key))|]. intros x. simpl.
      rewrite elem_of_app, H2. split; [intros [?|?]; [by left|right; split; [done|]; by exists (y :: l)]|].
      intros [?|(_ & l' & [= <-] & Hx)]; [by left|by right].
    + rewrite lookup_insert_ne by done. split; [done|]. intros x. rewrite H2. split; [by left|]. by intros [?|(-> & _)].
  - split; [done|]. intros x. rewrite H2. split; [by left|]. by intros [?|(_ & l' & ? & _)].
Qed.

Lemma extras_hold_ext extras P Q : (forall k x, P k x <-> Q k x) -> extras_hold extras P -> extras_hold extras Q.
Proof. intros HPQ Hh k Hk. destruct (Hh k Hk) as [H1 H2]. split; [done|]. intros x. by rewrite H2. Qed.

Lemma elem_of_extras a :
  extras_hold (extras_of_attributes a) (fun key x => (key = UserAttributePrincipalID \/ key = UserAttributeUserName)
    /\ exists provider exs l, default ∅ (ua_ExtraByProvider a) !! provider = Some exs /\ exs !! key = Some l /\ x ∈ l).
Proof.
  unfold extras_of_attributes. set (l := range _ _). set (m := default ∅ _).
  assert (forall k exs, (k, exs) ∈ l <-> m !! k = Some exs) as Hl by (intros; apply elem_of_ordered).
  apply (extras_hold_ext _ (fun key x => (key = UserAttributePrincipalID \/ key = UserAttributeUserName)
    /\ exists provider exs l0, (provider, exs) ∈ l /\ exs !! key = Some l0 /\ x ∈ l0)); [intros; by setoid_rewrite Hl|].
  clearbody l. clear m Hl.
  enough (forall extras P, extras_hold extras P ->
    extras_hold (fold_left (fun extras '(_, exs) => append_extra UserAttributePrincipalID exs (append_extra UserAttributeUserName exs extras)) l extras)
      (fun key x => P key x \/ ((key = UserAttributePrincipalID \/ key = UserAttributeUserName)
         /\ exists provider exs l0, (provider, exs) ∈ l /\ exs !! key = Some l0 /\ x ∈ l0))) as Hfold.
  { eapply extras_hold_ext; [|apply (Hfold ∅ (fun _ _ => False))]; [naive_solver|].
    intros k _. rewrite lookup_empty. split; [done|]. intros x. simpl. split; [by intros ?%elem_of_nil|done]. }
  induction l as [|[k exs] l IH]; intros extras P Hh; simpl.
  - eapply extras_hold_ext; [|exact Hh]. intros key x. split; [by left|]. intros [?|(_ & pr & e & l0 & Hp%elem_of_nil & _)]; done.
  - eapply extras_hold_ext; [|apply IH, append_extra_hold; [by left|]; apply append_extra_hold; [by right|]; exact Hh].
    intros key x. simpl. setoid_rewrite elem_of_cons. naive_solver.
Qed.

Lemma extras_of_user_hold u :
  extras_hold (extras_of_user u) (fun key x => (key = UserAttributePrincipalID /\ x ∈ u_PrincipalIDs u)
    \/ (key = UserAttributeUserName /\ x = u_DisplayName u /\ x <> "")).
Proof.
  intros key Hkey. unfold extras_of_user.
  assert (UserAttributePrincipalID <> UserAttributeUserName) as Hne by done.
  destruct Hkey as [-> | ->]; repeat case_match; repeat case_bool_decide; simpl in *; simplify_eq;
    rewrite ?lookup_insert_eq, ?lookup_insert_ne, ?lookup_insert_eq, ?lookup_empty by done; (split; [done|]); intros x; simpl;
    rewrite ?elem_of_cons, ?elem_of_nil; naive_solver.
Qed.

Lemma sort_extra_hold key extras P : extras_hold extras P -> extras_hold (sort_extra key extras) P.
Proof.
  intros Hh k Hk. destruct (Hh k Hk) as [H1 H2]. unfold sort_extra. destruct (extras !! key) as [l|] eqn:He; [|done].
  destruct (decide (k = key)) as [->|Hne]; [|by rewrite lookup_insert_ne]. rewrite lookup_insert_eq. rewrite He in H1, H2. split.
  - intros [= Hs]. apply H1. f_equal. apply Permutation_nil. rewrite <- Hs. apply sort_by_perm.
  - intros x. simpl. unfold sort_Strings. by rewrite elem_of_sort_by, <- H2.
Qed.

Lemma getUser_spec uid user : getUser uid = Ret user -> exists u, userCache !! uid = Some u /\ iu_UID user = u_Name u
  /\ (forall x, x ∈ iu_Groups user <-> x ∈ ["system:authenticated"; "system:cattle:authenticated"]
        \/ exists a provider gps p, userAttributeCache !! uid = Some a /\ default ∅ (ua_GroupPrincipals a) !! provider = Some gps
              /\ p ∈ gps /\ p_Name p = x)
  /\ extras_hold (iu_Extra user) (recorded uid u).
Proof.
  unfold getUser, recorded. destruct (userCache !! uid) as [u|]; [|done]. destruct (userAttributeCache !! uid) as [a|]; intros [= <-];
    exists u; (split; [done|]); (split; [done|]); simpl; unfold sort_Strings; (split; [intros x; rewrite elem_of_sort_by|apply sort_extra_hold, sort_extra_hold]).
  - rewrite elem_of_groups. split; [|naive_solver]. intros [?|(pr & gps & p & ?)]; [by left|right]. by exists a, pr, gps, p.
  - intros key Hkey. destruct (elem_of_extras a key Hkey) as [He1 He2]. split; [done|]. intros x. rewrite He2. naive_solver.
  - split; [by left|]. intros [?|(a & _ & _ & _ & ? & _)]; done.
  - apply extras_of_user_hold.
Qed.

Lemma elem_of_optional {A B} (o : option A) (f : A -> B) x :
  x ∈ match o with Some a => [f a] | None => [] end <-> exists a, o = Some a /\ x = f a.
Proof.
  destruct o as [a|]; [rewrite list_elem_of_singleton|rewrite elem_of_nil]; split; try done.
  - intros ->. by exists a.
  - by intros (? & [= <-] & ->).
  - by intros (? & ? & _).
Qed.

Lemma rulesForUser_spec user rule : rule ∈ rulesForUser user <->
  rule = impersonation_rule "" "users" [iu_UID user]
  \/ (iu_Groups user <> [] /\ rule = impersonation_rule "" "groups" (iu_Groups user))
  \/ exists resource key l, extra_resource resource key /\ iu_Extra user !! key = Some l
       /\ rule = impersonation_rule "authentication.k8s.io" resource l.
Proof.
  unfold rulesForUser, extra_resource.
  rewrite !elem_of_app, list_elem_of_singleton,
    (elem_of_optional (iu_Extra user !! UserAttributePrincipalID) (impersonation_rule "authentication.k8s.io" "userextras/principalid")),
    (elem_of_optional (iu_Extra user !! UserAttributeUserName) (impersonation_rule "authentication.k8s.io" "userextras/username")).
  assert (rule ∈ match iu_Groups user with [] => [] | g :: gs => [impersonation_rule "" "groups" (g :: gs)] end
          <-> iu_Groups user <> [] /\ rule = impersonation_rule "" "groups" (iu_Groups user)) as ->.
  { destruct (iu_Groups user); [rewrite elem_of_nil|rewrite list_elem_of_singleton]; naive_solver. }
  split.
  - intros [?|[?|[(l & Hl & ->)|(l & Hl & ->)]]]; [by left|by right; left|right; right..].
    + exists "userextras/principalid", UserAttributePrincipalID, l. split; [by left|done].
    + exists "userextras/username", UserAttributeUserName, l. split; [by right|done].
  - intros [?|[?|(res & key & l & [[-> ->]|[-> ->]] & Hl & ->)]]; [by left|by right; left|right; right; left; by exists l|right; right; right; by exists l].
Qed.

(** The rules allow to impersonate exactly whom the user stands for, and each names somebody. *)
Definition allows_exactly (uid : string) (rules : list PolicyRule) : Prop :=
  (forall rule, rule ∈ rules -> r_Verbs rule = ["impersonate"] /\ r_NonResourceURLs rule = None
     /\ exists group resource names, r_APIGroups rule = [group] /\ r_Resources rule = [resource] /\ r_ResourceNames rule = Some names /\ names <> [])
  /\ forall group resource name,
       (exists rule, rule ∈ rules /\ group ∈ r_APIGroups rule /\ resource ∈ r_Resources rule /\ name ∈ slice_of (r_ResourceNames rule))
       <-> stands_for uid group resource name.

Lemma rulesForUser_exact uid user :
  (forall u, userCache !! uid = Some u -> u_Name u = uid) -> getUser uid = Ret user -> allows_exactly uid (rulesForUser user).
Proof.
  intros Hname (u & Hu & Huid & Hg & Hx)%getUser_spec. rewrite (Hname u Hu) in Huid. unfold stands_for.
  assert (forall resource key, extra_resource resource key -> key = UserAttributePrincipalID \/ key = UserAttributeUserName) as Hkey
    by (unfold extra_resource; naive_solver).
  split.
  - intros rule [->|[[Hne ->]|(resource & key & l & Hk & Hl & ->)]]%rulesForUser_spec; (split; [done|]); (split; [done|]); simpl.
    + by exists "", "users", [iu_UID user].
    + by exists "", "groups", (iu_Groups user).
    + exists "authentication.k8s.io", resource, l. split_and!; [done..|]. destruct (Hx key (Hkey _ _ Hk)) as [H1 _]. congruence.
  - intros group resource name. split.
    + intros (rule & Hr & Hgr & Hres & Hn). exists u. split; [done|].
      apply rulesForUser_spec in Hr as [->|[[Hne ->]|(res & key & l & Hk & Hl & ->)]]; simpl in Hgr, Hres, Hn;
        apply list_elem_of_singleton in Hgr as ->; apply list_elem_of_singleton in Hres as ->.
      * apply list_elem_of_singleton in Hn as ->. left. by rewrite Huid.
      * right. left. split_and!; [done..|]. by apply Hg.
      * right. right. split; [done|]. exists key. split; [done|]. destruct (Hx key (Hkey _ _ Hk)) as [_ H2]. apply H2. by rewrite Hl.
    + intros (u' & Hu' & Hcases). assert (u' = u) as -> by congruence. setoid_rewrite rulesForUser_spec.
      destruct Hcases as [(-> & -> & ->)|[(-> & -> & Hn%Hg)|(-> & key & Hk & Hrec)]].
      * exists (impersonation_rule "" "users" [iu_UID user]). split; [by left|]. simpl. rewrite Huid. split_and!; by apply list_elem_of_singleton.
      * exists (impersonation_rule "" "groups" (iu_Groups user)). split; [right; left; split; [by intros He; rewrite He in Hn; apply elem_of_nil in Hn|done]|].
        simpl. split_and!; [by apply list_elem_of_singleton..|done].
      * destruct (Hx key (Hkey _ _ Hk)) as [_ H2]. apply H2 in Hrec. destruct (iu_Extra user !! key) as [l|] eqn:Hl; [|by apply elem_of_nil in Hrec].
        exists (impersonation_rule "authentication.k8s.io" resource l). split; [right; right; by exists resource, key, l|].
        simpl. split_and!; [by apply list_elem_of_singleton..|done].
Qed.
End allowed.

(** ** The stored role *)

(** Programs that leave the cluster roles, their cache, and an empty schedule of faults alone. *)
Definition roles_kept (w w' : RWorld) : Prop := rw_clusterRoles w' = rw_clusterRoles w /\ rw_crCache w' = rw_crCache w.
#[global] Instance roles_kept_preorder : PreOrder roles_kept.
Proof. split; [done|]. intros w1 w2 w3 [H1 H2] [K1 K2]. split; congruence. Qed.
Definition keeps_roles {A} (c : RM A) : Prop := runs (fun _ => True) roles_kept c (fun _ => True).

Lemma keeps_roles_request : keeps_roles r_request.
Proof. intros w _. split; [done|]. split; [|done]. unfold r_request, on_base. by destruct (api_request (rw_base w)). Qed.
Lemma keeps_roles_on_base {A} (c : M A) : keeps_roles (on_base c).
Proof. intros w _. split; [done|]. split; [|done]. unfold on_base. by destruct (c (rw_base w)). Qed.
Lemma keeps_roles_ran {A} (c : RM A) w w' r : keeps_roles c -> c w = (w', r) -> roles_kept w w'.
Proof. intros Hc Hr. destruct (Hc w I) as (_ & Hs & _). by rewrite Hr in Hs. Qed.

Section keeps_roles.
Context `{Countable K} {A : Type} `{EqDecision A} (k : kind K A) (Hset : forall m w, roles_kept w (k_set k m w)).
Lemma keeps_roles_Create a : keeps_roles (obj_Create k a).
Proof.
  pose proof keeps_roles_request as Hr. assert (forall g, (forall w, roles_kept w (g w)) -> keeps_roles (modify g)) as Hm
    by (intros g Hg; apply runs_modify; [|done]; intros w _; split; [done|]; apply Hg).
  assert (forall n w, roles_kept w (set_rw_counter n w)) as Hn by done. unfold keeps_roles, obj_Create in *. runs_auto.
Qed.
Lemma keeps_roles_Get key : keeps_roles (obj_Get k key).
Proof. pose proof keeps_roles_request as Hr. unfold keeps_roles, obj_Get in *. runs_auto. Qed.
End keeps_roles.

Lemma r_request_calm w : w_faults (rw_base w) = [] -> r_request w = (w, Ret tt).
Proof. intros Hf. unfold r_request, on_base, api_request. rewrite Hf. by destruct w. Qed.

Section stored.
Context `{C : Controllers} `{R : RbacCaches} `{O : MapOrder} (env : World -> World).

Lemma keeps_roles_createNamespace : keeps_roles createNamespace.
Proof.
  assert (forall a, keeps_roles (obj_Create kind_namespace a)) as Hc by (intros; apply keeps_roles_Create; done).
  unfold keeps_roles, createNamespace in *. runs_auto.
Qed.
Lemma keeps_roles_createServiceAccount user role : keeps_roles (createServiceAccount env user role).
Proof.
  pose proof keeps_roles_request as Hr.
  assert (forall a, keeps_roles (obj_Create kind_serviceAccount a)) as Hc by (intros; apply keeps_roles_Create; done).
  assert (forall key, keeps_roles (obj_Get kind_serviceAccount key)) as Hg by (intros; apply keeps_roles_Get; done).
  pose proof (fun sa => keeps_roles_on_base (EnsureSecretForServiceAccount env true sa)) as He.
  assert (forall B (c : RM B), keeps_roles c -> keeps_roles (attempt c)) as Ha by (intros B c Hb; eapply runs_attempt; [exact Hb|done..]).
  pose proof (fun a => Ha _ _ (Hc a)) as H1. pose proof (fun a => Ha _ _ (Hg a)) as H2. pose proof (fun a => Ha _ _ (He a)) as H3.
  assert (forall a, keeps_roles (attempt (serviceAccounts_Create a))) as H4.
  { intros a. apply Ha. unfold keeps_roles, serviceAccounts_Create in *. runs_auto. }
  unfold keeps_roles, createServiceAccount in *. runs_auto.
Qed.
Lemma keeps_roles_createRoleBinding user role sa : keeps_roles (createRoleBinding user role sa).
Proof.
  assert (forall a, keeps_roles (obj_Create kind_binding a)) as Hc by (intros; apply keeps_roles_Create; done).
  unfold keeps_roles, createRoleBinding in *. runs_auto.
Qed.
Lemma keeps_roles_waitForServiceAccount sa : keeps_roles (waitForServiceAccount sa).
Proof.
  unfold waitForServiceAccount, keeps_roles. eapply (runs_bind _ _ _ _ (fun _ => True)); [eapply (runs_attempt _ _ _ (fun _ => True)); [|done..]|].
  - generalize (1%nat, @None ServiceAccount). generalize 10%nat as n. induction n as [|n IH]; intros v; simpl; [apply runs_fail, _|].
    eapply (runs_bind _ _ _ _ (fun _ => True)); [|intros [v' []] _; [by apply runs_ret; [apply _|]|apply IH]].
    unfold account_ready. destruct (_ !! _); [|by apply runs_ret; [apply _|]].
    eapply runs_bind; [apply _|apply keeps_roles_on_base|]. intros [secret|] _; by apply runs_ret; [apply _|].
  - intros [[i found]|e] _; [by apply runs_ret; [apply _|]|apply runs_fail, _].
Qed.

(** The cache has the role as it is stored. *)
Definition role_synced (user : ImpersonatedUser) (w : RWorld) : Prop :=
  let name := impersonation_name user in
  rw_crCache w !! name = rw_clusterRoles w !! name /\ forall role, rw_clusterRoles w !! name = Some role -> cr_Name role = name.

Definition role_stored (user : ImpersonatedUser) (w : RWorld) : Prop :=
  exists role, rw_clusterRoles w !! impersonation_name user = Some role /\ cr_Rules role = rulesForUser user.

Lemma checkAndUpdateRole_calm user w w' o :
  role_synced user w -> w_faults (rw_base w) = [] -> checkAndUpdateRole user (rulesForUser user) w = (w', Ret o) ->
  w_faults (rw_base w') = []
  /\ (role_stored user w' /\ is_Some (rw_crCache w' !! impersonation_name user) \/ w' = w /\ o = None /\ rw_crCache w !! impersonation_name user = None).
Proof.
  intros [Hs Hn] Hf. unfold checkAndUpdateRole. intros ([role err] & w1 & Hr & Hk)%bind_Ret. destruct err; [done|]. injection Hk as <- <-.
  cbn [RetryOnConflict_var] in Hr. unfold bind at 1 in Hr. unfold update_role_once at 1 in Hr. unfold bind at 1, gets at 1 in Hr.
  rewrite Hs in Hr. destruct (rw_clusterRoles w !! impersonation_name user) as [r|] eqn:Er.
  2:{ injection Hr as <- <-. split; [done|]. right. by rewrite Hs. }
  case_bool_decide as Eq; [injection Hr as <- <-; split; [done|]; left; split; [by exists r|by rewrite Hs]|].
  pose proof (Hn r eq_refl) as Hname. unfold bind at 1, modify at 1, bind at 1, attempt in Hr. unfold obj_Update, bind at 1 in Hr.
  rewrite r_request_calm in Hr by done. unfold bind at 1, gets at 1 in Hr. cbn [k_get kind_clusterRole rw_clusterRoles set_rw_crCache k_key] in Hr.
  change (cr_Name (set_cr_Rules (rulesForUser user) r)) with (cr_Name r) in Hr. rewrite Hname, Er in Hr.
  cbn [k_version cr_ResourceVersion set_cr_Rules] in Hr. rewrite Z.eqb_refl in Hr. cbn [negb] in Hr.
  rewrite bool_decide_eq_false_2 in Hr by (intros He; apply Eq; by rewrite <- He).
  injection Hr as <- <-. cbn. split; [done|]. left. rewrite !lookup_insert_eq. split; [eexists; split; [apply lookup_insert_eq|done]|by eexists].
Qed.

Lemma createRole_calm user w w' role :
  w_faults (rw_base w) = [] -> (rw_crCache w !! impersonation_name user = None -> rw_clusterRoles w !! impersonation_name user = None) ->
  (rw_crCache w !! impersonation_name user <> None -> role_stored user w) ->
  createRole user (rulesForUser user) w = (w', Ret role) -> role_stored user w'.
Proof.
  intros Hf Hs Hc. unfold createRole, bind at 1, gets at 1. destruct (rw_crCache w !! impersonation_name user) as [r|] eqn:Er.
  { intros [= <- <-]. by apply Hc. }
  unfold bind at 1, attempt, obj_Create, bind at 1. rewrite r_request_calm by done. unfold bind at 1, gets at 1. cbn [k_get kind_clusterRole k_key cr_Name].
  rewrite Hs by done. unfold bind, gets, modify, ret. intros [= <- _]. cbn. eexists. split; [apply lookup_insert_eq|done].
Qed.

Lemma SetUpImpersonation_stored user w w' o :
  role_synced user w -> w_faults (rw_base w) = [] -> SetUpImpersonation env user w = (w', Ret o) -> role_stored user w'.
Proof.
  intros Hs Hf. unfold SetUpImpersonation. intros (role & w1 & Hc & Hk)%bind_Ret.
  destruct (checkAndUpdateRole_calm _ _ _ _ Hs Hf Hc) as [Hf1 Hcase].
  destruct (match role, crbLister_Get _ with Some _, Ret _ => _ | _, _ => None end) as [sa|] eqn:Ee.
  { injection Hk as <- _. destruct Hcase as [[? _]|(_ & -> & _)]; [done|]. done. }
  apply bind_Ret in Hk as ([] & w2 & Hns & Hk).
  assert (w_faults (rw_base w2) = []) as Hf2.
  { unfold createNamespace in Hns. destruct (nsLister_Get _) as [n|e|]; [by injection Hns as <-| |done]. destruct (IsNotFound e); [|done].
    apply bind_Ret in Hns as (r & w3 & Hc' & Hns). apply attempt_err_Ret in Hc'.
    assert (w_faults (rw_base w3) = []) as Hf3; [|destruct r as [e'|]; [destruct (IsAlreadyExists e'); [by injection Hns as <-|done]|by injection Hns as <-]].
    destruct Hc' as [[_ [a Ha]]|(e' & _ & Ha)]; unfold obj_Create, bind at 1 in Ha; rewrite r_request_calm in Ha by done;
      unfold bind, gets, modify, ret, fail in Ha; destruct (k_get _ _ !! _); simplify_eq; by cbn. }
  pose proof (keeps_roles_ran _ _ _ _ keeps_roles_createNamespace Hns) as [Hk1 Hk2].
  apply bind_Ret in Hk as (role' & w3 & Hcr & Hk). apply createRole_calm in Hcr; [|done|..].
  - apply bind_Ret in Hk as (sa & w4 & Hsa & Hk). apply bind_Ret in Hk as ([] & w5 & Hb & Hk).
    pose proof (keeps_roles_ran _ _ _ _ (keeps_roles_createServiceAccount _ _) Hsa) as [E1 _].
    pose proof (keeps_roles_ran _ _ _ _ (keeps_roles_createRoleBinding _ _ _) Hb) as [E2 _].
    pose proof (keeps_roles_ran _ _ _ _ (keeps_roles_waitForServiceAccount _) Hk) as [E3 _].
    destruct Hcr as (r & Hr & Hrules). exists r. by rewrite E3, E2, E1.
  - unfold role_stored. rewrite Hk1, Hk2. destruct Hcase as [[_ [r Hr]]|(-> & _ & _)]; [by rewrite Hr|]. destruct Hs as [<- _]. done.
  - unfold role_stored. rewrite Hk1, Hk2. destruct Hcase as [[? _]|(-> & _ & Hn)]; [done|]. by rewrite Hn.
Qed.
End stored.

(** C31: The rules for the service account of a user allow to impersonate the user, the groups and the further identities that
    are recorded for the user, in the API groups of Kubernetes' impersonation, and exactly these: no rule is without names,
    which would allow everything.  When the account is set up successfully, without failing requests and with the role as it is
    stored in the cache, the stored role has exactly these rules. *)
Theorem impersonation_exact `{C : Controllers} `{R : RbacCaches} `{O : MapOrder} env uid user :
  (forall u, userCache !! uid = Some u -> u_Name u = uid) -> getUser uid = Ret user ->
  allows_exactly uid (rulesForUser user)
  /\ forall w w' o, role_synced user w -> w_faults (rw_base w) = [] -> SetUpImpersonation env user w = (w', Ret o) ->
       exists role, rw_clusterRoles w' !! ("cattle-impersonation-" +:+ uid) = Some role /\ allows_exactly uid (cr_Rules role).
Proof.
  intros Hname Hu. pose proof (rulesForUser_exact uid user Hname Hu) as Hexact. split; [done|]. intros w w' o Hs Hf Hr.
  destruct (SetUpImpersonation_stored env _ _ _ _ Hs Hf Hr) as (role & Hrole & Hrules). exists role. rewrite Hrules. split; [|done].
  destruct (getUser_spec _ _ Hu) as (u & Huc & Huid & _). unfold impersonation_name in Hrole. by rewrite Huid, (Hname u Huc) in Hrole.
Qed.

(** ** Examples *)

(** Any order serves as the order of a map. *)
#[global] Instance demoOrder : MapOrder := {| range A _ m := map_to_list m; range_perm A _ m := Permutation_refl _ |}.

Definition demoUser : User := mkUser "" "" "u-abc" "1" ∅ "Ann" ["local://u-abc"] None.
Definition demoAttributes : UserAttribute :=
  mkUserAttribute "u-abc" [] (Some {[ "github" := [mkPrincipal "github_team://7" "" "" "github" ∅] ]})
    (Some {[ "github" := {[ UserAttributePrincipalID := ["github_user://5"]; UserAttributeUserName := ["ann"] ]} ]}).

Definition demoAccess (users : gmap string User) (attributes : gmap string UserAttribute) : RbacCaches := {|
  clusterName := "c-xyz"; templateCache := ∅; bindingCache := []; roleCache := ∅; projectCache := []; crtbCache := []; prtbCache := [];
  namespaceCache := []; serviceAccountCacheAt _ := ∅; userCache := users; userAttributeCache := attributes
|}.

Definition emptyRWorld (base : World) : RWorld := mkRWorld base 0 ∅ ∅ ∅ ∅ ∅ ∅ ∅ ∅ ∅.

Definition demoImpersonated : ImpersonatedUser :=
  mkImpersonatedUser "u-abc" ["github_team://7"; "system:authenticated"; "system:cattle:authenticated"]
    {[ UserAttributePrincipalID := ["github_user://5"]; UserAttributeUserName := ["ann"] ]}.

(** The user was an administrator once: the stored role still says so. *)
Definition demoFormer : ClusterRole :=
  mkClusterRole "cattle-impersonation-u-abc" "uid-1" 1 impersonation_labels ∅ [] [impersonation_rule "" "users" ["u-abc"]; impersonation_rule "" "groups" ["admins"]].
Definition demoFormerWorld : RWorld :=
  set_rw_crCache {[ cr_Name demoFormer := demoFormer ]} (set_rw_clusterRoles {[ cr_Name demoFormer := demoFormer ]} (emptyRWorld (demoWorld []))).
Definition demoAccount : ServiceAccount := mkServiceAccount ImpersonationNamespace "cattle-impersonation-u-abc" ∅ [] "sa-1".
Definition demoImpersonationCaches : RbacCaches := {|
  clusterName := "c-xyz"; templateCache := ∅; bindingCache := [mkBinding "" "cattle-impersonation-u-abc" 1 ∅ ∅ [] [] (mkRoleRef "" "")]; roleCache := ∅; projectCache := []; crtbCache := []; prtbCache := [];
  namespaceCache := []; serviceAccountCacheAt _ := {[ (ImpersonationNamespace, "cattle-impersonation-u-abc") := demoAccount ]};
  userCache := {[ "u-abc" := demoUser ]}; userAttributeCache := {[ "u-abc" := demoAttributes ]}
|}.

Lemma impersonation_exact_witness :
  let R := demoImpersonationCaches in
  getUser (R := R) "u-abc" = Ret demoImpersonated
  /\ stands_for (H := R) "u-abc" "" "groups" "github_team://7"
  /\ exists role, rw_clusterRoles (fst (SetUpImpersonation (C := demoControllers (demoPlanner ∅ ∅ [] None) [] [] None) (R := R) id demoImpersonated demoFormerWorld)) !! "cattle-impersonation-u-abc"
         = Some role /\ allows_exactly "u-abc" (cr_Rules role).
Proof.
  intros R. set (C := demoControllers (demoPlanner ∅ ∅ [] None) [] [] None). split; [vm_compute; reflexivity|].
  destruct (impersonation_exact (C := C) (R := R) id "u-abc" demoImpersonated) as [[_ Hexact] Hstored].
  - intros u. vm_compute. by intros [= <-].
  - vm_compute. reflexivity.
  - split; [apply (Hexact "" "groups" "github_team://7"); eexists; split; [right; left; reflexivity|]; split; [left|]; split; [left|]; vm_compute; left|].
    apply (Hstored demoFormerWorld _ (Some demoAccount)); [split; [reflexivity|vm_compute; by intros ? [= <-]]|reflexivity|vm_compute; reflexivity].
Defined.


(** A user has left a group.  The update of the role fails, but the object in the cache has been changed: the next call takes
    the role for up to date, and the stored one keeps the group. *)
Definition stale_role : ClusterRole :=
  mkClusterRole "cattle-impersonation-u-abc" "uid-1" 1 impersonation_labels ∅ [] [impersonation_rule "" "users" ["u-abc"]; impersonation_rule "" "groups" ["admins"]].
Definition world_with_stale_role (faults : list (option error)) : RWorld :=
  set_rw_crCache {[ cr_Name stale_role := stale_role ]}
    (set_rw_clusterRoles {[ cr_Name stale_role := stale_role ]} (emptyRWorld (set_w_faults faults (demoWorld [])))).
Example failed_update_forgotten :
  let user := mkImpersonatedUser "u-abc" [] ∅ in
  let first := checkAndUpdateRole user (rulesForUser user) (world_with_stale_role [Some (StatusError ReasonOther "timeout")]) in
  let second := checkAndUpdateRole user (rulesForUser user) (fst first) in
  match snd first with Fail _ => true | _ => false end = true
  /\ match snd second with Ret (Some _) => true | _ => false end = true
  /\ rw_clusterRoles (fst second) !! cr_Name stale_role = Some stale_role.
Proof. vm_compute. repeat split; reflexivity. Qed.

(** The same after a conflict, within one call: it succeeds without having changed the stored role. *)
Example conflict_taken_for_success :
  let user := mkImpersonatedUser "u-abc" [] ∅ in
  let run := checkAndUpdateRole user (rulesForUser user) (world_with_stale_role [Some (StatusError ReasonConflict "changed")]) in
  match snd run with Ret (Some _) => true | _ => false end = true /\ rw_clusterRoles (fst run) !! cr_Name stale_role = Some stale_role.
Proof. vm_compute. split; reflexivity. Qed.
