(* ===== verification/RoleBindings.v ===== *)
(** * Roles and bindings in a downstream cluster ([handler_base.go], [crtb_handler.go], [clusterrole_handler.go])

    For a role template that is bound to somebody there is a cluster role for it and for each template it inherits, and a
    binding of each of them to the subject: in the cluster for a cluster role template binding, in every namespace of the
    project for one of a project. *)

From S2P Require Import Prelude GoLib Errors Types External World Handlers Rbac RoleTemplates RbacStore Impersonation.

Definition rtbOwnerLabel : string := "authz.cluster.cattle.io/rtb-owner-updated".
Definition rtbOwnerLabelLegacy : string := "authz.cluster.cattle.io/rtb-owner".
Definition clusterRoleOwner : string := "authz.cluster.cattle.io/clusterrole-owner".
Definition rtbLabelUpdated : string := "authz.cluster.cattle.io/rtb-label-updated".
Definition rtbCrbRbLabelsUpdated : string := "authz.cluster.cattle.io/crb-rb-labels-updated".

(** [errors.Wrap]. *)
Definition wrap (what : string) (err : error) : error := wrapError (what +:+ ": " +:+ Error err) err.
Definition wrapping {A} (what : string) (c : RM A) : RM A :=
  let* r := attempt c in match r with inl a => ret a | inr err => fail (wrap what err) end.
(** An error of a given reason is not one. *)
Definition ignoring (test : error -> bool) {A} (c : RM A) : RM unit :=
  let* e := attempt_err c in match e with Some err => if test err then ret tt else fail err | None => ret tt end.

Definition rbRoleSubjectKey (roleName : string) (subject : Subject) : string :=
  sub_Kind subject +:+ " " +:+ sub_Name subject +:+ " Role " +:+ roleName.
Definition crbRoleSubjectKeys (roleName : string) (subjects : list Subject) : list string := map (rbRoleSubjectKey roleName) subjects.
Definition crbByRoleAndSubject (crb : Binding) : list string := crbRoleSubjectKeys (ref_Name (b_RoleRef crb)) (b_Subjects crb).

Section bindings.
Context `{E : External} `{R : RbacCaches} `{O : MapOrder}.

(** ** Roles *)

Definition compareAndUpdateClusterRole (clusterRole : ClusterRole) (rt : RoleTemplate) : RM unit :=
  if rules_DeepEqual (cr_Rules clusterRole) (rt_Rules rt) then ret tt
  else let* _ := wrapping ("couldn't update clusterRole " +:+ rt_Name rt) (obj_Update kind_clusterRole (set_cr_Rules (rt_Rules rt) clusterRole)) in ret tt.

Definition createClusterRole (rt : RoleTemplate) : RM unit :=
  let* r := attempt (obj_Create kind_clusterRole (mkClusterRole (rt_Name rt) "" 0 ∅ {[ clusterRoleOwner := rt_Name rt ]} [] (rt_Rules rt))) in
  match r with
  | inl _ => ret tt
  | inr err => if IsAlreadyExists err then ret tt else fail (wrap ("couldn't create clusterRole " +:+ rt_Name rt) err)
  end.

Definition ensureClusterRoles (rt : RoleTemplate) : RM unit :=
  let* r := attempt (crLister_Get (rt_Name rt)) in
  match r with
  | inl clusterRole =>
      let* r := attempt (compareAndUpdateClusterRole clusterRole rt) in
      match r with
      | inl _ => ret tt
      | inr err =>
          if IsConflict err then
            let* clusterRole := wrapping ("error getting clusterRole " +:+ rt_Name rt) (obj_Get kind_clusterRole (rt_Name rt)) in
            compareAndUpdateClusterRole clusterRole rt
          else fail (wrap ("couldn't update clusterRole " +:+ rt_Name rt) err)
      end
  | inr _ => createClusterRole rt
  end.

Definition compareAndUpdateNamespacedRole (role : Role) (rt : RoleTemplate) (namespace : string) : RM unit :=
  if rules_DeepEqual (ro_Rules role) (rt_Rules rt) then ret tt
  else let* _ := wrapping ("couldn't update role " +:+ rt_Name rt +:+ " in " +:+ namespace) (obj_Update kind_role (set_ro_Rules (rt_Rules rt) role)) in ret tt.

(** Roles in the namespaces of Rancher are only updated here. *)
Definition updateRole (rt : RoleTemplate) (namespace : string) : RM unit :=
  match roleCache !! (namespace, rt_Name rt) with
  | None => ret tt
  | Some role =>
      let* r := attempt (compareAndUpdateNamespacedRole role rt namespace) in
      match r with
      | inl _ => ret tt
      | inr err =>
          if IsConflict err then
            let* role := wrapping ("error getting role " +:+ rt_Name rt) (obj_Get kind_role (namespace, rt_Name rt)) in
            compareAndUpdateNamespacedRole role rt namespace
          else fail (wrap ("couldn't update role " +:+ rt_Name rt) err)
      end
  end.

Definition ensureNamespacedRoles (rt : RoleTemplate) : RM unit :=
  let* owner := lift (isClusterOwner templateCache (rt_Name rt)) in
  if owner : bool then ret tt
  else if rt_Context rt =? "cluster" then updateRole rt clusterName
  else if rt_Context rt =? "project" then for_fold projectCache tt (fun _ project => updateRole rt (pr_Name project))
  else ret tt.

Definition ensureRoles (rts : gmap string RoleTemplate) : RM unit :=
  for_fold (range "ensureRoles" rts) tt (fun _ '(_, rt) =>
    if rt_External rt then ret tt else let* _ := ensureClusterRoles rt in ensureNamespacedRoles rt).

(** ** Bindings *)

Definition bindingParts (namespace roleName : string) (objMeta : RTBMeta) (subject : Subject) : string * Binding :=
  let roleRef := mkRoleRef "ClusterRole" roleName in
  let name := if namespace =? "" then NameForClusterRoleBinding roleRef subject else NameForRoleBinding namespace roleRef subject in
  (rbRoleSubjectKey roleName subject,
   mkBinding namespace name 0 {[ rtbOwnerLabel := GetRTBLabel objMeta ]} ∅ [] [subject] roleRef).

Definition desired_bindings (ns : string) (roles : gmap string RoleTemplate) (objMeta : RTBMeta) (subject : Subject) : gmap string Binding :=
  fold_left (fun desired '(roleName, _) => let '(rbKey, rb) := bindingParts ns roleName objMeta subject in <[rbKey := rb]> desired)
    (range "desired" roles) ∅.

(** The current bindings are compared with the desired ones: [processed] are the names seen, [desired] what is still missing. *)
Fixpoint compare_bindings (current : list Binding) (processed : gset string) (desired : gmap string Binding) (toDelete : gmap string unit)
  : gmap string Binding * gmap string unit :=
  match current with
  | [] => (desired, toDelete)
  | rb :: rest =>
      if bool_decide (b_Name rb ∈ processed) then compare_bindings rest processed desired toDelete
      else
        let processed := {[ b_Name rb ]} ∪ processed in
        match b_Subjects rb with
        | [subject] =>
            let crbKey := rbRoleSubjectKey (ref_Name (b_RoleRef rb)) subject in
            match desired !! crbKey with
            | Some _ => compare_bindings rest processed (delete crbKey desired) toDelete
            | None => compare_bindings rest processed desired (<[b_Name rb := tt]> toDelete)
            end
        | _ => compare_bindings rest processed desired (<[b_Name rb := tt]> toDelete)
        end
  end.

(** Role bindings are looked for in the cache before they are created, those of the cluster are not. *)
Definition create_binding (ns : string) (rb : Binding) : RM unit :=
  if ns =? "" then ignoring IsAlreadyExists (obj_Create kind_binding rb)
  else match rbLister_Get ns (b_Name rb) with
       | Ret _ => ret tt
       | Fail err => if IsNotFound err then ignoring IsAlreadyExists (obj_Create kind_binding rb) else fail err
       | Panic => panic
       end.

Definition ensureBindings (ns : string) (roles : gmap string RoleTemplate) (binding : RTB) : RM unit :=
  let* subject := lift (BuildSubjectFromRTB binding) in
  let objMeta := rtb_meta binding in
  let currentRBs := rbLister_List ns {[ rtbOwnerLabel := GetRTBLabel objMeta ]} in
  let '(desiredRBs, rbsToDelete) := compare_bindings currentRBs ∅ (desired_bindings ns roles objMeta subject) ∅ in
  let* _ := for_fold (range "create" desiredRBs) tt (fun _ '(_, rb) => create_binding ns rb) in
  for_fold (range "delete" rbsToDelete) tt (fun _ '(name, _) => ignoring IsNotFound (obj_Delete kind_binding (ns, name))).

Definition ensureClusterBindings (roles : gmap string RoleTemplate) (binding : ClusterRoleTemplateBinding) : RM unit :=
  ensureBindings "" roles (aCRTB binding).
Definition ensureProjectRoleBindings (ns : string) (roles : gmap string RoleTemplate) (binding : ProjectRoleTemplateBinding) : RM unit :=
  ensureBindings ns roles (aPRTB binding).
End bindings.

(** ** Bindings of role templates in a cluster ([crtb_handler.go]) *)

Definition map_get_label (l : gmap string string) (key : string) : string := default "" (l !! key).

(** Labels are added to a stored object, which is read again after a conflict. *)
Definition relabel {K A} `{Countable K} `{EqDecision A} (k : kind K A) (key : K) (edit : A -> A) : RM unit :=
  RetryOnConflict 5 (let* a := obj_Get k key in let* _ := obj_Update k (edit a) in ret tt).
(** Errors are collected. *)
Definition collect_errors {A} (l : list A) (body : A -> RM unit) : RM (list error) :=
  for_fold l [] (fun errs a => let* e := attempt_err (body a) in ret (errs ++ match e with Some err => [err] | None => [] end)).
Definition fail_with_errors (errs : list error) : RM unit :=
  match errs with [] => ret tt | err :: _ => fail (wrapError (Itoa (Z.of_nat (length errs)) +:+ " errors occurred: " +:+ Join (map Error errs) ", ") err) end.

Section crtb.
Context `{C : Controllers} `{R : RbacCaches} `{O : MapOrder} (env : World -> World).

Definition syncCRTB (binding : ClusterRoleTemplateBinding) : RM unit :=
  if crtb_RoleTemplateName binding =? "" then ret tt
  else if (crtb_UserName binding =? "") && (crtb_GroupPrincipalName binding =? "") && (crtb_GroupName binding =? "") then ret tt
  else
    let* rt := wrapping ("couldn't get role template " +:+ crtb_RoleTemplateName binding)
                 (lift (rtLister_Get templateCache (crtb_RoleTemplateName binding))) in
    let* roles := lift (gatherRoles templateCache rt) in
    let* _ := wrapping "couldn't ensure roles" (ensureRoles roles) in
    let* _ := wrapping "couldn't ensure cluster bindings" (ensureClusterBindings roles binding) in
    if crtb_UserName binding !=? "" then
      wrapping "couldn't ensure service account impersonator" (ensureServiceAccountImpersonator env (crtb_UserName binding))
    else ret tt.

Definition ensureCRTBDelete (binding : ClusterRoleTemplateBinding) : RM unit :=
  let rbs := crbLister_List {[ rtbOwnerLabel := GetRTBLabel (crtb_Meta binding) ]} in
  let* _ := for_fold rbs tt (fun _ rb =>
    let* r := attempt (obj_Delete kind_binding ("", b_Name rb)) in
    match r with
    | inl _ => ret tt
    | inr err => if IsNotFound err then ret tt else fail (wrap ("error deleting clusterrolebinding " +:+ b_Name rb) err)
    end) in
  wrapping "error deleting service account impersonator" (deleteServiceAccountImpersonator (crtb_UserName binding)).

(** Bindings made by versions before 2.5 get the labels of today. *)
Definition legacy_crbs (uid : string) (m : gmap (string * string) Binding) : list Binding :=
  List.filter (fun b => (b_Namespace b =? "") && selects {[ rtbOwnerLabelLegacy := uid ]} (b_Labels b)
                        && bool_decide (b_Labels b !! rtbLabelUpdated = None) && bool_decide (b_Labels b !! rtbOwnerLabel = None))
    (map snd (map_to_list m)).
Definition reconcileCRTBUserClusterLabels (binding : ClusterRoleTemplateBinding) : RM unit :=
  let meta := crtb_Meta binding in
  if map_get_label (rtb_Labels meta) rtbCrbRbLabelsUpdated =? "true" then ret tt
  else
    let* _ := r_request in
    let* m := gets rw_bindings in
    let* errs := collect_errors (legacy_crbs (rtb_UID meta) m) (fun crb =>
      relabel kind_binding ("", b_Name crb)
        (fun b => set_b_Labels (<[rtbLabelUpdated := "true"]> (<[rtbOwnerLabel := GetRTBLabel meta]> (b_Labels b))) b)) in
    let* _ := fail_with_errors errs in
    relabel kind_crtb (rtb_Namespace meta, rtb_Name meta)
      (fun b => set_crtb_Meta (set_rtb_Labels (<[rtbCrbRbLabelsUpdated := "true"]> (rtb_Labels (crtb_Meta b))) (crtb_Meta b)) b).

Definition crtb_Create (obj : ClusterRoleTemplateBinding) : RM unit := syncCRTB obj.
Definition crtb_Updated (obj : ClusterRoleTemplateBinding) : RM unit :=
  let* _ := reconcileCRTBUserClusterLabels obj in syncCRTB obj.
Definition crtb_Remove (obj : ClusterRoleTemplateBinding) : RM unit := ensureCRTBDelete obj.

(** ** Cluster roles without a template ([clusterrole_handler.go]) *)

Definition clusterRole_sync (obj : option ClusterRole) : RM unit :=
  match obj with
  | None => ret tt
  | Some cr =>
      match cr_Annotations cr !! clusterRoleOwner with
      | None => ret tt
      | Some owner =>
          match rtLister_Get templateCache owner with
          | Ret _ => ret tt
          | Fail err => if IsNotFound err then obj_Delete kind_clusterRole (cr_Name cr) else fail err
          | Panic => panic
          end
      end
  end.
End crtb.
