(* ===== verification/BindingSafety.v ===== *)
(** * What the bindings of a role template grant

    Properties of [RoleBindings]: after a successful run the subject is bound to exactly the roles gathered for the template,
    and no run, whatever fails, grants anything else. *)

From S2P Require Import Prelude GoLib Errors Types External World Instances Store Handlers ServiceAccountToken Encodings Tokens Rbac RoleTemplates RbacStore Impersonation RoleBindings.

(** ** Frames *)

(** A program that only takes steps of a relation. *)
Definition keeps (P : relation RWorld) {A} (c : RM A) : Prop := runs (fun _ => True) P c (fun _ => True).

Lemma keeps_ran {A} (P : relation RWorld) (c : RM A) w w' r : keeps P c -> c w = (w', r) -> P w w'.
Proof. intros Hc Hr. destruct (Hc w I) as (_ & Hs & _). by rewrite Hr in Hs. Qed.

Section keeps.
Context (P : relation RWorld) `{!PreOrder P} (Hrequest : keeps P r_request) (Hcounter : forall n w, P w (set_rw_counter n w)).

Lemma keeps_modified g : (forall w, P w (g w)) -> keeps P (modify g).
Proof. intros Hg. apply runs_modify; [|done]. intros w _. split; [done|]. apply Hg. Qed.
Lemma keeps_attempt {A} (c : RM A) : keeps P c -> keeps P (attempt c).
Proof. intros Hc. eapply runs_attempt; [exact Hc|done..]. Qed.
Lemma keeps_wrapping {A} what (c : RM A) : keeps P c -> keeps P (wrapping what c).
Proof.
  intros Hc. unfold wrapping, keeps. eapply runs_bind; [apply _|apply keeps_attempt, Hc|]. intros [a|e] _; [by apply runs_ret; [apply _|]|apply runs_fail, _].
Qed.
Lemma keeps_ignoring {A} test (c : RM A) : keeps P c -> keeps P (ignoring test c).
Proof.
  intros Hc. unfold ignoring, keeps. eapply runs_bind; [apply _|eapply runs_attempt_err; [apply _|exact Hc]|]. intros [e|] _; [destruct (test e)|];
    first [by apply runs_ret; [apply _|]|apply runs_fail, _].
Qed.

Section kind.
Context `{Countable K} {A : Type} `{EqDecision A} (k : kind K A) (Hset : forall m w, P w (k_set k m w)).
Lemma keeps_obj_Get key : keeps P (obj_Get k key).
Proof. unfold keeps, obj_Get in *. runs_auto. Qed.
Lemma keeps_obj_Create a : keeps P (obj_Create k a).
Proof. pose proof keeps_modified. unfold keeps, obj_Create in *. runs_auto. Qed.
Lemma keeps_obj_Update a : keeps P (obj_Update k a).
Proof. pose proof keeps_modified. unfold keeps, obj_Update in *. runs_auto. Qed.
Lemma keeps_obj_Delete key : keeps P (obj_Delete k key).
Proof. pose proof keeps_modified. unfold keeps, obj_Delete in *. runs_auto. Qed.
End kind.
End keeps.

(** ** Requests for bindings *)

(** The schedule holds no false answers about whether an object exists. *)
Definition honest_faults (w : RWorld) : Prop :=
  forall e, Some e ∈ w_faults (rw_base w) -> IsAlreadyExists e = false /\ IsNotFound e = false.

Lemma r_request_spec w w' r :
  r_request w = (w', r) -> rw_bindings w' = rw_bindings w /\ (honest_faults w -> honest_faults w')
    /\ (r = Ret tt \/ exists e, r = Fail e /\ Some e ∈ w_faults (rw_base w)).
Proof.
  unfold r_request, on_base, api_request, honest_faults. destruct (w_faults (rw_base w)) as [|[e|] fs] eqn:Hf; intros [= <- <-]; simpl.
  - rewrite Hf. eauto.
  - split; [done|]. split; [|right; exists e; split; [done|left]]. intros Hh e' He'. apply Hh. by right.
  - split; [done|]. split; [|by left]. intros Hh e' He'. apply Hh. by right.
Qed.

(** The object the server makes of a new binding. *)
Definition new_binding (b : Binding) : Binding := k_with_version kind_binding 1 b.

Lemma create_spec b w w' r :
  obj_Create kind_binding b w = (w', r) ->
  (honest_faults w -> honest_faults w')
  /\ (rw_bindings w' = rw_bindings w /\ (forall a, r <> Ret a)
        /\ (forall e, r = Fail e -> honest_faults w -> IsAlreadyExists e = true -> is_Some (rw_bindings w !! (b_Namespace b, b_Name b)))
      \/ rw_bindings w !! (b_Namespace b, b_Name b) = None /\ rw_bindings w' = <[(b_Namespace b, b_Name b) := new_binding b]> (rw_bindings w)
           /\ exists a, r = Ret a).
Proof.
  unfold obj_Create, bind at 1. destruct (r_request w) as [w1 r1] eqn:Hr. apply r_request_spec in Hr as (Hb & Hh & Hr).
  destruct Hr as [->|(e & -> & He)].
  - unfold bind at 1, gets at 1. simpl. rewrite Hb. destruct (rw_bindings w !! (b_Namespace b, b_Name b)) as [c|] eqn:Hl.
    + unfold fail. intros [= <- <-]. split; [done|]. left. split; [done|]. split; [done|]. intros; by eexists.
    + unfold bind, gets, modify, ret. simpl. intros [= <- <-]. split; [done|]. right. split; [done|]. split; [done|]. eauto.
  - intros [= <- <-]. split; [done|]. left. split; [done|]. split; [done|]. intros e' [= <-] Hho Ha. destruct (Hho e He). congruence.
Qed.

Lemma delete_spec key w w' r :
  obj_Delete kind_binding key w = (w', r) ->
  (honest_faults w -> honest_faults w')
  /\ (rw_bindings w' = rw_bindings w /\ (forall a, r <> Ret a)
        /\ (forall e, r = Fail e -> honest_faults w -> IsNotFound e = true -> rw_bindings w !! key = None)
      \/ rw_bindings w' = delete key (rw_bindings w) /\ r = Ret tt).
Proof.
  unfold obj_Delete, bind at 1. destruct (r_request w) as [w1 r1] eqn:Hr. apply r_request_spec in Hr as (Hb & Hh & Hr).
  destruct Hr as [->|(e & -> & He)].
  - unfold bind at 1, gets at 1. simpl. rewrite Hb. destruct (rw_bindings w !! key) as [c|] eqn:Hl.
    + unfold modify. intros [= <- <-]. split; [done|]. by right.
    + unfold fail. intros [= <- <-]. split; [done|]. left. split; [done|]. split; [done|]. by intros.
  - intros [= <- <-]. split; [done|]. left. split; [done|]. split; [done|]. intros e' [= <-] Hho Ha. destruct (Hho e He). congruence.
Qed.

Lemma ignoring_run {A} test (c : RM A) w w' r :
  ignoring test c w = (w', r) -> exists r0, c w = (w', r0)
    /\ (r = Ret tt -> (exists a, r0 = Ret a) \/ exists e, r0 = Fail e /\ test e = true).
Proof.
  unfold ignoring, attempt_err, attempt, bind, ret, fail. destruct (c w) as [w1 [a|e|]].
  - intros [= <- <-]. eauto.
  - destruct (test e) eqn:Ht; intros [= <- <-]; eauto 10. exists (Fail e). split; [done|]. done.
  - intros [= <- <-]. by exists Panic.
Qed.

(** ** Keys *)

Definition space : Ascii.ascii := Ascii.ascii_of_nat 32.
Definition no_space (s : string) : bool := all_chars (fun c => negb (Ascii.eqb c space)) s.

Lemma first_space a b x y : no_space a = true -> no_space b = true -> a +:+ " " +:+ x = b +:+ " " +:+ y -> a = b /\ x = y.
Proof.
  unfold no_space. revert b. induction a as [|c a IH]; intros [|d b]; simpl; intros Ha Hb He; simplify_eq; try done.
  apply andb_true_iff in Ha as [_ Ha], Hb as [_ Hb]. destruct (IH b Ha Hb) as [-> ->]; [done|]. done.
Qed.
Lemma last_space a b x y : no_space x = true -> no_space y = true -> a +:+ " " +:+ x = b +:+ " " +:+ y -> a = b /\ x = y.
Proof.
  unfold no_space. revert b. induction a as [|c a IH]; intros [|d b]; simpl; intros Hx Hy He; simplify_eq; try done.
  - rewrite all_chars_app in Hx. simpl in Hx. by rewrite andb_false_r in Hx.
  - rewrite all_chars_app in Hy. simpl in Hy. by rewrite andb_false_r in Hy.
  - destruct (IH b Hx Hy) as [-> ->]; [done|]. done.
Qed.

Lemma key_inj r1 s1 r2 s2 :
  no_space r1 = true -> no_space r2 = true -> no_space (sub_Kind s1) = true -> no_space (sub_Kind s2) = true ->
  rbRoleSubjectKey r1 s1 = rbRoleSubjectKey r2 s2 -> r1 = r2 /\ sub_Kind s1 = sub_Kind s2 /\ sub_Name s1 = sub_Name s2.
Proof.
  unfold rbRoleSubjectKey. intros Hr1 Hr2 Hk1 Hk2 He. apply first_space in He as [Hk He]; [|done..].
  assert (forall a r, a +:+ " Role " +:+ r = (a +:+ " Role") +:+ " " +:+ r) as Hassoc by (intros; by rewrite app_assoc_str).
  rewrite !Hassoc in He. apply last_space in He as [Hn ->]; [|done..]. apply app_str_inj_r in Hn. done.
Qed.
Lemma key_inj_role r1 r2 s : rbRoleSubjectKey r1 s = rbRoleSubjectKey r2 s -> r1 = r2.
Proof. unfold rbRoleSubjectKey. intros He. do 4 apply app_inj_l in He. done. Qed.

Section exact.
Context `{E : External} `{R : RbacCaches} `{O : MapOrder}.

Lemma desired_lookup ns roles meta s k rb :
  desired_bindings ns roles meta s !! k = Some rb <->
  exists role t, roles !! role = Some t /\ k = rbRoleSubjectKey role s /\ rb = snd (bindingParts ns role meta s).
Proof.
  unfold desired_bindings. set (l := range _ _).
  assert (forall role t, (role, t) ∈ l <-> roles !! role = Some t) as Hl by (intros; apply elem_of_ordered).
  setoid_rewrite <- Hl. clearbody l. clear Hl.
  enough (forall acc : gmap string Binding, fold_left (fun desired '(roleName, _) => let '(rbKey, rb) := bindingParts ns roleName meta s in <[rbKey := rb]> desired) l acc !! k = Some rb
    <-> (exists role t, (role, t) ∈ l /\ k = rbRoleSubjectKey role s /\ rb = snd (bindingParts ns role meta s))
        \/ ((acc : gmap string Binding) !! k = Some rb /\ forall role t, (role, t) ∈ l -> k <> rbRoleSubjectKey role s)) as Hfold.
  { rewrite Hfold, lookup_empty. split; [by intros [?|[? _]]|by left]. }
  induction l as [|[role t] l IH]; intros acc; simpl.
  - split; [intros Ha; right; split; [done|]; by intros ? ? ?%elem_of_nil|]. intros [(? & ? & Hx%elem_of_nil & _)|[Ha _]]; done.
  - rewrite IH. setoid_rewrite elem_of_cons. split.
    + intros [(r & t' & Hin & Hk)|[Ha Hno]]; [left; by exists r, t'; split; [right|]|].
      destruct (decide (k = rbRoleSubjectKey role s)) as [->|Hne].
      * rewrite lookup_insert_eq in Ha. injection Ha as <-. left. exists role, t. split; [by left|done].
      * rewrite lookup_insert_ne in Ha by done. right. split; [done|]. intros r t' [[= -> ->]|Hin]; [done|by eapply Hno].
    + intros [(r & t' & [[= -> ->]|Hin] & Hk & Hrb)|[Ha Hno]].
      * destruct (decide (k ∈ map (fun p => rbRoleSubjectKey (fst p) s) l)) as [Hd|Hd].
        -- apply list_elem_of_In, in_map_iff in Hd as ([r t'] & Hk' & Hin%list_elem_of_In). simpl in Hk'.
           assert (r = role) as -> by (apply (key_inj_role _ _ s); congruence). left. by exists role, t'.
        -- right. rewrite Hk, lookup_insert_eq, Hrb. split; [done|]. intros r t' Hin Hk'. apply Hd. rewrite Hk, Hk'.
           apply list_elem_of_In, in_map_iff. exists (r, t'). split; [done|]. by apply list_elem_of_In.
      * left. by exists r, t'.
      * right. split; [|intros r t' Hin; apply (Hno r t'); by right]. rewrite lookup_insert_ne; [done|]. intros Hk. by apply (Hno role t); [left|].
Qed.

(** The comparison: what is in the list stays if it is desired, and is to be deleted otherwise; what is desired is there or
    still missing. *)
Definition compared (current : list Binding) (desired : gmap string Binding) (del : gmap string unit) (desired' : gmap string Binding)
    (del' : gmap string unit) : Prop :=
  (forall k v, desired' !! k = Some v -> desired !! k = Some v)
  /\ (forall n, n ∈ dom del -> n ∈ dom del')
  /\ (forall n, n ∈ dom del' -> n ∈ dom del \/ exists rb, rb ∈ current /\ b_Name rb = n)
  /\ (forall rb, rb ∈ current -> b_Name rb ∈ dom del'
        \/ exists s, b_Subjects rb = [s] /\ is_Some (desired !! rbRoleSubjectKey (ref_Name (b_RoleRef rb)) s))
  /\ (forall k v, desired !! k = Some v -> desired' !! k = Some v
        \/ exists rb s, rb ∈ current /\ b_Subjects rb = [s] /\ rbRoleSubjectKey (ref_Name (b_RoleRef rb)) s = k /\ b_Name rb ∉ dom del')
  /\ (forall rb s, rb ∈ current -> b_Subjects rb = [s] -> desired' !! rbRoleSubjectKey (ref_Name (b_RoleRef rb)) s = None).

Lemma compare_spec current processed desired del desired' del' :
  NoDup (map b_Name current) -> (forall rb, rb ∈ current -> b_Name rb ∉ processed) -> (forall n, n ∈ dom del -> n ∈ processed) ->
  compare_bindings current processed desired del = (desired', del') -> compared current desired del desired' del'.
Proof.
  revert processed desired del. induction current as [|rb current IH]; intros processed desired del Hnd Hp Hdel; cbn [compare_bindings].
  { intros [= <- <-]. unfold compared. split_and!; eauto; intros rb; [|intros s]; by intros ?%elem_of_nil. }
  cbn [map] in Hnd. apply NoDup_cons in Hnd as [Hn Hnd]. rewrite bool_decide_false by (apply Hp; left).
  assert (forall rb', rb' ∈ current -> b_Name rb' ∉ {[b_Name rb]} ∪ processed) as Hp'.
  { intros rb' Hrb'. apply not_elem_of_union. split; [|apply Hp; by right]. intros He%elem_of_singleton. apply Hn. rewrite <- He.
    apply list_elem_of_In, in_map_iff. exists rb'. split; [done|]. by apply list_elem_of_In. }
  assert (forall n, n ∈ dom (<[b_Name rb := tt]> del) <-> n = b_Name rb \/ n ∈ dom del) as Hins by (intros n; rewrite dom_insert; set_solver).
  assert ((forall s, b_Subjects rb = [s] -> forall v, desired !! rbRoleSubjectKey (ref_Name (b_RoleRef rb)) s <> Some v) ->
    compare_bindings current ({[b_Name rb]} ∪ processed) desired (<[b_Name rb := tt]> del) = (desired', del') ->
    compared (rb :: current) desired del desired' del') as Hdrop.
  { intros Hgone Hc. apply IH in Hc as (H1 & H2 & H3 & H4 & H5 & H6); [|done|done|intros n [->|Hd%Hdel]%Hins; set_solver].
    split; [done|]. split; [|split; [|split; [|split]]].
    - intros n Hin. apply H2, Hins. by right.
    - intros n [Hin|(rb' & Hin & He)]%H3; [apply Hins in Hin as [->|?]; [right; exists rb; split; [left|done]|by left]|].
      right. exists rb'. split; [by right|done].
    - intros rb' [->|Hin]%elem_of_cons; [left; apply H2, Hins; by left|by apply H4].
    - intros k v [?|(rb' & s & Hin & Hx)]%H5; [by left|]. right. exists rb', s. split; [by right|done].
    - intros rb' s [->|Hin]%elem_of_cons Hs; [|by apply H6]. destruct (desired' !! _) as [v|] eqn:Hv; [|done]. apply H1 in Hv. by destruct (Hgone s Hs v). }
  destruct (b_Subjects rb) as [|s [|s2 ss]] eqn:Hs; [by apply Hdrop| |by apply Hdrop].
  destruct (desired !! rbRoleSubjectKey (ref_Name (b_RoleRef rb)) s) as [v0|] eqn:Hk; [|apply Hdrop; intros s' [= <-]; congruence].
  intros Hc. apply IH in Hc as (H1 & H2 & H3 & H4 & H5 & H6); [|done|done|intros n Hin; apply Hdel in Hin; set_solver].
  split; [|split; [done|split; [|split; [|split]]]].
  - intros k v Hv%H1. by apply lookup_delete_Some in Hv as [_ ?].
  - intros n [?|(rb' & Hin & He)]%H3; [by left|]. right. exists rb'. split; [by right|done].
  - intros rb' [->|Hin]%elem_of_cons; [right; exists s; split; [done|]; by exists v0|].
    destruct (H4 rb' Hin) as [?|(s' & Hs' & [v' Hv'])]; [by left|]. right. exists s'. split; [done|]. apply lookup_delete_Some in Hv' as [_ ?]. by exists v'.
  - intros k v Hv. destruct (decide (k = rbRoleSubjectKey (ref_Name (b_RoleRef rb)) s)) as [->|Hne].
    + right. exists rb, s. split; [left|]. split; [done|]. split; [done|]. intros [Hd|(rb' & Hin & He)]%H3.
      * apply Hdel in Hd. by apply (Hp rb); [left|].
      * apply Hn. rewrite <- He. apply list_elem_of_In, in_map_iff. exists rb'. split; [done|]. by apply list_elem_of_In.
    + destruct (H5 k v) as [?|(rb' & s' & Hin & Hx)]; [by rewrite lookup_delete_ne|by left|]. right. exists rb', s'. split; [by right|done].
  - intros rb' s' [->|Hin]%elem_of_cons Hs'; [|by apply H6]. rewrite Hs' in Hs. injection Hs as ->.
    destruct (desired' !! _) as [v|] eqn:Hv; [|done]. apply H1 in Hv. by rewrite lookup_delete_eq in Hv.
Qed.

(** ** The two loops *)

(** Everything in the cache is stored. *)
Definition cached_exist (w : RWorld) : Prop := forall b, b ∈ bindingCache -> is_Some (rw_bindings w !! (b_Namespace b, b_Name b)).

(** Bindings of [l] may have been added, nothing was lost. *)
Definition added (ns : string) (l : list (string * Binding)) (w w' : RWorld) : Prop :=
  (forall key b, rw_bindings w !! key = Some b -> rw_bindings w' !! key = Some b)
  /\ forall key b, rw_bindings w' !! key = Some b -> rw_bindings w !! key = Some b
       \/ exists k rb, (k, rb) ∈ l /\ key = (ns, b_Name rb) /\ b = new_binding rb.

Lemma ignoring_create_spec ns k rb w w' r :
  b_Namespace rb = ns -> ignoring IsAlreadyExists (obj_Create kind_binding rb) w = (w', r) ->
  (honest_faults w -> honest_faults w') /\ added ns [(k, rb)] w w' /\ (r = Ret tt -> honest_faults w -> is_Some (rw_bindings w' !! (ns, b_Name rb))).
Proof.
  intros Hns (r0 & Hc & Hr)%ignoring_run. apply create_spec in Hc as (Hh & Hcases). rewrite Hns in Hcases. split; [done|].
  destruct Hcases as [(Hb & Hno & Hex)|(Hl & Hb & a & ->)]; (split; [split|]).
  - intros key b Hk. by rewrite Hb.
  - intros key b. rewrite Hb. by left.
  - intros Hrt Hho. rewrite Hb. destruct (Hr Hrt) as [(a & ->)|(e & -> & He)]; [by destruct (Hno a)|]. by apply (Hex e).
  - intros key b Hk. rewrite Hb. rewrite lookup_insert_ne; [done|]. intros <-. congruence.
  - intros key b. rewrite Hb, lookup_insert_Some. intros [[<- <-]|[_ ?]]; [right|by left]. exists k, rb. split; [left|done].
  - intros _ _. rewrite Hb, lookup_insert_eq. by eexists.
Qed.

Lemma create_binding_spec ns k rb w w' r :
  b_Namespace rb = ns -> create_binding ns rb w = (w', r) ->
  (honest_faults w -> honest_faults w') /\ added ns [(k, rb)] w w'
  /\ (r = Ret tt -> honest_faults w -> cached_exist w -> is_Some (rw_bindings w' !! (ns, b_Name rb))).
Proof.
  intros Hns. unfold create_binding. case_bool_decide as Hempty.
  - intros (H1 & H2 & H3)%(ignoring_create_spec ns k); auto.
  - unfold rbLister_Get. destruct (List.find _ _) as [b|] eqn:Hf.
    + intros [= <- <-]. split; [done|]. split; [split; auto|]. intros _ _ Hc. apply List.find_some in Hf as [Hin Hb].
      apply andb_true_iff in Hb as [H1%bool_decide_eq_true H2%bool_decide_eq_true]. rewrite <- H1, <- H2. apply Hc. by apply list_elem_of_In.
    + cbn. intros (H1 & H2 & H3)%(ignoring_create_spec ns k); auto.
Qed.

Lemma cached_exist_mono ns l w w' : added ns l w w' -> cached_exist w -> cached_exist w'.
Proof. intros [Hg _] Hc b Hb. destruct (Hc b Hb) as [c Hc']. exists c. by apply Hg. Qed.

(** A loop that creates bindings, under a condition on the store that more bindings do not break. *)
Lemma creating_loop (Q : RWorld -> Prop) (body : Binding -> RM unit) ns l w w' r :
  (forall l w w', added ns l w w' -> Q w -> Q w') ->
  (forall k rb w w' r, (k, rb) ∈ l -> body rb w = (w', r) -> (honest_faults w -> honest_faults w') /\ added ns [(k, rb)] w w'
     /\ (r = Ret tt -> honest_faults w -> Q w -> is_Some (rw_bindings w' !! (ns, b_Name rb)))) ->
  for_fold l tt (fun _ '(_, rb) => body rb) w = (w', r) ->
  (honest_faults w -> honest_faults w') /\ added ns l w w'
  /\ (r = Ret tt -> honest_faults w -> Q w -> forall k rb, (k, rb) ∈ l -> is_Some (rw_bindings w' !! (ns, b_Name rb))).
Proof.
  intros HQ. revert w. induction l as [|[k rb] l IH]; intros w Hbody.
  { intros [= <- <-]. split; [done|]. split; [split; auto|]. by intros _ _ _ ? ? ?%elem_of_nil. }
  rewrite for_fold_cons. unfold bind at 1. destruct (body rb w) as [w1 r1] eqn:Hc.
  apply (Hbody k) in Hc as (Hh1 & [Hg1 Ha1] & Hd1); [|left].
  destruct r1 as [[]|e|]; [|intros [= <- <-]; (split; [done|]); (split; [|done]); (split; [done|]); intros key b [?|(k' & rb' & Hin & Hx)]%Ha1;
    [by left|right; exists k', rb'; apply list_elem_of_singleton in Hin as [= -> ->]; split; [left|done]]..].
  intros Hrest. apply IH in Hrest as (Hh2 & [Hg2 Ha2] & Hd2); [|intros k' rb' w2 w2' r2 Hin; apply Hbody; by right].
  split; [auto|]. split; [split; [auto|]|].
  - intros key b [Hb|(k' & rb' & Hin & Hx)]%Ha2; [apply Ha1 in Hb as [?|(k' & rb' & Hin & Hx)]; [by left|]|].
    + right. exists k', rb'. apply list_elem_of_singleton in Hin as [= -> ->]. split; [left|done].
    + right. exists k', rb'. split; [by right|done].
  - intros Hr Hho Hce k' rb' [[= -> ->]|Hin]%elem_of_cons.
    + destruct (Hd1 eq_refl Hho Hce) as [b Hb]. exists b. by apply Hg2.
    + apply (Hd2 Hr (Hh1 Hho)) with k'; [|done]. apply (HQ [(k, rb)] w); [by split|done].
Qed.

Lemma create_loop ns l w w' r :
  (forall k rb, (k, rb) ∈ l -> b_Namespace rb = ns) ->
  for_fold l tt (fun _ '(_, rb) => create_binding ns rb) w = (w', r) ->
  (honest_faults w -> honest_faults w') /\ added ns l w w'
  /\ (r = Ret tt -> honest_faults w -> cached_exist w -> forall k rb, (k, rb) ∈ l -> is_Some (rw_bindings w' !! (ns, b_Name rb))).
Proof.
  intros Hns. apply creating_loop; [intros; by eapply cached_exist_mono|]. intros k rb w0 w0' r0 Hin. apply create_binding_spec. by apply (Hns k).
Qed.

Lemma delete_loop ns (l : list (string * unit)) w w' r :
  for_fold l tt (fun _ '(name, _) => ignoring IsNotFound (obj_Delete kind_binding (ns, name))) w = (w', r) ->
  (forall key b, rw_bindings w' !! key = Some b -> rw_bindings w !! key = Some b)
  /\ (forall key b, rw_bindings w !! key = Some b -> (forall n u, (n, u) ∈ l -> key <> (ns, n)) -> rw_bindings w' !! key = Some b)
  /\ (r = Ret tt -> honest_faults w -> forall n u, (n, u) ∈ l -> rw_bindings w' !! (ns, n) = None).
Proof.
  revert w. induction l as [|[n []] l IH]; intros w.
  { intros [= <- <-]. split; [done|]. split; [done|]. by intros _ _ ? ? ?%elem_of_nil. }
  rewrite for_fold_cons. unfold bind at 1. destruct (ignoring _ _ w) as [w1 r1] eqn:Hi. apply ignoring_run in Hi as (r0 & Hc & Hr).
  apply delete_spec in Hc as (Hh & Hcases).
  assert ((forall key b, rw_bindings w1 !! key = Some b -> rw_bindings w !! key = Some b)
    /\ (forall key b, rw_bindings w !! key = Some b -> key <> (ns, n) -> rw_bindings w1 !! key = Some b)
    /\ (r1 = Ret tt -> honest_faults w -> rw_bindings w1 !! (ns, n) = None)) as (K1 & K2 & K3).
  { destruct Hcases as [(Hb & Hno & Hex)|[Hb ->]]; rewrite Hb.
    - split; [done|]. split; [done|]. intros Hr1 Hho. destruct (Hr Hr1) as [([] & ->)|(e & -> & He)]; [by destruct (Hno tt)|by apply (Hex e)].
    - split; [by intros key b [_ ?]%lookup_delete_Some|]. split; [intros key b ? ?; by rewrite lookup_delete_ne|].
      intros _ _. apply lookup_delete_eq. }
  destruct r1 as [[]|e|]; [|intros [= <- <-]; (split; [done|]); (split; [|done]); intros key b Hb Hno; apply K2; [done|]; apply (Hno n tt); left..].
  intros Hrest. destruct (IH w1 Hrest) as (I1 & I2 & I3). split; [auto|]. split.
  - intros key b Hb Hno. apply I2; [apply K2; [done|]; apply (Hno n tt); left|]. intros n' u Hin. apply (Hno n' u). by right.
  - intros Hrt Hho n' u [[= -> ->]|Hin]%elem_of_cons; [|by apply (I3 Hrt (Hh Hho) n' u)].
    destruct (rw_bindings w' !! (ns, n)) as [b|] eqn:Hb; [|done]. apply I1 in Hb. rewrite (K3 eq_refl Hho) in Hb. done.
Qed.

(** ** What is granted *)

(** A binding of a single subject, as far as the code tells subjects apart. *)
Definition grants (b : Binding) (role : string) (s : Subject) : Prop :=
  ref_Name (b_RoleRef b) = role /\ exists s', b_Subjects b = [s'] /\ sub_Kind s' = sub_Kind s /\ sub_Name s' = sub_Name s.

Definition owned_by (b : Binding) (meta : RTBMeta) : Prop := b_Labels b !! rtbOwnerLabel = Some (GetRTBLabel meta).

Definition stored_keyed (w : RWorld) : Prop := forall key b, rw_bindings w !! key = Some b -> key = (b_Namespace b, b_Name b).
Definition bindings_synced (w : RWorld) : Prop := bindingCache ≡ₚ map snd (map_to_list (rw_bindings w)).

(** Names of roles and kinds of subjects are words, as the server has it. *)
Definition plain_binding (b : Binding) : Prop := no_space (ref_Name (b_RoleRef b)) = true /\ forall s, s ∈ b_Subjects b -> no_space (sub_Kind s) = true.
Definition plain_names (roles : gmap string RoleTemplate) (w : RWorld) : Prop :=
  (forall role, role ∈ dom roles -> no_space role = true) /\ forall key b, rw_bindings w !! key = Some b -> plain_binding b.

Definition binding_name (ns role : string) (s : Subject) : string :=
  let roleRef := mkRoleRef "ClusterRole" role in if ns =? "" then NameForClusterRoleBinding roleRef s else NameForRoleBinding ns roleRef s.

(** The hashes in the names of the bindings for different roles do not collide. *)
Definition collision_free (ns : string) (roles : gmap string RoleTemplate) (s : Subject) : Prop :=
  forall r1 r2, r1 ∈ dom roles -> r2 ∈ dom roles -> binding_name ns r1 s = binding_name ns r2 s -> r1 = r2.

(** A binding that does not grant the role has the name of the binding for it. *)
Definition taken (ns role : string) (s : Subject) (w : RWorld) : Prop :=
  exists b, rw_bindings w !! (ns, binding_name ns role s) = Some b /\ ~ grants b role s.

#[global] Instance grants_dec b role s : Decision (grants b role s).
Proof.
  unfold grants. destruct (b_Subjects b) as [|s' [|]]; [right; naive_solver| |right; naive_solver].
  refine (cast_if (decide (ref_Name (b_RoleRef b) = role /\ sub_Kind s' = sub_Kind s /\ sub_Name s' = sub_Name s))); naive_solver.
Defined.

Lemma elem_of_synced w b : bindings_synced w -> b ∈ bindingCache <-> exists key, rw_bindings w !! key = Some b.
Proof.
  unfold bindings_synced. intros Hs. rewrite Hs, list_elem_of_In, in_map_iff. split.
  - intros ([key b'] & Heq & Hin%list_elem_of_In%elem_of_map_to_list). simpl in Heq. subst b'. by exists key.
  - intros (key & Hb). exists (key, b). split; [done|]. by apply list_elem_of_In, elem_of_map_to_list.
Qed.

Lemma synced_exist w : bindings_synced w -> stored_keyed w -> cached_exist w.
Proof. intros Hs Hk b (key & Hb)%(elem_of_synced w b Hs). rewrite <- (Hk _ _ Hb). by exists b. Qed.

Lemma selects_owner b meta : selects {[ rtbOwnerLabel := GetRTBLabel meta ]} (b_Labels b) = true <-> owned_by b meta.
Proof. unfold selects, owned_by. by rewrite bool_decide_eq_true, map_Forall_singleton. Qed.

Lemma elem_of_owned w ns meta b : bindings_synced w -> stored_keyed w ->
  b ∈ rbLister_List ns {[ rtbOwnerLabel := GetRTBLabel meta ]} <-> rw_bindings w !! (ns, b_Name b) = Some b /\ owned_by b meta.
Proof.
  intros Hs Hk. unfold rbLister_List. rewrite elem_of_filter_bool, andb_true_iff, bool_decide_eq_true, selects_owner, (elem_of_synced w b Hs). split.
  - intros ((key & Hb) & <- & Ho). rewrite <- (Hk _ _ Hb). done.
  - intros [Hb Ho]. split; [by eexists|]. split; [|done]. by injection (Hk _ _ Hb) as <-.
Qed.

Lemma names_NoDup ns (p : Binding -> bool) (l : list ((string * string) * Binding)) :
  NoDup (map fst l) -> (forall key b, (key, b) ∈ l -> key = (b_Namespace b, b_Name b)) ->
  NoDup (map b_Name (List.filter (fun b => (b_Namespace b =? ns) && p b) (map snd l))).
Proof.
  induction l as [|[key b] l IH]; [constructor|]. simpl. intros [Hn Hnd]%NoDup_cons Hk.
  assert (NoDup (map b_Name (List.filter (fun b => (b_Namespace b =? ns) && p b) (map snd l)))) as Hrest
    by (apply IH; [done|]; intros key' b' Hin; apply Hk; by right).
  destruct ((b_Namespace b =? ns) && p b) eqn:Hb; [|done]. simpl. apply NoDup_cons. split; [|done].
  intros Hin. apply list_elem_of_In, in_map_iff in Hin as (b' & Hname & Hin). apply filter_In in Hin as [Hin Hb'].
  apply in_map_iff in Hin as ([key' b2] & Heq & Hin%list_elem_of_In). simpl in Heq. subst b2.
  apply andb_true_iff in Hb as [Hb%bool_decide_eq_true _], Hb' as [Hb'%bool_decide_eq_true _].
  apply Hn. apply list_elem_of_In, in_map_iff. exists (key', b'). split; [|by apply list_elem_of_In]. simpl.
  rewrite (Hk key' b') by (by right). rewrite (Hk key b) by left. congruence.
Qed.

Lemma current_NoDup w ns set : bindings_synced w -> stored_keyed w -> NoDup (map b_Name (rbLister_List ns set)).
Proof.
  intros Hs Hk. unfold rbLister_List, bindings_synced in *. rewrite (Permutation_map b_Name (filter_bool_perm _ _ _ Hs)).
  apply names_NoDup; [apply NoDup_fst_map_to_list|]. intros key b Hin%elem_of_map_to_list. by apply Hk.
Qed.

Lemma compare_subset current processed desired del desired' del' :
  compare_bindings current processed desired del = (desired', del') -> forall k v, desired' !! k = Some v -> desired !! k = Some v.
Proof.
  revert processed desired del. induction current as [|rb current IH]; intros processed desired del; cbn [compare_bindings].
  { by intros [= <- <-]. }
  repeat case_match; eauto. intros Hc k v Hv. apply (IH _ _ _ Hc) in Hv. by apply lookup_delete_Some in Hv as [_ ?].
Qed.

Lemma compare_deletes current processed desired del desired' del' :
  compare_bindings current processed desired del = (desired', del') -> forall n, n ∈ dom del' -> n ∈ dom del \/ exists rb, rb ∈ current /\ b_Name rb = n.
Proof.
  revert processed desired del. induction current as [|rb current IH]; intros processed desired del; cbn [compare_bindings].
  { intros [= <- <-]. by left. }
  assert (forall processed2 desired2 del2, (forall n, n ∈ dom del2 -> n = b_Name rb \/ n ∈ dom del) ->
    compare_bindings current processed2 desired2 del2 = (desired', del') ->
    forall n, n ∈ dom del' -> n ∈ dom del \/ exists rb', rb' ∈ rb :: current /\ b_Name rb' = n) as Hrest.
  { intros p2 d2 del2 Hd Hc n [Hn|(rb' & Hin & Hx)]%(IH _ _ _ Hc); [|right; exists rb'; split; [by right|done]].
    apply Hd in Hn as [->|?]; [right; exists rb; split; [left|done]|by left]. }
  repeat case_match; apply Hrest; intros n; rewrite ?dom_insert; set_solver.
Qed.

(** What a run adds, in terms of roles. *)
Lemma added_grants ns roles binding s desired' w w' :
  (forall k v, desired' !! k = Some v -> desired_bindings ns roles (rtb_meta binding) s !! k = Some v) ->
  added ns (range "create" desired') w w' -> forall key b, rw_bindings w' !! key = Some b -> rw_bindings w !! key = Some b
    \/ exists role, role ∈ dom roles /\ key = (ns, binding_name ns role s) /\ grants b role s /\ owned_by b (rtb_meta binding)
         /\ b_Namespace b = ns /\ b_Name b = binding_name ns role s.
Proof.
  intros Hsub [_ Ha] key b [?|(k & rb & Hin & -> & ->)]%Ha; [by left|right]. apply elem_of_ordered, Hsub, desired_lookup in Hin as (role & t & Hr & -> & ->).
  exists role. split; [by apply elem_of_dom_2 in Hr|]. split; [done|]. split; [split; [done|]; by exists s|]. split; [|done].
  unfold owned_by. simpl. by rewrite lookup_singleton_eq.
Qed.

Lemma desired_namespace ns roles binding s desired' :
  (forall k v, desired' !! k = Some v -> desired_bindings ns roles (rtb_meta binding) s !! k = Some v) ->
  forall k rb, (k, rb) ∈ range "create" desired' -> b_Namespace rb = ns.
Proof. intros Hsub k rb Hin. by apply elem_of_ordered, Hsub, desired_lookup in Hin as (role & t & _ & _ & ->). Qed.

(** Every run, whatever fails: bindings are added for the roles only. *)
Lemma ensureBindings_safe ns roles binding w w' r :
  ensureBindings ns roles binding w = (w', r) ->
  forall key b, rw_bindings w' !! key = Some b -> rw_bindings w !! key = Some b
    \/ exists role s, role ∈ dom roles /\ BuildSubjectFromRTB binding = Ret s /\ key = (ns, binding_name ns role s) /\ grants b role s
         /\ owned_by b (rtb_meta binding).
Proof.
  unfold ensureBindings, bind at 1, lift. destruct (BuildSubjectFromRTB binding) as [s|e|] eqn:Hsub; [|intros [= <- <-]; by left..].
  destruct (compare_bindings _ _ _ _) as [desired' del'] eqn:Hc. pose proof (compare_subset _ _ _ _ _ _ Hc) as Hd. unfold bind at 1.
  destruct (for_fold (range "create" desired') tt _ w) as [w1 r1] eqn:Hcreate.
  apply create_loop in Hcreate as (_ & Hadd & _); [|by eapply desired_namespace].
  assert (forall key b, rw_bindings w1 !! key = Some b -> rw_bindings w !! key = Some b
    \/ exists role s', role ∈ dom roles /\ Ret s = Ret s' /\ key = (ns, binding_name ns role s') /\ grants b role s' /\ owned_by b (rtb_meta binding)) as H1.
  { intros key b [?|(role & H1 & H2 & H3 & H4 & _)]%(added_grants _ _ _ _ _ _ _ Hd Hadd); [by left|]. right. by exists role, s. }
  destruct r1 as [[]|e|]; [|intros [= <- <-]; exact H1..]. intros (Hdel & _ & _)%delete_loop key b Hb. apply H1, Hdel, Hb.
Qed.

(** With an up-to-date cache and without collisions a successful run leaves exactly the bindings that are wanted, except for
    roles whose name was taken. *)
Lemma ensureBindings_exact ns roles binding s w w' :
  BuildSubjectFromRTB binding = Ret s -> bindings_synced w -> stored_keyed w -> plain_names roles w -> collision_free ns roles s -> honest_faults w ->
  no_space (sub_Kind s) = true -> ensureBindings ns roles binding w = (w', Ret tt) ->
  (forall role, role ∈ dom roles -> taken ns role s w \/ exists b, rw_bindings w' !! (ns, b_Name b) = Some b /\ grants b role s)
  /\ (forall name b, rw_bindings w' !! (ns, name) = Some b -> owned_by b (rtb_meta binding) -> exists role, role ∈ dom roles /\ grants b role s)
  /\ (forall key b, rw_bindings w !! key = Some b -> (fst key <> ns \/ ~ owned_by b (rtb_meta binding)) -> rw_bindings w' !! key = Some b).
Proof.
  intros Hsub Hsync Hkeyed [Hplain Hplainb] Hdist Hho Hkind. unfold ensureBindings, bind at 1, lift. rewrite Hsub.
  set (current := rbLister_List ns {[ rtbOwnerLabel := GetRTBLabel (rtb_meta binding) ]}).
  destruct (compare_bindings _ _ _ _) as [desired' del'] eqn:Hc.
  apply compare_spec in Hc as (C1 & _ & C3 & C4 & C5 & C6); [|by eapply current_NoDup|set_solver|by intros n; rewrite dom_empty].
  intros ([] & w1 & Hcreate & Hdel)%bind_Ret. apply create_loop in Hcreate as (Hh & Hadd & Hall); [|by eapply desired_namespace].
  specialize (Hall eq_refl Hho (synced_exist w Hsync Hkeyed)). destruct (delete_loop _ _ _ _ _ Hdel) as (D1 & D2 & D3).
  specialize (D3 eq_refl (Hh Hho)). pose proof (added_grants _ _ _ _ _ _ _ C1 Hadd) as Hnew. destruct Hadd as [Hgrow _].
  assert (forall b s', rw_bindings w !! (ns, b_Name b) = Some b -> b_Subjects b = [s'] ->
    is_Some (desired_bindings ns roles (rtb_meta binding) s !! rbRoleSubjectKey (ref_Name (b_RoleRef b)) s') -> exists role, role ∈ dom roles /\ grants b role s
      /\ rbRoleSubjectKey (ref_Name (b_RoleRef b)) s' = rbRoleSubjectKey role s) as Hgrant.
  { intros b s' Hb Hs' [v (role & t & Hr & Hk & _)%desired_lookup]. apply elem_of_dom_2 in Hr. destruct (Hplainb _ _ Hb) as [P1 P2].
    destruct (key_inj (ref_Name (b_RoleRef b)) s' role s) as (E1 & E2 & E3); [done|by apply Hplain|apply P2; rewrite Hs'; left|done|done|].
    exists role. split; [done|]. split; [split; [done|]; by exists s'|done]. }
  assert (forall n u, (n, u) ∈ range "delete" del' <-> n ∈ dom del') as Hrange.
  { intros n []. rewrite elem_of_ordered, elem_of_dom. split; [by eexists|]. by intros [[] ?]. }
  split; [|split].
  - intros role Hr. destruct (proj1 (elem_of_dom roles role) Hr) as [t Ht].
    assert (taken ns role s w \/ forall c, rw_bindings w !! (ns, binding_name ns role s) = Some c -> grants c role s) as [?|Hcoll]; [|by left|right].
    { destruct (rw_bindings w !! (ns, binding_name ns role s)) as [c|] eqn:Ec; [|by right].
      destruct (decide (grants c role s)); [right; by intros ? [= <-]|left; by exists c]. }
    assert (desired_bindings ns roles (rtb_meta binding) s !! rbRoleSubjectKey role s = Some (snd (bindingParts ns role (rtb_meta binding) s))) as Hdes
      by (apply desired_lookup; by exists role, t).
    destruct (C5 _ _ Hdes) as [Hmiss|(rb & s' & Hin & Hs' & Hk & Hn)].
    + (* still missing: created, or another object has the name *)
      destruct (Hall (rbRoleSubjectKey role s) (snd (bindingParts ns role (rtb_meta binding) s))) as [b Hb]; [by apply elem_of_ordered|].
      change (b_Name (snd (bindingParts ns role (rtb_meta binding) s))) with (binding_name ns role s) in Hb.
      assert (b_Name b = binding_name ns role s /\ grants b role s /\ binding_name ns role s ∉ dom del') as (Hname & Hg & Hndel); [|].
      { assert (forall c, rw_bindings w !! (ns, binding_name ns role s) = Some c -> b_Name c = binding_name ns role s /\ grants c role s
          /\ ~ (c ∈ current)) as Hold.
        { intros c Hc. pose proof (Hkeyed _ _ Hc) as [= _ Hname]. pose proof (Hcoll c Hc) as Hg. split; [done|]. split; [done|].
          intros Hin. destruct Hg as (Hrole & s' & Hs' & Hkd & Hnm). pose proof (C6 c s' Hin Hs') as Hgone. unfold rbRoleSubjectKey in Hgone, Hmiss.
          rewrite Hrole, Hkd, Hnm in Hgone. congruence. }
        assert (binding_name ns role s ∉ dom del') as Hnd.
        { intros [Hin|(rb & Hin & Hn)]%C3; [by rewrite dom_empty in Hin|]. pose proof Hin as Hcur. apply (elem_of_owned w) in Hin as [Hrb _]; [|done..].
          rewrite Hn in Hrb. destruct (Hold rb Hrb) as (_ & _ & Hno). done. }
        destruct (Hnew _ _ Hb) as [Hbw|(role' & Hr' & [= Hn] & Hg & _ & _ & Hname)].
        - destruct (Hold b Hbw) as (H1 & H2 & _). done.
        - apply Hdist in Hn as <-; [|done..]. done. }
      exists b. rewrite Hname. split; [|done]. apply D2; [done|]. intros n u Hin%Hrange [= <-]. done.
    + apply (elem_of_owned w) in Hin as [Hb Ho]; [|done..]. exists rb. split.
      * apply D2; [by apply Hgrow|]. intros n u Hin%Hrange [= <-]. done.
      * destruct (Hgrant rb s' Hb Hs') as (role' & _ & Hg & Hk'); [rewrite Hk; by eexists|]. rewrite Hk in Hk'. apply key_inj_role in Hk' as ->. done.
  - intros name b Hb Ho. pose proof (D1 _ _ Hb) as Hb1. destruct (Hnew _ _ Hb1) as [Hbw|(role & H1 & H2 & H3 & _)]; [|by exists role].
    pose proof (Hkeyed _ _ Hbw) as [= Hns ->]. destruct (C4 b) as [Hd|(s' & Hs' & Hdes)]; [by apply (elem_of_owned w)| |].
    + apply (Hrange _ tt) in Hd. rewrite (D3 _ _ Hd) in Hb. done.
    + destruct (Hgrant b s' Hbw Hs' Hdes) as (role & Hr & Hg & _). by exists role.
  - intros key b Hb Hno. apply D2; [by apply Hgrow|]. intros n u Hin%Hrange ->. apply C3 in Hin as [Hin|(rb & Hin & <-)]; [by rewrite dom_empty in Hin|].
    apply (elem_of_owned w) in Hin as [Hrb Ho]; [|done..]. assert (rb = b) as -> by congruence. simpl in Hno. naive_solver.
Qed.
End exact.

(** ** Roles leave the bindings alone *)

Definition quiet (w w' : RWorld) : Prop :=
  rw_bindings w' = rw_bindings w /\ forall e, Some e ∈ w_faults (rw_base w') -> Some e ∈ w_faults (rw_base w).
#[global] Instance quiet_preorder : PreOrder quiet.
Proof. split; [by intros w|]. intros w1 w2 w3 [H1 H2] [K1 K2]. split; [congruence|auto]. Qed.

Lemma quiet_request : keeps quiet r_request.
Proof.
  intros w _. split; [done|]. split; [|done]. unfold r_request, on_base, api_request. destruct (w_faults (rw_base w)) as [|[e|] fs] eqn:Hf; simpl;
    (split; [done|]); simpl; rewrite ?Hf; [done|..]; intros e' He'; by right.
Qed.
Lemma quiet_honest w w' : quiet w w' -> honest_faults w -> honest_faults w'.
Proof. intros [_ Hf] Hh e He. by apply Hh, Hf. Qed.

(** The steps that make the roles, for any relation that the requests keep. *)
Section role_steps.
Context `{E : External} `{R : RbacCaches} `{O : MapOrder} (P : relation RWorld) `{!PreOrder P}.
Context (Hrequest : keeps P r_request) (Hcreate : forall a, keeps P (obj_Create kind_clusterRole a)).
Context (Hupdate : forall a, keeps P (obj_Update kind_clusterRole a)) (Hrole : forall a, keeps P (obj_Update kind_role a)).

Lemma steps_compareAndUpdateClusterRole cr rt : keeps P (compareAndUpdateClusterRole cr rt).
Proof.
  assert (forall what a, keeps P (wrapping what (obj_Update kind_clusterRole a))) as Hu by (intros; apply keeps_wrapping; [apply _|]; apply Hupdate).
  unfold keeps, compareAndUpdateClusterRole in *. runs_auto.
Qed.
Lemma steps_compareAndUpdateNamespacedRole role rt ns : keeps P (compareAndUpdateNamespacedRole role rt ns).
Proof.
  assert (forall what a, keeps P (wrapping what (obj_Update kind_role a))) as Hu by (intros; apply keeps_wrapping; [apply _|]; apply Hrole).
  unfold keeps, compareAndUpdateNamespacedRole in *. runs_auto.
Qed.
Lemma steps_ensureClusterRoles rt : keeps P (ensureClusterRoles rt).
Proof.
  pose proof (fun cr => keeps_attempt P _ (steps_compareAndUpdateClusterRole cr rt)) as H1.
  pose proof (fun cr => steps_compareAndUpdateClusterRole cr rt) as H2.
  assert (forall what key, keeps P (wrapping what (obj_Get kind_clusterRole key))) as Hg
    by (intros; apply keeps_wrapping; [apply _|]; apply keeps_obj_Get; done).
  assert (forall a, keeps P (attempt (obj_Create kind_clusterRole a))) as Hc by (intros; apply keeps_attempt, Hcreate).
  assert (keeps P (attempt (crLister_Get (rt_Name rt)))) as Hl by (apply keeps_attempt; unfold keeps, crLister_Get; runs_auto).
  unfold keeps, ensureClusterRoles, createClusterRole in *. runs_auto.
Qed.
Lemma steps_updateRole rt ns : keeps P (updateRole rt ns).
Proof.
  pose proof (fun cr => keeps_attempt P _ (steps_compareAndUpdateNamespacedRole cr rt ns)) as H1.
  pose proof (fun cr => steps_compareAndUpdateNamespacedRole cr rt ns) as H2.
  assert (forall what key, keeps P (wrapping what (obj_Get kind_role key))) as Hg
    by (intros; apply keeps_wrapping; [apply _|]; apply keeps_obj_Get; done).
  unfold keeps, updateRole in *. runs_auto.
Qed.
Lemma steps_ensureRoles rts : keeps P (ensureRoles rts).
Proof.
  pose proof steps_ensureClusterRoles as H1. pose proof steps_updateRole as H2.
  unfold keeps, ensureRoles, ensureNamespacedRoles in *. runs_auto.
Qed.
End role_steps.

Lemma quiet_ensureRoles `{E : External} `{R : RbacCaches} `{O : MapOrder} rts : keeps quiet (ensureRoles rts).
Proof.
  apply steps_ensureRoles; [apply _|apply quiet_request|..]; intros a; [apply keeps_obj_Create|apply keeps_obj_Update..]; first [apply _|apply quiet_request|done].
Qed.

(** ** Names of objects *)

(** Cluster roles and accounts are stored, and roles cached, under their own names. *)
Definition names_ok (w : RWorld) : Prop :=
  (forall k r, rw_clusterRoles w !! k = Some r -> cr_Name r = k) /\ (forall k r, rw_crCache w !! k = Some r -> cr_Name r = k)
  /\ forall k sa, rw_serviceAccounts w !! k = Some sa -> (sa_Namespace sa, sa_Name sa) = k.
Definition names_kept (w w' : RWorld) : Prop := names_ok w -> names_ok w'.
#[global] Instance names_kept_preorder : PreOrder names_kept.
Proof. unfold names_kept. split; [intros w Hw; exact Hw|]. intros w1 w2 w3 H1 H2 Hw. auto. Qed.

(** A program with a result, from objects under their own names; whatever else it does. *)
Definition named {A} (c : RM A) (Q : A -> Prop) : Prop := runs names_ok (fun _ _ => True) c Q.
#[local] Instance trivial_preorder : PreOrder (fun _ _ : RWorld => True).
Proof. done. Qed.
Lemma named_kept {A} (c : RM A) : keeps names_kept c -> named c (fun _ => True).
Proof. intros Hc w Hw. destruct (Hc w I) as (_ & Hk & _). split; [by apply Hk|done]. Qed.
Lemma named_keeps {A} P (c : RM A) Q : keeps P c -> named c Q -> runs names_ok P c Q.
Proof. intros Hc Hn w Hw. destruct (Hc w I) as (_ & Hk & _), (Hn w Hw) as (H1 & _ & H2). done. Qed.

Lemma names_request : keeps names_kept r_request.
Proof. intros w _. split; [done|]. split; [|done]. intros Hw. unfold r_request, on_base. destruct (api_request (rw_base w)). exact Hw. Qed.

Lemma names_set_role w r : names_ok w -> names_ok (set_rw_clusterRoles (<[cr_Name r := r]> (rw_clusterRoles w)) w).
Proof. intros (H1 & H2 & H3). split; [|done]. intros k r'. simpl. intros [[<- <-]|[_ ?]]%lookup_insert_Some; [done|by apply H1]. Qed.

Ltac refused := split; [assumption|split; [exact Logic.I|intros ? Hx; first [exact Logic.I | discriminate Hx]]].
Ltac request w1 Hw1 :=
  eapply (runs_bind _ _ _ _ (fun _ => True)); [apply named_kept, names_request|]; intros [] _ w1 Hw1; unfold bind, gets, modify, ret, fail;
  cbn [k_get k_key kind_clusterRole kind_serviceAccount fst snd].

Lemma named_role_Create a : named (obj_Create kind_clusterRole a) (fun r => cr_Name r = cr_Name a).
Proof.
  unfold named, obj_Create. request w1 Hw1.
  destruct (rw_clusterRoles w1 !! cr_Name a); [refused|]. cbn. split; [|split; [done|by intros ? [= <-]]].
  exact (names_set_role (set_rw_counter _ w1) (mkClusterRole (cr_Name a) _ _ _ _ _ _) Hw1).
Qed.
Lemma named_role_Update a : named (obj_Update kind_clusterRole a) (fun _ => True).
Proof.
  unfold named, obj_Update. request w1 Hw1.
  destruct (rw_clusterRoles w1 !! cr_Name a); [|refused]. destruct (negb _); [refused|]. destruct (bool_decide _); [refused|].
  cbn. split; [|done]. exact (names_set_role w1 (mkClusterRole (cr_Name a) _ _ _ _ _ _) Hw1).
Qed.
Lemma named_role_Get key : named (obj_Get kind_clusterRole key) (fun r => cr_Name r = key).
Proof.
  unfold named, obj_Get. request w1 Hw1. destruct (rw_clusterRoles w1 !! key) as [r|] eqn:Hr; [|refused].
  split; [done|]. split; [done|]. intros ? [= <-]. destruct Hw1 as (H1 & _). exact (H1 _ _ Hr).
Qed.
Lemma named_account_Create a : named (obj_Create kind_serviceAccount a) (fun sa => (sa_Namespace sa, sa_Name sa) = (sa_Namespace a, sa_Name a)).
Proof.
  unfold named, obj_Create. request w1 Hw1.
  destruct (rw_serviceAccounts w1 !! _); [refused|]. cbn. split; [|split; [done|by intros ? [= <-]]].
  destruct Hw1 as (H1 & H2 & H3). split; [done|]. split; [done|]. intros k sa. simpl. intros [[<- <-]|[_ ?]]%lookup_insert_Some; [done|by apply H3].
Qed.
Lemma named_account_Get key : named (obj_Get kind_serviceAccount key) (fun sa => (sa_Namespace sa, sa_Name sa) = key).
Proof.
  unfold named, obj_Get. request w1 Hw1. destruct (rw_serviceAccounts w1 !! key) as [r|] eqn:Hr; [|refused].
  split; [done|]. split; [done|]. intros ? [= <-]. destruct Hw1 as (_ & _ & H3). exact (H3 _ _ Hr).
Qed.

Lemma kept_named {A} (c : RM A) Q : named c Q -> keeps names_kept c.
Proof.
  intros Hc w _. split; [done|]. split; [|done]. intros Hw. by destruct (Hc w Hw) as [? _].
Qed.

Lemma names_ensureRoles `{E : External} `{R : RbacCaches} `{O : MapOrder} rts : keeps names_kept (ensureRoles rts).
Proof.
  apply steps_ensureRoles; [apply _|apply names_request|..]; intros a; [eapply kept_named, named_role_Create|eapply kept_named, named_role_Update|].
  apply keeps_obj_Update; first [apply _|apply names_request|intros ? ? Hw; exact Hw].
Qed.
Lemma names_ensureBindings `{E : External} `{R : RbacCaches} `{O : MapOrder} ns roles binding : keeps names_kept (ensureBindings ns roles binding).
Proof.
  assert (forall a, keeps names_kept (ignoring IsAlreadyExists (obj_Create kind_binding a))) as H1
    by (intros; apply keeps_ignoring; [apply _|]; apply keeps_obj_Create; first [apply _|apply names_request|intros ? ? Hw; exact Hw]).
  assert (forall a, keeps names_kept (ignoring IsNotFound (obj_Delete kind_binding a))) as H2
    by (intros; apply keeps_ignoring; [apply _|]; apply keeps_obj_Delete; first [apply _|apply names_request|intros ? ? Hw; exact Hw]).
  unfold keeps, ensureBindings, create_binding in *. runs_auto.
Qed.

(** ** The impersonator adds one binding of its own *)

(** The binding of the account of a user to the role that allows to impersonate the user; the name of the role is missing when
    its creation failed, which goes unnoticed. *)
Definition impersonation_binding `{RbacCaches} (username : string) (b : Binding) : Prop :=
  exists u, userCache !! username = Some u /\
  let name := "cattle-impersonation-" +:+ u_Name u in
  b_Namespace b = "" /\ b_Name b = name /\ b_Labels b = {[ "authz.cluster.cattle.io/impersonator" := "true" ]}
  /\ b_Subjects b = [mkSubject "ServiceAccount" "" name "cattle-impersonation-system"]
  /\ (b_RoleRef b = mkRoleRef "ClusterRole" name \/ b_RoleRef b = mkRoleRef "ClusterRole" "").

(** Nothing is lost, and what is new is as stated. *)
Definition joined (N : Binding -> Prop) (w w' : RWorld) : Prop :=
  (forall key b, rw_bindings w !! key = Some b -> rw_bindings w' !! key = Some b)
  /\ forall key b, rw_bindings w' !! key = Some b -> rw_bindings w !! key = Some b \/ N b.
#[global] Instance joined_preorder N : PreOrder (joined N).
Proof.
  split; [intros w; split; auto|]. intros w1 w2 w3 [H1 H2] [K1 K2]. split; [auto|]. intros key b [Hb|?]%K2; [by apply H2|by right].
Qed.

Section joining.
Context (N : Binding -> Prop).
Lemma joined_same w w' : rw_bindings w' = rw_bindings w -> joined N w w'.
Proof. intros Hb. split; rewrite Hb; auto. Qed.
Lemma joined_request : keeps (joined N) r_request.
Proof. eapply runs_relation; [apply quiet_request|]. intros w w' [Hb _]. by apply joined_same. Qed.
Lemma joined_on_base {A} (c : M A) : keeps (joined N) (on_base c).
Proof. intros w _. unfold on_base. destruct (c (rw_base w)) as [b r]. simpl. split; [done|]. split; [by apply joined_same|done]. Qed.

Lemma joined_create b : N (new_binding b) -> keeps (joined N) (obj_Create kind_binding b).
Proof.
  intros Hi w _. split; [done|]. split; [|done]. destruct (obj_Create kind_binding b w) as [w' r] eqn:Hc. simpl.
  apply create_spec in Hc as (_ & [(Hb & _)|(Hn & Hb & _)]); [by apply joined_same|]. split; rewrite Hb.
  - intros key b' Hk. rewrite lookup_insert_ne; [done|]. intros <-. congruence.
  - intros key b'. rewrite lookup_insert_Some. intros [[_ <-]|[_ ?]]; [by right|by left].
Qed.
End joining.

Section impersonator.
Context `{C : Controllers} `{R : RbacCaches} `{O : MapOrder} (env : World -> World) (N : Binding -> Prop).

Ltac joined_tac := first [apply _ | apply joined_request | by intros; apply joined_same].

Lemma joined_checkAndUpdateRole user rules : keeps (joined N) (checkAndUpdateRole user rules).
Proof.
  assert (forall a, keeps (joined N) (attempt (obj_Update kind_clusterRole a))) as Hu by (intros; apply keeps_attempt, keeps_obj_Update; joined_tac).
  pose proof (fun g Hg => keeps_modified (joined N) g Hg) as Hm. unfold keeps in *. unfold checkAndUpdateRole.
  assert (forall cache name role w, joined N w (set_rw_crCache (<[name := role]> cache) w)) as Hcache by (intros; by apply joined_same).
  eapply runs_bind; [apply _|apply runs_RetryOnConflict_var; [apply _|]|].
  - intros v. unfold update_role_once. runs_auto.
  - intros [role [e|]] _; runs_auto.
Qed.

Lemma joined_createRole user rules : keeps (joined N) (createRole user rules).
Proof.
  assert (forall a, keeps (joined N) (attempt (obj_Create kind_clusterRole a))) as Hc by (intros; apply keeps_attempt, keeps_obj_Create; joined_tac).
  assert (forall key, keeps (joined N) (obj_Get kind_clusterRole key)) as Hg by (intros; apply keeps_obj_Get; joined_tac).
  unfold keeps, createRole in *. runs_auto.
Qed.

Lemma joined_createServiceAccount user role : keeps (joined N) (createServiceAccount env user role).
Proof.
  assert (forall a, keeps (joined N) (attempt (serviceAccounts_Create a))) as Hc.
  { intros a. apply keeps_attempt. unfold serviceAccounts_Create. pose proof joined_request as Hr.
    assert (keeps (joined N) (obj_Create kind_serviceAccount a)) as Hk by (apply keeps_obj_Create; joined_tac). unfold keeps in *. runs_auto. }
  assert (forall key, keeps (joined N) (attempt (obj_Get kind_serviceAccount key))) as Hg by (intros; apply keeps_attempt, keeps_obj_Get; joined_tac).
  assert (forall sa, keeps (joined N) (attempt (on_base (EnsureSecretForServiceAccount env true sa)))) as Hb by (intros; apply keeps_attempt, joined_on_base).
  unfold keeps, createServiceAccount in *. runs_auto.
Qed.

(** The binding that is made for a user, a role and an account. *)
Definition account_binding (user : ImpersonatedUser) (role : ClusterRole) (sa : ServiceAccount) : Binding :=
  new_binding (mkBinding "" (impersonation_name user) 0 impersonation_labels ∅ (owned_by_role role)
    [mkSubject "ServiceAccount" "" (sa_Name sa) (sa_Namespace sa)] (mkRoleRef "ClusterRole" (cr_Name role))).

Lemma joined_createRoleBinding user role sa : N (account_binding user role sa) -> keeps (joined N) (createRoleBinding user role sa).
Proof.
  intros HN. unfold createRoleBinding. destruct (crbLister_Get _) as [b|e|]; [unfold keeps; runs_auto| |unfold keeps; runs_auto].
  destruct (IsNotFound e); [|unfold keeps; runs_auto]. unfold keeps. eapply runs_bind; [apply _|eapply runs_attempt_err; [apply _|by apply joined_create]|].
  intros [e'|] _; runs_auto.
Qed.

Lemma joined_createNamespace : keeps (joined N) createNamespace.
Proof.
  assert (forall a, keeps (joined N) (obj_Create kind_namespace a)) as Hc by (intros; apply keeps_obj_Create; joined_tac).
  unfold keeps, createNamespace in *. runs_auto.
Qed.
Lemma joined_waitForServiceAccount sa : keeps (joined N) (waitForServiceAccount sa).
Proof.
  unfold waitForServiceAccount, keeps. eapply runs_bind; [apply _|apply (keeps_attempt (joined N)); unfold keeps|].
  - generalize (1%nat, @None ServiceAccount). generalize 10%nat as n. induction n as [|n IH]; intros v; simpl; [apply runs_fail, _|].
    eapply (runs_bind _ _ _ _ (fun _ => True)); [|intros [v' []] _; [by apply runs_ret; [apply _|]|apply IH]].
    unfold account_ready. destruct (_ !! _); [|by apply runs_ret; [apply _|]].
    eapply runs_bind; [apply _|apply joined_on_base|]. intros [secret|] _; by apply runs_ret; [apply _|].
  - intros [[i found]|e] _; [by apply runs_ret; [apply _|]|apply runs_fail, _].
Qed.
End impersonator.

Section impersonator_named.
Context `{C : Controllers} `{R : RbacCaches} `{O : MapOrder} (env : World -> World).

Lemma names_checkAndUpdateRole user rules : keeps names_kept (checkAndUpdateRole user rules).
Proof.
  assert (named (checkAndUpdateRole user rules) (fun _ => True)) as Hn; [|by eapply kept_named].
  unfold checkAndUpdateRole, named. eapply (runs_bind _ _ _ _ (fun _ => True)); [apply runs_RetryOnConflict_var; [apply _|]|intros [role [e|]] _; [apply runs_fail, _|by apply runs_ret; [apply _|]]].
  intros v. unfold update_role_once.
  eapply (runs_bind _ _ _ _ (fun cache => forall k r, cache !! k = Some r -> cr_Name r = k)); [apply runs_gets; [apply _|]; intros w (_ & H2 & _); exact H2|].
  intros cache Hcache. destruct (cache !! impersonation_name user) as [role|] eqn:Hr; [|by apply runs_ret; [apply _|]].
  case_bool_decide; [by apply runs_ret; [apply _|]|]. eapply (runs_bind _ _ _ _ (fun _ => True)).
  - apply runs_modify; [|done]. intros w (N1 & N2 & N3). split; [|done]. split; [done|]. split; [|done]. intros k r. cbn.
    intros [[<- <-]|[_ ?]]%lookup_insert_Some; [exact (Hcache _ _ Hr)|by apply Hcache].
  - intros _ _. eapply (runs_bind _ _ _ _ (fun _ => True)); [eapply runs_attempt; [apply named_role_Update|done..]|]. intros [a|e] _; by apply runs_ret; [apply _|].
Qed.

Lemma names_createNamespace : keeps names_kept createNamespace.
Proof.
  assert (forall a, keeps names_kept (obj_Create kind_namespace a)) as Hc by (intros; apply keeps_obj_Create; first [apply _|apply names_request|intros ? ? Hw; exact Hw]).
  unfold keeps, createNamespace in *. runs_auto.
Qed.

Lemma named_createRole user rules : named (createRole user rules) (fun r => cr_Name r = impersonation_name user \/ cr_Name r = "").
Proof.
  unfold createRole, named. eapply (runs_bind _ _ _ _ (fun cache => forall k r, cache !! k = Some r -> cr_Name r = k)); [apply runs_gets; [apply _|]; intros w (_ & H2 & _); exact H2|].
  intros cache Hcache. destruct (cache !! impersonation_name user) as [r|] eqn:Hr; [apply runs_ret; [apply _|]; left; by apply Hcache|].
  eapply (runs_bind _ _ _ _ (fun x => match x with inl r => cr_Name r = impersonation_name user | inr _ => True end)).
  { eapply runs_attempt; [apply named_role_Create|done..]. }
  intros [r|e] Hx; [apply runs_ret; [apply _|by left]|]. destruct (IsAlreadyExists e); [|apply runs_ret; [apply _|by right]].
  eapply runs_weaken; [apply named_role_Get|]. intros r' Hr'. by left.
Qed.

(** The accounts are cached under their own names. *)
Definition accounts_keyed : Prop := forall k sa, serviceAccountCache !! k = Some sa -> (sa_Namespace sa, sa_Name sa) = k.

Lemma named_createServiceAccount user role : accounts_keyed ->
  named (createServiceAccount env user role) (fun sa => (sa_Namespace sa, sa_Name sa) = (ImpersonationNamespace, impersonation_name user)).
Proof.
  intros Hk. unfold createServiceAccount, named.
  eapply (runs_bind _ _ _ _ (fun sa => (sa_Namespace sa, sa_Name sa) = (ImpersonationNamespace, impersonation_name user))).
  - destruct (serviceAccountCache !! _) as [sa|] eqn:Hsa; [apply runs_ret; [apply _|by apply Hk]|].
    set (Q := fun x : ServiceAccount + error => match x with inl sa => (sa_Namespace sa, sa_Name sa) = (ImpersonationNamespace, impersonation_name user) | inr _ => True end).
    eapply (runs_bind _ _ _ _ Q).
    { eapply (runs_attempt _ _ _ (fun sa => (sa_Namespace sa, sa_Name sa) = (ImpersonationNamespace, impersonation_name user))); [|done..]. unfold serviceAccounts_Create. destruct (List.existsb _ _).
      - eapply (runs_bind _ _ _ _ (fun _ => True)); [eapply named_kept, names_request|]. intros _ _. apply runs_fail, _.
      - apply named_account_Create. }
    intros x Hx. eapply (runs_bind _ _ _ _ Q).
    { destruct x as [sa|e]; [by apply runs_ret; [apply _|]|]. destruct (IsAlreadyExists e); [|by apply runs_ret; [apply _|]].
      eapply runs_attempt; [apply named_account_Get|done..]. }
    intros [sa|e] Hq; [by apply runs_ret; [apply _|]|apply runs_fail, _].
  - intros sa Hsa. eapply (runs_bind _ _ _ _ (fun _ => True)); [eapply runs_attempt; [|done..]|intros [x|e] _; [by apply runs_ret; [apply _|]|apply runs_fail, _]].
    apply named_kept. intros w _. split; [done|]. split; [|done]. intros Hw. unfold on_base. destruct (EnsureSecretForServiceAccount _ _ _ _). exact Hw.
Qed.

Lemma names_waitForServiceAccount sa : keeps names_kept (waitForServiceAccount sa).
Proof.
  assert (forall A (c : M A), keeps names_kept (on_base c)) as Hb.
  { intros A c w _. split; [done|]. split; [|done]. intros Hw. unfold on_base. destruct (c (rw_base w)). exact Hw. }
  unfold waitForServiceAccount, keeps. eapply runs_bind; [apply _|apply (keeps_attempt names_kept); unfold keeps|].
  - generalize (1%nat, @None ServiceAccount). generalize 10%nat as n. induction n as [|n IH]; intros v; simpl; [apply runs_fail, _|].
    eapply (runs_bind _ _ _ _ (fun _ => True)); [|intros [v' []] _; [by apply runs_ret; [apply _|]|apply IH]].
    unfold account_ready. destruct (_ !! _); [|by apply runs_ret; [apply _|]].
    eapply runs_bind; [apply _|apply Hb|]. intros [secret|] _; by apply runs_ret; [apply _|].
  - intros [[i found]|e] _; [by apply runs_ret; [apply _|]|apply runs_fail, _].
Qed.

Lemma joined_ensureServiceAccountImpersonator username : accounts_keyed ->
  runs names_ok (joined (impersonation_binding username)) (ensureServiceAccountImpersonator env username) (fun _ => True).
Proof.
  intros Hk. unfold ensureServiceAccountImpersonator. destruct (getUser username) as [user|e|] eqn:Hu.
  2:{ destruct (IsNotFound e); [by apply runs_ret; [apply _|]|apply runs_fail, _]. }
  2:{ apply runs_panic, _. }
  eapply (runs_bind _ _ _ _ (fun _ => True)); [|intros; by apply runs_ret; [apply _|]]. unfold SetUpImpersonation.
  eapply (runs_bind _ _ _ _ (fun _ => True)); [apply named_keeps; [apply joined_checkAndUpdateRole|apply named_kept, names_checkAndUpdateRole]|].
  intros ro _. destruct (match ro, _ with Some _, Ret _ => _ | _, _ => None end); [by apply runs_ret; [apply _|]|].
  eapply (runs_bind _ _ _ _ (fun _ => True)); [apply named_keeps; [apply joined_createNamespace|apply named_kept, names_createNamespace]|]. intros _ _.
  eapply runs_bind; [apply _|apply named_keeps; [apply joined_createRole|apply named_createRole]|]. cbv beta. intros role Hrole.
  eapply runs_bind; [apply _|apply named_keeps; [apply joined_createServiceAccount|by apply named_createServiceAccount]|]. cbv beta. intros sa Hsa.
  eapply (runs_bind _ _ _ _ (fun _ => True)); [apply named_keeps|intros _ _].
  - apply joined_createRoleBinding. destruct (getUser_spec _ _ Hu) as (u & Huc & Huid & _). exists u. split; [done|]. cbv zeta.
    injection Hsa as Hns Hn. unfold account_binding, new_binding. cbn. rewrite <- Huid. split_and!; try done; [by rewrite Hn, Hns|].
    destruct Hrole as [-> | ->]; [by left|by right].
  - apply named_kept. assert (forall a, keeps names_kept (obj_Create kind_binding a)) as Hc by (intros; apply keeps_obj_Create; first [apply _|apply names_request|intros ? ? Hw; exact Hw]).
    unfold keeps, createRoleBinding in *. runs_auto.
  - eapply runs_weaken; [apply named_keeps; [apply joined_waitForServiceAccount|apply named_kept, names_waitForServiceAccount]|done].
Qed.
End impersonator_named.

(** ** The bindings of a cluster role template binding *)

Lemma BuildSubject_kind b s : BuildSubjectFromRTB b = Ret s -> no_space (sub_Kind s) = true.
Proof. unfold BuildSubjectFromRTB. intros Hb. repeat (case_match; simplify_eq/=; try done); res_inv; repeat (case_match; simplify_eq/=; try done). Qed.

Section crtb_exact.
Context `{C : Controllers} `{R : RbacCaches} `{O : MapOrder} (env : World -> World).

Lemma wrapping_Ret {A} what (c : RM A) w w' a : wrapping what c w = (w', Ret a) -> c w = (w', Ret a).
Proof. unfold wrapping, bind, attempt. by destruct (c w) as [w1 [x|e|]]; intros [= <- <-]. Qed.

(** The part of a successful run that makes the bindings. *)
Lemma syncCRTB_run binding s w w' :
  names_ok w -> accounts_keyed ->
  BuildSubjectFromRTB (aCRTB binding) = Ret s -> crtb_RoleTemplateName binding <> "" -> syncCRTB env binding w = (w', Ret tt) ->
  exists rt roles w1 w2, templateCache !! crtb_RoleTemplateName binding = Some rt /\ gatherRoles templateCache rt = Ret roles
    /\ quiet w w1 /\ ensureBindings "" roles (aCRTB binding) w1 = (w2, Ret tt) /\ joined (impersonation_binding (crtb_UserName binding)) w2 w'.
Proof.
  intros Hok Hacc Hs Hn. unfold syncCRTB. rewrite bool_decide_false by done.
  assert ((crtb_UserName binding =? "") && (crtb_GroupPrincipalName binding =? "") && (crtb_GroupName binding =? "") = false) as ->.
  { unfold BuildSubjectFromRTB in Hs. repeat case_bool_decide; simplify_eq/=; try done. }
  intros (rt & w0 & Hrt%wrapping_Ret & Hk)%bind_Ret. injection Hrt as <- Hrt.
  apply bind_Ret in Hk as (roles & w0 & Hg & Hk). injection Hg as <- Hg.
  apply bind_Ret in Hk as ([] & w1 & He%wrapping_Ret & Hk). apply bind_Ret in Hk as ([] & w2 & Hb%wrapping_Ret & Hk).
  exists rt, roles, w1, w2. split; [unfold rtLister_Get in Hrt; by destruct (_ !! _); simplify_eq|]. split; [done|].
  split; [eapply keeps_ran; [apply quiet_ensureRoles|done]|]. split; [done|]. case_bool_decide; simpl in Hk.
  - injection Hk as <-. reflexivity.
  - apply wrapping_Ret in Hk. assert (names_ok w2) as Hok2.
    { eapply (keeps_ran names_kept); [apply names_ensureBindings|exact Hb|]. eapply (keeps_ran names_kept); [apply names_ensureRoles|exact He|exact Hok]. }
    destruct (joined_ensureServiceAccountImpersonator env (crtb_UserName binding) Hacc w2 Hok2) as (_ & Hj & _). by rewrite Hk in Hj.
Qed.

Lemma owner_not_impersonation name b meta : impersonation_binding name b -> ~ owned_by b meta.
Proof. intros (u & _ & _ & _ & Hl & _). unfold owned_by. rewrite Hl. by rewrite lookup_singleton_ne. Qed.

Lemma gathered_names rt roles role : keyed templateCache -> templateCache !! rt_Name rt = Some rt -> gatherRoles templateCache rt = Ret roles ->
  role ∈ dom roles <-> exists t, rtc (inherits templateCache) rt t /\ rt_Name t = role.
Proof.
  intros Hk Hrt Hg. pose proof (gathered_reaches templateCache Hk _ rt roles Hrt Hg) as Hr. rewrite elem_of_dom. split.
  - intros [t (t0 & ? & ? & _)%Hr]. by exists t0.
  - intros (t0 & H1 & H2). exists (lower_template t0). apply Hr. by exists t0.
Qed.

(** What is assumed of names: they are words, and the short hashes in the names of the bindings of [s] to different roles do
    not collide. *)
Definition distinct_names (s : Subject) (w : RWorld) : Prop :=
  (forall name, name ∈ dom templateCache -> no_space name = true)
  /\ (forall key b, rw_bindings w !! key = Some b -> plain_binding b)
  /\ forall roles, dom roles ⊆ dom templateCache -> collision_free "" roles s.

(** C27: A binding of a role template in a cluster that was handled successfully, with an up-to-date cache, objects under
    their own names, words as names and hashes that do not collide: for the template and for every template it inherits there is a cluster role binding that grants
    the role of that name to the subject, unless a binding that does not grant it had been stored under the name of the
    binding for it, which the code does not look into; and what the binding owns in the cluster grants nothing else. *)
Theorem crtb_bindings_exact binding s w w' :
  keyed templateCache -> names_ok w -> accounts_keyed -> bindings_synced w -> stored_keyed w -> distinct_names s w -> honest_faults w ->
  BuildSubjectFromRTB (aCRTB binding) = Ret s -> crtb_RoleTemplateName binding <> "" -> syncCRTB env binding w = (w', Ret tt) ->
  exists rt, templateCache !! crtb_RoleTemplateName binding = Some rt
  /\ (forall t, rtc (inherits templateCache) rt t ->
        taken "" (rt_Name t) s w \/ exists b, rw_bindings w' !! ("", b_Name b) = Some b /\ grants b (rt_Name t) s)
  /\ (forall name b, rw_bindings w' !! ("", name) = Some b -> owned_by b (crtb_Meta binding) ->
        exists t, rtc (inherits templateCache) rt t /\ grants b (rt_Name t) s).
Proof.
  intros Hkeyed Hok Hacc Hsync Hst (Hw1 & Hw2 & Hw3) Hho Hs Hn Hrun.
  destruct (syncCRTB_run binding s w w' Hok Hacc Hs Hn Hrun) as (rt & roles & w1 & w2 & Hrt & Hg & Hq & He & Hj).
  assert (templateCache !! rt_Name rt = Some rt) as Hrt' by (by rewrite (Hkeyed _ _ Hrt)).
  pose proof (fun role => gathered_names rt roles role Hkeyed Hrt' Hg) as Hdom.
  assert (dom roles ⊆ dom templateCache) as Hsubset.
  { intros role (t & Hr & <-)%Hdom. apply elem_of_dom. exists t. by eapply rtc_cached. }
  pose proof (quiet_honest _ _ Hq Hho) as Hho1. destruct Hq as [Hb1 _].
  destruct (ensureBindings_exact "" roles (aCRTB binding) s w1 w2) as (X1 & X2 & _);
    [done|by unfold bindings_synced; rewrite Hb1|by unfold stored_keyed; rewrite Hb1| | |done|by eapply BuildSubject_kind|done|].
  { split; [intros role Hr; by apply Hw1, Hsubset|]. by rewrite Hb1. }
  { by apply Hw3. }
  exists rt. split; [done|]. destruct Hj as [J1 J2]. split.
  - intros t Ht. destruct (X1 (rt_Name t)) as [Htk|(b & Hb & Hgr)]; [apply Hdom; by exists t|left|right; exists b; split; [by apply J1|done]].
    unfold taken in *. by rewrite Hb1 in Htk.
  - intros name b [Hb|Hi]%J2 Ho; [|by apply (owner_not_impersonation _ b (crtb_Meta binding)) in Hi].
    destruct (X2 name b Hb Ho) as (role & (t & Ht & <-)%Hdom & Hgr). by exists t.
Qed.

(** Bindings appear only if they are allowed. *)
Definition only (P : Binding -> Prop) (w w' : RWorld) : Prop :=
  forall key b, rw_bindings w' !! key = Some b -> rw_bindings w !! key = Some b \/ P b.
#[local] Instance only_preorder P : PreOrder (only P).
Proof. split; [intros w key b; by left|]. intros w1 w2 w3 H1 H2 key b [Hb|?]%H2; [by apply H1|by right]. Qed.

Definition allowed (binding : ClusterRoleTemplateBinding) (b : Binding) : Prop :=
  (crtb_UserName binding <> "" /\ impersonation_binding (crtb_UserName binding) b)
  \/ exists rt t s, templateCache !! crtb_RoleTemplateName binding = Some rt /\ rtc (inherits templateCache) rt t
       /\ BuildSubjectFromRTB (aCRTB binding) = Ret s /\ grants b (rt_Name t) s.

Lemma syncCRTB_only binding : keyed templateCache -> accounts_keyed -> runs names_ok (only (allowed binding)) (syncCRTB env binding) (fun _ => True).
Proof.
  intros Hkeyed Hacc. unfold syncCRTB. destruct (crtb_RoleTemplateName binding =? ""); [by apply runs_ret; [apply _|]|].
  destruct (_ && _); [by apply runs_ret; [apply _|]|].
  eapply (runs_bind _ _ _ _ (fun rt => templateCache !! crtb_RoleTemplateName binding = Some rt)).
  { intros w Hw. unfold wrapping, bind, attempt, lift, rtLister_Get. destruct (templateCache !! _) as [rt|]; simpl; (split; [done|]); split; try reflexivity;
      [by intros ? [= <-]|done]. }
  intros rt Hrt. eapply (runs_bind _ _ _ _ (fun roles => gatherRoles templateCache rt = Ret roles)); [by apply runs_lift; [apply _|]|]. intros roles Hg.
  assert (forall what (c : RM unit), runs names_ok (only (allowed binding)) c (fun _ => True) ->
    runs names_ok (only (allowed binding)) (wrapping what c) (fun _ => True)) as Hwrap.
  { intros what c Hc. unfold wrapping. eapply (runs_bind _ _ _ _ (fun _ => True)); [eapply runs_attempt; [exact Hc|done..]|].
    intros [a|e] _; [by apply runs_ret; [apply _|]|apply runs_fail, _]. }
  eapply (runs_bind _ _ _ _ (fun _ => True)); [apply Hwrap, named_keeps; [|apply named_kept, names_ensureRoles]|intros _ _].
  { eapply runs_relation; [apply quiet_ensureRoles|]. intros w w' [Hb _] key b. rewrite Hb. by left. }
  eapply (runs_bind _ _ _ _ (fun _ => True)); [apply Hwrap, named_keeps; [|apply named_kept, names_ensureBindings]|intros _ _].
  { intros w _. split; [done|]. split; [|done]. destruct (ensureClusterBindings roles binding w) as [w' r] eqn:He. simpl. intros key b Hb.
    destruct (ensureBindings_safe _ _ _ _ _ _ He key b Hb) as [?|(role & s & Hr & Hs & _ & Hgr & _)]; [by left|]. right. right.
    apply (gathered_names rt) in Hr as (t & Ht & <-); [by exists rt, t, s|done|by rewrite (Hkeyed _ _ Hrt)|done]. }
  case_bool_decide as Hu; cbn [negb]; [by apply runs_ret; [apply _|]|]. apply Hwrap.
  eapply runs_relation; [by apply joined_ensureServiceAccountImpersonator|]. intros w w' [_ Hj] key b [?|?]%Hj; [by left|by right; left].
Qed.

(** C28: However a run ends, with stale caches and failing requests included: a cluster role binding that was not there before grants
    a role of the template or of one it inherits to the subject of the binding, or it is the one of the impersonator, when the
    subject is a user: it binds nobody but the service account of this user to nothing but the role that allows to impersonate
    this user, or to a role without a name.  It is assumed that cluster roles, accounts and templates are stored and cached under
    their own names. *)
Theorem crtb_grants_no_more binding w w' r key b :
  keyed templateCache -> names_ok w -> accounts_keyed -> syncCRTB env binding w = (w', r) -> rw_bindings w' !! key = Some b ->
  rw_bindings w !! key = Some b \/ (crtb_UserName binding <> "" /\ impersonation_binding (crtb_UserName binding) b)
  \/ exists rt t s, templateCache !! crtb_RoleTemplateName binding = Some rt /\ rtc (inherits templateCache) rt t
       /\ BuildSubjectFromRTB (aCRTB binding) = Ret s /\ grants b (rt_Name t) s.
Proof.
  intros Hkeyed Hok Hacc Hrun Hb. destruct (syncCRTB_only binding Hkeyed Hacc w Hok) as (_ & Ho & _). rewrite Hrun in Ho.
  apply Ho in Hb as [?|[?|?]]; auto.
Qed.
End crtb_exact.

(** ** An example *)

Definition demoRbacControllers : Controllers := demoControllers (demoPlanner ∅ ∅ [] None) [] [] None.

(** A group is bound to a template that inherits another one; a binding to a role the template once had is still there. *)
Definition demo_roles : gmap string RoleTemplate := list_to_map (map (fun t => (rt_Name t, t)) [member; viewer; an_owner]).
Definition demo_meta : RTBMeta := mkRTBMeta "c-xyz" "crtb-1" "77" 1 ∅ ∅ false.
Definition demo_crtb : ClusterRoleTemplateBinding := mkCRTB demo_meta "" "" "" "github_team://7" "c-xyz" "member".
Definition demo_subject : Subject := mkSubject "Group" rbac_GroupName "github_team://7" "".
Definition demo_old : Binding :=
  mkBinding "" "crb-old" 1 {[ rtbOwnerLabel := "c-xyz_crtb-1" ]} ∅ [] [demo_subject] (mkRoleRef "ClusterRole" "removed").
Definition demo_bound (bindings : list Binding) : RbacCaches := {|
  clusterName := "c-xyz"; templateCache := demo_roles; bindingCache := bindings; roleCache := ∅; projectCache := []; crtbCache := []; prtbCache := [];
  namespaceCache := []; serviceAccountCacheAt _ := ∅; userCache := ∅; userAttributeCache := ∅
|}.
Definition demo_bound_world : RWorld := set_rw_bindings {[ ("", "crb-old") := demo_old ]} (emptyRWorld (demoWorld [])).
Definition demo_sync (w : RWorld) : RWorld * res unit := syncCRTB (C := demoRbacControllers) (R := demo_bound [demo_old]) id demo_crtb w.

(** What one run does, with the bindings afterwards as pairs of name and role. *)
Definition granted_roles (w : RWorld) : list (string * string) := map (fun '(key, b) => (snd key, ref_Name (b_RoleRef b))) (map_to_list (rw_bindings w)).
Definition demo_names : list string := ["member"; "viewer"; "owner"].

Lemma demo_sync_run : snd (demo_sync demo_bound_world) = Ret tt /\ map_size (rw_bindings (fst (demo_sync demo_bound_world))) = 3%nat.
Proof. vm_compute. split; reflexivity. Qed.

Lemma demo_roles_keyed : keyed demo_roles.
Proof.
  intros name rt. unfold demo_roles. intros Hl%elem_of_list_to_map_2. simpl in Hl.
  repeat (apply elem_of_cons in Hl as [Hl|Hl]; [by inv Hl|]). by apply elem_of_nil in Hl.
Qed.

Lemma demo_names_distinct r1 r2 : r1 ∈ demo_names -> r2 ∈ demo_names ->
  binding_name "" r1 demo_subject = binding_name "" r2 demo_subject -> r1 = r2.
Proof.
  assert (forallb (fun p => implb (binding_name "" (fst p) demo_subject =? binding_name "" (snd p) demo_subject) (fst p =? snd p))
            (list_prod demo_names demo_names) = true) as Hall by (vm_compute; reflexivity).
  intros H1 H2 He. rewrite forallb_forall in Hall. specialize (Hall (r1, r2) ltac:(apply in_prod; by apply list_elem_of_In)).
  cbn [fst snd] in Hall. rewrite He, (bool_decide_true (binding_name "" r2 demo_subject = _)) in Hall by done. by apply bool_decide_eq_true in Hall.
Qed.

Lemma demo_distinct : distinct_names (R := demo_bound [demo_old]) demo_subject demo_bound_world.
Proof.
  assert (forall name, name ∈ dom demo_roles -> name ∈ demo_names) as Hdom.
  { intros name [rt Hl]%elem_of_dom. unfold demo_roles in Hl. apply elem_of_list_to_map_2 in Hl. simpl in Hl.
    repeat (apply elem_of_cons in Hl as [Hl|Hl]; [inv Hl; unfold demo_names; set_solver|]). by apply elem_of_nil in Hl. }
  split; [|split].
  - intros name Hn%Hdom. unfold demo_names in Hn. repeat (apply elem_of_cons in Hn as [->|Hn]; [reflexivity|]). by apply elem_of_nil in Hn.
  - intros key b. unfold demo_bound_world. simpl. intros [<- <-]%lookup_singleton_Some. split; [reflexivity|].
    intros s Hs. simpl in Hs. apply list_elem_of_singleton in Hs as ->. reflexivity.
  - intros roles Hsub r1 r2 H1 H2. apply demo_names_distinct; by apply Hdom, Hsub.
Qed.

Lemma demo_not_taken role : role ∈ demo_names -> ~ taken "" role demo_subject demo_bound_world.
Proof.
  intros Hr (b & Hb & _). unfold demo_bound_world in Hb. cbn [rw_bindings set_rw_bindings] in Hb. apply lookup_singleton_Some in Hb as [Hn _].
  apply (f_equal snd) in Hn. cbn [snd] in Hn.
  assert (forallb (fun r => binding_name "" r demo_subject !=? "crb-old") demo_names = true) as Hall by (vm_compute; reflexivity).
  rewrite forallb_forall in Hall. specialize (Hall role (proj1 (list_elem_of_In _ _) Hr)). apply negb_true_iff, bool_decide_eq_false in Hall.
  congruence.
Qed.

Lemma demo_bound_names : names_ok demo_bound_world.
Proof. split_and!; intros k x Hx; cbn in Hx; by apply lookup_empty_Some in Hx. Qed.

Lemma crtb_bindings_exact_witness :
  exists b, rw_bindings (fst (demo_sync demo_bound_world)) !! ("", b_Name b) = Some b /\ grants b "owner" demo_subject.
Proof.
  destruct (crtb_bindings_exact (C := demoRbacControllers) (R := demo_bound [demo_old]) id demo_crtb demo_subject demo_bound_world
              (fst (demo_sync demo_bound_world))) as (rt & Hrt & Hall & _).
  - apply demo_roles_keyed.
  - apply demo_bound_names.
  - intros k sa Hk. cbn in Hk. by apply lookup_empty_Some in Hk.
  - unfold bindings_synced, demo_bound_world. simpl. by rewrite map_to_list_singleton.
  - intros key b. unfold demo_bound_world. simpl. by intros [<- <-]%lookup_singleton_Some.
  - apply demo_distinct.
  - intros e He. by apply elem_of_nil in He.
  - reflexivity.
  - done.
  - fold (demo_sync demo_bound_world). rewrite <- (proj1 demo_sync_run). apply surjective_pairing.
  - destruct (Hall an_owner) as [Ht|Hb]; [|destruct (demo_not_taken "owner"); [right; right; left|exact Ht]|exact Hb]. apply rtc_once. exists "owner". assert (rt = member) as -> by (vm_compute in Hrt; by inversion Hrt).
    split; [vm_compute; right; left|vm_compute; reflexivity].
Defined.

(** A user is bound: the run makes the binding of the impersonator. *)
Definition demo_user_crtb : ClusterRoleTemplateBinding := mkCRTB demo_meta "u-abc" "" "" "" "c-xyz" "viewer".
Definition demo_user_caches : RbacCaches := {|
  clusterName := "c-xyz"; templateCache := demo_roles; bindingCache := [demo_old]; roleCache := ∅; projectCache := []; crtbCache := []; prtbCache := [];
  namespaceCache := []; serviceAccountCacheAt _ := {[ (ImpersonationNamespace, "cattle-impersonation-u-abc") := demoAccount ]};
  userCache := {[ "u-abc" := demoUser ]}; userAttributeCache := ∅
|}.
Definition demo_token_controllers : @Controllers demoExternal (demoPlanner ∅ ∅ [] None) :=
  let C := demoRbacControllers in {|
  machineCache_Get := @machineCache_Get _ _ C;
  machineCache_ListLabels := @machineCache_ListLabels _ _ C;
  secretCache_ListLabels ns labels :=
    Ret [mkSecret ImpersonationNamespace "t" SecretTypeServiceAccountToken ∅ {[ serviceAccountSecretAnnotation := "cattle-impersonation-u-abc" ]} {[ "token" := "tok" ]} [] false];
  etcdSnapshotCache_ListLabels := @etcdSnapshotCache_ListLabels _ _ C;
  serviceAccountCache_Get := @serviceAccountCache_Get _ _ C;
  rkeControlPlaneCache_Get := @rkeControlPlaneCache_Get _ _ C;
  json_Unmarshal_DrainOptions := @json_Unmarshal_DrainOptions _ _ C;
  restConfig := @restConfig _ _ C;
  k8sInterface := @k8sInterface _ _ C;
  RESTConfigFromKubeConfig := @RESTConfigFromKubeConfig _ _ C;
  NewForConfig := @NewForConfig _ _ C
|}.

Lemma crtb_grants_no_more_witness :
  let R := demo_user_caches in
  let w' := fst (syncCRTB (C := demo_token_controllers) (R := R) id demo_user_crtb demo_bound_world) in
  exists b, rw_bindings w' !! ("", "cattle-impersonation-u-abc") = Some b /\ impersonation_binding (H := R) "u-abc" b.
Proof.
  intros R w'. destruct (rw_bindings w' !! ("", "cattle-impersonation-u-abc")) as [b|] eqn:Hb; [|vm_compute in Hb; discriminate].
  exists b. split; [reflexivity|].
  destruct (crtb_grants_no_more (C := demo_token_controllers) (R := R) id demo_user_crtb demo_bound_world w'
           (snd (syncCRTB (C := demo_token_controllers) (R := R) id demo_user_crtb demo_bound_world)) ("", "cattle-impersonation-u-abc") b demo_roles_keyed demo_bound_names)
    as [Hold|[[_ Hi]|(rt & t & s & _ & _ & Hs & Hg)]].
  - intros k sa. cbn. intros [<- <-]%lookup_singleton_Some. reflexivity.
  - apply surjective_pairing.
  - exact Hb.
  - vm_compute in Hold. discriminate Hold.
  - exact Hi.
  - exfalso. vm_compute in Hb. injection Hb as <-. destruct Hg as (_ & s' & Hs' & Hk & _). injection Hs' as <-. injection Hs as <-. discriminate Hk.
Defined.

(** ** An edited binding

    The subject of a binding has been changed.  The run deletes it, but only after it has tried to create the right one under
    the same name, which it takes for there already: the run succeeds, and the role is granted to nobody. *)
Definition edited_binding : Binding :=
  mkBinding "" (binding_name "" "viewer" demo_subject) 1 {[ rtbOwnerLabel := "c-xyz_crtb-1" ]} ∅ [] [mkSubject "Group" rbac_GroupName "github_team://8" ""]
    (mkRoleRef "ClusterRole" "viewer").
Example edited_binding_lost :
  let w := set_rw_bindings {[ ("", b_Name edited_binding) := edited_binding ]} (emptyRWorld (demoWorld [])) in
  let run := syncCRTB (C := demoRbacControllers) (R := demo_bound [edited_binding]) id demo_crtb w in
  snd run = Ret tt /\ rw_bindings (fst run) !! ("", b_Name edited_binding) = None.
Proof. vm_compute. split; reflexivity. Qed.

(** ** Two bindings for the same role

    The name of a binding is made of role and subject.  A second binding of role templates that needs the same role for the
    same subject finds the name taken, and leaves it at that; the label still names the first one as the owner.  When
    the first one is removed, the access goes, although the second one is there and was handled without an error. *)
Definition values {K V} `{Countable K} (m : gmap K V) : list V := map snd (map_to_list m).
Definition second_crtb : ClusterRoleTemplateBinding :=
  mkCRTB (mkRTBMeta "c-xyz" "crtb-2" "78" 1 ∅ ∅ false) "" "" "" "github_team://7" "c-xyz" "viewer".
Definition handle_crtb (b : ClusterRoleTemplateBinding) (w : RWorld) : RWorld * res unit :=
  crtb_Create (C := demoRbacControllers) (R := demo_bound (values (rw_bindings w))) id b w.
Definition remove_crtb (b : ClusterRoleTemplateBinding) (w : RWorld) : RWorld * res unit :=
  crtb_Remove (H := demoExternal) (R := demo_bound (values (rw_bindings w))) b w.

Example shared_binding_removed :
  let w1 := handle_crtb demo_crtb (emptyRWorld (demoWorld [])) in
  let w2 := handle_crtb second_crtb (fst w1) in
  let w3 := remove_crtb demo_crtb (fst w2) in
  (snd w1, snd w2, snd w3) = (Ret tt, Ret tt, Ret tt)
  /\ map_size (rw_bindings (fst w2)) = 3%nat /\ map_size (rw_bindings (fst w3)) = 0%nat.
Proof. vm_compute. repeat split; reflexivity. Qed.
