(* ===== verification/ProjectAccess.v ===== *)
(** * Access to projects ([prtb_handler.go], [reconcile_roletemplate.go], [roletemplate_handler.go])

    A binding of a role template in a project gives its roles in every namespace of the project.  What a template allows on
    certain resources outside of namespaces is given through a second, promoted cluster role, and access to the namespaces
    themselves through two cluster roles of the project. *)

From S2P Require Import Prelude GoLib Errors Types External World Handlers Rbac RoleTemplates RbacStore Impersonation RoleBindings.

Definition owner : string := "owner-user".
Definition projectIDAnnotation : string := "field.cattle.io/projectId".

(** The resources outside of namespaces, with the rule that is filled in for each. *)
Definition base_rule (groups : list string) (names : option (list string)) : PolicyRule := mkPolicyRule [] groups [] names None.
Definition globalResourceRulesNeededInProjects : gmap string PolicyRule :=
  list_to_map
    [("navlinks", base_rule ["ui.cattle.io"] None);
     ("nodes", base_rule [""] None);
     ("persistentvolumes", base_rule [""; "core"] None);
     ("storageclasses", base_rule ["storage.k8s.io"] None);
     ("apiservices", base_rule ["apiregistration.k8s.io"] None);
     ("clusterrepos", base_rule ["catalog.cattle.io"] None);
     ("clusters", base_rule ["management.cattle.io"] (Some ["local"]))].

Definition projectNSVerbToSuffix : gmap string string := list_to_map [("get", "readonly"); ("*", "edit")].
Definition project_role (projectName suffix : string) : string := projectName +:+ "-namespaces-" +:+ suffix.

Definition parseProjectName (id : string) : string := match SplitN2 id ":" with [_; name] => name | _ => "" end.

Definition checkGroup (resource : string) (rule : PolicyRule) : bool :=
  if ContainsString (r_APIGroups rule) "*" then true
  else match globalResourceRulesNeededInProjects !! resource with
       | None => false
       | Some baseRule => List.existsb (ContainsString (r_APIGroups baseRule)) (r_APIGroups rule)
       end.
Definition buildRule (resource : string) (verbs : gset string) (baseRule : PolicyRule) : PolicyRule :=
  mkPolicyRule (sort_Strings (elements verbs)) (r_APIGroups baseRule) [resource] (r_ResourceNames baseRule) None.

(** Whether a rule counts for a resource: the names must be those of the base rule, nil and empty told apart. *)
Definition rule_counts (resource : string) (baseRule rule : PolicyRule) : bool :=
  (ContainsString (r_Resources rule) resource || ContainsString (r_Resources rule) "*")
  && bool_decide (r_ResourceNames rule = r_ResourceNames baseRule) && checkGroup resource rule.
Definition verbs_for (resource : string) (baseRule : PolicyRule) (rules : list PolicyRule) : gset string :=
  fold_left (fun verbs rule => if rule_counts resource baseRule rule then list_to_set (r_Verbs rule) ∪ verbs else verbs) rules ∅.

(** Indices of the bindings of role templates, and of namespaces. *)
Definition prtbByProjectName (b : ProjectRoleTemplateBinding) : list string := [prtb_ProjectName b].
Definition prtbByUID (b : ProjectRoleTemplateBinding) : list string := [rtb_UID (prtb_Meta b)].
Definition prtbByNsName `{External} (b : ProjectRoleTemplateBinding) : list string := [GetRTBLabel (prtb_Meta b)].
Definition getPRTBProjectAndSubjectKey (b : ProjectRoleTemplateBinding) : string :=
  let name := if prtb_UserName b !=? "" then prtb_UserName b
              else if prtb_UserPrincipalName b !=? "" then prtb_UserPrincipalName b
              else if prtb_GroupName b !=? "" then prtb_GroupName b
              else if prtb_GroupPrincipalName b !=? "" then prtb_GroupPrincipalName b
              else prtb_ServiceAccount b in
  prtb_ProjectName b +:+ "." +:+ name.
Definition rtbByClusterAndRoleTemplateName (b : RTB) : list string :=
  match b with
  | aPRTB b =>
      if (prtb_RoleTemplateName b !=? "") && (prtb_ProjectName b !=? "") then
        match SplitN2 (prtb_ProjectName b) ":" with [cluster; _] => [cluster +:+ "-" +:+ prtb_RoleTemplateName b] | _ => [] end
      else []
  | aCRTB b => if (crtb_RoleTemplateName b !=? "") && (crtb_ClusterName b !=? "") then [crtb_ClusterName b +:+ "-" +:+ crtb_RoleTemplateName b] else []
  end.
Definition by_index {A} (index : A -> list string) (key : string) (l : list A) : list A := List.filter (fun a => bool_decide (key ∈ index a)) l.

Section project_access.
Context `{E : External} `{R : RbacCaches} `{O : MapOrder}.

Definition nsIndexer_ByProject (id : string) : list NS :=
  List.filter (fun n => bool_decide (n_Annotations n !! projectIDAnnotation = Some id)) namespaceCache.

(** ** Promoted roles *)

Definition checkForGlobalResourceRules (role : RoleTemplate) (resource : string) (baseRule : PolicyRule) : RM (gset string) :=
  let* rules := (if rt_External role then
      let* r := attempt (crLister_Get (rt_Name role)) in
      match r with
      | inl externalRole => ret (cr_Rules externalRole)
      | inr err => if IsNotFound err then ret [] else fail err
      end
    else ret (rt_Rules role)) in
  ret (verbs_for resource baseRule rules).

(** The rules for a resource are replaced, or one is added; without verbs they are removed. *)
Definition promoted_rules (resource : string) (newVerbs : gset string) (baseRule : PolicyRule) (rules : list PolicyRule) : list PolicyRule :=
  let new := buildRule resource newVerbs baseRule in
  let replaced := map (fun rule => if ContainsString (r_Resources rule) resource then new else rule) rules in
  let rules := if List.existsb (fun rule => ContainsString (r_Resources rule) resource) rules then replaced else rules ++ [new] in
  if bool_decide (newVerbs = ∅) then List.filter (fun rule => negb (ContainsString (r_Resources rule) resource)) rules else rules.

Definition current_for (field : PolicyRule -> list string) (resource : string) (rules : list PolicyRule) : gset string :=
  list_to_set (concat (map field (List.filter (fun rule => ContainsString (r_Resources rule) resource) rules))).

Definition reconcileRoleForProjectAccessToGlobalResource (resource roleName : string) (newVerbs : gset string) (baseRule : PolicyRule) : RM string :=
  if roleName =? "" then fail (errorString "cannot reconcile Role: missing roleName")
  else
    let roleName := roleName +:+ "-promoted" in
    let* r := attempt (crLister_Get roleName) in
    match r with
    | inr err =>
        if negb (IsNotFound err) then fail (wrap ("get cluster role " +:+ roleName +:+ " failed") err)
        else if bool_decide (newVerbs = ∅) then ret ""
        else
          let* r := attempt (obj_Create kind_clusterRole (mkClusterRole roleName "" 0 ∅ ∅ [] [buildRule resource newVerbs baseRule])) in
          match r with
          | inl _ => ret roleName
          | inr err => if IsAlreadyExists err then ret roleName else fail (wrap ("couldn't create role " +:+ roleName) err)
          end
    | inl role =>
        let currentVerbs := current_for r_Verbs resource (cr_Rules role) in
        let currentResourceNames := current_for (fun rule => slice_of (r_ResourceNames rule)) resource (cr_Rules role) in
        let desiredResourceNames : gset string := list_to_set (slice_of (r_ResourceNames baseRule)) in
        if bool_decide (currentVerbs = newVerbs) && bool_decide (currentResourceNames = desiredResourceNames) then ret roleName
        else
          let* _ := wrapping ("couldn't update role " +:+ cr_Name role)
                      (obj_Update kind_clusterRole (set_cr_Rules (promoted_rules resource newVerbs baseRule (cr_Rules role)) role)) in
          ret roleName
    end.

(** The two loops over templates and resources; the names of the roles are collected. *)
Definition promote_templates (rts : gmap string RoleTemplate) (roles : gset string) : RM (gset string) :=
  for_fold (range "promote" rts) roles (fun roles '(_, rt) =>
    for_fold (range "resources" globalResourceRulesNeededInProjects) roles (fun roles '(resource, baseRule) =>
      let* verbs := checkForGlobalResourceRules rt resource baseRule in
      let* roleName := reconcileRoleForProjectAccessToGlobalResource resource (rt_Name rt) verbs baseRule in
      ret (if roleName !=? "" then {[ roleName ]} ∪ roles else roles))).

(** ** Access to the namespaces of a project *)

Definition creates_namespaces (rule : PolicyRule) : bool :=
  (ContainsString (r_APIGroups rule) "" || ContainsString (r_APIGroups rule) "*")
  && (ContainsString (r_Resources rule) "namespaces" || ContainsString (r_Resources rule) "*")
  && bool_decide (slice_of (r_ResourceNames rule) = [])
  && (ContainsString (r_Verbs rule) "*" || ContainsString (r_Verbs rule) "create").

(** The role that allows to create namespaces is made from its template, unless the cache has it. *)
Definition ensure_create_ns : RM unit :=
  let* r := attempt (crLister_Get "create-ns") in
  match r with
  | inl _ => ret tt
  | inr _ =>
      let* createNSRT := lift (rtLister_Get templateCache "create-ns") in
      ignoring IsAlreadyExists (ensureRoles {[ "create-ns" := createNSRT ]})
  end.

Definition ensureGlobalResourcesRolesForPRTB (projectName : string) (rts : gmap string RoleTemplate) : RM (list string) :=
  if projectName =? "" then ret []
  else
    let* creates := for_fold (range "namespaces" rts) false (fun creates '(_, r) =>
      if List.existsb creates_namespaces (rt_Rules r) then let* _ := ensure_create_ns in ret true else ret creates) in
    let roles : gset string := if creates : bool then {[ "create-ns" ]} else ∅ in
    let roleVerb := if creates : bool then "*" else "get" in
    let roles := {[ project_role projectName (default "" (projectNSVerbToSuffix !! roleVerb)) ]} ∪ roles in
    let* roles := promote_templates rts roles in
    ret (sort_Strings (elements roles)).

(** The label of the binding is added to the cluster role bindings that are there. *)
Definition label_crbs (rtbUID : string) (crbs : list Binding) (keep : gset string) : RM (gset string) :=
  for_fold crbs keep (fun keep crb =>
    let keep := {[ b_Name crb ]} ∪ keep in
    match b_Labels crb !! rtbUID with
    | Some _ => ret keep
    | None => let* _ := obj_Update kind_binding (set_b_Labels (<[rtbUID := owner]> (b_Labels crb)) crb) in ret keep
    end).

Definition reconcileProjectAccessToGlobalResources (binding : ProjectRoleTemplateBinding) (roles : list string) : RM (gset string) :=
  match roles with
  | [] => ret ∅
  | _ =>
      let rtbUID := GetRTBLabel (prtb_Meta binding) in
      let* subject := lift (BuildSubjectFromRTB (aPRTB binding)) in
      for_fold roles ∅ (fun keep role =>
        let crbKey := rbRoleSubjectKey role subject in
        let crbs := by_index crbByRoleAndSubject crbKey (List.filter (fun b => b_Namespace b =? "") bindingCache) in
        match crbs with
        | _ :: _ => label_crbs rtbUID crbs keep
        | [] =>
            let roleRef := mkRoleRef "ClusterRole" role in
            let crbName := NameForClusterRoleBinding roleRef subject in
            let* r := attempt (obj_Create kind_binding (mkBinding "" crbName 0 {[ rtbUID := owner ]} ∅ [] [subject] roleRef)) in
            match r with
            | inl created => ret ({[ b_Name created ]} ∪ keep)
            | inr err =>
                if negb (IsAlreadyExists err) then fail err
                else let* crb := obj_Get kind_binding ("", crbName) in label_crbs rtbUID [crb] keep
            end
        end)
  end.

(** ** Owners of cluster role bindings *)

Definition ownerExists (uid : string) : bool := negb (bool_decide (by_index prtbByUID uid prtbCache = [])).
Definition ownerExistsByNsName (nsAndName : string) : bool := negb (bool_decide (by_index prtbByNsName nsAndName prtbCache = [])).
Definition label_owned (kv : string * string) : bool :=
  let '(k, v) := kv in
  ((v =? owner) && (ownerExists k || ownerExistsByNsName k))
  || ((k =? rtbOwnerLabelLegacy) && ownerExists v) || ((k =? rtbOwnerLabel) && ownerExistsByNsName v).
Definition noRemainingOwnerLabels (crb : Binding) : bool := negb (List.existsb label_owned (range "labels" (b_Labels crb))).

Definition reconcileProjectAccessToGlobalResourcesForDelete (binding : ProjectRoleTemplateBinding) : RM unit :=
  let rtbNsAndName := GetRTBLabel (prtb_Meta binding) in
  for_fold (crbLister_List {[ rtbNsAndName := owner ]}) tt (fun _ crb =>
    let crb := set_b_Labels (delete rtbNsAndName (b_Labels crb)) crb in
    if noRemainingOwnerLabels crb then ignoring IsNotFound (obj_Delete kind_binding ("", b_Name crb))
    else let* _ := obj_Update kind_binding crb in ret tt).
End project_access.

(** ** Bindings of role templates in a project ([prtb_handler.go]) *)

Section prtb.
Context `{C : Controllers} `{R : RbacCaches} `{O : MapOrder} (env : World -> World).

Definition prtb_reconcileProjectAccess (binding : ProjectRoleTemplateBinding) (rts : gmap string RoleTemplate) : RM unit :=
  let* roles := ensureGlobalResourcesRolesForPRTB (parseProjectName (prtb_ProjectName binding)) rts in
  let* _ := reconcileProjectAccessToGlobalResources binding roles in ret tt.

(** The bindings in the namespaces that are not being deleted. *)
Definition bind_namespaces (binding : ProjectRoleTemplateBinding) (roles : gmap string RoleTemplate) (namespaces : list NS) : RM unit :=
  for_fold namespaces tt (fun _ ns =>
    if n_Deleting ns then ret tt
    else wrapping ("couldn't ensure binding " +:+ rtb_Name (prtb_Meta binding) +:+ " in " +:+ n_Name ns)
           (ensureProjectRoleBindings (n_Name ns) roles binding)).

Definition syncPRTB (binding : ProjectRoleTemplateBinding) : RM unit :=
  if prtb_RoleTemplateName binding =? "" then ret tt
  else if (prtb_UserName binding =? "") && (prtb_GroupPrincipalName binding =? "") && (prtb_GroupName binding =? "") then ret tt
  else
    let* rt := wrapping ("couldn't get role template " +:+ prtb_RoleTemplateName binding)
                 (lift (rtLister_Get templateCache (prtb_RoleTemplateName binding))) in
    let namespaces := nsIndexer_ByProject (prtb_ProjectName binding) in
    let* roles := lift (gatherRoles templateCache rt) in
    let* _ := wrapping "couldn't ensure roles" (ensureRoles roles) in
    let* _ := bind_namespaces binding roles namespaces in
    let* _ := (if prtb_UserName binding !=? "" then
        wrapping "couldn't ensure service account impersonator" (ensureServiceAccountImpersonator env (prtb_UserName binding))
      else ret tt) in
    prtb_reconcileProjectAccess binding roles.

Definition ensurePRTBDelete (binding : ProjectRoleTemplateBinding) : RM unit :=
  let* _ := for_fold (nsIndexer_ByProject (prtb_ProjectName binding)) tt (fun _ ns =>
    for_fold (rbLister_List (n_Name ns) {[ rtbOwnerLabel := GetRTBLabel (prtb_Meta binding) ]}) tt (fun _ rb =>
      let* r := attempt (obj_Delete kind_binding (n_Name ns, b_Name rb)) in
      match r with
      | inl _ => ret tt
      | inr err => if IsNotFound err then ret tt else fail (wrap ("error deleting rolebinding " +:+ b_Name rb) err)
      end)) in
  let* _ := wrapping "error deleting service account impersonator" (deleteServiceAccountImpersonator (prtb_UserName binding)) in
  reconcileProjectAccessToGlobalResourcesForDelete binding.

(** Bindings made by versions before 2.5 get the labels of today: cluster role bindings are listed at the server, role bindings
    in the cache. *)
Definition legacy_labelled (set : gmap string string) (absent : list string) (b : Binding) : bool :=
  selects set (b_Labels b) && List.forallb (fun key => bool_decide (b_Labels b !! key = None)) absent.
Definition reconcilePRTBUserClusterLabels (binding : ProjectRoleTemplateBinding) : RM unit :=
  let meta := prtb_Meta binding in
  let bindingLabel := GetRTBLabel meta in
  if map_get_label (rtb_Labels meta) rtbCrbRbLabelsUpdated =? "true" then ret tt
  else
    let* _ := r_request in
    let* m := gets rw_bindings in
    let userCRBs := List.filter (fun b => (b_Namespace b =? "") && legacy_labelled {[ rtb_UID meta := owner ]} [rtbLabelUpdated; bindingLabel] b)
                      (map snd (map_to_list m)) in
    let* errs := collect_errors userCRBs (fun crb =>
      relabel kind_binding ("", b_Name crb)
        (fun b => set_b_Labels (<[rtbLabelUpdated := "true"]> (<[bindingLabel := owner]> (b_Labels b))) b)) in
    let rbs := List.filter (fun b => (b_Namespace b !=? "") && legacy_labelled {[ rtbOwnerLabelLegacy := rtb_UID meta ]} [rtbLabelUpdated; rtbOwnerLabel] b)
                 bindingCache in
    let* errs2 := collect_errors rbs (fun rb =>
      relabel kind_binding (b_Namespace rb, b_Name rb)
        (fun b => set_b_Labels (<[rtbLabelUpdated := "true"]> (<[rtbOwnerLabel := bindingLabel]> (b_Labels b))) b)) in
    let* _ := fail_with_errors (errs ++ errs2) in
    relabel kind_prtb (rtb_Namespace meta, rtb_Name meta)
      (fun b => set_prtb_Meta (set_rtb_Labels (<[rtbCrbRbLabelsUpdated := "true"]> (rtb_Labels (prtb_Meta b))) (prtb_Meta b)) b).

Definition prtb_Create (obj : ProjectRoleTemplateBinding) : RM unit := syncPRTB obj.
Definition prtb_Updated (obj : ProjectRoleTemplateBinding) : RM unit :=
  let* _ := reconcilePRTBUserClusterLabels obj in syncPRTB obj.
Definition prtb_Remove (obj : ProjectRoleTemplateBinding) : RM unit := ensurePRTBDelete obj.

(** ** Changed role templates ([roletemplate_handler.go]) *)

Definition sync_prtb_of_template (roleTemplates : gmap string RoleTemplate) (prtb : ProjectRoleTemplateBinding) : RM unit :=
  let* roles := ensureGlobalResourcesRolesForPRTB (parseProjectName (prtb_ProjectName prtb)) roleTemplates in
  let* crbsToKeep := reconcileProjectAccessToGlobalResources prtb roles in
  let existingCrbs := crbLister_List {[ GetRTBLabel (prtb_Meta prtb) := owner ]} in
  let* _ := for_fold existingCrbs tt (fun _ crb =>
    if bool_decide (b_Name crb ∈ crbsToKeep) then ret tt
    else let* _ := attempt_err (obj_Delete kind_binding ("", b_Name crb)) in ret tt) in
  bind_namespaces prtb roleTemplates (nsIndexer_ByProject (prtb_ProjectName prtb)).

Definition syncRT (template : RoleTemplate) (usedInProjects : bool) (prtbs : list ProjectRoleTemplateBinding)
    (crtbs : list ClusterRoleTemplateBinding) : RM unit :=
  let* roleTemplates := lift (gatherRoles templateCache template) in
  let* _ := wrapping "couldn't ensure roles" (ensureRoles roleTemplates) in
  let* _ := (if usedInProjects then let* _ := promote_templates roleTemplates ∅ in ret tt else ret tt) in
  let* _ := for_fold prtbs tt (fun _ prtb => sync_prtb_of_template roleTemplates prtb) in
  for_fold crtbs tt (fun _ crtb => ensureClusterBindings roleTemplates crtb).

Definition rtSync_sync (obj : option RoleTemplate) : RM unit :=
  match obj with
  | None => ret tt
  | Some rt =>
      if rt_Deleting rt then ret tt
      else
        let key := clusterName +:+ "-" +:+ rt_Name rt in
        let prtbs := by_index (fun b => rtbByClusterAndRoleTemplateName (aPRTB b)) key prtbCache in
        let crtbs := match prtbs with
                     | [] => by_index (fun b => rtbByClusterAndRoleTemplateName (aCRTB b)) key crtbCache
                     | _ => []
                     end in
        match prtbs, crtbs with
        | [], [] => ret tt
        | _, _ => syncRT rt (negb (bool_decide (prtbs = []))) prtbs crtbs
        end
  end.

(** The templates to look at when one changes: those that name it. *)
Definition rtRelatedResources (name : string) : list string :=
  map fst (List.filter (fun '(_, rt) => ContainsString (rt_RoleTemplateNames rt) name) (range "related" templateCache)).
End prtb.
