(* ===== verification/PromotedRoles.v ===== *)
(** * What promoted roles allow

    Properties of [ProjectAccess]: a promoted role allows on a resource what the template allows, no more and no less; and how
    it can fall behind. *)

From S2P Require Import Prelude GoLib Errors Types External World Instances Store Handlers Tokens Rbac RoleTemplates RbacStore Impersonation RoleBindings BindingSafety ProjectAccess.

(** ** Requests for cluster roles *)

Lemma r_request_roles w w' r : r_request w = (w', r) -> rw_clusterRoles w' = rw_clusterRoles w /\ rw_crCache w' = rw_crCache w
  /\ (honest_faults w -> honest_faults w') /\ (r = Ret tt \/ exists e, r = Fail e /\ Some e ∈ w_faults (rw_base w)).
Proof.
  intros Hr. pose proof (r_request_spec w w' r Hr) as (_ & Hh & Hcases). split; [|split; [|done]];
    revert Hr; unfold r_request, on_base; destruct (api_request (rw_base w)) as [b x]; by intros [= <- _].
Qed.

Lemma update_role_Ret role w w' a : obj_Update kind_clusterRole role w = (w', Ret a) ->
  exists cur, rw_clusterRoles w !! cr_Name role = Some cur /\ cr_ResourceVersion cur = cr_ResourceVersion role
    /\ exists new, rw_clusterRoles w' = <[cr_Name role := new]> (rw_clusterRoles w) /\ cr_Rules new = cr_Rules role /\ cr_Name new = cr_Name role
         /\ cr_Annotations new = cr_Annotations role /\ rw_crCache w' = rw_crCache w.
Proof.
  unfold obj_Update. intros ([] & w1 & Hr & Hk)%bind_Ret. apply r_request_roles in Hr as (Hc & Hca & _ & _).
  apply bind_Ret in Hk as (m & w2 & [= <- <-] & Hk). simpl in Hk. rewrite Hc in Hk.
  destruct (rw_clusterRoles w !! cr_Name role) as [cur|] eqn:Hcur; [|done]. exists cur. split; [done|].
  destruct (cr_ResourceVersion cur =? cr_ResourceVersion role)%Z eqn:Hv; simpl in Hk; [|done]. apply Z.eqb_eq in Hv. split; [done|].
  destruct (bool_decide_reflect (role = cur)) as [->|Hne].
  - injection Hk as <- <-. exists cur. rewrite insert_id by done. done.
  - apply bind_Ret in Hk as ([] & w3 & Hm & [= <- _]). injection Hm as <-. eexists. split; [simpl; by rewrite ?Hc|]. simpl. by rewrite ?Hca.
Qed.

Lemma create_role_spec role w w' r : obj_Create kind_clusterRole role w = (w', r) ->
  (exists a, r = Ret a /\ rw_clusterRoles w !! cr_Name role = None
     /\ exists new, rw_clusterRoles w' = <[cr_Name role := new]> (rw_clusterRoles w) /\ cr_Rules new = cr_Rules role
          /\ cr_Name new = cr_Name role /\ cr_Annotations new = cr_Annotations role /\ rw_crCache w' = rw_crCache w)
  \/ (rw_clusterRoles w' = rw_clusterRoles w /\ (forall a, r <> Ret a)
      /\ forall e, r = Fail e -> honest_faults w -> IsAlreadyExists e = true -> is_Some (rw_clusterRoles w !! cr_Name role)).
Proof.
  unfold obj_Create, bind at 1. destruct (r_request w) as [w1 r1] eqn:Hr. apply r_request_roles in Hr as (Hb & Hca & _ & Hr).
  destruct Hr as [->|(e & -> & He)].
  - unfold bind at 1, gets at 1. simpl. rewrite Hb. destruct (rw_clusterRoles w !! cr_Name role) as [c|] eqn:Hl.
    + unfold fail. intros [= <- <-]. right. split; [done|]. split; [done|]. intros; by eexists.
    + unfold bind, gets, modify, ret. simpl. intros [= <- <-]. left. eexists. split; [done|]. split; [done|]. eexists. split; [done|]. done.
  - intros [= <- <-]. right. split; [done|]. split; [done|]. intros e' [= <-] Hho Ha. destruct (Hho e He). congruence.
Qed.

(** ** Rules *)

(** A rule applies to a group when it has it or a star, and to an object when it has no names or that of the object. *)
Definition in_group (rule : PolicyRule) (group : string) : Prop := group ∈ r_APIGroups rule \/ "*" ∈ r_APIGroups rule.
Definition on_object (rule : PolicyRule) (object : string) : Prop := slice_of (r_ResourceNames rule) = [] \/ object ∈ slice_of (r_ResourceNames rule).
(** What a list of rules allows on an object of a resource that it names; and which verbs and names it has for the resource. *)
Definition allows (rules : list PolicyRule) (group resource object v : string) : Prop :=
  exists rule, rule ∈ rules /\ in_group rule group /\ resource ∈ r_Resources rule /\ on_object rule object /\ v ∈ r_Verbs rule.
Definition has_verb (rules : list PolicyRule) (resource v : string) : Prop := exists rule, rule ∈ rules /\ resource ∈ r_Resources rule /\ v ∈ r_Verbs rule.
Definition has_name (rules : list PolicyRule) (resource x : string) : Prop :=
  exists rule, rule ∈ rules /\ resource ∈ r_Resources rule /\ x ∈ slice_of (r_ResourceNames rule).
(** The rules for a resource have the groups and the names that go with it. *)
Definition restricted (resource : string) (baseRule : PolicyRule) (rules : list PolicyRule) : Prop :=
  forall rule, rule ∈ rules -> resource ∈ r_Resources rule -> r_APIGroups rule = r_APIGroups baseRule /\ r_ResourceNames rule = r_ResourceNames baseRule.
(** What a template allows on a resource outside of namespaces. *)
Definition template_allows (resource : string) (baseRule : PolicyRule) (rules : list PolicyRule) (v : string) : Prop :=
  exists rule, rule ∈ rules /\ (resource ∈ r_Resources rule \/ "*" ∈ r_Resources rule) /\ r_ResourceNames rule = r_ResourceNames baseRule
    /\ ("*" ∈ r_APIGroups rule \/ exists g, g ∈ r_APIGroups rule /\ g ∈ r_APIGroups baseRule) /\ v ∈ r_Verbs rule.

Lemma ContainsString_spec l s : ContainsString l s = true <-> s ∈ l.
Proof. unfold ContainsString. apply bool_decide_eq_true. Qed.

Lemma checkGroup_spec resource baseRule rule : globalResourceRulesNeededInProjects !! resource = Some baseRule ->
  checkGroup resource rule = true <-> "*" ∈ r_APIGroups rule \/ exists g, g ∈ r_APIGroups rule /\ g ∈ r_APIGroups baseRule.
Proof.
  intros Hb. unfold checkGroup. rewrite Hb. destruct (ContainsString (r_APIGroups rule) "*") eqn:Hs.
  - apply ContainsString_spec in Hs. split; [by left|done].
  - rewrite List.existsb_exists. setoid_rewrite <- list_elem_of_In. setoid_rewrite ContainsString_spec. split; [by right|].
    intros [Hin|?]; [|done]. apply ContainsString_spec in Hin. congruence.
Qed.

Lemma elem_of_verbs_for resource baseRule rules v : globalResourceRulesNeededInProjects !! resource = Some baseRule ->
  v ∈ verbs_for resource baseRule rules <-> template_allows resource baseRule rules v.
Proof.
  intros Hb. unfold verbs_for, template_allows.
  enough (forall acc : gset string, v ∈ fold_left (fun verbs rule => if rule_counts resource baseRule rule then list_to_set (r_Verbs rule) ∪ verbs else verbs) rules acc
    <-> v ∈ acc \/ exists rule, rule ∈ rules /\ rule_counts resource baseRule rule = true /\ v ∈ r_Verbs rule) as ->.
  { rewrite elem_of_empty. unfold rule_counts. split.
    - intros [[]|(rule & Hr & Hc & Hv)]. exists rule. apply andb_true_iff in Hc as [[Hc Hn]%andb_true_iff Hg].
      apply orb_true_iff in Hc. rewrite !ContainsString_spec in Hc. apply bool_decide_eq_true in Hn. by apply (checkGroup_spec _ _ _ Hb) in Hg.
    - intros (rule & Hr & Hc & Hn & Hg & Hv). right. exists rule. split; [done|]. split; [|done]. apply andb_true_iff. split; [|by apply (checkGroup_spec _ _ _ Hb)].
      apply andb_true_iff. split; [|by apply bool_decide_eq_true]. apply orb_true_iff. by rewrite !ContainsString_spec. }
  induction rules as [|rule rules IH]; intros acc; simpl.
  - split; [by left|]. intros [?|(rule & Hr%elem_of_nil & _)]; done.
  - rewrite IH. setoid_rewrite elem_of_cons. destruct (rule_counts resource baseRule rule) eqn:Hc; [rewrite elem_of_union, elem_of_list_to_set|]; split.
    + intros [[?|?]|(r & ? & ? & ?)]; [right; exists rule; auto|by left|right; exists r; auto].
    + intros [?|(r & [->|?] & ? & ?)]; [by left; right|by left; left|right; by exists r].
    + intros [?|(r & ? & ? & ?)]; [by left|right; exists r; auto].
    + intros [?|(r & [->|?] & ? & ?)]; [by left|congruence|right; by exists r].
Qed.

Lemma restricted_allows resource baseRule rules group object v : restricted resource baseRule rules ->
  allows rules group resource object v <-> has_verb rules resource v /\ in_group baseRule group /\ on_object baseRule object.
Proof.
  unfold allows, has_verb, in_group, on_object. intros Hr. split.
  - intros (rule & Hin & Hg & Hres & Ho & Hv). destruct (Hr _ Hin Hres) as [<- <-]. split; [by exists rule|done].
  - intros ((rule & Hin & Hres & Hv) & Hg & Ho). exists rule. destruct (Hr _ Hin Hres) as [-> ->]. done.
Qed.

Lemma elem_of_current field resource rules v :
  v ∈ current_for field resource rules <-> exists rule, rule ∈ rules /\ resource ∈ r_Resources rule /\ v ∈ field rule.
Proof.
  unfold current_for. rewrite elem_of_list_to_set, list_elem_of_In, in_concat. setoid_rewrite in_map_iff. setoid_rewrite filter_In.
  setoid_rewrite ContainsString_spec. setoid_rewrite <- list_elem_of_In. naive_solver.
Qed.

Lemma elem_of_built verbs v : v ∈ sort_Strings (elements verbs) <-> v ∈ (verbs : gset string).
Proof. unfold sort_Strings. by rewrite elem_of_sort_by, elem_of_elements. Qed.

(** The rule for the resource is the new one, if there are verbs, and the others stay. *)
Lemma elem_of_promoted resource verbs baseRule rules rule :
  rule ∈ promoted_rules resource verbs baseRule rules
  <-> (rule = buildRule resource verbs baseRule /\ verbs <> ∅) \/ (rule ∈ rules /\ resource ∉ r_Resources rule).
Proof.
  set (new := buildRule resource verbs baseRule).
  assert (resource ∈ r_Resources new) as Hnew by (by apply list_elem_of_singleton).
  set (rules1 := if List.existsb (fun rule => ContainsString (r_Resources rule) resource) rules
                 then map (fun rule => if ContainsString (r_Resources rule) resource then new else rule) rules else rules ++ [new]).
  assert (forall rule, rule ∈ rules1 <-> rule = new \/ (rule ∈ rules /\ resource ∉ r_Resources rule)) as H1.
  { clear rule. intros rule. unfold rules1. destruct (List.existsb _ rules) eqn:He.
    - apply List.existsb_exists in He as (r0 & Hin%list_elem_of_In & Hc%ContainsString_spec). rewrite list_elem_of_In, in_map_iff. setoid_rewrite <- list_elem_of_In. split.
      + intros (r & Hr & Hin'). destruct (ContainsString (r_Resources r) resource) eqn:Hc'; [by left|]. subst. right. split; [done|].
        intros Hx%ContainsString_spec. congruence.
      + intros [->|[Hin' Hn]]; [exists r0; split; [|done]; by apply ContainsString_spec in Hc; rewrite Hc|]. exists rule. split; [|done].
        destruct (ContainsString (r_Resources rule) resource) eqn:Hc'; [|done]. by apply ContainsString_spec in Hc'.
    - rewrite elem_of_app, list_elem_of_singleton. split; [|naive_solver]. intros [Hin|?]; [right|by left]. split; [done|]. intros Hx%ContainsString_spec.
      assert (List.existsb (fun rule => ContainsString (r_Resources rule) resource) rules = true); [|congruence].
      apply List.existsb_exists. exists rule. split; [by apply list_elem_of_In|done]. }
  assert (promoted_rules resource verbs baseRule rules
    = if bool_decide (verbs = ∅) then List.filter (fun rule => negb (ContainsString (r_Resources rule) resource)) rules1 else rules1) as -> by done.
  clearbody rules1. destruct (bool_decide_reflect (verbs = ∅)) as [->|Hne]; [|rewrite H1; naive_solver].
  rewrite elem_of_filter_bool, H1, negb_true_iff, <- not_true_iff_false, ContainsString_spec. naive_solver.
Qed.

(** What a list of rules comes to when the rule for a resource is set. *)
Definition settled (resource : string) (verbs : gset string) (baseRule : PolicyRule) (before after : list PolicyRule) : Prop :=
  (forall v, has_verb after resource v <-> v ∈ verbs) /\ (forall x, has_name after resource x <-> verbs <> ∅ /\ x ∈ slice_of (r_ResourceNames baseRule))
  /\ restricted resource baseRule after /\ forall rule, resource ∉ r_Resources rule -> rule ∈ after <-> rule ∈ before.

Lemma promoted_settled resource verbs baseRule rules : settled resource verbs baseRule rules (promoted_rules resource verbs baseRule rules).
Proof.
  assert (resource ∈ r_Resources (buildRule resource verbs baseRule)) as Hnew by (by apply list_elem_of_singleton).
  unfold settled, has_verb, has_name, restricted. setoid_rewrite elem_of_promoted. split; [|split; [|split]].
  - intros v. split; [intros (rule & [[-> _]|[_ ?]] & Hr & Hv); [by apply elem_of_built in Hv|done]|]. intros Hv.
    eexists. split; [left; split; [done|set_solver]|]. split; [done|]. by apply elem_of_built.
  - intros x. split; [intros (rule & [[-> Hne]|[_ ?]] & Hr & Hx); done|]. intros [Hne Hx]. eexists. split; [left; done|]. done.
  - intros rule [[-> _]|[_ ?]] Hr; done.
  - intros rule Hr. split; [intros [[-> _]|[? _]]; done|]. intros. by right.
Qed.

Section promoted.
Context `{E : External} `{R : RbacCaches} `{O : MapOrder}.

(** One turn of the loops over templates and resources. *)
Definition promote_one (rt : RoleTemplate) (resource : string) (baseRule : PolicyRule) : RM string :=
  let* verbs := checkForGlobalResourceRules rt resource baseRule in
  reconcileRoleForProjectAccessToGlobalResource resource (rt_Name rt) verbs baseRule.

(** The rules of a template, for an external one those of the cluster role it stands for. *)
Definition template_rules (rt : RoleTemplate) (w : RWorld) : list PolicyRule :=
  if rt_External rt then match rw_crCache w !! rt_Name rt with Some cr => cr_Rules cr | None => [] end else rt_Rules rt.
Definition stored_rules (name : string) (w : RWorld) : list PolicyRule :=
  match rw_clusterRoles w !! name with Some cr => cr_Rules cr | None => [] end.

Lemma check_run rt resource baseRule w :
  checkForGlobalResourceRules rt resource baseRule w = (w, Ret (verbs_for resource baseRule (template_rules rt w))).
Proof.
  unfold checkForGlobalResourceRules, template_rules, crLister_Get, attempt, bind, gets, ret, fail. destruct (rt_External rt); [|done].
  by destruct (rw_crCache w !! rt_Name rt).
Qed.

(** One successful turn, with what the cache held of the role being current: the rules for the resource are left with the verbs and
    names they should have, or set. *)
Lemma promote_one_run rt resource baseRule w w' name :
  honest_faults w -> (forall cr, rw_clusterRoles w !! (rt_Name rt +:+ "-promoted") = Some cr -> cr_Name cr = rt_Name rt +:+ "-promoted") ->
  rw_crCache w !! (rt_Name rt +:+ "-promoted") = rw_clusterRoles w !! (rt_Name rt +:+ "-promoted") ->
  promote_one rt resource baseRule w = (w', Ret name) ->
  let verbs := verbs_for resource baseRule (template_rules rt w) in
  let before := stored_rules (rt_Name rt +:+ "-promoted") w in let after := stored_rules (rt_Name rt +:+ "-promoted") w' in
  (after = before /\ (forall v, has_verb after resource v <-> v ∈ verbs)
     /\ forall x, verbs <> ∅ -> has_name after resource x <-> x ∈ slice_of (r_ResourceNames baseRule))
  \/ settled resource verbs baseRule before after.
Proof.
  intros Hho Hname Hsync. unfold promote_one, bind at 1. rewrite check_run.
  set (verbs := verbs_for resource baseRule (template_rules rt w)). set (pn := rt_Name rt +:+ "-promoted") in *. cbv zeta.
  clearbody verbs. unfold reconcileRoleForProjectAccessToGlobalResource.
  destruct (rt_Name rt =? ""); [done|]. fold pn. unfold crLister_Get, attempt at 1, bind at 1 2, gets at 1. unfold stored_rules. rewrite Hsync.
  destruct (rw_clusterRoles w !! pn) as [role|] eqn:Hrole; simpl.
  - specialize (Hname role eq_refl). destruct (bool_decide_reflect (current_for r_Verbs resource (cr_Rules role) = verbs)) as [<-|Hne]; simpl.
    1: destruct (bool_decide_reflect (current_for (fun rule => slice_of (r_ResourceNames rule)) resource (cr_Rules role)
                   = list_to_set (slice_of (r_ResourceNames baseRule)))) as [Hn|_].
    1: { intros [= <- _]. rewrite Hrole. left. split; [done|]. split; [intros v; by rewrite elem_of_current|]. intros x _.
         by rewrite <- (elem_of_list_to_set (C := gset string)), <- Hn, elem_of_current. }
    all: intros (a & w1 & Hu%wrapping_Ret & [= <- _])%bind_Ret; apply update_role_Ret in Hu as (cur & _ & _ & new & Hst & Hr & _); simpl in Hst, Hr;
      rewrite Hname in Hst; rewrite Hst, lookup_insert_eq, Hr; right; apply promoted_settled.
  - destruct (bool_decide_reflect (verbs = ∅)) as [->|Hne].
    + intros [= <- _]. rewrite Hrole. left. split; [done|]. split; [|done]. intros v. split; [by intros (rule & ?%elem_of_nil & _)|by intros ?%elem_of_empty].
    + unfold bind at 1, attempt at 1. destruct (obj_Create kind_clusterRole _ w) as [w1 r1] eqn:Hc.
      apply create_role_spec in Hc as [(a & -> & _ & new & Hst & Hr & _)|(_ & Hno & Hex)]; simpl in *.
      * intros [= <- _]. rewrite Hst, lookup_insert_eq, Hr. right. pose proof (promoted_settled resource verbs baseRule []) as Hs.
        unfold promoted_rules in Hs. rewrite (bool_decide_eq_false_2 _ Hne) in Hs. exact Hs.
      * destruct r1 as [a|e|]; [by destruct (Hno a)| |done]. destruct (IsAlreadyExists e) eqn:He; [|done].
        destruct (Hex e eq_refl Hho He) as [c Hc]. congruence.
Qed.

End promoted.

(** ** Examples *)

Definition reader : RoleTemplate :=
  mkRoleTemplate "reader" false false false false "project"
    [mkPolicyRule ["get"; "list"] [""] ["nodes"] None None; mkPolicyRule ["get"] ["storage.k8s.io"] ["storageclasses"] None None] [].
Definition node_base : PolicyRule := base_rule [""] None.
Definition promoted_reader (rules : list PolicyRule) : ClusterRole := mkClusterRole "reader-promoted" "uid-1" 3 ∅ ∅ [] rules.
Definition promoted_world (roles : gmap string ClusterRole) : RWorld :=
  set_rw_crCache roles (set_rw_clusterRoles roles (emptyRWorld (demoWorld []))).

(** A template that allows to look at the local cluster; the promoted role allows to look at all of them. *)
Definition local_reader : RoleTemplate :=
  mkRoleTemplate "reader" false false false false "project" [mkPolicyRule ["get"] ["management.cattle.io"] ["clusters"] (Some ["local"]) None] [].
Definition local_base : PolicyRule := base_rule ["management.cattle.io"] (Some ["local"]).
Definition too_wide : RWorld := promoted_world {[ "reader-promoted" := promoted_reader [mkPolicyRule ["get"] ["*"] ["clusters"] None None] ]}.


(** A promoted role that the cache does not have yet is created for the first resource; for the next ones the server answers that it
    exists, which is ignored: the run succeeds, and the role allows one of the resources only. *)
Example promoted_role_incomplete :
  let run := promote_templates {[ "reader" := reader ]} ∅ (promoted_world ∅) in
  snd run = Ret {[ "reader-promoted" ]}
  /\ length (rt_Rules reader) = 2%nat /\ length (stored_rules "reader-promoted" (fst run)) = 1%nat.
Proof. vm_compute. repeat split; reflexivity. Qed.

(** A rule whose list of names is empty instead of absent allows as much in Kubernetes, but is not promoted. *)
Example empty_names_not_promoted :
  verbs_for "nodes" node_base [mkPolicyRule ["get"] [""] ["nodes"] (Some []) None] = ∅
  /\ verbs_for "nodes" node_base [mkPolicyRule ["get"] [""] ["nodes"] None None] = {[ "get" ]}.
Proof. vm_compute. split; reflexivity. Qed.

(** A template that is bound in a project and in the cluster: when it changes, only the bindings in the project follow. *)
Definition changed_template (prtbs : list ProjectRoleTemplateBinding) : RbacCaches := {|
  clusterName := "c-xyz"; templateCache := demo_roles; bindingCache := []; roleCache := ∅; projectCache := []; crtbCache := [demo_crtb]; prtbCache := prtbs;
  namespaceCache := []; serviceAccountCacheAt _ := ∅; userCache := ∅; userAttributeCache := ∅
|}.
Definition a_prtb : ProjectRoleTemplateBinding := mkPRTB (mkRTBMeta "p-1" "prtb-1" "80" 1 ∅ ∅ false) "" "" "" "github_team://9" "" "c-xyz:p-1" "member".
Definition owned_in_cluster (w : RWorld) : list Binding :=
  List.filter (fun b => bool_decide (b_Labels b !! rtbOwnerLabel = Some "c-xyz_crtb-1")) (values (rw_bindings w)).

Example cluster_bindings_forgotten :
  let run prtbs := rtSync_sync (H := demoExternal) (R := changed_template prtbs) (Some member) (emptyRWorld (demoWorld [])) in
  (snd (run []), length (owned_in_cluster (fst (run [])))) = (Ret tt, 3%nat)
  /\ (snd (run [a_prtb]), length (owned_in_cluster (fst (run [a_prtb])))) = (Ret tt, 0%nat).
Proof. vm_compute. split; reflexivity. Qed.
