(* ===== verification/NamespaceRoles.v ===== *)
(** * Namespaces and projects ([namespace_handler.go], [project_handler.go])

    A namespace belongs to the project its annotation names.  Two cluster roles of the project list its namespaces, one for
    reading and one for editing them; the handlers of namespaces and projects keep these lists, the bindings in the namespaces
    and the assignment of the namespaces every cluster has. *)

From S2P Require Import Prelude GoLib Errors Types External World Handlers Rbac RoleTemplates RbacStore Impersonation RoleBindings ProjectAccess.

Definition projectNSAnn : string := "authz.cluster.auth.io/project-namespaces".
Definition manageNSVerb : string := "manage-namespaces".
Definition projectNSEditVerb : string := "*".
Definition project_Default : string := "Default".
Definition project_System : string := "System".
Definition defaultProjectLabel : string := "authz.management.cattle.io/default-project".
Definition systemProjectLabel : string := "authz.management.cattle.io/system-project".
Definition initialProjectToLabels (projectName : string) : gmap string string :=
  if projectName =? project_Default then {[ defaultProjectLabel := "true" ]} else {[ systemProjectLabel := "true" ]}.
Definition creatorAnnotation : string := "field.cattle.io/creatorId".

(** The namespaces a role of a project lists. *)
Definition lists_namespaces (r : PolicyRule) : bool :=
  ContainsString (r_Resources r) "namespaces" && (ContainsString (r_Verbs r) "get" || ContainsString (r_Verbs r) "*").
Definition crByNS (cr : ClusterRole) : list string :=
  match cr_Annotations cr !! projectNSAnn with
  | None => []
  | Some _ => concat (map (fun r => if lists_namespaces r then slice_of (r_ResourceNames r) else []) (cr_Rules cr))
  end.

Definition namespace_rule (verb ns : string) : PolicyRule := mkPolicyRule [verb] [""] ["namespaces"] (Some [ns]) None.
Definition manage_rule (projectName : string) : PolicyRule := mkPolicyRule [manageNSVerb] [mgmt_GroupName] ["projects"] (Some [projectName]) None.
Definition addManageNSPermission (clusterRole : ClusterRole) (projectName : string) : ClusterRole :=
  set_cr_Rules (cr_Rules clusterRole ++ [manage_rule projectName]) clusterRole.

Definition createProjectNSRole (roleName verb ns projectName : string) : RM unit :=
  let cr := mkClusterRole roleName "" 0 ∅ {[ projectNSAnn := roleName ]} [] (if ns !=? "" then [namespace_rule verb ns] else []) in
  let cr := if verb =? projectNSEditVerb then addManageNSPermission cr projectName else cr in
  let* _ := obj_Create kind_clusterRole cr in ret tt.

(** ** The lists of namespaces *)

Definition rule_names (verb ns : string) (r : PolicyRule) : bool :=
  ContainsString (r_Verbs r) verb && ContainsString (r_Resources r) "namespaces" && ContainsString (slice_of (r_ResourceNames r)) ns.
Definition without_namespace (ns : string) (r : PolicyRule) : PolicyRule :=
  mkPolicyRule (r_Verbs r) (r_APIGroups r) (r_Resources r) (Some (List.filter (fun n => n !=? ns) (slice_of (r_ResourceNames r)))) (r_NonResourceURLs r).
Definition nameless (r : PolicyRule) : bool := bool_decide (slice_of (r_ResourceNames r) = []).

(** The namespace is taken out of a role that should not list it; a role without names is deleted. *)
Definition clean_role (verb ns : string) (cr : ClusterRole) : RM unit :=
  let modified := List.existsb (rule_names verb ns) (cr_Rules cr) in
  let rules := map (fun r => if rule_names verb ns r then without_namespace ns r else r) (cr_Rules cr) in
  if List.forallb nameless rules then obj_Delete kind_clusterRole (cr_Name cr)
  else
    let rules := List.filter (fun r => negb (nameless r)) rules in
    if modified then let* _ := obj_Update kind_clusterRole (set_cr_Rules rules cr) in ret tt else ret tt.

(** The namespace is added to the first rule for namespaces with the verb, or in a new rule. *)
Fixpoint append_to_first (verb ns : string) (rules : list PolicyRule) : option (list PolicyRule) :=
  match rules with
  | [] => None
  | r :: rest =>
      if ContainsString (r_Verbs r) verb && ContainsString (r_Resources r) "namespaces"
      then Some (mkPolicyRule (r_Verbs r) (r_APIGroups r) (r_Resources r) (Some (slice_of (r_ResourceNames r) ++ [ns])) (r_NonResourceURLs r) :: rest)
      else option_map (cons r) (append_to_first verb ns rest)
  end.
Definition add_namespace (verb ns : string) (rules : list PolicyRule) : list PolicyRule :=
  match append_to_first verb ns rules with Some rules => rules | None => rules ++ [namespace_rule verb ns] end.

(** The project of a namespace, "" for none. *)
Definition project_of_namespace (ns : NS) : string := parseProjectName (default "" (n_Annotations ns !! projectIDAnnotation)).

Section namespace_roles.
Context `{O : MapOrder}.

(** One verb; the answer says whether the function returns at once, without looking at the other verb. *)
Definition reconcile_verb (ns : NS) (verb suffix : string) : RM bool :=
  let projectName := if n_Deleting ns then "" else project_of_namespace ns in
  let desiredRole := if projectName =? "" then "" else project_role projectName suffix in
  let* cache := gets rw_crCache in
  let clusterRoles := List.filter (fun cr => bool_decide (n_Name ns ∈ crByNS cr)) (map snd (range "roles" cache)) in
  let* nsInDesiredRole := for_fold clusterRoles false (fun found cr =>
    if cr_Name cr =? desiredRole then ret true else let* _ := clean_role verb (n_Name ns) cr in ret found) in
  if nsInDesiredRole || (desiredRole =? "") then ret false
  else
    let* r := attempt (crLister_Get desiredRole) in
    match r with
    | inr err =>
        if IsNotFound err then let* _ := createProjectNSRole desiredRole verb (n_Name ns) projectName in ret true
        else fail err
    | inl cr =>
        if List.existsb (rule_names verb (n_Name ns)) (cr_Rules cr) then ret false
        else let* _ := obj_Update kind_clusterRole (set_cr_Rules (add_namespace verb (n_Name ns) (cr_Rules cr)) cr) in ret true
    end.

Fixpoint reconcile_verbs (ns : NS) (verbs : list (string * string)) : RM unit :=
  match verbs with
  | [] => ret tt
  | (verb, suffix) :: rest => let* returned := reconcile_verb ns verb suffix in if returned : bool then ret tt else reconcile_verbs ns rest
  end.
Definition reconcileNamespaceProjectClusterRole (ns : NS) : RM unit := reconcile_verbs ns (range "verbs" projectNSVerbToSuffix).
End namespace_roles.

(** ** The handler of namespaces ([namespace_handler.go]) *)

Definition IsFleetNamespace (ns : NS) : bool :=
  (n_Name ns =? "fleet-local") || (n_Name ns =? "fleet-default") || (n_Name ns =? "cattle-fleet-clusters-system")
  || (map_get_label (n_Labels ns) "fleet.cattle.io/managed" =? "true").

Section namespaces.
Context `{C : Controllers} `{R : RbacCaches} `{O : MapOrder}.

(** The setting with the namespaces of the system, and the function of the quotas (see [QuotaSync.CreateResourceQuota]). *)
Context (systemNamespaces : string) (CreateResourceQuota : NS -> RM NS).

Definition projectLister_List (set : gmap string string) : list AProject :=
  List.filter (fun p => (pr_Namespace p =? clusterName) && selects set (pr_Labels p)) projectCache.
Definition more_than_one_project (name : string) : error :=
  errorString ("cluster [" +:+ clusterName +:+ "] contains more than 1 [" +:+ name +:+ "] project").
Definition GetSystemProjectName : res string :=
  match projectLister_List (initialProjectToLabels project_System) with
  | [] => Ret ""
  | [p] => Ret (pr_Name p)
  | _ => Fail (more_than_one_project project_System)
  end.

Definition getDefaultAndSystemProjectsToNamespaces : res (gmap string (list string)) :=
  if systemNamespaces =? "" then Fail (errorString "failed to load setting system-namespaces")
  else Ret (<[project_Default := ["default"]]> {[ project_System := map TrimSpace (Split systemNamespaces ",") ]}).

(** A namespace without a project that every cluster has is assigned to the project for it. *)
Fixpoint assign_names (projectName : string) (names : list string) (ns : NS) : res (NS * bool) :=
  match names with
  | [] => Ret (ns, false)
  | name :: rest =>
      if name =? n_Name ns then
        if default "" (n_Annotations ns !! projectIDAnnotation) !=? "" then Ret (ns, true)
        else match projectLister_List (initialProjectToLabels projectName) with
             | [] => assign_names projectName rest ns
             | [p] => assign_names projectName rest (set_n_Annotations (<[projectIDAnnotation := clusterName +:+ ":" +:+ pr_Name p]> (n_Annotations ns)) ns)
             | _ => Fail (more_than_one_project projectName)
             end
      else assign_names projectName rest ns
  end.
Fixpoint assign_projects (l : list (string * list string)) (ns : NS) : res NS :=
  match l with
  | [] => Ret ns
  | (projectName, names) :: rest => let? '(ns, returned) := assign_names projectName names ns in if returned : bool then Ret ns else assign_projects rest ns
  end.
Definition assignToInitialProject (ns : NS) : res NS :=
  let? m := getDefaultAndSystemProjectsToNamespaces in assign_projects (range "initial" m) ns.

(** Role bindings that were made for a binding of role templates are deleted from a namespace, if [test] says so. *)
Definition delete_rb (ns : NS) (rb : Binding) : RM unit :=
  let* r := attempt (obj_Delete kind_binding (n_Name ns, b_Name rb)) in
  match r with
  | inl _ => ret tt
  | inr err => if IsNotFound err then ret tt else fail (wrap ("couldn't delete role binding " +:+ b_Name rb) err)
  end.
Definition delete_foreign (ns : NS) (namespace : string) (rb : Binding) (prtbs : list ProjectRoleTemplateBinding) : RM unit :=
  for_fold prtbs tt (fun _ prtb => if rtb_Namespace (prtb_Meta prtb) !=? namespace then delete_rb ns rb else ret tt).

Definition ensurePRTBAddToNamespace (ns : NS) : RM bool :=
  let projectID := default "" (n_Annotations ns !! projectIDAnnotation) in
  let rbs := rbLister_List (n_Name ns) ∅ in
  if projectID =? "" then
    let* _ := for_fold rbs tt (fun _ rb =>
      let* _ := (if map_get_label (b_Labels rb) rtbOwnerLabelLegacy !=? "" then delete_rb ns rb else ret tt) in
      if map_get_label (b_Labels rb) rtbOwnerLabel !=? "" then delete_rb ns rb else ret tt) in
    ret false
  else
    let prtbs := by_index prtbByProjectName projectID prtbCache in
    let hasPRTBs := negb (bool_decide (prtbs = [])) in
    let* _ := for_fold prtbs tt (fun _ prtb =>
      if (prtb_UserName prtb =? "") && (prtb_GroupPrincipalName prtb =? "") && (prtb_GroupName prtb =? "") then ret tt
      else if prtb_RoleTemplateName prtb =? "" then ret tt
      else
        let* rt := wrapping ("couldn't get role template " +:+ prtb_RoleTemplateName prtb)
                     (lift (rtLister_Get templateCache (prtb_RoleTemplateName prtb))) in
        let* roles := lift (gatherRoles templateCache rt) in
        let* _ := wrapping "couldn't ensure roles" (ensureRoles roles) in
        wrapping ("couldn't ensure binding " +:+ rtb_Name (prtb_Meta prtb) +:+ " in " +:+ n_Name ns) (ensureProjectRoleBindings (n_Name ns) roles prtb)) in
    let namespace := parseProjectName projectID in
    if namespace =? "" then ret hasPRTBs
    else
      let* _ := for_fold rbs tt (fun _ rb =>
        let* _ := (let uid := map_get_label (b_Labels rb) rtbOwnerLabelLegacy in
          if uid !=? "" then delete_foreign ns namespace rb (by_index prtbByUID uid prtbCache) else ret tt) in
        let nsAndName := map_get_label (b_Labels rb) rtbOwnerLabel in
        if nsAndName !=? "" then delete_foreign ns namespace rb (by_index prtbByNsName nsAndName prtbCache) else ret tt) in
      ret hasPRTBs.

(** The namespaces of fleet belong to the system project, except those of a tenant of the local cluster. *)
Definition syncNS (obj : NS) : RM (NS * bool) :=
  let projectID := default "" (n_Annotations obj !! projectIDAnnotation) in
  let* obj := (if IsFleetNamespace obj && ((clusterName !=? "local") || (projectID =? "") || HasPrefix projectID "local") then
      let* systemProjectName := wrapping ("failed to add namespace " +:+ n_Name obj +:+ " to system project") (lift GetSystemProjectName) in
      ret (set_n_Annotations (if systemProjectName !=? "" then <[projectIDAnnotation := clusterName +:+ ":" +:+ systemProjectName]> (n_Annotations obj)
                              else delete projectIDAnnotation (n_Annotations obj)) obj)
    else ret obj) in
  let* hasPRTBs := ensurePRTBAddToNamespace obj in
  let* _ := reconcileNamespaceProjectClusterRole obj in
  ret (obj, hasPRTBs).

(** The object that is returned is stored by the caller. *)
Definition ns_Create (obj : NS) : RM NS :=
  let* obj := CreateResourceQuota obj in
  let* '(obj, _) := syncNS obj in
  lift (assignToInitialProject obj).
Definition ns_Updated (obj : NS) : RM NS := let* '(obj, _) := syncNS obj in ret obj.
Definition ns_Remove (obj : NS) : RM NS := let* _ := reconcileNamespaceProjectClusterRole obj in ret obj.
End namespaces.

(** ** The handler of projects ([project_handler.go]) *)

Section projects.
Context `{R : RbacCaches} `{O : MapOrder}.

(** Kubernetes' own evaluation of rules, of which the code asks one question: may the verb be used on the named project. *)
Context (RulesAllow : forall (verb group resource name : string), list PolicyRule -> bool) (systemNamespaces : string).

Definition assignNamespacesToProject (project : AProject) (projectName : string) : RM unit :=
  let* m := lift (getDefaultAndSystemProjectsToNamespaces systemNamespaces) in
  for_fold (default [] (m !! projectName)) tt (fun _ nsName =>
    match nsLister_Get nsName with
    | Fail err => if IsNotFound err then ret tt else fail err
    | Panic => panic
    | Ret ns =>
        if default "" (n_Annotations ns !! projectIDAnnotation) !=? "" then ret tt
        else
          let* _ := obj_Update kind_namespace
                      (set_n_Annotations (<[projectIDAnnotation := clusterName +:+ ":" +:+ pr_Name project]> (n_Annotations ns)) ns) in
          ret tt
    end).

(** [DoUntilTrue]: the function runs until it has succeeded once. *)
Definition DoUntilTrue (cond : string) (project : AProject) (f : RM unit) : RM AProject :=
  if bool_decide (cond ∈ pr_Conditions project) then ret project
  else
    let* _ := f in
    ret (mkAProject (pr_Namespace project) (pr_Name project) (pr_UID project) (pr_ResourceVersion project) (pr_Labels project)
           ({[ cond ]} ∪ pr_Conditions project) (pr_Deleting project)).

Definition ensureNamespacesAssigned (project : AProject) : RM unit :=
  let* assigned := (
    if bool_decide (is_Some (pr_Labels project !! defaultProjectLabel)) then
      let* p := DoUntilTrue "DefaultNamespacesAssigned" project (assignNamespacesToProject project project_Default) in ret (Some p)
    else if bool_decide (is_Some (pr_Labels project !! systemProjectLabel)) then
      let* p := DoUntilTrue "SystemNamespacesAssigned" project (assignNamespacesToProject project project_System) in ret (Some p)
    else ret None) in
  match assigned with
  | None => ret tt
  | Some p => let* _ := obj_Update kind_project p in ret tt
  end.

Definition project_Create (project : AProject) : RM unit :=
  let* _ := for_fold (range "suffixes" projectNSVerbToSuffix) tt (fun _ '(verb, suffix) =>
    let roleName := project_role (pr_Name project) suffix in
    let* r := attempt (crLister_Get roleName) in
    match r with
    | inl _ => ret tt
    | inr err => if IsNotFound err then createProjectNSRole roleName verb "" (pr_Name project) else ret tt
    end) in
  ensureNamespacesAssigned project.

(** The permission to manage namespaces is added to the object of the cache, which is then sent. *)
Definition ensureNamespaceRolesUpdated (project : AProject) : RM unit :=
  let roleName := project_role (pr_Name project) (default "" (projectNSVerbToSuffix !! projectNSEditVerb)) in
  let* cache := gets rw_crCache in
  match cache !! roleName with
  | None => createProjectNSRole roleName projectNSEditVerb "" (pr_Name project)
  | Some cr =>
      if RulesAllow manageNSVerb mgmt_GroupName "projects" (pr_Name project) (cr_Rules cr) then ret tt
      else
        let cr := addManageNSPermission cr (pr_Name project) in
        let* _ := modify (set_rw_crCache (<[roleName := cr]> cache)) in
        let* _ := wrapping ("unable to update backing cluster role for project " +:+ pr_Name project) (obj_Update kind_clusterRole cr) in
        ret tt
  end.

Definition project_Updated (project : AProject) : RM unit :=
  let* _ := ensureNamespaceRolesUpdated project in ensureNamespacesAssigned project.

(** Namespaces that users have made go with the project, the others leave it. *)
Definition project_Remove (project : AProject) : RM unit :=
  let* _ := for_fold (range "suffixes" projectNSVerbToSuffix) tt (fun _ '(_, suffix) =>
    ignoring IsNotFound (obj_Delete kind_clusterRole (project_role (pr_Name project) suffix))) in
  for_fold (nsIndexer_ByProject (pr_Namespace project +:+ ":" +:+ pr_Name project)) tt (fun _ ns =>
    if bool_decide (is_Some (n_Annotations ns !! creatorAnnotation)) then ignoring IsNotFound (obj_Delete kind_namespace (n_Name ns))
    else let* _ := obj_Update kind_namespace (set_n_Annotations (delete projectIDAnnotation (n_Annotations ns)) ns) in ret tt).
End projects.

(** ** Bindings of former versions ([legacy_prtb_cleaner.go]) *)

(** The patterns of the code match anywhere in a name, with at least one character where it says [.+]. *)
Definition after_infix (infix name : string) : bool :=
  match cut infix name with Some (_, rest) => rest !=? "" | None => false end.
Definition before_infix (infix name : string) : bool :=
  match name with EmptyString => false | String _ rest => Contains rest infix end.
Definition within_infix (infix name : string) : bool :=
  match name with EmptyString => false | String _ rest => after_infix infix rest end.

Section cleaner.
Context `{E : External} `{R : RbacCaches} `{O : MapOrder}.

Definition eligibleForDeletion (crb : Binding) : bool :=
  if negb (after_infix "clusterrolebinding-" (b_Name crb)) then false
  else if negb (noRemainingOwnerLabels crb) then false
  else
    let roleRefName := ref_Name (b_RoleRef crb) in
    (roleRefName =? "create-ns") || within_infix "-namespaces-" roleRefName || before_infix "-promoted" roleRefName.
Definition crbCleaner_sync (obj : option Binding) : RM unit :=
  match obj with
  | None => ret tt
  | Some crb => if eligibleForDeletion crb then ignoring IsNotFound (obj_Delete kind_binding ("", b_Name crb)) else ret tt
  end.
End cleaner.
