(* ===== verification/NamespaceAccess.v ===== *)
(** * Who may see a namespace

    Properties of [NamespaceRoles]: the two cluster roles of its project list a namespace, and no others do; one call may
    bring only one of them up to date, two are enough. *)

From S2P Require Import Prelude GoLib Errors Types External World Instances Store Rbac RoleTemplates RbacStore Impersonation RoleBindings BindingSafety ProjectAccess PromotedRoles NamespaceRoles.

(** ** Lists *)

Definition mentions (verb n : string) (rules : list PolicyRule) : Prop := exists r, r ∈ rules /\ rule_names verb n r = true.
Definition annotated (cr : ClusterRole) : Prop := is_Some (cr_Annotations cr !! projectNSAnn).

(** A stored role of a project lists a namespace under a verb. *)
Definition listed (w : RWorld) (name verb n : string) : Prop :=
  exists cr, rw_clusterRoles w !! name = Some cr /\ annotated cr /\ mentions verb n (cr_Rules cr).

(** The roles of projects have rules for namespaces with one verb, which is the one of their name, and every rule has names. *)
Definition verb_of_role (verb : string) (cr : ClusterRole) : Prop :=
  forall r, r ∈ cr_Rules cr -> "namespaces" ∈ r_Resources r -> r_Verbs r = [verb].
Definition wf_role (name : string) (cr : ClusterRole) : Prop :=
  cr_Name cr = name /\ name <> ""
  /\ (annotated cr -> (forall r, r ∈ cr_Rules cr -> slice_of (r_ResourceNames r) <> []) /\ exists v, (v = "get" \/ v = "*") /\ verb_of_role v cr)
  /\ forall p verb suffix, projectNSVerbToSuffix !! verb = Some suffix -> name = project_role p suffix -> annotated cr /\ verb_of_role verb cr.
Definition roles_wf (m : gmap string ClusterRole) : Prop := forall name cr, m !! name = Some cr -> wf_role name cr.

Lemma rule_names_spec verb n r : rule_names verb n r = true <-> verb ∈ r_Verbs r /\ "namespaces" ∈ r_Resources r /\ n ∈ slice_of (r_ResourceNames r).
Proof. unfold rule_names. rewrite !andb_true_iff, !ContainsString_spec. tauto. Qed.

Lemma mentions_existsb verb n rules : List.existsb (rule_names verb n) rules = true <-> mentions verb n rules.
Proof. rewrite List.existsb_exists. unfold mentions. by setoid_rewrite list_elem_of_In. Qed.

Lemma mentions_or_not verb n rules : mentions verb n rules \/ ~ mentions verb n rules.
Proof. rewrite <- mentions_existsb. destruct (List.existsb _ _); auto. Qed.

Lemma mentions_verb verb v n cr : verb_of_role v cr -> mentions verb n (cr_Rules cr) -> verb = v.
Proof. intros Hv (r & Hr & (H1 & H2 & _)%rule_names_spec). rewrite (Hv r Hr H2) in H1. by apply list_elem_of_singleton in H1. Qed.

Lemma elem_of_crByNS v n cr : annotated cr -> (v = "get" \/ v = "*") -> verb_of_role v cr -> n ∈ crByNS cr <-> mentions v n (cr_Rules cr).
Proof.
  intros [a Ha] Hv Hk. unfold crByNS, mentions. rewrite Ha, list_elem_of_In, in_concat. setoid_rewrite in_map_iff. setoid_rewrite <- list_elem_of_In.
  setoid_rewrite rule_names_spec. unfold lists_namespaces. split.
  - intros (l & (r & <- & Hr) & Hn). exists r. split; [done|]. destruct (ContainsString (r_Resources r) "namespaces") eqn:Hc; simpl in Hn; [|by apply elem_of_nil in Hn].
    apply ContainsString_spec in Hc. rewrite (Hk r Hr Hc) in *. split; [by apply list_elem_of_singleton|]. split; [done|].
    destruct (ContainsString [v] "get" || ContainsString [v] "*"); [done|by apply elem_of_nil in Hn].
  - intros (r & Hr & H1 & H2 & H3). eexists. split; [by exists r|]. apply ContainsString_spec in H2 as H2'. rewrite H2'. rewrite (Hk r Hr H2).
    by destruct Hv as [-> | ->].
Qed.

Lemma annotated_crByNS n cr : n ∈ crByNS cr -> annotated cr.
Proof. unfold crByNS, annotated. destruct (cr_Annotations cr !! projectNSAnn); [by eexists|by intros ?%elem_of_nil]. Qed.

(** ** Cleaning a role *)

Definition cleaned_rules (verb n : string) (rules : list PolicyRule) : list PolicyRule :=
  List.filter (fun r => negb (nameless r)) (map (fun r => if rule_names verb n r then without_namespace n r else r) rules).

Lemma nameless_spec r : nameless r = true <-> slice_of (r_ResourceNames r) = [].
Proof. apply bool_decide_eq_true. Qed.

Lemma elem_of_cleaned verb n rules r : r ∈ cleaned_rules verb n rules <->
  slice_of (r_ResourceNames r) <> [] /\ exists r0, r0 ∈ rules /\ ((rule_names verb n r0 = true /\ r = without_namespace n r0) \/ (rule_names verb n r0 = false /\ r = r0)).
Proof.
  unfold cleaned_rules. rewrite elem_of_filter_bool, negb_true_iff, list_elem_of_In, in_map_iff. setoid_rewrite <- list_elem_of_In. split.
  - intros [(r0 & He & Hr0) Hn]. split; [intros He'; apply nameless_spec in He'; congruence|]. exists r0. split; [done|]. destruct (rule_names verb n r0); subst; auto.
  - intros [Hn (r0 & Hr0 & Hc)]. split; [|destruct (nameless r) eqn:E; [by apply nameless_spec in E|done]].
    exists r0. split; [|done]. by destruct Hc as [[-> ->]|[-> ->]].
Qed.

Lemma mentions_cleaned verb n rules v' n' : (forall r, r ∈ rules -> "namespaces" ∈ r_Resources r -> r_Verbs r = [verb]) ->
  mentions v' n' (cleaned_rules verb n rules) <-> mentions v' n' rules /\ n' <> n.
Proof.
  intros Hk. unfold mentions. setoid_rewrite elem_of_cleaned. setoid_rewrite rule_names_spec. split.
  - intros (r & (Hne & r0 & Hr0 & [[H1 ->]|[H1 ->]]) & H2 & H3 & H4); simpl in *.
    + apply elem_of_filter_bool in H4 as [H4 H5]. apply negb_true_iff, bool_decide_eq_false in H5. split; [by exists r0|done].
    + split; [by exists r0|]. intros ->. rewrite (Hk r0 Hr0 H3) in H2. apply list_elem_of_singleton in H2 as ->.
      assert (rule_names verb n r0 = true); [|congruence]. apply rule_names_spec. rewrite (Hk r0 Hr0 H3). split; [by apply list_elem_of_singleton|done].
  - intros [(r0 & Hr0 & H2 & H3 & H4) Hne]. destruct (rule_names verb n r0) eqn:Hrn.
    + assert (n' ∈ List.filter (fun m => m !=? n) (slice_of (r_ResourceNames r0))) as Hin.
      { apply elem_of_filter_bool. split; [done|]. by apply negb_true_iff, bool_decide_eq_false. }
      exists (without_namespace n r0). split; [|done]. split; [|exists r0; split; [done|left; split; [by apply rule_names_spec|done]]]. simpl. intros He. rewrite He in Hin. by apply elem_of_nil in Hin.
    + exists r0. split; [|done]. split; [|exists r0; split; [done|by right]]. intros He. rewrite He in H4. by apply elem_of_nil in H4.
Qed.

(** What becomes of a role that listed the namespace. *)
Definition cleaned (verb n : string) (cr : ClusterRole) (o : option ClusterRole) : Prop :=
  match o with
  | None => forall v' n', mentions v' n' (cr_Rules cr) -> n' = n
  | Some cr' => cr_Rules cr' = cleaned_rules verb n (cr_Rules cr) /\ cr_Name cr' = cr_Name cr /\ cr_Annotations cr' = cr_Annotations cr
  end.

Lemma delete_role_Ret name w w' a : obj_Delete kind_clusterRole name w = (w', Ret a) ->
  rw_clusterRoles w' = delete name (rw_clusterRoles w) /\ rw_crCache w' = rw_crCache w.
Proof.
  unfold obj_Delete. intros ([] & w1 & Hr & Hk)%bind_Ret. apply r_request_roles in Hr as (Hc & Hca & _ & _).
  apply bind_Ret in Hk as (m & w2 & [= <- <-] & Hk). simpl in Hk. destruct (rw_clusterRoles w1 !! name); [|done].
  injection Hk as <- _. simpl. by rewrite Hc, Hca.
Qed.

Lemma clean_role_Ret verb n name cr w w' :
  wf_role name cr -> n ∈ crByNS cr -> (mentions verb n (cr_Rules cr) -> rw_clusterRoles w !! name = Some cr) ->
  clean_role verb n cr w = (w', Ret tt) ->
  rw_crCache w' = rw_crCache w
  /\ (~ mentions verb n (cr_Rules cr) -> rw_clusterRoles w' = rw_clusterRoles w)
  /\ (mentions verb n (cr_Rules cr) -> exists o, rw_clusterRoles w' = (match o with Some c => <[name := c]> | None => delete name end) (rw_clusterRoles w)
        /\ cleaned verb n cr o).
Proof.
  intros (Hname & _ & Hann & _) Hn Hst. pose proof (annotated_crByNS n cr Hn) as Ha. destruct (Hann Ha) as (Hnamed & v & Hv & Hk).
  assert (mentions v n (cr_Rules cr)) as Hm by (by apply (elem_of_crByNS v n cr)).
  unfold clean_role. fold (cleaned_rules verb n (cr_Rules cr)).
  destruct (List.existsb (rule_names verb n) (cr_Rules cr)) eqn:Hex.
  - pose proof (proj1 (mentions_existsb verb n (cr_Rules cr)) Hex) as Hmv.
    specialize (Hst Hmv). destruct (List.forallb nameless _) eqn:Hall.
    + intros (Hs & Hc)%delete_role_Ret. rewrite Hname in Hs. split; [done|]. split; [done|]. intros _. exists None. split; [done|].
      intros v' n' (r & Hr & Hrn). rewrite List.forallb_forall in Hall.
      specialize (Hall (if rule_names verb n r then without_namespace n r else r)).
      rewrite nameless_spec in Hall. specialize (Hall ltac:(apply in_map_iff; exists r; split; [done|by apply list_elem_of_In])).
      destruct (rule_names verb n r); [|by apply Hnamed in Hall]. simpl in Hall. apply rule_names_spec in Hrn as (_ & _ & Hin).
      destruct (decide (n' = n)) as [|Hne]; [done|]. assert (n' ∈ List.filter (fun m => m !=? n) (slice_of (r_ResourceNames r))) as Hin'.
      { apply elem_of_filter_bool. split; [done|]. by apply negb_true_iff, bool_decide_eq_false. }
      rewrite Hall in Hin'. by apply elem_of_nil in Hin'.
    + intros (a & w1 & Hu & [= <-])%bind_Ret. apply update_role_Ret in Hu as (cur & _ & _ & new & Hs & Hr & Hnm & Han & Hc). simpl in *. rewrite Hname in Hs.
      split; [done|]. split; [done|]. intros _. exists (Some new). split; [done|]. done.
  - assert (~ mentions verb n (cr_Rules cr)) as Hno.
    { intros Hm'%mentions_existsb. congruence. }
    destruct (List.forallb nameless _) eqn:Hall.
    + exfalso. destruct Hm as (r & Hr & _). rewrite List.forallb_forall in Hall.
      specialize (Hall r). rewrite nameless_spec in Hall. apply (Hnamed r Hr), Hall. apply in_map_iff. exists r. split; [|by apply list_elem_of_In].
      destruct (rule_names verb n r) eqn:Hrn; [|done]. destruct Hno. by exists r.
    + intros [= <-]. done.
Qed.

Lemma cleaned_wf verb n name cr cr' : wf_role name cr -> cleaned verb n cr (Some cr') -> wf_role name cr'.
Proof.
  intros (H1 & Hne0 & H2 & H3) (Hr & Hn & Ha).
  assert (forall r', r' ∈ cr_Rules cr' -> slice_of (r_ResourceNames r') <> [] /\ exists r, r ∈ cr_Rules cr /\ r_Verbs r' = r_Verbs r /\ r_Resources r' = r_Resources r) as Hrules.
  { intros r'. rewrite Hr, elem_of_cleaned. intros [Hne (r & Hin & [[_ ->]|[_ ->]])]; (split; [done|]); by exists r. }
  assert (forall v, verb_of_role v cr -> verb_of_role v cr') as Hverb.
  { intros v Hv r' (_ & r & Hin & -> & ->)%Hrules. by apply Hv. }
  split; [congruence|]. split; [done|]. split.
  - unfold annotated. rewrite Ha. intros (Hnamed & v & Hv & Hk)%H2. split; [by intros r' [? _]%Hrules|]. exists v. auto.
  - intros p v suffix Hs Hp. destruct (H3 p v suffix Hs Hp) as [K1 K2]. split; [unfold annotated; by rewrite Ha|auto].
Qed.

(** ** Adding the namespace *)

Lemma append_to_first_spec verb n rules l : append_to_first verb n rules = Some l ->
  exists before r after, rules = before ++ r :: after /\ verb ∈ r_Verbs r /\ "namespaces" ∈ r_Resources r
    /\ l = before ++ mkPolicyRule (r_Verbs r) (r_APIGroups r) (r_Resources r) (Some (slice_of (r_ResourceNames r) ++ [n])) (r_NonResourceURLs r) :: after.
Proof.
  revert l. induction rules as [|r rules IH]; intros l; simpl; [done|]. destruct (_ && _) eqn:Hr.
  - apply andb_true_iff in Hr as [H1%ContainsString_spec H2%ContainsString_spec]. intros [= <-]. by exists [], r, rules.
  - destruct (append_to_first verb n rules) as [l0|]; [|done]. intros [= <-]. destruct (IH l0 eq_refl) as (b & r0 & a & -> & H1 & H2 & ->).
    by exists (r :: b), r0, a.
Qed.

Lemma elem_of_added verb n rules r : r ∈ add_namespace verb n rules ->
  r ∈ rules \/ (r_Verbs r = [verb] /\ r_ResourceNames r = Some [n])
  \/ exists r0, r0 ∈ rules /\ r_Verbs r = r_Verbs r0 /\ r_Resources r = r_Resources r0 /\ r_ResourceNames r = Some (slice_of (r_ResourceNames r0) ++ [n])
       /\ verb ∈ r_Verbs r /\ "namespaces" ∈ r_Resources r.
Proof.
  unfold add_namespace. destruct (append_to_first verb n rules) as [l|] eqn:Hl.
  - apply append_to_first_spec in Hl as (b & r0 & a & -> & Hv & Hn & ->). rewrite !elem_of_app, !elem_of_cons.
    intros [?|[->|?]]; [by auto| |by auto]. right. right. exists r0. rewrite elem_of_app, elem_of_cons. simpl. auto 10.
  - rewrite elem_of_app, list_elem_of_singleton. intros [?| ->]; [by left|]. right. by left.
Qed.

Lemma mentions_added verb n rules v' n' : (forall r, r ∈ rules -> "namespaces" ∈ r_Resources r -> r_Verbs r = [verb]) ->
  mentions v' n' (add_namespace verb n rules) <-> mentions v' n' rules \/ (v' = verb /\ n' = n).
Proof.
  intros Hk. split.
  - intros (r & Hr & (H1 & H2 & H3)%rule_names_spec). apply elem_of_added in Hr as [Hr|[[Hv Hn]|(r0 & Hr & Hv & Hs & Hn & _)]].
    + left. exists r. split; [done|]. by apply rule_names_spec.
    + right. rewrite Hv in H1. rewrite Hn in H3. simpl in H3. apply list_elem_of_singleton in H1, H3. by subst.
    + rewrite Hn in H3. simpl in H3. apply elem_of_app in H3 as [H3|H3%list_elem_of_singleton].
      * left. exists r0. split; [done|]. apply rule_names_spec. by rewrite <- Hv, <- Hs.
      * right. rewrite Hs in H2. rewrite Hv, (Hk r0 Hr H2) in H1. apply list_elem_of_singleton in H1. done.
  - unfold add_namespace. destruct (append_to_first verb n rules) as [l|] eqn:Hl.
    + apply append_to_first_spec in Hl as (b & r0 & a & -> & Hv & Hs & ->). unfold mentions. setoid_rewrite elem_of_app. setoid_rewrite elem_of_cons.
      setoid_rewrite rule_names_spec. intros [(r & [Hr|[->|Hr]] & H1 & H2 & H3)|[-> ->]]; [by exists r; auto| |by exists r; auto|]; eexists; (split; [right; left; reflexivity|]); simpl;
        rewrite elem_of_app; [by auto|]. rewrite list_elem_of_singleton. auto.
    + unfold mentions. setoid_rewrite elem_of_app. setoid_rewrite rule_names_spec. intros [(r & Hr & H1)|[-> ->]]; [by exists r; auto|].
      exists (namespace_rule verb n). simpl. rewrite !list_elem_of_singleton. auto.
Qed.

(** The name of a role of a project tells the verb. *)
Fixpoint last_char (s : string) : option Ascii.ascii :=
  match s with EmptyString => None | String c EmptyString => Some c | String _ rest => last_char rest end.

Lemma last_char_app a b : b <> "" -> last_char (a +:+ b) = last_char b.
Proof.
  intros Hb. induction a as [|c a IH]; [done|]. rewrite <- IH. simpl. destruct (a +:+ b) as [|x y] eqn:He; [|done].
  destruct a; simpl in He; [by destruct Hb|done].
Qed.

Lemma verbs_spec verb suffix : projectNSVerbToSuffix !! verb = Some suffix <-> (verb = "get" /\ suffix = "readonly") \/ (verb = "*" /\ suffix = "edit").
Proof.
  unfold projectNSVerbToSuffix. simpl. destruct (decide (verb = "get")) as [->|H1].
  { rewrite lookup_insert_eq. naive_solver. }
  rewrite lookup_insert_ne by done. destruct (decide (verb = "*")) as [->|H2].
  { rewrite lookup_insert_eq. naive_solver. }
  rewrite lookup_insert_ne, lookup_empty by done. naive_solver.
Qed.

Lemma project_role_verb p p' verb verb' suffix suffix' : projectNSVerbToSuffix !! verb = Some suffix -> projectNSVerbToSuffix !! verb' = Some suffix' ->
  project_role p suffix = project_role p' suffix' -> verb = verb'.
Proof.
  intros H1%verbs_spec H2%verbs_spec He. unfold project_role in He. apply (f_equal last_char) in He.
  destruct H1 as [[-> ->]|[-> ->]], H2 as [[-> ->]|[-> ->]]; try done; rewrite !last_char_app in He by done; vm_compute in He; done.
Qed.

Lemma added_wf p verb suffix n cr cr' : projectNSVerbToSuffix !! verb = Some suffix -> wf_role (project_role p suffix) cr ->
  cr_Name cr' = cr_Name cr -> cr_Annotations cr' = cr_Annotations cr -> cr_Rules cr' = add_namespace verb n (cr_Rules cr) -> wf_role (project_role p suffix) cr'.
Proof.
  intros Hs (H1 & Hne0 & H2 & H3) Hn Ha Hr. destruct (H3 p verb suffix Hs eq_refl) as [Hann Hk].
  assert (annotated cr') as Hann' by (unfold annotated; by rewrite Ha).
  assert (verb_of_role verb cr') as Hk'.
  { intros r. rewrite Hr. intros [Hin|[[Hv _]|(r0 & Hin & Hv & Hres & _)]]%elem_of_added; [by apply Hk|done|]. rewrite Hv, Hres. by apply Hk. }
  split; [congruence|]. split; [done|]. split.
  - intros _. split; [|exists verb; split; [apply verbs_spec in Hs; naive_solver|done]].
    destruct (H2 Hann) as [Hnamed _]. intros r. rewrite Hr. intros [Hin|[[_ ->]|(r0 & Hin & _ & _ & -> & _)]]%elem_of_added; [by apply Hnamed|done|].
    simpl. by intros [_ ?]%app_eq_nil.
  - intros p' verb' suffix' Hs' He. rewrite <- (project_role_verb p p' verb verb' suffix suffix' Hs Hs' He). done.
Qed.

Lemma create_role_Ret role w w' a : obj_Create kind_clusterRole role w = (w', Ret a) ->
  rw_clusterRoles w !! cr_Name role = None
  /\ exists new, rw_clusterRoles w' = <[cr_Name role := new]> (rw_clusterRoles w) /\ cr_Rules new = cr_Rules role /\ cr_Name new = cr_Name role
       /\ cr_Annotations new = cr_Annotations role /\ rw_crCache w' = rw_crCache w.
Proof.
  unfold obj_Create. intros ([] & w1 & Hr & Hk)%bind_Ret. apply r_request_roles in Hr as (Hc & Hca & _ & _).
  apply bind_Ret in Hk as (m & w2 & [= <- <-] & Hk). simpl in Hk. rewrite Hc in Hk.
  destruct (rw_clusterRoles w !! cr_Name role) eqn:Hcur; [done|]. split; [done|]. injection Hk as <- _. simpl. rewrite Hca. by eexists.
Qed.

(** The role a project starts with. *)
Lemma first_role_spec p verb suffix n cr : projectNSVerbToSuffix !! verb = Some suffix -> n <> "" ->
  cr_Name cr = project_role p suffix -> is_Some (cr_Annotations cr !! projectNSAnn) ->
  cr_Rules cr = namespace_rule verb n :: (if verb =? projectNSEditVerb then [manage_rule p] else []) ->
  wf_role (project_role p suffix) cr /\ forall v' n', mentions v' n' (cr_Rules cr) <-> v' = verb /\ n' = n.
Proof.
  intros Hs Hn Hname Hann Hr.
  assert (forall r, r ∈ cr_Rules cr -> r = namespace_rule verb n \/ r = manage_rule p) as Hrules.
  { intros r. rewrite Hr. intros [->|Hin]%elem_of_cons; [by left|]. destruct (verb =? projectNSEditVerb); [|by apply elem_of_nil in Hin].
    apply list_elem_of_singleton in Hin as ->. by right. }
  assert (verb_of_role verb cr) as Hk.
  { intros r [-> | ->]%Hrules; [done|]. by intros ?%list_elem_of_singleton. }
  split.
  - split; [done|]. split; [unfold project_role; by destruct p|]. split.
    + intros _. split; [by intros r [-> | ->]%Hrules|]. exists verb. split; [apply verbs_spec in Hs; naive_solver|done].
    + intros p' verb' suffix' Hs' He. by rewrite <- (project_role_verb p p' verb verb' suffix suffix' Hs Hs' He).
  - intros v' n'. unfold mentions. setoid_rewrite rule_names_spec. split.
    + intros (r & [-> | ->]%Hrules & H1 & H2 & H3); simpl in *; apply list_elem_of_singleton in H1, H2, H3; done.
    + intros [-> ->]. exists (namespace_rule verb n). rewrite Hr. split; [left|]. simpl. by rewrite !list_elem_of_singleton.
Qed.

(** ** One verb *)

Section one_verb.
Context (verb n d : string).

(** The roles of the list that are cleaned. *)
Definition hit (l : list ClusterRole) (name : string) (cr : ClusterRole) : Prop :=
  cr ∈ l /\ cr_Name cr = name /\ name <> d /\ mentions verb n (cr_Rules cr).

Lemma clean_loop l found w w' found' :
  NoDup (map cr_Name l) ->
  (forall cr, cr ∈ l -> wf_role (cr_Name cr) cr /\ n ∈ crByNS cr
     /\ (cr_Name cr <> d -> mentions verb n (cr_Rules cr) -> rw_clusterRoles w !! cr_Name cr = Some cr)) ->
  for_fold l found (fun found cr => if cr_Name cr =? d then ret true else let* _ := clean_role verb n cr in ret found) w = (w', Ret found') ->
  rw_crCache w' = rw_crCache w
  /\ (found' = true <-> found = true \/ exists cr, cr ∈ l /\ cr_Name cr = d)
  /\ (forall name cr, hit l name cr -> cleaned verb n cr (rw_clusterRoles w' !! name))
  /\ (forall name, (forall cr, ~ hit l name cr) -> rw_clusterRoles w' !! name = rw_clusterRoles w !! name).
Proof.
  revert found w. induction l as [|cr l IH]; intros found w Hnd Hl.
  { intros [= <- <-]. split; [done|]. split; [split; [by left|]; intros [?|(cr & ?%elem_of_nil & _)]; done|]. split; [|done].
    by intros name cr (?%elem_of_nil & _). }
  rewrite for_fold_cons. simpl in Hnd. apply NoDup_cons in Hnd as [Hnot Hnd]. intros (f1 & w1 & H1 & H2)%bind_Ret.
  assert (forall cr', cr' ∈ l -> cr_Name cr' <> cr_Name cr) as Hother.
  { intros cr' Hin He. apply Hnot. rewrite <- He. apply list_elem_of_In, in_map_iff. exists cr'. split; [done|by apply list_elem_of_In]. }
  destruct (bool_decide_reflect (cr_Name cr = d)) as [Hd|Hd].
  - injection H1 as <- <-. apply IH in H2 as (I1 & I2 & I3 & I4); [|done|intros cr' Hin; apply Hl; by right].
    split; [done|]. split; [rewrite I2; split; [intros _; right; exists cr; split; [left|done]|by left]|]. split.
    + intros name cr' ([->|Hin]%elem_of_cons & Hn & Hne & Hm); [congruence|]. by apply I3.
    + intros name Hno. apply I4. intros cr' (Hin & Hx). apply (Hno cr'). split; [by right|done].
  - apply bind_Ret in H1 as ([] & w2 & Hc & [= -> ->]). destruct (Hl cr) as (Hwf & Hn & Hst); [left|].
    destruct (clean_role_Ret verb n (cr_Name cr) cr w w1 Hwf Hn (Hst Hd) Hc) as (C1 & C2 & C3).
    assert (forall name, name <> cr_Name cr -> rw_clusterRoles w1 !! name = rw_clusterRoles w !! name) as Hsame.
    { intros name Hne. destruct (mentions_or_not verb n (cr_Rules cr)) as [Hm|Hm]; [|by rewrite C2].
      destruct (C3 Hm) as (o & -> & _). destruct o; [by rewrite lookup_insert_ne|by rewrite lookup_delete_ne]. }
    apply IH in H2 as (I1 & I2 & I3 & I4); [|done|].
    2: { intros cr' Hin. destruct (Hl cr') as (W1 & W2 & W3); [by right|]. split; [done|]. split; [done|]. intros Hd' Hm. rewrite Hsame by (by apply Hother). auto. }
    split; [congruence|]. split; [rewrite I2; split|split].
    + intros [?|(cr' & Hin & He)]; [by left|right; exists cr'; split; [by right|done]].
    + intros [?|(cr' & [->|Hin]%elem_of_cons & He)]; [by left|done|right; by exists cr'].
    + intros name cr' ([->|Hin]%elem_of_cons & Hnm & Hne & Hm); [|by apply I3]. subst name.
      rewrite I4 by (intros cr' (Hin & He & _); by apply (Hother cr')). destruct (C3 Hm) as (o & -> & Hcl).
      destruct o; [by rewrite lookup_insert_eq|by rewrite lookup_delete_eq].
    + intros name Hno. rewrite I4; [|intros cr' (Hin & Hx); apply (Hno cr'); split; [by right|done]].
      destruct (decide (name = cr_Name cr)) as [->|Hne]; [|by apply Hsame]. rewrite C2; [done|]. intros Hm. apply (Hno cr). split; [left|done].
Qed.

(** The roles the index finds. *)
Lemma elem_of_indexed `{O : MapOrder} (m : gmap string ClusterRole) cr :
  roles_wf m -> cr ∈ List.filter (fun cr => bool_decide (n ∈ crByNS cr)) (map snd (range "roles" m)) <-> m !! cr_Name cr = Some cr /\ n ∈ crByNS cr.
Proof.
  intros Hwf. rewrite elem_of_filter_bool, bool_decide_eq_true, list_elem_of_In, in_map_iff. setoid_rewrite <- list_elem_of_In.
  setoid_rewrite range_perm. split.
  - intros [([k c] & <- & Hin%elem_of_map_to_list) ?]. simpl in *. by rewrite (proj1 (Hwf k c Hin)).
  - intros [Hin ?]. split; [|done]. exists (cr_Name cr, cr). split; [done|]. by apply elem_of_map_to_list.
Qed.

Lemma indexed_NoDup `{O : MapOrder} (m : gmap string ClusterRole) :
  roles_wf m -> NoDup (map cr_Name (List.filter (fun cr => bool_decide (n ∈ crByNS cr)) (map snd (range "roles" m)))).
Proof.
  intros Hwf. assert (NoDup (map cr_Name (map snd (range "roles" m)))) as Hnd.
  { replace (map cr_Name (map snd (range "roles" m))) with (map fst (range "roles" m)).
    - rewrite range_perm. apply NoDup_fst_map_to_list.
    - rewrite map_map. apply map_ext_in. intros [k c] Hin%list_elem_of_In. rewrite range_perm in Hin. apply elem_of_map_to_list in Hin. by destruct (Hwf k c Hin). }
  induction (map snd (range "roles" m)) as [|c l IH]; simpl in *; [done|]. apply NoDup_cons in Hnd as [Hnot Hnd].
  destruct (bool_decide (n ∈ crByNS c)); [|by apply IH]. simpl. apply NoDup_cons. split; [|by apply IH].
  intros Hin. apply Hnot. apply list_elem_of_In, in_map_iff in Hin as (c' & He & Hc'). apply List.filter_In in Hc' as [Hc' _].
  apply list_elem_of_In, in_map_iff. by exists c'.
Qed.
End one_verb.

(** The role that should list the namespace for a verb. *)
Definition desired_role (ns : NS) (suffix : string) : string :=
  let projectName := if n_Deleting ns then "" else project_of_namespace ns in
  if projectName =? "" then "" else project_role projectName suffix.

(** What the handler sees of the roles for a verb is what is stored. *)
Definition in_step (w : RWorld) (d verb n : string) : Prop :=
  rw_crCache w !! d = rw_clusterRoles w !! d
  /\ forall name cr, (rw_crCache w !! name = Some cr \/ rw_clusterRoles w !! name = Some cr) -> mentions verb n (cr_Rules cr) ->
       rw_crCache w !! name = rw_clusterRoles w !! name.

(** The namespace is listed for a verb by the role of its project only. *)
Definition roles_settled (ns : NS) (verb suffix : string) (w : RWorld) : Prop :=
  forall name, listed w name verb (n_Name ns) <-> name = desired_role ns suffix /\ name <> "".

(** Everything else stays. *)
Definition only_changes (ns : NS) (verb : string) (w w' : RWorld) : Prop :=
  forall name v' n', v' <> verb \/ n' <> n_Name ns -> listed w' name v' n' <-> listed w name v' n'.

Section settling.
Context (ns : NS) (verb suffix : string).
Hypothesis Hverb : projectNSVerbToSuffix !! verb = Some suffix.
Hypothesis Hnamed : n_Name ns <> "".
Let n := n_Name ns.
Let d := desired_role ns suffix.

Lemma desired_spec : d = "" \/ exists p, d = project_role p suffix /\ d <> "" /\ (if n_Deleting ns then "" else project_of_namespace ns) = p.
Proof.
  unfold d, desired_role. destruct (bool_decide_reflect ((if n_Deleting ns then "" else project_of_namespace ns) = "")) as [He|He]; [by left|right].
  eexists. split; [done|]. split; [|done]. unfold project_role. by destruct (if n_Deleting ns then "" else _).
Qed.

Section loop.
Context (w w1 : RWorld) (l : list ClusterRole).
Hypothesis Hwf : roles_wf (rw_clusterRoles w).
Hypothesis Hcache : roles_wf (rw_crCache w).
Hypothesis Hsync : in_step w d verb n.
Hypothesis Hl : forall cr, cr ∈ l <-> rw_crCache w !! cr_Name cr = Some cr /\ n ∈ crByNS cr.
Hypothesis Hclean : forall name cr, hit verb n d l name cr -> cleaned verb n cr (rw_clusterRoles w1 !! name).
Hypothesis Hkeep : forall name, (forall cr, ~ hit verb n d l name cr) -> rw_clusterRoles w1 !! name = rw_clusterRoles w !! name.

Lemma hit_stored name cr : hit verb n d l name cr -> rw_clusterRoles w !! name = Some cr /\ verb_of_role verb cr.
Proof.
  intros ([Hc Hn]%Hl & <- & Hne & Hm). pose proof (proj2 Hsync _ _ (or_introl Hc) Hm) as He. rewrite Hc in He. split; [done|].
  destruct (Hwf _ _ (eq_sym He)) as (_ & _ & Hk & _). destruct (Hk (annotated_crByNS _ _ Hn)) as (_ & v & _ & Hv).
  by rewrite (mentions_verb verb v n cr Hv Hm).
Qed.

Lemma hit_or_not name : (exists cr, hit verb n d l name cr) \/ forall cr, ~ hit verb n d l name cr.
Proof.
  destruct (rw_crCache w !! name) as [cr|] eqn:Hc.
  2: { right. intros cr ([Hc' _]%Hl & <- & _). congruence. }
  assert (forall cr', hit verb n d l name cr' -> cr' = cr) as Hu by (intros cr' ([Hc' _]%Hl & <- & _); congruence).
  destruct (bool_decide_reflect (cr ∈ l)) as [Hin|Hin]; [|right; intros cr' Hh; pose proof Hh as (? & _); apply Hu in Hh; congruence].
  destruct (decide (name = d)) as [->|Hne]; [right; by intros ? (_ & _ & ? & _)|].
  destruct (mentions_or_not verb n (cr_Rules cr)) as [Hm|Hm].
  - left. exists cr. split; [done|]. split; [by destruct (Hcache name cr Hc)|done].
  - right. intros cr' Hh. pose proof Hh as (_ & _ & _ & Hm'). apply Hu in Hh. congruence.
Qed.

Lemma loop_wf : roles_wf (rw_clusterRoles w1).
Proof.
  intros name cr1 H1. destruct (hit_or_not name) as [[cr Hh]|Hno]; [|rewrite Hkeep in H1 by done; by apply Hwf].
  pose proof (Hclean name cr Hh) as Hc. rewrite H1 in Hc. apply hit_stored in Hh as [Hs _]. by apply (cleaned_wf verb n name cr), Hc; apply Hwf.
Qed.

(** After the loop no role but the desired one lists the namespace for the verb, and nothing else is lost. *)
Lemma loop_listed name v' n' : name <> d -> listed w1 name v' n' <-> listed w name v' n' /\ ~ (v' = verb /\ n' = n).
Proof.
  intros Hd. destruct (hit_or_not name) as [[cr Hh]|Hno].
  - pose proof (Hclean name cr Hh) as Hc. pose proof (hit_stored name cr Hh) as [Hs Hv]. pose proof Hh as ([_ Hn]%Hl & _ & _ & Hm). unfold listed. rewrite Hs. split.
    + intros (c & He & Ha & Hmc). rewrite He in Hc. destruct Hc as (Hr & _ & Hann). rewrite Hr in Hmc. apply mentions_cleaned in Hmc as [Hmc Hne]; [|done].
      split; [|tauto]. exists cr. unfold annotated in *. by rewrite <- Hann.
    + intros [(c & [= <-] & Ha & Hmc) Hnot]. pose proof (mentions_verb v' verb n' cr Hv Hmc) as ->.
      destruct (rw_clusterRoles w1 !! name) as [c1|]; [|by apply Hc in Hmc; tauto]. destruct Hc as (Hr & _ & Hann).
      exists c1. split; [done|]. unfold annotated. rewrite Hann, Hr. split; [done|]. apply mentions_cleaned; tauto.
  - unfold listed. rewrite Hkeep by done. split; [|tauto]. intros (c & Hs & Ha & Hm). split; [by exists c|]. intros [-> ->].
    pose proof (proj2 Hsync _ _ (or_intror Hs) Hm) as He. rewrite Hs in He. apply (Hno c).
    destruct (Hwf name c Hs) as (Hname & _ & Hk & _). destruct (Hk Ha) as (_ & v & Hv & Hvr). split; [|done].
    apply Hl. rewrite Hname. split; [done|]. apply (elem_of_crByNS v); [done..|]. by rewrite <- (mentions_verb verb v n c Hvr Hm).
Qed.

Lemma loop_desired : rw_clusterRoles w1 !! d = rw_clusterRoles w !! d.
Proof. apply Hkeep. by intros cr (_ & _ & ? & _). Qed.

(** A role that changes was for the verb, and still is. *)
Lemma loop_changed name : rw_clusterRoles w1 !! name = rw_clusterRoles w !! name
  \/ exists cr, rw_clusterRoles w !! name = Some cr /\ rw_crCache w !! name = Some cr /\ mentions verb n (cr_Rules cr) /\ verb_of_role verb cr
       /\ forall cr1, rw_clusterRoles w1 !! name = Some cr1 -> verb_of_role verb cr1.
Proof.
  destruct (hit_or_not name) as [[cr Hh]|Hno]; [|left; by apply Hkeep]. right. exists cr. pose proof (Hclean name cr Hh) as Hc.
  pose proof (hit_stored name cr Hh) as [Hs Hv]. pose proof Hh as ([Hca _]%Hl & <- & _ & Hm). do 4 (split; [done|]). intros cr1 H1. rewrite H1 in Hc.
  destruct Hc as (Hr & _). intros r. rewrite Hr, elem_of_cleaned. intros (_ & r0 & Hin & [[_ ->]|[_ ->]]); simpl; by apply Hv.
Qed.
End loop.

Lemma reconcile_verb_eq `{O : MapOrder} : reconcile_verb ns verb suffix =
  (let* cache := gets rw_crCache in
   let* found := for_fold (List.filter (fun cr => bool_decide (n ∈ crByNS cr)) (map snd (range "roles" cache))) false (fun found cr =>
     if cr_Name cr =? d then ret true else let* _ := clean_role verb n cr in ret found) in
   if found || (d =? "") then ret false
   else
     let* r := attempt (crLister_Get d) in
     match r with
     | inr err => if IsNotFound err then let* _ := createProjectNSRole d verb n (if n_Deleting ns then "" else project_of_namespace ns) in ret true else fail err
     | inl cr => if List.existsb (rule_names verb n) (cr_Rules cr) then ret false
                 else let* _ := obj_Update kind_clusterRole (set_cr_Rules (add_namespace verb n (cr_Rules cr)) cr) in ret true
     end).
Proof. reflexivity. Qed.

Definition step_done (w w' : RWorld) (b : bool) : Prop :=
  rw_crCache w' = rw_crCache w /\ roles_wf (rw_clusterRoles w') /\ roles_settled ns verb suffix w' /\ only_changes ns verb w w'
  /\ (b = true -> ~ roles_settled ns verb suffix w)
  /\ (b = false -> forall name, rw_clusterRoles w' !! name = rw_clusterRoles w !! name
       \/ exists cr, rw_clusterRoles w !! name = Some cr /\ rw_crCache w !! name = Some cr /\ mentions verb n (cr_Rules cr) /\ verb_of_role verb cr
            /\ forall cr1, rw_clusterRoles w' !! name = Some cr1 -> verb_of_role verb cr1).

(** The desired role after the loop: what it must be for the step to be done. *)
Lemma finish_step (w w1 w' : RWorld) :
  (forall name v' n', name <> d -> listed w1 name v' n' <-> listed w name v' n' /\ ~ (v' = verb /\ n' = n)) ->
  (forall name, name <> d -> rw_clusterRoles w' !! name = rw_clusterRoles w1 !! name) ->
  (d <> "" -> forall v' n', listed w' d v' n' <-> listed w d v' n' \/ (v' = verb /\ n' = n)) ->
  (d = "" -> rw_clusterRoles w' !! d = None /\ rw_clusterRoles w !! d = None) ->
  roles_settled ns verb suffix w' /\ only_changes ns verb w w'.
Proof.
  intros H1 H2 H3 H4.
  assert (forall name v' n', name <> d -> listed w' name v' n' <-> listed w1 name v' n') as H5 by (intros; unfold listed; by rewrite H2).
  split.
  - intros name. fold n d. destruct (decide (name = d)) as [->|Hne]; [|rewrite H5, H1 by done; tauto].
    destruct (decide (d = "")) as [He|He]; [|rewrite H3 by done; tauto]. split; [|tauto]. intros (cr & Hs & _). destruct (H4 He). congruence.
  - intros name v' n' Hor. destruct (decide (name = d)) as [->|Hne]; [|rewrite H5, H1 by done; tauto].
    destruct (decide (d = "")) as [He|He]; [|rewrite H3 by done; tauto]. destruct (H4 He) as [K1 K2]. unfold listed. rewrite K1, K2. naive_solver.
Qed.

Section step.
Context (w w1 : RWorld).
Hypothesis Hwf : roles_wf (rw_clusterRoles w).
Hypothesis Hwf1 : roles_wf (rw_clusterRoles w1).
Hypothesis Hcache1 : rw_crCache w1 = rw_crCache w.
Hypothesis Hothers : forall name v' n', name <> d -> listed w1 name v' n' <-> listed w name v' n' /\ ~ (v' = verb /\ n' = n).
Hypothesis Hdesired : rw_clusterRoles w1 !! d = rw_clusterRoles w !! d.
Hypothesis Hchanged : forall name, rw_clusterRoles w1 !! name = rw_clusterRoles w !! name
  \/ exists cr, rw_clusterRoles w !! name = Some cr /\ rw_crCache w !! name = Some cr /\ mentions verb n (cr_Rules cr) /\ verb_of_role verb cr
       /\ forall cr1, rw_clusterRoles w1 !! name = Some cr1 -> verb_of_role verb cr1.

Lemma no_empty_name : rw_clusterRoles w !! "" = None.
Proof. destruct (rw_clusterRoles w !! "") as [cr|] eqn:Hc; [|done]. by destruct (Hwf _ _ Hc) as (_ & ? & _). Qed.

Lemma wf_desired cr : d <> "" -> rw_clusterRoles w !! d = Some cr -> annotated cr /\ verb_of_role verb cr.
Proof.
  intros Hd Hc. destruct desired_spec as [?|(p & Hp & _)]; [done|]. destruct (Hwf d cr Hc) as (_ & _ & _ & Hk). by apply (Hk p verb suffix).
Qed.

(** The desired role lists the namespace already, or there is none. *)
Lemma step_kept : (d <> "" -> listed w d verb n) -> step_done w w1 false.
Proof.
  intros Hd. split; [done|]. split; [done|]. destruct (finish_step w w1 w1) as [H1 H2]; [done|done| | |by do 3 (split; [done|])].
  - intros Hne v' n'. specialize (Hd Hne). revert Hd. unfold listed. rewrite Hdesired. intros Hd. split; [by left|]. by intros [?|[-> ->]].
  - intros ->. rewrite Hdesired. split; apply no_empty_name.
Qed.

(** The desired role is replaced by one that lists it too. *)
Lemma step_written w' new : d <> "" -> ~ listed w d verb n -> wf_role d new -> annotated new ->
  (forall v' n', mentions v' n' (cr_Rules new) <-> listed w d v' n' \/ (v' = verb /\ n' = n)) ->
  rw_clusterRoles w' = <[d := new]> (rw_clusterRoles w1) -> rw_crCache w' = rw_crCache w1 -> step_done w w' true.
Proof.
  intros Hne Hnot Hw Ha Hm Hs Hc. split; [congruence|]. split.
  { intros name cr. rewrite Hs. intros [[<- <-]|[_ ?]]%lookup_insert_Some; [done|by apply Hwf1]. }
  assert (~ roles_settled ns verb suffix w) as Hns by (intros Hset; by apply Hnot, Hset).
  destruct (finish_step w w1 w') as [H1 H2]; [done|..|by do 3 (split; [done|])].
  - intros name Hn. by rewrite Hs, lookup_insert_ne.
  - intros _ v' n'. unfold listed at 1. rewrite Hs, lookup_insert_eq. rewrite <- Hm. naive_solver.
  - done.
Qed.

Lemma step_created w' : d <> "" -> rw_clusterRoles w !! d = None ->
  createProjectNSRole d verb n (if n_Deleting ns then "" else project_of_namespace ns) w1 = (w', Ret tt) -> step_done w w' true.
Proof.
  intros Hne Hnone. destruct desired_spec as [?|(p & Hp & _ & Hproj)]; [done|]. rewrite Hproj. unfold createProjectNSRole.
  intros (a & w2 & Hc & [= ->])%bind_Ret. apply create_role_Ret in Hc as (_ & new & Hs & Hr & Hn & Ha & Hca).
  assert (~ listed w d verb n) as Hnot by (intros (cr & ? & _); congruence).
  assert ((n !=? "") = true) as Hnn by (by apply negb_true_iff, bool_decide_eq_false). rewrite Hnn in *.
  assert (cr_Name new = d /\ is_Some (cr_Annotations new !! projectNSAnn)
    /\ cr_Rules new = namespace_rule verb n :: (if verb =? projectNSEditVerb then [manage_rule p] else [])) as (Hname & Hann & Hrules).
  { rewrite Hr, Hn, Ha. destruct (verb =? projectNSEditVerb); simpl; rewrite lookup_singleton_eq; by eauto. }
  rewrite <- Hn, Hname in Hs. rewrite Hp in Hname. destruct (first_role_spec p verb suffix n new Hverb Hnamed Hname Hann Hrules) as [Hw Hm].
  rewrite <- Hp in Hw. apply (step_written w' new); try done.
  intros v' n'. rewrite Hm. split; [by right|]. intros [(cr & ? & _)|?]; [congruence|done].
Qed.

Lemma step_updated w' cr a : d <> "" -> rw_clusterRoles w !! d = Some cr -> ~ mentions verb n (cr_Rules cr) ->
  obj_Update kind_clusterRole (set_cr_Rules (add_namespace verb n (cr_Rules cr)) cr) w1 = (w', Ret a) -> step_done w w' true.
Proof.
  intros Hne Hs Hm Hu. apply update_role_Ret in Hu as (cur & _ & _ & new & Hst & Hr & Hn & Ha & Hca). simpl in *.
  destruct (wf_desired cr Hne Hs) as [Hann Hk]. destruct desired_spec as [?|(p & Hp & _)]; [done|].
  rewrite (proj1 (Hwf d cr Hs)) in Hst. apply (step_written w' new); try done.
  - intros (c & Hc & _ & Hmc). congruence.
  - rewrite Hp. apply (added_wf p verb suffix n cr new); try done. rewrite <- Hp. by apply Hwf.
  - unfold annotated. by rewrite Ha.
  - intros v' n'. rewrite Hr, mentions_added by done. unfold listed. rewrite Hs. naive_solver.
Qed.
End step.

Lemma verb_step `{O : MapOrder} w w' b :
  roles_wf (rw_clusterRoles w) -> roles_wf (rw_crCache w) -> in_step w d verb n ->
  reconcile_verb ns verb suffix w = (w', Ret b) -> step_done w w' b.
Proof.
  intros Hwf Hcache Hsync. rewrite reconcile_verb_eq. intros (c & w0 & [= <- <-] & Hrun)%bind_Ret.
  apply bind_Ret in Hrun as (found & w1 & Hloop & Hrest).
  pose proof (fun cr => elem_of_indexed n (rw_crCache w) cr Hcache) as Hl.
  apply clean_loop in Hloop as (Hc & Hf & Hclean & Hkeep); [|by apply indexed_NoDup|].
  2: { intros cr [Hin Hn]%Hl. split; [by apply Hcache|]. split; [done|]. intros _ Hm. rewrite <- (proj2 Hsync _ _ (or_introl Hin) Hm). done. }
  pose proof (loop_wf w w1 _ Hwf Hcache Hsync Hl Hclean Hkeep) as Hwf1.
  pose proof (loop_listed w w1 _ Hwf Hcache Hsync Hl Hclean Hkeep) as Hothers.
  pose proof (loop_desired w w1 _ Hkeep) as Hdes.
  pose proof (loop_changed w w1 _ Hwf Hcache Hsync Hl Hclean Hkeep) as Hch.
  destruct (bool_decide_reflect (d = "")) as [He|He].
  { rewrite orb_true_r in Hrest. injection Hrest as <- <-. by apply step_kept. }
  destruct found; simpl in Hrest.
  { injection Hrest as <- <-. apply step_kept; try done. intros _. destruct (proj1 Hf eq_refl) as [?|(cr & [Hin Hn]%Hl & Hd)]; [done|].
    rewrite Hd, (proj1 Hsync) in Hin. destruct (wf_desired w Hwf cr He Hin) as [Ha Hv]. exists cr. split; [done|]. split; [done|].
    apply (elem_of_crByNS verb n cr); [done| |done..]. apply verbs_spec in Hverb. naive_solver. }
  unfold attempt, crLister_Get, bind, gets in Hrest. simpl in Hrest. rewrite Hc, (proj1 Hsync) in Hrest.
  destruct (rw_clusterRoles w !! d) as [cr|] eqn:Hd.
  - simpl in Hrest. destruct (List.existsb _ _) eqn:Hex.
    + injection Hrest as <- <-. apply step_kept; try done; [congruence|]. intros _. exists cr. split; [done|].
      split; [by destruct (wf_desired w Hwf cr He Hd)|]. by apply mentions_existsb.
    + fold (bind (obj_Update kind_clusterRole (set_cr_Rules (add_namespace verb n (cr_Rules cr)) cr)) (fun _ => ret true)) in Hrest.
      apply bind_Ret in Hrest as (a & w2 & Hu & [= -> <-]). apply (step_updated w w1) with cr a; try done; try congruence; intros ?%mentions_existsb; congruence.
  - simpl in Hrest. apply bind_Ret in Hrest as ([] & w2 & Hu & [= -> <-]). apply (step_created w w1); try done; congruence.
Qed.
End settling.

(** ** Both verbs *)

Lemma in_step_other ns verb suffix verb' suffix' w w' :
  projectNSVerbToSuffix !! verb = Some suffix -> projectNSVerbToSuffix !! verb' = Some suffix' -> verb <> verb' ->
  roles_wf (rw_clusterRoles w) -> in_step w (desired_role ns suffix') verb' (n_Name ns) -> step_done ns verb suffix w w' false ->
  in_step w' (desired_role ns suffix') verb' (n_Name ns).
Proof.
  intros Hs Hs' Hne Hwf [Hd Hin] (Hc & _ & _ & _ & _ & Hch). specialize (Hch eq_refl). unfold in_step. rewrite Hc. split.
  - destruct (Hch (desired_role ns suffix')) as [-> |(cr & Hst & _ & Hm & Hv & _)]; [done|]. destruct (desired_spec ns suffix') as [He|(p & Hp & _)].
    + rewrite He in Hst. by destruct (Hwf _ _ Hst) as (_ & ? & _).
    + destruct (Hwf _ _ Hst) as (_ & _ & _ & Hk). destruct (Hk p verb' suffix' Hs' Hp) as [_ Hv']. by rewrite (mentions_verb verb verb' _ cr Hv' Hm) in Hne.
  - intros name cr Hor Hm. destruct (Hch name) as [He|(cr0 & Hst & Hca & Hm0 & Hv & Hv1)].
    + rewrite He. apply (Hin name cr); [|done]. by rewrite <- He.
    + exfalso. apply Hne. destruct Hor as [Hor|Hor].
      * assert (cr = cr0) as -> by congruence. symmetry. by apply (mentions_verb verb' verb (n_Name ns) cr0).
      * symmetry. apply (mentions_verb verb' verb (n_Name ns) cr); [by apply Hv1|done].
Qed.

Lemma settled_kept ns verb verb' suffix' w w' : verb <> verb' -> only_changes ns verb w w' -> roles_settled ns verb' suffix' w -> roles_settled ns verb' suffix' w'.
Proof. intros Hne Ho Hs name. rewrite (Ho name verb' (n_Name ns)) by auto. apply Hs. Qed.

(** One call, whichever verb comes first: that verb is settled, and the other unless the call had something to write. *)
Lemma one_call `{O : MapOrder} ns v1 s1 v2 s2 w w' :
  projectNSVerbToSuffix !! v1 = Some s1 -> projectNSVerbToSuffix !! v2 = Some s2 -> v1 <> v2 -> n_Name ns <> "" ->
  roles_wf (rw_clusterRoles w) -> rw_crCache w = rw_clusterRoles w ->
  reconcile_verbs ns [(v1, s1); (v2, s2)] w = (w', Ret tt) ->
  roles_wf (rw_clusterRoles w') /\ roles_settled ns v1 s1 w' /\ (roles_settled ns v2 s2 w' \/ ~ roles_settled ns v1 s1 w)
  /\ (roles_settled ns v2 s2 w -> roles_settled ns v2 s2 w')
  /\ forall name v' n', n' <> n_Name ns -> listed w' name v' n' <-> listed w name v' n'.
Proof.
  intros H1 H2 Hne Hn Hwf Hc. cbn [reconcile_verbs]. intros (b & w1 & Hv & Hrest)%bind_Ret.
  assert (forall d v, in_step w d v (n_Name ns)) as Hsync by (intros d v; split; by rewrite Hc).
  pose proof (verb_step ns v1 s1 H1 Hn w w1 b Hwf ltac:(by rewrite Hc) (Hsync _ _) Hv) as Hd.
  pose proof Hd as (D1 & D2 & D3 & D4 & D5 & D6). destruct b.
  { injection Hrest as <-. split; [done|]. split; [done|]. split; [right; by apply D5|]. split; [by apply (settled_kept ns v1)|]. intros; apply D4; auto. }
  apply bind_Ret in Hrest as (b2 & w2 & Hv2 & Hrest).
  apply (verb_step ns v2 s2 H2 Hn) in Hv2 as (F1 & F2 & F3 & F4 & _); [|done|by rewrite D1, Hc|by apply (in_step_other ns v1 s1 v2 s2 w w1)].
  assert (w' = w2) as -> by (destruct b2; by injection Hrest).
  split; [done|]. split; [by apply (settled_kept ns v2 v1 s1 w1 w2)|]. split; [by left|]. split; [done|].
  intros name v' n' Hn'. transitivity (listed w1 name v' n'); [apply F4|apply D4]; auto.
Qed.

Lemma verbs_order `{O : MapOrder} : range "verbs" projectNSVerbToSuffix = [("get", "readonly"); ("*", "edit")]
  \/ range "verbs" projectNSVerbToSuffix = [("*", "edit"); ("get", "readonly")].
Proof.
  assert (range "verbs" projectNSVerbToSuffix ≡ₚ [("get", "readonly"); ("*", "edit")]) as Hp; [|apply Permutation_length_2_inv; by symmetry].
  rewrite range_perm. apply map_to_list_to_map. apply (bool_decide_unpack _). reflexivity.
Qed.

(** The watch brings the cache up to date. *)
Definition resync (w : RWorld) : RWorld := set_rw_crCache (rw_clusterRoles w) w.

Lemma any_call (O : MapOrder) ns w w' : n_Name ns <> "" -> roles_wf (rw_clusterRoles w) ->
  reconcileNamespaceProjectClusterRole ns (resync w) = (w', Ret tt) ->
  roles_wf (rw_clusterRoles w') /\ (forall name v' n', n' <> n_Name ns -> listed w' name v' n' <-> listed w name v' n')
  /\ exists v1 s1 v2 s2, (forall verb suffix, projectNSVerbToSuffix !! verb = Some suffix -> (verb = v1 /\ suffix = s1) \/ (verb = v2 /\ suffix = s2))
       /\ projectNSVerbToSuffix !! v1 = Some s1 /\ roles_settled ns v1 s1 w' /\ (roles_settled ns v2 s2 w' \/ ~ roles_settled ns v1 s1 w)
       /\ (roles_settled ns v2 s2 w -> roles_settled ns v2 s2 w').
Proof.
  intros Hn Hwf Hr. unfold reconcileNamespaceProjectClusterRole in Hr.
  destruct verbs_order as [He|He]; rewrite He in Hr; apply one_call in Hr as (R1 & R2 & R3 & R4 & R5); try done;
    (split; [done|]; split; [done|]; do 4 eexists; split; [|split; [|split; [exact R2|split; [exact R3|exact R4]]]]; [|done]);
    intros verb suffix Hv%verbs_spec; tauto.
Qed.

(** C32: Two successful runs of [reconcileNamespaceProjectClusterRole], each with an up to date cache and whichever verb Go's map gives
    first, leave a namespace listed for reading and for editing by exactly the two roles of its project, and by none when it has no
    project or is being deleted; what the roles say of other namespaces is what it was, and the roles stay well formed. *)
Theorem namespace_roles_settle (O1 O2 : MapOrder) ns w w1 w2 :
  n_Name ns <> "" -> roles_wf (rw_clusterRoles w) ->
  @reconcileNamespaceProjectClusterRole O1 ns (resync w) = (w1, Ret tt) ->
  @reconcileNamespaceProjectClusterRole O2 ns (resync w1) = (w2, Ret tt) ->
  roles_wf (rw_clusterRoles w2)
  /\ (forall verb suffix, projectNSVerbToSuffix !! verb = Some suffix -> roles_settled ns verb suffix w2)
  /\ forall name verb n', n' <> n_Name ns -> listed w2 name verb n' <-> listed w name verb n'.
Proof.
  intros Hn Hwf H1 H2.
  destruct (any_call O1 ns w w1 Hn Hwf H1) as (A1 & A2 & a1 & t1 & a2 & t2 & Hall & Ha1 & A3 & A4 & A5).
  destruct (any_call O2 ns w1 w2 Hn A1 H2) as (B1 & B2 & b1 & u1 & b2 & u2 & Hall' & Hb1 & B3 & B4 & B5).
  split; [done|]. split; [|intros name v n' Hne; by rewrite B2, A2].
  intros verb suffix Hv. destruct (Hall' verb suffix Hv) as [[-> ->]|[-> ->]]; [done|].
  destruct (Hall b1 u1 Hb1) as [[-> ->]|[-> ->]]; [destruct B4; tauto|].
  destruct (Hall' a1 t1 Ha1) as [[-> ->]|[-> ->]]; [destruct B4; tauto|by apply B5].
Qed.

(** A namespace that has moved from one project to another. *)
Definition moved : NS := mkNS "team" 7 ∅ {[ projectIDAnnotation := "c-xyz:p-new" ]} false "".
Definition old_role (verb suffix : string) : ClusterRole :=
  mkClusterRole (project_role "p-old" suffix) "uid" 3 ∅ {[ projectNSAnn := project_role "p-old" suffix ]} []
    (namespace_rule verb "team" :: if verb =? projectNSEditVerb then [manage_rule "p-old"] else []).
Definition before_move : RWorld :=
  set_rw_clusterRoles (<[project_role "p-old" "readonly" := old_role "get" "readonly"]> {[ project_role "p-old" "edit" := old_role "*" "edit" ]})
    (emptyRWorld (demoWorld [])).
Definition call (w : RWorld) : RWorld * res unit := reconcileNamespaceProjectClusterRole moved (resync w).
Definition stored_roles (w : RWorld) : list (string * nat) := map (fun '(k, r) => (k, length (cr_Rules r))) (map_to_list (rw_clusterRoles w)).

Lemma before_move_wf : roles_wf (rw_clusterRoles before_move).
Proof.
  intros name cr. unfold before_move. simpl. intros [[<- <-]|[_ [<- <-]%lookup_singleton_Some]]%lookup_insert_Some.
  - apply (first_role_spec "p-old" "get" "readonly" "team"); try done.
  - apply (first_role_spec "p-old" "*" "edit" "team"); try done.
Qed.

Definition after_move : RWorld := fst (call (fst (call before_move))).

Lemma namespace_roles_settle_witness :
  listed after_move "p-new-namespaces-readonly" "get" "team" /\ ~ listed after_move "p-old-namespaces-readonly" "get" "team"
  /\ listed after_move "p-new-namespaces-edit" "*" "team" /\ ~ listed after_move "p-old-namespaces-edit" "*" "team".
Proof.
  assert (snd (call before_move) = Ret tt) as H1 by (vm_compute; reflexivity).
  assert (snd (call (fst (call before_move))) = Ret tt) as H2 by (vm_compute; reflexivity).
  destruct (namespace_roles_settle demoOrder demoOrder moved before_move (fst (call before_move)) after_move) as (_ & Hs & _).
  - discriminate.
  - apply before_move_wf.
  - rewrite <- H1. apply surjective_pairing.
  - unfold after_move. rewrite <- H2. apply surjective_pairing.
  - pose proof (Hs "get" "readonly" ltac:(vm_compute; reflexivity)) as Hget. pose proof (Hs "*" "edit" ltac:(vm_compute; reflexivity)) as Hedit.
    split; [|split; [|split]].
    + apply Hget. split; [vm_compute; reflexivity|discriminate].
    + intros [He _]%Hget. vm_compute in He. discriminate He.
    + apply Hedit. split; [vm_compute; reflexivity|discriminate].
    + intros [He _]%Hedit. vm_compute in He. discriminate He.
Defined.

(** The first successful run settles one verb and returns: the role with which the members of the old project edit still lists the
    namespace, and the new project has no role to edit it yet. *)
Example first_call_leaves_old_editors :
  snd (call before_move) = Ret tt
  /\ stored_roles (fst (call before_move)) = [("p-old-namespaces-edit", 2%nat); ("p-new-namespaces-readonly", 1%nat)]
  /\ stored_roles (fst (call (fst (call before_move))))
     = [("p-old-namespaces-edit", 1%nat); ("p-new-namespaces-edit", 2%nat); ("p-new-namespaces-readonly", 1%nat)].
Proof. vm_compute. repeat split; reflexivity. Qed.
