(* ===== verification/GlobalAdmins.v ===== *)
(** * Administrators in downstream clusters ([globalrolebinding_handler.go], [cluster_handler.go])

    Who is bound to a global role with all permissions is bound to the role of a cluster administrator in every downstream
    cluster. *)

From S2P Require Import Prelude GoLib Errors Types External World Instances Store Rbac RoleTemplates RbacStore Impersonation RoleBindings BindingSafety.

Record GlobalRole := mkGlobalRole {
  gr_Name : string;
  gr_Builtin : bool;
  gr_Rules : list PolicyRule
}.

(** A management cluster, with whether its administrators are synchronised. *)
Record ACluster := mkACluster { cl_Name : string; cl_GlobalAdminsSynced : bool }.

Definition all_resources (rule : PolicyRule) : bool :=
  ContainsString (r_Resources rule) "*" && ContainsString (r_APIGroups rule) "*" && ContainsString (r_Verbs rule) "*".
Definition all_urls (rule : PolicyRule) : bool := ContainsString (slice_of (r_NonResourceURLs rule)) "*" && ContainsString (r_Verbs rule) "*".

(** The loop over the rules: one that is for all resources is not looked at again for URLs. *)
Fixpoint admin_rules (rules : list PolicyRule) (hasResourceRule hasNonResourceRule : bool) : bool :=
  match rules with
  | [] => hasResourceRule && hasNonResourceRule
  | rule :: rest =>
      if all_resources rule then admin_rules rest true hasNonResourceRule
      else if all_urls rule then admin_rules rest hasResourceRule true
      else admin_rules rest hasResourceRule hasNonResourceRule
  end.

Definition grbByRole (grb : GlobalRoleBinding) : list string := [grb_GlobalRoleName grb].
Definition grbByUserAndRole (grb : GlobalRoleBinding) : list string := [GetGRBTargetKey grb +:+ "-" +:+ grb_GlobalRoleName grb].

Definition admin_binding (grb : GlobalRoleBinding) : Binding :=
  mkBinding "" (GrbCRBName grb) 0 ∅ ∅ [] [GetGRBSubject grb] (mkRoleRef "ClusterRole" "cluster-admin").

Section admins.
Context `{R : RbacCaches} (globalRoles : gmap string GlobalRole) (grbCache : list GlobalRoleBinding).

Definition isAdminRole (rtName : string) : res bool :=
  match globalRoles !! rtName with
  | None => Fail (not_found "globalroles" rtName)
  | Some gr =>
      if gr_Builtin gr && (gr_Name gr =? GlobalAdmin) then Ret true
      else Ret (admin_rules (gr_Rules gr) false false)
  end.

(** Both handlers look for the binding in the cache and create it otherwise. *)
Definition ensure_admin_binding (notGot notCreated : string) (grb : GlobalRoleBinding) : RM unit :=
  match crbLister_Get (GrbCRBName grb) with
  | Ret _ => ret tt
  | Panic => panic
  | Fail err =>
      if IsNotFound err then
        let* r := attempt (obj_Create kind_binding (admin_binding grb)) in
        match r with inl _ => ret tt | inr err => if IsAlreadyExists err then ret tt else fail (wrap notCreated err) end
      else fail (wrap notGot err)
  end.
Definition ensureClusterAdminBinding (grb : GlobalRoleBinding) : RM unit :=
  ensure_admin_binding ("failed to get ClusterRoleBinding '" +:+ GrbCRBName grb +:+ "' from the cache")
    ("failed to create ClusterRoleBinding '" +:+ GrbCRBName grb +:+ "' for admin in downstream '" +:+ clusterName +:+ "'") grb.

Definition grb_sync (obj : option GlobalRoleBinding) : RM unit :=
  match obj with
  | None => ret tt
  | Some grb =>
      if grb_Deleting grb then ret tt
      else let* isAdmin := lift (isAdminRole (grb_GlobalRoleName grb)) in if isAdmin : bool then ensureClusterAdminBinding grb else ret tt
  end.

(** When a cluster is new: the bindings of all administrators; the condition is set when it is done. *)
Definition doSync (cluster : ACluster) : RM ACluster :=
  if cl_GlobalAdminsSynced cluster then ret cluster
  else
    let grbs := List.filter (fun grb => bool_decide (GlobalAdmin ∈ grbByRole grb)) grbCache in
    let* _ := for_fold grbs tt (fun _ grb =>
      ensure_admin_binding ("failed to get GlobalRoleBinding for '" +:+ GrbCRBName grb +:+ "'")
        ("failed to create new ClusterRoleBinding for GlobalRoleBinding '" +:+ grb_Name grb +:+ "'") grb) in
    ret (mkACluster (cl_Name cluster) true).
(** The cluster to store, if any. *)
Definition cluster_sync (obj : option ACluster) : RM (option ACluster) :=
  match obj with
  | None => ret None
  | Some cluster =>
      if cl_Name cluster =? "" then ret None
      else if clusterName !=? cl_Name cluster then ret None
      else if cl_GlobalAdminsSynced cluster then ret None
      else let* cluster := doSync cluster in ret (Some cluster)
  end.
End admins.

(** ** Properties *)

Lemma admin_rules_spec rules hr hn :
  admin_rules rules hr hn = true <->
  (hr = true \/ exists rule, rule ∈ rules /\ all_resources rule = true)
  /\ (hn = true \/ exists rule, rule ∈ rules /\ all_resources rule = false /\ all_urls rule = true).
Proof.
  revert hr hn. induction rules as [|rule rules IH]; intros hr hn; cbn [admin_rules].
  - rewrite andb_true_iff. split; [intros [-> ->]; split; by left|]. intros [[?|(r & Hr%elem_of_nil & _)] [?|(r' & Hr'%elem_of_nil & _)]]; done.
  - rewrite (exists_cons (fun r => all_resources r = true)), (exists_cons (fun r => all_resources r = false /\ all_urls r = true)).
    destruct (all_resources rule) eqn:Ha; [|destruct (all_urls rule) eqn:Hu]; rewrite IH; clear IH; intuition congruence.
Qed.

(** A binding for a role that is not one of an administrator changes nothing, and one that is leads to the binding of its subject
    to the role of a cluster administrator. *)
Lemma grb_sync_admin `{RbacCaches} globalRoles grb gr w w' :
  globalRoles !! grb_GlobalRoleName grb = Some gr -> grb_Deleting grb = false -> honest_faults w -> cached_exist w ->
  grb_sync globalRoles (Some grb) w = (w', Ret tt) ->
  if (gr_Builtin gr && (gr_Name gr =? GlobalAdmin)) || admin_rules (gr_Rules gr) false false
  then is_Some (rw_bindings w' !! ("", GrbCRBName grb))
  else w' = w.
Proof.
  intros Hgr Hd Hho Hce. unfold grb_sync. rewrite Hd. unfold isAdminRole. rewrite Hgr.
  destruct (gr_Builtin gr && (gr_Name gr =? GlobalAdmin)); [|destruct (admin_rules (gr_Rules gr) false false)]; unfold bind at 1; simpl;
    [| |by intros [= <-]]; unfold ensureClusterAdminBinding, ensure_admin_binding, crbLister_Get, rbLister_Get;
    (destruct (List.find _ _) as [b|] eqn:Hf;
     [intros [= <-]; apply List.find_some in Hf as [Hin%list_elem_of_In [H1%bool_decide_eq_true H2%bool_decide_eq_true]%andb_true_iff];
      rewrite <- H1, <- H2; by apply Hce|]); simpl; unfold bind at 1, attempt at 1;
    destruct (obj_Create kind_binding (admin_binding grb) w) as [w1 r1] eqn:Hc; apply create_spec in Hc as (_ & [(Hb & Hno & Hex)|(_ & Hb & a & ->)]); simpl in *;
    try (intros [= <-]; rewrite Hb, lookup_insert_eq; by eexists);
    (destruct r1 as [a|e|]; [by destruct (Hno a)| |done]); (destruct (IsAlreadyExists e) eqn:He; [|done]); intros [= <-]; rewrite Hb; by apply (Hex e).
Qed.

(** A role of an administrator other than the built-in one gives a binding the name of one for a restricted administrator. *)
Example custom_admin_name :
  GrbCRBName (mkGRB "grb-1" false "u-1" "" "my-admins") = "globalrestrictedadmin-u-1"
  /\ GrbCRBName (mkGRB "grb-2" false "u-1" "" "admin") = "globaladmin-u-1".
Proof. vm_compute. split; reflexivity. Qed.

(** A cluster is synchronised once for the bindings to the built-in role only: those to another role of an administrator are left to
    the other handler. *)
Example custom_admins_not_synced :
  let roles := {[ "my-admins" := mkGlobalRole "my-admins" false [mkPolicyRule ["*"] ["*"] ["*"] None None; mkPolicyRule ["*"] [] [] None (Some ["*"])] ]} in
  let grb := mkGRB "grb-1" false "u-1" "" "my-admins" in
  let R := demoAccess ∅ ∅ in
  isAdminRole roles "my-admins" = Ret true
  /\ map_size (rw_bindings (fst (cluster_sync (R := R) [grb] (Some (mkACluster "c-xyz" false)) (emptyRWorld (demoWorld []))))) = 0%nat
  /\ map_size (rw_bindings (fst (grb_sync (R := R) roles (Some grb) (emptyRWorld (demoWorld []))))) = 1%nat.
Proof. vm_compute. repeat split; reflexivity. Qed.
