(* ===== verification/MgmtAccess.v ===== *)
(** * Access to the objects of Rancher itself ([management/auth])

    A binding of a role template gives its subject more than roles in the downstream cluster: it makes the subject a member of the
    cluster or of the project in the API of Rancher, and allows in the namespaces that Rancher keeps for them what the template
    says of the objects stored there ([manager.go], [crtb_handler.go], [prtb_handler.go], [indexes.go]). *)

From S2P Require Import Prelude GoLib Errors Types External World Handlers Tokens Rbac RoleTemplates RbacStore Impersonation RoleBindings ProjectAccess.

Definition clusterContext : string := "cluster".
Definition projectContext : string := "project".
Definition clusterNameLabel : string := "cluster.cattle.io/name".
Definition MembershipBindingOwnerLegacy : string := "memberhsip-binding-owner".
Definition MembershipBindingOwner : string := "membership-binding-owner".
Definition clusterResource : string := "clusters".
Definition projectResource : string := "projects".
Definition CrtbInProjectBindingOwner : string := "crtb-in-project-binding-owner".
Definition PrtbInClusterBindingOwner : string := "prtb-in-cluster-binding-owner".
Definition rtbLabelUpdated : string := "auth.management.cattle.io/rtb-label-updated".
Definition RtbCrbRbLabelsUpdated : string := "auth.management.cattle.io/crb-rb-labels-updated".

(** The objects of a cluster and of a project that are kept in a namespace of Rancher, with their groups. *)
Definition clusterManagmentPlaneResources : gmap string string :=
  list_to_map (map (fun r => (r, "management.cattle.io"))
    ["clusterscans"; "catalogtemplates"; "catalogtemplateversions"; "clusteralertrules"; "clusteralertgroups"; "clustercatalogs";
     "clusterloggings"; "clustermonitorgraphs"; "clusterregistrationtokens"; "clusterroletemplatebindings"; "etcdbackups"; "nodes";
     "nodepools"; "notifiers"; "podsecuritypolicytemplateprojectbindings"; "projects"] ++ [("etcdsnapshots", "rke.cattle.io")]).
Definition projectManagmentPlaneResources : gmap string string :=
  list_to_map
    [("apps", "project.cattle.io"); ("apprevisions", "project.cattle.io"); ("catalogtemplates", "management.cattle.io");
     ("catalogtemplateversions", "management.cattle.io"); ("sourcecodeproviderconfigs", "project.cattle.io");
     ("projectloggings", "management.cattle.io"); ("projectalertrules", "management.cattle.io");
     ("projectalertgroups", "management.cattle.io"); ("projectcatalogs", "management.cattle.io");
     ("projectmonitorgraphs", "management.cattle.io"); ("projectroletemplatebindings", "management.cattle.io"); ("secrets", "")].
Definition prtbClusterManagmentPlaneResources : gmap string string :=
  list_to_map (map (fun r => (r, "management.cattle.io")) ["notifiers"; "clustercatalogs"; "catalogtemplates"; "catalogtemplateversions"]).
Definition commonClusterAndProjectMgmtPlaneResources (resource : string) : bool :=
  ContainsString ["catalogtemplates"; "catalogtemplateversions"] resource.

(** ** Indices ([indexes.go]) *)

Definition rbByOwner (rb : Binding) : list string := map or_UID (b_OwnerReferences rb).
Definition rbRoleSubjectKey (roleName : string) (subject : Subject) : string := roleName +:+ "." +:+ sub_Kind subject +:+ "." +:+ sub_Name subject.
Definition rbRoleSubjectKeys (roleName : string) (subjects : list Subject) : list string := map (rbRoleSubjectKey roleName) subjects.
Definition rbByRoleAndSubject (rb : Binding) : list string := rbRoleSubjectKeys (ref_Name (b_RoleRef rb)) (b_Subjects rb).
Definition indexByMembershipBindingOwner (b : Binding) : list string :=
  map (fun '(k, _) => b_Namespace b +:+ "/" +:+ k) (List.filter (fun '(_, v) => v =? MembershipBindingOwner) (map_to_list (b_Labels b))).

(** ** What a template allows *)

Definition checkGroup (apiGroup : string) (rule : PolicyRule) : bool :=
  List.existsb (fun rg => (rg =? apiGroup) || (rg =? "*")) (r_APIGroups rule).
Definition covers (resource : string) (rule : PolicyRule) : bool :=
  ContainsString (r_Resources rule) resource || ContainsString (r_Resources rule) "*".

(** Verbs with the group, as the code keeps them. *)
Definition management_verbs (resource apiGroup : string) (rules : list PolicyRule) : gmap string string :=
  fold_left (fun verbs rule =>
    if covers resource rule && bool_decide (slice_of (r_ResourceNames rule) = []) && checkGroup apiGroup rule
    then fold_left (fun m v => <[v := apiGroup]> m) (r_Verbs rule) verbs else verbs) rules ∅.

Section rules.
Context `{O : MapOrder}.

Definition buildRule (resource : string) (verbs : gmap string string) : PolicyRule :=
  let l := range "buildRule" verbs in
  mkPolicyRule (sort_Strings (map fst l)) [fold_left (fun _ '(_, g) => g) l ""] [resource] None None.

(** The verbs of a role for a resource, compared with the wanted ones: only the first group of a rule is looked at, which is a
    panic if there is none, and a verb that is not wanted counts only if its group is the empty one or all groups. *)
Fixpoint current_of_rule (group : option string) (newVerbs : gmap string string) (verbs : list string) (acc : gmap string string) : res (gmap string string) :=
  match verbs with
  | [] => Ret acc
  | v :: rest =>
      match group with
      | None => Panic
      | Some g =>
          let wanted := default "" (newVerbs !! v) in
          current_of_rule group newVerbs rest
            (if g =? wanted then <[v := g]> acc else if (g =? "*") || (wanted =? "*") then <[v := wanted]> acc else acc)
      end
  end.
Fixpoint current_verbs (resource : string) (newVerbs : gmap string string) (rules : list PolicyRule) (acc : gmap string string) : res (gmap string string) :=
  match rules with
  | [] => Ret acc
  | rule :: rest =>
      let? acc := (if covers resource rule then current_of_rule (head (r_APIGroups rule)) newVerbs (r_Verbs rule) acc else Ret acc) in
      current_verbs resource newVerbs rest acc
  end.

Definition replace_rules (resource : string) (newVerbs : gmap string string) (rules : list PolicyRule) : list PolicyRule :=
  if List.existsb (covers resource) rules
  then map (fun rule => if covers resource rule then buildRule resource newVerbs else rule) rules
  else rules ++ [buildRule resource newVerbs].

(** The rules of a role after every resource was looked at, and whether they were changed. *)
Fixpoint update_rules (old : list PolicyRule) (wanted : list (string * gmap string string)) (new : list PolicyRule) (update : bool) : res (list PolicyRule * bool) :=
  match wanted with
  | [] => Ret (new, update)
  | (resource, newVerbs) :: rest =>
      let? current := current_verbs resource newVerbs old ∅ in
      if bool_decide (current = newVerbs) then update_rules old rest new update
      else update_rules old rest (replace_rules resource newVerbs new) true
  end.
End rules.

(** ** Templates *)

Section templates.
Context (templates : gmap string RoleTemplate).

(** The search has no limit: one that never returns exhausts the stack, which is a panic.  As many nested calls as there are
    templates, and one more, are allowed here. *)
Fixpoint gather_subs (gather : RoleTemplate -> gmap string RoleTemplate -> res (gmap string RoleTemplate)) (names : list string)
    (acc : gmap string RoleTemplate) : res (gmap string RoleTemplate) :=
  match names with
  | [] => Ret acc
  | rtName :: rest =>
      match rtLister_Get templates rtName with
      | Ret subRT =>
          match gather subRT acc with
          | Ret acc => gather_subs gather rest acc
          | Fail err => Fail (wrap ("couldn't gather RoleTemplate " +:+ rtName) err)
          | Panic => Panic
          end
      | Fail err => Fail (wrap ("couldn't get RoleTemplate " +:+ rtName) err)
      | Panic => Panic
      end
  end.
Fixpoint gatherRoleTemplates (n : nat) (rt : RoleTemplate) (acc : gmap string RoleTemplate) : res (gmap string RoleTemplate) :=
  match n with
  | O => Panic
  | S n' => gather_subs (gatherRoleTemplates n') (rt_RoleTemplateNames rt) (<[rt_Name rt := rt]> acc)
  end.

Definition gatherAndDedupeRoles (roleTemplateName : string) : res (gmap string RoleTemplate) :=
  let? rt := rtLister_Get templates roleTemplateName in
  let? allRoles := gatherRoleTemplates (S (size templates)) rt ∅ in
  Ret (ToLowerRoleTemplates allRoles).

Definition builtin_owner (rt : RoleTemplate) (name : string) : bool :=
  (rt_Builtin rt && (rt_Context rt =? projectContext) && (name =? "project-owner"))
  || (rt_Builtin rt && (rt_Context rt =? clusterContext) && (name =? "cluster-owner")).
Definition own_rule (rule : PolicyRule) : bool :=
  (ContainsString (r_Resources rule) projectResource || ContainsString (r_Resources rule) clusterResource) && ContainsString (r_Verbs rule) "own".

(** [left] is what is left of the hard limit. *)
Fixpoint checkReferencedRoles_from (left : nat) (roleTemplateName context : string) : res bool :=
  match left with
  | O => Fail (errorString ("roletemplate '" +:+ roleTemplateName +:+ "' has caused " +:+ Itoa rolesCircularHardLimit
                +:+ " recursive function calls, possible circular dependency"))
  | S left' =>
      let? rt := rtLister_Get templates roleTemplateName in
      if rt_Context rt !=? context then Ret false
      else if builtin_owner rt roleTemplateName then Ret true
      else if List.existsb own_rule (rt_Rules rt) then Ret true
      else owner_among (fun name => checkReferencedRoles_from left' name context) (rt_RoleTemplateNames rt)
  end.
Definition checkReferencedRoles (roleTemplateName context : string) : res bool :=
  checkReferencedRoles_from (Z.to_nat rolesCircularHardLimit) roleTemplateName context.
End templates.

(** ** The manager ([manager.go]) *)

(** A cluster of Rancher. *)
Record MCluster := mkMCluster { mc_Name : string; mc_UID : string }.

(** What the handlers find beside the caches of [RbacCaches]: the clusters, and the version and kind an object of a cache carries. *)
Class MgmtCaches := {
  clusterCache : gmap string MCluster;
  cluster_TypeMeta : string * string;
  project_TypeMeta : string * string;
  rtb_TypeMeta : RTB -> string * string
}.

Section manager.
Context `{E : External} `{R : RbacCaches} `{G : MgmtCaches} `{O : MapOrder}.

Definition crbIndexer_ByIndex (index : Binding -> list string) (key : string) : list Binding :=
  List.filter (fun b => (b_Namespace b =? "") && bool_decide (key ∈ index b)) bindingCache.
Definition rbIndexer_ByIndex (index : Binding -> list string) (key : string) : list Binding :=
  List.filter (fun b => (b_Namespace b !=? "") && bool_decide (key ∈ index b)) bindingCache.

(** *** Membership *)

Definition membership_rules (resourceType name : string) (makeOwner : bool) : list PolicyRule :=
  [mkPolicyRule [if makeOwner then "*" else "get"] ["management.cattle.io"] [resourceType] (Some [name]) None].
Definition owner_ref (typeMeta : string * string) (name uid : string) : OwnerReference := mkOwnerReference (fst typeMeta) (snd typeMeta) name uid false.

Definition createClusterMembershipRole (roleName : string) (cluster : MCluster) (makeOwner : bool) : RM unit :=
  let* r := attempt (crLister_Get roleName) in
  match r with
  | inl _ => ret tt
  | inr _ =>
      let* _ := obj_Create kind_clusterRole
        (mkClusterRole roleName "" 0 ∅ {[ clusterNameLabel := mc_Name cluster ]} [owner_ref cluster_TypeMeta (mc_Name cluster) (mc_UID cluster)]
           (membership_rules clusterResource (mc_Name cluster) makeOwner)) in ret tt
  end.
Definition createProjectMembershipRole (roleName namespace : string) (project : AProject) (makeOwner : bool) : RM unit :=
  match roleCache !! (namespace, roleName) with
  | Some _ => ret tt
  | None =>
      let* _ := obj_Create kind_role
        (mkRole namespace roleName 0 [owner_ref project_TypeMeta (pr_Name project) (pr_UID project)]
           (membership_rules projectResource (pr_Name project) makeOwner)) in ret tt
  end.

(** The label of a binding of role templates is taken off the bindings it owns, except the one of the role to keep; a binding
    without another owner is deleted. *)
Definition other_owner (rtbNsAndName : string) (kv : string * string) : bool :=
  let '(k, v) := kv in negb ((k =? rtbNsAndName) && (v =? MembershipBindingOwner)) && (v =? MembershipBindingOwner).
Definition disown (rtbNsAndName : string) (labels : gmap string string) : gmap string string :=
  if bool_decide (labels !! rtbNsAndName = Some MembershipBindingOwner) then delete rtbNsAndName labels else labels.
Definition reconcileMembershipBindingForDelete (namespace roleToKeep rtbNsAndName : string) (roleBindings : list Binding) : RM unit :=
  for_fold roleBindings tt (fun _ b =>
    if ref_Name (b_RoleRef b) =? roleToKeep then ret tt
    else if List.existsb (other_owner rtbNsAndName) (map_to_list (b_Labels b))
    then let* _ := obj_Update kind_binding (set_b_Labels (disown rtbNsAndName (b_Labels b)) b) in ret tt
    else ignoring IsNotFound (obj_Delete kind_binding (namespace, b_Name b))).
Definition reconcileClusterMembershipBindingForDelete (roleToKeep rtbNsAndName : string) : RM unit :=
  reconcileMembershipBindingForDelete "" roleToKeep rtbNsAndName (crbIndexer_ByIndex indexByMembershipBindingOwner ("/" +:+ rtbNsAndName)).
Definition reconcileProjectMembershipBindingForDelete (namespace roleToKeep rtbNsAndName : string) : RM unit :=
  reconcileMembershipBindingForDelete namespace roleToKeep rtbNsAndName (rbIndexer_ByIndex indexByMembershipBindingOwner (namespace +:+ "/" +:+ rtbNsAndName)).

(** The test on the number of subjects is as in the code: only bindings with another number than one are compared, by their
    first subject. *)
Fixpoint matching_binding (key : string) (bindings : list Binding) (found : option Binding) : res (option Binding) :=
  match bindings with
  | [] => Ret found
  | b :: rest =>
      if bool_decide (length (b_Subjects b) = 1%nat) then matching_binding key rest found
      else match b_Subjects b with
           | [] => Panic
           | s :: _ => matching_binding key rest (if rbRoleSubjectKey (ref_Name (b_RoleRef b)) s =? key then Some b else found)
           end
  end.

Definition add_owner (rtbNsAndName : string) (b : Binding) : RM unit :=
  if bool_decide (is_Some (b_Labels b !! rtbNsAndName)) then ret tt
  else let* _ := obj_Update kind_binding (set_b_Labels (<[rtbNsAndName := MembershipBindingOwner]> (b_Labels b)) b) in ret tt.

(** The binding of a role to a subject, of which [objs] are those the index has, gets a further owner. *)
Definition ensure_membership (rtbNsAndName : string) (desired : Binding) (objs : list Binding) : RM unit :=
  match objs with
  | b :: _ => add_owner rtbNsAndName b
  | [] =>
      let* r := attempt (obj_Create kind_binding desired) in
      match r with
      | inl _ => ret tt
      | inr err =>
          if IsAlreadyExists err then let* b := obj_Get kind_binding (b_Namespace desired, b_Name desired) in add_owner rtbNsAndName b
          else fail err
      end
  end.

Definition ensureClusterMembershipBinding (roleName rtbNsAndName : string) (cluster : MCluster) (makeOwner : bool) (subject : Subject) : RM unit :=
  let* _ := createClusterMembershipRole roleName cluster makeOwner in
  let key := rbRoleSubjectKey roleName subject in
  let* crb := lift (matching_binding key (crbIndexer_ByIndex indexByMembershipBindingOwner ("/" +:+ rtbNsAndName)) None) in
  let* _ := reconcileClusterMembershipBindingForDelete roleName rtbNsAndName in
  match crb with
  | Some _ => ret tt
  | None =>
      let roleRef := mkRoleRef "ClusterRole" roleName in
      ensure_membership rtbNsAndName
        (mkBinding "" (NameForClusterRoleBinding roleRef subject) 0 {[ rtbNsAndName := MembershipBindingOwner ]} {[ clusterNameLabel := mc_Name cluster ]}
           [] [subject] roleRef)
        (crbIndexer_ByIndex rbByRoleAndSubject key)
  end.

Definition ensureProjectMembershipBinding (roleName rtbNsAndName namespace : string) (project : AProject) (makeOwner : bool) (subject : Subject) : RM unit :=
  let* _ := createProjectMembershipRole roleName namespace project makeOwner in
  let key := rbRoleSubjectKey roleName subject in
  let* rb := lift (matching_binding key (rbIndexer_ByIndex indexByMembershipBindingOwner (namespace +:+ "/" +:+ rtbNsAndName)) None) in
  let* _ := reconcileProjectMembershipBindingForDelete namespace roleName rtbNsAndName in
  match rb with
  | Some _ => ret tt
  | None =>
      let roleRef := mkRoleRef "Role" roleName in
      ensure_membership rtbNsAndName
        (mkBinding namespace (NameForRoleBinding namespace roleRef subject) 0 {[ rtbNsAndName := MembershipBindingOwner ]} ∅ [] [subject] roleRef)
        (rbIndexer_ByIndex rbByRoleAndSubject key)
  end.

(** *** Objects in the namespaces of clusters and projects *)

Definition checkForManagementPlaneRules (role : RoleTemplate) (resource apiGroup : string) : RM (gmap string string) :=
  let* rules := (if rt_External role then
      let* r := attempt (crLister_Get (rt_Name role)) in
      match r with
      | inl cr => ret (cr_Rules cr)
      | inr err => if IsNotFound err then ret [] else fail err
      end
    else ret (rt_Rules role)) in
  ret (management_verbs resource apiGroup rules).

Definition namespace_terminating (namespace : string) : RM bool :=
  let* ns := wrapping ("couldn't get namespace " +:+ namespace) (lift (nsLister_Get namespace)) in ret (n_Phase ns =? "Terminating").

Definition reconcileManagementPlaneRole (namespace : string) (resourceToVerbs : gmap string (gmap string string)) (rt : RoleTemplate) : RM unit :=
  match roleCache !! (namespace, rt_Name rt) with
  | Some role =>
      let* '(rules, update) := lift (update_rules (ro_Rules role) (range "resourceToVerbs" resourceToVerbs) (ro_Rules role) false) in
      if update : bool then let* _ := obj_Update kind_role (set_ro_Rules rules role) in ret tt else ret tt
  | None =>
      let* terminating := namespace_terminating namespace in
      if terminating : bool then ret tt
      else
        let rules := map (fun '(resource, newVerbs) => buildRule resource newVerbs) (range "newRole" resourceToVerbs) in
        let* r := attempt (obj_Create kind_role (mkRole namespace (rt_Name rt) 0 [] rules)) in
        match r with
        | inl _ => ret tt
        | inr err => if IsAlreadyExists err then ret tt else fail (wrap ("couldn't create role " +:+ rt_Name rt) err)
        end
  end.

Definition resource_verbs (role : RoleTemplate) (resources : gmap string string) (skip : string -> bool) : RM (gmap string (gmap string string)) :=
  for_fold (range "resources" resources) ∅ (fun acc '(resource, apiGroup) =>
    if skip resource then ret acc
    else
      let* verbs := checkForManagementPlaneRules role resource apiGroup in
      ret (if bool_decide (verbs = ∅) then acc else <[resource := verbs]> acc)).

(** For every role with something to grant the role in the namespace, and the binding that is wanted. *)
Definition grant_roles (roles : gmap string RoleTemplate) (namespace : string) (resources : gmap string string) (skip : RoleTemplate -> string -> bool)
    (desired : RoleTemplate -> Binding) : RM (gmap string Binding) :=
  for_fold (range "grant" roles) ∅ (fun acc '(_, role) =>
    let* resourceToVerbs := resource_verbs role resources (skip role) in
    if bool_decide (resourceToVerbs = ∅) then ret acc
    else
      let* _ := reconcileManagementPlaneRole namespace resourceToVerbs role in
      ret (match acc !! b_Name (desired role) with Some _ => acc | None => <[b_Name (desired role) := desired role]> acc end)).

Fixpoint compare_names (current : list Binding) (processed : gset string) (desired : gmap string Binding) (toDelete : gmap string unit)
  : gmap string Binding * gmap string unit :=
  match current with
  | [] => (desired, toDelete)
  | rb :: rest =>
      if bool_decide (b_Name rb ∈ processed) then compare_names rest processed desired toDelete
      else
        let processed := {[ b_Name rb ]} ∪ processed in
        match desired !! b_Name rb with
        | Some _ => compare_names rest processed (delete (b_Name rb) desired) toDelete
        | None => compare_names rest processed desired (<[b_Name rb := tt]> toDelete)
        end
  end.

Definition by_name (l : list Binding) : gmap string Binding := fold_left (fun m rb => <[b_Name rb := rb]> m) l ∅.
Definition reconcileDesiredMGMTPlaneRoleBindings (currentRBs desiredRBs : gmap string Binding) (namespace : string) : RM unit :=
  let '(desired, rbsToDelete) := compare_names (map snd (range "current" currentRBs)) ∅ desiredRBs ∅ in
  let* _ := for_fold (range "delete" rbsToDelete) tt (fun _ '(name, _) => obj_Delete kind_binding (namespace, name)) in
  let* terminating := namespace_terminating namespace in
  if terminating : bool then ret tt
  else for_fold (range "create" desired) tt (fun _ '(_, rb) => ignoring IsAlreadyExists (obj_Create kind_binding rb)).

Definition grantManagementPlanePrivileges (roleTemplateName : string) (resources : gmap string string) (subject : Subject) (binding : RTB) : RM unit :=
  let meta := rtb_meta binding in
  let namespace := rtb_Namespace meta in
  let* roles := lift (gatherAndDedupeRoles templateCache roleTemplateName) in
  let* desiredRBs := grant_roles roles namespace resources (fun _ _ => false) (fun role =>
    mkBinding namespace (rtb_Name meta +:+ "-" +:+ rt_Name role) 0 ∅ ∅ [owner_ref (rtb_TypeMeta binding) (rtb_Name meta) (rtb_UID meta)] [subject]
      (mkRoleRef "Role" (rt_Name role))) in
  let currentRBs := by_name (rbIndexer_ByIndex rbByOwner (rtb_UID meta)) in
  reconcileDesiredMGMTPlaneRoleBindings currentRBs desiredRBs namespace.

(** In the namespace of a project, the catalogs of which are for administrative templates only. *)
Definition grantManagementClusterScopedPrivilegesInProjectNamespace (roleTemplateName projectNamespace : string) (resources : gmap string string)
    (subject : Subject) (binding : ClusterRoleTemplateBinding) : RM unit :=
  let bindingKey := GetRTBLabel (crtb_Meta binding) in
  let* roles := lift (gatherAndDedupeRoles templateCache roleTemplateName) in
  let* desiredRBs := grant_roles roles projectNamespace resources
    (fun role resource => negb (rt_Administrative role) && commonClusterAndProjectMgmtPlaneResources resource) (fun role =>
    mkBinding projectNamespace (rtb_Name (crtb_Meta binding) +:+ "-" +:+ rt_Name role) 0 {[ bindingKey := CrtbInProjectBindingOwner ]} ∅ [] [subject]
      (mkRoleRef "Role" (rt_Name role))) in
  let currentRBs := by_name (rbLister_List projectNamespace {[ bindingKey := CrtbInProjectBindingOwner ]}) in
  reconcileDesiredMGMTPlaneRoleBindings currentRBs desiredRBs projectNamespace.

Definition grantManagementProjectScopedPrivilegesInClusterNamespace (roleTemplateName clusterNamespace : string) (resources : gmap string string)
    (subject : Subject) (binding : ProjectRoleTemplateBinding) : RM unit :=
  let meta := prtb_Meta binding in
  let bindingKey := GetRTBLabel meta in
  let* roles := lift (gatherAndDedupeRoles templateCache roleTemplateName) in
  let* desiredRBs := grant_roles roles clusterNamespace resources (fun _ _ => false) (fun role =>
    mkBinding clusterNamespace (rtb_Namespace meta +:+ "-" +:+ rtb_Name meta +:+ "-" +:+ rt_Name role) 0 {[ bindingKey := PrtbInClusterBindingOwner ]} ∅ []
      [subject] (mkRoleRef "Role" (rt_Name role))) in
  let currentRBs := by_name (rbLister_List clusterNamespace {[ bindingKey := PrtbInClusterBindingOwner ]}) in
  reconcileDesiredMGMTPlaneRoleBindings currentRBs desiredRBs clusterNamespace.
End manager.

(** ** Bindings in clusters ([crtb_handler.go]) *)

Definition set_crtb_User (userName principal : string) (b : ClusterRoleTemplateBinding) : ClusterRoleTemplateBinding :=
  mkCRTB (crtb_Meta b) userName principal (crtb_GroupName b) (crtb_GroupPrincipalName b) (crtb_ClusterName b) (crtb_RoleTemplateName b).
Definition set_prtb_User (userName principal : string) (b : ProjectRoleTemplateBinding) : ProjectRoleTemplateBinding :=
  mkPRTB (prtb_Meta b) userName principal (prtb_GroupName b) (prtb_GroupPrincipalName b) (prtb_ServiceAccount b) (prtb_ProjectName b) (prtb_RoleTemplateName b).

Definition CRTBRoleBindingID : string := "auth-prov-v2-crtb-rolebinding".
Definition PRTBRoleBindingID : string := "auth-prov-v2-prtb-rolebinding".

Section handlers.
Context `{E : External} `{R : RbacCaches} `{G : MgmtCaches} `{O : MapOrder}.
(** [user.Manager], and [apply.GetSelectorFromOwner] of wrangler: the labels of the objects that were applied for an owner. *)
Context (EnsureUser : string -> string -> RM string) (GetSelectorFromOwner : string -> RTB -> res (gmap string string)).

(** User and principal of a binding that names one of them. *)
Definition reconcile_user (meta : RTBMeta) (userName principal groupName groupPrincipal : string) : RM (string * string) :=
  if (groupName !=? "") || (groupPrincipal !=? "") || ((principal !=? "") && (userName !=? "")) then ret (userName, principal)
  else if (principal !=? "") && (userName =? "") then
    let* name := EnsureUser principal (map_get_label (rtb_Annotations meta) "auth.cattle.io/principal-display-name") in ret (name, principal)
  else if (principal =? "") && (userName !=? "") then
    match userCache !! userName with
    | None => fail (not_found "users" userName)
    | Some u => ret (userName, match List.find (fun p => HasSuffix p userName) (u_PrincipalIDs u) with Some p => p | None => principal end)
    end
  else fail (errorString ("Binding " +:+ rtb_Name meta +:+ " has no subject")).

Definition removeAuthV2Permissions (setID : string) (owner : RTB) : RM unit :=
  let* selector := lift (GetSelectorFromOwner setID owner) in
  let roleBindings := List.filter (fun b => (b_Namespace b !=? "") && selects selector (b_Labels b)) bindingCache in
  let* errs := collect_errors roleBindings (fun b => ignoring IsNotFound (obj_Delete kind_binding (b_Namespace b, b_Name b))) in
  fail_with_errors errs.

(** Bindings made by versions before 2.5 get the labels of today. *)
Definition legacy_in_cache (cluster : bool) (meta : RTBMeta) (value : string) : list Binding :=
  List.filter (fun b => Bool.eqb (b_Namespace b =? "") cluster
                        && legacy_labelled {[ rtb_UID meta := value ]} [rtbLabelUpdated; GetRTBLabel meta] b) bindingCache.
Definition relabel_all (meta : RTBMeta) (value : string) (bindings : list Binding) : RM (list error) :=
  collect_errors bindings (fun b =>
    relabel kind_binding (b_Namespace b, b_Name b)
      (fun b => set_b_Labels (<[rtbLabelUpdated := "true"]> (<[GetRTBLabel meta := value]> (b_Labels b))) b)).

Definition crtb_reconcileSubject (binding : ClusterRoleTemplateBinding) : RM ClusterRoleTemplateBinding :=
  let* '(userName, principal) := reconcile_user (crtb_Meta binding) (crtb_UserName binding) (crtb_UserPrincipalName binding)
                                   (crtb_GroupName binding) (crtb_GroupPrincipalName binding) in
  ret (set_crtb_User userName principal binding).

Definition projectLister_In (namespace : string) : list AProject := List.filter (fun p => pr_Namespace p =? namespace) projectCache.

Definition crtb_reconcileBindings (binding : ClusterRoleTemplateBinding) : RM unit :=
  if (crtb_UserName binding =? "") && (crtb_GroupPrincipalName binding =? "") && (crtb_GroupName binding =? "") then ret tt
  else
    let clusterName := crtb_ClusterName binding in
    match clusterCache !! clusterName with
    | None => fail (not_found "clusters" clusterName)
    | Some cluster =>
        let* isOwnerRole := lift (checkReferencedRoles templateCache (crtb_RoleTemplateName binding) clusterContext) in
        let clusterRoleName := ToLower (clusterName +:+ (if isOwnerRole : bool then "-clusterowner" else "-clustermember")) in
        let* subject := lift (BuildSubjectFromRTB (aCRTB binding)) in
        let* _ := ensureClusterMembershipBinding clusterRoleName (GetRTBLabel (crtb_Meta binding)) cluster isOwnerRole subject in
        let* _ := grantManagementPlanePrivileges (crtb_RoleTemplateName binding) clusterManagmentPlaneResources subject (aCRTB binding) in
        for_fold (projectLister_In (rtb_Namespace (crtb_Meta binding))) tt (fun _ p =>
          if pr_Deleting p then ret tt
          else grantManagementClusterScopedPrivilegesInProjectNamespace (crtb_RoleTemplateName binding) (pr_Name p) projectManagmentPlaneResources subject binding)
    end.

Definition removeMGMTClusterScopedPrivilegesInProjectNamespace (binding : ClusterRoleTemplateBinding) : RM unit :=
  for_fold (projectLister_In (rtb_Namespace (crtb_Meta binding))) tt (fun _ p =>
    for_fold (rbLister_List (pr_Name p) {[ GetRTBLabel (crtb_Meta binding) := CrtbInProjectBindingOwner ]}) tt (fun _ rb =>
      obj_Delete kind_binding (pr_Name p, b_Name rb))).

Definition crtb_reconcileLabels (binding : ClusterRoleTemplateBinding) : RM unit :=
  let meta := crtb_Meta binding in
  if map_get_label (rtb_Labels meta) RtbCrbRbLabelsUpdated =? "true" then ret tt
  else
    let* errs := relabel_all meta MembershipBindingOwner (legacy_in_cache true meta MembershipBindingOwnerLegacy) in
    let* errs2 := relabel_all meta CrtbInProjectBindingOwner (legacy_in_cache false meta CrtbInProjectBindingOwner) in
    let* _ := fail_with_errors (errs ++ errs2) in
    relabel kind_crtb (rtb_Namespace meta, rtb_Name meta)
      (fun b => set_crtb_Meta (set_rtb_Labels (<[RtbCrbRbLabelsUpdated := "true"]> (rtb_Labels (crtb_Meta b))) (crtb_Meta b)) b).

Definition mgmt_crtb_Create (obj : ClusterRoleTemplateBinding) : RM ClusterRoleTemplateBinding :=
  let* obj := crtb_reconcileSubject obj in let* _ := crtb_reconcileBindings obj in ret obj.
Definition mgmt_crtb_Updated (obj : ClusterRoleTemplateBinding) : RM ClusterRoleTemplateBinding :=
  let* obj := crtb_reconcileSubject obj in
  let* _ := crtb_reconcileLabels obj in
  let* _ := crtb_reconcileBindings obj in ret obj.
Definition mgmt_crtb_Remove (obj : ClusterRoleTemplateBinding) : RM unit :=
  let* _ := reconcileClusterMembershipBindingForDelete "" (GetRTBLabel (crtb_Meta obj)) in
  let* _ := removeMGMTClusterScopedPrivilegesInProjectNamespace obj in
  removeAuthV2Permissions CRTBRoleBindingID (aCRTB obj).

(** ** Bindings in projects ([prtb_handler.go]) *)

Definition prtb_reconcileSubject (binding : ProjectRoleTemplateBinding) : RM ProjectRoleTemplateBinding :=
  let* '(userName, principal) := reconcile_user (prtb_Meta binding) (prtb_UserName binding) (prtb_UserPrincipalName binding)
                                   (prtb_GroupName binding) (prtb_GroupPrincipalName binding) in
  ret (set_prtb_User userName principal binding).

Definition no_project (id : string) : error := errorString ("cannot determine project and cluster from " +:+ id).
Definition projectLister_Get (namespace name : string) : res AProject :=
  match List.find (fun p => (pr_Namespace p =? namespace) && (pr_Name p =? name)) projectCache with
  | Some p => Ret p
  | None => Fail (not_found "projects" name)
  end.

Definition prtb_reconcileBindings (binding : ProjectRoleTemplateBinding) : RM unit :=
  if (prtb_UserName binding =? "") && (prtb_GroupPrincipalName binding =? "") && (prtb_GroupName binding =? "") then ret tt
  else
    match SplitN2 (prtb_ProjectName binding) ":" with
    | [clusterName; projectName] =>
        let* proj := lift (projectLister_Get clusterName projectName) in
        match clusterCache !! clusterName with
        | None => fail (not_found "clusters" clusterName)
        | Some cluster =>
            let roleName := ToLower (clusterName +:+ "-clustermember") in
            let* isOwnerRole := lift (checkReferencedRoles templateCache (prtb_RoleTemplateName binding) projectContext) in
            let projectRoleName := ToLower (projectName +:+ (if isOwnerRole : bool then "-projectowner" else "-projectmember")) in
            let* subject := lift (BuildSubjectFromRTB (aPRTB binding)) in
            let rtbNsAndName := GetRTBLabel (prtb_Meta binding) in
            let* _ := ensureProjectMembershipBinding projectRoleName rtbNsAndName clusterName proj isOwnerRole subject in
            let* _ := ensureClusterMembershipBinding roleName rtbNsAndName cluster false subject in
            let* _ := grantManagementProjectScopedPrivilegesInClusterNamespace (prtb_RoleTemplateName binding) (pr_Namespace proj)
                        prtbClusterManagmentPlaneResources subject binding in
            grantManagementPlanePrivileges (prtb_RoleTemplateName binding) projectManagmentPlaneResources subject (aPRTB binding)
        end
    | _ => fail (no_project (prtb_ProjectName binding))
    end.

Definition names_subject (binding : ProjectRoleTemplateBinding) (sub : Subject) : bool :=
  ((sub_Kind sub =? "Group") && (sub_Name sub =? prtb_GroupName binding)) || ((sub_Kind sub =? "Group") && (sub_Name sub =? prtb_GroupPrincipalName binding))
  || ((sub_Kind sub =? "User") && (sub_Name sub =? prtb_UserName binding)).
Definition removeMGMTProjectScopedPrivilegesInClusterNamespace (binding : ProjectRoleTemplateBinding) (clusterName : string) : RM unit :=
  for_fold (rbLister_List clusterName {[ GetRTBLabel (prtb_Meta binding) := PrtbInClusterBindingOwner ]}) tt (fun _ rb =>
    match b_Subjects rb with
    | [] => panic
    | sub :: _ => if names_subject binding sub then obj_Delete kind_binding (clusterName, b_Name rb) else ret tt
    end).

Definition prtb_reconcileLabels (binding : ProjectRoleTemplateBinding) : RM unit :=
  let meta := prtb_Meta binding in
  if map_get_label (rtb_Labels meta) RtbCrbRbLabelsUpdated =? "true" then ret tt
  else
    let* errs := relabel_all meta MembershipBindingOwner (legacy_in_cache true meta MembershipBindingOwnerLegacy) in
    let* errs2 := relabel_all meta MembershipBindingOwner (legacy_in_cache false meta MembershipBindingOwner) in
    let* errs3 := relabel_all meta PrtbInClusterBindingOwner (legacy_in_cache false meta PrtbInClusterBindingOwner) in
    let* _ := fail_with_errors (errs ++ errs2 ++ errs3) in
    relabel kind_prtb (rtb_Namespace meta, rtb_Name meta)
      (fun b => set_prtb_Meta (set_rtb_Labels (<[RtbCrbRbLabelsUpdated := "true"]> (rtb_Labels (prtb_Meta b))) (prtb_Meta b)) b).

(** Bindings of service accounts are left alone. *)
Definition mgmt_prtb_Create (obj : ProjectRoleTemplateBinding) : RM ProjectRoleTemplateBinding :=
  if prtb_ServiceAccount obj !=? "" then ret obj
  else let* obj := prtb_reconcileSubject obj in let* _ := prtb_reconcileBindings obj in ret obj.
Definition mgmt_prtb_Updated (obj : ProjectRoleTemplateBinding) : RM ProjectRoleTemplateBinding :=
  if prtb_ServiceAccount obj !=? "" then ret obj
  else
    let* obj := prtb_reconcileSubject obj in
    let* _ := prtb_reconcileLabels obj in
    let* _ := prtb_reconcileBindings obj in ret obj.
Definition mgmt_prtb_Remove (obj : ProjectRoleTemplateBinding) : RM unit :=
  match SplitN2 (prtb_ProjectName obj) ":" with
  | [clusterName; _] =>
      let rtbNsAndName := GetRTBLabel (prtb_Meta obj) in
      let* _ := reconcileProjectMembershipBindingForDelete clusterName "" rtbNsAndName in
      let* _ := reconcileClusterMembershipBindingForDelete "" rtbNsAndName in
      let* _ := removeMGMTProjectScopedPrivilegesInClusterNamespace obj clusterName in
      removeAuthV2Permissions PRTBRoleBindingID (aPRTB obj)
  | _ => fail (no_project (prtb_ProjectName obj))
  end.
End handlers.
