(* ===== verification/MgmtSafety.v ===== *)
(** * Who is a member, and who may change the objects of Rancher

    Properties of [MgmtAccess]: the removal of a binding of role templates takes away what it gave and nothing that another binding
    gives; what a binding of role templates may do in its namespace is what its templates allow. *)

From S2P Require Import Prelude GoLib Errors Types External World Instances Store Handlers Tokens Rbac RoleTemplates RbacStore Impersonation RoleBindings BindingSafety ProjectAccess PromotedRoles MgmtAccess.

(** ** Deletions *)

Definition dropped (l : list (string * string)) (w w' : RWorld) : Prop :=
  (honest_faults w -> honest_faults w')
  /\ forall key, rw_bindings w' !! key = if bool_decide (key ∈ l) then None else rw_bindings w !! key.

Lemma dropped_app l1 l2 w1 w2 w3 : dropped l1 w1 w2 -> dropped l2 w2 w3 -> dropped (l1 ++ l2) w1 w3.
Proof.
  intros [H1 H2] [K1 K2]. split; [auto|]. intros key. rewrite K2, H2. repeat case_bool_decide; set_solver.
Qed.

Lemma delete_dropped key w w' : obj_Delete kind_binding key w = (w', Ret tt) -> dropped [key] w w'.
Proof.
  intros (Hh & [(_ & Hno & _)|[Hb _]])%delete_spec; [by destruct (Hno tt)|]. split; [done|]. intros key'. rewrite Hb.
  case_bool_decide as Hin; [apply list_elem_of_singleton in Hin as ->; apply lookup_delete_eq|]. apply lookup_delete_ne. intros ->. apply Hin. left.
Qed.

Lemma ignoring_delete_dropped key w w' : honest_faults w -> ignoring IsNotFound (obj_Delete kind_binding key) w = (w', Ret tt) -> dropped [key] w w'.
Proof.
  intros Hho (r0 & Hd & Hr)%ignoring_run. destruct (Hr eq_refl) as [[[] ->]|(e & -> & He)]; [by apply delete_dropped|].
  apply delete_spec in Hd as (Hh & [(Hb & _ & Hnf)|[_ [=]]]). split; [done|]. intros key'. rewrite Hb.
  case_bool_decide as Hin; [|done]. apply list_elem_of_singleton in Hin as ->. by apply (Hnf e).
Qed.

Lemma loop_dropped {A} (keys : A -> list (string * string)) (body : A -> RM unit) l w w' :
  (forall a w w', a ∈ l -> honest_faults w -> body a w = (w', Ret tt) -> dropped (keys a) w w') -> honest_faults w ->
  for_fold l tt (fun _ a => body a) w = (w', Ret tt) -> dropped (concat (map keys l)) w w'.
Proof.
  revert w. induction l as [|a l IH]; intros w Hbody Hho.
  { intros [= <-]. split; [done|]. intros key. by rewrite bool_decide_false by (by intros ?%elem_of_nil). }
  rewrite for_fold_cons. intros ([] & w1 & H1 & H2)%bind_Ret. pose proof (Hbody a w w1 ltac:(left) Hho H1) as Hd.
  eapply dropped_app; [exact Hd|]. apply IH; [|by apply Hd|done]. intros a' w2 w2' Hin. apply Hbody. by right.
Qed.

Lemma collect_errors_none {A} (l : list A) body w w' :
  (let* errs := collect_errors l body in fail_with_errors errs) w = (w', Ret tt) -> for_fold l tt (fun _ a => body a) w = (w', Ret tt).
Proof.
  unfold collect_errors. intros (errs & w1 & Hc & Hf)%bind_Ret. destruct errs as [|e errs]; [|done]. injection Hf as <-.
  enough (forall acc, for_fold l acc (fun errs a => let* e := attempt_err (body a) in ret (errs ++ match e with Some err => [err] | None => [] end)) w = (w1, Ret []) ->
    for_fold l tt (fun _ a => body a) w = (w1, Ret tt) /\ acc = []) as Hall by (by apply (Hall [])). clear Hc.
  revert w. induction l as [|a l IH]; intros w acc; [by intros [= -> ->]|]. rewrite !for_fold_cons. intros (acc1 & w2 & H1 & H2)%bind_Ret.
  apply IH in H2 as [H2 ->]. apply bind_Ret in H1 as (e & w3 & He & [= -> Hnil]). apply app_eq_nil in Hnil as [-> Hnil].
  destruct e as [e|]; [done|]. split; [|done]. unfold attempt_err, attempt, bind, ret in He. unfold bind.
  destruct (body a w) as [w4 [[]|e|]]; simplify_eq/=. done.
Qed.

(** ** Membership *)

Definition owns_membership (rtb : string) (b : Binding) : Prop := b_Labels b !! rtb = Some MembershipBindingOwner.
#[global] Instance owns_membership_dec rtb b : Decision (owns_membership rtb b).
Proof. unfold owns_membership. apply _. Defined.
Definition shared (rtb : string) (b : Binding) : Prop := exists k, k <> rtb /\ b_Labels b !! k = Some MembershipBindingOwner.

(** What becomes of a binding when the membership of [rtb] is withdrawn, except through [keep]. *)
Definition withdrawn (rtb keep : string) (b : Binding) (o : option Binding) : Prop :=
  (ref_Name (b_RoleRef b) = keep \/ ~ owns_membership rtb b -> o = Some b)
  /\ (ref_Name (b_RoleRef b) <> keep -> owns_membership rtb b -> shared rtb b ->
        exists b', o = Some b' /\ b_Labels b' = delete rtb (b_Labels b) /\ b_Subjects b' = b_Subjects b /\ b_RoleRef b' = b_RoleRef b)
  /\ (ref_Name (b_RoleRef b) <> keep -> owns_membership rtb b -> ~ shared rtb b -> o = None).

Lemma shared_spec rtb b : List.existsb (other_owner rtb) (map_to_list (b_Labels b)) = true <-> shared rtb b.
Proof.
  rewrite List.existsb_exists. unfold shared, other_owner. split.
  - intros ([k v] & Hin%list_elem_of_In%elem_of_map_to_list & [Hk Hv]%andb_true_iff). apply bool_decide_eq_true in Hv as ->.
    exists k. split; [|done]. intros ->. by rewrite !bool_decide_true in Hk by done.
  - intros (k & Hk & Hl). exists (k, MembershipBindingOwner). split; [by apply list_elem_of_In, elem_of_map_to_list|].
    by rewrite (bool_decide_false (k = rtb)) by done.
Qed.

Lemma update_binding_Ret b w w' a : obj_Update kind_binding b w = (w', Ret a) ->
  (honest_faults w -> honest_faults w') /\ exists new, rw_bindings w' = <[(b_Namespace b, b_Name b) := new]> (rw_bindings w)
    /\ b_Labels new = b_Labels b /\ b_Subjects new = b_Subjects b /\ b_RoleRef new = b_RoleRef b /\ b_Namespace new = b_Namespace b /\ b_Name new = b_Name b.
Proof.
  unfold obj_Update. intros ([] & w1 & Hr & Hk)%bind_Ret. apply r_request_spec in Hr as (Hb & Hh & _).
  apply bind_Ret in Hk as (m & w2 & [= <- <-] & Hk). simpl in Hk. destruct (rw_bindings w1 !! (b_Namespace b, b_Name b)) as [cur|] eqn:Hcur; [|done].
  destruct (b_ResourceVersion cur =? b_ResourceVersion b)%Z; simpl in Hk; [|done]. case_bool_decide as Heq.
  - injection Hk as <- _. split; [done|]. exists b. rewrite <- Hb, insert_id by congruence. done.
  - injection Hk as <- _. split; [done|]. eexists. simpl. rewrite Hb. done.
Qed.

(** The loop over bindings that are stored as they are in the cache. *)
Lemma withdraw_loop ns keep rtb l w w' :
  NoDup (map b_Name l) -> (forall b, b ∈ l -> b_Namespace b = ns /\ rw_bindings w !! (ns, b_Name b) = Some b /\ owns_membership rtb b) -> honest_faults w ->
  reconcileMembershipBindingForDelete ns keep rtb l w = (w', Ret tt) ->
  honest_faults w'
  /\ (forall b, b ∈ l -> withdrawn rtb keep b (rw_bindings w' !! (ns, b_Name b)))
  /\ forall key, (forall b, b ∈ l -> key <> (ns, b_Name b)) -> rw_bindings w' !! key = rw_bindings w !! key.
Proof.
  unfold reconcileMembershipBindingForDelete. revert w. induction l as [|b l IH]; intros w Hnd Hl Hho.
  { intros [= <-]. split; [done|]. split; [by intros b ?%elem_of_nil|done]. }
  rewrite for_fold_cons. simpl in Hnd. apply NoDup_cons in Hnd as [Hnot Hnd]. intros ([] & w1 & H1 & H2)%bind_Ret.
  destruct (Hl b ltac:(left)) as (Hns & Hst & Hown).
  assert (forall b', b' ∈ l -> (ns, b_Name b') <> (ns, b_Name b)) as Hother.
  { intros b' Hin [= He]. apply Hnot. rewrite <- He. apply list_elem_of_In, in_map_iff. exists b'. split; [done|by apply list_elem_of_In]. }
  assert (honest_faults w1 /\ withdrawn rtb keep b (rw_bindings w1 !! (ns, b_Name b))
    /\ forall key, key <> (ns, b_Name b) -> rw_bindings w1 !! key = rw_bindings w !! key) as (Hho1 & Hw & Hsame).
  { destruct (bool_decide_reflect (ref_Name (b_RoleRef b) = keep)) as [Hk|Hk].
    { injection H1 as <-. split; [done|]. split; [|done]. rewrite Hst. repeat split; done. }
    destruct (List.existsb _ _) eqn:Hsh.
    - apply bind_Ret in H1 as (a & w2 & Hu & [= ->]). apply update_binding_Ret in Hu as (Hh & new & Hb & Hla & Hsu & Hro & _). simpl in *. rewrite Hns in Hb.
      split; [by apply Hh|]. split; [|intros key Hne; by rewrite Hb, lookup_insert_ne]. rewrite Hb, lookup_insert_eq.
      apply shared_spec in Hsh. split; [by intros [?|?]|]. split; [|done]. intros _ _ _. exists new. unfold disown in Hla. rewrite bool_decide_true in Hla by done. done.
    - apply ignoring_delete_dropped in H1 as [Hh Hd]; [|done]. split; [by apply Hh|].
      assert (~ shared rtb b) as Hns' by (intros ?%shared_spec; congruence).
      split; [|intros key Hne; rewrite Hd, bool_decide_false; [done|]; by intros ?%list_elem_of_singleton].
      rewrite Hd, bool_decide_true by left. split; [by intros [?|?]|]. split; done. }
  apply IH in H2 as (I1 & I2 & I3); [|done| |done].
  2: { intros b' Hin. destruct (Hl b' ltac:(by right)) as (? & ? & ?). rewrite Hsame by (by apply Hother). done. }
  split; [done|]. split.
  - intros b' [->|Hin]%elem_of_cons; [|by apply I2]. rewrite I3; [done|]. intros b' Hin He. by apply (Hother b').
  - intros key Hk. rewrite I3 by (intros b' Hin; apply Hk; by right). apply Hsame, Hk. left.
Qed.

Lemma membership_key ns rtb b : b_Namespace b = ns -> ns +:+ "/" +:+ rtb ∈ indexByMembershipBindingOwner b <-> owns_membership rtb b.
Proof.
  intros <-. unfold indexByMembershipBindingOwner, owns_membership. rewrite list_elem_of_In, in_map_iff. split.
  - intros ([k v] & He & [Hin Hv]%List.filter_In). apply bool_decide_eq_true in Hv as ->. do 2 apply app_inj_l in He. subst k.
    by apply list_elem_of_In, elem_of_map_to_list in Hin.
  - intros Hl. exists (rtb, MembershipBindingOwner). split; [done|]. apply List.filter_In. split; [|done]. by apply list_elem_of_In, elem_of_map_to_list.
Qed.

Lemma elem_of_concat_map {A B} (f : A -> list B) l x : x ∈ concat (map f l) <-> exists a, a ∈ l /\ x ∈ f a.
Proof. rewrite list_elem_of_In, in_concat. setoid_rewrite in_map_iff. setoid_rewrite <- list_elem_of_In. naive_solver. Qed.

Lemma concat_singletons {A B} (f : A -> B) l : concat (map (fun a => [f a]) l) = map f l.
Proof. induction l as [|a l IH]; [done|]. simpl. by rewrite IH. Qed.

Section removal.
Context `{E : External} `{R : RbacCaches} `{G : MgmtCaches} (GetSelectorFromOwner : string -> RTB -> res (gmap string string)).
Context (w : RWorld).
Hypothesis Hsync : bindings_synced w.
Hypothesis Hkeyed : stored_keyed w.

Lemma elem_of_membership rtb b : b ∈ crbIndexer_ByIndex indexByMembershipBindingOwner ("/" +:+ rtb) <->
  rw_bindings w !! ("", b_Name b) = Some b /\ owns_membership rtb b.
Proof.
  unfold crbIndexer_ByIndex. rewrite elem_of_filter_bool, andb_true_iff, !bool_decide_eq_true, (elem_of_synced w b Hsync). split.
  - intros ((key & Hb) & Hns & Hk). apply (membership_key "" rtb b Hns) in Hk. split; [|done]. rewrite (Hkeyed _ _ Hb), Hns in Hb. done.
  - intros [Hb Ho]. injection (Hkeyed _ _ Hb) as Hns. split; [by eexists|]. split; [done|]. by apply (membership_key "" rtb b).
Qed.

Lemma membership_NoDup rtb : NoDup (map b_Name (crbIndexer_ByIndex indexByMembershipBindingOwner ("/" +:+ rtb))).
Proof.
  unfold crbIndexer_ByIndex, bindings_synced in *. rewrite (Permutation_map b_Name (filter_bool_perm _ _ _ Hsync)).
  apply names_NoDup; [apply NoDup_fst_map_to_list|]. intros key b Hin%elem_of_map_to_list. by apply Hkeyed.
Qed.

(** What a binding of role templates in a cluster has given in the namespaces of the projects. *)
Definition project_grant (obj : ClusterRoleTemplateBinding) (b : Binding) : Prop :=
  b_Labels b !! GetRTBLabel (crtb_Meta obj) = Some CrtbInProjectBindingOwner
  /\ exists p, p ∈ projectCache /\ pr_Namespace p = rtb_Namespace (crtb_Meta obj) /\ pr_Name p = b_Namespace b.

Lemma selects_singleton k v labels : selects {[ k := v ]} labels = true <-> labels !! k = Some v.
Proof. unfold selects. by rewrite bool_decide_eq_true, map_Forall_singleton. Qed.

Definition project_keys (obj : ClusterRoleTemplateBinding) : list (string * string) :=
  concat (map (fun p => concat (map (fun rb => [(pr_Name p, b_Name rb)]) (rbLister_List (pr_Name p) {[ GetRTBLabel (crtb_Meta obj) := CrtbInProjectBindingOwner ]})))
    (projectLister_In (rtb_Namespace (crtb_Meta obj)))).

Lemma elem_of_project_keys obj key : key ∈ project_keys obj <-> exists b, rw_bindings w !! key = Some b /\ project_grant obj b.
Proof.
  unfold project_keys, project_grant, projectLister_In, rbLister_List. rewrite elem_of_concat_map. split.
  - intros (p & [Hp Hpn]%elem_of_filter_bool & (b & [Hb [Hns Hl]%andb_true_iff]%elem_of_filter_bool & ->%list_elem_of_singleton)%elem_of_concat_map).
    apply bool_decide_eq_true in Hns, Hpn. apply selects_singleton in Hl. apply (elem_of_synced w b Hsync) in Hb as [k Hb].
    exists b. split; [rewrite <- Hns, <- (Hkeyed _ _ Hb); done|]. split; [done|]. by exists p.
  - intros (b & Hb & Hl & p & Hp & Hpn & Hname). exists p. split; [apply elem_of_filter_bool; by rewrite bool_decide_eq_true|].
    apply elem_of_concat_map. exists b. rewrite list_elem_of_singleton, elem_of_filter_bool, andb_true_iff, bool_decide_eq_true, selects_singleton.
    split; [split; [apply (elem_of_synced w b Hsync); by eexists|done]|]. rewrite Hname. by apply Hkeyed.
Qed.

Lemma remove_projects_dropped obj w0 w' : honest_faults w0 ->
  removeMGMTClusterScopedPrivilegesInProjectNamespace obj w0 = (w', Ret tt) -> dropped (project_keys obj) w0 w'.
Proof.
  intros Hho. apply loop_dropped; [|done]. intros p w1 w2 _ Hho1. apply (loop_dropped (fun rb => [(pr_Name p, b_Name rb)])); [|done].
  intros rb w3 w4 _ _. apply delete_dropped.
Qed.

Lemma remove_applied_dropped setID owner selector w0 w' : honest_faults w0 -> GetSelectorFromOwner setID owner = Ret selector ->
  removeAuthV2Permissions GetSelectorFromOwner setID owner w0 = (w', Ret tt) ->
  dropped (map (fun b => (b_Namespace b, b_Name b)) (List.filter (fun b => (b_Namespace b !=? "") && selects selector (b_Labels b)) bindingCache)) w0 w'.
Proof.
  intros Hho Hsel. unfold removeAuthV2Permissions, bind at 1, lift. rewrite Hsel. intros Hr%collect_errors_none.
  apply (loop_dropped (fun b => [(b_Namespace b, b_Name b)])) in Hr; [|intros b w1 w2 _ Hho1; by apply ignoring_delete_dropped|done].
  by rewrite concat_singletons in Hr.
Qed.

(** Bindings of roles that were applied for the binding. *)
Definition applied_for (selector : gmap string string) (b : Binding) : Prop := b_Namespace b <> "" /\ selects selector (b_Labels b) = true.

Lemma elem_of_applied selector key :
  key ∈ map (fun b => (b_Namespace b, b_Name b)) (List.filter (fun b => (b_Namespace b !=? "") && selects selector (b_Labels b)) bindingCache)
  <-> exists b, rw_bindings w !! key = Some b /\ applied_for selector b.
Proof.
  rewrite list_elem_of_In, in_map_iff. setoid_rewrite <- list_elem_of_In. setoid_rewrite elem_of_filter_bool. setoid_rewrite andb_true_iff.
  setoid_rewrite negb_true_iff. setoid_rewrite bool_decide_eq_false. unfold applied_for. split.
  - intros (b & <- & Hb & ?). apply (elem_of_synced w b Hsync) in Hb as [k Hb]. exists b. split; [by rewrite <- (Hkeyed _ _ Hb)|done].
  - intros (b & Hb & ?). exists b. split; [by rewrite (Hkeyed _ _ Hb)|]. split; [|done]. apply (elem_of_synced w b Hsync). by eexists.
Qed.
End removal.

(** C30: When a binding of role templates in a cluster was removed successfully, with an up-to-date cache: of the memberships in the
    cluster those that no other binding of role templates shares are gone, and those that are shared stay for the others, with the
    same role and subject; in the namespaces of the projects and among the applied roles what was made for it is gone; every other
    binding is as it was, and there is no new one. *)
Theorem crtb_removal_exact `{E : External} `{R : RbacCaches} GetSelectorFromOwner selector obj w w' :
  bindings_synced w -> stored_keyed w -> honest_faults w -> (forall p, p ∈ projectCache -> pr_Name p <> "") ->
  GetSelectorFromOwner CRTBRoleBindingID (aCRTB obj) = Ret selector ->
  mgmt_crtb_Remove GetSelectorFromOwner obj w = (w', Ret tt) ->
  (forall name b, rw_bindings w !! ("", name) = Some b -> withdrawn (GetRTBLabel (crtb_Meta obj)) "" b (rw_bindings w' !! ("", name)))
  /\ (forall ns name b, ns <> "" -> rw_bindings w !! (ns, name) = Some b ->
        (project_grant obj b \/ applied_for selector b -> rw_bindings w' !! (ns, name) = None)
        /\ (~ project_grant obj b -> ~ applied_for selector b -> rw_bindings w' !! (ns, name) = Some b))
  /\ forall key, rw_bindings w !! key = None -> rw_bindings w' !! key = None.
Proof.
  intros Hsync Hkeyed Hho Hp Hsel. unfold mgmt_crtb_Remove. set (rtb := GetRTBLabel (crtb_Meta obj)).
  intros ([] & w1 & H1 & Hr)%bind_Ret. apply bind_Ret in Hr as ([] & w2 & H2 & H3).
  pose proof (fun b => elem_of_membership w Hsync Hkeyed rtb b) as Hm.
  apply withdraw_loop in H1 as (Hho1 & Hin & Hout); [|by apply (membership_NoDup w)| |done].
  2: { intros b [Hb Ho]%Hm. injection (Hkeyed _ _ Hb) as Hns. done. }
  apply remove_projects_dropped in H2; [|done]. destruct H2 as [Hho2 Hd2]. specialize (Hho2 Hho1).
  apply (remove_applied_dropped _ _ _ selector) in H3 as [_ Hd3]; [|done..].
  assert (forall key, fst key = "" -> rw_bindings w' !! key = rw_bindings w1 !! key) as Hcluster.
  { intros [ns name] Hns. simpl in Hns. subst ns. rewrite Hd3, bool_decide_false, Hd2, bool_decide_false; [done|..].
    - intros (b & Hb & _ & p & Hpin & _ & He)%(elem_of_project_keys w Hsync Hkeyed). injection (Hkeyed _ _ Hb) as Hns. apply (Hp p Hpin). congruence.
    - intros (b & Hb & Hne & _)%(elem_of_applied w Hsync Hkeyed). by injection (Hkeyed _ _ Hb) as Hns. }
  assert (forall key, fst key <> "" -> rw_bindings w1 !! key = rw_bindings w !! key) as Hspaces.
  { intros [ns name] Hns. apply Hout. by intros b _ [= ? _]. }
  split; [|split].
  - intros name b Hb. rewrite Hcluster by done. injection (Hkeyed _ _ Hb) as Hns Hname. subst name.
    destruct (decide (owns_membership rtb b)) as [Ho|Ho]; [by apply Hin, Hm|]. rewrite Hout.
    + rewrite Hb. split; [done|]. by split.
    + intros b' [Hb' Ho']%Hm [= He]. rewrite He in Hb. congruence.
  - intros ns name b Hns Hb. rewrite Hd3, Hd2, Hspaces by done. split.
    + intros [Hg|Ha]; [|by rewrite bool_decide_true by (apply (elem_of_applied w Hsync Hkeyed); by exists b)].
      case_bool_decide; [done|]. by rewrite bool_decide_true by (apply (elem_of_project_keys w Hsync Hkeyed); by exists b).
    + intros Hg Ha. rewrite !bool_decide_false; [done|..].
      * intros (b' & Hb' & ?)%(elem_of_project_keys w Hsync Hkeyed). congruence.
      * intros (b' & Hb' & ?)%(elem_of_applied w Hsync Hkeyed). congruence.
  - intros [ns name] Hnone. destruct (decide (ns = "")) as [->|Hns].
    + rewrite Hcluster, Hout; [done| |done]. intros b [Hb _]%Hm [= ->]. congruence.
    + rewrite Hd3, Hd2, Hspaces by done. rewrite Hnone. by repeat case_bool_decide.
Qed.

(** ** What a template allows on the objects of a namespace *)

Definition still (w w' : RWorld) : Prop := quiet w w' /\ rw_crCache w' = rw_crCache w.
#[global] Instance still_preorder : PreOrder still.
Proof. split; [by intros w|]. intros w1 w2 w3 [H1 H2] [K1 K2]. split; [by transitivity w2|congruence]. Qed.

Lemma still_request : keeps still r_request.
Proof.
  intros w _. destruct (quiet_request w I) as (_ & Hq & _). split; [done|]. split; [|done]. split; [done|].
  unfold r_request, on_base. by destruct (api_request (rw_base w)).
Qed.
Lemma still_counter n w : still w (set_rw_counter n w).
Proof. done. Qed.
Lemma still_set_roles m w : still w (set_rw_roles m w).
Proof. done. Qed.

Lemma still_honest w w' : still w w' -> honest_faults w -> honest_faults w'.
Proof. intros [Hq _]. by apply quiet_honest. Qed.

(** The rules that count for a template. *)
Definition template_rules (w : RWorld) (role : RoleTemplate) : list PolicyRule :=
  if rt_External role then match rw_crCache w !! rt_Name role with Some cr => cr_Rules cr | None => [] end else rt_Rules role.

Definition wanted (w : RWorld) (resources : gmap string string) (skip : string -> bool) (role : RoleTemplate) (resource : string) (verbs : gmap string string) : Prop :=
  exists apiGroup, resources !! resource = Some apiGroup /\ skip resource = false /\ verbs = management_verbs resource apiGroup (template_rules w role) /\ verbs <> ∅.

(** A template grants something in a namespace. *)
Definition granting (w : RWorld) (resources : gmap string string) (skip : string -> bool) (role : RoleTemplate) : Prop :=
  exists resource verbs, wanted w resources skip role resource verbs.

(** A verb counts if a rule without names has it for the resource and the group. *)
Lemma elem_of_management_verbs resource apiGroup rules v :
  is_Some (management_verbs resource apiGroup rules !! v) <->
  exists rule, rule ∈ rules /\ v ∈ r_Verbs rule /\ covers resource rule = true /\ slice_of (r_ResourceNames rule) = [] /\ checkGroup apiGroup rule = true.
Proof.
  unfold management_verbs. match goal with |- is_Some (fold_left ?f rules ∅ !! v) <-> _ => set (step := f) end.
  assert (forall verbs m, is_Some (fold_left (fun (m : gmap string string) v => <[v := apiGroup]> m) verbs m !! v) <-> v ∈ verbs \/ is_Some (m !! v)) as Hin.
  { intros verbs. induction verbs as [|x verbs IH]; intros m; simpl; [rewrite elem_of_nil; tauto|]. rewrite IH, elem_of_cons.
    destruct (decide (v = x)) as [->|Hne]; [rewrite lookup_insert_eq; split; [auto|]; intros _; right; by eexists|]. rewrite lookup_insert_ne by done. tauto. }
  enough (forall m, is_Some (fold_left step rules m !! v) <-> is_Some (m !! v) \/ exists rule, rule ∈ rules /\ v ∈ r_Verbs rule
    /\ covers resource rule = true /\ slice_of (r_ResourceNames rule) = [] /\ checkGroup apiGroup rule = true) as Hall.
  { rewrite Hall, lookup_empty. split; [intros [[? ?]|?]; done|by right]. }
  induction rules as [|rule rules IH]; intros m; simpl.
  { split; [by left|]. intros [?|(r & ?%elem_of_nil & _)]; done. }
  rewrite IH, (exists_cons (fun r => v ∈ r_Verbs r /\ covers resource r = true /\ slice_of (r_ResourceNames r) = [] /\ checkGroup apiGroup r = true)). unfold step at 1.
  destruct (covers resource rule && bool_decide (slice_of (r_ResourceNames rule) = []) && checkGroup apiGroup rule) eqn:Hc.
  - apply andb_true_iff in Hc as [[H1 H2%bool_decide_eq_true]%andb_true_iff H3]. rewrite Hin. tauto.
  - split; [tauto|]. intros [?|[(H0 & H1 & H2 & H3)|?]]; [tauto| |tauto]. by rewrite H1, H3, bool_decide_true in Hc.
Qed.

Section plane.
Context `{E : External} `{R : RbacCaches} `{G : MgmtCaches} `{O : MapOrder}.

Lemma checkForManagementPlaneRules_spec role resource apiGroup w :
  checkForManagementPlaneRules role resource apiGroup w = (w, Ret (management_verbs resource apiGroup (template_rules w role))).
Proof.
  unfold checkForManagementPlaneRules, template_rules, crLister_Get, attempt, bind, gets, ret. destruct (rt_External role); [|done].
  by destruct (rw_crCache w !! rt_Name role).
Qed.

Lemma resource_verbs_spec role resources skip w : exists m, resource_verbs role resources skip w = (w, Ret m)
  /\ forall resource verbs, m !! resource = Some verbs <-> wanted w resources skip role resource verbs.
Proof.
  unfold resource_verbs, wanted. set (l := range "resources" resources).
  assert (forall resource g, (resource, g) ∈ l <-> resources !! resource = Some g) as Hl by (intros; apply elem_of_ordered).
  setoid_rewrite <- Hl.
  assert (NoDup (map fst l)) as Hnd by (unfold l; rewrite range_perm; apply NoDup_fst_map_to_list). clearbody l. clear Hl.
  enough (forall acc : gmap string (gmap string string), (forall resource, resource ∈ map fst l -> acc !! resource = None) -> exists m,
    for_fold l acc (fun acc '(resource, apiGroup) => if skip resource then ret acc
      else let* verbs := checkForManagementPlaneRules role resource apiGroup in ret (if bool_decide (verbs = ∅) then acc else <[resource := verbs]> acc)) w = (w, Ret m)
    /\ forall resource verbs, m !! resource = Some verbs <-> acc !! resource = Some verbs \/ exists apiGroup, (resource, apiGroup) ∈ l /\ skip resource = false
         /\ verbs = management_verbs resource apiGroup (template_rules w role) /\ verbs <> ∅) as Hall.
  { destruct (Hall ∅) as (m & Hm & Hs); [done|]. exists m. split; [done|]. intros resource verbs. rewrite Hs, lookup_empty. naive_solver. }
  induction l as [|[resource g] l IH]; intros acc Hacc.
  { exists acc. split; [done|]. intros. split; [by left|]. intros [?|(? & ?%elem_of_nil & _)]; done. }
  simpl in Hnd. apply NoDup_cons in Hnd as [Hn Hnd]. simpl in Hacc.
  set (verbs0 := management_verbs resource g (template_rules w role)).
  destruct (IH Hnd (if skip resource then acc else if bool_decide (verbs0 = ∅) then acc else <[resource := verbs0]> acc)) as (m & Hm & Hs).
  { intros r Hr. assert (acc !! r = None) by (apply Hacc; by right). destruct (skip resource); [done|]. case_bool_decide; [done|].
    rewrite lookup_insert_ne; [done|]. by intros <-. }
  exists m. split.
  - rewrite for_fold_cons. unfold bind at 1. destruct (skip resource); [exact Hm|]. unfold bind at 1. rewrite checkForManagementPlaneRules_spec. exact Hm.
  - intros r verbs. rewrite Hs. pose proof (Hacc resource ltac:(left)) as Hnone.
    assert ((if skip resource then acc else if bool_decide (verbs0 = ∅) then acc else <[resource := verbs0]> acc) !! r = Some verbs
      <-> acc !! r = Some verbs \/ (r = resource /\ skip r = false /\ verbs = verbs0 /\ verbs <> ∅)) as Hstep.
    { destruct (skip resource) eqn:Hsk; [|case_bool_decide as He; [|rewrite lookup_insert_Some]].
      - split; [by left|]. intros [?|(-> & Hx & _)]; [done|congruence].
      - split; [by left|]. intros [?|(-> & _ & -> & Hx)]; [done|by destruct Hx].
      - split.
        + intros [[-> <-]|[_ ?]]; [right; by rewrite Hsk|by left].
        + intros [Hv|(-> & _ & -> & _)]; [right; split; [intros <-; congruence|done]|by left]. }
    rewrite Hstep. split.
    + intros [[?|(-> & ? & -> & ?)]|(g' & Hin & Hx)]; [by left|right; exists g; split; [left|done]|right; exists g'; split; [by right|done]].
    + intros [?|(g' & [[= -> ->]|Hin]%elem_of_cons & Hx)]; [by left; left|left; right; by destruct Hx as (? & -> & ?)|right; by exists g'].
Qed.

Lemma still_reconcileManagementPlaneRole ns rtv rt : keeps still (reconcileManagementPlaneRole ns rtv rt).
Proof.
  assert (forall a, keeps still (obj_Update kind_role a)) as Hu by (intros; apply keeps_obj_Update; first [apply _|apply still_request|apply still_set_roles]).
  assert (forall a, keeps still (attempt (obj_Create kind_role a))) as Hc
    by (intros; apply keeps_attempt, keeps_obj_Create; first [apply _|apply still_request|apply still_counter|apply still_set_roles]).
  assert (forall ns, keeps still (namespace_terminating ns)) as Ht.
  { intros ns'. unfold keeps, namespace_terminating. eapply runs_bind; [apply _|apply (keeps_wrapping still)|intros n _; runs_auto]. unfold keeps. runs_auto. }
  unfold keeps, reconcileManagementPlaneRole in *. runs_auto.
Qed.

Lemma granting_still w w' resources skip role : still w w' -> granting w' resources skip role <-> granting w resources skip role.
Proof. intros [_ Hc]. unfold granting, wanted, template_rules. by rewrite Hc. Qed.

(** The bindings that are wanted after every role was looked at. *)
Lemma grant_roles_spec roles ns resources skip desired w w' m :
  (forall k1 k2 r1 r2, roles !! k1 = Some r1 -> roles !! k2 = Some r2 -> b_Name (desired r1) = b_Name (desired r2) -> r1 = r2) ->
  grant_roles roles ns resources skip desired w = (w', Ret m) ->
  still w w' /\ forall name b, m !! name = Some b <-> exists k role, roles !! k = Some role /\ granting w resources (skip role) role /\ name = b_Name (desired role) /\ b = desired role.
Proof.
  unfold grant_roles. set (l := range "grant" roles).
  assert (forall k role, (k, role) ∈ l <-> roles !! k = Some role) as Hl by (intros; apply elem_of_ordered). setoid_rewrite <- Hl. clearbody l. clear Hl. intros Hinj Hrun.
  enough (forall acc, (forall name b, acc !! name = Some b -> forall k role, (k, role) ∈ l -> name = b_Name (desired role) -> b = desired role) ->
    for_fold l acc (fun acc '(_, role) => let* resourceToVerbs := resource_verbs role resources (skip role) in
      if bool_decide (resourceToVerbs = ∅) then ret acc
      else let* _ := reconcileManagementPlaneRole ns resourceToVerbs role in
           ret (match acc !! b_Name (desired role) with Some _ => acc | None => <[b_Name (desired role) := desired role]> acc end)) w = (w', Ret m) ->
    still w w' /\ forall name b, m !! name = Some b <-> acc !! name = Some b
      \/ exists k role, (k, role) ∈ l /\ granting w resources (skip role) role /\ name = b_Name (desired role) /\ b = desired role) as Hall.
  { destruct (Hall ∅) as [H1 H2]; [by intros ? ? ?%lookup_empty_Some|done|]. split; [done|]. intros name b. rewrite H2, lookup_empty. naive_solver. }
  clear Hrun. revert w. induction l as [|[k role] l IH]; intros w acc Hacc.
  { intros [= <- <-]. split; [done|]. intros name b. split; [by left|]. intros [?|(? & ? & ?%elem_of_nil & _)]; done. }
  rewrite for_fold_cons. intros (acc1 & w1 & H1 & H2)%bind_Ret. destruct (resource_verbs_spec role resources (skip role) w) as (rtv & Hv & Hrtv).
  apply bind_Ret in H1 as (rtv' & w0 & Hv' & H1). rewrite Hv in Hv'. injection Hv' as <- <-.
  assert (still w w1 /\ forall name b, acc1 !! name = Some b <-> acc !! name = Some b \/ (granting w resources (skip role) role /\ name = b_Name (desired role) /\ b = desired role))
    as [Hst Hacc1].
  { case_bool_decide as He.
    - injection H1 as <- <-. split; [done|]. intros name b. split; [by left|]. intros [?|((r & v & Hw) & _)]; [done|]. apply Hrtv in Hw. by rewrite He in Hw.
    - assert (granting w resources (skip role) role) as Hg.
      { apply map_choose in He as (r & v & Hr). exists r, v. by apply Hrtv. }
      apply bind_Ret in H1 as ([] & w2 & Hrec & [= -> <-]). split; [eapply keeps_ran; [apply still_reconcileManagementPlaneRole|exact Hrec]|].
      intros name b. destruct (acc !! b_Name (desired role)) as [b0|] eqn:Hb0.
      + split; [by left|]. intros [?|(_ & -> & ->)]; [done|]. rewrite Hb0. f_equal. apply (Hacc _ _ Hb0 k role); [left|done].
      + rewrite lookup_insert_Some. split; [intros [[<- <-]|[_ ?]]; [by right|by left]|]. intros [Hx|(_ & -> & ->)]; [right; split; [intros <-; congruence|done]|by left]. }
  apply IH in H2 as [Hst2 Hm].
  - split; [by transitivity w1|]. intros name b. rewrite Hm, Hacc1. setoid_rewrite (granting_still _ _ _ _ _ Hst). split.
    + intros [[?|Hx]|(k' & r' & Hin & Hx)]; [by left|right; exists k, role; split; [left|done]|right; exists k', r'; split; [by right|done]].
    + intros [?|(k' & r' & [[= -> ->]|Hin]%elem_of_cons & Hx)]; [by left; left|by left; right|right; by exists k', r'].
  - intros k1 k2 r1 r2 Hi1 Hi2. apply (Hinj k1 k2); by right.
  - intros name b [Hx|(_ & -> & ->)]%Hacc1 k' r' Hin He; [apply (Hacc _ _ Hx k' r'); [by right|done]|].
    rewrite (Hinj k k' role r'); [done|left|by right|done].
Qed.

Lemma compare_names_spec l processed desired del desired' del' :
  NoDup (map b_Name l) -> (forall b, b ∈ l -> b_Name b ∉ processed) -> compare_names l processed desired del = (desired', del') ->
  (forall n, desired' !! n = if bool_decide (n ∈ map b_Name l) then None else desired !! n)
  /\ forall n, n ∈ dom del' <-> n ∈ dom del \/ (n ∈ map b_Name l /\ desired !! n = None).
Proof.
  revert processed desired del. induction l as [|b l IH]; intros processed desired del Hnd Hp.
  { intros [= <- <-]. split; [done|]. intros n. split; [by left|]. intros [?|[?%elem_of_nil _]]; done. }
  cbn [compare_names map]. simpl in Hnd. apply NoDup_cons in Hnd as [Hn Hnd]. rewrite bool_decide_false by (apply Hp; left).
  assert (forall b', b' ∈ l -> b_Name b' ∉ {[b_Name b]} ∪ processed) as Hp'.
  { intros b' Hin [He%elem_of_singleton|He]%elem_of_union; [|by apply (Hp b'); [by right|]]. apply Hn. rewrite <- He.
    apply list_elem_of_In, in_map_iff. exists b'. split; [done|by apply list_elem_of_In]. }
  destruct (desired !! b_Name b) as [d|] eqn:Hd; intros Hc; apply IH in Hc as [I1 I2]; [|done..| |done|done]; (split; [intros n; rewrite I1|intros n; rewrite I2]).
  - destruct (decide (n = b_Name b)) as [->|Hne]; [rewrite lookup_delete_eq; repeat case_bool_decide; set_solver|]. rewrite lookup_delete_ne by done.
    repeat case_bool_decide; set_solver.
  - destruct (decide (n = b_Name b)) as [->|Hne]; [rewrite lookup_delete_eq, Hd; set_solver|]. rewrite lookup_delete_ne by done. set_solver.
  - destruct (decide (n = b_Name b)) as [->|Hne]; [rewrite Hd; repeat case_bool_decide; set_solver|]. repeat case_bool_decide; set_solver.
  - rewrite dom_insert. destruct (decide (n = b_Name b)) as [->|Hne]; set_solver.
Qed.

(** *** The templates that count *)

Lemma gather_subs_names templates gather names acc m :
  gather_subs templates gather names acc = Ret m -> gather_names templates gather names acc = Ret m.
Proof.
  revert acc. induction names as [|x names IH]; intros acc; simpl; [done|]. destruct (rtLister_Get templates x) as [b| |]; [|done..]. simpl.
  destruct (gather b acc) as [m1| |]; [|done..]. apply IH.
Qed.

Lemma gatherAndDedupeRoles_closure templates name roles : keyed templates -> gatherAndDedupeRoles templates name = Ret roles ->
  exists rt, templates !! name = Some rt /\ reaches templates rt roles.
Proof.
  intros Hkeyed. unfold gatherAndDedupeRoles, rtLister_Get. destruct (templates !! name) as [rt|] eqn:Hrt; [|done]. cbn [res_bind].
  intros (m & Hm & [= <-])%res_bind_Ret. exists rt. split; [done|].
  assert (forall n rt acc m, templates !! rt_Name rt = Some rt -> from_cache templates acc -> gatherRoleTemplates templates n rt acc = Ret m ->
    from_cache templates m /\ forall name, name ∈ dom m <-> name ∈ dom acc \/ reached templates rt name) as Hall.
  { clear -Hkeyed. intros n. induction n as [|n IH]; intros rt acc m Hrt Hacc; simpl; [done|]. intros H1%gather_subs_names.
    assert (from_cache templates (<[rt_Name rt := rt]> acc)) as Hacc'.
    { intros name t. rewrite lookup_insert_Some. intros [[<- <-]|[_ Ht]]; [by exists rt|by apply Hacc]. }
    apply gather_names_spec in H1 as [Hm1 Hd1]; [|done|exact IH|exact Hacc']. split; [done|]. intros name.
    rewrite Hd1, dom_insert, elem_of_union, elem_of_singleton. split.
    - intros [[->|?]|(x & b & Hx & Hb & t & Ht & Hn)]; [right; by exists rt|by left|]. right. exists t. split; [|done]. eapply rtc_l; [|done]. by exists x.
    - intros [?|(t & Ht & <-)]; [by left; right|]. inversion Ht as [|? b ? (x & Hx & Hb) Hr]; subst; [by left; left|]. right. exists x, b. split; [done|]. split; [done|]. by exists t. }
  apply Hall in Hm as [Hc Hd]; [|by rewrite (Hkeyed _ _ Hrt)|done]. intros k t. unfold ToLowerRoleTemplates. rewrite lookup_fmap, fmap_Some. split.
  - intros (c & Hk & ->). assert (k ∈ dom m) as Hin by (apply elem_of_dom; by eexists). apply Hd in Hin as [?|(t0 & Ht0 & <-)]; [set_solver|].
    exists t0. split; [done|]. split; [done|]. destruct (Hc _ _ Hk) as (c' & Hc' & ->).
    assert (templates !! rt_Name t0 = Some t0) by (eapply rtc_cached; [done|by rewrite (Hkeyed _ _ Hrt)|done]). congruence.
  - intros (t0 & Ht0 & <- & ->). assert (rt_Name t0 ∈ dom m) as [c Hk]%elem_of_dom by (apply Hd; right; by exists t0). exists c. split; [done|].
    destruct (Hc _ _ Hk) as (c' & Hc' & ->).
    assert (templates !! rt_Name t0 = Some t0) by (eapply rtc_cached; [done|by rewrite (Hkeyed _ _ Hrt)|done]). congruence.
Qed.

(** *** The bindings in the namespace *)

Lemma by_name_spec l n b : by_name l !! n = Some b -> b ∈ l /\ b_Name b = n.
Proof.
  unfold by_name. enough (forall m : gmap string Binding, fold_left (fun m rb => <[b_Name rb := rb]> m) l m !! n = Some b -> (b ∈ l /\ b_Name b = n) \/ m !! n = Some b) as Hall
    by (intros [?|?%lookup_empty_Some]%Hall; done).
  induction l as [|a l IH]; intros m; simpl; [by right|]. intros [[? ?]|[[<- <-]|[_ ?]]%lookup_insert_Some]%IH; [left; split; [by right|done]|left; split; [left|done]|by right].
Qed.

Lemma by_name_dom l n : n ∈ dom (by_name l) <-> n ∈ map b_Name l.
Proof.
  unfold by_name. enough (forall m : gmap string Binding, n ∈ dom (fold_left (fun m rb => <[b_Name rb := rb]> m) l m) <-> n ∈ map b_Name l \/ n ∈ dom m) as Hall
    by (rewrite Hall; set_solver).
  induction l as [|a l IH]; intros m; simpl; [set_solver|]. rewrite IH. set_solver.
Qed.

Lemma current_names l place : map b_Name (map snd (range place (by_name l))) = map fst (range place (by_name l)).
Proof.
  rewrite map_map. apply map_ext_in. intros [n b] Hin%list_elem_of_In%elem_of_ordered. simpl. by apply by_name_spec in Hin as [_ ?].
Qed.

Lemma elem_of_range_fst {A} place (m : gmap string A) n : n ∈ map fst (range place m) <-> n ∈ dom m.
Proof.
  rewrite list_elem_of_In, in_map_iff, elem_of_dom. setoid_rewrite <- list_elem_of_In. split.
  - intros ([k a] & <- & ?%elem_of_ordered). by eexists.
  - intros [a Ha]. exists (n, a). split; [done|]. by apply elem_of_ordered.
Qed.

(** A binding that is there, goes by one of the names [l], and is not wanted. *)
Definition unwanted (l : list Binding) (desired : gmap string Binding) (ns : string) (key : string * string) : Prop :=
  exists name, name ∈ map b_Name l /\ desired !! name = None /\ key = (ns, name).

Lemma reconcileDesired_spec l desired ns n w w' :
  honest_faults w -> nsLister_Get ns = Ret n -> n_Phase n <> "Terminating" -> (forall name b, desired !! name = Some b -> b_Namespace b = ns /\ b_Name b = name) ->
  reconcileDesiredMGMTPlaneRoleBindings (by_name l) desired ns w = (w', Ret tt) ->
  (forall name b, desired !! name = Some b -> name ∉ map b_Name l -> is_Some (rw_bindings w' !! (ns, name)))
  /\ (forall key b, rw_bindings w !! key = Some b -> ~ unwanted l desired ns key -> rw_bindings w' !! key = Some b)
  /\ (forall key b, rw_bindings w' !! key = Some b -> (rw_bindings w !! key = Some b /\ ~ unwanted l desired ns key)
        \/ exists name d, desired !! name = Some d /\ key = (ns, name) /\ b = new_binding d).
Proof.
  intros Hho Hns Hph Hd. unfold reconcileDesiredMGMTPlaneRoleBindings. destruct (compare_names _ _ _ _) as [desired' del] eqn:Hc.
  apply compare_names_spec in Hc as [Hd' Hdel]; [|rewrite current_names, range_perm; apply NoDup_fst_map_to_list|intros b _; apply not_elem_of_empty].
  assert (forall x, x ∈ map b_Name (map snd (range "current" (by_name l))) <-> x ∈ map b_Name l) as Hcur
    by (intros; by rewrite current_names, elem_of_range_fst, by_name_dom).
  assert (forall name d, desired' !! name = Some d -> desired !! name = Some d) as Hsub by (intros name d; rewrite Hd'; by case_bool_decide).
  intros ([] & w1 & H1 & H2)%bind_Ret.
  apply (loop_dropped (fun '(name, _) => [(ns, name)])) in H1 as [Hh1 Hdr]; [|intros [name []] w2 w3 _ _; apply delete_dropped|done].
  assert (forall key, key ∈ concat (map (fun '(name, _) => [(ns, name)]) (range "delete" del)) <-> unwanted l desired ns key) as Hkeys.
  { intros key. rewrite elem_of_concat_map. unfold unwanted. split.
    - intros ([name []] & Hin%elem_of_ordered & ->%list_elem_of_singleton). exists name. assert (name ∈ dom del) as Hx by (apply elem_of_dom; by eexists).
      apply Hdel in Hx as [?|[Hx ?]]; [set_solver|]. by rewrite Hcur in Hx.
    - intros (name & Hx & Hnone & ->). assert (name ∈ dom del) as [[] Hin]%elem_of_dom by (apply Hdel; right; by rewrite Hcur).
      exists (name, tt). split; [by apply elem_of_ordered|]. by apply list_elem_of_singleton. }
  setoid_rewrite <- Hkeys. unfold namespace_terminating, wrapping, lift, attempt, bind, ret in H2. rewrite Hns in H2. rewrite bool_decide_false in H2 by done.
  apply (creating_loop (fun _ => True) (fun rb => ignoring IsAlreadyExists (obj_Create kind_binding rb)) ns) in H2 as (_ & [Ha1 Ha2] & Hex); [|done|].
  2: { intros k rb w2 w3 r Hin%elem_of_ordered%Hsub%Hd Hrun. apply (ignoring_create_spec ns k) in Hrun as (K1 & K2 & K3); [auto|apply Hin]. }
  split; [|split].
  - intros name d Hl Hn. assert (desired' !! name = Some d) as Hl' by (rewrite Hd', bool_decide_false by (by rewrite Hcur); done).
    destruct (Hd _ _ Hl) as [_ <-]. apply (Hex eq_refl (Hh1 Hho) I (b_Name d)). by apply elem_of_ordered.
  - intros key b Hb Hu. apply Ha1. by rewrite Hdr, bool_decide_false.
  - intros key b [Hb|(name & d & Hin%elem_of_ordered%Hsub & -> & ->)]%Ha2.
    + left. rewrite Hdr in Hb. by case_bool_decide.
    + right. exists name, d. destruct (Hd _ _ Hin) as [_ ->]. done.
Qed.

(** A template says something of an object of the namespace: with its rules in lower case, one without names has a verb for it or
    for all resources, in its group or in all. *)
Definition speaks_of (w : RWorld) (resources : gmap string string) (t : RoleTemplate) : Prop :=
  exists t' resource apiGroup rule v, lowered t t' /\ resources !! resource = Some apiGroup /\ rule ∈ template_rules w t' /\ v ∈ r_Verbs rule
    /\ (resource ∈ r_Resources rule \/ "*" ∈ r_Resources rule) /\ slice_of (r_ResourceNames rule) = [] /\ in_group rule apiGroup.

Lemma covers_spec resource rule : covers resource rule = true <-> resource ∈ r_Resources rule \/ "*" ∈ r_Resources rule.
Proof. unfold covers. by rewrite orb_true_iff, !ContainsString_spec. Qed.
Lemma checkGroup_in apiGroup rule : checkGroup apiGroup rule = true <-> in_group rule apiGroup.
Proof.
  unfold checkGroup, in_group. rewrite List.existsb_exists. setoid_rewrite <- list_elem_of_In. setoid_rewrite orb_true_iff. setoid_rewrite bool_decide_eq_true.
  split; [intros (g & Hg & [->| ->]); auto|]. intros [?|?]; eexists; eauto.
Qed.

Lemma granting_speaks w resources t : granting w resources (fun _ => false) (lower_template t) <-> speaks_of w resources t.
Proof.
  unfold granting, wanted, speaks_of. setoid_rewrite <- checkGroup_in. setoid_rewrite <- covers_spec. split.
  - intros (resource & verbs & g & Hr & _ & -> & Hne). apply map_choose in Hne as (v & x & Hv).
    assert (is_Some (management_verbs resource g (template_rules w (lower_template t)) !! v)) as (rule & ?)%elem_of_management_verbs by (by eexists).
    exists (lower_template t), resource, g, rule, v. split; [by apply lowered_spec|]. tauto.
  - intros (t' & resource & g & rule & v & Hl & Hr & Hx). apply lowered_spec in Hl as ->. eexists resource, _, g. repeat split; [done|].
    intros He. assert (is_Some (management_verbs resource g (template_rules w (lower_template t)) !! v)) as [x Hv] by (apply elem_of_management_verbs; exists rule; tauto). by rewrite He in Hv.
Qed.

(** The bindings of a binding of role templates in its namespace: they name it as their owner. *)
Definition owned (meta : RTBMeta) (b : Binding) : Prop := rtb_UID meta ∈ map or_UID (b_OwnerReferences b).
Definition plane_name (meta : RTBMeta) (role : string) : string := rtb_Name meta +:+ "-" +:+ role.
Definition serves (meta : RTBMeta) (subject : Subject) (role : string) (b : Binding) : Prop :=
  owned meta b /\ b_Subjects b = [subject] /\ b_RoleRef b = mkRoleRef "Role" role.

Lemma elem_of_owned_names w meta name : bindings_synced w -> stored_keyed w -> rtb_Namespace meta <> "" ->
  (forall ns x b, rw_bindings w !! (ns, x) = Some b -> ns <> "" -> owned meta b -> ns = rtb_Namespace meta) ->
  name ∈ map b_Name (rbIndexer_ByIndex rbByOwner (rtb_UID meta)) <-> exists b, rw_bindings w !! (rtb_Namespace meta, name) = Some b /\ owned meta b.
Proof.
  intros Hsync Hkeyed Hne Hone. unfold rbIndexer_ByIndex. rewrite list_elem_of_In, in_map_iff. setoid_rewrite <- list_elem_of_In.
  setoid_rewrite elem_of_filter_bool. setoid_rewrite andb_true_iff. setoid_rewrite negb_true_iff. setoid_rewrite bool_decide_eq_false. setoid_rewrite bool_decide_eq_true. split.
  - intros (b & <- & [[ns x] Hb]%(elem_of_synced w b Hsync) & Hns & Ho). exists b. split; [|done].
    injection (Hkeyed _ _ Hb) as -> ->. by rewrite <- (Hone _ _ _ Hb Hns Ho).
  - intros (b & Hb & Ho). injection (Hkeyed _ _ Hb) as He1 He2. exists b. split; [done|]. split; [apply (elem_of_synced w b Hsync); by eexists|]. by rewrite <- He1.
Qed.

(** The binding that is made for a template. *)
Definition plane_binding (binding : RTB) (subject : Subject) (t : RoleTemplate) : Binding :=
  let meta := rtb_meta binding in
  mkBinding (rtb_Namespace meta) (plane_name meta (rt_Name t)) 0 ∅ ∅ [owner_ref (rtb_TypeMeta binding) (rtb_Name meta) (rtb_UID meta)] [subject]
    (mkRoleRef "Role" (rt_Name t)).

Lemma plane_serves binding subject t : serves (rtb_meta binding) subject (rt_Name t) (new_binding (plane_binding binding subject t)).
Proof. split; [|done]. unfold owned. simpl. left. Qed.

Lemma grant_run name resources subject binding w w' :
  keyed templateCache -> grantManagementPlanePrivileges name resources subject binding w = (w', Ret tt) ->
  exists rt desired w1, templateCache !! name = Some rt /\ still w w1
  /\ (forall x b, desired !! x = Some b <-> exists t, rtc (inherits templateCache) rt t /\ speaks_of w resources t
        /\ x = plane_name (rtb_meta binding) (rt_Name t) /\ b = plane_binding binding subject t)
  /\ reconcileDesiredMGMTPlaneRoleBindings (by_name (rbIndexer_ByIndex rbByOwner (rtb_UID (rtb_meta binding)))) desired (rtb_Namespace (rtb_meta binding)) w1 = (w', Ret tt).
Proof.
  intros Hk (roles & w0 & Hg & Hrun)%bind_Ret. unfold lift in Hg. injection Hg as <- Hg. apply gatherAndDedupeRoles_closure in Hg as (rt & Hrt & Hreach); [|done].
  apply bind_Ret in Hrun as (desired & w1 & Hgr & Hrun). apply grant_roles_spec in Hgr as [Hst Hdes].
  2: { intros k1 k2 r1 r2 (t1 & H1 & _ & ->)%Hreach (t2 & H2 & _ & ->)%Hreach. simpl. rewrite !lower_template_name. intros He. apply app_inj_l in He. injection He as He.
       assert (templateCache !! rt_Name rt = Some rt) as Hc by (by rewrite (Hk _ _ Hrt)).
       apply (rtc_cached _ Hk rt _ Hc) in H1, H2. congruence. }
  exists rt, desired, w1. split; [done|]. split; [done|]. split; [|done]. intros x b. rewrite Hdes. unfold plane_binding, plane_name. split.
  - intros (k & role & (t & Ht & _ & ->)%Hreach & Hs%granting_speaks & -> & ->). exists t. simpl. by rewrite lower_template_name.
  - intros (t & Ht & Hs%granting_speaks & -> & ->). exists (rt_Name t), (lower_template t). rewrite lower_template_name. split; [apply Hreach; by exists t|done].
Qed.

(** C29: When the objects of its namespace were opened successfully for a binding of role templates, with up-to-date caches, while
    the namespace is not terminating and the binding owns nothing in other namespaces: for each template that the named one
    includes, directly or not, and that says something of those objects, there is a binding under the name for it.  It binds the
    subject to the role of the template, and is owned, when nothing had been stored under that name; what had been stored there
    stays as it is, since only names are compared.  The binding of role templates owns no others; and what it does not own
    stays, in this namespace or not. *)
Theorem management_plane_exact name resources subject binding n w w' :
  let meta := rtb_meta binding in
  keyed templateCache -> bindings_synced w -> stored_keyed w -> honest_faults w -> rtb_Namespace meta <> "" ->
  nsLister_Get (rtb_Namespace meta) = Ret n -> n_Phase n <> "Terminating" ->
  (forall ns x b, rw_bindings w !! (ns, x) = Some b -> ns <> "" -> owned meta b -> ns = rtb_Namespace meta) ->
  grantManagementPlanePrivileges name resources subject binding w = (w', Ret tt) ->
  exists rt, templateCache !! name = Some rt
  /\ (forall t, rtc (inherits templateCache) rt t -> speaks_of w resources t ->
        let key := (rtb_Namespace meta, plane_name meta (rt_Name t)) in
        exists b, rw_bindings w' !! key = Some b
          /\ match rw_bindings w !! key with Some before => b = before | None => serves meta subject (rt_Name t) b end)
  /\ (forall ns x b, rw_bindings w' !! (ns, x) = Some b -> ns <> "" -> owned meta b ->
        exists t, rtc (inherits templateCache) rt t /\ speaks_of w resources t
          /\ ns = rtb_Namespace meta /\ x = plane_name meta (rt_Name t)
          /\ (rw_bindings w !! (ns, x) = Some b \/ serves meta subject (rt_Name t) b))
  /\ (forall ns x b, ns = "" \/ ~ owned meta b -> rw_bindings w' !! (ns, x) = Some b <-> rw_bindings w !! (ns, x) = Some b).
Proof.
  intros meta Hk Hsync Hkeyed Hho Hne Hns Hph Hone (rt & desired & w1 & Hrt & Hst & Hdes & Hrun)%grant_run; [|done].
  exists rt. split; [done|]. fold meta in Hdes, Hrun. pose proof (still_honest _ _ Hst Hho) as Hho1. destruct Hst as [[Hb1 _] _].
  apply (reconcileDesired_spec _ _ _ n) in Hrun as (R1 & R2 & R3); [|done..|by intros x b (t & _ & _ & -> & ->)%Hdes].
  assert (forall x, x ∈ map b_Name (rbIndexer_ByIndex rbByOwner (rtb_UID meta)) <-> exists b, rw_bindings w !! (rtb_Namespace meta, x) = Some b /\ owned meta b)
    as Hcur by (intros x; by apply elem_of_owned_names).
  rewrite Hb1 in R2, R3. split; [|split].
  - intros t Ht Hs. cbv zeta. set (x := plane_name meta (rt_Name t)).
    assert (desired !! x = Some (plane_binding binding subject t)) as Hx by (apply Hdes; by exists t).
    destruct (rw_bindings w !! (rtb_Namespace meta, x)) as [c|] eqn:Hc.
    + exists c. split; [|done]. apply R2; [done|]. intros (y & _ & Hnone & [= <-]). congruence.
    + assert (is_Some (rw_bindings w' !! (rtb_Namespace meta, x))) as [b Hb].
      { eapply R1; [done|]. intros (b & Hb & _)%Hcur. congruence. }
      exists b. split; [done|]. apply R3 in Hb as [[Hb _]|(y & d & Hd & [= <-] & ->)]; [congruence|].
      rewrite Hx in Hd. injection Hd as <-. apply plane_serves.
  - intros ns x b [[Hb Hun]|(y & d & Hd & [= -> ->] & ->)]%R3 Hnz Ho.
    + pose proof (Hone _ _ _ Hb Hnz Ho) as ->. destruct (desired !! x) as [d|] eqn:Hx.
      * apply Hdes in Hx as (t & Ht & Hs & -> & ->). exists t. repeat (split; [done|]). by left.
      * destruct Hun. exists x. split; [apply Hcur; by exists b|done].
    + apply Hdes in Hd as (t & Ht & Hs & -> & ->). exists t. repeat (split; [done|]). right. apply plane_serves.
  - intros ns x b Hor. split.
    + intros [[? _]|(y & d & (t & _ & _ & _ & ->)%Hdes & [= -> ->] & ->)]%R3; [done|]. destruct Hor as [?|Hno]; [done|]. destruct Hno. apply plane_serves.
    + intros Hb. apply R2; [done|]. intros (y & (c & Hc & Ho)%Hcur & _ & [= -> ->]). destruct Hor as [?|Hno]; [done|]. rewrite Hb in Hc. injection Hc as <-. done.
Qed.
End plane.

(** ** Examples *)

#[local] Existing Instance demoExternal.

(** A team is a member of the cluster through two bindings, and of another one alone; for the first binding there are also bindings
    in the namespace of a project and applied ones. *)
Definition a_member (name : string) (owners : list string) : Binding :=
  mkBinding "" name 1 (list_to_map (map (fun o => (o, MembershipBindingOwner)) owners)) ∅ [] [demo_subject] (mkRoleRef "ClusterRole" "c-xyz-clustermember").
Definition in_space (ns name : string) (labels : gmap string string) : Binding := mkBinding ns name 1 labels ∅ [] [demo_subject] (mkRoleRef "Role" "viewer").
Definition removal_bindings : list Binding :=
  [a_member "crb-shared" ["c-xyz_crtb-1"; "c-xyz_crtb-2"]; a_member "crb-own" ["c-xyz_crtb-1"];
   in_space "p-1" "crtb-1-viewer" {[ "c-xyz_crtb-1" := CrtbInProjectBindingOwner ]}; in_space "fleet" "applied" {[ "owner" := "crtb-1" ]};
   in_space "fleet" "foreign" ∅].
Definition removal_caches : RbacCaches := {|
  clusterName := "c-xyz"; templateCache := demo_roles; bindingCache := removal_bindings; roleCache := ∅;
  projectCache := [mkAProject "c-xyz" "p-1" "uid-p" 1 ∅ ∅ false]; crtbCache := []; prtbCache := []; namespaceCache := [];
  serviceAccountCacheAt _ := ∅; userCache := ∅; userAttributeCache := ∅
|}.
Definition store_of (l : list Binding) : gmap (string * string) Binding := list_to_map (map (fun b => ((b_Namespace b, b_Name b), b)) l).
Definition removal_world : RWorld := set_rw_bindings (store_of removal_bindings) (emptyRWorld (demoWorld [])).
Definition demo_selector (_ : string) (_ : RTB) : res (gmap string string) := Ret {[ "owner" := "crtb-1" ]}.
Definition demo_removal : RWorld * res unit := mgmt_crtb_Remove (R := removal_caches) demo_selector demo_crtb removal_world.

Lemma store_of_synced (R : RbacCaches) w l : rw_bindings w = store_of l -> bindingCache = l -> NoDup (map (fun b => (b_Namespace b, b_Name b)) l) -> bindings_synced w.
Proof.
  intros Hw Hc Hnd. unfold bindings_synced, store_of in *. rewrite Hw, Hc, map_to_list_to_map.
  - rewrite map_map. simpl. by rewrite map_id.
  - by rewrite <- list_fmap_compose.
Qed.
Lemma store_of_keyed w l : rw_bindings w = store_of l -> stored_keyed w.
Proof. intros Hw key b. rewrite Hw. intros (c & Hc & _)%elem_of_list_to_map_2%list_elem_of_In%in_map_iff. by simplify_eq/=. Qed.
Lemma no_faults w : w_faults (rw_base w) = [] -> honest_faults w.
Proof. intros Hf. unfold honest_faults. rewrite Hf. by intros e ?%elem_of_nil. Qed.

Lemma crtb_removal_exact_witness :
  snd demo_removal = Ret tt
  /\ rw_bindings (fst demo_removal) !! ("p-1", "crtb-1-viewer") = None
  /\ rw_bindings (fst demo_removal) !! ("fleet", "foreign") = Some (in_space "fleet" "foreign" ∅)
  /\ withdrawn "c-xyz_crtb-1" "" (a_member "crb-shared" ["c-xyz_crtb-1"; "c-xyz_crtb-2"]) (rw_bindings (fst demo_removal) !! ("", "crb-shared")).
Proof.
  assert (snd demo_removal = Ret tt) as Hr by (vm_compute; reflexivity).
  assert (rw_bindings removal_world !! ("p-1", "crtb-1-viewer") = Some (in_space "p-1" "crtb-1-viewer" {[ "c-xyz_crtb-1" := CrtbInProjectBindingOwner ]})) as L1 by (vm_compute; reflexivity).
  assert (rw_bindings removal_world !! ("fleet", "foreign") = Some (in_space "fleet" "foreign" ∅)) as L2 by (vm_compute; reflexivity).
  assert (rw_bindings removal_world !! ("", "crb-shared") = Some (a_member "crb-shared" ["c-xyz_crtb-1"; "c-xyz_crtb-2"])) as L3 by (vm_compute; reflexivity).
  assert (b_Labels (in_space "fleet" "foreign" ∅) !! GetRTBLabel (crtb_Meta demo_crtb) = None) as N1 by (vm_compute; reflexivity).
  assert (selects {[ "owner" := "crtb-1" ]} (b_Labels (in_space "fleet" "foreign" ∅)) = false) as N2 by (vm_compute; reflexivity).
  destruct (crtb_removal_exact (R := removal_caches) demo_selector {[ "owner" := "crtb-1" ]} demo_crtb removal_world (fst demo_removal)) as (H1 & H2 & _).
  - apply (store_of_synced _ _ removal_bindings); [reflexivity..|]. apply (bool_decide_eq_true_1 _). vm_compute. reflexivity.
  - by apply (store_of_keyed _ removal_bindings).
  - apply no_faults. vm_compute. reflexivity.
  - intros p Hp%list_elem_of_singleton. by rewrite Hp.
  - reflexivity.
  - rewrite <- Hr. apply surjective_pairing.
  - split; [exact Hr|]. split; [|split].
    + refine (proj1 (H2 "p-1" "crtb-1-viewer" (in_space "p-1" "crtb-1-viewer" {[ "c-xyz_crtb-1" := CrtbInProjectBindingOwner ]}) _ L1) _); [discriminate|].
      left. split; [reflexivity|]. exists (mkAProject "c-xyz" "p-1" "uid-p" 1 ∅ ∅ false). split; [left|split; reflexivity].
    + refine (proj2 (H2 "fleet" "foreign" (in_space "fleet" "foreign" ∅) _ L2) _ _); [discriminate|intros [He _]; rewrite N1 in He; discriminate He|].
      intros [_ He]. rewrite N2 in He. discriminate He.
    + exact (H1 _ _ L3).
Defined.

(** A template that includes two others, one of which says nothing of the objects of a cluster; of the bindings of its binding one
    is there already, one is of a template that is no longer included. *)
Definition plane_templates : gmap string RoleTemplate := list_to_map (map (fun t => (rt_Name t, t))
  [mkRoleTemplate "editor" false false false false "cluster" [mkPolicyRule ["get"; "update"] ["management.cattle.io"] ["nodepools"] None None] ["nodes"; "pods"];
   mkRoleTemplate "nodes" false false false false "cluster" [mkPolicyRule ["get"] ["*"] ["nodes"] None None] [];
   mkRoleTemplate "pods" false false false false "cluster" [mkPolicyRule ["get"] [""] ["pods"] None None] []]).
Definition made_for (role : string) : Binding :=
  mkBinding "c-xyz" ("crtb-1-" +:+ role) 1 ∅ ∅ [mkOwnerReference "v3" "ClusterRoleTemplateBinding" "crtb-1" "77" false] [demo_subject] (mkRoleRef "Role" role).
Definition plane_store : list Binding := [made_for "nodes"; made_for "removed"; in_space "c-xyz" "foreign" ∅].
Definition plane_caches : RbacCaches := {|
  clusterName := "c-xyz"; templateCache := plane_templates; bindingCache := plane_store; roleCache := ∅; projectCache := []; crtbCache := []; prtbCache := [];
  namespaceCache := [mkNS "c-xyz" 1 ∅ ∅ false "Active"]; serviceAccountCacheAt _ := ∅; userCache := ∅; userAttributeCache := ∅
|}.
Definition plane_clusters : MgmtCaches := {|
  clusterCache := {[ "c-xyz" := mkMCluster "c-xyz" "uid-c" ]}; cluster_TypeMeta := ("v3", "Cluster"); project_TypeMeta := ("v3", "Project");
  rtb_TypeMeta _ := ("v3", "ClusterRoleTemplateBinding")
|}.
Definition plane_world : RWorld := set_rw_bindings (store_of plane_store) (emptyRWorld (demoWorld [])).
Definition plane_run : RWorld * res unit :=
  grantManagementPlanePrivileges (R := plane_caches) (G := plane_clusters) "editor" clusterManagmentPlaneResources demo_subject (aCRTB demo_crtb) plane_world.

Example plane_run_bindings : snd plane_run = Ret tt
  /\ map (fun '(key, b) => (snd key, ref_Name (b_RoleRef b))) (map_to_list (rw_bindings (fst plane_run)))
     ≡ₚ [("crtb-1-nodes", "nodes"); ("crtb-1-editor", "editor"); ("foreign", "viewer")].
Proof. split; [vm_compute; reflexivity|]. apply (bool_decide_eq_true_1 _). vm_compute. reflexivity. Qed.

Lemma plane_keyed : keyed plane_templates.
Proof.
  intros name rt (t & [= <- <-] & _)%elem_of_list_to_map_2%list_elem_of_In%in_map_iff. reflexivity.
Qed.

Lemma plane_stored key b : rw_bindings plane_world !! key = Some b -> b ∈ plane_store /\ key = (b_Namespace b, b_Name b).
Proof. intros (c & [= <- <-] & ?)%elem_of_list_to_map_2%list_elem_of_In%in_map_iff. split; [by apply list_elem_of_In|reflexivity]. Qed.

Lemma management_plane_exact_witness :
  snd plane_run = Ret tt
  /\ exists rt, plane_templates !! "editor" = Some rt
  /\ forall ns x b, rw_bindings (fst plane_run) !! (ns, x) = Some b -> ns <> "" -> owned demo_meta b ->
       exists t, rtc (inherits plane_templates) rt t /\ speaks_of plane_world clusterManagmentPlaneResources t
         /\ ns = "c-xyz" /\ x = plane_name demo_meta (rt_Name t)
         /\ (rw_bindings plane_world !! (ns, x) = Some b \/ serves demo_meta demo_subject (rt_Name t) b).
Proof.
  assert (snd plane_run = Ret tt) as Hr by (vm_compute; reflexivity). split; [exact Hr|].
  destruct (management_plane_exact (R := plane_caches) (G := plane_clusters) "editor" clusterManagmentPlaneResources demo_subject (aCRTB demo_crtb)
              (mkNS "c-xyz" 1 ∅ ∅ false "Active") plane_world (fst plane_run)) as (rt & Hrt & _ & H2 & _).
  - apply plane_keyed.
  - apply (store_of_synced plane_caches _ plane_store); [reflexivity..|]. apply (bool_decide_eq_true_1 _). vm_compute. reflexivity.
  - apply (store_of_keyed _ plane_store). reflexivity.
  - apply no_faults. vm_compute. reflexivity.
  - discriminate.
  - reflexivity.
  - discriminate.
  - clear. intros ns x b [Hb Hk]%plane_stored _ _. injection Hk as -> _. unfold plane_store in Hb.
    repeat (apply elem_of_cons in Hb as [->|Hb]; [reflexivity|]). by apply elem_of_nil in Hb.
  - rewrite <- Hr. apply surjective_pairing.
  - exists rt. split; [exact Hrt|exact H2].
Defined.

(** The search of the templates has no limit, other than the one of the owner rules, and that stops at the first rule to own a
    cluster.  Templates that include each other are refused by the second and take down the first. *)
Definition owner_cycle : gmap string RoleTemplate := list_to_map (map (fun t => (rt_Name t, t))
  [mkRoleTemplate "a" false false false false "cluster" [mkPolicyRule ["own"] ["management.cattle.io"] ["clusters"] None None] ["b"];
   mkRoleTemplate "b" false false false false "cluster" [] ["a"]]).
Example owner_cycle_not_refused :
  checkReferencedRoles owner_cycle "a" clusterContext = Ret true /\ gatherAndDedupeRoles owner_cycle "a" = Panic.
Proof. split; vm_compute; reflexivity. Qed.

(** A membership of one subject, which every membership has, is not found among those of the binding; one without subjects, which
    only another program makes, ends the controller. *)
Example membership_not_matched :
  matching_binding (rbRoleSubjectKey "c-xyz-clustermember" demo_subject) [a_member "crb-own" ["c-xyz_crtb-1"]] None = Ret None
  /\ matching_binding "key" [mkBinding "" "empty" 1 ∅ ∅ [] [] (mkRoleRef "ClusterRole" "x")] None = Panic.
Proof. split; reflexivity. Qed.

(** A verb that the template no longer has stays in the role of the namespace: the comparison looks up the group of every verb of the
    role among the wanted ones, and a verb that is not wanted has none there. *)
Definition nodes_rule (verbs : list string) : PolicyRule := mkPolicyRule verbs ["management.cattle.io"] ["nodes"] None None.
Example withdrawn_verb_stays :
  update_rules [nodes_rule ["delete"; "get"]] [("nodes", {[ "get" := "management.cattle.io" ]})] [nodes_rule ["delete"; "get"]] false
  = Ret ([nodes_rule ["delete"; "get"]], false).
Proof. vm_compute. reflexivity. Qed.
